(* ===== verification/_CoqProject ===== *)
-Q . S2P
Prelude.v
PyDecimal.v
DecArith.v
PyFormat.v
PyTime.v
PyFloat.v
PyValue.v
StateMachine.v
Sha256.v
PyJson.v
PyCompare.v
PyText.v
PyRepr.v
Uuid.v
FloatInt.v
HashChain.v
Intent.v
Config.v
HardCaps.v
Firewall.v
LayeredPolicy.v
Manifest.v
SandboxEnforcer.v
ArtifactStore.v
RiskChecker.v
Journal.v
CommandJournal.v
Engine.v
EngineProps.v
EngineJournal.v
KillSwitch.v
KillSwitchProps.v
KillEvidence.v
DegradedMode.v
FixProtocol.v
FixSession.v
FixFraming.v
FixSessionProps.v
Allocation.v
Approval.v
ApprovalProps.v
AutoApprove.v
AutoApproveProps.v
LiveAuth.v
Reconciler.v
Resilience.v
Ledger.v
LedgerProps.v
Fills.v
FillsProps.v
Surveillance.v
Blotter.v
Books.v
ChildExecutor.v
ChildExecutorProps.v
Routing.v
SmartRouter.v
BrokerProtocol.v
SimBroker.v
SimBrokerProps.v
KillExecutor.v
Daemon.v
CloudCommands.v
CloudCommandsProps.v
RunController.v
RunSandbox.v
AgentClient.v
AgentClientProps.v
LiveStack.v
Lob.v
LobProps.v
Matching.v
MatchingProps.v
PriceTime.v
QueueTracker.v
OrderManager.v
OrderManagerProps.v
