(* ===== verification/Prelude.v ===== *)
(** * The local execution agent: a verification development

    The repository is a quantitative research and trading platform.  Its trust
    boundary is the local agent: strategies and the cloud propose, the agent
    decides what reaches a broker.  This development models the decision path of
    the agent, [src/packages/agent] with the contracts of
    [src/packages/shared/contracts], its daemon, and the life cycles of
    [src/ccea/models/state_machines.py].  Apart from it stands the market the
    platform simulates strategies on: the limit order book, the matching engine and
    the order manager of [src/lob].

    ** The parts and how they interact

    An [OrderIntent] enters [LiveExecutionEngine.execute].  It is submitted as an
    [Order] only after, in this order, the origin check, the policy firewall (the
    local policy intersected with the cloud's risk configuration), the hard cap
    on order size, the pre-trade risk checker and the price collar; after the
    journal has been asked whether the order is a duplicate; and after a pending
    entry was written.  The journal records every change in a hash chain, from
    which the engine recovers its sequence number at start-up.  The kill switch
    and the degraded mode manager watch losses, errors, latency, data and
    connections and decide whether trading may go on; the state machines give
    the life cycle of deployments and runs.  Orders come from a run of the
    controller ([RunController]) or from the batches of a strategy ([AgentClient],
    [LiveStack]), are routed and sliced ([Routing], [SmartRouter],
    [ChildExecutor]) and end at a broker ([BrokerProtocol], [SimBroker]).  The
    daemon ([Daemon], [CloudCommands]) executes what the cloud asks for after a
    local approval ([Approval], [AutoApprove]), and confines artifacts
    ([ArtifactStore], [SandboxEnforcer], [LayeredPolicy]).

    ** The files

    Foundations:
    - [Prelude] (this file): results of fallible calls ([pyres]), Python
      dictionaries as association lists in insertion order ([dget], [dset]),
      bounded lists, SQL ordering and limit, counting lemmas, tactics, hints.
    - [PyDecimal], [DecArith]: [decimal.Decimal] with the default context
      (28 digits, half even): add, subtract, multiply, divide, compare, minimum,
      text and back.  [dval] is the rational value of a decimal;
      [DecArith] relates each rounded operation to exact arithmetic.
    - [PyFormat]: [isoformat], the calendar and fixed-point formats; [PyTime]:
      [fromisoformat] of what [isoformat] writes; [PyFloat]:
      binary64 floats (the Standard Library's [SpecFloat]) and their [repr];
      [FloatInt]: floats that hold whole numbers are exact, and the order of floats;
      [PyText]: [find], [rfind], [split], [partition], [strip] and [int] on strings;
      [PyRepr]: [str] and [repr] of values, [float] of a text; [PyCompare]: equality,
      order and sets of values, the order of a set a class [SetOrder]; [Uuid]: reading
      and writing of [uuid.UUID].
    - [PyValue], [PyJson]: values a JSON dictionary holds, reading them back as
      the constructors of the code do, and [json.dumps] with sorted keys.
    - [Sha256]: executable SHA-256 and HMAC, for [hashlib] and [hmac].

    Components (file: source):
    - [StateMachine]: [ccea/models/state_machines.py] and the state enumerations
      of [ccea/models/protocol.py].  [machine] is the object's fields; [trigger],
      [force_state] its steps; [manager] and its operations
      [StateMachineManager].
    - [HashChain]: [packages/agent/audit/hash_chain.py].
    - [Intent], [Config]: [packages/shared/contracts/intent.py], [config.py].
    - [HardCaps], [Firewall], [RiskChecker]: [packages/agent/policy/hard_caps.py],
      [firewall.py], [risk_checker.py]; [LayeredPolicy]: [layered_policy.py].
    - [Journal], [CommandJournal]: [packages/agent/reconciliation/journal.py].
    - [Engine]: [packages/agent/execution/engine.py].  [Engine] is the object,
      [World] the engine with its broker and the orders sent to it.
    - [KillSwitch], [KillEvidence]: [packages/agent/daemon/kill_switch.py], the switch
      and its evidence, history file and export; [DegradedMode]: [degraded_mode.py];
      [KillExecutor]: [kill_switch_executor.py], cancelling and flattening on a halt.
    - [Daemon]: the life cycle of [AgentDaemon] in [packages/agent/daemon/agentd.py];
      [CloudCommands]: its heartbeat and the commands of the cloud, with
      [packages/agent/cloud/types.py]; the cloud client, the checks before a start and
      the process of the sandbox answer through parameters.  [RunController]: the
      controller of runs in the same file, [RunSandbox] what its runs are confined to.
    - [Manifest], [ArtifactStore]: [packages/agent/daemon/artifact_manager.py];
      [SandboxEnforcer]: [sandbox_enforcer.py] beside it.
    - [FixProtocol], [FixSession]: [packages/agent/execution/fix_protocol.py],
      [fix_session.py]; the transport is a parameter, [feed] is one round of the
      reader thread and [heartbeat_tick] one of the heartbeat thread.
    - [Allocation]: [packages/agent/execution/allocation.py].
    - [Approval]: [packages/agent/approval/manager.py], [persistence.py] and
      [evidence.py]; [LiveAuth]: [live_trading_authorization.py] beside them;
      [AutoApprove]: [auto_approve.py], regular expressions a class [Regex].
    - [Reconciler]: [packages/agent/reconciliation/reconciler.py], of positions
      and of orders.
    - [Resilience]: [packages/agent/execution/resilience.py], retries, circuit
      breaker and reconciliation at start-up.
    - [Ledger]: [packages/agent/accounting/pnl_ledger.py], over a class [Money]
      of the arithmetic used: decimals of a context, and exact rationals.
    - [Fills]: [packages/agent/execution/fill_handler.py], the sources of fills and
      the handler between the engine and the ledger.
    - [ChildExecutor]: [packages/agent/execution/child_executor.py], slicing of
      parent orders on a clock; child objects live in one heap.
    - [Routing], [SmartRouter]: [packages/agent/execution/router.py] and
      [smart_order_router.py]; [AgentClient]: [agent_client.py] and the batches of
      [service_xs_live.py]; [LiveStack]: [live_factory.py], the wiring of engine,
      journal, fills and connector, hashes of strings a class [PyHash].
    - [BrokerProtocol]: [packages/agent/broker/protocol.py], a record of operations;
      [SimBroker]: [broker/adapters/sim.py].
    - [Blotter], [Books]: [packages/agent/accounting/blotter.py] and
      [books.py], trades, cash and the books kept from them.
    - [Surveillance]: [services/algo_integration/market_abuse.py].
    - [Lob]: [lob/data_structures.py], orders, price levels and the two-sided book
      over a class [SortedDict] of the sorted dictionaries of [sortedcontainers];
      orders live in one heap.  [Matching]: [lob/matching_engine.py].
      [QueueTracker]: [lob/queue_tracker.py], the exponential function a parameter;
      [OrderManager]: [lob/order_manager.py], over book, engine and tracker.

    [EngineProps], [EngineJournal], [KillSwitchProps], [FixFraming],
    [FixSessionProps], [ApprovalProps], [AutoApproveProps], [LedgerProps],
    [FillsProps], [ChildExecutorProps], [AgentClientProps], [SimBrokerProps],
    [CloudCommandsProps], [LobProps], [MatchingProps] and [OrderManagerProps] hold
    the theorems of the components of that name, [PriceTime] those of the book and the
    engine together; the other components keep theirs in the same file, after the
    definitions.

    ** How the code is modelled

    A mutable object is a record and a method a function that returns the new
    record; a method that can raise returns [option] or [pyres].  Objects that
    the code shares are kept in one place: the current halt of the kill switch
    is the last element of its history, an order lives in one map and the map by
    client id holds keys into it, an active degraded-mode event is an element
    of the event list.  SQLite tables are lists of rows in insertion order.  The
    clock, fresh UUIDs and the answers of callbacks are arguments of the
    operation that reads them.  Times are microseconds since the epoch.  The
    broker is a parameter ([Broker]): any function of its own state, which may
    refuse, raise or change its mind; nothing is assumed of it.  A set is a
    [gset] or a list without duplicates where only membership matters.

    ** What the theorems show

    - Submission: [submitted_at_most_once] (no client order id reaches the broker
      twice, across restarts), [broker_called_after_gates_and_log] (every gate
      passed, the pending entry already written), [sequence_never_reused];
      [resent_batch_trades_once], [rebalance_accounts_for_every_symbol] and
      [live_stack_trades_once] for the batches of a strategy;
      [controller_trades_only_in_runs] for the controller of runs.
    - Gates: [check_intent_correct] and [risk_check_correct] give the exact
      condition of each verdict; [cloud_never_raises_limits] what follows for limits;
      [local_restrictions_stand] (no layer loosens what the local user set) and
      [sandbox_denies_what_either_denies] (nor does an artifact's manifest).
    - Artifacts: [active_artifact_verified] (the active artifact had the expected
      digest and is alone, across restarts), [run_sandbox_confined],
      [manifest_reread].
    - Routing: [split_conserves_notional], [routed_order_report].
    - Records: [journal_audit_consistent] on the journals;
      [verify_chain_correct], [chain_tamper_evident] on the chain.  Tamper evidence is
      stated without an assumption on the digest: two chains with one head agree, or two
      different texts among those that were hashed for the chains themselves have the same
      digest; [forgery_without_collision] shows that such a pair is not always there.
    - Halting: [halt_holds_until_acknowledged] for the kill switch,
      [halt_keeps_daemon_down] for the daemon around it, [halt_history_survives] for
      its file; [halt_clears_paper_broker] and [flatten_needs_local_policy] for what
      a halt does at the broker; [degraded_mode_refines] for the degraded modes.
    - The cloud: [cloud_command_executed_once], whatever the cloud sends again; the
      heartbeat thread itself executes nothing ([heartbeat_executes_nothing]).
    - The paper broker: [sim_account_follows_executions] (restored accounts included),
      [sim_resubmission_changes_nothing].
    - Life cycles: [audit_trail_sound] (every move is recorded, linked to the one before,
      and a repeated trigger changes nothing) and [running_was_approved] (an approval or
      an administrator's override stands behind every running deployment) are invariants
      of any use of the machines, [revoked_never_operational] of their runs;
      [deployment_trigger_refines] and [run_trigger_refines] relate [trigger] to the
      tables of the file as step relations.  The design document lists other states and
      moves; the tables are the code's own ([pending_cannot_be_revoked]).
    - FIX: [encoded_message_parses] and [damaged_character_detected] on messages;
      [chunks_do_not_matter] (the session does not depend on how the transport
      cuts the stream) and [delivered_once_in_order] on sessions, across restarts.
    - After the trade: [block_allocated_exactly], [settlement_date_correct].
    - Consent: [approved_only_locally] and [decided_once] on approval requests;
      [live_trading_needs_mandate] and [mandate_budget_kept] on the mandates
      under which a live rebalance may be traded; [approval_needs_local_rule],
      [daily_limit_kept] and [rule_survives_the_file] on the automatic rules.
    - Configurations: [intent_roundtrip] and [strategy_config_roundtrip].
    - Broker trouble: [circuit_recovers], [circuit_spares_broker] and
      [closed_circuit_is_plain_retry] on retries and the circuit breaker;
      [startup_reconcile_correct], [reconcile_orders_correct] and
      [reconcile_correct] on what is compared with the broker.
    - Executions: [ledger_books_executions] (the ledger has booked exactly the
      cumulative quantity the handler holds), [event_moves_order],
      [batches_do_not_matter]; [never_overfilled] and [slices_add_up] on sliced
      parent orders.
    - Accounting: [accounting_identity] (equity is initial cash plus profit less
      fees, in exact arithmetic), [restart_recovers], and [books_agree] between
      the blotter, the cash ledger and the P&L ledger.
    - Surveillance: [spoofing_alert_correct].
    - The order book, for whole quantities: [market_order_fills_in_turn] (a market
      order takes from the front of the queue that [resting] lists, the
      specification [take_lots]), [engine_agrees_with_book],
      [limit_order_keeps_book_uncrossed], [order_takes_its_turn],
      [cancel_undoes_add], [iceberg_fill_well_formed];
      [manager_accounts_for_every_order] over book, engine and tracker.

    Theorems without a claim number in their comment are lemmas, or behaviours
    of the code that differ from its documentation or intent (for example
    [restart_releases_halt], [severity_order_by_name], [rate_limit_locks_out],
    [notional_bypasses_hard_cap]), each shown on a concrete run.

    ** Bounds and fuel

    Invariants quantify over lists of operations and use no fuel.  Fuel appears
    in nine places: the digits of a number ([digits_go], one more than its binary
    logarithm, shown enough by [log2_fuel] and [undigits_digits_go]);
    cutting a list into pieces ([Sha256.chunks], the length of the list); taking
    messages out of the input buffer ([extract_and_handle], the length of the
    buffer, enough because [next_frame] always shortens it); the settlement
    loop (four rounds for a business day, shown enough by
    [settlement_date_correct]); the weekdays of the blotter's settlement (three rounds
    per weekday, shown enough by [add_weekdays_reaches]); and the closing of lots ([close_lots], one more
    round than there are lots, shown enough by [close_lots_done]); the fills of a level
    ([level_fill_loop], one more round than orders, [level_fill_loop_spec]); the split
    over venues ([split_loop], ten more rounds than steps, [split_loop_whole]); and the
    removal of a text in [Uuid] (the length of the text).  Retries take the number of
    attempts that is configured.  The count of
    [strip_zeros] is not fuel but the bound of the loop of [decimal]: zeros are
    removed until the exponent is the ideal one.  Histories keep 1000 elements as
    the code does.

    ** What is not modelled

    Logging, threads and locks (every operation holds the object's lock, so operations
    are steps, and a thread's loop is modelled by one round of it); the upload and
    redaction of telemetry; the end of the daemon's process and a crash in the middle of
    a cloud command; the handlers of upgrades and configurations past their first line,
    which raises.  ISO times in forms other than [isoformat]'s, and UUID texts that
    [int] reads with signs or underscores, are not parsed; YAML and JSON manifest files
    and archives are read outside.  User callbacks in the order manager, the pandas part
    of [service_xs_live.py] and the summary reports of the blotter (floating point sums)
    are left out.  Outside the agent's decision path: network adapters, keys and vault,
    the cloud services, [src/ccea/agent] and [src/ccea/control_plane] (deprecated shims
    of the packages), the simulators other than [src/lob], training, native
    accelerators, user interfaces and scripts.  The precision of decimals is
    that of the class [DecContext]; its instance is the default context's 28
    digits, and the ledger's own context has 34.  Decimals are finite: NaN and
    infinities are not modelled. *)
From stdpp Require Export base tactics list strings gmap.
From Stdlib Require Export ZArith Lia.

#[export] Set Default Goal Selector "!".

Declare Scope py_scope.
Delimit Scope py_scope with py.
#[global] Open Scope Z_scope.

(** ** Results of fallible Python code *)

(** A call either returns a value or raises an exception. *)
Inductive pyres (E A : Type) : Type :=
  | Ok (a : A)
  | Raise (e : E).
Arguments Ok {E A} a.
Arguments Raise {E A} e.

#[export] Instance pyres_ret {E} : MRet (pyres E) := fun A a => Ok a.
#[export] Instance pyres_bind {E} : MBind (pyres E) := fun A B f m =>
  match m with
  | Ok a => f a
  | Raise e => Raise e
  end.

Definition is_ok {E A} (r : pyres E A) : bool :=
  match r with
  | Ok _ => true
  | Raise _ => false
  end.

(** ** Truthiness *)

(** [bool(s)] of an [Optional[str]]: [None] and the empty string are false. *)
Definition truthy (o : option string) : bool :=
  match o with
  | Some s => negb (bool_decide (s = ""%string))
  | None => false
  end.

(** ** Association lists as Python dictionaries

    A dictionary keeps its keys in insertion order: assigning to a key that is
    present changes its value in place, a new key goes to the end. *)
Section Dict.
Context {K : Type} `{EqDecision K} {V : Type}.

Fixpoint dget (d : list (K * V)) (k : K) : option V :=
  match d with
  | [] => None
  | (k', v) :: r => if decide (k = k') then Some v else dget r k
  end.

Fixpoint dset (d : list (K * V)) (k : K) (v : V) : list (K * V) :=
  match d with
  | [] => [(k, v)]
  | (k', v') :: r =>
      if decide (k = k') then (k', v) :: r else (k', v') :: dset r k v
  end.

Fixpoint ddel (d : list (K * V)) (k : K) : list (K * V) :=
  match d with
  | [] => []
  | (k', v) :: r => if decide (k = k') then ddel r k else (k', v) :: ddel r k
  end.

Definition dmem (d : list (K * V)) (k : K) : bool :=
  match dget d k with
  | Some _ => true
  | None => false
  end.

Lemma dget_dset_eq d k v : dget (dset d k v) k = Some v.
Proof.
  induction d as [|[k' v'] r IH]; simpl.
  - by destruct (decide (k = k)).
  - destruct (decide (k = k')) as [->|Hne]; simpl.
    + by destruct (decide (k' = k')).
    + by destruct (decide (k = k')).
Qed.

Lemma dget_dset_ne d k k' v : k' <> k -> dget (dset d k v) k' = dget d k'.
Proof.
  intros Hne. induction d as [|[k0 v0] r IH]; simpl.
  - by destruct (decide (k' = k)).
  - destruct (decide (k = k0)) as [->|Hk]; simpl.
    + by destruct (decide (k' = k0)).
    + by rewrite IH.
Qed.

Lemma dget_ddel_eq d k : dget (ddel d k) k = None.
Proof.
  induction d as [|[k' v'] r IH]; simpl; [done|].
  destruct (decide (k = k')) as [->|Hne]; simpl; [done|].
  by destruct (decide (k = k')).
Qed.

Lemma dget_ddel_ne d k k' : k' <> k -> dget (ddel d k) k' = dget d k'.
Proof.
  intros Hne. induction d as [|[k0 v0] r IH]; simpl; [done|].
  destruct (decide (k = k0)) as [->|Hk]; simpl.
  - by destruct (decide (k' = k0)).
  - by rewrite IH.
Qed.

Lemma dget_elem d k v : dget d k = Some v -> (k, v) ∈ d.
Proof.
  induction d as [|[k' v'] r IH]; simpl; [done|].
  destruct (decide (k = k')) as [->|Hne]; intros H.
  - simplify_eq. by left.
  - right. by apply IH.
Qed.

Lemma dget_None d k : dget d k = None <-> k ∉ d.*1.
Proof.
  induction d as [|[k' v'] r IH]; simpl.
  - split; [intros _; apply not_elem_of_nil | done].
  - destruct (decide (k = k')) as [->|Hne].
    + split; [done|]. intros Hni. destruct Hni. by left.
    + rewrite IH, not_elem_of_cons. tauto.
Qed.

Lemma dget_is_Some d k : is_Some (dget d k) <-> k ∈ d.*1.
Proof.
  destruct (decide (k ∈ d.*1)) as [Hin|Hni].
  - split; [done|]. intros _. destruct (dget d k) eqn:E; [done|].
    by apply dget_None in E.
  - split; [|done]. rewrite <- dget_None in Hni. rewrite Hni. by intros [? ?].
Qed.

Lemma elem_dget d k v : NoDup d.*1 -> (k, v) ∈ d -> dget d k = Some v.
Proof.
  induction d as [|[k' v'] r IH]; simpl; intros Hnd Hin.
  - by apply not_elem_of_nil in Hin.
  - apply NoDup_cons in Hnd as [Hni Hnd].
    apply elem_of_cons in Hin as [Heq|Hin].
    + simplify_eq. by destruct (decide (k' = k')).
    + destruct (decide (k = k')) as [->|]; [|by apply IH].
      destruct Hni. apply list_elem_of_fmap. by exists (k', v).
Qed.

Lemma dset_fresh d k v : dget d k = None -> dset d k v = d ++ [(k, v)].
Proof.
  induction d as [|[k' v'] r IH]; simpl; [done|].
  destruct (decide (k = k')); [done|]. intros H. by rewrite IH.
Qed.

Lemma dset_keys_present d k v : is_Some (dget d k) -> (dset d k v).*1 = d.*1.
Proof.
  induction d as [|[k' v'] r IH]; simpl; [by intros [? ?]|].
  destruct (decide (k = k')) as [->|]; csimpl; [done|]. intros H. by rewrite IH.
Qed.

Lemma NoDup_dset d k v : NoDup d.*1 -> NoDup (dset d k v).*1.
Proof.
  intros Hnd. destruct (dget d k) as [v0|] eqn:E.
  - rewrite dset_keys_present; [done|by rewrite E].
  - rewrite dset_fresh by done. rewrite fmap_app. apply NoDup_app. split_and!.
    + done.
    + intros x Hx. simpl. rewrite elem_of_cons. apply dget_None in E.
      intros [->|Hx']; [done|by apply not_elem_of_nil in Hx'].
    + apply NoDup_singleton.
Qed.

Lemma ddel_keys d k : (ddel d k).*1 = filter (fun k' => k <> k') d.*1.
Proof.
  induction d as [|[k' v'] r IH]; simpl; [done|]. rewrite filter_cons.
  destruct (decide (k = k')) as [->|Hne].
  - rewrite decide_False by tauto. done.
  - rewrite decide_True by done. csimpl. by rewrite IH.
Qed.

Lemma NoDup_ddel d k : NoDup d.*1 -> NoDup (ddel d k).*1.
Proof. intros Hnd. rewrite ddel_keys. by apply NoDup_filter. Qed.

Lemma elem_ddel d k p : p ∈ ddel d k <-> p ∈ d /\ k <> p.1.
Proof.
  induction d as [|[k' v'] r IH]; simpl.
  - split; [intros H; by apply not_elem_of_nil in H|].
    intros [H _]. by apply not_elem_of_nil in H.
  - destruct (decide (k = k')) as [->|Hne].
    + rewrite IH, elem_of_cons. split; [tauto|].
      intros [[->|?] ?]; simpl in *; tauto.
    + rewrite !elem_of_cons, IH. split; [|tauto].
      intros [->|?]; simpl; tauto.
Qed.

Lemma elem_dset d k v p : p ∈ dset d k v -> p = (k, v) \/ p ∈ d.
Proof.
  induction d as [|[k' v'] r IH]; simpl.
  - intros Hp. apply elem_of_cons in Hp as [->|Hp]; [by left|by apply not_elem_of_nil in Hp].
  - destruct (decide (k = k')) as [->|]; intros Hp; apply elem_of_cons in Hp as [->|Hp].
    + by left.
    + right. by right.
    + right. by left.
    + destruct (IH Hp) as [->|?]; [by left|]. right. by right.
Qed.

(** With distinct keys the other entries keep their key. *)
Lemma elem_dset_key d k v p : NoDup d.*1 -> p ∈ dset d k v -> p = (k, v) \/ (p ∈ d /\ p.1 <> k).
Proof.
  intros Hn Hin. destruct p as [x w]. apply elem_dget in Hin; [|by apply NoDup_dset].
  destruct (decide (x = k)) as [->|Hne].
  - rewrite dget_dset_eq in Hin. left. by injection Hin as ->.
  - rewrite dget_dset_ne in Hin by done. right. split; [by apply dget_elem|done].
Qed.

Lemma elem_keys_dset d k v x : x ∈ (dset d k v).*1 <-> x = k \/ x ∈ d.*1.
Proof.
  rewrite <- !dget_is_Some. destruct (decide (x = k)) as [->|Hne].
  - rewrite dget_dset_eq. split; [by left|by eauto].
  - rewrite dget_dset_ne by done. tauto.
Qed.

Lemma elem_keys_ddel d k x : x ∈ (ddel d k).*1 <-> x ∈ d.*1 /\ x <> k.
Proof.
  rewrite <- !dget_is_Some. destruct (decide (x = k)) as [->|Hne].
  - rewrite dget_ddel_eq. split; [by intros []|tauto].
  - rewrite dget_ddel_ne by done. tauto.
Qed.
End Dict.

Create HintDb pydict.
Create Rewrite HintDb pydict.
#[export] Hint Resolve NoDup_dset NoDup_ddel : pydict.
#[export] Hint Rewrite @dget_dset_eq @dget_ddel_eq : pydict.
#[export] Hint Rewrite @dget_dset_ne @dget_ddel_ne using done : pydict.

(** ** Slices *)

(** [l[i:]]: a negative index counts from the end, and is clamped. *)
Definition py_from {A} (i : Z) (l : list A) : list A :=
  if i <? 0 then drop (Z.to_nat (Z.max 0 (Z.of_nat (length l) + i))) l
  else drop (Z.to_nat i) l.

(** [l[-n:]], written as the code writes it: for [n = 0] this is [l[0:]], the
    whole list. *)
Definition py_last {A} (n : Z) (l : list A) : list A := py_from (- n) l.

Lemma py_last_0 {A} (l : list A) : py_last 0 l = l.
Proof. unfold py_last, py_from. simpl. by rewrite drop_0. Qed.

Lemma py_last_short {A} n (l : list A) :
  Z.of_nat (length l) <= n -> py_last n l = l.
Proof.
  intros H. unfold py_last, py_from.
  destruct (Z.ltb_spec (- n) 0).
  - rewrite Z.max_l by lia. by rewrite drop_0.
  - destruct l; simpl in *; [by rewrite drop_nil | lia].
Qed.

Lemma py_last_pos {A} n (l : list A) :
  0 < n -> py_last n l = drop (length l - Z.to_nat n) l.
Proof.
  intros H. unfold py_last, py_from.
  destruct (Z.ltb_spec (- n) 0); [|lia]. f_equal. lia.
Qed.

Lemma length_py_last {A} n (l : list A) :
  0 < n -> Z.of_nat (length (py_last n l)) <= n.
Proof. intros H. rewrite py_last_pos by done. rewrite length_drop. lia. Qed.

Lemma py_last_suffix {A} n (l : list A) : exists p, l = p ++ py_last n l.
Proof.
  unfold py_last, py_from. destruct (- n <? 0);
    eexists; symmetry; apply take_drop.
Qed.

Lemma py_last_snoc {A} n (l : list A) x :
  0 < n -> exists p, py_last n (l ++ [x]) = p ++ [x].
Proof.
  intros H. rewrite py_last_pos by done. rewrite length_app. simpl.
  exists (drop (length l + 1 - Z.to_nat n) l). rewrite drop_app_le by lia. done.
Qed.

(** The [n]-bounded buffer every history of the code keeps: append, then cut. *)
Definition push_bounded {A} (n : Z) (l : list A) (x : A) : list A :=
  let l' := l ++ [x] in
  if n <? Z.of_nat (length l') then py_last n l' else l'.

Lemma push_bounded_snoc {A} n (l : list A) x :
  0 < n -> exists p, push_bounded n l x = p ++ [x].
Proof.
  intros H. unfold push_bounded. destruct (n <? _).
  - by apply py_last_snoc.
  - by exists l.
Qed.

Lemma push_bounded_length {A} n (l : list A) x :
  0 < n -> Z.of_nat (length (push_bounded n l x)) <= n.
Proof.
  intros H. unfold push_bounded. destruct (Z.ltb_spec n (Z.of_nat (length (l ++ [x])))).
  - by apply length_py_last.
  - done.
Qed.

(** A buffer that is pushed to holds the last elements of what was pushed. *)
Lemma push_py_last {A} n (l : list A) x :
  0 < n -> push_bounded n (py_last n l) x = py_last n (l ++ [x]).
Proof.
  intros H. unfold push_bounded. rewrite !py_last_pos by done. rewrite !length_app, !length_drop. cbn [length].
  destruct (Z.ltb_spec n (Z.of_nat (length l - (length l - Z.to_nat n) + 1))).
  - rewrite !drop_app_le by (rewrite ?length_drop; lia). rewrite drop_drop. f_equal. f_equal. lia.
  - rewrite (drop_app_le l) by lia. f_equal. f_equal. lia.
Qed.

Lemma push_bounded_0 {A} (l : list A) x : push_bounded 0 l x = l ++ [x].
Proof. unfold push_bounded. destruct (0 <? _); [apply py_last_0|done]. Qed.

Lemma push_bounded_suffix {A} n (l : list A) x :
  exists p, l ++ [x] = p ++ push_bounded n l x.
Proof.
  unfold push_bounded. destruct (n <? _).
  - apply py_last_suffix.
  - by exists [].
Qed.

(** ** Time

    A naive UTC [datetime] is its number of microseconds; a [timedelta] is a
    difference of two. *)
Definition sec : Z := 1000000.
Definition minute : Z := 60 * sec.
Definition hour : Z := 60 * minute.
Definition day : Z := 24 * hour.

(** [t.replace(hour=0, minute=0, second=0, microsecond=0)] *)
Definition day_start (t : Z) : Z := t - t mod day.

(** [t.hour] *)
Definition hour_of (t : Z) : Z := (t mod day) / hour.

Lemma day_start_le t : day_start t <= t.
Proof. unfold day_start. pose proof (Z.mod_pos_bound t day ltac:(done)). lia. Qed.

Lemma day_start_mono t t' : t <= t' -> day_start t <= day_start t'.
Proof.
  unfold day_start. intros H.
  rewrite (Z.div_mod t day) at 1 by done. rewrite (Z.div_mod t' day) at 1 by done.
  pose proof (Z.div_le_mono t t' day ltac:(done) H). unfold day, hour, minute, sec in *. nia.
Qed.

Lemma hour_of_range t : 0 <= hour_of t < 24.
Proof.
  unfold hour_of. pose proof (Z.mod_pos_bound t day ltac:(done)).
  unfold day, hour, minute, sec in *. split.
  - apply Z.div_pos; lia.
  - apply Z.div_lt_upper_bound; lia.
Qed.

(** ** Counting *)

Definition cnt {A} (f : A -> bool) (l : list A) : Z := Z.of_nat (length (List.filter f l)).

Lemma cnt_app {A} (f : A -> bool) l l' : cnt f (l ++ l') = cnt f l + cnt f l'.
Proof. unfold cnt. rewrite List.filter_app, length_app. lia. Qed.

Lemma cnt_one {A} (f : A -> bool) x : cnt f [x] = if f x then 1 else 0.
Proof. unfold cnt. simpl. by destruct (f x). Qed.

Lemma cnt_cons {A} (f : A -> bool) x l : cnt f (x :: l) = (if f x then 1 else 0) + cnt f l.
Proof. rewrite <- cnt_one, <- cnt_app. done. Qed.

Lemma cnt_nonneg {A} (f : A -> bool) l : 0 <= cnt f l.
Proof. unfold cnt. lia. Qed.

Lemma cnt_le {A} (f g : A -> bool) l :
  (forall x, x ∈ l -> f x = true -> g x = true) -> cnt f l <= cnt g l.
Proof.
  induction l as [|x l IH]; intros H; [done|]. rewrite !cnt_cons.
  assert (cnt f l <= cnt g l) by (apply IH; intros y Hy; apply H; by right).
  pose proof (H x ltac:(left)) as Hx. destruct (f x); [rewrite Hx by done; lia|].
  destruct (g x); lia.
Qed.

Lemma cnt_eq {A} (f g : A -> bool) l : (forall x, x ∈ l -> f x = g x) -> cnt f l = cnt g l.
Proof.
  intros H. apply Z.le_antisymm; apply cnt_le; intros x Hx; by rewrite (H x Hx).
Qed.

Lemma cnt_0 {A} (f : A -> bool) l : (forall x, x ∈ l -> f x = false) -> cnt f l = 0.
Proof.
  intros H. rewrite (cnt_eq f (fun _ => false)) by done. clear.
  induction l as [|x l IH]; [done|]. by rewrite cnt_cons.
Qed.

Lemma cnt_split {A} (f g h : A -> bool) l :
  (forall x, x ∈ l -> f x = true -> g x = true \/ h x = true) -> cnt f l <= cnt g l + cnt h l.
Proof.
  induction l as [|x l IH]; intros H; [done|]. rewrite !cnt_cons.
  assert (cnt f l <= cnt g l + cnt h l) by (apply IH; intros y Hy; apply H; by right).
  pose proof (H x ltac:(left)) as Hx. destruct (f x), (g x), (h x); lia || (destruct (Hx eq_refl); congruence).
Qed.

(** ** Queries

    [ORDER BY key ASC], stable, and [LIMIT n], where a negative limit is none. *)
Section Query.
Context {A : Type} (key : A -> Z).

Fixpoint insert_by (x : A) (l : list A) : list A :=
  match l with
  | [] => [x]
  | y :: r => if key x <? key y then x :: l else y :: insert_by x r
  end.

Definition order_by (l : list A) : list A := fold_left (fun acc x => insert_by x acc) l [].

Lemma insert_by_perm x l : insert_by x l ≡ₚ x :: l.
Proof.
  induction l as [|y r IH]; simpl; [done|]. destruct (_ <? _); [done|].
  rewrite IH. apply Permutation_swap.
Qed.

Lemma order_by_perm l : order_by l ≡ₚ l.
Proof.
  unfold order_by. cut (forall acc, fold_left (fun acc x => insert_by x acc) l acc ≡ₚ acc ++ l).
  { intros H. by rewrite H. }
  induction l as [|x l IH]; intros acc; simpl; [by rewrite app_nil_r|].
  rewrite IH, insert_by_perm. simpl. by rewrite Permutation_middle.
Qed.

Lemma elem_order_by x l : x ∈ order_by l <-> x ∈ l.
Proof. by rewrite order_by_perm. Qed.
End Query.

Definition sql_limit {A} (n : Z) (l : list A) : list A :=
  if n <? 0 then l else take (Z.to_nat n) l.

(** ** Tactics shared by the components *)

(** Case analysis on the innermost test of the goal or of a hypothesis. *)
Ltac case_test :=
  match goal with
  | |- context [if ?b then _ else _] => destruct b eqn:?
  | H : context [if ?b then _ else _] |- _ => destruct b eqn:?
  | |- context [match ?o with Some _ => _ | None => _ end] => destruct o eqn:?
  | H : context [match ?o with Some _ => _ | None => _ end] |- _ => destruct o eqn:?
  end.

(** Turn boolean connectives of hypotheses into propositions. *)
Ltac bool_to_prop :=
  repeat match goal with
  | H : _ && _ = true |- _ => apply andb_true_iff in H as [? ?]
  | H : _ || _ = false |- _ => apply orb_false_iff in H as [? ?]
  | H : negb _ = true |- _ => apply negb_true_iff in H
  | H : negb _ = false |- _ => apply negb_false_iff in H
  | H : bool_decide _ = true |- _ => apply bool_decide_eq_true in H
  | H : bool_decide _ = false |- _ => apply bool_decide_eq_false in H
  | H : (_ <? _) = true |- _ => apply Z.ltb_lt in H
  | H : (_ <? _) = false |- _ => apply Z.ltb_ge in H
  | H : (_ <=? _) = true |- _ => apply Z.leb_le in H
  | H : (_ <=? _) = false |- _ => apply Z.leb_gt in H
  | H : (_ =? _) = true |- _ => apply Z.eqb_eq in H
  | H : (_ =? _) = false |- _ => apply Z.eqb_neq in H
  end.

(** ** Tables with a key column *)

Lemma existsb_false {A} (f : A -> bool) l : existsb f l = false <-> forall x, x ∈ l -> f x = false.
Proof.
  split.
  - intros He x Hx. destruct (f x) eqn:E; [|done].
    assert (existsb f l = true) by (apply existsb_exists; exists x; by rewrite <- list_elem_of_In).
    congruence.
  - intros Hf. destruct (existsb f l) eqn:E; [|done]. apply existsb_exists in E as (x & Hx & Hfx).
    rewrite <- list_elem_of_In in Hx. by rewrite Hf in Hfx.
Qed.

Lemma existsb_key {A} (g : A -> string) l k :
  existsb (fun x => bool_decide (g x = k)) l = true <-> k ∈ map g l.
Proof.
  rewrite existsb_exists. split.
  - intros (x & Hx & Hk). bool_to_prop. subst k. apply list_elem_of_fmap. exists x.
    by rewrite list_elem_of_In.
  - intros (x & -> & Hx)%list_elem_of_fmap. exists x. rewrite <- list_elem_of_In.
    split; [done|]. by apply bool_decide_eq_true_2.
Qed.

Lemma existsb_key_false {A} (g : A -> string) l k :
  existsb (fun x => bool_decide (g x = k)) l = false <-> k ∉ map g l.
Proof. rewrite <- existsb_key. by destruct (existsb _ _). Qed.

Lemma NoDup_map_snoc {A} (g : A -> string) l x :
  NoDup (map g l) -> g x ∉ map g l -> NoDup (map g (l ++ [x])).
Proof.
  intros Hn Hx. rewrite map_app. cbn. apply NoDup_app. split_and!; [done| |apply NoDup_singleton].
  intros y Hy ->%list_elem_of_singleton. done.
Qed.

Lemma find_unique {A} (g : A -> string) l x :
  NoDup (map g l) -> x ∈ l -> List.find (fun y => bool_decide (g y = g x)) l = Some x.
Proof.
  induction l as [|y l IH]; cbn; intros Hn Hx; [by apply not_elem_of_nil in Hx|].
  apply NoDup_cons in Hn as [Hy Hn]. apply elem_of_cons in Hx as [->|Hx].
  - by rewrite bool_decide_eq_true_2.
  - rewrite bool_decide_eq_false_2; [by apply IH|]. intros Heq. destruct Hy. rewrite Heq.
    apply list_elem_of_fmap. by exists x.
Qed.

Lemma find_key {A} (g : A -> string) l k x :
  List.find (fun y => bool_decide (g y = k)) l = Some x -> x ∈ l /\ g x = k.
Proof.
  intros Hf. apply List.find_some in Hf as [Hin Hk]. bool_to_prop.
  by rewrite list_elem_of_In.
Qed.
