(* ===== verification/PyDecimal.v ===== *)
(** * Finite [decimal.Decimal] values of the default context

    The Agent keeps prices, quantities and limits as [Decimal].  This file
    models what the code uses of that class of the Python library: a finite
    value is a coefficient and an exponent; [+], [-], [*], unary minus and [abs]
    round to the 28 significant digits of the default context with
    [ROUND_HALF_EVEN], [/] follows the algorithm of [_pydecimal.Decimal], and
    comparisons are exact; [str(d)] and [Decimal(s)] are the library's text
    format and its grammar of finite numbers.

    NaN, the infinities and the sign of a zero are not represented: the code
    never builds them from finite inputs within the exponent range, and a
    negative zero compares equal to zero. *)
From Stdlib Require Import QArith Qpower Lqa.
From Stdlib Require Import Ascii String.
From S2P Require Import Prelude.
Open Scope Z_scope.

Record dec := Dec { coef : Z; dexp : Z }.

#[export] Instance dec_eq_dec : EqDecision dec.
Proof. solve_decision. Defined.

(** ** Digits *)

Fixpoint digits_go (fuel : nat) (n : Z) (acc : list Z) : list Z :=
  match fuel with
  | O => acc
  | S f => if n <? 10 then n :: acc else digits_go f (n / 10) (n mod 10 :: acc)
  end.

(** Decimal digits of [n >= 0], most significant first; [0] has one digit. *)
Definition digits (n : Z) : list Z := digits_go (S (Z.to_nat (Z.log2 n))) n [].

Definition undigits (ds : list Z) : Z := fold_left (fun a d => 10 * a + d) ds 0.

Definition is_digit (d : Z) : Prop := 0 <= d < 10.

Definition ndigits (c : Z) : Z := Z.of_nat (List.length (digits (Z.abs c))).

Lemma undigits_app ds ds' :
  undigits (ds ++ ds') = undigits ds * 10 ^ Z.of_nat (List.length ds') + undigits ds'.
Proof.
  unfold undigits. rewrite fold_left_app. generalize (fold_left (fun a d => 10 * a + d) ds 0).
  induction ds' as [|d ds' IH] using rev_ind; intros a.
  - simpl. lia.
  - rewrite !fold_left_app. cbn [fold_left]. rewrite IH.
    rewrite length_app. cbn [List.length].
    replace (Z.of_nat (List.length ds' + 1)) with (Z.succ (Z.of_nat (List.length ds'))) by lia.
    rewrite Z.pow_succ_r by lia. ring.
Qed.

Lemma undigits_digits_go fuel n acc :
  0 <= n -> n < 2 ^ Z.of_nat fuel ->
  undigits (digits_go fuel n acc) = n * 10 ^ Z.of_nat (List.length acc) + undigits acc.
Proof.
  revert n acc. induction fuel as [|f IH]; intros n acc Hn Hlt.
  - assert (n = 0) as -> by (simpl in Hlt; lia). reflexivity.
  - cbn [digits_go]. destruct (Z.ltb_spec n 10).
    + change (n :: acc) with ([n] ++ acc). rewrite undigits_app. unfold undigits at 1. simpl. lia.
    + rewrite IH.
      * change (n mod 10 :: acc) with ([n mod 10] ++ acc). rewrite undigits_app. cbn [List.length app].
        replace (Z.of_nat (S (List.length acc))) with (Z.succ (Z.of_nat (List.length acc))) by lia.
        rewrite Z.pow_succ_r by lia. unfold undigits at 1. cbn [fold_left].
        pose proof (Z.div_mod n 10 ltac:(lia)). nia.
      * apply Z.div_pos; lia.
      * rewrite Nat2Z.inj_succ, Z.pow_succ_r in Hlt by lia.
        apply Z.div_lt_upper_bound; lia.
Qed.

Lemma digits_go_range fuel n acc :
  0 <= n -> Forall is_digit acc -> Forall is_digit (digits_go fuel n acc).
Proof.
  unfold is_digit. revert n acc. induction fuel as [|f IH]; intros n acc Hn Hacc.
  - done.
  - cbn [digits_go]. destruct (Z.ltb_spec n 10).
    + constructor; [lia|done].
    + apply IH; [apply Z.div_pos; lia|]. constructor; [|done].
      apply Z.mod_pos_bound. lia.
Qed.

Lemma log2_fuel n : 0 <= n -> n < 2 ^ Z.of_nat (S (Z.to_nat (Z.log2 n))).
Proof.
  intros Hn. pose proof (Z.log2_nonneg n).
  rewrite Nat2Z.inj_succ, Z2Nat.id by lia.
  destruct (decide (n = 0)) as [->|]; [done|]. apply Z.log2_spec. lia.
Qed.

Lemma undigits_digits n : 0 <= n -> undigits (digits n) = n.
Proof.
  intros Hn. unfold digits. rewrite undigits_digits_go by (by try apply log2_fuel).
  unfold undigits. simpl. lia.
Qed.

Lemma digits_range n : 0 <= n -> Forall is_digit (digits n).
Proof. intros Hn. by apply digits_go_range. Qed.

Lemma digits_go_length fuel n acc :
  (List.length acc <= List.length (digits_go fuel n acc))%nat.
Proof.
  revert n acc. induction fuel as [|f IH]; intros n acc; cbn [digits_go]; [lia|].
  destruct (n <? 10); [simpl; lia|]. specialize (IH (n / 10) (n mod 10 :: acc)).
  simpl in IH. lia.
Qed.

Lemma digits_nonempty n : (1 <= List.length (digits n))%nat.
Proof.
  unfold digits. cbn [digits_go]. destruct (n <? 10); [simpl; lia|].
  pose proof (digits_go_length (Z.to_nat (Z.log2 n)) (n / 10) [n mod 10]). simpl in *. lia.
Qed.

Lemma undigits_bound ds :
  Forall is_digit ds -> 0 <= undigits ds < 10 ^ Z.of_nat (List.length ds).
Proof.
  unfold is_digit. induction ds as [|d ds IH] using rev_ind; intros Hds.
  - unfold undigits. simpl. lia.
  - apply Forall_app in Hds as [Hds Hd]. apply Forall_cons in Hd as [Hd _].
    rewrite undigits_app, length_app. unfold undigits at 2 4. cbn [List.length fold_left].
    replace (Z.of_nat (List.length ds + 1)) with (Z.succ (Z.of_nat (List.length ds))) by lia.
    rewrite Z.pow_succ_r by lia. specialize (IH Hds). change (10 ^ Z.of_nat 1) with 10. lia.
Qed.

Lemma undigits_zeros k ds : undigits (repeat 0 k ++ ds) = undigits ds.
Proof.
  rewrite undigits_app. replace (undigits (repeat 0 k)) with 0; [lia|].
  induction k as [|k IH]; [done|].
  cbn [repeat]. change (0 :: repeat 0 k) with ([0] ++ repeat 0 k).
  rewrite undigits_app, <- IH. unfold undigits. simpl. lia.
Qed.

(** ** Text *)

Definition digit_char (d : Z) : ascii := ascii_of_nat (Z.to_nat (48 + d)).

Definition char_digit (c : ascii) : option Z :=
  let n := Z.of_nat (nat_of_ascii c) in
  if (48 <=? n) && (n <=? 57) then Some (n - 48) else None.

Definition digit_chars (ds : list Z) : list ascii := map digit_char ds.

(** The longest prefix of digits, and the rest. *)
Fixpoint span_digits (l : list ascii) : list Z * list ascii :=
  match l with
  | [] => ([], [])
  | c :: r =>
      match char_digit c with
      | Some d => let '(ds, r') := span_digits r in (d :: ds, r')
      | None => ([], l)
      end
  end.

Definition char_minus : ascii := "-"%char.
Definition char_plus : ascii := "+"%char.
Definition char_dot : ascii := "."%char.
Definition char_E : ascii := "E"%char.
Definition char_e : ascii := "e"%char.

(** An optional sign: [true] for a minus. *)
Definition take_sign (l : list ascii) : bool * list ascii :=
  match l with
  | c :: r =>
      if decide (c = char_minus) then (true, r)
      else if decide (c = char_plus) then (false, r) else (false, l)
  | [] => (false, [])
  end.

Definition signed (neg : bool) (n : Z) : Z := if neg then - n else n.

(** [str(n)] of an integer. *)
Definition int_chars (n : Z) : list ascii :=
  (if n <? 0 then [char_minus] else []) ++ digit_chars (digits (Z.abs n)).

Definition int_str (n : Z) : string := string_of_list_ascii (int_chars n).

(** [Decimal.__str__] *)
Definition dec_chars (d : dec) : list ascii :=
  let ds := digits (Z.abs (coef d)) in
  let n := Z.of_nat (List.length ds) in
  let leftdigits := dexp d + n in
  let dotplace :=
    if (dexp d <=? 0) && (-6 <? leftdigits) then leftdigits else 1 in
  let body :=
    if dotplace <=? 0 then
      digit_char 0 :: char_dot ::
        digit_chars (repeat 0 (Z.to_nat (- dotplace)) ++ ds)
    else if n <=? dotplace then
      digit_chars (ds ++ repeat 0 (Z.to_nat (dotplace - n)))
    else
      digit_chars (take (Z.to_nat dotplace) ds) ++
        char_dot :: digit_chars (drop (Z.to_nat dotplace) ds) in
  let e := leftdigits - dotplace in
  (if coef d <? 0 then [char_minus] else []) ++ body ++
  (if leftdigits =? dotplace then []
   else char_E :: (if e <? 0 then char_minus else char_plus)
          :: digit_chars (digits (Z.abs e))).

Definition dec_str (d : dec) : string := string_of_list_ascii (dec_chars d).

(** The exponent part of a numeric string: nothing, or [E], an optional sign
    and at least one digit, up to the end. *)
Definition parse_exp (l : list ascii) : option Z :=
  match l with
  | [] => Some 0
  | c :: r =>
      if decide (c = char_E \/ c = char_e) then
        let '(neg, r1) := take_sign r in
        match span_digits r1 with
        | (d :: ds, []) => Some (signed neg (undigits (d :: ds)))
        | _ => None
        end
      else None
  end.

(** [Decimal(s)], for the finite numbers of the library's grammar; [None] is
    [InvalidOperation]. *)
Definition dec_parse (l : list ascii) : option dec :=
  let '(neg, l1) := take_sign l in
  let '(ip, l2) := span_digits l1 in
  let '(fp, l3) :=
    match l2 with
    | c :: r => if decide (c = char_dot) then span_digits r else ([], l2)
    | [] => ([], [])
    end in
  match ip ++ fp with
  | [] => None
  | _ =>
      match parse_exp l3 with
      | Some e =>
          Some (Dec (signed neg (undigits (ip ++ fp)))
                  (e - Z.of_nat (List.length fp)))
      | None => None
      end
  end.

(** White space of ASCII, and [s.strip()]. *)
Definition str_space (c : ascii) : bool :=
  let n := nat_of_ascii c in
  (((9 <=? n) && (n <=? 13)) || ((28 <=? n) && (n <=? 32)))%nat.

Fixpoint drop_front (l : list ascii) : list ascii :=
  match l with
  | c :: r => if str_space c then drop_front r else l
  | [] => []
  end.

Definition strip (l : list ascii) : list ascii := rev (drop_front (rev (drop_front l))).

(** [Decimal(s)] ignores white space around the number and underscores. *)
Definition dec_clean (l : list ascii) : list ascii :=
  List.filter (fun c => negb (bool_decide (c = "_"%char))) (strip l).

Definition dec_of_str (s : string) : option dec := dec_parse (dec_clean (list_ascii_of_string s)).

Example dec_str_ex1 : dec_str (Dec 12345 (-2)) = "123.45"%string.
Proof. reflexivity. Qed.
Example dec_str_ex2 : dec_str (Dec (-1) (-9)) = "-1E-9"%string.
Proof. reflexivity. Qed.
Example dec_str_ex3 : dec_str (Dec 120 3) = "1.20E+5"%string.
Proof. reflexivity. Qed.
Example dec_str_ex4 : dec_str (Dec 5 (-3)) = "0.005"%string.
Proof. reflexivity. Qed.
Example dec_of_str_ex : dec_of_str "-12.50e3"%string = Some (Dec (-1250) 1).
Proof. reflexivity. Qed.
Example dec_of_str_ex2 : map dec_of_str [" 1_000.5 "; "1 0"; "_"]%string = [Some (Dec 10005 (-1)); None; None].
Proof. reflexivity. Qed.

(** ** Reading back what was printed *)

Lemma digit_cases d :
  is_digit d ->
  d = 0 \/ d = 1 \/ d = 2 \/ d = 3 \/ d = 4 \/ d = 5 \/ d = 6 \/ d = 7 \/ d = 8 \/ d = 9.
Proof. unfold is_digit. lia. Qed.

Lemma char_digit_char d : is_digit d -> char_digit (digit_char d) = Some d.
Proof. intros Hd. apply digit_cases in Hd. by repeat (destruct Hd as [->|Hd]); [..|subst]. Qed.

Lemma digit_char_not_sign d :
  is_digit d -> digit_char d <> char_minus /\ digit_char d <> char_plus.
Proof. intros Hd. apply digit_cases in Hd. by repeat (destruct Hd as [->|Hd]); [..|subst]. Qed.

(** Text that does not go on with a digit. *)
Definition stops (l : list ascii) : Prop :=
  match l with
  | [] => True
  | c :: _ => char_digit c = None
  end.

Lemma span_digits_chars ds l :
  Forall is_digit ds -> stops l -> span_digits (digit_chars ds ++ l) = (ds, l).
Proof.
  intros Hds Hl. induction Hds as [|d ds Hd Hds IH]; simpl.
  - destruct l as [|c l]; simpl in *; [done|]. by rewrite Hl.
  - rewrite char_digit_char by done. by rewrite IH.
Qed.

Lemma span_digits_end ds : Forall is_digit ds -> span_digits (digit_chars ds) = (ds, []).
Proof.
  intros Hds. rewrite <- (app_nil_r (digit_chars ds)). by apply span_digits_chars.
Qed.

Lemma take_sign_digit d l :
  is_digit d -> take_sign (digit_char d :: l) = (false, digit_char d :: l).
Proof.
  intros Hd. destruct (digit_char_not_sign d Hd). unfold take_sign.
  by rewrite !decide_False by done.
Qed.

Lemma take_sign_prefix (c : Z) d l :
  is_digit d ->
  take_sign ((if c <? 0 then [char_minus] else []) ++ digit_char d :: l)
  = (c <? 0, digit_char d :: l).
Proof.
  intros Hd. destruct (c <? 0); simpl app.
  - done.
  - by apply take_sign_digit.
Qed.

Lemma signed_abs c : signed (c <? 0) (Z.abs c) = c.
Proof. unfold signed. destruct (Z.ltb_spec c 0); lia. Qed.

(** The exponent suffix the printer writes for [e], nothing or [E+..]/[E-..]. *)
Definition exp_chars (e : Z) : list ascii :=
  if e =? 0 then []
  else char_E :: (if e <? 0 then char_minus else char_plus)
         :: digit_chars (digits (Z.abs e)).

Lemma exp_chars_stops e : stops (exp_chars e).
Proof. unfold exp_chars. by destruct (e =? 0). Qed.

Lemma parse_exp_chars e : parse_exp (exp_chars e) = Some e.
Proof.
  unfold exp_chars. destruct (Z.eqb_spec e 0) as [->|Hne]; [done|].
  unfold parse_exp. rewrite decide_True by (by left).
  pose proof (digits_nonempty (Z.abs e)) as Hlen.
  pose proof (undigits_digits (Z.abs e) ltac:(lia)) as Hval.
  pose proof (digits_range (Z.abs e) ltac:(lia)) as Hr.
  assert (take_sign ((if e <? 0 then char_minus else char_plus) :: digit_chars (digits (Z.abs e)))
          = (e <? 0, digit_chars (digits (Z.abs e)))) as -> by (by destruct (e <? 0)).
  rewrite span_digits_end by done.
  destruct (digits (Z.abs e)) as [|d ds]; [simpl in Hlen; lia|].
  by rewrite Hval, signed_abs.
Qed.

(** The three layouts of the mantissa, each with its exponent suffix. *)
Lemma dec_parse_int c ip e :
  Forall is_digit ip -> (1 <= List.length ip)%nat -> undigits ip = Z.abs c ->
  dec_parse ((if c <? 0 then [char_minus] else []) ++ digit_chars ip ++ exp_chars e)
  = Some (Dec c e).
Proof.
  intros Hip Hlen Hval. destruct ip as [|d ip]; [simpl in Hlen; lia|].
  unfold dec_parse. cbn [digit_chars map app].
  rewrite take_sign_prefix by (by inversion Hip). cbv beta iota.
  change (digit_char d :: map digit_char ip ++ exp_chars e)
    with (digit_chars (d :: ip) ++ exp_chars e).
  rewrite span_digits_chars by (done || apply exp_chars_stops). cbv beta iota.
  assert (match exp_chars e with
          | [] => ([], [])
          | c0 :: r => if decide (c0 = char_dot) then span_digits r else ([], exp_chars e)
          end = ([], exp_chars e)) as ->.
  { unfold exp_chars. by destruct (e =? 0). }
  rewrite parse_exp_chars, app_nil_r, Hval, signed_abs. simpl. by rewrite Z.sub_0_r.
Qed.

Lemma dec_parse_frac c ip fp e :
  Forall is_digit ip -> Forall is_digit fp -> (1 <= List.length ip)%nat ->
  undigits (ip ++ fp) = Z.abs c ->
  dec_parse ((if c <? 0 then [char_minus] else []) ++
             digit_chars ip ++ char_dot :: digit_chars fp ++ exp_chars e)
  = Some (Dec c (e - Z.of_nat (List.length fp))).
Proof.
  intros Hip Hfp Hlen Hval. destruct ip as [|d ip]; [simpl in Hlen; lia|].
  unfold dec_parse. cbn [digit_chars map app].
  rewrite take_sign_prefix by (by inversion Hip). cbv beta iota.
  change (digit_char d :: map digit_char ip ++ char_dot :: digit_chars fp ++ exp_chars e)
    with (digit_chars (d :: ip) ++ char_dot :: digit_chars fp ++ exp_chars e).
  rewrite span_digits_chars by done. cbv beta iota.
  rewrite decide_True by done.
  rewrite span_digits_chars by (done || apply exp_chars_stops). cbv beta iota.
  by rewrite parse_exp_chars, Hval, signed_abs.
Qed.

Lemma dec_chars_parse d : dec_parse (dec_chars d) = Some d.
Proof.
  destruct d as [c e]. unfold dec_chars. cbn [coef dexp].
  pose proof (digits_nonempty (Z.abs c)) as Hlen.
  pose proof (undigits_digits (Z.abs c) ltac:(lia)) as Hval.
  pose proof (digits_range (Z.abs c) ltac:(lia)) as Hr.
  set (ds := digits (Z.abs c)) in *. set (n := Z.of_nat (List.length ds)).
  set (dot := if (e <=? 0) && (-6 <? e + n) then e + n else 1).
  assert (Hsuf : forall x, (if e + n =? dot then [] else
      char_E :: (if x <? 0 then char_minus else char_plus) :: digit_chars (digits (Z.abs x)))
      = exp_chars x \/ x <> e + n - dot).
  { intros x. unfold exp_chars. destruct (decide (x = e + n - dot)) as [->|]; [left|by right].
    destruct (Z.eqb_spec (e + n) dot), (Z.eqb_spec (e + n - dot) 0); (lia || done). }
  destruct (Hsuf (e + n - dot)) as [->|]; [|done]. clear Hsuf.
  assert (Hdot : dot = e + n /\ e <= 0 \/ dot = 1 /\ (0 < e \/ e + n <= -6)).
  { unfold dot. destruct (Z.leb_spec e 0), (Z.ltb_spec (-6) (e + n)); simpl; lia. }
  clearbody dot. destruct (Z.leb_spec dot 0) as [H0|H0].
  - assert (dot = e + n) as -> by lia. rewrite Z.sub_diag.
    change (digit_char 0 :: char_dot :: digit_chars (repeat 0 (Z.to_nat (- (e + n))) ++ ds))
      with (digit_chars [0] ++ char_dot :: digit_chars (repeat 0 (Z.to_nat (- (e + n))) ++ ds)).
    rewrite <- app_assoc. cbn [app]. rewrite dec_parse_frac.
    + rewrite length_app, repeat_length. do 2 f_equal. lia.
    + repeat constructor; lia.
    + apply Forall_app. split; [|done]. apply Forall_forall. intros x Hx.
      apply list_elem_of_In, repeat_spec in Hx as ->. unfold is_digit. lia.
    + simpl. lia.
    + change ([0] ++ repeat 0 (Z.to_nat (- (e + n))) ++ ds)
        with (repeat 0 (S (Z.to_nat (- (e + n)))) ++ ds).
      by rewrite undigits_zeros.
  - destruct (Z.leb_spec n dot) as [Hn|Hn].
    + assert (dot = n) as -> by lia. rewrite Z.sub_diag. simpl repeat. rewrite app_nil_r.
      rewrite dec_parse_int by done. do 2 f_equal. lia.
    + rewrite <- app_assoc. cbn [app]. rewrite dec_parse_frac.
      * rewrite length_drop. do 2 f_equal. lia.
      * by apply Forall_take.
      * by apply Forall_drop.
      * rewrite length_take. lia.
      * by rewrite take_drop.
Qed.

(** Texts without white space and underscores are read as they are. *)
Definition dec_plain (c : ascii) : bool := negb (str_space c) && negb (bool_decide (c = "_"%char)).

Lemma drop_front_plain l : Forall (fun c => dec_plain c = true) l -> drop_front l = l.
Proof.
  intros H. destruct H as [|c l Hc _]; [done|]. unfold dec_plain in Hc. cbn [drop_front].
  by destruct (str_space c).
Qed.

Lemma dec_clean_plain l : Forall (fun c => dec_plain c = true) l -> dec_clean l = l.
Proof.
  intros H. unfold dec_clean, strip. rewrite (drop_front_plain l) by done.
  rewrite (drop_front_plain (rev l)) by (by apply Forall_rev). rewrite rev_involutive.
  induction H as [|c l Hc _ IH]; [done|]. cbn [List.filter]. unfold dec_plain in Hc.
  destruct (bool_decide (c = "_"%char)); [by rewrite andb_false_r in Hc|]. cbn [negb]. by rewrite IH.
Qed.

Lemma digit_chars_plain ds : Forall is_digit ds -> Forall (fun c => dec_plain c = true) (digit_chars ds).
Proof.
  induction 1 as [|d ds Hd _ IH]; [constructor|]. constructor; [|done].
  by destruct (digit_cases d Hd) as [-> |[-> |[-> |[-> |[-> |[-> |[-> |[-> |[-> | ->]]]]]]]]].
Qed.

Lemma zeros_digits n : Forall is_digit (repeat 0 n).
Proof. induction n; cbn; by constructor. Qed.

Lemma dec_chars_plain d : Forall (fun c => dec_plain c = true) (dec_chars d).
Proof.
  pose proof (digits_range (Z.abs (coef d)) ltac:(lia)) as Hds.
  assert (forall n, Forall (fun c => dec_plain c = true) (digit_chars (repeat 0 n ++ digits (Z.abs (coef d))))) as Hz.
  { intros n. apply digit_chars_plain, Forall_app; split; [|done]. apply zeros_digits. }
  unfold dec_chars. cbv zeta. apply Forall_app; split; [by destruct (_ <? 0); repeat constructor|].
  apply Forall_app; split.
  - destruct (_ <=? 0); [by repeat constructor; [..|apply Hz]|].
    destruct (_ <=? _).
    + apply digit_chars_plain, Forall_app; split; [done|]. apply zeros_digits.
    + apply Forall_app; split; [by apply digit_chars_plain, Forall_take|].
      constructor; [done|]. by apply digit_chars_plain, Forall_drop.
  - destruct (_ =? _); [constructor|]. constructor; [done|]. constructor; [by destruct (_ <? 0)|].
    apply digit_chars_plain, digits_range. apply Z.abs_nonneg.
Qed.

(** [Decimal(str(d)) == d], with the same coefficient and exponent. *)
Lemma dec_of_dec_str d : dec_of_str (dec_str d) = Some d.
Proof.
  unfold dec_of_str, dec_str. rewrite list_ascii_of_string_of_list_ascii.
  rewrite dec_clean_plain by apply dec_chars_plain. apply dec_chars_parse.
Qed.

#[export] Hint Rewrite dec_of_dec_str : pydict.

(** ** Values and comparisons *)

Definition ten_to (e : Z) : Q := (inject_Z 10 ^ e)%Q.

(** The rational number a decimal denotes. *)
Definition dval (d : dec) : Q := (inject_Z (coef d) * ten_to (dexp d))%Q.

(** The coefficient of [d] written with exponent [e <= dexp d]. *)
Definition scale (d : dec) (e : Z) : Z := coef d * 10 ^ (dexp d - e).

Definition common (a b : dec) : Z := Z.min (dexp a) (dexp b).

Definition dltb (a b : dec) : bool := scale a (common a b) <? scale b (common a b).
Definition dleb (a b : dec) : bool := scale a (common a b) <=? scale b (common a b).
Definition deqb (a b : dec) : bool := scale a (common a b) =? scale b (common a b).

(** [bool(d)] *)
Definition dtrue (d : dec) : bool := negb (coef d =? 0).

Definition dzero : dec := Dec 0 0.

Definition dmax (a b : dec) : dec := if dltb a b then b else a.

(** [min(a, b)] returns its first argument unless the second is smaller. *)
Definition dmin (a b : dec) : dec := if dltb b a then b else a.

Notation "a <? b" := (dltb a b) : py_scope.
Notation "a <=? b" := (dleb a b) : py_scope.
Notation "a =? b" := (deqb a b) : py_scope.

Lemma ten_to_pos e : (0 < ten_to e)%Q.
Proof. apply Qpower_0_lt. reflexivity. Qed.

Lemma ten_to_add a b : (ten_to (a + b) == ten_to a * ten_to b)%Q.
Proof. apply Qpower_plus. discriminate. Qed.

Lemma ten_to_Z k : 0 <= k -> (ten_to k == inject_Z (10 ^ k))%Q.
Proof. intros Hk. unfold ten_to. by rewrite Zpower_Qpower. Qed.

Lemma dval_scale d e : e <= dexp d -> (dval d == inject_Z (scale d e) * ten_to e)%Q.
Proof.
  intros He. unfold dval, scale. rewrite inject_Z_mult, <- ten_to_Z by lia.
  replace (dexp d) with ((dexp d - e) + e) at 1 by lia. rewrite ten_to_add. ring.
Qed.

Lemma scaled_lt m n e :
  (inject_Z m * ten_to e < inject_Z n * ten_to e)%Q <-> m < n.
Proof.
  rewrite Qmult_lt_r by apply ten_to_pos. by rewrite Zlt_Qlt.
Qed.

Lemma scaled_le m n e :
  (inject_Z m * ten_to e <= inject_Z n * ten_to e)%Q <-> m <= n.
Proof.
  rewrite Qmult_le_r by apply ten_to_pos. by rewrite Zle_Qle.
Qed.

Lemma dltb_spec a b : dltb a b = true <-> (dval a < dval b)%Q.
Proof.
  unfold dltb. rewrite Z.ltb_lt.
  rewrite (dval_scale a (common a b)), (dval_scale b (common a b)) by (unfold common; lia).
  by rewrite scaled_lt.
Qed.

Lemma dleb_spec a b : dleb a b = true <-> (dval a <= dval b)%Q.
Proof.
  unfold dleb. rewrite Z.leb_le.
  rewrite (dval_scale a (common a b)), (dval_scale b (common a b)) by (unfold common; lia).
  by rewrite scaled_le.
Qed.

Lemma dltb_false a b : dltb a b = false <-> (dval b <= dval a)%Q.
Proof.
  rewrite <- not_true_iff_false, dltb_spec. split; [apply Qnot_lt_le | apply Qle_not_lt].
Qed.

Lemma dleb_false a b : dleb a b = false <-> (dval b < dval a)%Q.
Proof.
  rewrite <- not_true_iff_false, dleb_spec. split; [apply Qnot_le_lt | apply Qlt_not_le].
Qed.

Lemma dltb_negb a b : negb (dltb b a) = dleb a b.
Proof.
  destruct (dleb a b) eqn:E; [apply dleb_spec in E|apply dleb_false in E].
  - apply negb_true_iff. by apply dltb_false.
  - apply negb_false_iff. by apply dltb_spec.
Qed.

Lemma deqb_spec a b : deqb a b = true <-> (dval a == dval b)%Q.
Proof.
  assert (deqb a b = dleb a b && dleb b a) as ->.
  { unfold deqb, dleb. replace (common b a) with (common a b) by (unfold common; lia).
    destruct (Z.eqb_spec (scale a (common a b)) (scale b (common a b))) as [->|];
      destruct (Z.leb_spec (scale a (common a b)) (scale b (common a b))),
        (Z.leb_spec (scale b (common a b)) (scale a (common a b))); simpl; done || lia. }
  rewrite andb_true_iff, !dleb_spec. split; [intros [? ?]; by apply Qle_antisym|].
  intros ->. split; apply Qle_refl.
Qed.

Lemma dval_zero : (dval dzero == 0)%Q.
Proof. reflexivity. Qed.

Lemma dval_sign d :
  (0 < coef d <-> (0 < dval d)%Q) /\ (coef d < 0 <-> (dval d < 0)%Q).
Proof.
  assert ((0 == inject_Z 0 * ten_to (dexp d))%Q) as -> by ring.
  unfold dval. by rewrite !scaled_lt.
Qed.

Lemma dtrue_spec d : dtrue d = true <-> ~ (dval d == 0)%Q.
Proof.
  unfold dtrue. rewrite negb_true_iff, Z.eqb_neq.
  pose proof (dval_sign d) as [Hp Hn]. split.
  - intros Hc Heq. destruct (Z.lt_trichotomy (coef d) 0) as [H|[H|H]]; [|done|].
    + apply Hn in H. rewrite Heq in H. by apply Qlt_irrefl in H.
    + apply Hp in H. rewrite Heq in H. by apply Qlt_irrefl in H.
  - intros Hv Hc. apply Hv. unfold dval. rewrite Hc. ring.
Qed.

Lemma dmin_le a b : (dval (dmin a b) <= dval a)%Q /\ (dval (dmin a b) <= dval b)%Q.
Proof.
  unfold dmin. destruct (dltb b a) eqn:E.
  - apply dltb_spec in E. split; lra.
  - apply dltb_false in E. split; lra.
Qed.

Lemma dmax_ge a b : (dval a <= dval (dmax a b))%Q /\ (dval b <= dval (dmax a b))%Q.
Proof.
  unfold dmax. destruct (dltb a b) eqn:E.
  - apply dltb_spec in E. split; lra.
  - apply dltb_false in E. split; lra.
Qed.
