(* ===== verification/DecArith.v ===== *)
(** * Arithmetic of a [decimal] context

    [+], [-], [*], [/], unary minus and [abs] of finite decimals, rounded to the
    significant digits of the context with [ROUND_HALF_EVEN], as [decimal] computes
    them; the default context has 28.  For it, what the risk code relies on: an operation is exact when its result fits in
    28 digits, and a rounded result never crosses a threshold that has at most
    28 digits. *)
From Stdlib Require Import QArith Qabs Lqa.
From S2P Require Import Prelude PyDecimal.
Open Scope Z_scope.

(** [getcontext().prec] *)
Class DecContext := prec : Z.

(** [n / 10^k] rounded to the nearest integer, ties to even, for [n >= 0]. *)
Definition round_half_even (n k : Z) : Z :=
  let q := n / 10 ^ k in
  let r := n mod 10 ^ k in
  match 2 * r ?= 10 ^ k with
  | Lt => q
  | Gt => q + 1
  | Eq => if Z.even q then q else q + 1
  end.

Section Arithmetic.
Context `{DecContext}.

(** [Decimal._fix], exponent limits aside. *)
Definition dfix (d : dec) : dec :=
  let n := ndigits (coef d) in
  if n <=? prec then d
  else
    let k := n - prec in
    let r := round_half_even (Z.abs (coef d)) k in
    if r =? 10 ^ prec then Dec (Z.sgn (coef d) * 10 ^ (prec - 1)) (dexp d + k + 1)
    else Dec (Z.sgn (coef d) * r) (dexp d + k).

Definition dadd (a b : dec) : dec :=
  dfix (Dec (scale a (common a b) + scale b (common a b)) (common a b)).

(** [copy_negate], which does not round. *)
Definition copy_neg (d : dec) : dec := Dec (- coef d) (dexp d).

Definition dsub (a b : dec) : dec := dadd a (copy_neg b).
Definition dneg (d : dec) : dec := dfix (copy_neg d).
Definition dabs (d : dec) : dec := dfix (Dec (Z.abs (coef d)) (dexp d)).
Definition dmul (a b : dec) : dec := dfix (Dec (coef a * coef b) (dexp a + dexp b)).

(** Remove trailing zeros while the exponent is below the ideal one. *)
Fixpoint strip_zeros (fuel : nat) (c e : Z) : dec :=
  match fuel with
  | O => Dec c e
  | S f => if c mod 10 =? 0 then strip_zeros f (c / 10) (e + 1) else Dec c e
  end.

(** The quotient of two positive coefficients before the final rounding: at
    least one digit more than the precision, the last of which is made sticky when
    there is a remainder. *)
Definition div_core (c1 c2 e : Z) : dec :=
  let shift := ndigits c2 - ndigits c1 + prec + 1 in
  let num := if 0 <=? shift then c1 * 10 ^ shift else c1 in
  let den := if 0 <=? shift then c2 else c2 * 10 ^ (- shift) in
  let q := num / den in
  let r := num mod den in
  if r =? 0 then strip_zeros (Z.to_nat shift) q (e - shift)
  else Dec (if q mod 5 =? 0 then q + 1 else q) (e - shift).

(** [a / b]; [None] is [DivisionByZero] or [InvalidOperation]. *)
Definition ddiv (a b : dec) : option dec :=
  if coef b =? 0 then None
  else if coef a =? 0 then Some (Dec 0 (dexp a - dexp b))
  else
    let d := div_core (Z.abs (coef a)) (Z.abs (coef b)) (dexp a - dexp b) in
    Some (dfix (Dec (Z.sgn (coef a) * Z.sgn (coef b) * coef d) (dexp d))).

End Arithmetic.

#[export] Instance default_context : DecContext := 28.

Notation "a + b" := (dadd a b) : py_scope.
Notation "a - b" := (dsub a b) : py_scope.
Notation "a * b" := (dmul a b) : py_scope.

Example dadd_ex : dadd (Dec 15 (-1)) (Dec 225 (-2)) = Dec 375 (-2).
Proof. reflexivity. Qed.
Example ddiv_ex1 : ddiv (Dec 1 0) (Dec 8 0) = Some (Dec 125 (-3)).
Proof. reflexivity. Qed.
Example ddiv_ex2 :
  ddiv (Dec 1 0) (Dec 3 0) = Some (Dec 3333333333333333333333333333 (-28)).
Proof. reflexivity. Qed.
Example ddiv_ex3 :
  ddiv (Dec (-2) 0) (Dec 3 0) = Some (Dec (-6666666666666666666666666667) (-28)).
Proof. reflexivity. Qed.

(** Thresholds the context can represent. *)
Definition representable `{DecContext} (t : dec) : Prop := Z.abs (coef t) < 10 ^ prec.

#[export] Instance representable_dec `{DecContext} t : Decision (representable t).
Proof. unfold representable. apply _. Defined.

(** ** Lengths of coefficients *)

Lemma digits_go_len fuel n acc :
  0 < n < 2 ^ Z.of_nat fuel ->
  exists k : nat, List.length (digits_go fuel n acc) = (List.length acc + S k)%nat /\
    10 ^ Z.of_nat k <= n < 10 ^ Z.of_nat (S k).
Proof.
  revert n acc. induction fuel as [|f IH]; intros n acc [Hn Hlt]; [simpl in Hlt; lia|].
  cbn [digits_go]. destruct (Z.ltb_spec n 10).
  - exists 0%nat. simpl. lia.
  - rewrite Nat2Z.inj_succ, Z.pow_succ_r in Hlt by lia.
    destruct (IH (n / 10) (n mod 10 :: acc)) as (k & Hlen & Hlo & Hhi).
    { split; [apply Z.div_str_pos; lia | apply Z.div_lt_upper_bound; lia]. }
    exists (S k). rewrite Hlen. split; [simpl; lia|].
    assert (E : forall j : nat, 10 ^ Z.of_nat (S j) = 10 * 10 ^ Z.of_nat j).
    { intros j. rewrite Nat2Z.inj_succ. apply Z.pow_succ_r. lia. }
    rewrite (E (S k)). rewrite (E k) in *.
    pose proof (Z.div_mod n 10 ltac:(lia)). pose proof (Z.mod_pos_bound n 10 ltac:(lia)). lia.
Qed.

Lemma ndigits_bounds c :
  c <> 0 -> 1 <= ndigits c /\ 10 ^ (ndigits c - 1) <= Z.abs c < 10 ^ ndigits c.
Proof.
  intros Hc. unfold ndigits, digits.
  destruct (digits_go_len (S (Z.to_nat (Z.log2 (Z.abs c)))) (Z.abs c) []) as (k & -> & H).
  { split; [lia|]. apply log2_fuel. lia. }
  cbn [List.length Nat.add]. replace (Z.of_nat (S k) - 1) with (Z.of_nat k) by lia. lia.
Qed.

Lemma ndigits_small c n : 0 < n -> Z.abs c < 10 ^ n -> ndigits c <= n.
Proof.
  intros Hn Hc. destruct (decide (c = 0)) as [->|Hne]; [change (ndigits 0) with 1; lia|].
  pose proof (ndigits_bounds c Hne) as (H1 & Hlo & _).
  destruct (Z.le_gt_cases (ndigits c) n); [done|].
  exfalso. apply (Z.lt_irrefl (Z.abs c)). eapply Z.lt_le_trans; [exact Hc|].
  etransitivity; [|exact Hlo]. apply Z.pow_le_mono_r; lia.
Qed.

Lemma dfix_exact `{DecContext} d : 0 < prec -> representable d -> dfix d = d.
Proof.
  intros Hp Hd. unfold dfix. apply ndigits_small in Hd; [|done].
  by destruct (Z.leb_spec (ndigits (coef d)) prec); [|lia].
Qed.

Lemma dfix_small d : Z.abs (coef d) < 10 ^ prec -> dfix d = d.
Proof. by apply dfix_exact. Qed.

(** ** Exact operations *)

Lemma dval_add_exact a b :
  (dval (Dec (scale a (common a b) + scale b (common a b)) (common a b))
   == dval a + dval b)%Q.
Proof.
  unfold dval at 1. cbn [coef dexp].
  rewrite (dval_scale a (common a b)), (dval_scale b (common a b)) by (unfold common; lia).
  rewrite inject_Z_plus. ring.
Qed.

Lemma dval_copy_neg d : (dval (copy_neg d) == - dval d)%Q.
Proof. unfold dval. cbn [coef dexp copy_neg]. rewrite inject_Z_opp. ring. Qed.

Lemma dval_mul_exact a b :
  (dval (Dec (coef a * coef b) (dexp a + dexp b)) == dval a * dval b)%Q.
Proof. unfold dval. cbn [coef dexp]. rewrite inject_Z_mult, ten_to_add. ring. Qed.

Lemma dval_abs_exact d : (dval (Dec (Z.abs (coef d)) (dexp d)) == Qabs (dval d))%Q.
Proof.
  unfold dval. cbn [coef dexp]. rewrite Qabs_Qmult.
  rewrite (Qabs_pos (ten_to _)) by (apply Qlt_le_weak, ten_to_pos). reflexivity.
Qed.

(** The sum of [a] and [b] has at most 28 digits. *)
Definition add_fits (a b : dec) : Prop :=
  Z.abs (scale a (common a b) + scale b (common a b)) < 10 ^ prec.

#[export] Instance add_fits_dec a b : Decision (add_fits a b).
Proof. unfold add_fits. apply _. Defined.

Lemma dval_dadd a b : add_fits a b -> (dval (dadd a b) == dval a + dval b)%Q.
Proof. intros H. unfold dadd. rewrite dfix_small by done. apply dval_add_exact. Qed.

Lemma dval_dsub a b :
  add_fits a (copy_neg b) -> (dval (dsub a b) == dval a - dval b)%Q.
Proof. intros H. unfold dsub. rewrite dval_dadd by done. rewrite dval_copy_neg. ring. Qed.

Lemma dval_dneg d : representable d -> (dval (dneg d) == - dval d)%Q.
Proof.
  intros H. unfold dneg. rewrite dfix_small; [apply dval_copy_neg|].
  cbn. unfold representable in H. lia.
Qed.

Lemma dval_dabs d : representable d -> (dval (dabs d) == Qabs (dval d))%Q.
Proof.
  intros H. unfold dabs. rewrite dfix_small; [apply dval_abs_exact|].
  cbn. unfold representable in H. lia.
Qed.

(** ** Rounding keeps the side of a representable threshold *)

Lemma round_half_even_bounds n k :
  0 <= k -> n / 10 ^ k <= round_half_even n k <= n / 10 ^ k + 1.
Proof.
  intros Hk. unfold round_half_even. destruct (2 * (n mod 10 ^ k) ?= 10 ^ k).
  - destruct (Z.even _); lia.
  - lia.
  - lia.
Qed.

Lemma round_half_even_ge m n k : 0 <= k -> m * 10 ^ k <= n -> m <= round_half_even n k.
Proof.
  intros Hk H. pose proof (round_half_even_bounds n k Hk).
  pose proof (Z.div_le_lower_bound n (10 ^ k) m ltac:(lia) ltac:(lia)). lia.
Qed.

Lemma round_half_even_le m n k : 0 <= k -> n <= m * 10 ^ k -> round_half_even n k <= m.
Proof.
  intros Hk H. pose proof (round_half_even_bounds n k Hk).
  destruct (decide (n = m * 10 ^ k)) as [->|Hne].
  - unfold round_half_even. rewrite Z.mod_mul, Z.div_mul by lia. simpl.
    pose proof (Z.pow_pos_nonneg 10 k ltac:(lia) Hk).
    destruct (10 ^ k) eqn:E; simpl; lia.
  - pose proof (Z.div_lt_upper_bound n (10 ^ k) m ltac:(lia) ltac:(lia)). lia.
Qed.

Lemma ten_to_le a b : a <= b -> (ten_to a <= ten_to b)%Q.
Proof.
  intros H. replace b with ((b - a) + a) by lia. rewrite ten_to_add, (ten_to_Z (b - a)) by lia.
  rewrite <- (Qmult_1_l (ten_to a)) at 1.
  apply Qmult_le_compat_r; [|apply Qlt_le_weak, ten_to_pos].
  change 1%Q with (inject_Z 1). rewrite <- Zle_Qle.
  pose proof (Z.pow_pos_nonneg 10 (b - a)). lia.
Qed.

Lemma ten_to_shift e k : 0 <= k -> (ten_to (e + k) == inject_Z (10 ^ k) * ten_to e)%Q.
Proof. intros Hk. rewrite ten_to_add, (ten_to_Z k) by done. ring. Qed.

(** A representable threshold is an integer multiple of [10^e], or it is below
    the [n]-digit numbers written with exponent [e]. *)
Lemma threshold_grid t e :
  representable t ->
  (exists m, (dval t == inject_Z m * ten_to e)%Q) \/
  (- (inject_Z (10 ^ (prec - 1)) * ten_to e) < dval t < inject_Z (10 ^ (prec - 1)) * ten_to e)%Q.
Proof.
  intros Ht. unfold representable in Ht. destruct (Z.le_gt_cases e (dexp t)) as [Hle|Hlt].
  - left. exists (scale t e). by apply dval_scale.
  - right.
    assert (inject_Z (10 ^ prec) * ten_to (dexp t) <= inject_Z (10 ^ (prec - 1)) * ten_to e)%Q
      as Hgap.
    { rewrite <- !ten_to_shift by done. apply ten_to_le. unfold prec, default_context. lia. }
    assert (Hlo : (inject_Z (- 10 ^ prec) * ten_to (dexp t) < dval t)%Q)
      by (apply scaled_lt; lia).
    assert (Hhi : (dval t < inject_Z (10 ^ prec) * ten_to (dexp t))%Q)
      by (apply scaled_lt; lia).
    rewrite inject_Z_opp in Hlo. split; lra.
Qed.

(** Rounding a positive [n]-digit coefficient, [n > 28]. *)
Lemma round_mag_ge t a e k :
  representable t -> 0 <= k -> 10 ^ (prec - 1) * 10 ^ k <= a ->
  (dval t <= inject_Z a * ten_to e)%Q ->
  (dval t <= inject_Z (round_half_even a k) * ten_to (e + k))%Q.
Proof.
  intros Ht Hk Ha H. destruct (threshold_grid t (e + k) Ht) as [[m Hm]|[_ Hm]].
  - rewrite Hm in H |- *. apply scaled_le. apply round_half_even_ge; [done|].
    rewrite ten_to_shift, Qmult_assoc, <- inject_Z_mult in H by done. by apply scaled_le in H.
  - apply Qlt_le_weak. eapply Qlt_le_trans; [exact Hm|]. apply scaled_le.
    by apply round_half_even_ge.
Qed.

Lemma round_mag_le t a e k :
  representable t -> 0 <= k -> 10 ^ (prec - 1) * 10 ^ k <= a ->
  (inject_Z a * ten_to e <= dval t)%Q ->
  (inject_Z (round_half_even a k) * ten_to (e + k) <= dval t)%Q.
Proof.
  intros Ht Hk Ha H. destruct (threshold_grid t (e + k) Ht) as [[m Hm]|[_ Hm]].
  - rewrite Hm in H |- *. apply scaled_le. apply round_half_even_le; [done|].
    rewrite ten_to_shift, Qmult_assoc, <- inject_Z_mult in H by done. by apply scaled_le in H.
  - exfalso. apply (Qlt_irrefl (dval t)). eapply Qlt_le_trans; [exact Hm|].
    eapply Qle_trans; [|exact H]. rewrite ten_to_shift, Qmult_assoc, <- inject_Z_mult by done.
    by apply scaled_le.
Qed.

(** The value of [dfix d], whatever the carry. *)
Lemma dval_dfix d :
  prec < ndigits (coef d) ->
  (dval (dfix d) == inject_Z (Z.sgn (coef d)) *
     (inject_Z (round_half_even (Z.abs (coef d)) (ndigits (coef d) - prec)) *
      ten_to (dexp d + (ndigits (coef d) - prec))))%Q.
Proof.
  intros Hn. unfold dfix. destruct (Z.leb_spec (ndigits (coef d)) prec); [lia|].
  set (k := ndigits (coef d) - prec). set (r := round_half_even _ k).
  destruct (Z.eqb_spec r (10 ^ prec)) as [->|_].
  - unfold dval. cbn [coef dexp]. rewrite inject_Z_mult, ten_to_add.
    change (ten_to 1) with (inject_Z 10). change (10 ^ prec) with (10 ^ (prec - 1) * 10).
    rewrite (inject_Z_mult (10 ^ (prec - 1)) 10). ring.
  - unfold dval. cbn [coef dexp]. rewrite inject_Z_mult. ring.
Qed.

Lemma dval_mag d :
  (dval d == inject_Z (Z.sgn (coef d)) * (inject_Z (Z.abs (coef d)) * ten_to (dexp d)))%Q.
Proof.
  unfold dval. rewrite Qmult_assoc, <- inject_Z_mult. by rewrite Z.sgn_abs || rewrite (Z.mul_comm (Z.sgn _)), Z.abs_sgn.
Qed.

Lemma copy_neg_representable t : representable t -> representable (copy_neg t).
Proof. unfold representable, copy_neg. cbn. lia. Qed.

Lemma long_coef_mag c :
  prec < ndigits c -> c <> 0 /\ 10 ^ (prec - 1) * 10 ^ (ndigits c - prec) <= Z.abs c.
Proof.
  intros Hn. assert (c <> 0) as Hc by (intros ->; by vm_compute in Hn).
  split; [done|]. rewrite <- Z.pow_add_r by (unfold prec, default_context in *; lia).
  replace (prec - 1 + (ndigits c - prec)) with (ndigits c - 1) by lia.
  by apply ndigits_bounds.
Qed.

(** A representable lower bound of a value is a lower bound of its rounding. *)
Lemma dfix_ge t d : representable t -> (dval t <= dval d)%Q -> (dval t <= dval (dfix d))%Q.
Proof.
  intros Ht H. destruct (Z.le_gt_cases (ndigits (coef d)) prec) as [Hs|Hn].
  { unfold dfix. by destruct (Z.leb_spec (ndigits (coef d)) prec); [|lia]. }
  destruct (long_coef_mag _ Hn) as [Hc Hm]. rewrite dval_dfix by done.
  rewrite (dval_mag d) in H. destruct (Z.lt_trichotomy (coef d) 0) as [Hneg|[?|Hpos]]; [|done|].
  - rewrite Z.sgn_neg in * by done. change (inject_Z (-1)) with (-1)%Q in *.
    pose proof (round_mag_le (copy_neg t) (Z.abs (coef d)) (dexp d) (ndigits (coef d) - @prec default_context)
      (copy_neg_representable t Ht) ltac:(lia) Hm) as Hr. rewrite dval_copy_neg in Hr.
    specialize (Hr ltac:(lra)). lra.
  - rewrite Z.sgn_pos in * by done. rewrite Qmult_1_l in *. apply round_mag_ge; done || lia.
Qed.

Lemma dfix_neg d : (dval (dfix (copy_neg d)) == - dval (dfix d))%Q.
Proof.
  assert (ndigits (- coef d) = ndigits (coef d)) as Hn by (unfold ndigits; by rewrite Z.abs_opp).
  destruct (Z.le_gt_cases (ndigits (coef d)) prec) as [Hs|Hl].
  - unfold dfix. cbn [copy_neg coef]. rewrite Hn.
    destruct (Z.leb_spec (ndigits (coef d)) prec); [|lia]. apply dval_copy_neg.
  - rewrite !dval_dfix by (cbn [copy_neg coef]; by rewrite ?Hn). cbn [copy_neg coef dexp].
    rewrite Hn, Z.abs_opp, Z.sgn_opp, inject_Z_opp. ring.
Qed.

(** A representable upper bound of a value is an upper bound of its rounding. *)
Lemma dfix_le t d : representable t -> (dval d <= dval t)%Q -> (dval (dfix d) <= dval t)%Q.
Proof.
  intros Ht H.
  pose proof (dfix_ge (copy_neg t) (copy_neg d) (copy_neg_representable t Ht)) as Hg.
  rewrite !dval_copy_neg, dfix_neg in Hg. specialize (Hg ltac:(lra)). lra.
Qed.

(** ** Quotients *)

Lemma dval_strip_zeros fuel c e : (dval (strip_zeros fuel c e) == dval (Dec c e))%Q.
Proof.
  revert c e. induction fuel as [|f IH]; intros c e; [reflexivity|].
  cbn [strip_zeros]. destruct (Z.eqb_spec (c mod 10) 0) as [H|_]; [|reflexivity].
  rewrite IH. unfold dval. cbn [coef dexp]. rewrite ten_to_add.
  change (ten_to 1) with (inject_Z 10).
  assert (c = c / 10 * 10) as Hc by (rewrite (Z.div_mod c 10) at 1; lia).
  rewrite Hc at 2. rewrite inject_Z_mult. ring.
Qed.

(** The integer division the quotient is read from. *)
Record div_parts (c1 c2 e num den x : Z) : Prop := {
  dp_den_pos : 0 < den;
  dp_long : 10 ^ prec <= num / den;
  dp_ratio : (inject_Z c1 * ten_to e * inject_Z den
              == inject_Z num * ten_to x * inject_Z c2)%Q;
  dp_value : (dval (div_core c1 c2 e)
              == inject_Z (if num mod den =? 0 then num / den
                           else if (num / den) mod 5 =? 0 then num / den + 1
                           else num / den) * ten_to x)%Q
}.

Lemma div_long c1 c2 num den k1 k2 :
  0 < c1 -> 0 < c2 -> 0 <= k1 -> 0 <= k2 ->
  num = c1 * 10 ^ k1 -> den = c2 * 10 ^ k2 ->
  k1 - k2 = ndigits c2 - ndigits c1 + prec + 1 ->
  10 ^ prec <= num / den.
Proof.
  intros H1 H2 Hk1 Hk2 -> -> Hs.
  pose proof (ndigits_bounds c1 ltac:(lia)) as (Hn1 & Hlo & _).
  pose proof (ndigits_bounds c2 ltac:(lia)) as (Hn2 & _ & Hhi).
  rewrite Z.abs_eq in * by lia.
  pose proof (Z.pow_pos_nonneg 10 k1 ltac:(lia) Hk1).
  pose proof (Z.pow_pos_nonneg 10 k2 ltac:(lia) Hk2).
  apply Z.div_le_lower_bound; [nia|].
  transitivity (10 ^ (ndigits c1 - 1) * 10 ^ k1); [|nia].
  transitivity (10 ^ ndigits c2 * 10 ^ k2 * 10 ^ prec).
  - assert (0 <= 10 ^ prec) by (unfold prec, default_context; lia). nia.
  - rewrite <- !Z.pow_add_r by (unfold prec, default_context in *; lia).
    apply Z.pow_le_mono_r; lia.
Qed.

Lemma div_core_parts c1 c2 e :
  0 < c1 -> 0 < c2 -> exists num den x, div_parts c1 c2 e num den x.
Proof.
  intros H1 H2. set (shift := ndigits c2 - ndigits c1 + prec + 1).
  destruct (Z.leb_spec 0 shift) as [Hs|Hs].
  - exists (c1 * 10 ^ shift), c2, (e - shift). split.
    + done.
    + apply (div_long c1 c2 _ _ shift 0); unfold shift in *; lia.
    + rewrite inject_Z_mult, <- ten_to_Z by done.
      assert (ten_to e == ten_to shift * ten_to (e - shift))%Q as ->; [|ring].
      rewrite <- ten_to_add. by replace (shift + (e - shift)) with e by lia.
    + unfold div_core. fold shift. rewrite (Zle_imp_le_bool _ _ Hs).
      destruct (_ =? 0); [by rewrite dval_strip_zeros|reflexivity].
  - assert (0 <= - shift) as Hs' by lia.
    exists c1, (c2 * 10 ^ (- shift)), (e - shift). split.
    + pose proof (Z.pow_pos_nonneg 10 (- shift) ltac:(lia) Hs'). nia.
    + apply (div_long c1 c2 _ _ 0 (- shift)); unfold shift in *; lia.
    + rewrite inject_Z_mult, <- ten_to_Z by done.
      assert (ten_to (e - shift) == ten_to e * ten_to (- shift))%Q as ->; [|ring].
      rewrite <- ten_to_add. by replace (e + - shift) with (e - shift) by lia.
    + unfold div_core. fold shift. destruct (Z.leb_spec 0 shift); [lia|].
      destruct (_ =? 0); [by rewrite dval_strip_zeros|reflexivity].
Qed.

Lemma inject_Z_pos z : 0 < z -> (0 < inject_Z z)%Q.
Proof. intros H. change 0%Q with (inject_Z 0). by rewrite <- Zlt_Qlt. Qed.

Section DivParts.
Context (c1 c2 e num den x : Z) (H2 : 0 < c2) (P : div_parts c1 c2 e num den x).

Lemma div_parts_cross m :
  (inject_Z c1 * ten_to e * inject_Z den == inject_Z num * (inject_Z c2 * ten_to x))%Q /\ (inject_Z m * ten_to x * inject_Z c2 * inject_Z den
   == inject_Z (m * den) * (inject_Z c2 * ten_to x))%Q.
Proof.
  split.
  - rewrite (dp_ratio _ _ _ _ _ _ P). ring.
  - rewrite inject_Z_mult. ring.
Qed.

Lemma div_parts_le m :
  (inject_Z m * ten_to x * inject_Z c2 <= inject_Z c1 * ten_to e)%Q <-> m * den <= num.
Proof.
  destruct (div_parts_cross m) as [E1 E2]. pose proof (dp_den_pos _ _ _ _ _ _ P) as Hd.
  rewrite <- (Qmult_le_r _ _ _ (inject_Z_pos _ Hd)), E1, E2, Qmult_le_r.
  - by rewrite <- Zle_Qle.
  - apply Qmult_lt_0_compat; [by apply inject_Z_pos | apply ten_to_pos].
Qed.

Lemma div_parts_ge m :
  (inject_Z c1 * ten_to e <= inject_Z m * ten_to x * inject_Z c2)%Q <-> num <= m * den.
Proof.
  destruct (div_parts_cross m) as [E1 E2]. pose proof (dp_den_pos _ _ _ _ _ _ P) as Hd.
  rewrite <- (Qmult_le_r _ _ _ (inject_Z_pos _ Hd)), E1, E2, Qmult_le_r.
  - by rewrite <- Zle_Qle.
  - apply Qmult_lt_0_compat; [by apply inject_Z_pos | apply ten_to_pos].
Qed.
End DivParts.

(** A threshold below the exact quotient of positive numbers is below the
    sticky 29-digit quotient, and a threshold above it is above. *)
Lemma div_core_ge t c1 c2 e :
  representable t -> 0 < c1 -> 0 < c2 ->
  (dval t * inject_Z c2 <= inject_Z c1 * ten_to e)%Q ->
  (dval t <= dval (div_core c1 c2 e))%Q.
Proof.
  intros Ht H1 H2 H. destruct (div_core_parts c1 c2 e H1 H2) as (n & d & x & P).
  pose proof P as [Hd Hl _ ->]. set (q := n / d) in *.
  assert (Hq : q <= (if n mod d =? 0 then q else if q mod 5 =? 0 then q + 1 else q))
    by (destruct (_ =? 0); [lia|destruct (_ =? 0); lia]).
  apply scaled_le with (e := x) in Hq. eapply Qle_trans; [|exact Hq]. clear Hq.
  destruct (threshold_grid t x Ht) as [[m Hm]|[_ Hm]].
  - rewrite Hm in H |- *. apply scaled_le. apply (div_parts_le _ _ _ _ _ _ H2 P) in H.
    apply Z.div_le_lower_bound; lia.
  - apply Qlt_le_weak. eapply Qlt_le_trans; [exact Hm|]. apply scaled_le.
    etransitivity; [|exact Hl]. by apply Z.pow_le_mono_r.
Qed.

Lemma div_core_le t c1 c2 e :
  representable t -> 0 < c1 -> 0 < c2 ->
  (inject_Z c1 * ten_to e <= dval t * inject_Z c2)%Q ->
  (dval (div_core c1 c2 e) <= dval t)%Q.
Proof.
  intros Ht H1 H2 H. destruct (div_core_parts c1 c2 e H1 H2) as (n & d & x & P).
  pose proof P as [Hd Hl _ ->]. destruct (threshold_grid t x Ht) as [[m Hm]|[_ Hm]].
  - rewrite Hm in H |- *. apply scaled_le. apply (div_parts_ge _ _ _ _ _ _ H2 P) in H.
    pose proof (Z.div_mod n d ltac:(lia)) as E. pose proof (Z.mod_pos_bound n d Hd).
    destruct (Z.eqb_spec (n mod d) 0); [nia|]. destruct (_ =? 0); nia.
  - exfalso. assert (n <= 10 ^ (prec - 1) * d) as Hn.
    { apply (div_parts_ge _ _ _ _ _ _ H2 P). eapply Qle_trans; [exact H|].
      apply Qlt_le_weak. apply Qmult_lt_r; [by apply inject_Z_pos|done]. }
    apply (Z.div_le_mono _ _ d Hd) in Hn. rewrite Z.div_mul in Hn by lia.
    assert (10 ^ (prec - 1) < 10 ^ prec) by done. lia.
Qed.

Lemma div_core_pos c1 c2 e : 0 < c1 -> 0 < c2 -> (0 <= dval (div_core c1 c2 e))%Q.
Proof.
  intros H1 H2. rewrite <- dval_zero. apply div_core_ge; [done..|].
  rewrite dval_zero, Qmult_0_l. apply Qmult_le_0_compat.
  - by apply Qlt_le_weak, inject_Z_pos.
  - apply Qlt_le_weak, ten_to_pos.
Qed.

(** Quotient by a positive number. *)
Lemma ddiv_pos a b r :
  (0 < dval b)%Q -> ddiv a b = Some r ->
  (dval a == 0)%Q /\ (dval r == 0)%Q \/
  (0 < dval a)%Q /\ r = dfix (div_core (coef a) (coef b) (dexp a - dexp b)) \/
  (dval a < 0)%Q /\ r = dfix (copy_neg (div_core (- coef a) (coef b) (dexp a - dexp b))).
Proof.
  intros Hb Hr. apply dval_sign in Hb. unfold ddiv in Hr.
  destruct (Z.eqb_spec (coef b) 0); [lia|]. rewrite (Z.abs_eq (coef b)) in Hr by lia.
  rewrite (Z.sgn_pos (coef b)) in Hr by done.
  destruct (Z.eqb_spec (coef a) 0) as [Ha|Ha]; simplify_eq.
  - left. unfold dval. cbn [coef dexp]. rewrite Ha. split; ring.
  - right. destruct (Z.lt_trichotomy (coef a) 0) as [Hn|[?|Hp]]; [right|done|left].
    + split; [by apply dval_sign|]. rewrite Z.sgn_neg, Z.abs_neq by lia.
      do 2 f_equal; lia.
    + split; [by apply dval_sign|]. rewrite Z.sgn_pos, Z.abs_eq by lia.
      f_equal. destruct (div_core _ _ _) as [c e]. cbn [coef dexp]. f_equal. lia.
Qed.

Lemma cross_exp c a b :
  (inject_Z c * ten_to (dexp a - dexp b) * ten_to (dexp b) == inject_Z c * ten_to (dexp a))%Q.
Proof.
  rewrite <- Qmult_assoc, <- ten_to_add. by replace (dexp a - dexp b + dexp b) with (dexp a) by lia.
Qed.

Lemma cross_div t c a b :
  (dval t * dval b <= inject_Z c * ten_to (dexp a))%Q <->
  (dval t * inject_Z (coef b) <= inject_Z c * ten_to (dexp a - dexp b))%Q.
Proof.
  rewrite <- (Qmult_le_r (dval t * inject_Z (coef b)) _ _ (ten_to_pos (dexp b))).
  by rewrite cross_exp, <- Qmult_assoc.
Qed.

Lemma cross_div' t c a b :
  (inject_Z c * ten_to (dexp a) <= dval t * dval b)%Q <->
  (inject_Z c * ten_to (dexp a - dexp b) <= dval t * inject_Z (coef b))%Q.
Proof.
  rewrite <- (Qmult_le_r _ (dval t * inject_Z (coef b)) _ (ten_to_pos (dexp b))).
  by rewrite cross_exp, <- Qmult_assoc.
Qed.

(** Division by a positive number never crosses a representable threshold:
    [t <= a / b] exactly implies [t <= a / b] as computed, and conversely an
    exact quotient at most [t] is computed at most [t]. *)
Lemma ddiv_ge t a b r :
  representable t -> (0 < dval b)%Q -> ddiv a b = Some r ->
  (dval t * dval b <= dval a)%Q -> (dval t <= dval r)%Q.
Proof.
  intros Ht Hb Hr H. pose proof (proj2 (proj1 (dval_sign b)) Hb) as Hcb.
  destruct (ddiv_pos _ _ _ Hb Hr) as [[Ha ->]|[[Ha ->]|[Ha ->]]].
  - rewrite Ha in H. apply Qnot_lt_le. intros Hlt.
    pose proof (Qmult_lt_0_compat _ _ Hlt Hb). lra.
  - apply dfix_ge; [done|]. apply dval_sign in Ha. apply div_core_ge; [done..|].
    by apply cross_div.
  - apply dfix_ge; [done|]. rewrite dval_copy_neg. apply dval_sign in Ha.
    assert (dval (div_core (- coef a) (coef b) (dexp a - dexp b)) <= dval (copy_neg t))%Q as Hm;
      [|rewrite dval_copy_neg in Hm; lra].
    apply div_core_le; [by apply copy_neg_representable|lia|done|].
    apply cross_div'. rewrite dval_copy_neg, inject_Z_opp. unfold dval in H at 3. lra.
Qed.

Lemma ddiv_le t a b r :
  representable t -> (0 < dval b)%Q -> ddiv a b = Some r ->
  (dval a <= dval t * dval b)%Q -> (dval r <= dval t)%Q.
Proof.
  intros Ht Hb Hr H. pose proof (proj2 (proj1 (dval_sign b)) Hb) as Hcb.
  destruct (ddiv_pos _ _ _ Hb Hr) as [[Ha ->]|[[Ha ->]|[Ha ->]]].
  - rewrite Ha in H. apply Qnot_lt_le. intros Hlt.
    assert (0 < - dval t)%Q as Hneg by lra.
    pose proof (Qmult_lt_0_compat _ _ Hneg Hb). lra.
  - apply dfix_le; [done|]. apply dval_sign in Ha. apply div_core_le; [done..|].
    by apply cross_div'.
  - apply dfix_le; [done|]. rewrite dval_copy_neg. apply dval_sign in Ha.
    assert (dval (copy_neg t) <= dval (div_core (- coef a) (coef b) (dexp a - dexp b)))%Q as Hm;
      [|rewrite dval_copy_neg in Hm; lra].
    apply div_core_ge; [by apply copy_neg_representable|lia|done|].
    apply cross_div. rewrite dval_copy_neg, inject_Z_opp. unfold dval in H at 1. lra.
Qed.

Lemma ddiv_some a b : (0 < dval b)%Q -> is_Some (ddiv a b).
Proof.
  intros Hb. apply dval_sign in Hb. unfold ddiv.
  destruct (Z.eqb_spec (coef b) 0); [lia|]. destruct (_ =? 0); eauto.
Qed.

(** ** Values on a grid *)

Lemma ten_to_split b e : e <= 0 -> (inject_Z b == inject_Z (b * 10 ^ (- e)) * ten_to e)%Q.
Proof.
  intros He. rewrite inject_Z_mult, <- ten_to_Z by lia. rewrite <- Qmult_assoc, <- ten_to_add.
  replace (- e + e) with 0 by lia. change (ten_to 0) with 1%Q. ring.
Qed.

Lemma abs_dval d : (Qabs (dval d) == inject_Z (Z.abs (coef d)) * ten_to (dexp d))%Q.
Proof. rewrite <- dval_abs_exact. reflexivity. Qed.

(** Values of bounded size on a grid add exactly. *)
Lemma add_fits_grid a b m g :
  0 <= g -> - g <= dexp a -> - g <= dexp b -> m * 10 ^ g < 10 ^ prec ->
  (Qabs (dval a + dval b) <= inject_Z m)%Q -> add_fits a b.
Proof.
  intros Hg Ha Hb Hm Hs. unfold add_fits. set (e := common a b).
  assert (- g <= e) as He by (unfold e, common; lia).
  rewrite (dval_scale a e), (dval_scale b e) in Hs by (unfold e, common; lia).
  assert (Qabs (inject_Z (scale a e) * ten_to e + inject_Z (scale b e) * ten_to e)
          == inject_Z (Z.abs (scale a e + scale b e)) * ten_to e)%Q as Hq.
  { transitivity (Qabs (dval (Dec (scale a e + scale b e) e))).
    - apply Qabs_wd. unfold dval. cbn [coef dexp]. rewrite inject_Z_plus. ring.
    - apply abs_dval. }
  rewrite Hq in Hs. rewrite (ten_to_split m (- g)) in Hs by lia.
  rewrite Z.opp_involutive in Hs.
  assert (inject_Z (Z.abs (scale a e + scale b e)) * ten_to (- g)
          <= inject_Z (Z.abs (scale a e + scale b e)) * ten_to e)%Q as Hge.
  { rewrite !(Qmult_comm (inject_Z _)). apply Qmult_le_compat_r; [by apply ten_to_le|].
    change 0%Q with (inject_Z 0). rewrite <- Zle_Qle. lia. }
  pose proof (Qle_trans _ _ _ Hge Hs) as Hf. apply scaled_le in Hf. lia.
Qed.

Lemma dadd_grid a b m g :
  0 <= g -> - g <= dexp a -> - g <= dexp b -> m * 10 ^ g < 10 ^ prec ->
  (Qabs (dval a + dval b) <= inject_Z m)%Q ->
  (dval (dadd a b) == dval a + dval b)%Q /\ - g <= dexp (dadd a b).
Proof.
  intros Hg Ha Hb Hm Hs. pose proof (add_fits_grid a b m g Hg Ha Hb Hm Hs) as Hf.
  split; [by apply dval_dadd|]. unfold dadd. rewrite dfix_small by done. cbn [dexp].
  unfold common. lia.
Qed.

(** [sum(l, Decimal(0))] *)
Definition dsum (l : list dec) : dec := fold_left dadd l dzero.

(** The exact sum. *)
Fixpoint qsum (l : list dec) : Q :=
  match l with
  | [] => 0%Q
  | d :: r => (dval d + qsum r)%Q
  end.

Lemma qsum_app l l' : (qsum (l ++ l') == qsum l + qsum l')%Q.
Proof. induction l as [|d l IH]; cbn [app qsum]; [ring|rewrite IH; ring]. Qed.

Lemma qsum_bound l b :
  Forall (fun d => Qabs (dval d) <= inject_Z b)%Q l ->
  (Qabs (qsum l) <= inject_Z (Z.of_nat (List.length l) * b))%Q.
Proof.
  induction 1 as [|d l Hd Hl IH]; [done|]. cbn [qsum List.length].
  eapply Qle_trans; [apply Qabs_triangle|]. rewrite Nat2Z.inj_succ, Z.mul_succ_l, inject_Z_plus. lra.
Qed.

(** Summing values on a grid is exact while the bounds fit. *)
Lemma dsum_grid l b g :
  0 <= g -> 0 <= b -> Forall (fun d => - g <= dexp d) l ->
  Forall (fun d => Qabs (dval d) <= inject_Z b)%Q l ->
  Z.of_nat (List.length l) * b * 10 ^ g < 10 ^ prec ->
  (dval (dsum l) == qsum l)%Q /\ - g <= dexp (dsum l).
Proof.
  intros Hg Hb He Hv Hm. unfold dsum. induction l as [|d l IH] using rev_ind.
  - split; [reflexivity|]. cbn. lia.
  - apply Forall_app in He as [He Hd]. apply Forall_app in Hv as [Hv Hdv].
    inversion Hd as [|? ? Hde _]. inversion Hdv as [|? ? Hdb _]. subst.
    rewrite length_app, Nat2Z.inj_add in Hm. cbn [List.length] in Hm.
    pose proof (Z.pow_pos_nonneg 10 g ltac:(lia) Hg) as Hp.
    destruct IH as [IHv IHe]; [done|done|nia|].
    rewrite fold_left_app. cbn [fold_left]. rewrite qsum_app. cbn [qsum].
    destruct (dadd_grid (fold_left dadd l dzero) d (Z.of_nat (List.length l + 1) * b) g Hg IHe Hde)
      as [Hv' He'].
    + rewrite Nat2Z.inj_add. cbn [Z.of_nat]. nia.
    + rewrite IHv. eapply Qle_trans; [apply Qabs_triangle|].
      pose proof (qsum_bound l b Hv) as Hq.
      rewrite Nat2Z.inj_add, Z.mul_add_distr_r, inject_Z_plus. change (Z.of_nat 1 * b) with (1 * b).
      rewrite Z.mul_1_l. lra.
    + split; [|done]. rewrite Hv', IHv. ring.
Qed.

(** ** Quantities on a grid

    [g] digits after the point, at most [m] units: sums of such quantities are exact
    while they fit in the 28 digits of the context. *)
Section Grid.
Context (g : Z).

Definition grid (m : Z) (d : dec) : Prop :=
  - g <= dexp d /\ (Qabs (dval d) <= inject_Z m)%Q.

Definition opt_grid (m : Z) (o : option dec) : Prop :=
  match o with
  | Some d => grid m d
  | None => True
  end.

Lemma grid_zero m : 0 <= g -> 0 <= m -> grid m dzero.
Proof.
  intros Hg Hm. split; [cbn; lia|]. rewrite dval_zero. cbn. rewrite Zle_Qle in Hm. exact Hm.
Qed.

Lemma grid_mono m m' d : m <= m' -> grid m d -> grid m' d.
Proof.
  intros Hm [He Hd]. split; [done|]. eapply Qle_trans; [exact Hd|]. by rewrite <- Zle_Qle.
Qed.

Lemma grid_copy_neg m d : grid m d -> grid m (copy_neg d).
Proof. intros [He Hd]. split; [done|]. by rewrite dval_copy_neg, Qabs_opp. Qed.

Lemma grid_add m n a b :
  0 <= g -> (m + n) * 10 ^ g < 10 ^ prec -> grid m a -> grid n b ->
  (dval (dadd a b) == dval a + dval b)%Q /\ grid (m + n) (dadd a b).
Proof.
  intros Hg Hm [Ha Hva] [Hb Hvb].
  assert (Qabs (dval a + dval b) <= inject_Z (m + n))%Q as Hs.
  { eapply Qle_trans; [apply Qabs_triangle|]. rewrite inject_Z_plus. lra. }
  destruct (dadd_grid a b (m + n) g Hg Ha Hb Hm Hs) as [Hv He].
  split; [done|]. split; [done|]. by rewrite Hv.
Qed.

Lemma grid_sub m n a b :
  0 <= g -> (m + n) * 10 ^ g < 10 ^ prec -> grid m a -> grid n b ->
  (dval (dsub a b) == dval a - dval b)%Q /\ grid (m + n) (dsub a b).
Proof.
  intros Hg Hm Ha Hb. destruct (grid_add m n a (copy_neg b) Hg Hm Ha (grid_copy_neg n b Hb)) as [Hv He].
  split; [|done]. unfold dsub. rewrite Hv, dval_copy_neg. ring.
Qed.

(** Amounts that are not negative add up exactly while their sum fits. *)
Lemma dsum_grid_pos m l :
  0 <= g -> (m + m) * 10 ^ g < 10 ^ prec ->
  Forall (fun d => grid m d /\ (0 <= dval d)%Q) l -> (qsum l <= inject_Z m)%Q -> 0 <= m ->
  (dval (dsum l) == qsum l)%Q /\ grid m (dsum l).
Proof.
  intros Hg Hm Hl Hs Hm0. unfold dsum. induction l as [|d l IH] using rev_ind.
  - split; [reflexivity|]. by apply grid_zero.
  - apply Forall_app in Hl as [Hl [Hd Hd0]%Forall_singleton]. rewrite qsum_app in Hs |- *. cbn [qsum] in *.
    rewrite fold_left_app. cbn [fold_left].
    assert (0 <= qsum l)%Q as Hl0.
    { clear -Hl. induction Hl as [|x l [_ Hx] _ IHl]; cbn [qsum]; [apply Qle_refl|]. lra. }
    destruct (IH Hl) as [Hv Hg']; [lra|].
    destruct (grid_add m m _ d Hg Hm Hg' Hd) as [Hv' [He _]]. split; [rewrite Hv', Hv; ring|].
    split; [done|]. rewrite Hv', Hv, Qabs_pos by lra. lra.
Qed.
End Grid.

(** Products: the digits and the bounds multiply. *)
Lemma coef_grid g m d : 0 <= g -> grid g m d -> Z.abs (coef d) <= m * 10 ^ g.
Proof.
  intros Hg [He Hd]. rewrite abs_dval in Hd. rewrite (ten_to_split m (- g)), Z.opp_involutive in Hd by lia.
  apply (scaled_le _ _ (- g)). eapply Qle_trans; [|exact Hd].
  rewrite !(Qmult_comm (inject_Z _)). apply Qmult_le_compat_r; [by apply ten_to_le|].
  change 0%Q with (inject_Z 0). rewrite <- Zle_Qle. lia.
Qed.

Lemma grid_mul g g' m m' a b :
  0 <= g -> 0 <= g' -> m * m' * 10 ^ (g + g') < 10 ^ prec -> grid g m a -> grid g' m' b ->
  (dval (dmul a b) == dval a * dval b)%Q /\ grid (g + g') (m * m') (dmul a b).
Proof.
  intros Hg Hg' Hm Ha Hb. pose proof (coef_grid g m a Hg Ha). pose proof (coef_grid g' m' b Hg' Hb).
  rewrite Z.pow_add_r in Hm by lia. unfold dmul. rewrite dfix_small by (cbn [coef]; rewrite Z.abs_mul; nia).
  assert (dval (Dec (coef a * coef b) (dexp a + dexp b)) == dval a * dval b)%Q as Hv by apply dval_mul_exact.
  split; [done|]. destruct Ha as [Hea Ha], Hb as [Heb Hb]. split; [cbn; lia|].
  rewrite Hv, Qabs_Qmult, inject_Z_mult. apply Qmult_le_compat_nonneg; split; try done; apply Qabs_nonneg.
Qed.
