(* ===== verification/PyFormat.v ===== *)
(** * Text forms of times and numbers

    [datetime.isoformat()], [str(datetime)], and the fixed-point formats of
    decimals. *)
From Stdlib Require Import Ascii String.
From S2P Require Import Prelude PyDecimal DecArith.
Open Scope Z_scope.

(** ** Calendar *)

(** Proleptic Gregorian date of a day number counted from 1970-01-01. *)
Definition civil_from_days (z0 : Z) : Z * Z * Z :=
  let z := z0 + 719468 in
  let era := z / 146097 in
  let doe := z - era * 146097 in
  let yoe := (doe - doe / 1460 + doe / 36524 - doe / 146096) / 365 in
  let doy := doe - (365 * yoe + yoe / 4 - yoe / 100) in
  let mp := (5 * doy + 2) / 153 in
  let d := doy - (153 * mp + 2) / 5 + 1 in
  let m := if mp <? 10 then mp + 3 else mp - 9 in
  (yoe + era * 400 + (if m <=? 2 then 1 else 0), m, d).

(** [d.weekday()] of a day number: Monday is 0. *)
Definition weekday (d : Z) : Z := (d + 3) mod 7.

(** [date.max]; a later date raises [OverflowError]. *)
Definition date_max : Z := 2932896.

(** [n] with at least [k] digits. *)
Definition pad_int (k : nat) (n : Z) : list ascii :=
  let ds := digits n in
  digit_chars (repeat 0 (k - List.length ds) ++ ds).

Definition time_chars (sep : ascii) (t : Z) : list ascii :=
  let '(y, m, d) := civil_from_days (t / day) in
  let r := t mod day in
  let us := r mod sec in
  pad_int 4 y ++ "-"%char :: pad_int 2 m ++ "-"%char :: pad_int 2 d ++ sep ::
  pad_int 2 (r / hour) ++ ":"%char :: pad_int 2 (r mod hour / minute) ++ ":"%char ::
  pad_int 2 (r mod minute / sec) ++ (if us =? 0 then [] else "."%char :: pad_int 6 us).

(** [t.isoformat()] and [str(t)] of a naive datetime, in microseconds from
    1970-01-01. *)
Definition isoformat (t : Z) : string := string_of_list_ascii (time_chars "T"%char t).
Definition datetime_str (t : Z) : string := string_of_list_ascii (time_chars " "%char t).

(** [d.isoformat()] of a date. *)
Definition date_iso (d : Z) : string :=
  let '(y, m, d) := civil_from_days d in
  string_of_list_ascii (pad_int 4 y ++ "-"%char :: pad_int 2 m ++ "-"%char :: pad_int 2 d).

(** A [datetime]: without a time zone, or in UTC; the text of the latter has the
    offset. *)
Inductive datetime :=
  | Naive (t : Z)
  | Utc (t : Z).

Definition iso (t : datetime) : string :=
  match t with
  | Naive t => isoformat t
  | Utc t => isoformat t +:+ "+00:00"
  end.

Example isoformat_ex1 : isoformat 0 = "1970-01-01T00:00:00"%string.
Proof. reflexivity. Qed.
Example isoformat_ex2 : isoformat 1709209845000250 = "2024-02-29T12:30:45.000250"%string.
Proof. vm_compute. reflexivity. Qed.

(** ** Fixed-point formatting *)

(** The text of [n / 10^places] for [n >= 0]. *)
Definition fixed_chars (places : nat) (n : Z) : list ascii :=
  let ds := digits n in
  let padded := repeat 0 (S places - List.length ds) ++ ds in
  let k := (List.length padded - places)%nat in
  digit_chars (take k padded) ++
  match places with
  | O => []
  | S _ => char_dot :: digit_chars (drop k padded)
  end.

(** The coefficient of [d] at exponent [-places], rounded half to even. *)
Definition rescale (places : nat) (d : dec) : Z :=
  let e := - Z.of_nat places in
  if e <=? dexp d then Z.abs (coef d) * 10 ^ (dexp d - e)
  else round_half_even (Z.abs (coef d)) (e - dexp d).

(** [f"{d:.2f}"] and [f"{d:.1%}"] *)
Definition dec_fixed (places : nat) (d : dec) : string :=
  string_of_list_ascii
    ((if coef d <? 0 then [char_minus] else []) ++ fixed_chars places (rescale places d)).

Definition dec_pct (places : nat) (d : dec) : string :=
  dec_fixed places (Dec (coef d) (dexp d + 2)) +:+ "%".

Example dec_fixed_ex : dec_fixed 2 (Dec 3146 (-3)) = "3.15"%string.
Proof. reflexivity. Qed.
Example dec_pct_ex : dec_pct 1 (Dec 25 (-2)) = "25.0%"%string.
Proof. reflexivity. Qed.
Example dec_pct_small : dec_pct 1 (Dec (-4) (-4)) = "-0.0%"%string.
Proof. reflexivity. Qed.
