(* ===== verification/PyTime.v ===== *)
(** * Reading times back: [datetime.fromisoformat]

    The inverse of [isoformat] of [PyFormat] for naive times: the calendar from a
    date to a day number, the text forms [YYYY-MM-DDTHH:MM:SS] and
    [YYYY-MM-DDTHH:MM:SS.ffffff], and that what [isoformat] prints is read back.
    The other forms the function accepts are not modelled. *)
From Stdlib Require Import Ascii String.
From S2P Require Import Prelude PyDecimal DecArith PyFormat.
Open Scope Z_scope.
Open Scope list_scope.

(** ** Calendar *)

Definition leap (y : Z) : bool := (y mod 4 =? 0) && (negb (y mod 100 =? 0) || (y mod 400 =? 0)).

Definition days_in_month (y m : Z) : Z :=
  if m =? 2 then (if leap y then 29 else 28)
  else if (m =? 4) || (m =? 6) || (m =? 9) || (m =? 11) then 30 else 31.

Definition valid_date (y m d : Z) : bool :=
  (1 <=? m) && (m <=? 12) && (1 <=? d) && (d <=? days_in_month y m).

(** The day number, counted from 1970-01-01, of a date. *)
Definition days_from_civil (y m d : Z) : Z :=
  let y' := if m <=? 2 then y - 1 else y in
  let era := y' / 400 in
  let yoe := y' - era * 400 in
  let mp := if m <=? 2 then m + 9 else m - 3 in
  let doy := (153 * mp + 2) / 5 + d - 1 in
  let doe := yoe * 365 + yoe / 4 - yoe / 100 + doy in
  era * 146097 + doe - 719468.

(** The year of a cycle of 400 years and the day of that year, from the day of the
    cycle; years begin in March. *)
Lemma cycle_year doe :
  0 <= doe < 146097 ->
  let yoe := (doe - doe / 1460 + doe / 36524 - doe / 146096) / 365 in
  let doy := doe - (365 * yoe + yoe / 4 - yoe / 100) in
  0 <= yoe < 400 /\ 0 <= doy < 366 /\
  (doy = 365 -> (yoe + 1) mod 4 = 0 /\ ((yoe + 1) mod 100 <> 0 \/ (yoe + 1) mod 400 = 0)).
Proof. intros H. cbn zeta. Z.div_mod_to_equations. lia. Qed.

(** The month and the day of the month. *)
Lemma year_month doy :
  0 <= doy < 366 ->
  let mp := (5 * doy + 2) / 153 in
  let d := doy - (153 * mp + 2) / 5 + 1 in
  0 <= mp <= 11 /\ 1 <= d <= 31 /\ (mp = 1 \/ mp = 3 \/ mp = 6 \/ mp = 8 -> d <= 30) /\
  (mp = 11 -> d <= 29 /\ (d = 29 -> doy = 365)).
Proof. intros H. cbn zeta. Z.div_mod_to_equations. lia. Qed.

Lemma leap_spec y k :
  y mod 4 = 0 /\ (y mod 100 <> 0 \/ y mod 400 = 0) -> leap (y + k * 400) = true.
Proof.
  unfold leap.
  replace ((y + k * 400) mod 4) with (y mod 4)
    by (replace (y + k * 400) with (y + k * 100 * 4) by lia; by rewrite Z.mod_add by lia).
  replace ((y + k * 400) mod 100) with (y mod 100)
    by (replace (y + k * 400) with (y + k * 4 * 100) by lia; by rewrite Z.mod_add by lia).
  rewrite Z.mod_add by lia. intros [-> Hy]. cbn.
  destruct (Z.eqb_spec (y mod 100) 0), (Z.eqb_spec (y mod 400) 0); try done. tauto.
Qed.

(** The days of [datetime]: from 0001-01-01 to 9999-12-31. *)
Definition date_min : Z := -719162.

(** The first 306 days are in the year 0, the last 61 days of the last cycle in 10000. *)
Lemma year_bounds doe era :
  0 <= doe < 146097 -> date_min <= era * 146097 + doe - 719468 <= date_max ->
  let yoe := (doe - doe / 1460 + doe / 36524 - doe / 146096) / 365 in
  let doy := doe - (365 * yoe + yoe / 4 - yoe / 100) in
  let mp := (5 * doy + 2) / 153 in
  0 <= era <= 24 /\ (era = 0 -> yoe = 0 -> 10 <= mp) /\ (era = 24 -> yoe = 399 -> mp < 10).
Proof. unfold date_min, date_max. intros H Hz. cbn zeta. Z.div_mod_to_equations. lia. Qed.

(** A day number is the one of its date; the date is valid, and its year is one of
    [datetime]. *)
Lemma civil_roundtrip z y m d :
  civil_from_days z = (y, m, d) ->
  days_from_civil y m d = z /\ valid_date y m d = true /\ (date_min <= z <= date_max -> 1 <= y <= 9999).
Proof.
  unfold civil_from_days. set (era := (z + 719468) / 146097). set (doe := z + 719468 - era * 146097).
  assert (0 <= doe < 146097) as Hdoe by (unfold doe, era; Z.div_mod_to_equations; lia).
  pose proof (cycle_year doe Hdoe) as (Hyoe & Hdoy & Hleap). cbn zeta in Hyoe, Hdoy, Hleap |- *.
  set (yoe := (doe - doe / 1460 + doe / 36524 - doe / 146096) / 365) in *.
  set (doy := doe - (365 * yoe + yoe / 4 - yoe / 100)) in *.
  pose proof (year_month doy Hdoy) as (Hmp & Hd & H30 & Hfeb). cbn zeta in Hmp, Hd, H30, Hfeb.
  set (mp := (5 * doy + 2) / 153) in *. set (dd := doy - (153 * mp + 2) / 5 + 1) in *.
  intros [= <- <- <-]. split_and!.
  - unfold days_from_civil. destruct (Z.ltb_spec mp 10).
    + destruct (Z.leb_spec (mp + 3) 2); [lia|]. rewrite Z.add_0_r, Z.div_add by lia.
      rewrite (Z.div_small yoe 400) by lia. replace (mp + 3 - 3) with mp by lia.
      replace (yoe + era * 400 - (0 + era) * 400) with yoe by lia. unfold dd, doy, doe. lia.
    + destruct (Z.leb_spec (mp - 9) 2); [|lia].
      replace (yoe + era * 400 + 1 - 1) with (yoe + era * 400) by lia. rewrite Z.div_add by lia.
      rewrite (Z.div_small yoe 400) by lia. replace (mp - 9 + 9) with mp by lia.
      replace (yoe + era * 400 - (0 + era) * 400) with yoe by lia. unfold dd, doy, doe. lia.
  - unfold valid_date, days_in_month. destruct (Z.ltb_spec mp 10) as [Hlt|Hge].
    + destruct (Z.eqb_spec (mp + 3) 2); [lia|].
      destruct (Z.eqb_spec (mp + 3) 4), (Z.eqb_spec (mp + 3) 6), (Z.eqb_spec (mp + 3) 9),
        (Z.eqb_spec (mp + 3) 11); cbn [orb]; lia.
    + destruct (Z.leb_spec (mp - 9) 2); [|lia]. destruct (Z.eqb_spec (mp - 9) 2) as [E|E].
      * assert (dd <= 29 /\ (dd = 29 -> leap (yoe + 1 + era * 400) = true)) as [H29 Hl].
        { assert (mp = 11) as E' by lia. destruct (Hfeb E') as [H29 Hl]. split; [done|].
          intros E29. by apply leap_spec, Hleap, Hl. }
        replace (yoe + era * 400 + 1) with (yoe + 1 + era * 400) by lia.
        destruct (leap _) eqn:El; [lia|]. assert (dd <> 29) by (intros E29; specialize (Hl E29); congruence). lia.
      * destruct (Z.eqb_spec (mp - 9) 4), (Z.eqb_spec (mp - 9) 6), (Z.eqb_spec (mp - 9) 9),
          (Z.eqb_spec (mp - 9) 11); cbn [orb]; lia.
  - intros Hz. destruct (year_bounds doe era Hdoe) as (He & H0 & H24); [unfold doe; lia|].
    cbn zeta in H0, H24. fold yoe doy mp in H0, H24.
    destruct (Z.ltb_spec mp 10), (Z.leb_spec (mp + 3) 2), (Z.leb_spec (mp - 9) 2); lia.
Qed.

(** ** Reading *)

(** [k] decimal digits. *)
Fixpoint read_digits (k : nat) (acc : Z) (l : list ascii) : option (Z * list ascii) :=
  match k with
  | O => Some (acc, l)
  | S k =>
      match l with
      | c :: r => match char_digit c with
                  | Some d => read_digits k (acc * 10 + d) r
                  | None => None
                  end
      | [] => None
      end
  end.

Definition read_char (c : ascii) (l : list ascii) : option (list ascii) :=
  match l with
  | x :: r => if decide (x = c) then Some r else None
  | [] => None
  end.

(** The fraction of a second, six digits, up to the end. *)
Definition read_fraction (l : list ascii) : option Z :=
  match l with
  | [] => Some 0
  | _ => l ← read_char "."%char l;
         '(us, l) ← read_digits 6 0 l;
         if bool_decide (l = []) then Some us else None
  end.

(** [datetime.fromisoformat(s)] of a text in one of the two forms; [None] is
    [ValueError], or another form. *)
Definition read_time (l : list ascii) : option Z :=
  '(y, l) ← read_digits 4 0 l; l ← read_char "-"%char l;
  '(mo, l) ← read_digits 2 0 l; l ← read_char "-"%char l;
  '(d, l) ← read_digits 2 0 l; l ← read_char "T"%char l;
  '(h, l) ← read_digits 2 0 l; l ← read_char ":"%char l;
  '(mi, l) ← read_digits 2 0 l; l ← read_char ":"%char l;
  '(s, l) ← read_digits 2 0 l; us ← read_fraction l;
  if (1 <=? y) && valid_date y mo d && (h <? 24) && (mi <? 60) && (s <? 60) then
    Some (days_from_civil y mo d * day + h * hour + mi * minute + s * sec + us)
  else None.

Definition fromisoformat (s : string) : option Z := read_time (list_ascii_of_string s).

Example fromisoformat_ex :
  map fromisoformat
    ["1970-01-01T00:00:00"; "2024-02-29T12:30:45.000250"; "2023-02-29T00:00:00"; "today"; ""]%string
  = [Some 0; Some 1709209845000250; None; None; None].
Proof. vm_compute. reflexivity. Qed.

(** ** What is printed is read back *)

Lemma read_digit_chars k n acc ds r :
  Forall is_digit ds -> List.length ds = k -> undigits ds = n ->
  read_digits k acc (digit_chars ds ++ r) = Some (acc * 10 ^ Z.of_nat k + n, r).
Proof.
  intros Hds <- <-. revert acc. induction Hds as [|d ds Hd Hds IH]; intros acc.
  - cbn [digit_chars map app List.length read_digits]. change (undigits []) with 0.
    by replace (acc * 10 ^ Z.of_nat 0 + 0) with acc by lia.
  - cbn [digit_chars map app List.length read_digits]. rewrite (char_digit_char d Hd).
    unfold digit_chars in IH. rewrite IH.
    assert (undigits (d :: ds) = d * 10 ^ Z.of_nat (List.length ds) + undigits ds) as ->.
    { change (d :: ds) with ([d] ++ ds). rewrite undigits_app. change (undigits [d]) with d. lia. }
    rewrite Nat2Z.inj_succ, Z.pow_succ_r by lia.
    by replace ((acc * 10 + d) * 10 ^ Z.of_nat (List.length ds) + undigits ds)
      with (acc * (10 * 10 ^ Z.of_nat (List.length ds)) + (d * 10 ^ Z.of_nat (List.length ds) + undigits ds)) by lia.
Qed.

Lemma read_pad k n r :
  (0 < k)%nat -> 0 <= n < 10 ^ Z.of_nat k -> read_digits k 0 (pad_int k n ++ r) = Some (n, r).
Proof.
  intros Hk Hn. unfold pad_int.
  assert (List.length (digits n) <= k)%nat as Hl.
  { pose proof (ndigits_small n (Z.of_nat k) ltac:(lia) ltac:(lia)) as Hs.
    unfold ndigits in Hs. rewrite Z.abs_eq in Hs by lia. lia. }
  rewrite (read_digit_chars k n 0 (repeat 0 (k - List.length (digits n)) ++ digits n) r).
  - rewrite Z.mul_0_l, Z.add_0_l. done.
  - apply Forall_app. split; [apply zeros_digits|apply digits_range; lia].
  - rewrite length_app, repeat_length. lia.
  - rewrite undigits_zeros. apply undigits_digits. lia.
Qed.

Lemma read_char_here c r : read_char c (c :: r) = Some r.
Proof. unfold read_char. by rewrite decide_True. Qed.

(** The parts of a time within its day. *)
Lemma time_parts t :
  let r := t mod day in
  t = t / day * day + r / hour * hour + r mod hour / minute * minute + r mod minute / sec * sec + r mod sec /\
  0 <= r / hour < 24 /\ 0 <= r mod hour / minute < 60 /\ 0 <= r mod minute / sec < 60 /\ 0 <= r mod sec < sec.
Proof. unfold day, hour, minute, sec. cbn zeta. Z.div_mod_to_equations. lia. Qed.

(** [fromisoformat(t.isoformat()) == t] for every time a [datetime] can hold. *)
Lemma fromisoformat_isoformat t :
  date_min <= t / day <= date_max -> fromisoformat (isoformat t) = Some t.
Proof.
  intros Ht. unfold fromisoformat, isoformat, time_chars. rewrite list_ascii_of_string_of_list_ascii.
  destruct (civil_from_days (t / day)) as [[y m] d] eqn:E.
  apply civil_roundtrip in E as (Ed & Hv & Hy). specialize (Hy Ht).
  assert (1 <= m <= 12 /\ 1 <= d <= 31) as [Hm Hd].
  { unfold valid_date, days_in_month in Hv. rewrite !andb_true_iff in Hv. repeat case_match; lia. }
  destruct (time_parts t) as (Et & Hh & Hmi & Hs & Hus). cbn zeta.
  set (h := t mod day / hour) in *. set (mi := t mod day mod hour / minute) in *.
  set (s := t mod day mod minute / sec) in *. set (us := t mod day mod sec) in *.
  unfold read_time.
  rewrite read_pad by (cbn; lia). cbn [mbind option_bind]. rewrite read_char_here. cbn [mbind option_bind].
  rewrite read_pad by (cbn; lia). cbn [mbind option_bind]. rewrite read_char_here. cbn [mbind option_bind].
  rewrite read_pad by (cbn; lia). cbn [mbind option_bind]. rewrite read_char_here. cbn [mbind option_bind].
  rewrite read_pad by (cbn; lia). cbn [mbind option_bind]. rewrite read_char_here. cbn [mbind option_bind].
  rewrite read_pad by (cbn; lia). cbn [mbind option_bind]. rewrite read_char_here. cbn [mbind option_bind].
  rewrite read_pad by (cbn; lia). cbn [mbind option_bind].
  assert (read_fraction (if us =? 0 then [] else "."%char :: pad_int 6 us) = Some us) as ->.
  { destruct (Z.eqb_spec us 0) as [->|]; [done|]. unfold read_fraction. rewrite read_char_here.
    cbn [mbind option_bind]. rewrite <- (app_nil_r (pad_int 6 us)), read_pad by (unfold sec in Hus; cbn; lia).
    done. }
  cbn [mbind option_bind]. rewrite Hv, (proj2 (Z.leb_le 1 y)), !(proj2 (Z.ltb_lt _ _)) by lia. cbn [andb].
  f_equal. rewrite Ed. lia.
Qed.

(** A printed time is not empty. *)
Lemma isoformat_truthy t : date_min <= t / day <= date_max -> truthy (Some (isoformat t)) = true.
Proof.
  intros Ht. apply fromisoformat_isoformat in Ht. unfold truthy.
  destruct (isoformat t); [discriminate Ht|reflexivity].
Qed.
