(* ===== verification/PyFloat.v ===== *)
(** * Python floats

    A [float] is IEEE 754 binary64, as [SpecFloat] defines it.  This file holds
    what the code uses of it: the conversion of a [Decimal], arithmetic and
    comparison at 53 bits, [int], [round], [repr], the JSON text, and the formats
    [f"{x:.1%}"] and [f"{x:,.0f}"]. *)
From Stdlib Require Import SpecFloat.
From Stdlib Require Import Ascii String.
From S2P Require Import Prelude PyDecimal DecArith PyFormat.
Open Scope Z_scope.
Open Scope list_scope.

Abbreviation pyfloat := spec_float.

Definition fprec : Z := 53.
Definition femax : Z := 1024.

Definition float_of_int (n : Z) : pyfloat := binary_normalize fprec femax n 0 false.

(** [float(d)]: the nearest double of the exact value. *)
Definition float_of_dec (d : dec) : pyfloat :=
  match coef d with
  | Z0 => S754_zero false
  | Zpos m =>
      if 0 <=? dexp d then float_of_int (Zpos m * 10 ^ dexp d)
      else SFdiv fprec femax (S754_finite false m 0)
             (S754_finite false (Z.to_pos (10 ^ (- dexp d))) 0)
  | Zneg m =>
      if 0 <=? dexp d then float_of_int (Zneg m * 10 ^ dexp d)
      else SFdiv fprec femax (S754_finite true m 0)
             (S754_finite false (Z.to_pos (10 ^ (- dexp d))) 0)
  end.

Definition fadd : pyfloat -> pyfloat -> pyfloat := SFadd fprec femax.
Definition fsub : pyfloat -> pyfloat -> pyfloat := SFsub fprec femax.
Definition fmul : pyfloat -> pyfloat -> pyfloat := SFmul fprec femax.
Definition fdiv : pyfloat -> pyfloat -> pyfloat := SFdiv fprec femax.
Definition fabs : pyfloat -> pyfloat := SFabs.
Definition fltb : pyfloat -> pyfloat -> bool := SFltb.
Definition fleb : pyfloat -> pyfloat -> bool := SFleb.

(** [min(a, b)] and [max(a, b)]: the first argument unless the second is smaller
    (larger), which a NaN never is. *)
Definition fmin (a b : pyfloat) : pyfloat := if fltb b a then b else a.
Definition fmax (a b : pyfloat) : pyfloat := if fltb a b then b else a.

#[export] Instance pyfloat_eq_dec : EqDecision pyfloat.
Proof. solve_decision. Defined.

(** [bool(x)]: every float but a zero, NaN included. *)
Definition ftrue (x : pyfloat) : bool :=
  match x with
  | S754_zero _ => false
  | _ => true
  end.

Definition fzero : pyfloat := S754_zero false.
Definition float_1e_12 : pyfloat := float_of_dec (Dec 1 (-12)).

Example float_tenth : float_of_dec (Dec 1 (-1)) = S754_finite false 7205759403792794 (-56).
Proof. vm_compute. reflexivity. Qed.
Example float_inf : float_of_dec (Dec 1 400) = S754_infinity false.
Proof. vm_compute. reflexivity. Qed.

(** The exact decimal value of a finite float. *)
Definition float_exact (s : bool) (m : positive) (e : Z) : dec :=
  let n := if s then Zneg m else Zpos m in
  if 0 <=? e then Dec (n * 2 ^ e) 0 else Dec (n * 5 ^ (- e)) e.

Definition sign_str (s : bool) (t : string) : string := if s then "-" +:+ t else t.

(** [f"{x:.<places>f}"] *)
Definition float_fixed (places : nat) (x : pyfloat) : string :=
  match x with
  | S754_nan => "nan"
  | S754_infinity s => sign_str s "inf"
  | S754_zero s => sign_str s (dec_fixed places (Dec 0 0))
  | S754_finite s m e => dec_fixed places (float_exact s m e)
  end.

(** [f"{x:.<places>%}"] multiplies by 100 as a float first. *)
Definition float_pct (places : nat) (x : pyfloat) : string :=
  float_fixed places (fmul x (float_of_int 100)) +:+ "%".

(** Commas between groups of three digits, from the right. *)
Fixpoint group3 (k : nat) (l : list ascii) : list ascii :=
  match l with
  | [] => []
  | c :: r => if (k =? 3)%nat then ","%char :: c :: group3 1 r else c :: group3 (S k) r
  end.

Definition group_digits (l : list ascii) : list ascii := rev (group3 0 (rev l)).

(** [f"{x:,.0f}"] *)
Definition float_money (x : pyfloat) : string :=
  match x with
  | S754_finite s m e =>
      sign_str s (string_of_list_ascii
        (group_digits (list_ascii_of_string (dec_fixed 0 (float_exact false m e)))))
  | _ => float_fixed 0 x
  end.

Example float_pct_ex : float_pct 1 (float_of_dec (Dec 1234 (-4))) = "12.3%"%string.
Proof. vm_compute. reflexivity. Qed.
Example float_money_ex : float_money (float_of_int 1234567) = "1,234,567"%string.
Proof. vm_compute. reflexivity. Qed.
Example float_money_ex2 : float_money (float_of_dec (Dec 9995 (-1))) = "1,000"%string.
Proof. vm_compute. reflexivity. Qed.

(** ** [int(x)] and [repr(x)] *)

Definition feqb : pyfloat -> pyfloat -> bool := SFeqb.

(** [int(x)] truncates; [None] is [ValueError] or [OverflowError]. *)
Definition float_to_int (x : pyfloat) : option Z :=
  match x with
  | S754_zero _ => Some 0
  | S754_finite s m e =>
      let n := if 0 <=? e then Zpos m * 2 ^ e else Zpos m / 2 ^ (- e) in
      Some (if s then - n else n)
  | _ => None
  end.

(** The least [k] at or after the given one with [num / den < 10^k], among [fuel]
    candidates. *)
Fixpoint dec_point (fuel : nat) (num den k : Z) : Z :=
  match fuel with
  | O => k
  | S f =>
      let below := if 0 <=? k then num <? 10 ^ k * den else num * 10 ^ (- k) <? den in
      if below then k else dec_point f num den (k + 1)
  end.

(** The coefficient and exponent of the shortest decimal that reads back as [x],
    the nearest to [x] among those of its length. *)
Fixpoint shortest (fuel : nat) (num den k n : Z) (x : pyfloat) : Z * Z :=
  let e := k - n in
  let lo := if 0 <=? e then num / (den * 10 ^ e) else num * 10 ^ (- e) / den in
  let rest c := (* twice the distance of [c] from [x], over the common scale *)
    let d := if 0 <=? e then num - c * (den * 10 ^ e) else num * 10 ^ (- e) - c * den in
    Z.abs d in
  let ok c := (0 <? c) && feqb (float_of_dec (Dec c e)) x in
  let pick :=
    if ok lo then
      if ok (lo + 1) then
        if rest lo <? rest (lo + 1) then Some lo
        else if rest (lo + 1) <? rest lo then Some (lo + 1)
        else Some (if Z.even lo then lo else lo + 1)
      else Some lo
    else if ok (lo + 1) then Some (lo + 1) else None in
  match fuel, pick with
  | _, Some c => (c, e)
  | S f, None => shortest f num den k (n + 1) x
  | O, None => (lo, e)
  end.

(** Digits [ds] with the decimal point after [k] of them, as [repr] lays them out. *)
Definition repr_chars (ds : list Z) (k : Z) : list ascii :=
  let n := Z.of_nat (List.length ds) in
  if (-4 <? k) && (k <=? 16) then
    if k <=? 0 then
      digit_char 0 :: char_dot :: digit_chars (repeat 0 (Z.to_nat (- k)) ++ ds)
    else if n <=? k then
      digit_chars (ds ++ repeat 0 (Z.to_nat (k - n))) ++ [char_dot; digit_char 0]
    else
      digit_chars (take (Z.to_nat k) ds) ++ char_dot :: digit_chars (drop (Z.to_nat k) ds)
  else
    digit_chars (take 1 ds) ++
    (match drop 1 ds with
     | [] => []
     | r => char_dot :: digit_chars r
     end) ++
    char_e :: (if k - 1 <? 0 then char_minus else char_plus) :: pad_int 2 (Z.abs (k - 1)).

Fixpoint drop_zeros (l : list Z) : list Z :=
  match l with
  | 0 :: r => drop_zeros r
  | _ => l
  end.

(** [repr(x)]: seventeen digits always suffice, and the binary logarithm gives the
    decimal point up to a few places. *)
Definition float_repr (x : pyfloat) : list ascii :=
  match x with
  | S754_nan => list_ascii_of_string "nan"
  | S754_infinity s => (if s then [char_minus] else []) ++ list_ascii_of_string "inf"
  | S754_zero s => (if s then [char_minus] else []) ++ list_ascii_of_string "0.0"
  | S754_finite s m e =>
      let num := if 0 <=? e then Zpos m * 2 ^ e else Zpos m in
      let den := if 0 <=? e then 1 else 2 ^ (- e) in
      let k := dec_point 6 num den ((Z.log2 num - Z.log2 den - 1) * 30103 / 100000 - 1) in
      let '(c, ex) := shortest 17 num den k 1 (S754_finite false m e) in
      let ds := digits c in
      (if s then [char_minus] else []) ++
      repr_chars (rev (drop_zeros (rev ds))) (ex + Z.of_nat (List.length ds))
  end.

Example float_repr_ex :
  map (fun d => string_of_list_ascii (float_repr (float_of_dec d)))
    [Dec 1 (-1); Dec 15 (-1); Dec 123456789 (-4); Dec 1 (-7); Dec 1 22; Dec 3 15; Dec (-25) (-2); Dec 5 (-324)]
  = ["0.1"; "1.5"; "12345.6789"; "1e-07"; "1e+22"; "3000000000000000.0"; "-0.25"; "5e-324"]%string.
Proof. vm_compute. reflexivity. Qed.
Example float_repr_thirds :
  string_of_list_ascii (float_repr (fdiv (float_of_int 2) (float_of_int 3)))
  = "0.6666666666666666"%string.
Proof. vm_compute. reflexivity. Qed.
Example float_repr_sum :
  string_of_list_ascii (float_repr (fadd (float_of_dec (Dec 1 (-1))) (float_of_dec (Dec 2 (-1)))))
  = "0.30000000000000004"%string.
Proof. vm_compute. reflexivity. Qed.

(** The JSON text of a float. *)
Definition json_float (x : pyfloat) : list ascii :=
  match x with
  | S754_nan => list_ascii_of_string "NaN"
  | S754_infinity s => (if s then [char_minus] else []) ++ list_ascii_of_string "Infinity"
  | _ => float_repr x
  end.

(** [round(x, places)]: the exact value rounded half to even, then read back. *)
Definition fround (places : nat) (x : pyfloat) : pyfloat :=
  match x with
  | S754_finite s m e =>
      let c := rescale places (float_exact false m e) in
      if c =? 0 then S754_zero s
      else float_of_dec (Dec (if s then - c else c) (- Z.of_nat places))
  | _ => x
  end.

Example fround_ex :
  map (fun d => string_of_list_ascii (float_repr (fround 2 (float_of_dec d))))
    [Dec 2675 (-3); Dec 1005 (-3); Dec (-1) (-3); Dec 125 (-2)] = ["2.67"; "1.0"; "-0.0"; "1.25"]%string.
Proof. vm_compute. reflexivity. Qed.

(** ** [sum] of floats

    From Python 3.12 on with the compensation of Neumaier: [c] collects what the
    additions lost. *)
Definition ffinite (x : pyfloat) : bool :=
  match x with
  | S754_zero _ | S754_finite _ _ _ => true
  | _ => false
  end.

Definition fsum_step (p : pyfloat * pyfloat) (x : pyfloat) : pyfloat * pyfloat :=
  let '(r, c) := p in
  let t := fadd r x in
  (t, fadd c (if fleb (fabs x) (fabs r) then fadd (fsub r t) x else fadd (fsub x t) r)).

(** The sum of no floats is the integer zero, which [0.0] stands for. *)
Definition fsum (l : list pyfloat) : pyfloat :=
  match l with
  | [] => fzero
  | x :: r =>
      let '(s, c) := fold_left fsum_step r (fadd fzero x, fzero) in
      if ftrue c && ffinite c then fadd s c else s
  end.

Example fsum_ex :
  map (fun l => string_of_list_ascii (float_repr (fsum (map float_of_dec l))))
    [[Dec 1 (-1); Dec 2 (-1); Dec 3 (-1)]; [Dec 1 16; Dec 1 0; Dec (-1) 16]; []] = ["0.6"; "1.0"; "0.0"]%string.
Proof. vm_compute. reflexivity. Qed.
