(* ===== verification/PyValue.v ===== *)
(** * Dynamic values of the Python code

    The values the code puts into its dictionaries ([metadata], [details],
    [to_dict]): [None], booleans, integers, strings, decimals, times, floats, lists
    of strings, dictionaries, and the floats of [timedelta.total_seconds()], each by
    its number of microseconds.  A dictionary is an insertion-ordered association list, see
    [Prelude]. *)
From Stdlib Require Import Ascii String.
From S2P Require Import Prelude PyDecimal DecArith PyFormat PyFloat.
Open Scope Z_scope.
Open Scope list_scope.

Inductive pyval :=
  | VNone
  | VBool (b : bool)
  | VInt (z : Z)
  | VStr (s : string)
  | VDec (d : dec)
  | VTime (t : Z)
  | VSecs (us : Z)
  | VFloat (x : pyfloat)
  | VStrs (l : list string)
  | VDict (d : list (string * pyval)).

#[export] Instance pyval_eq_dec : EqDecision pyval.
Proof.
  unfold EqDecision, RelDecision. fix IH 1. intros x y.
  destruct x as [|b|z|s|d|t|us|f|l|d], y as [|b'|z'|s'|d'|t'|us'|f'|l'|d'];
    try (right; discriminate); [by left|..].
  - destruct (decide (b = b')); [left|right]; congruence.
  - destruct (decide (z = z')); [left|right]; congruence.
  - destruct (decide (s = s')); [left|right]; congruence.
  - destruct (decide (d = d')); [left|right]; congruence.
  - destruct (decide (t = t')); [left|right]; congruence.
  - destruct (decide (us = us')); [left|right]; congruence.
  - destruct (decide (f = f')); [left|right]; congruence.
  - destruct (decide (l = l')); [left|right]; congruence.
  - assert (Decision (d = d')) as [?|?]; [|left; congruence|right; congruence].
    exact (@list_eq_dec _ (@prod_eq_dec _ _ _ IH) d d').
Defined.

Abbreviation dict := (list (string * pyval)).

(** [d1.update(d2)] *)
Definition dict_update (d1 d2 : dict) : dict :=
  fold_left (fun d kv => dset d kv.1 kv.2) d2 d1.

(** [x or {}] for an optional dictionary. *)
Definition or_empty (o : option dict) : dict := default [] o.

(** [x if x is not None else None] as a dynamic value. *)
Definition v_opt_str (o : option string) : pyval :=
  match o with
  | Some s => VStr s
  | None => VNone
  end.

(** [d.get(k)] read back as an optional string. *)
Definition get_str (d : dict) (k : string) : option string :=
  match dget d k with
  | Some (VStr s) => Some s
  | _ => None
  end.

(** ** Conversions *)

(** [str(x)] of the float [us / 10^6]: the shortest decimal that reads back as
    that float, which below [2^53] microseconds is the decimal itself. *)
Definition strip_frac (ds : list Z) : list Z :=
  match ds with
  | [] => []
  | d :: r => d :: rev ((fix go l := match l with
                                     | 0 :: l' => go l'
                                     | _ => l
                                     end) (rev r))
  end.

Definition secs_chars (us : Z) : list ascii :=
  let a := Z.abs us in
  (if us <? 0 then [char_minus] else []) ++
  if a =? 0 then list_ascii_of_string "0.0"
  else if a <? 10 then digit_chars (digits a) ++ list_ascii_of_string "e-06"
  else if a <? 100 then
    digit_chars (digits (a / 10)) ++
    (if a mod 10 =? 0 then [] else char_dot :: digit_chars (digits (a mod 10))) ++
    list_ascii_of_string "e-05"
  else
    let frac := digits (a mod 1000000) in
    digit_chars (digits (a / 1000000)) ++ char_dot ::
    digit_chars (strip_frac (repeat 0 (6 - List.length frac) ++ frac)).

Definition secs_str (us : Z) : string := string_of_list_ascii (secs_chars us).

Example secs_str_ex :
  map secs_str [30000000; 31500000; -250; 25; 1000001; 0]
  = ["30.0"; "31.5"; "-0.00025"; "2.5e-05"; "1.000001"; "0.0"]%string.
Proof. reflexivity. Qed.

(** [int(s)] of a string of decimal digits with an optional sign. *)
Definition int_of_str (s : string) : option Z :=
  let '(neg, l) := take_sign (list_ascii_of_string s) in
  match span_digits l with
  | (d :: ds, []) => Some (signed neg (undigits (d :: ds)))
  | _ => None
  end.

(** [Decimal(str(v))]: no other value prints as a finite number. *)
Definition dec_of_val (v : pyval) : option dec :=
  match v with
  | VStr s => dec_of_str s
  | VInt n => Some (Dec n 0)
  | VDec d => Some d
  | VSecs us => dec_of_str (secs_str us)
  | VFloat x => dec_of_str (string_of_list_ascii (float_repr x))
  | _ => None
  end.

(** [int(v)]: a decimal is truncated. *)
Definition int_of_val (v : pyval) : option Z :=
  match v with
  | VInt n => Some n
  | VBool b => Some (if b then 1 else 0)
  | VStr s => int_of_str s
  | VDec d => Some (if 0 <=? dexp d then coef d * 10 ^ dexp d else Z.quot (coef d) (10 ^ (- dexp d)))
  | VSecs us => Some (Z.quot us 1000000)
  | VFloat x => float_to_int x
  | _ => None
  end.

(** [Decimal(str(data.get(k, default)))]; [None] is [InvalidOperation]. *)
Definition get_dec (d : dict) (k : string) (dflt : string) : option dec :=
  dec_of_val (default (VStr dflt) (dget d k)).

(** [int(data.get(k, default))]; [None] is [ValueError] or [TypeError]. *)
Definition get_int (d : dict) (k : string) (dflt : Z) : option Z :=
  int_of_val (default (VInt dflt) (dget d k)).

(** [bool(v)] *)
Definition val_true (v : pyval) : bool :=
  match v with
  | VNone => false
  | VBool b => b
  | VInt n => negb (n =? 0)
  | VStr s => truthy (Some s)
  | VDec d => dtrue d
  | VTime _ => true
  | VSecs us => negb (us =? 0)
  | VFloat x => ftrue x
  | VDict d => match d with [] => false | _ => true end
  | VStrs l => match l with [] => false | _ => true end
  end.

(** [bool(data.get(k, default))] *)
Definition get_bool (d : dict) (k : string) (dflt : bool) : bool :=
  val_true (default (VBool dflt) (dget d k)).

(** ** Reading values of one type; [None] is any other *)

Definition as_str (v : pyval) : option string := match v with VStr s => Some s | _ => None end.
Definition as_bool (v : pyval) : option bool := match v with VBool b => Some b | _ => None end.
Definition as_int (v : pyval) : option Z := match v with VInt n => Some n | _ => None end.
Definition as_strs (v : pyval) : option (list string) := match v with VStrs l => Some l | _ => None end.
Definition as_dict (v : pyval) : option dict := match v with VDict d => Some d | _ => None end.
Definition as_opt {A} (f : pyval -> option A) (v : pyval) : option (option A) :=
  match v with
  | VNone => Some None
  | _ => Some <$> f v
  end.

(** The member of an enumeration with this name or value; [None] raises. *)
Definition member {A} (name : A -> string) (all : list A) (v : pyval) : option A :=
  List.find (fun x => bool_decide (v = VStr (name x))) all.

(** ** Reading back what was written *)

Lemma get_dec_at d k dflt x : dget d k = Some (VStr (dec_str x)) -> get_dec d k dflt = Some x.
Proof. intros H. unfold get_dec. rewrite H. apply dec_of_dec_str. Qed.

Lemma get_int_at d k dflt n : dget d k = Some (VInt n) -> get_int d k dflt = Some n.
Proof. intros H. unfold get_int. by rewrite H. Qed.

Lemma get_bool_at d k dflt b : dget d k = Some (VBool b) -> get_bool d k dflt = b.
Proof. intros H. unfold get_bool. by rewrite H. Qed.
