(* ===== verification/StateMachine.v ===== *)
(** * Deployment and run state machines: [ccea/models/state_machines.py]

    The abstract [StateMachine] (event-triggered transitions with approval,
    guards, actions, an audit history and idempotency keys), its two subclasses,
    and the manager that owns the machines of all deployments and runs.
    The enumerations come from [ccea/models/protocol.py]. *)
From S2P Require Import Prelude PyDecimal PyValue.
Open Scope Z_scope.
Open Scope string_scope.
Open Scope list_scope.

(** ** Enumerations *)

Inductive RunState := R_INITIALIZING | R_RUNNING | R_PAUSED | R_HALTED | R_STOPPED.

Inductive DeploymentState :=
  | D_CREATED | D_PENDING | D_ENROLLED | D_RUNNING | D_PAUSED | D_STOPPED
  | D_REVOKED | D_TERMINATED.

Inductive ChangeClass := TRADING_IMPACTING | NON_TRADING_IMPACTING.

#[export] Instance RunState_eq_dec : EqDecision RunState.
Proof. solve_decision. Defined.
#[export] Instance DeploymentState_eq_dec : EqDecision DeploymentState.
Proof. solve_decision. Defined.

Definition run_state_value (s : RunState) : string :=
  match s with
  | R_INITIALIZING => "INITIALIZING"
  | R_RUNNING => "RUNNING"
  | R_PAUSED => "PAUSED"
  | R_HALTED => "HALTED"
  | R_STOPPED => "STOPPED"
  end.

Definition deployment_state_value (s : DeploymentState) : string :=
  match s with
  | D_CREATED => "CREATED"
  | D_PENDING => "PENDING"
  | D_ENROLLED => "ENROLLED"
  | D_RUNNING => "RUNNING"
  | D_PAUSED => "PAUSED"
  | D_STOPPED => "STOPPED"
  | D_REVOKED => "REVOKED"
  | D_TERMINATED => "TERMINATED"
  end.

(** An [Enum] with its [.value]. *)
Class StateEnum (S : Type) := {
  state_dec :: EqDecision S;
  state_value : S -> string;
  state_value_inj : Inj (=) (=) state_value
}.

#[export] Instance RunState_enum : StateEnum RunState.
Proof.
  refine {| state_value := run_state_value |}.
  intros s s' H. by destruct s, s'.
Defined.

#[export] Instance DeploymentState_enum : StateEnum DeploymentState.
Proof.
  refine {| state_value := deployment_state_value |}.
  intros s s' H. by destruct s, s'.
Defined.

Create HintDb state_machine.

Section Machine.
Context {S : Type} `{StateEnum S}.

(** ** Exceptions *)

(** [InvalidTransitionError], [GuardConditionFailedError], the [ValueError] of a
    duplicate registration, and any other exception a guard or an action may
    raise, with its text. *)
Inductive SMError :=
  | InvalidTransitionError (current target : S) (event : string)
  | GuardConditionFailedError (message guard_name : string)
  | DuplicateTransition (from : S) (event : string)
  | OtherException (message : string).

(** [str(e)] *)
Definition error_str (e : SMError) : string :=
  match e with
  | InvalidTransitionError c t ev =>
      "Invalid transition from " +:+ state_value c +:+ " to " +:+ state_value t +:+
      (if decide (ev = "") then "" else " via event '" +:+ ev +:+ "'")
  | GuardConditionFailedError msg name => "Guard '" +:+ name +:+ "' failed: " +:+ msg
  | DuplicateTransition f ev =>
      "Duplicate transition: " +:+ state_value f +:+ " + " +:+ ev
  | OtherException msg => msg
  end.

(** A guard is a named function of the keyword arguments. *)
Record Guard := MkGuard {
  guard_name : string;
  guard_fn : dict -> pyres SMError bool
}.

Record StateTransition := MkTransition {
  from_state : S;
  to_state : S;
  event : string;
  guard : option Guard;
  action : option (dict -> pyres SMError unit);
  requires_approval : bool;
  change_class : option ChangeClass
}.

Record TransitionRecord := MkRecord {
  rec_from : string;
  rec_to : string;
  rec_event : string;
  rec_timestamp : Z;
  rec_metadata : dict;
  rec_approved_by : option string;
  rec_idempotency_key : option string
}.

Record machine := MkMachine {
  current_state : S;
  entity_id : string;
  max_history : Z;
  history : list TransitionRecord;
  transitions : list ((S * string) * StateTransition);
  pending_approval : option StateTransition
}.

(** The log lines of [trigger] and [force_state]. *)
Inductive log_line :=
  | DuplicateIgnored (event key : string)
  | PendingApproval (event : string)
  | ActionFailed (event error : string)
  | TransitionCompleted (event from to : string)
  | ForceChanged (from to reason : string).

(** ** Operations *)

Definition add_transition (m : machine) (t : StateTransition) : pyres SMError machine :=
  let key := (from_state t, event t) in
  if dmem (transitions m) key then Raise (DuplicateTransition (from_state t) (event t))
  else
    Ok (MkMachine (current_state m) (entity_id m) (max_history m) (history m)
          (dset (transitions m) key t) (pending_approval m)).

Fixpoint register_transitions (m : machine) (ts : list StateTransition)
    : pyres SMError machine :=
  match ts with
  | [] => Ok m
  | t :: r => m' ← add_transition m t; register_transitions m' r
  end.

(** [StateMachine.__init__], with the transitions its subclass registers. *)
Definition init_machine (initial : S) (id : string) (max_hist : Z)
    (ts : list StateTransition) : pyres SMError machine :=
  register_transitions (MkMachine initial id max_hist [] [] None) ts.

Definition has_pending_approval (m : machine) : bool :=
  match pending_approval m with
  | Some _ => true
  | None => false
  end.

Definition can_transition (m : machine) (ev : string) : bool :=
  dmem (transitions m) (current_state m, ev).

Definition get_available_events (m : machine) : list string :=
  (filter (fun kv => kv.1.1 = current_state m) (transitions m)).*1.*2.

Definition get_valid_transitions (m : machine) : list StateTransition :=
  (filter (fun kv => kv.1.1 = current_state m) (transitions m)).*2.

Definition add_history (m : machine) (r : TransitionRecord) : machine :=
  MkMachine (current_state m) (entity_id m) (max_history m)
    (push_bounded (max_history m) (history m) r) (transitions m) (pending_approval m).

Definition is_duplicate (m : machine) (key : string) : bool :=
  existsb (fun r => bool_decide (rec_idempotency_key r = Some key)) (history m).

Definition set_state (m : machine) (s : S) : machine :=
  MkMachine s (entity_id m) (max_history m) (history m) (transitions m)
    (pending_approval m).

Definition set_pending (m : machine) (p : option StateTransition) : machine :=
  MkMachine (current_state m) (entity_id m) (max_history m) (history m)
    (transitions m) p.

(** The guard of a transition: an error that is not already a
    [GuardConditionFailedError] is wrapped in one. *)
Definition run_guard (t : StateTransition) (kwargs : dict) : option SMError :=
  match guard t with
  | None => None
  | Some g =>
      match guard_fn g kwargs with
      | Ok true => None
      | Ok false =>
          Some (GuardConditionFailedError "Guard condition returned False" (guard_name g))
      | Raise (GuardConditionFailedError msg name) =>
          Some (GuardConditionFailedError msg name)
      | Raise e => Some (GuardConditionFailedError (error_str e) (guard_name g))
      end
  end.

(** The action of a transition: a failure is logged, the transition goes on. *)
Definition run_action (t : StateTransition) (md : dict) : list log_line :=
  match action t with
  | None => []
  | Some f =>
      match f md with
      | Ok _ => []
      | Raise e => [ActionFailed (event t) (error_str e)]
      end
  end.

(** The arguments of one [trigger] call, with the clock it reads. *)
Record trigger_args := MkArgs {
  arg_now : Z;
  arg_event : string;
  arg_metadata : option dict;
  arg_key : option string;
  arg_approved_by : option string;
  arg_kwargs : dict
}.

Definition duplicate_call (m : machine) (a : trigger_args) : bool :=
  match arg_key a with
  | Some k => truthy (Some k) && is_duplicate m k
  | None => false
  end.

Definition transition_record (m : machine) (t : StateTransition) (a : trigger_args)
    : TransitionRecord :=
  MkRecord (state_value (current_state m)) (state_value (to_state t)) (arg_event a)
    (arg_now a) (or_empty (arg_metadata a)) (arg_approved_by a) (arg_key a).

Definition trigger (m : machine) (a : trigger_args)
    : machine * pyres SMError S * list log_line :=
  if duplicate_call m a then
    (m, Ok (current_state m), [DuplicateIgnored (arg_event a) (default "" (arg_key a))])
  else
    match dget (transitions m) (current_state m, arg_event a) with
    | None =>
        (m, Raise (InvalidTransitionError (current_state m) (current_state m) (arg_event a)), [])
    | Some t =>
        if requires_approval t && negb (truthy (arg_approved_by a)) then
          (set_pending m (Some t),
           Raise (GuardConditionFailedError "Approval required for this transition"
                    "approval_required"),
           [PendingApproval (arg_event a)])
        else
          match run_guard t (arg_kwargs a) with
          | Some e => (m, Raise e, [])
          | None =>
              let m1 := add_history m (transition_record m t a) in
              let logs := run_action t (or_empty (arg_metadata a)) in
              let m2 := set_pending (set_state m1 (to_state t)) None in
              (m2, Ok (to_state t),
               (logs ++ [TransitionCompleted (arg_event a)
                          (state_value (current_state m)) (state_value (to_state t))])%list)
          end
    end.

Definition force_state (now : Z) (m : machine) (s : S) (reason : string)
    : machine * list log_line :=
  let r := MkRecord (state_value (current_state m)) (state_value s) "FORCE_STATE" now
             [("reason", VStr reason); ("admin_override", VBool true)] None None in
  (set_state (add_history m r) s,
   [ForceChanged (state_value (current_state m)) (state_value s) reason]).
End Machine.

Arguments SMError : clear implicits.
Arguments Guard : clear implicits.
Arguments StateTransition : clear implicits.
Arguments machine : clear implicits.

(** ** The deployment machine *)

Definition plain {S} (f t : S) (ev : string) : StateTransition S :=
  MkTransition f t ev None None false None.

(** A transition that needs an approver. *)
Definition approved {S} (f t : S) (ev : string) : StateTransition S :=
  MkTransition f t ev None None true (Some TRADING_IMPACTING).

Definition deployment_lifecycle : list (StateTransition DeploymentState) :=
  [ plain D_CREATED D_PENDING "INITIATE_ENROLLMENT";
    plain D_PENDING D_ENROLLED "COMPLETE_ENROLLMENT";
    plain D_PENDING D_CREATED "ENROLLMENT_FAILED";
    approved D_ENROLLED D_RUNNING "START_RUN";
    plain D_RUNNING D_PAUSED "PAUSE_RUN";
    plain D_RUNNING D_STOPPED "STOP_RUN";
    approved D_PAUSED D_RUNNING "RESUME_RUN";
    plain D_PAUSED D_STOPPED "STOP_RUN";
    approved D_STOPPED D_RUNNING "START_RUN" ].

Definition deployment_security : list (StateTransition DeploymentState) :=
  map (fun s => plain s D_REVOKED "REVOKE_CREDENTIALS")
    [D_ENROLLED; D_RUNNING; D_PAUSED; D_STOPPED]
  ++ [plain D_REVOKED D_TERMINATED "TERMINATE"]
  ++ map (fun s => plain s D_TERMINATED "TERMINATE") [D_ENROLLED; D_STOPPED].

Definition deployment_transitions : list (StateTransition DeploymentState) :=
  (deployment_lifecycle ++ deployment_security)%list.

Definition DeploymentStateMachine (deployment_id : string) (initial : DeploymentState)
    (max_hist : Z) : pyres (SMError DeploymentState) (machine DeploymentState) :=
  init_machine initial deployment_id max_hist deployment_transitions.

Definition deployment_is_operational (m : machine DeploymentState) : bool :=
  match current_state m with
  | D_RUNNING | D_PAUSED | D_STOPPED => true
  | _ => false
  end.

Definition deployment_is_terminal (m : machine DeploymentState) : bool :=
  bool_decide (current_state m = D_TERMINATED).

Definition deployment_is_revoked (m : machine DeploymentState) : bool :=
  bool_decide (current_state m = D_REVOKED).

(** ** The run machine *)

Definition run_transitions : list (StateTransition RunState) :=
  [ plain R_INITIALIZING R_RUNNING "STARTUP_COMPLETE";
    plain R_INITIALIZING R_HALTED "STARTUP_FAILED";
    plain R_INITIALIZING R_STOPPED "STOP";
    plain R_RUNNING R_PAUSED "PAUSE";
    plain R_RUNNING R_HALTED "ERROR";
    plain R_RUNNING R_STOPPED "STOP";
    approved R_PAUSED R_RUNNING "RESUME";
    plain R_PAUSED R_STOPPED "STOP";
    plain R_PAUSED R_HALTED "ERROR";
    approved R_HALTED R_RUNNING "RECOVER";
    plain R_HALTED R_STOPPED "STOP" ].

(** A run machine also remembers its parent deployment. *)
Record run_machine := MkRun {
  run_sm : machine RunState;
  run_deployment_id : string
}.

Definition RunStateMachine (run_id deployment_id : string) (initial : RunState)
    (max_hist : Z) : pyres (SMError RunState) run_machine :=
  m ← init_machine initial run_id max_hist run_transitions;
  Ok (MkRun m deployment_id).

Definition run_is_active (r : run_machine) : bool :=
  bool_decide (current_state (run_sm r) = R_RUNNING).

Definition run_is_terminal (r : run_machine) : bool :=
  bool_decide (current_state (run_sm r) = R_STOPPED).

Definition run_needs_attention (r : run_machine) : bool :=
  bool_decide (current_state (run_sm r) = R_HALTED).

(** ** The manager *)

Record manager := MkManager {
  deployments : list (string * machine DeploymentState);
  runs : list (string * run_machine)
}.

(** The [ValueError]s of the manager, and an error of a constructor. *)
Inductive ManagerError :=
  | DeploymentExists (id : string)
  | DeploymentNotFound (id : string)
  | RunExists (id : string)
  | ConstructorFailed.

Definition empty_manager : manager := MkManager [] [].

Definition lift_ctor {E A} (r : pyres E A) : pyres ManagerError A :=
  match r with
  | Ok a => Ok a
  | Raise _ => Raise ConstructorFailed
  end.

Definition create_deployment (mg : manager) (id : string) (initial : DeploymentState)
    : pyres ManagerError manager :=
  if dmem (deployments mg) id then Raise (DeploymentExists id)
  else
    sm ← lift_ctor (DeploymentStateMachine id initial 1000);
    Ok (MkManager (dset (deployments mg) id sm) (runs mg)).

Definition get_deployment (mg : manager) (id : string) : option (machine DeploymentState) :=
  dget (deployments mg) id.

Definition create_run (mg : manager) (run_id dep_id : string) (initial : RunState)
    : pyres ManagerError manager :=
  if dmem (runs mg) run_id then Raise (RunExists run_id)
  else if negb (dmem (deployments mg) dep_id) then Raise (DeploymentNotFound dep_id)
  else
    sm ← lift_ctor (RunStateMachine run_id dep_id initial 500);
    Ok (MkManager (deployments mg) (dset (runs mg) run_id sm)).

Definition get_run (mg : manager) (id : string) : option run_machine := dget (runs mg) id.

Definition get_runs_for_deployment (mg : manager) (dep_id : string) : list run_machine :=
  filter (fun r => run_deployment_id r = dep_id) (runs mg).*2.

Definition run_id (r : run_machine) : string := entity_id (run_sm r).

Definition remove_deployment (mg : manager) (dep_id : string) : manager * bool :=
  if negb (dmem (deployments mg) dep_id) then (mg, false)
  else
    let ids := map run_id (get_runs_for_deployment mg dep_id) in
    (MkManager (ddel (deployments mg) dep_id) (fold_left ddel ids (runs mg)), true).

Definition remove_run (mg : manager) (id : string) : manager * bool :=
  if negb (dmem (runs mg) id) then (mg, false)
  else (MkManager (deployments mg) (ddel (runs mg) id), true).

Definition get_all_deployments (mg : manager) : list (machine DeploymentState) :=
  (deployments mg).*2.

Definition get_all_runs (mg : manager) : list run_machine := (runs mg).*2.

Definition get_deployments_in_state (mg : manager) (s : DeploymentState)
    : list (machine DeploymentState) :=
  filter (fun d => current_state d = s) (deployments mg).*2.

Definition get_runs_in_state (mg : manager) (s : RunState) : list run_machine :=
  filter (fun r => current_state (run_sm r) = s) (runs mg).*2.

(** The machines are shared objects: a caller that holds the result of
    [get_deployment] or [get_run] changes the machine inside the manager. *)
Definition trigger_deployment (mg : manager) (id : string) (a : trigger_args) : manager :=
  match get_deployment mg id with
  | None => mg
  | Some m => MkManager (dset (deployments mg) id (trigger m a).1.1) (runs mg)
  end.

Definition trigger_run (mg : manager) (id : string) (a : trigger_args) : manager :=
  match get_run mg id with
  | None => mg
  | Some r =>
      MkManager (deployments mg)
        (dset (runs mg) id (MkRun (trigger (run_sm r) a).1.1 (run_deployment_id r)))
  end.

Inductive manager_op :=
  | OpCreateDeployment (id : string) (initial : DeploymentState)
  | OpCreateRun (run_id dep_id : string) (initial : RunState)
  | OpRemoveDeployment (id : string)
  | OpRemoveRun (id : string)
  | OpTriggerDeployment (id : string) (a : trigger_args)
  | OpTriggerRun (id : string) (a : trigger_args).

(** One call on the manager; a raised exception leaves it unchanged. *)
Definition manager_step (mg : manager) (op : manager_op) : manager :=
  match op with
  | OpCreateDeployment id s =>
      match create_deployment mg id s with Ok mg' => mg' | Raise _ => mg end
  | OpCreateRun r d s =>
      match create_run mg r d s with Ok mg' => mg' | Raise _ => mg end
  | OpRemoveDeployment id => (remove_deployment mg id).1
  | OpRemoveRun id => (remove_run mg id).1
  | OpTriggerDeployment id a => trigger_deployment mg id a
  | OpTriggerRun id a => trigger_run mg id a
  end.

(** ** Shape of a trigger *)

Section TriggerFacts.
Context {S : Type} `{StateEnum S}.

Lemma truthy_some (o : option string) : truthy o = true -> exists s, o = Some s /\ s <> "".
Proof.
  destruct o as [s|]; simpl; [|done]. intros Hs. bool_to_prop. eauto.
Qed.

(** A call that is not a replay succeeds exactly when the event is registered
    for the current state, the approval it needs is there and its guard holds. *)
Lemma trigger_ok_inv (m m' : machine S) a s logs :
  duplicate_call m a = false ->
  trigger m a = (m', Ok s, logs) ->
  exists t, dget (transitions m) (current_state m, arg_event a) = Some t /\
    s = to_state t /\
    (requires_approval t = true -> truthy (arg_approved_by a) = true) /\
    run_guard t (arg_kwargs a) = None /\
    m' = MkMachine (to_state t) (entity_id m) (max_history m)
           (push_bounded (max_history m) (history m) (transition_record m t a))
           (transitions m) None.
Proof.
  unfold trigger. intros -> Htr.
  destruct (dget (transitions m) _) as [t|]; [|done].
  destruct (requires_approval t && negb (truthy (arg_approved_by a))) eqn:Ha; [done|].
  destruct (run_guard t (arg_kwargs a)) eqn:Hg; [done|]. simplify_eq.
  exists t. split_and!; try done.
  intros Hr. rewrite Hr in Ha. simpl in Ha. by apply negb_false_iff in Ha.
Qed.

Lemma trigger_ok (m : machine S) a t :
  duplicate_call m a = false ->
  dget (transitions m) (current_state m, arg_event a) = Some t ->
  (requires_approval t = true -> truthy (arg_approved_by a) = true) ->
  run_guard t (arg_kwargs a) = None ->
  exists m' logs, trigger m a = (m', Ok (to_state t), logs) /\ current_state m' = to_state t.
Proof.
  intros Hd Hg Ha Hr. unfold trigger. rewrite Hd, Hg, Hr.
  destruct (requires_approval t).
  - rewrite Ha by done. simpl. eauto.
  - simpl. eauto.
Qed.

(** Whatever the outcome, the registered transitions, the identity and the
    history bound stay, and a failed or replayed call keeps state and history. *)
Lemma trigger_frame (m : machine S) a :
  let m' := (trigger m a).1.1 in
  transitions m' = transitions m /\ entity_id m' = entity_id m /\
  max_history m' = max_history m.
Proof.
  unfold trigger. destruct (duplicate_call m a); [done|].
  destruct (dget _ _); [|done]. destruct (_ && _); [done|]. by destruct (run_guard _ _).
Qed.

Lemma trigger_cases (m : machine S) a :
  (current_state (trigger m a).1.1 = current_state m /\
   history (trigger m a).1.1 = history m) \/
  (duplicate_call m a = false /\
   exists s logs, trigger m a = ((trigger m a).1.1, Ok s, logs)).
Proof.
  destruct (duplicate_call m a) eqn:Hd.
  - left. unfold trigger. by rewrite Hd.
  - unfold trigger. rewrite Hd.
    destruct (dget _ _); [|by left]. destruct (_ && _); [by left|].
    destruct (run_guard _ _); [by left|]. right. split; [done|]. eauto.
Qed.
End TriggerFacts.

(** ** Specifications of the two life cycles *)

(** The moves of a deployment that the transitions registered by the code add up to:
    event, whether an approver is named, and target.  The code's comments say
    "per Design Doc 11.1", but the life cycle there has other states and moves, see
    [pending_cannot_be_revoked]; this relation is the code's own. *)
Inductive deployment_spec : DeploymentState -> string -> bool -> DeploymentState -> Prop :=
  | spec_enroll b : deployment_spec D_CREATED "INITIATE_ENROLLMENT" b D_PENDING
  | spec_enrolled b : deployment_spec D_PENDING "COMPLETE_ENROLLMENT" b D_ENROLLED
  | spec_enroll_failed b : deployment_spec D_PENDING "ENROLLMENT_FAILED" b D_CREATED
  | spec_start s : s = D_ENROLLED \/ s = D_STOPPED ->
      deployment_spec s "START_RUN" true D_RUNNING
  | spec_resume : deployment_spec D_PAUSED "RESUME_RUN" true D_RUNNING
  | spec_pause b : deployment_spec D_RUNNING "PAUSE_RUN" b D_PAUSED
  | spec_stop s b : s = D_RUNNING \/ s = D_PAUSED ->
      deployment_spec s "STOP_RUN" b D_STOPPED
  | spec_revoke s b : s = D_ENROLLED \/ s = D_RUNNING \/ s = D_PAUSED \/ s = D_STOPPED ->
      deployment_spec s "REVOKE_CREDENTIALS" b D_REVOKED
  | spec_terminate s b : s = D_ENROLLED \/ s = D_STOPPED \/ s = D_REVOKED ->
      deployment_spec s "TERMINATE" b D_TERMINATED.

(** The moves of a run that the registered transitions add up to. *)
Inductive run_spec : RunState -> string -> bool -> RunState -> Prop :=
  | rspec_started b : run_spec R_INITIALIZING "STARTUP_COMPLETE" b R_RUNNING
  | rspec_failed b : run_spec R_INITIALIZING "STARTUP_FAILED" b R_HALTED
  | rspec_stop s b : s <> R_STOPPED -> run_spec s "STOP" b R_STOPPED
  | rspec_pause b : run_spec R_RUNNING "PAUSE" b R_PAUSED
  | rspec_error s b : s = R_RUNNING \/ s = R_PAUSED -> run_spec s "ERROR" b R_HALTED
  | rspec_resume : run_spec R_PAUSED "RESUME" true R_RUNNING
  | rspec_recover : run_spec R_HALTED "RECOVER" true R_RUNNING.

#[export] Hint Constructors deployment_spec run_spec : state_machine.

(** The dictionary a list of transitions becomes when no key repeats. *)
Definition table {S} (ts : list (StateTransition S)) : list ((S * string) * StateTransition S) :=
  map (fun t => ((from_state t, event t), t)) ts.

Definition deployment_machine (m : machine DeploymentState) : Prop :=
  transitions m = table deployment_transitions.

Definition run_machine_ok (m : machine RunState) : Prop :=
  transitions m = table run_transitions.

(** The constructors never raise: no key is registered twice. *)
Lemma DeploymentStateMachine_ok id s h :
  DeploymentStateMachine id s h =
  Ok (MkMachine s id h [] (table deployment_transitions) None).
Proof. reflexivity. Qed.

Lemma RunStateMachine_ok id d s h :
  RunStateMachine id d s h =
  Ok (MkRun (MkMachine s id h [] (table run_transitions) None) d).
Proof. reflexivity. Qed.

(** Looking an event up in a registered table. *)
Lemma table_lookup {S} `{EqDecision S} (ts : list (StateTransition S)) s ev t :
  dget (table ts) (s, ev) = Some t -> t ∈ ts /\ from_state t = s /\ event t = ev.
Proof.
  intros H. apply dget_elem in H. unfold table in H. apply list_elem_of_In in H.
  apply in_map_iff in H as (t' & Heq & Hin). simplify_eq.
  split; [by apply list_elem_of_In|done].
Qed.

(** Split a membership in a literal list of transitions. *)
Ltac split_table H :=
  repeat match type of H with
  | _ ∈ _ :: _ => apply elem_of_cons in H as [->|H]
  | _ ∈ [] => by apply not_elem_of_nil in H
  end.

Lemma deployment_lookup_spec s ev t b :
  dget (table deployment_transitions) (s, ev) = Some t ->
  (requires_approval t = true -> b = true) ->
  guard t = None /\ deployment_spec s ev b (to_state t).
Proof.
  intros H Hb. apply table_lookup in H as (Hin & <- & <-).
  unfold deployment_transitions, deployment_lifecycle, deployment_security in Hin.
  cbn [app map] in Hin.
  split_table Hin; simpl in *; (split; [done|]);
    try (rewrite Hb by done); eauto 8 with state_machine.
Qed.

Lemma run_lookup_spec s ev t b :
  dget (table run_transitions) (s, ev) = Some t ->
  (requires_approval t = true -> b = true) ->
  guard t = None /\ run_spec s ev b (to_state t).
Proof.
  intros H Hb. apply table_lookup in H as (Hin & <- & <-).
  unfold run_transitions in Hin.
  split_table Hin; simpl in *; (split; [done|]);
    try (rewrite Hb by done); eauto 8 with state_machine.
Qed.

Lemma deployment_spec_lookup s ev b s' :
  deployment_spec s ev b s' ->
  exists t, dget (table deployment_transitions) (s, ev) = Some t /\ to_state t = s' /\
    guard t = None /\ (requires_approval t = true -> b = true).
Proof.
  destruct 1; repeat match goal with H : _ \/ _ |- _ => destruct H end; subst;
    eexists; (split; [reflexivity|]); split_and!; done.
Qed.

Lemma run_spec_lookup s ev b s' :
  run_spec s ev b s' ->
  exists t, dget (table run_transitions) (s, ev) = Some t /\ to_state t = s' /\
    guard t = None /\ (requires_approval t = true -> b = true).
Proof.
  destruct 1; repeat match goal with H : _ \/ _ |- _ => destruct H end; subst.
  3: destruct s; [..|done].
  all: eexists; (split; [reflexivity|]); split_and!; done.
Qed.

(** One successful call, for a machine whose table is described by [spec]. *)
Lemma trigger_follows {S} `{StateEnum S} (m : machine S)
    (spec : S -> string -> bool -> S -> Prop) a s' :
  (forall s ev t b, dget (transitions m) (s, ev) = Some t ->
     (requires_approval t = true -> b = true) -> guard t = None /\ spec s ev b (to_state t)) ->
  (forall s ev b s', spec s ev b s' -> exists t, dget (transitions m) (s, ev) = Some t /\
     to_state t = s' /\ guard t = None /\ (requires_approval t = true -> b = true)) ->
  duplicate_call m a = false ->
  (exists m' logs, trigger m a = (m', Ok s', logs)) <->
  spec (current_state m) (arg_event a) (truthy (arg_approved_by a)) s'.
Proof.
  intros Hto Hof Hd. split.
  - intros (m' & logs & Htr). apply trigger_ok_inv in Htr as (t & Hl & -> & Ha & _); [|done].
    by apply (Hto _ _ _ _ Hl Ha).
  - intros Hs. destruct (Hof _ _ _ _ Hs) as (t & Hl & <- & Hg & Ha).
    destruct (trigger_ok m a t Hd Hl Ha) as (m' & logs & Htr & _); [|by eauto].
    unfold run_guard. by rewrite Hg.
Qed.

Definition trigger_all {S} `{StateEnum S} (m : machine S) (l : list trigger_args) : machine S :=
  fold_left (fun m a => (trigger m a).1.1) l m.

(** What one call does to the state of a machine whose table is [spec]. *)
Lemma trigger_step_spec {S} `{StateEnum S} (m : machine S)
    (spec : S -> string -> bool -> S -> Prop) a :
  (forall s ev t b, dget (transitions m) (s, ev) = Some t ->
     (requires_approval t = true -> b = true) -> guard t = None /\ spec s ev b (to_state t)) ->
  current_state (trigger m a).1.1 = current_state m /\
    history (trigger m a).1.1 = history m \/
  exists t, dget (transitions m) (current_state m, arg_event a) = Some t /\
    spec (current_state m) (arg_event a) (truthy (arg_approved_by a)) (to_state t) /\
    current_state (trigger m a).1.1 = to_state t /\
    history (trigger m a).1.1 =
      push_bounded (max_history m) (history m) (transition_record m t a).
Proof.
  intros Hto. destruct (trigger_cases m a) as [Hs|(Hd & s & logs & Htr)]; [by left|right].
  apply trigger_ok_inv in Htr as (t & Hl & -> & Ha & _ & ->); [|done].
  exists t. split_and!; try done. by apply (Hto _ _ _ _ Hl Ha).
Qed.

(** ** Invariants of sequences of calls *)

Lemma trigger_all_frame {S} `{StateEnum S} (m : machine S) l :
  transitions (trigger_all m l) = transitions m /\
  max_history (trigger_all m l) = max_history m.
Proof.
  revert m. induction l as [|a l IH]; intros m; [done|].
  change (trigger_all m (a :: l)) with (trigger_all (trigger m a).1.1 l).
  destruct (IH (trigger m a).1.1) as [-> ->].
  by destruct (trigger_frame m a) as (-> & _ & ->).
Qed.

(** An invariant of one call is an invariant of every sequence of calls. *)
Lemma trigger_all_ind {S} `{StateEnum S} (P : machine S -> Prop) m l :
  P m -> (forall m a, P m -> P (trigger m a).1.1) -> P (trigger_all m l).
Proof.
  intros H0 Hstep. revert m H0. induction l as [|a l IH]; intros m H0; [done|].
  apply IH. by apply Hstep.
Qed.

(** The state a deployment can have left once its credentials are revoked. *)
Definition closed_deployment (s : DeploymentState) : Prop :=
  s = D_REVOKED \/ s = D_TERMINATED.

Lemma deployment_step (m : machine DeploymentState) a :
  deployment_machine m ->
  current_state (trigger m a).1.1 = current_state m /\
    history (trigger m a).1.1 = history m \/
  exists t, deployment_spec (current_state m) (arg_event a) (truthy (arg_approved_by a))
      (to_state t) /\
    current_state (trigger m a).1.1 = to_state t /\
    history (trigger m a).1.1 =
      push_bounded (max_history m) (history m) (transition_record m t a).
Proof.
  intros Hm. destruct (trigger_step_spec m deployment_spec a) as [?|(t & _ & ?)].
  - rewrite Hm. apply deployment_lookup_spec.
  - by left.
  - right. by exists t.
Qed.

Lemma deployment_spec_closed s ev b s' :
  deployment_spec s ev b s' -> closed_deployment s -> s = D_REVOKED /\ s' = D_TERMINATED.
Proof. destruct 1; intros [?|?]; intuition congruence. Qed.

Lemma deployment_machine_step m a :
  deployment_machine m -> deployment_machine (trigger m a).1.1.
Proof. unfold deployment_machine. by destruct (trigger_frame m a) as (-> & _ & _). Qed.

(** The audit trail of a machine in state [s]: each record starts where the
    previous one ended and the last one ends in [s]. *)
Fixpoint trail_ends {S} `{StateEnum S} (h : list TransitionRecord) (s : S) : Prop :=
  match h with
  | [] => True
  | r :: rest =>
      match rest with
      | [] => rec_to r = state_value s
      | r' :: _ => rec_to r = rec_from r' /\ trail_ends rest s
      end
  end.

Lemma trail_snoc {S} `{StateEnum S} h (s s' : S) r :
  trail_ends h s -> rec_from r = state_value s -> rec_to r = state_value s' ->
  trail_ends (h ++ [r]) s'.
Proof.
  intros Ht Hf Hr. induction h as [|r0 h IH]; [done|].
  destruct h as [|r1 h]; cbn in *.
  - split; [by rewrite Ht, Hf|done].
  - destruct Ht as [? Ht]. split; [done|]. by apply IH.
Qed.

Lemma trail_suffix {S} `{StateEnum S} p h (s : S) : trail_ends (p ++ h) s -> trail_ends h s.
Proof.
  induction p as [|r p IH]; [done|]. cbn. destruct (p ++ h) as [|r' rest] eqn:E.
  - intros _. by apply app_eq_nil in E as [_ ->].
  - intros [_ Ht]. by apply IH.
Qed.

Lemma trail_push {S} `{StateEnum S} n h (s s' : S) r :
  trail_ends h s -> rec_from r = state_value s -> rec_to r = state_value s' ->
  trail_ends (push_bounded n h r) s'.
Proof.
  intros Ht Hf Hr. destruct (push_bounded_suffix n h r) as [p Hp].
  apply (trail_suffix p). rewrite <- Hp. by apply (trail_snoc h s).
Qed.

(** A call of the machine's interface that may change it. *)
Inductive machine_op {S} :=
  | OpTrigger (a : trigger_args)
  | OpForce (now : Z) (s : S) (reason : string).
Arguments machine_op : clear implicits.

Definition machine_step {S} `{StateEnum S} (m : machine S) (op : machine_op S) : machine S :=
  match op with
  | OpTrigger a => (trigger m a).1.1
  | OpForce now s reason => (force_state now m s reason).1
  end.

Definition machine_run {S} `{StateEnum S} (m : machine S) (ops : list (machine_op S)) :=
  fold_left machine_step ops m.

Lemma trigger_trail {S} `{StateEnum S} (m : machine S) a :
  trail_ends (history m) (current_state m) ->
  trail_ends (history (trigger m a).1.1) (current_state (trigger m a).1.1).
Proof.
  intros Ht. destruct (trigger_cases m a) as [[-> ->]|(Hd & s & logs & Htr)]; [done|].
  apply trigger_ok_inv in Htr as (t & _ & -> & _ & _ & ->); [|done]. cbn.
  by apply (trail_push _ _ (current_state m)).
Qed.

Lemma duplicate_after_push {S} `{StateEnum S} (m : machine S) h r k :
  history m = h ++ [r] -> rec_idempotency_key r = Some k -> is_duplicate m k = true.
Proof.
  intros Hh Hr. unfold is_duplicate. rewrite Hh, existsb_app. simpl.
  rewrite Hr, bool_decide_eq_true_2 by done. by rewrite orb_true_r.
Qed.

Lemma machine_run_snoc {S} `{StateEnum S} (m : machine S) ops op :
  machine_run m (ops ++ [op]) = machine_step (machine_run m ops) op.
Proof. unfold machine_run. by rewrite fold_left_app. Qed.

(** ** The audit trail *)

(** The idempotency keys on the records; the empty key is none. *)
Definition keys_of (h : list TransitionRecord) : list string :=
  List.filter (fun k => negb (bool_decide (k = ""))) (omap rec_idempotency_key h).

Lemma elem_keys_of h k :
  k ∈ keys_of h <-> exists r, r ∈ h /\ rec_idempotency_key r = Some k /\ k <> "".
Proof.
  unfold keys_of. rewrite list_elem_of_In, filter_In, <- list_elem_of_In, list_elem_of_omap.
  rewrite negb_true_iff, bool_decide_eq_false. naive_solver.
Qed.

Lemma keys_of_app h h' : keys_of (h ++ h') = keys_of h ++ keys_of h'.
Proof. unfold keys_of. by rewrite omap_app, List.filter_app. Qed.

(** What every operation keeps: the trail, its bound, and the keys. *)
Record audited {S} `{StateEnum S} (h : Z) (initial : S) (m : machine S) : Prop := {
  au_trail : trail_ends (history m) (current_state m);
  au_length : Z.of_nat (length (history m)) <= h;
  au_bound : max_history m = h;
  au_start : current_state m <> initial -> history m <> [];
  au_keys : NoDup (keys_of (history m))
}.

Lemma push_keys n h r :
  NoDup (keys_of h) -> (forall k, rec_idempotency_key r = Some k -> k <> "" -> ~ k ∈ keys_of h) ->
  NoDup (keys_of (push_bounded n h r)).
Proof.
  intros Hn Hr. assert (NoDup (keys_of (h ++ [r]))) as Ha.
  { rewrite keys_of_app. apply NoDup_app. split_and!; [done| |].
    - intros k Hk Hk'. apply elem_keys_of in Hk' as (r' & Hin & Hkr & Hne).
      apply list_elem_of_singleton in Hin as ->. by apply (Hr k).
    - unfold keys_of. cbn. destruct (rec_idempotency_key r) as [k|]; cbn; [|constructor].
      destruct (negb _); repeat constructor. by apply not_elem_of_nil. }
  destruct (push_bounded_suffix n h r) as [p Hp]. rewrite Hp, keys_of_app in Ha.
  by apply NoDup_app in Ha as (_ & _ & ?).
Qed.

Lemma push_audited {S} `{StateEnum S} h initial (m m' : machine S) r :
  0 < h -> audited h initial m ->
  history m' = push_bounded (max_history m) (history m) r -> max_history m' = max_history m ->
  rec_from r = state_value (current_state m) -> rec_to r = state_value (current_state m') ->
  (forall k, rec_idempotency_key r = Some k -> k <> "" -> ~ k ∈ keys_of (history m)) ->
  audited h initial m'.
Proof.
  intros Hh [Ht Hl Hb Hs Hk] Hy Hx Hf Hto Hr. split; rewrite ?Hy, ?Hx; [..|by apply push_keys].
  - by apply (trail_push _ _ (current_state m)).
  - rewrite Hb. by apply push_bounded_length.
  - done.
  - intros _. destruct (push_bounded_snoc (max_history m) (history m) r) as [p ->]; [lia|].
    by destruct p.
Qed.

Lemma trigger_audited {S} `{StateEnum S} h initial (m : machine S) a :
  0 < h -> audited h initial m -> audited h initial (trigger m a).1.1.
Proof.
  intros Hh Ha. destruct (trigger_frame m a) as (_ & _ & Hx).
  destruct (trigger_cases m a) as [[Hs Hy]|(Hd & s & logs & Htr)].
  - destruct Ha as [Ht Hl Hb Hst Hk]. split; by rewrite ?Hs, ?Hy, ?Hx.
  - apply trigger_ok_inv in Htr as (t & _ & Hs & _ & _ & Hm); [|done].
    apply (push_audited h initial m _ (transition_record m t a)); [done..| | | | |];
      [by rewrite Hm|done|done|by rewrite Hm|].
    cbn. intros k Hk Hne Hin. apply elem_keys_of in Hin as (r & Hr & Hrk & _).
    unfold duplicate_call in Hd. rewrite Hk in Hd. unfold truthy in Hd.
    rewrite bool_decide_eq_false_2 in Hd by done. cbn in Hd. unfold is_duplicate in Hd.
    assert (existsb (fun r => bool_decide (rec_idempotency_key r = Some k)) (history m) = true) as Hx'.
    { apply existsb_exists. exists r. apply list_elem_of_In in Hr. split; [done|].
      by apply bool_decide_eq_true_2. }
    congruence.
Qed.

Lemma machine_run_audited {S} `{StateEnum S} h initial (m : machine S) ops :
  0 < h /\ audited h initial m -> audited h initial (machine_run m ops).
Proof.
  intros [Hh Ha]. induction ops as [|op ops IH] using rev_ind; [done|]. rewrite machine_run_snoc.
  destruct op as [a|now s reason]; [by apply trigger_audited|].
  by eapply push_audited.
Qed.

Lemma init_audited {S} `{StateEnum S} initial id h ts (m0 : machine S) :
  init_machine initial id h ts = Ok m0 -> 0 < h -> 0 < h /\ audited h initial m0.
Proof.
  intros Hi Hh. split; [done|]. unfold init_machine in Hi.
  enough (current_state m0 = initial /\ history m0 = [] /\ max_history m0 = h) as (Hs & Hy & Hx).
  { split; rewrite ?Hs, ?Hy; [done|cbn; lia|done|done|constructor]. }
  assert (forall m, current_state m = initial /\ history m = [] /\ max_history m = h ->
    register_transitions m ts = Ok m0 ->
    current_state m0 = initial /\ history m0 = [] /\ max_history m0 = h) as Hg; [|refine (Hg _ _ Hi); done].
  clear Hi. induction ts as [|t ts IH]; cbn; intros m Hm Hr; [by simplify_eq|].
  unfold add_transition in Hr. destruct (dmem _ _); cbn in Hr; [done|]. by refine (IH _ _ Hr).
Qed.

Lemma key_recorded {S} `{StateEnum S} (m m' : machine S) a k s logs :
  0 < max_history m -> arg_key a = Some k -> k <> "" -> trigger m a = (m', Ok s, logs) ->
  k ∈ keys_of (history m').
Proof.
  intros Hx Ha Hk Htr. destruct (duplicate_call m a) eqn:Hd.
  - unfold trigger in Htr. rewrite Hd in Htr. simplify_eq. unfold duplicate_call in Hd.
    rewrite Ha in Hd. apply andb_true_iff in Hd as [_ Hd].
    apply existsb_exists in Hd as (r & Hr & Hrk). bool_to_prop. apply list_elem_of_In in Hr.
    apply elem_keys_of. by exists r.
  - apply trigger_ok_inv in Htr as (t & _ & _ & _ & _ & ->); [|done]. cbn.
    destruct (push_bounded_snoc _ (history m) (transition_record m t a) Hx) as [p ->].
    apply elem_keys_of. exists (transition_record m t a). split_and!; [set_solver|done|done].
Qed.

(** The last record of a deployment that runs. *)
Definition decided (ops : list (machine_op DeploymentState)) (m : machine DeploymentState) : Prop :=
  exists p r, history m = p ++ [r] /\ rec_to r = "RUNNING" /\
    ((rec_event r = "START_RUN" \/ rec_event r = "RESUME_RUN") /\ truthy (rec_approved_by r) = true \/
     rec_event r = "FORCE_STATE" /\ dget (rec_metadata r) "admin_override" = Some (VBool true) /\
     exists now reason, OpForce now D_RUNNING reason ∈ ops).

Lemma decided_same ops m m' : history m' = history m -> decided ops m -> decided ops m'.
Proof. unfold decided. by intros ->. Qed.

Lemma decided_weaken ops op m : decided ops m -> decided (ops ++ [op]) m.
Proof.
  intros (p & r & Hh & Ht & Hd). exists p, r. split_and!; [done..|].
  destruct Hd as [?|(? & ? & now & reason & Hin)]; [by left|right].
  split_and!; [done..|]. exists now, reason. apply elem_of_app. by left.
Qed.

Lemma decided_trigger ops m t a m' :
  0 < max_history m ->
  deployment_spec (current_state m) (arg_event a) (truthy (arg_approved_by a)) (to_state t) ->
  to_state t = D_RUNNING ->
  history m' = push_bounded (max_history m) (history m) (transition_record m t a) -> decided ops m'.
Proof.
  intros Hx Hs Ht Hy. destruct (push_bounded_snoc _ (history m) (transition_record m t a) Hx) as [p Hp].
  exists p, (transition_record m t a). rewrite Hy, Hp. cbn. rewrite Ht in *. split_and!; [done..|]. left.
  inversion Hs; subst; try congruence; split; try congruence; auto.
Qed.

Lemma decided_force ops m now reason :
  0 < max_history m ->
  decided (ops ++ [OpForce now D_RUNNING reason]) (machine_step m (OpForce now D_RUNNING reason)).
Proof.
  intros Hx. cbn [machine_step]. unfold force_state.
  set (r := MkRecord _ _ _ _ _ _ _). destruct (push_bounded_snoc _ (history m) r Hx) as [p Hp].
  exists p, r. split_and!; [exact Hp|done|]. right. split_and!; [done..|].
  exists now, reason. set_solver.
Qed.

(** ** The manager's referential integrity *)

Record manager_ok (mg : manager) : Prop := {
  mo_dep_keys : NoDup (deployments mg).*1;
  mo_run_keys : NoDup (runs mg).*1;
  mo_run_ids : forall id r, (id, r) ∈ runs mg -> run_id r = id;
  mo_parent : forall id r, (id, r) ∈ runs mg ->
    is_Some (dget (deployments mg) (run_deployment_id r))
}.

Lemma dget_dset_is_Some {K V} `{EqDecision K} (d : list (K * V)) k v k' :
  is_Some (dget d k') -> is_Some (dget (dset d k v) k').
Proof.
  intros Hk. destruct (decide (k' = k)) as [->|Hne].
  - rewrite dget_dset_eq. eauto.
  - by rewrite dget_dset_ne.
Qed.

Lemma elem_fold_ddel {K V} `{EqDecision K} (ids : list K) (d : list (K * V)) p :
  p ∈ fold_left ddel ids d <-> p ∈ d /\ p.1 ∉ ids.
Proof.
  revert d. induction ids as [|i ids IH]; intros d; simpl.
  - split; [|tauto]. intros Hp. split; [done|]. apply not_elem_of_nil.
  - rewrite IH, elem_ddel, not_elem_of_cons. split; intros; intuition congruence.
Qed.

Lemma NoDup_fold_ddel {K V} `{EqDecision K} (ids : list K) (d : list (K * V)) :
  NoDup d.*1 -> NoDup (fold_left ddel ids d).*1.
Proof.
  revert d. induction ids as [|i ids IH]; intros d Hd; simpl; [done|].
  apply IH. by apply NoDup_ddel.
Qed.

Lemma create_deployment_ok mg id s mg' :
  manager_ok mg -> create_deployment mg id s = Ok mg' -> manager_ok mg'.
Proof.
  intros [H1 H2 H3 H4]. unfold create_deployment. destruct (dmem _ _); [done|].
  rewrite DeploymentStateMachine_ok. intros [= <-]. split; cbn [deployments runs]; try done.
  - by apply NoDup_dset.
  - intros i r Hr. apply dget_dset_is_Some. by eapply H4.
Qed.

Lemma create_run_ok mg rid did s mg' :
  manager_ok mg -> create_run mg rid did s = Ok mg' -> manager_ok mg'.
Proof.
  intros [H1 H2 H3 H4]. unfold create_run. destruct (dmem (runs mg) rid); [done|].
  unfold dmem. destruct (dget (deployments mg) did) eqn:Hd; [|done]. cbn [negb].
  rewrite RunStateMachine_ok. intros [= <-]. split; cbn [deployments runs]; try done.
  - by apply NoDup_dset.
  - intros i r Hr. apply elem_dset in Hr as [[= -> ->]|Hr]; [done|by apply H3].
  - intros i r Hr. apply elem_dset in Hr as [[= -> ->]|Hr]; [|by eapply H4].
    cbn [run_deployment_id]. by rewrite Hd.
Qed.

Lemma elem_runs_for mg did id r :
  manager_ok mg -> (id, r) ∈ runs mg ->
  id ∈ map run_id (get_runs_for_deployment mg did) <-> run_deployment_id r = did.
Proof.
  intros Hok Hr. rewrite list_elem_of_In, in_map_iff. split.
  - intros (r' & Hid & Hin). apply list_elem_of_In in Hin.
    apply list_elem_of_filter in Hin as [<- Hin].
    apply list_elem_of_fmap in Hin as ([id' r''] & Heq & Hin). simpl in Heq. subst r''.
    pose proof (mo_run_ids _ Hok _ _ Hin) as Hid'. rewrite Hid in Hid'. subst id'.
    apply (elem_dget _ _ _ (mo_run_keys _ Hok)) in Hr, Hin. congruence.
  - intros Hd. exists r. split; [by apply (mo_run_ids _ Hok)|].
    apply list_elem_of_In, list_elem_of_filter. split; [done|].
    apply list_elem_of_fmap. by exists (id, r).
Qed.

Lemma remove_deployment_runs mg did id r :
  manager_ok mg -> dmem (deployments mg) did = true ->
  (id, r) ∈ runs (remove_deployment mg did).1 <->
  (id, r) ∈ runs mg /\ run_deployment_id r <> did.
Proof.
  intros Hok Hd. unfold remove_deployment. rewrite Hd. cbn.
  rewrite elem_fold_ddel. split; intros [Hr Hn]; (split; [done|]); revert Hn; cbn;
    by rewrite (elem_runs_for _ _ _ _ Hok Hr).
Qed.

Lemma remove_deployment_ok mg did : manager_ok mg -> manager_ok (remove_deployment mg did).1.
Proof.
  intros Hok. destruct (dmem (deployments mg) did) eqn:Hd.
  - pose proof (remove_deployment_runs mg did) as Hruns.
    split.
    + unfold remove_deployment. rewrite Hd. cbn. apply NoDup_ddel, (mo_dep_keys _ Hok).
    + unfold remove_deployment. rewrite Hd. cbn. apply NoDup_fold_ddel, (mo_run_keys _ Hok).
    + intros id r Hr. apply Hruns in Hr as [Hr _]; [|done..]. by apply (mo_run_ids _ Hok).
    + intros id r Hr. apply Hruns in Hr as [Hr Hne]; [|done..].
      unfold remove_deployment. rewrite Hd. cbn. rewrite dget_ddel_ne by done.
      exact (mo_parent _ Hok _ _ Hr).
  - unfold remove_deployment. by rewrite Hd.
Qed.

Lemma remove_run_ok mg id : manager_ok mg -> manager_ok (remove_run mg id).1.
Proof.
  intros [H1 H2 H3 H4]. unfold remove_run. destruct (dmem _ _); [|done]. split; cbn; try done.
  - by apply NoDup_ddel.
  - intros i r Hr. apply elem_ddel in Hr as [Hr _]. by apply H3.
  - intros i r Hr. apply elem_ddel in Hr as [Hr _]. by eapply H4.
Qed.

Lemma trigger_deployment_ok mg id a : manager_ok mg -> manager_ok (trigger_deployment mg id a).
Proof.
  intros [H1 H2 H3 H4]. unfold trigger_deployment. destruct (get_deployment mg id); [|done].
  split; cbn; try done.
  - by apply NoDup_dset.
  - intros i r Hr. apply dget_dset_is_Some. by eapply H4.
Qed.

Lemma trigger_run_ok mg id a : manager_ok mg -> manager_ok (trigger_run mg id a).
Proof.
  intros [H1 H2 H3 H4]. unfold trigger_run, get_run.
  destruct (dget (runs mg) id) as [r0|] eqn:Hr0; [|done]. apply dget_elem in Hr0.
  split; cbn; try done.
  - by apply NoDup_dset.
  - intros i r Hr. apply elem_dset in Hr as [[= -> ->]|Hr]; [|by apply H3].
    unfold run_id. cbn [run_sm]. destruct (trigger_frame (run_sm r0) a) as (_ & -> & _). by apply H3.
  - intros i r Hr. apply elem_dset in Hr as [[= -> ->]|Hr]; [|by eapply H4]. cbn [run_deployment_id].
    by eapply H4.
Qed.

Lemma manager_step_ok mg op : manager_ok mg -> manager_ok (manager_step mg op).
Proof.
  intros Hok. destruct op; cbn.
  - destruct (create_deployment _ _ _) eqn:E; [by eapply create_deployment_ok|done].
  - destruct (create_run _ _ _ _) eqn:E; [by eapply create_run_ok|done].
  - by apply remove_deployment_ok.
  - by apply remove_run_ok.
  - by apply trigger_deployment_ok.
  - by apply trigger_run_ok.
Qed.

(** ** Properties *)

(** C12: the audit trail is sound. After any triggers and administrator overrides of a
    machine with a positive limit on its history, of any table of transitions, guards and
    actions: consecutive records meet and the last one ends in the current state; there
    are at most as many records as the limit, and there is one as soon as the state
    is not the initial one; no idempotency key is on two records, a call that succeeds has
    its key on record, and a call with the key of a recorded transition changes nothing
    and answers with the current state. *)
Theorem audit_trail_sound {S} `{StateEnum S} initial id h ts (m0 : machine S) ops :
  init_machine initial id h ts = Ok m0 -> 0 < h ->
  let m := machine_run m0 ops in
  trail_ends (history m) (current_state m) /\
  Z.of_nat (length (history m)) <= h /\
  (current_state m <> initial -> history m <> []) /\
  NoDup (keys_of (history m)) /\
  (forall a k m' s logs, arg_key a = Some k -> k <> "" -> trigger m a = (m', Ok s, logs) ->
     k ∈ keys_of (history m')) /\
  (forall a k, arg_key a = Some k -> k ∈ keys_of (history m) ->
     trigger m a = (m, Ok (current_state m), [DuplicateIgnored (arg_event a) k])).
Proof.
  intros Hi Hh m. assert (audited h initial m) as [Ht Hl Hm Hs Hk].
  { apply machine_run_audited. by apply (init_audited _ id h ts). }
  split_and!; [done|done|done|done| |].
  { intros a k m' s logs. apply key_recorded. by rewrite Hm. }
  intros a k Ha Hk'. apply elem_keys_of in Hk' as (r & Hr & Hrk & Hne).
  unfold trigger. assert (duplicate_call m a = true) as ->; [|by rewrite Ha].
  unfold duplicate_call. rewrite Ha. unfold truthy. rewrite bool_decide_eq_false_2 by done.
  unfold is_duplicate. apply existsb_exists. exists r. apply list_elem_of_In in Hr.
  split; [done|]. by rewrite Hrk, bool_decide_eq_true_2.
Qed.

(** On a deployment machine, a call that is not a replay succeeds with new
    state [s'] exactly when [deployment_spec] has the move. *)
Theorem deployment_trigger_refines (m : machine DeploymentState) a s' :
  deployment_machine m -> duplicate_call m a = false ->
  (exists m' logs, trigger m a = (m', Ok s', logs)) <->
  deployment_spec (current_state m) (arg_event a) (truthy (arg_approved_by a)) s'.
Proof.
  intros Hm Hd. apply trigger_follows; [..|done].
  - rewrite Hm. apply deployment_lookup_spec.
  - rewrite Hm. apply deployment_spec_lookup.
Qed.

(** The same for run machines. *)
Theorem run_trigger_refines (m : machine RunState) a s' :
  run_machine_ok m -> duplicate_call m a = false ->
  (exists m' logs, trigger m a = (m', Ok s', logs)) <->
  run_spec (current_state m) (arg_event a) (truthy (arg_approved_by a)) s'.
Proof.
  intros Hm Hd. apply trigger_follows; [..|done].
  - rewrite Hm. apply run_lookup_spec.
  - rewrite Hm. apply run_spec_lookup.
Qed.

(** Once a deployment is revoked or terminated, no sequence of events makes
    it operational again, and a terminated deployment stays terminated. *)
Theorem revoked_never_operational (m : machine DeploymentState) l :
  deployment_machine m -> closed_deployment (current_state m) ->
  closed_deployment (current_state (trigger_all m l)) /\
  deployment_is_operational (trigger_all m l) = false /\
  (current_state m = D_TERMINATED -> current_state (trigger_all m l) = D_TERMINATED).
Proof.
  intros Hm Hc.
  assert (deployment_machine (trigger_all m l) /\
    closed_deployment (current_state (trigger_all m l)) /\
    (current_state m = D_TERMINATED -> current_state (trigger_all m l) = D_TERMINATED))
    as (_ & Hcl & Hterm).
  { apply trigger_all_ind; [done|]. intros m' a (Hm' & Hc' & Ht').
    split; [by apply deployment_machine_step|].
    destruct (deployment_step m' a Hm') as [[-> _]|(t & Hs & -> & _)]; [done|].
    destruct (deployment_spec_closed _ _ _ _ Hs Hc') as [_ ->].
    split; [by right|done]. }
  split_and!; [done| |done].
  unfold deployment_is_operational. by destruct Hcl as [-> | ->].
Qed.

(** The design document lets a deployment be revoked from any state; the code refuses
    it before the enrollment is complete. *)
Theorem pending_cannot_be_revoked (m : machine DeploymentState) now :
  deployment_machine m -> current_state m = D_CREATED \/ current_state m = D_PENDING ->
  trigger m (MkArgs now "REVOKE_CREDENTIALS" None None (Some "security") [])
  = (m, Raise (InvalidTransitionError (current_state m) (current_state m) "REVOKE_CREDENTIALS"), []).
Proof.
  intros Hm Hs. unfold trigger. cbn [duplicate_call arg_key arg_event]. rewrite Hm.
  by destruct Hs as [-> | ->].
Qed.

(** C13: a deployment that started in [CREATED], with a positive limit on its history, is
    [RUNNING] only by a recorded decision: whatever was triggered and forced, the last
    record of its history enters [RUNNING], and it is either a [START_RUN] or [RESUME_RUN]
    that names an approver, or the record of an administrator's override ([force_state])
    to [RUNNING], marked as one. *)
Theorem running_was_approved id h m0 (m : machine DeploymentState) ops :
  DeploymentStateMachine id D_CREATED h = Ok m0 -> 0 < h ->
  m = machine_run m0 ops -> current_state m = D_RUNNING ->
  exists p r, history m = p ++ [r] /\ rec_to r = "RUNNING" /\
    ((rec_event r = "START_RUN" \/ rec_event r = "RESUME_RUN") /\ truthy (rec_approved_by r) = true \/
     rec_event r = "FORCE_STATE" /\ dget (rec_metadata r) "admin_override" = Some (VBool true) /\
     exists now reason, OpForce now D_RUNNING reason ∈ ops).
Proof.
  rewrite DeploymentStateMachine_ok. intros [= <-] Hh -> Hrun. revert Hrun.
  set (m0 := MkMachine _ _ _ _ _ _). intros Hrun.
  enough (deployment_machine (machine_run m0 ops) /\ max_history (machine_run m0 ops) = h /\
    (current_state (machine_run m0 ops) = D_RUNNING -> decided ops (machine_run m0 ops)))
    as (_ & _ & Hd) by (by apply Hd).
  clear Hrun. induction ops as [|op ops IH] using rev_ind; [done|].
  rewrite machine_run_snoc. destruct IH as (Hm & Hx & Hinv).
  set (m := machine_run m0 ops) in *. destruct op as [a|now s reason].
  - cbn [machine_step]. split_and!; [by apply deployment_machine_step|by destruct (trigger_frame m a) as (_ & _ & ->)|].
    destruct (deployment_step m a Hm) as [[Hs Hy]|(t & Hs & Ht & Hy)].
    + intros Hr. rewrite Hs in Hr. by apply decided_weaken, (decided_same _ m), Hinv.
    + intros Hr. apply (decided_trigger _ m t a); [lia|done|congruence|done].
  - split_and!; [done|done|]. cbn. intros ->. apply decided_force. lia.
Qed.

(** The audit trail is consistent under triggers and administrator
    overrides: consecutive records meet, and the last record ends in the current
    state. *)
Theorem history_is_consistent {S} `{StateEnum S} (m : machine S) ops :
  trail_ends (history m) (current_state m) ->
  trail_ends (history (machine_run m ops)) (current_state (machine_run m ops)).
Proof.
  revert m. induction ops as [|op ops IH]; intros m Ht; [done|].
  apply (IH (machine_step m op)). destruct op as [a|now s reason].
  - by apply trigger_trail.
  - cbn. by apply (trail_push _ _ (current_state m)).
Qed.

(** A transition carrying an idempotency key is not repeated: the next call
    with the same non-empty key changes nothing and returns the current state. *)
Theorem idempotency_key_not_replayed {S} `{StateEnum S} (m m1 : machine S) a b k s logs :
  duplicate_call m a = false -> 0 < max_history m -> k <> "" ->
  trigger m a = (m1, Ok s, logs) -> arg_key a = Some k -> arg_key b = Some k ->
  trigger m1 b = (m1, Ok s, [DuplicateIgnored (arg_event b) k]).
Proof.
  intros Hd Hmax Hk Htr Ha Hb.
  apply trigger_ok_inv in Htr as (t & _ & -> & _ & _ & ->); [|done].
  destruct (push_bounded_snoc (max_history m) (history m) (transition_record m t a) Hmax)
    as [p Hp].
  unfold trigger. assert (duplicate_call _ b = true) as ->; [|by rewrite Hb].
  unfold duplicate_call. rewrite Hb. unfold truthy.
  rewrite bool_decide_eq_false_2 by done. cbn [negb andb].
  eapply duplicate_after_push; [exact Hp|exact Ha].
Qed.

(** With [max_history = 0] the cut [self._history[-0:]] keeps everything: the
    history grows without bound. *)
Theorem zero_max_history_unbounded {S} `{StateEnum S} (m m1 : machine S) a s logs :
  duplicate_call m a = false -> max_history m = 0 ->
  trigger m a = (m1, Ok s, logs) ->
  length (history m1) = (length (history m) + 1)%nat.
Proof.
  intros Hd Hmax Htr. apply trigger_ok_inv in Htr as (t & _ & _ & _ & _ & ->); [|done].
  cbn. by rewrite Hmax, push_bounded_0, length_app.
Qed.

(** Whatever sequence of calls the manager serves, every run belongs to a
    registered deployment and is stored under its own identifier; removing a
    deployment removes exactly its runs. *)
Theorem manager_integrity ops did id r :
  let mg := fold_left manager_step ops empty_manager in
  manager_ok mg /\
  (dmem (deployments mg) did = true ->
   (id, r) ∈ runs (remove_deployment mg did).1 <->
   (id, r) ∈ runs mg /\ run_deployment_id r <> did).
Proof.
  intros mg. assert (manager_ok mg) as Hok.
  { subst mg. assert (manager_ok empty_manager) as Hok.
    { split; cbn; try constructor; intros ? ? Hin; by apply not_elem_of_nil in Hin. }
    revert Hok. generalize empty_manager. induction ops as [|op ops IH]; intros mg Hok; [done|].
    apply (IH (manager_step mg op)). by apply manager_step_ok. }
  split; [done|]. intros Hd. by apply remove_deployment_runs.
Qed.

(** ** Witnesses *)

Definition ev_call (now : Z) (ev : string) (key approver : option string) : trigger_args :=
  MkArgs now ev None key approver [].

Definition sample_deployment (s : DeploymentState) : machine DeploymentState :=
  MkMachine s "dep-1" 1000 [] (table deployment_transitions) None.

Lemma deployment_trigger_refines_witness :
  exists m' logs,
    trigger (sample_deployment D_ENROLLED) (ev_call 5 "START_RUN" None (Some "ops")) =
    (m', Ok D_RUNNING, logs).
Proof.
  apply (deployment_trigger_refines (sample_deployment D_ENROLLED)
           (ev_call 5 "START_RUN" None (Some "ops")) D_RUNNING).
  - reflexivity.
  - reflexivity.
  - apply spec_start. by left.
Defined.

Lemma run_trigger_refines_witness :
  exists m' logs,
    trigger (MkMachine R_HALTED "run-1" 500 [] (table run_transitions) None)
      (ev_call 5 "RECOVER" None (Some "ops")) = (m', Ok R_RUNNING, logs).
Proof.
  apply (run_trigger_refines (MkMachine R_HALTED "run-1" 500 [] (table run_transitions) None)
           (ev_call 5 "RECOVER" None (Some "ops")) R_RUNNING).
  - reflexivity.
  - reflexivity.
  - apply rspec_recover.
Defined.

Lemma revoked_never_operational_witness :
  deployment_is_operational
    (trigger_all (sample_deployment D_REVOKED)
       [ev_call 1 "START_RUN" None (Some "ops"); ev_call 2 "TERMINATE" None None]) = false.
Proof.
  apply (revoked_never_operational (sample_deployment D_REVOKED)
           [ev_call 1 "START_RUN" None (Some "ops"); ev_call 2 "TERMINATE" None None]).
  - reflexivity.
  - by left.
Defined.

Definition sample_start : list trigger_args :=
  [ev_call 1 "INITIATE_ENROLLMENT" None None; ev_call 2 "COMPLETE_ENROLLMENT" None None;
   ev_call 3 "START_RUN" None (Some "ops")].

Definition sample_ops : list (machine_op DeploymentState) :=
  map OpTrigger sample_start ++ [OpTrigger (ev_call 4 "STOP_RUN" (Some "k1") None);
    OpForce 5 D_RUNNING "drill"].

Lemma running_was_approved_witness :
  exists p r, history (machine_run (sample_deployment D_CREATED) sample_ops) = p ++ [r] /\
    rec_to r = "RUNNING" /\
    ((rec_event r = "START_RUN" \/ rec_event r = "RESUME_RUN") /\ truthy (rec_approved_by r) = true \/
     rec_event r = "FORCE_STATE" /\ dget (rec_metadata r) "admin_override" = Some (VBool true) /\
     exists now reason, OpForce now D_RUNNING reason ∈ sample_ops).
Proof.
  apply (running_was_approved "dep-1" 1000 (sample_deployment D_CREATED)
           (machine_run (sample_deployment D_CREATED) sample_ops) sample_ops).
  - reflexivity.
  - lia.
  - reflexivity.
  - reflexivity.
Defined.

Lemma audit_trail_sound_witness :
  let m := machine_run (sample_deployment D_CREATED) sample_ops in
  trigger m (ev_call 6 "PAUSE_RUN" (Some "k1") None)
  = (m, Ok D_RUNNING, [DuplicateIgnored "PAUSE_RUN" "k1"]).
Proof.
  intros m.
  destruct (audit_trail_sound D_CREATED "dep-1" 1000 deployment_transitions
              (sample_deployment D_CREATED) sample_ops) as (_ & _ & _ & _ & _ & Hk).
  - reflexivity.
  - lia.
  - apply (Hk (ev_call 6 "PAUSE_RUN" (Some "k1") None) "k1").
    + reflexivity.
    + vm_compute. constructor.
Defined.

Lemma history_is_consistent_witness :
  trail_ends
    (history (machine_run (sample_deployment D_CREATED)
       [OpTrigger (ev_call 1 "INITIATE_ENROLLMENT" None None); OpForce 2 D_STOPPED "drill"]))
    D_STOPPED.
Proof.
  apply (history_is_consistent (sample_deployment D_CREATED)
    [OpTrigger (ev_call 1 "INITIATE_ENROLLMENT" None None); OpForce 2 D_STOPPED "drill"]).
  exact I.
Defined.

Lemma idempotency_key_not_replayed_witness :
  let m1 := (trigger (sample_deployment D_RUNNING) (ev_call 1 "STOP_RUN" (Some "k1") None)).1.1 in
  trigger m1 (ev_call 2 "START_RUN" (Some "k1") (Some "ops")) =
  (m1, Ok D_STOPPED, [DuplicateIgnored "START_RUN" "k1"]).
Proof.
  apply (idempotency_key_not_replayed (sample_deployment D_RUNNING) _
           (ev_call 1 "STOP_RUN" (Some "k1") None)
           (ev_call 2 "START_RUN" (Some "k1") (Some "ops")) "k1" D_STOPPED
           [TransitionCompleted "STOP_RUN" "RUNNING" "STOPPED"]).
  - reflexivity.
  - reflexivity.
  - discriminate.
  - reflexivity.
  - reflexivity.
  - reflexivity.
Defined.

Definition sample_run : run_machine :=
  MkRun (MkMachine R_INITIALIZING "r1" 500 [] (table run_transitions) None) "d1".

Lemma manager_integrity_witness :
  ~ ("r1", sample_run) ∈ runs (remove_deployment (fold_left manager_step
      [OpCreateDeployment "d1" D_CREATED; OpCreateRun "r1" "d1" R_INITIALIZING]
      empty_manager) "d1").1.
Proof.
  intros Hr.
  apply (manager_integrity
    [OpCreateDeployment "d1" D_CREATED; OpCreateRun "r1" "d1" R_INITIALIZING] "d1" "r1"
    sample_run) in Hr as [_ Hne].
  - apply Hne. reflexivity.
  - reflexivity.
Defined.
