(* ===== verification/Sha256.v ===== *)
(** * SHA-256 and HMAC-SHA256

    The code hashes with [hashlib.sha256(b).hexdigest()] and
    [hmac.new(key, b, hashlib.sha256).hexdigest()].  This file gives the two
    functions as executable definitions (FIPS 180-4, RFC 2104) and the interface
    the components use: a digest of 64 characters, of which nothing else is
    assumed.

    A Python [str] that is hashed is represented by its UTF-8 bytes. *)
From Stdlib Require Import Ascii String.
From S2P Require Import Prelude.
Open Scope Z_scope.

(** What a client relies on: digests are text of 64 characters. *)
Class Digest := {
  sha256_hex : string -> string;
  hmac_sha256_hex : string -> string -> string;
  sha256_hex_length s : String.length (sha256_hex s) = 64%nat;
  hmac_sha256_hex_length k s : String.length (hmac_sha256_hex k s) = 64%nat
}.

Definition bytes_of (s : string) : list Z :=
  map (fun c => Z.of_N (N_of_ascii c)) (list_ascii_of_string s).

Definition w32 (z : Z) : Z := Z.land z 4294967295.
Definition rotr (n x : Z) : Z := w32 (Z.lor (Z.shiftr x n) (Z.shiftl x (32 - n))).
Definition not32 (x : Z) : Z := Z.lxor x 4294967295.

Definition round_constants : list Z :=
  [ 1116352408; 1899447441; 3049323471; 3921009573; 961987163; 1508970993;
    2453635748; 2870763221; 3624381080; 310598401; 607225278; 1426881987;
    1925078388; 2162078206; 2614888103; 3248222580; 3835390401; 4022224774;
    264347078; 604807628; 770255983; 1249150122; 1555081692; 1996064986;
    2554220882; 2821834349; 2952996808; 3210313671; 3336571891; 3584528711;
    113926993; 338241895; 666307205; 773529912; 1294757372; 1396182291;
    1695183700; 1986661051; 2177026350; 2456956037; 2730485921; 2820302411;
    3259730800; 3345764771; 3516065817; 3600352804; 4094571909; 275423344;
    430227734; 506948616; 659060556; 883997877; 958139571; 1322822218;
    1537002063; 1747873779; 1955562222; 2024104815; 2227730452; 2361852424;
    2428436474; 2756734187; 3204031479; 3329325298 ].

(** The eight working variables. *)
Record hstate := H8 { ha : Z; hb : Z; hc : Z; hd : Z; he : Z; hf : Z; hg : Z; hh : Z }.

Definition initial_hash : hstate :=
  H8 1779033703 3144134277 1013904242 2773480762 1359893119 2600822924 528734635 1541459225.

Fixpoint be_word (l : list Z) (acc : Z) : Z :=
  match l with
  | [] => acc
  | b :: r => be_word r (acc * 256 + b)
  end.

(** [n] bytes of [z], most significant first. *)
Fixpoint be_bytes (n : nat) (z : Z) : list Z :=
  match n with
  | O => []
  | S m => be_bytes m (z / 256) ++ [z mod 256]
  end.

Definition pad (msg : list Z) : list Z :=
  let n := Z.of_nat (List.length msg) in
  msg ++ 128 :: repeat 0 (Z.to_nat ((55 - n) mod 64)) ++ be_bytes 8 (8 * n).

(** Cut a list into pieces of [k] elements. *)
Fixpoint chunks (fuel k : nat) (l : list Z) : list (list Z) :=
  match fuel, l with
  | S f, _ :: _ => take k l :: chunks f k (drop k l)
  | _, _ => []
  end.

Definition ssig0 (x : Z) : Z := Z.lxor (rotr 7 x) (Z.lxor (rotr 18 x) (Z.shiftr x 3)).
Definition ssig1 (x : Z) : Z := Z.lxor (rotr 17 x) (Z.lxor (rotr 19 x) (Z.shiftr x 10)).
Definition bsig0 (x : Z) : Z := Z.lxor (rotr 2 x) (Z.lxor (rotr 13 x) (rotr 22 x)).
Definition bsig1 (x : Z) : Z := Z.lxor (rotr 6 x) (Z.lxor (rotr 11 x) (rotr 25 x)).

(** The message schedule, kept most recent word first. *)
Fixpoint schedule (n : nat) (ws : list Z) : list Z :=
  match n with
  | O => ws
  | S m =>
      let w := w32 (ssig1 (nth 1 ws 0) + nth 6 ws 0 + ssig0 (nth 14 ws 0) + nth 15 ws 0) in
      schedule m (w :: ws)
  end.

Definition round (s : hstate) (kw : Z * Z) : hstate :=
  let ch := Z.lxor (Z.land (he s) (hf s)) (Z.land (not32 (he s)) (hg s)) in
  let maj := Z.lxor (Z.land (ha s) (hb s))
               (Z.lxor (Z.land (ha s) (hc s)) (Z.land (hb s) (hc s))) in
  let t1 := hh s + bsig1 (he s) + ch + kw.1 + kw.2 in
  let t2 := bsig0 (ha s) + maj in
  H8 (w32 (t1 + t2)) (ha s) (hb s) (hc s) (w32 (hd s + t1)) (he s) (hf s) (hg s).

Definition compress (s : hstate) (block : list Z) : hstate :=
  let ws := map (fun b => be_word b 0) (chunks 16 4 block) in
  let sched := rev (schedule 48 (rev ws)) in
  let r := fold_left round (combine round_constants sched) s in
  H8 (w32 (ha s + ha r)) (w32 (hb s + hb r)) (w32 (hc s + hc r)) (w32 (hd s + hd r))
     (w32 (he s + he r)) (w32 (hf s + hf r)) (w32 (hg s + hg r)) (w32 (hh s + hh r)).

Definition sha256_state (msg : list Z) : hstate :=
  let p := pad msg in
  fold_left compress (chunks (List.length p) 64 p) initial_hash.

Definition state_bytes (s : hstate) : list Z :=
  be_bytes 4 (ha s) ++ be_bytes 4 (hb s) ++ be_bytes 4 (hc s) ++ be_bytes 4 (hd s) ++
  be_bytes 4 (he s) ++ be_bytes 4 (hf s) ++ be_bytes 4 (hg s) ++ be_bytes 4 (hh s).

Definition hex_char (d : Z) : ascii :=
  ascii_of_nat (Z.to_nat (if d <? 10 then 48 + d else 87 + d)).

Definition hex_byte (b : Z) : list ascii := [hex_char (b / 16); hex_char (b mod 16)].

Definition hexdigest (s : hstate) : string :=
  string_of_list_ascii (flat_map hex_byte (state_bytes s)).

Definition sha256_hex_impl (s : string) : string := hexdigest (sha256_state (bytes_of s)).

Definition hmac_key (key : list Z) : list Z :=
  let k := if 64 <? Z.of_nat (List.length key) then state_bytes (sha256_state key) else key in
  k ++ repeat 0 (64 - List.length k).

Definition hmac_sha256_hex_impl (key s : string) : string :=
  let k := hmac_key (bytes_of key) in
  let inner := sha256_state (map (Z.lxor 54) k ++ bytes_of s) in
  hexdigest (sha256_state (map (Z.lxor 92) k ++ state_bytes inner)).

Lemma length_string_of_list_ascii l : String.length (string_of_list_ascii l) = List.length l.
Proof. induction l as [|c l IH]; simpl; [done|]. by rewrite IH. Qed.

Lemma be_bytes_length n z : List.length (be_bytes n z) = n.
Proof.
  revert z. induction n as [|n IH]; intros z; simpl; [done|].
  rewrite length_app, IH. simpl. lia.
Qed.

Lemma hexdigest_length s : String.length (hexdigest s) = 64%nat.
Proof.
  unfold hexdigest. rewrite length_string_of_list_ascii.
  assert (forall l, List.length (flat_map hex_byte l) = (2 * List.length l)%nat) as ->.
  { induction l as [|b l IH]; simpl; [done|]. rewrite IH. lia. }
  unfold state_bytes. by rewrite !length_app, !be_bytes_length.
Qed.

(** The standard library's digests are one implementation of the interface. *)
#[export] Instance hashlib_digest : Digest.
Proof.
  refine {| sha256_hex := sha256_hex_impl; hmac_sha256_hex := hmac_sha256_hex_impl |};
    intros; apply hexdigest_length.
Defined.

(** Test vectors of FIPS 180-4 and RFC 4231. *)
Example sha256_abc :
  sha256_hex_impl "abc"%string =
  "ba7816bf8f01cfea414140de5dae2223b00361a396177a9cb410ff61f20015ad"%string.
Proof. vm_compute. reflexivity. Qed.

Example sha256_two_blocks :
  sha256_hex_impl "abcdbcdecdefdefgefghfghighijhijkijkljklmklmnlmnomnopnopq"%string =
  "248d6a61d20638b8e5c026930c3e6039a33ce45964ff2167f6ecedd419db06c1"%string.
Proof. vm_compute. reflexivity. Qed.

Example hmac_test_case_2 :
  hmac_sha256_hex_impl "Jefe"%string "what do ya want for nothing?"%string =
  "5bdcc146bf60754e6a042426089575c75a003f089d2739839dec58b964ec3843"%string.
Proof. vm_compute. reflexivity. Qed.
