(* ===== verification/PyJson.v ===== *)
(** * JSON text

    The canonical text [json.dumps(d, sort_keys=True, separators=(",", ":"),
    default=str)] that is hashed for the audit records.  Strings are printed byte
    by byte, control characters and [DEL] as [\uXXXX] escapes: for text outside ASCII
    the library writes escapes of characters, which are not modelled. *)
From Stdlib Require Import Ascii String.
From S2P Require Import Prelude PyDecimal DecArith PyFormat PyFloat PyValue.
Open Scope Z_scope.

(** ** JSON *)

Definition char_quote : ascii := ascii_of_nat 34.
Definition char_backslash : ascii := ascii_of_nat 92.

Definition hex_digit (n : Z) : ascii :=
  ascii_of_nat (Z.to_nat (if n <? 10 then 48 + n else 87 + n)).

Definition json_char (c : ascii) : list ascii :=
  let n := Z.of_nat (nat_of_ascii c) in
  if n =? 34 then [char_backslash; c]
  else if n =? 92 then [char_backslash; c]
  else if n =? 10 then [char_backslash; "n"%char]
  else if n =? 13 then [char_backslash; "r"%char]
  else if n =? 9 then [char_backslash; "t"%char]
  else if n =? 8 then [char_backslash; "b"%char]
  else if n =? 12 then [char_backslash; "f"%char]
  else if (n <? 32) || (n =? 127) then
    char_backslash :: "u"%char :: "0"%char :: "0"%char :: [hex_digit (n / 16); hex_digit (n mod 16)]
  else [c].

Definition json_str (s : string) : list ascii :=
  char_quote :: flat_map json_char (list_ascii_of_string s) ++ [char_quote].

Fixpoint join_chars (sep : list ascii) (l : list (list ascii)) : list ascii :=
  match l with
  | [] => []
  | [x] => x
  | x :: r => x ++ sep ++ join_chars sep r
  end.

Section Keys.
Context {V : Type}.

Fixpoint insert_key (kv : string * V) (d : list (string * V)) : list (string * V) :=
  match d with
  | [] => [kv]
  | kv' :: r => if String.leb kv.1 kv'.1 then kv :: d else kv' :: insert_key kv r
  end.

Definition sort_keys (d : list (string * V)) : list (string * V) := fold_right insert_key [] d.
End Keys.

(** A member of an object, its value already printed. *)
Definition json_item (kv : string * list ascii) : list ascii := json_str kv.1 ++ ":"%char :: kv.2.

Definition json_object (items : list (string * list ascii)) : list ascii :=
  "{"%char :: join_chars [","%char] (map json_item (sort_keys items)) ++ ["}"%char].

Fixpoint json_val (v : pyval) : list ascii :=
  match v with
  | VNone => list_ascii_of_string "null"
  | VBool true => list_ascii_of_string "true"
  | VBool false => list_ascii_of_string "false"
  | VInt n => int_chars n
  | VStr s => json_str s
  | VDec d => json_str (dec_str d)
  | VTime t => json_str (datetime_str t)
  | VSecs us => secs_chars us
  | VFloat x => json_float x
  | VStrs l => "["%char :: join_chars [","%char] (map json_str l) ++ ["]"%char]
  | VDict d => json_object (map (fun kv => (kv.1, json_val kv.2)) d)
  end.

Definition json_dict (d : dict) : list ascii :=
  json_object (map (fun kv => (kv.1, json_val kv.2)) d).

Example json_dict_ex :
  string_of_list_ascii
    (json_dict [("b", VInt 7); ("a", VNone); ("c", VDec (Dec 5 (-1)))]%string) =
  string_of_list_ascii (map (fun n => if (n =? 39)%nat then char_quote else ascii_of_nat n)
    (map nat_of_ascii (list_ascii_of_string "{'a':null,'b':7,'c':'0.5'}"%string))).
Proof. vm_compute. reflexivity. Qed.
Example json_nested_ex :
  string_of_list_ascii
    (json_dict [("z", VDict [("b", VFloat (float_of_dec (Dec 15 (-1)))); ("a", VInt 1)])]%string) =
  string_of_list_ascii (map (fun n => if (n =? 39)%nat then char_quote else ascii_of_nat n)
    (map nat_of_ascii (list_ascii_of_string "{'z':{'a':1,'b':1.5}}"%string))).
Proof. vm_compute. reflexivity. Qed.

(** What [json.load] reads back of a value that [json.dump(v, default=str)] wrote:
    decimals and times come back as their texts, everything else as it was. *)
Fixpoint json_reread (v : pyval) : pyval :=
  match v with
  | VDec d => VStr (dec_str d)
  | VTime t => VStr (datetime_str t)
  | VDict d => VDict (map (fun kv => (kv.1, json_reread kv.2)) d)
  | _ => v
  end.

Definition reread_dict (d : dict) : dict := map (fun kv => (kv.1, json_reread kv.2)) d.

(** What [json.dumps] without a [default] prints: no decimals and no times. *)
Fixpoint serializable (v : pyval) : bool :=
  match v with
  | VDec _ | VTime _ => false
  | VDict d => forallb (fun kv => serializable kv.2) d
  | _ => true
  end.

(** [json.dumps(v, sort_keys=True)], with the separators it uses by default. *)
Definition spaced_sep : list ascii := list_ascii_of_string ", ".

Fixpoint spaced_val (v : pyval) : list ascii :=
  match v with
  | VStrs l => "["%char :: join_chars spaced_sep (map json_str l) ++ ["]"%char]
  | VDict d =>
      "{"%char :: join_chars spaced_sep
        (map (fun kv => json_str kv.1 ++ list_ascii_of_string ": " ++ kv.2)
           (sort_keys (map (fun kv => (kv.1, spaced_val kv.2)) d))) ++ ["}"%char]
  | _ => json_val v
  end.

Example spaced_ex :
  string_of_list_ascii (spaced_val (VDict [("b", VInt 1); ("a", VDict [("z", VBool true); ("y", VNone)])]%string)) =
  string_of_list_ascii (map (fun n => if (n =? 39)%nat then char_quote else ascii_of_nat n)
    (map nat_of_ascii (list_ascii_of_string "{'a': {'y': null, 'z': true}, 'b': 1}"%string))).
Proof. vm_compute. reflexivity. Qed.

(** ** Where text ends *)

Lemma int_chars_digits n : 0 <= n -> int_chars n = digit_chars (digits n).
Proof.
  intros Hn. unfold int_chars. destruct (Z.ltb_spec n 0); [lia|].
  by rewrite Z.abs_eq.
Qed.

Lemma int_chars_inj n m : 0 <= n -> 0 <= m -> int_chars n = int_chars m -> n = m.
Proof.
  intros Hn Hm. rewrite !int_chars_digits by done. intros H.
  apply (f_equal span_digits) in H. rewrite !span_digits_end in H by (by apply digits_range).
  injection H as H. rewrite <- (undigits_digits n), <- (undigits_digits m) by done.
  by rewrite H.
Qed.

(** A text that ends with [c], a non-digit, followed by digits splits in one way. *)
Lemma split_digits_tail c (x y : list ascii) ds ds' :
  char_digit c = None -> Forall is_digit ds -> Forall is_digit ds' ->
  x ++ c :: digit_chars ds = y ++ c :: digit_chars ds' ->
  x = y /\ digit_chars ds = digit_chars ds'.
Proof.
  intros Hc Hds Hds'. revert y. induction x as [|a x IH]; intros y H.
  - destruct y as [|b y]; simpl in H; [by simplify_eq|]. exfalso. injection H as _ H.
    assert (c ∈ digit_chars ds) as Hin.
    { rewrite H. apply elem_of_app. right. left. }
    apply list_elem_of_In, in_map_iff in Hin as (d & <- & Hd).
    apply list_elem_of_In in Hd. rewrite Forall_forall in Hds.
    by rewrite (char_digit_char d (Hds _ Hd)) in Hc.
  - destruct y as [|b y]; simpl in H.
    + exfalso. injection H as _ H.
      assert (c ∈ digit_chars ds') as Hin.
      { rewrite <- H. apply elem_of_app. right. left. }
      apply list_elem_of_In, in_map_iff in Hin as (d & <- & Hd).
      apply list_elem_of_In in Hd. rewrite Forall_forall in Hds'.
      by rewrite (char_digit_char d (Hds' _ Hd)) in Hc.
    + injection H as -> H. destruct (IH y H) as [-> ->]; done.
Qed.
