(* ===== verification/PyCompare.v ===== *)
(** * Comparisons of Python values, sets of values, sorted strings

    [==], [<] between the values of [PyValue] and between lists and sets of them,
    [min] and [max] of two, the set operations of lists of values, and [sorted] of
    a set of strings.  Integers, booleans, floats and decimals compare by their
    exact value; [<] between other kinds raises [TypeError] ([None]).  A NaN inside
    a list is not equal to itself here. *)
From Stdlib Require Import Ascii String Sorted SpecFloat.
From S2P Require Import Prelude PyDecimal DecArith PyFormat PyFloat PyValue PyJson.
Open Scope Z_scope.
Open Scope list_scope.

(** ** Numbers *)

Inductive num :=
  | NumNaN
  | NumInf (neg : bool)
  | Num (d : dec).

Definition num_of_float (x : pyfloat) : num :=
  match x with
  | S754_zero _ => Num (Dec 0 0)
  | S754_infinity s => NumInf s
  | S754_nan => NumNaN
  | S754_finite s m e => Num (float_exact s m e)
  end.

(** A value that is a number; a boolean is one. *)
Definition num_of (v : pyval) : option num :=
  match v with
  | VBool b => Some (Num (Dec (if b then 1 else 0) 0))
  | VInt n => Some (Num (Dec n 0))
  | VDec d => Some (Num d)
  | VSecs us => Some (num_of_float (float_of_dec (Dec us (-6))))
  | VFloat x => Some (num_of_float x)
  | _ => None
  end.

Definition num_ltb (a b : num) : bool :=
  match a, b with
  | Num x, Num y => dltb x y
  | NumInf true, Num _ | Num _, NumInf false | NumInf true, NumInf false => true
  | _, _ => false
  end.

Definition num_eqb (a b : num) : bool :=
  match a, b with
  | Num x, Num y => deqb x y
  | NumInf s, NumInf s' => bool_decide (s = s')
  | _, _ => false
  end.

(** ** Values *)

(** [a == b] *)
Fixpoint val_eqb (a b : pyval) : bool :=
  match num_of a, num_of b with
  | Some x, Some y => num_eqb x y
  | None, None =>
      match a, b with
      | VNone, VNone => true
      | VStr s, VStr s' => bool_decide (s = s')
      | VTime t, VTime t' => t =? t'
      | VStrs l, VStrs l' => bool_decide (l = l')
      | VDict d, VDict d' =>
          bool_decide (List.length d = List.length d') &&
          (fix go (l : list (string * pyval)) : bool :=
             match l with
             | [] => true
             | (k, v) :: r =>
                 match dget d' k with
                 | Some w => val_eqb v w && go r
                 | None => false
                 end
             end) d
      | _, _ => false
      end
  | _, _ => false
  end.

Fixpoint strs_ltb (l l' : list string) : bool :=
  match l, l' with
  | _, [] => false
  | [], _ :: _ => true
  | x :: r, y :: r' => if decide (x = y) then strs_ltb r r' else String.ltb x y
  end.

(** [a < b]; [None] is [TypeError]. *)
Definition val_lt (a b : pyval) : option bool :=
  match num_of a, num_of b with
  | Some x, Some y => Some (num_ltb x y)
  | _, _ =>
      match a, b with
      | VStr s, VStr s' => Some (String.ltb s s')
      | VTime t, VTime t' => Some (t <? t')
      | VStrs l, VStrs l' => Some (strs_ltb l l')
      | _, _ => None
      end
  end.

Example val_lt_ex :
  map (fun p => val_lt p.1 p.2)
    [(VInt 1, VFloat (float_of_dec (Dec 15 (-1)))); (VBool true, VInt 1); (VStr "b", VStr "a");
     (VStr "1", VInt 2); (VNone, VNone); (VStrs ["a"; "b"], VStrs ["a"; "c"])]%string
  = [Some true; Some false; Some false; None; None; Some true].
Proof. vm_compute. reflexivity. Qed.

Example val_eqb_ex :
  map (fun p => val_eqb p.1 p.2)
    [(VInt 1, VBool true); (VInt 1, VFloat (float_of_int 1)); (VStr "1", VInt 1);
     (VDict [("a", VInt 1); ("b", VNone)], VDict [("b", VNone); ("a", VInt 1)])]%string
  = [true; true; false; true].
Proof. vm_compute. reflexivity. Qed.

(** ** Lists and sets of values *)

Definition val_in (x : pyval) (l : list pyval) : bool := existsb (val_eqb x) l.

(** Lists compare at the first place where they differ. *)
Fixpoint list_lt (l l' : list pyval) : option bool :=
  match l, l' with
  | _, [] => Some false
  | [], _ :: _ => Some true
  | x :: r, y :: r' => if val_eqb x y then list_lt r r' else val_lt x y
  end.

(** [hash(v)] raises [TypeError] on a list and on a dictionary. *)
Definition hashable (v : pyval) : bool :=
  match v with
  | VStrs _ | VDict _ => false
  | _ => true
  end.

(** [set(l)]: of equal elements the first stays. *)
Definition set_add (acc : list pyval) (x : pyval) : list pyval := if val_in x acc then acc else acc ++ [x].

Definition set_of (l : list pyval) : option (list pyval) :=
  if forallb hashable l then Some (fold_left set_add l []) else None.

(** [a | b] and [a & b]: the intersection walks the smaller set. *)
Definition set_union (a b : list pyval) : list pyval := fold_left set_add b a.

Definition set_inter (a b : list pyval) : list pyval :=
  if bool_decide (List.length a < List.length b)%nat then List.filter (fun x => val_in x b) a
  else List.filter (fun x => val_in x a) b.

(** [a < b] of sets: a proper subset. *)
Definition set_subset (a b : list pyval) : bool := forallb (fun x => val_in x b) a.
Definition set_lt (a b : list pyval) : bool :=
  set_subset a b && bool_decide (List.length a < List.length b)%nat.

(** The order in which the interpreter lists the elements of a set: [list(s)]. *)
Class SetOrder := set_order : list pyval -> list pyval.
Class SetOrderLaws `{SetOrder} : Prop := set_order_perm l : set_order l ≡ₚ l.

(** ** Sorted strings *)

(** [sorted(X)] *)
Definition sorted_strings (X : gset string) : list string :=
  (sort_keys (map (fun s => (s, tt)) (elements X))).*1.

(** ** Facts *)

Lemma num_eqb_sym a b : num_eqb a b = num_eqb b a.
Proof.
  destruct a as [| |x], b as [| |y]; cbn; try done.
  - by rewrite (bool_decide_ext (neg = neg0) (neg0 = neg)).
  - unfold deqb, common. rewrite Z.min_comm. by rewrite Z.eqb_sym.
Qed.

Lemma val_in_spec x l : val_in x l = true <-> exists y, y ∈ l /\ val_eqb x y = true.
Proof. unfold val_in. rewrite existsb_exists. by setoid_rewrite <- list_elem_of_In. Qed.

Lemma set_add_in acc x y : y ∈ set_add acc x -> y ∈ acc \/ y = x.
Proof. unfold set_add. destruct (val_in x acc); [by left|]. rewrite elem_of_app, list_elem_of_singleton. done. Qed.

Lemma set_add_mono acc x y : y ∈ acc -> y ∈ set_add acc x.
Proof. unfold set_add. destruct (val_in x acc); [done|]. rewrite elem_of_app. by left. Qed.

Lemma set_adds_in l acc y : y ∈ fold_left set_add l acc -> y ∈ acc \/ y ∈ l.
Proof.
  revert acc. induction l as [|x l IH]; intros acc; cbn; [by left|].
  intros [Hy|Hy]%IH; [|by right; right]. apply set_add_in in Hy as [?| ->]; [by left|right; left].
Qed.

Lemma set_adds_mono l acc y : y ∈ acc -> y ∈ fold_left set_add l acc.
Proof.
  revert acc. induction l as [|x l IH]; intros acc Hy; cbn; [done|]. by apply IH, set_add_mono.
Qed.

(** Every element of [l] that is equal to itself is represented in its set. *)
Lemma set_adds_cover l acc x :
  x ∈ l -> val_eqb x x = true -> exists y, y ∈ fold_left set_add l acc /\ val_eqb x y = true.
Proof.
  revert acc. induction l as [|z l IH]; intros acc Hx Hr; [by apply elem_of_nil in Hx|].
  apply elem_of_cons in Hx as [->|Hx]; [|by apply IH]. cbn.
  assert (exists y, y ∈ set_add acc z /\ val_eqb z y = true) as (y & Hy & E).
  { unfold set_add. destruct (val_in z acc) eqn:E; [by apply val_in_spec|].
    exists z. split; [|done]. apply elem_of_app. right. by apply list_elem_of_singleton. }
  exists y. split; [by apply set_adds_mono|done].
Qed.

Lemma set_of_sub l s x : set_of l = Some s -> x ∈ s -> x ∈ l.
Proof.
  unfold set_of. case_match; [|done]. intros [= <-] Hx.
  apply set_adds_in in Hx as [Hx|Hx]; [by apply elem_of_nil in Hx|done].
Qed.

Lemma set_of_cover l s x :
  set_of l = Some s -> x ∈ l -> val_eqb x x = true -> exists y, y ∈ s /\ val_eqb x y = true.
Proof. unfold set_of. case_match; [|done]. intros [= <-]. apply set_adds_cover. Qed.

(** ** Facts on sorted strings *)

Section SortedStrings.
#[local] Abbreviation leb_key := (fun a b => String.leb a b = true).

Lemma leb_total a b : String.leb a b = false -> String.leb b a = true.
Proof. destruct (String.leb_total a b) as [E|E]; congruence. Qed.

Lemma insert_key_perm (kv : string * unit) d : insert_key kv d ≡ₚ kv :: d.
Proof.
  induction d as [|x d IH]; cbn [insert_key]; [done|]. destruct (String.leb kv.1 x.1); [done|].
  rewrite IH. apply perm_swap.
Qed.

Lemma sort_keys_perm (d : list (string * unit)) : sort_keys d ≡ₚ d.
Proof. induction d as [|x d IH]; cbn; [done|]. by rewrite insert_key_perm, IH. Qed.

Lemma insert_key_sorted (kv : string * unit) d :
  Sorted leb_key d.*1 -> Sorted leb_key (insert_key kv d).*1.
Proof.
  induction d as [|x d IH]; cbn [insert_key]; intros Hs; [by repeat constructor|].
  destruct (String.leb kv.1 x.1) eqn:E; [by constructor; [|constructor]|].
  cbn in Hs |- *. apply Sorted_inv in Hs as [Hs Hh]. constructor; [by apply IH|].
  destruct d as [|y d]; cbn [insert_key fmap list_fmap]; [by constructor; apply leb_total|].
  inversion Hh; subst. destruct (String.leb kv.1 y.1); cbn; constructor; [by apply leb_total|done].
Qed.

Lemma sorted_strings_sorted X : Sorted leb_key (sorted_strings X).
Proof.
  unfold sorted_strings, sort_keys. induction (map _ _) as [|x d IH]; cbn; [constructor|]. by apply insert_key_sorted.
Qed.

Lemma sorted_strings_perm X : sorted_strings X ≡ₚ elements X.
Proof.
  unfold sorted_strings. rewrite sort_keys_perm. induction (elements X) as [|x l IH]; cbn; [done|]. by constructor.
Qed.

Lemma elem_sorted_strings s X : s ∈ sorted_strings X <-> s ∈ X.
Proof. by rewrite sorted_strings_perm, elem_of_elements. Qed.

Lemma NoDup_sorted_strings X : NoDup (sorted_strings X).
Proof. rewrite sorted_strings_perm. apply NoDup_elements. Qed.
End SortedStrings.
