(* ===== verification/PyText.v ===== *)
(** * Text operations of Python strings

    What the FIX codec and session use of [str]: [find], [rfind], [split] and
    [partition] on one character, membership of a prefix, and [int(s)].  A text is
    the list of its Latin-1 characters, which is also its encoding. *)
From Stdlib Require Import Ascii String.
From S2P Require Import Prelude PyDecimal PyFormat PyJson.
Open Scope Z_scope.
Open Scope list_scope.

Abbreviation text := (list ascii).

Definition chars : string -> text := list_ascii_of_string.

Definition starts_with (p l : text) : bool := bool_decide (take (List.length p) l = p).

(** [s.endswith(t)] *)
Definition ends_with (s t : string) : bool := starts_with (rev (chars t)) (rev (chars s)).

Lemma chars_app a b : chars (a +:+ b) = chars a ++ chars b.
Proof. induction a as [|c a IH]; [done|]. change (c :: chars (a +:+ b) = c :: (chars a ++ chars b)). by rewrite IH. Qed.

(** ** Searching *)

Fixpoint find_at (p l : text) (i : nat) : option nat :=
  if starts_with p l then Some i
  else match l with
       | [] => None
       | _ :: r => find_at p r (S i)
       end.

(** [l.find(p)]; [None] is [-1]. *)
Definition find (p l : text) : option nat := find_at p l 0.

(** [l.find(p, start)]: a negative start counts from the end. *)
Definition find_from (p l : text) (start : Z) : option nat :=
  let n := Z.of_nat (List.length l) in
  let s := if start <? 0 then Z.max 0 (start + n) else start in
  if n <? s then None else find_at p (drop (Z.to_nat s) l) (Z.to_nat s).

Fixpoint rfind_at (p l : text) (i : nat) : option nat :=
  match l with
  | [] => if starts_with p [] then Some i else None
  | _ :: r =>
      match rfind_at p r (S i) with
      | Some j => Some j
      | None => if starts_with p l then Some i else None
      end
  end.

(** [l.rfind(p)] *)
Definition rfind (p l : text) : option nat := rfind_at p l 0.

(** [l.split(c)]: one more piece than there are separators. *)
Fixpoint split_on (c : ascii) (l : text) : list text :=
  match l with
  | [] => [[]]
  | x :: r =>
      if decide (x = c) then [] :: split_on c r
      else match split_on c r with
           | h :: t => (x :: h) :: t
           | [] => [[x]]
           end
  end.

(** [l.partition(c)]; [None] when there is no separator. *)
Fixpoint partition_on (c : ascii) (l : text) : option (text * text) :=
  match l with
  | [] => None
  | x :: r =>
      if decide (x = c) then Some ([], r)
      else match partition_on c r with
           | Some (h, t) => Some (x :: h, t)
           | None => None
           end
  end.

(** ** Integers *)

Definition int_space (ascii_only : bool) (c : ascii) : bool :=
  let n := Z.of_nat (nat_of_ascii c) in
  ((9 <=? n) && (n <=? 13)) || (n =? 32) ||
  (negb ascii_only && (((28 <=? n) && (n <=? 31)) || (n =? 133) || (n =? 160))).

Fixpoint drop_space (ascii_only : bool) (l : text) : text :=
  match l with
  | c :: r => if int_space ascii_only c then drop_space ascii_only r else l
  | [] => []
  end.

(** Digits with single underscores between them; [last_] tells whether the last
    character was a digit. *)
Fixpoint int_digits (last_ : bool) (l : text) : option (list Z) :=
  match l with
  | [] => if last_ then Some [] else None
  | c :: r =>
      match char_digit c with
      | Some d => match int_digits true r with
                  | Some ds => Some (d :: ds)
                  | None => None
                  end
      | None => if last_ && bool_decide (c = "_"%char) then int_digits false r else None
      end
  end.

(** [int(s)]; [None] is [ValueError], also raised beyond 4300 digits. *)
Definition py_int (s : text) : option Z :=
  let ascii_only := forallb (fun c => (nat_of_ascii c <? 128)%nat) s in
  let l := rev (drop_space ascii_only (rev (drop_space ascii_only s))) in
  let '(neg, body) := take_sign l in
  match int_digits false body with
  | Some ds =>
      if 4300 <? Z.of_nat (List.length ds) then None else Some (signed neg (undigits ds))
  | None => None
  end.

(** [s.strip()] and [s.lower()] of a text; letters and white space outside ASCII
    are left alone. *)
Definition str_strip (s : string) : string := string_of_list_ascii (strip (chars s)).

Definition lower_char (c : ascii) : ascii :=
  let n := nat_of_ascii c in
  if ((65 <=? n) && (n <=? 90))%nat then ascii_of_nat (n + 32) else c.

Definition str_lower (s : string) : string := string_of_list_ascii (map lower_char (chars s)).

Definition upper_char (c : ascii) : ascii :=
  let n := nat_of_ascii c in
  if ((97 <=? n) && (n <=? 122))%nat then ascii_of_nat (n - 32) else c.

Definition str_upper (s : string) : string := string_of_list_ascii (map upper_char (chars s)).

Example str_ex : str_lower (str_strip "  Binance ") = "binance"%string.
Proof. reflexivity. Qed.

Example py_int_ex :
  map (fun s => py_int (chars s)) ["42"; " -7 "; "1_000"; "1__0"; "_1"; ""; "+"; "0x1"; "007"]%string
  = [Some 42; Some (-7); Some 1000; None; None; None; None; None; Some 7].
Proof. reflexivity. Qed.
Example find_ex :
  (find (chars "ab") (chars "xabab"), rfind (chars "ab") (chars "xabab"),
   find_from (chars "ab") (chars "xabab") (-3), find_from (chars "ab") (chars "x") 5)
  = (Some 1%nat, Some 3%nat, Some 3%nat, None).
Proof. reflexivity. Qed.
Example split_ex : split_on "="%char (chars "a=b=") = [chars "a"; chars "b"; []].
Proof. reflexivity. Qed.

(** ** Lemmas *)

Lemma starts_with_app p l : starts_with p (p ++ l) = true.
Proof. apply bool_decide_eq_true_2. by rewrite take_app_length. Qed.

Lemma starts_with_spec p l : starts_with p l = true <-> exists r, l = p ++ r.
Proof.
  unfold starts_with. rewrite bool_decide_eq_true. split.
  - intros H. exists (drop (List.length p) l). rewrite <- H at 1. by rewrite take_drop.
  - intros [r ->]. by rewrite take_app_length.
Qed.

Lemma starts_with_head c p x l : starts_with (c :: p) (x :: l) = true -> x = c.
Proof. by intros [r [= -> _]]%starts_with_spec. Qed.

Lemma find_at_shift p l i j : find_at p l (i + j) = (fun k => (i + k)%nat) <$> find_at p l j.
Proof.
  revert j. induction l as [|x l IH]; intros j; cbn [find_at]; destruct (starts_with _ _); try done.
  rewrite <- IH. f_equal. lia.
Qed.

(** A pattern is found at once where it starts. *)
Lemma find_at_here p l i : find_at p (p ++ l) i = Some i.
Proof.
  destruct (p ++ l) as [|x r] eqn:E; cbn [find_at]; rewrite <- E, starts_with_app; done.
Qed.

(** A pattern that begins with [c] is first found after a text without [c]. *)
Lemma find_at_skip c p a l i :
  c ∉ a -> find_at (c :: p) (a ++ l) i = find_at (c :: p) l (i + List.length a).
Proof.
  revert i. induction a as [|x a IH]; intros i Hn; cbn [app List.length].
  - f_equal. lia.
  - cbn [find_at]. destruct (starts_with (c :: p) (x :: a ++ l)) eqn:E.
    + apply starts_with_head in E. subst x. exfalso. apply Hn. by left.
    + rewrite IH; [f_equal; lia|]. intros H. apply Hn. by right.
Qed.

Lemma find_at_none c p a i : c ∉ a -> find_at (c :: p) a i = None.
Proof.
  intros Hn. rewrite <- (app_nil_r a), find_at_skip by done. cbn [find_at].
  destruct (starts_with (c :: p) []) eqn:E; [|done]. apply starts_with_spec in E as [r Hr]. done.
Qed.

Lemma find_at_lt p l i j : p <> [] -> find_at p l i = Some j -> (i <= j < i + List.length l)%nat.
Proof.
  revert i. induction l as [|x l IH]; intros i Hp; cbn [find_at]; destruct (starts_with _ _) eqn:E.
  - apply starts_with_spec in E as [r Hr]. by destruct p.
  - done.
  - intros [= ->]. cbn [List.length]. lia.
  - intros H. apply IH in H; [|done]. cbn [List.length]. lia.
Qed.

Lemma rfind_at_none c p a i : c ∉ a -> rfind_at (c :: p) a i = None.
Proof.
  revert i. induction a as [|x a IH]; intros i Hn; cbn [rfind_at]; [done|].
  rewrite IH by (intros H; apply Hn; by right).
  destruct (starts_with _ _) eqn:E; [|done]. apply starts_with_head in E. subst x.
  exfalso. apply Hn. by left.
Qed.

Lemma rfind_at_tail c q p a i : c ∉ a -> rfind_at (c :: q :: p) (a ++ [c]) i = None.
Proof.
  revert i. induction a as [|x a IH]; intros i Hn; cbn [app rfind_at].
  - assert (forall l, (List.length l < 2)%nat -> starts_with (c :: q :: p) l = false) as Hs.
    { intros l Hl. apply not_true_is_false. intros [r ->]%starts_with_spec. cbn in Hl. lia. }
    by rewrite !Hs by (cbn; lia).
  - rewrite IH by (intros H; apply Hn; by right).
    destruct (starts_with _ _) eqn:E; [|done]. apply starts_with_head in E. subst x.
    exfalso. apply Hn. by left.
Qed.

(** The last occurrence is the last start of the pattern. *)
Lemma rfind_at_last c p a b i :
  c ∉ p -> (forall j, rfind_at (c :: p) b j = None) ->
  rfind_at (c :: p) (a ++ c :: p ++ b) i = Some (i + List.length a)%nat.
Proof.
  intros Hp Hb. revert i. induction a as [|x a IH]; intros i; cbn [app rfind_at].
  - assert (forall q j, c ∉ q -> rfind_at (c :: p) (q ++ b) j = None) as Hq.
    { clear -Hb. induction q as [|y q IH]; intros j Hn; cbn [app]; [apply Hb|]. cbn [rfind_at].
      rewrite IH by (intros H; apply Hn; by right). destruct (starts_with _ _) eqn:E; [|done].
      apply starts_with_head in E. subst y. exfalso. apply Hn. by left. }
    rewrite Hq by done. change (c :: p ++ b) with ((c :: p) ++ b).
    rewrite starts_with_app. f_equal. cbn. lia.
  - rewrite IH. f_equal. cbn [List.length]. lia.
Qed.

Lemma split_on_app c x l : c ∉ x -> split_on c (x ++ c :: l) = x :: split_on c l.
Proof.
  induction x as [|a x IH]; intros Hn; cbn [app split_on].
  - by rewrite decide_True.
  - rewrite decide_False by (intros ->; apply Hn; by left).
    rewrite IH by (intros H; apply Hn; by right). done.
Qed.

Lemma split_on_none c x : c ∉ x -> split_on c x = [x].
Proof.
  induction x as [|a x IH]; intros Hn; cbn [split_on]; [done|].
  rewrite decide_False by (intros ->; apply Hn; by left).
  rewrite IH by (intros H; apply Hn; by right). done.
Qed.

Lemma partition_on_app c x l : c ∉ x -> partition_on c (x ++ c :: l) = Some (x, l).
Proof.
  induction x as [|a x IH]; intros Hn; cbn [app partition_on].
  - by rewrite decide_True.
  - rewrite decide_False by (intros ->; apply Hn; by left).
    rewrite IH by (intros H; apply Hn; by right). done.
Qed.

(** Each piece followed by the separator. *)
Definition terminated (c : ascii) (ls : list text) : text := flat_map (fun x => x ++ [c]) ls.

Lemma terminated_cons c x ls : terminated c (x :: ls) = x ++ c :: terminated c ls.
Proof. unfold terminated. cbn [flat_map]. by rewrite <- app_assoc. Qed.

Lemma terminated_app c ls ls' : terminated c (ls ++ ls') = terminated c ls ++ terminated c ls'.
Proof. apply flat_map_app. Qed.

Lemma join_terminated c ls : ls <> [] -> join_chars [c] ls ++ [c] = terminated c ls.
Proof.
  induction ls as [|x [|y ls] IH]; intros Hne; [done| |].
  - cbn. by rewrite app_nil_r.
  - change (join_chars [c] (x :: y :: ls)) with (x ++ [c] ++ join_chars [c] (y :: ls)).
    change (terminated c (x :: y :: ls)) with ((x ++ [c]) ++ terminated c (y :: ls)).
    rewrite <- IH by done. by rewrite <- !app_assoc.
Qed.

Lemma split_terminated c ls l :
  Forall (fun x => c ∉ x) ls -> split_on c (terminated c ls ++ l) = ls ++ split_on c l.
Proof.
  induction 1 as [|x ls Hx Hls IH]; [done|].
  change (terminated c (x :: ls)) with ((x ++ [c]) ++ terminated c ls).
  rewrite <- !app_assoc. cbn [app]. rewrite split_on_app by done. by rewrite IH.
Qed.

(** [int] reads what [str] writes. *)
Lemma int_digits_chars last_ ds :
  Forall is_digit ds -> (last_ = true \/ ds <> []) -> int_digits last_ (digit_chars ds) = Some ds.
Proof.
  intros Hd. revert last_. induction Hd as [|d ds Hd Hds IH]; intros last_ Hl; cbn.
  - destruct Hl as [->|?]; done.
  - rewrite char_digit_char by done. rewrite IH by (by left). done.
Qed.

Lemma digit_char_code d : is_digit d -> nat_of_ascii (digit_char d) = Z.to_nat (48 + d).
Proof. intros [? ?]. apply nat_ascii_embedding. lia. Qed.

Lemma digit_chars_not_space b ds : Forall is_digit ds -> drop_space b (digit_chars ds) = digit_chars ds.
Proof.
  destruct 1 as [|d ds Hd Hds]; [done|]. cbn [digit_chars map drop_space].
  unfold int_space. rewrite digit_char_code by done. destruct Hd as [H1 H2].
  rewrite Z2Nat.id by lia.
  destruct (Z.leb_spec 9 (48 + d)), (Z.leb_spec (48 + d) 13), (Z.eqb_spec (48 + d) 32),
    (Z.leb_spec 28 (48 + d)), (Z.leb_spec (48 + d) 31), (Z.eqb_spec (48 + d) 133),
    (Z.eqb_spec (48 + d) 160); try lia; by destruct b.
Qed.

Lemma py_int_digits ds :
  Forall is_digit ds -> ds <> [] -> Z.of_nat (List.length ds) <= 4300 ->
  py_int (digit_chars ds) = Some (undigits ds).
Proof.
  intros Hd Hne Hl. unfold py_int. cbv zeta.
  set (b := forallb _ _). rewrite digit_chars_not_space by done.
  assert (drop_space b (rev (digit_chars ds)) = rev (digit_chars ds)) as ->.
  { unfold digit_chars. rewrite <- map_rev. by apply digit_chars_not_space, Forall_rev. }
  rewrite rev_involutive.
  destruct ds as [|d ds]; [done|].
  assert (take_sign (digit_chars (d :: ds)) = (false, digit_chars (d :: ds))) as ->.
  { apply take_sign_digit. by inversion Hd. }
  rewrite int_digits_chars by (done || by right).
  destruct (Z.ltb_spec 4300 (Z.of_nat (List.length (d :: ds)))); [lia|done].
Qed.
