(* ===== verification/PyRepr.v ===== *)
(** * [str], [repr] and [float] of dynamic values

    Strings are printed byte by byte; the escapes of characters outside ASCII are
    not modelled. *)
From Stdlib Require Import SpecFloat.
From Stdlib Require Import Ascii String.
From S2P Require Import Prelude PyDecimal DecArith PyFormat PyFloat PyValue PyJson PyText.
Open Scope Z_scope.
Open Scope list_scope.

Definition char_apostrophe : ascii := ascii_of_nat 39.

(** A character inside a string literal delimited by [q]. *)
Definition repr_char (q c : ascii) : text :=
  let n := Z.of_nat (nat_of_ascii c) in
  if bool_decide (c = q) || (n =? 92) then [char_backslash; c]
  else if n =? 10 then [char_backslash; "n"%char]
  else if n =? 13 then [char_backslash; "r"%char]
  else if n =? 9 then [char_backslash; "t"%char]
  else if (n <? 32) || (n =? 127) then
    char_backslash :: "x"%char :: [hex_digit (n / 16); hex_digit (n mod 16)]
  else [c].

(** Apostrophes delimit, unless the text holds one and no quotation mark. *)
Definition repr_str (s : string) : text :=
  let l := chars s in
  let q := if bool_decide (char_apostrophe ∈ l /\ (char_quote ∉ l)) then char_quote
           else char_apostrophe in
  q :: flat_map (repr_char q) l ++ [q].

(** Seconds and microseconds are left out where zero. *)
Definition repr_time (t : Z) : text :=
  let '(y, m, d) := civil_from_days (t / day) in
  let r := t mod day in
  let s := r mod minute / sec in
  let us := r mod sec in
  let fields := [y; m; d; r / hour; r mod hour / minute] ++
    (if (s =? 0) && (us =? 0) then [] else [s]) ++ (if us =? 0 then [] else [us]) in
  chars "datetime.datetime(" ++ join_chars (chars ", ") (map int_chars fields) ++ chars ")".

Fixpoint py_repr (v : pyval) : text :=
  match v with
  | VNone => chars "None"
  | VBool true => chars "True"
  | VBool false => chars "False"
  | VInt n => int_chars n
  | VStr s => repr_str s
  | VDec d => chars "Decimal(" ++ repr_str (dec_str d) ++ chars ")"
  | VTime t => repr_time t
  | VSecs us => secs_chars us
  | VFloat x => float_repr x
  | VStrs l => "["%char :: join_chars (chars ", ") (map repr_str l) ++ ["]"%char]
  | VDict d =>
      "{"%char :: join_chars (chars ", ")
        (map (fun kv => repr_str kv.1 ++ chars ": " ++ py_repr kv.2) d) ++ ["}"%char]
  end.

Definition py_str (v : pyval) : string :=
  match v with
  | VStr s => s
  | VDec d => dec_str d
  | VTime t => datetime_str t
  | _ => string_of_list_ascii (py_repr v)
  end.

Example py_str_ex :
  map py_str [VNone; VBool true; VInt (-5); VStr "it's"; VDec (Dec 15 (-1)); VTime 0; VStrs ["a"; "it's"];
              VDict [("k", VTime 60000001); ("n", VDec (Dec 1 0))]]%string
  = ["None"; "True"; "-5"; "it's"; "1.5"; "1970-01-01 00:00:00";
     string_of_list_ascii (chars "['a', " ++ char_quote :: chars "it's" ++ char_quote :: chars "]");
     "{'k': datetime.datetime(1970, 1, 1, 0, 1, 0, 1), 'n': Decimal('1')}"]%string.
Proof. vm_compute. reflexivity. Qed.

(** ** [float(v)] *)

Definition is_digit_char (c : ascii) : bool := bool_decide (is_Some (char_digit c)).

(** Underscores are allowed between digits only. *)
Fixpoint drop_underscores (prev : bool) (l : text) : option text :=
  match l with
  | [] => Some []
  | c :: r =>
      if bool_decide (c = "_"%char) then
        match r with
        | d :: _ => if prev && is_digit_char d then drop_underscores false r else None
        | [] => None
        end
      else cons c <$> drop_underscores (is_digit_char c) r
  end.

(** [float(s)] of a text; [None] is [ValueError]. *)
Definition float_of_str (s : string) : option pyfloat :=
  let '(neg, l) := take_sign (map lower_char (strip (chars s))) in
  if bool_decide (l = chars "nan") then Some S754_nan
  else if bool_decide (l = chars "inf" \/ l = chars "infinity") then Some (S754_infinity neg)
  else
    l ← drop_underscores false l;
    match l with
    | c :: _ =>
        if bool_decide (c = char_plus \/ c = char_minus) then None
        else
          d ← dec_parse l;
          Some (if coef d =? 0 then S754_zero neg else float_of_dec (Dec (signed neg (coef d)) (dexp d)))
    | [] => None
    end.

(** [None] is [TypeError], [ValueError] or [OverflowError]. *)
Definition float_of_val (v : pyval) : option pyfloat :=
  match v with
  | VBool b => Some (float_of_int (if b then 1 else 0))
  | VInt n => match float_of_int n with S754_infinity _ => None | x => Some x end
  | VStr s => float_of_str s
  | VDec d => Some (float_of_dec d)
  | VSecs us => Some (float_of_dec (Dec us (-6)))
  | VFloat x => Some x
  | _ => None
  end.

Example float_of_val_ex :
  map (fun v => (fun x => string_of_list_ascii (float_repr x)) <$> float_of_val v)
    [VStr " 1_0.5 "; VStr "1__0"; VStr "-Infinity"; VStr "-0"; VStr "1e400"; VInt (10 ^ 400); VNone; VBool true]%string
  = [Some "10.5"; None; Some "-inf"; Some "-0.0"; Some "inf"; None; None; Some "1.0"]%string.
Proof. vm_compute. reflexivity. Qed.
