(* ===== verification/Uuid.v ===== *)
(** * SHA-1 and name-based UUIDs

    [uuid.uuid5(namespace, name)] of the standard library (RFC 4122): the first 16
    bytes of the SHA-1 digest (FIPS 180-4) of the namespace and the name, marked with
    version and variant; and [UUID(text)].  A UUID is its canonical text, a namespace
    its 16 bytes. *)
From Stdlib Require Import Ascii String.
From S2P Require Import Prelude PyDecimal PyFormat PyJson PyText Sha256.
Open Scope Z_scope.
Open Scope list_scope.

Record sha1_state := S1 { s1a : Z; s1b : Z; s1c : Z; s1d : Z; s1e : Z }.

Definition sha1_initial : sha1_state := S1 1732584193 4023233417 2562383102 271733878 3285377520.

Definition rotl (n x : Z) : Z := w32 (Z.lor (Z.shiftl x n) (Z.shiftr x (32 - n))).

(** The 80 words of the schedule, the most recent first. *)
Fixpoint sha1_schedule (n : nat) (ws : list Z) : list Z :=
  match n with
  | O => ws
  | S m =>
      let w := rotl 1 (Z.lxor (Z.lxor (nth 2 ws 0) (nth 7 ws 0)) (Z.lxor (nth 13 ws 0) (nth 15 ws 0))) in
      sha1_schedule m (w :: ws)
  end.

(** The function and the constant of round [t]. *)
Definition sha1_mix (t : Z) (s : sha1_state) : Z * Z :=
  let b := s1b s in let c := s1c s in let d := s1d s in
  if t <? 20 then (Z.lxor (Z.land b c) (Z.land (not32 b) d), 1518500249)
  else if t <? 40 then (Z.lxor b (Z.lxor c d), 1859775393)
  else if t <? 60 then (Z.lxor (Z.land b c) (Z.lxor (Z.land b d) (Z.land c d)), 2400959708)
  else (Z.lxor b (Z.lxor c d), 3395469782).

Definition sha1_round (acc : Z * sha1_state) (w : Z) : Z * sha1_state :=
  let '(t, s) := acc in
  let '(f, k) := sha1_mix t s in
  (t + 1, S1 (w32 (rotl 5 (s1a s) + f + s1e s + k + w)) (s1a s) (rotl 30 (s1b s)) (s1c s) (s1d s)).

Definition sha1_compress (s : sha1_state) (block : list Z) : sha1_state :=
  let ws := map (fun b => be_word b 0) (chunks 16 4 block) in
  let r := (fold_left sha1_round (rev (sha1_schedule 64 (rev ws))) (0, s)).2 in
  S1 (w32 (s1a s + s1a r)) (w32 (s1b s + s1b r)) (w32 (s1c s + s1c r)) (w32 (s1d s + s1d r))
     (w32 (s1e s + s1e r)).

Definition sha1_bytes (msg : list Z) : list Z :=
  let p := pad msg in
  let s := fold_left sha1_compress (chunks (List.length p) 64 p) sha1_initial in
  be_bytes 4 (s1a s) ++ be_bytes 4 (s1b s) ++ be_bytes 4 (s1c s) ++ be_bytes 4 (s1d s) ++ be_bytes 4 (s1e s).

Definition hex_text (l : list Z) : string := string_of_list_ascii (flat_map hex_byte l).

Example sha1_abc : hex_text (sha1_bytes (bytes_of "abc")) = "a9993e364706816aba3e25717850c26c9cd0d89d"%string.
Proof. vm_compute. reflexivity. Qed.

(** Byte 6 holds the version 5, byte 8 the variant. *)
Definition mark_uuid (l : list Z) : list Z :=
  alter (fun b => Z.lor (Z.land b 63) 128) 8%nat (alter (fun b => Z.lor (Z.land b 15) 80) 6%nat l).

Definition uuid_text (l : list Z) : string :=
  (hex_text (take 4 l) +:+ "-" +:+ hex_text (take 2 (drop 4 l)) +:+ "-" +:+ hex_text (take 2 (drop 6 l)) +:+
   "-" +:+ hex_text (take 2 (drop 8 l)) +:+ "-" +:+ hex_text (take 6 (drop 10 l)))%string.

Definition uuid5 (namespace : list Z) (name : string) : string :=
  uuid_text (mark_uuid (take 16 (sha1_bytes (namespace ++ bytes_of name)))).

(** [uuid5(NAMESPACE_DNS, "python.org")], from the documentation of the module. *)
Example uuid5_ex :
  uuid5 [107; 167; 184; 16; 157; 173; 17; 209; 128; 180; 0; 192; 79; 212; 48; 200] "python.org"
  = "886313e1-3b8a-5372-9b90-0c9aee199e5d"%string.
Proof. vm_compute. reflexivity. Qed.

(** ** Reading a UUID *)

Definition hex_digit_char (c : ascii) : bool :=
  let n := nat_of_ascii c in
  ((48 <=? n) && (n <=? 57) || (97 <=? n) && (n <=? 102))%nat.

(** [l.replace(p, "")], fuel for the length of the text. *)
Fixpoint remove_all (fuel : nat) (p l : text) : text :=
  match fuel with
  | O => l
  | S n =>
      match l with
      | [] => []
      | c :: r => if starts_with p l then remove_all n p (drop (List.length p) l) else c :: remove_all n p r
      end
  end.

Definition brace (c : ascii) : bool := bool_decide (c = "{"%char \/ c = "}"%char).

Fixpoint drop_braces (l : text) : text :=
  match l with
  | [] => []
  | c :: r => if brace c then drop_braces r else l
  end.

(** [hex.replace("urn:", "").replace("uuid:", "").strip("{}").replace("-", "")] *)
Definition uuid_digits (s : string) : text :=
  let l := chars s in
  let l := remove_all (List.length l) (chars "urn:") l in
  let l := remove_all (List.length l) (chars "uuid:") l in
  List.filter (fun c => negb (bool_decide (c = "-"%char))) (rev (drop_braces (rev (drop_braces l)))).

Definition group_uuid (l : text) : string :=
  string_of_list_ascii
    (take 8 l ++ "-"%char :: take 4 (drop 8 l) ++ "-"%char :: take 4 (drop 12 l) ++ "-"%char ::
     take 4 (drop 16 l) ++ "-"%char :: drop 20 l).

(** [str(UUID(s))]; [None] is [ValueError], or 32 characters that [int] reads with a
    sign, a prefix, spaces or underscores among them. *)
Definition uuid_of_str (s : string) : option string :=
  let l := map lower_char (uuid_digits s) in
  if bool_decide (List.length l = 32%nat) && forallb hex_digit_char l then Some (group_uuid l) else None.

Example uuid_of_str_ex :
  map uuid_of_str
    ["886313e1-3b8a-5372-9b90-0c9aee199e5d"; "{886313E13B8A53729B900C9AEE199E5D}";
     "urn:uuid:886313e1-3b8a-5372-9b90-0c9aee199e5d"; "o1"]%string
  = [Some "886313e1-3b8a-5372-9b90-0c9aee199e5d"; Some "886313e1-3b8a-5372-9b90-0c9aee199e5d";
     Some "886313e1-3b8a-5372-9b90-0c9aee199e5d"; None]%string.
Proof. vm_compute. reflexivity. Qed.
