(* ===== verification/FloatInt.v ===== *)
(** * Floats that hold integers, and the order of floats

    Sums, differences and comparisons of floats are those of the integers they hold as
    long as these stay below [2^53] in size: nothing is rounded.  Comparison is a total
    preorder on every float but NaN. *)
From Stdlib Require Import SpecFloat.
From Stdlib Require Import Ascii String.
From S2P Require Import Prelude PyDecimal PyFloat.
Open Scope Z_scope.
Open Scope list_scope.

(** ** Shifting *)

Lemma digits2_log2 p : Zpos (digits2_pos p) = Z.log2 (Zpos p) + 1.
Proof.
  induction p as [p IH|p IH|]; cbn [digits2_pos]; [| |done].
  - rewrite Pos2Z.inj_succ, IH, Pos2Z.inj_xI, Z.log2_succ_double by lia. lia.
  - rewrite Pos2Z.inj_succ, IH, Pos2Z.inj_xO, Z.log2_double by lia. lia.
Qed.

Lemma iter_pos_iter {A} (f : A -> A) p x : SpecFloat.iter_pos f p x = Nat.iter (Pos.to_nat p) f x.
Proof.
  revert x. induction p as [p IH|p IH|]; intros x; cbn [SpecFloat.iter_pos]; [| |done].
  - rewrite !IH, <- Nat.iter_add, <- Nat.iter_succ_r.
    by replace (Pos.to_nat p~1) with (S (Pos.to_nat p + Pos.to_nat p)) by lia.
  - rewrite !IH, <- Nat.iter_add. by replace (Pos.to_nat p~0) with (Pos.to_nat p + Pos.to_nat p)%nat by lia.
Qed.

Lemma shr_1_double m : 0 < m -> shr_1 (Build_shr_record (2 * m) false false) = Build_shr_record m false false.
Proof. by destruct m. Qed.

(** Shifting out zeros loses nothing. *)
Lemma shr_exact m e n :
  0 < m -> 0 <= n -> shr (Build_shr_record (m * 2 ^ n) false false) e n = (Build_shr_record m false false, e + n).
Proof.
  intros Hm Hn. destruct n as [|p|p]; [by rewrite Z.mul_1_r, Z.add_0_r| |lia].
  unfold shr. f_equal. rewrite iter_pos_iter, <- (positive_nat_Z p).
  induction (Pos.to_nat p) as [|k IH]; [by rewrite Z.mul_1_r|].
  rewrite Nat.iter_succ_r. rewrite Nat2Z.inj_succ, Z.pow_succ_r by lia.
  replace (m * (2 * 2 ^ Z.of_nat k)) with (2 * (m * 2 ^ Z.of_nat k)) by ring.
  rewrite shr_1_double by (apply Z.mul_pos_pos; lia). exact IH.
Qed.

Lemma iter_xO p d : Zpos (Pos.iter xO p d) = Zpos p * 2 ^ Zpos d.
Proof.
  rewrite Pos2Nat.inj_iter. rewrite <- (positive_nat_Z d).
  induction (Pos.to_nat d) as [|k IH]; [by rewrite Z.mul_1_r|].
  etransitivity; [exact (Pos2Z.inj_xO _)|]. rewrite Nat2Z.inj_succ, Z.pow_succ_r by lia.
  etransitivity; [exact (f_equal (Z.mul 2) IH)|]. ring.
Qed.

(** ** Integers are exact *)

(** The exponent and the significand of an integer below [2^53]. *)
Definition int_exp (n : Z) : Z := Z.log2 n - 52.

Definition int_sig (n : Z) : Z := n * 2 ^ (- int_exp n).

Definition canon (s : bool) (n : Z) : pyfloat := S754_finite s (Z.to_pos (int_sig n)) (int_exp n).

Lemma int_exp_le n : 0 < n < 2 ^ 53 -> - 52 <= int_exp n <= 0.
Proof.
  intros Hn. unfold int_exp. pose proof (Z.log2_nonneg n). assert (Z.log2 n < 53) by (apply Z.log2_lt_pow2; lia). lia.
Qed.

Lemma int_sig_pos n : 0 < n < 2 ^ 53 -> 0 < int_sig n.
Proof. intros Hn. unfold int_sig. pose proof (int_exp_le n Hn). apply Z.mul_pos_pos; lia. Qed.

Lemma int_sig_log2 n : 0 < n < 2 ^ 53 -> Z.log2 (int_sig n) = 52.
Proof.
  intros Hn. unfold int_sig. pose proof (int_exp_le n Hn). rewrite Z.log2_mul_pow2 by lia. unfold int_exp. lia.
Qed.

Lemma fexp_int n e : 0 < n < 2 ^ 53 -> e = Z.log2 n + 1 -> fexp fprec femax e = int_exp n.
Proof.
  intros Hn ->. pose proof (int_exp_le n Hn). unfold fexp, emin, fprec, femax in *. unfold int_exp in *. lia.
Qed.

(** Rounding leaves a normal significand as it is. *)
Lemma shr_fexp_canon n : 0 < n < 2 ^ 53 ->
  shr_fexp fprec femax (int_sig n) (int_exp n) loc_Exact = (Build_shr_record (int_sig n) false false, int_exp n).
Proof.
  intros Hn. pose proof (int_sig_pos n Hn) as Hp. pose proof (int_sig_log2 n Hn) as Hl. unfold shr_fexp.
  destruct (int_sig n) as [|p|p]; [lia| |lia]. cbn [Zdigits2]. rewrite digits2_log2, Hl.
  rewrite (fexp_int n) by (unfold int_exp; lia). rewrite Z.sub_diag. done.
Qed.

Lemma round_canon s n m e :
  0 < n < 2 ^ 53 -> shr_fexp fprec femax m e loc_Exact = (Build_shr_record (int_sig n) false false, int_exp n) ->
  binary_round_aux fprec femax s m e loc_Exact = canon s n.
Proof.
  intros Hn Hs. unfold binary_round_aux. rewrite Hs. cbn [shr_m loc_of_shr_record round_nearest_even].
  rewrite shr_fexp_canon by done. cbn [shr_m]. unfold canon. pose proof (int_sig_pos n Hn).
  destruct (int_sig n) as [|p|p] eqn:E; [lia| |lia]. cbn [Z.to_pos].
  pose proof (int_exp_le n Hn). unfold fprec, femax. by rewrite (proj2 (Z.leb_le _ _)) by lia.
Qed.

Lemma binary_round_exact s p n k :
  0 < n < 2 ^ 53 -> 0 <= k -> Zpos p = n * 2 ^ k -> binary_round fprec femax s p (- k) = canon s n.
Proof.
  intros Hn Hk Hp. pose proof (int_exp_le n Hn) as He. unfold binary_round.
  assert (Z.log2 (Zpos p) = Z.log2 n + k) as Hl by (rewrite Hp, Z.log2_mul_pow2; lia).
  rewrite digits2_log2, Hl. rewrite (fexp_int n) by (try lia; done). unfold shl_align.
  destruct (int_exp n - - k) as [|q|q] eqn:E.
  - assert (int_exp n = - k) as E' by lia. apply round_canon; [done|].
    rewrite Hp, <- E'. replace k with (- int_exp n) by lia. apply shr_fexp_canon. done.
  - apply round_canon; [done|]. unfold shr_fexp. cbn [Zdigits2]. rewrite digits2_log2, Hl.
    rewrite (fexp_int n) by (try lia; done). rewrite E. cbn [shr_record_of_loc]. rewrite Hp.
    replace k with (- int_exp n + Zpos q) at 1 by lia. rewrite Z.pow_add_r, Z.mul_assoc by lia.
    fold (int_sig n). rewrite shr_exact by (try apply int_sig_pos; lia). f_equal. lia.
  - apply round_canon; [done|]. rewrite iter_xO, Hp.
    replace (n * 2 ^ k * 2 ^ Zpos q) with (int_sig n); [by apply shr_fexp_canon|].
    unfold int_sig. rewrite <- Z.mul_assoc, <- Z.pow_add_r by lia. f_equal. f_equal. lia.
Qed.

(** The integers that sums and differences are exact on. *)
Definition small (n : Z) : Prop := - 2 ^ 53 < n < 2 ^ 53.

Lemma normalize_exact n k :
  small n -> 0 <= k -> binary_normalize fprec femax (n * 2 ^ k) (- k) false = float_of_int n.
Proof.
  unfold small. intros Hn Hk. unfold float_of_int. assert (0 < 2 ^ k) by lia.
  assert (forall s p, binary_round fprec femax s p 0 = binary_round fprec femax s p (- 0)) as H0 by done.
  destruct n as [|p|p]; [done| |].
  - cbn [binary_normalize]. destruct (Zpos p * 2 ^ k) as [|q|q] eqn:E; [nia| |nia]. cbn [binary_normalize].
    rewrite (binary_round_exact _ q (Zpos p)), H0, (binary_round_exact _ p (Zpos p)) by lia. done.
  - cbn [binary_normalize]. destruct (Zneg p * 2 ^ k) as [|q|q] eqn:E; [nia|nia|]. cbn [binary_normalize].
    rewrite (binary_round_exact _ q (Zpos p)), H0, (binary_round_exact _ p (Zpos p)) by lia. done.
Qed.

Lemma float_of_int_canon n : small n -> n <> 0 -> float_of_int n = canon (n <? 0) (Z.abs n).
Proof.
  unfold small. intros Hn H0. unfold float_of_int.
  assert (forall s p, binary_round fprec femax s p 0 = binary_round fprec femax s p (- 0)) as Hz by done.
  destruct n as [|p|p]; [done| |]; cbn [binary_normalize Z.abs]; rewrite Hz;
    rewrite (binary_round_exact _ p (Zpos p)) by lia; done.
Qed.

(** An integer's significand, aligned to a lower exponent. *)
Lemma shl_align_int n e :
  0 < n < 2 ^ 53 -> e <= int_exp n ->
  Zpos (fst (shl_align (Z.to_pos (int_sig n)) (int_exp n) e)) = n * 2 ^ (- e).
Proof.
  intros Hn He. pose proof (int_exp_le n Hn). pose proof (int_sig_pos n Hn). unfold shl_align.
  assert (int_sig n * 2 ^ (int_exp n - e) = n * 2 ^ (- e)) as Hs.
  { unfold int_sig. rewrite <- Z.mul_assoc, <- Z.pow_add_r by lia. f_equal. f_equal. lia. }
  destruct (e - int_exp n) as [|q|q] eqn:E; cbn [fst].
  - rewrite Z2Pos.id by done. rewrite <- Hs. replace (int_exp n - e) with 0 by lia. ring.
  - lia.
  - rewrite iter_xO, Z2Pos.id by done. rewrite <- Hs. f_equal. f_equal. lia.
Qed.

Lemma cond_Zopp_int a e :
  small a -> a <> 0 -> e <= int_exp (Z.abs a) ->
  cond_Zopp (a <? 0) (Zpos (fst (shl_align (Z.to_pos (int_sig (Z.abs a))) (int_exp (Z.abs a)) e))) = a * 2 ^ (- e).
Proof.
  unfold small. intros Ha H0 He. rewrite shl_align_int by (try done; lia). unfold cond_Zopp.
  destruct (Z.ltb_spec a 0); [rewrite Z.abs_neq by lia|rewrite Z.abs_eq by lia]; ring.
Qed.

Lemma canon_neg a : small a -> a <> 0 -> S754_finite (negb (a <? 0)) (Z.to_pos (int_sig (Z.abs a))) (int_exp (Z.abs a))
  = float_of_int (- a).
Proof.
  intros Ha H0. rewrite float_of_int_canon by (unfold small in *; lia). unfold canon. rewrite Z.abs_opp. f_equal. lia.
Qed.

Theorem fsub_int a b : small a -> small b -> small (a - b) -> fsub (float_of_int a) (float_of_int b) = float_of_int (a - b).
Proof.
  intros Ha Hb Hab. unfold fsub.
  destruct (Z.eq_dec a 0) as [->|Ha0], (Z.eq_dec b 0) as [->|Hb0]; [done| | |].
  - rewrite (float_of_int_canon b) by done. cbn [SFsub float_of_int binary_normalize canon].
    rewrite canon_neg by done. f_equal.
  - rewrite Z.sub_0_r, (float_of_int_canon a) by done. done.
  - rewrite (float_of_int_canon a), (float_of_int_canon b) by done. cbn [SFsub canon].
    set (e := Z.min _ _). rewrite !cond_Zopp_int by (try done; lia).
    rewrite <- Z.mul_sub_distr_r. replace e with (- - e) at 2 by lia. apply normalize_exact; [done|].
    pose proof (int_exp_le (Z.abs a)). unfold small in *. lia.
Qed.

Theorem fadd_int a b : small a -> small b -> small (a + b) -> fadd (float_of_int a) (float_of_int b) = float_of_int (a + b).
Proof.
  intros Ha Hb Hab. unfold fadd.
  destruct (Z.eq_dec a 0) as [->|Ha0], (Z.eq_dec b 0) as [->|Hb0]; [done| | |].
  - rewrite Z.add_0_l, (float_of_int_canon b) by done. done.
  - rewrite Z.add_0_r, (float_of_int_canon a) by done. done.
  - rewrite (float_of_int_canon a), (float_of_int_canon b) by done. cbn [SFadd canon].
    set (e := Z.min _ _). rewrite !cond_Zopp_int by (try done; lia).
    rewrite <- Z.mul_add_distr_r. replace e with (- - e) at 2 by lia. apply normalize_exact; [done|].
    pose proof (int_exp_le (Z.abs a)). unfold small in *. lia.
Qed.

(** ** Comparison of integers *)

Lemma canon_compare a b :
  0 < a < 2 ^ 53 -> 0 < b < 2 ^ 53 ->
  match Z.compare (int_exp a) (int_exp b) with
  | Lt => Lt
  | Gt => Gt
  | Eq => Pos.compare (Z.to_pos (int_sig a)) (Z.to_pos (int_sig b))
  end = Z.compare a b.
Proof.
  intros Ha Hb. pose proof (Z.log2_spec a) as La. pose proof (Z.log2_spec b) as Lb.
  pose proof (Z.log2_nonneg a). pose proof (Z.log2_nonneg b).
  destruct (Z.compare_spec (int_exp a) (int_exp b)) as [E|E|E].
  - rewrite <- Z2Pos.inj_compare by (by apply int_sig_pos). unfold int_sig. rewrite E.
    pose proof (int_exp_le b Hb). symmetry. apply Zmult_compare_compat_r. lia.
  - symmetry. apply Z.compare_lt_iff. unfold int_exp in E.
    assert (2 ^ Z.succ (Z.log2 a) <= 2 ^ Z.log2 b) by (apply Z.pow_le_mono_r; lia). lia.
  - symmetry. apply Z.compare_gt_iff. unfold int_exp in E.
    assert (2 ^ Z.succ (Z.log2 b) <= 2 ^ Z.log2 a) by (apply Z.pow_le_mono_r; lia). lia.
Qed.

Theorem compare_int a b : small a -> small b -> SFcompare (float_of_int a) (float_of_int b) = Some (Z.compare a b).
Proof.
  intros Ha Hb. destruct (Z.eq_dec a 0) as [->|Ha0], (Z.eq_dec b 0) as [->|Hb0]; [done| | |].
  - rewrite (float_of_int_canon b) by done. cbn. by destruct b.
  - rewrite (float_of_int_canon a) by done. cbn. by destruct a.
  - rewrite (float_of_int_canon a), (float_of_int_canon b) by done. cbn [SFcompare canon]. unfold small in *.
    change (Pos.compare_cont Eq ?x ?y) with (Pos.compare x y).
    pose proof (canon_compare (Z.abs a) (Z.abs b)) as Hc.
    destruct (Z.ltb_spec a 0), (Z.ltb_spec b 0).
    + assert (Z.compare a b = CompOpp (Z.compare (Z.abs a) (Z.abs b))) as ->.
      { rewrite !Z.abs_neq, Z.compare_opp by lia. apply Z.compare_antisym. }
      rewrite <- Hc by lia. by destruct (Z.compare (int_exp _) _).
    + f_equal. symmetry. apply Z.compare_lt_iff. lia.
    + f_equal. symmetry. apply Z.compare_gt_iff. lia.
    + rewrite !(Z.abs_eq a), !(Z.abs_eq b) in Hc |- * by lia. f_equal. by rewrite <- Hc by lia.
Qed.

Lemma fltb_int a b : small a -> small b -> fltb (float_of_int a) (float_of_int b) = (a <? b).
Proof. intros Ha Hb. unfold fltb, SFltb, Z.ltb. by rewrite compare_int. Qed.

Lemma fleb_int a b : small a -> small b -> fleb (float_of_int a) (float_of_int b) = (a <=? b).
Proof. intros Ha Hb. unfold fleb, SFleb, Z.leb. rewrite compare_int by done. by destruct (a ?= b). Qed.

Lemma feqb_int a b : small a -> small b -> feqb (float_of_int a) (float_of_int b) = (a =? b).
Proof.
  intros Ha Hb. unfold feqb, SFeqb. rewrite compare_int by done.
  destruct (Z.compare_spec a b), (Z.eqb_spec a b); try done; lia.
Qed.

Lemma fmin_int a b : small a -> small b -> fmin (float_of_int a) (float_of_int b) = float_of_int (Z.min a b).
Proof. intros Ha Hb. unfold fmin. rewrite fltb_int by done. destruct (Z.ltb_spec b a); f_equal; lia. Qed.

Lemma fmax_int a b : small a -> small b -> fmax (float_of_int a) (float_of_int b) = float_of_int (Z.max a b).
Proof. intros Ha Hb. unfold fmax. rewrite fltb_int by done. destruct (Z.ltb_spec a b); f_equal; lia. Qed.

Lemma float_of_int_inj a b : small a -> small b -> float_of_int a = float_of_int b -> a = b.
Proof.
  intros Ha Hb E. pose proof (feqb_int a b Ha Hb) as H. rewrite E, feqb_int, Z.eqb_refl in H by done. lia.
Qed.

(** Sums of integers, as [sum] computes them with its compensation. *)
Definition zsum (l : list Z) : Z := fold_right Z.add 0 l.

Lemma zsum_nonneg l : Forall (Z.le 0) l -> 0 <= zsum l.
Proof. unfold zsum. induction 1; cbn; lia. Qed.

Lemma fsum_steps_int l a :
  Forall (Z.le 0) l -> 0 <= a -> a + zsum l < 2 ^ 53 ->
  fold_left fsum_step (map float_of_int l) (float_of_int a, fzero) = (float_of_int (a + zsum l), fzero).
Proof.
  intros Hl. revert a. induction Hl as [|x l Hx Hl IH]; intros a Ha Hs.
  - cbn. by rewrite Z.add_0_r.
  - change (zsum (x :: l)) with (x + zsum l) in *. cbn [map]. pose proof (zsum_nonneg l Hl) as Hn.
    assert (small a /\ small x /\ small (a + x)) as (S1 & S2 & S3) by (unfold small; lia).
    assert (fsum_step (float_of_int a, fzero) (float_of_int x) = (float_of_int (a + x), fzero)) as E.
    { unfold fsum_step. rewrite fadd_int by done.
      assert (fadd (fsub (float_of_int a) (float_of_int (a + x))) (float_of_int x) = fzero) as ->.
      { rewrite fsub_int, fadd_int by (unfold small in *; lia). by replace (a - (a + x) + x) with 0 by lia. }
      assert (fadd (fsub (float_of_int x) (float_of_int (a + x))) (float_of_int a) = fzero) as ->.
      { rewrite fsub_int, fadd_int by (unfold small in *; lia). by replace (x - (a + x) + a) with 0 by lia. }
      by destruct (fleb _ _). }
    cbn [fold_left]. rewrite E, IH by lia. by rewrite Z.add_assoc.
Qed.

Lemma fsum_int l :
  Forall (Z.le 0) l -> zsum l < 2 ^ 53 -> fsum (map float_of_int l) = float_of_int (zsum l).
Proof.
  intros Hl Hs. destruct Hl as [|x l Hx Hl]; [done|].
  change (zsum (x :: l)) with (x + zsum l) in *. cbn [map fsum]. pose proof (zsum_nonneg l Hl).
  change fzero with (float_of_int 0) at 1. rewrite fadd_int by (unfold small; lia). rewrite Z.add_0_l.
  by rewrite fsum_steps_int.
Qed.

(** ** The order of floats *)

Definition is_num (x : pyfloat) : bool :=
  match x with
  | S754_nan => false
  | _ => true
  end.

Lemma compare_num x y : is_num x = true -> is_num y = true -> exists c, SFcompare x y = Some c.
Proof. destruct x, y; try done; intros _ _; eexists; reflexivity. Qed.

Lemma compare_swap x y c : SFcompare x y = Some c -> SFcompare y x = Some (CompOpp c).
Proof.
  destruct x as [[]|[]| |[] mx ex], y as [[]|[]| |[] my ey]; cbn; intros [= <-]; try done; f_equal.
  all: rewrite (Z.compare_antisym ey ex); change (Pos.compare_cont Eq ?a ?b) with (Pos.compare a b);
    rewrite (Pos.compare_antisym mx my); by destruct (Z.compare ey ex), (Pos.compare my mx).
Qed.

(** The sign of a comparison that does not decrease. *)
Definition le_cmp (c : comparison) : bool :=
  match c with
  | Gt => false
  | _ => true
  end.

Definition lt_cmp (c : comparison) : bool :=
  match c with
  | Lt => true
  | _ => false
  end.

Lemma compare_trans x y z c1 c2 :
  SFcompare x y = Some c1 -> SFcompare y z = Some c2 -> le_cmp c1 = true -> le_cmp c2 = true ->
  exists c, SFcompare x z = Some c /\ le_cmp c = true /\ lt_cmp c = lt_cmp c1 || lt_cmp c2.
Proof.
  destruct x as [[]|[]| |[] mx ex], y as [[]|[]| |[] my ey], z as [[]|[]| |[] mz ez]; cbn; try done;
    try (intros [= <-] [= <-]; cbn; intros; (done || (eexists; split_and!; reflexivity)));
  change (Pos.compare_cont Eq ?a ?b) with (Pos.compare a b);
  intros [= <-] [= <-];
  try (destruct (Z.compare_spec ex ey)); try (destruct (Z.compare_spec ey ez)); try (destruct (Z.compare_spec ex ez));
  try lia; cbn;
  try (destruct (Pos.compare_spec mx my)); try (destruct (Pos.compare_spec my mz));
  try (destruct (Pos.compare_spec mx mz)); cbn; intros; try done; try lia; eexists; split_and!; reflexivity.
Qed.

Section Order.
Context (x y z : pyfloat) (Hx : is_num x = true) (Hy : is_num y = true) (Hz : is_num z = true).

Lemma fleb_refl : fleb x x = true.
Proof.
  destruct (compare_num x x Hx Hx) as [c E]. pose proof (compare_swap x x c E) as E'.
  unfold fleb, SFleb. rewrite E in *. by destruct c.
Qed.

Lemma fltb_fleb : fltb x y = negb (fleb y x).
Proof.
  destruct (compare_num x y Hx Hy) as [c E]. unfold fltb, fleb, SFltb, SFleb.
  rewrite (compare_swap _ _ _ E), E. by destruct c.
Qed.

Lemma fleb_trans : fleb x y = true -> fleb y z = true -> fleb x z = true.
Proof.
  destruct (compare_num x y Hx Hy) as [c1 E1], (compare_num y z Hy Hz) as [c2 E2].
  unfold fleb, SFleb. rewrite E1, E2. intros H1 H2.
  destruct (compare_trans _ _ _ _ _ E1 E2) as (c & -> & H3 & _); [by destruct c1|by destruct c2|]. by destruct c.
Qed.

Lemma fltb_fleb_trans : fltb x y = true -> fleb y z = true -> fltb x z = true.
Proof.
  destruct (compare_num x y Hx Hy) as [c1 E1], (compare_num y z Hy Hz) as [c2 E2].
  unfold fleb, SFleb, fltb, SFltb. rewrite E1, E2. intros H1 H2.
  destruct (compare_trans _ _ _ _ _ E1 E2) as (c & -> & H3 & H4); [by destruct c1|by destruct c2|].
  by destruct c, c1, c2.
Qed.

Lemma fleb_fltb_trans : fleb x y = true -> fltb y z = true -> fltb x z = true.
Proof.
  destruct (compare_num x y Hx Hy) as [c1 E1], (compare_num y z Hy Hz) as [c2 E2].
  unfold fleb, SFleb, fltb, SFltb. rewrite E1, E2. intros H1 H2.
  destruct (compare_trans _ _ _ _ _ E1 E2) as (c & -> & H3 & H4); [by destruct c1|by destruct c2|].
  by destruct c, c1, c2.
Qed.

Lemma feqb_fleb : feqb x y = fleb x y && fleb y x.
Proof.
  destruct (compare_num x y Hx Hy) as [c E]. unfold feqb, fleb, SFeqb, SFleb.
  rewrite (compare_swap _ _ _ E), E. by destruct c.
Qed.
End Order.

Lemma fltb_num x y : fltb x y = true -> is_num x = true /\ is_num y = true.
Proof. by destruct x as [[]|[]| |[] ? ?], y as [[]|[]| |[] ? ?]. Qed.

(** ** From floats to integers and back *)

Definition signed (s : bool) (m : positive) : Z := if s then Zneg m else Zpos m.

(** [round(x)], [math.floor(x)] and [math.ceil(x)]; [None] is the exception on an
    infinity or NaN. *)
Definition fround_int (x : pyfloat) : option Z :=
  match x with
  | S754_zero _ => Some 0
  | S754_finite s m e =>
      Some (if 0 <=? e then signed s m * 2 ^ e
            else let q := signed s m / 2 ^ (- e) in
                 match Z.compare (2 * (signed s m mod 2 ^ (- e))) (2 ^ (- e)) with
                 | Lt => q
                 | Gt => q + 1
                 | Eq => if Z.even q then q else q + 1
                 end)
  | _ => None
  end.

Definition ffloor_int (x : pyfloat) : option Z :=
  match x with
  | S754_zero _ => Some 0
  | S754_finite s m e => Some (if 0 <=? e then signed s m * 2 ^ e else signed s m / 2 ^ (- e))
  | _ => None
  end.

Definition fceil_int (x : pyfloat) : option Z :=
  match x with
  | S754_zero _ => Some 0
  | S754_finite s m e => Some (if 0 <=? e then signed s m * 2 ^ e else - ((- (signed s m)) / 2 ^ (- e)))
  | _ => None
  end.

(** [x % y] for [y] that is not zero: the exact remainder takes the sign of [y] by
    adding [y] once, which may round. *)
Definition fmod (x y : pyfloat) : pyfloat :=
  match x, y with
  | S754_finite sx mx ex, S754_finite sy my ey =>
      let e := Z.min ex ey in
      let r := Z.rem (signed sx mx * 2 ^ (ex - e)) (Zpos my * 2 ^ (ey - e)) in
      let f := binary_normalize fprec femax r e false in
      if r =? 0 then S754_zero sy
      else if Bool.eqb sy (r <? 0) then f else fadd f y
  | S754_zero _, S754_finite sy _ _ => S754_zero sy
  | S754_zero _, S754_infinity sy => S754_zero sy
  | S754_finite sx _ _, S754_infinity sy => if Bool.eqb sx sy then x else y
  | _, _ => S754_nan
  end.

Example fmod_ex :
  map (fun p => string_of_list_ascii (float_repr (fmod (float_of_dec p.1) (float_of_dec p.2))))
    [(Dec 1 0, Dec 1 (-1)); (Dec (-7) 0, Dec 3 0); (Dec 55 (-1), Dec 25 (-1)); (Dec 7 0, Dec (-3) 0)]
  = ["0.09999999999999995"; "2.0"; "0.5"; "-2.0"]%string.
Proof. vm_compute. reflexivity. Qed.
Example fround_int_ex : map (fun d => fround_int (float_of_dec d)) [Dec 25 (-1); Dec 35 (-1); Dec (-25) (-1); Dec 27 (-1)]
  = [Some 2; Some 4; Some (-2); Some 3].
Proof. vm_compute. reflexivity. Qed.

Lemma float_to_int_int n : small n -> float_to_int (float_of_int n) = Some n.
Proof.
  intros Hn. destruct (Z.eq_dec n 0) as [->|H0]; [done|]. rewrite float_of_int_canon by done. unfold canon, float_to_int.
  assert (0 < Z.abs n < 2 ^ 53) as Ha by (unfold small in Hn; lia).
  pose proof (int_exp_le _ Ha) as He. pose proof (int_sig_pos _ Ha) as Hp. rewrite Z2Pos.id by done. f_equal.
  assert ((if 0 <=? int_exp (Z.abs n) then int_sig (Z.abs n) * 2 ^ int_exp (Z.abs n)
           else int_sig (Z.abs n) / 2 ^ (- int_exp (Z.abs n))) = Z.abs n) as ->.
  { unfold int_sig. destruct (Z.leb_spec 0 (int_exp (Z.abs n))) as [Hle|Hlt].
    - replace (int_exp (Z.abs n)) with 0 by lia. change (2 ^ (- 0)) with 1. change (2 ^ 0) with 1. lia.
    - apply Z.div_mul. lia. }
  destruct (Z.ltb_spec n 0); lia.
Qed.

Lemma is_num_int n : small n -> is_num (float_of_int n) = true.
Proof. intros Hn. destruct (Z.eq_dec n 0) as [->|H0]; [done|]. by rewrite float_of_int_canon. Qed.

Lemma is_num_opp x : is_num (SFopp x) = is_num x.
Proof. by destruct x. Qed.

Lemma fltb_opp x y : fltb (SFopp x) (SFopp y) = fltb y x.
Proof.
  unfold fltb, SFltb. destruct x as [[]|[]| |[] mx ex], y as [[]|[]| |[] my ey]; cbn; try done.
  all: rewrite (Z.compare_antisym ey ex); change (Pos.compare_cont Eq ?a ?b) with (Pos.compare a b);
    rewrite (Pos.compare_antisym mx my); by destruct (Z.compare ey ex), (Pos.compare mx my).
Qed.

Lemma fleb_num x y : fleb x y = is_num x && is_num y && negb (fltb y x).
Proof.
  destruct (is_num x) eqn:Hx; [|by destruct x]. destruct (is_num y) eqn:Hy; [|by destruct x as [[]|[]| |[] ? ?], y].
  by rewrite (fltb_fleb y x), negb_involutive.
Qed.

Lemma fleb_opp x y : fleb (SFopp x) (SFopp y) = fleb y x.
Proof. rewrite !fleb_num, fltb_opp, !is_num_opp. by rewrite (andb_comm (is_num x)). Qed.

Lemma opp_opp x : SFopp (SFopp x) = x.
Proof. by destruct x as [[]|[]| |[] ? ?]. Qed.

Lemma fltb_le x y : fltb x y = true -> fleb x y = true.
Proof. unfold fltb, fleb, SFltb, SFleb. by destruct (SFcompare x y) as [[]|]. Qed.

Lemma fltb_trans x y z : fltb x y = true -> fltb y z = true -> fltb x z = true.
Proof.
  intros H1 H2. destruct (fltb_num _ _ H1) as [Hx Hy], (fltb_num _ _ H2) as [_ Hz].
  apply (fltb_fleb_trans x y z); try done. by apply fltb_le.
Qed.
