(* ===== verification/HashChain.v ===== *)
(** * Tamper-evident hash chain: [packages/agent/audit/hash_chain.py]

    The append-only chain behind the order journal's audit log: every record
    commits to the previous record's hash, its payload and its sequence number.
    The digest is the interface [Digest] of [Sha256]; nothing is assumed of it
    but the length of its output, so tamper evidence is stated as "the same
    chain, or two different texts that the two chains hashed to one digest". *)
From Stdlib Require Import Ascii String.
From S2P Require Import Prelude PyDecimal PyValue PyFormat PyJson Sha256.
Open Scope Z_scope.
Open Scope list_scope.

Definition GENESIS_HASH : string :=
  "0000000000000000000000000000000000000000000000000000000000000000".

Definition canonical (payload : dict) : list ascii := json_dict payload.

Record ChainRecord := MkChainRecord {
  cr_seq : Z;
  cr_payload : dict;
  cr_prev_hash : string;
  cr_entry_hash : string
}.

Definition ChainRecord_to_dict (r : ChainRecord) : list (string * (pyval + dict)) :=
  [("seq", inl (VInt (cr_seq r))); ("payload", inr (cr_payload r));
   ("prev_hash", inl (VStr (cr_prev_hash r))); ("entry_hash", inl (VStr (cr_entry_hash r)))]%string.

Record HashChain := MkChain {
  hc_key : option string;
  hc_records : list ChainRecord
}.

(** What [verify_chain] returns. *)
Record verdict := MkVerdict {
  v_valid : bool;
  v_n : Z;
  v_broken_at : option Z;
  v_reason : string
}.

Section Chain.
Context `{Digest}.

Definition chain_message (prev : string) (p : dict) (s : Z) : string :=
  string_of_list_ascii (list_ascii_of_string prev ++ canonical p ++ int_chars s).

(** [if key:] treats the empty key as no key. *)
Definition digest (key : option string) (msg : string) : string :=
  if truthy key then hmac_sha256_hex (default EmptyString key) msg else sha256_hex msg.

Definition chain_hash (prev : string) (p : dict) (s : Z) (key : option string) : string :=
  digest key (chain_message prev p s).

Definition last_hash (rs : list ChainRecord) : string :=
  match last rs with
  | Some r => cr_entry_hash r
  | None => GENESIS_HASH
  end.

Definition head_hash (c : HashChain) : string := last_hash (hc_records c).

Definition keyed (c : HashChain) : bool :=
  match hc_key c with
  | Some _ => true
  | None => false
  end.

Definition append (c : HashChain) (p : dict) : HashChain * ChainRecord :=
  let s := Z.of_nat (List.length (hc_records c)) + 1 in
  let prev := head_hash c in
  let r := MkChainRecord s p prev (chain_hash prev p s (hc_key c)) in
  (MkChain (hc_key c) (hc_records c ++ [r]), r).

(** The loop of [verify_chain] from the [i]-th record on. *)
Fixpoint verify_loop (key : option string) (total : Z) (prev : string) (i : Z)
    (rs : list ChainRecord) : verdict :=
  match rs with
  | [] => MkVerdict true total None "ok"
  | r :: rest =>
      if negb (cr_seq r =? i) then
        MkVerdict false total (Some (cr_seq r))
          ("sequence gap: expected " +:+ int_str i +:+ ", got " +:+ int_str (cr_seq r))
      else if negb (bool_decide (cr_prev_hash r = prev)) then
        MkVerdict false total (Some (cr_seq r))
          "prev_hash linkage broken (insertion/deletion/reorder)"
      else if negb (bool_decide (chain_hash prev (cr_payload r) (cr_seq r) key = cr_entry_hash r)) then
        MkVerdict false total (Some (cr_seq r))
          "entry_hash mismatch (record payload was mutated)"
      else verify_loop key total (cr_entry_hash r) (i + 1) rest
  end.

Definition verify_chain (rs : list ChainRecord) (key : option string) : verdict :=
  verify_loop key (Z.of_nat (List.length rs)) GENESIS_HASH 1 rs.

Definition verify (c : HashChain) : verdict := verify_chain (hc_records c) (hc_key c).

(** ** Specification *)

(** The records [rs] continue a chain whose last hash is [prev], starting with
    sequence number [i]. *)
Inductive linked (key : option string) : string -> Z -> list ChainRecord -> Prop :=
  | linked_nil prev i : linked key prev i []
  | linked_cons prev i r rs :
      cr_seq r = i -> cr_prev_hash r = prev ->
      cr_entry_hash r = chain_hash prev (cr_payload r) i key ->
      linked key (cr_entry_hash r) (i + 1) rs ->
      linked key prev i (r :: rs).

Lemma verify_loop_valid key total prev i rs :
  v_valid (verify_loop key total prev i rs) = true <-> linked key prev i rs.
Proof.
  revert prev i. induction rs as [|r rs IH]; intros prev i; simpl.
  - split; [constructor|done].
  - split.
    + destruct (Z.eqb_spec (cr_seq r) i) as [Hs|]; simpl; [|done].
      destruct (bool_decide (cr_prev_hash r = prev)) eqn:Hp; simpl; [|done].
      destruct (bool_decide (chain_hash prev (cr_payload r) (cr_seq r) key = cr_entry_hash r)) eqn:Hh;
        simpl; [|done].
      bool_to_prop. intros Hv. apply IH in Hv. constructor; [done..| |done]. congruence.
    + inversion 1; subst. rewrite Z.eqb_refl. simpl.
      rewrite bool_decide_eq_true_2 by done. simpl.
      rewrite bool_decide_eq_true_2 by done. simpl. by apply IH.
Qed.

(** A chain that is not valid names a record of it, the first bad one. *)
Lemma verify_loop_broken key total prev i rs :
  v_valid (verify_loop key total prev i rs) = false ->
  exists good r bad, rs = good ++ r :: bad /\ linked key prev i good /\
    v_broken_at (verify_loop key total prev i rs) = Some (cr_seq r) /\
    ~ linked key prev i (good ++ [r]).
Proof.
  revert prev i. induction rs as [|r rs IH]; intros prev i; [done|]. intros Hv.
  destruct (v_valid (verify_loop key total prev i [r])) eqn:H1.
  - apply verify_loop_valid in H1. inversion H1 as [|? ? ? ? Hs Hp Hh Hl]; subst.
    assert (verify_loop key total (cr_prev_hash r) (cr_seq r) (r :: rs)
            = verify_loop key total (cr_entry_hash r) (cr_seq r + 1) rs) as Heq.
    { simpl. rewrite Z.eqb_refl. simpl. rewrite bool_decide_eq_true_2 by done. simpl.
      by rewrite bool_decide_eq_true_2. }
    rewrite Heq in Hv |- *. destruct (IH _ _ Hv) as (good & r' & bad & -> & Hg & Hb & Hn).
    exists (r :: good), r', bad. split_and!; [done|by constructor|done|].
    inversion 1; subst. by apply Hn.
  - exists [], r, rs. split_and!; [done|constructor| |].
    + revert H1. simpl. destruct (negb _); [done|]. destruct (negb _); [done|].
      by destruct (negb _).
    + simpl. intros Hl. apply verify_loop_valid with (total := total) in Hl. congruence.
Qed.

Lemma linked_app key prev i rs rs' :
  linked key prev i (rs ++ rs') -> linked key prev i rs.
Proof.
  revert prev i. induction rs as [|r rs IH]; intros prev i; simpl; [constructor|].
  inversion 1; subst. constructor; [done..|]. by apply IH.
Qed.

Lemma linked_snoc key prev i rs r :
  linked key prev i (rs ++ [r]) <->
  linked key prev i rs /\ cr_seq r = i + Z.of_nat (List.length rs) /\
  cr_prev_hash r = match last rs with Some r' => cr_entry_hash r' | None => prev end /\
  cr_entry_hash r = chain_hash (cr_prev_hash r) (cr_payload r) (cr_seq r) key.
Proof.
  revert prev i. induction rs as [|r0 rs IH]; intros prev i; simpl.
  - split.
    + inversion 1; subst. split_and!; [constructor|lia|done|done].
    + intros (_ & Hs & Hp & Hh). constructor; [lia|done| |constructor].
      rewrite Hh, Hp. f_equal. lia.
  - split.
    + inversion 1 as [|? ? ? ? Hs Hp Hh Hl]; subst. apply IH in Hl as (Hl & Hs' & Hp' & Hh').
      split_and!; [by constructor|lia| |done].
      rewrite Hp'. destruct rs as [|r1 rs]; [done|]. rewrite last_cons_cons.
      destruct (last (r1 :: rs)) eqn:E; [done|]. by apply last_None in E.
    + intros (Hl & Hs & Hp & Hh). inversion Hl as [|? ? ? ? Hs' Hp' Hh' Hl']; subst.
      constructor; [done..|]. apply IH. split_and!; [done|lia| |done].
      rewrite Hp. destruct rs as [|r1 rs]; [done|]. rewrite last_cons_cons.
      destruct (last (r1 :: rs)) eqn:E; [done|]. by apply last_None in E.
Qed.

Lemma digest_length key msg : String.length (digest key msg) = 64%nat.
Proof.
  unfold digest. destruct (truthy key).
  - apply hmac_sha256_hex_length.
  - apply sha256_hex_length.
Qed.

(** The texts that verifying a chain hashes. *)
Definition hashed (rs : list ChainRecord) : list string :=
  map (fun r => chain_message (cr_prev_hash r) (cr_payload r) (cr_seq r)) rs.

(** A collision computed in two chains: the digest was taken of a text of the
    first and of a different text of the second, with the same result. *)
Definition collision_between (key : option string) (rs rs' : list ChainRecord) : Prop :=
  exists m m' : string, m ∈ hashed rs /\ m' ∈ hashed rs' /\
    m <> m' /\ digest key m = digest key m'.

Lemma hashed_last rs r :
  chain_message (cr_prev_hash r) (cr_payload r) (cr_seq r) ∈ hashed (rs ++ [r]).
Proof. unfold hashed. rewrite map_app. set_solver. Qed.

Lemma collision_between_grows key rs rs' r r' :
  collision_between key rs rs' -> collision_between key (rs ++ [r]) (rs' ++ [r']).
Proof.
  intros (m & m' & Hm & Hm' & Hne & Hd). exists m, m'. unfold hashed in *.
  rewrite !map_app. set_solver.
Qed.

Lemma length_list_ascii (s : string) :
  List.length (list_ascii_of_string s) = String.length s.
Proof. induction s as [|c s IH]; simpl; [done|]. by rewrite IH. Qed.

Lemma list_ascii_inj (s s' : string) :
  list_ascii_of_string s = list_ascii_of_string s' -> s = s'.
Proof.
  intros Hs. rewrite <- (string_of_list_ascii_of_string s), Hs.
  apply string_of_list_ascii_of_string.
Qed.

(** The hashed message determines the previous hash, the canonical payload and
    the sequence number. *)
Lemma chain_message_inj prev p s prev' p' s' :
  String.length prev = 64%nat -> String.length prev' = 64%nat -> 0 <= s -> 0 <= s' ->
  chain_message prev p s = chain_message prev' p' s' ->
  prev = prev' /\ canonical p = canonical p' /\ s = s'.
Proof.
  intros Hl Hl' Hs Hs' Hm. unfold chain_message in Hm.
  apply (f_equal list_ascii_of_string) in Hm.
  rewrite !list_ascii_of_string_of_list_ascii in Hm.
  apply app_inj_1 in Hm as [Hp Hm]; [|by rewrite !length_list_ascii, Hl, Hl'].
  unfold canonical, json_dict, json_object in *. rewrite !int_chars_digits in Hm by done.
  set (x := join_chars _ (map json_item (sort_keys (map _ p)))) in *.
  set (y := join_chars _ (map json_item (sort_keys (map _ p')))) in *.
  rewrite !app_comm_cons, <- !app_assoc in Hm. cbn [app] in Hm.
  apply (split_digits_tail "}"%char ("{"%char :: x) ("{"%char :: y)) in Hm as [Hc Hd];
    [|done|by apply digits_range|by apply digits_range].
  split_and!.
  - by apply list_ascii_inj.
  - rewrite !app_comm_cons. by rewrite Hc.
  - apply int_chars_inj; [done|done|]. by rewrite !int_chars_digits.
Qed.

(** The previous hash of a link has 64 characters. *)
Lemma linked_prev_length key rs r :
  linked key GENESIS_HASH 1 (rs ++ [r]) -> String.length (cr_prev_hash r) = 64%nat.
Proof.
  intros Hl. apply linked_snoc in Hl as (Hl & _ & -> & _).
  destruct rs as [|r' rs _] using rev_ind; [done|].
  rewrite last_snoc. apply linked_snoc in Hl as (_ & _ & _ & ->). apply digest_length.
Qed.

(** The content of a record that the chain commits to. *)
Definition committed (r : ChainRecord) : Z * list ascii * string * string :=
  (cr_seq r, canonical (cr_payload r), cr_prev_hash r, cr_entry_hash r).

Lemma same_text key rs rs' r r' :
  chain_hash (cr_prev_hash r) (cr_payload r) (cr_seq r) key
  = chain_hash (cr_prev_hash r') (cr_payload r') (cr_seq r') key ->
  chain_message (cr_prev_hash r) (cr_payload r) (cr_seq r)
  = chain_message (cr_prev_hash r') (cr_payload r') (cr_seq r') \/
  collision_between key (rs ++ [r]) (rs' ++ [r']).
Proof.
  intros Hd. destruct (decide (chain_message (cr_prev_hash r) (cr_payload r) (cr_seq r)
    = chain_message (cr_prev_hash r') (cr_payload r') (cr_seq r'))) as [|Hne]; [by left|].
  right. eexists _, _. split_and!; [apply hashed_last|apply hashed_last|exact Hne|exact Hd].
Qed.

Lemma same_head key rs rs' r r' :
  linked key GENESIS_HASH 1 (rs ++ [r]) -> linked key GENESIS_HASH 1 (rs' ++ [r']) ->
  cr_entry_hash r = cr_entry_hash r' ->
  map committed (rs ++ [r]) = map committed (rs' ++ [r']) \/
  collision_between key (rs ++ [r]) (rs' ++ [r']).
Proof.
  revert r rs' r'. induction rs as [|r0 rs IH] using rev_ind; intros r rs' r' Hl Hl' He;
    pose proof (linked_prev_length _ _ _ Hl) as Hp;
    pose proof (linked_prev_length _ _ _ Hl') as Hp';
    apply linked_snoc in Hl as (Hl & Hs & Hv & Hh);
    apply linked_snoc in Hl' as (Hl' & Hs' & Hv' & Hh').
  all: match goal with |- _ \/ collision_between _ (?xs ++ _) _ =>
    destruct (same_text key xs rs' r r') as [Hm|?]; [congruence| |by right] end.
  all: apply chain_message_inj in Hm as (Hpp & Hc & Hss); [|done|done|lia|lia].
  - destruct rs' as [|r1 rs'].
    + left. simpl. unfold committed. by rewrite Hss, Hc, Hpp, He.
    + simpl in *. lia.
  - destruct rs' as [|r1 rs' _] using rev_ind.
    + rewrite length_app in Hs. simpl in *. lia.
    + rewrite last_snoc in Hv, Hv'.
      destruct (IH r0 rs' r1) as [Hrec|?]; [done|done|congruence| |].
      * left. rewrite (map_app committed (rs ++ [r0])), (map_app committed (rs' ++ [r1])), Hrec.
        simpl. unfold committed. by rewrite Hss, Hc, Hpp, He.
      * right. by apply collision_between_grows.
Qed.

Lemma linked_last key rs : linked key GENESIS_HASH 1 rs -> forall r rs', rs = rs' ++ [r] ->
  last_hash rs = cr_entry_hash r.
Proof. intros _ r rs' ->. unfold last_hash. by rewrite last_snoc. Qed.
End Chain.

(** ** Properties *)

Section ChainProperties.
Context `{Digest}.

(** Appending a list of payloads to a chain. *)
Definition append_all (c : HashChain) (ps : list dict) : HashChain :=
  fold_left (fun c p => (append c p).1) ps c.

Lemma append_linked c p :
  linked (hc_key c) GENESIS_HASH 1 (hc_records c) ->
  linked (hc_key c) GENESIS_HASH 1 (hc_records (append c p).1).
Proof.
  intros Hl. cbn. apply linked_snoc. cbn. split_and!; [done|lia|done|done].
Qed.

Lemma append_all_linked c ps :
  linked (hc_key c) GENESIS_HASH 1 (hc_records c) ->
  hc_key (append_all c ps) = hc_key c /\
  linked (hc_key c) GENESIS_HASH 1 (hc_records (append_all c ps)) /\
  map cr_payload (hc_records (append_all c ps)) = map cr_payload (hc_records c) ++ ps.
Proof.
  revert c. induction ps as [|p ps IH]; intros c Hl.
  - split_and!; [done|done|]. by rewrite app_nil_r.
  - destruct (IH (append c p).1) as (Hk & Hl' & Hp).
    { exact (append_linked c p Hl). }
    split_and!; [done|done|]. change (append_all c (p :: ps)) with (append_all (append c p).1 ps).
    rewrite Hp. cbn. by rewrite map_app, <- app_assoc.
Qed.

(** Verification accepts exactly the chains in which every record carries
    its position, the hash of its predecessor and the hash of its own content;
    otherwise [broken_at] is the sequence number of the first record that
    breaks the chain. *)
Theorem verify_chain_correct rs key :
  (v_valid (verify_chain rs key) = true <-> linked key GENESIS_HASH 1 rs) /\
  (v_valid (verify_chain rs key) = false ->
   exists good r bad, rs = good ++ r :: bad /\ linked key GENESIS_HASH 1 good /\
     ~ linked key GENESIS_HASH 1 (good ++ [r]) /\
     v_broken_at (verify_chain rs key) = Some (cr_seq r)).
Proof.
  split; [apply verify_loop_valid|].
  intros Hv. apply verify_loop_broken in Hv as (good & r & bad & ? & ? & ? & ?).
  exists good, r, bad. by split_and!.
Qed.

(** C21: tamper evidence. Two non-empty chains that both verify under a key and
    have the same head hash hold the same records (same sequence numbers,
    canonical payloads and hashes), unless the digest collided on the texts of
    these two chains: of a text hashed for one and a different text hashed for
    the other. *)
Theorem chain_tamper_evident rs rs' key :
  rs <> [] -> rs' <> [] ->
  v_valid (verify_chain rs key) = true -> v_valid (verify_chain rs' key) = true ->
  last_hash rs = last_hash rs' ->
  map committed rs = map committed rs' \/ collision_between key rs rs'.
Proof.
  intros Hne Hne' Hv Hv' Hh. apply verify_loop_valid in Hv, Hv'.
  destruct rs as [|r rs _] using rev_ind; [done|].
  destruct rs' as [|r' rs' _] using rev_ind; [done|].
  unfold last_hash in Hh. rewrite !last_snoc in Hh. by apply same_head.
Qed.

(** A chain built by appending verifies, and holds the payloads in the
    order they were appended. *)
Theorem append_all_verifies key ps :
  let c := append_all (MkChain key []) ps in
  v_valid (verify c) = true /\ map cr_payload (hc_records c) = ps /\
  v_broken_at (verify c) = None.
Proof.
  cbn zeta. destruct (append_all_linked (MkChain key []) ps) as (Hk & Hl & Hp);
    [constructor|]. cbn in Hk, Hl.
  assert (v_valid (verify (append_all (MkChain key []) ps)) = true) as Hv.
  { unfold verify. rewrite Hk. by apply verify_loop_valid. }
  split_and!; [done|done|]. unfold verify, verify_chain in *. rewrite Hk in *.
  generalize dependent (Z.of_nat (List.length (hc_records (append_all (MkChain key []) ps)))).
  clear Hk Hl Hp. generalize (hc_records (append_all (MkChain key []) ps)).
  intros rs total. generalize GENESIS_HASH, 1. induction rs as [|r rs IH]; intros prev i; simpl; [done|].
  destruct (negb _); [done|]. destruct (negb _); [done|]. destruct (negb _); [done|]. apply IH.
Qed.

(** Deleting records from the end is not detected: every prefix of a valid
    chain verifies, although the module promises that any deletion breaks
    verification. *)
Theorem truncation_verifies rs rs' key :
  v_valid (verify_chain (rs ++ rs') key) = true -> v_valid (verify_chain rs key) = true.
Proof. unfold verify_chain. rewrite !verify_loop_valid. apply linked_app. Qed.

(** An empty key is reported as keyed, and hashes without a key. *)
Theorem empty_key_is_unkeyed prev p s :
  keyed (MkChain (Some EmptyString) []) = true /\
  chain_hash prev p s (Some EmptyString) = chain_hash prev p s None.
Proof. done. Qed.
End ChainProperties.

(** ** Witnesses *)

Definition sample_chain : HashChain :=
  append_all (MkChain (Some "k"%string) [])
    [[("event_type", VStr "order_logged")]; [("event_type", VStr "status_submitted")]]%string.

Definition forged_records : list ChainRecord :=
  match hc_records sample_chain with
  | [r1; r2] =>
      [MkChainRecord (cr_seq r1) [("event_type", VStr "nothing")]%string (cr_prev_hash r1)
         (cr_entry_hash r1); r2]
  | _ => []
  end.

Lemma verify_chain_correct_witness :
  exists good r bad, forged_records = good ++ r :: bad /\
    linked (Some "k"%string) GENESIS_HASH 1 good /\
    ~ linked (Some "k"%string) GENESIS_HASH 1 (good ++ [r]) /\
    v_broken_at (verify_chain forged_records (Some "k"%string)) = Some (cr_seq r).
Proof.
  apply (verify_chain_correct forged_records (Some "k"%string)).
  vm_compute. reflexivity.
Defined.

Lemma chain_tamper_evident_witness :
  map committed (hc_records sample_chain) = map committed (hc_records sample_chain) \/
  collision_between (Some "k"%string) (hc_records sample_chain) (hc_records sample_chain).
Proof.
  apply (chain_tamper_evident (hc_records sample_chain) (hc_records sample_chain)
           (Some "k"%string)).
  - vm_compute. discriminate.
  - vm_compute. discriminate.
  - vm_compute. reflexivity.
  - vm_compute. reflexivity.
  - reflexivity.
Defined.

(** The second case does not hold by itself: no collision was computed in the
    sample chain and its forgery. *)
Definition collides (key : option string) (rs rs' : list ChainRecord) : bool :=
  existsb (fun m => existsb (fun m' =>
    negb (bool_decide (m = m')) && bool_decide (digest key m = digest key m')) (hashed rs'))
    (hashed rs).

Lemma collides_spec key rs rs' : collides key rs rs' = true <-> collision_between key rs rs'.
Proof.
  unfold collides, collision_between. rewrite existsb_exists. split.
  - intros (m & Hm & Hx). apply existsb_exists in Hx as (m' & Hm' & Hx).
    apply andb_true_iff in Hx as [Hne Hd]. bool_to_prop.
    exists m, m'. rewrite !list_elem_of_In. by split_and!.
  - intros (m & m' & Hm & Hm' & Hne & Hd). exists m. rewrite list_elem_of_In in Hm.
    split; [done|]. apply existsb_exists. exists m'. rewrite list_elem_of_In in Hm'.
    split; [done|]. by rewrite bool_decide_eq_false_2, bool_decide_eq_true_2.
Qed.

Example forgery_without_collision :
  ~ collision_between (Some "k"%string) (hc_records sample_chain) forged_records.
Proof. rewrite <- collides_spec. vm_compute. discriminate. Qed.
