(* ===== verification/Intent.v ===== *)
(** * Order intents: [packages/shared/contracts/intent.py]

    What a strategy wants to do.  Identifiers ([UUID]) are their canonical
    strings and times are microseconds, see [Prelude]. *)
From Stdlib Require Import Ascii String.
From S2P Require Import Prelude PyDecimal PyValue PyFormat PyTime PyJson Uuid.
Open Scope Z_scope.

Inductive IntentType :=
  | MARKET_ENTRY | MARKET_EXIT
  | LIMIT_ENTRY | LIMIT_EXIT
  | STOP_ENTRY | STOP_EXIT
  | ADJUST_POSITION | CLOSE_POSITION | FLATTEN_ALL
  | HOLD | NO_ACTION.

#[export] Instance IntentType_eq_dec : EqDecision IntentType.
Proof. solve_decision. Defined.

Definition intent_type_value (t : IntentType) : string :=
  match t with
  | MARKET_ENTRY => "market_entry"
  | MARKET_EXIT => "market_exit"
  | LIMIT_ENTRY => "limit_entry"
  | LIMIT_EXIT => "limit_exit"
  | STOP_ENTRY => "stop_entry"
  | STOP_EXIT => "stop_exit"
  | ADJUST_POSITION => "adjust_position"
  | CLOSE_POSITION => "close_position"
  | FLATTEN_ALL => "flatten_all"
  | HOLD => "hold"
  | NO_ACTION => "no_action"
  end%string.

Inductive IntentSide := LONG | SHORT | FLAT.

#[export] Instance IntentSide_eq_dec : EqDecision IntentSide.
Proof. solve_decision. Defined.

Definition intent_side_value (s : IntentSide) : string :=
  match s with
  | LONG => "long"
  | SHORT => "short"
  | FLAT => "flat"
  end%string.

Inductive IntentPriority := PLOW | PNORMAL | PHIGH | PURGENT.

#[export] Instance IntentPriority_eq_dec : EqDecision IntentPriority.
Proof. solve_decision. Defined.

Definition intent_priority_value (p : IntentPriority) : string :=
  match p with
  | PLOW => "low"
  | PNORMAL => "normal"
  | PHIGH => "high"
  | PURGENT => "urgent"
  end%string.

Record OrderIntent := MkIntent {
  strategy_id : string;
  symbol : string;
  intent_type : IntentType;
  side : IntentSide;
  target_quantity : option dec;
  target_notional : option dec;
  limit_price : option dec;
  stop_price : option dec;
  time_in_force : string;
  urgency : IntentPriority;
  reason : string;
  i_metadata : dict;
  i_created_at : Z;
  expires_at : option Z;
  intent_id : string
}.

(** The constructor with its defaults; [created_at] and [intent_id] are drawn
    from the clock and from [uuid4]. *)
Definition new_intent (strategy sym : string) (t : IntentType) (s : IntentSide)
    (now : Z) (id : string) : OrderIntent :=
  MkIntent strategy sym t s None None None None "GTC" PNORMAL "" [] now None id.

Definition with_quantity (q : dec) (i : OrderIntent) : OrderIntent :=
  MkIntent (strategy_id i) (symbol i) (intent_type i) (side i) (Some q) (target_notional i)
    (limit_price i) (stop_price i) (time_in_force i) (urgency i) (reason i) (i_metadata i)
    (i_created_at i) (expires_at i) (intent_id i).

Definition is_entry (i : OrderIntent) : bool :=
  match intent_type i with
  | MARKET_ENTRY | LIMIT_ENTRY | STOP_ENTRY => true
  | _ => false
  end.

Definition is_exit (i : OrderIntent) : bool :=
  match intent_type i with
  | MARKET_EXIT | LIMIT_EXIT | STOP_EXIT | CLOSE_POSITION | FLATTEN_ALL => true
  | _ => false
  end.

Definition is_limit (i : OrderIntent) : bool :=
  match intent_type i with
  | LIMIT_ENTRY | LIMIT_EXIT => true
  | _ => false
  end.

Definition is_stop (i : OrderIntent) : bool :=
  match intent_type i with
  | STOP_ENTRY | STOP_EXIT => true
  | _ => false
  end.

Definition is_passive (i : OrderIntent) : bool :=
  match intent_type i with
  | HOLD | NO_ACTION => true
  | _ => false
  end.

Definition is_expired (now : Z) (i : OrderIntent) : bool :=
  match expires_at i with
  | None => false
  | Some t => t <? now
  end.

(** [str(d) if d else None]: a zero is falsy. *)
Definition v_dec_str (o : option dec) : pyval :=
  match o with
  | Some d => if dtrue d then VStr (dec_str d) else VNone
  | None => VNone
  end.

(** [t.isoformat() if t else None]: every datetime is truthy. *)
Definition v_time_str (o : option Z) : pyval :=
  match o with
  | Some t => VStr (isoformat t)
  | None => VNone
  end.

Definition intent_to_dict (i : OrderIntent) : dict :=
  [("intent_id", VStr (intent_id i));
   ("strategy_id", VStr (strategy_id i));
   ("symbol", VStr (symbol i));
   ("intent_type", VStr (intent_type_value (intent_type i)));
   ("side", VStr (intent_side_value (side i)));
   ("target_quantity", v_dec_str (target_quantity i));
   ("target_notional", v_dec_str (target_notional i));
   ("limit_price", v_dec_str (limit_price i));
   ("stop_price", v_dec_str (stop_price i));
   ("time_in_force", VStr (time_in_force i));
   ("urgency", VStr (intent_priority_value (urgency i)));
   ("reason", VStr (reason i));
   ("metadata", VDict (i_metadata i));
   ("created_at", VStr (isoformat (i_created_at i)));
   ("expires_at", v_time_str (expires_at i))]%string.

(** [Decimal(v)] of a text, an integer or a decimal. *)
Definition to_decimal (v : pyval) : option dec :=
  match v with
  | VStr s => dec_of_str s
  | VInt n => Some (Dec n 0)
  | VDec d => Some d
  | _ => None
  end.

(** [Decimal(data[k]) if data.get(k) else None] *)
Definition dec_field (d : dict) (k : string) : option (option dec) :=
  match dget d k with
  | Some v => if val_true v then Some <$> to_decimal v else Some None
  | None => Some None
  end.

Definition all_intent_types : list IntentType :=
  [MARKET_ENTRY; MARKET_EXIT; LIMIT_ENTRY; LIMIT_EXIT; STOP_ENTRY; STOP_EXIT; ADJUST_POSITION; CLOSE_POSITION;
   FLATTEN_ALL; HOLD; NO_ACTION].

(** [from_dict]; [now] and [id] are drawn for a missing time and id.  [None] raises, or a
    field holds a value of another type, which the code keeps. *)
Definition intent_from_dict (now : Z) (id : string) (d : dict) : option OrderIntent :=
  (let get k dflt := default dflt (dget d k) in
   iid ← match dget d "intent_id" with Some v => as_str v ≫= uuid_of_str | None => Some id end;
   strategy ← dget d "strategy_id" ≫= as_str;
   sym ← dget d "symbol" ≫= as_str;
   ty ← dget d "intent_type" ≫= member intent_type_value all_intent_types;
   sd ← dget d "side" ≫= member intent_side_value [LONG; SHORT; FLAT];
   quantity ← dec_field d "target_quantity";
   notional ← dec_field d "target_notional";
   limit ← dec_field d "limit_price";
   stop ← dec_field d "stop_price";
   tif ← as_str (get "time_in_force" (VStr "GTC"));
   priority ← member intent_priority_value [PLOW; PNORMAL; PHIGH; PURGENT] (get "urgency" (VStr "normal"));
   why ← as_str (get "reason" (VStr ""));
   meta ← as_dict (get "metadata" (VDict []));
   created ← match dget d "created_at" with Some v => as_str v ≫= fromisoformat | None => Some now end;
   expires ← (let v := get "expires_at" VNone in
              if val_true v then Some <$> (as_str v ≫= fromisoformat) else Some None);
   Some (MkIntent strategy sym ty sd quantity notional limit stop tif priority why meta created expires iid))%string.

(** ** Lemmas *)

Lemma entry_not_exit i : is_entry i = true -> is_exit i = false.
Proof. unfold is_entry, is_exit. by destruct (intent_type i). Qed.

Lemma passive_not_entry i : is_passive i = true -> is_entry i = false /\ is_exit i = false.
Proof. unfold is_passive, is_entry, is_exit. by destruct (intent_type i). Qed.

(** A non-empty decimal string. *)
Lemma dec_str_truthy d : truthy (Some (dec_str d)) = true.
Proof.
  unfold truthy. rewrite bool_decide_eq_false_2; [done|]. intros He.
  pose proof (dec_of_dec_str d) as H. rewrite He in H. discriminate H.
Qed.

(** What is left of a decimal: a zero is written as [None]. *)
Definition unless_zero (o : option dec) : option dec :=
  match o with
  | Some x => if dtrue x then Some x else None
  | None => None
  end.

Lemma dec_field_to_dict o d k : dget d k = Some (v_dec_str o) -> dec_field d k = Some (unless_zero o).
Proof.
  intros H. unfold dec_field. rewrite H. unfold v_dec_str, unless_zero.
  destruct o as [x|]; [|done]. destruct (dtrue x); [|done].
  cbn [val_true to_decimal]. by rewrite dec_str_truthy, dec_of_dec_str.
Qed.

(** A zero price does not survive the round trip through [to_dict]. *)
Theorem zero_decimal_lost i :
  target_quantity i = Some (Dec 0 0) ->
  dec_field (intent_to_dict i) "target_quantity" = Some None.
Proof.
  intros Hq. rewrite (dec_field_to_dict (target_quantity i)); [by rewrite Hq|reflexivity].
Qed.

(** The intent with its zero quantities and prices gone. *)
Definition without_zeros (i : OrderIntent) : OrderIntent :=
  MkIntent (strategy_id i) (symbol i) (intent_type i) (side i) (unless_zero (target_quantity i))
    (unless_zero (target_notional i)) (unless_zero (limit_price i)) (unless_zero (stop_price i)) (time_in_force i)
    (urgency i) (reason i) (i_metadata i) (i_created_at i) (expires_at i) (intent_id i).

Definition datetime_range (t : Z) : Prop := date_min <= t / day <= date_max.

Lemma intent_type_reread t : member intent_type_value all_intent_types (VStr (intent_type_value t)) = Some t.
Proof. by destruct t. Qed.

Lemma side_reread s : member intent_side_value [LONG; SHORT; FLAT] (VStr (intent_side_value s)) = Some s.
Proof. by destruct s. Qed.

Lemma priority_reread p :
  member intent_priority_value [PLOW; PNORMAL; PHIGH; PURGENT] (VStr (intent_priority_value p)) = Some p.
Proof. by destruct p. Qed.

(** An intent that is written and read keeps everything but zero quantities and prices. *)
Theorem intent_roundtrip now id i :
  uuid_of_str (intent_id i) = Some (intent_id i) ->
  datetime_range (i_created_at i) -> from_option datetime_range True (expires_at i) ->
  intent_from_dict now id (intent_to_dict i) = Some (without_zeros i).
Proof.
  intros Hid Hc He. unfold intent_from_dict.
  assert ((if val_true (v_time_str (expires_at i))
           then Some <$> (as_str (v_time_str (expires_at i)) ≫= fromisoformat) else Some None)
          = Some (expires_at i)) as Hex.
  { destruct (expires_at i) as [t|]; [|done]. cbn [v_time_str val_true as_str mbind option_bind].
    by rewrite (isoformat_truthy t He), (fromisoformat_isoformat t He). }
  pose proof (fromisoformat_isoformat _ Hc) as Hcr. unfold intent_to_dict. revert Hcr Hex.
  generalize (isoformat (i_created_at i)) (v_time_str (expires_at i)). intros c e Hcr Hex.
  match goal with |- context [dget ?d _] => set (data := d) end.
  rewrite (dec_field_to_dict (target_quantity i) data "target_quantity" eq_refl),
    (dec_field_to_dict (target_notional i) data "target_notional" eq_refl),
    (dec_field_to_dict (limit_price i) data "limit_price" eq_refl), (dec_field_to_dict (stop_price i) data "stop_price" eq_refl).
  assert (forall k v, dget data k = Some v -> dget data k = Some v) as field by done.
  rewrite (field "intent_id"%string (VStr (intent_id i)) eq_refl), (field "strategy_id"%string (VStr (strategy_id i)) eq_refl),
    (field "symbol"%string (VStr (symbol i)) eq_refl), (field "intent_type"%string (VStr (intent_type_value (intent_type i))) eq_refl),
    (field "side"%string (VStr (intent_side_value (side i))) eq_refl),
    (field "time_in_force"%string (VStr (time_in_force i)) eq_refl),
    (field "urgency"%string (VStr (intent_priority_value (urgency i))) eq_refl),
    (field "reason"%string (VStr (reason i)) eq_refl), (field "metadata"%string (VDict (i_metadata i)) eq_refl),
    (field "created_at"%string (VStr c) eq_refl), (field "expires_at"%string e eq_refl).
  cbn [default from_option Datatypes.id as_str as_dict mbind option_bind].
  by rewrite Hid, intent_type_reread, side_reread, priority_reread, Hcr, Hex.
Qed.

Lemma intent_roundtrip_witness :
  let i := with_quantity (Dec 5 0)
             (new_intent "s" "AAPL" MARKET_ENTRY LONG 1709209845000250 "886313e1-3b8a-5372-9b90-0c9aee199e5d") in
  intent_from_dict 0 "" (intent_to_dict i) = Some i.
Proof.
  intros i. apply (intent_roundtrip 0 "" i).
  - vm_compute. reflexivity.
  - vm_compute. by split.
  - exact I.
Defined.
