(* ===== verification/Config.v ===== *)
(** * Configuration contracts: [packages/shared/contracts/config.py]

    The risk and execution configuration the cloud sends and the agent applies,
    their dictionary form, and the classification of configuration changes. *)
From Stdlib Require Import Ascii String.
From S2P Require Import Prelude PyDecimal PyValue.
Open Scope Z_scope.

Inductive RiskLevel := CONSERVATIVE | MODERATE | AGGRESSIVE.

#[export] Instance RiskLevel_eq_dec : EqDecision RiskLevel.
Proof. solve_decision. Defined.

Definition risk_level_value (l : RiskLevel) : string :=
  match l with
  | CONSERVATIVE => "conservative"
  | MODERATE => "moderate"
  | AGGRESSIVE => "aggressive"
  end%string.

(** [RiskLevel(s)]; [None] is [ValueError]. *)
Definition risk_level_of (v : pyval) : option RiskLevel :=
  List.find (fun l => bool_decide (v = VStr (risk_level_value l)))
    [CONSERVATIVE; MODERATE; AGGRESSIVE].

Inductive ChangeClass :=
  | TRADING_IMPACTING | OPERATIONAL | INFORMATIONAL | DATA_SENSITIVE | SAFETY_OPERATION.

#[export] Instance ChangeClass_eq_dec : EqDecision ChangeClass.
Proof. solve_decision. Defined.

Definition change_class_value (c : ChangeClass) : string :=
  match c with
  | TRADING_IMPACTING => "trading_impacting"
  | OPERATIONAL => "operational"
  | INFORMATIONAL => "informational"
  | DATA_SENSITIVE => "data_sensitive"
  | SAFETY_OPERATION => "safety_operation"
  end%string.

Definition requires_local_approval (c : ChangeClass) : bool :=
  match c with
  | TRADING_IMPACTING | DATA_SENSITIVE => true
  | _ => false
  end.

Definition is_safety_operation (c : ChangeClass) : bool :=
  match c with
  | SAFETY_OPERATION => true
  | _ => false
  end.

Definition can_bypass_approval (c : ChangeClass) : bool :=
  match c with
  | SAFETY_OPERATION | INFORMATIONAL => true
  | _ => false
  end.

Definition TRADING_IMPACTING_FIELDS : list string :=
  ["symbols"; "universe"; "risk_limits"; "max_position_size"; "max_daily_loss"; "execution_mode";
   "broker_account"; "strategy_params"; "model_version"; "schedule"]%string.

(** [StrategyConfig.get_change_class] *)
Definition get_change_class (field_name : string) : ChangeClass :=
  if decide (field_name ∈ TRADING_IMPACTING_FIELDS) then TRADING_IMPACTING else OPERATIONAL.

(** The fields of [StrategyConfig]. *)
Definition strategy_config_fields : list string :=
  ["strategy_id"; "strategy_version"; "symbols"; "risk"; "execution"; "mode"; "params";
   "schedule"; "enabled"]%string.

Record RiskConfig := MkRiskConfig {
  rc_max_position_size : dec;
  rc_max_position_pct : dec;
  rc_max_daily_loss : dec;
  rc_max_daily_loss_pct : dec;
  rc_max_drawdown_pct : dec;
  rc_max_order_size : dec;
  rc_max_orders_per_minute : Z;
  rc_max_orders_per_day : Z;
  rc_max_gross_exposure : dec;
  rc_max_net_exposure : dec;
  rc_max_single_symbol_pct : dec;
  rc_risk_level : RiskLevel
}.

Definition default_risk_config : RiskConfig :=
  MkRiskConfig (Dec 100000 0) (Dec 1 (-1)) (Dec 1000 0) (Dec 2 (-2)) (Dec 1 (-1)) (Dec 10000 0)
    10 100 (Dec 1000000 0) (Dec 500000 0) (Dec 25 (-2)) MODERATE.

Definition risk_to_dict (c : RiskConfig) : dict :=
  [("max_position_size", VStr (dec_str (rc_max_position_size c)));
   ("max_position_pct", VStr (dec_str (rc_max_position_pct c)));
   ("max_daily_loss", VStr (dec_str (rc_max_daily_loss c)));
   ("max_daily_loss_pct", VStr (dec_str (rc_max_daily_loss_pct c)));
   ("max_drawdown_pct", VStr (dec_str (rc_max_drawdown_pct c)));
   ("max_order_size", VStr (dec_str (rc_max_order_size c)));
   ("max_orders_per_minute", VInt (rc_max_orders_per_minute c));
   ("max_orders_per_day", VInt (rc_max_orders_per_day c));
   ("max_gross_exposure", VStr (dec_str (rc_max_gross_exposure c)));
   ("max_net_exposure", VStr (dec_str (rc_max_net_exposure c)));
   ("max_single_symbol_pct", VStr (dec_str (rc_max_single_symbol_pct c)));
   ("risk_level", VStr (risk_level_value (rc_risk_level c)))]%string.

Definition risk_from_dict (d : dict) : option RiskConfig :=
  (position ← get_dec d "max_position_size" "100000";
   position_pct ← get_dec d "max_position_pct" "0.1";
   daily_loss ← get_dec d "max_daily_loss" "1000";
   daily_loss_pct ← get_dec d "max_daily_loss_pct" "0.02";
   drawdown_pct ← get_dec d "max_drawdown_pct" "0.1";
   order_size ← get_dec d "max_order_size" "10000";
   per_minute ← get_int d "max_orders_per_minute" 10;
   per_day ← get_int d "max_orders_per_day" 100;
   gross ← get_dec d "max_gross_exposure" "1000000";
   net ← get_dec d "max_net_exposure" "500000";
   single ← get_dec d "max_single_symbol_pct" "0.25";
   level ← risk_level_of (default (VStr "moderate") (dget d "risk_level"));
   Some (MkRiskConfig position position_pct daily_loss daily_loss_pct drawdown_pct order_size
           per_minute per_day gross net single level))%string.

Example default_risk_config_ex : risk_from_dict [] = Some default_risk_config.
Proof. reflexivity. Qed.

(** [time_in_force] is text in every configuration the code writes. *)
Record ExecutionConfig := MkExecutionConfig {
  ec_expected_slippage_bps : dec;
  ec_max_slippage_bps : dec;
  ec_use_limit_orders : bool;
  ec_limit_offset_bps : dec;
  ec_time_in_force : string;
  ec_retry_on_reject : bool;
  ec_max_retries : Z;
  ec_min_order_interval_ms : Z;
  ec_order_timeout_ms : Z;
  ec_use_algo_execution : bool;
  ec_algo_duration_minutes : Z
}.

Definition default_execution_config : ExecutionConfig :=
  MkExecutionConfig (Dec 5 0) (Dec 50 0) true (Dec 2 0) "GTC" true 3 100 30000 false 5.

Definition execution_to_dict (c : ExecutionConfig) : dict :=
  [("expected_slippage_bps", VStr (dec_str (ec_expected_slippage_bps c)));
   ("max_slippage_bps", VStr (dec_str (ec_max_slippage_bps c)));
   ("use_limit_orders", VBool (ec_use_limit_orders c));
   ("limit_offset_bps", VStr (dec_str (ec_limit_offset_bps c)));
   ("time_in_force", VStr (ec_time_in_force c));
   ("retry_on_reject", VBool (ec_retry_on_reject c));
   ("max_retries", VInt (ec_max_retries c));
   ("min_order_interval_ms", VInt (ec_min_order_interval_ms c));
   ("order_timeout_ms", VInt (ec_order_timeout_ms c));
   ("use_algo_execution", VBool (ec_use_algo_execution c));
   ("algo_duration_minutes", VInt (ec_algo_duration_minutes c))]%string.

(** [str(v)] of the values a configuration holds for a textual field. *)
Definition str_of_val (v : pyval) : option string :=
  match v with
  | VStr s => Some s
  | VNone => Some "None"
  | VBool true => Some "True"
  | VBool false => Some "False"
  | VInt n => Some (int_str n)
  | VDec d => Some (dec_str d)
  | VSecs us => Some (secs_str us)
  | _ => None
  end%string.

Definition execution_from_dict (d : dict) : option ExecutionConfig :=
  (slippage ← get_dec d "expected_slippage_bps" "5";
   max_slippage ← get_dec d "max_slippage_bps" "50";
   offset ← get_dec d "limit_offset_bps" "2";
   tif ← str_of_val (default (VStr "GTC") (dget d "time_in_force"));
   retries ← get_int d "max_retries" 3;
   interval ← get_int d "min_order_interval_ms" 100;
   timeout ← get_int d "order_timeout_ms" 30000;
   minutes ← get_int d "algo_duration_minutes" 5;
   Some (MkExecutionConfig slippage max_slippage (get_bool d "use_limit_orders" true) offset tif
           (get_bool d "retry_on_reject" true) retries interval timeout
           (get_bool d "use_algo_execution" false) minutes))%string.

Example default_execution_config_ex : execution_from_dict [] = Some default_execution_config.
Proof. reflexivity. Qed.

(** ** The configuration of a strategy *)

Inductive ExecutionMode := MODE_BACKTEST | MODE_PAPER | MODE_LIVE.

Definition execution_mode_value (m : ExecutionMode) : string :=
  match m with
  | MODE_BACKTEST => "backtest"
  | MODE_PAPER => "paper"
  | MODE_LIVE => "live"
  end%string.

Record StrategyConfig := MkStrategyConfig {
  sg_strategy_id : string;
  sg_strategy_version : string;
  sg_symbols : list string;
  sg_risk : RiskConfig;
  sg_execution : ExecutionConfig;
  sg_mode : ExecutionMode;
  sg_params : dict;
  sg_schedule : string;
  sg_enabled : bool
}.

Definition new_strategy_config (strategy version : string) : StrategyConfig :=
  MkStrategyConfig strategy version [] default_risk_config default_execution_config MODE_PAPER [] "always" true.

Definition strategy_to_dict (c : StrategyConfig) : dict :=
  [("strategy_id", VStr (sg_strategy_id c)); ("strategy_version", VStr (sg_strategy_version c));
   ("symbols", VStrs (sg_symbols c)); ("risk", VDict (risk_to_dict (sg_risk c)));
   ("execution", VDict (execution_to_dict (sg_execution c)));
   ("mode", VStr (execution_mode_value (sg_mode c))); ("params", VDict (sg_params c));
   ("schedule", VStr (sg_schedule c)); ("enabled", VBool (sg_enabled c))]%string.

(** [None] raises, or a field holds a value of another type, which the code keeps. *)
Definition strategy_from_dict (d : dict) : option StrategyConfig :=
  (let get k dflt := default dflt (dget d k) in
   sid ← dget d "strategy_id" ≫= as_str;
   version ← as_str (get "strategy_version" (VStr "1.0.0"));
   symbols ← as_strs (get "symbols" (VStrs []));
   risk ← as_dict (get "risk" (VDict [])) ≫= risk_from_dict;
   execution ← as_dict (get "execution" (VDict [])) ≫= execution_from_dict;
   mode ← member execution_mode_value [MODE_BACKTEST; MODE_PAPER; MODE_LIVE] (get "mode" (VStr "paper"));
   params ← as_dict (get "params" (VDict []));
   schedule ← as_str (get "schedule" (VStr "always"));
   enabled ← as_bool (get "enabled" (VBool true));
   Some (MkStrategyConfig sid version symbols risk execution mode params schedule enabled))%string.

(** ** Properties *)

Lemma config_reread r e :
  risk_from_dict (risk_to_dict r) = Some r /\ execution_from_dict (execution_to_dict e) = Some e.
Proof.
  split.
  - unfold risk_from_dict. erewrite !get_dec_at by reflexivity.
    erewrite !get_int_at by reflexivity. by destruct r as [??????????? []].
  - unfold execution_from_dict. erewrite !get_dec_at by reflexivity.
    erewrite !get_int_at by reflexivity. erewrite !get_bool_at by reflexivity.
    by destruct e.
Qed.

(** The configurations written by [to_dict] are read back by [from_dict]. *)
Theorem config_roundtrip r e :
  risk_from_dict (risk_to_dict r) = Some r /\ execution_from_dict (execution_to_dict e) = Some e.
Proof. apply config_reread. Qed.

(** The whole configuration of a strategy is read back. *)
Theorem strategy_config_roundtrip c : strategy_from_dict (strategy_to_dict c) = Some c.
Proof.
  destruct (config_reread (sg_risk c) (sg_execution c)) as [Hr He]. unfold strategy_from_dict.
  pose proof (fun k v (Hk : dget (strategy_to_dict c) k = Some v) => Hk) as field.
  rewrite (field "strategy_id"%string (VStr (sg_strategy_id c)) eq_refl),
    (field "strategy_version"%string (VStr (sg_strategy_version c)) eq_refl),
    (field "symbols"%string (VStrs (sg_symbols c)) eq_refl), (field "risk"%string (VDict (risk_to_dict (sg_risk c))) eq_refl),
    (field "execution"%string (VDict (execution_to_dict (sg_execution c))) eq_refl),
    (field "mode"%string (VStr (execution_mode_value (sg_mode c))) eq_refl),
    (field "params"%string (VDict (sg_params c)) eq_refl), (field "schedule"%string (VStr (sg_schedule c)) eq_refl),
    (field "enabled"%string (VBool (sg_enabled c)) eq_refl).
  cbn [default from_option Datatypes.id as_str as_strs as_dict as_bool mbind option_bind].
  rewrite Hr, He. by destruct c as [????? []].
Qed.

Example strategy_defaults_ex :
  strategy_from_dict [("strategy_id", VStr "s")]%string = Some (new_strategy_config "s" "1.0.0") /\
  strategy_from_dict [] = None.
Proof. split; reflexivity. Qed.

(** Of the fields of [StrategyConfig], only [symbols] and [schedule] are
    classified as trading-impacting: the names [risk], [mode] and [params] do
    not match the names in [TRADING_IMPACTING_FIELDS]. *)
Theorem strategy_field_classes :
  List.filter (fun f => bool_decide (get_change_class f = TRADING_IMPACTING)) strategy_config_fields
  = ["symbols"; "schedule"]%string /\
  requires_local_approval (get_change_class "mode") = false /\
  requires_local_approval (get_change_class "risk") = false.
Proof. done. Qed.
