(* ===== verification/HardCaps.v ===== *)
(** * Hard caps: [packages/agent/policy/hard_caps.py]

    The local limits the cloud can never override: their serialisation, the
    checks of [HardCapEnforcer], and its order-rate counters. *)
From Stdlib Require Import QArith Qabs Lqa.
From Stdlib Require Import Ascii String.
From S2P Require Import Prelude PyDecimal DecArith PyValue.
Open Scope Z_scope.

Record HardCaps := MkCaps {
  absolute_max_position : dec;
  absolute_max_position_pct : dec;
  absolute_max_daily_loss : dec;
  absolute_max_daily_loss_pct : dec;
  absolute_max_drawdown_pct : dec;
  absolute_max_order_size : dec;
  absolute_max_orders_per_second : Z;
  absolute_max_orders_per_day : Z;
  absolute_max_gross_exposure : dec;
  absolute_max_leverage : dec;
  kill_switch_loss_pct : dec;
  kill_switch_error_count : Z;
  kill_switch_latency_ms : Z
}.

Definition default_caps : HardCaps :=
  MkCaps (Dec 10000000 0) (Dec 10 (-1)) (Dec 1000000 0) (Dec 5 (-1)) (Dec 75 (-2))
    (Dec 1000000 0) 10 100000 (Dec 100000000 0) (Dec 10 0) (Dec 3 (-1)) 10 5000.

Definition caps_to_dict (c : HardCaps) : dict :=
  [("absolute_max_position", VStr (dec_str (absolute_max_position c)));
   ("absolute_max_position_pct", VStr (dec_str (absolute_max_position_pct c)));
   ("absolute_max_daily_loss", VStr (dec_str (absolute_max_daily_loss c)));
   ("absolute_max_daily_loss_pct", VStr (dec_str (absolute_max_daily_loss_pct c)));
   ("absolute_max_drawdown_pct", VStr (dec_str (absolute_max_drawdown_pct c)));
   ("absolute_max_order_size", VStr (dec_str (absolute_max_order_size c)));
   ("absolute_max_orders_per_second", VInt (absolute_max_orders_per_second c));
   ("absolute_max_orders_per_day", VInt (absolute_max_orders_per_day c));
   ("absolute_max_gross_exposure", VStr (dec_str (absolute_max_gross_exposure c)));
   ("absolute_max_leverage", VStr (dec_str (absolute_max_leverage c)));
   ("kill_switch_loss_pct", VStr (dec_str (kill_switch_loss_pct c)));
   ("kill_switch_error_count", VInt (kill_switch_error_count c));
   ("kill_switch_latency_ms", VInt (kill_switch_latency_ms c))]%string.

(** [None] when a field does not parse: the constructor is never reached. *)
Definition caps_from_dict (d : dict) : option HardCaps :=
  (position ← get_dec d "absolute_max_position" "10000000";
   position_pct ← get_dec d "absolute_max_position_pct" "1.0";
   daily_loss ← get_dec d "absolute_max_daily_loss" "1000000";
   daily_loss_pct ← get_dec d "absolute_max_daily_loss_pct" "0.5";
   drawdown_pct ← get_dec d "absolute_max_drawdown_pct" "0.75";
   order_size ← get_dec d "absolute_max_order_size" "1000000";
   per_second ← get_int d "absolute_max_orders_per_second" 10;
   per_day ← get_int d "absolute_max_orders_per_day" 100000;
   gross ← get_dec d "absolute_max_gross_exposure" "100000000";
   leverage ← get_dec d "absolute_max_leverage" "10";
   ks_loss ← get_dec d "kill_switch_loss_pct" "0.3";
   ks_errors ← get_int d "kill_switch_error_count" 10;
   ks_latency ← get_int d "kill_switch_latency_ms" 5000;
   Some (MkCaps position position_pct daily_loss daily_loss_pct drawdown_pct order_size
           per_second per_day gross leverage ks_loss ks_errors ks_latency))%string.

Example default_caps_ex : caps_from_dict [] = Some default_caps.
Proof. reflexivity. Qed.

Record HardCapViolation := MkCapViolation {
  cap_name : string;
  cap_message : string;
  current_value : pyval;
  hard_cap : pyval;
  cap_action : string;
  cap_time : Z
}.

Record HardCapEnforcer := MkEnforcer {
  he_caps : HardCaps;
  violations : list HardCapViolation;
  he_this_second : Z;
  he_today : Z;
  he_errors_today : Z;
  he_second_start : Z;
  he_day_start : Z
}.

Definition new_enforcer (caps : option HardCaps) (now : Z) : HardCapEnforcer :=
  MkEnforcer (default default_caps caps) [] 0 0 0 now (day_start now).

Section Checks.
Variable now : Z.
Local Open Scope string_scope.
Local Open Scope Z_scope.

Definition check_order_size (e : HardCapEnforcer) (order_size : dec) : option HardCapViolation :=
  if dltb (absolute_max_order_size (he_caps e)) order_size then
    Some (MkCapViolation "absolute_max_order_size" "Order size exceeds absolute maximum"
            (VDec order_size) (VDec (absolute_max_order_size (he_caps e))) "reject" now)
  else None.

(** The percentage check is skipped for a missing, zero or negative equity. *)
Definition check_position_size (e : HardCapEnforcer) (position_size : dec) (equity : option dec) :
    option HardCapViolation :=
  if dltb (absolute_max_position (he_caps e)) (dabs position_size) then
    Some (MkCapViolation "absolute_max_position" "Position exceeds absolute maximum"
            (VDec position_size) (VDec (absolute_max_position (he_caps e))) "reject" now)
  else
    match equity with
    | Some eq =>
        if dtrue eq && dltb dzero eq then
          match ddiv (dabs position_size) eq with
          | Some pct =>
              if dltb (absolute_max_position_pct (he_caps e)) pct then
                Some (MkCapViolation "absolute_max_position_pct"
                        "Position exceeds maximum percentage of equity" (VDec pct)
                        (VDec (absolute_max_position_pct (he_caps e))) "reject" now)
              else None
          | None => None
          end
        else None
    | None => None
    end.

Definition check_daily_loss (e : HardCapEnforcer) (daily_pnl equity : dec) :
    option HardCapViolation :=
  if dltb daily_pnl (dneg (absolute_max_daily_loss (he_caps e))) then
    Some (MkCapViolation "absolute_max_daily_loss"
            "Daily loss exceeds absolute maximum - KILL SWITCH"
            (VDec daily_pnl) (VDec (absolute_max_daily_loss (he_caps e))) "kill_switch" now)
  else if dltb dzero equity then
    match ddiv (dneg daily_pnl) equity with
    | Some loss_pct =>
        if dltb (absolute_max_daily_loss_pct (he_caps e)) loss_pct then
          Some (MkCapViolation "absolute_max_daily_loss_pct"
                  "Daily loss percentage exceeds maximum - KILL SWITCH" (VDec loss_pct)
                  (VDec (absolute_max_daily_loss_pct (he_caps e))) "kill_switch" now)
        else if dltb (kill_switch_loss_pct (he_caps e)) loss_pct then
          Some (MkCapViolation "kill_switch_loss_pct" "Loss threshold reached - KILL SWITCH"
                  (VDec loss_pct) (VDec (kill_switch_loss_pct (he_caps e))) "kill_switch" now)
        else None
    | None => None
    end
  else None.

Definition check_drawdown (e : HardCapEnforcer) (current_equity peak_equity : dec) :
    option HardCapViolation :=
  if dleb peak_equity dzero then None
  else
    match ddiv (dsub peak_equity current_equity) peak_equity with
    | Some drawdown =>
        if dltb (absolute_max_drawdown_pct (he_caps e)) drawdown then
          Some (MkCapViolation "absolute_max_drawdown_pct"
                  "Drawdown exceeds absolute maximum - KILL SWITCH" (VDec drawdown)
                  (VDec (absolute_max_drawdown_pct (he_caps e))) "kill_switch" now)
        else None
    | None => None
    end.

Definition check_leverage (e : HardCapEnforcer) (gross_exposure equity : dec) :
    option HardCapViolation :=
  if dleb equity dzero then
    Some (MkCapViolation "equity" "Invalid equity value" (VDec equity) (VDec dzero) "halt" now)
  else
    match ddiv gross_exposure equity with
    | Some leverage =>
        if dltb (absolute_max_leverage (he_caps e)) leverage then
          Some (MkCapViolation "absolute_max_leverage" "Leverage exceeds maximum" (VDec leverage)
                  (VDec (absolute_max_leverage (he_caps e))) "reject" now)
        else if dltb (absolute_max_gross_exposure (he_caps e)) gross_exposure then
          Some (MkCapViolation "absolute_max_gross_exposure" "Gross exposure exceeds maximum"
                  (VDec gross_exposure) (VDec (absolute_max_gross_exposure (he_caps e)))
                  "reject" now)
        else None
    | None => None
    end.

(** Start a new second, then a new day, when the clock has moved past them. *)
Definition roll_second (e : HardCapEnforcer) : HardCapEnforcer :=
  if sec <=? now - he_second_start e then
    MkEnforcer (he_caps e) (violations e) 0 (he_today e) (he_errors_today e) now (he_day_start e)
  else e.

Definition roll_day (e : HardCapEnforcer) : HardCapEnforcer :=
  if he_day_start e <? day_start now then
    MkEnforcer (he_caps e) (violations e) (he_this_second e) 0 (he_errors_today e)
      (he_second_start e) (day_start now)
  else e.

Definition check_order_rate (e0 : HardCapEnforcer) :
    HardCapEnforcer * option HardCapViolation :=
  let e := roll_day (roll_second e0) in
  (e,
   if absolute_max_orders_per_second (he_caps e) <=? he_this_second e then
     Some (MkCapViolation "absolute_max_orders_per_second" "Order rate exceeds maximum"
             (VInt (he_this_second e)) (VInt (absolute_max_orders_per_second (he_caps e)))
             "reject" now)
   else if absolute_max_orders_per_day (he_caps e) <=? he_today e then
     Some (MkCapViolation "absolute_max_orders_per_day" "Daily order count exceeds maximum"
             (VInt (he_today e)) (VInt (absolute_max_orders_per_day (he_caps e))) "halt" now)
   else None).

Definition check_error_count (e : HardCapEnforcer) (error_count : Z) : option HardCapViolation :=
  if kill_switch_error_count (he_caps e) <=? error_count then
    Some (MkCapViolation "kill_switch_error_count" "Error count threshold reached - KILL SWITCH"
            (VInt error_count) (VInt (kill_switch_error_count (he_caps e))) "kill_switch" now)
  else None.

Definition check_latency (e : HardCapEnforcer) (latency_ms : Z) : option HardCapViolation :=
  if kill_switch_latency_ms (he_caps e) <=? latency_ms then
    Some (MkCapViolation "kill_switch_latency_ms" "Latency threshold reached - KILL SWITCH"
            (VInt latency_ms) (VInt (kill_switch_latency_ms (he_caps e))) "kill_switch" now)
  else None.
End Checks.

Definition record_order (e : HardCapEnforcer) : HardCapEnforcer :=
  MkEnforcer (he_caps e) (violations e) (he_this_second e + 1) (he_today e + 1)
    (he_errors_today e) (he_second_start e) (he_day_start e).

Definition record_error (e : HardCapEnforcer) : HardCapEnforcer :=
  MkEnforcer (he_caps e) (violations e) (he_this_second e) (he_today e)
    (he_errors_today e + 1) (he_second_start e) (he_day_start e).

Definition get_violations (e : HardCapEnforcer) : list HardCapViolation := violations e.
Definition get_caps (e : HardCapEnforcer) : HardCaps := he_caps e.

(** ** The percentage tests *)

(** A rounded quotient exceeds a representable threshold only when the exact
    one does, and every quotient at or above a larger representable number does. *)
Lemma pct_test cap a b r :
  representable cap -> (0 < dval b)%Q -> ddiv a b = Some r ->
  (dltb cap r = true -> (dval cap * dval b < dval a)%Q) /\
  (dltb cap r = false -> forall t, representable t -> (dval cap < dval t)%Q ->
     (dval a < dval t * dval b)%Q).
Proof.
  intros Hc Hb Hr. split.
  - intros Hlt. apply dltb_spec in Hlt. apply Qnot_le_lt. intros Hle.
    pose proof (ddiv_le cap a b r Hc Hb Hr Hle). lra.
  - intros Hge t Ht Hct. apply dltb_false in Hge. apply Qnot_le_lt. intros Hle.
    pose proof (ddiv_ge t a b r Ht Hb Hr Hle). lra.
Qed.

Lemma pct_test_some a b : dltb dzero b = true -> exists r, ddiv a b = Some r /\ (0 < dval b)%Q.
Proof.
  intros Hb. apply dltb_spec in Hb. rewrite dval_zero in Hb.
  destruct (ddiv_some a b Hb) as [r Hr]. by exists r.
Qed.

(** The loss limits of [check_daily_loss], as exact statements. *)
Definition loss_pct_over (cap pnl equity : dec) : Prop :=
  (0 < dval equity)%Q /\ (dval cap * dval equity < - dval pnl)%Q.

Definition loss_pct_within (cap pnl equity : dec) : Prop :=
  (0 < dval equity)%Q -> forall t, representable t -> (dval cap < dval t)%Q ->
  (- dval pnl < dval t * dval equity)%Q.

(** The daily-loss hard cap.  A violation always asks for the kill switch
    and is raised only when the absolute cap or one of the two percentages of
    equity is really exceeded; without one, the loss is within the absolute cap
    and below every representable percentage larger than the caps. *)
Theorem check_daily_loss_correct now e pnl equity :
  let caps := he_caps e in
  representable pnl -> representable (absolute_max_daily_loss caps) ->
  representable (absolute_max_daily_loss_pct caps) -> representable (kill_switch_loss_pct caps) ->
  match check_daily_loss now e pnl equity with
  | Some v =>
      cap_action v = "kill_switch"%string /\
      ((dval pnl < - dval (absolute_max_daily_loss caps))%Q \/
       loss_pct_over (absolute_max_daily_loss_pct caps) pnl equity \/
       loss_pct_over (kill_switch_loss_pct caps) pnl equity)
  | None =>
      (- dval (absolute_max_daily_loss caps) <= dval pnl)%Q /\
      loss_pct_within (absolute_max_daily_loss_pct caps) pnl equity /\
      loss_pct_within (kill_switch_loss_pct caps) pnl equity
  end.
Proof.
  intros caps Hp Ha Hc Hk. unfold check_daily_loss. fold caps.
  destruct (dltb pnl (dneg (absolute_max_daily_loss caps))) eqn:Habs.
  - split; [done|]. left. apply dltb_spec in Habs. by rewrite dval_dneg in Habs.
  - apply dltb_false in Habs. rewrite dval_dneg in Habs by done.
    destruct (dltb dzero equity) eqn:Heq.
    + destruct (pct_test_some (dneg pnl) equity Heq) as (r & Hr & Hpos). rewrite Hr.
      destruct (pct_test _ _ _ _ Hc Hpos Hr) as [Hc1 Hc2].
      destruct (pct_test _ _ _ _ Hk Hpos Hr) as [Hk1 Hk2].
      rewrite dval_dneg in Hc1, Hk1 by done.
      destruct (dltb (absolute_max_daily_loss_pct caps) r).
      { split; [done|]. right. left. split; [done|]. by apply Hc1. }
      destruct (dltb (kill_switch_loss_pct caps) r).
      { split; [done|]. do 2 right. split; [done|]. by apply Hk1. }
      split_and!; [done| |]; intros _ t Ht Hlt; rewrite <- (dval_dneg pnl Hp).
      * by apply (Hc2 eq_refl).
      * by apply (Hk2 eq_refl).
    + apply dltb_false in Heq. rewrite dval_zero in Heq.
      split_and!; [done| |]; intros ?; lra.
Qed.

(** ** Order rate *)

(** What a caller does: check, and count the order when nothing is violated. *)
Definition guarded_order (e : HardCapEnforcer) (now : Z) : HardCapEnforcer * bool :=
  let '(e', v) := check_order_rate now e in
  match v with
  | Some _ => (e', false)
  | None => (record_order e', true)
  end.

(** The orders let through, by the time they were asked for. *)
Fixpoint guarded_run (e : HardCapEnforcer) (times : list Z) : HardCapEnforcer * list Z :=
  match times with
  | [] => (e, [])
  | now :: rest =>
      let '(e', ok) := guarded_order e now in
      let '(e'', acc) := guarded_run e' rest in
      (e'', if ok then now :: acc else acc)
  end.

Definition in_day (d t : Z) : bool := day_start t =? d.
Definition in_window (a w t : Z) : bool := (a <=? t) && (t <? a + w).

(** The day [he_day_start] is the day of the last check. *)
Lemma guarded_order_cases e now :
  let e' := roll_day now (roll_second now e) in
  (guarded_order e now = (e', false)) \/
  (guarded_order e now = (record_order e', true) /\
   he_this_second e' < absolute_max_orders_per_second (he_caps e) /\
   he_today e' < absolute_max_orders_per_day (he_caps e)).
Proof.
  intros e'. unfold guarded_order, check_order_rate. fold e'.
  assert (he_caps e' = he_caps e) as Hc.
  { unfold e', roll_day, roll_second. repeat case_match; done. }
  rewrite Hc. destruct (Z.leb_spec (absolute_max_orders_per_second (he_caps e)) (he_this_second e'));
    [by left|].
  destruct (Z.leb_spec (absolute_max_orders_per_day (he_caps e)) (he_today e')); [by left|].
  right. by split_and!.
Qed.

(** What the counters mean for the orders [acc] let through up to time [t]. *)
Record rate_inv (ps pd : Z) (e : HardCapEnforcer) (t : Z) (acc : list Z) : Prop := {
  ri_ps : absolute_max_orders_per_second (he_caps e) = ps;
  ri_pd : absolute_max_orders_per_day (he_caps e) = pd;
  ri_past : forall x, x ∈ acc -> x <= t;
  ri_start : he_second_start e <= t < he_second_start e + sec;
  ri_second : cnt (fun x => he_second_start e <=? x) acc = he_this_second e;
  ri_second_cap : he_this_second e <= Z.max 0 ps;
  ri_before : cnt (fun x => (he_second_start e - sec <? x) && (x <? he_second_start e)) acc
              <= Z.max 0 ps;
  ri_window : forall a, cnt (in_window a sec) acc <= 2 * Z.max 0 ps;
  ri_day : he_day_start e = day_start t;
  ri_today : cnt (in_day (he_day_start e)) acc = he_today e;
  ri_days : forall d, cnt (in_day d) acc <= Z.max 0 pd
}.

Lemma rate_inv_new caps t : let e := new_enforcer (Some caps) t in
  rate_inv (absolute_max_orders_per_second caps) (absolute_max_orders_per_day caps) e t [].
Proof.
  split; try done; intros; unfold cnt; cbn; try (unfold sec; lia).
  by apply not_elem_of_nil in H.
Qed.

Lemma roll_inv ps pd e t acc now :
  t <= now -> rate_inv ps pd e t acc -> rate_inv ps pd (roll_day now (roll_second now e)) now acc.
Proof.
  intros Ht [Hps Hpd Hpast Hst Hsec Hcap Hbef Hwin Hday Htod Hdays].
  assert (Hpast' : forall x, x ∈ acc -> x <= now) by (intros x Hx; specialize (Hpast x Hx); lia).
  assert (Hdm : day_start t <= day_start now) by by apply day_start_mono.
  set (e1 := roll_second now e).
  assert (he_caps e1 = he_caps e /\ he_day_start e1 = he_day_start e /\ he_today e1 = he_today e /\
    he_second_start e1 <= now < he_second_start e1 + sec /\
    cnt (fun x => he_second_start e1 <=? x) acc = he_this_second e1 /\
    he_this_second e1 <= Z.max 0 ps /\
    cnt (fun x => (he_second_start e1 - sec <? x) && (x <? he_second_start e1)) acc <= Z.max 0 ps)
    as (Hc1 & Hd1 & Ht1 & Hs1 & Hn1 & Hm1 & Hb1).
  { unfold e1, roll_second. destruct (Z.leb_spec sec (now - he_second_start e)) as [Hge|Hlt];
      cbn; split_and!; try done; try lia.
    - apply cnt_0. intros x Hx. specialize (Hpast x Hx). lia.
    - etrans; [|exact Hcap]. rewrite <- Hsec. apply cnt_le. intros x _ Hx. bool_to_prop. lia. }
  unfold roll_day. rewrite Hd1. destruct (Z.ltb_spec (he_day_start e) (day_start now)) as [Hlt|Hge].
  - split; cbn; try done; [by rewrite Hc1|by rewrite Hc1|].
    apply cnt_0. intros x Hx. unfold in_day. specialize (Hpast x Hx).
    pose proof (day_start_mono _ _ Hpast). lia.
  - split; try done; [by rewrite Hc1|by rewrite Hc1|lia|]. by rewrite Hd1, Ht1.
Qed.

Lemma record_inv ps pd e now acc :
  he_this_second e < ps -> he_today e < pd ->
  rate_inv ps pd e now acc -> rate_inv ps pd (record_order e) now (acc ++ [now]).
Proof.
  intros Hlt Htd [Hps Hpd Hpast Hst Hsec Hcap Hbef Hwin Hday Htod Hdays].
  split; cbn; try done; try lia.
  - intros x [Hx|Hx]%elem_of_app; [by apply Hpast|]. apply list_elem_of_singleton in Hx. lia.
  - rewrite cnt_app, cnt_one, Hsec. destruct (Z.leb_spec (he_second_start e) now); lia.
  - rewrite cnt_app, cnt_one.
    destruct (Z.ltb_spec now (he_second_start e)); [lia|]. rewrite andb_false_r. lia.
  - intros a. rewrite cnt_app, cnt_one. specialize (Hwin a).
    destruct (in_window a sec now) eqn:Ew; [|lia]. unfold in_window in Ew. bool_to_prop.
    pose proof (cnt_split (in_window a sec)
      (fun x => (he_second_start e - sec <? x) && (x <? he_second_start e))
      (fun x => he_second_start e <=? x) acc) as Hs.
    rewrite Hsec in Hs. cut (cnt (in_window a sec) acc <= Z.max 0 ps + he_this_second e); [lia|].
    etrans; [apply Hs|lia]. intros x Hx Hw. unfold in_window in Hw. bool_to_prop.
    destruct (Z.leb_spec (he_second_start e) x); [by right|left].
    apply andb_true_intro. lia.
  - rewrite cnt_app, cnt_one, Htod. unfold in_day. by rewrite Hday, Z.eqb_refl.
  - intros d. rewrite cnt_app, cnt_one. specialize (Hdays d).
    destruct (in_day d now) eqn:Ed; [|lia]. unfold in_day in Ed. bool_to_prop. subst d.
    rewrite <- Hday, Htod. lia.
Qed.

Fixpoint nondecreasing (t : Z) (ts : list Z) : Prop :=
  match ts with
  | [] => True
  | x :: r => t <= x /\ nondecreasing x r
  end.

Lemma guarded_run_inv ps pd e t acc ts :
  nondecreasing t ts -> rate_inv ps pd e t acc ->
  exists t', rate_inv ps pd (guarded_run e ts).1 t' (acc ++ (guarded_run e ts).2).
Proof.
  revert e t acc. induction ts as [|now ts IH]; intros e t acc Hnd Hinv; cbn [guarded_run].
  - exists t. cbn. by rewrite app_nil_r.
  - destruct Hnd as [Ht Hnd]. pose proof (roll_inv _ _ _ _ _ _ Ht Hinv) as Hr.
    destruct (guarded_order_cases e now) as [Hg|(Hg & Hs & Hd)]; rewrite Hg.
    + destruct (IH _ _ _ Hnd Hr) as [t' Hi]. exists t'.
      by destruct (guarded_run (roll_day now (roll_second now e)) ts).
    + rewrite (ri_ps _ _ _ _ _ Hinv) in Hs. rewrite (ri_pd _ _ _ _ _ Hinv) in Hd.
      pose proof (record_inv _ _ _ _ _ Hs Hd Hr) as Hn.
      destruct (IH _ _ _ Hnd Hn) as [t' Hi]. exists t'.
      destruct (guarded_run (record_order _) ts) as [e' l]. cbn in *. by rewrite <- app_assoc in Hi.
Qed.

(** Orders that are let through only when [check_order_rate] raises nothing,
    and then recorded, never exceed the daily cap on any UTC day, and never
    exceed twice the per-second cap in any interval of one second (the counter
    is reset per second, it is not a sliding window). *)
Theorem order_rate_bounded caps t0 ts d a :
  nondecreasing t0 ts ->
  let accepted := (guarded_run (new_enforcer (Some caps) t0) ts).2 in
  cnt (in_day d) accepted <= Z.max 0 (absolute_max_orders_per_day caps) /\
  cnt (in_window a sec) accepted <= 2 * Z.max 0 (absolute_max_orders_per_second caps).
Proof.
  intros Hnd accepted.
  destruct (guarded_run_inv _ _ _ _ [] ts Hnd (rate_inv_new caps t0)) as [t' Hi].
  split; [apply (ri_days _ _ _ _ _ Hi)|apply (ri_window _ _ _ _ _ Hi)].
Qed.

(** The caps written by [to_dict] are read back by [from_dict]. *)
Theorem hard_caps_roundtrip c : caps_from_dict (caps_to_dict c) = Some c.
Proof.
  unfold caps_from_dict. erewrite !get_dec_at by reflexivity.
  erewrite !get_int_at by reflexivity. by destruct c.
Qed.

(** No operation ever records a violation: [get_violations] is always empty. *)
Theorem violations_never_recorded e now :
  violations e = [] ->
  get_violations (check_order_rate now e).1 = [] /\ get_violations (record_order e) = [] /\
  get_violations (record_error e) = [].
Proof.
  intros H. split_and!; [|done|done]. cbn. unfold get_violations, roll_day, roll_second.
  repeat case_match; done.
Qed.

(** ** Witnesses *)

Lemma check_daily_loss_correct_witness :
  match check_daily_loss 0 (new_enforcer None 0) (Dec (-40) 0) (Dec 100 0) with
  | Some v => cap_action v = "kill_switch"%string
  | None => False
  end.
Proof.
  pose proof (check_daily_loss_correct 0 (new_enforcer None 0) (Dec (-40) 0) (Dec 100 0)) as H.
  cbv zeta in H. destruct (check_daily_loss _ _ _ _) eqn:E.
  - apply H; by vm_compute.
  - vm_compute in E. discriminate.
Defined.

Lemma order_rate_bounded_witness :
  let accepted := (guarded_run (new_enforcer (Some default_caps) 0) [0; 5; 1000000]).2 in
  cnt (in_day 0) accepted <= 100000 /\ cnt (in_window 0 sec) accepted <= 20.
Proof. apply (order_rate_bounded default_caps 0 [0; 5; 1000000] 0 0). cbn. lia. Defined.
