(* ===== verification/Firewall.v ===== *)
(** * Policy firewall: [packages/agent/policy/firewall.py]

    The local policy, the cloud's risk configuration
    ([packages/shared/contracts/config.py]), their effective minimum, and the
    checks of [PolicyFirewall].  An operation that can raise returns an option;
    [check_intent_total] shows that it never does on a firewall the code can
    reach.  A Python set is a [gset]; [list(set)] lists its elements. *)
From Stdlib Require Import QArith Qabs Lqa.
From Stdlib Require Import Ascii String.
From S2P Require Import Prelude PyDecimal DecArith PyValue Intent Config.
Open Scope Z_scope.

Inductive ViolationType :=
  | HARD_CAP_EXCEEDED | RISK_LIMIT_EXCEEDED | PROHIBITED_SYMBOL | PROHIBITED_ACTION
  | RATE_LIMIT_EXCEEDED | UNAUTHORIZED_CHANGE | APPROVAL_REQUIRED.

#[export] Instance ViolationType_eq_dec : EqDecision ViolationType.
Proof. solve_decision. Defined.

Record PolicyViolation := MkViolation {
  violation_type : ViolationType;
  pv_message : string;
  pv_field : option string;
  pv_value : option pyval;
  pv_limit : option pyval;
  severity : string;
  pv_time : Z
}.

Record PolicyResult := MkPolicyResult {
  allowed : bool;
  pr_violations : list PolicyViolation;
  pr_warnings : list PolicyViolation;
  modified_intent : option OrderIntent
}.

Definition new_result : PolicyResult := MkPolicyResult true [] [] None.

Definition add_violation (v : PolicyViolation) (r : PolicyResult) : PolicyResult :=
  if bool_decide (severity v = "warning"%string) then
    MkPolicyResult (allowed r) (pr_violations r) (pr_warnings r ++ [v]) (modified_intent r)
  else MkPolicyResult false (pr_violations r ++ [v]) (pr_warnings r) (modified_intent r).

Record PolicyConfig := MkPolicy {
  max_position_size : dec;
  max_position_pct : dec;
  max_daily_loss : dec;
  max_drawdown_pct : dec;
  max_order_size : dec;
  max_orders_per_minute : Z;
  max_orders_per_day : Z;
  allowed_symbols : option (gset string);
  prohibited_symbols : gset string;
  allow_short : bool;
  allow_leverage : bool;
  allow_live_trading : bool;
  auto_approve_operational : bool;
  auto_approve_threshold : dec
}.

Definition default_policy : PolicyConfig :=
  MkPolicy (Dec 1000000 0) (Dec 10 (-1)) (Dec 100000 0) (Dec 5 (-1)) (Dec 100000 0) 60 10000
    None ∅ true true true true (Dec 0 0).

(** An empty set of allowed symbols is falsy, and written as [None]. *)
Definition policy_to_dict (p : PolicyConfig) : dict :=
  [("max_position_size", VStr (dec_str (max_position_size p)));
   ("max_position_pct", VStr (dec_str (max_position_pct p)));
   ("max_daily_loss", VStr (dec_str (max_daily_loss p)));
   ("max_drawdown_pct", VStr (dec_str (max_drawdown_pct p)));
   ("max_order_size", VStr (dec_str (max_order_size p)));
   ("max_orders_per_minute", VInt (max_orders_per_minute p));
   ("max_orders_per_day", VInt (max_orders_per_day p));
   ("allowed_symbols",
     match allowed_symbols p with
     | Some s => if decide (s = ∅) then VNone else VStrs (elements s)
     | None => VNone
     end);
   ("prohibited_symbols", VStrs (elements (prohibited_symbols p)));
   ("allow_short", VBool (allow_short p));
   ("allow_leverage", VBool (allow_leverage p));
   ("allow_live_trading", VBool (allow_live_trading p));
   ("auto_approve_operational", VBool (auto_approve_operational p));
   ("auto_approve_threshold", VStr (dec_str (auto_approve_threshold p)))]%string.

(** [_compute_effective_config] *)
Definition compute_effective_config (loc : PolicyConfig) (cloud : option RiskConfig) : dict :=
  match cloud with
  | None => policy_to_dict loc
  | Some c =>
      [("max_position_size",
         VStr (dec_str (dmin (max_position_size loc) (rc_max_position_size c))));
       ("max_daily_loss", VStr (dec_str (dmin (max_daily_loss loc) (rc_max_daily_loss c))));
       ("max_order_size", VStr (dec_str (dmin (max_order_size loc) (rc_max_order_size c))));
       ("max_orders_per_minute",
         VInt (Z.min (max_orders_per_minute loc) (rc_max_orders_per_minute c)));
       ("max_orders_per_day",
         VInt (Z.min (max_orders_per_day loc) (rc_max_orders_per_day c)))]
  end%string.

Record PolicyFirewall := MkFirewall {
  fw_local : PolicyConfig;
  fw_cloud : option RiskConfig;
  fw_effective : dict;
  fw_this_minute : Z;
  fw_today : Z;
  fw_minute_start : Z;
  fw_day_start : Z;
  fw_daily_pnl : dec
}.

Definition new_firewall (local_policy : option PolicyConfig) (cloud : option RiskConfig)
    (now : Z) : PolicyFirewall :=
  let loc := default default_policy local_policy in
  MkFirewall loc cloud (compute_effective_config loc cloud) 0 0 now (day_start now) dzero.

(** [Decimal(effective[k])] and [effective[k]] of a number. *)
Definition eff_dec (d : dict) (k : string) : option dec :=
  match dget d k with
  | Some (VStr s) => dec_of_str s
  | _ => None
  end.

Definition eff_int (d : dict) (k : string) : option Z :=
  match dget d k with
  | Some (VInt n) => Some n
  | _ => None
  end.

Definition get_effective_limits (f : PolicyFirewall) : dict := fw_effective f.

Section Checks.
Variable now : Z.
Local Open Scope string_scope.
Local Open Scope Z_scope.

Definition check_symbol (f : PolicyFirewall) (sym : string) (r : PolicyResult) : PolicyResult :=
  let r1 :=
    if decide (sym ∈ prohibited_symbols (fw_local f)) then
      add_violation (MkViolation PROHIBITED_SYMBOL ("Symbol " +:+ sym +:+ " is prohibited")
        (Some "symbol") (Some (VStr sym)) None "error" now) r
    else r in
  match allowed_symbols (fw_local f) with
  | Some s =>
      if decide (sym ∈ s) then r1
      else
        add_violation (MkViolation PROHIBITED_SYMBOL ("Symbol " +:+ sym +:+ " not in allowed list")
          (Some "symbol") (Some (VStr sym)) None "error" now) r1
  | None => r1
  end.

Definition check_action (f : PolicyFirewall) (i : OrderIntent) (r : PolicyResult) : PolicyResult :=
  let r1 :=
    if negb (allow_short (fw_local f)) && bool_decide (side i = SHORT) then
      add_violation (MkViolation PROHIBITED_ACTION "Short selling is not allowed" (Some "side")
        (Some (VStr (intent_side_value (side i)))) None "error" now) r
    else r in
  if negb (allow_live_trading (fw_local f)) then
    add_violation (MkViolation PROHIBITED_ACTION "Live trading is disabled" None None None
      "error" now) r1
  else r1.

Definition check_quantity (f : PolicyFirewall) (quantity : dec) (r : PolicyResult) :
    option PolicyResult :=
  max_order ← eff_dec (fw_effective f) "max_order_size";
  Some (if dltb max_order quantity then
          add_violation (MkViolation RISK_LIMIT_EXCEEDED "Order size exceeds limit"
            (Some "quantity") (Some (VDec quantity)) (Some (VDec max_order)) "error" now) r
        else r).

(** [intent.target_quantity or Decimal("0")] *)
Definition quantity_of (i : OrderIntent) : dec :=
  match target_quantity i with
  | Some q => if dtrue q then q else dzero
  | None => dzero
  end.

(** The position the intent leads to. *)
Definition new_position (i : OrderIntent) (current quantity : dec) : dec :=
  match side i with
  | LONG => dadd current quantity
  | SHORT => dsub current quantity
  | FLAT => dzero
  end.

Definition check_position_limit (f : PolicyFirewall) (i : OrderIntent) (current_position : dec)
    (r : PolicyResult) : option PolicyResult :=
  max_position ← eff_dec (fw_effective f) "max_position_size";
  let p := dabs (new_position i current_position (quantity_of i)) in
  Some (if dltb max_position p then
          add_violation (MkViolation RISK_LIMIT_EXCEEDED "Position would exceed limit"
            (Some "position") (Some (VDec p)) (Some (VDec max_position)) "error" now) r
        else r).

Definition check_rate_limits (f : PolicyFirewall) (r : PolicyResult) : option PolicyResult :=
  per_minute ← eff_int (fw_effective f) "max_orders_per_minute";
  per_day ← eff_int (fw_effective f) "max_orders_per_day";
  let r1 :=
    if per_minute <=? fw_this_minute f then
      add_violation (MkViolation RATE_LIMIT_EXCEEDED "Orders per minute limit exceeded"
        (Some "orders_per_minute") (Some (VInt (fw_this_minute f))) (Some (VInt per_minute))
        "error" now) r
    else r in
  Some (if per_day <=? fw_today f then
          add_violation (MkViolation RATE_LIMIT_EXCEEDED "Orders per day limit exceeded"
            (Some "orders_per_day") (Some (VInt (fw_today f))) (Some (VInt per_day)) "error" now) r1
        else r1).

Definition check_intent (f : PolicyFirewall) (i : OrderIntent) (current_position : dec)
    (current_exposure account_equity : dec) : option PolicyResult :=
  let r0 := new_result in
  if is_passive i then Some r0
  else
    let r1 := check_action f i (check_symbol f (symbol i) r0) in
    r2 ← match target_quantity i with
         | Some q => if dtrue q then check_quantity f q r1 else Some r1
         | None => Some r1
         end;
    r3 ← check_position_limit f i current_position r2;
    check_rate_limits f r3.

Definition exceeds (over : bool) (field message : string) (value limit : dec) (r : PolicyResult) :
    PolicyResult :=
  if over then
    add_violation (MkViolation HARD_CAP_EXCEEDED message (Some field) (Some (VDec value))
      (Some (VDec limit)) "error" now) r
  else r.

Definition check_config_change (f : PolicyFirewall) (c : RiskConfig) (cls : ChangeClass) :
    PolicyResult :=
  let loc := fw_local f in
  let r1 := exceeds (dltb (max_position_size loc) (rc_max_position_size c)) "max_position_size"
              "Cloud config exceeds local max_position_size" (rc_max_position_size c)
              (max_position_size loc) new_result in
  let r2 := exceeds (dltb (max_daily_loss loc) (rc_max_daily_loss c)) "max_daily_loss"
              "Cloud config exceeds local max_daily_loss" (rc_max_daily_loss c)
              (max_daily_loss loc) r1 in
  let r3 := exceeds (dltb (max_order_size loc) (rc_max_order_size c)) "max_order_size"
              "Cloud config exceeds local max_order_size" (rc_max_order_size c)
              (max_order_size loc) r2 in
  if bool_decide (cls = TRADING_IMPACTING) && negb (dltb dzero (auto_approve_threshold loc)) then
    add_violation (MkViolation APPROVAL_REQUIRED
      "Trading-impacting change requires local approval" None None None "warning" now) r3
  else r3.

Definition apply_cloud_config (f : PolicyFirewall) (c : RiskConfig) : PolicyFirewall * bool :=
  if allowed (check_config_change f c TRADING_IMPACTING) then
    (MkFirewall (fw_local f) (Some c) (compute_effective_config (fw_local f) (Some c))
       (fw_this_minute f) (fw_today f) (fw_minute_start f) (fw_day_start f) (fw_daily_pnl f), true)
  else (f, false).

Definition update_daily_pnl (f : PolicyFirewall) (pnl_change : dec) :
    PolicyFirewall * PolicyResult :=
  let pnl := dadd (fw_daily_pnl f) pnl_change in
  (MkFirewall (fw_local f) (fw_cloud f) (fw_effective f) (fw_this_minute f) (fw_today f)
     (fw_minute_start f) (fw_day_start f) pnl,
   if dltb pnl (dneg (max_daily_loss (fw_local f))) then
     add_violation (MkViolation RISK_LIMIT_EXCEEDED "Daily loss limit exceeded - KILL SWITCH"
       (Some "daily_pnl") (Some (VDec pnl)) (Some (VDec (max_daily_loss (fw_local f))))
       "critical" now) new_result
   else new_result).

Definition fw_roll_minute (f : PolicyFirewall) : PolicyFirewall :=
  if minute <=? now - fw_minute_start f then
    MkFirewall (fw_local f) (fw_cloud f) (fw_effective f) 0 (fw_today f) now (fw_day_start f)
      (fw_daily_pnl f)
  else f.

Definition fw_roll_day (f : PolicyFirewall) : PolicyFirewall :=
  if fw_day_start f <? day_start now then
    MkFirewall (fw_local f) (fw_cloud f) (fw_effective f) (fw_this_minute f) 0 (fw_minute_start f)
      (day_start now) dzero
  else f.

Definition record_order (f0 : PolicyFirewall) : PolicyFirewall :=
  let f := fw_roll_day (fw_roll_minute f0) in
  MkFirewall (fw_local f) (fw_cloud f) (fw_effective f) (fw_this_minute f + 1) (fw_today f + 1)
    (fw_minute_start f) (fw_day_start f) (fw_daily_pnl f).
End Checks.

(** ** The limits in force *)

(** What [_compute_effective_config] means: the smaller of the local and the
    cloud's limit. *)
Definition limit_with {A} (f : A -> A -> A) (loc : A) (cloud : option A) : A :=
  match cloud with
  | Some c => f loc c
  | None => loc
  end.

Definition limit_order (loc : PolicyConfig) (cloud : option RiskConfig) : dec :=
  limit_with dmin (max_order_size loc) (rc_max_order_size <$> cloud).
Definition limit_position (loc : PolicyConfig) (cloud : option RiskConfig) : dec :=
  limit_with dmin (max_position_size loc) (rc_max_position_size <$> cloud).
Definition limit_minute (loc : PolicyConfig) (cloud : option RiskConfig) : Z :=
  limit_with Z.min (max_orders_per_minute loc) (rc_max_orders_per_minute <$> cloud).
Definition limit_day (loc : PolicyConfig) (cloud : option RiskConfig) : Z :=
  limit_with Z.min (max_orders_per_day loc) (rc_max_orders_per_day <$> cloud).

Lemma eff_dec_at d k x : dget d k = Some (VStr (dec_str x)) -> eff_dec d k = Some x.
Proof. intros H. unfold eff_dec. rewrite H. apply dec_of_dec_str. Qed.

Lemma effective_limits loc cloud :
  let d := compute_effective_config loc cloud in
  eff_dec d "max_order_size" = Some (limit_order loc cloud) /\
  eff_dec d "max_position_size" = Some (limit_position loc cloud) /\
  eff_int d "max_orders_per_minute" = Some (limit_minute loc cloud) /\
  eff_int d "max_orders_per_day" = Some (limit_day loc cloud).
Proof. destruct cloud; split_and!; first [by apply eff_dec_at|done]. Qed.

(** The cached effective configuration is the one of the current sources. *)
Definition fw_wf (f : PolicyFirewall) : Prop :=
  fw_effective f = compute_effective_config (fw_local f) (fw_cloud f).

(** ** What [check_intent] allows *)

Lemma allowed_error v r :
  severity v = "error"%string \/ severity v = "critical"%string ->
  allowed (add_violation v r) = false /\ pr_violations (add_violation v r) = pr_violations r ++ [v].
Proof. intros H. unfold add_violation. by destruct H as [-> | ->]. Qed.

(** A result is consistent when it is allowed exactly if it lists no violation. *)
Definition pr_wf (r : PolicyResult) : Prop := allowed r = true <-> pr_violations r = [].

Lemma add_violation_wf v r : pr_wf r -> pr_wf (add_violation v r).
Proof.
  unfold pr_wf, add_violation. intros H. destruct (bool_decide _); cbn; [done|].
  split; [done|]. by destruct (pr_violations r).
Qed.

(** A check leaves the result alone or adds one violation of severity [error]. *)
Lemma if_violation (b : bool) v r :
  severity v = "error"%string ->
  allowed (if b then add_violation v r else r) = allowed r && negb b /\
  (pr_wf r -> pr_wf (if b then add_violation v r else r)).
Proof.
  intros Hs. destruct b; cbn.
  - split; [|apply add_violation_wf].
    rewrite (proj1 (allowed_error v r (or_introl Hs))). by rewrite andb_false_r.
  - by rewrite andb_true_r.
Qed.

Definition symbol_ok (p : PolicyConfig) (sym : string) : bool :=
  bool_decide (sym ∉ prohibited_symbols p) &&
  match allowed_symbols p with
  | Some s => bool_decide (sym ∈ s)
  | None => true
  end.

Definition action_ok (p : PolicyConfig) (i : OrderIntent) : bool :=
  (allow_short p || negb (bool_decide (side i = SHORT))) && allow_live_trading p.

Section Allowed.
Variables (now : Z) (f : PolicyFirewall).

Lemma check_symbol_allowed sym r :
  allowed (check_symbol now f sym r) = allowed r && symbol_ok (fw_local f) sym /\
  (pr_wf r -> pr_wf (check_symbol now f sym r)).
Proof.
  unfold check_symbol, symbol_ok. rewrite bool_decide_not.
  set (r1 := if decide (sym ∈ prohibited_symbols (fw_local f)) then _ else r).
  assert (allowed r1 = allowed r && negb (bool_decide (sym ∈ prohibited_symbols (fw_local f))) /\
    (pr_wf r -> pr_wf r1)) as [Ha Hw].
  { unfold r1. rewrite decide_bool_decide. by apply if_violation. }
  destruct (allowed_symbols (fw_local f)) as [s|]; [|by rewrite Ha, andb_true_r].
  destruct (decide (sym ∈ s)) as [Hin|Hin].
  - rewrite (bool_decide_eq_true_2 (sym ∈ s)), andb_true_r by done. done.
  - rewrite (bool_decide_eq_false_2 (sym ∈ s)), !andb_false_r by done.
    split; [by apply (proj1 (allowed_error (MkViolation _ _ _ _ _ "error" _) r1 (or_introl eq_refl)))|].
    intros H. by apply add_violation_wf, Hw.
Qed.

Lemma check_action_allowed i r :
  allowed (check_action now f i r) = allowed r && action_ok (fw_local f) i /\
  (pr_wf r -> pr_wf (check_action now f i r)).
Proof.
  unfold check_action, action_ok.
  match goal with |- context [if _ && _ then ?x else r] =>
    destruct (if_violation (negb (allow_short (fw_local f)) && bool_decide (side i = SHORT))
      (MkViolation PROHIBITED_ACTION "Short selling is not allowed" (Some "side"%string)
        (Some (VStr (intent_side_value (side i)))) None "error" now) r eq_refl) as [Ha Hw] end.
  match goal with |- allowed (if _ then add_violation ?v ?r1 else _) = _ /\ _ =>
    destruct (if_violation (negb (allow_live_trading (fw_local f))) v r1 eq_refl) as [Hb Hv] end.
  split; [|tauto]. rewrite Hb, Ha, negb_involutive.
  destruct (allowed r), (allow_short (fw_local f)), (bool_decide (side i = SHORT)); done.
Qed.

Lemma check_quantity_allowed q r : fw_wf f ->
  exists r', check_quantity now f q r = Some r' /\
    allowed r' = allowed r && dleb q (limit_order (fw_local f) (fw_cloud f)) /\
    (pr_wf r -> pr_wf r').
Proof.
  intros Hwf. unfold check_quantity. rewrite Hwf.
  destruct (effective_limits (fw_local f) (fw_cloud f)) as (-> & _). cbn [mbind option_bind].
  eexists. split; [done|]. rewrite <- dltb_negb. by apply if_violation.
Qed.

Lemma check_position_allowed i pos r : fw_wf f ->
  exists r', check_position_limit now f i pos r = Some r' /\
    allowed r' = allowed r && dleb (dabs (new_position i pos (quantity_of i)))
                                (limit_position (fw_local f) (fw_cloud f)) /\
    (pr_wf r -> pr_wf r').
Proof.
  intros Hwf. unfold check_position_limit. rewrite Hwf.
  destruct (effective_limits (fw_local f) (fw_cloud f)) as (_ & -> & _). cbn [mbind option_bind].
  eexists. split; [done|]. rewrite <- dltb_negb. by apply if_violation.
Qed.

Lemma check_rate_allowed r : fw_wf f ->
  exists r', check_rate_limits now f r = Some r' /\
    allowed r' = allowed r && (fw_this_minute f <? limit_minute (fw_local f) (fw_cloud f)) &&
                 (fw_today f <? limit_day (fw_local f) (fw_cloud f)) /\
    (pr_wf r -> pr_wf r').
Proof.
  intros Hwf. unfold check_rate_limits. rewrite Hwf.
  destruct (effective_limits (fw_local f) (fw_cloud f)) as (_ & _ & -> & ->).
  cbn [mbind option_bind]. eexists. split; [done|]. rewrite !Z.ltb_antisym.
  match goal with |- allowed (if ?c then add_violation ?v (if ?b then add_violation ?w r else r)
      else _) = _ /\ _ =>
    destruct (if_violation b w r eq_refl) as [Ha Hw];
    destruct (if_violation c v (if b then add_violation w r else r) eq_refl) as [Hb Hv] end.
  split; [|tauto]. by rewrite Hb, Ha.
Qed.
End Allowed.

(** ** Operations over time *)

Inductive fw_op :=
  | OpApply (now : Z) (c : RiskConfig)
  | OpPnl (now : Z) (d : dec)
  | OpRecord (now : Z).

Definition fw_step (f : PolicyFirewall) (op : fw_op) : PolicyFirewall :=
  match op with
  | OpApply now c => (apply_cloud_config now f c).1
  | OpPnl now d => (update_daily_pnl now f d).1
  | OpRecord now => record_order now f
  end.

Definition fw_run (f : PolicyFirewall) (ops : list fw_op) : PolicyFirewall := fold_left fw_step ops f.

Lemma record_order_config now f :
  let f' := record_order now f in
  fw_local f' = fw_local f /\ fw_cloud f' = fw_cloud f /\ fw_effective f' = fw_effective f.
Proof. cbn. unfold fw_roll_day, fw_roll_minute. repeat case_match; done. Qed.

Lemma fw_step_wf f op :
  fw_wf f -> fw_wf (fw_step f op) /\ fw_local (fw_step f op) = fw_local f.
Proof.
  intros Hw. destruct op as [now c|now d|now]; cbn [fw_step].
  - unfold apply_cloud_config. destruct (allowed _); done.
  - done.
  - pose proof (record_order_config now f) as (Hl & Hc & He). cbv zeta in *.
    split; [|done]. unfold fw_wf in *. congruence.
Qed.

Lemma fw_run_wf f ops : fw_wf f -> fw_wf (fw_run f ops) /\ fw_local (fw_run f ops) = fw_local f.
Proof.
  revert f. induction ops as [|op ops IH]; intros f Hw; [done|].
  destruct (fw_step_wf f op Hw) as [Hw' Hl]. destruct (IH _ Hw') as [? Hl'].
  split; [done|]. etrans; [exact Hl'|done].
Qed.

Lemma limit_dmin_le loc cloud : (dval (limit_with dmin loc cloud) <= dval loc)%Q.
Proof. destruct cloud as [c|]; cbn; [apply dmin_le|lra]. Qed.

Lemma limit_min_le loc cloud : limit_with Z.min loc cloud <= loc.
Proof. destruct cloud as [c|]; cbn; lia. Qed.

(** What the firewall lets through. *)
Record permitted (f : PolicyFirewall) (i : OrderIntent) (position : dec) : Prop := {
  pm_symbol : symbol i ∉ prohibited_symbols (fw_local f);
  pm_listed : forall s, allowed_symbols (fw_local f) = Some s -> symbol i ∈ s;
  pm_short : side i = SHORT -> allow_short (fw_local f) = true;
  pm_live : allow_live_trading (fw_local f) = true;
  pm_quantity : forall q, target_quantity i = Some q -> ~ (dval q == 0)%Q ->
    (dval q <= dval (limit_order (fw_local f) (fw_cloud f)))%Q;
  pm_position :
    (dval (dabs (new_position i position (quantity_of i)))
     <= dval (limit_position (fw_local f) (fw_cloud f)))%Q;
  pm_minute : fw_this_minute f < limit_minute (fw_local f) (fw_cloud f);
  pm_day : fw_today f < limit_day (fw_local f) (fw_cloud f)
}.

(** The conjunction of the checks' verdicts is [permitted]. *)
Lemma verdicts_permitted f i position :
  symbol_ok (fw_local f) (symbol i) && action_ok (fw_local f) i &&
    match target_quantity i with
    | Some q => negb (dtrue q) || dleb q (limit_order (fw_local f) (fw_cloud f))
    | None => true
    end &&
    dleb (dabs (new_position i position (quantity_of i))) (limit_position (fw_local f) (fw_cloud f)) &&
    (fw_this_minute f <? limit_minute (fw_local f) (fw_cloud f)) &&
    (fw_today f <? limit_day (fw_local f) (fw_cloud f)) = true <-> permitted f i position.
Proof.
  unfold symbol_ok, action_ok. split.
  - intros H. bool_to_prop. split; try done; try (by apply dleb_spec).
    + intros s Hs. destruct (allowed_symbols (fw_local f)); simplify_eq. by bool_to_prop.
    + intros Hs. rewrite (bool_decide_eq_true_2 _ Hs) in *. by destruct (allow_short _).
    + intros q Hq Hnz. rewrite Hq in *. apply dtrue_spec in Hnz. rewrite Hnz in *.
      by apply dleb_spec.
  - intros [Hs Hl Hsh Hlv Hq Hp Hm Hd]. rewrite Hlv, (bool_decide_eq_true_2 _ Hs).
    apply dleb_spec in Hp. rewrite Hp, (proj2 (Z.ltb_lt _ _) Hm), (proj2 (Z.ltb_lt _ _) Hd).
    rewrite !andb_true_r. repeat (apply andb_true_intro; split).
    + done.
    + destruct (allowed_symbols (fw_local f)) as [s|]; [|done].
      by apply bool_decide_eq_true_2, Hl.
    + apply orb_true_iff. destruct (decide (side i = SHORT)) as [He|He]; [left; auto|right].
      by rewrite bool_decide_eq_false_2.
    + destruct (target_quantity i) as [q|]; [|done]. destruct (dtrue q) eqn:Et; [|done].
      apply dleb_spec, Hq; [done|]. by apply dtrue_spec.
Qed.

(** C3: on every firewall reachable from a new one, [check_intent] returns a
    result (no [KeyError], no [InvalidOperation]); a passive intent is allowed,
    any other is allowed exactly when every local rule and every limit in force
    admits it; and a result that is not allowed lists a violation. *)
Theorem check_intent_correct loc cloud t0 ops now i position exposure equity :
  let f := fw_run (new_firewall loc cloud t0) ops in
  exists r, check_intent now f i position exposure equity = Some r /\
    (allowed r = true <-> is_passive i = true \/ permitted f i position) /\
    (allowed r = false -> exists v vs, pr_violations r = v :: vs).
Proof.
  intros f. assert (fw_wf f) as Hwf by by apply fw_run_wf. clearbody f.
  unfold check_intent. destruct (is_passive i); [exists new_result; by intuition|].
  destruct (check_symbol_allowed now f (symbol i) new_result) as [Ha1 Hw1].
  set (r1 := check_symbol now f (symbol i) new_result) in *.
  destruct (check_action_allowed now f i r1) as [Ha2 Hw2]. set (r2 := check_action now f i r1) in *.
  assert (exists r3,
    match target_quantity i with
    | Some q => if dtrue q then check_quantity now f q r2 else Some r2
    | None => Some r2
    end = Some r3 /\
    allowed r3 = allowed r2 &&
      match target_quantity i with
      | Some q => negb (dtrue q) || dleb q (limit_order (fw_local f) (fw_cloud f))
      | None => true
      end /\ (pr_wf r2 -> pr_wf r3)) as (r3 & -> & Ha3 & Hw3).
  { destruct (target_quantity i) as [q|]; [|by exists r2; rewrite andb_true_r].
    destruct (dtrue q); [by apply check_quantity_allowed|]. by exists r2; rewrite andb_true_r. }
  cbn [mbind option_bind].
  destruct (check_position_allowed now f i position r3 Hwf) as (r4 & -> & Ha4 & Hw4).
  cbn [mbind option_bind].
  destruct (check_rate_allowed now f r4 Hwf) as (r5 & -> & Ha5 & Hw5).
  exists r5. split; [done|]. split.
  - rewrite Ha5, Ha4, Ha3, Ha2, Ha1. rewrite <- verdicts_permitted. cbn [allowed new_result andb].
    split; [by right|by intros [?|]].
  - intros H. destruct (pr_violations r5) as [|v vs] eqn:E; [|by exists v, vs].
    assert (pr_wf r5) as Hw by (apply Hw5, Hw4, Hw3, Hw2, Hw1; done).
    apply Hw in E. congruence.
Qed.

(** The cloud never raises a limit. After any sequence of cloud
    configurations, profit updates and recorded orders, the local policy is
    the one the firewall started with, and every limit of the effective
    configuration that the checks read is at most the local one. *)
Theorem cloud_never_raises_limits loc cloud t0 ops :
  let f := fw_run (new_firewall (Some loc) cloud t0) ops in
  fw_local f = loc /\
  exists order position per_minute per_day,
    eff_dec (get_effective_limits f) "max_order_size" = Some order /\
    eff_dec (get_effective_limits f) "max_position_size" = Some position /\
    eff_int (get_effective_limits f) "max_orders_per_minute" = Some per_minute /\
    eff_int (get_effective_limits f) "max_orders_per_day" = Some per_day /\
    (dval order <= dval (max_order_size loc))%Q /\
    (dval position <= dval (max_position_size loc))%Q /\
    per_minute <= max_orders_per_minute loc /\ per_day <= max_orders_per_day loc.
Proof.
  intros f. destruct (fw_run_wf (new_firewall (Some loc) cloud t0) ops eq_refl) as [Hw Hl].
  fold f in Hw, Hl. split; [exact Hl|]. unfold get_effective_limits. rewrite Hw.
  destruct (effective_limits (fw_local f) (fw_cloud f)) as (-> & -> & -> & ->).
  rewrite Hl. eexists _, _, _, _. split_and!; try done.
  - apply limit_dmin_le.
  - apply limit_dmin_le.
  - apply limit_min_le.
  - apply limit_min_le.
Qed.

Lemma exceeds_allowed now over fld msg v lim r :
  allowed (exceeds now over fld msg v lim r) = allowed r && negb over.
Proof. by apply if_violation. Qed.

Lemma check_config_change_allowed now f c cls :
  allowed (check_config_change now f c cls) =
  dleb (rc_max_position_size c) (max_position_size (fw_local f)) &&
  dleb (rc_max_daily_loss c) (max_daily_loss (fw_local f)) &&
  dleb (rc_max_order_size c) (max_order_size (fw_local f)).
Proof.
  unfold check_config_change.
  match goal with |- allowed (if ?b then add_violation ?v ?r else _) = _ =>
    assert (allowed (if b then add_violation v r else r) = allowed r) as -> by by destruct b end.
  by rewrite !exceeds_allowed, !dltb_negb.
Qed.

(** A cloud configuration is installed exactly when its position, loss and
    order-size limits are within the local policy; a refused one changes nothing,
    and an installed one takes effect at once, whatever its change class. *)
Theorem apply_cloud_config_correct now f c :
  let '(f', ok) := apply_cloud_config now f c in
  (ok = true <->
     (dval (rc_max_position_size c) <= dval (max_position_size (fw_local f)))%Q /\
     (dval (rc_max_daily_loss c) <= dval (max_daily_loss (fw_local f)))%Q /\
     (dval (rc_max_order_size c) <= dval (max_order_size (fw_local f)))%Q) /\
  (ok = false -> f' = f) /\
  (ok = true -> fw_cloud f' = Some c /\
     eff_dec (fw_effective f') "max_order_size"
       = Some (dmin (max_order_size (fw_local f)) (rc_max_order_size c)) /\
     fw_this_minute f' = fw_this_minute f /\ fw_today f' = fw_today f).
Proof.
  unfold apply_cloud_config. pose proof (check_config_change_allowed now f c TRADING_IMPACTING) as Ha.
  destruct (allowed _); symmetry in Ha.
  - bool_to_prop. split_and!; try done.
    + split; [intros _|done]. split_and!; by apply dleb_spec.
    + intros _. split_and!; try done. by apply eff_dec_at.
  - split_and!; try done. split; [done|]. intros (H1 & H2 & H3).
    apply dleb_spec in H1, H2, H3. by rewrite H1, H2, H3 in Ha.
Qed.

(** A trading-impacting cloud configuration takes effect although its check
    still lists "requires local approval": the requirement is a warning, and
    [apply_cloud_config] reads nothing but [allowed]. *)
Theorem approval_only_warned :
  let f := new_firewall None None 0 in
  let c := default_risk_config in
  map violation_type (pr_warnings (check_config_change 0 f c TRADING_IMPACTING))
    = [APPROVAL_REQUIRED] /\
  fw_cloud (apply_cloud_config 0 f c).1 = Some c.
Proof. by vm_compute. Qed.

(** Once the orders of the minute have reached the limit, every active intent is
    refused at every later time: [check_intent] does not start a new minute,
    only [record_order] does, and that is called for accepted orders only. *)
Theorem rate_limit_sticks f i position exposure equity :
  fw_wf f -> is_passive i = false -> limit_minute (fw_local f) (fw_cloud f) <= fw_this_minute f ->
  forall now, exists r, check_intent now f i position exposure equity = Some r /\ allowed r = false.
Proof.
  intros Hwf Hp Hl now. unfold check_intent. rewrite Hp.
  set (r2 := check_action _ _ _ _).
  assert (exists r3,
    match target_quantity i with
    | Some q => if dtrue q then check_quantity now f q r2 else Some r2
    | None => Some r2
    end = Some r3) as (r3 & ->).
  { destruct (target_quantity i) as [q|]; [destruct (dtrue q)|]; eauto.
    destruct (check_quantity_allowed now f q r2 Hwf) as (r' & ? & _). eauto. }
  cbn [mbind option_bind].
  destruct (check_position_allowed now f i position r3 Hwf) as (r4 & -> & _).
  cbn [mbind option_bind].
  destruct (check_rate_allowed now f r4 Hwf) as (r5 & -> & Ha5 & _).
  exists r5. split; [done|]. rewrite Ha5, (proj2 (Z.ltb_ge _ _) Hl). by rewrite andb_false_r.
Qed.

(** The running daily profit. A change is added to it, and a critical
    violation is reported exactly when the total is below minus the local daily
    loss limit. *)
Theorem daily_loss_reported now f d :
  representable (max_daily_loss (fw_local f)) -> add_fits (fw_daily_pnl f) d ->
  let '(f', r) := update_daily_pnl now f d in
  (dval (fw_daily_pnl f') == dval (fw_daily_pnl f) + dval d)%Q /\
  (allowed r = false <->
     (dval (fw_daily_pnl f) + dval d < - dval (max_daily_loss (fw_local f)))%Q) /\
  (allowed r = false -> map severity (pr_violations r) = ["critical"%string]).
Proof.
  intros Hr Hf. unfold update_daily_pnl. cbn [fw_daily_pnl].
  rewrite <- (dval_dadd _ _ Hf), <- (dval_dneg _ Hr).
  destruct (dltb _ _) eqn:E; cbn.
  - apply dltb_spec in E. by split_and!.
  - apply dltb_false in E. split_and!; try done. split; [done|]. lra.
Qed.

(** ** Witnesses *)

Lemma daily_loss_reported_witness :
  let '(f', r) := update_daily_pnl 0 (new_firewall None None 0) (Dec (-200000) 0) in
  allowed r = false /\ map severity (pr_violations r) = ["critical"%string].
Proof.
  pose proof (daily_loss_reported 0 (new_firewall None None 0) (Dec (-200000) 0)
                ltac:(by vm_compute) ltac:(by vm_compute)) as H.
  destruct (update_daily_pnl 0 (new_firewall None None 0) (Dec (-200000) 0)) as [f' r] eqn:E.
  destruct H as (_ & [_ H2] & H3). assert (allowed r = false) by (apply H2; by vm_compute).
  by split; [|apply H3].
Defined.
