(* ===== verification/LayeredPolicy.v ===== *)
(** * The policy hierarchy: [packages/agent/policy/layered_policy.py]

    [LayeredPolicyEngine]: a local, a cloud, a manifest and a default layer of
    policy values, the merge of the local and the cloud value of a key, locks,
    and the log of refused cloud values.

    A policy value is a scalar, a list or a set; [list(set)] lists a set in the
    interpreter's order, the class [SetOrder].  The callback is a list of the
    conflicts it was called with.  A dictionary built from a set of keys has no
    order of its own: it is a [gmap]. *)
From Stdlib Require Import Ascii String.
From S2P Require Import Prelude PyDecimal DecArith PyFormat PyFloat PyValue PyJson PyCompare PyText.
Open Scope Z_scope.
Open Scope list_scope.

(** ** Data *)

Inductive PolicySource := LOCAL | CLOUD | MANIFEST | DEFAULT.

#[export] Instance PolicySource_eq_dec : EqDecision PolicySource.
Proof. solve_decision. Defined.

Definition source_name (s : PolicySource) : string :=
  match s with
  | LOCAL => "LOCAL"
  | CLOUD => "CLOUD"
  | MANIFEST => "MANIFEST"
  | DEFAULT => "DEFAULT"
  end%string.

(** A value of type [Any]: the lists and sets of a policy hold scalars. *)
Inductive policy_value :=
  | Scalar (v : pyval)
  | PList (l : list pyval)
  | PSet (l : list pyval).

#[export] Instance policy_value_eq_dec : EqDecision policy_value.
Proof. solve_decision. Defined.

Record PolicyValue := MkPolicyValue {
  pv_key : string;
  pv_val : policy_value;
  pv_source : PolicySource;
  pv_set_at : Z;
  pv_reason : string;
  pv_locked : bool
}.

Record PolicyConflict := MkConflict {
  pc_key : string;
  pc_winner_source : PolicySource;
  pc_winner_value : option policy_value;
  pc_loser_source : PolicySource;
  pc_loser_value : policy_value;
  pc_resolved_at : Z
}.

Inductive MergeStrategy := REPLACE | MIN | MAX | UNION | INTERSECT.

#[export] Instance MergeStrategy_eq_dec : EqDecision MergeStrategy.
Proof. solve_decision. Defined.

Definition DEFAULT_MERGE_STRATEGIES : list (string * MergeStrategy) :=
  [("max_position", MIN); ("max_order_size", MIN); ("max_daily_loss", MIN); ("max_drawdown", MIN);
   ("max_leverage", MIN); ("max_orders_per_second", MIN);
   ("allowed_symbols", INTERSECT); ("allowed_exchanges", INTERSECT); ("egress_allowlist", INTERSECT);
   ("blocked_symbols", UNION); ("blocked_strategies", UNION);
   ("timeout_seconds", MIN); ("max_execution_time", MIN);
   ("max_memory_mb", MIN); ("max_cpu_percent", MIN)]%string.

Record LayeredPolicyConfig := MkLayeredConfig {
  merge_strategies : list (string * MergeStrategy);
  lockable_keys : gset string;
  local_only_keys : gset string;
  audit_enabled : bool
}.

Definition default_layered_config : LayeredPolicyConfig :=
  MkLayeredConfig DEFAULT_MERGE_STRATEGIES
    (list_to_set ["max_position"; "max_daily_loss"; "allowed_symbols"; "blocked_strategies";
                  "kill_switch_triggers"]%string)
    (list_to_set ["vault_master_key"; "local_credentials"; "keychain_config";
                  "auto_approve_commands"]%string)
    true.

Abbreviation layer := (list (string * PolicyValue)).

Record LayeredPolicyEngine := MkLayered {
  lp_config : LayeredPolicyConfig;
  lp_callback : bool;
  lp_local : layer;
  lp_cloud : layer;
  lp_manifest : layer;
  lp_defaults : layer;
  lp_conflicts : list PolicyConflict;
  lp_notified : list PolicyConflict
}.

(** [_init_defaults] *)
Definition float_lit (d : dec) : policy_value := Scalar (VFloat (float_of_dec d)).

Definition default_policies : list (string * policy_value) :=
  [("max_position", Scalar (VInt 1000000)); ("max_order_size", Scalar (VInt 100000));
   ("max_daily_loss", Scalar (VInt 50000)); ("max_drawdown", float_lit (Dec 1 (-1)));
   ("max_leverage", float_lit (Dec 1 0)); ("max_orders_per_second", Scalar (VInt 10));
   ("max_orders_per_minute", Scalar (VInt 100)); ("timeout_seconds", Scalar (VInt 30));
   ("max_execution_time", Scalar (VInt 3600)); ("max_memory_mb", Scalar (VInt 512));
   ("max_cpu_percent", float_lit (Dec 100 0)); ("network_enabled", Scalar (VBool false));
   ("egress_allowlist", PList []); ("filesystem_readonly", Scalar (VBool true))]%string.

Definition init_defaults (now : Z) : layer :=
  fold_left (fun d kv => dset d kv.1 (MkPolicyValue kv.1 kv.2 DEFAULT now "System default" false))
    default_policies [].

Definition new_layered (now : Z) (c : LayeredPolicyConfig) (callback : bool) : LayeredPolicyEngine :=
  MkLayered c callback [] [] [] (init_defaults now) [] [].

Definition with_local (l : layer) (e : LayeredPolicyEngine) : LayeredPolicyEngine :=
  MkLayered (lp_config e) (lp_callback e) l (lp_cloud e) (lp_manifest e) (lp_defaults e)
    (lp_conflicts e) (lp_notified e).
Definition with_cloud (l : layer) (e : LayeredPolicyEngine) : LayeredPolicyEngine :=
  MkLayered (lp_config e) (lp_callback e) (lp_local e) l (lp_manifest e) (lp_defaults e)
    (lp_conflicts e) (lp_notified e).
Definition with_manifest (l : layer) (e : LayeredPolicyEngine) : LayeredPolicyEngine :=
  MkLayered (lp_config e) (lp_callback e) (lp_local e) (lp_cloud e) l (lp_defaults e)
    (lp_conflicts e) (lp_notified e).

(** ** Setting the layers *)

Definition set_local_policy (now : Z) (policy : list (string * policy_value))
    (lock_keys : option (gset string)) (reason : string) (e : LayeredPolicyEngine) :
    LayeredPolicyEngine :=
  with_local
    (fold_left
       (fun d kv =>
          dset d kv.1
            (MkPolicyValue kv.1 kv.2 LOCAL now reason
               (match lock_keys with
                | Some ks => bool_decide (kv.1 ∈ ks)
                | None => false
                end)))
       policy (lp_local e)) e.

(** [_log_conflict] *)
Definition log_conflict (c : PolicyConflict) (e : LayeredPolicyEngine) : LayeredPolicyEngine :=
  MkLayered (lp_config e) (lp_callback e) (lp_local e) (lp_cloud e) (lp_manifest e) (lp_defaults e)
    (push_bounded 1000 (lp_conflicts e) c)
    (if lp_callback e then lp_notified e ++ [c] else lp_notified e).

(** [local_val and local_val.locked] *)
Definition key_locked (e : LayeredPolicyEngine) (k : string) : bool :=
  match dget (lp_local e) k with
  | Some pv => pv_locked pv
  | None => false
  end.

(** One key of [set_cloud_policy]: refused, or set. *)
Definition set_cloud_key (now : Z) (reason : string) (k : string) (v : policy_value)
    (e : LayeredPolicyEngine) : LayeredPolicyEngine * bool :=
  let refused :=
    log_conflict (MkConflict k LOCAL (pv_val <$> dget (lp_local e) k) CLOUD v now) e in
  if bool_decide (k ∈ local_only_keys (lp_config e)) then (refused, true)
  else if key_locked e k then (refused, true)
  else (with_cloud (dset (lp_cloud e) k (MkPolicyValue k v CLOUD now reason false)) e, false).

Definition set_cloud_policy (now : Z) (policy : list (string * policy_value)) (reason : string)
    (e : LayeredPolicyEngine) : LayeredPolicyEngine * Z :=
  fold_left
    (fun (acc : LayeredPolicyEngine * Z) kv =>
       let (e', refused) := set_cloud_key now reason kv.1 kv.2 acc.1 in
       (e', if refused then acc.2 + 1 else acc.2))
    policy (e, 0).

Definition set_manifest_policy (now : Z) (policy : list (string * policy_value)) (reason : string)
    (e : LayeredPolicyEngine) : LayeredPolicyEngine :=
  with_manifest
    (fold_left (fun d kv => dset d kv.1 (MkPolicyValue kv.1 kv.2 MANIFEST now reason false))
       policy (lp_manifest e)) e.

Definition clear_cloud_policy (e : LayeredPolicyEngine) : LayeredPolicyEngine := with_cloud [] e.
Definition clear_manifest_policy (e : LayeredPolicyEngine) : LayeredPolicyEngine := with_manifest [] e.

Definition set_locked (b : bool) (pv : PolicyValue) : PolicyValue :=
  MkPolicyValue (pv_key pv) (pv_val pv) (pv_source pv) (pv_set_at pv) (pv_reason pv) b.

Definition lock_local_key (k : string) (e : LayeredPolicyEngine) : LayeredPolicyEngine * bool :=
  match dget (lp_local e) k with
  | None => (e, false)
  | Some pv =>
      if bool_decide (k ∈ lockable_keys (lp_config e)) then
        (with_local (dset (lp_local e) k (set_locked true pv)) e, true)
      else (e, false)
  end.

Definition unlock_local_key (k : string) (e : LayeredPolicyEngine) : LayeredPolicyEngine * bool :=
  match dget (lp_local e) k with
  | None => (e, false)
  | Some pv => (with_local (dset (lp_local e) k (set_locked false pv)) e, true)
  end.

(** ** Merging *)

(** [p in s] of strings. *)
Definition contains (p s : string) : bool := bool_decide (is_Some (find (chars p) (chars s))).

(** [_get_merge_strategy] *)
Definition get_merge_strategy (c : LayeredPolicyConfig) (k : string) : MergeStrategy :=
  match dget (merge_strategies c) k with
  | Some s => s
  | None =>
      match List.find (fun p => contains p.1 k) (merge_strategies c) with
      | Some p => p.2
      | None => REPLACE
      end
  end.

(** The elements of a value for which [isinstance(v, (list, set))]. *)
Definition items_of (v : policy_value) : option (list pyval) :=
  match v with
  | Scalar (VStrs l) => Some (map VStr l)
  | Scalar _ => None
  | PList l | PSet l => Some l
  end.

(** [a < b]; [None] is [TypeError]. *)
Definition policy_lt (a b : policy_value) : option bool :=
  match a, b with
  | PSet l, PSet l' => Some (set_lt l l')
  | PSet _, _ | _, PSet _ => None
  | Scalar v, Scalar w => val_lt v w
  | _, _ =>
      match items_of a, items_of b with
      | Some l, Some l' => list_lt l l'
      | _, _ => None
      end
  end.

Section Merging.
Context `{SetOrder}.

Definition list_of_set (s : list pyval) : policy_value := PList (set_order s).

(** [_merge_values]; [None] is the [TypeError] of an element that has no hash. *)
Definition merge_values (s : MergeStrategy) (higher lower : policy_value) : option policy_value :=
  match s with
  | REPLACE => Some higher
  | MIN => Some (match policy_lt lower higher with
                 | Some true => lower
                 | _ => higher
                 end)
  | MAX => Some (match policy_lt higher lower with
                 | Some true => lower
                 | _ => higher
                 end)
  | UNION =>
      match items_of higher, items_of lower with
      | Some a, Some b =>
          sa ← set_of a; sb ← set_of b;
          Some (list_of_set (set_union sa sb))
      | _, _ => Some higher
      end
  | INTERSECT =>
      match items_of higher, items_of lower with
      | Some a, Some b =>
          sa ← set_of a; sb ← set_of b;
          match set_inter sa sb, a with
          | [], _ :: _ => Some higher
          | r, _ => Some (list_of_set r)
          end
      | _, _ => Some higher
      end
  end.

Definition get_policy (e : LayeredPolicyEngine) (k : string) :
    option (policy_value * PolicySource) :=
  match dget (lp_local e) k, dget (lp_cloud e) k with
  | Some l, Some c =>
      v ← merge_values (get_merge_strategy (lp_config e) k) (pv_val l) (pv_val c);
      Some (v, LOCAL)
  | Some l, None => Some (pv_val l, LOCAL)
  | None, Some c => Some (pv_val c, CLOUD)
  | None, None =>
      match dget (lp_manifest e) k with
      | Some m => Some (pv_val m, MANIFEST)
      | None =>
          match dget (lp_defaults e) k with
          | Some d => Some (pv_val d, DEFAULT)
          | None => Some (Scalar VNone, DEFAULT)
          end
      end
  end.

(** The keys of all layers. *)
Definition all_keys (e : LayeredPolicyEngine) : gset string :=
  list_to_set ((lp_defaults e).*1 ++ (lp_manifest e).*1 ++ (lp_cloud e).*1 ++ (lp_local e).*1).

Definition get_effective_policy (e : LayeredPolicyEngine) : option (gmap string policy_value) :=
  l ← mapM (fun k => p ← get_policy e k; Some (k, p.1)) (elements (all_keys e));
  Some (list_to_map l).

(** A row of [get_policy_audit], the layers' values not yet printed. *)
Record AuditRow := MkAuditRow {
  effective_value : policy_value;
  effective_source : PolicySource;
  ar_local : option PolicyValue;
  ar_cloud : option PolicyValue;
  ar_manifest : option PolicyValue;
  ar_default : option PolicyValue
}.

Definition audit_row (e : LayeredPolicyEngine) (k : string) : option (string * AuditRow) :=
  p ← get_policy e k;
  Some (k, MkAuditRow p.1 p.2 (dget (lp_local e) k) (dget (lp_cloud e) k) (dget (lp_manifest e) k)
             (dget (lp_defaults e) k)).

Definition get_policy_audit (e : LayeredPolicyEngine) : option (list (string * AuditRow)) :=
  mapM (audit_row e) (sorted_strings (all_keys e)).
End Merging.

(** ** Reading *)

Definition get_conflicts (limit : Z) (e : LayeredPolicyEngine) : list PolicyConflict :=
  py_last limit (lp_conflicts e).

(** [isinstance(value, (int, float))] *)
Definition is_numeric (v : policy_value) : bool :=
  match v with
  | Scalar (VBool _ | VInt _ | VFloat _ | VSecs _) => true
  | _ => false
  end.

(** [type(value).__name__] *)
Definition type_name (v : policy_value) : string :=
  match v with
  | Scalar VNone => "NoneType"
  | Scalar (VBool _) => "bool"
  | Scalar (VInt _) => "int"
  | Scalar (VStr _) => "str"
  | Scalar (VDec _) => "Decimal"
  | Scalar (VTime _) => "datetime"
  | Scalar (VSecs _ | VFloat _) => "float"
  | Scalar (VStrs _) | PList _ => "list"
  | Scalar (VDict _) => "dict"
  | PSet _ => "set"
  end%string.

Definition char_quote1 : string := String (ascii_of_nat 39) "".

Definition key_error (k msg : string) : string :=
  "Key " +:+ char_quote1 +:+ k +:+ char_quote1 +:+ " " +:+ msg.

(** The errors [validate_policy] finds in one key. *)
Definition validate_key (e : LayeredPolicyEngine) (src : PolicySource) (k : string)
    (v : policy_value) : list string :=
  let remote := negb (bool_decide (src = LOCAL)) in
  (if remote && bool_decide (k ∈ local_only_keys (lp_config e)) then
     [key_error k "can only be set locally"] else []) ++
  (if remote && key_locked e k then [key_error k "is locked by local policy"] else []) ++
  (if (contains "max_" k || contains "min_" k) && negb (is_numeric v) then
     [key_error k ("must be numeric, got " +:+ type_name v)] else []) ++
  (if (contains "allowlist" k || contains "allowed_" k || contains "blocked_" k) &&
      negb (bool_decide (is_Some (items_of v))) then
     [key_error k ("must be a list, got " +:+ type_name v)] else []).

Definition validate_policy (policy : list (string * policy_value)) (src : PolicySource)
    (e : LayeredPolicyEngine) : bool * list string :=
  let errors := flat_map (fun kv => validate_key e src kv.1 kv.2) policy in
  (bool_decide (errors = []), errors).

Record LayeredStatus := MkLayeredStatus {
  ls_local : Z;
  ls_cloud : Z;
  ls_manifest : Z;
  ls_default : Z;
  ls_locked_keys : list string;
  ls_conflicts : Z;
  ls_audit_enabled : bool
}.

Definition layered_status (e : LayeredPolicyEngine) : LayeredStatus :=
  let len {A} (l : list A) := Z.of_nat (List.length l) in
  MkLayeredStatus (len (lp_local e)) (len (lp_cloud e)) (len (lp_manifest e)) (len (lp_defaults e))
    (List.filter (fun kv => pv_locked kv.2) (lp_local e)).*1 (len (lp_conflicts e))
    (audit_enabled (lp_config e)).

(** [create_policy_engine]; an empty policy is not set. *)
Definition create_policy_engine (now : Z) (local_policy : option (list (string * policy_value)))
    (callback : bool) : LayeredPolicyEngine :=
  let e := new_layered now default_layered_config callback in
  match local_policy with
  | Some (_ :: _ as p) => set_local_policy now p None "Local configuration" e
  | _ => e
  end.

(** ** Runs *)

Inductive layered_op :=
  | SetLocal (now : Z) (policy : list (string * policy_value)) (lock_keys : option (gset string))
      (reason : string)
  | SetCloud (now : Z) (policy : list (string * policy_value)) (reason : string)
  | SetManifest (now : Z) (policy : list (string * policy_value)) (reason : string)
  | ClearCloud
  | ClearManifest
  | LockKey (k : string)
  | UnlockKey (k : string).

Definition layered_step (e : LayeredPolicyEngine) (o : layered_op) : LayeredPolicyEngine :=
  match o with
  | SetLocal now p ks r => set_local_policy now p ks r e
  | SetCloud now p r => (set_cloud_policy now p r e).1
  | SetManifest now p r => set_manifest_policy now p r e
  | ClearCloud => clear_cloud_policy e
  | ClearManifest => clear_manifest_policy e
  | LockKey k => (lock_local_key k e).1
  | UnlockKey k => (unlock_local_key k e).1
  end.

Definition layered_run (ops : list layered_op) (e : LayeredPolicyEngine) : LayeredPolicyEngine :=
  fold_left layered_step ops e.

(** The operations that do not come from the local user. *)
Definition is_remote (o : layered_op) : bool :=
  match o with
  | SetCloud _ _ _ | SetManifest _ _ _ | ClearCloud | ClearManifest => true
  | _ => false
  end.

(** ** What a local value promises *)

(** Every element of [a] that is equal to itself is in [b]. *)
Definition covers (a b : list pyval) : Prop :=
  forall x, x ∈ a -> val_eqb x x = true -> exists y, y ∈ b /\ val_eqb x y = true.

Definition inside (a b : list pyval) : Prop := forall x, x ∈ a -> x ∈ b \/ val_in x b = true.

(** [w] does not loosen the local value [v] of a key merged by [s]. *)
Definition respects (s : MergeStrategy) (v w : policy_value) : Prop :=
  w = v \/
  match s with
  | REPLACE => False
  | MIN => policy_lt w v = Some true
  | MAX => policy_lt v w = Some true
  | UNION => exists a b, items_of v = Some a /\ items_of w = Some b /\ covers a b
  | INTERSECT => exists a b, items_of v = Some a /\ items_of w = Some b /\ inside b a
  end.

(** A list or set with an element that has no hash. *)
Definition unhashable (v : policy_value) : Prop :=
  exists l, items_of v = Some l /\ forallb hashable l = false.

Section Promises.
Context `{SetOrderLaws}.

Lemma set_of_none l : set_of l = None -> forallb hashable l = false.
Proof. unfold set_of. by case_match. Qed.

Lemma set_inter_inside a b x : x ∈ set_inter a b -> x ∈ a \/ val_in x a = true.
Proof.
  unfold set_inter. case_match; rewrite list_elem_of_In, filter_In, <- list_elem_of_In; tauto.
Qed.

Lemma val_in_of l s x : set_of l = Some s -> val_in x s = true -> val_in x l = true.
Proof.
  rewrite !val_in_spec. intros Hs (y & Hy & E). exists y. split; [by eapply set_of_sub|done].
Qed.

Lemma merge_union v w a b :
  items_of v = Some a -> items_of w = Some b ->
  match merge_values UNION v w with
  | Some r => respects UNION v r
  | None => unhashable v \/ unhashable w
  end.
Proof.
  intros Ea Eb. cbn. rewrite Ea, Eb.
  destruct (set_of a) as [sa|] eqn:Sa; cbn; [|left; exists a; by split; [|apply set_of_none]].
  destruct (set_of b) as [sb|] eqn:Sb; cbn; [|right; exists b; by split; [|apply set_of_none]].
  right. exists a, (set_order (set_union sa sb)). split_and!; [done..|]. intros x Hx Hr.
  destruct (set_of_cover a sa x Sa Hx Hr) as (y & Hy & E). exists y. split; [|done].
  rewrite set_order_perm. by apply set_adds_mono.
Qed.

Lemma merge_intersect v w a b :
  items_of v = Some a -> items_of w = Some b ->
  match merge_values INTERSECT v w with
  | Some r => respects INTERSECT v r
  | None => unhashable v \/ unhashable w
  end.
Proof.
  intros Ea Eb. cbn. rewrite Ea, Eb.
  destruct (set_of a) as [sa|] eqn:Sa; cbn; [|left; exists a; by split; [|apply set_of_none]].
  destruct (set_of b) as [sb|] eqn:Sb; cbn; [|right; exists b; by split; [|apply set_of_none]].
  assert (inside (set_order (set_inter sa sb)) a) as Hin.
  { intros x. rewrite set_order_perm. intros Hx. apply set_inter_inside in Hx as [Hx|Hx].
    - left. by eapply set_of_sub.
    - right. by eapply val_in_of. }
  destruct (set_inter sa sb) as [|x r] eqn:Er; [destruct a as [|y a']; [|by left]|];
    right; eexists _, _; (split_and!; [exact Ea|reflexivity|exact Hin]).
Qed.

(** What the merge yields never loosens the higher value; it raises only on an
    element without a hash. *)
Lemma merge_respects s v w :
  match merge_values s v w with
  | Some r => respects s v r
  | None => unhashable v \/ unhashable w
  end.
Proof.
  destruct s.
  - by left.
  - cbn. destruct (policy_lt w v) as [[]|] eqn:E; [by right|by left|by left].
  - cbn. destruct (policy_lt v w) as [[]|] eqn:E; [by right|by left|by left].
  - destruct (items_of v) as [a|] eqn:Ea; [|cbn; rewrite Ea; by left].
    destruct (items_of w) as [b|] eqn:Eb; [by eapply merge_union|cbn; rewrite Ea, Eb; by left].
  - destruct (items_of v) as [a|] eqn:Ea; [|cbn; rewrite Ea; by left].
    destruct (items_of w) as [b|] eqn:Eb; [by eapply merge_intersect|cbn; rewrite Ea, Eb; by left].
Qed.

(** ** The whole policy *)

Lemma policy_pairs e ks l :
  mapM (fun k => p ← get_policy e k; Some (k, p.1)) ks = Some l ->
  l.*1 = ks /\ forall k v, (k, v) ∈ l -> fst <$> get_policy e k = Some v.
Proof.
  revert l. induction ks as [|k ks IH]; intros l.
  - intros [= <-]. split; [done|]. intros k v Hkv. by apply elem_of_nil in Hkv.
  - cbn. destruct (get_policy e k) as [[v src]|] eqn:E; [|done]. cbn.
    destruct (mapM _ ks) as [l'|]; [|done]. intros [= <-]. destruct (IH l' eq_refl) as [Hk Hv].
    cbn. split; [by f_equal|]. intros k' v' [[= -> ->]|Hl]%elem_of_cons; [by rewrite E|by apply Hv].
Qed.

(** The effective policy has exactly the keys of the layers, each with the value
    [get_policy] gives. *)
Lemma effective_policy_lookup e m k :
  get_effective_policy e = Some m ->
  m !! k = if decide (k ∈ all_keys e) then fst <$> get_policy e k else None.
Proof.
  unfold get_effective_policy. destruct (mapM _ _) as [l|] eqn:E; [|done]. intros [= <-].
  apply policy_pairs in E as [Ek Ev]. case_decide as Hk.
  - rewrite <- elem_of_elements, <- Ek in Hk. apply list_elem_of_fmap in Hk as ([k' v] & -> & Hkv).
    cbn [fst] in Hkv |- *. rewrite (Ev k' v Hkv). apply elem_of_list_to_map; [|done].
    rewrite Ek. apply NoDup_elements.
  - apply not_elem_of_list_to_map. by rewrite Ek, elem_of_elements.
Qed.

(** Reading the whole policy fails exactly when reading some key does. *)
Lemma effective_policy_fails e :
  get_effective_policy e = None <-> exists k, k ∈ all_keys e /\ get_policy e k = None.
Proof.
  unfold get_effective_policy. setoid_rewrite <- elem_of_elements.
  induction (elements (all_keys e)) as [|k ks IH]; cbn.
  - split; [done|]. intros (k & Hk & _). by apply elem_of_nil in Hk.
  - setoid_rewrite elem_of_cons. destruct (get_policy e k) as [p|] eqn:E; cbn.
    + destruct (mapM _ ks) as [l|]; cbn in IH |- *; split; try done.
      * intros (k' & [->|Hk'] & Hn); [congruence|].
        assert (Some (list_to_map l : gmap string policy_value) = None) by (apply IH; by eauto). done.
      * intros _. destruct (proj1 IH eq_refl) as (k' & Hk' & Hn). by eauto.
    + split; [intros _; by eauto|done].
Qed.

(** ** Runs *)

(** Folding a cloud policy, key by key. *)
Lemma set_cloud_ind (P : LayeredPolicyEngine -> Prop) now p r e :
  P e -> (forall k v e, P e -> P (set_cloud_key now r k v e).1) -> P (set_cloud_policy now p r e).1.
Proof.
  intros Hp Hk. unfold set_cloud_policy.
  cut (forall n, P (fold_left
    (fun (acc : LayeredPolicyEngine * Z) kv =>
       let (e', refused) := set_cloud_key now r kv.1 kv.2 acc.1 in
       (e', if refused then acc.2 + 1 else acc.2)) p (e, n)).1); [done|].
  revert e Hp. induction p as [|[k v] p IH]; intros e Hp n; [done|]. cbn [fold_left fst snd].
  specialize (Hk k v e Hp) as He. destruct (set_cloud_key now r k v e) as [e' b]. by apply IH.
Qed.

Lemma set_cloud_key_frame now r k v e :
  let e' := (set_cloud_key now r k v e).1 in
  lp_config e' = lp_config e /\ lp_local e' = lp_local e /\
  (lp_cloud e' = lp_cloud e \/
   (k ∉ local_only_keys (lp_config e)) /\ key_locked e k = false /\
   exists pv, lp_cloud e' = dset (lp_cloud e) k pv).
Proof.
  cbn. unfold set_cloud_key. repeat case_bool_decide; cbn; [by eauto|].
  destruct (key_locked e k); cbn; [by eauto|]. split_and!; [done|done|right]. by eauto.
Qed.

(** The configuration stays, and the cloud never holds a key kept for the local user. *)
Definition layered_ok (c : LayeredPolicyConfig) (e : LayeredPolicyEngine) : Prop :=
  lp_config e = c /\ forall k, k ∈ local_only_keys c -> dget (lp_cloud e) k = None.

Lemma layered_step_ok c o e : layered_ok c e -> layered_ok c (layered_step e o).
Proof.
  intros He. destruct o; cbn; try (by destruct He as [<- Hl]; split).
  - apply set_cloud_ind; [done|]. clear e He. intros k v e [<- Hl].
    destruct (set_cloud_key_frame now reason k v e) as (Ec & _ & Hc). split; [done|].
    intros k' Hk'. destruct Hc as [->|(Hk & _ & pv & ->)]; [by apply Hl|].
    rewrite dget_dset_ne by (intros ->; by apply Hk). by apply Hl.
  - unfold lock_local_key. destruct (dget _ _); [|done]. by case_bool_decide.
  - unfold unlock_local_key. by destruct (dget _ _).
Qed.

Lemma layered_run_ok c ops e : layered_ok c e -> layered_ok c (layered_run ops e).
Proof.
  revert e. induction ops as [|o ops IH]; intros e He; [done|]. by apply IH, layered_step_ok.
Qed.

(** The local layer, and the cloud's value of a locked key, under remote operations. *)
Definition untouched (e e' : LayeredPolicyEngine) : Prop :=
  lp_config e' = lp_config e /\ lp_local e' = lp_local e /\
  forall k, key_locked e k = true ->
            dget (lp_cloud e') k = dget (lp_cloud e) k \/ dget (lp_cloud e') k = None.

#[export] Instance untouched_refl : Reflexive untouched.
Proof. intros e. split_and!; [done..|]. intros k _. by left. Qed.

Lemma untouched_step e e' o : untouched e e' -> is_remote o -> untouched e (layered_step e' o).
Proof.
  intros (Ec & El & Hk) Ho. destruct o; try done; cbn.
  - apply set_cloud_ind; [done|]. clear e' Ec El Hk. intros k v e' (Ec & El & Hk).
    destruct (set_cloud_key_frame now reason k v e') as (Ec' & El' & Hc).
    split_and!; [by rewrite Ec'|by rewrite El'|]. intros k' Hk'.
    destruct Hc as [->|(_ & Hn & pv & ->)]; [by apply Hk|].
    rewrite dget_dset_ne; [by apply Hk|]. intros ->. unfold key_locked in Hn, Hk'. rewrite El in Hn. congruence.
  - split_and!; [done..|]. intros k _. by right.
Qed.

Lemma untouched_run e e' rem : untouched e e' -> Forall is_remote rem -> untouched e (layered_run rem e').
Proof.
  revert e'. induction rem as [|o rem IH]; intros e' He Hr; [done|].
  apply Forall_cons in Hr as [Ho Hr]. apply IH; [by apply untouched_step|done].
Qed.

(** A key with a local value, whatever the remote layers do. *)
Lemma local_value_kept now c callback ops rem k pv :
  let e := layered_run ops (new_layered now c callback) in
  let e' := layered_run rem e in
  Forall is_remote rem -> dget (lp_local e) k = Some pv ->
  match get_policy e' k with
  | Some (w, src) => src = LOCAL /\ respects (get_merge_strategy c k) (pv_val pv) w
  | None => exists cv, dget (lp_cloud e') k = Some cv /\ (unhashable (pv_val pv) \/ unhashable (pv_val cv))
  end.
Proof.
  intros e e' Hr Hl.
  destruct (layered_run_ok c ops (new_layered now c callback)) as [Ec He]; [by split|].
  destruct (layered_run_ok c rem e) as [Ec' He']; [by split|].
  destruct (untouched_run e e rem) as (_ & El & Hk); [done..|].
  unfold get_policy. fold e' in El, Hk, Ec', He'. rewrite El, Hl, Ec'.
  destruct (dget (lp_cloud e') k) as [cv|] eqn:E; [|by split; [|left]].
  specialize (merge_respects (get_merge_strategy c k) (pv_val pv) (pv_val cv)) as Hm.
  destruct (merge_values _ _ _) as [w|]; cbn; [done|by exists cv].
Qed.

(** C18: Whatever the cloud and the manifest set, in any order and any number of
    times, a key with a local value keeps the local user's restriction: the
    effective value is reported as local and is the local value, or a smaller one
    for a limit, a subset for an allow list, a superset for a block list; reading
    it raises only when a list holds an element without a hash.  The cloud never
    holds a key that is kept for the local user, and the cloud's value of a locked
    key does not change except by being cleared. *)
Theorem local_restrictions_stand now c callback ops rem k pv :
  let e := layered_run ops (new_layered now c callback) in
  let e' := layered_run rem e in
  Forall is_remote rem -> dget (lp_local e) k = Some pv ->
  match get_policy e' k with
  | Some (w, src) => src = LOCAL /\ respects (get_merge_strategy c k) (pv_val pv) w
  | None => exists cv, dget (lp_cloud e') k = Some cv /\ (unhashable (pv_val pv) \/ unhashable (pv_val cv))
  end /\
  (k ∈ local_only_keys c -> get_policy e' k = Some (pv_val pv, LOCAL)) /\
  (pv_locked pv = true ->
   dget (lp_cloud e') k = dget (lp_cloud e) k \/ dget (lp_cloud e') k = None).
Proof.
  intros e e' Hr Hl. split; [by apply local_value_kept|].
  destruct (layered_run_ok c ops (new_layered now c callback)) as [Ec He]; [by split|].
  destruct (layered_run_ok c rem e) as [Ec' He']; [by split|].
  destruct (untouched_run e e rem) as (_ & El & Hk); [done..|]. fold e' in El, Hk, Ec', He'. split.
  - intros Hlo. unfold get_policy. by rewrite El, Hl, (He' k Hlo).
  - intros Hlk. apply Hk. unfold key_locked. by rewrite Hl.
Qed.
End Promises.

(** ** Concrete runs *)

#[local] Instance listed_order : SetOrder := fun l => l.

#[local] Instance listed_order_laws : SetOrderLaws.
Proof. intros l. done. Qed.

Definition limit_of (n : Z) : policy_value := Scalar (VInt n).

Definition fresh_engine : LayeredPolicyEngine := new_layered 0 default_layered_config false.

Lemma local_restrictions_stand_witness :
  let ops := [SetLocal 0 [("max_position", limit_of 100); ("allowed_symbols", PList [VStr "BTC"; VStr "ETH"])]
                (Some {["max_position"]}) "local"]%string in
  let rem := [SetCloud 1 [("max_position", limit_of 500); ("allowed_symbols", PList [VStr "ETH"; VStr "XRP"])] "cloud";
              SetManifest 2 [("max_position", limit_of 900)] "manifest"]%string in
  let e' := layered_run rem (layered_run ops fresh_engine) in
  get_policy e' "max_position" = Some (limit_of 100, LOCAL) /\
  get_policy e' "allowed_symbols" = Some (PList [VStr "ETH"], LOCAL) /\
  respects (get_merge_strategy default_layered_config "allowed_symbols")
    (PList [VStr "BTC"; VStr "ETH"]%string) (PList [VStr "ETH"]%string).
Proof.
  split_and!; [vm_compute; reflexivity|vm_compute; reflexivity|].
  set (ops := [SetLocal 0 [("max_position", limit_of 100); ("allowed_symbols", PList [VStr "BTC"; VStr "ETH"])]
                (Some {["max_position"]}) "local"]%string).
  set (rem := [SetCloud 1 [("max_position", limit_of 500); ("allowed_symbols", PList [VStr "ETH"; VStr "XRP"])] "cloud";
              SetManifest 2 [("max_position", limit_of 900)] "manifest"]%string).
  pose proof (local_restrictions_stand 0 default_layered_config false ops rem "allowed_symbols"
    (MkPolicyValue "allowed_symbols" (PList [VStr "BTC"; VStr "ETH"]%string) LOCAL 0 "local" false)
    ltac:(repeat constructor) ltac:(vm_compute; reflexivity)) as [Hr _].
  assert (get_policy (layered_run rem (layered_run ops (new_layered 0 default_layered_config false))) "allowed_symbols"
          = Some (PList [VStr "ETH"]%string, LOCAL)) as E by (vm_compute; reflexivity).
  rewrite E in Hr. exact (proj2 Hr).
Defined.

(** The example of the class says that a cloud value is ignored where there is a
    local one: a smaller limit of the cloud is the effective one, reported as the
    local user's. *)
Example cloud_lowers_local_limit :
  let e := layered_run [SetLocal 0 [("max_position", limit_of 100)] None "local";
                        SetCloud 1 [("max_position", limit_of 5)] "cloud"]%string fresh_engine in
  get_policy e "max_position" = Some (limit_of 5, LOCAL).
Proof. vm_compute. reflexivity. Qed.

(** A lock keeps new cloud values out, but the one that is there stays effective. *)
Example lock_keeps_earlier_cloud_value :
  let e := layered_run [SetLocal 0 [("blocked_strategies", PList [VStr "a"])] None "local";
                        SetCloud 1 [("blocked_strategies", PList [VStr "b"])] "cloud";
                        LockKey "blocked_strategies"]%string fresh_engine in
  get_policy e "blocked_strategies" = Some (PList [VStr "a"; VStr "b"]%string, LOCAL).
Proof. vm_compute. reflexivity. Qed.

(** Setting a locked key again without naming it unlocks it. *)
Example setting_again_unlocks :
  let e := layered_run [SetLocal 0 [("mode", Scalar (VStr "paper"))] (Some {["mode"]}) "local";
                        SetLocal 1 [("mode", Scalar (VStr "paper"))] None "local"]%string fresh_engine in
  key_locked e "mode" = false.
Proof. vm_compute. reflexivity. Qed.

(** The manifest of a strategy sets a key that is kept for the local user, which
    [validate_policy] reports as an error. *)
Example manifest_sets_local_only :
  let p := [("auto_approve_commands", PList [VStr "UPDATE_CONFIG"])]%string in
  let e := layered_run [SetManifest 0 p "manifest"]%string fresh_engine in
  get_policy e "auto_approve_commands" = Some (PList [VStr "UPDATE_CONFIG"]%string, MANIFEST) /\
  (validate_policy p MANIFEST e).1 = false.
Proof. vm_compute. split; reflexivity. Qed.

(** One list of lists from the cloud, and neither the key nor the whole policy can
    be read any more. *)
Example unhashable_cloud_list_raises :
  let e := layered_run [SetLocal 0 [("blocked_symbols", PList [VStr "BTC"])] None "local";
                        SetCloud 1 [("blocked_symbols", PList [VStrs ["BTC"]])] "cloud"]%string fresh_engine in
  get_policy e "blocked_symbols" = None /\ get_effective_policy e = None.
Proof. split; vm_compute; reflexivity. Qed.

(** A cloud value that loses in the merge is not logged as a conflict. *)
Example merged_conflict_not_logged :
  let e := layered_run [SetLocal 0 [("max_position", limit_of 100)] None "local";
                        SetCloud 1 [("max_position", limit_of 500)] "cloud"]%string fresh_engine in
  get_policy e "max_position" = Some (limit_of 100, LOCAL) /\ lp_conflicts e = [].
Proof. vm_compute. split; reflexivity. Qed.
