(* ===== verification/Manifest.v ===== *)
(** * The manifest of an artifact: [ArtifactManifest] of [packages/agent/daemon/artifact_manager.py]

    Reading it from the dictionary of a file and writing it back.  The limits are numbers,
    whole or not, as the file has them. *)
From Stdlib Require Import SpecFloat.
From Stdlib Require Import Ascii String.
From S2P Require Import Prelude PyDecimal DecArith PyFloat PyFormat PyValue PyJson PyCompare PyText PyRepr.
Open Scope Z_scope.
Open Scope list_scope.

Inductive ArtifactType := STRATEGY | MODEL | CONFIG | DATA.

#[export] Instance ArtifactType_eq_dec : EqDecision ArtifactType.
Proof. solve_decision. Defined.

Definition artifact_type_name (t : ArtifactType) : string :=
  match t with
  | STRATEGY => "STRATEGY"
  | MODEL => "MODEL"
  | CONFIG => "CONFIG"
  | DATA => "DATA"
  end%string.

Record ArtifactManifest := MkManifest {
  mf_name : string;
  mf_version : string;
  mf_type : ArtifactType;
  mf_entrypoint : string;
  mf_permissions : dict;
  mf_network : bool;
  mf_egress : list string;
  mf_readonly : bool;
  mf_paths : list string;
  mf_memory : pyval;
  mf_cpu : pyval;
  mf_time : pyval;
  mf_dependencies : list string;
  mf_python : string;
  mf_author : string;
  mf_description : string;
  mf_checksum : string
}.

Definition float_of (n : Z) : pyval := VFloat (float_of_int n).

(** [default_restrictive] *)
Definition default_restrictive : ArtifactManifest :=
  MkManifest "unknown" "0.0.0" STRATEGY "" [] false [] true [] (VInt 256) (float_of 50) (VInt 300) [] ">=3.10" "" "" "".

Definition manifest_to_dict (m : ArtifactManifest) : dict :=
  [("name", VStr (mf_name m)); ("version", VStr (mf_version m)); ("artifact_type", VStr (artifact_type_name (mf_type m)));
   ("entrypoint", VStr (mf_entrypoint m)); ("permissions", VDict (mf_permissions m));
   ("network_allowed", VBool (mf_network m)); ("egress_allowlist", VStrs (mf_egress m));
   ("filesystem_readonly", VBool (mf_readonly m)); ("allowed_paths", VStrs (mf_paths m));
   ("max_memory_mb", mf_memory m); ("max_cpu_percent", mf_cpu m); ("max_execution_time_seconds", mf_time m);
   ("dependencies", VStrs (mf_dependencies m)); ("python_version", VStr (mf_python m)); ("author", VStr (mf_author m));
   ("description", VStr (mf_description m)); ("checksum", VStr (mf_checksum m))]%string.

(** ** Reading *)

Definition get_or (d : dict) (k : string) (v : pyval) : pyval := default v (dget d k).

(** [d.get(k, {})], of which [get] is called next. *)
Definition sub_dict (d : dict) (k : string) : option dict := as_dict (get_or d k (VDict [])).

Definition number (v : pyval) : option pyval := (fun _ => v) <$> num_of v.

(** [getattr(ArtifactType, s.upper(), ArtifactType.STRATEGY)] *)
Definition type_of_name (s : string) : ArtifactType :=
  default STRATEGY (member artifact_type_name [STRATEGY; MODEL; CONFIG; DATA] (VStr (str_upper s))).

(** The entry point is a text, or a dictionary that names a module and a class. *)
Definition entrypoint_of (v : pyval) : option string :=
  match v with
  | VDict e => Some (py_str (get_or e "module" (VStr "")) +:+ "." +:+ py_str (get_or e "class_name" (VStr "")))%string
  | _ => as_str v
  end.

(** [from_dict]; [None] raises, or a field holds a value of another type, which the code
    keeps.  Both defaults of a field are evaluated. *)
Definition manifest_from_dict (d : dict) : option ArtifactManifest :=
  (permissions ← sub_dict d "permissions";
   network ← sub_dict permissions "network";
   filesystem ← sub_dict permissions "filesystem";
   resources ← sub_dict permissions "resources";
   runtime ← sub_dict d "runtime";
   provenance ← sub_dict d "provenance";
   ty ← as_str (get_or d "type" (get_or d "artifact_type" (VStr "strategy")));
   entry ← entrypoint_of (get_or d "entrypoint" (VStr ""));
   name ← as_str (get_or d "name" (VStr ""));
   version ← as_str (get_or d "version" (VStr ""));
   net ← as_bool (get_or network "enabled" (VBool false));
   egress ← as_strs (get_or network "egress_allowlist" (VStrs []));
   readonly ← as_bool (get_or filesystem "readonly" (VBool true));
   paths ← as_strs (get_or filesystem "allowed_paths" (VStrs []));
   memory ← number (get_or resources "max_memory_mb" (VInt 512));
   cpu ← number (get_or resources "max_cpu_percent" (float_of 100));
   time ← number (get_or resources "max_execution_time_seconds" (VInt 3600));
   deps ← as_strs (get_or d "dependencies" (VStrs []));
   python ← as_str (get_or d "python_version" (get_or runtime "python_version" (VStr ">=3.10")));
   author ← as_str (get_or d "author" (get_or provenance "author" (VStr "")));
   description ← as_str (get_or d "description" (VStr ""));
   Some (MkManifest name version (type_of_name ty) entry permissions net egress readonly paths memory cpu time deps python
           author description ""))%string.

(** ** Facts *)

Lemma type_reread t : type_of_name (artifact_type_name t) = t.
Proof. destruct t; vm_compute; reflexivity. Qed.

(** What was read from a file and written is read back as it was: the permissions travel in
    their own dictionary. *)
Lemma manifest_reread d m : manifest_from_dict d = Some m -> manifest_from_dict (manifest_to_dict m) = Some m.
Proof.
  intros E. unfold manifest_from_dict in E.
  destruct (sub_dict d "permissions") as [permissions|] eqn:Ep; [|discriminate E]. cbn [mbind option_bind] in E.
  destruct (sub_dict permissions "network") as [network|] eqn:En; [|discriminate E]. cbn [mbind option_bind] in E.
  destruct (sub_dict permissions "filesystem") as [filesystem|] eqn:Ef; [|discriminate E]. cbn [mbind option_bind] in E.
  destruct (sub_dict permissions "resources") as [resources|] eqn:Er; [|discriminate E]. cbn [mbind option_bind] in E.
  repeat match type of E with
         | (?x ≫= _) = Some _ => let Ex := fresh "Ex" in destruct x eqn:Ex; [|discriminate E]; cbn [mbind option_bind] in E
         end.
  simplify_eq. unfold manifest_from_dict.
  set (m := MkManifest _ _ _ _ _ _ _ _ _ _ _ _ _ _ _ _ _).
  change (sub_dict (manifest_to_dict m) "permissions") with (Some permissions). cbn [mbind option_bind].
  rewrite En, Ef, Er. cbn [mbind option_bind].
  change (sub_dict (manifest_to_dict m) "runtime") with (Some ([] : dict)).
  change (sub_dict (manifest_to_dict m) "provenance") with (Some ([] : dict)). cbn [mbind option_bind].
  repeat match goal with H : as_bool (get_or network _ _) = _ |- _ => rewrite H; clear H
                       | H : as_strs (get_or network _ _) = _ |- _ => rewrite H; clear H
                       | H : as_bool (get_or filesystem _ _) = _ |- _ => rewrite H; clear H
                       | H : as_strs (get_or filesystem _ _) = _ |- _ => rewrite H; clear H
                       | H : number (get_or resources _ _) = _ |- _ => rewrite H; clear H end.
  cbn [mbind option_bind].
  change (get_or (manifest_to_dict m) "type" _) with (VStr (artifact_type_name (mf_type m))).
  change (get_or (manifest_to_dict m) "entrypoint" _) with (VStr (mf_entrypoint m)).
  change (get_or (manifest_to_dict m) "name" _) with (VStr (mf_name m)).
  change (get_or (manifest_to_dict m) "version" _) with (VStr (mf_version m)).
  change (get_or (manifest_to_dict m) "dependencies" _) with (VStrs (mf_dependencies m)).
  change (get_or (manifest_to_dict m) "python_version" _) with (VStr (mf_python m)).
  change (get_or (manifest_to_dict m) "author" _) with (VStr (mf_author m)).
  change (get_or (manifest_to_dict m) "description" _) with (VStr (mf_description m)).
  cbn [as_str as_strs entrypoint_of mbind option_bind]. by rewrite type_reread.
Qed.
