(* ===== verification/SandboxEnforcer.v ===== *)
(** * Permissions of the sandbox: [packages/agent/daemon/sandbox_enforcer.py]

    [SandboxPermissionsEnforcer] combines the manifest of an artifact with the layered
    policy of [LayeredPolicy] and answers whether a host, a file or an amount of resources
    is allowed.  What the policy holds is of any type, so the permissions hold what the
    code puts there; [None] is the exception an operation raises.  The callback of
    violations only observes.  Identifiers and times of violations are arguments. *)
From Stdlib Require Import SpecFloat.
From Stdlib Require Import Ascii String.
From S2P Require Import Prelude PyDecimal DecArith PyFloat PyFormat PyValue PyJson PyCompare PyText PyRepr.
From S2P Require Import LayeredPolicy Manifest.
Open Scope Z_scope.
Open Scope list_scope.

Inductive PermissionViolationType :=
  | NETWORK_BLOCKED | NETWORK_EGRESS_DENIED | FILESYSTEM_WRITE_DENIED | FILESYSTEM_PATH_DENIED | MEMORY_EXCEEDED
  | CPU_EXCEEDED | EXECUTION_TIME_EXCEEDED | RESOURCE_DENIED.

#[export] Instance PermissionViolationType_eq_dec : EqDecision PermissionViolationType.
Proof. solve_decision. Defined.

Definition violation_type_name (t : PermissionViolationType) : string :=
  match t with
  | NETWORK_BLOCKED => "NETWORK_BLOCKED"
  | NETWORK_EGRESS_DENIED => "NETWORK_EGRESS_DENIED"
  | FILESYSTEM_WRITE_DENIED => "FILESYSTEM_WRITE_DENIED"
  | FILESYSTEM_PATH_DENIED => "FILESYSTEM_PATH_DENIED"
  | MEMORY_EXCEEDED => "MEMORY_EXCEEDED"
  | CPU_EXCEEDED => "CPU_EXCEEDED"
  | EXECUTION_TIME_EXCEEDED => "EXECUTION_TIME_EXCEEDED"
  | RESOURCE_DENIED => "RESOURCE_DENIED"
  end%string.

Record PermissionViolation := MkPermViolation {
  vi_id : string;
  vi_type : PermissionViolationType;
  vi_artifact : string;
  vi_details : string;
  vi_resource : string;
  vi_manifest_allows : bool;
  vi_policy_allows : policy_value;
  vi_time : Z
}.

Definition violation_to_dict (v : PermissionViolation) : list (string * policy_value) :=
  [("violation_id", Scalar (VStr (vi_id v))); ("violation_type", Scalar (VStr (violation_type_name (vi_type v))));
   ("artifact_id", Scalar (VStr (vi_artifact v))); ("strategy_id", Scalar (VStr "")); ("details", Scalar (VStr (vi_details v)));
   ("attempted_resource", Scalar (VStr (vi_resource v))); ("manifest_allows", Scalar (VBool (vi_manifest_allows v)));
   ("policy_allows", vi_policy_allows v); ("timestamp", Scalar (VStr (isoformat (vi_time v))))]%string.

Record EnforcedPermissions := MkPermissions {
  ep_network : policy_value;
  ep_egress : list pyval;
  ep_readonly : policy_value;
  ep_paths : list pyval;
  ep_memory : policy_value;
  ep_cpu : policy_value;
  ep_time : policy_value;
  ep_network_source : PolicySource;
  ep_memory_source : PolicySource;
  ep_cpu_source : PolicySource
}.

Definition permissions_to_dict (p : EnforcedPermissions) : list (string * policy_value) :=
  [("network_enabled", ep_network p); ("egress_allowlist", PList (ep_egress p)); ("filesystem_readonly", ep_readonly p);
   ("allowed_paths", PList (ep_paths p)); ("max_memory_mb", ep_memory p); ("max_cpu_percent", ep_cpu p);
   ("max_execution_time_seconds", ep_time p)]%string.

(** ** Values of the policy *)

(** [bool(v)] *)
Definition policy_true (v : policy_value) : bool :=
  match v with
  | Scalar v => val_true v
  | PList l | PSet l => match l with [] => false | _ => true end
  end.

(** [dflt if v is None else v] *)
Definition unless_none (dflt v : policy_value) : policy_value :=
  if bool_decide (v = Scalar VNone) then dflt else v.

(** [set(v) if v else set()] *)
Definition set_of_value (v : policy_value) : option (list pyval) :=
  if negb (policy_true v) then Some []
  else
    match v with
    | PList l | PSet l => set_of l
    | Scalar (VStrs l) => set_of (map VStr l)
    | Scalar (VStr s) => set_of (map (fun c => VStr (String c "")) (chars s))
    | Scalar (VDict d) => set_of (map (fun kv => VStr kv.1) d)
    | Scalar _ => None
    end.

(** ** The enforcer *)

(** What [to_sandbox_config] hands to the sandbox. *)
Record SandboxConfig := MkSandboxConfig {
  sx_cpu : pyfloat;
  sx_memory : policy_value;
  sx_timeout : policy_value;
  sx_network : policy_value;
  sx_egress : list pyval;
  sx_readonly : policy_value;
  sx_paths : list string
}.

Record SandboxEnforcer := MkEnforcer {
  en_policy : LayeredPolicyEngine;
  en_permissions : option EnforcedPermissions;
  en_manifest : option ArtifactManifest;
  en_artifact : string;
  en_violations : list PermissionViolation
}.

Section Enforcer.
Context `{SetOrder}.
Implicit Types e : LayeredPolicyEngine.
Implicit Types s : SandboxEnforcer.

Definition new_enforcer (e : LayeredPolicyEngine) : SandboxEnforcer := MkEnforcer e None None "" [].

(** A switch: [dflt] when nobody set the key, or set it to [None]. *)
Definition switch_of (dflt : bool) (vs : policy_value * PolicySource) : policy_value :=
  if bool_decide (vs.2 = DEFAULT) then Scalar (VBool dflt) else unless_none (Scalar (VBool dflt)) vs.1.

(** Both lists when both are there, or the one that is. *)
Definition restrict_list (m l : list pyval) : list pyval :=
  match m, l with
  | _ :: _, _ :: _ => set_order (set_inter m l)
  | _ :: _, [] => set_order m
  | [], _ :: _ => set_order l
  | [], [] => []
  end.

(** [min(m, v)], and whether it is [v]; [m] when there is no [v]. *)
Definition lower_limit (m : pyval) (v : policy_value) : option (policy_value * bool) :=
  if bool_decide (v = Scalar VNone) then Some (Scalar m, false)
  else
    match policy_lt v (Scalar m) with
    | Some true => Some (v, true)
    | Some false => Some (Scalar m, false)
    | None => None
    end.

Definition compute (m : ArtifactManifest) e : option EnforcedPermissions :=
  (network ← get_policy e "network_enabled";
   egress ← get_policy e "egress_allowlist";
   hosts ← set_of_value egress.1;
   readonly ← get_policy e "filesystem_readonly";
   allowed ← get_policy e "allowed_paths";
   paths ← set_of_value allowed.1;
   memory ← get_policy e "max_memory_mb";
   mem ← lower_limit (mf_memory m) memory.1;
   cpu ← get_policy e "max_cpu_percent";
   proc ← lower_limit (mf_cpu m) cpu.1;
   time ← get_policy e "max_execution_time";
   secs ← lower_limit (mf_time m) time.1;
   manifest_hosts ← set_of (map VStr (mf_egress m));
   manifest_paths ← set_of (map VStr (mf_paths m));
   Some (MkPermissions
           (if mf_network m then switch_of true network else Scalar (VBool false))
           (restrict_list manifest_hosts hosts)
           (if mf_readonly m then Scalar (VBool true) else switch_of false readonly)
           (restrict_list manifest_paths paths)
           mem.1 proc.1 secs.1
           (if mf_network m then MANIFEST else network.2)
           (if (mem.2 : bool) then memory.2 else MANIFEST)
           (if bool_decide (cpu.1 = Scalar VNone) then DEFAULT else if (proc.2 : bool) then cpu.2 else MANIFEST)))%string.

(** [compute_permissions]: the manifest and the artifact are set even when it raises, and
    then the permissions are those of before. *)
Definition compute_permissions (m : ArtifactManifest) (id : string) s : SandboxEnforcer * option EnforcedPermissions :=
  match compute m (en_policy s) with
  | Some p => (MkEnforcer (en_policy s) (Some p) (Some m) id (en_violations s), Some p)
  | None => (MkEnforcer (en_policy s) (en_permissions s) (Some m) id (en_violations s), None)
  end.

(** ** Violations *)

Definition check_manifest_allows (t : PermissionViolationType) (resource : string) s : bool :=
  match en_manifest s with
  | None => false
  | Some m =>
      match t with
      | NETWORK_BLOCKED => mf_network m
      | NETWORK_EGRESS_DENIED => bool_decide (resource ∈ mf_egress m)
      | FILESYSTEM_WRITE_DENIED | FILESYSTEM_PATH_DENIED => negb (mf_readonly m)
      | _ => true
      end
  end.

Definition check_policy_allows (t : PermissionViolationType) s : option policy_value :=
  match t with
  | NETWORK_BLOCKED =>
      vs ← get_policy (en_policy s) "network_enabled"; Some (unless_none (Scalar (VBool true)) vs.1)
  | FILESYSTEM_WRITE_DENIED =>
      vs ← get_policy (en_policy s) "filesystem_readonly";
      Some (Scalar (VBool (negb (policy_true (unless_none (Scalar (VBool true)) vs.1)))))
  | _ => Some (Scalar (VBool true))
  end.

(** The identifier and the time of a violation. *)
Abbreviation stamp := (string * Z)%type.

Definition create_violation (x : stamp) (t : PermissionViolationType) (details resource : string) s :
    option (SandboxEnforcer * PermissionViolation) :=
  allows ← check_policy_allows t s;
  let v := MkPermViolation x.1 t (en_artifact s) details resource (check_manifest_allows t resource s) allows x.2 in
  Some (MkEnforcer (en_policy s) (en_permissions s) (en_manifest s) (en_artifact s) (en_violations s ++ [v]), v).

(** What a check answers: allowed, or denied with the violation. *)
Abbreviation answer := (SandboxEnforcer * option PermissionViolation)%type.

Definition deny (x : stamp) (t : PermissionViolationType) (details resource : string) s : option answer :=
  sv ← create_violation x t details resource s; Some (sv.1, Some sv.2).

(** [any(f(text, a) for a in l)]; an element that is no text raises. *)
Fixpoint any_text (f : string -> string -> bool) (text : string) (l : list pyval) : option bool :=
  match l with
  | [] => Some false
  | VStr a :: l => if f text a then Some true else any_text f text l
  | _ :: _ => None
  end.

Definition quoted (s : string) : string := char_quote1 +:+ s +:+ char_quote1.

Definition can_access_network (x : stamp) (host : string) s : option answer :=
  match en_permissions s with
  | None => deny x NETWORK_BLOCKED "No permissions computed" host s
  | Some p =>
      if negb (policy_true (ep_network p)) then deny x NETWORK_BLOCKED "Network disabled by permissions" host s
      else if negb (truthy (Some host)) then Some (s, None)
      else
        match ep_egress p with
        | [] => Some (s, None)
        | hosts =>
            allowed ← any_text ends_with host hosts;
            if (allowed : bool) then Some (s, None)
            else deny x NETWORK_EGRESS_DENIED ("Host " +:+ quoted host +:+ " not in egress allowlist")%string host s
        end
  end.

Definition can_write_file (x : stamp) (path : string) s : option answer :=
  match en_permissions s with
  | None => deny x FILESYSTEM_WRITE_DENIED "No permissions computed" path s
  | Some p =>
      if policy_true (ep_readonly p) then deny x FILESYSTEM_WRITE_DENIED "Filesystem is read-only" path s
      else
        match ep_paths p with
        | [] => Some (s, None)
        | paths =>
            allowed ← any_text (fun t a => String.prefix a t) path paths;
            if (allowed : bool) then Some (s, None)
            else deny x FILESYSTEM_PATH_DENIED ("Path " +:+ quoted path +:+ " not in allowed paths")%string path s
        end
  end.

(** ** Resources *)

(** The text of a limit that could be compared with a number. *)
Definition limit_text (v : policy_value) : string := match v with Scalar v => py_str v | _ => "" end.

(** One of the three comparisons; [None] inside: the usage is within the limit. *)
Definition exceeds (used : pyval) (limit : policy_value) (t : PermissionViolationType) (what unit res : string) :
    option (option (PermissionViolationType * string * string)) :=
  over ← policy_lt limit (Scalar used);
  Some (if (over : bool) then
          Some (t, what +:+ " " +:+ py_str used +:+ unit +:+ " exceeds limit " +:+ limit_text limit +:+ unit,
                res +:+ ":" +:+ py_str used +:+ unit)
        else None)%string.

Definition first_of {A} (a : option (option A)) (b : option (option A)) : option (option A) :=
  match a with
  | Some None => b
  | _ => a
  end.

Definition check_resource_usage (x : stamp) (memory cpu time : pyval) s : option answer :=
  match en_permissions s with
  | None => deny x RESOURCE_DENIED "No permissions computed" "" s
  | Some p =>
      over ← first_of (exceeds memory (ep_memory p) MEMORY_EXCEEDED "Memory" "MB" "memory")
               (first_of (exceeds cpu (ep_cpu p) CPU_EXCEEDED "CPU" "%" "cpu")
                  (exceeds time (ep_time p) EXECUTION_TIME_EXCEEDED "Execution time" "s" "time"));
      match over with
      | Some (t, details, resource) => deny x t details resource s
      | None => Some (s, None)
      end
  end.

(** ** The sandbox *)

(** [v / 100.0] *)
Definition hundredth (v : policy_value) : option pyfloat :=
  match v with
  | Scalar (VInt n) => Some (fdiv (float_of_int n) (float_of_int 100))
  | Scalar (VBool b) => Some (fdiv (float_of_int (if b then 1 else 0)) (float_of_int 100))
  | Scalar (VFloat f) => Some (fdiv f (float_of_int 100))
  | _ => None
  end.

Definition to_sandbox_config (p : EnforcedPermissions) : option SandboxConfig :=
  cpu ← hundredth (ep_cpu p);
  paths ← mapM as_str (ep_paths p);
  Some (MkSandboxConfig cpu (ep_memory p) (ep_time p) (ep_network p) (ep_egress p) (ep_readonly p) paths).

Definition create_sandbox (m : ArtifactManifest) (id : string) s : SandboxEnforcer * option SandboxConfig :=
  let '(s, p) := compute_permissions m id s in (s, p ≫= to_sandbox_config).

Definition handle_sandbox_error (x : stamp) (error : string) s : option SandboxEnforcer :=
  fst <$> create_violation x RESOURCE_DENIED ("Sandbox error: " +:+ error)%string "" s.

(** ** Reading *)

Definition get_violations (limit : Z) s : list (list (string * policy_value)) :=
  map violation_to_dict (py_last limit (en_violations s)).

(** [get_status]: whether there are permissions, the artifact, the number of violations, the
    permissions. *)
Definition enforcer_status s : bool * string * nat * option (list (string * policy_value)) :=
  (bool_decide (is_Some (en_permissions s)), en_artifact s, List.length (en_violations s),
   permissions_to_dict <$> en_permissions s).
End Enforcer.

(** * Theorems on the permissions of the sandbox

    What the manifest or the local user denies is denied, whatever the cloud and the
    manifest layer set afterwards; and permissions that are wider than either meant. *)
From Stdlib Require Import Lqa.

(** ** Comparisons of numbers *)

Lemma num_ltb_trans a b c : num_ltb a b = true -> num_ltb b c = true -> num_ltb a c = true.
Proof.
  destruct a as [|[]|x], b as [|[]|y], c as [|[]|z]; cbn; try done.
  rewrite !dltb_spec. intros. lra.
Qed.

(** What is not above [w] is below what [w] is below, unless it is a NaN. *)
Lemma num_not_below a w c : a <> NumNaN -> num_ltb w a = false -> num_ltb w c = true -> num_ltb a c = true.
Proof.
  destruct a as [|[]|x], w as [|[]|y], c as [|[]|z]; cbn; try done.
  rewrite !dltb_spec, dltb_false. intros. lra.
Qed.

(** [limit < used], of numbers. *)
Definition above (limit used : pyval) : bool :=
  match num_of limit, num_of used with
  | Some a, Some b => num_ltb a b
  | _, _ => false
  end.

(** A number that is no NaN. *)
Definition is_limit (v : pyval) : bool :=
  match num_of v with
  | Some NumNaN | None => false
  | Some _ => true
  end.

Lemma above_lt a b : above a b = true -> val_lt a b = Some true.
Proof. unfold above, val_lt. destruct (num_of a), (num_of b); try done. by intros ->. Qed.

Lemma number_kind v : is_Some (num_of v) -> match v with VStr _ | VTime _ | VStrs _ => False | _ => True end.
Proof. destruct v; cbn; try done; by intros [? [=]]. Qed.

(** A value below a number is a number. *)
Lemma below_number v m x : num_of m = Some x -> policy_lt v (Scalar m) = Some true ->
  exists w y, v = Scalar w /\ num_of w = Some y /\ num_ltb y x = true.
Proof.
  intros Em Hv. pose proof (number_kind m ltac:(by eexists)) as Hk. destruct v as [w|l|l].
  - cbn in Hv. unfold val_lt in Hv. rewrite Em in Hv. destruct (num_of w) as [y|] eqn:Ew.
    + exists w, y. split_and!; [done..|congruence].
    + by destruct w, m.
  - cbn in Hv. by destruct m.
  - by cbn in Hv.
Qed.

(** ** Limits *)

(** What is above the manifest's limit, or above the policy's, is above the lower of them. *)
Lemma limit_of_manifest m v r used :
  lower_limit m v = Some r -> above m used = true -> policy_lt r.1 (Scalar used) = Some true.
Proof.
  unfold lower_limit. intros Hr Hu. destruct (bool_decide _); simplify_eq; [by apply above_lt|].
  destruct (policy_lt v (Scalar m)) as [[]|] eqn:Ev; simplify_eq; [|by apply above_lt].
  unfold above in Hu. destruct (num_of m) as [x|] eqn:Em; [|done]. destruct (num_of used) as [u|] eqn:Eu; [|done].
  destruct (below_number v m x Em Ev) as (w & y & Hv & Ew & Hy). cbn [fst]. rewrite Hv. cbn [policy_lt]. unfold val_lt.
  rewrite Ew, Eu. f_equal. by eapply num_ltb_trans.
Qed.

Lemma limit_of_policy m n r used :
  lower_limit m (Scalar n) = Some r -> is_limit m = true -> above n used = true -> policy_lt r.1 (Scalar used) = Some true.
Proof.
  unfold lower_limit, is_limit, above. intros Hr Hm Hu.
  destruct (num_of n) as [y|] eqn:En; [|done]. destruct (num_of used) as [u|] eqn:Eu; [|done].
  destruct (num_of m) as [x|] eqn:Em; [|done]. rewrite bool_decide_eq_false_2 in Hr by (by intros [= ->]).
  cbn [policy_lt] in Hr. unfold val_lt in Hr. rewrite En, Em in Hr.
  destruct (num_ltb y x) eqn:Ey; simplify_eq; cbn; unfold val_lt.
  - by rewrite En, Eu, Hu.
  - rewrite Em, Eu. f_equal. apply (num_not_below x y u); [|done..]. by intros ->.
Qed.

(** A value the policy lowered further. *)
Lemma limit_lowered m v n r used :
  lower_limit m v = Some r -> is_limit m = true -> v = Scalar n \/ policy_lt v (Scalar n) = Some true -> above n used = true ->
  policy_lt r.1 (Scalar used) = Some true.
Proof.
  intros Hr Hm [->|Hv] Hu; [by apply (limit_of_policy m n)|].
  unfold above in Hu. destruct (num_of n) as [y|] eqn:En; [|done]. destruct (num_of used) as [u|] eqn:Eu; [|done].
  destruct (below_number v n y En Hv) as (w & z & Hw & Ew & Hz). rewrite Hw in Hr. apply (limit_of_policy m w); [done..|].
  unfold above. rewrite Ew, Eu. by eapply num_ltb_trans.
Qed.

Section Denials.
Context `{SetOrderLaws}.
Implicit Types s : SandboxEnforcer.

Lemma deny_denies x t details resource s s2 : deny x t details resource s <> Some (s2, None).
Proof. unfold deny. by destruct (create_violation _ _ _ _ _). Qed.

Lemma network_denied x host s p s2 :
  en_permissions s = Some p -> policy_true (ep_network p) = false -> can_access_network x host s <> Some (s2, None).
Proof. intros Hp Hn. unfold can_access_network. rewrite Hp, Hn. apply deny_denies. Qed.

Lemma write_denied x path s p s2 :
  en_permissions s = Some p -> policy_true (ep_readonly p) = true -> can_write_file x path s <> Some (s2, None).
Proof. intros Hp Hn. unfold can_write_file. rewrite Hp, Hn. apply deny_denies. Qed.

Lemma usage_denied x memory cpu time s p s2 :
  en_permissions s = Some p ->
  policy_lt (ep_memory p) (Scalar memory) = Some true \/ policy_lt (ep_cpu p) (Scalar cpu) = Some true \/
  policy_lt (ep_time p) (Scalar time) = Some true ->
  check_resource_usage x memory cpu time s <> Some (s2, None).
Proof.
  intros Hp Ho. unfold check_resource_usage, exceeds, first_of. rewrite Hp.
  destruct (policy_lt (ep_memory p) (Scalar memory)) as [[]|]; cbn [mbind option_bind]; [apply deny_denies| |discriminate].
  destruct Ho as [[=]|Ho].
  destruct (policy_lt (ep_cpu p) (Scalar cpu)) as [[]|]; cbn [mbind option_bind]; [apply deny_denies| |discriminate].
  destruct Ho as [[=]|Ho]. rewrite Ho. cbn [mbind option_bind]. apply deny_denies.
Qed.

(** What [compute] put together. *)
Lemma compute_spec m e p :
  compute m e = Some p ->
  exists network readonly memory cpu time b1 b2 b3,
    get_policy e "network_enabled" = Some network /\ get_policy e "filesystem_readonly" = Some readonly /\
    get_policy e "max_memory_mb" = Some memory /\ get_policy e "max_cpu_percent" = Some cpu /\
    get_policy e "max_execution_time" = Some time /\
    ep_network p = (if mf_network m then switch_of true network else Scalar (VBool false)) /\
    ep_readonly p = (if mf_readonly m then Scalar (VBool true) else switch_of false readonly) /\
    lower_limit (mf_memory m) memory.1 = Some (ep_memory p, b1) /\ lower_limit (mf_cpu m) cpu.1 = Some (ep_cpu p, b2) /\
    lower_limit (mf_time m) time.1 = Some (ep_time p, b3).
Proof.
  unfold compute. intros E.
  repeat match type of E with
         | (?x ≫= _) = Some _ => let Ex := fresh "Ex" in destruct x eqn:Ex; [|discriminate E]; cbn [mbind option_bind] in E
         end.
  injection E as <-. cbn [ep_network ep_readonly ep_memory ep_cpu ep_time].
  eexists _, _, _, _, _, _, _, _. split_and!; try done; by rewrite <- surjective_pairing.
Qed.

(** The merge strategies of the keys of the sandbox. *)
Lemma sandbox_strategies :
  map (get_merge_strategy default_layered_config)
    ["network_enabled"; "filesystem_readonly"; "max_memory_mb"; "max_cpu_percent"; "max_execution_time"]%string
  = [REPLACE; REPLACE; MIN; MIN; MIN].
Proof. vm_compute. reflexivity. Qed.

(** C19: The sandbox is denied what its manifest denies and what the local user denies.
    Whatever the cloud and the manifest layer set after the local user did, once the
    permissions of an artifact have been computed, and not only tried to: no host is allowed
    without the manifest's permission or against a local denial, no file may be written
    against either, no use of memory, processor or time above the manifest's limit is let
    through, and none above the local user's limit where the manifest has a limit that is a
    number and no NaN.  A computation that fails leaves the permissions that were there
    ([failed_compute_keeps_permissions]), and a NaN in the manifest lifts the local limit
    ([nan_limit_lifts_limits]). *)
Theorem sandbox_denies_what_either_denies now callback ops rem m id s :
  let e := layered_run ops (new_layered now default_layered_config callback) in
  let local k := pv_val <$> dget (lp_local e) k in
  Forall is_remote rem -> en_policy s = layered_run rem e ->
  let '(s1, p) := compute_permissions m id s in
  is_Some p ->
  (mf_network m = false \/ local "network_enabled"%string = Some (Scalar (VBool false)) ->
   forall x host s2, can_access_network x host s1 <> Some (s2, None)) /\
  (mf_readonly m = true \/ local "filesystem_readonly"%string = Some (Scalar (VBool true)) ->
   forall x path s2, can_write_file x path s1 <> Some (s2, None)) /\
  (forall x memory cpu time s2,
     above (mf_memory m) memory || above (mf_cpu m) cpu || above (mf_time m) time = true ->
     check_resource_usage x memory cpu time s1 <> Some (s2, None)) /\
  (forall n x memory cpu time s2,
     (is_limit (mf_memory m) = true /\ local "max_memory_mb"%string = Some (Scalar n) /\ above n memory = true) \/
     (is_limit (mf_cpu m) = true /\ local "max_cpu_percent"%string = Some (Scalar n) /\ above n cpu = true) \/
     (is_limit (mf_time m) = true /\ local "max_execution_time"%string = Some (Scalar n) /\ above n time = true) ->
     check_resource_usage x memory cpu time s1 <> Some (s2, None)).
Proof.
  intros e local Hr He. unfold compute_permissions. rewrite He.
  destruct (compute m (layered_run rem e)) as [p|] eqn:Ec; [|by intros [? [=]]]. intros _. set (s1 := MkEnforcer _ _ _ _ _).
  assert (forall k strategy v ws, get_merge_strategy default_layered_config k = strategy -> local k = Some v ->
            get_policy (layered_run rem e) k = Some ws -> ws.2 = LOCAL /\ respects strategy v ws.1) as Hlocal.
  { intros k strategy v [w src] <- Hk Hg. subst local. cbn beta in Hk. destruct (dget (lp_local e) k) as [pv|] eqn:El; [|discriminate Hk].
    injection Hk as <-. pose proof (local_value_kept now default_layered_config callback ops rem k pv Hr El) as Hv.
    cbn zeta in Hv. fold e in Hv. rewrite Hg in Hv. exact Hv. }
  apply compute_spec in Ec as (network & readonly & memory & cpu & time & b1 & b2 & b3 & G1 & G2 & G3 & G4 & G5 & E1 & E2 & L1 & L2 & L3).
  split_and!.
  - intros Hd x host s2. apply (network_denied x host s1 p); [done|]. rewrite E1. destruct (mf_network m); [|done].
    destruct Hd as [Hd|Hd]; [discriminate Hd|].
    destruct (Hlocal "network_enabled"%string REPLACE _ _ eq_refl Hd G1) as [Hs [Hw|[]]]. unfold switch_of. by rewrite Hs, Hw.
  - intros Hd x path s2. apply (write_denied x path s1 p); [done|]. rewrite E2. destruct (mf_readonly m); [done|].
    destruct Hd as [Hd|Hd]; [discriminate Hd|].
    destruct (Hlocal "filesystem_readonly"%string REPLACE _ _ eq_refl Hd G2) as [Hs [Hw|[]]]. unfold switch_of. by rewrite Hs, Hw.
  - intros x mu cu tu s2 Ha. apply (usage_denied x mu cu tu s1 p); [done|].
    apply orb_true_iff in Ha as [[Ha|Ha]%orb_true_iff|Ha].
    + left. apply (limit_of_manifest _ _ _ _ L1 Ha).
    + right. left. apply (limit_of_manifest _ _ _ _ L2 Ha).
    + right. right. apply (limit_of_manifest _ _ _ _ L3 Ha).
  - intros n x mu cu tu s2 Ha. apply (usage_denied x mu cu tu s1 p); [done|].
    destruct Ha as [(Hm & Hl & Ha)|[(Hm & Hl & Ha)|(Hm & Hl & Ha)]].
    + left. destruct (Hlocal "max_memory_mb"%string MIN _ _ eq_refl Hl G3) as [_ Hw]. apply (limit_lowered _ _ n _ _ L1 Hm Hw Ha).
    + right. left. destruct (Hlocal "max_cpu_percent"%string MIN _ _ eq_refl Hl G4) as [_ Hw]. apply (limit_lowered _ _ n _ _ L2 Hm Hw Ha).
    + right. right. destruct (Hlocal "max_execution_time"%string MIN _ _ eq_refl Hl G5) as [_ Hw]. apply (limit_lowered _ _ n _ _ L3 Hm Hw Ha).
Qed.
End Denials.

(** ** Concrete artifacts *)

(** A set lists its elements as they were added. *)
#[local] Instance listed_order : SetOrder := fun l => l.

#[local] Instance listed_order_laws : SetOrderLaws.
Proof. intros l. done. Qed.

Definition networked (hosts : list string) (memory : pyval) : ArtifactManifest :=
  MkManifest "strategy" "1.0.0" STRATEGY "main" [] true hosts false [] memory (float_of 100) (VInt 3600) [] ">=3.10" "" "" "".

Definition policy_of (ops : list layered_op) : LayeredPolicyEngine := layered_run ops (new_layered 0 default_layered_config false).

(** The enforcer after the permissions of a manifest were computed under a policy. *)
Definition enforced (m : ArtifactManifest) (ops : list layered_op) : SandboxEnforcer :=
  (compute_permissions m "artifact-1" (new_enforcer (policy_of ops))).1.

(** Whether a check lets it through; [None] raises. *)
Definition lets (a : option (SandboxEnforcer * option PermissionViolation)) : option bool :=
  (fun r => match r.2 with None => true | Some _ => false end) <$> a.

Definition here : string * Z := ("v1"%string, 0).

Definition local_ops (k : string) (v : policy_value) : layered_op := SetLocal 0 [(k, v)] None "local".
Definition cloud_ops (k : string) (v : policy_value) : layered_op := SetCloud 1 [(k, v)] "cloud".

(** A local user who denies the network and allows 64 MB, and a cloud that grants both. *)
Lemma sandbox_denies_what_either_denies_witness :
  let ops := [local_ops "network_enabled" (Scalar (VBool false)); local_ops "max_memory_mb" (limit_of 64)]%string in
  let rem := [cloud_ops "network_enabled" (Scalar (VBool true)); cloud_ops "max_memory_mb" (limit_of 4096)]%string in
  let s := (compute_permissions (networked ["a.com"%string] (VInt 2048)) "artifact-1" (new_enforcer (layered_run rem (policy_of ops)))).1 in
  (forall x host s2, can_access_network x host s <> Some (s2, None)) /\
  (forall x s2, check_resource_usage x (VInt 65) (VInt 0) (VInt 0) s <> Some (s2, None)).
Proof.
  intros ops rem s. subst s.
  pose proof (sandbox_denies_what_either_denies 0 false ops rem (networked ["a.com"%string] (VInt 2048)) "artifact-1"
    (new_enforcer (layered_run rem (policy_of ops))) ltac:(repeat constructor) eq_refl) as Hd.
  assert (is_Some (compute_permissions (networked ["a.com"%string] (VInt 2048)) "artifact-1"
            (new_enforcer (layered_run rem (policy_of ops)))).2) as Hp by (vm_compute; by eexists).
  destruct (compute_permissions _ _ _) as [s1 p]. destruct (Hd Hp) as (Hn & _ & _ & Hl). split.
  - apply Hn. right. vm_compute. reflexivity.
  - intros x s2. apply (Hl (VInt 64)). left. split_and!; vm_compute; reflexivity.
Defined.

(** *** Findings *)

(** A manifest and a local user who allow different hosts allow every host: the empty
    intersection is read as no restriction. *)
Theorem disjoint_lists_allow_every_host :
  let s := enforced (networked ["a.com"%string] (VInt 256)) [local_ops "egress_allowlist" (PList [VStr "b.com"%string])] in
  map (fun h => lets (can_access_network here h s)) ["a.com"; "b.com"; "evil.com"]%string = [Some true; Some true; Some true].
Proof. vm_compute. reflexivity. Qed.

(** So do two lists of paths. *)
Theorem disjoint_paths_allow_every_path :
  let m := MkManifest "s" "1" STRATEGY "" [] false [] false ["/a/"%string] (VInt 256) (float_of 50) (VInt 300) [] "" "" "" "" in
  let s := enforced m [local_ops "allowed_paths" (PList [VStr "/b/"%string]); local_ops "filesystem_readonly" (Scalar (VBool false))] in
  lets (can_write_file here "/etc/passwd" s) = Some true.
Proof. vm_compute. reflexivity. Qed.

(** With no list at all every host is allowed, where the comment says that none is. *)
Theorem no_list_allows_every_host :
  lets (can_access_network here "evil.com" (enforced (networked [] (VInt 256)) [])) = Some true.
Proof. vm_compute. reflexivity. Qed.

(** The cloud opens every host of an artifact by allowing a host it does not ask for. *)
Theorem cloud_opens_every_host :
  let m := networked ["a.com"%string] (VInt 256) in
  lets (can_access_network here "evil.com" (enforced m [])) = Some false /\
  lets (can_access_network here "evil.com" (enforced m [cloud_ops "egress_allowlist" (PList [VStr "b.com"%string])])) = Some true.
Proof. vm_compute. split; reflexivity. Qed.

(** The cloud raises the memory of an artifact above the default. *)
Theorem cloud_raises_default_limit :
  let m := networked [] (VInt 2048) in
  ep_memory <$> en_permissions (enforced m []) = Some (limit_of 512) /\
  ep_memory <$> en_permissions (enforced m [cloud_ops "max_memory_mb" (limit_of 100000)]) = Some (limit_of 2048).
Proof. vm_compute. split; reflexivity. Qed.

(** A host that ends like an allowed one, and a path that begins like one, are allowed. *)
Theorem suffix_host_allowed :
  lets (can_access_network here "evilexchange.com" (enforced (networked ["exchange.com"%string] (VInt 256)) [])) = Some true.
Proof. vm_compute. reflexivity. Qed.

Theorem prefix_path_allowed :
  let m := MkManifest "s" "1" STRATEGY "" [] false [] false ["/data"%string] (VInt 256) (float_of 50) (VInt 300) [] "" "" "" "" in
  map (fun p => lets (can_write_file here p (enforced m [local_ops "filesystem_readonly" (Scalar (VBool false))])))
    ["/data/../etc/passwd"; "/data-of-others/x"; "/etc/passwd"]%string = [Some true; Some true; Some false].
Proof. vm_compute. reflexivity. Qed.

(** A limit of the manifest that is not a number, which JSON files can hold, lifts the local
    limit. *)
Theorem nan_limit_lifts_limits :
  let s := enforced (networked [] (VFloat S754_nan)) [local_ops "max_memory_mb" (limit_of 64)] in
  lets (check_resource_usage here (VInt 1000000) (VInt 0) (VInt 0) s) = Some true.
Proof. vm_compute. reflexivity. Qed.

(** When the permissions cannot be computed those of the last artifact stay in force. *)
Theorem failed_compute_keeps_permissions :
  let s := enforced (networked [] (VInt 256)) [] in
  let s' := (compute_permissions default_restrictive "artifact-2"
               (MkEnforcer (policy_of [local_ops "max_memory_mb" (Scalar (VStr "lots"))]) (en_permissions s) (en_manifest s)
                  (en_artifact s) (en_violations s))).1 in
  en_artifact s' = "artifact-2"%string /\ lets (can_access_network here "evil.com" s') = Some true.
Proof. vm_compute. split; reflexivity. Qed.
