(* ===== verification/ArtifactStore.v ===== *)
(** * Artifacts: [ArtifactManager] of [packages/agent/daemon/artifact_manager.py]

    The registry of downloaded artifacts: download with its digest check, extraction,
    activation, upgrades, deletion, cleaning up, and the index file.  The network, the
    unpacking of archives and the verifier of signatures are outside and answer through
    [Download], [Unpack] and an argument.  The cache directory is the set of the extracted
    paths that exist; the index is what was written last.  The progress callback only
    observes; the sizes on disk are not modelled. *)
From Stdlib Require Import SpecFloat.
From Stdlib Require Import Ascii String.
From S2P Require Import Prelude PyDecimal DecArith PyFloat PyFormat PyValue PyJson PyCompare PyText PyRepr Sha256 Manifest.
Open Scope Z_scope.
Open Scope list_scope.

Inductive ArtifactState :=
  | DOWNLOADING | VERIFYING | EXTRACTING | READY | ACTIVE | INACTIVE | FAILED | DELETED.

#[export] Instance ArtifactState_eq_dec : EqDecision ArtifactState.
Proof. solve_decision. Defined.

Definition artifact_state_name (s : ArtifactState) : string :=
  match s with
  | DOWNLOADING => "DOWNLOADING"
  | VERIFYING => "VERIFYING"
  | EXTRACTING => "EXTRACTING"
  | READY => "READY"
  | ACTIVE => "ACTIVE"
  | INACTIVE => "INACTIVE"
  | FAILED => "FAILED"
  | DELETED => "DELETED"
  end%string.

Definition all_artifact_states : list ArtifactState :=
  [DOWNLOADING; VERIFYING; EXTRACTING; READY; ACTIVE; INACTIVE; FAILED; DELETED].

Record Artifact := MkArtifact {
  af_id : string;
  af_deployment : option string;
  af_name : string;
  af_version : string;
  af_type : ArtifactType;
  af_state : ArtifactState;
  af_archive : option string;
  af_extracted : option string;
  af_expected : string;
  af_actual : string;
  af_verified : bool;
  af_manifest : option ArtifactManifest;
  af_downloaded_at : option Z;
  af_verified_at : option Z;
  af_activated_at : option Z;
  af_url : string;
  af_size : Z;
  af_error : option string
}.

Definition artifact_to_dict (a : Artifact) : dict :=
  [("artifact_id", VStr (af_id a)); ("deployment_id", v_opt_str (af_deployment a)); ("name", VStr (af_name a));
   ("version", VStr (af_version a)); ("artifact_type", VStr (artifact_type_name (af_type a)));
   ("state", VStr (artifact_state_name (af_state a))); ("archive_path", v_opt_str (af_archive a));
   ("extracted_path", v_opt_str (af_extracted a)); ("expected_digest", VStr (af_expected a));
   ("actual_digest", VStr (af_actual a)); ("verified", VBool (af_verified a));
   ("manifest", match af_manifest a with Some m => VDict (manifest_to_dict m) | None => VNone end);
   ("downloaded_at", v_opt_str (isoformat <$> af_downloaded_at a)); ("verified_at", v_opt_str (isoformat <$> af_verified_at a));
   ("activated_at", v_opt_str (isoformat <$> af_activated_at a)); ("source_url", VStr (af_url a));
   ("size_bytes", VInt (af_size a)); ("error", v_opt_str (af_error a))]%string.

Definition with_life (st : ArtifactState) (activated : option Z) (error : option string) (a : Artifact) : Artifact :=
  MkArtifact (af_id a) (af_deployment a) (af_name a) (af_version a) (af_type a) st (af_archive a) (af_extracted a)
    (af_expected a) (af_actual a) (af_verified a) (af_manifest a) (af_downloaded_at a) (af_verified_at a) activated
    (af_url a) (af_size a) error.
Definition in_state (st : ArtifactState) (a : Artifact) : Artifact := with_life st (af_activated_at a) (af_error a) a.
Definition failed_with (e : string) (a : Artifact) : Artifact := with_life FAILED (af_activated_at a) (Some e) a.
Definition activated_at (now : Z) (a : Artifact) : Artifact := with_life ACTIVE (Some now) (af_error a) a.
Definition with_archive (st : ArtifactState) (path actual : string) (size now : Z) (a : Artifact) : Artifact :=
  MkArtifact (af_id a) (af_deployment a) (af_name a) (af_version a) (af_type a) st (Some path) (af_extracted a)
    (af_expected a) actual (af_verified a) (af_manifest a) (Some now) (af_verified_at a) (af_activated_at a) (af_url a) size
    (af_error a).
Definition with_verified (now : Z) (a : Artifact) : Artifact :=
  MkArtifact (af_id a) (af_deployment a) (af_name a) (af_version a) (af_type a) EXTRACTING (af_archive a) (af_extracted a)
    (af_expected a) (af_actual a) true (af_manifest a) (af_downloaded_at a) (Some now) (af_activated_at a) (af_url a)
    (af_size a) (af_error a).
Definition with_contents (st : ArtifactState) (name version : string) (t : ArtifactType) (path : option string)
    (m : option ArtifactManifest) (a : Artifact) : Artifact :=
  MkArtifact (af_id a) (af_deployment a) name version t st (af_archive a) path (af_expected a) (af_actual a) (af_verified a) m
    (af_downloaded_at a) (af_verified_at a) (af_activated_at a) (af_url a) (af_size a) (af_error a).

(** ** The manager *)

Record ArtifactManager := MkStore {
  as_cache_dir : string;
  as_artifacts : list (string * Artifact);
  as_active : option string;
  as_paths : gset string;
  as_index : option (list dict * option string)
}.

Implicit Types s : ArtifactManager.

Definition set_artifacts (l : list (string * Artifact)) s : ArtifactManager :=
  MkStore (as_cache_dir s) l (as_active s) (as_paths s) (as_index s).
Definition put (a : Artifact) s : ArtifactManager := set_artifacts (dset (as_artifacts s) (af_id a) a) s.
Definition set_active (id : option string) s : ArtifactManager :=
  MkStore (as_cache_dir s) (as_artifacts s) id (as_paths s) (as_index s).
Definition set_paths (p : gset string) s : ArtifactManager :=
  MkStore (as_cache_dir s) (as_artifacts s) (as_active s) p (as_index s).

(** [_save_index] *)
Definition save_index s : ArtifactManager :=
  MkStore (as_cache_dir s) (as_artifacts s) (as_active s) (as_paths s)
    (Some (map (fun ka => artifact_to_dict ka.2) (as_artifacts s), as_active s)).

(** [Path(data[k])] when there is one. *)
Definition path_of (d : dict) (k : string) : option (option string) :=
  let v := default VNone (dget d k) in if val_true v then Some <$> as_str v else Some None.

(** An entry of the index; [manifest_at] is what [from_file] yields at a path, when there is a
    manifest.  [None] raises. *)
Definition load_artifact (manifest_at : string -> option (pyres unit ArtifactManifest)) (d : dict) : option Artifact :=
  (let text k := as_str (default (VStr "") (dget d k)) in
   id ← dget d "artifact_id" ≫= as_str;
   deployment ← as_opt as_str (default VNone (dget d "deployment_id"));
   name ← text "name";
   version ← text "version";
   st ← member artifact_state_name all_artifact_states (default (VStr "INACTIVE") (dget d "state"));
   expected ← text "expected_digest";
   actual ← text "actual_digest";
   verified ← as_bool (default (VBool false) (dget d "verified"));
   archive ← path_of d "archive_path";
   extracted ← path_of d "extracted_path";
   manifest ← match extracted ≫= manifest_at with
              | None => Some None
              | Some (Ok m) => Some (Some m)
              | Some (Raise _) => None
              end;
   Some (MkArtifact id deployment name version STRATEGY st archive extracted expected actual verified manifest None None None
           "" 0 None))%string.

(** The loop of [_load_index]: an entry that raises ends it, before the active artifact is
    restored; an entry whose path is gone is left out. *)
Fixpoint load_entries (manifest_at : string -> option (pyres unit ArtifactManifest)) (paths : gset string) (l : list dict)
    (acc : list (string * Artifact)) : list (string * Artifact) * bool :=
  match l with
  | [] => (acc, true)
  | d :: l =>
      match load_artifact manifest_at d with
      | None => (acc, false)
      | Some a =>
          load_entries manifest_at paths l
            (match af_extracted a with
             | Some p => if bool_decide (p ∈ paths) then dset acc (af_id a) a else acc
             | None => acc
             end)
      end
  end.

(** [__init__] on a cache directory that holds [paths] and [index]. *)
Definition new_store (dir : string) (manifest_at : string -> option (pyres unit ArtifactManifest)) (paths : gset string)
    (index : option (list dict * option string)) : ArtifactManager :=
  match index with
  | None => MkStore dir [] None paths None
  | Some (l, active) =>
      let '(artifacts, ok) := load_entries manifest_at paths l [] in
      MkStore dir artifacts (if ok then active else None) paths index
  end.

(** ** Downloading *)

(** The answer to the request: the announced length and the chunks, an [httpx] error, or
    another exception. *)
Inductive Download :=
  | Received (content_length : Z) (chunks : list string)
  | HttpError (e : string)
  | OtherError (e : string).

(** What unpacking an archive of a known format yields, and the manifest it leaves. *)
Record Unpack := MkUnpack {
  up_result : pyres string unit;
  up_manifest : option (pyres string ArtifactManifest)
}.

Inductive artifact_error := DownloadError (m : string) | VerificationError (m : string).

Definition max_size : Z := 500 * 1024 * 1024.

Definition megabytes (n : Z) : string :=
  float_fixed 1 (fdiv (fdiv (float_of_int n) (float_of_int 1024)) (float_of_int 1024)).

Definition too_large (n : Z) : string :=
  ("Artifact too large: " +:+ megabytes n +:+ "MB > 500MB")%string.

(** [_extract_artifact]: whether the name of the archive has a known format. *)
Definition known_format (archive : string) : bool :=
  existsb (ends_with archive) [".tar.gz"; ".tgz"; ".zip"; ".whl"]%string.

(** Extraction: what it raises, or the manifest that is found; another format is copied. *)
Definition extract (u : Unpack) (archive : string) : pyres string (option (pyres string ArtifactManifest)) :=
  if known_format archive then
    match up_result u with
    | Raise e => Raise e
    | Ok _ => Ok (up_manifest u)
    end
  else Ok None.

Definition or_name (a b : string) : string := if truthy (Some a) then a else b.

Section Store.
Context `{Digest}.

Definition sha256_digest (content : string) : string := "sha256:" +:+ sha256_hex content.

Definition normalized (expected : string) : string :=
  if String.prefix "sha256:" expected then expected else "sha256:" +:+ expected.

Definition download_failed (a : Artifact) (e : string) s : ArtifactManager * pyres artifact_error Artifact :=
  (put (failed_with e a) s, Raise (DownloadError ("Artifact download failed: " +:+ e)%string)).

(** The contents of an artifact whose digest was right. *)
Definition unpack_artifact (u : Unpack) (archive : string) (a : Artifact) s : ArtifactManager * pyres artifact_error Artifact :=
  let dir := (as_cache_dir s +:+ "/" +:+ af_id a)%string in
  match extract u archive with
  | Raise e => download_failed a e s
  | Ok found =>
      let s := set_paths ({[dir]} ∪ as_paths s) s in
      match found with
      | Some (Raise e) => download_failed (with_contents EXTRACTING (af_name a) (af_version a) (af_type a) (Some dir) (af_manifest a) a) e s
      | Some (Ok m) =>
          let a := with_contents READY (or_name (mf_name m) (af_name a)) (mf_version m) (mf_type m) (Some dir) (Some m) a in
          (save_index (put a s), Ok a)
      | None =>
          let a := with_contents READY (af_name a) (af_version a) (af_type a) (Some dir) (Some default_restrictive) a in
          (save_index (put a s), Ok a)
      end
  end.

Definition new_artifact (id url expected : string) (deployment name : option string) : Artifact :=
  MkArtifact id deployment (default "" name) "" STRATEGY DOWNLOADING None None expected "" false None None None None url 0 None.

Definition download_and_verify (x : Download) (u : Unpack) (now : Z) (id url expected : string)
    (deployment name : option string) s : ArtifactManager * pyres artifact_error Artifact :=
  let a := new_artifact id url expected deployment name in
  match x with
  | HttpError e =>
      let m := ("Download failed: " +:+ e)%string in (put (failed_with m a) s, Raise (DownloadError m))
  | OtherError e => download_failed a e s
  | Received total chunks =>
      if max_size <? total then download_failed a (too_large total) s
      else
        let content := fold_left String.append chunks "" in
        let archive := (as_cache_dir s +:+ "/" +:+ id +:+ ".download")%string in
        let a := with_archive VERIFYING archive (sha256_digest content) (Z.of_nat (String.length content)) now a in
        if bool_decide (sha256_digest content = normalized expected) then unpack_artifact u archive (with_verified now a) s
        else
          let m := ("Digest mismatch: expected " +:+ normalized expected +:+ ", got " +:+ sha256_digest content)%string in
          (put (failed_with m a) s, Raise (VerificationError m))
  end.

(** [verify_local]; [content] is that of the file [manifest.json] in the extracted path. *)
Definition verify_local (content : option string) (id : string) s : bool :=
  match dget (as_artifacts s) id with
  | None => false
  | Some a =>
      match af_extracted a with
      | None => false
      | Some _ =>
          match content, af_manifest a with
          | Some c, Some m => if truthy (Some (mf_checksum m)) then bool_decide (sha256_hex c = mf_checksum m) else af_verified a
          | _, _ => af_verified a
          end
      end
  end.

(** [download_verify_and_prepare]; [verify] is the answer of the verifier, when one is given:
    verified, or the reason and the details of the rejection. *)
Definition download_verify_and_prepare (x : Download) (u : Unpack) (verify : option (pyres (string * string) unit))
    (now : Z) (id url expected : string) (deployment name : option string) s :
    ArtifactManager * pyres artifact_error Artifact :=
  match download_and_verify x u now id url expected deployment name s with
  | (s, Raise e) => (s, Raise e)
  | (s, Ok a) =>
      match verify with
      | None => (save_index s, Ok a)
      | Some answer =>
          match extract u (default "" (af_archive a)) with
          | Ok (Some (Ok _)) =>
              match answer with
              | Ok _ => (save_index s, Ok a)
              | Raise (why, details) =>
                  let m := ("Cryptographic verification failed: " +:+ why +:+ " - " +:+ details)%string in
                  (save_index (put (failed_with m a) s), Raise (VerificationError m))
              end
          | _ =>
              let m := "No manifest found for signature verification"%string in
              (put (failed_with m a) s, Raise (VerificationError m))
          end
      end
  end.
End Store.

(** ** Activation *)

Definition on_artifact (f : Artifact -> Artifact) (id : string) s : ArtifactManager :=
  match dget (as_artifacts s) id with
  | Some a => put (f a) s
  | None => s
  end.

Definition activate (now : Z) (id : string) s : ArtifactManager * bool :=
  match dget (as_artifacts s) id with
  | None => (s, false)
  | Some a =>
      if negb (bool_decide (af_state a ∈ [READY; INACTIVE])) then (s, false)
      else
        let s :=
          match as_active s with
          | Some old => if truthy (Some old) && negb (bool_decide (old = id)) then on_artifact (in_state INACTIVE) old s else s
          | None => s
          end in
        (save_index (set_active (Some id) (put (activated_at now a) s)), true)
  end.

Definition deactivate (id : string) s : ArtifactManager * bool :=
  match dget (as_artifacts s) id with
  | None => (s, false)
  | Some a =>
      let s' := put (in_state INACTIVE a) s in
      (save_index (if bool_decide (as_active s = Some id) then set_active None s' else s'), true)
  end.

(** The end of [swap] and of [execute_upgrade]: the old artifact is put aside, then the new
    one, which is ready, becomes the active one. *)
Definition replace_active (now : Z) (old : option string) (new : string) s : ArtifactManager * bool :=
  match dget (as_artifacts s) new with
  | None => (s, false)
  | Some a =>
      if negb (bool_decide (af_state a = READY)) then (s, false)
      else
        let s := match old with Some old => on_artifact (in_state INACTIVE) old s | None => s end in
        (save_index (set_active (Some new) (on_artifact (activated_at now) new s)), true)
  end.

Definition swap (now : Z) (old new : string) s : ArtifactManager * bool := replace_active now (Some old) new s.

Definition execute_upgrade (now : Z) (current : option string) (new : string) s : ArtifactManager * bool :=
  replace_active now (if truthy current then current else None) new s.

(** [prepare_upgrade] *)
Definition prepare_upgrade (a : Artifact) s : bool :=
  bool_decide (af_state a = READY) &&
  match af_extracted a with
  | Some p => bool_decide (p ∈ as_paths s)
  | None => false
  end.

(** ** Deleting and reading *)

Definition delete_artifact (id : string) s : ArtifactManager * bool :=
  match dget (as_artifacts s) id with
  | None => (s, false)
  | Some a =>
      if bool_decide (af_state a = ACTIVE) then (s, false)
      else
        let s := match af_extracted a with Some p => set_paths (as_paths s ∖ {[p]}) s | None => s end in
        (save_index (set_artifacts (ddel (as_artifacts s) id) s), true)
  end.

(** [a.activated_at or datetime.min] is before that of [b]. *)
Definition older (a b : Artifact) : bool :=
  match af_activated_at a, af_activated_at b with
  | None, Some _ => true
  | Some t, Some u => t <? u
  | _, None => false
  end.

(** [inactive.sort(key=..., reverse=True)]: the order of equal keys is kept. *)
Fixpoint insert_recent (a : Artifact) (l : list Artifact) : list Artifact :=
  match l with
  | [] => [a]
  | b :: r => if older a b then b :: insert_recent a r else a :: l
  end.

Definition by_recency (l : list Artifact) : list Artifact := fold_right insert_recent [] l.

Definition cleanup_old (keep : Z) s : ArtifactManager * Z :=
  let inactive := by_recency (List.filter (fun a => bool_decide (af_state a = INACTIVE)) (map snd (as_artifacts s))) in
  let rest := if 0 <=? keep then drop (Z.to_nat keep) inactive else py_last (- keep) inactive in
  fold_left
    (fun (acc : ArtifactManager * Z) a =>
       let '(s, ok) := delete_artifact (af_id a) acc.1 in (s, if ok then acc.2 + 1 else acc.2))
    rest (s, 0).

Definition get_permissions (id : string) s : option ArtifactManifest :=
  a ← dget (as_artifacts s) id; Some (default default_restrictive (af_manifest a)).

Definition get_artifact (id : string) s : option Artifact := dget (as_artifacts s) id.

Definition get_active_artifact s : option Artifact :=
  match as_active s with
  | Some id => if truthy (Some id) then dget (as_artifacts s) id else None
  | None => None
  end.

Definition get_artifact_path (id : string) s : option string := a ← dget (as_artifacts s) id; af_extracted a.

Definition list_artifacts s : list Artifact := map snd (as_artifacts s).

Definition artifacts_by_state s : list (string * nat) :=
  map (fun st => (artifact_state_name st, List.length (List.filter (fun a => bool_decide (af_state a = st)) (list_artifacts s))))
    all_artifact_states.

(** * Theorems on the artifact manager

    The active artifact is one whose digest was right, and the only active one, over any
    downloads, activations, upgrades, deletions and restarts from the index; and runs in
    which the manager does not do what it means to. *)


(** ** Runs *)

Section Runs.
Context `{Digest}.

Inductive store_op :=
  | SDownload (x : Download) (u : Unpack) (now : Z) (id url expected : string) (deployment name : option string)
  | SPrepare (x : Download) (u : Unpack) (verify : option (pyres (string * string) unit)) (now : Z)
      (id url expected : string) (deployment name : option string)
  | SActivate (now : Z) (id : string)
  | SDeactivate (id : string)
  | SSwap (now : Z) (old new : string)
  | SUpgrade (now : Z) (current : option string) (new : string)
  | SDelete (id : string)
  | SCleanup (keep : Z)
  | SRestart (manifest_at : string -> option (pyres unit ArtifactManifest)) (paths : gset string).

Definition store_step s (op : store_op) : ArtifactManager :=
  match op with
  | SDownload x u now id url expected deployment name =>
      (download_and_verify x u now id url expected deployment name s).1
  | SPrepare x u verify now id url expected deployment name =>
      (download_verify_and_prepare x u verify now id url expected deployment name s).1
  | SActivate now id => (activate now id s).1
  | SDeactivate id => (deactivate id s).1
  | SSwap now old new => (swap now old new s).1
  | SUpgrade now current new => (execute_upgrade now current new s).1
  | SDelete id => (delete_artifact id s).1
  | SCleanup keep => (cleanup_old keep s).1
  | SRestart manifest_at paths => new_store (as_cache_dir s) manifest_at paths (as_index s)
  end.

Definition store_run (ops : list store_op) s : ArtifactManager := fold_left store_step ops s.

(** The states in which an artifact can be used. *)
Definition usable (st : ArtifactState) : bool := bool_decide (st ∈ [READY; ACTIVE; INACTIVE]).

(** An artifact is put aside only if it could be used, when it is there. *)
Definition aside (id : string) s : bool :=
  match dget (as_artifacts s) id with
  | Some a => usable (af_state a)
  | None => true
  end.

(** What the callers keep to: identifiers are fresh, an artifact that is put aside could be
    used, an upgrade names the artifact that is active, and the manifests of the index can
    be read. *)
Definition fair_op s (op : store_op) : Prop :=
  match op with
  | SDownload _ _ _ id _ _ _ _ | SPrepare _ _ _ _ id _ _ _ _ =>
      truthy (Some id) = true /\ dget (as_artifacts s) id = None /\ as_active s <> Some id
  | SDeactivate id => aside id s = true
  | SSwap _ old _ => aside old s = true /\ (as_active s = Some old \/ as_active s = None)
  | SUpgrade _ current _ => current = as_active s
  | SRestart manifest_at _ => forall p, manifest_at p <> Some (Raise tt)
  | _ => True
  end.

Fixpoint fair_run (ops : list store_op) s : Prop :=
  match ops with
  | [] => True
  | op :: ops => fair_op s op /\ fair_run ops (store_step s op)
  end.

(** ** The invariant *)

(** An artifact that can be used has the digest that was expected. *)
Definition sound (a : Artifact) : Prop :=
  usable (af_state a) = true -> af_verified a = true /\ af_actual a = normalized (af_expected a).

Definition registry_ok (l : list (string * Artifact)) (active : option string) : Prop :=
  NoDup l.*1 /\
  forall id a, dget l id = Some a ->
    truthy (Some id) = true /\ af_id a = id /\ sound a /\ (af_state a = ACTIVE <-> active = Some id).

Definition store_ok s : Prop :=
  registry_ok (as_artifacts s) (as_active s) /\
  match as_index s with
  | Some (l, active) => exists arts, l = map (fun ka => artifact_to_dict ka.2) arts /\ registry_ok arts active
  | None => True
  end.

Lemma saved_ok s : registry_ok (as_artifacts s) (as_active s) -> store_ok (save_index s).
Proof. intros Hr. split; [exact Hr|]. exists (as_artifacts s). by split. Qed.

Lemma registry_put l active id a :
  registry_ok l active -> truthy (Some id) = true -> af_id a = id -> sound a -> (af_state a = ACTIVE <-> active = Some id) ->
  registry_ok (dset l id a) active.
Proof.
  intros [Hn Hl] Ht Hi Hs Ha. split; [by apply NoDup_dset|]. intros k b. destruct (decide (k = id)) as [->|Hk].
  - rewrite dget_dset_eq. by intros [= <-].
  - rewrite dget_dset_ne by done. apply Hl.
Qed.

Lemma registry_del l active id :
  registry_ok l active -> registry_ok (ddel l id) active.
Proof.
  intros [Hn Hl]. split; [by apply NoDup_ddel|]. intros k b. destruct (decide (k = id)) as [->|Hk].
  - by rewrite dget_ddel_eq.
  - rewrite dget_ddel_ne by done. apply Hl.
Qed.

Lemma sound_inactive a : usable (af_state a) = true -> sound a -> sound (in_state INACTIVE a).
Proof. intros Hu Hs _. by apply Hs. Qed.

Lemma sound_active now a : usable (af_state a) = true -> sound a -> sound (activated_at now a).
Proof. intros Hu Hs _. by apply Hs. Qed.

(** One artifact becomes the active one, the one before it is put aside. *)
Lemma registry_move l active l' new a b :
  registry_ok l active -> dget l new = Some a -> NoDup l'.*1 -> dget l' new = Some b ->
  af_id b = new -> sound b -> af_state b = ACTIVE ->
  (forall k c', k <> new -> dget l' k = Some c' -> exists c, dget l k = Some c /\
     ((c' = c /\ active <> Some k) \/ (c' = in_state INACTIVE c /\ usable (af_state c) = true))) ->
  registry_ok l' (Some new).
Proof.
  intros [Hn Hl] Ha Hn' Hb Hi Hs Hact Hrest. split; [done|]. intros k c' Hc.
  destruct (decide (k = new)) as [->|Hk].
  - rewrite Hb in Hc. injection Hc as <-. destruct (Hl new a Ha) as (Ht & _). split_and!; done.
  - destruct (Hrest k c' Hk Hc) as (c & Hlc & Hcase). destruct (Hl k c Hlc) as (Ht & Hic & Hsc & Hac).
    assert (Some new <> Some k) as Hne by congruence.
    destruct Hcase as [[-> Hna]|[-> Hu]].
    + split_and!; [done..|]. split; [intros Hx; by apply Hac in Hx|done].
    + split_and!; [done|done|by apply sound_inactive|]. split; [intros [=]|done].
Qed.

Lemma on_artifact_other f id k s : k <> id -> (forall a, af_id (f a) = af_id a) ->
  (forall a, dget (as_artifacts s) id = Some a -> af_id a = id) ->
  dget (as_artifacts (on_artifact f id s)) k = dget (as_artifacts s) k.
Proof.
  intros Hk Hf Hi. unfold on_artifact. destruct (dget (as_artifacts s) id) as [a|] eqn:Ea; [|done].
  cbn. apply dget_dset_ne. by rewrite Hf, (Hi a eq_refl).
Qed.

Lemma on_artifact_at f id s a : (forall a, af_id (f a) = af_id a) -> dget (as_artifacts s) id = Some a -> af_id a = id ->
  dget (as_artifacts (on_artifact f id s)) id = Some (f a).
Proof. intros Hf Ha Hi. unfold on_artifact. rewrite Ha. cbn. rewrite Hf, Hi. apply dget_dset_eq. Qed.

Lemma on_artifact_nodup f id s : NoDup (as_artifacts s).*1 -> NoDup (as_artifacts (on_artifact f id s)).*1.
Proof. intros Hn. unfold on_artifact. destruct (dget (as_artifacts s) id); [by apply NoDup_dset|done]. Qed.

Lemma ready_usable st : st ∈ [READY; INACTIVE] -> usable st = true.
Proof. destruct st; try done; intros Hs; exfalso; revert Hs; apply (bool_decide_eq_false_1 _); reflexivity. Qed.

(** What the registry holds after [old] is put aside. *)
Lemma put_aside_at old k c' s : registry_ok (as_artifacts s) (as_active s) ->
  dget (as_artifacts (on_artifact (in_state INACTIVE) old s)) k = Some c' ->
  exists c, dget (as_artifacts s) k = Some c /\ ((k <> old /\ c' = c) \/ (k = old /\ c' = in_state INACTIVE c)).
Proof.
  intros [Hn Hl]. destruct (decide (k = old)) as [Hk|Hk].
  - subst k. destruct (dget (as_artifacts s) old) as [c|] eqn:E.
    + destruct (Hl old c E) as (_ & Hi & _). rewrite (on_artifact_at _ _ _ c) by done. intros [= <-].
      exists c. split; [done|by right].
    + unfold on_artifact. rewrite E. congruence.
  - rewrite on_artifact_other; [|done..|]; [|intros b Hb; by destruct (Hl old b Hb) as (_ & -> & _)].
    intros Hc. exists c'. split; [done|by left].
Qed.

(** The common end of [activate], [swap] and [execute_upgrade]. *)
Lemma make_active now id a s s' :
  registry_ok (as_artifacts s) (as_active s) -> is_Some (dget (as_artifacts s) id) -> NoDup (as_artifacts s').*1 ->
  af_id a = id -> usable (af_state a) = true -> sound a ->
  (forall k c', k <> id -> dget (as_artifacts s') k = Some c' -> exists c, dget (as_artifacts s) k = Some c /\
     ((c' = c /\ as_active s <> Some k) \/ (c' = in_state INACTIVE c /\ usable (af_state c) = true))) ->
  store_ok (save_index (set_active (Some id) (put (activated_at now a) s'))).
Proof.
  intros Hr [b Hb] Hn Hi Hu Hs Hrest. apply saved_ok. cbn [set_active put set_artifacts as_artifacts as_active].
  assert (af_id (activated_at now a) = id) as -> by done.
  apply (registry_move (as_artifacts s) (as_active s) _ id b (activated_at now a)); try done.
  - by apply NoDup_dset.
  - apply dget_dset_eq.
  - by apply sound_active.
  - intros k c' Hk. rewrite dget_dset_ne by done. by apply Hrest.
Qed.

Lemma activate_ok now id s : store_ok s -> store_ok (activate now id s).1.
Proof.
  intros [Hr Hx]. unfold activate. destruct (dget (as_artifacts s) id) as [a|] eqn:Ea; [|by split].
  destruct (bool_decide (af_state a ∈ _)) eqn:Es; cbn [negb]; [|by split]. apply bool_decide_eq_true in Es.
  pose proof Hr as [Hn Hl]. destruct (Hl id a Ea) as (Ht & Hi & Hs & Ha). pose proof (ready_usable _ Es) as Hu.
  set (s' := match as_active s with Some old => _ | None => s end).
  assert (NoDup (as_artifacts s').*1) as Hn'.
  { subst s'. destruct (as_active s) as [old|]; [|done]. destruct (_ && _); [|done]. by apply on_artifact_nodup. }
  apply (make_active now id a s s'); try done. intros k c' Hk Hc. subst s'.
  destruct (as_active s) as [old|] eqn:Eo; [|exists c'; by split; [|left]].
  destruct (_ && _) eqn:Et.
  - destruct (put_aside_at old k c' s) as (c & Hlc & [[Hko ->]|[-> ->]]); [by rewrite Eo|done|..]; exists c; (split; [done|]).
    + left. split; congruence.
    + right. split; [done|]. destruct (Hl old c Hlc) as (_ & _ & _ & Hac). by rewrite (proj2 Hac).
  - exists c'. split; [done|left; split; [done|]]. intros [= ->]. destruct (Hl k c' Hc) as (Htk & _).
    rewrite Htk, bool_decide_eq_false_2 in Et by done. done.
Qed.

Lemma deactivate_ok id s : aside id s = true -> store_ok s -> store_ok (deactivate id s).1.
Proof.
  intros Hu [Hr Hx]. pose proof Hr as [Hn Hl]. unfold aside in Hu. unfold deactivate.
  destruct (dget (as_artifacts s) id) as [a|] eqn:Ea; [|by split].
  destruct (Hl id a Ea) as (Ht & Hi & Hs & Ha). apply saved_ok.
  assert (registry_ok (dset (as_artifacts s) id (in_state INACTIVE a)) (if bool_decide (as_active s = Some id) then None else as_active s)) as H1.
  { split; [by apply NoDup_dset|]. intros k b. destruct (decide (k = id)) as [->|Hk].
    - rewrite dget_dset_eq. intros [= <-]. split_and!; [done|done|by apply sound_inactive|].
      split; [done|]. by case_bool_decide.
    - rewrite dget_dset_ne by done. intros Hb. destruct (Hl k b Hb) as (? & ? & ? & Hab). split_and!; [done..|].
      rewrite Hab. case_bool_decide as Ho; [|done]. split; congruence. }
  rewrite <- Hi in H1 at 1. by case_bool_decide.
Qed.

Lemma replace_active_ok now old new s :
  (match old with
   | Some o => aside o s = true /\ (as_active s = Some o \/ as_active s = None)
   | None => truthy (as_active s) = false
   end) ->
  store_ok s -> store_ok (replace_active now old new s).1.
Proof.
  intros Hold [Hr Hx]. pose proof Hr as [Hn Hl]. unfold replace_active.
  destruct (dget (as_artifacts s) new) as [a|] eqn:Ea; [|by split].
  destruct (bool_decide (af_state a = READY)) eqn:Es; cbn [negb fst]; [|by split]. apply bool_decide_eq_true in Es.
  destruct (Hl new a Ea) as (Ht & Hi & Hs & Ha).
  set (s' := match old with Some o => _ | None => s end).
  assert (NoDup (as_artifacts s').*1) as Hn' by (subst s'; destruct old; [by apply on_artifact_nodup|done]).
  assert (exists a', dget (as_artifacts s') new = Some a' /\ af_id a' = new /\ usable (af_state a') = true /\ sound a') as (a' & Ea' & Hi' & Hu' & Hs').
  { assert (usable (af_state a) = true) as Hu by by rewrite Es. subst s'. destruct old as [o|]; [|by exists a].
    destruct (decide (o = new)) as [Ho|Ho].
    - subst o. exists (in_state INACTIVE a). split_and!; [by apply on_artifact_at|done|done|by apply sound_inactive].
    - exists a. rewrite on_artifact_other; [done..|]. intros b Hb. by destruct (Hl o b Hb) as (_ & -> & _). }
  unfold on_artifact. rewrite Ea'. apply (make_active now new a' s s'); try done. intros k c' Hk Hc. subst s'.
  destruct old as [o|].
  - destruct Hold as [Has Hac]. destruct (put_aside_at o k c' s Hr Hc) as (c & Hlc & [[Hko ->]|[-> ->]]); exists c; (split; [done|]).
    + left. split; [done|]. destruct Hac; congruence.
    + right. split; [done|]. unfold aside in Has. by rewrite Hlc in Has.
  - exists c'. split; [done|left; split; [done|]]. intros Hk'. destruct (Hl k c' Hc) as (Htk & _). congruence.
Qed.

Lemma upgrade_fair current s : current = as_active s -> registry_ok (as_artifacts s) (as_active s) ->
  match (if truthy current then current else None) with
  | Some o => aside o s = true /\ (as_active s = Some o \/ as_active s = None)
  | None => truthy (as_active s) = false
  end.
Proof.
  intros -> [_ Hl]. destruct (truthy (as_active s)) eqn:Et; [|done]. destruct (as_active s) as [o|] eqn:Eo; [|done].
  split; [|by left]. unfold aside. destruct (dget (as_artifacts s) o) as [b|] eqn:Eb; [|done].
  destruct (Hl o b Eb) as (_ & _ & _ & Hb). by rewrite (proj2 Hb).
Qed.

Lemma delete_ok id s : store_ok s -> store_ok (delete_artifact id s).1.
Proof.
  intros [Hr Hx]. unfold delete_artifact. destruct (dget (as_artifacts s) id) as [a|]; [|by split].
  case_bool_decide; [by split|]. apply saved_ok. destruct (af_extracted a); by apply registry_del.
Qed.

Lemma cleanup_ok keep s : store_ok s -> store_ok (cleanup_old keep s).1.
Proof.
  unfold cleanup_old. match goal with |- context [fold_left _ ?x _] => generalize x as l end. generalize 0 as n.
  intros n l. revert n s. induction l as [|a l IH]; intros n s Hs; [done|]. cbn [fold_left fst snd].
  destruct (delete_artifact (af_id a) s) as [s' ok] eqn:E. apply IH.
  pose proof (delete_ok (af_id a) s Hs) as H1. by rewrite E in H1.
Qed.

Lemma put_ok id a s : store_ok s -> truthy (Some id) = true -> as_active s <> Some id ->
  af_id a = id -> sound a -> af_state a <> ACTIVE -> store_ok (put a s).
Proof. intros [Hr Hx] Ht Hn <- Hs Ha. split; [|done]. by apply registry_put. Qed.

Lemma put_failed_ok id e a s : store_ok s -> truthy (Some id) = true -> as_active s <> Some id ->
  af_id a = id -> store_ok (put (failed_with e a) s).
Proof. intros Hs Ht Hn Hi. by apply (put_ok id). Qed.

Lemma save_ok s : store_ok s -> store_ok (save_index s).
Proof. intros [Hr _]. by apply saved_ok. Qed.

Definition prepared (id : string) s (r : ArtifactManager * pyres artifact_error Artifact) : Prop :=
  store_ok r.1 /\ as_active r.1 = as_active s /\
  match r.2 with
  | Ok a => af_id a = id
  | Raise _ => True
  end.

Lemma unpack_prepared u archive id a s : store_ok s -> truthy (Some id) = true -> as_active s <> Some id ->
  af_id a = id -> af_verified a = true -> af_actual a = normalized (af_expected a) -> af_state a <> ACTIVE ->
  prepared id s (unpack_artifact u archive a s).
Proof.
  intros Hs Ht Hn Hi Hv Hd Ha. unfold unpack_artifact. destruct (extract u archive) as [[[m|e]|]|e].
  - split_and!; [|done..]. by apply save_ok, (put_ok id).
  - split_and!; [|done..]. by apply (put_failed_ok id).
  - split_and!; [|done..]. by apply save_ok, (put_ok id).
  - split_and!; [|done..]. by apply (put_failed_ok id).
Qed.

Lemma download_prepared x u now id url expected deployment name s :
  store_ok s -> truthy (Some id) = true -> as_active s <> Some id ->
  prepared id s (download_and_verify x u now id url expected deployment name s).
Proof.
  intros Hs Ht Hn. unfold download_and_verify. destruct x as [total chunks|e|e].
  - destruct (max_size <? total).
    + split_and!; [|done..]. by apply (put_failed_ok id).
    + cbv zeta. case_bool_decide as Hd; [by apply unpack_prepared|].
      split_and!; [|done..]. by apply (put_failed_ok id).
  - split_and!; [|done..]. by apply (put_failed_ok id).
  - split_and!; [|done..]. by apply (put_failed_ok id).
Qed.

Lemma prepare_ok x u verify now id url expected deployment name s :
  store_ok s -> truthy (Some id) = true -> as_active s <> Some id ->
  store_ok (download_verify_and_prepare x u verify now id url expected deployment name s).1.
Proof.
  intros Hs Ht Hn. unfold download_verify_and_prepare.
  pose proof (download_prepared x u now id url expected deployment name s Hs Ht Hn) as (H1 & H2 & H3).
  destruct (download_and_verify x u now id url expected deployment name s) as [s' [a|e]]; [|done].
  cbn [fst snd] in *. rewrite <- H2 in Hn. destruct verify as [[v|[why details]]|]; [..|by apply save_ok].
  - destruct (extract u _) as [[[m|e]|]|e]; try by apply (put_failed_ok id). by apply save_ok.
  - destruct (extract u _) as [[[m|e]|]|e]; try by apply (put_failed_ok id). by apply save_ok, (put_failed_ok id).
Qed.

(** ** Restarts *)

Lemma path_read d k o : dget d k = Some (v_opt_str o) -> exists p, path_of d k = Some p.
Proof. intros E. unfold path_of. rewrite E. destruct o as [[|c q]|]; by eexists. Qed.

Lemma member_state st : member artifact_state_name all_artifact_states (VStr (artifact_state_name st)) = Some st.
Proof. by destruct st. Qed.

(** A saved entry is read back, with what the invariant is about. *)
Lemma load_saved manifest_at a : (forall p, manifest_at p <> Some (Raise tt)) ->
  exists b, load_artifact manifest_at (artifact_to_dict a) = Some b /\ af_id b = af_id a /\ af_state b = af_state a /\
    af_expected b = af_expected a /\ af_actual b = af_actual a /\ af_verified b = af_verified a.
Proof.
  intros Hm.
  assert (exists p, path_of (artifact_to_dict a) "archive_path" = Some p) as [p Hp] by (apply (path_read _ _ (af_archive a)); reflexivity).
  assert (exists q, path_of (artifact_to_dict a) "extracted_path" = Some q) as [q Hq] by (apply (path_read _ _ (af_extracted a)); reflexivity).
  assert (exists m, match q ≫= manifest_at with None => Some None | Some (Ok m) => Some (Some m) | Some (Raise _) => None end = Some m) as [m Hman].
  { destruct (q ≫= manifest_at) as [[m|[]]|] eqn:E; [by eexists| |by eexists]. destruct q as [q|]; [|done]. by destruct (Hm q). }
  assert (exists dep, as_opt as_str (v_opt_str (af_deployment a)) = Some dep) as [dep Hdep] by (destruct (af_deployment a); by eexists).
  unfold load_artifact. rewrite Hp, Hq.
  assert (forall k v, dget (artifact_to_dict a) k = Some v -> dget (artifact_to_dict a) k = Some v) as Hid by done.
  rewrite (Hid "artifact_id" (VStr (af_id a)))%string by reflexivity.
  rewrite (Hid "deployment_id" (v_opt_str (af_deployment a)))%string by reflexivity.
  rewrite (Hid "name" (VStr (af_name a)))%string by reflexivity.
  rewrite (Hid "version" (VStr (af_version a)))%string by reflexivity.
  rewrite (Hid "state" (VStr (artifact_state_name (af_state a))))%string by reflexivity.
  rewrite (Hid "expected_digest" (VStr (af_expected a)))%string by reflexivity.
  rewrite (Hid "actual_digest" (VStr (af_actual a)))%string by reflexivity.
  rewrite (Hid "verified" (VBool (af_verified a)))%string by reflexivity.
  cbn [default from_option mbind option_bind as_str as_bool]. unfold id. rewrite Hdep.
  cbn [mbind option_bind]. rewrite member_state. cbn [mbind option_bind].
  change (option_bind string _ manifest_at q) with (q ≫= manifest_at). rewrite Hman. cbn [mbind option_bind].
  eexists. split; [reflexivity|]. by split_and!.
Qed.

Lemma sound_loaded a b : af_state b = af_state a -> af_expected b = af_expected a -> af_actual b = af_actual a ->
  af_verified b = af_verified a -> sound a -> sound b.
Proof. unfold sound. by intros -> -> -> ->. Qed.

Lemma load_entries_ok manifest_at paths active arts acc : (forall p, manifest_at p <> Some (Raise tt)) ->
  (forall a, a ∈ arts -> truthy (Some (af_id a)) = true /\ sound a /\ (af_state a = ACTIVE <-> active = Some (af_id a))) ->
  registry_ok acc active ->
  exists l, load_entries manifest_at paths (map artifact_to_dict arts) acc = (l, true) /\ registry_ok l active.
Proof.
  intros Hm. revert acc. induction arts as [|a arts IH]; intros acc Ha Hacc; [by exists acc|].
  cbn [map load_entries]. destruct (load_saved manifest_at a Hm) as (b & -> & Hi & Hst & He & Hac & Hv).
  apply IH; [by intros c Hc; apply Ha, elem_of_cons; right|].
  destruct (Ha a) as (Ht & Hs & Hact); [apply elem_of_cons; by left|].
  destruct (af_extracted b) as [p|]; [|done]. case_bool_decide; [|done].
  apply registry_put; [done|by rewrite Hi|done|by apply (sound_loaded a)|by rewrite Hst, Hi].
Qed.

Lemma restart_ok dir manifest_at paths s : (forall p, manifest_at p <> Some (Raise tt)) ->
  store_ok s -> store_ok (new_store dir manifest_at paths (as_index s)).
Proof.
  intros Hm [_ Hx]. destruct (as_index s) as [[l active]|]; [|by split; [split; [constructor|]|]].
  destruct Hx as (arts & -> & Hr). pose proof Hr as [Hn Hl].
  destruct (load_entries_ok manifest_at paths active (map snd arts) [] Hm) as (l & E & Hok).
  - intros a Ha. apply list_elem_of_In, in_map_iff in Ha as ([k b] & <- & Hb). cbn.
    destruct (Hl k b) as (Ht & Hi & Hs & Hact); [by apply elem_dget, list_elem_of_In|]. by rewrite Hi.
  - split; [constructor|done].
  - unfold new_store. rewrite map_map in E. rewrite E. split; [exact Hok|]. by exists arts.
Qed.

Lemma store_step_ok op s : fair_op s op -> store_ok s -> store_ok (store_step s op).
Proof.
  intros Hf Hs. destruct op; cbn [store_step fair_op] in *.
  - destruct Hf as (Ht & _ & Hn). by destruct (download_prepared x u now id url expected deployment name s Hs Ht Hn).
  - destruct Hf as (Ht & _ & Hn). by apply prepare_ok.
  - by apply activate_ok.
  - by apply deactivate_ok.
  - by apply replace_active_ok.
  - destruct Hs as [Hr Hx]. apply replace_active_ok; [by apply upgrade_fair|by split].
  - by apply delete_ok.
  - by apply cleanup_ok.
  - by apply restart_ok.
Qed.

Lemma store_run_ok ops s : fair_run ops s -> store_ok s -> store_ok (store_run ops s).
Proof.
  revert s. induction ops as [|op ops IH]; intros s Hf Hs; [done|]. destruct Hf as [Hf Hr].
  by apply IH, store_step_ok.
Qed.

Definition empty_store (dir : string) : ArtifactManager := MkStore dir [] None ∅ None.

(** C20: the artifact that a client is told is active is marked as active, its content had
    the digest that was asked for, and no other artifact is active: over any downloads,
    preparations, activations, upgrades, deletions and clean-ups, and restarts from the
    index with any files left in the cache (and manifests that can be read), as long as the callers use fresh identifiers,
    put aside only what could be used and name the active artifact when they replace it. *)
Theorem active_artifact_verified dir ops : fair_run ops (empty_store dir) ->
  let s := store_run ops (empty_store dir) in
  (forall a, get_active_artifact s = Some a ->
     af_state a = ACTIVE /\ af_verified a = true /\ af_actual a = normalized (af_expected a)) /\
  (forall a b, a ∈ list_artifacts s -> b ∈ list_artifacts s -> af_state a = ACTIVE -> af_state b = ACTIVE -> a = b).
Proof.
  intros Hf. cbv zeta. destruct (store_run_ok ops _ Hf) as [[Hn Hl] _]; [by split; [split; [constructor|]|]|].
  set (s := store_run ops _) in *. split.
  - intros a Ha. unfold get_active_artifact in Ha. destruct (as_active s) as [id|] eqn:Ei; [|done].
    destruct (truthy (Some id)); [|done]. destruct (Hl id a Ha) as (_ & _ & Hs & Hact).
    assert (af_state a = ACTIVE) as Hst by by apply Hact. split; [done|]. apply Hs. by rewrite Hst.
  - assert (forall a, a ∈ list_artifacts s -> af_state a = ACTIVE -> exists k, as_active s = Some k /\ dget (as_artifacts s) k = Some a) as H1.
    { intros a Ha Hst. apply list_elem_of_In, in_map_iff in Ha as ([k a'] & <- & Hka). exists k.
      apply list_elem_of_In, (elem_dget _ _ _ Hn) in Hka. split; [|done]. destruct (Hl _ _ Hka) as (_ & _ & _ & Hx). by apply Hx. }
    intros a b Ha Hb Hsa Hsb. destruct (H1 a Ha Hsa) as (k & Hk & Hka), (H1 b Hb Hsb) as (k' & Hk' & Hkb). congruence.
Qed.
End Runs.

Definition an_artifact : string := sha256_digest "strategy one".
Definition another_artifact : string := sha256_hex "strategy two".
Definition no_archive : Unpack := MkUnpack (Ok tt) None.
Definition received (t : string) : Download := Received (Z.of_nat (String.length t)) [t].

Definition upgrades : list store_op :=
  [SDownload (received "strategy one") no_archive 1000 "one" "https://cloud/one" an_artifact None None;
   SActivate 2000 "one";
   SDownload (received "strategy two") no_archive 3000 "two" "https://cloud/two" another_artifact None None;
   SDownload (received "strategy 2") no_archive 3500 "bad" "https://cloud/two" another_artifact None None;
   SUpgrade 4000 (Some "one") "two"; SCleanup 0; SRestart (fun _ => None) {["/cache/two"]}]%string.

Lemma active_artifact_verified_witness :
  fair_run upgrades (empty_store "/cache") /\
  (forall a, get_active_artifact (store_run upgrades (empty_store "/cache")) = Some a ->
     af_state a = ACTIVE /\ af_verified a = true /\ af_actual a = normalized (af_expected a)) /\
  (af_id <$> get_active_artifact (store_run upgrades (empty_store "/cache"))) = Some "two"%string.
Proof.
  assert (fair_run upgrades (empty_store "/cache")) as Hf.
  { cbn [fair_run upgrades fair_op]. split_and!; vm_compute; done. }
  split_and!; [exact Hf|exact (proj1 (active_artifact_verified "/cache" upgrades Hf))|vm_compute; reflexivity].
Defined.

(** ** What the manager does not do *)

Lemma download_format dir id : known_format (dir +:+ "/" +:+ id +:+ ".download") = false.
Proof.
  replace (dir +:+ "/" +:+ id +:+ ".download")%string with ((dir +:+ "/" +:+ id) +:+ ".download")%string.
  - unfold known_format, ends_with. rewrite chars_app, rev_app_distr. generalize (rev (chars (dir +:+ "/" +:+ id))) as r.
    intros r. reflexivity.
  - induction dir as [|c dir IH].
    + done.
    + change (String c ((dir +:+ "/" +:+ id) +:+ ".download") = String c (dir +:+ "/" +:+ id +:+ ".download")). by rewrite IH.
Qed.

(** The archive is kept in a file named [<id>.download], and its format is told from that
    name: no archive is ever unpacked, and every artifact gets the default manifest. *)
Theorem downloads_are_never_unpacked `{Digest} x u now id url expected deployment name s s' a :
  download_and_verify x u now id url expected deployment name s = (s', Ok a) ->
  af_manifest a = Some default_restrictive /\ af_name a = default "" name /\
  forall v, download_and_verify x v now id url expected deployment name s = (s', Ok a).
Proof.
  unfold download_and_verify. destruct x as [total chunks|e|e]; [|by intros [=]..].
  destruct (max_size <? total); [by intros [=]|]. cbv zeta. case_bool_decide as Hd; [|by intros [=]].
  assert (forall v a' s, unpack_artifact v (as_cache_dir s +:+ "/" +:+ id +:+ ".download") a' s = 
    unpack_artifact no_archive (as_cache_dir s +:+ "/" +:+ id +:+ ".download") a' s) as Hu.
  { intros v a' t. unfold unpack_artifact, extract. by rewrite download_format. }
  rewrite Hu. intros E. split_and!; [..|intros v; by rewrite Hu];
    unfold unpack_artifact, extract in E; rewrite download_format in E; injection E as <- <-; reflexivity.
Qed.

(** With a verifier of signatures, no download succeeds. *)
Theorem verified_download_always_fails `{Digest} x u answer now id url expected deployment name s :
  exists e, (download_verify_and_prepare x u (Some answer) now id url expected deployment name s).2 = Raise e.
Proof.
  unfold download_verify_and_prepare, download_and_verify. destruct x as [total chunks|e|e]; [|by eexists..].
  destruct (max_size <? total); [by eexists|]. cbv zeta. case_bool_decide as Hd; [|by eexists].
  unfold unpack_artifact, extract. rewrite download_format. cbn [with_contents with_verified with_archive af_archive default from_option].
  unfold Datatypes.id. rewrite download_format. by eexists.
Qed.

Definition bad_download : store_op :=
  SDownload (received "tampered") no_archive 1000 "bad" "https://cloud/bad" an_artifact None None.

(** An artifact whose digest was wrong is deactivated, which nothing refuses, and can then be
    activated: the active artifact is one that was never verified. *)
Theorem failed_artifact_can_be_activated :
  match get_active_artifact (store_run [bad_download; SDeactivate "bad"; SActivate 2000 "bad"] (empty_store "/cache")) with
  | Some a => negb (af_verified a) && negb (bool_decide (af_actual a = normalized (af_expected a))) && bool_decide (af_state a = ACTIVE)
  | None => false
  end = true.
Proof. vm_compute. reflexivity. Qed.

Definition rejected_download : store_op :=
  SPrepare (received "strategy one") no_archive (Some (Raise ("bad_signature", "unknown key")%string)) 1000 "one"
    "https://cloud/one" an_artifact None None.

(** The rejection of an artifact without a signed manifest is not written to the index: after
    a restart the artifact is ready, and can be activated. *)
Theorem restart_forgets_failure :
  let s := store_run [rejected_download] (empty_store "/cache") in
  let s' := store_run [SRestart (fun _ => None) {["/cache/one"]}; SActivate 2000 "one"]%string s in
  (af_state <$> get_artifact "one" s) = Some FAILED /\ (af_id <$> get_active_artifact s') = Some "one"%string.
Proof. vm_compute. by split. Qed.

Definition two_ready : list store_op :=
  [SDownload (received "strategy one") no_archive 1000 "one" "https://cloud/one" an_artifact None None;
   SActivate 2000 "one";
   SDownload (received "strategy two") no_archive 3000 "two" "https://cloud/two" another_artifact None None]%string.

(** An upgrade that does not name the active artifact leaves two artifacts active. *)
Theorem upgrade_leaves_two_active :
  let s := store_run (two_ready ++ [SUpgrade 4000 None "two"]%string) (empty_store "/cache") in
  map af_id (List.filter (fun a => bool_decide (af_state a = ACTIVE)) (list_artifacts s)) = ["one"; "two"]%string.
Proof. vm_compute. reflexivity. Qed.

(** The times of activation are not restored from the index, so a clean-up after a restart
    keeps the artifact that was downloaded first, not the one that was used last. *)
Theorem restart_cleans_most_recent :
  let run ops := store_run (two_ready ++ [SActivate 4000 "two"; SDeactivate "two"]%string ++ ops) (empty_store "/cache") in
  map af_id (list_artifacts (run [SCleanup 1])) = ["two"]%string /\
  map af_id (list_artifacts (run [SRestart (fun _ => None) {["/cache/one"; "/cache/two"]}; SCleanup 1]%string)) = ["one"]%string.
Proof. vm_compute. by split. Qed.

(** The limit on the size is only put to the announced length: content of any length passes
    when none is announced. *)
Theorem announced_size_is_believed `{Digest} u now id url content s :
  af_state <$> get_artifact id (download_and_verify (Received 0 [content]) u now id url (sha256_digest content) None None s).1 =
    Some READY.
Proof.
  unfold download_and_verify. change (max_size <? 0) with false. cbv zeta.
  assert (normalized (sha256_digest content) = sha256_digest content) as ->
    by (unfold normalized, sha256_digest; by destruct (sha256_hex content)).
  cbn [fold_left]. rewrite bool_decide_eq_true_2 by done.
  unfold unpack_artifact, extract. rewrite download_format. unfold get_artifact. cbn. by rewrite dget_dset_eq.
Qed.
