(* ===== verification/RiskChecker.v ===== *)
(** * Pre-trade risk checks: [packages/agent/policy/risk_checker.py]

    The portfolio state, the ten checks of [RiskChecker.check] and their result.
    A check that divides returns an option ([None] is a [decimal] exception);
    [risk_check_correct] shows that [check] always returns a result. *)
From Stdlib Require Import QArith Qabs Lqa.
From Stdlib Require Import Ascii String.
From S2P Require Import Prelude PyDecimal DecArith PyValue PyFormat PyJson Intent.
Open Scope Z_scope.
Open Scope list_scope.

Inductive RiskCheckType :=
  | POSITION_LIMIT | ORDER_SIZE | EXPOSURE | CONCENTRATION | MARGIN | BUYING_POWER
  | DAILY_LOSS | LEVERAGE | MAX_DRAWDOWN | RATE_LIMIT | SYMBOL_RESTRICTION | TIME_RESTRICTION.

#[export] Instance RiskCheckType_eq_dec : EqDecision RiskCheckType.
Proof. solve_decision. Defined.

Record PreTradeCheck := MkCheck {
  check_type : RiskCheckType;
  c_passed : bool;
  c_message : string;
  c_current : option pyval;
  c_limit : option pyval;
  is_warning : bool
}.

Record RiskCheckResult := MkRiskResult {
  passed : bool;
  checks : list PreTradeCheck;
  rr_time : Z
}.

Definition is_failure (c : PreTradeCheck) : bool := negb (c_passed c) && negb (is_warning c).

Definition add_check (r : RiskCheckResult) (c : PreTradeCheck) : RiskCheckResult :=
  MkRiskResult (if is_failure c then false else passed r) (checks r ++ [c]) (rr_time r).

Definition failed_checks (r : RiskCheckResult) : list PreTradeCheck :=
  List.filter is_failure (checks r).

Definition warnings (r : RiskCheckResult) : list PreTradeCheck :=
  List.filter (fun c => negb (c_passed c) && is_warning c) (checks r).

Record PortfolioState := MkPortfolio {
  equity : dec;
  buying_power : dec;
  margin_used : dec;
  margin_available : dec;
  positions : list (string * dec);
  position_values : list (string * dec);
  gross_exposure : dec;
  net_exposure : dec;
  daily_pnl : dec;
  peak_equity : dec;
  orders_today : Z;
  orders_this_minute : Z
}.

Definition new_portfolio : PortfolioState :=
  MkPortfolio (Dec 100000 0) (Dec 100000 0) dzero (Dec 100000 0) [] [] dzero dzero dzero
    (Dec 100000 0) 0 0.

Definition get_position (p : PortfolioState) (sym : string) : dec :=
  default dzero (dget (positions p) sym).

Definition get_position_value (p : PortfolioState) (sym : string) : dec :=
  default dzero (dget (position_values p) sym).

Definition get_concentration (p : PortfolioState) (sym : string) : option dec :=
  if dleb (equity p) dzero then Some dzero
  else ddiv (dabs (get_position_value p sym)) (equity p).

Record RiskChecker := MkChecker {
  max_position_size : dec;
  max_order_size : dec;
  max_concentration_pct : dec;
  max_daily_loss : dec;
  max_orders_per_minute : Z;
  max_orders_per_day : Z;
  max_leverage : option dec;
  max_drawdown_pct : option dec;
  restricted_symbols : gset string;
  restricted_hours : list (Z * Z)
}.

Definition new_checker : RiskChecker :=
  MkChecker (Dec 100000 0) (Dec 10000 0) (Dec 25 (-2)) (Dec 1000 0) 10 100 None None ∅ [].

Definition with_restrictions (c : RiskChecker) (syms : gset string) (hours : list (Z * Z)) :
    RiskChecker :=
  MkChecker (max_position_size c) (max_order_size c) (max_concentration_pct c) (max_daily_loss c)
    (max_orders_per_minute c) (max_orders_per_day c) (max_leverage c) (max_drawdown_pct c)
    syms hours.

Definition add_restricted_symbol (c : RiskChecker) (sym : string) : RiskChecker :=
  with_restrictions c (restricted_symbols c ∪ {[sym]}) (restricted_hours c).

Definition remove_restricted_symbol (c : RiskChecker) (sym : string) : RiskChecker :=
  with_restrictions c (restricted_symbols c ∖ {[sym]}) (restricted_hours c).

Definition add_restricted_hours (c : RiskChecker) (start_hour end_hour : Z) : RiskChecker :=
  with_restrictions c (restricted_symbols c) (restricted_hours c ++ [(start_hour, end_hour)]).

(** [PreTradeCheck(check_type=..., passed=True, ...)] *)
Definition pass (t : RiskCheckType) (current limit : option pyval) : PreTradeCheck :=
  MkCheck t true EmptyString current limit false.

Definition fail (t : RiskCheckType) (msg : string) (current limit : option pyval) : PreTradeCheck :=
  MkCheck t false msg current limit false.

Definition warn (t : RiskCheckType) (msg : string) (current limit : option pyval) : PreTradeCheck :=
  MkCheck t false msg current limit true.

Section Checks.
Variable c : RiskChecker.
Local Open Scope string_scope.
Local Open Scope Z_scope.

Definition check_order_size (quantity : dec) : PreTradeCheck :=
  if dltb (max_order_size c) quantity then
    fail ORDER_SIZE
      ("Order size " +:+ dec_str quantity +:+ " exceeds limit " +:+ dec_str (max_order_size c))
      (Some (VDec quantity)) (Some (VDec (max_order_size c)))
  else pass ORDER_SIZE (Some (VDec quantity)) (Some (VDec (max_order_size c))).

(** The position after the order; a [FLAT] intent leads to zero. *)
Definition projected_position (i : OrderIntent) (p : PortfolioState) (quantity : dec) : dec :=
  match side i with
  | LONG => dadd (get_position p (symbol i)) quantity
  | SHORT => dsub (get_position p (symbol i)) quantity
  | FLAT => dzero
  end.

Definition check_position_limit (i : OrderIntent) (p : PortfolioState) (quantity : dec) :
    PreTradeCheck :=
  let n := dabs (projected_position i p quantity) in
  if dltb (max_position_size c) n then
    fail POSITION_LIMIT
      ("Position would exceed limit: " +:+ dec_str n +:+ " > " +:+ dec_str (max_position_size c))
      (Some (VDec n)) (Some (VDec (max_position_size c)))
  else pass POSITION_LIMIT (Some (VDec n)) (Some (VDec (max_position_size c))).

Definition check_concentration (sym : string) (p : PortfolioState) (additional : dec) :
    option PreTradeCheck :=
  if dleb (equity p) dzero then Some (pass CONCENTRATION None None)
  else
    n ← ddiv (dabs (dadd (get_position_value p sym) additional)) (equity p);
    Some (if dltb (max_concentration_pct c) n then
            fail CONCENTRATION
              ("Concentration " +:+ dec_pct 1 n +:+ " exceeds limit "
               +:+ dec_pct 1 (max_concentration_pct c))
              (Some (VDec n)) (Some (VDec (max_concentration_pct c)))
          else pass CONCENTRATION (Some (VDec n)) (Some (VDec (max_concentration_pct c)))).

Definition check_buying_power (i : OrderIntent) (p : PortfolioState) (notional : dec) :
    PreTradeCheck :=
  if negb (is_entry i) then pass BUYING_POWER None None
  else if dltb (buying_power p) notional then
    fail BUYING_POWER
      ("Insufficient buying power: " +:+ dec_str notional +:+ " > " +:+ dec_str (buying_power p))
      (Some (VDec notional)) (Some (VDec (buying_power p)))
  else pass BUYING_POWER (Some (VDec (dsub (buying_power p) notional))) (Some (VDec (buying_power p))).

Definition check_leverage (i : OrderIntent) (p : PortfolioState) (notional : dec) :
    option PreTradeCheck :=
  match max_leverage c with
  | None => Some (pass LEVERAGE None None)
  | Some cap =>
      if is_exit i then Some (pass LEVERAGE None None)
      else if dleb (equity p) dzero then
        Some (fail LEVERAGE "equity <= 0 — leverage undefined" None (Some (VDec cap)))
      else
        projected ← ddiv (dadd (gross_exposure p) (dabs notional)) (equity p);
        Some (if dltb cap projected then
                fail LEVERAGE
                  ("Leverage would reach " +:+ dec_fixed 2 projected +:+ "x > cap " +:+ dec_str cap
                   +:+ "x") (Some (VDec projected)) (Some (VDec cap))
              else if dltb (dmul cap (Dec 9 (-1))) projected then
                warn LEVERAGE
                  ("Leverage approaching cap: " +:+ dec_fixed 2 projected +:+ "x / " +:+ dec_str cap
                   +:+ "x") (Some (VDec projected)) (Some (VDec cap))
              else pass LEVERAGE (Some (VDec projected)) (Some (VDec cap)))
  end.

Definition check_drawdown (i : OrderIntent) (p : PortfolioState) : option PreTradeCheck :=
  match max_drawdown_pct c with
  | None => Some (pass MAX_DRAWDOWN None None)
  | Some cap =>
      if is_exit i then Some (pass MAX_DRAWDOWN None None)
      else if dleb (peak_equity p) dzero then Some (pass MAX_DRAWDOWN None None)
      else
        dd ← ddiv (dsub (peak_equity p) (equity p)) (peak_equity p);
        Some (if dltb cap dd then
                fail MAX_DRAWDOWN
                  ("Drawdown " +:+ dec_pct 1 dd +:+ " exceeds limit " +:+ dec_pct 1 cap
                   +:+ " — new risk-increasing orders blocked")
                  (Some (VDec dd)) (Some (VDec cap))
              else pass MAX_DRAWDOWN (Some (VDec dd)) (Some (VDec cap)))
  end.

Definition check_daily_loss (p : PortfolioState) : PreTradeCheck :=
  let lim := dneg (max_daily_loss c) in
  if dltb (daily_pnl p) lim then
    fail DAILY_LOSS
      ("Daily loss " +:+ dec_str (daily_pnl p) +:+ " exceeds limit -"
       +:+ dec_str (max_daily_loss c)) (Some (VDec (daily_pnl p))) (Some (VDec lim))
  else if dltb (daily_pnl p) (dmul lim (Dec 8 (-1))) then
    warn DAILY_LOSS ("Daily loss approaching limit: " +:+ dec_str (daily_pnl p))
      (Some (VDec (daily_pnl p))) (Some (VDec lim))
  else pass DAILY_LOSS (Some (VDec (daily_pnl p))) (Some (VDec lim)).

Definition check_rate_limits (p : PortfolioState) : PreTradeCheck :=
  if max_orders_per_minute c <=? orders_this_minute p then
    fail RATE_LIMIT ("Orders per minute limit exceeded: " +:+ int_str (orders_this_minute p))
      (Some (VInt (orders_this_minute p))) (Some (VInt (max_orders_per_minute c)))
  else if max_orders_per_day c <=? orders_today p then
    fail RATE_LIMIT ("Orders per day limit exceeded: " +:+ int_str (orders_today p))
      (Some (VInt (orders_today p))) (Some (VInt (max_orders_per_day c)))
  else pass RATE_LIMIT None None.

Definition check_symbol_restriction (sym : string) : PreTradeCheck :=
  if decide (sym ∈ restricted_symbols c) then
    fail SYMBOL_RESTRICTION ("Symbol " +:+ sym +:+ " is restricted") (Some (VStr sym)) None
  else pass SYMBOL_RESTRICTION None None.

Definition hour_restricted (h : Z) (r : Z * Z) : bool := (r.1 <=? h) && (h <? r.2).

(** The first restricted range of hours that holds now. *)
Definition check_time_restriction (now : Z) : PreTradeCheck :=
  let h := hour_of now in
  match List.find (hour_restricted h) (restricted_hours c) with
  | Some (s, e) =>
      fail TIME_RESTRICTION
        ("Trading restricted during hours " +:+ int_str s +:+ "-" +:+ int_str e +:+ " UTC")
        (Some (VInt h)) None
  | None => pass TIME_RESTRICTION None None
  end.

(** [intent.target_quantity or Decimal("0")], from the notional when it is zero
    and the price is positive. *)
Definition order_quantity (i : OrderIntent) (price : option dec) : option dec :=
  let q := match target_quantity i with
           | Some q => if dtrue q then q else dzero
           | None => dzero
           end in
  if deqb q dzero then
    match target_notional i, price with
    | Some n, Some px =>
        if dtrue n && dtrue px && dltb dzero px then ddiv n px else Some q
    | _, _ => Some q
    end
  else Some q.

(** [quantity * price if price else Decimal("0")] *)
Definition order_notional (quantity : dec) (price : option dec) : dec :=
  match price with
  | Some px => if dtrue px then dmul quantity px else dzero
  | None => dzero
  end.

Definition check (now : Z) (i : OrderIntent) (p : PortfolioState) (price : option dec) :
    option RiskCheckResult :=
  let r0 := MkRiskResult true [] now in
  if is_passive i then Some r0
  else
    quantity ← order_quantity i price;
    let notional := order_notional quantity price in
    concentration ← check_concentration (symbol i) p notional;
    leverage ← check_leverage i p notional;
    drawdown ← check_drawdown i p;
    Some (fold_left add_check
            [check_order_size quantity; check_position_limit i p quantity; concentration;
             check_buying_power i p notional; check_daily_loss p; leverage; drawdown;
             check_rate_limits p; check_symbol_restriction (symbol i);
             check_time_restriction now] r0).
End Checks.

(** ** The result *)

Lemma fold_checks cs r :
  passed (fold_left add_check cs r) = passed r && forallb (fun c => negb (is_failure c)) cs /\
  checks (fold_left add_check cs r) = checks r ++ cs.
Proof.
  revert r. induction cs as [|c cs IH]; intros r; cbn.
  - by rewrite andb_true_r, app_nil_r.
  - destruct (IH (add_check r c)) as [-> ->]. cbn. rewrite <- app_assoc. split; [|done].
    by destruct (is_failure c), (passed r).
Qed.

Lemma no_failures cs :
  forallb (fun c => negb (is_failure c)) cs = true <-> List.filter is_failure cs = [].
Proof.
  induction cs as [|c cs IH]; cbn; [done|]. destruct (is_failure c); cbn; [done|]. exact IH.
Qed.

(** ** When each check fails *)

Lemma failure_if (b : bool) t m cur lim cur' lim' :
  is_failure (if b then fail t m cur lim else pass t cur' lim') = b.
Proof. by destruct b. Qed.

Lemma failure_warn (b b' : bool) t m m' cur lim :
  is_failure (if b then fail t m cur lim else if b' then warn t m' cur lim else pass t cur lim) = b.
Proof. destruct b; [done|]. by destruct b'. Qed.

(** [a / b] is above [cap], as computed; false when [b] is not positive. *)
Definition ratio_over (cap a b : dec) : bool :=
  match ddiv a b with
  | Some r => negb (dleb b dzero) && dltb cap r
  | None => false
  end.

Section Failures.
Variable c : RiskChecker.

Lemma ddiv_guard a b : dleb b dzero = false -> is_Some (ddiv a b).
Proof. intros H. apply dleb_false in H. rewrite dval_zero in H. by apply ddiv_some. Qed.

Lemma concentration_failure sym p n :
  exists k, check_concentration c sym p n = Some k /\
    is_failure k = ratio_over (max_concentration_pct c)
                     (dabs (dadd (get_position_value p sym) n)) (equity p).
Proof.
  unfold check_concentration, ratio_over. destruct (dleb (equity p) dzero) eqn:E.
  - eexists. split; [done|]. by destruct (ddiv _ _).
  - destruct (ddiv_guard (dabs (dadd (get_position_value p sym) n)) _ E) as [r ->].
    eexists. split; [done|]. apply failure_if.
Qed.

Lemma leverage_failure i p n :
  exists k, check_leverage c i p n = Some k /\
    is_failure k = match max_leverage c with
                   | Some cap => negb (is_exit i) && (dleb (equity p) dzero ||
                       ratio_over cap (dadd (gross_exposure p) (dabs n)) (equity p))
                   | None => false
                   end.
Proof.
  unfold check_leverage, ratio_over. destruct (max_leverage c) as [cap|]; [|by eexists].
  destruct (is_exit i); [by eexists|]. destruct (dleb (equity p) dzero) eqn:E; [by eexists|].
  destruct (ddiv_guard (dadd (gross_exposure p) (dabs n)) _ E) as [r ->].
  eexists. split; [done|]. apply failure_warn.
Qed.

Lemma drawdown_failure i p :
  exists k, check_drawdown c i p = Some k /\
    is_failure k = match max_drawdown_pct c with
                   | Some cap => negb (is_exit i) &&
                       ratio_over cap (dsub (peak_equity p) (equity p)) (peak_equity p)
                   | None => false
                   end.
Proof.
  unfold check_drawdown, ratio_over. destruct (max_drawdown_pct c) as [cap|]; [|by eexists].
  destruct (is_exit i); [by eexists|]. destruct (dleb (peak_equity p) dzero) eqn:E.
  - eexists. split; [done|]. by destruct (ddiv _ _).
  - destruct (ddiv_guard (dsub (peak_equity p) (equity p)) _ E) as [r ->].
    eexists. split; [done|]. apply failure_if.
Qed.

Lemma order_quantity_some i price : is_Some (order_quantity i price).
Proof.
  unfold order_quantity. set (q := match target_quantity i with Some q => _ | None => _ end).
  destruct (deqb q dzero); [|done]. destruct (target_notional i) as [n|]; [|done].
  destruct price as [px|]; [|done]. destruct (dtrue n && dtrue px && dltb dzero px) eqn:E; [|done].
  bool_to_prop. apply ddiv_some. rewrite <- dval_zero. by apply dltb_spec.
Qed.

Lemma hour_free h : List.find (hour_restricted h) (restricted_hours c) = None <->
  forall s e, (s, e) ∈ restricted_hours c -> ~ (s <= h < e).
Proof.
  split.
  - intros Hf s e Hin%list_elem_of_In Hh.
    pose proof (List.find_none _ _ Hf _ Hin) as Hn. unfold hour_restricted in Hn. cbn in Hn. lia.
  - intros H. destruct (List.find _ _) as [[s e]|] eqn:E; [|done].
    apply List.find_some in E as [Hin%list_elem_of_In Hr]. unfold hour_restricted in Hr.
    cbn in Hr. destruct (H s e Hin). lia.
Qed.
End Failures.

(** ** Specification *)

(** The ten rules, for the order's quantity and notional. *)
Record risk_ok (c : RiskChecker) (now : Z) (i : OrderIntent) (p : PortfolioState)
    (quantity notional : dec) : Prop := {
  rk_size : (dval quantity <= dval (max_order_size c))%Q;
  rk_position : (dval (dabs (projected_position i p quantity)) <= dval (max_position_size c))%Q;
  rk_concentration : ratio_over (max_concentration_pct c)
    (dabs (dadd (get_position_value p (symbol i)) notional)) (equity p) = false;
  rk_power : is_entry i = true -> (dval notional <= dval (buying_power p))%Q;
  rk_loss : (dval (dneg (max_daily_loss c)) <= dval (daily_pnl p))%Q;
  rk_leverage : forall cap, max_leverage c = Some cap -> is_exit i = false ->
    (0 < dval (equity p))%Q /\
    ratio_over cap (dadd (gross_exposure p) (dabs notional)) (equity p) = false;
  rk_drawdown : forall cap, max_drawdown_pct c = Some cap -> is_exit i = false ->
    ratio_over cap (dsub (peak_equity p) (equity p)) (peak_equity p) = false;
  rk_minute : orders_this_minute p < max_orders_per_minute c;
  rk_day : orders_today p < max_orders_per_day c;
  rk_symbol : symbol i ∉ restricted_symbols c;
  rk_hours : forall s e, (s, e) ∈ restricted_hours c -> ~ (s <= hour_of now < e)
}.

Lemma rate_failure c p :
  is_failure (check_rate_limits c p) =
  negb ((orders_this_minute p <? max_orders_per_minute c) && (orders_today p <? max_orders_per_day c)).
Proof.
  unfold check_rate_limits. rewrite !Z.ltb_antisym.
  destruct (_ <=? _); [done|]. by destruct (_ <=? _).
Qed.

Lemma power_failure i p n :
  is_failure (check_buying_power i p n) = is_entry i && dltb (buying_power p) n.
Proof. unfold check_buying_power. destruct (is_entry i); [|done]. apply failure_if. Qed.

Lemma symbol_failure c sym :
  is_failure (check_symbol_restriction c sym) = bool_decide (sym ∈ restricted_symbols c).
Proof.
  unfold check_symbol_restriction. rewrite decide_bool_decide. apply failure_if.
Qed.

Lemma time_failure c now :
  is_failure (check_time_restriction c now) = false <->
  forall s e, (s, e) ∈ restricted_hours c -> ~ (s <= hour_of now < e).
Proof.
  rewrite <- hour_free. unfold check_time_restriction.
  destruct (List.find _ _) as [[s e]|]; cbn; done.
Qed.

Lemma ten_checks c now i p q n k1 k2 k3 :
  is_failure k1 = ratio_over (max_concentration_pct c)
    (dabs (dadd (get_position_value p (symbol i)) n)) (equity p) ->
  is_failure k2 = match max_leverage c with
                  | Some cap => negb (is_exit i) && (dleb (equity p) dzero ||
                      ratio_over cap (dadd (gross_exposure p) (dabs n)) (equity p))
                  | None => false
                  end ->
  is_failure k3 = match max_drawdown_pct c with
                  | Some cap => negb (is_exit i) &&
                      ratio_over cap (dsub (peak_equity p) (equity p)) (peak_equity p)
                  | None => false
                  end ->
  forallb (fun k => negb (is_failure k))
    [check_order_size c q; check_position_limit c i p q; k1; check_buying_power i p n;
     check_daily_loss c p; k2; k3; check_rate_limits c p;
     check_symbol_restriction c (symbol i); check_time_restriction c now] = true <->
  risk_ok c now i p q n.
Proof.
  intros H1 H2 H3. cbn [forallb].
  rewrite H1, H2, H3, power_failure, rate_failure, symbol_failure, andb_true_r, negb_involutive.
  unfold check_order_size, check_position_limit, check_daily_loss.
  rewrite !failure_if, failure_warn, !dltb_negb. split.
  - intros H. bool_to_prop. split; try done; try (by apply dleb_spec).
    + intros He. destruct (is_entry i); [|done]. by apply dltb_false.
    + intros cap Hc He. rewrite Hc, He in *. cbn in *. bool_to_prop. split; [|done].
      rewrite <- dval_zero. by apply dleb_false.
    + intros cap Hc He. by rewrite Hc, He in *.
    + by apply time_failure.
  - intros [R1 R2 R3 R4 R5 R6 R7 R8 R9 R10 R11].
    rewrite (proj2 (dleb_spec _ _) R1), (proj2 (dleb_spec _ _) R2), R3,
      (proj2 (dleb_spec _ _) R5), (proj2 (Z.ltb_lt _ _) R8), (proj2 (Z.ltb_lt _ _) R9),
      (bool_decide_eq_false_2 _ R10), (proj2 (time_failure _ _) R11). cbn.
    rewrite !andb_true_r. repeat (apply andb_true_intro; split); apply negb_true_iff.
    + destruct (is_entry i); [|done]. by apply dltb_false, R4.
    + destruct (max_leverage c) as [cap|]; [|done]. destruct (is_exit i) eqn:E; [done|].
      destruct (R6 cap eq_refl eq_refl) as [Hp ->]. cbn. rewrite orb_false_r.
      apply dleb_false. by rewrite dval_zero.
    + destruct (max_drawdown_pct c) as [cap|]; [|done]. destruct (is_exit i) eqn:E; [done|].
      by rewrite (R7 cap).
Qed.

(** C10: [check] always returns a result. It passes exactly when the intent is
    passive or all ten rules hold for the quantity and notional it computes;
    warnings never block: it passes exactly when no check failed. *)
Theorem risk_check_correct c now i p price :
  exists q r, order_quantity i price = Some q /\ check c now i p price = Some r /\
    (passed r = true <-> is_passive i = true \/ risk_ok c now i p q (order_notional q price)) /\
    (passed r = true <-> failed_checks r = []).
Proof.
  destruct (order_quantity_some i price) as [q Hq]. unfold check. rewrite Hq.
  destruct (is_passive i) eqn:Hp; [exists q; eexists; by intuition|].
  cbn [mbind option_bind]. cbv zeta. set (n := order_notional q price).
  destruct (concentration_failure c (symbol i) p n) as (k1 & -> & H1).
  destruct (leverage_failure c i p n) as (k2 & -> & H2).
  destruct (drawdown_failure c i p) as (k3 & -> & H3). cbn [mbind option_bind].
  exists q. eexists. split_and!; [done|done| |].
  - rewrite (proj1 (fold_checks _ _)). cbn [passed andb]. rewrite (ten_checks _ _ _ _ _ _ _ _ _ H1 H2 H3).
    split; [by right|]. by intros [?|?].
  - unfold failed_checks. destruct (fold_checks [check_order_size c q; check_position_limit c i p q;
      k1; check_buying_power i p n; check_daily_loss c p; k2; k3; check_rate_limits c p;
      check_symbol_restriction c (symbol i); check_time_restriction c now]
      (MkRiskResult true [] now)) as [Hf Hc].
    rewrite Hf, Hc. apply no_failures.
Qed.

Lemma ratio_within cap a b t :
  representable cap -> (0 < dval b)%Q -> ratio_over cap a b = false ->
  representable t -> (dval cap < dval t)%Q -> (dval a < dval t * dval b)%Q.
Proof.
  intros Hc Hb Hr Ht Hlt. unfold ratio_over in Hr. destruct (ddiv_some a b Hb) as [r Hd].
  rewrite Hd in Hr. apply andb_false_iff in Hr as [Hr|Hr].
  - apply negb_false_iff, dleb_spec in Hr. rewrite dval_zero in Hr. lra.
  - apply dltb_false in Hr. apply Qnot_le_lt. intros Hle.
    pose proof (ddiv_ge t a b r Ht Hb Hd Hle). lra.
Qed.

(** What passing means for the account. After an entry passes, the exposure
    it leads to is less than any representable leverage above the cap times the
    equity, its notional is covered by the buying power, and the account has not
    lost more than the daily limit. *)
Theorem passed_entry_is_covered c now i p price cap q r t :
  is_entry i = true -> max_leverage c = Some cap -> representable cap ->
  representable (max_daily_loss c) ->
  order_quantity i price = Some q -> check c now i p price = Some r -> passed r = true ->
  representable t -> (dval cap < dval t)%Q ->
  let n := order_notional q price in
  (0 < dval (equity p))%Q /\
  (dval (dadd (gross_exposure p) (dabs n)) < dval t * dval (equity p))%Q /\
  (dval n <= dval (buying_power p))%Q /\
  (- dval (max_daily_loss c) <= dval (daily_pnl p))%Q.
Proof.
  intros He Hl Hrep Hrl Hq Hc Hp Ht Hlt n.
  destruct (risk_check_correct c now i p price) as (q' & r' & Hq' & Hc' & Hok & _). simplify_eq.
  apply Hok in Hp as [Hp|Hp].
  - apply passive_not_entry in Hp as [? _]. congruence.
  - pose proof (rk_leverage _ _ _ _ _ _ Hp cap Hl (entry_not_exit _ He)) as [Heq Hover].
    split_and!; [done| | |].
    + by apply (ratio_within cap).
    + by apply (rk_power _ _ _ _ _ _ Hp).
    + rewrite <- dval_dneg by done. apply (rk_loss _ _ _ _ _ _ Hp).
Qed.

(** A range of restricted hours that wraps past midnight restricts nothing. *)
Theorem wrapped_hours_never_restrict c s e now :
  e <= s -> restricted_hours c = [(s, e)] -> is_failure (check_time_restriction c now) = false.
Proof.
  intros Hle Hc. apply time_failure. rewrite Hc. intros s' e' Hin.
  apply list_elem_of_singleton in Hin. simplify_eq. lia.
Qed.

(** An order that closes a position is refused by the concentration check: the
    order's notional is added to the position's value whatever its side. *)
Definition closing_intent : OrderIntent :=
  with_quantity (Dec 200 0) (new_intent "s" "AAPL" CLOSE_POSITION FLAT 0 "id").

Definition concentrated_portfolio : PortfolioState :=
  MkPortfolio (Dec 100000 0) (Dec 100000 0) dzero (Dec 100000 0)
    [("AAPL"%string, Dec 200 0)] [("AAPL"%string, Dec 20000 0)] (Dec 20000 0) (Dec 20000 0) dzero
    (Dec 100000 0) 0 0.

Theorem closing_order_refused :
  (check_type <$> (r ← check new_checker 0 closing_intent concentrated_portfolio (Some (Dec 100 0));
                   head (failed_checks r))) = Some CONCENTRATION.
Proof. by vm_compute. Qed.

(** ** Witnesses *)

Definition entry_intent : OrderIntent :=
  with_quantity (Dec 100 0) (new_intent "s" "AAPL" MARKET_ENTRY LONG 0 "id").

Definition levered_checker : RiskChecker :=
  MkChecker (Dec 100000 0) (Dec 10000 0) (Dec 25 (-2)) (Dec 1000 0) 10 100 (Some (Dec 2 0)) None ∅ [].

Lemma passed_entry_is_covered_witness :
  (dval (dadd dzero (dabs (Dec 10000 0))) < dval (Dec 201 (-2)) * dval (Dec 100000 0))%Q.
Proof.
  destruct (check levered_checker 0 entry_intent new_portfolio (Some (Dec 100 0))) as [r|] eqn:E;
    [|vm_compute in E; discriminate].
  apply (passed_entry_is_covered levered_checker 0 entry_intent new_portfolio (Some (Dec 100 0))
           (Dec 2 0) (Dec 100 0) r (Dec 201 (-2))); try done.
  vm_compute in E. by injection E as <-.
Defined.
