(* ===== verification/Journal.v ===== *)
(** * Order and command journals: [packages/agent/reconciliation/journal.py]

    The two SQLite tables of [OrderJournal] (the mutable [orders] table and the
    append-only [order_audit] chain) and the table of [CommandJournal].  A table
    is its list of rows in insertion order; a [PRIMARY KEY] or [UNIQUE] column
    makes a conflicting [INSERT] raise [IntegrityError] and leave the table as it
    is.  [uuid4] and the clock are arguments; JSON columns hold the dictionaries
    they are written from, and times are compared as instants. *)
From Stdlib Require Import Ascii String.
From S2P Require Import Prelude PyDecimal PyValue PyFormat PyJson Sha256 HashChain.
Open Scope Z_scope.
Open Scope list_scope.

Inductive JournalStatus := J_PENDING | J_SUBMITTED | J_CONFIRMED | J_REJECTED | J_CANCELLED | J_UNKNOWN.

#[export] Instance JournalStatus_eq_dec : EqDecision JournalStatus.
Proof. solve_decision. Defined.

Definition journal_status_value (s : JournalStatus) : string :=
  match s with
  | J_PENDING => "pending"
  | J_SUBMITTED => "submitted"
  | J_CONFIRMED => "confirmed"
  | J_REJECTED => "rejected"
  | J_CANCELLED => "cancelled"
  | J_UNKNOWN => "unknown"
  end%string.

Record JournalEntry := MkEntry {
  je_entry_id : string;
  je_client_order_id : string;
  je_intent_id : string;
  je_symbol : string;
  je_side : string;
  je_quantity : string;
  je_order_type : string;
  je_status : JournalStatus;
  je_broker_order_id : option string;
  je_filled_quantity : string;
  je_avg_price : option string;
  je_created_at : Z;
  je_updated_at : Z;
  je_metadata : dict
}.

(** [to_dict], with the nested [metadata] on the right. *)
Definition entry_to_dict (e : JournalEntry) : dict * dict :=
  ([("entry_id", VStr (je_entry_id e));
    ("client_order_id", VStr (je_client_order_id e));
    ("intent_id", VStr (je_intent_id e));
    ("symbol", VStr (je_symbol e));
    ("side", VStr (je_side e));
    ("quantity", VStr (je_quantity e));
    ("order_type", VStr (je_order_type e));
    ("status", VStr (journal_status_value (je_status e)));
    ("broker_order_id", v_opt_str (je_broker_order_id e));
    ("filled_quantity", VStr (je_filled_quantity e));
    ("avg_price", v_opt_str (je_avg_price e));
    ("created_at", VStr (isoformat (je_created_at e)));
    ("updated_at", VStr (isoformat (je_updated_at e)))], je_metadata e)%string.

(** A row of [order_audit]: its chain record and its query columns. *)
Record AuditRow := MkAudit {
  au_ts : Z;
  au_event_type : string;
  au_client_order_id : option string;
  au_entry_id : option string;
  au_record : ChainRecord
}.

Record OrderJournal := MkJournal {
  jo_key : option string;
  jo_orders : list JournalEntry;
  jo_audit : list AuditRow
}.

(** A new database. *)
Definition new_journal (hmac_key : option string) : OrderJournal := MkJournal hmac_key [] [].

(** The one exception of [log_order]. *)
Inductive JournalError := IntegrityError.

Section OrderJournalOps.
Context `{Digest}.

Definition audit_records (j : OrderJournal) : list ChainRecord := map au_record (jo_audit j).

(** [_audit_head_hash] *)
Definition audit_head_hash (j : OrderJournal) : string := last_hash (audit_records j).

(** [_append_audit]: [seq] is [COUNT( * ) + 1], which is also the next value of the
    [AUTOINCREMENT] column of a table without deletions. The source appends as well as it
    can: an exception of the database or of [json] is swallowed and the event is missing.
    The payloads here are texts, so only a failing database could raise; it is taken to
    work, as everywhere in this file. *)
Definition append_audit (now : Z) (event_type : string) (payload : dict) (j : OrderJournal) :
    OrderJournal :=
  let seq := Z.of_nat (List.length (jo_audit j)) + 1 in
  let prev := audit_head_hash j in
  let body := dict_update [("event_type"%string, VStr event_type)] payload in
  let h := chain_hash prev body seq (jo_key j) in
  MkJournal (jo_key j) (jo_orders j)
    (jo_audit j ++ [MkAudit now event_type (get_str payload "client_order_id")
                      (get_str payload "entry_id") (MkChainRecord seq body prev h)]).

(** [verify_audit_chain]; the result also tells whether the chain is keyed, and
    its head. *)
Definition verify_audit_chain (j : OrderJournal) : verdict * bool * string :=
  (verify_chain (audit_records j) (jo_key j),
   match jo_key j with Some _ => true | None => false end, audit_head_hash j).

Definition get_audit_events (limit : Z) (j : OrderJournal) : list AuditRow :=
  sql_limit limit (rev (jo_audit j)).

Definition is_duplicate (client_order_id : string) (j : OrderJournal) : bool :=
  existsb (fun e => bool_decide (je_client_order_id e = client_order_id)) (jo_orders j).

Definition get_entry (entry_id : string) (j : OrderJournal) : option JournalEntry :=
  List.find (fun e => bool_decide (je_entry_id e = entry_id)) (jo_orders j).

Definition get_by_client_id (client_order_id : string) (j : OrderJournal) : option JournalEntry :=
  List.find (fun e => bool_decide (je_client_order_id e = client_order_id)) (jo_orders j).

Definition order_logged_payload (e : JournalEntry) : dict :=
  [("client_order_id", VStr (je_client_order_id e));
   ("entry_id", VStr (je_entry_id e));
   ("intent_id", VStr (je_intent_id e));
   ("symbol", VStr (je_symbol e));
   ("side", VStr (je_side e));
   ("quantity", VStr (je_quantity e));
   ("order_type", VStr (je_order_type e));
   ("status", VStr (journal_status_value (je_status e)))]%string.

Definition log_order (now : Z) (uuid : string) (client_order_id intent_id symbol side : string)
    (quantity : dec) (order_type : string) (metadata : option dict) (j : OrderJournal) :
    pyres JournalError (OrderJournal * JournalEntry) :=
  let e := MkEntry uuid client_order_id intent_id symbol side (dec_str quantity) order_type
             J_PENDING None "0" None now now (or_empty metadata) in
  if existsb (fun e' => bool_decide (je_entry_id e' = uuid)) (jo_orders j)
     || is_duplicate client_order_id j then Raise IntegrityError
  else
    Ok (append_audit now "order_logged" (order_logged_payload e)
          (MkJournal (jo_key j) (jo_orders j ++ [e]) (jo_audit j)), e).

(** [UPDATE orders SET ...]: absent arguments leave their columns alone. *)
Definition set_status (now : Z) (s : JournalStatus) (broker_order_id : option string)
    (filled_quantity avg_price : option dec) (e : JournalEntry) : JournalEntry :=
  MkEntry (je_entry_id e) (je_client_order_id e) (je_intent_id e) (je_symbol e) (je_side e)
    (je_quantity e) (je_order_type e) s
    (match broker_order_id with Some b => Some b | None => je_broker_order_id e end)
    (match filled_quantity with Some q => dec_str q | None => je_filled_quantity e end)
    (match avg_price with Some p => Some (dec_str p) | None => je_avg_price e end)
    (je_created_at e) now (je_metadata e).

Definition status_payload (entry_id : string) (s : JournalStatus) (broker_order_id : option string)
    (filled_quantity avg_price : option dec) : dict :=
  [("entry_id", VStr entry_id);
   ("status", VStr (journal_status_value s));
   ("broker_order_id", v_opt_str broker_order_id);
   ("filled_quantity", v_opt_str (dec_str <$> filled_quantity));
   ("avg_price", v_opt_str (dec_str <$> avg_price))]%string.

Definition update_status (now : Z) (entry_id : string) (s : JournalStatus)
    (broker_order_id : option string) (filled_quantity avg_price : option dec)
    (j : OrderJournal) : OrderJournal * bool :=
  let hit := fun e => bool_decide (je_entry_id e = entry_id) in
  let j' := MkJournal (jo_key j)
              (map (fun e => if hit e then set_status now s broker_order_id filled_quantity avg_price e
                             else e) (jo_orders j)) (jo_audit j) in
  if existsb hit (jo_orders j) then
    (append_audit now ("status_" +:+ journal_status_value s)
       (status_payload entry_id s broker_order_id filled_quantity avg_price) j', true)
  else (j', false).

Definition has_status (l : list JournalStatus) (e : JournalEntry) : bool :=
  bool_decide (je_status e ∈ l).

Definition get_orders_with_status (l : list JournalStatus) (j : OrderJournal) : list JournalEntry :=
  match l with
  | [] => []
  | _ => order_by je_created_at (List.filter (has_status l) (jo_orders j))
  end.

Definition get_pending_orders (j : OrderJournal) : list JournalEntry :=
  order_by je_created_at (List.filter (has_status [J_PENDING; J_SUBMITTED]) (jo_orders j)).

Definition get_unresolved_orders (j : OrderJournal) : list JournalEntry :=
  get_orders_with_status [J_PENDING; J_SUBMITTED; J_UNKNOWN] j.

Definition get_recent_orders (limit : Z) (j : OrderJournal) : list JournalEntry :=
  sql_limit limit (order_by (fun e => - je_created_at e) (jo_orders j)).

Definition get_all_entries (j : OrderJournal) : list JournalEntry :=
  order_by je_created_at (jo_orders j).
End OrderJournalOps.

(** ** Operations over time *)

Section JournalProperties.
Context `{Digest}.

Inductive journal_op :=
  | LogOrder (now : Z) (uuid client_order_id intent_id symbol side : string) (quantity : dec)
      (order_type : string) (metadata : option dict)
  | UpdateStatus (now : Z) (entry_id : string) (s : JournalStatus) (broker_order_id : option string)
      (filled_quantity avg_price : option dec).

Definition journal_step (j : OrderJournal) (op : journal_op) : OrderJournal :=
  match op with
  | LogOrder now uuid coid iid sym side q ty md =>
      match log_order now uuid coid iid sym side q ty md j with
      | Ok (j', _) => j'
      | Raise _ => j
      end
  | UpdateStatus now eid s b fq ap => (update_status now eid s b fq ap j).1
  end.

Definition journal_run (j : OrderJournal) (ops : list journal_op) : OrderJournal :=
  fold_left journal_step ops j.

(** The status the audit log gives to an order: the one of its last event. *)
Definition last_status (rows : list AuditRow) (entry_id : string) : option string :=
  fold_left (fun acc a =>
    if decide (au_entry_id a = Some entry_id) then get_str (cr_payload (au_record a)) "status"
    else acc) rows None.

Lemma last_status_snoc rows a eid :
  last_status (rows ++ [a]) eid =
  if decide (au_entry_id a = Some eid) then get_str (cr_payload (au_record a)) "status"
  else last_status rows eid.
Proof. unfold last_status. by rewrite fold_left_app. Qed.

(** The state of a journal: the audit chain is linked, entry and client ids are
    unique, and the audit log determines the status of every row. *)
Record journal_wf (j : OrderJournal) : Prop := {
  jw_chain : linked (jo_key j) GENESIS_HASH 1 (audit_records j);
  jw_entries : NoDup (map je_entry_id (jo_orders j));
  jw_clients : NoDup (map je_client_order_id (jo_orders j));
  jw_audit : forall e, e ∈ jo_orders j ->
    last_status (jo_audit j) (je_entry_id e) = Some (journal_status_value (je_status e))
}.

Lemma append_audit_chain now ev p j :
  linked (jo_key j) GENESIS_HASH 1 (audit_records j) ->
  linked (jo_key j) GENESIS_HASH 1 (audit_records (append_audit now ev p j)).
Proof.
  intros Hl. unfold audit_records, append_audit. cbn [jo_audit jo_key].
  rewrite map_app. cbn [map au_record]. apply linked_snoc. cbn.
  split_and!; [done| |done|done]. unfold audit_records. rewrite length_map. lia.
Qed.

Lemma payload_status_logged e :
  get_str (order_logged_payload e) "entry_id" = Some (je_entry_id e) /\
  get_str (dict_update [("event_type"%string, VStr "order_logged")] (order_logged_payload e)) "status"
    = Some (journal_status_value (je_status e)).
Proof. done. Qed.

Lemma payload_status_updated eid s b fq ap ev :
  get_str (status_payload eid s b fq ap) "entry_id" = Some eid /\
  get_str (dict_update [("event_type"%string, VStr ev)] (status_payload eid s b fq ap)) "status"
    = Some (journal_status_value s).
Proof. done. Qed.

Lemma log_order_wf now uuid coid iid sym side q ty md j j' e :
  journal_wf j -> log_order now uuid coid iid sym side q ty md j = Ok (j', e) -> journal_wf j'.
Proof.
  intros [Hc He Hk Ha] Hl. unfold log_order in Hl.
  set (e0 := MkEntry _ _ _ _ _ _ _ _ _ _ _ _ _ _) in Hl.
  destruct (_ || _) eqn:Ed in Hl; [done|]. injection Hl as <- <-.
  apply orb_false_iff in Ed as [H0 H1].
  apply existsb_key_false in H0. unfold is_duplicate in H1. apply existsb_key_false in H1.
  split.
  - exact (append_audit_chain _ _ _ _ Hc).
  - cbn [append_audit jo_orders]. by apply (NoDup_map_snoc je_entry_id).
  - cbn [append_audit jo_orders]. by apply (NoDup_map_snoc je_client_order_id).
  - cbn [append_audit jo_orders jo_audit]. intros e Hin. rewrite last_status_snoc.
    cbn [au_entry_id au_record cr_payload].
    destruct (payload_status_logged e0) as [-> ->].
    apply elem_of_app in Hin as [Hin|Hin].
    + rewrite decide_False; [by apply Ha|]. intros [= Heq]. apply H0.
      apply list_elem_of_fmap. by exists e.
    + apply list_elem_of_singleton in Hin. subst e. by rewrite decide_True.
Qed.

Lemma map_set_status {C} now s b fq ap eid l (g : JournalEntry -> C) :
  (forall e, g (set_status now s b fq ap e) = g e) ->
  map g (map (fun e => if bool_decide (je_entry_id e = eid) then set_status now s b fq ap e else e) l)
  = map g l.
Proof.
  intros Hg. rewrite map_map. apply map_ext. intros e. by destruct (bool_decide _).
Qed.

Lemma update_status_wf now eid s b fq ap j :
  journal_wf j -> journal_wf (update_status now eid s b fq ap j).1.
Proof.
  intros [Hc He Hk Ha]. unfold update_status.
  set (f := fun e => if bool_decide (je_entry_id e = eid) then _ else e).
  destruct (existsb _ (jo_orders j)) eqn:Ex; cbn [fst].
  - split.
    + exact (append_audit_chain _ _ _ _ Hc).
    + cbn [append_audit jo_orders]. unfold f. by rewrite map_set_status.
    + cbn [append_audit jo_orders]. unfold f. by rewrite map_set_status.
    + cbn [append_audit jo_orders jo_audit]. intros e Hin. rewrite last_status_snoc.
      cbn [au_entry_id au_record cr_payload].
      destruct (payload_status_updated eid s b fq ap ("status_" +:+ journal_status_value s))
        as [-> ->].
      apply list_elem_of_fmap in Hin as (e0 & -> & Hin). unfold f.
      destruct (bool_decide (je_entry_id e0 = eid)) eqn:Eb; bool_to_prop.
      * subst eid. by rewrite decide_True.
      * rewrite decide_False; [by apply Ha|]. intros [= Heq]. congruence.
  - assert (map f (jo_orders j) = jo_orders j) as ->; [|done].
    rewrite <- (map_id (jo_orders j)) at 2. apply map_ext_in. intros e Hin.
    rewrite <- list_elem_of_In in Hin. unfold f.
    by rewrite (proj1 (existsb_false _ _) Ex e Hin).
Qed.

Lemma journal_step_wf j op : journal_wf j -> journal_wf (journal_step j op).
Proof.
  intros Hw. destruct op as [now uuid coid iid sym side q ty md|]; cbn [journal_step].
  - destruct (log_order _ _ _ _ _ _ _ _ _ j) as [[j' e]|] eqn:El; [|done].
    by eapply log_order_wf.
  - by apply update_status_wf.
Qed.

Lemma new_journal_wf key : journal_wf (new_journal key).
Proof.
  split; [constructor|constructor|constructor|]. intros e Hin. by apply not_elem_of_nil in Hin.
Qed.

Lemma journal_run_wf j ops : journal_wf j -> journal_wf (journal_run j ops).
Proof.
  revert j. induction ops as [|op ops IH]; intros j Hw; [done|]. by apply IH, journal_step_wf.
Qed.

(** C11: the journal is a faithful write-once record. After any sequence of
    logged orders and status updates, accepted or refused, on a database that takes
    what is written to it, the audit chain verifies, entry and client ids are unique,
    and the last audit event of an order carries its current status in the working
    table. *)
Theorem journal_audit_consistent key ops :
  let j := journal_run (new_journal key) ops in
  v_valid (verify_audit_chain j).1.1 = true /\
  NoDup (map je_entry_id (jo_orders j)) /\ NoDup (map je_client_order_id (jo_orders j)) /\
  forall e, e ∈ jo_orders j ->
    last_status (jo_audit j) (je_entry_id e) = Some (journal_status_value (je_status e)).
Proof.
  intros j. destruct (journal_run_wf _ ops (new_journal_wf key)) as [Hc He Hk Ha].
  split_and!; [|done|done|done]. by apply verify_loop_valid.
Qed.

Lemma step_clients j op :
  exists l, map je_client_order_id (jo_orders (journal_step j op))
    = map je_client_order_id (jo_orders j) ++ l /\
  exists l', jo_audit (journal_step j op) = jo_audit j ++ l'.
Proof.
  destruct op as [now uuid coid iid sym side q ty md|now eid s b fq ap]; cbn [journal_step].
  - unfold log_order. destruct (_ || _).
    + exists []. split; [by rewrite app_nil_r|]. exists []. by rewrite app_nil_r.
    + exists [coid]. cbn [append_audit jo_orders jo_audit]. split; [by rewrite map_app|].
      by eexists.
  - unfold update_status. exists []. rewrite app_nil_r.
    destruct (existsb _ _); cbn [fst append_audit jo_orders jo_audit]; rewrite map_set_status by done.
    + split; [done|]. by eexists.
    + split; [done|]. exists []. by rewrite app_nil_r.
Qed.

(** Nothing is ever forgotten. Every later state of the journal extends the
    audit log of an earlier one and still recognises its client order ids as
    duplicates. *)
Theorem journal_monotone j ops coid :
  (exists l, jo_audit (journal_run j ops) = jo_audit j ++ l) /\
  (is_duplicate coid j = true -> is_duplicate coid (journal_run j ops) = true).
Proof.
  revert j. induction ops as [|op ops IH]; intros j.
  - split; [exists []; by rewrite app_nil_r|done].
  - destruct (step_clients j op) as (l & Hl & l' & Ha), (IH (journal_step j op)) as [[l2 Hl2] Hd].
    change (journal_run j (op :: ops)) with (journal_run (journal_step j op) ops). split.
    + exists (l' ++ l2). by rewrite Hl2, Ha, app_assoc.
    + intros Hdup. apply Hd. unfold is_duplicate in *. apply existsb_key. rewrite Hl.
      apply elem_of_app. left. by apply existsb_key.
Qed.

(** Logging an order. On a journal built by its own operations, it raises
    [IntegrityError] exactly when the entry id or the client id is taken;
    otherwise the entry is found under both ids, pending, and its client id is a
    duplicate from then on. *)
Theorem log_order_correct key ops now uuid coid iid sym side q ty md :
  let j := journal_run (new_journal key) ops in
  match log_order now uuid coid iid sym side q ty md j with
  | Raise _ => get_entry uuid j <> None \/ is_duplicate coid j = true
  | Ok (j', e) =>
      is_duplicate coid j = false /\ is_duplicate coid j' = true /\
      get_by_client_id coid j' = Some e /\ get_entry uuid j' = Some e /\
      je_status e = J_PENDING /\ je_quantity e = dec_str q /\
      List.length (jo_audit j') = S (List.length (jo_audit j))
  end.
Proof.
  intros j. pose proof (journal_run_wf _ ops (new_journal_wf key)) as Hw. fold j in Hw.
  destruct (log_order now uuid coid iid sym side q ty md j) as [[j' e]|] eqn:El.
  - pose proof (log_order_wf _ _ _ _ _ _ _ _ _ _ _ _ Hw El) as [_ He Hk _].
    unfold log_order in El. set (e0 := MkEntry _ _ _ _ _ _ _ _ _ _ _ _ _ _) in El.
    destruct (_ || _) eqn:Ed in El; [done|]. apply orb_false_iff in Ed as [_ Hd].
    injection El as Hj <-. assert (e0 ∈ jo_orders j') as Hin.
    { rewrite <- Hj. cbn [append_audit jo_orders]. apply elem_of_app. right. by left. }
    split_and!; try done.
    + apply existsb_key. apply list_elem_of_fmap. by exists e0.
    + exact (find_unique je_client_order_id _ _ Hk Hin).
    + exact (find_unique je_entry_id _ _ He Hin).
    + rewrite <- Hj. cbn [append_audit jo_audit]. rewrite length_app. cbn. lia.
  - unfold log_order in El. destruct (_ || _) eqn:Ed in El; [|done].
    apply orb_true_iff in Ed as [Ed|Ed]; [left|by right].
    apply existsb_exists in Ed as (x & Hx & Hu). intros Hn. unfold get_entry in Hn.
    pose proof (List.find_none _ _ Hn x Hx) as Hf. congruence.
Qed.
End JournalProperties.

(** ** Witnesses *)

Definition sample_ops : list journal_op :=
  [LogOrder 1 "e1" "c1" "i1" "AAPL" "buy" (Dec 5 0) "market" None;
   LogOrder 2 "e2" "c1" "i1" "AAPL" "buy" (Dec 5 0) "market" None;
   UpdateStatus 3 "e1" J_SUBMITTED (Some "b1") None None]%string.

Lemma journal_audit_consistent_witness :
  v_valid (verify_audit_chain (journal_run (new_journal (Some "k"%string)) sample_ops)).1.1 = true.
Proof. apply (journal_audit_consistent (Some "k"%string) sample_ops). Defined.

Lemma journal_monotone_witness :
  is_duplicate "c1" (journal_run (journal_run (new_journal None) sample_ops) sample_ops) = true.
Proof.
  apply (journal_monotone (journal_run (new_journal None) sample_ops) sample_ops "c1").
  vm_compute. reflexivity.
Defined.
