(* ===== verification/CommandJournal.v ===== *)
(** * Command journal: [CommandJournal] of [packages/agent/reconciliation/journal.py]

    The table of received cloud commands, which makes their execution idempotent
    across restarts.  Same conventions as [Journal]. *)
From Stdlib Require Import Ascii String.
From S2P Require Import Prelude PyDecimal PyValue PyFormat PyJson.
Open Scope Z_scope.
Open Scope list_scope.

Inductive CommandStatus := RECEIVED | IN_PROGRESS | COMPLETED | FAILED | SKIPPED.

#[export] Instance CommandStatus_eq_dec : EqDecision CommandStatus.
Proof. solve_decision. Defined.

Definition command_status_value (s : CommandStatus) : string :=
  match s with
  | RECEIVED => "received"
  | IN_PROGRESS => "in_progress"
  | COMPLETED => "completed"
  | FAILED => "failed"
  | SKIPPED => "skipped"
  end%string.

Record CommandEntry := MkCommand {
  ce_command_id : string;
  ce_idempotency_key : string;
  ce_command_type : string;
  ce_status : CommandStatus;
  ce_payload_ref : option string;
  ce_result : option dict;
  ce_error_message : option string;
  ce_received_at : Z;
  ce_executed_at : option Z;
  ce_created_at : Z;
  ce_updated_at : Z
}.

(** [to_dict], with the nested [result] on the right. *)
Definition command_to_dict (e : CommandEntry) : dict * option dict :=
  ([("command_id", VStr (ce_command_id e));
    ("idempotency_key", VStr (ce_idempotency_key e));
    ("command_type", VStr (ce_command_type e));
    ("status", VStr (command_status_value (ce_status e)));
    ("payload_ref", v_opt_str (ce_payload_ref e));
    ("error_message", v_opt_str (ce_error_message e));
    ("received_at", VStr (isoformat (ce_received_at e)));
    ("executed_at", v_opt_str (isoformat <$> ce_executed_at e));
    ("created_at", VStr (isoformat (ce_created_at e)));
    ("updated_at", VStr (isoformat (ce_updated_at e)))], ce_result e)%string.

(** The rows of the [commands] table, in insertion order. *)
Abbreviation commands := (list CommandEntry).

Definition hit (command_id : string) (e : CommandEntry) : bool :=
  bool_decide (ce_command_id e = command_id).

Definition get_entry (command_id : string) (j : commands) : option CommandEntry :=
  List.find (hit command_id) j.

Definition log_received (now : Z) (command_id idempotency_key command_type : string)
    (payload_ref : option string) (j : commands) : commands * option CommandEntry :=
  let e := MkCommand command_id idempotency_key command_type RECEIVED payload_ref None None
             now None now now in
  if existsb (hit command_id) j then (j, get_entry command_id j) else (j ++ [e], Some e).

(** [UPDATE commands SET ... WHERE command_id = ?] and [rowcount > 0]. *)
Definition update_row (f : CommandEntry -> CommandEntry) (command_id : string) (j : commands) :
    commands * bool :=
  (map (fun e => if hit command_id e then f e else e) j, existsb (hit command_id) j).

(** [_update_status] *)
Definition command_update_status (now : Z) (command_id : string) (s : CommandStatus)
    (j : commands) : commands * bool :=
  update_row (fun e =>
    MkCommand (ce_command_id e) (ce_idempotency_key e) (ce_command_type e) s (ce_payload_ref e)
      (ce_result e) (ce_error_message e) (ce_received_at e) (ce_executed_at e) (ce_created_at e)
      now) command_id j.

Definition mark_in_progress (now : Z) (command_id : string) (j : commands) : commands * bool :=
  command_update_status now command_id IN_PROGRESS j.

(** [json.dumps(result) if result else None]: an empty result is [NULL]. *)
Definition stored_result (result : option dict) : option dict :=
  match result with
  | Some [] => None
  | r => r
  end.

Definition mark_completed (now : Z) (command_id : string) (result : option dict) (j : commands) :
    commands * bool :=
  update_row (fun e =>
    MkCommand (ce_command_id e) (ce_idempotency_key e) (ce_command_type e) COMPLETED
      (ce_payload_ref e) (stored_result result) (ce_error_message e) (ce_received_at e) (Some now)
      (ce_created_at e) now) command_id j.

Definition mark_failed (now : Z) (command_id error_message : string) (j : commands) :
    commands * bool :=
  update_row (fun e =>
    MkCommand (ce_command_id e) (ce_idempotency_key e) (ce_command_type e) FAILED
      (ce_payload_ref e) (ce_result e) (Some error_message) (ce_received_at e) (Some now)
      (ce_created_at e) now) command_id j.

Definition mark_skipped (now : Z) (command_id reason : string) (j : commands) : commands * bool :=
  update_row (fun e =>
    MkCommand (ce_command_id e) (ce_idempotency_key e) (ce_command_type e) SKIPPED
      (ce_payload_ref e) (ce_result e) (Some reason) (ce_received_at e) (ce_executed_at e)
      (ce_created_at e) now) command_id j.

(** [status IN (COMPLETED, FAILED, SKIPPED)] *)
Definition finished (s : CommandStatus) : bool :=
  match s with
  | COMPLETED | FAILED | SKIPPED => true
  | _ => false
  end.

Definition is_executed (command_id : string) (idempotency_key : option string) (j : commands) :
    bool :=
  match get_entry command_id j with
  | Some e => finished (ce_status e)
  | None =>
      if truthy idempotency_key then
        existsb (fun e => bool_decide (Some (ce_idempotency_key e) = idempotency_key)
                          && finished (ce_status e)) j
      else false
  end.

Definition get_by_idempotency_key (key : string) (j : commands) : option CommandEntry :=
  List.find (fun e => bool_decide (ce_idempotency_key e = key)) j.

Definition get_executed_command_ids (j : commands) : gset string :=
  list_to_set (map ce_command_id (List.filter (fun e => finished (ce_status e)) j)).

Definition get_pending_commands (j : commands) : list CommandEntry :=
  order_by ce_received_at (List.filter (fun e => negb (finished (ce_status e))) j).

Definition get_recent_commands (limit : Z) (j : commands) : list CommandEntry :=
  sql_limit limit (order_by (fun e => - ce_created_at e) j).

(** ** Operations over time *)

Inductive command_op :=
  | Received (now : Z) (command_id key ty : string) (payload_ref : option string)
  | InProgress (now : Z) (command_id : string)
  | Completed (now : Z) (command_id : string) (result : option dict)
  | Failed (now : Z) (command_id msg : string)
  | Skipped (now : Z) (command_id reason : string).

Definition command_step (j : commands) (op : command_op) : commands :=
  match op with
  | Received now id key ty p => (log_received now id key ty p j).1
  | InProgress now id => (mark_in_progress now id j).1
  | Completed now id r => (mark_completed now id r j).1
  | Failed now id m => (mark_failed now id m j).1
  | Skipped now id m => (mark_skipped now id m j).1
  end.

Definition command_run (j : commands) (ops : list command_op) : commands :=
  fold_left command_step ops j.

Definition op_id (op : command_op) : string :=
  match op with
  | Received _ id _ _ _ | InProgress _ id | Completed _ id _ | Failed _ id _ | Skipped _ id _ => id
  end.

Definition restarts (id : string) (op : command_op) : bool :=
  match op with
  | InProgress _ id' => bool_decide (id' = id)
  | _ => false
  end.

Lemma update_row_ids f id j :
  (forall e, ce_command_id (f e) = ce_command_id e) ->
  map ce_command_id (update_row f id j).1 = map ce_command_id j.
Proof. intros Hf. cbn. rewrite map_map. apply map_ext. intros e. by destruct (hit id e). Qed.

Lemma command_step_ids j op :
  NoDup (map ce_command_id j) -> NoDup (map ce_command_id (command_step j op)).
Proof.
  intros Hn. destruct op as [now id key ty p| | | |]; cbn [command_step];
    [|unfold mark_in_progress, command_update_status|unfold mark_completed
     |unfold mark_failed|unfold mark_skipped]; [|by rewrite update_row_ids..].
  unfold log_received. destruct (existsb (hit id) j) eqn:E; [done|]. cbn [fst].
  apply NoDup_map_snoc; [done|]. by apply existsb_key_false in E.
Qed.

Lemma command_run_ids ops j :
  NoDup (map ce_command_id j) -> NoDup (map ce_command_id (command_run j ops)).
Proof.
  revert j. induction ops as [|op ops IH]; intros j Hn; [done|]. by apply IH, command_step_ids.
Qed.

(** Looking a command up after an update of its row, or of another one. *)
Lemma get_entry_update f id id' j :
  (forall e, ce_command_id (f e) = ce_command_id e) ->
  get_entry id (update_row f id' j).1 =
  if bool_decide (id = id') then f <$> get_entry id j else get_entry id j.
Proof.
  intros Hf. cbn. unfold get_entry. induction j as [|e j IH]; cbn; [by destruct (bool_decide _)|].
  destruct (hit id' e) eqn:E'; unfold hit in *; rewrite ?Hf; destruct (bool_decide (ce_command_id e = id)) eqn:E;
    bool_to_prop; [|done| |done].
  - subst. by rewrite bool_decide_eq_true_2.
  - subst. by rewrite bool_decide_eq_false_2.
Qed.

Lemma find_app {A} (f : A -> bool) l l' :
  List.find f (l ++ l') = match List.find f l with Some x => Some x | None => List.find f l' end.
Proof. induction l as [|x l IH]; cbn; [done|]. by destruct (f x). Qed.

Lemma get_entry_received id now id' key ty p j e :
  get_entry id j = Some e -> get_entry id (log_received now id' key ty p j).1 = Some e.
Proof.
  intros He. unfold log_received. destruct (existsb _ _); [done|]. cbn [fst].
  unfold get_entry in *. by rewrite find_app, He.
Qed.

Lemma finished_step id j op e :
  get_entry id j = Some e -> finished (ce_status e) = true -> restarts id op = false ->
  exists e', get_entry id (command_step j op) = Some e' /\ finished (ce_status e') = true.
Proof.
  intros He Hf Hr. destruct op as [now id' key ty p|now id'|now id' r|now id' m|now id' m];
    cbn [command_step restarts] in *.
  - exists e. split; [by apply get_entry_received|done].
  - unfold mark_in_progress, command_update_status. rewrite get_entry_update by done.
    rewrite bool_decide_eq_false_2; [by exists e|]. intros ->. by bool_to_prop.
  - unfold mark_completed. rewrite get_entry_update, He by done.
    destruct (bool_decide _); by eexists.
  - unfold mark_failed. rewrite get_entry_update, He by done. destruct (bool_decide _); by eexists.
  - unfold mark_skipped. rewrite get_entry_update, He by done. destruct (bool_decide _); by eexists.
Qed.

Lemma get_entry_of j e :
  NoDup (map ce_command_id j) -> e ∈ j -> get_entry (ce_command_id e) j = Some e.
Proof. apply (find_unique ce_command_id). Qed.

(** Execution is idempotent. Once a command is completed, failed or skipped,
    it stays executed whatever the journal records next, a second receipt
    included, as long as it is not put back in progress; and command ids stay
    unique. *)
Theorem executed_stays_executed j ops id key :
  NoDup (map ce_command_id j) -> get_entry id j <> None -> is_executed id key j = true ->
  forallb (fun op => negb (restarts id op)) ops = true ->
  is_executed id key (command_run j ops) = true /\
  NoDup (map ce_command_id (command_run j ops)).
Proof.
  intros Hn Hs He Hr. split; [|by apply command_run_ids].
  unfold is_executed in He. destruct (get_entry id j) as [e|] eqn:Hg; [|done]. clear Hs Hn.
  cut (exists e', get_entry id (command_run j ops) = Some e' /\ finished (ce_status e') = true).
  { intros (e' & Hg' & Hf'). unfold is_executed. by rewrite Hg'. }
  revert j e Hg He. induction ops as [|op ops IH]; intros j e Hg He; [by exists e|].
  cbn [forallb] in Hr. bool_to_prop.
  destruct (finished_step id j op e) as (e' & Hg' & Hf'); [done..|]. by apply (IH H0 _ e').
Qed.

(** Restart recovery. The set read back on start-up holds exactly the
    commands [is_executed] reports by id, and the pending ones are the others. *)
Theorem executed_ids_correct ops id :
  let j := command_run [] ops in
  (id ∈ get_executed_command_ids j <-> is_executed id None j = true) /\
  (forall e, e ∈ get_pending_commands j <-> e ∈ j /\ finished (ce_status e) = false) /\
  (forall e, e ∈ j -> get_entry (ce_command_id e) j = Some e).
Proof.
  intros j. assert (NoDup (map ce_command_id j)) as Hn by (apply command_run_ids; constructor).
  clearbody j. split_and!.
  - unfold get_executed_command_ids, is_executed. rewrite elem_of_list_to_set, list_elem_of_fmap.
    split.
    + intros (e & -> & Hin). rewrite list_elem_of_In, filter_In in Hin.
      destruct Hin as [Hin Hf]. rewrite <- list_elem_of_In in Hin.
      by rewrite (get_entry_of j e Hn Hin).
    + destruct (get_entry id j) as [e|] eqn:E; [|done]. intros Hf.
      apply (find_key ce_command_id) in E as [Hin <-]. exists e. split; [done|].
      rewrite list_elem_of_In, filter_In, <- list_elem_of_In. done.
  - intros e. unfold get_pending_commands. rewrite elem_order_by.
    rewrite list_elem_of_In, filter_In, <- list_elem_of_In. by rewrite negb_true_iff.
  - intros e Hin. by apply get_entry_of.
Qed.

(** Once a command is received, the idempotency key is no longer looked at: a
    command whose key has been executed under another id is reported as not
    executed as soon as its own receipt is logged. *)
Theorem key_ignored_once_received :
  let j := command_run []
    [Received 1 "c1" "k" "START" None; Completed 2 "c1" None; Received 3 "c2" "k" "START" None]%string in
  is_executed "c2" (Some "k"%string) j = false /\
  is_executed "c3" (Some "k"%string) j = true.
Proof. by vm_compute. Qed.

(** ** Witnesses *)

Lemma executed_stays_executed_witness :
  let j := command_run [] [Received 1 "c1" "k" "START" None; Completed 2 "c1" None]%string in
  is_executed "c1" None (command_run j [Received 3 "c1" "k" "START" None]%string) = true.
Proof.
  apply (executed_stays_executed _ [Received 3 "c1" "k" "START" None]%string "c1" None).
  - vm_compute. apply NoDup_singleton.
  - vm_compute. discriminate.
  - vm_compute. reflexivity.
  - vm_compute. reflexivity.
Defined.
