(* ===== verification/Engine.v ===== *)
(** * Live execution engine: [packages/agent/execution/engine.py]

    [LiveExecutionEngine] turns an intent into a broker order: origin check,
    policy firewall, hard caps, risk checks, price collar, duplicate detection,
    write-ahead logging in the order journal, submission, tracking.

    The broker's functions are code outside the repository: they are the fields
    of [Broker], functions of an abstract broker state that answer or raise.  The
    orders handed to [broker_submit] are recorded in [sent].  [uuid4] and the
    clock are arguments.  The two dictionaries of orders share their [Order]
    objects: [en_orders] owns them, [en_by_client] maps a client id to the
    [order_id] of the shared object. *)
From Stdlib Require Import Ascii String.
From S2P Require Import Prelude PyDecimal DecArith PyValue Sha256 PyFormat PyJson PyFloat HashChain.
From S2P Require Import Intent Firewall HardCaps RiskChecker Journal.
Open Scope Z_scope.
Open Scope list_scope.

Inductive OrderStatus :=
  | PENDING | SUBMITTED | ACCEPTED | PARTIALLY_FILLED | FILLED | CANCELLED | REJECTED | EXPIRED
  | ERROR.

#[export] Instance OrderStatus_eq_dec : EqDecision OrderStatus.
Proof. solve_decision. Defined.

Definition order_status_value (s : OrderStatus) : string :=
  match s with
  | PENDING => "pending"
  | SUBMITTED => "submitted"
  | ACCEPTED => "accepted"
  | PARTIALLY_FILLED => "partially_filled"
  | FILLED => "filled"
  | CANCELLED => "cancelled"
  | REJECTED => "rejected"
  | EXPIRED => "expired"
  | ERROR => "error"
  end%string.

Inductive OrderType := MARKET | LIMIT | STOP | STOP_LIMIT.

#[export] Instance OrderType_eq_dec : EqDecision OrderType.
Proof. solve_decision. Defined.

Definition order_type_value (t : OrderType) : string :=
  match t with
  | MARKET => "market"
  | LIMIT => "limit"
  | STOP => "stop"
  | STOP_LIMIT => "stop_limit"
  end%string.

(** [OrderType(s)]; [None] is [ValueError]. *)
Definition order_type_of (s : string) : option OrderType :=
  List.find (fun t => bool_decide (s = order_type_value t)) [MARKET; LIMIT; STOP; STOP_LIMIT].

Record Order := MkOrder {
  order_id : string;
  client_order_id : string;
  o_intent_id : string;
  o_symbol : string;
  o_side : string;
  order_type : OrderType;
  quantity : dec;
  o_limit_price : option dec;
  o_stop_price : option dec;
  o_time_in_force : string;
  status : OrderStatus;
  filled_quantity : dec;
  avg_fill_price : option dec;
  commission : dec;
  broker : string;
  broker_order_id : option string;
  created_at : Z;
  submitted_at : option Z;
  filled_at : option Z;
  o_error_message : option string
}.

Definition order_to_dict (o : Order) : dict :=
  [("order_id", VStr (order_id o));
   ("client_order_id", VStr (client_order_id o));
   ("intent_id", VStr (o_intent_id o));
   ("symbol", VStr (o_symbol o));
   ("side", VStr (o_side o));
   ("order_type", VStr (order_type_value (order_type o)));
   ("quantity", VStr (dec_str (quantity o)));
   ("limit_price", v_dec_str (o_limit_price o));
   ("stop_price", v_dec_str (o_stop_price o));
   ("time_in_force", VStr (o_time_in_force o));
   ("status", VStr (order_status_value (status o)));
   ("filled_quantity", VStr (dec_str (filled_quantity o)));
   ("avg_fill_price", v_dec_str (avg_fill_price o));
   ("commission", VStr (dec_str (commission o)));
   ("broker", VStr (broker o));
   ("broker_order_id", v_opt_str (broker_order_id o));
   ("created_at", VStr (isoformat (created_at o)));
   ("submitted_at", v_time_str (submitted_at o));
   ("filled_at", v_time_str (filled_at o));
   ("error_message", v_opt_str (o_error_message o))]%string.

(** The assignments the engine makes to an order. *)
Definition with_status (s : OrderStatus) (o : Order) : Order :=
  MkOrder (order_id o) (client_order_id o) (o_intent_id o) (o_symbol o) (o_side o) (order_type o)
    (quantity o) (o_limit_price o) (o_stop_price o) (o_time_in_force o) s (filled_quantity o)
    (avg_fill_price o) (commission o) (broker o) (broker_order_id o) (created_at o)
    (submitted_at o) (filled_at o) (o_error_message o).

Definition with_fill (fq : dec) (price : option dec) (o : Order) : Order :=
  MkOrder (order_id o) (client_order_id o) (o_intent_id o) (o_symbol o) (o_side o) (order_type o)
    (quantity o) (o_limit_price o) (o_stop_price o) (o_time_in_force o) (status o) fq price
    (commission o) (broker o) (broker_order_id o) (created_at o) (submitted_at o) (filled_at o)
    (o_error_message o).

Definition with_broker_id (b : option string) (o : Order) : Order :=
  MkOrder (order_id o) (client_order_id o) (o_intent_id o) (o_symbol o) (o_side o) (order_type o)
    (quantity o) (o_limit_price o) (o_stop_price o) (o_time_in_force o) (status o)
    (filled_quantity o) (avg_fill_price o) (commission o) (broker o) b (created_at o)
    (submitted_at o) (filled_at o) (o_error_message o).

Definition with_times (submitted filled : option Z) (o : Order) : Order :=
  MkOrder (order_id o) (client_order_id o) (o_intent_id o) (o_symbol o) (o_side o) (order_type o)
    (quantity o) (o_limit_price o) (o_stop_price o) (o_time_in_force o) (status o)
    (filled_quantity o) (avg_fill_price o) (commission o) (broker o) (broker_order_id o)
    (created_at o) submitted filled (o_error_message o).

Definition with_error (m : option string) (o : Order) : Order :=
  MkOrder (order_id o) (client_order_id o) (o_intent_id o) (o_symbol o) (o_side o) (order_type o)
    (quantity o) (o_limit_price o) (o_stop_price o) (o_time_in_force o) (status o)
    (filled_quantity o) (avg_fill_price o) (commission o) (broker o) (broker_order_id o)
    (created_at o) (submitted_at o) (filled_at o) m.

Definition with_terms (q : dec) (limit : option dec) (o : Order) : Order :=
  MkOrder (order_id o) (client_order_id o) (o_intent_id o) (o_symbol o) (o_side o) (order_type o)
    q limit (o_stop_price o) (o_time_in_force o) (status o) (filled_quantity o)
    (avg_fill_price o) (commission o) (broker o) (broker_order_id o) (created_at o)
    (submitted_at o) (filled_at o) (o_error_message o).

(** [adv_provider] may raise: [Raise] stands for any exception. *)
Record PriceCollarConfig := MkCollar {
  collar_enabled : bool;
  max_price_distance_pct : option pyfloat;
  max_notional : option pyfloat;
  max_adv_participation : option pyfloat;
  adv_provider : option (string -> pyres unit (option pyfloat))
}.

Definition default_collar : PriceCollarConfig :=
  MkCollar true (Some (float_of_dec (Dec 10 (-2)))) None None None.

Record ExecutionResult := MkExecResult {
  success : bool;
  x_order : option Order;
  policy_result : option PolicyResult;
  x_error : option string
}.

(** What the engine calls and does not define. *)
Record Broker (B : Type) := MkBroker {
  broker_submit : option (B -> Order -> B * pyres string (bool * option string * option string));
  broker_cancel : option (B -> string -> option string -> B * pyres string bool);
  broker_replace : option (B -> string -> option dec -> option dec ->
                           B * pyres string (bool * option string * option string))
}.
Arguments MkBroker {B}.
Arguments broker_submit {B}.
Arguments broker_cancel {B}.
Arguments broker_replace {B}.

Record Engine := MkEngine {
  en_policy : PolicyFirewall;
  en_hard_caps : HardCapEnforcer;
  en_risk_checker : RiskChecker;
  en_collar : PriceCollarConfig;
  en_broker_name : string;
  en_deployment_id : string;
  en_run_id : string;
  en_sequence : Z;
  en_orders : list (string * Order);
  en_by_client : list (string * string);
  en_journal : OrderJournal;
  en_entry_by_client : list (string * string);
  en_portfolio : PortfolioState
}.

(** Exceptions that leave [execute]: a duplicate key in the journal, whatever
    the broker's function raises, an error in a check or in a stored entry. *)
Inductive ExecError :=
  | ErrJournal
  | ErrBroker (msg : string)
  | ErrCheck
  | ErrEntry.

(** The engine, the broker's state, and the orders handed to [broker_submit]. *)
Record World (B : Type) := MkWorld {
  w_engine : Engine;
  w_broker : B;
  w_sent : list Order
}.
Arguments MkWorld {B}.
Arguments w_engine {B}.
Arguments w_broker {B}.
Arguments w_sent {B}.

(** ** State updates *)

Definition set_sequence (n : Z) (e : Engine) : Engine :=
  MkEngine (en_policy e) (en_hard_caps e) (en_risk_checker e) (en_collar e) (en_broker_name e)
    (en_deployment_id e) (en_run_id e) n (en_orders e) (en_by_client e) (en_journal e)
    (en_entry_by_client e) (en_portfolio e).

Definition set_journal (j : OrderJournal) (e : Engine) : Engine :=
  MkEngine (en_policy e) (en_hard_caps e) (en_risk_checker e) (en_collar e) (en_broker_name e)
    (en_deployment_id e) (en_run_id e) (en_sequence e) (en_orders e) (en_by_client e) j
    (en_entry_by_client e) (en_portfolio e).

Definition set_entry_id (coid entry_id : string) (e : Engine) : Engine :=
  MkEngine (en_policy e) (en_hard_caps e) (en_risk_checker e) (en_collar e) (en_broker_name e)
    (en_deployment_id e) (en_run_id e) (en_sequence e) (en_orders e) (en_by_client e)
    (en_journal e) (dset (en_entry_by_client e) coid entry_id) (en_portfolio e).

Definition set_orders (os : list (string * Order)) (e : Engine) : Engine :=
  MkEngine (en_policy e) (en_hard_caps e) (en_risk_checker e) (en_collar e) (en_broker_name e)
    (en_deployment_id e) (en_run_id e) (en_sequence e) os (en_by_client e) (en_journal e)
    (en_entry_by_client e) (en_portfolio e).

(** [self._orders[o.order_id] = o; self._orders_by_client_id[o.client_order_id] = o] *)
Definition track_order (o : Order) (e : Engine) : Engine :=
  MkEngine (en_policy e) (en_hard_caps e) (en_risk_checker e) (en_collar e) (en_broker_name e)
    (en_deployment_id e) (en_run_id e) (en_sequence e) (dset (en_orders e) (order_id o) o)
    (dset (en_by_client e) (client_order_id o) (order_id o)) (en_journal e)
    (en_entry_by_client e) (en_portfolio e).

Definition count_order (now : Z) (e : Engine) : Engine :=
  MkEngine (Firewall.record_order now (en_policy e)) (HardCaps.record_order (en_hard_caps e))
    (en_risk_checker e) (en_collar e) (en_broker_name e) (en_deployment_id e) (en_run_id e)
    (en_sequence e) (en_orders e) (en_by_client e) (en_journal e) (en_entry_by_client e)
    (en_portfolio e).

(** [x if x is not None else y] *)
Definition or_else {A} (x y : option A) : option A :=
  match x with
  | Some _ => x
  | None => y
  end.

Section EngineOps.
Context `{Digest}.
Local Open Scope string_scope.
Local Open Scope Z_scope.

(** ** Sequence numbers *)

(** [isinstance(entry_seq, int)], of [metadata.get("sequence", 0)] *)
Definition entry_sequence (md : dict) : option Z :=
  match default (VInt 0) (dget md "sequence") with
  | VInt n => Some n
  | VBool b => Some (if b then 1 else 0)
  | _ => None
  end.

Definition entry_of_run (deployment run : string) (e : JournalEntry) : bool :=
  bool_decide (default (VStr "") (dget (je_metadata e) "deployment_id") = VStr deployment) &&
  bool_decide (default (VStr "") (dget (je_metadata e) "run_id") = VStr run).

(** The loop of [_recover_sequence_from_journal]. *)
Definition max_sequence (deployment run : string) (entries : list JournalEntry) : Z :=
  fold_left (fun m e =>
    if entry_of_run deployment run e then
      match entry_sequence (je_metadata e) with
      | Some s => if m <? s then s else m
      | None => m
      end
    else m) entries 0.

Definition recover_sequence_from_journal (e : Engine) : Engine :=
  set_sequence
    (max_sequence (en_deployment_id e) (en_run_id e) (get_all_entries (en_journal e))) e.

(** [__init__], with every collaborator passed in; empty identifiers are
    replaced by fresh ones. *)
Definition new_engine (policy : PolicyFirewall) (caps : HardCapEnforcer) (risk : RiskChecker)
    (collar : PriceCollarConfig) (broker_name : string) (j : OrderJournal)
    (deployment_id run_id : option string) (uuid1 uuid2 : string) : Engine :=
  recover_sequence_from_journal
    (MkEngine policy caps risk collar broker_name
       (if truthy deployment_id then default "" deployment_id else uuid1)
       (if truthy run_id then default "" run_id else uuid2)
       0 [] [] j [] new_portfolio).

(** ** Identifiers *)

Definition client_id_text (broker_name : string) (i : OrderIntent) : string :=
  "ccea|" +:+ broker_name +:+ "|" +:+ strategy_id i +:+ "|" +:+ intent_id i.

Definition compute_client_order_id (e : Engine) (i : OrderIntent) : string :=
  "ccea_" +:+ substring 0 24 (sha256_hex (client_id_text (en_broker_name e) i)).

Definition record_sequence_for_order (e : Engine) : Engine * Z :=
  (set_sequence (en_sequence e + 1) e, en_sequence e + 1).

(** ** Conversion and price collar *)

(** [intent.target_notional / current_price] when there is no quantity. *)
Definition intent_quantity (i : OrderIntent) (current_price : option dec) : option dec :=
  let q := quantity_of i in
  if deqb q dzero then
    match target_notional i, current_price with
    | Some n, Some px => if dtrue n && dtrue px then ddiv n px else Some q
    | _, _ => Some q
    end
  else Some q.

Definition new_order (now : Z) (oid coid iid sym side : string) (t : OrderType) (q : dec)
    (brk : string) : Order :=
  MkOrder oid coid iid sym side t q None None "GTC" PENDING dzero None dzero brk None now None None
    None.

Definition intent_to_order (e : Engine) (now : Z) (oid : string) (i : OrderIntent)
    (current_price : option dec) : option Order :=
  q ← intent_quantity i current_price;
  Some (MkOrder oid (compute_client_order_id e i) (intent_id i) (symbol i)
          (if bool_decide (Intent.side i = LONG) then "buy" else "sell")
          (if is_limit i then LIMIT else if is_stop i then STOP else MARKET)
          q (limit_price i) (stop_price i) (time_in_force i) PENDING dzero None dzero
          (en_broker_name e) None now None None None).

(** 1) the limit price is far from the reference *)
Definition collar_price (c : PriceCollarConfig) (o : Order) (ref : option dec) : option string :=
  match max_price_distance_pct c, o_limit_price o, ref with
  | Some pct, Some lp, Some r =>
      if fltb fzero (float_of_dec r) then
        let dist := fdiv (fabs (fsub (float_of_dec lp) (float_of_dec r))) (float_of_dec r) in
        if fltb (fadd pct float_1e_12) dist then
          Some ("limit " +:+ dec_str lp +:+ " is " +:+ float_pct 1 dist +:+ " from reference "
                +:+ dec_str r +:+ " (> " +:+ float_pct 0 pct +:+ ")")
        else None
      else None
  | _, _, _ => None
  end.

Definition collar_notional (o : Order) (ref : option dec) : option pyfloat :=
  px ← or_else (o_limit_price o) ref;
  Some (fabs (fmul (float_of_dec (quantity o)) (float_of_dec px))).

(** 2) the absolute notional cap *)
Definition collar_size (c : PriceCollarConfig) (notional : option pyfloat) : option string :=
  match max_notional c, notional with
  | Some cap, Some n =>
      if fltb cap n then
        Some ("notional $" +:+ float_money n +:+ " exceeds cap $" +:+ float_money cap)
      else None
  | _, _ => None
  end.

(** 3) the share of the average daily volume; an exception of the provider is
    swallowed. *)
Definition collar_adv (c : PriceCollarConfig) (sym : string) (notional : option pyfloat) :
    option string :=
  match max_adv_participation c, adv_provider c, notional with
  | Some cap, Some provider, Some n =>
      match provider sym with
      | Ok (Some adv) =>
          if ftrue adv && fltb fzero adv then
            let part := fdiv n adv in
            if fltb (fadd cap float_1e_12) part then
              Some ("order is " +:+ float_pct 1 part +:+ " of ADV (> " +:+ float_pct 0 cap +:+ ")")
            else None
          else None
      | _ => None
      end
  | _, _, _ => None
  end.

Definition check_price_collar (c : PriceCollarConfig) (o : Order) (current_price : option dec) :
    option string :=
  if negb (collar_enabled c) then None
  else
    let ref := or_else current_price (o_limit_price o) in
    match collar_price c o ref with
    | Some m => Some m
    | None =>
        let n := collar_notional o ref in
        match collar_size c n with
        | Some m => Some m
        | None => collar_adv c (o_symbol o) n
        end
    end.
End EngineOps.

(** ** execute *)

Definition refuse (o : option Order) (p : option PolicyResult) (msg : string) : ExecutionResult :=
  MkExecResult false o p (Some msg).

Definition allowed_origin (origin : string) : bool :=
  bool_decide (origin ∈ ["local"; "strategy"; "runner"]%string).

Section Execute.
Context `{Digest} {B : Type} (env : Broker B).
Local Open Scope string_scope.
Local Open Scope Z_scope.

(** Steps 1 to 4b: an early return, or the order to submit with the policy's
    result. *)
Definition execute_gates (e : Engine) (now : Z) (oid : string) (i : OrderIntent)
    (current_price : option dec) (origin : string) :
    pyres ExecError (ExecutionResult + Order * PolicyResult) :=
  if negb (allowed_origin origin) then
    Ok (inl (refuse None None
      ("Intent origin '" +:+ origin +:+ "' not allowed - Cloud injection blocked")))
  else if negb (truthy (Some (strategy_id i))) then
    Ok (inl (refuse None None "Intent missing strategy_id - origin cannot be verified"))
  else if is_passive i then
    Ok (inl (MkExecResult true None None (Some "Passive intent - no action required")))
  else
    match Firewall.check_intent now (en_policy e) i
            (get_position (en_portfolio e) (symbol i))
            (gross_exposure (en_portfolio e)) (equity (en_portfolio e)) with
    | None => Raise ErrCheck
    | Some pr =>
        if negb (allowed pr) then
          match pr_violations pr with
          | v :: _ => Ok (inl (refuse None (Some pr) ("Policy violation: " +:+ pv_message v)))
          | [] => Raise ErrCheck
          end
        else
          match HardCaps.check_order_size now (en_hard_caps e) (quantity_of i) with
          | Some v => Ok (inl (refuse None None ("Hard cap violation: " +:+ cap_message v)))
          | None =>
              match RiskChecker.check (en_risk_checker e) now i (en_portfolio e) current_price with
              | None => Raise ErrCheck
              | Some rr =>
                  if negb (passed rr) then
                    match failed_checks rr with
                    | c :: _ => Ok (inl (refuse None None ("Risk check failed: " +:+ c_message c)))
                    | [] => Raise ErrCheck
                    end
                  else
                    match intent_to_order e now oid i current_price with
                    | None => Raise ErrCheck
                    | Some o =>
                        match check_price_collar (en_collar e) o current_price with
                        | Some m =>
                            Ok (inl (refuse (Some o) None
                              ("Price-collar / fat-finger block: " +:+ m)))
                        | None => Ok (inr (o, pr))
                        end
                    end
              end
          end
    end.

(** The order rebuilt from its journal entry. *)
Definition recover_order (e : Engine) (now : Z) (oid : string) (je : JournalEntry) :
    option Order :=
  t ← order_type_of (je_order_type je);
  q ← dec_of_str (je_quantity je);
  Some (with_broker_id (je_broker_order_id je)
          (new_order now oid (je_client_order_id je) (je_intent_id je) (je_symbol je) (je_side je) t
             q (en_broker_name e))).

Definition get_order_by_client_id (coid : string) (e : Engine) : option Order :=
  oid ← dget (en_by_client e) coid; dget (en_orders e) oid.

(** Step 5: the client id is already in the journal. *)
Definition execute_duplicate (e : Engine) (now : Z) (oid coid : string) :
    Engine * pyres ExecError ExecutionResult :=
  match get_order_by_client_id coid e with
  | Some existing =>
      (e, Ok (MkExecResult true (Some existing) None (Some "Duplicate order - returning existing")))
  | None =>
      match Journal.get_by_client_id coid (en_journal e) with
      | Some je =>
          match recover_order e now oid je with
          | Some r =>
              (track_order r e,
               Ok (MkExecResult true (Some r) None (Some "Duplicate order - recovered from journal")))
          | None => (e, Raise ErrEntry)
          end
      | None =>
          (e, Ok (MkExecResult true None None (Some "Duplicate order - journal entry exists")))
      end
  end.

Definition order_metadata (e : Engine) (i : OrderIntent) (seq : Z) : dict :=
  [("strategy_id", VStr (strategy_id i));
   ("intent_type", VStr (intent_type_value (intent_type i)));
   ("deployment_id", VStr (en_deployment_id e));
   ("run_id", VStr (en_run_id e));
   ("sequence", VInt seq)].

(** Step 5b: the sequence number and the journal entry, before submission. *)
Definition log_before_submit (e0 : Engine) (now : Z) (eid : string) (i : OrderIntent) (o : Order) :
    Engine * pyres ExecError JournalEntry :=
  let '(e1, seq) := record_sequence_for_order e0 in
  match log_order now eid (client_order_id o) (o_intent_id o) (o_symbol o) (o_side o) (quantity o)
          (order_type_value (order_type o)) (Some (order_metadata e1 i seq)) (en_journal e1) with
  | Raise _ => (e1, Raise ErrJournal)
  | Ok (j, entry) =>
      (set_entry_id (client_order_id o) (je_entry_id entry) (set_journal j e1), Ok entry)
  end.

Definition journal_status (now : Z) (eid : string) (s : JournalStatus) (b : option string)
    (e : Engine) : Engine :=
  set_journal (update_status now eid s b None None (en_journal e)).1 e.

(** Steps 6 and 7: submission, tracking and rate limiting. *)
Definition submit (w : World B) (now : Z) (o : Order) (eid : string) (pr : PolicyResult) :
    World B * pyres ExecError ExecutionResult :=
  let e := w_engine w in
  let done_ := fun e' b' sent' o' =>
    (MkWorld (count_order now (track_order o' e')) b' sent',
     Ok (MkExecResult true (Some o') (Some pr) None)) in
  match broker_submit env with
  | None => done_ e (w_broker w) (w_sent w) (with_status PENDING o)
  | Some f =>
      let '(b, r) := f (w_broker w) o in
      let sent := (w_sent w ++ [o])%list in
      match r with
      | Raise m => (MkWorld e b sent, Raise (ErrBroker m))
      | Ok (true, broker_id, _) =>
          done_ (journal_status now eid J_SUBMITTED broker_id e) b sent
            (with_broker_id broker_id (with_times (Some now) (filled_at o) (with_status SUBMITTED o)))
      | Ok (false, _, err) =>
          let o' := with_error err (with_status ERROR o) in
          (MkWorld (journal_status now eid J_REJECTED None e) b sent,
           Ok (refuse (Some o') None
                 ("Broker submission failed: " +:+ default "None" err)))
      end
  end.

(** [oid] and [rid] are the identifiers of the converted and of a recovered
    order, [eid] the one of the journal entry. *)
Definition execute (w : World B) (now : Z) (oid rid eid : string) (i : OrderIntent)
    (current_price : option dec) (origin : string) :
    World B * pyres ExecError ExecutionResult :=
  let e := w_engine w in
  match execute_gates e now oid i current_price origin with
  | Raise err => (w, Raise err)
  | Ok (inl r) => (w, Ok r)
  | Ok (inr (o, pr)) =>
      if is_duplicate (client_order_id o) (en_journal e) then
        let '(e', r) := execute_duplicate e now rid (client_order_id o) in
        (MkWorld e' (w_broker w) (w_sent w), r)
      else
        let '(e', r) := log_before_submit e now eid i o in
        let w' := MkWorld e' (w_broker w) (w_sent w) in
        match r with
        | Raise err => (w', Raise err)
        | Ok entry => submit w' now o (je_entry_id entry) pr
        end
  end.

(** ** Order updates *)

(** The journal status an order status is recorded as. *)
Definition journal_status_of (s : OrderStatus) : option JournalStatus :=
  match s with
  | PENDING => None
  | SUBMITTED | ACCEPTED | PARTIALLY_FILLED => Some J_SUBMITTED
  | FILLED => Some J_CONFIRMED
  | CANCELLED | EXPIRED => Some J_CANCELLED
  | REJECTED | ERROR => Some J_REJECTED
  end.

Definition updated_order (now : Z) (s : OrderStatus) (fq afp : option dec)
    (boid err : option string) (o : Order) : Order :=
  let o1 := with_fill (default (filled_quantity o) fq) (or_else afp (avg_fill_price o))
              (with_status s o) in
  let o2 := with_error (or_else err (o_error_message o1))
              (with_broker_id (or_else boid (broker_order_id o1)) o1) in
  match s with
  | FILLED => with_times (submitted_at o2) (Some now) o2
  | _ => o2
  end.

Definition update_order_status (e : Engine) (now : Z) (coid : string) (s : OrderStatus)
    (fq afp : option dec) (boid err : option string) : Engine * option Order :=
  match get_order_by_client_id coid e with
  | None => (e, None)
  | Some o =>
      let o' := updated_order now s fq afp boid err o in
      let e1 := set_orders (dset (en_orders e) (order_id o) o') e in
      let entry_id := dget (en_entry_by_client e1) coid in
      (if truthy entry_id then
         match journal_status_of s with
         | Some js => journal_status now (default "" entry_id) js boid e1
         | None => e1
         end
       else e1, Some o')
  end.

(** An order that can no longer be cancelled or amended. *)
Definition closed (s : OrderStatus) : bool :=
  match s with
  | FILLED | CANCELLED | REJECTED | EXPIRED => true
  | _ => false
  end.

Definition cancel_order (w : World B) (now : Z) (coid : string) : World B * ExecutionResult :=
  let e := w_engine w in
  match get_order_by_client_id coid e with
  | None => (w, refuse None None "order not found")
  | Some o =>
      if closed (status o) then
        (w, refuse (Some o) None
              ("cannot cancel a " +:+ order_status_value (status o) +:+ " order"))
      else
        match broker_cancel env with
        | None => (w, refuse (Some o) None "no broker_cancel wired")
        | Some f =>
            let '(b, r) := f (w_broker w) coid (broker_order_id o) in
            match r with
            | Raise m =>
                (MkWorld e b (w_sent w), refuse (Some o) None ("broker cancel error: " +:+ m))
            | Ok true =>
                let '(e', o') :=
                  update_order_status e now coid CANCELLED None None (broker_order_id o) None in
                (MkWorld e' b (w_sent w), MkExecResult true o' None None)
            | Ok false =>
                (MkWorld e b (w_sent w), refuse (Some o) None "broker rejected cancel")
            end
        end
  end.

(** The order with the new terms, as the price collar sees it. *)
Definition amended_order (e : Engine) (now : Z) (oid : string) (o : Order)
    (new_quantity new_limit_price : option dec) : Order :=
  with_broker_id (broker_order_id o)
    (with_terms (default (quantity o) new_quantity) (or_else new_limit_price (o_limit_price o))
       (new_order now oid (client_order_id o) (o_intent_id o) (o_symbol o) (o_side o)
          (order_type o) (quantity o) (en_broker_name e))).

Definition replace_order (w : World B) (now : Z) (oid coid : string)
    (new_quantity new_limit_price current_price : option dec) : World B * ExecutionResult :=
  let e := w_engine w in
  match get_order_by_client_id coid e with
  | None => (w, refuse None None "order not found")
  | Some o =>
      if closed (status o) then
        (w, refuse (Some o) None
              ("cannot amend a " +:+ order_status_value (status o) +:+ " order"))
      else
        let a := amended_order e now oid o new_quantity new_limit_price in
        match check_price_collar (en_collar e) a current_price with
        | Some m => (w, refuse (Some o) None ("Price-collar block on amend: " +:+ m))
        | None =>
            match broker_replace env with
            | None => (w, refuse (Some o) None "no broker_replace wired")
            | Some f =>
                let '(b, r) := f (w_broker w) coid new_quantity new_limit_price in
                match r with
                | Raise m =>
                    (MkWorld e b (w_sent w), refuse (Some o) None ("broker replace error: " +:+ m))
                | Ok (true, broker_id, _) =>
                    let o1 := with_terms (quantity a) (o_limit_price a) o in
                    let o2 := if truthy broker_id then with_broker_id broker_id o1 else o1 in
                    let e1 := set_orders (dset (en_orders e) (order_id o) o2) e in
                    let '(e2, o3) :=
                      update_order_status e1 now coid ACCEPTED None None (broker_order_id o2) None in
                    (MkWorld e2 b (w_sent w), MkExecResult true o3 None None)
                | Ok (false, _, err) =>
                    (MkWorld e b (w_sent w),
                     refuse (Some o) None
                       (if truthy err then default "" err else "broker rejected replace"))
                end
            end
        end
  end.

(** ** Accessors and identity *)

Definition update_portfolio (p : PortfolioState) (e : Engine) : Engine :=
  MkEngine (en_policy e) (en_hard_caps e) (en_risk_checker e) (en_collar e) (en_broker_name e)
    (en_deployment_id e) (en_run_id e) (en_sequence e) (en_orders e) (en_by_client e)
    (en_journal e) (en_entry_by_client e) p.

Definition get_order (oid : string) (e : Engine) : option Order := dget (en_orders e) oid.

Definition pending_status (s : OrderStatus) : bool :=
  match s with
  | PENDING | SUBMITTED | ACCEPTED => true
  | _ => false
  end.

Definition get_pending_orders (e : Engine) : list Order :=
  List.filter (fun o => pending_status (status o)) (en_orders e).*2.

Definition get_orders_for_symbol (sym : string) (e : Engine) : list Order :=
  List.filter (fun o => bool_decide (o_symbol o = sym)) (en_orders e).*2.

Definition get_idempotency_state (e : Engine) : dict :=
  [("deployment_id", VStr (en_deployment_id e)); ("run_id", VStr (en_run_id e));
   ("sequence", VInt (en_sequence e)); ("broker_name", VStr (en_broker_name e))].

Definition set_ids (deployment run : string) (seq : Z) (e : Engine) : Engine :=
  MkEngine (en_policy e) (en_hard_caps e) (en_risk_checker e) (en_collar e) (en_broker_name e)
    deployment run seq (en_orders e) (en_by_client e) (en_journal e) (en_entry_by_client e)
    (en_portfolio e).

Definition set_deployment_id (d : string) (e : Engine) : Engine :=
  set_ids d (en_run_id e) (en_sequence e) e.

Definition set_run_id (r : string) (e : Engine) : Engine :=
  recover_sequence_from_journal (set_ids (en_deployment_id e) r 0 e).
End Execute.
