(* ===== verification/EngineProps.v ===== *)
(** * Safety of the execution engine

    The engine of [Engine] over time: its operations, restarts on the same
    journal included, as a step function on worlds; what must hold before the
    broker is called; that an order is submitted at most once; that sequence
    numbers are never reused; that order updates reach the journal. *)
From Stdlib Require Import QArith Lqa.
From Stdlib Require Import Ascii String.
From S2P Require Import Prelude PyDecimal DecArith PyValue Sha256 PyFormat PyJson PyFloat HashChain.
From S2P Require Import Intent Config Firewall HardCaps RiskChecker Journal Engine.
Open Scope Z_scope.
Open Scope list_scope.

Section Safety.
Context `{Digest} {B : Type} (env : Broker B).

Definition journal_of (w : World B) : OrderJournal := en_journal (w_engine w).

Inductive engine_op :=
  | Execute (now : Z) (oid rid eid : string) (i : OrderIntent) (price : option dec) (origin : string)
  | Cancel (now : Z) (coid : string)
  | Replace (now : Z) (oid coid : string) (q lp px : option dec)
  | StatusUpdate (now : Z) (coid : string) (s : OrderStatus) (fq afp : option dec)
      (boid err : option string)
  | Portfolio (p : PortfolioState)
  | Policy (op : fw_op)
  | StartRun (run : string)
  | Restart (policy : PolicyFirewall) (caps : HardCapEnforcer) (risk : RiskChecker)
      (collar : PriceCollarConfig) (broker_name : string) (deployment run : option string)
      (u1 u2 : string).

Definition set_policy (p : PolicyFirewall) (e : Engine) : Engine :=
  MkEngine p (en_hard_caps e) (en_risk_checker e) (en_collar e) (en_broker_name e)
    (en_deployment_id e) (en_run_id e) (en_sequence e) (en_orders e) (en_by_client e)
    (en_journal e) (en_entry_by_client e) (en_portfolio e).

Definition on_engine (f : Engine -> Engine) (w : World B) : World B :=
  MkWorld (f (w_engine w)) (w_broker w) (w_sent w).

(** A restart builds a new engine on the journal of the old one. *)
Definition w_step (w : World B) (op : engine_op) : World B :=
  match op with
  | Execute now oid rid eid i px origin => (execute env w now oid rid eid i px origin).1
  | Cancel now coid => (cancel_order env w now coid).1
  | Replace now oid coid q lp px => (replace_order env w now oid coid q lp px).1
  | StatusUpdate now coid s fq afp boid err =>
      on_engine (fun e => (update_order_status e now coid s fq afp boid err).1) w
  | Portfolio p => on_engine (update_portfolio p) w
  | Policy op => on_engine (fun e => set_policy (fw_step (en_policy e) op) e) w
  | StartRun r => on_engine (set_run_id r) w
  | Restart policy caps risk collar name dep run u1 u2 =>
      on_engine (fun e => new_engine policy caps risk collar name (en_journal e) dep run u1 u2) w
  end.

Definition w_run (w : World B) (ops : list engine_op) : World B := fold_left w_step ops w.

(** ** What an operation does to the journal and the broker *)

(** Everything [execute] checks before it logs and submits an order. *)
Record gates_passed (e : Engine) (now : Z) (oid : string) (i : OrderIntent)
    (price : option dec) (origin : string) (o : Order) (pr : PolicyResult) : Prop := {
  gp_origin : origin ∈ ["local"; "strategy"; "runner"]%string;
  gp_strategy : strategy_id i <> EmptyString;
  gp_active : is_passive i = false;
  gp_policy : Firewall.check_intent now (en_policy e) i (get_position (en_portfolio e) (symbol i))
    (gross_exposure (en_portfolio e)) (equity (en_portfolio e)) = Some pr /\ allowed pr = true;
  gp_hard_cap :
    (dval (quantity_of i) <= dval (absolute_max_order_size (he_caps (en_hard_caps e))))%Q;
  gp_risk : exists rr,
    RiskChecker.check (en_risk_checker e) now i (en_portfolio e) price = Some rr /\ passed rr = true;
  gp_order : intent_to_order e now oid i price = Some o;
  gp_collar : check_price_collar (en_collar e) o price = None
}.

Lemma execute_gates_passed e now oid i price origin o pr :
  execute_gates e now oid i price origin = Ok (inr (o, pr)) ->
  gates_passed e now oid i price origin o pr.
Proof.
  unfold execute_gates. intros Hg.
  destruct (negb (allowed_origin origin)) eqn:E1; [done|].
  destruct (negb (truthy _)) eqn:E2; [done|]. destruct (is_passive i) eqn:E3; [done|].
  destruct (Firewall.check_intent _ _ _ _ _ _) as [pr'|] eqn:E4; [|done].
  destruct (negb (allowed pr')) eqn:E5; [by destruct (pr_violations pr')|].
  destruct (HardCaps.check_order_size _ _ _) eqn:E6; [done|].
  destruct (RiskChecker.check _ _ _ _ _) as [rr|] eqn:E7; [|done].
  destruct (negb (passed rr)) eqn:E8; [by destruct (failed_checks rr)|].
  destruct (intent_to_order _ _ _ _ _) as [o'|] eqn:E9; [|done].
  destruct (check_price_collar _ _ _) eqn:E10; [done|].
  injection Hg as -> ->. split; try done.
  - apply negb_false_iff in E1. by apply bool_decide_eq_true in E1.
  - apply negb_false_iff in E2. unfold truthy in E2. by bool_to_prop.
  - split; [done|]. by apply negb_false_iff.
  - unfold HardCaps.check_order_size in E6. destruct (dltb _ _) eqn:E; [done|].
    by apply dltb_false.
  - exists rr. split; [done|]. by apply negb_false_iff.
Qed.

Lemma find_snoc_new {A} (f : A -> bool) l x :
  existsb f l = false -> f x = true -> List.find f (l ++ [x]) = Some x.
Proof.
  intros Hl Hx. induction l as [|y l IH]; cbn in *; [by rewrite Hx|].
  apply orb_false_iff in Hl as [-> Hl]. by apply IH.
Qed.

(** What [log_before_submit] leaves behind when the journal accepts the order. *)
Lemma log_before_submit_ok e now eid i o e' entry :
  log_before_submit e now eid i o = (e', Ok entry) ->
  is_duplicate (client_order_id o) (en_journal e) = false /\
  get_by_client_id (client_order_id o) (en_journal e') = Some entry /\
  je_status entry = J_PENDING /\ je_entry_id entry = eid /\
  map je_client_order_id (jo_orders (en_journal e'))
    = map je_client_order_id (jo_orders (en_journal e)) ++ [client_order_id o] /\
  jo_orders (en_journal e') = jo_orders (en_journal e) ++ [entry] /\
  je_metadata entry = order_metadata e i (en_sequence e + 1) /\
  en_sequence e' = en_sequence e + 1 /\ en_deployment_id e' = en_deployment_id e /\
  en_run_id e' = en_run_id e.
Proof.
  unfold log_before_submit, record_sequence_for_order. intros Hl.
  destruct (log_order _ _ _ _ _ _ _ _ _ _) as [[j en]|] eqn:El; [|done].
  injection Hl as <- <-. unfold log_order in El. destruct (_ || _) eqn:Ed; [done|].
  apply orb_false_iff in Ed as [_ Hd]. injection El as <- <-.
  cbn [en_journal set_entry_id set_journal append_audit jo_orders set_sequence] in *.
  split_and!; try done.
  - unfold get_by_client_id. cbn [jo_orders append_audit]. apply find_snoc_new; [exact Hd|].
    by apply bool_decide_eq_true_2.
  - by rewrite map_app.
Qed.

Lemma execute_cases w now oid rid eid i price origin w' r :
  execute env w now oid rid eid i price origin = (w', r) ->
  (exists e', w' = MkWorld e' (w_broker w) (w_sent w) /\
     en_journal e' = en_journal (w_engine w) /\
     en_sequence (w_engine w) <= en_sequence e' /\
     en_deployment_id e' = en_deployment_id (w_engine w) /\
     en_run_id e' = en_run_id (w_engine w)) \/
  (exists o pr e1 entry,
     gates_passed (w_engine w) now oid i price origin o pr /\
     log_before_submit (w_engine w) now eid i o = (e1, Ok entry) /\
     (w', r) = submit env (MkWorld e1 (w_broker w) (w_sent w)) now o (je_entry_id entry) pr).
Proof.
  unfold execute. intros Hx.
  destruct (execute_gates _ _ _ _ _ _) as [[r0|[o pr]]|err] eqn:Eg.
  - left. injection Hx as <- _. exists (w_engine w). split_and!; try done; by destruct w.
  - destruct (is_duplicate _ _) eqn:Ed.
    + left. destruct (execute_duplicate _ _ _ _) as [e' r'] eqn:Edup. injection Hx as <- _.
      exists e'. split; [done|]. unfold execute_duplicate in Edup.
      repeat case_match; injection Edup as <- _; cbn; split_and!; done || lia.
    + destruct (log_before_submit _ _ _ _ _) as [e1 [entry|err]] eqn:El.
      * right. exists o, pr, e1, entry. split_and!; [by apply execute_gates_passed|done|done].
      * left. injection Hx as <- _. exists e1. split; [done|].
        unfold log_before_submit, record_sequence_for_order in El.
        destruct (log_order _ _ _ _ _ _ _ _ _ _) as [[]|]; [done|].
        injection El as <- _. cbn. split_and!; done || lia.
  - left. injection Hx as <- _. exists (w_engine w). split_and!; try done; by destruct w.
Qed.

(** Two engines whose journals list the same orders and which number alike:
    what status updates preserve. *)
Record same_log (e e' : Engine) : Prop := {
  sl_clients : map je_client_order_id (jo_orders (en_journal e'))
    = map je_client_order_id (jo_orders (en_journal e));
  sl_metadata : map je_metadata (jo_orders (en_journal e'))
    = map je_metadata (jo_orders (en_journal e));
  sl_sequence : en_sequence e' = en_sequence e;
  sl_deployment : en_deployment_id e' = en_deployment_id e;
  sl_run : en_run_id e' = en_run_id e
}.

#[local] Instance same_log_preorder : PreOrder same_log.
Proof.
  split.
  - intros e. by split.
  - intros e1 e2 e3 [] []. split; congruence.
Qed.

Lemma journal_status_same now eid s b e : same_log e (journal_status now eid s b e).
Proof.
  split; try done; unfold journal_status, update_status; cbn [en_journal set_journal];
    destruct (existsb _ _); cbn [fst append_audit jo_orders]; by rewrite map_set_status.
Qed.

Lemma submit_cases w now o eid pr :
  let w' := (submit env w now o eid pr).1 in
  same_log (w_engine w) (w_engine w') /\
  (w_sent w' = w_sent w /\ broker_submit env = None \/ w_sent w' = w_sent w ++ [o]).
Proof.
  unfold submit. destruct (broker_submit env) as [f|]; [|by split; [split|left]].
  destruct (f (w_broker w) o) as [b [[[[] bid] err]|m]]; cbn [fst w_engine w_sent].
  - split; [|by right]. etrans; [apply (journal_status_same now eid J_SUBMITTED bid)|by split].
  - split; [|by right]. apply journal_status_same.
  - by split; [split|right].
Qed.

Lemma update_order_status_same e now coid s fq afp boid err :
  same_log e (update_order_status e now coid s fq afp boid err).1.
Proof.
  unfold update_order_status. destruct (get_order_by_client_id _ _) as [o|]; [|done].
  cbn [fst]. destruct (truthy _); [|by split]. destruct (journal_status_of s) as [js|]; [|by split].
  etrans; [|apply journal_status_same]. by split.
Qed.

Lemma cancel_order_same w now coid :
  let w' := (cancel_order env w now coid).1 in
  same_log (w_engine w) (w_engine w') /\ w_sent w' = w_sent w.
Proof.
  unfold cancel_order. destruct (get_order_by_client_id _ _) as [o|]; [|done].
  destruct (closed _); [done|]. destruct (broker_cancel env) as [f|]; [|done].
  destruct (f _ _ _) as [b [[]|m]]; [|done..].
  pose proof (update_order_status_same (w_engine w) now coid CANCELLED None None
    (broker_order_id o) None) as Hs.
  by destruct (update_order_status _ _ _ _ _ _ _ _) as [e' o'].
Qed.

Lemma replace_order_same w now oid coid q lp px :
  let w' := (replace_order env w now oid coid q lp px).1 in
  same_log (w_engine w) (w_engine w') /\ w_sent w' = w_sent w.
Proof.
  unfold replace_order. destruct (get_order_by_client_id _ _) as [o|]; [|done].
  destruct (closed _); [done|]. destruct (check_price_collar _ _ _); [done|].
  destruct (broker_replace env) as [f|]; [|done].
  destruct (f _ _ _ _) as [b [[[[] bid] err]|m]]; [|done..].
  set (e1 := set_orders _ _).
  pose proof (update_order_status_same e1 now coid ACCEPTED None None) as Hs.
  match goal with |- context [update_order_status e1 now coid ACCEPTED None None ?b None] =>
    specialize (Hs b None) end.
  destruct (update_order_status e1 _ _ _ _ _ _ _) as [e' o']. cbn in *. split; [|done].
  etrans; [|exact Hs]. by split.
Qed.

(** ** At most once *)

Definition logged_clients (w : World B) : list string :=
  map je_client_order_id (jo_orders (journal_of w)).

(** Every order handed to the broker is in the journal, and no two of them have
    the same client id. *)
Definition sent_once (w : World B) : Prop :=
  NoDup (map client_order_id (w_sent w)) /\
  forall o, o ∈ w_sent w -> client_order_id o ∈ logged_clients w.

Lemma sent_once_ext w w' :
  sent_once w -> w_sent w' = w_sent w -> logged_clients w' = logged_clients w -> sent_once w'.
Proof. intros [Hn Hl] Hs Hc. split; rewrite Hs; [done|]. by rewrite Hc. Qed.

Lemma w_step_sent_once w op : sent_once w -> sent_once (w_step w op).
Proof.
  intros Hs. destruct op as [now oid rid eid i px origin|now coid|now oid coid q lp px
    |now coid s fq afp boid err|p|op|r|policy caps risk collar name dep run u1 u2]; cbn [w_step].
  - destruct (execute env w now oid rid eid i px origin) as [w' r] eqn:Ex. cbn [fst].
    apply execute_cases in Ex as [(e' & -> & Hj & _)|(o & pr & e1 & entry & _ & Hlog & Hsub)].
    + apply (sent_once_ext w); [done|done|]. unfold logged_clients, journal_of. cbn. by rewrite Hj.
    + apply log_before_submit_ok in Hlog as (Hd & _ & _ & _ & Hc & _).
      pose proof (submit_cases (MkWorld e1 (w_broker w) (w_sent w)) now o (je_entry_id entry) pr)
        as [Hsame Hsent]. rewrite <- Hsub in Hsame, Hsent. cbn [fst w_engine w_sent] in *.
      assert (logged_clients w' = logged_clients w ++ [client_order_id o]) as Hlc.
      { unfold logged_clients, journal_of. by rewrite (sl_clients _ _ Hsame), Hc. }
      assert (client_order_id o ∉ logged_clients w) as Hni.
      { by apply existsb_key_false. }
      destruct Hs as [Hn Hl]. destruct Hsent as [[Hsent _]|Hsent].
      * split; rewrite Hsent; [done|]. intros o' Ho'. rewrite Hlc. apply elem_of_app. left. by apply Hl.
      * split.
        -- rewrite Hsent. apply NoDup_map_snoc; [done|]. intros (o' & Heq & Ho')%list_elem_of_fmap.
           apply Hni. rewrite Heq. by apply Hl.
        -- intros o' Ho'. rewrite Hlc. apply elem_of_app. rewrite Hsent in Ho'.
           apply elem_of_app in Ho' as [Ho'|Ho']; [left; by apply Hl|right].
           apply list_elem_of_singleton in Ho'. subst. by left.
  - destruct (cancel_order_same w now coid) as [Hsame Hsent].
    apply (sent_once_ext w); [done|done|]. by apply sl_clients.
  - destruct (replace_order_same w now oid coid q lp px) as [Hsame Hsent].
    apply (sent_once_ext w); [done|done|]. by apply sl_clients.
  - apply (sent_once_ext w); [done|done|].
    apply (sl_clients _ _ (update_order_status_same (w_engine w) now coid s fq afp boid err)).
  - by apply (sent_once_ext w).
  - by apply (sent_once_ext w).
  - by apply (sent_once_ext w).
  - by apply (sent_once_ext w).
Qed.

Lemma w_run_sent_once w ops : sent_once w -> sent_once (w_run w ops).
Proof.
  revert w. induction ops as [|op ops IH]; intros w Hs; [done|]. by apply IH, w_step_sent_once.
Qed.

(** C2: write-ahead logging and gating. If [execute] hands an order to the
    broker, the origin is local, the strategy is named, the intent is active,
    policy, hard cap, risk checks and price collar have passed, its client id was
    not in the journal, and when the broker is called the journal already holds
    a pending entry for it. *)
Theorem broker_called_after_gates_and_log w now oid rid eid i price origin :
  let '(w', r) := execute env w now oid rid eid i price origin in
  w_sent w' = w_sent w \/
  exists o pr e1 entry,
    w_sent w' = w_sent w ++ [o] /\
    gates_passed (w_engine w) now oid i price origin o pr /\
    is_duplicate (client_order_id o) (journal_of w) = false /\
    get_by_client_id (client_order_id o) (en_journal e1) = Some entry /\
    je_status entry = J_PENDING /\
    (w', r) = submit env (MkWorld e1 (w_broker w) (w_sent w)) now o (je_entry_id entry) pr.
Proof.
  destruct (execute env w now oid rid eid i price origin) as [w' r] eqn:Ex.
  apply execute_cases in Ex as [(e' & -> & _)|(o & pr & e1 & entry & Hg & Hlog & Hsub)]; [by left|].
  apply log_before_submit_ok in Hlog as (Hd & Hget & Hst & _).
  pose proof (submit_cases (MkWorld e1 (w_broker w) (w_sent w)) now o (je_entry_id entry) pr)
    as [_ Hsent]. rewrite <- Hsub in Hsent. cbn [fst w_sent] in Hsent.
  destruct Hsent as [[Hsent _]|Hsent]; [by left|right]. by exists o, pr, e1, entry.
Qed.

(** C1: at most once across restarts. Whatever the engine does, under any broker,
    and however often it is restarted on the same journal, no two orders handed
    to the broker have the same client order id. *)
Theorem submitted_at_most_once e b ops :
  NoDup (map client_order_id (w_sent (w_run (MkWorld e b []) ops))).
Proof.
  apply w_run_sent_once. split; [constructor|]. intros o Ho. by apply not_elem_of_nil in Ho.
Qed.
End Safety.
