(* ===== verification/EngineJournal.v ===== *)
(** * The execution engine and its journal

    Sequence numbers across runs and restarts, the effect of order updates on
    the journal, the rate-limit lock-out, and what the engine does on a rejected
    submission, on recovery, on amendment and on intents given by notional. *)
From Stdlib Require Import Ascii String.
From S2P Require Import Prelude PyDecimal DecArith PyValue Sha256 PyFormat PyJson PyFloat HashChain.
From S2P Require Import Intent Config Firewall HardCaps RiskChecker Journal Engine EngineProps.
Open Scope Z_scope.
Open Scope list_scope.

(** ** Sequence numbers *)

(** Deployment, run and sequence number as an entry's metadata records them. *)
Definition seq_key (md : dict) : option pyval * option pyval * option pyval :=
  (dget md "deployment_id", dget md "run_id", dget md "sequence")%string.

Definition metadata_of (j : OrderJournal) : list dict := map je_metadata (jo_orders j).

Section Sequence.
Context `{Digest} {B : Type} (env : Broker B).

Lemma seq_key_metadata e i n :
  seq_key (order_metadata e i n) =
  (Some (VStr (en_deployment_id e)), Some (VStr (en_run_id e)), Some (VInt n)).
Proof. done. Qed.

(** Every entry carries the identifiers of a run, no two entries the same ones,
    and the engine's counter is past every number of its own run. *)
Record seq_inv (e : Engine) : Prop := {
  si_shape : forall md, md ∈ metadata_of (en_journal e) ->
    exists d r n, seq_key md = (Some (VStr d), Some (VStr r), Some (VInt n));
  si_unique : NoDup (map seq_key (metadata_of (en_journal e)));
  si_past : forall md n, md ∈ metadata_of (en_journal e) ->
    seq_key md = (Some (VStr (en_deployment_id e)), Some (VStr (en_run_id e)), Some (VInt n)) ->
    n <= en_sequence e
}.

Lemma seq_inv_same e e' : same_log e e' -> seq_inv e -> seq_inv e'.
Proof.
  intros [_ Hm Hs Hd Hr] [H1 H2 H3]. unfold metadata_of in *. split; unfold metadata_of; rewrite Hm;
    [done|done|]. rewrite Hs, Hd, Hr. done.
Qed.

Lemma seq_inv_grow e e' :
  en_journal e' = en_journal e -> en_deployment_id e' = en_deployment_id e ->
  en_run_id e' = en_run_id e -> en_sequence e <= en_sequence e' -> seq_inv e -> seq_inv e'.
Proof.
  intros Hj Hd Hr Hs [H1 H2 H3]. split; rewrite Hj; [done|done|]. rewrite Hd, Hr.
  intros md n Hin Hk. specialize (H3 md n Hin Hk). lia.
Qed.

Lemma max_sequence_ge d r es : 
  let m := max_sequence d r es in
  0 <= m /\ forall e n, e ∈ es -> entry_of_run d r e = true ->
    entry_sequence (je_metadata e) = Some n -> n <= m.
Proof.
  unfold max_sequence. cut (forall m0,
    m0 <= fold_left (fun m e =>
      if entry_of_run d r e then
        match entry_sequence (je_metadata e) with
        | Some s => if m <? s then s else m
        | None => m
        end
      else m) es m0 /\
    forall e n, e ∈ es -> entry_of_run d r e = true ->
    entry_sequence (je_metadata e) = Some n -> n <= fold_left (fun m e =>
      if entry_of_run d r e then
        match entry_sequence (je_metadata e) with
        | Some s => if m <? s then s else m
        | None => m
        end
      else m) es m0). { intros Hc. apply Hc. }
  induction es as [|e0 es IH]; intros m0; cbn.
  - split; [lia|]. intros e n Hin. by apply not_elem_of_nil in Hin.
  - match goal with |- m0 <= fold_left _ _ ?m1 /\ _ =>
      assert (m0 <= m1 /\ (forall n, entry_of_run d r e0 = true ->
        entry_sequence (je_metadata e0) = Some n -> n <= m1)) as [Hm0 Hm1] end.
    { destruct (entry_of_run d r e0); [|by split; [lia|]].
      destruct (entry_sequence (je_metadata e0)) as [s|]; [|by split; [lia|]].
      destruct (Z.ltb_spec m0 s); split; try lia; intros n _ [= ->]; lia. }
    split; [etrans; [exact Hm0|apply IH]|].
    intros e n [->|Hin]%elem_of_cons Hr Hn.
    + etrans; [by apply Hm1|apply IH].
    + by apply (proj2 (IH _) e n).
Qed.

(** Recovery from the journal re-establishes the invariant, for any run. *)
Lemma recover_seq_inv e :
  (forall md, md ∈ metadata_of (en_journal e) ->
    exists d r n, seq_key md = (Some (VStr d), Some (VStr r), Some (VInt n))) ->
  NoDup (map seq_key (metadata_of (en_journal e))) ->
  seq_inv (recover_sequence_from_journal e).
Proof.
  intros H1 H2. split; [done|done|]. cbn. intros md n Hin Hk.
  apply list_elem_of_fmap in Hin as (je & -> & Hin).
  unfold seq_key in Hk. injection Hk as Hd Hr Hs.
  apply (proj2 (max_sequence_ge _ _ _) je).
  - by apply elem_order_by.
  - unfold entry_of_run. rewrite Hd, Hr. cbn. by rewrite !bool_decide_eq_true_2.
  - unfold entry_sequence. by rewrite Hs.
Qed.

Lemma log_seq_inv e now eid i o e' entry :
  seq_inv e -> log_before_submit e now eid i o = (e', Ok entry) -> seq_inv e'.
Proof.
  intros [H1 H2 H3] Hl.
  apply log_before_submit_ok in Hl as (_ & _ & _ & _ & _ & Hj & Hm & Hs & Hd & Hr).
  assert (metadata_of (en_journal e') = metadata_of (en_journal e) ++
    [order_metadata e i (en_sequence e + 1)]) as Hmd.
  { unfold metadata_of. by rewrite Hj, map_app, <- Hm. }
  split; rewrite Hmd.
  - intros md [Hin|Hin]%elem_of_app; [by apply H1|]. apply list_elem_of_singleton in Hin.
    subst md. eexists _, _, _. apply seq_key_metadata.
  - rewrite map_app. apply NoDup_app. split_and!; [done| |apply NoDup_singleton].
    intros k (md & -> & Hin)%list_elem_of_fmap Hk. apply list_elem_of_singleton in Hk.
    rewrite seq_key_metadata in Hk. specialize (H3 md _ Hin Hk). lia.
  - rewrite Hs, Hd, Hr. intros md n [Hin|Hin]%elem_of_app Hk.
    + specialize (H3 md n Hin Hk). lia.
    + apply list_elem_of_singleton in Hin. subst md. rewrite seq_key_metadata in Hk.
      injection Hk as ->. lia.
Qed.

Lemma w_step_seq_inv w op : seq_inv (w_engine w) -> seq_inv (w_engine (w_step env w op)).
Proof.
  intros Hi. destruct op as [now oid rid eid i px origin|now coid|now oid coid q lp px
    |now coid s fq afp boid err|p|op|r|policy caps risk collar name dep run u1 u2]; cbn [w_step].
  - destruct (execute env w now oid rid eid i px origin) as [w' r] eqn:Ex. cbn [fst].
    apply execute_cases in Ex
      as [(e' & -> & Hj & Hs & Hd & Hr)|(o & pr & e1 & entry & _ & Hlog & Hsub)].
    + by apply (seq_inv_grow (w_engine w)).
    + pose proof (submit_cases env (MkWorld e1 (w_broker w) (w_sent w)) now o (je_entry_id entry) pr)
        as [Hsame _]. rewrite <- Hsub in Hsame.
      apply (seq_inv_same e1); [exact Hsame|]. by eapply log_seq_inv.
  - apply (seq_inv_same (w_engine w)); [apply cancel_order_same|done].
  - apply (seq_inv_same (w_engine w)); [apply replace_order_same|done].
  - apply (seq_inv_same (w_engine w)); [apply update_order_status_same|done].
  - by apply (seq_inv_grow (w_engine w)).
  - by apply (seq_inv_grow (w_engine w)).
  - apply recover_seq_inv; apply Hi.
  - apply recover_seq_inv; apply Hi.
Qed.

(** Sequence numbers are never reused. Starting from a new journal, whatever
    the engine does, across runs and restarts, no two journal entries record the
    same deployment, run and sequence number. *)
Theorem sequence_never_reused key policy caps risk collar name dep run u1 u2 b ops :
  let e := new_engine policy caps risk collar name (new_journal key) dep run u1 u2 in
  NoDup (map seq_key (metadata_of (journal_of (w_run env (MkWorld e b []) ops)))).
Proof.
  intros e. assert (seq_inv (w_engine (MkWorld e b []))) as Hi.
  { apply recover_seq_inv; [|constructor]. intros md Hin. by apply not_elem_of_nil in Hin. }
  revert Hi. generalize (MkWorld e b []). clear e. induction ops as [|op ops IH]; intros w Hi.
  - apply Hi.
  - by apply (IH (w_step env w op)), w_step_seq_inv.
Qed.

(** ** Updates reach the journal *)

Lemma find_map_same {A} (f : A -> bool) (g : A -> A) l x :
  (forall y, f (g y) = f y) -> List.find f l = Some x -> List.find f (map g l) = Some (g x).
Proof.
  intros Hf. induction l as [|y l IH]; cbn; [done|]. rewrite Hf. by destruct (f y); [intros [= ->]|].
Qed.

Lemma update_status_entry now eid s b fq ap j en :
  get_entry eid j = Some en ->
  get_entry eid (update_status now eid s b fq ap j).1 = Some (set_status now s b fq ap en).
Proof.
  intros He. unfold update_status.
  assert (je_entry_id en = eid) as Hid.
  { by apply (find_key je_entry_id) in He as [_ ?]. }
  assert (existsb (fun e => bool_decide (je_entry_id e = eid)) (jo_orders j) = true) as ->.
  { unfold get_entry in He. apply List.find_some in He as [Hin Hb]. apply existsb_exists.
    by exists en. }
  unfold get_entry in *. cbn [fst append_audit jo_orders].
  rewrite (find_map_same _ _ _ en); [|intros y; by destruct (bool_decide (je_entry_id y = eid)) eqn:E|done].
  by rewrite bool_decide_eq_true_2.
Qed.

(** The journal status recorded for a client order id the engine tracks. *)
Definition recorded_status (coid : string) (e : Engine) : option JournalStatus :=
  match dget (en_entry_by_client e) coid with
  | Some eid => if truthy (Some eid) then je_status <$> get_entry eid (en_journal e) else None
  | None => None
  end.

(** A broker update of a tracked order. The order gets the new status and
    fill, and the journal entry recorded for its client id gets the corresponding
    status ([pending] leaves it alone); updates of unknown orders change nothing. *)
Theorem status_update_recorded e now coid s fq afp boid err :
  let '(e', r) := update_order_status e now coid s fq afp boid err in
  match get_order_by_client_id coid e with
  | None => e' = e /\ r = None
  | Some o =>
      r = Some (updated_order now s fq afp boid err o) /\
      status (updated_order now s fq afp boid err o) = s /\
      forall js, is_Some (recorded_status coid e) -> journal_status_of s = Some js ->
        recorded_status coid e' = Some js
  end.
Proof.
  unfold update_order_status. destruct (get_order_by_client_id coid e) as [o|]; [|done].
  split_and!; [done|by destruct s|]. intros js [st Hst] Hjs. revert Hst. unfold recorded_status.
  cbn [en_entry_by_client set_orders]. destruct (dget (en_entry_by_client e) coid) as [eid|] eqn:Hm; [|done].
  destruct (truthy (Some eid)) eqn:Ht; [|done].
  destruct (get_entry eid (en_journal e)) as [en|] eqn:He; [intros _|done].
  rewrite Hjs. unfold journal_status. cbn [set_journal en_entry_by_client en_journal set_orders default]. rewrite Hm, Ht. cbn [default from_option id].
  by erewrite update_status_entry.
Qed.

(** ** The rate-limit lock-out *)

Definition execute_only (op : engine_op) : bool :=
  match op with
  | Execute _ _ _ _ i _ _ => negb (is_passive i)
  | _ => false
  end.

Lemma locked_execute w now oid rid eid i px origin :
  let f := en_policy (w_engine w) in
  fw_wf f -> is_passive i = false -> limit_minute (fw_local f) (fw_cloud f) <= fw_this_minute f ->
  (execute env w now oid rid eid i px origin).1 = w.
Proof.
  intros f Hw Hp Hl. unfold execute, execute_gates. rewrite Hp.
  destruct (rate_limit_sticks f i (get_position (en_portfolio (w_engine w)) (symbol i))
    (gross_exposure (en_portfolio (w_engine w))) (equity (en_portfolio (w_engine w))) Hw Hp Hl now)
    as (pr & Hpr & Ha). unfold f in Hpr. rewrite Hpr, Ha. cbn [negb].
  destruct (negb _); [done|]. destruct (negb _); [done|]. by destruct (pr_violations pr).
Qed.

(** Once a minute's orders have reached the limit, the engine never submits
    again, however much time passes: the counter is reset only by
    [record_order], which runs only after an accepted order. *)
Theorem rate_limit_locks_out w ops :
  let f := en_policy (w_engine w) in
  fw_wf f -> limit_minute (fw_local f) (fw_cloud f) <= fw_this_minute f ->
  forallb execute_only ops = true -> w_run env w ops = w.
Proof.
  intros f Hw Hl. induction ops as [|op ops IH]; intros Hops; [done|]. cbn [forallb] in Hops.
  bool_to_prop. destruct op; try done. change (w_run env w (?op :: ops)) with (w_run env (w_step env w op) ops).
  cbn [w_run fold_left w_step]. rewrite locked_execute; [by apply IH|done| |done].
  by apply negb_true_iff.
Qed.
End Sequence.

(** ** Concrete runs *)

Definition accepting_broker : Broker unit :=
  MkBroker (Some (fun b _ => (b, Ok (true, Some "B1"%string, None))))
    (Some (fun b _ _ => (b, Ok true)))
    (Some (fun b _ _ _ => (b, Ok (true, None, None)))).

Definition rejecting_broker : Broker unit :=
  MkBroker (Some (fun b _ => (b, Ok (false, None, Some "rejected"%string)))) None None.

Definition sample_engine : Engine :=
  new_engine (new_firewall None None 0) (new_enforcer None 0) new_checker default_collar "paper"
    (new_journal None) (Some "d"%string) (Some "r"%string) "" "".

Definition sample_world : World unit := MkWorld sample_engine tt [].

Definition sample_intent : OrderIntent :=
  with_quantity (Dec 10 0) (new_intent "s" "AAPL" MARKET_ENTRY LONG 0 "i1").

Definition execute_sample (env : Broker unit) (w : World unit) (i : OrderIntent) (price : dec) :=
  execute env w 1 "o1" "o2" "e1" i (Some price) "local".

Definition sample_client_id : string := compute_client_order_id sample_engine sample_intent.

(** An accepted order is submitted, tracked, journalled and counted. *)
Example accepted_run :
  let '(w, r) := execute_sample accepting_broker sample_world sample_intent (Dec 100 0) in
  (success <$> match r with Ok x => Some x | Raise _ => None end) = Some true /\
  map client_order_id (w_sent w) = [sample_client_id] /\
  (status <$> get_order_by_client_id sample_client_id (w_engine w)) = Some SUBMITTED /\
  map je_status (jo_orders (journal_of w)) = [J_SUBMITTED] /\
  en_sequence (w_engine w) = 1 /\ fw_this_minute (en_policy (w_engine w)) = 1.
Proof. by vm_compute. Qed.

(** After the broker rejects an order, executing the same intent again reports
    success with a pending order, and submits nothing. *)
Theorem rejected_retry_reports_success :
  let '(w1, r1) := execute_sample rejecting_broker sample_world sample_intent (Dec 100 0) in
  let '(w2, r2) := execute_sample rejecting_broker w1 sample_intent (Dec 100 0) in
  match r1, r2 with
  | Ok x1, Ok x2 =>
      success x1 = false /\ success x2 = true /\ (status <$> x_order x2) = Some PENDING /\
      w_sent w2 = w_sent w1 /\ map je_status (jo_orders (journal_of w2)) = [J_REJECTED]
  | _, _ => False
  end.
Proof. by vm_compute. Qed.

(** After a restart, the order is recovered as pending although the journal says
    submitted, and a fill reported for it never reaches the journal: the
    recovery does not restore the entry of its client id. *)
Theorem recovered_order_detached :
  let w1 := (execute_sample accepting_broker sample_world sample_intent (Dec 100 0)).1 in
  let w2 := w_step accepting_broker w1 (Restart (new_firewall None None 0) (new_enforcer None 0)
              new_checker default_collar "paper" (Some "d"%string) (Some "r2"%string) "" "") in
  let w3 := (execute_sample accepting_broker w2 sample_intent (Dec 100 0)).1 in
  let w4 := w_step accepting_broker w3
              (StatusUpdate 9 sample_client_id FILLED (Some (Dec 10 0)) None None None) in
  (status <$> get_order_by_client_id sample_client_id (w_engine w3)) = Some PENDING /\
  (status <$> get_order_by_client_id sample_client_id (w_engine w4)) = Some FILLED /\
  map je_status (jo_orders (journal_of w4)) = [J_SUBMITTED].
Proof. by vm_compute. Qed.

(** An amendment is checked by the price collar only: the broker is asked for a
    quantity far above the hard cap. *)
Theorem amendment_bypasses_hard_cap :
  let w1 := (execute_sample accepting_broker sample_world sample_intent (Dec 100 0)).1 in
  let '(w2, r) := replace_order accepting_broker w1 2 "o9" sample_client_id
                    (Some (Dec 5000000 0)) None (Some (Dec 100 0)) in
  success r = true /\
  (quantity <$> get_order_by_client_id sample_client_id (w_engine w2)) = Some (Dec 5000000 0) /\
  is_Some (HardCaps.check_order_size 2 (en_hard_caps (w_engine w2)) (Dec 5000000 0)).
Proof. vm_compute. split_and!; eauto. Qed.

(** An order sized by notional is checked by the firewall and the hard cap as if
    its quantity were zero. *)
Definition notional_intent : OrderIntent :=
  MkIntent "s" "DOGE" MARKET_ENTRY LONG None (Some (Dec 20000 0)) None None "GTC" PNORMAL "" [] 0
    None "i2".

Definition wide_checker : RiskChecker :=
  MkChecker (Dec 100000000 0) (Dec 100000000 0) (Dec 25 (-2)) (Dec 1000 0) 10 100 None None ∅ [].

Theorem notional_bypasses_hard_cap :
  let e := new_engine (new_firewall None None 0) (new_enforcer None 0) wide_checker default_collar
             "paper" (new_journal None) (Some "d"%string) (Some "r"%string) "" "" in
  let '(w, _) := execute_sample accepting_broker (MkWorld e tt []) notional_intent (Dec 1 (-3)) in
  match w_sent w with
  | [o] =>
      dltb (absolute_max_order_size (he_caps (en_hard_caps (w_engine w)))) (quantity o) = true
  | _ => False
  end.
Proof. by vm_compute. Qed.

(** A negative quantity passes every check and is submitted. *)
Theorem negative_quantity_submitted :
  let '(w, _) := execute_sample accepting_broker sample_world
    (with_quantity (Dec (-50) 0) sample_intent) (Dec 100 0) in
  map quantity (w_sent w) = [Dec (-50) 0] /\ map o_side (w_sent w) = ["buy"%string].
Proof. by vm_compute. Qed.

(** ** Witnesses *)

Lemma status_update_recorded_witness :
  let w1 := (execute_sample accepting_broker sample_world sample_intent (Dec 100 0)).1 in
  let '(e', r) := update_order_status (w_engine w1) 5 sample_client_id FILLED None None None None in
  recorded_status sample_client_id e' = Some J_CONFIRMED.
Proof.
  cbv zeta.
  set (e := w_engine (execute_sample accepting_broker sample_world sample_intent (Dec 100 0)).1).
  pose proof (status_update_recorded e 5 sample_client_id FILLED None None None None) as Hp.
  destruct (update_order_status e 5 sample_client_id FILLED None None None None) as [e' r].
  destruct (get_order_by_client_id sample_client_id e) as [o|] eqn:E; [|vm_compute in E; discriminate].
  destruct Hp as (_ & _ & Hu). apply Hu; [|reflexivity].
  eexists. vm_compute. reflexivity.
Defined.
