(* ===== verification/KillSwitch.v ===== *)
(** * Kill switch: [packages/agent/daemon/kill_switch.py]

    [KillSwitchManager]: halting on a reason, acknowledgment and reset, the
    checks on losses, positions and data, and the sliding windows of errors,
    latency spikes and orders.

    The current halt of the code is the object last appended to the history, so
    the state keeps the history and whether there is a current halt; changing
    the current halt changes the last event.  The callbacks are answers of code
    outside the class: [KsEnv] says which are wired and what they return in a
    call, and the calls made are listed as effects.  The history file is the
    list of events it was last written with.  The evidence hash of an event, its
    dictionary and the export are in [KillEvidence]. *)
From Stdlib Require Import QArith Qabs Lqa.
From Stdlib Require Import Ascii String.
From S2P Require Import Prelude PyDecimal DecArith PyValue PyFormat PyJson PyFloat.
Open Scope Z_scope.
Open Scope list_scope.

Definition MAX_HALT_HISTORY : Z := 1000.

Inductive HaltReasonType :=
  | MAX_DAILY_LOSS | MAX_DRAWDOWN | BROKER_ERROR_BURST | LATENCY_SPIKE | ORDER_SPAM
  | STATE_DIVERGENCE | DATA_FEED_INVALID | POSITION_MISMATCH | HARD_CAP_EXCEEDED | MANUAL_TRIGGER
  | NETWORK_DOWN | CLOUD_UNREACHABLE | TIME_SYNC_DRIFT | SIGNATURE_INVALID | POLICY_VIOLATION
  | RECONCILIATION_FAILED | PREFLIGHT_FAILED.

#[export] Instance HaltReasonType_eq_dec : EqDecision HaltReasonType.
Proof. solve_decision. Defined.

Inductive HaltSeverity := CRITICAL | HIGH | MEDIUM | LOW.

#[export] Instance HaltSeverity_eq_dec : EqDecision HaltSeverity.
Proof. solve_decision. Defined.

Definition severity_value (s : HaltSeverity) : string :=
  match s with
  | CRITICAL => "critical"
  | HIGH => "high"
  | MEDIUM => "medium"
  | LOW => "low"
  end%string.

Inductive HaltAction := HALT_ONLY | CANCEL_ORDERS | FLATTEN_LOCAL | FLATTEN_EMERGENCY.

#[export] Instance HaltAction_eq_dec : EqDecision HaltAction.
Proof. solve_decision. Defined.

Definition halt_action_value (a : HaltAction) : string :=
  match a with
  | HALT_ONLY => "halt_only"
  | CANCEL_ORDERS => "cancel_orders"
  | FLATTEN_LOCAL => "flatten_local"
  | FLATTEN_EMERGENCY => "flatten_emergency"
  end%string.

Record HaltReason := MkReason {
  reason_id : string;
  reason_type : HaltReasonType;
  hr_severity : HaltSeverity;
  hr_message : string;
  details : dict;
  hr_time : Z;
  trigger_source : string;
  recovery_action : option string;
  acknowledgment_required : bool
}.

Record HaltEvent := MkHaltEvent {
  event_id : string;
  halt_reason : HaltReason;
  action_taken : HaltAction;
  orders_cancelled : Z;
  positions_flattened : bool;
  recovery_timestamp : option Z;
  recovery_approval_code : option string;
  acknowledged_by : option string;
  acknowledged_at : option Z
}.

Record KillSwitchConfig := MkKsConfig {
  ks_max_daily_loss_pct : dec;
  ks_max_drawdown_pct : dec;
  max_broker_errors_per_minute : Z;
  max_broker_errors_per_hour : Z;
  max_consecutive_errors : Z;
  max_latency_ms : Z;
  latency_spike_window_seconds : Z;
  max_latency_spikes_in_window : Z;
  max_orders_per_second : Z;
  max_orders_per_minute : Z;
  position_mismatch_tolerance_pct : dec;
  max_data_gap_seconds : Z;
  stale_price_threshold_seconds : Z;
  max_time_drift_seconds : Z;
  cooldown_seconds : Z;
  require_manual_reset : bool;
  allow_flatten_on_halt : bool
}.

Definition default_ks_config : KillSwitchConfig :=
  MkKsConfig (Dec 30 (-2)) (Dec 50 (-2)) 5 20 3 5000 60 3 10 100 (Dec 1 (-2)) 30 60 5 300 true false.

Definition ks_config_to_dict (c : KillSwitchConfig) : dict :=
  [("max_daily_loss_pct", VStr (dec_str (ks_max_daily_loss_pct c)));
   ("max_drawdown_pct", VStr (dec_str (ks_max_drawdown_pct c)));
   ("max_broker_errors_per_minute", VInt (max_broker_errors_per_minute c));
   ("max_broker_errors_per_hour", VInt (max_broker_errors_per_hour c));
   ("max_consecutive_errors", VInt (max_consecutive_errors c));
   ("max_latency_ms", VInt (max_latency_ms c));
   ("max_orders_per_second", VInt (max_orders_per_second c));
   ("max_orders_per_minute", VInt (max_orders_per_minute c));
   ("max_data_gap_seconds", VInt (max_data_gap_seconds c));
   ("cooldown_seconds", VInt (cooldown_seconds c));
   ("require_manual_reset", VBool (require_manual_reset c));
   ("allow_flatten_on_halt", VBool (allow_flatten_on_halt c))]%string.

(** What the wired callbacks answer in one call of [trigger]; [None] is not
    wired, [Raise] any exception. *)
Record KsEnv := MkKsEnv {
  cancel_orders_fn : option (pyres unit Z);
  flatten_fn : option (pyres unit bool);
  on_trigger : bool
}.

Inductive ks_effect :=
  | CancelOrders
  | FlattenPositions
  | SaveHistory
  | Notify (r : HaltReason).

Record KillSwitch := MkKs {
  ks_config : KillSwitchConfig;
  ks_triggered : bool;
  ks_has_current : bool;
  ks_history : list HaltEvent;
  ks_last_trigger : option Z;
  ks_errors : list Z;
  ks_spikes : list Z;
  ks_orders : list Z;
  ks_last_data : option Z;
  ks_saved : list HaltEvent
}.

Definition current_halt (k : KillSwitch) : option HaltEvent :=
  if ks_has_current k then last (ks_history k) else None.

(** A change of the current halt, which the history shares. *)
Definition update_current (f : HaltEvent -> HaltEvent) (k : KillSwitch) : KillSwitch :=
  MkKs (ks_config k) (ks_triggered k) (ks_has_current k)
    (match rev (ks_history k) with
     | e :: r => rev r ++ [f e]
     | [] => []
     end)
    (ks_last_trigger k) (ks_errors k) (ks_spikes k) (ks_orders k) (ks_last_data k) (ks_saved k).

(** [_save_history] *)
Definition save_history (k : KillSwitch) : KillSwitch :=
  MkKs (ks_config k) (ks_triggered k) (ks_has_current k) (ks_history k) (ks_last_trigger k)
    (ks_errors k) (ks_spikes k) (ks_orders k) (ks_last_data k)
    (py_last MAX_HALT_HISTORY (ks_history k)).

(** [_load_history] of one event: the approval code is not read back. *)
Definition load_event (e : HaltEvent) : HaltEvent :=
  MkHaltEvent (event_id e) (halt_reason e) (action_taken e) (orders_cancelled e)
    (positions_flattened e) (recovery_timestamp e) None
    (if truthy (acknowledged_by e) then acknowledged_by e else None) (acknowledged_at e).

(** [__init__], on the history file of an earlier manager. *)
Definition new_kill_switch (config : option KillSwitchConfig) (file : list HaltEvent) : KillSwitch :=
  MkKs (default default_ks_config config) false false (map load_event file) None [] [] [] None file.

(** ** Trigger, acknowledge, reset *)

(** Python compares the severities' names, as strings. *)
Definition string_lt (a b : string) : bool :=
  match String.compare a b with
  | Lt => true
  | _ => false
  end.

Definition wants_cancel (a : HaltAction) : bool :=
  match a with
  | HALT_ONLY => false
  | _ => true
  end.

Definition wants_flatten (a : HaltAction) : bool :=
  match a with
  | FLATTEN_LOCAL | FLATTEN_EMERGENCY => true
  | _ => false
  end.

Definition with_reason (r : HaltReason) (e : HaltEvent) : HaltEvent :=
  MkHaltEvent (event_id e) r (action_taken e) (orders_cancelled e) (positions_flattened e)
    (recovery_timestamp e) (recovery_approval_code e) (acknowledged_by e) (acknowledged_at e).

Definition with_ack (by_ code : string) (now : Z) (e : HaltEvent) : HaltEvent :=
  MkHaltEvent (event_id e) (halt_reason e) (action_taken e) (orders_cancelled e)
    (positions_flattened e) (recovery_timestamp e) (Some code) (Some by_) (Some now).

Definition with_recovery (now : Z) (e : HaltEvent) : HaltEvent :=
  MkHaltEvent (event_id e) (halt_reason e) (action_taken e) (orders_cancelled e)
    (positions_flattened e) (Some now) (recovery_approval_code e) (acknowledged_by e)
    (acknowledged_at e).

(** The callbacks a trigger calls before it records the event. *)
Definition action_effects (k : KillSwitch) (env : KsEnv) (a : HaltAction) : list ks_effect :=
  (if wants_cancel a && bool_decide (is_Some (cancel_orders_fn env)) then [CancelOrders] else []) ++
  (if wants_flatten a && allow_flatten_on_halt (ks_config k)
      && bool_decide (is_Some (flatten_fn env)) then [FlattenPositions] else []).

Definition halt_event (k : KillSwitch) (env : KsEnv) (eid : string) (r : HaltReason)
    (a : HaltAction) : HaltEvent :=
  MkHaltEvent eid r a
    (match cancel_orders_fn env with
     | Some (Ok n) => if wants_cancel a then n else 0
     | _ => 0
     end)
    (match flatten_fn env with
     | Some (Ok b) => if wants_flatten a && allow_flatten_on_halt (ks_config k) then b else false
     | _ => false
     end) None None None None.

Definition trigger (k : KillSwitch) (env : KsEnv) (now : Z) (eid : string) (r : HaltReason)
    (a : HaltAction) : KillSwitch * list ks_effect :=
  if ks_triggered k then
    match current_halt k with
    | Some h =>
        (if string_lt (severity_value (hr_severity r)) (severity_value (hr_severity (halt_reason h)))
         then update_current (with_reason r) k else k, [])
    | None => (k, [])
    end
  else
    let h := push_bounded MAX_HALT_HISTORY (ks_history k) (halt_event k env eid r a) in
    (save_history
       (MkKs (ks_config k) true true h (Some now) (ks_errors k) (ks_spikes k) (ks_orders k)
          (ks_last_data k) (ks_saved k)),
     action_effects k env a ++ [SaveHistory] ++ (if on_trigger env then [Notify r] else [])).

(** [approval_code.startswith("APPROVE_RESET_")] *)
Definition valid_code (code : string) : bool := String.prefix "APPROVE_RESET_" code.

Definition acknowledge (k : KillSwitch) (now : Z) (by_ code : string) : KillSwitch * bool :=
  match current_halt k with
  | Some _ =>
      if ks_triggered k && valid_code code then
        (save_history (update_current (with_ack by_ code now) k), true)
      else (k, false)
  | None => (k, false)
  end.

Definition reset (k : KillSwitch) (now : Z) : KillSwitch * bool :=
  if negb (ks_triggered k) then (k, true)
  else
    let unacknowledged :=
      match current_halt k with
      | Some h => negb (truthy (acknowledged_by h))
      | None => false
      end in
    if unacknowledged && require_manual_reset (ks_config k) then (k, false)
    else
      let cooling :=
        match ks_last_trigger k with
        | Some t => now <? t + cooldown_seconds (ks_config k) * sec
        | None => false
        end in
      if cooling then (k, false)
      else
        let k1 := if ks_has_current k then save_history (update_current (with_recovery now) k)
                  else k in
        (MkKs (ks_config k1) false false (ks_history k1) (ks_last_trigger k1) [] [] (ks_orders k1)
           (ks_last_data k1) (ks_saved k1), true).

(** ** Checks *)

Section KsChecks.
Variables (c : KillSwitchConfig) (now : Z) (rid : string).
Local Open Scope string_scope.
Local Open Scope Z_scope.

Definition mk_reason (t : HaltReasonType) (s : HaltSeverity) (msg : string) (d : dict)
    (src : string) : HaltReason :=
  MkReason rid t s msg d now src None true.

(** [create_halt_reason] *)
Definition create_halt_reason (t : HaltReasonType) (msg : string) (s : HaltSeverity)
    (d : option dict) (src : string) : HaltReason :=
  mk_reason t s msg (or_empty d) src.

(** [None] when the division raises. *)
Definition check_daily_loss (daily_pnl equity : dec) : option (option HaltReason) :=
  if dleb equity dzero then Some None
  else
    loss_pct ← (if dltb daily_pnl dzero then dabs <$> ddiv daily_pnl equity else Some dzero);
    Some (if dleb (ks_max_daily_loss_pct c) loss_pct then
            Some (mk_reason MAX_DAILY_LOSS CRITICAL
              ("Daily loss " +:+ dec_pct 2 loss_pct +:+ " exceeds maximum "
               +:+ dec_pct 2 (ks_max_daily_loss_pct c))
              [("daily_pnl", VStr (dec_str daily_pnl)); ("equity", VStr (dec_str equity));
               ("loss_pct", VStr (dec_str loss_pct));
               ("threshold", VStr (dec_str (ks_max_daily_loss_pct c)))]
              "KillSwitchManager.check_daily_loss")
          else None).

Definition check_drawdown (current_equity peak_equity : dec) : option (option HaltReason) :=
  if dleb peak_equity dzero then Some None
  else
    drawdown ← ddiv (dsub peak_equity current_equity) peak_equity;
    Some (if dleb (ks_max_drawdown_pct c) drawdown then
            Some (mk_reason MAX_DRAWDOWN CRITICAL
              ("Drawdown " +:+ dec_pct 2 drawdown +:+ " exceeds maximum "
               +:+ dec_pct 2 (ks_max_drawdown_pct c))
              [("current_equity", VStr (dec_str current_equity));
               ("peak_equity", VStr (dec_str peak_equity)); ("drawdown", VStr (dec_str drawdown));
               ("threshold", VStr (dec_str (ks_max_drawdown_pct c)))]
              "KillSwitchManager.check_drawdown")
          else None).

(** [max(a, b, Decimal("1"))] *)
Definition max3 (a b x : dec) : dec := dmax (dmax a b) x.

Definition check_position_mismatch (local_ broker_ : dec) (sym : string) :
    option (option HaltReason) :=
  if deqb local_ dzero && deqb broker_ dzero then Some None
  else
    diff_pct ← ddiv (dabs (dsub local_ broker_)) (max3 (dabs local_) (dabs broker_) (Dec 1 0));
    Some (if dltb (position_mismatch_tolerance_pct c) diff_pct then
            Some (mk_reason POSITION_MISMATCH HIGH
              ("Position mismatch for " +:+ sym +:+ ": local=" +:+ dec_str local_ +:+ ", broker="
               +:+ dec_str broker_)
              [("symbol", VStr sym); ("local_position", VStr (dec_str local_));
               ("broker_position", VStr (dec_str broker_)); ("diff_pct", VStr (dec_str diff_pct));
               ("tolerance", VStr (dec_str (position_mismatch_tolerance_pct c)))]
              "KillSwitchManager.check_position_mismatch")
          else None).
End KsChecks.

Section Records.
Variables (now : Z) (rid : string).
Local Open Scope string_scope.
Local Open Scope Z_scope.

Definition set_windows (errors spikes orders : list Z) (last_data : option Z) (k : KillSwitch) :
    KillSwitch :=
  MkKs (ks_config k) (ks_triggered k) (ks_has_current k) (ks_history k) (ks_last_trigger k)
    errors spikes orders last_data (ks_saved k).

(** [[t for t in l if t > now - w]] *)
Definition since (w : Z) (l : list Z) : list Z := List.filter (fun t => now - w <? t) l.

Definition record_error (k : KillSwitch) : KillSwitch * option HaltReason :=
  let c := ks_config k in
  let errors := since hour (ks_errors k ++ [now])%list in
  let per_minute := Z.of_nat (List.length (since minute errors)) in
  let per_hour := Z.of_nat (List.length errors) in
  (set_windows errors (ks_spikes k) (ks_orders k) (ks_last_data k) k,
   if max_broker_errors_per_minute c <=? per_minute then
     Some (mk_reason now rid BROKER_ERROR_BURST CRITICAL
       ("Broker errors (" +:+ int_str per_minute +:+ "/min) exceeds maximum ("
        +:+ int_str (max_broker_errors_per_minute c) +:+ "/min)")
       [("errors_per_minute", VInt per_minute);
        ("threshold", VInt (max_broker_errors_per_minute c))]
       "KillSwitchManager.record_error")
   else if max_broker_errors_per_hour c <=? per_hour then
     Some (mk_reason now rid BROKER_ERROR_BURST HIGH
       ("Broker errors (" +:+ int_str per_hour +:+ "/hr) exceeds maximum ("
        +:+ int_str (max_broker_errors_per_hour c) +:+ "/hr)")
       [("errors_per_hour", VInt per_hour); ("threshold", VInt (max_broker_errors_per_hour c))]
       "KillSwitchManager.record_error")
   else None).

Definition record_latency (k : KillSwitch) (latency_ms : Z) : KillSwitch * option HaltReason :=
  let c := ks_config k in
  if max_latency_ms c <=? latency_ms then
    let spikes := since (latency_spike_window_seconds c * sec) (ks_spikes k ++ [now])%list in
    let n := Z.of_nat (List.length spikes) in
    (set_windows (ks_errors k) spikes (ks_orders k) (ks_last_data k) k,
     if max_latency_spikes_in_window c <=? n then
       Some (mk_reason now rid LATENCY_SPIKE HIGH
         ("Latency spikes (" +:+ int_str n +:+ ") in "
          +:+ int_str (latency_spike_window_seconds c) +:+ "s exceeds maximum")
         [("latency_ms", VInt latency_ms); ("spikes_count", VInt n);
          ("threshold_ms", VInt (max_latency_ms c));
          ("window_seconds", VInt (latency_spike_window_seconds c))]
         "KillSwitchManager.record_latency")
     else None)
  else (k, None).

Definition record_order (k : KillSwitch) : KillSwitch * option HaltReason :=
  let c := ks_config k in
  let orders := since minute (ks_orders k ++ [now])%list in
  let per_second := Z.of_nat (List.length (since sec orders)) in
  let per_minute := Z.of_nat (List.length orders) in
  (set_windows (ks_errors k) (ks_spikes k) orders (ks_last_data k) k,
   if max_orders_per_second c <? per_second then
     Some (mk_reason now rid ORDER_SPAM HIGH
       ("Orders per second (" +:+ int_str per_second +:+ ") exceeds maximum ("
        +:+ int_str (max_orders_per_second c) +:+ ")")
       [("orders_per_second", VInt per_second); ("threshold", VInt (max_orders_per_second c))]
       "KillSwitchManager.record_order")
   else if max_orders_per_minute c <? per_minute then
     Some (mk_reason now rid ORDER_SPAM MEDIUM
       ("Orders per minute (" +:+ int_str per_minute +:+ ") exceeds maximum ("
        +:+ int_str (max_orders_per_minute c) +:+ ")")
       [("orders_per_minute", VInt per_minute); ("threshold", VInt (max_orders_per_minute c))]
       "KillSwitchManager.record_order")
   else None).

Definition check_data_feed (k : KillSwitch) (last_data_time : Z) : KillSwitch * option HaltReason :=
  let c := ks_config k in
  let gap := now - last_data_time in
  (set_windows (ks_errors k) (ks_spikes k) (ks_orders k) (Some last_data_time) k,
   if max_data_gap_seconds c * sec <? gap then
     Some (mk_reason now rid DATA_FEED_INVALID HIGH
       ("Data feed gap (" +:+ float_fixed 1 (float_of_dec (Dec gap (-6))) +:+ "s) exceeds maximum ("
        +:+ int_str (max_data_gap_seconds c) +:+ "s)")
       [("gap_seconds", VSecs gap); ("threshold", VInt (max_data_gap_seconds c));
        ("last_data_time", VStr (isoformat last_data_time))]
       "KillSwitchManager.check_data_feed")
   else None).
End Records.
