(* ===== verification/KillSwitchProps.v ===== *)
(** * Properties of the kill switch

    The halt holds until it is acknowledged; reset is refused during the
    cooldown; which callbacks a trigger calls and in which order; the bounded
    history; the checks never miss a limit; the sliding windows equal counts
    over the whole past. *)
From Stdlib Require Import QArith Qabs Lqa.
From Stdlib Require Import Ascii String.
From S2P Require Import Prelude PyDecimal DecArith PyValue PyFormat PyJson KillSwitch.
Open Scope Z_scope.
Open Scope list_scope.

Inductive ks_op :=
  | KTrigger (env : KsEnv) (now : Z) (eid : string) (r : HaltReason) (a : HaltAction)
  | KAck (now : Z) (by_ code : string)
  | KReset (now : Z)
  | KError (now : Z) (rid : string)
  | KLatency (now : Z) (rid : string) (ms : Z)
  | KOrder (now : Z) (rid : string)
  | KData (now : Z) (rid : string) (t : Z).

Definition ks_step (k : KillSwitch) (op : ks_op) : KillSwitch :=
  match op with
  | KTrigger env now eid r a => (trigger k env now eid r a).1
  | KAck now by_ code => (acknowledge k now by_ code).1
  | KReset now => (reset k now).1
  | KError now rid => (record_error now rid k).1
  | KLatency now rid ms => (record_latency now rid k ms).1
  | KOrder now rid => (record_order now rid k).1
  | KData now rid t => (check_data_feed now rid k t).1
  end.

Definition ks_run (k : KillSwitch) (ops : list ks_op) : KillSwitch := fold_left ks_step ops k.

(** An acknowledgment that [acknowledge] accepts, by a named person. *)
Definition acknowledges (op : ks_op) : bool :=
  match op with
  | KAck _ by_ code => valid_code code && truthy (Some by_)
  | _ => false
  end.

Definition unacknowledged (h : HaltEvent) : bool := negb (truthy (acknowledged_by h)).

(** Halted: triggered, with a current halt nobody has acknowledged, under a
    configuration that requires a manual reset. *)
Definition halted (k : KillSwitch) : Prop :=
  ks_triggered k = true /\ require_manual_reset (ks_config k) = true /\
  exists h, current_halt k = Some h /\ unacknowledged h = true.

Lemma last_rev {A} (l : list A) : last l = head (rev l).
Proof.
  destruct l as [|x l _] using rev_ind; [done|]. rewrite last_snoc, rev_app_distr. done.
Qed.

Lemma current_update f k : current_halt (update_current f k) = f <$> current_halt k.
Proof.
  unfold current_halt, update_current. cbn. destruct (ks_has_current k); [|done].
  rewrite (last_rev (ks_history k)). destruct (rev (ks_history k)) as [|e r] eqn:E; [done|].
  by rewrite last_snoc.
Qed.

Lemma current_save k : current_halt (save_history k) = current_halt k.
Proof. done. Qed.

Lemma halted_change k k' (f : HaltEvent -> HaltEvent) :
  (forall h, unacknowledged (f h) = unacknowledged h) ->
  ks_triggered k' = ks_triggered k -> ks_config k' = ks_config k ->
  current_halt k' = f <$> current_halt k -> halted k -> halted k'.
Proof.
  intros Hf Ht Hc Hh (Hkt & Hm & h & Hk & Hu). unfold halted. rewrite Ht, Hc, Hh, Hk.
  split_and!; [done|done|]. exists (f h). by rewrite Hf.
Qed.

Lemma ks_step_halted k op : halted k -> acknowledges op = false -> halted (ks_step k op).
Proof.
  intros Hh Ha. pose proof Hh as (Ht & Hm & h & Hc & Hu).
  destruct op as [env now eid r a|now by_ code|now|now rid|now rid ms|now rid|now rid t];
    cbn [ks_step].
  - unfold trigger. rewrite Ht, Hc. destruct (string_lt _ _); [|done]. cbn [fst].
    apply (halted_change k _ (with_reason r)); try done. apply current_update.
  - unfold acknowledge. rewrite Hc, Ht. cbn [andb acknowledges] in *.
    destruct (valid_code code); [|done]. cbn [fst].
    split_and!; [done|done|]. exists (with_ack by_ code now h).
    rewrite current_save, current_update, Hc. split; [done|].
    unfold unacknowledged. cbn [with_ack acknowledged_by]. cbn [andb] in Ha. by rewrite Ha.
  - unfold reset. rewrite Ht, Hc, Hm. cbn [negb]. unfold unacknowledged in Hu. by rewrite Hu.
  - apply (halted_change k _ id); try done. by rewrite option_fmap_id.
  - unfold record_latency. destruct (_ <=? _); [|done].
    apply (halted_change k _ id); try done. by rewrite option_fmap_id.
  - apply (halted_change k _ id); try done. by rewrite option_fmap_id.
  - apply (halted_change k _ id); try done. by rewrite option_fmap_id.
Qed.

(** C4: the halt holds. Once halted under a configuration that asks for a manual reset
    (the default), and until a valid acknowledgment by a named person, no sequence of
    triggers, resets, error, latency, order or data records releases the kill switch of
    the process; another process starts with another switch. *)
Theorem halt_holds_until_acknowledged k ops :
  halted k -> forallb (fun op => negb (acknowledges op)) ops = true -> halted (ks_run k ops).
Proof.
  revert k. induction ops as [|op ops IH]; intros k Hh Ho; [done|]. cbn [forallb] in Ho.
  bool_to_prop. apply IH; [by apply ks_step_halted|done].
Qed.

(** ** Well-formedness *)

Record ks_wf (k : KillSwitch) : Prop := {
  kw_current : ks_triggered k = ks_has_current k;
  kw_some : ks_has_current k = true -> is_Some (last (ks_history k));
  kw_bound : Z.of_nat (List.length (ks_history k)) <= MAX_HALT_HISTORY
}.

Lemma update_current_wf f k : ks_wf k -> ks_wf (update_current f k).
Proof.
  intros [H1 H2 H3]. split; cbn; [done| |].
  - intros Hc. specialize (H2 Hc). rewrite last_rev in H2.
    destruct (rev (ks_history k)) as [|e r] eqn:E; [by destruct H2|]. by rewrite last_snoc.
  - destruct (rev (ks_history k)) as [|e r] eqn:E; [cbn; unfold MAX_HALT_HISTORY; lia|].
    rewrite <- (rev_involutive (ks_history k)), E in H3. cbn [rev] in H3.
    rewrite length_app in *. exact H3.
Qed.

Lemma ks_wf_same k k' :
  ks_triggered k' = ks_triggered k -> ks_has_current k' = ks_has_current k ->
  ks_history k' = ks_history k -> ks_wf k -> ks_wf k'.
Proof. intros H1 H2 H3 []. split; by rewrite ?H1, ?H2, ?H3. Qed.

Lemma trigger_wf k env now eid r a : ks_wf k -> ks_wf (trigger k env now eid r a).1.
Proof.
  intros Hw. unfold trigger. destruct (ks_triggered k).
  - destruct (current_halt k); [|done]. destruct (string_lt _ _); [by apply update_current_wf|done].
  - cbn [fst]. split; [done| |].
    + intros _. cbn. destruct (push_bounded_snoc MAX_HALT_HISTORY (ks_history k)
        (halt_event k env eid r a)) as [p ->]; [done|]. by rewrite last_snoc.
    + by apply push_bounded_length.
Qed.

Lemma ks_step_wf k op : ks_wf k -> ks_wf (ks_step k op).
Proof.
  intros Hw. destruct op as [env now eid r a|now by_ code|now|now rid|now rid ms|now rid|now rid t];
    cbn [ks_step].
  - by apply trigger_wf.
  - unfold acknowledge. destruct (current_halt k); [|done]. destruct (_ && _); [|done].
    apply (ks_wf_same (update_current (with_ack by_ code now) k)); [done..|].
    by apply update_current_wf.
  - unfold reset. destruct (negb _); [done|]. destruct (_ && _); [done|].
    destruct (match ks_last_trigger k with Some _ => _ | None => _ end); [done|].
    destruct (ks_has_current k); split; try done;
      apply (kw_bound _ (update_current_wf (with_recovery now) k Hw)) || apply (kw_bound _ Hw).
  - by apply (ks_wf_same k).
  - unfold record_latency. destruct (_ <=? _); [by apply (ks_wf_same k)|done].
  - by apply (ks_wf_same k).
  - by apply (ks_wf_same k).
Qed.

Lemma ks_run_wf k ops : ks_wf k -> ks_wf (ks_run k ops).
Proof.
  revert k. induction ops as [|op ops IH]; intros k Hw; [done|]. by apply IH, ks_step_wf.
Qed.

Lemma new_ks_wf config file :
  Z.of_nat (List.length file) <= MAX_HALT_HISTORY -> ks_wf (new_kill_switch config file).
Proof. intros Hf. split; [done|done|]. cbn. by rewrite length_map. Qed.

(** When a reset succeeds. On every kill switch reachable from a new one,
    [reset] returns true exactly when nothing is triggered, or the current halt
    has been acknowledged (or no manual reset is required) and the cooldown since
    the trigger is over; a refused reset changes nothing, a successful one leaves
    no halt and empty error and latency windows. *)
Theorem reset_correct config file ops now :
  Z.of_nat (List.length file) <= MAX_HALT_HISTORY ->
  let k := ks_run (new_kill_switch config file) ops in
  let '(k', ok) := reset k now in
  (ok = true <-> ks_triggered k = false \/
     (forall h, current_halt k = Some h -> unacknowledged h = true ->
        require_manual_reset (ks_config k) = false) /\
     (forall t, ks_last_trigger k = Some t -> t + cooldown_seconds (ks_config k) * sec <= now)) /\
  (ok = false -> k' = k) /\
  (ok = true -> ks_triggered k' = false) /\
  (ok = true -> ks_triggered k = true -> current_halt k' = None /\ ks_errors k' = [] /\
     ks_spikes k' = [] /\ Z.of_nat (List.length (ks_history k')) <= MAX_HALT_HISTORY).
Proof.
  intros Hf k. pose proof (ks_run_wf _ ops (new_ks_wf config file Hf)) as Hw. fold k in Hw.
  clearbody k. pose proof (ks_step_wf k (KReset now) Hw) as Hw'. cbn [ks_step] in Hw'.
  unfold reset in *. destruct (ks_triggered k) eqn:Et; cbn [negb] in *.
  - destruct (match current_halt k with Some h => negb (truthy (acknowledged_by h)) | None => false end
      && require_manual_reset (ks_config k)) eqn:Ea.
    + split_and!; try done. split; [done|]. intros [?|[Hun _]]; [done|].
      bool_to_prop. destruct (current_halt k) as [h|] eqn:Eh; [|done].
      rewrite (Hun h) in *; done.
    + destruct (match ks_last_trigger k with
        | Some t => now <? t + cooldown_seconds (ks_config k) * sec | None => false end) eqn:Ec.
      * split_and!; try done. split; [done|]. intros [?|[_ Hcool]]; [done|].
        destruct (ks_last_trigger k) as [t|]; [|done]. specialize (Hcool t eq_refl).
        bool_to_prop. lia.
      * split_and!; try done.
        -- split; [|done]. intros _. right. split.
           ++ intros h Hh Hu. rewrite Hh in Ea. unfold unacknowledged in Hu. by rewrite Hu in Ea.
           ++ intros t Ht. rewrite Ht in Ec. by bool_to_prop.
        -- intros _ _. split_and!; try done. apply (kw_bound _ Hw').
  - split_and!; try done. split; [by left|done].
Qed.

(** What a trigger does. On an idle kill switch it cancels orders first (if
    the action asks for it and the callback is wired), flattens only if the
    action asks for it, the local configuration allows it and the callback is
    wired, then saves the history and notifies; it is triggered, with the new
    event as its current halt. On a triggered one it calls nothing. *)
Theorem trigger_correct k env now eid r a :
  let '(k', effects) := trigger k env now eid r a in
  (ks_triggered k = true -> effects = [] /\ ks_triggered k' = true) /\
  (ks_triggered k = false ->
     ks_triggered k' = true /\ ks_last_trigger k' = Some now /\
     (exists h, current_halt k' = Some h /\ halt_reason h = r /\ action_taken h = a /\
        unacknowledged h = true) /\
     effects = action_effects k env a ++ [SaveHistory] ++ (if on_trigger env then [Notify r] else []) /\
     (FlattenPositions ∈ effects -> allow_flatten_on_halt (ks_config k) = true /\
        (a = FLATTEN_LOCAL \/ a = FLATTEN_EMERGENCY)) /\
     (CancelOrders ∈ effects -> exists rest, effects = CancelOrders :: rest)).
Proof.
  unfold trigger. destruct (ks_triggered k) eqn:Et.
  - destruct (current_halt k) as [h|]; [|done]. by destruct (string_lt _ _).
  - split; [done|]. intros _. split_and!; [done|done| |done| |].
    + exists (halt_event k env eid r a). unfold current_halt. cbn [save_history ks_has_current ks_history].
      destruct (push_bounded_snoc MAX_HALT_HISTORY (ks_history k) (halt_event k env eid r a))
        as [p ->]; [done|]. by rewrite last_snoc.
    + unfold action_effects. rewrite !elem_of_app. intros [[Hin|Hin]|[Hin|Hin]].
      * destruct (wants_cancel a && _); [|by apply not_elem_of_nil in Hin].
        by apply list_elem_of_singleton in Hin.
      * destruct (wants_flatten a) eqn:Ew; cbn [andb] in Hin; [|by apply not_elem_of_nil in Hin].
        destruct (allow_flatten_on_halt _); [|by apply not_elem_of_nil in Hin].
        split; [done|]. destruct a; try done; [by left|by right].
      * by apply list_elem_of_singleton in Hin.
      * destruct (on_trigger env); [by apply list_elem_of_singleton in Hin|].
        by apply not_elem_of_nil in Hin.
    + unfold action_effects. destruct (wants_cancel a && _); [by eexists|].
      rewrite !elem_of_app. intros [[Hin|Hin]|[Hin|Hin]].
      * by apply not_elem_of_nil in Hin.
      * destruct (_ && _); [by apply list_elem_of_singleton in Hin|by apply not_elem_of_nil in Hin].
      * by apply list_elem_of_singleton in Hin.
      * destruct (on_trigger env); [by apply list_elem_of_singleton in Hin|].
        by apply not_elem_of_nil in Hin.
Qed.

(** ** Windows *)

Lemma since_since now now' w l l' :
  now <= now' -> since now' w (since now w l ++ l') = since now' w (l ++ l').
Proof.
  intros Hle. unfold since. rewrite !List.filter_app. f_equal.
  induction l as [|t l IH]; cbn; [done|]. destruct (Z.ltb_spec (now - w) t); cbn; rewrite IH; [done|].
  destruct (Z.ltb_spec (now' - w) t); [lia|done].
Qed.

(** The events of [l] in the window of length [w] that ends now. *)
Definition recent (now w : Z) (l : list Z) : Z := cnt (fun t => now - w <? t) l.

Lemma since_count now w l : Z.of_nat (List.length (since now w l)) = recent now w l.
Proof. done. Qed.

Lemma since_nested now w w' l :
  w <= w' -> since now w (since now w' l) = since now w l.
Proof.
  intros Hle. unfold since. induction l as [|t l IH]; cbn; [done|].
  destruct (Z.ltb_spec (now - w') t), (Z.ltb_spec (now - w) t); cbn; rewrite ?IH; try done; try lia.
  all: destruct (Z.ltb_spec (now - w) t); done || lia.
Qed.

Fixpoint nondecreasing (t : Z) (ts : list Z) : Prop :=
  match ts with
  | [] => True
  | x :: r => t <= x /\ nondecreasing x r
  end.

Definition run_errors (k : KillSwitch) (ts : list Z) : KillSwitch :=
  fold_left (fun k t => (record_error t "" k).1) ts k.

Definition run_orders (k : KillSwitch) (ts : list Z) : KillSwitch :=
  fold_left (fun k t => (record_order t "" k).1) ts k.

Lemma window_run w (f : list Z -> Z -> list Z) ts past t0 l now :
  (forall l t, f l t = since t w (l ++ [t])) ->
  nondecreasing t0 (ts ++ [now]) -> l = since t0 w past ->
  f (fold_left f ts l) now = since now w (past ++ ts ++ [now]).
Proof.
  intros Hf. revert past t0 l. induction ts as [|t ts IH]; intros past t0 l Hn Hl; cbn [fold_left app] in *.
  - rewrite Hf, Hl. apply since_since. apply Hn.
  - destruct Hn as [Ht Hn]. rewrite (IH (past ++ [t]) t (f l t)); [by rewrite <- app_assoc|done|].
    rewrite Hf, Hl. by apply since_since.
Qed.

Lemma run_errors_window k ts now :
  ks_errors (record_error now "" (run_errors k ts)).1 =
  (fun l t => since t hour (l ++ [t])) (fold_left (fun l t => since t hour (l ++ [t])) ts (ks_errors k)) now
  /\ ks_config (run_errors k ts) = ks_config k.
Proof.
  revert k. induction ts as [|t ts IH]; intros k; [done|]. cbn [run_errors fold_left].
  apply (IH (record_error t "" k).1).
Qed.

Lemma run_orders_window k ts now :
  ks_orders (record_order now "" (run_orders k ts)).1 =
  (fun l t => since t minute (l ++ [t])) (fold_left (fun l t => since t minute (l ++ [t])) ts (ks_orders k)) now
  /\ ks_config (run_orders k ts) = ks_config k.
Proof.
  revert k. induction ts as [|t ts IH]; intros k; [done|]. cbn [run_orders fold_left].
  apply (IH (record_order t "" k).1).
Qed.

(** The sliding windows are exact. For errors (orders) recorded under a
    clock that does not go back, the last record reports a reason exactly when
    the number of all past errors (orders) in the last minute or hour (second or
    minute) reaches (exceeds) its limit: trimming loses nothing. *)
Theorem windows_exact config t0 ts now :
  nondecreasing t0 (ts ++ [now]) ->
  let k := new_kill_switch (Some config) [] in
  let all := ts ++ [now] in
  (is_Some (record_error now "" (run_errors k ts)).2 <->
     max_broker_errors_per_minute config <= recent now minute all \/
     max_broker_errors_per_hour config <= recent now hour all) /\
  (is_Some (record_order now "" (run_orders k ts)).2 <->
     max_orders_per_second config < recent now sec all \/
     max_orders_per_minute config < recent now minute all).
Proof.
  intros Hn k all. split.
  - destruct (run_errors_window k ts now) as [He Hc].
    pose proof (window_run hour (fun l t => since t hour (l ++ [t])) ts [] t0 [] now
      (fun _ _ => eq_refl) Hn eq_refl) as Hw. cbn [app] in Hw. fold all in Hw.
    pose proof (eq_trans He Hw) as He'. clear He Hw. rename He' into He.
    unfold record_error in *. cbn [fst snd set_windows ks_errors] in *. rewrite He, Hc.
    rewrite since_nested by done. rewrite !since_count. change (ks_config k) with config.
    destruct (Z.leb_spec (max_broker_errors_per_minute config) (recent now minute all)).
    + split; [by left|intros _; by eexists].
    + destruct (Z.leb_spec (max_broker_errors_per_hour config) (recent now hour all)).
      * split; [by right|intros _; by eexists].
      * split; [by intros []|lia].
  - destruct (run_orders_window k ts now) as [He Hc].
    pose proof (window_run minute (fun l t => since t minute (l ++ [t])) ts [] t0 [] now
      (fun _ _ => eq_refl) Hn eq_refl) as Hw. cbn [app] in Hw. fold all in Hw.
    pose proof (eq_trans He Hw) as He'. clear He Hw. rename He' into He.
    unfold record_order in *. cbn [fst snd set_windows ks_orders] in *. rewrite He, Hc.
    rewrite since_nested by done. rewrite !since_count. change (ks_config k) with config.
    destruct (Z.ltb_spec (max_orders_per_second config) (recent now sec all)).
    + split; [by left|intros _; by eexists].
    + destruct (Z.ltb_spec (max_orders_per_minute config) (recent now minute all)).
      * split; [by right|intros _; by eexists].
      * split; [by intros []|lia].
Qed.

(** ** Loss checks *)

(** [abs] of a computed quotient, against representable thresholds. *)
Lemma dabs_ge t d : representable t -> (dval t <= Qabs (dval d))%Q -> (dval t <= dval (dabs d))%Q.
Proof. intros Ht H. apply dfix_ge; [done|]. by rewrite dval_abs_exact. Qed.

Lemma dabs_le t d : representable t -> (Qabs (dval d) <= dval t)%Q -> (dval (dabs d) <= dval t)%Q.
Proof. intros Ht H. apply dfix_le; [done|]. by rewrite dval_abs_exact. Qed.

(** The quotient of a loss by a positive equity, against a share [t] of it. *)
Lemma loss_share_ge t pnl equity q :
  representable t -> (0 < dval t)%Q -> (0 < dval equity)%Q -> ddiv pnl equity = Some q ->
  (dval t * dval equity <= - dval pnl)%Q -> (dval t <= dval (dabs q))%Q.
Proof.
  intros Ht Hpos He Hq Hle. apply dabs_ge; [done|].
  pose proof (ddiv_le (copy_neg t) pnl equity q (copy_neg_representable _ Ht) He Hq) as Hd.
  rewrite dval_copy_neg in Hd. rewrite Qabs_neg; [|lra]. lra.
Qed.

Lemma loss_share_le t pnl equity q :
  representable t -> (0 < dval equity)%Q -> (dval pnl < 0)%Q -> ddiv pnl equity = Some q ->
  (- dval pnl <= dval t * dval equity)%Q -> (dval (dabs q) <= dval t)%Q.
Proof.
  intros Ht He Hp Hq Hle. apply dabs_le; [done|].
  pose proof (ddiv_ge (copy_neg t) pnl equity q (copy_neg_representable _ Ht) He Hq) as Hd.
  pose proof (ddiv_le dzero pnl equity q ltac:(by vm_compute) He Hq) as Hz.
  rewrite dval_copy_neg in Hd. rewrite dval_zero in Hz. rewrite Qabs_neg; lra.
Qed.

Lemma daily_loss_check c now rid pnl equity :
  representable (ks_max_daily_loss_pct c) -> (0 < dval (ks_max_daily_loss_pct c))%Q ->
  exists r, check_daily_loss c now rid pnl equity = Some r /\
    ((0 < dval equity)%Q ->
     (dval (ks_max_daily_loss_pct c) * dval equity <= - dval pnl)%Q -> is_Some r) /\
    (forall h, r = Some h -> hr_severity h = CRITICAL /\ forall t, representable t ->
       (0 < dval t < dval (ks_max_daily_loss_pct c))%Q ->
       (dval t * dval equity < - dval pnl)%Q).
Proof.
  intros Hl Hpos. unfold check_daily_loss. destruct (dleb equity dzero) eqn:He.
  { exists None. split_and!; [done| |done]. apply dleb_spec in He. rewrite dval_zero in He.
    intros ?. lra. }
  apply dleb_false in He. rewrite dval_zero in He. destruct (dltb pnl dzero) eqn:Hp.
  - apply dltb_spec in Hp. rewrite dval_zero in Hp. destruct (ddiv_some pnl equity He) as [q Hq].
    rewrite Hq. cbn [fmap option_fmap option_map mbind option_bind].
    destruct (dleb (ks_max_daily_loss_pct c) (dabs q)) eqn:Hc; eexists; split_and!; try done.
    + intros h [= <-]. split; [done|]. intros t Ht [Htp Hlt]. apply dleb_spec in Hc.
      apply Qnot_le_lt. intros Hle. pose proof (loss_share_le t pnl equity q Ht He Hp Hq Hle). lra.
    + intros _ Hle. apply dleb_false in Hc.
      pose proof (loss_share_ge _ pnl equity q Hl Hpos He Hq Hle). lra.
  - apply dltb_false in Hp. rewrite dval_zero in Hp. cbn [mbind option_bind].
    destruct (dleb (ks_max_daily_loss_pct c) dzero) eqn:Hc.
    { apply dleb_spec in Hc. rewrite dval_zero in Hc. lra. }
    exists None. split_and!; [done| |done]. intros _ Hle.
    pose proof (Qmult_lt_0_compat _ _ Hpos He). lra.
Qed.

Lemma drawdown_check c now rid current peak :
  representable (ks_max_drawdown_pct c) -> add_fits peak (copy_neg current) ->
  exists r, check_drawdown c now rid current peak = Some r /\
    ((0 < dval peak)%Q ->
     (dval (ks_max_drawdown_pct c) * dval peak <= dval peak - dval current)%Q -> is_Some r) /\
    (forall h, r = Some h -> hr_severity h = CRITICAL /\ forall t, representable t ->
       (dval t < dval (ks_max_drawdown_pct c))%Q ->
       (dval t * dval peak < dval peak - dval current)%Q).
Proof.
  intros Hd Hfit. unfold check_drawdown. destruct (dleb peak dzero) eqn:He.
  { exists None. split_and!; [done| |done]. apply dleb_spec in He. rewrite dval_zero in He.
    intros ?. lra. }
  apply dleb_false in He. rewrite dval_zero in He.
  destruct (ddiv_some (dsub peak current) peak He) as [q Hq]. rewrite Hq. cbn [mbind option_bind].
  pose proof (dval_dsub peak current Hfit) as Hs.
  destruct (dleb (ks_max_drawdown_pct c) q) eqn:Hc; eexists; split_and!; try done.
  - intros h [= <-]. split; [done|]. intros t Ht Hlt. apply dleb_spec in Hc.
    apply Qnot_le_lt. intros Hle. pose proof (ddiv_le t _ _ q Ht He Hq). lra.
  - intros _ Hle. apply dleb_false in Hc. pose proof (ddiv_ge _ _ _ q Hd He Hq). lra.
Qed.

(** A loss is at least, or more than, a share of the whole. *)
Definition reaches (share : dec) (loss whole : Q) : Prop := (dval share * whole <= loss)%Q.
Definition surpasses (share : dec) (loss whole : Q) : Prop := (dval share * whole < loss)%Q.

(** The loss checks never miss a limit and never raise. When the daily loss
    (the drawdown) is at least the configured share of a positive equity (peak),
    the check reports a critical reason; when it reports one, the loss exceeds
    every representable share below the configured one. *)
Theorem loss_checks_correct c now rid pnl equity current peak :
  representable (ks_max_daily_loss_pct c) -> representable (ks_max_drawdown_pct c) ->
  (0 < dval (ks_max_daily_loss_pct c))%Q -> add_fits peak (copy_neg current) ->
  (exists r, check_daily_loss c now rid pnl equity = Some r /\
     ((0 < dval equity)%Q ->
      reaches (ks_max_daily_loss_pct c) (- dval pnl) (dval equity) -> is_Some r) /\
     (forall h, r = Some h -> hr_severity h = CRITICAL /\ forall t, representable t ->
        (0 < dval t < dval (ks_max_daily_loss_pct c))%Q ->
        surpasses t (- dval pnl) (dval equity))) /\
  (exists r, check_drawdown c now rid current peak = Some r /\
     ((0 < dval peak)%Q ->
      reaches (ks_max_drawdown_pct c) (dval peak - dval current) (dval peak) -> is_Some r) /\
     (forall h, r = Some h -> hr_severity h = CRITICAL /\ forall t, representable t ->
        (dval t < dval (ks_max_drawdown_pct c))%Q ->
        surpasses t (dval peak - dval current) (dval peak))).
Proof.
  intros Hl Hd Hpos Hfit. split; [by apply daily_loss_check|by apply drawdown_check].
Qed.

(** ** What the kill switch does not do *)

(** Severities are compared by name, so [LOW] replaces [MEDIUM] as "more severe",
    and [CRITICAL] is below both only by its spelling. *)
Theorem severity_order_by_name :
  string_lt (severity_value LOW) (severity_value MEDIUM) = true /\
  string_lt (severity_value MEDIUM) (severity_value LOW) = false.
Proof. done. Qed.

Definition sample_reason (s : HaltSeverity) : HaltReason :=
  MkReason "r" MANUAL_TRIGGER s "" [] 0 "" None true.

Definition no_env : KsEnv := MkKsEnv None None false.

Definition halted_switch : KillSwitch :=
  (trigger (new_kill_switch None []) no_env 0 "e1" (sample_reason HIGH) CANCEL_ORDERS).1.

(** A restart forgets a halt that nobody acknowledged: the history is read back,
    the triggered state is not. *)
Theorem restart_releases_halt :
  ks_triggered halted_switch = true /\
  let k := new_kill_switch None (ks_saved halted_switch) in
  ks_triggered k = false /\ List.length (ks_history k) = 1%nat /\
  map unacknowledged (ks_history k) = [true].
Proof. by vm_compute. Qed.

(** A more severe reason that arrives after the acknowledgment of the first one
    inherits it: the reset goes through without anyone acknowledging it. *)
Theorem escalation_inherits_acknowledgment :
  let k1 := (acknowledge halted_switch 10 "operator" "APPROVE_RESET_1").1 in
  let k2 := (trigger k1 no_env 20 "e2" (sample_reason CRITICAL) CANCEL_ORDERS).1 in
  (hr_severity ∘ halt_reason <$> current_halt k2) = Some CRITICAL /\
  (reset k2 (400 * sec)).2 = true.
Proof. by vm_compute. Qed.

(** ** Witnesses *)

Lemma halt_holds_until_acknowledged_witness :
  halted (ks_run halted_switch [KReset (1000 * sec); KError (1001 * sec) "x"; KReset (2000 * sec)]).
Proof.
  apply halt_holds_until_acknowledged.
  - split; [reflexivity|]. split; [reflexivity|]. eexists. split; reflexivity.
  - reflexivity.
Defined.

Lemma reset_correct_witness :
  (reset (ks_run (new_kill_switch None []) [KTrigger no_env 0 "e1" (sample_reason HIGH) HALT_ONLY]) 5).2
  = false.
Proof.
  pose proof (reset_correct None [] [KTrigger no_env 0 "e1" (sample_reason HIGH) HALT_ONLY] 5
                ltac:(by vm_compute)) as Hr.
  cbv zeta in Hr. destruct (reset _ 5) as [k' ok] eqn:E. destruct Hr as (H1 & _).
  destruct ok; [|reflexivity]. destruct (proj1 H1 eq_refl) as [Hf|[Hu _]].
  - vm_compute in Hf. discriminate.
  - assert (require_manual_reset default_ks_config = false) as Hm.
    { eapply Hu; reflexivity. }
    discriminate Hm.
Defined.

Lemma windows_exact_witness :
  is_Some (record_error 4 "" (run_errors (new_kill_switch (Some default_ks_config) []) [0; 1; 2; 3])).2.
Proof.
  apply (windows_exact default_ks_config 0 [0; 1; 2; 3] 4).
  - cbn. lia.
  - left. vm_compute. discriminate.
Defined.

Lemma loss_checks_correct_witness :
  exists h, check_daily_loss default_ks_config 0 "" (Dec (-30) 0) (Dec 100 0) = Some (Some h).
Proof.
  destruct (loss_checks_correct default_ks_config 0 "" (Dec (-30) 0) (Dec 100 0) (Dec 1 0) (Dec 1 0))
    as [(r & Hr & Hs & _) _]; [by vm_compute..|].
  destruct Hs as [h Hh]; [by vm_compute|by vm_compute|]. exists h. by rewrite Hr, Hh.
Defined.
