(* ===== verification/KillEvidence.v ===== *)
(** * Evidence of halts: the records and the history file of
    [packages/agent/daemon/kill_switch.py]

    The dictionaries of reasons and events, the evidence hash an event gets when it is
    made, the history file and reading it back, and the export.  An event of [KillSwitch]
    has no hash; here it is kept beside it.  The hash is computed in the constructor of
    the event, so a reason whose details [json.dumps] refuses makes [trigger] raise half
    way: [trigger_raising] is the whole of [trigger]. *)
From Stdlib Require Import Ascii String.
From S2P Require Import Prelude PyDecimal DecArith PyValue PyFormat PyTime PyFloat PyJson PyText Sha256 KillSwitch.
Open Scope Z_scope.
Open Scope list_scope.

(** [HaltReasonType.name] *)
Definition halt_type_name (t : HaltReasonType) : string :=
  match t with
  | MAX_DAILY_LOSS => "MAX_DAILY_LOSS"
  | MAX_DRAWDOWN => "MAX_DRAWDOWN"
  | BROKER_ERROR_BURST => "BROKER_ERROR_BURST"
  | LATENCY_SPIKE => "LATENCY_SPIKE"
  | ORDER_SPAM => "ORDER_SPAM"
  | STATE_DIVERGENCE => "STATE_DIVERGENCE"
  | DATA_FEED_INVALID => "DATA_FEED_INVALID"
  | POSITION_MISMATCH => "POSITION_MISMATCH"
  | HARD_CAP_EXCEEDED => "HARD_CAP_EXCEEDED"
  | MANUAL_TRIGGER => "MANUAL_TRIGGER"
  | NETWORK_DOWN => "NETWORK_DOWN"
  | CLOUD_UNREACHABLE => "CLOUD_UNREACHABLE"
  | TIME_SYNC_DRIFT => "TIME_SYNC_DRIFT"
  | SIGNATURE_INVALID => "SIGNATURE_INVALID"
  | POLICY_VIOLATION => "POLICY_VIOLATION"
  | RECONCILIATION_FAILED => "RECONCILIATION_FAILED"
  | PREFLIGHT_FAILED => "PREFLIGHT_FAILED"
  end%string.

Definition all_halt_types : list HaltReasonType :=
  [MAX_DAILY_LOSS; MAX_DRAWDOWN; BROKER_ERROR_BURST; LATENCY_SPIKE; ORDER_SPAM; STATE_DIVERGENCE; DATA_FEED_INVALID;
   POSITION_MISMATCH; HARD_CAP_EXCEEDED; MANUAL_TRIGGER; NETWORK_DOWN; CLOUD_UNREACHABLE; TIME_SYNC_DRIFT;
   SIGNATURE_INVALID; POLICY_VIOLATION; RECONCILIATION_FAILED; PREFLIGHT_FAILED].

(** ** Reasons *)

Definition reason_to_dict (r : HaltReason) : dict :=
  [("reason_id", VStr (reason_id r)); ("reason_type", VStr (halt_type_name (reason_type r)));
   ("severity", VStr (severity_value (hr_severity r))); ("message", VStr (hr_message r));
   ("details", VDict (details r)); ("timestamp", VStr (isoformat (hr_time r)));
   ("trigger_source", VStr (trigger_source r)); ("recovery_action", v_opt_str (recovery_action r));
   ("acknowledgment_required", VBool (acknowledgment_required r))]%string.

(** [from_dict]; [None] raises, or a field holds a value of another type, which the code
    keeps. *)
Definition reason_from_dict (d : dict) : option HaltReason :=
  (let get k dflt := default dflt (dget d k) in
   rid ← dget d "reason_id" ≫= as_str;
   ty ← dget d "reason_type" ≫= member halt_type_name all_halt_types;
   sev ← dget d "severity" ≫= member severity_value [CRITICAL; HIGH; MEDIUM; LOW];
   msg ← dget d "message" ≫= as_str;
   det ← as_dict (get "details" (VDict []));
   t ← (dget d "timestamp" ≫= as_str) ≫= fromisoformat;
   src ← as_str (get "trigger_source" (VStr ""));
   rec ← as_opt as_str (get "recovery_action" VNone);
   ack ← as_bool (get "acknowledgment_required" (VBool true));
   Some (MkReason rid ty sev msg det t src rec ack))%string.

(** [s in t] *)
Definition contains (s t : string) : bool := bool_decide (is_Some (find (chars s) (chars t))).

Definition sensitive_words : list string := ["key"; "secret"; "password"; "token"; "credential"]%string.

(** [type(value).__name__] of a value that is neither a scalar nor a decimal. *)
Definition other_type_name (v : pyval) : string :=
  match v with
  | VNone => "NoneType"
  | VTime _ => "datetime"
  | VStrs _ => "list"
  | VDict _ => "dict"
  | _ => ""
  end%string.

Definition safe_value (k : string) (v : pyval) : pyval :=
  if existsb (fun w => contains w (str_lower k)) sensitive_words then VStr "[REDACTED]"
  else
    match v with
    | VStr _ | VInt _ | VFloat _ | VSecs _ | VBool _ => v
    | VDec d => VStr (dec_str d)
    | VNone | VTime _ | VStrs _ | VDict _ => VStr (other_type_name v)
    end.

Definition get_telemetry_safe_details (r : HaltReason) : dict :=
  map (fun kv => (kv.1, safe_value kv.1 kv.2)) (details r).

(** ** Events *)

(** An event with its evidence hash. *)
Abbreviation hashed := (HaltEvent * string)%type.

Section Evidence.
Context `{Digest}.

(** [_compute_hash]; [None] is the [TypeError] of [json.dumps]. *)
Definition hashed_data (e : HaltEvent) : dict :=
  [("event_id", VStr (event_id e)); ("reason", VDict (reason_to_dict (halt_reason e)));
   ("action", VStr (halt_action_value (action_taken e))); ("orders_cancelled", VInt (orders_cancelled e));
   ("positions_flattened", VBool (positions_flattened e))]%string.

Definition halt_hash (e : HaltEvent) : option string :=
  if serializable (VDict (hashed_data e)) then
    Some (sha256_hex (string_of_list_ascii (spaced_val (VDict (hashed_data e)))))
  else None.

(** The constructor: a hash that is given is kept. *)
Definition make_event (e : HaltEvent) (hash : string) : option hashed :=
  if truthy (Some hash) then Some (e, hash) else h ← halt_hash e; Some (e, h).

Definition halt_event_to_dict (eh : hashed) : dict :=
  let e := eh.1 in
  [("event_id", VStr (event_id e)); ("halt_reason", VDict (reason_to_dict (halt_reason e)));
   ("action_taken", VStr (halt_action_value (action_taken e))); ("orders_cancelled", VInt (orders_cancelled e));
   ("positions_flattened", VBool (positions_flattened e));
   ("recovery_timestamp", v_opt_str (isoformat <$> recovery_timestamp e));
   ("recovery_approval_code", v_opt_str (recovery_approval_code e)); ("acknowledged_by", v_opt_str (acknowledged_by e));
   ("acknowledged_at", v_opt_str (isoformat <$> acknowledged_at e)); ("evidence_hash", VStr eh.2)]%string.

(** ** The history file *)

(** A field that is read only when it is true. *)
Definition if_true {A} (f : pyval -> option A) (d : dict) (k : string) : option (option A) :=
  let v := default VNone (dget d k) in
  if val_true v then Some <$> f v else Some None.

(** The body of the loop of [_load_history]; [None] raises. *)
Definition read_event (d : dict) : option hashed :=
  (reason ← as_dict (default (VDict []) (dget d "halt_reason")) ≫= reason_from_dict;
   eid ← dget d "event_id" ≫= as_str;
   act ← dget d "action_taken" ≫= member halt_action_value [HALT_ONLY; CANCEL_ORDERS; FLATTEN_LOCAL; FLATTEN_EMERGENCY];
   n ← as_int (default (VInt 0) (dget d "orders_cancelled"));
   flat ← as_bool (default (VBool false) (dget d "positions_flattened"));
   hash ← as_str (default (VStr "") (dget d "evidence_hash"));
   eh ← make_event (MkHaltEvent eid reason act n flat None None None None) hash;
   rec ← if_true (fun v => as_str v ≫= fromisoformat) d "recovery_timestamp";
   by_ ← if_true as_str d "acknowledged_by";
   at_ ← if_true (fun v => as_str v ≫= fromisoformat) d "acknowledged_at";
   Some (MkHaltEvent eid reason act n flat rec None by_ at_, eh.2))%string.

(** [_load_history]: the first item that raises ends it; what was read stays. *)
Fixpoint read_history (items : list dict) : list hashed :=
  match items with
  | [] => []
  | d :: items =>
      match read_event d with
      | Some eh => eh :: read_history items
      | None => []
      end
  end.

(** What [_save_history] writes for its events. *)
Definition written_history (l : list hashed) : list dict := map halt_event_to_dict (py_last MAX_HALT_HISTORY l).

(** [export_for_evidence]: the history beside the other entries. *)
Definition export_for_evidence (now : Z) (k : KillSwitch) (l : list hashed) : dict * list dict :=
  ([("export_timestamp", VStr (isoformat now)); ("config", VDict (ks_config_to_dict (ks_config k)));
    ("current_triggered", VBool (ks_triggered k));
    ("current_halt",
       match current_halt k, last l with
       | Some e, Some (_, h) => VDict (halt_event_to_dict (e, h))
       | _, _ => VNone
       end);
    ("history_count", VInt (Z.of_nat (List.length l)))]%string, map halt_event_to_dict l).

(** ** The whole of [trigger] *)

(** Triggered, with the callbacks called, and no event. *)
Definition half_triggered (now : Z) (k : KillSwitch) : KillSwitch :=
  MkKs (ks_config k) true (ks_has_current k) (ks_history k) (Some now) (ks_errors k) (ks_spikes k) (ks_orders k)
    (ks_last_data k) (ks_saved k).

Definition trigger_raising (k : KillSwitch) (env : KsEnv) (now : Z) (eid : string) (r : HaltReason) (a : HaltAction) :
    KillSwitch * list ks_effect * pyres unit unit :=
  if ks_triggered k then
    match current_halt k with
    | Some _ => (trigger k env now eid r a, Ok tt)
    | None => (k, [], Raise tt)
    end
  else
    match halt_hash (halt_event k env eid r a) with
    | Some _ => (trigger k env now eid r a, Ok tt)
    | None => (half_triggered now k, action_effects k env a, Raise tt)
    end.
End Evidence.

(** ** Lemmas *)

Lemma halt_type_reread t : member halt_type_name all_halt_types (VStr (halt_type_name t)) = Some t.
Proof. by destruct t. Qed.

Lemma severity_reread s : member severity_value [CRITICAL; HIGH; MEDIUM; LOW] (VStr (severity_value s)) = Some s.
Proof. by destruct s. Qed.

Lemma halt_action_reread a :
  member halt_action_value [HALT_ONLY; CANCEL_ORDERS; FLATTEN_LOCAL; FLATTEN_EMERGENCY] (VStr (halt_action_value a)) = Some a.
Proof. by destruct a. Qed.

Definition time_ok (t : Z) : Prop := date_min <= t / day <= date_max.

#[export] Instance time_ok_dec t : Decision (time_ok t).
Proof. unfold time_ok. apply _. Defined.

Lemma reason_reread r : time_ok (hr_time r) -> reason_from_dict (reason_to_dict r) = Some r.
Proof.
  intros Ht. apply fromisoformat_isoformat in Ht. unfold reason_from_dict, reason_to_dict. revert Ht.
  generalize (isoformat (hr_time r)). intros t Ht.
  match goal with |- context [dget ?d _] => set (data := d) end.
  assert (forall k v, dget data k = Some v -> dget data k = Some v) as field by done.
  rewrite (field "reason_id"%string (VStr (reason_id r)) eq_refl),
    (field "reason_type"%string (VStr (halt_type_name (reason_type r))) eq_refl),
    (field "severity"%string (VStr (severity_value (hr_severity r))) eq_refl),
    (field "message"%string (VStr (hr_message r)) eq_refl), (field "details"%string (VDict (details r)) eq_refl),
    (field "timestamp"%string (VStr t) eq_refl), (field "trigger_source"%string (VStr (trigger_source r)) eq_refl),
    (field "recovery_action"%string (v_opt_str (recovery_action r)) eq_refl),
    (field "acknowledgment_required"%string (VBool (acknowledgment_required r)) eq_refl).
  cbn [default from_option Datatypes.id as_str as_dict as_bool mbind option_bind].
  rewrite halt_type_reread, severity_reread, Ht.
  destruct r as [a b c d e f g [h|] i]; reflexivity.
Qed.

(** An optional time or text that is written and read only when it is true. *)
Lemma time_field d k o :
  from_option time_ok True o -> dget d k = Some (v_opt_str (isoformat <$> o)) ->
  if_true (fun v => as_str v ≫= fromisoformat) d k = Some o.
Proof.
  intros Ht Hk. unfold if_true. rewrite Hk. destruct o as [t|]; [|done].
  cbn [default from_option Datatypes.id v_opt_str fmap option_fmap option_map val_true as_str mbind option_bind].
  by rewrite (isoformat_truthy t Ht), (fromisoformat_isoformat t Ht).
Qed.

Lemma text_field d k o :
  dget d k = Some (v_opt_str o) -> if_true as_str d k = Some (if truthy o then o else None).
Proof.
  intros Hk. unfold if_true. rewrite Hk. destruct o as [t|]; [|done].
  cbn [default from_option Datatypes.id v_opt_str val_true as_str]. by destruct (truthy (Some t)).
Qed.

(** Times a [datetime] can hold, and a hash that is not empty. *)
Definition event_ok (eh : hashed) : Prop :=
  time_ok (hr_time (halt_reason eh.1)) /\ from_option time_ok True (recovery_timestamp eh.1) /\
  from_option time_ok True (acknowledged_at eh.1) /\ truthy (Some eh.2) = true.

#[export] Instance event_ok_dec eh : Decision (event_ok eh).
Proof. unfold event_ok. destruct (recovery_timestamp eh.1), (acknowledged_at eh.1); cbn; apply _. Defined.

Section EvidenceProps.
Context `{Digest}.

Lemma event_reread eh : event_ok eh -> read_event (halt_event_to_dict eh) = Some (load_event eh.1, eh.2).
Proof.
  intros (Hr & Hrec & Hack & Hh). destruct eh as [e hash]. cbn [fst snd] in *. unfold read_event, halt_event_to_dict.
  pose proof (reason_reread _ Hr) as Hrr. cbn [fst snd]. revert Hrr.
  generalize (reason_to_dict (halt_reason e)). intros rd Hrr.
  match goal with |- context [dget ?d _] => set (data := d) end.
  assert (forall k v, dget data k = Some v -> dget data k = Some v) as field by done.
  rewrite (time_field data "recovery_timestamp" _ Hrec eq_refl), (time_field data "acknowledged_at" _ Hack eq_refl),
    (text_field data "acknowledged_by" _ eq_refl).
  rewrite (field "halt_reason"%string (VDict rd) eq_refl), (field "event_id"%string (VStr (event_id e)) eq_refl),
    (field "action_taken"%string (VStr (halt_action_value (action_taken e))) eq_refl),
    (field "orders_cancelled"%string (VInt (orders_cancelled e)) eq_refl),
    (field "positions_flattened"%string (VBool (positions_flattened e)) eq_refl),
    (field "evidence_hash"%string (VStr hash) eq_refl).
  cbn [default from_option Datatypes.id as_str as_dict as_bool as_int mbind option_bind].
  rewrite Hrr. cbn [mbind option_bind]. rewrite halt_action_reread. unfold make_event. by rewrite Hh.
Qed.

(** The history survives a restart: what was written is read back in order, with its
    hashes, except the approval code of a recovery and an empty name of who acknowledged. *)
Theorem halt_history_survives l :
  Forall event_ok l -> Z.of_nat (List.length l) <= MAX_HALT_HISTORY ->
  read_history (written_history l) = map (fun eh => (load_event eh.1, eh.2)) l.
Proof.
  intros Hl Hn. unfold written_history. rewrite py_last_short by (unfold MAX_HALT_HISTORY in *; lia).
  clear Hn. induction Hl as [|eh l He _ IH]; [done|]. cbn [map read_history]. rewrite (event_reread eh He). by f_equal.
Qed.
End EvidenceProps.

(** ** Findings *)

Section EvidenceFindings.
Context `{Digest}.

(** A reason [json.dumps] refuses leaves the switch triggered without an event: once the
    cooldown is over it is reset without any acknowledgment, whatever the configuration
    requires; until then every further trigger raises. *)
Theorem unserialisable_halt_needs_no_acknowledgment k env t eid r a env' t' eid' r' a' now :
  ks_triggered k = false -> ks_has_current k = false -> serializable (VDict (details r)) = false ->
  t + cooldown_seconds (ks_config k) * sec <= now ->
  let '(k1, _, res) := trigger_raising k env t eid r a in
  res = Raise tt /\ ks_triggered k1 = true /\ (trigger_raising k1 env' t' eid' r' a').2 = Raise tt /\ (reset k1 now).2 = true.
Proof.
  intros Hk Hc Hs Hn. unfold trigger_raising. rewrite Hk.
  assert (halt_hash (halt_event k env eid r a) = None) as ->.
  { unfold halt_hash.
    assert (serializable (VDict (hashed_data (halt_event k env eid r a))) = false) as ->; [|reflexivity].
    cbn. cbn in Hs. by rewrite Hs. }
  split_and!; [done|done| |].
  - cbn. unfold current_halt. cbn. by rewrite Hc.
  - unfold reset, current_halt. cbn. rewrite Hc. cbn. destruct (Z.ltb_spec now (t + cooldown_seconds (ks_config k) * sec)); [lia|done].
Qed.

(** An item that cannot be read ends the history: what follows is dropped, what precedes
    stays. *)
Theorem unreadable_item_ends_history l d rest :
  Forall event_ok l -> read_event d = None ->
  read_history (map halt_event_to_dict l ++ d :: rest) = map (fun eh => (load_event eh.1, eh.2)) l.
Proof.
  intros Hl Hd. induction Hl as [|eh l He _ IH]; cbn [map app read_history]; [by rewrite Hd|].
  rewrite (event_reread eh He). by f_equal.
Qed.

(** The hash is never compared: an event of the file with another number of cancelled
    orders is read with the hash it had. *)
Theorem altered_event_is_read e hash n :
  event_ok (e, hash) ->
  let e' := MkHaltEvent (event_id e) (halt_reason e) (action_taken e) n (positions_flattened e) (recovery_timestamp e)
              (recovery_approval_code e) (acknowledged_by e) (acknowledged_at e) in
  snd <$> read_event (halt_event_to_dict (e', hash)) = Some hash.
Proof. intros He e'. by rewrite (event_reread (e', hash) He). Qed.
End EvidenceFindings.

Definition evidence_reason (sev : HaltSeverity) (msg : string) : HaltReason :=
  MkReason "r1" MANUAL_TRIGGER sev msg [("api_key", VStr "abc"); ("positions", VInt 3)]%string 1709209845000250 "user" None
    true.

(** A reason that replaces the one of the current halt leaves the hash of the first: the
    evidence no longer fits the event. *)
Theorem replaced_reason_keeps_hash :
  let k := new_kill_switch None [] in
  let env := MkKsEnv None None false in
  let k1 := (trigger k env 5 "e1" (evidence_reason LOW "first") CANCEL_ORDERS).1 in
  let k2 := (trigger k1 env 6 "e2" (evidence_reason CRITICAL "second") CANCEL_ORDERS).1 in
  let h := fun k => current_halt k ≫= halt_hash (H := hashlib_digest) in
  (hr_message ∘ halt_reason <$> current_halt k2) = Some "second"%string /\ bool_decide (h k2 = h k1) = false.
Proof. vm_compute. split; reflexivity. Qed.

Example safe_details_ex :
  get_telemetry_safe_details (evidence_reason LOW "first") = [("api_key", VStr "[REDACTED]"); ("positions", VInt 3)]%string.
Proof. vm_compute. reflexivity. Qed.

Lemma halt_history_survives_witness :
  let e := MkHaltEvent "e1" (evidence_reason HIGH "m") CANCEL_ORDERS 2 true (Some 1709209845000250) (Some "APPROVE_RESET_1")
             (Some "ops") (Some 1709209845000000) in
  read_history (H := hashlib_digest) (written_history [(e, "ab")]%string) = [(load_event e, "ab")]%string.
Proof.
  intros e. apply (halt_history_survives (H := hashlib_digest) [(e, "ab"%string)]).
  - apply (bool_decide_unpack _). vm_compute. exact I.
  - vm_compute. discriminate.
Defined.
