(* ===== verification/DegradedMode.v ===== *)
(** * Degraded modes: [packages/agent/daemon/degraded_mode.py]

    [DegradedModeManager]: the set of active modes, an event per active mode, the
    action in force, and the operations that report conditions.  An event object
    is shared by the list of events and the dictionary of active ones: a change
    is made to both by its [event_id], a fresh [uuid4].  Calls of
    [on_mode_change] are recorded in [dm_calls].  The background thread only
    calls [check_auto_recovery]; [duration_seconds] needs the clock. *)
From Stdlib Require Import Ascii String.
From S2P Require Import Prelude PyDecimal PyValue PyFormat PyJson PyFloat.
Open Scope Z_scope.
Open Scope list_scope.

Inductive DegradedMode :=
  | NORMAL | CLOUD_UNREACHABLE | NETWORK_DEGRADED | DATA_FEED_STALE | DATA_FEED_INVALID
  | BROKER_UNREACHABLE | HIGH_LATENCY | RATE_LIMITED | MANUAL_RESTRICT | CLOUD_GRACE_PERIOD.

#[export] Instance DegradedMode_eq_dec : EqDecision DegradedMode.
Proof. solve_decision. Defined.

Inductive TradingMode := BACKTEST | PAPER | LIVE.

#[export] Instance TradingMode_eq_dec : EqDecision TradingMode.
Proof. solve_decision. Defined.

Inductive DegradedModeAction := CONTINUE | RESTRICT | CLOSE_ONLY | PAUSE | HALT.

#[export] Instance DegradedModeAction_eq_dec : EqDecision DegradedModeAction.
Proof. solve_decision. Defined.

Definition mode_name (m : DegradedMode) : string :=
  match m with
  | NORMAL => "NORMAL"
  | CLOUD_UNREACHABLE => "CLOUD_UNREACHABLE"
  | NETWORK_DEGRADED => "NETWORK_DEGRADED"
  | DATA_FEED_STALE => "DATA_FEED_STALE"
  | DATA_FEED_INVALID => "DATA_FEED_INVALID"
  | BROKER_UNREACHABLE => "BROKER_UNREACHABLE"
  | HIGH_LATENCY => "HIGH_LATENCY"
  | RATE_LIMITED => "RATE_LIMITED"
  | MANUAL_RESTRICT => "MANUAL_RESTRICT"
  | CLOUD_GRACE_PERIOD => "CLOUD_GRACE_PERIOD"
  end%string.

Definition trading_mode_value (m : TradingMode) : string :=
  match m with
  | BACKTEST => "backtest"
  | PAPER => "paper"
  | LIVE => "live"
  end%string.

Definition action_value (a : DegradedModeAction) : string :=
  match a with
  | CONTINUE => "continue"
  | RESTRICT => "restrict"
  | CLOSE_ONLY => "close_only"
  | PAUSE => "pause"
  | HALT => "halt"
  end%string.

(** The configuration that the manager reads; the telemetry and interval
    settings it only stores are left out. *)
Record DegradedModeConfig := MkDmConfig {
  trading_mode : TradingMode;
  cloud_timeout_seconds : Z;
  data_stale_threshold_seconds : Z;
  latency_threshold_ms : Z;
  broker_timeout_seconds : Z;
  live_cloud_grace_period_seconds : Z;
  live_cloud_max_duration_seconds : Z;
  live_force_halt_on_cloud_loss : bool;
  cloud_unreachable_action : DegradedModeAction;
  data_feed_stale_action : DegradedModeAction;
  data_feed_invalid_action : DegradedModeAction;
  broker_unreachable_action : DegradedModeAction;
  high_latency_action : DegradedModeAction;
  live_cloud_unreachable_action : DegradedModeAction;
  auto_recover : bool;
  notify_on_enter : bool;
  notify_on_exit : bool;
  local_telemetry_enabled : bool
}.

Definition default_dm_config : DegradedModeConfig :=
  MkDmConfig PAPER 60 30 2000 30 300 3600 false CONTINUE PAUSE HALT HALT RESTRICT RESTRICT
    true true true true.

Definition get_cloud_unreachable_action (c : DegradedModeConfig) : DegradedModeAction :=
  match trading_mode c with
  | LIVE => if live_force_halt_on_cloud_loss c then HALT else live_cloud_unreachable_action c
  | _ => cloud_unreachable_action c
  end.

Definition dm_config_to_dict (c : DegradedModeConfig) : dict :=
  [("trading_mode", VStr (trading_mode_value (trading_mode c)));
   ("cloud_timeout_seconds", VInt (cloud_timeout_seconds c));
   ("data_stale_threshold_seconds", VInt (data_stale_threshold_seconds c));
   ("latency_threshold_ms", VInt (latency_threshold_ms c));
   ("broker_timeout_seconds", VInt (broker_timeout_seconds c));
   ("live_cloud_grace_period_seconds", VInt (live_cloud_grace_period_seconds c));
   ("live_cloud_max_duration_seconds", VInt (live_cloud_max_duration_seconds c));
   ("live_force_halt_on_cloud_loss", VBool (live_force_halt_on_cloud_loss c));
   ("cloud_unreachable_action", VStr (action_value (cloud_unreachable_action c)));
   ("data_feed_stale_action", VStr (action_value (data_feed_stale_action c)));
   ("data_feed_invalid_action", VStr (action_value (data_feed_invalid_action c)));
   ("broker_unreachable_action", VStr (action_value (broker_unreachable_action c)));
   ("high_latency_action", VStr (action_value (high_latency_action c)));
   ("local_telemetry_enabled", VBool (local_telemetry_enabled c))]%string.

Record DegradedModeEvent := MkDmEvent {
  dm_event_id : string;
  dm_mode : DegradedMode;
  dm_action_taken : DegradedModeAction;
  entered_at : Z;
  exited_at : option Z;
  dm_reason : string;
  dm_details : dict;
  auto_recovered : bool
}.

Definition duration_seconds (now : Z) (e : DegradedModeEvent) : Z :=
  default now (exited_at e) - entered_at e.

Definition is_active (e : DegradedModeEvent) : bool :=
  match exited_at e with
  | None => true
  | Some _ => false
  end.

(** [to_dict], with the nested [details] on the right. *)
Definition dm_event_to_dict (now : Z) (e : DegradedModeEvent) : dict * dict :=
  ([("event_id", VStr (dm_event_id e)); ("mode", VStr (mode_name (dm_mode e)));
    ("action_taken", VStr (action_value (dm_action_taken e)));
    ("entered_at", VStr (isoformat (entered_at e)));
    ("exited_at", v_opt_str (isoformat <$> exited_at e)); ("reason", VStr (dm_reason e));
    ("duration_seconds", VSecs (duration_seconds now e)); ("is_active", VBool (is_active e));
    ("auto_recovered", VBool (auto_recovered e))], dm_details e)%string.

Record DmState := MkDm {
  dm_config : DegradedModeConfig;
  dm_wired : bool;
  dm_modes : list DegradedMode;
  dm_action : DegradedModeAction;
  dm_events : list DegradedModeEvent;
  dm_active : list (DegradedMode * DegradedModeEvent);
  last_cloud_contact : option Z;
  last_data_update : option Z;
  last_broker_contact : option Z;
  dm_calls : list (DegradedMode * DegradedModeAction)
}.

Definition new_degraded (config : option DegradedModeConfig) (wired : bool) : DmState :=
  MkDm (default default_dm_config config) wired [NORMAL] CONTINUE [] [] None None None [].

Definition in_mode (m : DegradedMode) (s : DmState) : bool := bool_decide (m ∈ dm_modes s).

(** [current_mode]: worst first. *)
Definition mode_priority : list DegradedMode :=
  [BROKER_UNREACHABLE; DATA_FEED_INVALID; DATA_FEED_STALE; CLOUD_UNREACHABLE; HIGH_LATENCY;
   RATE_LIMITED; NETWORK_DEGRADED; MANUAL_RESTRICT; NORMAL].

Definition current_mode (s : DmState) : DegradedMode :=
  default NORMAL (List.find (fun m => in_mode m s) mode_priority).

(** [_current_modes != {NORMAL}], of a set without repetitions. *)
Definition is_degraded (s : DmState) : bool := negb (bool_decide (dm_modes s = [NORMAL])).

Definition can_submit_order (s : DmState) : bool :=
  match dm_action s with
  | CONTINUE | RESTRICT => true
  | _ => false
  end.

Definition can_close_position (s : DmState) : bool :=
  match dm_action s with
  | CONTINUE | RESTRICT | CLOSE_ONLY => true
  | _ => false
  end.

Definition is_halted (s : DmState) : bool :=
  match dm_action s with
  | HALT => true
  | _ => false
  end.

Definition is_paused (s : DmState) : bool :=
  match dm_action s with
  | PAUSE | HALT => true
  | _ => false
  end.

(** ** Modes *)

Definition set_add (m : DegradedMode) (l : list DegradedMode) : list DegradedMode :=
  if decide (m ∈ l) then l else l ++ [m].

Definition set_discard (m : DegradedMode) (l : list DegradedMode) : list DegradedMode :=
  List.filter (fun x => negb (bool_decide (x = m))) l.

Definition action_priority : list DegradedModeAction := [HALT; PAUSE; CLOSE_ONLY; RESTRICT; CONTINUE].

(** [_update_current_action]: the first action of the priority list that an
    active event takes. *)
Definition most_restrictive (active : list (DegradedMode * DegradedModeEvent)) :
    DegradedModeAction :=
  default CONTINUE
    (List.find (fun a => existsb (fun p => bool_decide (dm_action_taken p.2 = a)) active)
       action_priority).

Definition with_details (d : dict) (e : DegradedModeEvent) : DegradedModeEvent :=
  MkDmEvent (dm_event_id e) (dm_mode e) (dm_action_taken e) (entered_at e) (exited_at e)
    (dm_reason e) (dict_update (dm_details e) d) (auto_recovered e).

Definition with_exit (now : Z) (auto : bool) (e : DegradedModeEvent) : DegradedModeEvent :=
  MkDmEvent (dm_event_id e) (dm_mode e) (dm_action_taken e) (entered_at e) (Some now)
    (dm_reason e) (dm_details e) auto.

(** The change of a shared event, in the list of events. *)
Definition touch (id : string) (f : DegradedModeEvent -> DegradedModeEvent)
    (l : list DegradedModeEvent) : list DegradedModeEvent :=
  map (fun e => if bool_decide (dm_event_id e = id) then f e else e) l.

Definition notify (b : bool) (m : DegradedMode) (a : DegradedModeAction) (s : DmState) : DmState :=
  MkDm (dm_config s) (dm_wired s) (dm_modes s) (dm_action s) (dm_events s) (dm_active s)
    (last_cloud_contact s) (last_data_update s) (last_broker_contact s)
    (if b && dm_wired s then dm_calls s ++ [(m, a)] else dm_calls s).

Section Transitions.
Variables (now : Z) (eid : string).

(** [_enter_mode]; every caller passes a mode other than [NORMAL]. *)
Definition enter_mode (m : DegradedMode) (a : DegradedModeAction) (reason : string)
    (details : option dict) (s : DmState) : DmState * DegradedModeEvent :=
  let fresh :=
    let e := MkDmEvent eid m a now None reason (or_empty details) false in
    let active := dset (dm_active s) m e in
    (notify (notify_on_enter (dm_config s)) m a
       (MkDm (dm_config s) (dm_wired s) (set_add m (set_discard NORMAL (dm_modes s)))
          (most_restrictive active) (push_bounded 1000 (dm_events s) e) active
          (last_cloud_contact s) (last_data_update s) (last_broker_contact s) (dm_calls s)), e) in
  if in_mode m s && negb (bool_decide (m = NORMAL)) then
    match dget (dm_active s) m with
    | Some e =>
        let e' := with_details (or_empty details) e in
        (MkDm (dm_config s) (dm_wired s) (dm_modes s) (dm_action s)
           (touch (dm_event_id e) (with_details (or_empty details)) (dm_events s))
           (dset (dm_active s) m e') (last_cloud_contact s) (last_data_update s)
           (last_broker_contact s) (dm_calls s), e')
    | None => fresh
    end
  else fresh.

(** [_exit_mode] *)
Definition exit_mode (m : DegradedMode) (s : DmState) : DmState * option DegradedModeEvent :=
  if negb (in_mode m s) then (s, None)
  else
    let ev := dget (dm_active s) m in
    let f := with_exit now (auto_recover (dm_config s)) in
    let events := match ev with
                  | Some e => touch (dm_event_id e) f (dm_events s)
                  | None => dm_events s
                  end in
    let active := ddel (dm_active s) m in
    let modes := match set_discard m (dm_modes s) with
                 | [] => [NORMAL]
                 | l => l
                 end in
    let s1 := MkDm (dm_config s) (dm_wired s) modes (most_restrictive active) events active
                (last_cloud_contact s) (last_data_update s) (last_broker_contact s) (dm_calls s) in
    (notify (notify_on_exit (dm_config s)) (current_mode s1) (dm_action s1) s1, f <$> ev).
End Transitions.

(** ** Reports *)

Definition set_contacts (cloud data brk : option Z) (s : DmState) : DmState :=
  MkDm (dm_config s) (dm_wired s) (dm_modes s) (dm_action s) (dm_events s) (dm_active s)
    cloud data brk (dm_calls s).

(** [f"... {elapsed:.0f}s"] *)
Definition for_secs (msg : string) (us : Z) : string :=
  msg +:+ float_fixed 0 (float_of_dec (Dec us (-6))) +:+ "s".

Section Reports.
Variables (now : Z) (eid : string).
Local Open Scope string_scope.
Local Open Scope Z_scope.

Definition entered (r : DmState * DegradedModeEvent) : DmState * option DegradedModeEvent :=
  (r.1, Some r.2).

Definition report_cloud_status (connected : bool) (s : DmState) :
    DmState * option DegradedModeEvent :=
  let c := dm_config s in
  if connected then
    exit_mode now CLOUD_UNREACHABLE
      (set_contacts (Some now) (last_data_update s) (last_broker_contact s) s)
  else
    match last_cloud_contact s with
    | Some t =>
        let elapsed := now - t in
        if cloud_timeout_seconds c * sec <? elapsed then
          entered (enter_mode now eid CLOUD_UNREACHABLE (cloud_unreachable_action c)
            (for_secs "Cloud unreachable for " elapsed) (Some [("elapsed_seconds", VSecs elapsed)]) s)
        else (s, None)
    | None =>
        entered (enter_mode now eid CLOUD_UNREACHABLE (cloud_unreachable_action c)
          "Cloud connection not established" None s)
    end.

Definition report_data_feed (last_update : option Z) (is_valid : bool) (s : DmState) :
    DmState * option DegradedModeEvent :=
  let c := dm_config s in
  if negb is_valid then
    entered (enter_mode now eid DATA_FEED_INVALID (data_feed_invalid_action c)
      "Data feed marked as invalid" None s)
  else
    let s1 := (exit_mode now DATA_FEED_INVALID s).1 in
    match last_update with
    | None =>
        entered (enter_mode now eid DATA_FEED_STALE (data_feed_stale_action c)
          "No data feed updates received" None s1)
    | Some t =>
        let s2 := set_contacts (last_cloud_contact s1) (Some t) (last_broker_contact s1) s1 in
        let elapsed := now - t in
        if data_stale_threshold_seconds c * sec <? elapsed then
          entered (enter_mode now eid DATA_FEED_STALE (data_feed_stale_action c)
            (for_secs "Data feed stale for " elapsed) (Some [("elapsed_seconds", VSecs elapsed)]) s2)
        else exit_mode now DATA_FEED_STALE s2
    end.

Definition report_broker_status (connected : bool) (s : DmState) :
    DmState * option DegradedModeEvent :=
  let c := dm_config s in
  if connected then
    exit_mode now BROKER_UNREACHABLE
      (set_contacts (last_cloud_contact s) (last_data_update s) (Some now) s)
  else
    match last_broker_contact s with
    | Some t =>
        let elapsed := now - t in
        if broker_timeout_seconds c * sec <? elapsed then
          entered (enter_mode now eid BROKER_UNREACHABLE (broker_unreachable_action c)
            (for_secs "Broker unreachable for " elapsed) (Some [("elapsed_seconds", VSecs elapsed)]) s)
        else (s, None)
    | None =>
        entered (enter_mode now eid BROKER_UNREACHABLE (broker_unreachable_action c)
          "Broker connection not established" None s)
    end.

Definition report_latency (latency_ms : Z) (s : DmState) : DmState * option DegradedModeEvent :=
  let c := dm_config s in
  if latency_threshold_ms c <? latency_ms then
    entered (enter_mode now eid HIGH_LATENCY (high_latency_action c)
      ("High latency: " +:+ int_str latency_ms +:+ "ms") (Some [("latency_ms", VInt latency_ms)]) s)
  else exit_mode now HIGH_LATENCY s.

Definition enter_manual_restrict (reason : string) (s : DmState) :
    DmState * DegradedModeEvent :=
  enter_mode now eid MANUAL_RESTRICT RESTRICT reason None s.

Definition exit_manual_restrict (s : DmState) : DmState * option DegradedModeEvent :=
  exit_mode now MANUAL_RESTRICT s.

(** One mode of [_check_auto_recovery]. *)
Definition recover_mode (m : DegradedMode) (contact : option Z) (timeout : Z) (s : DmState) :
    DmState :=
  match contact with
  | Some t => if in_mode m s && (now - t <? timeout * sec) then (exit_mode now m s).1 else s
  | None => s
  end.

Definition check_auto_recovery (s : DmState) : DmState :=
  let c := dm_config s in
  recover_mode BROKER_UNREACHABLE (last_broker_contact s) (broker_timeout_seconds c)
    (recover_mode DATA_FEED_STALE (last_data_update s) (data_stale_threshold_seconds c)
       (recover_mode CLOUD_UNREACHABLE (last_cloud_contact s) (cloud_timeout_seconds c) s)).
End Reports.

(** [self._events[-limit:]] *)
Definition get_history (limit : Z) (s : DmState) : list DegradedModeEvent :=
  py_last limit (dm_events s).

(** * Properties of the degraded modes

    An abstract view of [DegradedModeManager]: what the reports say ([Reported]), six
    conditions that hold or do not and the last contacts, without modes, events and
    actions.  Every operation of the manager follows the step of this view, and the
    modes and the action in force are those of the conditions that hold. *)

(** ** Specification *)

(** How much an action restricts trading. *)
Definition restriction (a : DegradedModeAction) : Z :=
  match a with
  | CONTINUE => 0
  | RESTRICT => 1
  | CLOSE_ONLY => 2
  | PAUSE => 3
  | HALT => 4
  end.

(** The action configured for each condition; the overrides for live trading and the cloud
    ([get_cloud_unreachable_action]) are not among them, see [live_cloud_policy_ignored]. *)
Definition mode_action (c : DegradedModeConfig) (m : DegradedMode) : DegradedModeAction :=
  match m with
  | CLOUD_UNREACHABLE => cloud_unreachable_action c
  | DATA_FEED_STALE => data_feed_stale_action c
  | DATA_FEED_INVALID => data_feed_invalid_action c
  | BROKER_UNREACHABLE => broker_unreachable_action c
  | HIGH_LATENCY => high_latency_action c
  | MANUAL_RESTRICT => RESTRICT
  | _ => CONTINUE
  end.

(** The correspondence: the modes are the keys of the active events, or [NORMAL]
    when there is none; each active event takes the action configured for its
    mode; the action in force is the most restrictive of them. *)
Record dm_wf (s : DmState) : Prop := {
  dw_nodup : NoDup (dm_modes s);
  dw_keys : NoDup (dm_active s).*1;
  dw_normal : NORMAL ∈ dm_modes s <-> dm_active s = [];
  dw_modes : forall m, m <> NORMAL -> m ∈ dm_modes s <-> m ∈ (dm_active s).*1;
  dw_active : forall m e, (m, e) ∈ dm_active s ->
    m <> NORMAL /\ dm_action_taken e = mode_action (dm_config s) m /\ is_active e = true;
  dw_action : dm_action s = most_restrictive (dm_active s);
  dw_events : Z.of_nat (List.length (dm_events s)) <= 1000
}.

(** ** Sets of modes *)

Lemma elem_set_add m x l : x ∈ set_add m l <-> x ∈ l \/ x = m.
Proof.
  unfold set_add. destruct (decide (m ∈ l)) as [Hin|Hin].
  - split; [by left|]. by intros [?| ->].
  - rewrite elem_of_app, list_elem_of_singleton. done.
Qed.

Lemma elem_set_discard m x l : x ∈ set_discard m l <-> x ∈ l /\ x <> m.
Proof.
  unfold set_discard. rewrite list_elem_of_In, filter_In, <- list_elem_of_In.
  rewrite negb_true_iff, bool_decide_eq_false. done.
Qed.

Lemma NoDup_set_add m l : NoDup l -> NoDup (set_add m l).
Proof.
  intros Hn. unfold set_add. destruct (decide (m ∈ l)) as [|Hni]; [done|].
  apply NoDup_app. split_and!; [done| |apply NoDup_singleton].
  by intros x Hx ->%list_elem_of_singleton.
Qed.

Lemma NoDup_set_discard m l : NoDup l -> NoDup (set_discard m l).
Proof.
  intros Hn. unfold set_discard. induction Hn as [|x l Hx Hn IH]; cbn; [constructor|].
  destruct (negb _); [|done]. constructor; [|done].
  intros Hin. apply Hx. by apply (elem_set_discard m) in Hin as [? _].
Qed.

Lemma elem_dset_pair {V} (d : list (DegradedMode * V)) m v x w :
  NoDup d.*1 -> (x, w) ∈ dset d m v -> (x = m /\ w = v) \/ (x <> m /\ (x, w) ∈ d).
Proof. intros Hn [[= -> ->]|[? ?]]%elem_dset_key; [by left|by right|done]. Qed.

Lemma dset_not_nil {V} (d : list (DegradedMode * V)) m v : dset d m v <> [].
Proof. destruct d as [|[k w] d]; cbn; [done|]. by destruct (decide (m = k)). Qed.

(** ** The most restrictive action *)

Lemma most_restrictive_spec active :
  (forall m e, (m, e) ∈ active ->
     restriction (dm_action_taken e) <= restriction (most_restrictive active)) /\
  (most_restrictive active = CONTINUE \/
   exists m e, (m, e) ∈ active /\ dm_action_taken e = most_restrictive active).
Proof.
  assert (forall a, existsb (fun p => bool_decide (dm_action_taken p.2 = a)) active = false ->
    forall m e, (m, e) ∈ active -> dm_action_taken e <> a) as Hno.
  { intros a Ha m e Hin Heq. rewrite existsb_false in Ha. specialize (Ha _ Hin). cbn in Ha.
    by bool_to_prop. }
  assert (forall a, existsb (fun p => bool_decide (dm_action_taken p.2 = a)) active = true ->
    exists m e, (m, e) ∈ active /\ dm_action_taken e = a) as Hyes.
  { intros a Ha. apply existsb_exists in Ha as ([m e] & Hin & Ha). rewrite <- list_elem_of_In in Hin.
    exists m, e. split; [done|]. by apply bool_decide_eq_true in Ha. }
  unfold most_restrictive, action_priority. cbn [List.find].
  repeat match goal with
  | |- context [if ?b then Some ?a else _] =>
      destruct b eqn:?; cbn [default List.find]
  end.
  all: split; [|try (by left); right; by apply Hyes].
  all: intros m e Hin; destruct (dm_action_taken e) eqn:E; cbn; try lia.
  all: exfalso; eapply Hno; [|exact Hin|exact E]; done.
Qed.

(** ** The operations preserve the correspondence *)

Lemma notify_wf b m a s : dm_wf s -> dm_wf (notify b m a s).
Proof. intros []. by split. Qed.

Lemma set_contacts_wf x y z s : dm_wf s -> dm_wf (set_contacts x y z s).
Proof. intros []. by split. Qed.

Lemma length_touch id f l : List.length (touch id f l) = List.length l.
Proof. apply length_map. Qed.

Lemma most_restrictive_same (l l' : list (DegradedMode * DegradedModeEvent)) :
  map (dm_action_taken ∘ snd) l = map (dm_action_taken ∘ snd) l' ->
  most_restrictive l = most_restrictive l'.
Proof.
  intros Hl. unfold most_restrictive.
  assert (forall a, existsb (fun p => bool_decide (dm_action_taken p.2 = a)) l
    = existsb (fun p => bool_decide (dm_action_taken p.2 = a)) l') as He.
  { intros a. revert l' Hl. induction l as [|[m e] l IH]; intros [|[m' e'] l'] Hl; try done.
    cbn in *. injection Hl as He Hl. rewrite He. f_equal. by apply IH. }
  unfold action_priority. cbn [List.find]. by rewrite !He.
Qed.

Lemma dset_same_action (active : list (DegradedMode * DegradedModeEvent)) m (e e' : DegradedModeEvent) :
  dget active m = Some e -> dm_action_taken e' = dm_action_taken e ->
  map (dm_action_taken ∘ snd) (dset active m e') = map (dm_action_taken ∘ snd) active.
Proof.
  induction active as [|[m0 e0] l IH]; cbn; [done|]. destruct (decide (m = m0)) as [->|Hne].
  - intros [= ->] Ha. cbn. by rewrite Ha.
  - intros Hg Ha. cbn. by rewrite IH.
Qed.

Lemma enter_mode_wf now eid m reason d s :
  m <> NORMAL -> dm_wf s ->
  dm_wf (enter_mode now eid m (mode_action (dm_config s) m) reason d s).1.
Proof.
  intros Hm Hw. pose proof Hw as [H1 H2 H3 H4 H5 H6 H7]. unfold enter_mode.
  set (e := MkDmEvent _ _ _ _ _ _ _ _).
  assert (dm_wf (notify (notify_on_enter (dm_config s)) m (mode_action (dm_config s) m)
    (MkDm (dm_config s) (dm_wired s) (set_add m (set_discard NORMAL (dm_modes s)))
       (most_restrictive (dset (dm_active s) m e)) (push_bounded 1000 (dm_events s) e)
       (dset (dm_active s) m e) (last_cloud_contact s) (last_data_update s)
       (last_broker_contact s) (dm_calls s)))) as Hfresh.
  { apply notify_wf. split; cbn [dm_modes dm_active dm_action dm_events dm_config].
    - by apply NoDup_set_add, NoDup_set_discard.
    - by apply NoDup_dset.
    - rewrite elem_set_add, elem_set_discard. split; [|by intros ?%dset_not_nil].
      intros [[_ ?]|<-]; done.
    - intros m' Hm'. rewrite elem_set_add, elem_set_discard, elem_keys_dset, H4 by done. tauto.
    - intros m' e' [[-> ->]|[_ Hin]]%elem_dset_pair; [|by apply H5|done]. by split_and!.
    - done.
    - by apply push_bounded_length. }
  destruct (in_mode m s && negb (bool_decide (m = NORMAL))); [|exact Hfresh].
  destruct (dget (dm_active s) m) as [e0|] eqn:Eg; [|exact Hfresh].
  assert ((dset (dm_active s) m (with_details (or_empty d) e0)).*1 = (dm_active s).*1) as Hk.
  { apply dset_keys_present. by rewrite Eg. }
  split; cbn [fst dm_modes dm_active dm_action dm_events dm_config].
  - done.
  - by rewrite Hk.
  - rewrite H3. split; [intros Hn; by rewrite Hn in Eg|by intros ?%dset_not_nil].
  - intros m' Hm'. by rewrite Hk, H4.
  - intros m' e' [[-> ->]|[_ Hin]]%elem_dset_pair; [|by apply H5|done].
    apply dget_elem in Eg. by apply (H5 m e0).
  - rewrite H6. symmetry. apply most_restrictive_same. by apply (dset_same_action _ _ e0).
  - by rewrite length_touch.
Qed.

Lemma exit_mode_wf now m s : m <> NORMAL -> dm_wf s -> dm_wf (exit_mode now m s).1.
Proof.
  intros Hm Hw. pose proof Hw as [H1 H2 H3 H4 H5 H6 H7]. unfold exit_mode.
  destruct (negb (in_mode m s)) eqn:Ein; [done|].
  apply negb_false_iff in Ein. unfold in_mode in Ein. bool_to_prop. cbn [fst]. apply notify_wf.
  assert (NORMAL ∉ dm_modes s) as Hnn.
  { rewrite H3. intros Hn. apply H4 in Ein; [|done]. rewrite Hn in Ein. by apply not_elem_of_nil in Ein. }
  assert (forall x, x ∈ set_discard m (dm_modes s) <-> x ∈ (ddel (dm_active s) m).*1) as Hx.
  { intros x. rewrite elem_set_discard, elem_keys_ddel. split; intros [Hi Hne]; split; try done.
    - apply H4; [intros ->|]; done.
    - apply H4; [|done]. intros ->. apply list_elem_of_fmap in Hi as ([x e] & Hx & Hi).
      cbn in Hx. subst x. by apply H5 in Hi as [? _]. }
  assert (set_discard m (dm_modes s) = [] <-> ddel (dm_active s) m = []) as Hnil.
  { split; intros Hn.
    - destruct (ddel (dm_active s) m) as [|[x e] l]; [done|]. exfalso.
      apply (not_elem_of_nil x). rewrite <- Hn. apply Hx. by left.
    - destruct (set_discard m (dm_modes s)) as [|x l]; [done|]. exfalso.
      apply (not_elem_of_nil (A := DegradedMode) x).
      change [] with (@nil (DegradedMode * DegradedModeEvent)).*1. rewrite <- Hn. apply Hx. by left. }
  split; cbn [dm_modes dm_active dm_action dm_events dm_config].
  - destruct (set_discard m (dm_modes s)) eqn:E; [apply NoDup_singleton|]. rewrite <- E.
    by apply NoDup_set_discard.
  - by apply NoDup_ddel.
  - destruct (set_discard m (dm_modes s)) eqn:E.
    + split; [intros _; by apply Hnil|intros _; by left].
    + rewrite <- E, elem_set_discard. split; [tauto|]. intros Hn. apply Hnil in Hn. congruence.
  - intros x Hxn. destruct (set_discard m (dm_modes s)) eqn:E.
    + rewrite (proj1 Hnil eq_refl). split; intros Hi; [by apply list_elem_of_singleton in Hi|].
      by apply not_elem_of_nil in Hi.
    + rewrite <- E. rewrite E. apply Hx.
  - intros x e Hi. apply elem_ddel in Hi as [Hi _]. by apply H5.
  - done.
  - destruct (dget (dm_active s) m); [by rewrite length_touch|done].
Qed.

Inductive dm_op :=
  | DCloud (now : Z) (eid : string) (connected : bool)
  | DData (now : Z) (eid : string) (last_update : option Z) (is_valid : bool)
  | DBroker (now : Z) (eid : string) (connected : bool)
  | DLatency (now : Z) (eid : string) (ms : Z)
  | DEnterManual (now : Z) (eid reason : string)
  | DExitManual (now : Z)
  | DRecover (now : Z).

Definition dm_step (s : DmState) (op : dm_op) : DmState :=
  match op with
  | DCloud now eid b => (report_cloud_status now eid b s).1
  | DData now eid t b => (report_data_feed now eid t b s).1
  | DBroker now eid b => (report_broker_status now eid b s).1
  | DLatency now eid ms => (report_latency now eid ms s).1
  | DEnterManual now eid r => (enter_manual_restrict now eid r s).1
  | DExitManual now => (exit_manual_restrict now s).1
  | DRecover now => check_auto_recovery now s
  end.

Definition dm_run (s : DmState) (ops : list dm_op) : DmState := fold_left dm_step ops s.

Lemma enter_config now eid m a r d s : dm_config (enter_mode now eid m a r d s).1 = dm_config s.
Proof. unfold enter_mode. destruct (_ && _); [destruct (dget _ _)|]; done. Qed.

Lemma exit_config now m s : dm_config (exit_mode now m s).1 = dm_config s.
Proof. unfold exit_mode. by destruct (negb _). Qed.

Lemma recover_mode_wf now m c t s :
  m <> NORMAL -> dm_wf s ->
  dm_wf (recover_mode now m c t s) /\ dm_config (recover_mode now m c t s) = dm_config s.
Proof.
  intros Hm Hw. unfold recover_mode. destruct c as [t0|]; [|done]. destruct (_ && _); [|done].
  split; [by apply exit_mode_wf|apply exit_config].
Qed.

Lemma dm_step_wf s op : dm_wf s -> dm_wf (dm_step s op) /\ dm_config (dm_step s op) = dm_config s.
Proof.
  intros Hw.
  assert (forall now eid m r d, m <> NORMAL ->
    dm_wf (enter_mode now eid m (mode_action (dm_config s) m) r d s).1 /\
    dm_config (enter_mode now eid m (mode_action (dm_config s) m) r d s).1 = dm_config s) as He.
  { intros. split; [by apply enter_mode_wf|apply enter_config]. }
  destruct op as [now eid b|now eid t b|now eid b|now eid ms|now eid r|now|now]; cbn [dm_step].
  - unfold report_cloud_status. destruct b.
    + split; [by apply exit_mode_wf, set_contacts_wf|].
      etrans; [apply exit_config|done].
    + destruct (last_cloud_contact s); [destruct (_ <? _); [|done]|]; by apply (He _ _ CLOUD_UNREACHABLE).
  - unfold report_data_feed. destruct b; cbn [negb]; [|by apply (He _ _ DATA_FEED_INVALID)].
    pose proof (exit_mode_wf now DATA_FEED_INVALID s ltac:(done) Hw) as Hw1.
    pose proof (exit_config now DATA_FEED_INVALID s) as Hc1.
    set (s1 := (exit_mode now DATA_FEED_INVALID s).1) in *. destruct t as [t|].
    + pose proof (set_contacts_wf (last_cloud_contact s1) (Some t) (last_broker_contact s1) s1 Hw1) as Hw2.
      destruct (_ <? _).
      * cbn [entered fst]. rewrite <- Hc1. split; [|etrans; [apply enter_config|done]].
        by apply (enter_mode_wf now eid DATA_FEED_STALE _ _ (set_contacts _ _ _ s1)).
      * rewrite <- Hc1. split; [by apply exit_mode_wf|]. etrans; [apply exit_config|done].
    + cbn [entered fst]. rewrite <- Hc1. split; [|apply enter_config].
      by apply (enter_mode_wf now eid DATA_FEED_STALE _ _ s1).
  - unfold report_broker_status. destruct b.
    + split; [by apply exit_mode_wf, set_contacts_wf|].
      etrans; [apply exit_config|done].
    + destruct (last_broker_contact s); [destruct (_ <? _); [|done]|];
        by apply (He _ _ BROKER_UNREACHABLE).
  - unfold report_latency. destruct (_ <? _); [by apply (He _ _ HIGH_LATENCY)|].
    split; [by apply exit_mode_wf|apply exit_config].
  - by apply (He _ _ MANUAL_RESTRICT).
  - split; [by apply exit_mode_wf|apply exit_config].
  - unfold check_auto_recovery.
    destruct (recover_mode_wf now CLOUD_UNREACHABLE (last_cloud_contact s)
      (cloud_timeout_seconds (dm_config s)) s ltac:(done) Hw) as [Hw1 Hc1].
    set (s1 := recover_mode _ CLOUD_UNREACHABLE _ _ s) in *.
    destruct (recover_mode_wf now DATA_FEED_STALE (last_data_update s)
      (data_stale_threshold_seconds (dm_config s)) s1 ltac:(done) Hw1) as [Hw2 Hc2].
    set (s2 := recover_mode _ DATA_FEED_STALE _ _ s1) in *.
    destruct (recover_mode_wf now BROKER_UNREACHABLE (last_broker_contact s)
      (broker_timeout_seconds (dm_config s)) s2 ltac:(done) Hw2) as [Hw3 Hc3].
    split; [done|congruence].
Qed.

Lemma dm_run_wf s ops : dm_wf s -> dm_wf (dm_run s ops) /\ dm_config (dm_run s ops) = dm_config s.
Proof.
  revert s. induction ops as [|op ops IH]; intros s Hw; [done|].
  destruct (dm_step_wf s op Hw) as [Hw1 Hc1]. destruct (IH _ Hw1) as [Hw2 Hc2].
  split; [done|]. etrans; [exact Hc2|done].
Qed.

Lemma new_degraded_wf config wired : dm_wf (new_degraded config wired).
Proof.
  split; cbn; try done.
  - apply NoDup_singleton.
  - constructor.
  - split; [done|]. intros _. by left.
  - intros m Hm. split; intros Hi; [by apply list_elem_of_singleton in Hi|by apply not_elem_of_nil in Hi].
  - intros m e Hi. by apply not_elem_of_nil in Hi.
Qed.

(** ** What the reports say *)

(** The conditions, and when the cloud, the data and the broker were last heard of. *)
Record Reported := MkReported {
  cloud_lost : bool;
  feed_stale : bool;
  feed_invalid : bool;
  broker_lost : bool;
  too_slow : bool;
  restricted : bool;
  cloud_seen : option Z;
  data_seen : option Z;
  broker_seen : option Z
}.

Definition nothing_reported : Reported :=
  MkReported false false false false false false None None None.

Definition overdue (now timeout : Z) (seen : option Z) : bool :=
  match seen with
  | Some t => t + timeout * sec <? now
  | None => true
  end.

Definition recent (now timeout : Z) (seen : option Z) : bool :=
  match seen with
  | Some t => now <? t + timeout * sec
  | None => false
  end.

(** What a report, or a look at the clock ([DRecover]), says. *)
Definition hear (c : DegradedModeConfig) (r : Reported) (op : dm_op) : Reported :=
  let '(MkReported cl st inv br slow man sc sd sb) := r in
  match op with
  | DCloud now _ true => MkReported false st inv br slow man (Some now) sd sb
  | DCloud now _ false =>
      MkReported (cl || overdue now (cloud_timeout_seconds c) sc) st inv br slow man sc sd sb
  | DData _ _ _ false => MkReported cl st true br slow man sc sd sb
  | DData now _ None true => MkReported cl true false br slow man sc sd sb
  | DData now _ (Some t) true =>
      MkReported cl (overdue now (data_stale_threshold_seconds c) (Some t)) false br slow man sc (Some t) sb
  | DBroker now _ true => MkReported cl st inv false slow man sc sd (Some now)
  | DBroker now _ false =>
      MkReported cl st inv (br || overdue now (broker_timeout_seconds c) sb) slow man sc sd sb
  | DLatency _ _ ms => MkReported cl st inv br (latency_threshold_ms c <? ms) man sc sd sb
  | DEnterManual _ _ _ => MkReported cl st inv br slow true sc sd sb
  | DExitManual _ => MkReported cl st inv br slow false sc sd sb
  | DRecover now =>
      MkReported (cl && negb (recent now (cloud_timeout_seconds c) sc))
        (st && negb (recent now (data_stale_threshold_seconds c) sd)) inv
        (br && negb (recent now (broker_timeout_seconds c) sb)) slow man sc sd sb
  end.

Definition reported (c : DegradedModeConfig) (ops : list dm_op) : Reported :=
  fold_left (hear c) ops nothing_reported.

Definition holds (r : Reported) (m : DegradedMode) : bool :=
  match m with
  | CLOUD_UNREACHABLE => cloud_lost r
  | DATA_FEED_STALE => feed_stale r
  | DATA_FEED_INVALID => feed_invalid r
  | BROKER_UNREACHABLE => broker_lost r
  | HIGH_LATENCY => too_slow r
  | MANUAL_RESTRICT => restricted r
  | _ => false
  end.

(** The manager shows what the reports say. *)
Definition shows (s : DmState) (r : Reported) : Prop :=
  (forall m, m <> NORMAL -> m ∈ dm_modes s <-> holds r m = true) /\
  last_cloud_contact s = cloud_seen r /\ last_data_update s = data_seen r /\
  last_broker_contact s = broker_seen r.

Lemma enter_modes now eid m a reason d s x :
  x <> NORMAL -> x ∈ dm_modes (enter_mode now eid m a reason d s).1 <-> x = m \/ x ∈ dm_modes s.
Proof.
  intros Hx. unfold enter_mode. destruct (in_mode m s && negb (bool_decide (m = NORMAL))) eqn:E;
    [destruct (dget (dm_active s) m)|]; cbn [fst dm_modes notify];
    rewrite ?elem_set_add, ?elem_set_discard; [|tauto..].
  apply andb_true_iff in E as [E _]. unfold in_mode in E. bool_to_prop.
  split; [by right|]. by intros [-> |?].
Qed.

Lemma exit_modes now m s x :
  x <> NORMAL -> x ∈ dm_modes (exit_mode now m s).1 <-> x <> m /\ x ∈ dm_modes s.
Proof.
  intros Hx. unfold exit_mode. destruct (in_mode m s) eqn:E; unfold in_mode in E; bool_to_prop;
    cbn [negb fst dm_modes notify].
  - pose proof (elem_set_discard m x (dm_modes s)) as Hd. destruct (set_discard m (dm_modes s)) eqn:El.
    + rewrite list_elem_of_singleton. split; [done|]. intros [Hne Hin].
      exfalso. apply (not_elem_of_nil x). tauto.
    + tauto.
  - split; [|by intros [_ ?]]. intros Hin. split; [by intros ->|done].
Qed.

Lemma enter_contacts now eid m a reason d s :
  let s' := (enter_mode now eid m a reason d s).1 in
  last_cloud_contact s' = last_cloud_contact s /\ last_data_update s' = last_data_update s /\
  last_broker_contact s' = last_broker_contact s.
Proof. unfold enter_mode. destruct (_ && _); [destruct (dget _ _)|]; done. Qed.

Lemma exit_contacts now m s :
  let s' := (exit_mode now m s).1 in
  last_cloud_contact s' = last_cloud_contact s /\ last_data_update s' = last_data_update s /\
  last_broker_contact s' = last_broker_contact s.
Proof. unfold exit_mode. by destruct (negb _). Qed.

(** Entering and leaving a mode sets one condition. *)
Lemma shows_enter now eid m a reason d s r r' :
  shows s r -> m <> NORMAL ->
  (forall x, holds r' x = if bool_decide (x = m) then true else holds r x) ->
  cloud_seen r' = cloud_seen r -> data_seen r' = data_seen r -> broker_seen r' = broker_seen r ->
  shows (enter_mode now eid m a reason d s).1 r'.
Proof.
  intros (Hs & Hc & Hd & Hb) Hm Hr Kc Kd Kb.
  destruct (enter_contacts now eid m a reason d s) as (Ec & Ed & Eb).
  split_and!; [|congruence..]. intros x Hx. rewrite enter_modes, Hr by done.
  case_bool_decide; [naive_solver|]. rewrite Hs by done. naive_solver.
Qed.

Lemma shows_exit now m s r r' :
  shows s r -> m <> NORMAL ->
  (forall x, holds r' x = if bool_decide (x = m) then false else holds r x) ->
  cloud_seen r' = cloud_seen r -> data_seen r' = data_seen r -> broker_seen r' = broker_seen r ->
  shows (exit_mode now m s).1 r'.
Proof.
  intros (Hs & Hc & Hd & Hb) Hm Hr Kc Kd Kb.
  destruct (exit_contacts now m s) as (Ec & Ed & Eb).
  split_and!; [|congruence..]. intros x Hx. rewrite exit_modes, Hr by done.
  case_bool_decide; [naive_solver|]. rewrite Hs by done. naive_solver.
Qed.

Lemma shows_same s r r' :
  shows s r -> (forall x, holds r' x = holds r x) ->
  cloud_seen r' = cloud_seen r -> data_seen r' = data_seen r -> broker_seen r' = broker_seen r ->
  shows s r'.
Proof.
  intros (Hs & Hc & Hd & Hb) Hr Kc Kd Kb. split_and!; [|congruence..].
  intros x Hx. by rewrite Hr, Hs.
Qed.

Lemma shows_contacts s r cl st inv br slow man sc sd sb :
  shows s (MkReported cl st inv br slow man (cloud_seen r) (data_seen r) (broker_seen r)) ->
  shows (set_contacts sc sd sb s) (MkReported cl st inv br slow man sc sd sb).
Proof. intros (Hs & _). by split. Qed.

Lemma overdue_elapsed now t timeout : (timeout * sec <? now - t) = overdue now timeout (Some t).
Proof. cbn. destruct (Z.ltb_spec (timeout * sec) (now - t)), (Z.ltb_spec (t + timeout * sec) now); lia. Qed.

Lemma recent_elapsed now t timeout : (now - t <? timeout * sec) = recent now timeout (Some t).
Proof. cbn. destruct (Z.ltb_spec (now - t) (timeout * sec)), (Z.ltb_spec now (t + timeout * sec)); lia. Qed.

(** Recovery of one mode. *)
Lemma shows_recover now m seen timeout s r r' :
  shows s r -> m <> NORMAL ->
  (forall x, holds r' x = if bool_decide (x = m) then holds r x && negb (recent now timeout seen) else holds r x) ->
  cloud_seen r' = cloud_seen r -> data_seen r' = data_seen r -> broker_seen r' = broker_seen r ->
  shows (recover_mode now m seen timeout s) r'.
Proof.
  intros Hs Hm Hr Kc Kd Kb. unfold recover_mode. destruct seen as [t|].
  - rewrite recent_elapsed. destruct (recent now timeout (Some t)) eqn:E.
    + rewrite andb_true_r. destruct (in_mode m s) eqn:Ei.
      * apply (shows_exit _ _ _ r); try done. intros x. rewrite Hr. cbn [negb]. by rewrite andb_false_r.
      * unfold in_mode in Ei. bool_to_prop. apply (shows_same _ r); try done. intros x. rewrite Hr.
        case_bool_decide as Ex; [|done]. subst x. cbn [negb]. rewrite andb_false_r.
        destruct Hs as (Hs & _). symmetry. apply not_true_iff_false. by rewrite <- Hs.
    + rewrite andb_false_r. apply (shows_same _ r); try done. intros x. rewrite Hr. cbn [negb].
      rewrite andb_true_r. by case_bool_decide.
  - apply (shows_same _ r); try done. intros x. rewrite Hr. cbn. rewrite andb_true_r. by case_bool_decide.
Qed.

Lemma if_fst {A B} (b : bool) (x y : A * B) : (if b then x else y).1 = if b then x.1 else y.1.
Proof. by destruct b. Qed.

Lemma shows_report now eid m a reason d s r r' b :
  shows s r -> m <> NORMAL ->
  (forall x, holds r' x = if bool_decide (x = m) then holds r x || b else holds r x) ->
  cloud_seen r' = cloud_seen r -> data_seen r' = data_seen r -> broker_seen r' = broker_seen r ->
  shows (if b then (entered (enter_mode now eid m a reason d s)).1 else s) r'.
Proof.
  intros Hs Hm Hr Kc Kd Kb. destruct b.
  - apply (shows_enter _ _ _ _ _ _ _ r); try done. intros x. by rewrite Hr, orb_true_r.
  - apply (shows_same _ r); try done. intros x. rewrite Hr, orb_false_r. by case_bool_decide.
Qed.

Lemma shows_step s r op : shows s r -> shows (dm_step s op) (hear (dm_config s) r op).
Proof.
  intros Hs. pose proof Hs as (_ & Kc & Kd & Kb). destruct r as [cl st inv br slow man sc sd sb].
  cbn [cloud_seen data_seen broker_seen] in *.
  destruct op as [now eid b|now eid t b|now eid b|now eid ms|now eid why|now|now]; cbn [dm_step hear].
  - unfold report_cloud_status. rewrite Kc, Kd, Kb. destruct b.
    + eapply shows_exit; [by apply (shows_contacts _ (MkReported cl st inv br slow man sc sd sb))|done| |done..].
      by intros [].
    + destruct sc as [t|]; rewrite ?overdue_elapsed.
      * rewrite if_fst. eapply shows_report; [exact Hs|done| |done..]. by intros [].
      * eapply shows_enter; [exact Hs|done| |done..]. intros []; try done. cbn. apply orb_true_r.
  - unfold report_data_feed. destruct b; cbn [negb].
    + assert (shows (exit_mode now DATA_FEED_INVALID s).1 (MkReported cl st false br slow man sc sd sb)) as Hs1.
      { eapply shows_exit; [exact Hs|done| |done..]. by intros []. }
      destruct t as [t|].
      * pose proof Hs1 as (_ & Kc1 & _ & Kb1). cbn [cloud_seen broker_seen] in *. rewrite Kc1, Kb1.
        pose proof (shows_contacts _ (MkReported cl st false br slow man sc sd sb) _ _ _ _ _ _ sc (Some t) sb Hs1) as Hs2.
        rewrite overdue_elapsed. destruct (overdue now _ (Some t)) eqn:E.
        -- eapply shows_enter; [exact Hs2|done| |done..]. by intros [].
        -- eapply shows_exit; [exact Hs2|done| |done..]. by intros [].
      * eapply shows_enter; [exact Hs1|done| |done..]. by intros [].
    + destruct t; (eapply shows_enter; [exact Hs|done| |done..]; by intros []).
  - unfold report_broker_status. rewrite Kc, Kd, Kb. destruct b.
    + eapply shows_exit; [by apply (shows_contacts _ (MkReported cl st inv br slow man sc sd sb))|done| |done..].
      by intros [].
    + destruct sb as [t|]; rewrite ?overdue_elapsed.
      * rewrite if_fst. eapply shows_report; [exact Hs|done| |done..]. by intros [].
      * eapply shows_enter; [exact Hs|done| |done..]. intros []; try done. cbn. apply orb_true_r.
  - unfold report_latency. destruct (_ <? ms).
    + eapply shows_enter; [exact Hs|done| |done..]. by intros [].
    + eapply shows_exit; [exact Hs|done| |done..]. by intros [].
  - eapply shows_enter; [exact Hs|done| |done..]. by intros [].
  - eapply shows_exit; [exact Hs|done| |done..]. by intros [].
  - unfold check_auto_recovery. rewrite Kc, Kd, Kb.
    set (r1 := MkReported (cl && negb (recent now (cloud_timeout_seconds (dm_config s)) sc)) st inv br slow man sc sd sb).
    set (r2 := MkReported (cloud_lost r1) (st && negb (recent now (data_stale_threshold_seconds (dm_config s)) sd))
      inv br slow man sc sd sb).
    eapply (shows_recover _ _ _ _ _ r2); [|done|by intros []|done..].
    eapply (shows_recover _ _ _ _ _ r1); [|done|by intros []|done..].
    eapply shows_recover; [exact Hs|done|by intros []|done..].
Qed.

Lemma run_follows config wired ops :
  let s := dm_run (new_degraded (Some config) wired) ops in shows s (reported config ops).
Proof.
  cbn zeta. induction ops as [|op ops IH] using rev_ind.
  - split_and!; [|done..]. intros m Hm. cbn. rewrite list_elem_of_singleton. by destruct m.
  - unfold dm_run, reported in *. rewrite !fold_left_app. cbn [fold_left].
    destruct (dm_run_wf _ ops (new_degraded_wf (Some config) wired)) as [_ Hc].
    apply (shows_step _ _ op) in IH. unfold dm_run in Hc. by rewrite Hc in IH.
Qed.

(** ** The modes and the action of a manager *)

Lemma normal_alone s : dm_wf s -> NORMAL ∈ dm_modes s <-> forall m, m ∈ dm_modes s -> m = NORMAL.
Proof.
  intros [H1 H2 H3 H4 H5 H6 H7]. split.
  - intros Hin m Hm. destruct (decide (m = NORMAL)) as [|Hne]; [done|]. apply H4 in Hm; [|done].
    rewrite (proj1 H3 Hin) in Hm. by apply not_elem_of_nil in Hm.
  - intros Hall. apply H3. destruct (dm_active s) as [|[m e] l] eqn:E; [done|]. exfalso.
    assert (m <> NORMAL) as Hne by (apply (H5 m e); by left).
    apply Hne, Hall, H4; [done|]. by left.
Qed.

Lemma degraded_normal s : dm_wf s -> is_degraded s = true <-> NORMAL ∉ dm_modes s.
Proof.
  intros Hw. unfold is_degraded. rewrite negb_true_iff, bool_decide_eq_false.
  enough (dm_modes s = [NORMAL] <-> NORMAL ∈ dm_modes s) as -> by done. split.
  - intros ->. by left.
  - intros Hin. pose proof (proj1 (normal_alone s Hw) Hin) as Honly.
    pose proof (dw_nodup s Hw) as Hn. destruct (dm_modes s) as [|x [|y l]]; [by apply not_elem_of_nil in Hin| |].
    + f_equal. apply Honly. by left.
    + exfalso. apply NoDup_cons in Hn as [Hni _]. apply Hni.
      rewrite (Honly x), <- (Honly y) by (left || (right; left)). by left.
Qed.

Lemma action_spec s : dm_wf s ->
  (forall m, m ∈ dm_modes s -> restriction (mode_action (dm_config s) m) <= restriction (dm_action s)) /\
  (NORMAL ∈ dm_modes s -> dm_action s = CONTINUE) /\
  (NORMAL ∉ dm_modes s ->
   exists m, m ∈ dm_modes s /\ m <> NORMAL /\ mode_action (dm_config s) m = dm_action s).
Proof.
  intros [H1 H2 H3 H4 H5 H6 H7].
  destruct (most_restrictive_spec (dm_active s)) as [Hmax Hex]. rewrite <- H6 in Hmax, Hex.
  assert (forall m e, (m, e) ∈ dm_active s -> m ∈ dm_modes s) as Hin.
  { intros m e He. apply H4; [by apply (H5 m e)|]. apply list_elem_of_fmap. by exists (m, e). }
  split_and!.
  - intros m Hm. destruct (decide (m = NORMAL)) as [->|Hne].
    + cbn. by destruct (dm_action s).
    + apply H4 in Hm; [|done]. apply list_elem_of_fmap in Hm as ([x e] & Hx & He).
      cbn in Hx. subst x. destruct (H5 _ _ He) as (_ & <- & _). by apply (Hmax m).
  - intros Hn. apply H3 in Hn. rewrite H6, Hn. done.
  - intros Hn. destruct Hex as [Hc|(m & e & He & Ha)].
    + destruct (dm_active s) as [|[m e] l] eqn:E; [by destruct Hn; apply H3|].
      assert ((m, e) ∈ (m, e) :: l) as He by (by left).
      exists m. destruct (H5 m e He) as (Hne & Ha & _). split_and!; [by apply (Hin m e)|done|].
      rewrite <- Ha. specialize (Hmax m e He). rewrite Hc in *. by destruct (dm_action_taken e).
    + exists m. destruct (H5 m e He) as (Hne & Ha' & _). split_and!; [by apply (Hin m e)|done|congruence].
Qed.

(** ** Properties *)


(** Reporting a failure takes effect at once. When the data feed is reported
    invalid, or the broker unreachable beyond its timeout or never reached, the
    mode is entered and the action in force is at least the configured one; a
    halt or a pause blocks new orders and closing alike. *)
Theorem failures_take_effect config wired ops now eid :
  let s := dm_run (new_degraded (Some config) wired) ops in
  (let s' := (report_data_feed now eid None false s).1 in
   DATA_FEED_INVALID ∈ dm_modes s' /\
   restriction (data_feed_invalid_action config) <= restriction (dm_action s')) /\
  ((forall t, last_broker_contact s = Some t -> t + broker_timeout_seconds config * sec < now) ->
   let s' := (report_broker_status now eid false s).1 in
   BROKER_UNREACHABLE ∈ dm_modes s' /\
   restriction (broker_unreachable_action config) <= restriction (dm_action s')) /\
  (is_paused s = true -> can_submit_order s = false /\ can_close_position s = false) /\
  (can_submit_order s = true -> can_close_position s = true).
Proof.
  intros s. pose proof (dm_run_wf _ ops (new_degraded_wf (Some config) wired)) as [Hw Hc].
  fold s in Hw, Hc. change (dm_config s = config) in Hc. clearbody s.
  assert (forall m r d, m <> NORMAL ->
    let s' := (enter_mode now eid m (mode_action config m) r d s).1 in
    m ∈ dm_modes s' /\ restriction (mode_action config m) <= restriction (dm_action s')) as He.
  { intros m r d Hm s'. pose proof (enter_mode_wf now eid m r d s Hm Hw) as Hw'.
    pose proof (enter_config now eid m (mode_action config m) r d s) as Hc'.
    rewrite Hc in Hw'. fold s' in Hw', Hc'.
    assert (m ∈ dm_modes s') as Hin.
    { unfold s', enter_mode. destruct (in_mode m s && _) eqn:Ein.
      - bool_to_prop. unfold in_mode in *. bool_to_prop.
        destruct (dget _ _); [done|]. apply elem_set_add. by right.
      - apply elem_set_add. by right. }
    split; [done|]. apply (dw_modes _ Hw') in Hin; [|done].
    apply list_elem_of_fmap in Hin as ([x e] & Hx & Hin). cbn in Hx. subst x.
    destruct (dw_active _ Hw' _ _ Hin) as (_ & Ha & _). rewrite (dw_action _ Hw').
    rewrite Hc', Hc in Ha. rewrite <- Ha. by apply (proj1 (most_restrictive_spec _) m). }
  split_and!.
  - unfold report_data_feed. cbn [negb entered fst]. rewrite Hc. by apply (He DATA_FEED_INVALID).
  - intros Ht. unfold report_broker_status. destruct (last_broker_contact s) as [t|].
    + specialize (Ht t eq_refl). rewrite Hc.
      destruct (Z.ltb_spec (broker_timeout_seconds config * sec) (now - t)); [|lia].
      by apply (He BROKER_UNREACHABLE).
    + rewrite Hc. by apply (He BROKER_UNREACHABLE).
  - unfold is_paused, can_submit_order, can_close_position. by destruct (dm_action s).
  - unfold can_submit_order, can_close_position. by destruct (dm_action s).
Qed.

(** ** What the manager does not do *)

Definition live_config : DegradedModeConfig :=
  MkDmConfig LIVE 60 30 2000 30 300 3600 true CONTINUE PAUSE HALT HALT RESTRICT RESTRICT
    true true true true.

(** The policy for live trading is never applied: a live manager configured to
    halt when the cloud is lost continues. *)
Theorem live_cloud_policy_ignored :
  get_cloud_unreachable_action live_config = HALT /\
  let s := (report_cloud_status 0 "e" false (new_degraded (Some live_config) false)).1 in
  dm_action s = CONTINUE /\ can_submit_order s = true.
Proof. by vm_compute. Qed.

(** Automatic recovery happens even when it is switched off. *)
Definition manual_config : DegradedModeConfig :=
  MkDmConfig PAPER 60 30 2000 30 300 3600 false CONTINUE PAUSE HALT HALT RESTRICT RESTRICT
    false true true true.

Theorem auto_recover_flag_ignored :
  let s := dm_run (new_degraded (Some manual_config) false)
             [DData 0 "e1" (Some 0) true; DData 1 "e2" None true] in
  is_paused s = true /\ is_paused (check_auto_recovery 2 s) = false.
Proof. by vm_compute. Qed.

(** ** Witnesses *)

Lemma failures_take_effect_witness :
  BROKER_UNREACHABLE ∈
    dm_modes (report_broker_status 5 "e" false (dm_run (new_degraded (Some default_dm_config) true) [])).1.
Proof.
  apply (failures_take_effect default_dm_config true [] 5 "e"). cbn. discriminate.
Defined.
