(* ===== verification/FixProtocol.v ===== *)
(** * FIX 4.4 messages: [packages/agent/execution/fix_protocol.py]

    Encoding with body length and checksum, parsing, verification of the checksum,
    and the builders of order messages.  A message is the text of its Latin-1
    characters.  The values given to [encode_message] are the texts the code
    formats them to; quantities and prices go through [_num]. *)
From Stdlib Require Import SpecFloat.
From Stdlib Require Import Ascii String.
From S2P Require Import Prelude PyDecimal DecArith PyFormat PyJson PyFloat PyText.
Open Scope Z_scope.
Open Scope list_scope.

Definition SOH : ascii := ascii_of_nat 1.
Definition BEGIN_STRING : text := chars "FIX.4.4".
Definition char_eq : ascii := "="%char.

(** The constants of [Tag], and those of [STag] in [fix_session.py]. *)
Inductive Tag :=
  | BeginString | BodyLength | TMsgType | SenderCompID | TargetCompID | MsgSeqNum | SendingTime
  | CheckSum | ClOrdID | OrigClOrdID | OrderID | ExecID | TSymbol | TSide | OrderQty | TOrdType
  | Price | TimeInForce | TransactTime | OrdStatus | ExecType | CumQty | AvgPx | LeavesQty
  | HeartBtInt | EncryptMethod | TestReqID | ResetSeqNumFlag | BeginSeqNo | EndSeqNo | GapFillFlag
  | NewSeqNo | PossDupFlag | TText | RefSeqNum.

#[export] Instance Tag_eq_dec : EqDecision Tag.
Proof. solve_decision. Defined.

Definition tag_str (t : Tag) : string :=
  match t with
  | BeginString => "8" | BodyLength => "9" | TMsgType => "35" | SenderCompID => "49"
  | TargetCompID => "56" | MsgSeqNum => "34" | SendingTime => "52" | CheckSum => "10"
  | ClOrdID => "11" | OrigClOrdID => "41" | OrderID => "37" | ExecID => "17" | TSymbol => "55"
  | TSide => "54" | OrderQty => "38" | TOrdType => "40" | Price => "44" | TimeInForce => "59"
  | TransactTime => "60" | OrdStatus => "39" | ExecType => "150" | CumQty => "14" | AvgPx => "6"
  | LeavesQty => "151"
  | HeartBtInt => "108" | EncryptMethod => "98" | TestReqID => "112" | ResetSeqNumFlag => "141"
  | BeginSeqNo => "7" | EndSeqNo => "16" | GapFillFlag => "123" | NewSeqNo => "36"
  | PossDupFlag => "43" | TText => "58" | RefSeqNum => "45"
  end%string.

Definition tag (t : Tag) : text := chars (tag_str t).

Inductive FixSide := BUY | SELL.
Definition side_value (s : FixSide) : text := chars (match s with BUY => "1" | SELL => "2" end)%string.

Inductive OrdType := MARKET | LIMIT.
Definition ord_type_value (o : OrdType) : text :=
  chars (match o with MARKET => "1" | LIMIT => "2" end)%string.

Inductive MsgType :=
  | NEW_ORDER_SINGLE | ORDER_CANCEL_REQUEST | ORDER_CANCEL_REPLACE_REQUEST | EXECUTION_REPORT
  | LOGON | HEARTBEAT.
Definition msg_type_value (m : MsgType) : text :=
  chars (match m with
         | NEW_ORDER_SINGLE => "D" | ORDER_CANCEL_REQUEST => "F"
         | ORDER_CANCEL_REPLACE_REQUEST => "G" | EXECUTION_REPORT => "8" | LOGON => "A"
         | HEARTBEAT => "0"
         end)%string.

(** ** Encode and decode *)

Definition char_sum (s : text) : Z := fold_right (fun c a => Z.of_nat (nat_of_ascii c) + a) 0 s.

(** [_checksum] *)
Definition fix_checksum (s : text) : text := pad_int 3 (char_sum s mod 256).

Definition field (tv : text * text) : text := tv.1 ++ char_eq :: tv.2.

Definition fix_body (msg_type : text) (fields : list (text * text)) : text :=
  join_chars [SOH] (field (tag TMsgType, msg_type) :: map field fields) ++ [SOH].

Definition fix_header (begin body : text) : text :=
  field (tag BeginString, begin) ++ SOH ::
  field (tag BodyLength, int_chars (Z.of_nat (List.length body))) ++ [SOH].

Definition encode_message (begin msg_type : text) (fields : list (text * text)) : text :=
  let body := fix_body msg_type fields in
  let pre := fix_header begin body ++ body in
  pre ++ field (tag CheckSum, fix_checksum pre) ++ [SOH].

Definition parse_part (out : list (text * text)) (part : text) : list (text * text) :=
  match part with
  | [] => out
  | _ => match partition_on char_eq part with
         | Some (t, v) => dset out t v
         | None => out
         end
  end.

Definition parse_message (raw : text) : list (text * text) :=
  fold_left parse_part (split_on SOH raw) [].

(** [raw.split(SOH)[0].split("=")[1]] of a text that starts with [10=]. *)
Definition checksum_field (raw : text) : text :=
  nth 1 (split_on char_eq (hd [] (split_on SOH raw))) [].

Definition verify_checksum (raw : text) : bool :=
  match rfind (SOH :: tag CheckSum ++ [char_eq]) raw with
  | Some idx =>
      bool_decide (fix_checksum (take (S idx) raw) = checksum_field (drop (S idx) raw))
  | None =>
      match find (tag CheckSum ++ [char_eq]) raw with
      | None => false
      | Some idx => bool_decide (fix_checksum (take idx raw) = checksum_field (drop idx raw))
      end
  end.

(** ** Message builders *)

(** [_num]; [None] when [int(f)] raises. *)
Definition num (x : pyfloat) : option text :=
  match float_to_int x with
  | None => None
  | Some n => Some (if feqb x (float_of_int n) then int_chars n else float_repr x)
  end.

Record FixSession := MkFixSession { sender : text; target : text; fs_seq : Z }.

Definition default_fix_session : FixSession := MkFixSession (chars "RIVEN") (chars "BROKER") 1.

Definition next_seq (s : FixSession) : FixSession * Z :=
  (MkFixSession (sender s) (target s) (fs_seq s + 1), fs_seq s).

Definition session_fields (s : FixSession) (sending_time : text) :
    FixSession * list (text * text) :=
  let '(s', n) := next_seq s in
  (s', [(tag SenderCompID, sender s); (tag TargetCompID, target s); (tag MsgSeqNum, int_chars n);
        (tag SendingTime, sending_time)]).

(** The session fields, when a session is given. *)
Definition opt_session (s : option FixSession) (sending_time : text) :
    option FixSession * list (text * text) :=
  match s with
  | Some s => let '(s', f) := session_fields s sending_time in (Some s', f)
  | None => (None, [])
  end.

(** A price field when a price is given. *)
Definition price_fields (price : option pyfloat) : option (list (text * text)) :=
  match price with
  | None => Some []
  | Some p => v ← num p; Some [(tag Price, v)]
  end.

(** The result is the session afterwards and the message; [None] when [_num]
    raises, before anything else is read from the arguments. *)
Definition new_order_single (cl_ord_id sym side : text) (qty : pyfloat) (ord_type : text)
    (price : option pyfloat) (tif transact_time : text) (s : option FixSession) :
    option FixSession * option text :=
  let '(s', f) := opt_session s transact_time in
  (s', q ← num qty;
       p ← price_fields price;
       Some (encode_message BEGIN_STRING (msg_type_value NEW_ORDER_SINGLE)
         (f ++ [(tag ClOrdID, cl_ord_id); (tag TSymbol, sym); (tag TSide, side); (tag OrderQty, q);
                (tag TOrdType, ord_type)] ++ p ++
          [(tag TimeInForce, tif); (tag TransactTime, transact_time)]))).

Definition order_cancel_request (orig_cl_ord_id cl_ord_id sym side transact_time : text)
    (s : option FixSession) : option FixSession * text :=
  let '(s', f) := opt_session s transact_time in
  (s', encode_message BEGIN_STRING (msg_type_value ORDER_CANCEL_REQUEST)
         (f ++ [(tag OrigClOrdID, orig_cl_ord_id); (tag ClOrdID, cl_ord_id); (tag TSymbol, sym);
                (tag TSide, side); (tag TransactTime, transact_time)])).

Definition order_cancel_replace_request (orig_cl_ord_id cl_ord_id sym side : text) (qty : pyfloat)
    (ord_type : text) (price : option pyfloat) (tif transact_time : text)
    (s : option FixSession) : option FixSession * option text :=
  let '(s', f) := opt_session s transact_time in
  (s', q ← num qty;
       p ← price_fields price;
       Some (encode_message BEGIN_STRING (msg_type_value ORDER_CANCEL_REPLACE_REQUEST)
         (f ++ [(tag OrigClOrdID, orig_cl_ord_id); (tag ClOrdID, cl_ord_id); (tag TSymbol, sym);
                (tag TSide, side); (tag OrderQty, q); (tag TOrdType, ord_type)] ++ p ++
          [(tag TimeInForce, tif); (tag TransactTime, transact_time)]))).

Definition execution_report (order_id cl_ord_id exec_id sym side ord_status exec_type : text)
    (cum_qty avg_px leaves_qty : pyfloat) : option text :=
  c ← num cum_qty;
  a ← num avg_px;
  l ← num leaves_qty;
  Some (encode_message BEGIN_STRING (msg_type_value EXECUTION_REPORT)
    [(tag OrderID, order_id); (tag ClOrdID, cl_ord_id); (tag ExecID, exec_id); (tag TSymbol, sym);
     (tag TSide, side); (tag OrdStatus, ord_status); (tag ExecType, exec_type); (tag CumQty, c);
     (tag AvgPx, a); (tag LeavesQty, l)]).

(** ** Well-formed fields *)

(** A text that does not end a field. *)
Definition plain_text (v : text) : Prop := SOH ∉ v.

Record plain_field (tv : text * text) : Prop := {
  pf_tag : SOH ∉ tv.1;
  pf_name : char_eq ∉ tv.1;
  pf_value : SOH ∉ tv.2
}.

#[export] Instance plain_text_dec v : Decision (plain_text v).
Proof. unfold plain_text. apply _. Defined.

Lemma elem_chars (c : ascii) s : existsb (fun x => bool_decide (x = c)) (chars s) = false -> c ∉ chars s.
Proof.
  intros H Hin. rewrite existsb_false in H. specialize (H c Hin). by rewrite bool_decide_eq_true_2 in H.
Qed.

Lemma tag_plain t : (SOH ∉ tag t) /\ (char_eq ∉ tag t).
Proof. split; apply elem_chars; by destruct t. Qed.

Lemma digits_plain c ds : char_digit c = None -> Forall is_digit ds -> c ∉ digit_chars ds.
Proof.
  intros Hc Hd Hin. apply list_elem_of_In, in_map_iff in Hin as (d & <- & Hin).
  apply list_elem_of_In in Hin. rewrite Forall_forall in Hd. by rewrite char_digit_char in Hc by auto.
Qed.

Lemma pad_int_digits k n :
  0 <= n -> exists ds, pad_int k n = digit_chars ds /\ Forall is_digit ds.
Proof.
  intros Hn. eexists. split; [done|]. apply Forall_app. split; [|by apply digits_range].
  apply Forall_forall. intros x Hx%list_elem_of_In%repeat_spec. subst. done.
Qed.

Lemma int_chars_plain n : 0 <= n -> (SOH ∉ int_chars n) /\ (char_eq ∉ int_chars n).
Proof.
  intros Hn. rewrite int_chars_digits by done. split; apply digits_plain; try done; by apply digits_range.
Qed.

Lemma char_sum_nonneg s : 0 <= char_sum s.
Proof. unfold char_sum. induction s as [|c s IH]; cbn [fold_right]; lia. Qed.

Lemma checksum_plain s : (SOH ∉ fix_checksum s) /\ (char_eq ∉ fix_checksum s).
Proof.
  unfold fix_checksum.
  destruct (pad_int_digits 3 (char_sum s mod 256)) as (ds & -> & Hd); [by apply Z.mod_pos_bound|].
  split; by apply digits_plain.
Qed.

Lemma field_plain t v : plain_text v -> SOH ∉ field (tag t, v).
Proof.
  unfold plain_text, field. cbn [fst snd]. rewrite elem_of_app, elem_of_cons.
  pose proof (tag_plain t) as [? _]. intros ? [?|[[=]|?]]; done.
Qed.

Lemma plain_field_text tv : plain_field tv -> SOH ∉ field tv.
Proof.
  intros [? _ ?]. unfold field. rewrite elem_of_app, elem_of_cons. intros [?|[[=]|?]]; done.
Qed.

Lemma plain_tag t v : plain_text v -> plain_field (tag t, v).
Proof. intros Hv. destruct (tag_plain t). by constructor. Qed.

(** ** Shape of an encoded message *)

Definition length_field (body : text) : text * text :=
  (tag BodyLength, int_chars (Z.of_nat (List.length body))).

Definition message_pre (begin msg_type : text) (fields : list (text * text)) : text :=
  fix_header begin (fix_body msg_type fields) ++ fix_body msg_type fields.

Definition all_fields (begin msg_type : text) (fields : list (text * text)) : list (text * text) :=
  (tag BeginString, begin) :: length_field (fix_body msg_type fields) ::
  (tag TMsgType, msg_type) :: fields.

Lemma fix_body_terminated msg_type fields :
  fix_body msg_type fields = terminated SOH (map field ((tag TMsgType, msg_type) :: fields)).
Proof. unfold fix_body. rewrite join_terminated by done. done. Qed.

Lemma message_pre_terminated begin msg_type fields :
  message_pre begin msg_type fields = terminated SOH (map field (all_fields begin msg_type fields)).
Proof.
  unfold message_pre, fix_header, all_fields. cbn [map].
  rewrite (terminated_cons SOH (field (tag BeginString, begin))), terminated_cons.
  unfold length_field. rewrite (fix_body_terminated msg_type fields) at 2. cbn [map].
  rewrite <- !app_assoc. cbn [app]. by rewrite <- !app_assoc.
Qed.

Lemma encode_pre begin msg_type fields :
  encode_message begin msg_type fields =
  message_pre begin msg_type fields ++
  field (tag CheckSum, fix_checksum (message_pre begin msg_type fields)) ++ [SOH].
Proof. done. Qed.

Lemma all_fields_plain begin msg_type fields :
  plain_text begin -> plain_text msg_type -> Forall plain_field fields ->
  Forall plain_field (all_fields begin msg_type fields).
Proof.
  intros Hb Hm Hf. unfold all_fields, length_field.
  repeat constructor; try done; try apply tag_plain; cbn [fst snd]; try done.
  apply int_chars_plain. lia.
Qed.

(** ** Parsing *)

Lemma parse_field out tv : plain_field tv -> parse_part out (field tv) = dset out tv.1 tv.2.
Proof.
  intros [_ Hn _]. unfold parse_part, field.
  destruct (tv.1 ++ char_eq :: tv.2) as [|x l] eqn:E; [by destruct tv.1|].
  rewrite <- E. by rewrite partition_on_app.
Qed.

Definition assign (d : list (text * text)) (fields : list (text * text)) : list (text * text) :=
  fold_left (fun d tv => dset d tv.1 tv.2) fields d.

Lemma parse_fields fields out :
  Forall plain_field fields -> fold_left parse_part (map field fields) out = assign out fields.
Proof.
  intros Hf. revert out. induction Hf as [|tv fields Htv Hf IH]; intros out; [done|].
  cbn [map fold_left assign]. rewrite parse_field by done. apply IH.
Qed.

(** Parsing a sequence of terminated fields. *)
Lemma parse_terminated fields :
  Forall plain_field fields -> parse_message (terminated SOH (map field fields)) = assign [] fields.
Proof.
  intros Hf. unfold parse_message. rewrite <- (app_nil_r (terminated _ _)).
  rewrite split_terminated.
  - cbn [split_on]. rewrite fold_left_app, parse_fields by done. done.
  - apply Forall_map. eapply Forall_impl; [exact Hf|]. apply plain_field_text.
Qed.

Lemma parse_encoded begin msg_type fields :
  plain_text begin -> plain_text msg_type -> Forall plain_field fields ->
  parse_message (encode_message begin msg_type fields) =
  assign [] (all_fields begin msg_type fields ++
             [(tag CheckSum, fix_checksum (message_pre begin msg_type fields))]).
Proof.
  intros Hb Hm Hf. rewrite <- parse_terminated.
  - rewrite encode_pre, message_pre_terminated at 1. unfold terminated.
    rewrite map_app, flat_map_app. cbn [map flat_map]. by rewrite app_nil_r.
  - apply Forall_app. split; [by apply all_fields_plain|]. constructor; [|done].
    apply plain_tag, checksum_plain.
Qed.

Definition reserved : list text := map tag [BeginString; BodyLength; TMsgType; CheckSum].

Lemma dget_assign_same d d' fields t :
  dget d t = dget d' t -> dget (assign d fields) t = dget (assign d' fields) t.
Proof.
  revert d d'. induction fields as [|[k v] fields IH]; intros d d' H; [done|].
  cbn [assign fold_left fst snd]. apply IH. destruct (decide (t = k)) as [->|Hne].
  - by rewrite !dget_dset_eq.
  - by rewrite !dget_dset_ne.
Qed.

Lemma dget_assign_other d fields t : t ∉ map fst fields -> dget (assign d fields) t = dget d t.
Proof.
  revert d. induction fields as [|[k v] fields IH]; intros d Hn; [done|].
  cbn [map fst] in Hn. apply not_elem_of_cons in Hn as [Hne Hn].
  cbn [assign fold_left fst snd]. etrans; [by apply IH|]. by rewrite dget_dset_ne.
Qed.

Lemma assign_app d f g : assign d (f ++ g) = assign (assign d f) g.
Proof. apply fold_left_app. Qed.

(** ** The checksum *)

(** The trailer of a message decides: text before it, the checksum, the end. *)
Definition trailer (cs : text) : text := tag CheckSum ++ char_eq :: cs ++ [SOH].

Lemma checksum_field_trailer cs :
  SOH ∉ cs -> char_eq ∉ cs -> checksum_field (trailer cs) = cs.
Proof.
  intros Hs He. unfold checksum_field, trailer. destruct (tag_plain CheckSum) as [Ht Hte].
  assert (SOH ∉ tag CheckSum ++ char_eq :: cs) as Hn.
  { rewrite elem_of_app, elem_of_cons. intros [?|[[=]|?]]; done. }
  change (tag CheckSum ++ char_eq :: cs ++ [SOH]) with (tag CheckSum ++ (char_eq :: cs) ++ [SOH]).
  rewrite app_assoc, (split_on_app SOH _ []) by done. cbn [hd].
  rewrite split_on_app by done. by rewrite split_on_none.
Qed.

Lemma verify_trailer p cs :
  SOH ∉ cs -> char_eq ∉ cs ->
  verify_checksum (p ++ SOH :: trailer cs) = bool_decide (fix_checksum (p ++ [SOH]) = cs).
Proof.
  intros Hs He. unfold verify_checksum, rfind.
  assert (p ++ SOH :: trailer cs
          = p ++ SOH :: (tag CheckSum ++ [char_eq]) ++ (cs ++ [SOH])) as Hm.
  { unfold trailer. by rewrite <- app_assoc. }
  rewrite Hm, rfind_at_last; [|by apply (elem_chars _ "10="%string)|by intros j; apply rfind_at_tail].
  rewrite <- Hm. cbn [plus].
  replace (S (List.length p)) with (List.length (p ++ [SOH])) by (rewrite length_app; cbn; lia).
  change (SOH :: trailer cs) with ([SOH] ++ trailer cs). rewrite app_assoc.
  rewrite take_app_length, drop_app_length. by rewrite checksum_field_trailer.
Qed.

Lemma message_pre_soh begin msg_type fields :
  exists p, message_pre begin msg_type fields = p ++ [SOH].
Proof.
  rewrite message_pre_terminated. unfold all_fields. cbn [map].
  rewrite <- join_terminated by done. by eexists.
Qed.

Lemma encode_trailer begin msg_type fields p :
  message_pre begin msg_type fields = p ++ [SOH] ->
  encode_message begin msg_type fields = p ++ SOH :: trailer (fix_checksum (p ++ [SOH])).
Proof.
  intros Hp. rewrite encode_pre, Hp. unfold field, trailer. cbn [fst snd].
  by rewrite <- !app_assoc.
Qed.

Lemma fix_checksum_length s : List.length (fix_checksum s) = 3%nat.
Proof.
  unfold fix_checksum, pad_int, digit_chars. rewrite length_map, length_app, repeat_length.
  pose proof (Z.mod_pos_bound (char_sum s) 256 eq_refl) as Hb. set (n := char_sum s mod 256) in *.
  assert (List.length (digits n) <= 3)%nat as Hl; [|lia].
  pose proof (ndigits_small n 3 ltac:(lia) ltac:(lia)) as Hs. unfold ndigits in Hs.
  rewrite Z.abs_eq in Hs by lia. lia.
Qed.

(** A changed character changes the checksum. *)
Lemma checksum_inj s s' : fix_checksum s = fix_checksum s' -> char_sum s mod 256 = char_sum s' mod 256.
Proof.
  intros H.
  assert (forall n, 0 <= n -> undigits (repeat 0 (3 - List.length (digits n)) ++ digits n) = n) as Hu.
  { intros n Hn. by rewrite undigits_zeros, undigits_digits. }
  assert (forall n, 0 <= n -> Forall is_digit (repeat 0 (3 - List.length (digits n)) ++ digits n)) as Hd.
  { intros n Hn. apply Forall_app. split; [|by apply digits_range].
    apply Forall_forall. by intros x ->%list_elem_of_In%repeat_spec. }
  unfold fix_checksum, pad_int in H. apply (f_equal span_digits) in H.
  pose proof (Z.mod_pos_bound (char_sum s) 256 eq_refl).
  pose proof (Z.mod_pos_bound (char_sum s') 256 eq_refl).
  rewrite !span_digits_end in H by (apply Hd; lia). injection H as H.
  rewrite <- (Hu (char_sum s mod 256)), <- (Hu (char_sum s' mod 256)) by lia. by rewrite H.
Qed.

Lemma char_sum_app s s' : char_sum (s ++ s') = char_sum s + char_sum s'.
Proof. unfold char_sum. induction s as [|c s IH]; cbn [app fold_right]; lia. Qed.

Lemma char_code_bound c : (nat_of_ascii c < 256)%nat.
Proof. apply nat_ascii_bounded. Qed.

Lemma checksum_changed a b x y :
  x <> y -> fix_checksum (a ++ x :: b) <> fix_checksum (a ++ y :: b).
Proof.
  intros Hne H. apply checksum_inj in H. apply Hne.
  assert (forall z, char_sum (a ++ z :: b) = char_sum a + char_sum b + Z.of_nat (nat_of_ascii z)) as Hs.
  { intros z. rewrite char_sum_app. cbn [char_sum fold_right]. fold (char_sum b). lia. }
  rewrite !Hs in H. pose proof (char_code_bound x). pose proof (char_code_bound y).
  assert (Z.of_nat (nat_of_ascii x) = Z.of_nat (nat_of_ascii y)) as He.
  { Z.to_euclidean_division_equations. lia. }
  rewrite <- (ascii_nat_embedding x), <- (ascii_nat_embedding y). f_equal. lia.
Qed.

(** ** Reading an encoded message *)

Lemma reserved_absent (fields : list (text * text)) t :
  Forall (fun tv => tv.1 ∉ reserved) fields -> t ∈ reserved -> t ∉ map fst fields.
Proof.
  intros Hr Ht (tv & -> & Hin)%list_elem_of_fmap. rewrite Forall_forall in Hr. by apply (Hr tv).
Qed.

Lemma elem_reserved k : k ∈ [BeginString; BodyLength; TMsgType; CheckSum] -> tag k ∈ reserved.
Proof. by apply list_elem_of_fmap_2. Qed.

(** The fields [encode_message] adds. *)
Lemma dget_encoded_reserved begin msg_type (fields : list (text * text)) cs k :
  Forall (fun tv => tv.1 ∉ reserved) fields -> k ∈ [BeginString; BodyLength; TMsgType] ->
  dget (assign [] (all_fields begin msg_type fields ++ [(tag CheckSum, cs)])) (tag k)
  = dget (assign [] [(tag BeginString, begin); length_field (fix_body msg_type fields);
                     (tag TMsgType, msg_type)]) (tag k).
Proof.
  intros Hr Hk. unfold all_fields.
  change (?a :: ?b :: ?c :: fields) with ([a; b; c] ++ fields). rewrite !assign_app.
  etrans; [apply dget_assign_other|apply dget_assign_other, reserved_absent; [done|]].
  - intros H%list_elem_of_singleton. cbn [fst] in H.
    assert (k <> BeginString /\ k <> BodyLength /\ k <> TMsgType) as Hne
      by (by split_and!; intros ->).
    set_solver.
  - apply elem_reserved. set_solver.
Qed.

(** The fields it is given. *)
Lemma dget_encoded_other begin msg_type fields cs t :
  t ∉ reserved ->
  dget (assign [] (all_fields begin msg_type fields ++ [(tag CheckSum, cs)])) t
  = dget (assign [] fields) t.
Proof.
  intros Ht.
  assert (forall k, k ∈ [BeginString; BodyLength; TMsgType; CheckSum] -> t <> tag k) as Hne.
  { intros k Hk ->. by apply Ht, elem_reserved. }
  unfold all_fields. change (?a :: ?b :: ?c :: fields) with ([a; b; c] ++ fields).
  rewrite !assign_app. etrans; [apply dget_assign_other|].
  - intros H%list_elem_of_singleton. cbn [fst] in H. by apply (Hne CheckSum); [set_solver|].
  - apply dget_assign_same. cbn [assign fold_left fst snd length_field].
    by rewrite !dget_dset_ne by (apply Hne; set_solver).
Qed.

Lemma encoded_verifies begin msg_type fields :
  verify_checksum (encode_message begin msg_type fields) = true.
Proof.
  destruct (message_pre_soh begin msg_type fields) as [p Hp].
  rewrite (encode_trailer _ _ _ _ Hp). destruct (checksum_plain (p ++ [SOH])).
  rewrite verify_trailer by done. by apply bool_decide_eq_true_2.
Qed.

(** ** Theorems *)

(** C25: what is encoded is read back. For values without the field separator and
    fields other than 8, 9, 35 and 10, the encoded message verifies its checksum,
    the parser returns the begin string, the type and every field as given (the
    last value of a repeated tag), and the body length is the number of
    characters between its field and the checksum field. *)
Theorem encoded_message_parses begin msg_type (fields : list (text * text)) :
  plain_text begin -> plain_text msg_type -> Forall plain_field fields ->
  Forall (fun tv => tv.1 ∉ reserved) fields ->
  let m := encode_message begin msg_type fields in
  let d := parse_message m in
  verify_checksum m = true /\
  dget d (tag BeginString) = Some begin /\ dget d (tag TMsgType) = Some msg_type /\
  (forall t, t ∉ reserved -> dget d t = dget (assign [] fields) t) /\
  exists header body cs, m = header ++ body ++ cs /\
    dget d (tag BodyLength) = Some (int_chars (Z.of_nat (List.length body))) /\
    header = fix_header begin body /\ List.length cs = 7%nat.
Proof.
  intros Hb Hm Hf Hr m d. unfold d.
  assert (parse_message m = assign [] (all_fields begin msg_type fields ++
    [(tag CheckSum, fix_checksum (message_pre begin msg_type fields))])) as ->
    by by apply parse_encoded.
  split_and!; [apply encoded_verifies| | |intros t Ht; by apply dget_encoded_other|].
  1-2: by rewrite dget_encoded_reserved by (done || set_solver).
  exists (fix_header begin (fix_body msg_type fields)), (fix_body msg_type fields),
    (trailer (fix_checksum (message_pre begin msg_type fields))).
  split_and!; [|by rewrite dget_encoded_reserved by (done || set_solver)|done|].
  - unfold m. rewrite encode_pre. unfold message_pre, trailer, field. cbn [fst snd].
    by rewrite <- !app_assoc.
  - unfold trailer. rewrite length_app. cbn [List.length]. rewrite length_app.
    by rewrite fix_checksum_length.
Qed.

(** C39: a damaged character is detected. Whatever character before the checksum
    field of an encoded message is replaced by another one, the checksum does not
    verify. *)
Theorem damaged_character_detected begin msg_type fields i c :
  let m := encode_message begin msg_type fields in
  (i + 8 < List.length m)%nat -> m !! i <> Some c -> verify_checksum (<[i := c]> m) = false.
Proof.
  intros m Hi Hc. unfold m in *. destruct (message_pre_soh begin msg_type fields) as [p Hp].
  rewrite (encode_trailer _ _ _ _ Hp) in *. destruct (checksum_plain (p ++ [SOH])) as [Hs He].
  assert (i < List.length p)%nat as Hlt.
  { revert Hi. unfold trailer. rewrite length_app. cbn [List.length]. rewrite length_app.
    cbn [List.length]. rewrite length_app, fix_checksum_length. cbn [List.length tag chars]. cbn. lia. }
  rewrite lookup_app_l in Hc by done. rewrite insert_app_l by done.
  rewrite verify_trailer by done. apply bool_decide_eq_false_2.
  destruct (lookup_lt_is_Some_2 p i Hlt) as [x Hx].
  destruct (list_elem_of_split_length _ _ _ Hx) as (a & b & -> & ->).
  rewrite insert_app_r_alt, Nat.sub_diag by done. cbn [insert list_insert].
  rewrite <- !app_assoc. cbn [app]. apply not_eq_sym, checksum_changed. congruence.
Qed.

(** ** Witnesses *)

Definition sample_fields : list (text * text) :=
  [(tag ClOrdID, chars "c1"); (tag TSymbol, chars "BTC=F"); (tag TSide, chars "1")].

Lemma sample_fields_plain : Forall plain_field sample_fields.
Proof. repeat constructor; by apply elem_chars. Qed.

Lemma encoded_message_parses_witness :
  let d := parse_message (encode_message BEGIN_STRING (chars "D") sample_fields) in
  dget d (tag TSymbol) = Some (chars "BTC=F").
Proof.
  destruct (encoded_message_parses BEGIN_STRING (chars "D") sample_fields) as (_ & _ & _ & Hf & _).
  - by apply elem_chars.
  - by apply elem_chars.
  - apply sample_fields_plain.
  - apply (bool_decide_unpack _). vm_compute. exact I.
  - cbv zeta. rewrite Hf; [reflexivity|]. apply (bool_decide_unpack _). vm_compute. exact I.
Defined.

Lemma damaged_character_detected_witness :
  verify_checksum (<[30%nat := "9"%char]> (encode_message BEGIN_STRING (chars "D") sample_fields))
  = false.
Proof.
  apply damaged_character_detected.
  - vm_compute. lia.
  - vm_compute. discriminate.
Defined.
