(* ===== verification/FixSession.v ===== *)
(** * FIX session engine: [packages/agent/execution/fix_session.py]

    [FixSessionEngine]: logon, sequence numbers kept in a file, framing of the
    inbound byte stream, gap detection, resend requests and gap fills, heartbeats
    and the dispatch of application messages.

    The reader and heartbeat threads run one step at a time under the engine's
    lock: [feed] is one round of the reader with the data received, [heartbeat_tick]
    one round of the heartbeat loop.  An exception that leaves a round ends the
    thread it runs in, which [ss_reader] records for the reader.  The transport is
    a parameter: [send_ok] says which texts its [send] accepts.  Writing the file
    of sequence numbers succeeds; [ss_file] is what it holds. *)
From Stdlib Require Import Ascii String.
From S2P Require Import Prelude PyDecimal PyFormat PyJson PyFloat PyText FixProtocol.
Open Scope Z_scope.
Open Scope list_scope.

(** [SMsg] *)
Inductive SMsg := TEST_REQUEST | RESEND_REQUEST | REJECT | SEQUENCE_RESET | LOGOUT.

Definition smsg_value (m : SMsg) : text :=
  chars (match m with
         | TEST_REQUEST => "1" | RESEND_REQUEST => "2" | REJECT => "3" | SEQUENCE_RESET => "4"
         | LOGOUT => "5"
         end)%string.

Inductive SessionState := DISCONNECTED | CONNECTING | LOGON_SENT | ACTIVE | LOGOUT_SENT.

#[export] Instance SessionState_eq_dec : EqDecision SessionState.
Proof. solve_decision. Defined.

Record SessionConfig := MkSessionConfig {
  sc_sender : text;
  sc_target : text;
  heartbeat_int : Z;
  reset_seq_on_logon : bool;
  has_app_callback : bool;
  is_acceptor : bool;
  has_store_path : bool
}.

Inductive FixError := TransportError | BadNumber.

(** The fields of the engine, its sequence store ([ss_out], [ss_in], [ss_file]), and
    what it handed to the transport and to [on_app_message] so far, each with its
    sequence number. *)
Record Session := MkSession {
  ss_config : SessionConfig;
  ss_state : SessionState;
  ss_out : Z;
  ss_in : Z;
  ss_file : option (Z * Z);
  ss_transport : bool;
  ss_buf : text;
  ss_running : bool;
  ss_reader : bool;
  ss_last_recv : Z;
  ss_last_sent : Z;
  ss_sent_messages : list (Z * text);
  ss_logged_on : bool;
  ss_wire : list (Z * text);
  ss_app : list (Z * list (text * text))
}.

(** [__init__], on the file of an earlier engine. *)
Definition new_session (c : SessionConfig) (file : option (Z * Z)) (transport : bool) (now : Z) :
    Session :=
  let '(o, i) := match file with
                 | Some f => if has_store_path c then f else (1, 1)
                 | None => (1, 1)
                 end in
  MkSession c DISCONNECTED o i file transport [] false false now now [] false [] [].

Definition set_seq (o i : Z) (s : Session) : Session :=
  MkSession (ss_config s) (ss_state s) o i (ss_file s) (ss_transport s) (ss_buf s) (ss_running s)
    (ss_reader s) (ss_last_recv s) (ss_last_sent s) (ss_sent_messages s) (ss_logged_on s) (ss_wire s)
    (ss_app s).

(** [SeqStore.save] *)
Definition save_seq (s : Session) : Session :=
  if has_store_path (ss_config s) then
    MkSession (ss_config s) (ss_state s) (ss_out s) (ss_in s) (Some (ss_out s, ss_in s))
      (ss_transport s) (ss_buf s) (ss_running s) (ss_reader s) (ss_last_recv s) (ss_last_sent s)
      (ss_sent_messages s) (ss_logged_on s) (ss_wire s) (ss_app s)
  else s.

(** [SeqStore.reset] *)
Definition reset_seq (s : Session) : Session := save_seq (set_seq 1 1 s).

Definition set_ss_state (st : SessionState) (s : Session) : Session :=
  MkSession (ss_config s) st (ss_out s) (ss_in s) (ss_file s) (ss_transport s) (ss_buf s)
    (ss_running s) (ss_reader s) (ss_last_recv s) (ss_last_sent s) (ss_sent_messages s)
    (ss_logged_on s) (ss_wire s) (ss_app s).

Definition set_logged_on (b : bool) (s : Session) : Session :=
  MkSession (ss_config s) (ss_state s) (ss_out s) (ss_in s) (ss_file s) (ss_transport s) (ss_buf s)
    (ss_running s) (ss_reader s) (ss_last_recv s) (ss_last_sent s) (ss_sent_messages s) b
    (ss_wire s) (ss_app s).

(** The transport, the threads and the input buffer. *)
Definition set_io (transport running reader : bool) (buf : text) (last_recv : Z) (s : Session) :
    Session :=
  MkSession (ss_config s) (ss_state s) (ss_out s) (ss_in s) (ss_file s) transport buf running reader
    last_recv (ss_last_sent s) (ss_sent_messages s) (ss_logged_on s) (ss_wire s) (ss_app s).

Definition set_buf (buf : text) (s : Session) : Session :=
  set_io (ss_transport s) (ss_running s) (ss_reader s) buf (ss_last_recv s) s.

(** [_sent_messages[seq] = raw] and the call of the transport. *)
Definition log_sent (seq : Z) (raw : text) (s : Session) : Session :=
  MkSession (ss_config s) (ss_state s) (ss_out s) (ss_in s) (ss_file s) (ss_transport s) (ss_buf s)
    (ss_running s) (ss_reader s) (ss_last_recv s) (ss_last_sent s)
    (dset (ss_sent_messages s) seq raw) (ss_logged_on s)
    (if ss_transport s then ss_wire s ++ [(seq, raw)] else ss_wire s) (ss_app s).

Definition set_last_sent (now : Z) (s : Session) : Session :=
  MkSession (ss_config s) (ss_state s) (ss_out s) (ss_in s) (ss_file s) (ss_transport s) (ss_buf s)
    (ss_running s) (ss_reader s) (ss_last_recv s) now (ss_sent_messages s) (ss_logged_on s)
    (ss_wire s) (ss_app s).

Definition deliver (seq : Z) (fields : list (text * text)) (s : Session) : Session :=
  MkSession (ss_config s) (ss_state s) (ss_out s) (ss_in s) (ss_file s) (ss_transport s) (ss_buf s)
    (ss_running s) (ss_reader s) (ss_last_recv s) (ss_last_sent s) (ss_sent_messages s)
    (ss_logged_on s) (ss_wire s)
    (if has_app_callback (ss_config s) then ss_app s ++ [(seq, fields)] else ss_app s).

(** [time.strftime("%Y%m%d-%H:%M:%S", time.gmtime()) + ".000"] *)
Definition fix_time (t : Z) : text :=
  let '(y, m, d) := civil_from_days (t / day) in
  let r := t mod day in
  pad_int 4 y ++ pad_int 2 m ++ pad_int 2 d ++ "-"%char ::
  pad_int 2 (r / hour) ++ ":"%char :: pad_int 2 (r mod hour / minute) ++ ":"%char ::
  pad_int 2 (r mod minute / sec) ++ chars ".000".

Example fix_time_ex : fix_time 1709209845000250 = chars "20240229-12:30:45.000".
Proof. vm_compute. reflexivity. Qed.

(** [fields.get(t, dflt)] *)
Definition get_field (fields : list (text * text)) (t : Tag) (dflt : text) : text :=
  default dflt (dget fields (tag t)).

Section Engine.
Variable send_ok : text -> bool.

(** ** Sending *)

(** [_session_fields]: the number is taken, and the next one saved. *)
Definition session_header (now : Z) (s : Session) : Session * Z * list (text * text) :=
  let seq := ss_out s in
  (save_seq (set_seq (seq + 1) (ss_in s) s), seq,
   [(tag SenderCompID, sc_sender (ss_config s)); (tag TargetCompID, sc_target (ss_config s));
    (tag MsgSeqNum, int_chars seq); (tag SendingTime, fix_time now)]).

(** [_send] *)
Definition send (now : Z) (msg_type : text) (fields : list (text * text)) (s : Session) :
    Session * pyres FixError Z :=
  let '(s1, seq, sess) := session_header now s in
  let raw := encode_message BEGIN_STRING msg_type (sess ++ fields) in
  let s2 := log_sent seq raw s1 in
  if ss_transport s2 && negb (send_ok raw) then (s2, Raise TransportError)
  else (set_last_sent now s2, Ok seq).

Definition send_logon (now : Z) (s : Session) : Session * pyres FixError Z :=
  let c := ss_config s in
  send now (msg_type_value LOGON)
    ([(tag EncryptMethod, chars "0"); (tag HeartBtInt, int_chars (heartbeat_int c))] ++
     (if reset_seq_on_logon c then [(tag ResetSeqNumFlag, chars "Y")] else []))
    (set_ss_state LOGON_SENT s).

(** [str.upper] as far as comparison with an ASCII word goes. *)
Definition upper_char (c : ascii) : ascii :=
  let n := nat_of_ascii c in
  if ((97 <=? n) && (n <=? 122))%nat then ascii_of_nat (n - 32) else c.

Definition side_code (side : text) : text :=
  if bool_decide (side = chars "1" \/ side = chars "2") then side
  else if bool_decide (map upper_char side = chars "BUY") then side_value BUY else side_value SELL.

Definition ord_type_code (t : text) : text :=
  if bool_decide (map upper_char t = chars "LIMIT") then ord_type_value LIMIT
  else ord_type_value MARKET.

(** [send_new_order]; [None] when [_num] raises. *)
Definition send_new_order (now : Z) (cl_ord_id sym side : text) (qty : pyfloat) (ord_type : text)
    (price : option pyfloat) (tif : text) (s : Session) : option (Session * pyres FixError Z) :=
  q ← num qty;
  p ← price_fields price;
  Some (send now (msg_type_value NEW_ORDER_SINGLE)
    ([(tag ClOrdID, cl_ord_id); (tag TSymbol, sym); (tag TSide, side_code side); (tag OrderQty, q);
      (tag TOrdType, ord_type_code ord_type)] ++ p ++
     [(tag TimeInForce, tif); (tag TransactTime, fix_time now)]) s).

Definition send_cancel (now : Z) (orig_cl_ord_id cl_ord_id sym side : text) (s : Session) :
    Session * pyres FixError Z :=
  send now (msg_type_value ORDER_CANCEL_REQUEST)
    [(tag OrigClOrdID, orig_cl_ord_id); (tag ClOrdID, cl_ord_id); (tag TSymbol, sym);
     (tag TSide, side_code side); (tag TransactTime, fix_time now)] s.

(** ** Receiving *)

Inductive frame :=
  | NeedMore
  | Skip (rest : text)
  | Frame (msg rest : text).

(** [l[a:b]] for bounds that are not negative. *)
Definition slice (l : text) (a b : nat) : text := take (b - a) (drop a l).

Definition begin_field : text := field (tag BeginString, BEGIN_STRING) ++ [SOH].
Definition length_mark : text := SOH :: tag BodyLength ++ [char_eq].

(** One round of the loop of [_extract_and_handle] on the buffer. *)
Definition next_frame (l : text) : frame :=
  match find begin_field l with
  | None => NeedMore
  | Some start =>
      match find_from length_mark l (Z.of_nat start) with
      | None => NeedMore
      | Some blpos =>
          let blval := (blpos + List.length length_mark)%nat in
          match find_from [SOH] l (Z.of_nat blval) with
          | None => NeedMore
          | Some e =>
              match py_int (slice l blval e) with
              | None => Skip (drop (S start) l)
              | Some body_len =>
                  match find_from [SOH] l (Z.of_nat (S e) + body_len) with
                  | None => NeedMore
                  | Some cs_end =>
                      if (List.length l <? S cs_end)%nat then NeedMore
                      else Frame (slice l start (S cs_end)) (drop (S cs_end) l)
                  end
              end
          end
      end
  end.

(** [_handle_resend] *)
Definition handle_resend (now : Z) (fields : list (text * text)) (s : Session) :
    Session * pyres FixError unit :=
  match py_int (get_field fields BeginSeqNo (chars "1")),
        py_int (get_field fields EndSeqNo (chars "0")) with
  | Some _, Some end_ =>
      let last_ := if 0 <? end_ then end_ else ss_out s - 1 in
      let '(s1, r) := send now (smsg_value SEQUENCE_RESET)
        [(tag GapFillFlag, chars "Y"); (tag PossDupFlag, chars "Y");
         (tag NewSeqNo, int_chars (last_ + 1))] s in
      (s1, _ ← r; Ok tt)
  | _, _ => (s, Raise BadNumber)
  end.

(** [_send_logon_ack] *)
Definition send_logon_ack (now : Z) (fields : list (text * text)) (s : Session) :
    Session * pyres FixError unit :=
  let reset := bool_decide (dget fields (tag ResetSeqNumFlag) = Some (chars "Y")) in
  let s1 := if reset then reset_seq s else s in
  let '(s2, r) := send now (msg_type_value LOGON)
    ([(tag EncryptMethod, chars "0");
      (tag HeartBtInt, get_field fields HeartBtInt (int_chars (heartbeat_int (ss_config s))))] ++
     (if reset then [(tag ResetSeqNumFlag, chars "Y")] else [])) s1 in
  (s2, _ ← r; Ok tt).

(** [_on_logon] *)
Definition on_logon (now : Z) (fields : list (text * text)) (s : Session) :
    Session * pyres FixError unit :=
  let '(s1, r) :=
    if is_acceptor (ss_config s) && negb (bool_decide (ss_state s = ACTIVE)) then
      send_logon_ack now fields s
    else (s, Ok tt) in
  match r with
  | Raise e => (s1, Raise e)
  | Ok _ => (set_logged_on true (set_ss_state ACTIVE s1), Ok tt)
  end.

(** The dispatch by message type at the end of [_handle_message]. *)
Definition dispatch (now : Z) (mtype : text) (seq : Z) (fields : list (text * text)) (s : Session) :
    Session * pyres FixError unit :=
  if bool_decide (mtype = msg_type_value LOGON) then on_logon now fields s
  else if bool_decide (mtype = msg_type_value HEARTBEAT) then (s, Ok tt)
  else if bool_decide (mtype = smsg_value TEST_REQUEST) then
    let '(s1, r) := send now (msg_type_value HEARTBEAT)
                      [(tag TestReqID, get_field fields TestReqID [])] s in
    (s1, _ ← r; Ok tt)
  else if bool_decide (mtype = smsg_value RESEND_REQUEST) then handle_resend now fields s
  else if bool_decide (mtype = smsg_value LOGOUT) then
    (set_logged_on false (set_ss_state DISCONNECTED s), Ok tt)
  else (deliver seq fields s, Ok tt).

Definition seq_of (fields : list (text * text)) : Z :=
  default 0 (py_int (get_field fields MsgSeqNum (chars "0"))).

Definition poss_dup (fields : list (text * text)) : bool :=
  bool_decide (get_field fields PossDupFlag (chars "N") = chars "Y").

(** [_handle_message] *)
Definition handle_message (now : Z) (raw : text) (s : Session) : Session * pyres FixError unit :=
  if negb (verify_checksum raw) then (s, Ok tt)
  else
    let fields := parse_message raw in
    let mtype := get_field fields TMsgType [] in
    let seq := seq_of fields in
    let expected := ss_in s in
    if bool_decide (mtype = smsg_value SEQUENCE_RESET) then
      match py_int (get_field fields NewSeqNo (int_chars expected)) with
      | Some n => (save_seq (set_seq (ss_out s) n s), Ok tt)
      | None => (s, Raise BadNumber)
      end
    else if (expected <? seq) && negb (poss_dup fields) &&
            bool_decide (ss_state s = ACTIVE \/ ss_state s = LOGON_SENT) then
      let '(s1, r) := send now (smsg_value RESEND_REQUEST)
        [(tag BeginSeqNo, int_chars expected); (tag EndSeqNo, chars "0")] s in
      (s1, _ ← r; Ok tt)
    else if (seq <? expected) && negb (poss_dup fields) then (s, Ok tt)
    else
      dispatch now mtype seq fields
        (save_seq (set_seq (ss_out s) (Z.max expected (seq + 1)) s)).

(** [_extract_and_handle]. Every round but the last shortens the buffer, so its
    length is enough fuel. *)
Fixpoint extract_and_handle (fuel : nat) (now : Z) (s : Session) : Session * pyres FixError unit :=
  match fuel with
  | O => (s, Ok tt)
  | S f =>
      match next_frame (ss_buf s) with
      | NeedMore => (s, Ok tt)
      | Skip rest => extract_and_handle f now (set_buf rest s)
      | Frame msg rest =>
          match handle_message now msg (set_buf rest s) with
          | (s1, Raise e) => (s1, Raise e)
          | (s1, Ok _) => extract_and_handle f now s1
          end
      end
  end.

(** One round of [_read_loop], on the data received. *)
Definition feed (now : Z) (data : text) (s : Session) : Session :=
  if ss_running s && ss_reader s && bool_decide (data <> []) then
    let s1 := set_io (ss_transport s) true true (ss_buf s ++ data) now s in
    match extract_and_handle (S (List.length (ss_buf s1))) now s1 with
    | (s2, Ok _) => s2
    | (s2, Raise _) => set_io (ss_transport s2) (ss_running s2) false (ss_buf s2) (ss_last_recv s2) s2
    end
  else s.

(** ** Life cycle *)

(** [connect]; [dial] tells whether a transport of its own can be opened. *)
Definition connect (now : Z) (dial : bool) (s : Session) : Session * pyres FixError unit :=
  let s0 := if ss_transport s then s else set_ss_state CONNECTING s in
  if negb (ss_transport s) && negb dial then (s0, Raise TransportError)
  else
    let s1 := if reset_seq_on_logon (ss_config s) then reset_seq s0 else s0 in
    let s2 := set_io true true true (ss_buf s1) (ss_last_recv s1) s1 in
    if is_acceptor (ss_config s) then (s2, Ok tt)
    else let '(s3, r) := send_logon now s2 in (s3, _ ← r; Ok tt).

Definition disconnect (now : Z) (txt : text) (s : Session) : Session * pyres FixError unit :=
  let '(s1, r) :=
    if bool_decide (ss_state s = ACTIVE) then send now (smsg_value LOGOUT) [(tag TText, txt)] s
    else (s, Ok 0) in
  let s2 := save_seq (set_io (ss_transport s1) false (ss_reader s1) (ss_buf s1) (ss_last_recv s1) s1) in
  (set_ss_state DISCONNECTED s2, _ ← r; Ok tt).

(** One round of [_heartbeat_loop]. *)
Definition heartbeat_tick (now : Z) (s : Session) : Session * pyres FixError unit :=
  let hb := heartbeat_int (ss_config s) * sec in
  if negb (bool_decide (ss_state s = ACTIVE)) then (s, Ok tt)
  else
    let '(s1, r) :=
      if hb <=? now - ss_last_sent s then send now (msg_type_value HEARTBEAT) [] s else (s, Ok 0) in
    match r with
    | Raise e => (s1, Raise e)
    | Ok _ =>
        if 2 * hb <=? now - ss_last_recv s1 then
          let '(s2, r2) := send now (smsg_value TEST_REQUEST)
            [(tag TestReqID, chars "TR" ++ int_chars (now / sec))] s1 in
          (s2, _ ← r2; Ok tt)
        else (s1, Ok tt)
    end.
End Engine.
