(* ===== verification/FixFraming.v ===== *)
(** * Framing of the FIX byte stream

    The reader of [FixSession] receives the stream in pieces of any size.  This
    file shows that messages encoded by [FixProtocol] are cut out of it exactly,
    whatever the pieces, and that the loop of [_extract_and_handle] terminates. *)
From Stdlib Require Import Ascii String.
From S2P Require Import Prelude PyDecimal DecArith PyFormat PyJson PyText FixProtocol FixSession.
Open Scope Z_scope.
Open Scope list_scope.

(** ** Prefixes *)

(** Where a prefix of [a ++ b] ends. *)
Lemma prefix_cut {A} (p q a b : list A) :
  p ++ q = a ++ b ->
  (exists r, r <> [] /\ p ++ r = a /\ q = r ++ b) \/ (exists r, p = a ++ r /\ r ++ q = b).
Proof.
  revert p. induction a as [|x a IH]; intros p H; [by right; exists p|].
  destruct p as [|y p].
  - left. exists (x :: a). by split_and!.
  - injection H as -> H. destruct (IH p H) as [(r & Hr & <- & ->)|(r & -> & <-)].
    + left. by exists r.
    + right. by exists r.
Qed.

Lemma not_elem_prefix {A} (x : A) p r a : p ++ r = a -> x ∉ a -> x ∉ p.
Proof. intros <- H Hp. apply H, elem_of_app. by left. Qed.

Lemma find_at_elem p l i j c : find_at p l i = Some j -> c ∈ p -> c ∈ l.
Proof.
  revert i. induction l as [|x l IH]; intros i; cbn [find_at]; destruct (starts_with _ _) eqn:E; try done.
  - intros _ Hc. apply starts_with_spec in E as [r Hr]. by destruct p; [apply not_elem_of_nil in Hc|].
  - intros _ Hc. apply starts_with_spec in E as [r ->]. apply elem_of_app. by left.
  - intros H Hc. right. by eapply IH.
Qed.

Lemma find_absent c p l i : c ∈ p -> c ∉ l -> find_at p l i = None.
Proof.
  intros Hp Hl. destruct (find_at p l i) eqn:E; [|done]. exfalso. by eapply Hl, find_at_elem.
Qed.

(** Searching from the end of a known prefix. *)
Lemma find_from_prefix p a l :
  find_from p (a ++ l) (Z.of_nat (List.length a)) = find_at p l (List.length a).
Proof.
  unfold find_from. destruct (Z.ltb_spec (Z.of_nat (List.length a)) 0); [lia|].
  rewrite length_app. destruct (Z.ltb_spec (Z.of_nat (List.length a + List.length l)) (Z.of_nat (List.length a))); [lia|].
  by rewrite Nat2Z.id, drop_app_length.
Qed.

Lemma find_from_beyond p l n : Z.of_nat (List.length l) < n -> find_from p l n = None.
Proof.
  intros H. unfold find_from. destruct (Z.ltb_spec n 0); [lia|].
  by destruct (Z.ltb_spec (Z.of_nat (List.length l)) n); [|lia].
Qed.

Lemma find_at_first c p a l i :
  c ∉ a -> find_at (c :: p) (a ++ (c :: p) ++ l) i = Some (i + List.length a)%nat.
Proof. intros Ha. by rewrite find_at_skip, find_at_here. Qed.

(** ** One message *)

(** A text [encode_message] produces, with a length Python's [int] reads back. *)
Definition wire_message (m : text) : Prop :=
  exists msg_type fields, plain_text msg_type /\ Forall plain_field fields /\
    m = encode_message BEGIN_STRING msg_type fields /\ Z.of_nat (List.length m) < 10 ^ 18.

Definition length_prefix : text := begin_field ++ tag BodyLength ++ [char_eq].

(** The parts the reader looks for. *)
Record framed (m body d cs : text) : Prop := {
  fr_shape : m = length_prefix ++ d ++ SOH :: body ++ (tag CheckSum ++ char_eq :: cs) ++ [SOH];
  fr_int : py_int d = Some (Z.of_nat (List.length body));
  fr_digits : SOH ∉ d;
  fr_checksum : SOH ∉ tag CheckSum ++ char_eq :: cs
}.

Lemma wire_framed m : wire_message m -> exists body d cs, framed m body d cs.
Proof.
  intros (mt & fields & Hm & Hf & -> & Hlen). set (body := fix_body mt fields).
  set (pre := message_pre BEGIN_STRING mt fields).
  exists body, (int_chars (Z.of_nat (List.length body))), (fix_checksum pre).
  assert (List.length body <= List.length (encode_message BEGIN_STRING mt fields))%nat as Hb.
  { unfold encode_message. fold body. rewrite !length_app. lia. }
  constructor.
  - rewrite encode_pre. fold pre. unfold pre at 1, message_pre. fold body.
    unfold fix_header, field, length_prefix, begin_field, field. cbn [fst snd].
    repeat first [rewrite <- app_assoc | progress cbn [app]]. done.
  - rewrite int_chars_digits by lia. rewrite py_int_digits.
    + by rewrite undigits_digits by lia.
    + apply digits_range. lia.
    + pose proof (digits_nonempty (Z.of_nat (List.length body))) as Hd. intros E. by rewrite E in Hd; cbn in Hd; lia.
    + pose proof (ndigits_small (Z.of_nat (List.length body)) 18 ltac:(lia)) as Hn.
      unfold ndigits in Hn. rewrite Z.abs_eq in Hn by lia. lia.
  - apply int_chars_plain. lia.
  - apply field_plain, checksum_plain.
Qed.

Lemma length_prefix_length : List.length length_prefix = 12%nat.
Proof. done. Qed.

Lemma begin_mark l :
  find begin_field (length_prefix ++ l) = Some 0%nat /\
  find_from length_mark (length_prefix ++ l) 0 = Some 9%nat.
Proof.
  split.
  - unfold length_prefix. rewrite <- app_assoc. apply find_at_here.
  - change 0 with (Z.of_nat (List.length (@nil ascii))).
    change (length_prefix ++ l) with ([] ++ (length_prefix ++ l)). rewrite find_from_prefix.
    change (length_prefix ++ l) with (field (tag BeginString, BEGIN_STRING) ++ length_mark ++ l).
    unfold length_mark. rewrite find_at_first; [done|]. by apply field_plain, elem_chars.
Qed.

(** The search for the separator after a known text. *)
Lemma find_soh a l : find_from [SOH] (a ++ l) (Z.of_nat (List.length a)) = find_at [SOH] l (List.length a).
Proof. apply find_from_prefix. Qed.

Lemma slice_middle (a b c : text) : slice (a ++ b ++ c) (List.length a) (List.length a + List.length b) = b.
Proof.
  unfold slice. rewrite drop_app_length.
  replace (List.length a + List.length b - List.length a)%nat with (List.length b) by lia.
  by rewrite take_app_length.
Qed.

Section Message.
Variables (m body d cs : text).
Hypothesis F : framed m body d cs.

(** The reader on a buffer whose length field is complete. *)
Lemma next_frame_body p :
  next_frame (length_prefix ++ d ++ SOH :: p) =
  match find_from [SOH] (length_prefix ++ d ++ SOH :: p)
          (Z.of_nat (S (12 + List.length d)) + Z.of_nat (List.length body)) with
  | None => NeedMore
  | Some e => if (List.length (length_prefix ++ d ++ SOH :: p) <? S e)%nat then NeedMore
              else Frame (slice (length_prefix ++ d ++ SOH :: p) 0 (S e))
                     (drop (S e) (length_prefix ++ d ++ SOH :: p))
  end.
Proof.
  unfold next_frame. destruct (begin_mark (d ++ SOH :: p)) as [-> Hl]. cbv beta iota. change (Z.of_nat 0) with 0. rewrite Hl.
  change (9 + List.length length_mark)%nat with (List.length length_prefix). rewrite find_soh.
  change (SOH :: p) with ([SOH] ++ p) at 1. rewrite find_at_first by apply F.
  rewrite slice_middle, (fr_int _ _ _ _ F). by rewrite length_prefix_length.
Qed.

Lemma next_frame_message rest : next_frame (m ++ rest) = Frame m rest.
Proof.
  assert (m ++ rest = length_prefix ++ d ++ SOH :: body ++ (tag CheckSum ++ char_eq :: cs) ++ SOH :: rest)
    as ->.
  { rewrite (fr_shape _ _ _ _ F). by repeat first [rewrite <- app_assoc | progress cbn [app]]. }
  rewrite next_frame_body.
  set (a := length_prefix ++ d ++ SOH :: body).
  assert (length_prefix ++ d ++ SOH :: body ++ (tag CheckSum ++ char_eq :: cs) ++ SOH :: rest
          = a ++ (tag CheckSum ++ char_eq :: cs) ++ [SOH] ++ rest) as ->.
  { unfold a. by repeat first [rewrite <- app_assoc | progress cbn [app]]. }
  replace (Z.of_nat (S (12 + List.length d)) + Z.of_nat (List.length body))
    with (Z.of_nat (List.length a)).
  2:{ unfold a. rewrite !length_app, length_prefix_length. cbn [List.length]. lia. }
  rewrite find_soh, find_at_first by apply F.
  set (t := tag CheckSum ++ char_eq :: cs).
  replace (S (List.length a + List.length t)) with (List.length (a ++ t ++ [SOH]))
    by (rewrite !length_app; cbn; lia).
  assert (a ++ t ++ [SOH] ++ rest = (a ++ t ++ [SOH]) ++ rest) as -> by by rewrite <- !app_assoc.
  rewrite length_app. destruct (Nat.ltb_spec (List.length (a ++ t ++ [SOH]) + List.length rest)
                         (List.length (a ++ t ++ [SOH]))); [lia|].
  unfold slice. rewrite Nat.sub_0_r, drop_0, take_app_length, drop_app_length. f_equal.
  rewrite (fr_shape _ _ _ _ F). unfold a, t.
  by repeat first [rewrite <- app_assoc | progress cbn [app]].
Qed.

(** Nothing is cut from a buffer that stops before the body. *)
Lemma next_frame_no_begin p : SOH ∉ p -> next_frame p = NeedMore.
Proof.
  intros Hn. unfold next_frame, find. rewrite (find_absent SOH); [done| |done].
  unfold begin_field. apply elem_of_app. right. by left.
Qed.

Lemma next_frame_no_length p r :
  p ++ r = tag BodyLength ++ [char_eq] -> r <> [] -> next_frame (begin_field ++ p) = NeedMore.
Proof.
  intros Hp Hr. unfold next_frame. unfold find at 1. rewrite find_at_here.
  change (Z.of_nat 0) with (Z.of_nat (List.length (@nil ascii))).
  change (begin_field ++ p) with ([] ++ (begin_field ++ p)) at 1. rewrite find_from_prefix.
  assert (SOH ∉ p) as Hn.
  { eapply not_elem_prefix; [exact Hp|]. by apply (elem_chars _ "9="%string). }
  change (begin_field ++ p) with (field (tag BeginString, BEGIN_STRING) ++ SOH :: p) at 1.
  unfold length_mark. rewrite find_at_skip by by apply field_plain, elem_chars.
  cbn [find_at]. destruct (starts_with _ _) eqn:E; [|by rewrite find_at_none].
  exfalso. apply starts_with_spec in E as [l Hl]. injection Hl as ->.
  apply (f_equal List.length) in Hp. rewrite !length_app in Hp. cbn in Hp. destruct r; [done|].
  cbn in Hp. lia.
Qed.

Lemma next_frame_no_digits p : SOH ∉ p -> next_frame (length_prefix ++ p) = NeedMore.
Proof.
  intros Hn. unfold next_frame. destruct (begin_mark p) as [-> Hl]. cbv beta iota.
  change (Z.of_nat 0) with 0. rewrite Hl.
  change (9 + List.length length_mark)%nat with (List.length length_prefix).
  by rewrite find_soh, find_at_none.
Qed.

Lemma next_frame_no_body p r :
  p ++ r = body ++ (tag CheckSum ++ char_eq :: cs) ++ [SOH] -> r <> [] ->
  next_frame (length_prefix ++ d ++ SOH :: p) = NeedMore.
Proof.
  intros Hp Hr. rewrite next_frame_body.
  apply prefix_cut in Hp as [(r1 & Hr1 & Hp & _)|(p1 & -> & Hp)].
  - rewrite find_from_beyond; [done|]. rewrite !length_app, length_prefix_length. cbn [List.length].
    apply (f_equal List.length) in Hp. rewrite length_app in Hp. destruct r1; [done|].
    cbn [List.length] in Hp. lia.
  - set (a := length_prefix ++ d ++ SOH :: body).
    assert (length_prefix ++ d ++ SOH :: body ++ p1 = a ++ p1) as ->.
    { unfold a. by repeat first [rewrite <- app_assoc | progress cbn [app]]. }
    replace (Z.of_nat (S (12 + List.length d)) + Z.of_nat (List.length body))
      with (Z.of_nat (List.length a)).
    2:{ unfold a. rewrite !length_app, length_prefix_length. cbn [List.length]. lia. }
    rewrite find_soh, find_at_none; [done|].
    apply prefix_cut in Hp as [(r1 & _ & Hp & _)|(p2 & -> & Hp)].
    + eapply not_elem_prefix; [exact Hp|]. apply F.
    + destruct p2 as [|x p2].
      * rewrite app_nil_r. apply F.
      * injection Hp as _ Hp. by destruct p2, r.
Qed.

(** A message that is not complete is left in the buffer. *)
Lemma next_frame_prefix p q : p ++ q = m -> q <> [] -> next_frame p = NeedMore.
Proof.
  intros Hp Hq. rewrite (fr_shape _ _ _ _ F) in Hp.
  unfold length_prefix, begin_field in Hp. rewrite <- !app_assoc in Hp.
  assert (SOH ∉ field (tag BeginString, BEGIN_STRING)) as H8 by by apply field_plain, elem_chars.
  apply prefix_cut in Hp as [(r & _ & Hr & _)|(p1 & -> & Hp)].
  { apply next_frame_no_begin. by eapply not_elem_prefix. }
  apply prefix_cut in Hp as [(r & Hr & Hp & _)|(p2 & -> & Hp)].
  { destruct p1 as [|x p1]; [|by destruct p1, r].
    apply next_frame_no_begin. by rewrite app_nil_r. }
  rewrite app_assoc. fold begin_field. rewrite app_assoc in Hp.
  apply prefix_cut in Hp as [(r & Hr & Hp & _)|(p3 & -> & Hp)].
  { by eapply next_frame_no_length. }
  rewrite app_assoc. fold length_prefix.
  apply prefix_cut in Hp as [(r & _ & Hp & _)|(p4 & -> & Hp)].
  { apply next_frame_no_digits. eapply not_elem_prefix; [exact Hp|]. apply F. }
  destruct p4 as [|x p4].
  { rewrite app_nil_r. apply next_frame_no_digits, F. }
  injection Hp as -> Hp. by eapply next_frame_no_body.
Qed.
End Message.

(** ** The loop terminates *)

(** Every round but the last shortens the buffer. *)
Lemma next_frame_shrinks l :
  match next_frame l with
  | NeedMore => True
  | Skip rest | Frame _ rest => (List.length rest < List.length l)%nat
  end.
Proof.
  unfold next_frame. destruct (find begin_field l) as [st|] eqn:Es; [|done].
  assert (0 < List.length l)%nat as Hl.
  { apply find_at_lt in Es; [lia|done]. }
  destruct (find_from length_mark _ _); [|done]. destruct (find_from [SOH] l _); [|done].
  destruct (py_int _); [|rewrite length_drop; lia]. destruct (find_from [SOH] l _); [|done].
  destruct (_ <? _)%nat; [done|]. rewrite length_drop. lia.
Qed.

(** What the reader cuts out of a buffer, and what it leaves. *)
Fixpoint deframe (fuel : nat) (l : text) : list text * text :=
  match fuel with
  | O => ([], l)
  | S f =>
      match next_frame l with
      | NeedMore => ([], l)
      | Skip rest => deframe f rest
      | Frame msg rest => let '(ms, l') := deframe f rest in (msg :: ms, l')
      end
  end.

(** A prefix of a stream of messages is cut into whole messages, and the rest is
    the beginning of the next one. *)
Lemma deframe_stream ms l tail fuel :
  Forall wire_message ms -> l ++ tail = concat ms -> (List.length l < fuel)%nat ->
  exists ms1 ms2 b, ms = ms1 ++ ms2 /\ deframe fuel l = (ms1, b) /\ b ++ tail = concat ms2 /\
    (tail = [] -> ms2 = []).
Proof.
  intros Hw. revert l fuel. induction Hw as [|m ms Hm Hw IH]; intros l fuel Hl Hf.
  - apply app_nil in Hl as [-> ->]. exists [], [], []. split_and!; [done| |done|done].
    by destruct fuel.
  - destruct (wire_framed m Hm) as (body & d & cs & F). cbn [concat] in Hl.
    destruct fuel as [|fuel]; [lia|]. cbn [deframe].
    apply prefix_cut in Hl as [(r & Hr & Hp & ->)|(l' & -> & Hp)].
    + exists [], (m :: ms), l. rewrite (next_frame_prefix _ _ _ _ F l r Hp Hr).
      split_and!; [done|done| |by destruct r]. cbn [concat]. by rewrite app_assoc, Hp.
    + rewrite (next_frame_message _ _ _ _ F).
      destruct (IH l' fuel Hp) as (ms1 & ms2 & b & -> & -> & Hb & Ht).
      { rewrite length_app in Hf. rewrite (fr_shape _ _ _ _ F), length_app in Hf.
        rewrite length_prefix_length in Hf. lia. }
      by exists (m :: ms1), ms2, b.
Qed.

(** ** The session on a stream *)

Section Stream.
Variables (send_ok : text -> bool) (now : Z).

(** Handling messages one at a time, up to the first exception. *)
Fixpoint handle_all (ms : list text) (s : Session) : Session * pyres FixError unit :=
  match ms with
  | [] => (s, Ok tt)
  | m :: ms =>
      match handle_message send_ok now m s with
      | (s1, Raise e) => (s1, Raise e)
      | (s1, Ok _) => handle_all ms s1
      end
  end.

(** The buffer, the time of the last data and the reader thread do not matter to
    the handling of a message. *)
Definition with_io (rd : bool) (buf : text) (t : Z) (s : Session) : Session :=
  set_io (ss_transport s) (ss_running s) rd buf t s.

Definition on_fst {A B C} (f : A -> B) (p : A * C) : B * C := (f p.1, p.2).

Lemma save_seq_io rd buf t s : save_seq (with_io rd buf t s) = with_io rd buf t (save_seq s).
Proof. unfold save_seq. cbn. by destruct (has_store_path _). Qed.

Lemma log_sent_io rd buf t n raw s :
  log_sent n raw (with_io rd buf t s) = with_io rd buf t (log_sent n raw s).
Proof. done. Qed.

Lemma send_io rd buf t ty f s :
  send send_ok now ty f (with_io rd buf t s) = on_fst (with_io rd buf t) (send send_ok now ty f s).
Proof.
  unfold send, session_header. change (ss_config (with_io rd buf t s)) with (ss_config s).
  change (ss_out (with_io rd buf t s)) with (ss_out s).
  change (set_seq (ss_out s + 1) (ss_in (with_io rd buf t s)) (with_io rd buf t s))
    with (with_io rd buf t (set_seq (ss_out s + 1) (ss_in s) s)).
  rewrite save_seq_io, log_sent_io. set (raw := encode_message _ _ _). clearbody raw.
  generalize (save_seq (set_seq (ss_out s + 1) (ss_in s) s)). intros s1.
  change (ss_transport (with_io rd buf t (log_sent (ss_out s) raw s1)))
    with (ss_transport (log_sent (ss_out s) raw s1)).
  by destruct (_ && _).
Qed.

Lemma io_config rd buf t s : ss_config (with_io rd buf t s) = ss_config s.
Proof. done. Qed.
Lemma io_state rd buf t s : ss_state (with_io rd buf t s) = ss_state s.
Proof. done. Qed.
Lemma io_in rd buf t s : ss_in (with_io rd buf t s) = ss_in s.
Proof. done. Qed.
Lemma io_out rd buf t s : ss_out (with_io rd buf t s) = ss_out s.
Proof. done. Qed.
Lemma set_seq_io rd buf t o i s : set_seq o i (with_io rd buf t s) = with_io rd buf t (set_seq o i s).
Proof. done. Qed.
Lemma set_ss_state_io rd buf t st s :
  set_ss_state st (with_io rd buf t s) = with_io rd buf t (set_ss_state st s).
Proof. done. Qed.
Lemma set_logged_on_io rd buf t b s :
  set_logged_on b (with_io rd buf t s) = with_io rd buf t (set_logged_on b s).
Proof. done. Qed.
Lemma deliver_io rd buf t n f s : deliver n f (with_io rd buf t s) = with_io rd buf t (deliver n f s).
Proof. done. Qed.
Lemma reset_seq_io rd buf t s : reset_seq (with_io rd buf t s) = with_io rd buf t (reset_seq s).
Proof. unfold reset_seq. by rewrite set_seq_io, save_seq_io. Qed.

Create Rewrite HintDb fix_io.
#[local] Hint Rewrite io_config io_state io_in io_out set_seq_io set_ss_state_io set_logged_on_io deliver_io
  reset_seq_io save_seq_io send_io : fix_io.

Ltac io_case :=
  match goal with
  | |- context [send ?a ?b ?c ?d ?e] => destruct (send a b c d e) as [? []]
  | |- context [if ?b then _ else _] => destruct b
  | |- context [match py_int ?x with Some _ => _ | None => _ end] => destruct (py_int x)
  end.

Ltac io_cases := autorewrite with fix_io; repeat (io_case; autorewrite with fix_io); done.

Lemma on_logon_io rd buf t f s :
  on_logon send_ok now f (with_io rd buf t s) = on_fst (with_io rd buf t) (on_logon send_ok now f s).
Proof.
  unfold on_logon, send_logon_ack. autorewrite with fix_io. destruct (_ && _); [|done].
  destruct (bool_decide _); io_cases.
Qed.

Lemma dispatch_io rd buf t ty n f s :
  dispatch send_ok now ty n f (with_io rd buf t s)
  = on_fst (with_io rd buf t) (dispatch send_ok now ty n f s).
Proof.
  unfold dispatch, handle_resend. destruct (bool_decide _); [apply on_logon_io|].
  io_cases.
Qed.

Lemma handle_message_io rd buf t raw s :
  handle_message send_ok now raw (with_io rd buf t s)
  = on_fst (with_io rd buf t) (handle_message send_ok now raw s).
Proof.
  unfold handle_message. destruct (negb _); [done|]. autorewrite with fix_io.
  destruct (bool_decide _); [io_cases|]. destruct (_ && _); [io_cases|].
  destruct (_ && _); [done|]. autorewrite with fix_io. apply dispatch_io.
Qed.

Lemma handle_all_io rd buf t ms s :
  handle_all ms (with_io rd buf t s) = on_fst (with_io rd buf t) (handle_all ms s).
Proof.
  revert s. induction ms as [|m ms IH]; intros s; cbn [handle_all]; [done|].
  rewrite handle_message_io. destruct (handle_message _ _ _ s) as [s1 []]; cbn [on_fst fst snd]; [|done].
  apply IH.
Qed.

(** The reader's loop handles what it cuts out. *)
Lemma extract_deframe fuel rd t l s :
  let '(ms, l') := deframe fuel l in
  match handle_all ms s with
  | (s1, Ok _) => extract_and_handle send_ok fuel now (with_io rd l t s) = (with_io rd l' t s1, Ok tt)
  | (s1, Raise e) => exists l1,
      extract_and_handle send_ok fuel now (with_io rd l t s) = (with_io rd l1 t s1, Raise e)
  end.
Proof.
  revert l s. induction fuel as [|f IH]; intros l s; cbn [deframe extract_and_handle]; [done|].
  change (ss_buf (with_io rd l t s)) with l. destruct (next_frame l) as [|rest|msg rest].
  - done.
  - apply IH.
  - specialize (IH rest). destruct (deframe f rest) as [ms l']. cbn [handle_all].
    change (set_buf rest (with_io rd l t s)) with (with_io rd rest t s). rewrite handle_message_io.
    destruct (handle_message send_ok now msg s) as [s1 [[]|e]]; cbn [on_fst fst snd]; [apply IH|].
    by exists rest.
Qed.

Lemma send_running ty f s : ss_running (send send_ok now ty f s).1 = ss_running s.
Proof.
  unfold send, session_header. set (raw := encode_message _ _ _). clearbody raw.
  unfold save_seq. destruct (has_store_path _); by destruct (_ && _).
Qed.

Lemma handle_message_running raw s : ss_running (handle_message send_ok now raw s).1 = ss_running s.
Proof.
  assert (forall s, ss_running (save_seq s) = ss_running s) as Hs.
  { intros s'. unfold save_seq. by destruct (has_store_path _). }
  assert (forall ty f s (r : Session * pyres FixError Z), r = send send_ok now ty f s ->
    ss_running (let '(s1, r) := r in (s1, (_ ← r; Ok tt) : pyres FixError unit)).1 = ss_running s) as Hb.
  { intros ty f s' r ->. rewrite <- (send_running ty f s'). by destruct (send _ _ _ _ _). }
  unfold handle_message. destruct (negb _); [done|]. destruct (bool_decide _).
  { by destruct (py_int _); cbn [fst]; rewrite ?Hs. }
  destruct (_ && _); [by eapply Hb|]. destruct (_ && _); [done|].
  set (s1 := save_seq _). transitivity (ss_running s1); [|by unfold s1; rewrite Hs]. clearbody s1.
  unfold dispatch, on_logon, send_logon_ack, handle_resend, reset_seq.
  destruct (bool_decide _).
  { destruct (_ && _); [|done]. destruct (bool_decide _); set (f := app _ _); clearbody f.
    - pose proof (send_running (msg_type_value LOGON) f (save_seq (set_seq 1 1 s1))) as Hr.
      rewrite Hs in Hr. by destruct (send _ _ _ _ _) as [s2 []].
    - pose proof (send_running (msg_type_value LOGON) f s1) as Hr.
      by destruct (send _ _ _ _ _) as [s2 []]. }
  destruct (bool_decide _); [done|]. destruct (bool_decide _); [by eapply Hb|].
  destruct (bool_decide _); [|by destruct (bool_decide _)].
  destruct (py_int _); [|done]. destruct (py_int _); [by eapply Hb|done].
Qed.

Lemma handle_all_running ms s : ss_running (handle_all ms s).1 = ss_running s.
Proof.
  revert s. induction ms as [|m ms IH]; intros s; cbn [handle_all]; [done|].
  rewrite <- (handle_message_running m s). by destruct (handle_message _ _ _ s) as [s1 []]; [apply IH|].
Qed.

Lemma handle_all_app ms ms' s :
  handle_all (ms ++ ms') s =
  match handle_all ms s with
  | (s1, Ok _) => handle_all ms' s1
  | (s1, Raise e) => (s1, Raise e)
  end.
Proof.
  revert s. induction ms as [|m ms IH]; intros s; cbn [app handle_all]; [done|].
  by destruct (handle_message _ _ _ s) as [s1 []]; [apply IH|].
Qed.

Definition feed_all (chunks : list text) (s : Session) : Session :=
  fold_left (fun s d => feed send_ok now d s) chunks s.

Lemma feed_dead chunks b t s : feed_all chunks (with_io false b t s) = with_io false b t s.
Proof.
  induction chunks as [|d chunks IH]; [done|]. cbn [feed_all fold_left].
  assert (feed send_ok now d (with_io false b t s) = with_io false b t s) as ->; [|apply IH].
  unfold feed. cbn [ss_reader ss_running with_io set_io]. by rewrite andb_false_r.
Qed.

(** One piece of data. *)
Lemma feed_stream d b t s :
  ss_running s = true -> d <> [] ->
  let '(ms, b') := deframe (S (List.length (b ++ d))) (b ++ d) in
  match handle_all ms s with
  | (s1, Ok _) => feed send_ok now d (with_io true b t s) = with_io true b' now s1
  | (s1, Raise _) => exists b1, feed send_ok now d (with_io true b t s) = with_io false b1 now s1
  end.
Proof.
  intros Hr Hd. unfold feed.
  change (ss_running (with_io true b t s)) with (ss_running s). rewrite Hr.
  change (ss_reader (with_io true b t s)) with true. rewrite bool_decide_eq_true_2 by done.
  cbn [andb]. cbv zeta.
  assert (set_io (ss_transport (with_io true b t s)) true true (ss_buf (with_io true b t s) ++ d) now
            (with_io true b t s) = with_io true (b ++ d) now s) as ->.
  { unfold with_io. rewrite Hr. done. }
  change (ss_buf (with_io true (b ++ d) now s)) with (b ++ d).
  pose proof (extract_deframe (S (List.length (b ++ d))) true now (b ++ d) s) as He.
  destruct (deframe _ _) as [ms b']. destruct (handle_all ms s) as [s1 [[]|e]] eqn:Eh.
  - by rewrite He.
  - destruct He as [l1 ->]. by exists l1.
Qed.

Lemma feed_all_stream chunks ms b t s :
  Forall wire_message ms -> b ++ concat chunks = concat ms -> (concat chunks = [] -> ms = []) ->
  ss_running s = true ->
  match handle_all ms s with
  | (s1, Ok _) => exists t', feed_all chunks (with_io true b t s) = with_io true [] t' s1
  | (s1, Raise _) => exists b' t', feed_all chunks (with_io true b t s) = with_io false b' t' s1
  end.
Proof.
  revert ms b t s. induction chunks as [|d chunks IH]; intros ms b t s Hw Hb Hn Hr.
  - rewrite (Hn eq_refl) in Hb |- *. apply app_nil in Hb as [-> _]. by exists t.
  - cbn [feed_all fold_left]. destruct (decide (d = [])) as [->|Hd].
    + assert (feed send_ok now [] (with_io true b t s) = with_io true b t s) as ->.
      { unfold feed. cbn [bool_decide]. by rewrite andb_false_r. }
      by apply IH.
    + cbn [concat] in Hb, Hn. rewrite app_assoc in Hb.
      destruct (deframe_stream ms (b ++ d) (concat chunks) (S (List.length (b ++ d))) Hw Hb)
        as (ms1 & ms2 & b' & -> & Hdf & Hb' & Ht); [lia|].
      pose proof (feed_stream d b t s Hr Hd) as Hf. rewrite Hdf in Hf.
      rewrite handle_all_app. pose proof (handle_all_running ms1 s) as Hrun.
      destruct (handle_all ms1 s) as [s1 [[]|e]]; cbn [fst] in Hrun.
      * rewrite Hf. apply IH; [by apply Forall_app in Hw as []|done|done|congruence].
      * destruct Hf as [b1 ->]. exists b1, now. apply feed_dead.
Qed.
End Stream.

(** C23: the pieces of the stream do not matter. Whatever pieces the transport cuts
    a stream of encoded messages into, the session ends as if it had handled the
    messages one by one: no message is lost, merged or split, the buffer is
    empty at the end, and an exception in one message ends the reader. *)
Theorem chunks_do_not_matter send_ok now ms chunks s :
  Forall wire_message ms -> concat chunks = concat ms ->
  ss_running s = true -> ss_reader s = true -> ss_buf s = [] ->
  let s' := feed_all send_ok now chunks s in
  match handle_all send_ok now ms s with
  | (s1, Ok _) => exists t, s' = with_io true [] t s1
  | (s1, Raise _) => exists buf t, s' = with_io false buf t s1
  end.
Proof.
  intros Hw Hc Hr Hrd Hb. assert (s = with_io true [] (ss_last_recv s) s) as Hs.
  { destruct s. cbn in Hrd, Hb. by subst. }
  pose proof (feed_all_stream send_ok now chunks ms [] (ss_last_recv s) s Hw Hc) as Hf.
  rewrite <- Hs in Hf. apply Hf; [|done].
  rewrite Hc. intros He. destruct ms as [|m ms]; [done|].
  inversion Hw as [|? ? Hm]. destruct (wire_framed m Hm) as (body & d & cs & F).
  rewrite (fr_shape _ _ _ _ F) in He. done.
Qed.

(** ** A witness: two messages in pieces that cut them both. *)

Definition framing_session : Session :=
  set_io true true true [] 0
    (new_session (MkSessionConfig (chars "A") (chars "B") 30 false true false false) None true 0).

Definition framing_messages : list text :=
  [encode_message BEGIN_STRING (chars "8") [(tag MsgSeqNum, chars "1"); (tag TSymbol, chars "BTC")];
   encode_message BEGIN_STRING (chars "8") [(tag MsgSeqNum, chars "2"); (tag TSymbol, chars "ETH")]].

Definition framing_chunks : list text :=
  let l := concat framing_messages in [take 7 l; take 40 (drop 7 l); drop 47 l].

Lemma framing_messages_wire : Forall wire_message framing_messages.
Proof.
  assert (forall n v, SOH ∉ n -> SOH ∉ v ->
    wire_message (encode_message BEGIN_STRING (chars "8") [(tag MsgSeqNum, n); (tag TSymbol, v)]) \/
    10 ^ 18 <= Z.of_nat (List.length (encode_message BEGIN_STRING (chars "8") [(tag MsgSeqNum, n); (tag TSymbol, v)]))) as Hw.
  { intros n v Hn Hv. destruct (Z.lt_ge_cases (Z.of_nat (List.length (encode_message BEGIN_STRING
      (chars "8") [(tag MsgSeqNum, n); (tag TSymbol, v)]))) (10 ^ 18)); [left|by right].
    exists (chars "8"), [(tag MsgSeqNum, n); (tag TSymbol, v)]. split_and!; [by apply elem_chars| |done|done].
    repeat constructor; try done; apply tag_plain. }
  constructor; [|constructor; [|constructor]].
  - destruct (Hw (chars "1") (chars "BTC")) as [?|H]; [by apply elem_chars..|done|].
    vm_compute in H. by destruct H.
  - destruct (Hw (chars "2") (chars "ETH")) as [?|H]; [by apply elem_chars..|done|].
    vm_compute in H. by destruct H.
Qed.

Lemma chunks_do_not_matter_witness :
  map fst (ss_app (feed_all (fun _ => true) 9 framing_chunks framing_session)) = [1; 2].
Proof.
  pose proof (chunks_do_not_matter (fun _ => true) 9 framing_messages framing_chunks framing_session
    framing_messages_wire) as H.
  destruct (handle_all (fun _ => true) 9 framing_messages framing_session) as [s1 [[]|e]] eqn:E.
  - destruct H as [t Ht]; [vm_compute; reflexivity..|]. rewrite Ht.
    assert (s1 = (handle_all (fun _ => true) 9 framing_messages framing_session).1) as -> by (by rewrite E).
    vm_compute. reflexivity.
  - vm_compute in E. discriminate E.
Defined.
