(* ===== verification/FixSessionProps.v ===== *)
(** * The FIX session over time

    The operations of the engine of [FixSession], restarts on the same file of
    sequence numbers included: outbound numbers are never used twice, inbound
    application messages are delivered at most once and in order; and what the
    gap handling of the code does. *)
From Stdlib Require Import Ascii String Sorted.
From S2P Require Import Prelude PyDecimal DecArith PyFormat PyJson PyFloat PyText FixProtocol FixSession.
Open Scope Z_scope.
Open Scope list_scope.

Inductive fs_op :=
  | Connect (now : Z) (dial : bool)
  | Disconnect (now : Z) (txt : text)
  | NewOrder (now : Z) (coid sym side : text) (qty : pyfloat) (ot : text) (px : option pyfloat)
      (tif : text)
  | CancelOrder (now : Z) (orig coid sym side : text)
  | Receive (now : Z) (raw : text)
  | Feed (now : Z) (data : text)
  | Heartbeat (now : Z)
  | RestartEngine (now : Z) (transport : bool).

(** A new engine on the file of the old one; what was sent and delivered before
    stays on record. *)
Definition restart_engine (now : Z) (transport : bool) (s : Session) : Session :=
  let n := new_session (ss_config s) (ss_file s) transport now in
  MkSession (ss_config n) (ss_state n) (ss_out n) (ss_in n) (ss_file n) (ss_transport n) (ss_buf n)
    (ss_running n) (ss_reader n) (ss_last_recv n) (ss_last_sent n) (ss_sent_messages n)
    (ss_logged_on n) (ss_wire s) (ss_app s).

Section Runs.
Variable send_ok : text -> bool.

Definition fs_step (s : Session) (op : fs_op) : Session :=
  match op with
  | Connect now dial => (connect send_ok now dial s).1
  | Disconnect now txt => (disconnect send_ok now txt s).1
  | NewOrder now coid sym side qty ot px tif =>
      match send_new_order send_ok now coid sym side qty ot px tif s with
      | Some r => r.1
      | None => s
      end
  | CancelOrder now orig coid sym side => (send_cancel send_ok now orig coid sym side s).1
  | Receive now raw => (handle_message send_ok now raw s).1
  | Feed now data => feed send_ok now data s
  | Heartbeat now => (heartbeat_tick send_ok now s).1
  | RestartEngine now transport => restart_engine now transport s
  end.

Definition fs_run (s : Session) (ops : list fs_op) : Session := fold_left fs_step ops s.

(** ** Invariants of the operations

    An operation is built from a few changes of the state; an invariant that each
    of them keeps is kept by every operation. *)
Record session_invariant (I : Session -> Prop) : Prop := {
  si_send : forall now ty f s, I s -> I (send send_ok now ty f s).1;
  si_state : forall st s, I s -> I (set_ss_state st s);
  si_logged : forall b s, I s -> I (set_logged_on b s);
  si_io : forall t rn rd buf lr s, I s -> I (set_io t rn rd buf lr s);
  si_save : forall s, I s -> I (save_seq s);
  si_restart : forall now t s, I s -> I (restart_engine now t s)
}.

Lemma let_fst {A B C} (p : A * B) (f : A -> B -> A * C) (P : A -> Prop) :
  P p.1 -> (forall a b, p = (a, b) -> P a -> P (f a b).1) -> P (let '(a, b) := p in f a b).1.
Proof. destruct p as [a b]. intros Hp Hf. by apply Hf. Qed.

Section Lift.
Variable I : Session -> Prop.
Hypothesis HI : session_invariant I.
(** Configurations without sequence resets. *)
Hypothesis Hinit : forall s, I s ->
  reset_seq_on_logon (ss_config s) = false /\ is_acceptor (ss_config s) = false.

Lemma bind_send_inv now ty f s :
  I s -> I (let '(s1, r) := send send_ok now ty f s in (s1, (_ ← r; Ok tt) : pyres FixError unit)).1.
Proof. intros Hs. apply let_fst; [by apply HI|done]. Qed.

Lemma connect_inv now dial s : I s -> I (connect send_ok now dial s).1.
Proof.
  intros Hs. destruct (Hinit s Hs) as [Hr Ha]. unfold connect. rewrite Hr, Ha.
  destruct (ss_transport s); cbn [negb andb]; [|destruct dial; cbn [negb andb]; [|by apply HI]].
  all: unfold send_logon; apply bind_send_inv, HI, HI; try done; by apply HI.
Qed.

Lemma disconnect_inv now txt s : I s -> I (disconnect send_ok now txt s).1.
Proof.
  intros Hs. unfold disconnect. destruct (bool_decide _).
  - apply let_fst; [by apply HI|]. intros s1 r _ H1. cbn [fst]. by repeat apply HI.
  - cbn [fst]. by repeat apply HI.
Qed.

Lemma heartbeat_inv now s : I s -> I (heartbeat_tick send_ok now s).1.
Proof.
  intros Hs. unfold heartbeat_tick. destruct (negb _); [done|]. apply let_fst.
  - destruct (_ <=? _); [by apply HI|done].
  - intros s1 r _ H1. destruct r; [|done]. destruct (_ <=? _); [by apply bind_send_inv|done].
Qed.

(** [handle_message], given what becomes of the inbound number and of delivery. *)
Lemma handle_inv now raw s :
  I s ->
  (forall n, py_int (get_field (parse_message raw) NewSeqNo (int_chars (ss_in s))) = Some n ->
     get_field (parse_message raw) TMsgType [] = smsg_value SEQUENCE_RESET ->
     I (save_seq (set_seq (ss_out s) n s))) ->
  (let q := seq_of (parse_message raw) in
   let s1 := save_seq (set_seq (ss_out s) (Z.max (ss_in s) (q + 1)) s) in
   (q <? ss_in s) && negb (poss_dup (parse_message raw)) = false ->
   get_field (parse_message raw) TMsgType [] <> smsg_value SEQUENCE_RESET ->
   I s1 /\ I (deliver q (parse_message raw) s1)) ->
  I (handle_message send_ok now raw s).1.
Proof.
  intros Hs Hreset Hq. unfold handle_message. destruct (negb (verify_checksum raw)); [done|].
  destruct (bool_decide (_ = smsg_value SEQUENCE_RESET)) eqn:Er; bool_to_prop.
  { destruct (py_int _) eqn:En; [by apply Hreset|done]. }
  destruct (_ && bool_decide _); [by apply bind_send_inv|].
  destruct ((_ <? _) && _) eqn:Ed; [done|]. destruct (Hq Ed Er) as [H1 Hd]. clear Hq Hreset Hs.
  set (s1 := save_seq _) in *. clearbody s1. unfold dispatch.
  destruct (bool_decide _).
  { unfold on_logon. destruct (Hinit s1 H1) as [_ ->]. cbn [andb fst]. by repeat apply HI. }
  destruct (bool_decide _); [done|]. destruct (bool_decide _); [by apply bind_send_inv|].
  destruct (bool_decide _).
  { unfold handle_resend. do 2 (destruct (py_int _); [|done]). by apply bind_send_inv. }
  destruct (bool_decide _); [|done]. cbn [fst]. by repeat apply HI.
Qed.

(** The reader's loop. *)
Lemma feed_inv now data s :
  (forall raw s, I s -> I (handle_message send_ok now raw s).1) -> I s -> I (feed send_ok now data s).
Proof.
  intros Hh Hs. unfold feed. destruct (_ && bool_decide _); [|done].
  assert (forall fuel s, I s -> I (extract_and_handle send_ok fuel now s).1) as He.
  { induction fuel as [|f IH]; intros s0 H0; cbn [extract_and_handle]; [done|].
    destruct (next_frame (ss_buf s0)) as [|rest|msg rest]; [done|by apply IH, HI|].
    assert (I (set_buf rest s0)) as Hb by by apply HI.
    pose proof (Hh msg _ Hb) as H1. destruct (handle_message _ _ _ _) as [s1 []]; [by apply IH|done]. }
  cbv zeta. set (s0 := set_io _ _ _ _ _ s). assert (I s0) as H0 by by apply HI.
  pose proof (He (S (List.length (ss_buf s0))) s0 H0) as H1.
  destruct (extract_and_handle _ _ _ _) as [s2 []]; [done|]. by apply HI.
Qed.

(** Every operation keeps [I] when the handling of received messages does. *)
Lemma fs_step_inv s op :
  (forall now raw s, op = Receive now raw \/ (exists data, op = Feed now data) ->
     I s -> I (handle_message send_ok now raw s).1) ->
  I s -> I (fs_step s op).
Proof.
  intros Hh Hs. destruct op; cbn [fs_step].
  - by apply connect_inv.
  - by apply disconnect_inv.
  - unfold send_new_order. destruct (num qty); [|done]. cbn [mbind option_bind].
    destruct (price_fields px); [|done]. by apply HI.
  - by apply HI.
  - apply Hh; [by left|done].
  - apply feed_inv; [|done]. intros raw s' H'. apply Hh; [right; by exists data|done].
  - by apply heartbeat_inv.
  - by apply HI.
Qed.
End Lift.

(** ** Numbers sent *)

(** A text that carries its sequence number. *)
Definition carries (c : SessionConfig) (p : Z * text) : Prop :=
  exists ty time fields, p.2 = encode_message BEGIN_STRING ty
    ([(tag SenderCompID, sc_sender c); (tag TargetCompID, sc_target c);
      (tag MsgSeqNum, int_chars p.1); (tag SendingTime, time)] ++ fields).

(** A session that initiates, keeps its numbers in a file and does not reset them. *)
Record persistent (s : Session) : Prop := {
  pe_path : has_store_path (ss_config s) = true;
  pe_reset : reset_seq_on_logon (ss_config s) = false;
  pe_initiator : is_acceptor (ss_config s) = false
}.

Record out_inv (s : Session) : Prop := {
  oi_config : persistent s;
  oi_sorted : StronglySorted Z.lt (map fst (ss_wire s));
  oi_bound : Forall (fun p => p.1 < ss_out s) (ss_wire s);
  oi_carries : Forall (carries (ss_config s)) (ss_wire s);
  oi_file : match ss_file s with
            | Some f => f.1 = ss_out s
            | None => ss_wire s = [] /\ ss_out s = 1
            end
}.

Lemma sorted_snoc l x : StronglySorted Z.lt l -> Forall (fun y => y < x) l -> StronglySorted Z.lt (l ++ [x]).
Proof.
  induction 1 as [|y l Hs IH Hy]; intros Hf; cbn [app]; [by repeat constructor|].
  inversion Hf; subst. constructor; [by apply IH|]. apply Forall_app. split; [done|by constructor].
Qed.

Lemma save_seq_file s : persistent s -> save_seq s =
  MkSession (ss_config s) (ss_state s) (ss_out s) (ss_in s) (Some (ss_out s, ss_in s))
      (ss_transport s) (ss_buf s) (ss_running s) (ss_reader s) (ss_last_recv s) (ss_last_sent s)
      (ss_sent_messages s) (ss_logged_on s) (ss_wire s) (ss_app s).
Proof. intros [Hp _ _]. unfold save_seq. by rewrite Hp. Qed.

(** A message sent takes the next number. *)
Lemma send_shape now ty f s :
  persistent s ->
  let s' := (send send_ok now ty f s).1 in
  ss_config s' = ss_config s /\ ss_out s' = ss_out s + 1 /\ ss_in s' = ss_in s /\
  ss_file s' = Some (ss_out s + 1, ss_in s) /\ ss_app s' = ss_app s /\
  (ss_wire s' = ss_wire s \/ exists raw, ss_wire s' = ss_wire s ++ [(ss_out s, raw)] /\
     carries (ss_config s) (ss_out s, raw)).
Proof.
  intros Hp. unfold send, session_header. rewrite save_seq_file by (destruct Hp; by constructor).
  set (raw := encode_message _ _ _).
  assert (carries (ss_config s) (ss_out s, raw)) as Hc by (by exists ty, (fix_time now), f).
  clearbody raw. cbv zeta.
  set (s1 := MkSession _ _ _ _ _ _ _ _ _ _ _ _ _ _ _).
  assert (ss_config s1 = ss_config s /\ ss_out s1 = ss_out s + 1 /\ ss_in s1 = ss_in s /\
    ss_file s1 = Some (ss_out s + 1, ss_in s) /\ ss_app s1 = ss_app s /\ ss_wire s1 = ss_wire s)
    as (H1 & H2 & H3 & H4 & H5 & H6) by done.
  clearbody s1. rewrite <- H1, <- H3, <- H5, <- H6.
  assert (forall s2 : Session * pyres FixError Z,
    s2 = (log_sent (ss_out s) raw s1, Raise TransportError) \/
    s2 = (set_last_sent now (log_sent (ss_out s) raw s1), Ok (ss_out s)) ->
    ss_config s2.1 = ss_config s1 /\ ss_out s2.1 = ss_out s1 /\ ss_in s2.1 = ss_in s1 /\
    ss_file s2.1 = ss_file s1 /\ ss_app s2.1 = ss_app s1 /\
    ss_wire s2.1 = if ss_transport s1 then ss_wire s1 ++ [(ss_out s, raw)] else ss_wire s1) as Hs
    by by intros s2 [-> | ->].
  match goal with |- context [if ?b then ?x else ?y] =>
    destruct (Hs (if b then x else y)) as (K1 & K2 & K3 & K4 & K5 & K6) end.
  { destruct (_ && _); [by left|by right]. }
  rewrite K1, K2, K3, K4, K5, K6, H1. split_and!; try congruence.
  destruct (ss_transport s1); [right; by exists raw|by left].
Qed.

Lemma out_invariant : session_invariant out_inv.
Proof.
  constructor.
  - intros now ty f s [Hp Hs Hb Hc Hf].
    destruct (send_shape now ty f s Hp) as (H1 & H2 & H3 & H4 & H5 & H6).
    set (s' := (send send_ok now ty f s).1) in *. clearbody s'.
    assert (persistent s') as Hp' by (destruct Hp; constructor; by rewrite H1).
    destruct H6 as [H6|(raw & H6 & Hraw)]; constructor; rewrite ?H6, ?H1, ?H4; cbn [fst]; try done.
    + eapply Forall_impl; [exact Hb|]. intros p Hpl. cbv beta in *. lia.
    + rewrite map_app. apply sorted_snoc; [done|]. apply Forall_map. exact Hb.
    + apply Forall_app. split; [|constructor; [cbn [fst]; lia|done]].
      eapply Forall_impl; [exact Hb|]. intros p Hpl. cbv beta in *. lia.
    + apply Forall_app. split; [done|by constructor].
  - intros st s [[] ? ? ? ?]. by constructor.
  - intros b s [[] ? ? ? ?]. by constructor.
  - intros t rn rd buf lr s [[] ? ? ? ?]. by constructor.
  - intros s Hs. rewrite save_seq_file by apply Hs. destruct Hs as [[] ? ? ? ?]. by constructor.
  - intros now t s [[Hp Hr Ha] Hs Hb Hc Hf]. unfold restart_engine, new_session. rewrite Hp.
    destruct (ss_file s) as [[o i]|] eqn:E; cbn in Hf |- *.
    + subst o. by constructor.
    + destruct Hf as [Hw Ho]. rewrite Ho, Hw in *. by constructor.
Qed.

Lemma out_inv_run s ops : out_inv s -> out_inv (fs_run s ops).
Proof.
  revert s. induction ops as [|op ops IH]; intros s Hs; [done|]. apply IH.
  assert (forall s, out_inv s ->
    reset_seq_on_logon (ss_config s) = false /\ is_acceptor (ss_config s) = false) as Hc.
  { by intros s' [[] _ _ _ _]. }
  assert (forall o i s, out_inv s -> o = ss_out s -> out_inv (save_seq (set_seq o i s))) as Hset.
  { intros o i s' [[] ? ? ? ?] ->. rewrite save_seq_file by by constructor. by constructor. }
  apply (fs_step_inv out_inv out_invariant Hc); [|done]. intros now raw s' _ H'.
  apply (handle_inv out_inv out_invariant Hc); [done|..].
  - intros n _ _. by apply Hset.
  - cbv zeta. intros _ _. pose proof (Hset (ss_out s') (Z.max (ss_in s') (seq_of (parse_message raw) + 1)) s' H' eq_refl) as H1.
    split; [done|]. destruct H1 as [[] ? ? ? ?]. by constructor.
Qed.

(** Outbound sequence numbers are never used twice. For an initiator that
    keeps its numbers in a file and does not reset them, whatever is connected,
    sent, received or restarted, the messages handed to the transport carry
    strictly increasing sequence numbers. *)
Theorem outbound_numbers_increase c file t0 t ops :
  has_store_path c = true -> reset_seq_on_logon c = false -> is_acceptor c = false ->
  let s := fs_run (new_session c file t t0) ops in
  StronglySorted Z.lt (map fst (ss_wire s)) /\ Forall (carries (ss_config s)) (ss_wire s) /\
  Forall (fun p => p.1 < ss_out s) (ss_wire s).
Proof.
  intros Hp Hr Ha s. assert (out_inv s) as Hs; [|by destruct Hs].
  apply out_inv_run. unfold new_session. rewrite Hp.
  destruct file as [[o i]|]; by repeat constructor.
Qed.

(** ** Messages received *)

(** A message that neither resets the numbers nor claims to be a duplicate. *)
Definition ordinary_message (raw : text) : bool :=
  negb (bool_decide (get_field (parse_message raw) TMsgType [] = smsg_value SEQUENCE_RESET)) &&
  negb (poss_dup (parse_message raw)).

(** Messages one at a time; [chunks_do_not_matter] reduces pieces of the stream to
    this case. *)
Definition ordinary_op (op : fs_op) : bool :=
  match op with
  | Receive _ raw => ordinary_message raw
  | Feed _ _ => false
  | _ => true
  end.

Record in_inv (s : Session) : Prop := {
  ii_config : persistent s;
  ii_sorted : StronglySorted Z.lt (map fst (ss_app s));
  ii_bound : Forall (fun p => p.1 < ss_in s) (ss_app s);
  ii_file : match ss_file s with
            | Some f => f.2 = ss_in s
            | None => ss_app s = [] /\ ss_in s = 1
            end
}.

Lemma in_invariant : session_invariant in_inv.
Proof.
  constructor.
  - intros now ty f s [Hp Hs Hb Hf].
    destruct (send_shape now ty f s Hp) as (H1 & H2 & H3 & H4 & H5 & _).
    set (s' := (send send_ok now ty f s).1) in *. clearbody s'.
    assert (persistent s') as Hp' by (destruct Hp; constructor; by rewrite H1).
    constructor; rewrite ?H3, ?H4, ?H5; done.
  - intros st s [[] ? ? ?]. by constructor.
  - intros b s [[] ? ? ?]. by constructor.
  - intros t rn rd buf lr s [[] ? ? ?]. by constructor.
  - intros s Hs. rewrite save_seq_file by apply Hs. destruct Hs as [[] ? ? ?]. by constructor.
  - intros now t s [[Hp Hr Ha] Hs Hb Hf]. unfold restart_engine, new_session. rewrite Hp.
    destruct (ss_file s) as [[o i]|] eqn:E; cbn in Hf |- *.
    + subst i. by constructor.
    + destruct Hf as [Hw Ho]. rewrite Ho, Hw in *. by constructor.
Qed.

(** Receiving moves the expected number past the message. *)
Lemma receive_in_inv s q f :
  in_inv s -> ss_in s <= q ->
  let s1 := save_seq (set_seq (ss_out s) (Z.max (ss_in s) (q + 1)) s) in
  in_inv s1 /\ in_inv (deliver q f s1).
Proof.
  intros [[] Hs Hb Hf] Hq s1. unfold s1. rewrite save_seq_file by by constructor.
  unfold set_seq, deliver. cbn [ss_out ss_in ss_app ss_config ss_wire ss_file ss_transport].
  assert (Forall (fun p => p.1 < Z.max (ss_in s) (q + 1)) (ss_app s)) as Hb'.
  { eapply Forall_impl; [exact Hb|]. intros p Hp. cbv beta in *. lia. }
  split; constructor; cbn [ss_app ss_in ss_file snd]; try done.
  all: destruct (has_app_callback _); try done.
  - rewrite map_app. apply sorted_snoc; [done|]. apply Forall_map.
    eapply Forall_impl; [exact Hb|]. intros p Hp. cbv beta in *. cbn [fst]. lia.
  - apply Forall_app. split; [done|]. constructor; [cbn [fst]; lia|done].
Qed.

Lemma in_inv_run s ops : forallb ordinary_op ops = true -> in_inv s -> in_inv (fs_run s ops).
Proof.
  revert s. induction ops as [|op ops IH]; intros s Ho Hs; [done|]. cbn [forallb] in Ho.
  apply andb_true_iff in Ho as [Hop Ho]. apply IH; [done|].
  assert (forall s, in_inv s ->
    reset_seq_on_logon (ss_config s) = false /\ is_acceptor (ss_config s) = false) as Hc.
  { by intros s' [[] _ _ _]. }
  apply (fs_step_inv in_inv in_invariant Hc); [|done]. intros now raw s' Hraw H'.
  assert (ordinary_message raw = true) as Hm.
  { by destruct Hraw as [->|[data ->]]. }
  unfold ordinary_message in Hm. apply andb_true_iff in Hm as [Ht Hd].
  apply negb_true_iff in Hd, Ht. apply bool_decide_eq_false in Ht.
  apply (handle_inv in_inv in_invariant Hc); [done|by intros n _ ?|].
  cbv zeta. intros Hold _. apply receive_in_inv; [done|].
  destruct (Z.ltb_spec (seq_of (parse_message raw)) (ss_in s')); [|done].
  by rewrite Hd in Hold.
Qed.

(** C24: application messages are delivered at most once, in order. For an initiator
    that keeps its sequence numbers in a file (a store path, which is not the default)
    and does not reset them on logon: whatever ordinary messages arrive (no sequence
    reset, none marked as a possible duplicate), repeated, reordered or damaged, and
    however often the engine is restarted on its file, the application sees strictly
    increasing sequence numbers, all below the next one expected. Without a store path
    a restart expects number 1 again. *)
Theorem delivered_once_in_order c file t0 t ops :
  has_store_path c = true -> reset_seq_on_logon c = false -> is_acceptor c = false ->
  forallb ordinary_op ops = true ->
  let s := fs_run (new_session c file t t0) ops in
  StronglySorted Z.lt (map fst (ss_app s)) /\ Forall (fun p => p.1 < ss_in s) (ss_app s).
Proof.
  intros Hp Hr Ha Ho s. assert (in_inv s) as Hs; [|by destruct Hs].
  apply in_inv_run; [done|]. unfold new_session. rewrite Hp.
  destruct file as [[o i]|]; by repeat constructor.
Qed.
End Runs.

(** ** What gaps and duplicates do *)

Definition all_ok (_ : text) : bool := true.

Definition fix_config (me peer : string) (acceptor : bool) : SessionConfig :=
  MkSessionConfig (chars me) (chars peer) 30 false true acceptor true.

(** An active session that has sent [o - 1] messages and expects [i]. *)
Definition active_session (me peer : string) (o i : Z) : Session :=
  set_ss_state ACTIVE
    (set_io true true true [] 0 (new_session (fix_config me peer false) (Some (o, i)) true 0)).

Definition report (s : Session) : Session :=
  (send all_ok 0 (msg_type_value EXECUTION_REPORT) [(tag TSymbol, chars "BTC")] s).1.

Definition last_sent_text (s : Session) : text :=
  match rev (ss_wire s) with
  | p :: _ => p.2
  | [] => []
  end.

Definition receive (raw : text) (s : Session) : Session := (handle_message all_ok 0 raw s).1.

(** One round: [a] reports, [b] receives it and asks for what it missed, [a]
    answers, [b] receives the answer. *)
Definition gap_round (ab : Session * Session) : Session * Session :=
  let '(a, b) := ab in
  let a1 := report a in
  let b1 := receive (last_sent_text a1) b in
  let a2 := receive (last_sent_text b1) a1 in
  (a2, receive (last_sent_text a2) b1).

Definition repeat_rounds (n : nat) (ab : Session * Session) : Session * Session :=
  Nat.iter n gap_round ab.

(** After one lost message no later one is delivered: the gap fill takes a
    sequence number itself, which the number it announces does not count. *)
Theorem gap_never_heals :
  let '(a, b) := repeat_rounds 6 (active_session "A" "B" 5 1, active_session "B" "A" 1 4) in
  ss_app b = [] /\ List.length (ss_wire a) = 12%nat /\ ss_in b = ss_out a - 1.
Proof. by vm_compute. Qed.

Definition possdup_report : text :=
  encode_message BEGIN_STRING (chars "8")
    [(tag MsgSeqNum, chars "1"); (tag PossDupFlag, chars "Y"); (tag TSymbol, chars "BTC")].

(** A message marked as a possible duplicate is delivered as often as it comes. *)
Theorem possible_duplicates_redelivered :
  map fst (ss_app (receive possdup_report (receive possdup_report (active_session "A" "B" 1 1))))
  = [1; 1].
Proof. by vm_compute. Qed.

(** A sequence reset without a number ends the reader for good. *)
Theorem malformed_reset_ends_reader :
  let raw := encode_message BEGIN_STRING (chars "4") [(tag MsgSeqNum, chars "1"); (tag NewSeqNo, chars "x")] in
  let s := feed all_ok 0 raw (active_session "A" "B" 1 1) in
  ss_reader s = false /\ ss_state s = ACTIVE /\
  feed all_ok 0 (encode_message BEGIN_STRING (chars "8") [(tag MsgSeqNum, chars "1")]) s = s.
Proof. by vm_compute. Qed.

(** An acceptor that resets its numbers on a logon expects the logon again. *)
Theorem reset_logon_expected_again :
  let a := (connect all_ok 0 true (new_session (fix_config "A" "B" true) None true 0)).1 in
  let logon := encode_message BEGIN_STRING (chars "A")
    [(tag MsgSeqNum, chars "1"); (tag ResetSeqNumFlag, chars "Y")] in
  let next := encode_message BEGIN_STRING (chars "8") [(tag MsgSeqNum, chars "2")] in
  let s := receive next (receive logon a) in
  ss_state s = ACTIVE /\ ss_in s = 1 /\ ss_app s = [].
Proof. by vm_compute. Qed.

(** ** Witnesses *)

Definition session_ops : list fs_op :=
  [Connect 0 true; CancelOrder 1 (chars "o1") (chars "c1") (chars "BTC") (chars "buy");
   Receive 2 (encode_message BEGIN_STRING (chars "8") [(tag MsgSeqNum, chars "1")]);
   RestartEngine 3 true; Connect 4 true; Disconnect 5 (chars "bye")].

Lemma outbound_numbers_increase_witness :
  StronglySorted Z.lt
    (map fst (ss_wire (fs_run all_ok (new_session (fix_config "A" "B" false) None true 0) session_ops))).
Proof.
  apply (outbound_numbers_increase all_ok (fix_config "A" "B" false) None 0 true session_ops);
    reflexivity.
Defined.

Lemma delivered_once_in_order_witness :
  StronglySorted Z.lt
    (map fst (ss_app (fs_run all_ok (new_session (fix_config "A" "B" false) None true 0) session_ops))).
Proof.
  apply (delivered_once_in_order all_ok (fix_config "A" "B" false) None 0 true session_ops).
  - reflexivity.
  - reflexivity.
  - reflexivity.
  - vm_compute. reflexivity.
Defined.
