(* ===== verification/Allocation.v ===== *)
(** * Post-trade allocation and settlement: [packages/agent/execution/allocation.py]

    Average-price allocation of a block to sub-accounts, the settlement calendar,
    netting, and [ClearingEngine.process_block].  Quantities and prices are decimals
    of the default context; a date is its day number from 1970-01-01. *)
From Stdlib Require Import QArith Lqa.
From Stdlib Require Import Ascii String.
From S2P Require Import Prelude PyDecimal DecArith PyValue PyFormat PyJson.
Open Scope Z_scope.
Open Scope list_scope.

(** ** Quantize *)

(** [n / 10^k] rounded to the nearest integer, ties away from zero, for [n >= 0]. *)
Definition round_half_up (n k : Z) : Z :=
  let q := n / 10 ^ k in
  if 10 ^ k <=? 2 * (n mod 10 ^ k) then q + 1 else q.

(** [d.quantize(Decimal((0, (1,), e)), rounding)]; [None] is [InvalidOperation],
    when the result needs more digits than the context has. *)
Definition dquantize (round : Z -> Z -> Z) (e : Z) (d : dec) : option dec :=
  let c :=
    if e <=? dexp d then Z.abs (coef d) * 10 ^ (dexp d - e)
    else round (Z.abs (coef d)) (e - dexp d) in
  if prec <? ndigits c then None else Some (Dec (Z.sgn (coef d) * c) e).

Example dquantize_ex :
  (dquantize round_half_up (-2) (Dec 12345 (-3)), dquantize round_half_even (-2) (Dec 12345 (-3)),
   dquantize round_half_up (-8) (Dec 1 30))
  = (Some (Dec 1235 (-2)), Some (Dec 1234 (-2)), None).
Proof. reflexivity. Qed.

(** ** Data *)

Record Fill := MkFill { f_qty : dec; f_price : dec }.

Record SubAccountTarget := MkTarget { t_account : string; t_qty : dec }.

Record AccountAllocation := MkAllocation {
  a_account : string;
  a_qty : dec;
  a_price : dec;
  a_notional : dec
}.

Record GiveUp := MkGiveUp {
  executing_broker : string;
  clearing_broker : string;
  gu_account : string;
  cmta_code : string
}.

Record AllocationResult := MkAllocResult {
  ar_symbol : string;
  ar_side : string;
  avg_price : dec;
  total_filled : dec;
  allocations : list AccountAllocation;
  residual : dec;
  ar_give_up : option dict
}.

Definition allocation_to_dict (a : AccountAllocation) : dict :=
  [("account", VStr (a_account a)); ("qty", VStr (dec_str (a_qty a)));
   ("price", VStr (dec_str (a_price a))); ("notional", VStr (dec_str (a_notional a)))]%string.

Definition giveup_to_dict (g : GiveUp) : dict :=
  [("executing_broker", VStr (executing_broker g)); ("clearing_broker", VStr (clearing_broker g));
   ("account", VStr (gu_account g)); ("cmta_code", VStr (cmta_code g));
   ("type", VStr "give_up_cmta")]%string.

(** ** Average-price allocation *)

(** [None] when a division or a quantization raises. *)
Definition average_fill_price (fills : list Fill) : option dec :=
  let tot_qty := dsum (map f_qty fills) in
  if deqb tot_qty dzero then Some dzero
  else ddiv (dsum (map (fun f => dmul (f_qty f) (f_price f)) fills)) tot_qty.

Definition dec_eight : Z := -8.
Definition dec_cents : Z := -2.

(** One account's share of what was filled, rounded to eight places. *)
Definition account_share (total requested : dec) (t : SubAccountTarget) : option (string * dec) :=
  share ← ddiv (t_qty t) requested;
  q ← dquantize round_half_up dec_eight (dmul total share);
  Some (t_account t, q).

(** [max(range(len(l)), key=...)]: the first index of a largest quantity. *)
Fixpoint max_index (best : nat) (best_q : dec) (i : nat) (l : list (string * dec)) : nat :=
  match l with
  | [] => best
  | (_, q) :: r => if dltb best_q q then max_index i q (S i) r else max_index best best_q (S i) r
  end.

Definition largest (l : list (string * dec)) : nat :=
  match l with
  | [] => 0
  | (_, q) :: r => max_index 0 q 1 r
  end.

(** The residual is pushed onto the largest quantity. *)
Definition push_residual (res : dec) (l : list (string * dec)) : list (string * dec) * dec :=
  if negb (bool_decide (l = [])) && negb (deqb res dzero) then
    (alter (fun p => (p.1, dadd p.2 res)) (largest l) l, dzero)
  else (l, res).

Definition priced (avg : dec) (p : string * dec) : option AccountAllocation :=
  n ← dquantize round_half_even dec_cents (dmul p.2 avg);
  Some (MkAllocation p.1 p.2 avg n).

Definition average_price_allocation (sym side : string) (fills : list Fill)
    (targets : list SubAccountTarget) (gu : option GiveUp) : option AllocationResult :=
  let total := dsum (map f_qty fills) in
  avg ← average_fill_price fills;
  let requested := dsum (map t_qty targets) in
  if dleb requested dzero || dleb total dzero then
    Some (MkAllocResult sym side avg total [] total None)
  else
    floor_q ← mapM (account_share total requested) targets;
    let allocated := dsum (map snd floor_q) in
    let '(final, res) := push_residual (dsub total allocated) floor_q in
    allocs ← mapM (priced avg) final;
    Some (MkAllocResult sym side avg total allocs res (giveup_to_dict <$> gu)).

(** ** Settlement dates *)

Definition settle_days (asset_class : string) : Z :=
  let a := map (fun c => let n := nat_of_ascii c in
                         if ((65 <=? n) && (n <=? 90))%nat then ascii_of_nat (n + 32) else c)
               (list_ascii_of_string asset_class) in
  match string_of_list_ascii a with
  | "equity" | "etf" | "bond" | "futures" | "options" => 1
  | "crypto" => 0
  | "fx" => 2
  | _ => 2
  end%string.

(** Days from 1970-01-01 to the first of January 2026, and the holidays of that
    year as offsets from it. *)
Definition y2026 : Z := 20454.
Definition US_HOLIDAYS_2026 : list Z :=
  map (fun k => y2026 + k) [0; 18; 46; 92; 144; 169; 183; 249; 329; 358].

Definition business_day (d : Z) : bool :=
  (weekday d <? 5) && negb (bool_decide (d ∈ US_HOLIDAYS_2026)).

(** The loop of [_add_business_days], with fuel; [None] is [OverflowError]. *)
Fixpoint add_business_days_go (fuel : nat) (cur added n : Z) : option Z :=
  match fuel with
  | O => None
  | S f =>
      if added <? n then
        let cur := cur + 1 in
        if date_max <? cur then None
        else add_business_days_go f cur (if business_day cur then added + 1 else added) n
      else Some cur
  end.

(** A business day comes at least every four days. *)
Definition add_business_days (d n : Z) : option Z :=
  add_business_days_go (S (4 * Z.to_nat n)) d 0 n.

Definition settlement_date (trade_date : Z) (asset_class : string) : option Z :=
  let n := settle_days asset_class in
  if 0 <? n then add_business_days trade_date n else Some trade_date.

(** ** Netting *)

(** [side.upper() == "BUY"] *)
Definition is_buy (side : string) : bool :=
  bool_decide (map (fun c => let n := nat_of_ascii c in
                             if ((97 <=? n) && (n <=? 122))%nat then ascii_of_nat (n - 32) else c)
                   (list_ascii_of_string side) = list_ascii_of_string "BUY").

Definition net_account (sign : dec) (out : option (list (string * dict))) (a : AccountAllocation) :
    option (list (string * dict)) :=
  o ← out;
  cash ← dquantize round_half_even dec_cents (dmul (dneg sign) (a_notional a));
  Some (dset o (a_account a)
    [("cash_delta", VStr (dec_str cash));
     ("position_delta", VStr (dec_str (dmul sign (a_qty a))))]%string).

Definition net_settlement (l : list AccountAllocation) (side : string) :
    option (list (string * dict)) :=
  let sign := if is_buy side then Dec 1 0 else Dec (-1) 0 in
  fold_left (net_account sign) l (Some []).

Record BlockResult := MkBlock {
  bk_allocation : AllocationResult;
  bk_settlement : Z;
  bk_asset_class : string;
  bk_net : list (string * dict)
}.

(** [ClearingEngine.process_block] *)
Definition process_block (sym side : string) (fills : list Fill) (targets : list SubAccountTarget)
    (trade_date : Z) (asset_class : string) (gu : option GiveUp) : option BlockResult :=
  r ← average_price_allocation sym side fills targets gu;
  settle ← settlement_date trade_date asset_class;
  net ← net_settlement (allocations r) side;
  Some (MkBlock r settle asset_class net).

(** ** Quantization and sums that fit *)

Lemma round_half_up_le m n k : 0 <= k -> n <= m * 10 ^ k -> round_half_up n k <= m.
Proof.
  intros Hk H. unfold round_half_up. pose proof (Z.pow_pos_nonneg 10 k ltac:(lia) Hk) as Hp.
  destruct (decide (n = m * 10 ^ k)) as [->|Hne].
  - rewrite Z.mod_mul, Z.div_mul by lia. destruct (Z.leb_spec (10 ^ k) (2 * 0)); lia.
  - pose proof (Z.div_lt_upper_bound n (10 ^ k) m ltac:(lia) ltac:(lia)).
    destruct (_ <=? _); lia.
Qed.

Lemma round_half_up_nonneg n k : 0 <= k -> 0 <= n -> 0 <= round_half_up n k.
Proof.
  intros Hk Hn. unfold round_half_up. pose proof (Z.pow_pos_nonneg 10 k ltac:(lia) Hk) as Hp.
  pose proof (Z.div_pos n (10 ^ k) Hn Hp). destruct (_ <=? _); lia.
Qed.

Lemma round_half_even_nonneg n k : 0 <= k -> 0 <= n -> 0 <= round_half_even n k.
Proof. intros Hk Hn. apply round_half_even_ge; [done|lia]. Qed.

(** A value of at most [b] quantizes within [b], on the grid. *)
Lemma dquantize_fits round e b d :
  (forall m n k, 0 <= k -> n <= m * 10 ^ k -> round n k <= m) ->
  (forall n k, 0 <= k -> 0 <= n -> 0 <= round n k) ->
  e <= 0 -> b * 10 ^ (- e) < 10 ^ prec -> (Qabs.Qabs (dval d) <= inject_Z b)%Q ->
  exists c, dquantize round e d = Some (Dec (Z.sgn (coef d) * c) e) /\ 0 <= c <= b * 10 ^ (- e).
Proof.
  intros Hle Hnn He Hb Hd. rewrite abs_dval in Hd. unfold dquantize.
  set (c := if e <=? dexp d then _ else _). exists c.
  assert (0 <= c <= b * 10 ^ (- e)) as Hc.
  { unfold c. destruct (Z.leb_spec e (dexp d)) as [H|H].
    - split; [apply Z.mul_nonneg_nonneg; lia|]. rewrite (ten_to_split b e He) in Hd.
      apply (scaled_le _ _ e). rewrite inject_Z_mult, <- ten_to_Z, <- Qmult_assoc, <- ten_to_add by lia.
      by replace (dexp d - e + e) with (dexp d) by lia.
    - split; [apply Hnn; lia|]. apply Hle; [lia|]. rewrite <- Z.mul_assoc, <- Z.pow_add_r by lia.
      replace (- e + (e - dexp d)) with (- dexp d) by lia.
      rewrite (ten_to_split b (dexp d)) in Hd by lia. by apply scaled_le in Hd. }
  split; [|done].
  pose proof (ndigits_small c prec eq_refl ltac:(lia)) as Hn.
  by destruct (Z.ltb_spec prec (ndigits c)); [lia|].
Qed.

(** ** Shares *)

(** A sum of non-negative quantities is at least each of them, as computed. *)
Lemma dsum_ge_elem l d :
  Forall (fun d => representable d /\ (0 <= dval d)%Q) l -> d ∈ l -> (dval d <= dval (dsum l))%Q.
Proof.
  intros Hl Hd. unfold dsum.
  assert (forall l acc t, representable t -> Forall (fun d => representable d /\ (0 <= dval d)%Q) l ->
    (dval t <= dval acc)%Q -> (dval t <= dval (fold_left dadd l acc))%Q) as Hmono.
  { clear. induction l as [|d l IH]; intros acc t Ht Hl Hle; [done|]. cbn [fold_left].
    inversion Hl as [|? ? [_ Hd] Hl']. subst. apply IH; [done|done|].
    apply dfix_ge; [done|]. rewrite dval_add_exact. lra. }
  assert (forall l acc, Forall (fun d => representable d /\ (0 <= dval d)%Q) l -> (0 <= dval acc)%Q ->
    d ∈ l -> (dval d <= dval (fold_left dadd l acc))%Q) as Hgo.
  { clear -Hmono. induction l as [|x l IH]; intros acc Hl Ha Hin; [by apply not_elem_of_nil in Hin|].
    cbn [fold_left]. inversion Hl as [|? ? [Hr Hx] Hl']. subst.
    apply elem_of_cons in Hin as [->|Hin].
    - apply Hmono; [done|done|]. apply dfix_ge; [done|]. rewrite dval_add_exact. lra.
    - apply IH; [done| |done].
      assert (dval dzero <= dval (dadd acc x))%Q as Hz.
      { apply dfix_ge; [done|]. rewrite dval_add_exact. rewrite dval_zero. lra. }
      by rewrite dval_zero in Hz. }
  apply Hgo; [done| |done]. rewrite dval_zero. lra.
Qed.

Lemma account_share_fits total requested t b :
  representable total -> (0 <= dval total <= inject_Z b)%Q -> 0 <= b -> b * 10 ^ 8 < 10 ^ prec ->
  (0 <= dval (t_qty t))%Q -> (dval (t_qty t) <= dval requested)%Q -> (0 < dval requested)%Q ->
  exists q, account_share total requested t = Some (t_account t, q) /\ dexp q = -8 /\
    (0 <= dval q <= inject_Z b)%Q.
Proof.
  intros Ht [Htp Htb] Hb Hfit Hq Hqr Hr. unfold account_share.
  destruct (ddiv_some (t_qty t) requested Hr) as [share Hs]. rewrite Hs. cbn [mbind option_bind].
  pose proof (ddiv_ge dzero _ _ _ ltac:(by vm_compute) Hr Hs) as H0. rewrite dval_zero in H0.
  pose proof (ddiv_le (Dec 1 0) _ _ _ ltac:(by vm_compute) Hr Hs) as H1.
  assert (dval (Dec 1 0) == 1)%Q as Hone by reflexivity. rewrite Hone in H1.
  specialize (H0 ltac:(lra)). specialize (H1 ltac:(lra)).
  set (p := dmul total share).
  assert (dval dzero <= dval p)%Q as Hp0.
  { apply dfix_ge; [done|]. rewrite dval_zero, dval_mul_exact. by apply Qmult_le_0_compat. }
  assert (dval p <= dval total)%Q as Hp1.
  { apply dfix_le; [done|]. rewrite dval_mul_exact.
    rewrite <- (Qmult_1_r (dval total)) at 2. rewrite !(Qmult_comm (dval total)).
    by apply Qmult_le_compat_r. }
  rewrite dval_zero in Hp0.
  destruct (dquantize_fits round_half_up dec_eight b p round_half_up_le round_half_up_nonneg)
    as (c & -> & Hc); [done|done| |].
  { rewrite Qabs.Qabs_pos by done. lra. }
  cbn [mbind option_bind]. exists (Dec (Z.sgn (coef p) * c) dec_eight). split_and!; [done|done|..].
  - unfold dval. cbn [coef dexp]. apply Qmult_le_0_compat; [|apply Qlt_le_weak, ten_to_pos].
    change 0%Q with (inject_Z 0). rewrite <- Zle_Qle.
    assert (0 <= coef p) as Hcp.
    { apply Z.nlt_ge. intros Hn. apply dval_sign in Hn. lra. }
    destruct (Z.sgn_spec (coef p)) as [[? ->]|[[? ->]|[? ->]]]; lia.
  - rewrite (ten_to_split b dec_eight) by done. unfold dval. cbn [coef dexp]. apply scaled_le.
    destruct (Z.sgn_spec (coef p)) as [[? ->]|[[? ->]|[? ->]]]; lia.
Qed.

(** ** The residual *)

Lemma max_index_bound best q i l : (best < i)%nat -> (max_index best q i l < i + List.length l)%nat.
Proof.
  revert best q i. induction l as [|[a x] l IH]; intros best q i H; cbn [max_index List.length]; [lia|].
  destruct (dltb q x).
  - pose proof (IH i x (S i) ltac:(lia)). lia.
  - pose proof (IH best q (S i) ltac:(lia)). lia.
Qed.

Lemma largest_bound l : l <> [] -> (largest l < List.length l)%nat.
Proof.
  destruct l as [|[a q] l]; [done|]. intros _. cbn [largest List.length].
  pose proof (max_index_bound 0 q 1 l). lia.
Qed.

Lemma alter_middle {A} (f : A -> A) i l :
  (i < List.length l)%nat -> exists a x b, l = a ++ x :: b /\ alter f i l = a ++ f x :: b.
Proof.
  intros Hi. destruct (lookup_lt_is_Some_2 l i Hi) as [x Hx].
  destruct (list_elem_of_split_length l i x Hx) as (a & b & -> & ->).
  exists a, x, b. split; [done|]. rewrite alter_app_r_alt by done. by rewrite Nat.sub_diag.
Qed.

(** Quantities on the grid of eight places, at most [b] each. *)
Definition on_grid (b : Z) (p : string * dec) : Prop :=
  dexp p.2 = -8 /\ (0 <= dval p.2 <= inject_Z b)%Q.

Lemma Qabs_range q b : (0 <= q <= inject_Z b)%Q -> (Qabs.Qabs q <= inject_Z b)%Q.
Proof. intros [H1 H2]. by rewrite Qabs.Qabs_pos. Qed.

(** Pushing the residual makes the total exact. *)
Lemma push_residual_exact total l b :
  l <> [] -> 0 <= b -> -10 <= dexp total -> (0 <= dval total <= inject_Z b)%Q ->
  Forall (on_grid b) l -> (Z.of_nat (List.length l) + 3) * b * 10 ^ 10 < 10 ^ prec ->
  let '(final, res) := push_residual (dsub total (dsum (map snd l))) l in
  map fst final = map fst l /\ (dval res == 0)%Q /\ (qsum (map snd final) == dval total)%Q /\
  Forall (fun p => Qabs.Qabs (dval p.2) <= inject_Z ((Z.of_nat (List.length l) + 2) * b))%Q final.
Proof.
  intros Hne Hb He Ht Hl Hfit. set (n := Z.of_nat (List.length l)) in *.
  assert (1 <= n) as Hn by (unfold n; destruct l; [done|cbn [List.length]; lia]).
  assert (Forall (fun d => - 10 <= dexp d) (map snd l)) as Hexp.
  { apply Forall_map. eapply Forall_impl; [exact Hl|]. intros p [-> _]. lia. }
  assert (Forall (fun d => Qabs.Qabs (dval d) <= inject_Z b)%Q (map snd l)) as Habs.
  { apply Forall_map. eapply Forall_impl; [exact Hl|]. intros p [_ Hp]. by apply Qabs_range. }
  destruct (dsum_grid (map snd l) b 10) as [Hsum Hse]; [lia|done|done|done| |].
  { rewrite length_map. fold n. nia. }
  pose proof (qsum_bound _ _ Habs) as Hq. rewrite length_map in Hq. fold n in Hq.
  pose proof (Qabs_range _ _ Ht) as Hta.
  assert (inject_Z ((n + 1) * b) == inject_Z b + inject_Z (n * b))%Q as Hnb.
  { rewrite <- inject_Z_plus. replace ((n + 1) * b) with (b + n * b) by lia. reflexivity. }
  assert (inject_Z ((n + 2) * b) == inject_Z b + inject_Z ((n + 1) * b))%Q as Hnb2.
  { rewrite <- inject_Z_plus. replace ((n + 2) * b) with (b + (n + 1) * b) by lia. reflexivity. }
  set (allocated := dsum (map snd l)) in *. set (res := dsub total allocated).
  assert (dval res == dval total - qsum (map snd l))%Q as Hres.
  { unfold res. rewrite dval_dsub, Hsum; [done|].
    apply (add_fits_grid _ _ ((n + 1) * b) 10); [lia|lia|cbn; lia|nia|].
    rewrite dval_copy_neg, Hsum, Hnb. eapply Qle_trans; [apply Qabs.Qabs_triangle|].
    rewrite Qabs.Qabs_opp. lra. }
  assert (Qabs.Qabs (dval res) <= inject_Z ((n + 1) * b))%Q as Hra.
  { rewrite Hres, Hnb. eapply Qle_trans; [apply Qabs.Qabs_triangle|]. rewrite Qabs.Qabs_opp. lra. }
  assert (inject_Z b <= inject_Z ((n + 2) * b))%Q as Hbb by (rewrite <- Zle_Qle; nia).
  assert (-10 <= dexp res) as Hree.
  { unfold res, dsub, dadd. rewrite dfix_small; [cbn [dexp]; unfold common; cbn [dexp copy_neg]; lia|].
    apply (add_fits_grid total (copy_neg allocated) ((n + 1) * b) 10); [lia|lia|cbn; lia|nia|].
    rewrite dval_copy_neg, Hsum, Hnb. eapply Qle_trans; [apply Qabs.Qabs_triangle|].
    rewrite Qabs.Qabs_opp. lra. }
  unfold push_residual. rewrite (bool_decide_eq_false_2 (l = [])) by done. cbn [negb andb].
  destruct (deqb res dzero) eqn:Ez; cbn [negb].
  - apply deqb_spec in Ez. rewrite dval_zero in Ez. rewrite Hres in Ez.
    split_and!; [done| |lra|].
    + rewrite Hres. lra.
    + eapply Forall_impl; [exact Hl|]. intros p [_ Hp]. pose proof (Qabs_range _ _ Hp). lra.
  - destruct (alter_middle (fun p => (p.1, dadd p.2 res)) (largest l) l (largest_bound l Hne))
      as (a & x & c & Hlx & Hal). rewrite Hal.
    assert (on_grid b x) as [Hxe Hx].
    { rewrite Forall_forall in Hl. apply Hl. rewrite Hlx. apply elem_of_app. right. by left. }
    pose proof (Qabs_range _ _ Hx) as Hxa.
    destruct (dadd_grid x.2 res ((n + 2) * b) 10) as [Hv _]; [lia|lia|done|nia| |].
    { rewrite Hnb2. eapply Qle_trans; [apply Qabs.Qabs_triangle|]. lra. }
    split_and!.
    + rewrite Hlx, !map_app. done.
    + apply dval_zero.
    + rewrite map_app, qsum_app. cbn [map snd qsum]. rewrite Hv, Hres, Hlx, map_app, qsum_app.
      cbn [map snd qsum]. ring.
    + rewrite Hlx in Hl. apply Forall_app in Hl as [Ha Hc]. inversion Hc as [|? ? _ Hc']. subst.
      assert (forall l, Forall (on_grid b) l ->
        Forall (fun p => Qabs.Qabs (dval p.2) <= inject_Z ((n + 2) * b))%Q l) as Hw.
      { intros l0 H0. eapply Forall_impl; [exact H0|]. intros p [_ Hp].
        pose proof (Qabs_range _ _ Hp). lra. }
      apply Forall_app. split; [by apply Hw|]. constructor; [|by apply Hw]. cbn [snd].
      rewrite Hv, Hnb2. eapply Qle_trans; [apply Qabs.Qabs_triangle|]. lra.
Qed.

Lemma mapM_Forall2 {A B} (f : A -> option B) (P : A -> B -> Prop) l :
  Forall (fun x => exists y, f x = Some y /\ P x y) l -> exists k, mapM f l = Some k /\ Forall2 P l k.
Proof.
  induction 1 as [|x l (y & Hy & HP) _ (k & Hk & IH)]; [by exists []|].
  exists (y :: k). split; [|by constructor]. apply mapM_Some. constructor; [done|].
  by apply mapM_Some in Hk.
Qed.

Lemma Forall2_map_eq {A B C} (g : A -> C) (h : B -> C) l k :
  Forall2 (fun x y => h y = g x) l k -> map h k = map g l.
Proof. induction 1 as [|x y l k Hxy _ IH]; [done|]. cbn [map]. by rewrite Hxy, IH. Qed.

(** A notional of a bounded quantity at a bounded price. *)
Lemma priced_fits avg p :
  (Qabs.Qabs (dval avg) <= inject_Z (10 ^ 8))%Q ->
  (Qabs.Qabs (dval p.2) <= inject_Z (1002 * 10 ^ 14))%Q ->
  exists a, priced avg p = Some a /\ (a_account a = p.1 /\ a_qty a = p.2 /\ a_price a = avg).
Proof.
  intros Ha Hp. unfold priced.
  destruct (dquantize_fits round_half_even dec_cents (1002 * 10 ^ 22) (dmul p.2 avg)
    (fun m n k H => round_half_even_le m n k H) round_half_even_nonneg) as (c & -> & _); [done|done| |].
  { assert (Qabs.Qabs (dval p.2 * dval avg) <= inject_Z (1002 * 10 ^ 22))%Q as Hm.
    { rewrite Qabs.Qabs_Qmult. change (1002 * 10 ^ 22) with ((1002 * 10 ^ 14) * 10 ^ 8).
      rewrite inject_Z_mult. apply Qmult_le_compat_nonneg; split; try done; apply Qabs.Qabs_nonneg. }
    apply Qabs.Qabs_Qle_condition in Hm as [Hlo Hhi].
    assert (dval (Dec (1002 * 10 ^ 22) 0) == inject_Z (1002 * 10 ^ 22))%Q as Ht
      by (unfold dval; cbn [coef dexp]; change (ten_to 0) with 1%Q; ring).
    assert (representable (Dec (1002 * 10 ^ 22) 0)) as Hr by by vm_compute.
    apply Qabs.Qabs_Qle_condition. split.
    - pose proof (dfix_ge (copy_neg (Dec (1002 * 10 ^ 22) 0)) (Dec (coef p.2 * coef avg) (dexp p.2 + dexp avg))
        (copy_neg_representable _ Hr)) as H.
      rewrite dval_copy_neg, Ht, dval_mul_exact in H. by apply H.
    - pose proof (dfix_le (Dec (1002 * 10 ^ 22) 0) (Dec (coef p.2 * coef avg) (dexp p.2 + dexp avg)) Hr) as H.
      rewrite Ht, dval_mul_exact in H. by apply H. }
  cbn [mbind option_bind]. by eexists.
Qed.

(** ** Theorems *)

(** C37: a block is allocated to the last unit. For up to a thousand accounts with
    non-negative target quantities, not all zero, and a positive fill of at most
    [10^14] units on a grid of [10^-10], at an average price of at most [10^8]:
    the allocation succeeds, gives every account exactly one line, all at the
    average price, and the quantities add up to exactly what was filled, with
    nothing left over. *)
Theorem block_allocated_exactly sym side fills targets gu avg :
  let total := dsum (map f_qty fills) in
  average_fill_price fills = Some avg -> (Qabs.Qabs (dval avg) <= inject_Z (10 ^ 8))%Q ->
  representable total -> -10 <= dexp total -> (0 < dval total <= inject_Z (10 ^ 14))%Q ->
  Z.of_nat (List.length targets) <= 1000 ->
  Forall (fun t => representable (t_qty t) /\ (0 <= dval (t_qty t))%Q) targets ->
  Exists (fun t => 0 < dval (t_qty t))%Q targets ->
  exists r, average_price_allocation sym side fills targets gu = Some r /\
    map a_account (allocations r) = map t_account targets /\
    Forall (fun a => a_price a = avg) (allocations r) /\
    (qsum (map a_qty (allocations r)) == dval (total_filled r))%Q /\
    total_filled r = total /\ (dval (residual r) == 0)%Q.
Proof.
  intros total Havg Hpx Hrep He [Hpos Hmax] Hlen Hts Hex.
  set (requested := dsum (map t_qty targets)).
  assert (forall t, t ∈ targets -> (dval (t_qty t) <= dval requested)%Q) as Hreq.
  { intros t Ht. apply dsum_ge_elem; [by apply Forall_map|]. by apply list_elem_of_fmap_2. }
  assert (0 < dval requested)%Q as Hrpos.
  { apply Exists_exists in Hex as (t & Ht & Hq).
    specialize (Hreq t Ht). lra. }
  unfold average_price_allocation. fold total. rewrite Havg. cbn [mbind option_bind].
  fold requested.
  rewrite (proj2 (dleb_false requested dzero)) by by rewrite dval_zero.
  rewrite (proj2 (dleb_false total dzero)) by by rewrite dval_zero. cbn [orb].
  destruct (mapM_Forall2 (account_share total requested)
    (fun t p => p.1 = t_account t /\ on_grid (10 ^ 14) p) targets) as (floor_q & Hm & Hf).
  { apply Forall_forall. intros t Ht. rewrite Forall_forall in Hts. destruct (Hts t Ht) as [_ Ht0].
    destruct (account_share_fits total requested t (10 ^ 14)) as (q & Hq & Hqe & Hqv);
      [done|lra|done|done|done|by apply Hreq|done|].
    by exists (t_account t, q). }
  rewrite Hm. cbn [mbind option_bind]. pose proof (Forall2_length _ _ _ Hf) as Hl.
  assert (floor_q <> []) as Hne by (intros ->; destruct targets; [by inversion Hex|done]).
  assert (Forall (on_grid (10 ^ 14)) floor_q) as Hg.
  { eapply Forall2_Forall_r; [exact Hf|]. apply Forall_forall. by intros t _ p [_ ?]. }
  pose proof (push_residual_exact total floor_q (10 ^ 14) Hne ltac:(lia) He ltac:(lra) Hg
    ltac:(rewrite <- Hl; unfold prec, default_context; lia)) as Hp.
  destruct (push_residual _ floor_q) as [final res]. destruct Hp as (Hacc & Hres & Hsum & Hbd).
  destruct (mapM_Forall2 (priced avg)
    (fun p a => a_account a = p.1 /\ a_qty a = p.2 /\ a_price a = avg) final) as (allocs & Ha & Hfa).
  { eapply Forall_impl; [exact Hbd|]. intros p Hpb. apply priced_fits; [done|].
    eapply Qle_trans; [exact Hpb|]. rewrite <- Zle_Qle. nia. }
  rewrite Ha. cbn [mbind option_bind]. eexists. split; [done|]. cbn [allocations total_filled residual].
  split_and!; [| | |done|done].
  - transitivity (map fst floor_q).
    + rewrite <- Hacc. apply Forall2_map_eq. eapply Forall2_impl; [exact Hfa|]. by intros ? ? (? & _).
    + apply Forall2_map_eq. eapply Forall2_impl; [exact Hf|]. by intros ? ? [? _].
  - eapply Forall2_Forall_r; [exact Hfa|]. apply Forall_forall. by intros p _ a (_ & _ & ?).
  - rewrite <- Hsum. assert (map a_qty allocs = map snd final) as ->; [|reflexivity].
    apply Forall2_map_eq. eapply Forall2_impl; [exact Hfa|]. by intros ? ? (_ & ? & _).
Qed.

(** ** Settlement *)

(** Business days after [d], up to [e]. *)
Fixpoint business_days (n : nat) (d : Z) : Z :=
  match n with
  | O => 0
  | S m => (if business_day (d + 1) then 1 else 0) + business_days m (d + 1)
  end.

(** Away from 2026 only the weekday counts. *)
Lemma business_day_weekday d :
  ~ (y2026 <= d <= y2026 + 358) -> business_day d = (weekday d <? 5).
Proof.
  intros Hd. unfold business_day. rewrite bool_decide_eq_false_2; [by rewrite andb_true_r|].
  intros (k & -> & Hk)%list_elem_of_fmap. apply Hd.
  repeat (apply elem_of_cons in Hk as [->|Hk]; [lia|]). by apply not_elem_of_nil in Hk.
Qed.

(** One of any four days in a row is a business day. *)
Definition soon (d : Z) : bool :=
  business_day (d + 1) || business_day (d + 2) || business_day (d + 3) || business_day (d + 4).

Lemma soon_2026 : forallb (fun k => soon (y2026 - 5 + Z.of_nat k)) (seq 0 364) = true.
Proof. by vm_compute. Qed.

Lemma soon_always d : soon d = true.
Proof.
  destruct (decide (y2026 - 5 <= d < y2026 - 5 + 364)) as [Hd|Hd].
  - pose proof soon_2026 as Hs. rewrite forallb_forall in Hs.
    specialize (Hs (Z.to_nat (d - (y2026 - 5)))). rewrite Z2Nat.id in Hs by lia.
    replace (y2026 - 5 + (d - (y2026 - 5))) with d in Hs by lia. apply Hs, in_seq. lia.
  - unfold soon. rewrite !business_day_weekday by lia. unfold weekday.
    destruct (Z.ltb_spec ((d + 1 + 3) mod 7) 5), (Z.ltb_spec ((d + 2 + 3) mod 7) 5),
      (Z.ltb_spec ((d + 3 + 3) mod 7) 5), (Z.ltb_spec ((d + 4 + 3) mod 7) 5); try done.
    Z.to_euclidean_division_equations. lia.
Qed.

Lemma business_days_add a b d :
  business_days (a + b) d = business_days a d + business_days b (d + Z.of_nat a).
Proof.
  revert d. induction a as [|a IH]; intros d; cbn [business_days plus].
  - cbn [Z.of_nat]. by rewrite Z.add_0_r.
  - rewrite IH. replace (d + Z.of_nat (S a)) with (d + 1 + Z.of_nat a) by lia. lia.
Qed.

(** The next business day is reached in at most four rounds. *)
Lemma next_business_day cur :
  exists j : nat, (1 <= j <= 4)%nat /\ business_day (cur + Z.of_nat j) = true /\
    business_days j cur = 1 /\
    forall f added n, added < n -> cur + 4 <= date_max ->
      add_business_days_go (j + f) cur added n
      = add_business_days_go f (cur + Z.of_nat j) (added + 1) n.
Proof.
  pose proof (soon_always cur) as Hs. unfold soon in Hs.
  assert (forall f c added n, added < n -> c + 1 <= date_max ->
    add_business_days_go (S f) c added n
    = add_business_days_go f (c + 1) (if business_day (c + 1) then added + 1 else added) n) as Hstep.
  { intros f c added n Ha Hc. cbn [add_business_days_go].
    destruct (Z.ltb_spec added n); [|lia]. destruct (Z.ltb_spec date_max (c + 1)); [lia|done]. }
  replace (cur + 2) with (cur + 1 + 1) in Hs by lia.
  replace (cur + 3) with (cur + 1 + 1 + 1) in Hs by lia.
  replace (cur + 4) with (cur + 1 + 1 + 1 + 1) in Hs by lia.
  assert (cur + Z.of_nat 1 = cur + 1 /\ cur + Z.of_nat 2 = cur + 1 + 1 /\
    cur + Z.of_nat 3 = cur + 1 + 1 + 1 /\ cur + Z.of_nat 4 = cur + 1 + 1 + 1 + 1)
    as (P1 & P2 & P3 & P4) by lia.
  destruct (business_day (cur + 1)) eqn:E1; [exists 1%nat; rewrite P1|].
  2: destruct (business_day (cur + 1 + 1)) eqn:E2; [exists 2%nat; rewrite P2|].
  3: destruct (business_day (cur + 1 + 1 + 1)) eqn:E3; [exists 3%nat; rewrite P3|exists 4%nat; rewrite P4].
  all: cbn [orb] in Hs; cbn [business_days]; rewrite ?E1, ?E2, ?E3, ?Hs.
  all: split; [lia|split; [done|split; [done|]]].
  all: intros f added n Ha Hc; cbn [plus].
  all: repeat (rewrite Hstep by lia; rewrite ?E1, ?E2, ?E3, ?Hs); done.
Qed.

Lemma add_business_days_reaches m fuel cur added n :
  n - added = Z.of_nat m -> (4 * m < fuel)%nat -> cur + 4 * Z.of_nat m <= date_max ->
  exists k : nat, add_business_days_go fuel cur added n = Some (cur + Z.of_nat k) /\
    (k <= 4 * m)%nat /\ business_days k cur = Z.of_nat m /\
    ((0 < m)%nat -> business_day (cur + Z.of_nat k) = true).
Proof.
  revert fuel cur added. induction m as [|m IH]; intros fuel cur added Hn Hf Hd.
  - exists 0%nat. destruct fuel as [|fuel]; [lia|]. cbn [add_business_days_go].
    destruct (Z.ltb_spec added n); [lia|]. split_and!; [f_equal; lia|lia|done|lia].
  - destruct (next_business_day cur) as (j & Hj & Hb & Hc & Hgo).
    replace fuel with (j + (fuel - j))%nat by lia. rewrite Hgo by lia.
    destruct (IH (fuel - j)%nat (cur + Z.of_nat j) (added + 1)) as (k & Hk & Hkm & Hkc & Hkb);
      [lia|lia|lia|].
    exists (j + k)%nat. rewrite Nat2Z.inj_add, Z.add_assoc. split_and!.
    + done.
    + lia.
    + rewrite business_days_add, Hc, Hkc. lia.
    + intros _. destruct m as [|m]; [|by apply Hkb; lia].
      assert (k = 0)%nat as -> by lia. by rewrite Z.add_0_r.
Qed.

(** C40: settlement falls on the right business day. For every trade date (up to the
    end of the calendar) and asset class the loop terminates. With a cycle of no days
    the settlement date is the trade date itself, a business day or not; otherwise it
    is a business day with exactly the cycle's number of business days after the trade
    date up to it, at most four calendar days each. *)
Theorem settlement_date_correct d asset_class :
  d + 8 <= date_max ->
  let n := settle_days asset_class in
  exists k : nat, settlement_date d asset_class = Some (d + Z.of_nat k) /\
    Z.of_nat k <= 4 * n /\ business_days k d = n /\
    (0 < n -> business_day (d + Z.of_nat k) = true).
Proof.
  intros Hd n. assert (0 <= n <= 2) as Hn.
  { unfold n, settle_days. by repeat case_match. }
  unfold settlement_date. fold n. destruct (Z.ltb_spec 0 n).
  - unfold add_business_days.
    destruct (add_business_days_reaches (Z.to_nat n) (S (4 * Z.to_nat n)) d 0 n)
      as (k & Hk & Hkm & Hkc & Hkb); [lia|lia|lia|].
    exists k. split_and!; [done|lia|lia|]. intros _. apply Hkb. lia.
  - exists 0%nat. split_and!; [f_equal; lia|lia|cbn; lia|lia].
Qed.

(** ** Netting *)

(** Two lines of one account are not added up: the later one replaces the other. *)
Theorem netting_keeps_last_line :
  net_settlement
    [MkAllocation "A" (Dec 10 0) (Dec 5 0) (Dec 50 0); MkAllocation "A" (Dec 1 0) (Dec 5 0) (Dec 5 0)]
    "buy"
  = Some [("A", [("cash_delta", VStr "-5.00"); ("position_delta", VStr "1")])]%string.
Proof. by vm_compute. Qed.

(** ** Witnesses *)

Definition sample_fills : list Fill := [MkFill (Dec 70 0) (Dec 1005 (-2)); MkFill (Dec 30 0) (Dec 10 0)].
Definition sample_targets : list SubAccountTarget :=
  [MkTarget "A" (Dec 1 0); MkTarget "B" (Dec 1 0); MkTarget "C" (Dec 1 0)].

Lemma block_allocated_exactly_witness :
  exists r, average_price_allocation "BTC" "buy" sample_fills sample_targets None = Some r /\
    (qsum (map a_qty (allocations r)) == 100)%Q.
Proof.
  destruct (block_allocated_exactly "BTC" "buy" sample_fills sample_targets None (Dec 10035 (-3)))
    as (r & Hr & _ & _ & Hq & Ht & _).
  - vm_compute. reflexivity.
  - vm_compute. discriminate.
  - vm_compute. reflexivity.
  - vm_compute. discriminate.
  - split; vm_compute; [reflexivity|discriminate].
  - vm_compute. discriminate.
  - repeat constructor; vm_compute; (reflexivity || discriminate).
  - constructor. vm_compute. reflexivity.
  - exists r. split; [exact Hr|]. rewrite Hq, Ht. vm_compute. reflexivity.
Defined.

Lemma settlement_date_correct_witness :
  exists k : nat, settlement_date (y2026 + 91) "equity" = Some (y2026 + 91 + Z.of_nat k) /\
    business_days k (y2026 + 91) = 1.
Proof.
  destruct (settlement_date_correct (y2026 + 91) "equity") as (k & Hk & _ & Hc & _);
    [vm_compute; discriminate|].
  exists k. split; [exact Hk|exact Hc].
Defined.
