(* ===== verification/Approval.v ===== *)
(** * Local approval: [packages/agent/approval/manager.py], [persistence.py]

    [ApprovalManager]: requests for approval, their decision by a local user,
    expiry, automatic approval, and the files of [ApprovalPersistence] from which
    pending requests are read back at start-up.

    A request is one object that is either pending or in the history.  The store
    is a directory: a map from file names to the requests that reading the JSON in them
    gives; [json.dump(default=str)] writes decimals and times in the details as texts,
    so that is how they come back ([as_stored]).  [io] tells whether the files an
    operation writes can be opened; [glob] is the order in which the directory
    lists its files.  The index of the store only serves statistics and is not
    modelled, nor are metrics. *)
From Stdlib Require Import Ascii String.
From S2P Require Import Prelude PyDecimal PyValue PyFormat PyJson Sha256 Config.
Open Scope Z_scope.
Open Scope list_scope.

(** ** Data *)

Inductive ApprovalStatus := PENDING | APPROVED | DENIED | EXPIRED | CANCELLED.

#[export] Instance ApprovalStatus_eq_dec : EqDecision ApprovalStatus.
Proof. solve_decision. Defined.

Record ApprovalRequest := MkRequest {
  request_id : string;
  rq_class : ChangeClass;
  command_type : string;
  rq_description : string;
  rq_details : dict;
  config_digest_old : option string;
  config_digest_new : option string;
  artifact_digest : option string;
  diff_summary : option string;
  rq_status : ApprovalStatus;
  created_at : Z;
  expires_at : option Z;
  rq_decided_at : option Z;
  rq_evidence : option string;
  decision_reason : option string
}.

#[export] Instance ApprovalRequest_eq_dec : EqDecision ApprovalRequest.
Proof. solve_decision. Defined.

Definition is_expired (now : Z) (r : ApprovalRequest) : bool :=
  match expires_at r with
  | Some e => e <? now
  | None => false
  end.

(** The files [pending/<id>.json] and [history/<month>/<id>.json]. *)
Record ApprovalStore := MkStore {
  pending_files : list (string * ApprovalRequest);
  history_files : list (string * string * ApprovalRequest)
}.

Definition empty_store : ApprovalStore := MkStore [] [].

Record ApprovalManager := MkManager {
  auto_approve_operational : bool;
  timeout_seconds : Z;
  has_callback : bool;
  requests : list (string * ApprovalRequest);
  am_history : list ApprovalRequest;
  auto_approve_commands : gset string;
  persistence : option ApprovalStore;
  notified : list string
}.

(** ** Persistence *)

(** The request that [json.load] and [_load_from_persistence] make of what [json.dump] of
    [to_dict] wrote: the times of the request itself are read by [fromisoformat], the
    details stay as JSON gives them. *)
Definition as_stored (r : ApprovalRequest) : ApprovalRequest :=
  MkRequest (request_id r) (rq_class r) (command_type r) (rq_description r) (reread_dict (rq_details r))
    (config_digest_old r) (config_digest_new r) (artifact_digest r) (diff_summary r) (rq_status r)
    (created_at r) (expires_at r) (rq_decided_at r) (rq_evidence r) (decision_reason r).

Definition save_pending (io : bool) (r : ApprovalRequest) (st : ApprovalStore) : ApprovalStore :=
  if io then MkStore (dset (pending_files st) (request_id r) (as_stored r)) (history_files st) else st.

(** [dt.strftime("%Y-%m")] *)
Definition month_dir (t : Z) : string :=
  let '(y, m, _) := civil_from_days (t / day) in
  string_of_list_ascii (int_chars y ++ "-"%char :: pad_int 2 m).
#[global] Arguments month_dir : simpl never.

Definition save_history (io : bool) (now : Z) (r : ApprovalRequest) (st : ApprovalStore) :
    ApprovalStore :=
  if io then
    MkStore (ddel (pending_files st) (request_id r))
      (dset (history_files st) (month_dir (default now (rq_decided_at r)), request_id r) (as_stored r))
  else st.

Section Manager.
Context `{Digest}.
Variable glob : list (string * ApprovalRequest) -> list (string * ApprovalRequest).

Definition load_all_pending (st : ApprovalStore) : list ApprovalRequest :=
  map snd (glob (pending_files st)).

(** [__init__] with [_load_from_persistence] *)
Definition new_manager (auto : bool) (timeout : Z) (callback : bool) (st : option ApprovalStore) :
    ApprovalManager :=
  let pending := match st with
                 | Some s => fold_left (fun d r => dset d (request_id r) r) (load_all_pending s) []
                 | None => []
                 end in
  MkManager auto timeout callback pending [] ∅ st [].

Definition set_requests (d : list (string * ApprovalRequest)) (m : ApprovalManager) :
    ApprovalManager :=
  MkManager (auto_approve_operational m) (timeout_seconds m) (has_callback m) d (am_history m)
    (auto_approve_commands m) (persistence m) (notified m).

(** [_persist_pending] *)
Definition persist_pending (io : bool) (r : ApprovalRequest) (m : ApprovalManager) :
    ApprovalManager :=
  MkManager (auto_approve_operational m) (timeout_seconds m) (has_callback m) (requests m)
    (am_history m) (auto_approve_commands m) (save_pending io r <$> persistence m) (notified m).

(** [_history.append(request)] and [_persist_history] *)
Definition append_history (io : bool) (now : Z) (r : ApprovalRequest) (m : ApprovalManager) :
    ApprovalManager :=
  MkManager (auto_approve_operational m) (timeout_seconds m) (has_callback m) (requests m)
    (am_history m ++ [r]) (auto_approve_commands m) (save_history io now r <$> persistence m)
    (notified m).

(** The end of a request: into the history and out of the pending ones. *)
Definition finish (io : bool) (now : Z) (id : string) (r : ApprovalRequest) (m : ApprovalManager) :
    ApprovalManager :=
  let m1 := append_history io now r m in
  set_requests (ddel (requests m1) id) m1.

Definition notify (id : string) (m : ApprovalManager) : ApprovalManager :=
  if has_callback m then
    MkManager (auto_approve_operational m) (timeout_seconds m) (has_callback m) (requests m)
      (am_history m) (auto_approve_commands m) (persistence m) (notified m ++ [id])
  else m.

Definition set_commands (c : gset string) (m : ApprovalManager) : ApprovalManager :=
  MkManager (auto_approve_operational m) (timeout_seconds m) (has_callback m) (requests m)
    (am_history m) c (persistence m) (notified m).

(** [request.status = ...; decided_at; decision_reason; evidence_hash] *)
Definition decide_request (st : ApprovalStatus) (decided : option Z) (reason evidence : option string)
    (r : ApprovalRequest) : ApprovalRequest :=
  MkRequest (request_id r) (rq_class r) (command_type r) (rq_description r) (rq_details r)
    (config_digest_old r) (config_digest_new r) (artifact_digest r) (diff_summary r) st
    (created_at r) (expires_at r) decided evidence reason.

(** [compute_evidence_hash] of [evidence.py] *)
Definition compute_evidence_hash (d : dict) : string :=
  sha256_hex (string_of_list_ascii (json_dict d)).

(** ** Creating requests *)

Definition should_auto_approve (cmd : string) (cls : ChangeClass) (m : ApprovalManager) : bool :=
  match cls with
  | TRADING_IMPACTING => bool_decide (cmd ∈ auto_approve_commands m)
  | OPERATIONAL => auto_approve_operational m
  | _ => true
  end.

(** [s[:n]] *)
Definition prefix (n : nat) (s : string) : string := substring 0 n s.

Definition summary (old new art : option string) : option string :=
  if truthy old && truthy new then
    Some ("Config change: " +:+ prefix 8 (default "" old) +:+ "... -> " +:+
          prefix 8 (default "" new) +:+ "...")
  else if truthy art then Some ("Artifact change: " +:+ prefix 16 (default "" art) +:+ "...")
  else None.

(** [create_request]; [id] is the fresh UUID. *)
Definition create_request (io : bool) (now : Z) (id cmd desc : string) (cls : ChangeClass)
    (details : option dict) (old new art : option string) (m : ApprovalManager) :
    ApprovalManager * ApprovalRequest :=
  if should_auto_approve cmd cls m then
    let r := MkRequest id cls cmd desc (or_empty details) old new art None APPROVED now None
               (Some now)
               (Some (compute_evidence_hash
                        [("command_type", VStr cmd); ("auto_approved", VBool true)]%string))
               (Some "Auto-approved by local policy"%string) in
    (append_history io now r m, r)
  else
    let r := MkRequest id cls cmd desc (or_empty details) old new art (summary old new art) PENDING
               now (Some (now + timeout_seconds m * sec)) None None None in
    (notify id (persist_pending io r (set_requests (dset (requests m) id r) m)), r).

(** ** Deciding requests *)

Definition approval_evidence (now : Z) (by_ : string) (r : ApprovalRequest) : dict :=
  [("request_id", VStr (request_id r)); ("command_type", VStr (command_type r));
   ("config_digest_new", v_opt_str (config_digest_new r));
   ("artifact_digest", v_opt_str (artifact_digest r)); ("decided_by", VStr by_);
   ("decided_at", VStr (isoformat now))]%string.

Definition denial_evidence (now : Z) (reason by_ : string) (r : ApprovalRequest) : dict :=
  [("request_id", VStr (request_id r)); ("command_type", VStr (command_type r));
   ("config_digest_new", v_opt_str (config_digest_new r));
   ("artifact_digest", v_opt_str (artifact_digest r)); ("approved", VBool false);
   ("decided_by", VStr by_); ("decided_at", VStr (isoformat now)); ("reason", VStr reason)]%string.

Definition approve (io : bool) (now : Z) (id reason by_ : string) (m : ApprovalManager) :
    ApprovalManager * bool :=
  match dget (requests m) id with
  | None => (m, false)
  | Some r =>
      if is_expired now r then
        let r' := decide_request EXPIRED (rq_decided_at r) (decision_reason r) (rq_evidence r) r in
        (set_requests (dset (requests m) id r') m, false)
      else if negb (bool_decide (rq_status r = PENDING)) then (m, false)
      else
        let r' := decide_request APPROVED (Some now) (Some reason)
                    (Some (compute_evidence_hash (approval_evidence now by_ r))) r in
        (finish io now id r' m, true)
  end.

Definition deny (io : bool) (now : Z) (id reason by_ : string) (m : ApprovalManager) :
    ApprovalManager * bool :=
  match dget (requests m) id with
  | None => (m, false)
  | Some r =>
      if negb (bool_decide (rq_status r = PENDING)) then (m, false)
      else
        let r' := decide_request DENIED (Some now) (Some reason)
                    (Some (compute_evidence_hash (denial_evidence now reason by_ r))) r in
        (finish io now id r' m, true)
  end.

(** [decide]: the last entry of the history with the id, when it was decided. *)
Definition decide_one (io : bool) (now : Z) (id : string) (approved : bool) (reason by_ : string)
    (m : ApprovalManager) : ApprovalManager * option ApprovalRequest :=
  match dget (requests m) id with
  | None => (m, None)
  | Some _ =>
      let '(m1, ok) := (if approved then approve else deny) io now id reason by_ m in
      (m1, if ok then List.find (fun r => bool_decide (request_id r = id)) (rev (am_history m1))
           else None)
  end.

(** ** Queries *)

Definition expire (io : bool) (now : Z) (m : ApprovalManager) (r : ApprovalRequest) :
    ApprovalManager :=
  if is_expired now r then
    finish io now (request_id r)
      (decide_request EXPIRED (Some now) (Some "Expired"%string) (rq_evidence r) r) m
  else m.

Definition get_pending_requests (io : bool) (now : Z) (m : ApprovalManager) :
    ApprovalManager * list ApprovalRequest :=
  let m1 := fold_left (expire io now) (map snd (requests m)) m in
  (m1, map snd (requests m1)).

Definition get_request (id : string) (m : ApprovalManager) : option ApprovalRequest :=
  dget (requests m) id.

Definition get_history (limit : Z) (m : ApprovalManager) : list ApprovalRequest :=
  py_last limit (am_history m).

Definition add_auto_approve_command (cmd : string) (m : ApprovalManager) : ApprovalManager :=
  set_commands (auto_approve_commands m ∪ {[cmd]}) m.

Definition remove_auto_approve_command (cmd : string) (m : ApprovalManager) : ApprovalManager :=
  set_commands (auto_approve_commands m ∖ {[cmd]}) m.
End Manager.
