(* ===== verification/ApprovalProps.v ===== *)
(** * Theorems on local approval

    Runs of [ApprovalManager] with restarts on its store: what can be approved and
    by whom, and that every request is decided once and none is lost. *)
From Stdlib Require Import Ascii String.
From S2P Require Import Prelude PyDecimal PyValue PyFormat PyJson Sha256 Config Approval.
Open Scope Z_scope.
Open Scope list_scope.

(** ** Runs *)

Inductive approval_op :=
  | CreateRequest (io : bool) (now : Z) (id cmd desc : string) (cls : ChangeClass)
      (details : option dict) (old new art : option string)
  | ApproveRequest (io : bool) (now : Z) (id reason by_ : string)
  | DenyRequest (io : bool) (now : Z) (id reason by_ : string)
  | DecideRequest (io : bool) (now : Z) (id : string) (approved : bool) (reason by_ : string)
  | GetPending (io : bool) (now : Z)
  | AllowCommand (cmd : string)
  | DisallowCommand (cmd : string)
  | RestartManager (auto : bool) (timeout : Z) (callback : bool).

(** The files the operation writes can be opened. *)
Definition io_ok (o : approval_op) : bool :=
  match o with
  | CreateRequest io _ _ _ _ _ _ _ _ _ | ApproveRequest io _ _ _ _ | DenyRequest io _ _ _ _
  | DecideRequest io _ _ _ _ _ | GetPending io _ => io
  | _ => true
  end.

(** The identifiers of the requests created. *)
Definition created (ops : list approval_op) : list string :=
  omap (fun o => match o with
                 | CreateRequest _ _ id _ _ _ _ _ _ _ => Some id
                 | _ => None
                 end) ops.

(** The command types allowed locally since the last start. *)
Definition allow_step (w : gset string) (o : approval_op) : gset string :=
  match o with
  | AllowCommand cmd => w ∪ {[cmd]}
  | DisallowCommand cmd => w ∖ {[cmd]}
  | RestartManager _ _ _ => ∅
  | _ => w
  end.

Definition whitelist (ops : list approval_op) : gset string := fold_left allow_step ops ∅.

(** The operation is a local approval of the request at that time. *)
Definition approves (o : approval_op) (now : Z) (id reason by_ : string) : Prop :=
  (exists io, o = ApproveRequest io now id reason by_) \/
  (exists io, o = DecideRequest io now id true reason by_).

(** The details an operation asks for. *)
Definition asked_details (o : approval_op) : dict :=
  match o with
  | CreateRequest _ _ _ _ _ _ details _ _ _ => or_empty details
  | _ => []
  end.

Definition is_restart (o : approval_op) : bool := match o with RestartManager _ _ _ => true | _ => false end.

(** The request holds the details asked for; after a restart, possibly as the file of the
    request gives them back. *)
Definition holds_details (o : approval_op) (post : list approval_op) (r : ApprovalRequest) : Prop :=
  rq_details r = asked_details o \/
  existsb is_restart post = true /\ rq_details r = reread_dict (asked_details o).

(** The request holds what else the operation asked for. *)
Definition requested_by (o : approval_op) (r : ApprovalRequest) : Prop :=
  match o with
  | CreateRequest _ now id cmd desc cls details old new art =>
      request_id r = id /\ created_at r = now /\ command_type r = cmd /\ rq_description r = desc /\
      rq_class r = cls /\ config_digest_old r = old /\
      config_digest_new r = new /\ artifact_digest r = art
  | _ => False
  end.

Section Runs.
Context `{Digest}.
Variable glob : list (string * ApprovalRequest) -> list (string * ApprovalRequest).
Hypothesis glob_perm : forall l, glob l ≡ₚ l.

Definition approval_step (m : ApprovalManager) (o : approval_op) : ApprovalManager :=
  match o with
  | CreateRequest io now id cmd desc cls details old new art =>
      (create_request io now id cmd desc cls details old new art m).1
  | ApproveRequest io now id reason by_ => (approve io now id reason by_ m).1
  | DenyRequest io now id reason by_ => (deny io now id reason by_ m).1
  | DecideRequest io now id approved reason by_ => (decide_one io now id approved reason by_ m).1
  | GetPending io now => (get_pending_requests io now m).1
  | AllowCommand cmd => add_auto_approve_command cmd m
  | DisallowCommand cmd => remove_auto_approve_command cmd m
  | RestartManager auto timeout callback => new_manager glob auto timeout callback (persistence m)
  end.

(** The histories of the managers before the present one, and the present one. *)
Definition life_step (s : list ApprovalRequest * ApprovalManager) (o : approval_op) :
    list ApprovalRequest * ApprovalManager :=
  (match o with
   | RestartManager _ _ _ => s.1 ++ am_history s.2
   | _ => s.1
   end, approval_step s.2 o).

Definition life (auto : bool) (timeout : Z) (callback durable : bool) (ops : list approval_op) :
    list ApprovalRequest * ApprovalManager :=
  fold_left life_step ops
    ([], new_manager glob auto timeout callback (if durable then Some empty_store else None)).

(** All requests ever finished. *)
Definition finished (s : list ApprovalRequest * ApprovalManager) : list ApprovalRequest :=
  s.1 ++ am_history s.2.

(** ** What one operation does *)

Lemma approve_ind (I : ApprovalManager -> Prop) io now id reason by_ m :
  I m ->
  (forall r, dget (requests m) id = Some r ->
   I (set_requests (dset (requests m) id
        (decide_request EXPIRED (rq_decided_at r) (decision_reason r) (rq_evidence r) r)) m)) ->
  (forall r, dget (requests m) id = Some r -> is_expired now r = false -> rq_status r = PENDING ->
   I (finish io now id (decide_request APPROVED (Some now) (Some reason)
        (Some (compute_evidence_hash (approval_evidence now by_ r))) r) m)) ->
  I (approve io now id reason by_ m).1.
Proof.
  intros H0 H1 H2. unfold approve. destruct (dget (requests m) id) as [r|] eqn:Hr; [|done].
  destruct (is_expired now r) eqn:He; [by apply H1|].
  destruct (bool_decide_reflect (rq_status r = PENDING)); [by apply H2|done].
Qed.

Lemma deny_ind (I : ApprovalManager -> Prop) io now id reason by_ m :
  I m ->
  (forall r, dget (requests m) id = Some r -> rq_status r = PENDING ->
   I (finish io now id (decide_request DENIED (Some now) (Some reason)
        (Some (compute_evidence_hash (denial_evidence now reason by_ r))) r) m)) ->
  I (deny io now id reason by_ m).1.
Proof.
  intros H0 H1. unfold deny. destruct (dget (requests m) id) as [r|] eqn:Hr; [|done].
  destruct (bool_decide_reflect (rq_status r = PENDING)); [by apply H1|done].
Qed.

(** Reading the pending requests finishes some of them, one after the other. *)
Lemma get_pending_ind (I : list ApprovalRequest -> ApprovalManager -> Prop) io now m :
  I (map snd (requests m)) m ->
  (forall r rest m, I (r :: rest) m -> I rest m) ->
  (forall r rest m, I (r :: rest) m ->
   I rest (finish io now (request_id r)
             (decide_request EXPIRED (Some now) (Some "Expired"%string) (rq_evidence r) r) m)) ->
  I [] (get_pending_requests io now m).1.
Proof.
  intros H0 Hskip Hfin. unfold get_pending_requests. cbn [fst]. revert H0.
  generalize (map snd (requests m)). intros l. revert m.
  induction l as [|r l IH]; intros m Hm; [done|]. cbn [fold_left]. apply IH. unfold expire.
  case_match; [by apply Hfin|by apply (Hskip r)].
Qed.

(** The requests a restart reads are files of the store. *)
Lemma elem_loaded auto timeout callback st p :
  p ∈ requests (new_manager glob auto timeout callback (Some st)) ->
  exists k, (k, p.2) ∈ pending_files st /\ p.1 = request_id p.2.
Proof.
  unfold new_manager, load_all_pending. cbn [requests].
  assert (forall l d,
    p ∈ fold_left (fun d r => dset d (request_id r) r) l d ->
    p ∈ d \/ p.2 ∈ l /\ p.1 = request_id p.2) as Hf.
  { intros l. induction l as [|r l IH]; intros d Hp; cbn [fold_left] in Hp; [by left|].
    destruct (IH _ Hp) as [Hd|[Hl ->]]; [|right; split; [by right|done]].
    apply elem_dset in Hd as [->|Hd]; [right; split; [by left|done]|by left]. }
  intros Hp. apply Hf in Hp as [Hp|[Hp ->]]; [by apply not_elem_of_nil in Hp|].
  apply list_elem_of_In, in_map_iff in Hp as ([k r] & <- & Hk). apply list_elem_of_In in Hk.
  rewrite glob_perm in Hk. by exists k.
Qed.

(** ** Who approves *)

(** A request that waits was asked for, and has a deadline. *)
Definition waiting (ops : list approval_op) (r : ApprovalRequest) : Prop :=
  exists pre c post, ops = pre ++ c :: post /\ requested_by c r /\ holds_details c post r /\
    is_Some (expires_at r) /\ (rq_status r = PENDING \/ rq_status r = EXPIRED).

(** The same of a file: its details are those asked for as JSON gives them back. *)
Definition filed (ops : list approval_op) (r : ApprovalRequest) : Prop :=
  exists pre c post, ops = pre ++ c :: post /\ requested_by c r /\
    rq_details r = reread_dict (asked_details c) /\
    is_Some (expires_at r) /\ (rq_status r = PENDING \/ rq_status r = EXPIRED).

(** A finished request was asked for, and if it is approved then by a local user in
    time, or because its command type was allowed. *)
Definition accounted (ops : list approval_op) (r : ApprovalRequest) : Prop :=
  exists pre c post, ops = pre ++ c :: post /\ requested_by c r /\ holds_details c post r /\
    (rq_status r = APPROVED ->
     (exists o now reason by_ e, o ∈ post /\ approves o now (request_id r) reason by_ /\
        expires_at r = Some e /\ now <= e /\ rq_decided_at r = Some now /\
        rq_evidence r = Some (compute_evidence_hash (approval_evidence now by_ r))) \/
     (expires_at r = None /\
      (rq_class r = TRADING_IMPACTING -> command_type r ∈ whitelist pre))).

Definition named (P : ApprovalRequest -> Prop) (p : string * ApprovalRequest) : Prop :=
  p.1 = request_id p.2 /\ P p.2.

Record supervised (ops : list approval_op) (past : list ApprovalRequest) (m : ApprovalManager) :
    Prop := {
  sv_requests : forall p, p ∈ requests m -> named (waiting ops) p;
  sv_files : forall st p, persistence m = Some st -> p ∈ pending_files st -> named (filed ops) p;
  sv_finished : Forall (accounted ops) (past ++ am_history m);
  sv_commands : auto_approve_commands m = whitelist ops
}.

Lemma holds_snoc c post o r : holds_details c post r -> holds_details c (post ++ [o]) r.
Proof. intros [?|[Hp ?]]; [by left|right]. by rewrite existsb_app, Hp. Qed.

Lemma waiting_snoc ops o r : waiting ops r -> waiting (ops ++ [o]) r.
Proof.
  intros (pre & c & post & -> & Hr & Hd & Hw). exists pre, c, (post ++ [o]).
  rewrite <- app_assoc. split_and!; [done..|by apply holds_snoc| |]; apply Hw.
Qed.

Lemma filed_snoc ops o r : filed ops r -> filed (ops ++ [o]) r.
Proof.
  intros (pre & c & post & -> & Hr). exists pre, c, (post ++ [o]).
  by rewrite <- app_assoc.
Qed.

(** A request that is read back from its file waits. *)
Lemma filed_waiting ops o r : is_restart o = true -> filed ops r -> waiting (ops ++ [o]) r.
Proof.
  intros Ho (pre & c & post & -> & Hr & Hd & Hw). exists pre, c, (post ++ [o]).
  rewrite <- app_assoc. split_and!; [done..| | |]; try apply Hw.
  right. split; [|done]. rewrite existsb_app. cbn. by rewrite Ho, orb_true_r.
Qed.

Lemma accounted_snoc ops o r : accounted ops r -> accounted (ops ++ [o]) r.
Proof.
  intros (pre & c & post & -> & Hr & Hd & Ha). exists pre, c, (post ++ [o]).
  rewrite <- app_assoc. split_and!; [done|done|by apply holds_snoc|]. intros Hs.
  destruct (Ha Hs) as [(o' & now & reason & by_ & e & Ho & Hrest)|Hauto]; [left|by right].
  exists o', now, reason, by_, e. split; [|done]. apply elem_of_app. by left.
Qed.

Lemma requested_by_decide c st d reason ev r :
  requested_by c r -> requested_by c (decide_request st d reason ev r).
Proof. by destruct c. Qed.

(** A finished request that is not approved needs no account. *)
Lemma accounted_refused ops st d reason ev r :
  waiting ops r -> st <> APPROVED -> accounted ops (decide_request st d reason ev r).
Proof.
  intros (pre & c & post & -> & Hr & Hd & _) Hst. exists pre, c, post.
  split_and!; [done|by apply requested_by_decide|done..].
Qed.

Lemma accounted_approved ops o now reason by_ r :
  waiting ops r -> is_expired now r = false -> approves o now (request_id r) reason by_ ->
  accounted (ops ++ [o]) (decide_request APPROVED (Some now) (Some reason)
    (Some (compute_evidence_hash (approval_evidence now by_ r))) r).
Proof.
  intros (pre & c & post & -> & Hr & Hd & [e He] & _) Hx Ho. exists pre, c, (post ++ [o]).
  rewrite <- app_assoc. split_and!; [done|by apply requested_by_decide|by apply holds_snoc|].
  intros _. left.
  exists o, now, reason, by_, e. unfold is_expired in Hx. rewrite He in Hx.
  apply Z.ltb_ge in Hx. split_and!; [|done..]. apply elem_of_app. right. by left.
Qed.

Lemma whitelist_snoc ops o : whitelist (ops ++ [o]) = allow_step (whitelist ops) o.
Proof. unfold whitelist. by rewrite fold_left_app. Qed.

Lemma supervised_commands ops o past m :
  supervised ops past m ->
  supervised (ops ++ [o]) past (set_commands (whitelist (ops ++ [o])) m).
Proof.
  intros [H1 H2 H3 H4]. split; cbn.
  - intros p Hp. destruct (H1 p Hp) as [? ?]. split; [done|by apply waiting_snoc].
  - intros st p Hst Hp. destruct (H2 st p Hst Hp) as [? ?]. split; [done|by apply filed_snoc].
  - eapply Forall_impl; [apply H3|]. intros r. apply accounted_snoc.
  - done.
Qed.

Lemma supervised_snoc ops o past m :
  allow_step (whitelist ops) o = whitelist ops -> supervised ops past m ->
  supervised (ops ++ [o]) past m.
Proof.
  intros Hw Hs. pose proof (supervised_commands ops o past m Hs) as Hc.
  rewrite whitelist_snoc, Hw, <- (sv_commands _ _ _ Hs) in Hc. by destruct m.
Qed.

Lemma supervised_finish ops past m io now id r :
  supervised ops past m -> accounted ops r -> supervised ops past (finish io now id r m).
Proof.
  intros [H1 H2 H3 H4] Hr. split; cbn.
  - intros p [Hp _]%elem_ddel. by apply H1.
  - intros st p Hst Hp. destruct (persistence m) as [st'|] eqn:Hm; [|done].
    cbn in Hst. injection Hst as <-. apply (H2 st'); [done|].
    unfold save_history in Hp. case_match; [|done]. by apply elem_ddel in Hp as [Hp _].
  - rewrite app_assoc. apply Forall_app_2; [done|]. by constructor.
  - done.
Qed.

Lemma supervised_set ops past m k r :
  supervised ops past m -> k = request_id r -> waiting ops r ->
  supervised ops past (set_requests (dset (requests m) k r) m).
Proof.
  intros [H1 H2 H3 H4] Hk Hr. split; cbn; [|done..].
  intros p [->|Hp]%elem_dset; [by split|by apply H1].
Qed.

Lemma supervised_waiting ops past m id r :
  supervised ops past m -> dget (requests m) id = Some r -> id = request_id r /\ waiting ops r.
Proof. intros Hs Hr. apply dget_elem in Hr. by apply (sv_requests _ _ _ Hs) in Hr. Qed.

Lemma supervised_approve ops past m o io now id reason by_ :
  allow_step (whitelist ops) o = whitelist ops -> approves o now id reason by_ ->
  supervised ops past m -> supervised (ops ++ [o]) past (approve io now id reason by_ m).1.
Proof.
  intros Hw Ho Hs. pose proof (supervised_snoc _ _ _ _ Hw Hs) as Hs'. apply approve_ind; [done|..].
  - intros r Hr. destruct (supervised_waiting _ _ _ _ _ Hs' Hr) as [Hi Hwt].
    apply supervised_set; [done..|]. destruct Hwt as (pre & c & post & ? & ? & ? & ? & _).
    exists pre, c, post. split_and!; [done|by apply requested_by_decide|done|done|by right].
  - intros r Hr Hx _. destruct (supervised_waiting _ _ _ _ _ Hs Hr) as [-> Hwt].
    apply supervised_finish; [done|]. by apply accounted_approved.
Qed.

Lemma supervised_deny ops past m o io now id reason by_ :
  allow_step (whitelist ops) o = whitelist ops ->
  supervised ops past m -> supervised (ops ++ [o]) past (deny io now id reason by_ m).1.
Proof.
  intros Hw Hs. pose proof (supervised_snoc _ _ _ _ Hw Hs) as Hs'. apply deny_ind; [done|].
  intros r Hr _. destruct (supervised_waiting _ _ _ _ _ Hs' Hr) as [_ Hwt].
  apply supervised_finish; [done|]. by apply accounted_refused.
Qed.

Lemma supervised_create ops past m io now id cmd desc cls details old new art :
  supervised ops past m ->
  supervised (ops ++ [CreateRequest io now id cmd desc cls details old new art]) past
    (create_request io now id cmd desc cls details old new art m).1.
Proof.
  intros Hs. set (o := CreateRequest io now id cmd desc cls details old new art).
  pose proof (supervised_snoc ops o past m eq_refl Hs) as Hs'. unfold create_request.
  destruct (should_auto_approve cmd cls m) eqn:Ha; cbn [fst].
  - destruct Hs' as [H1 H2 H3 H4]. split; cbn; [done| | |done].
    + intros st p Hst Hp. destruct (persistence m) as [st'|] eqn:Hm; [|done].
      cbn in Hst. injection Hst as <-. apply (H2 st'); [done|].
      unfold save_history in Hp. case_match; [|done]. by apply elem_ddel in Hp as [Hp _].
    + rewrite app_assoc. apply Forall_app_2; [done|]. constructor; [|done].
      exists ops, o, []. split_and!; [done|by split_and!|by left|]. intros _. right. split; [done|].
      cbn. intros ->. cbn in Ha. apply bool_decide_eq_true in Ha.
      by rewrite (sv_commands _ _ _ Hs) in Ha.
  - set (r := MkRequest _ _ _ _ _ _ _ _ _ _ _ _ _ _ _).
    assert (waiting (ops ++ [o]) r) as Hr.
    { exists ops, o, []. split_and!; [done|by split_and!|by left|by eexists|by left]. }
    assert (filed (ops ++ [o]) (as_stored r)) as Hf.
    { exists ops, o, []. split_and!; [done|by split_and!|done|by eexists|by left]. }
    assert (supervised (ops ++ [o]) past (persist_pending io r (set_requests (dset (requests m) id r) m)))
      as Hp.
    { destruct (supervised_set _ _ _ id r Hs' eq_refl Hr) as [H1 H2 H3 H4]. split; cbn; [done| |done..].
      intros st p Hst Hp. destruct (persistence m) as [st'|] eqn:Hm; [|done]. cbn in Hst.
      injection Hst as <-. unfold save_pending in Hp. case_match; [|by apply (H2 st')].
      apply elem_dset in Hp as [->|Hp]; [by split|by apply (H2 st')]. }
    unfold notify. case_match; [|done]. by destruct Hp.
Qed.

Lemma supervised_step ops past m o :
  supervised ops past m ->
  supervised (ops ++ [o]) (life_step (past, m) o).1 (life_step (past, m) o).2.
Proof.
  intros Hs. destruct o; cbn [life_step fst snd approval_step].
  - by apply supervised_create.
  - apply supervised_approve; [done|left; by eexists|done].
  - by apply supervised_deny.
  - unfold decide_one. destruct (dget (requests m) id); [|by apply supervised_snoc].
    destruct approved.
    + pose proof (supervised_approve ops past m (DecideRequest io now id true reason by_) io now id
        reason by_ eq_refl (or_intror (ex_intro _ io eq_refl)) Hs) as Ha.
      by destruct (approve io now id reason by_ m).
    + pose proof (supervised_deny ops past m (DecideRequest io now id false reason by_) io now id
        reason by_ eq_refl Hs) as Ha.
      by destruct (deny io now id reason by_ m).
  - pose proof (supervised_snoc _ (GetPending io now) _ _ eq_refl Hs) as Hs'.
    apply (get_pending_ind (fun l m' => Forall (waiting (ops ++ [GetPending io now])) l /\
      supervised (ops ++ [GetPending io now]) past m')); [split; [|done]|..].
    + apply Forall_forall. intros r ([k r'] & <- & Hk)%list_elem_of_In%in_map_iff.
      apply list_elem_of_In in Hk. by apply (sv_requests _ _ _ Hs') in Hk as [_ ?].
    + intros r rest m' [Hf Hm]. by apply Forall_cons in Hf as [_ Hf].
    + intros r rest m' [Hf Hm]. apply Forall_cons in Hf as [Hr Hf]. split; [done|].
      apply supervised_finish; [done|]. by apply accounted_refused.
  - pose proof (supervised_commands ops (AllowCommand cmd) past m Hs) as Hc.
    rewrite whitelist_snoc, <- (sv_commands _ _ _ Hs) in Hc. done.
  - pose proof (supervised_commands ops (DisallowCommand cmd) past m Hs) as Hc.
    rewrite whitelist_snoc, <- (sv_commands _ _ _ Hs) in Hc. done.
  - set (o := RestartManager auto timeout callback).
    destruct (supervised_commands ops o past m Hs) as [H1 H2 H3 H4]. split.
    + intros p Hp. destruct (persistence m) as [st|] eqn:Hm;
        [|cbn in Hp; by apply not_elem_of_nil in Hp].
      apply elem_loaded in Hp as (k & Hk & Hn). split; [done|].
      destruct (sv_files _ _ _ Hs st (k, p.2) Hm Hk) as [_ Hf]. by apply filed_waiting.
    + done.
    + cbn. by rewrite app_nil_r.
    + rewrite whitelist_snoc. done.
Qed.

Lemma supervised_life auto timeout callback durable ops :
  let s := life auto timeout callback durable ops in supervised ops s.1 s.2.
Proof.
  induction ops as [|o ops IH] using rev_ind.
  - split; cbn; [|intros st p|done|done].
    + intros p Hp. destruct durable; [|by apply not_elem_of_nil in Hp].
      apply (elem_loaded auto timeout callback empty_store) in Hp as (k & Hk & _). by apply not_elem_of_nil in Hk.
    + destruct durable; [|done]. intros [= <-] Hp. by apply not_elem_of_nil in Hp.
  - unfold life in *. rewrite fold_left_app. cbn [fold_left].
    destruct (fold_left life_step ops _) as [past m]. by apply supervised_step.
Qed.

(** C14: nobody but a local user approves a trading-impacting change. Whatever is
    requested, decided and restarted, a finished request holds what some request asked
    for, its details unchanged or, after a restart, with decimals and times as the texts
    that JSON keeps of them; if it is approved, then either a local approval after that
    request and no later than its deadline made it so, leaving the evidence hash of exactly
    these contents, or it had no deadline because it was approved on arrival, and
    then a trading-impacting command was on the local whitelist at that moment. *)
Theorem approved_only_locally auto timeout callback durable ops r :
  r ∈ finished (life auto timeout callback durable ops) -> accounted ops r.
Proof.
  intros Hr. pose proof (sv_finished _ _ _ (supervised_life auto timeout callback durable ops)) as Hf.
  rewrite Forall_forall in Hf. by apply Hf.
Qed.

(** ** Every request is decided once *)

Definition ids (l : list ApprovalRequest) : list string := map request_id l.

Record settled (ops : list approval_op) (past : list ApprovalRequest) (m : ApprovalManager) : Prop := {
  se_keys : NoDup (requests m).*1;
  se_named : forall p, p ∈ requests m -> p.1 = request_id p.2;
  se_log : NoDup (ids (past ++ am_history m));
  se_apart : forall id, id ∈ (requests m).*1 -> id ∉ ids (past ++ am_history m);
  se_files : forall st, persistence m = Some st ->
    (forall id, id ∈ (pending_files st).*1 <-> id ∈ (requests m).*1) /\
    (forall p, p ∈ pending_files st -> p.1 = request_id p.2);
  se_known : forall id, id ∈ (requests m).*1 \/ id ∈ ids (past ++ am_history m) -> id ∈ created ops;
  se_kept : is_Some (persistence m) ->
    forall id, id ∈ created ops -> id ∈ (requests m).*1 \/ id ∈ ids (past ++ am_history m)
}.

Lemma ids_snoc l r : ids (l ++ [r]) = ids l ++ [request_id r].
Proof. unfold ids. by rewrite map_app. Qed.

Lemma elem_ids_snoc id l r : id ∈ ids (l ++ [r]) <-> id ∈ ids l \/ id = request_id r.
Proof. rewrite ids_snoc, elem_of_app, list_elem_of_singleton. done. Qed.

Lemma NoDup_ids_snoc l r : NoDup (ids l) -> request_id r ∉ ids l -> NoDup (ids (l ++ [r])).
Proof.
  intros Hl Hr. rewrite ids_snoc. apply NoDup_app. split_and!; [done| |by apply NoDup_singleton].
  intros x Hx ->%list_elem_of_singleton. done.
Qed.

Lemma settled_finish ops past m now id r :
  settled ops past m -> id ∈ (requests m).*1 -> request_id r = id ->
  settled ops past (finish true now id r m).
Proof.
  intros [H1 H2 H3 H4 H5 H6 H7] Hid Hr. split; cbn; rewrite ?app_assoc.
  - by apply NoDup_ddel.
  - intros p [Hp _]%elem_ddel. by apply H2.
  - apply NoDup_ids_snoc; [done|]. rewrite Hr. by apply H4.
  - intros i [Hi Hne]%elem_keys_ddel. rewrite elem_ids_snoc, Hr. intros [Hl|Hl]; [|done].
    by apply (H4 i).
  - intros st Hst. destruct (persistence m) as [st'|] eqn:Hm; [|done]. cbn in Hst.
    injection Hst as <-. destruct (H5 _ eq_refl) as [Hk Hn]. cbn. rewrite Hr. split.
    + intros i. rewrite !elem_keys_ddel, Hk. done.
    + intros p [Hp _]%elem_ddel. by apply Hn.
  - intros i. rewrite elem_ids_snoc, elem_keys_ddel, Hr. intros [[Hi _]|[Hi| ->]]; apply H6; auto.
  - intros [? Hs] i Hi. rewrite elem_ids_snoc, elem_keys_ddel, Hr.
    destruct (decide (i = id)) as [->|Hne]; [right; by right|].
    assert (is_Some (persistence m)) as Hm by (destruct (persistence m); [by eexists|done]).
    destruct (H7 Hm i Hi); tauto.
Qed.

Lemma settled_same ops o past m :
  (forall l, created (l ++ [o]) = created l) -> settled ops past m -> settled (ops ++ [o]) past m.
Proof. intros Ho [H1 H2 H3 H4 H5 H6 H7]. split; rewrite ?Ho; done. Qed.

Lemma created_snoc ops o : created (ops ++ [o]) = created ops ++ created [o].
Proof. unfold created. by rewrite omap_app. Qed.

Lemma settled_set ops past m k r :
  settled ops past m -> is_Some (dget (requests m) k) -> request_id r = k ->
  settled ops past (set_requests (dset (requests m) k r) m).
Proof.
  intros [H1 H2 H3 H4 H5 H6 H7] Hk Hr.
  assert ((dset (requests m) k r).*1 = (requests m).*1) as He by by apply dset_keys_present.
  split; cbn; rewrite ?He; [done| |done..].
  intros p [->|Hp]%elem_dset; [done|by apply H2].
Qed.

Lemma settled_get ops past m id r :
  settled ops past m -> dget (requests m) id = Some r -> id ∈ (requests m).*1 /\ request_id r = id.
Proof.
  intros Hs Hr. split; [apply dget_is_Some; by eexists|].
  symmetry. apply dget_elem in Hr. by apply (se_named _ _ _ Hs) in Hr.
Qed.

Lemma settled_approve ops past m now id reason by_ :
  settled ops past m -> settled ops past (approve true now id reason by_ m).1.
Proof.
  intros Hs. apply approve_ind; [done|..]; intros r Hr.
  - destruct (settled_get _ _ _ _ _ Hs Hr). apply settled_set; [done|by eexists|done].
  - intros _ _. destruct (settled_get _ _ _ _ _ Hs Hr). by apply settled_finish.
Qed.

Lemma settled_deny ops past m now id reason by_ :
  settled ops past m -> settled ops past (deny true now id reason by_ m).1.
Proof.
  intros Hs. apply deny_ind; [done|]. intros r Hr _.
  destruct (settled_get _ _ _ _ _ Hs Hr). by apply settled_finish.
Qed.

Lemma settled_decide ops past m now id approved reason by_ :
  settled ops past m -> settled ops past (decide_one true now id approved reason by_ m).1.
Proof.
  intros Hs. unfold decide_one. destruct (dget (requests m) id); [|done].
  pose proof (settled_approve ops past m now id reason by_ Hs) as Ha.
  pose proof (settled_deny ops past m now id reason by_ Hs) as Hd.
  destruct approved; [by destruct (approve _ _ _ _ _ m)|by destruct (deny _ _ _ _ _ m)].
Qed.

Lemma settled_pending ops past m now :
  settled ops past m -> settled ops past (get_pending_requests true now m).1.
Proof.
  intros Hs. apply (get_pending_ind (fun l m' => NoDup (ids l) /\
    (forall r, r ∈ l -> request_id r ∈ (requests m').*1) /\ settled ops past m')).
  - assert (ids (map snd (requests m)) = (requests m).*1) as He.
    { unfold ids. rewrite map_map. apply map_ext_in. intros p Hp. symmetry.
      apply (se_named _ _ _ Hs). by apply list_elem_of_In. }
    rewrite He. split_and!; [by apply Hs| |done]. intros r Hr. rewrite <- He. unfold ids.
    by apply list_elem_of_In, in_map, list_elem_of_In.
  - intros r rest m' [[_ Hn]%NoDup_cons [Hr Hm]]. split_and!; [done| |done].
    intros r' Hr'. apply Hr. by right.
  - intros r rest m' [[Hi Hn]%NoDup_cons [Hr Hm]]. split_and!; [done| |].
    + intros r' Hr'. cbn. apply elem_keys_ddel. split; [apply Hr; by right|]. intros He.
      apply Hi. rewrite <- He. by apply list_elem_of_In, in_map, list_elem_of_In.
    + apply settled_finish; [done|apply Hr; by left|done].
Qed.

Lemma fold_dset_keys (l : list ApprovalRequest) d id :
  id ∈ (fold_left (fun d r => dset d (request_id r) r) l d).*1 <-> id ∈ ids l \/ id ∈ d.*1.
Proof.
  revert d. induction l as [|r l IH]; intros d; cbn [fold_left].
  - unfold ids. cbn. rewrite elem_of_nil. tauto.
  - rewrite IH, elem_keys_dset. unfold ids. cbn. rewrite elem_of_cons. tauto.
Qed.

Lemma fold_dset_NoDup (l : list ApprovalRequest) d :
  NoDup d.*1 -> NoDup (fold_left (fun d r => dset d (request_id r) r) l d).*1.
Proof. revert d. induction l as [|r l IH]; intros d Hd; [done|]. by apply IH, NoDup_dset. Qed.

Lemma loaded_keys auto timeout callback st id :
  (forall p, p ∈ pending_files st -> p.1 = request_id p.2) ->
  id ∈ (requests (new_manager glob auto timeout callback (Some st))).*1 <->
  id ∈ (pending_files st).*1.
Proof.
  intros Hn. unfold new_manager, load_all_pending. cbn [requests]. rewrite fold_dset_keys.
  rewrite elem_of_nil. unfold ids. rewrite map_map.
  assert (map (fun x => request_id x.2) (glob (pending_files st)) ≡ₚ (pending_files st).*1) as ->;
    [|tauto].
  rewrite (Permutation_map _ (glob_perm _)). apply reflexive_eq, map_ext_in.
  intros p Hp. symmetry. by apply Hn, list_elem_of_In.
Qed.

Lemma settled_restart ops past m auto timeout callback :
  settled ops past m ->
  settled ops (past ++ am_history m) (new_manager glob auto timeout callback (persistence m)).
Proof.
  intros [H1 H2 H3 H4 H5 H6 H7]. destruct (persistence m) as [st|] eqn:Hm.
  - destruct (H5 _ eq_refl) as [Hk Hn].
    pose proof (fun id => loaded_keys auto timeout callback st id Hn) as Hl.
    split; cbn [am_history new_manager persistence]; rewrite ?app_nil_r; [| |done|..].
    + apply fold_dset_NoDup. constructor.
    + intros p (k & _ & Hp)%elem_loaded. done.
    + intros i Hi%Hl%Hk. by apply H4.
    + intros st' [= <-]. split; [|done]. intros i. by rewrite Hl.
    + intros i Hi. apply H6. rewrite <- Hk, <- Hl. done.
    + intros _ i Hi. rewrite Hl, Hk. apply H7; [by eexists|done].
  - split; cbn; rewrite ?app_nil_r; [constructor| |done| |done| |by intros []].
    + intros p Hp. by apply not_elem_of_nil in Hp.
    + intros i Hi. by apply not_elem_of_nil in Hi.
    + intros i [Hi|Hi]; [by apply not_elem_of_nil in Hi|]. apply H6. by right.
Qed.

Lemma settled_create ops past m now id cmd desc cls details old new art :
  id ∉ created ops -> settled ops past m ->
  settled (ops ++ [CreateRequest true now id cmd desc cls details old new art]) past
    (create_request true now id cmd desc cls details old new art m).1.
Proof.
  intros Hid [H1 H2 H3 H4 H5 H6 H7].
  assert (id ∉ (requests m).*1) as Hr by (intros Hi; apply Hid, H6; by left).
  assert (id ∉ ids (past ++ am_history m)) as Hl by (intros Hi; apply Hid, H6; by right).
  unfold create_request. destruct (should_auto_approve cmd cls m); cbn [fst].
  - split; cbn; rewrite ?app_assoc; [done|done|by apply NoDup_ids_snoc| | | |].
    + intros i Hi. rewrite elem_ids_snoc. cbn. intros [?| ->]; [by apply (H4 i)|done].
    + intros st Hst. destruct (persistence m) as [st'|] eqn:Hm; [|done]. cbn in Hst.
      injection Hst as <-. destruct (H5 _ eq_refl) as [Hk Hn]. cbn. split.
      * intros i. rewrite elem_keys_ddel, Hk. split; [by intros []|]. intros Hi.
        split; [done|]. by intros ->.
      * intros p [Hp _]%elem_ddel. by apply Hn.
    + intros i. rewrite created_snoc, elem_of_app, elem_ids_snoc. cbn.
      rewrite list_elem_of_singleton. intros [Hi|[Hi|Hi]]; [left|left|by right]; apply H6; tauto.
    + intros [? Hs] i. rewrite created_snoc, elem_of_app, elem_ids_snoc. cbn.
      rewrite list_elem_of_singleton. intros [Hi|Hi]; [|tauto].
      assert (is_Some (persistence m)) as Hm by (destruct (persistence m); [by eexists|done]).
      destruct (H7 Hm i Hi); tauto.
  - set (r := MkRequest _ _ _ _ _ _ _ _ _ _ _ _ _ _ _).
    assert (settled (ops ++ [CreateRequest true now id cmd desc cls details old new art]) past
      (persist_pending true r (set_requests (dset (requests m) id r) m))) as Hs.
    { split; cbn; [by apply NoDup_dset| |done| | | |].
      - intros p [->|Hp]%elem_dset; [done|by apply H2].
      - intros i [->|Hi]%elem_keys_dset; [done|by apply H4].
      - intros st Hst. destruct (persistence m) as [st'|] eqn:Hm; [|done]. cbn in Hst.
        injection Hst as <-. destruct (H5 _ eq_refl) as [Hk Hn]. cbn. split.
        + intros i. by rewrite !elem_keys_dset, Hk.
        + intros p [->|Hp]%elem_dset; [done|by apply Hn].
      - intros i. rewrite created_snoc, elem_of_app, elem_keys_dset. cbn.
        rewrite list_elem_of_singleton. intros [[Hi|Hi]|Hi]; [by right|left|left]; apply H6; tauto.
      - intros [? Hst] i. rewrite created_snoc, elem_of_app, elem_keys_dset. cbn.
        rewrite list_elem_of_singleton. intros [Hi|Hi]; [|tauto].
        assert (is_Some (persistence m)) as Hm by (destruct (persistence m); [by eexists|done]).
        destruct (H7 Hm i Hi); tauto. }
    unfold notify. case_match; [|done]. by destruct Hs.
Qed.

Lemma store_kept m o : is_Some (persistence (approval_step m o)) <-> is_Some (persistence m).
Proof.
  assert (forall m' io now id r, is_Some (persistence m') <-> is_Some (persistence m) ->
    is_Some (persistence (finish io now id r m')) <-> is_Some (persistence m)) as Hf.
  { intros m' io now id r Hm. cbn. by rewrite fmap_is_Some. }
  assert (forall io now id reason by_,
    is_Some (persistence (approve io now id reason by_ m).1) <-> is_Some (persistence m)) as Ha.
  { intros. apply (approve_ind (fun m' => is_Some (persistence m') <-> is_Some (persistence m)));
      [done|done|intros; by apply Hf]. }
  assert (forall io now id reason by_,
    is_Some (persistence (deny io now id reason by_ m).1) <-> is_Some (persistence m)) as Hd.
  { intros. apply (deny_ind (fun m' => is_Some (persistence m') <-> is_Some (persistence m)));
      [done|intros; by apply Hf]. }
  destruct o; cbn [approval_step]; [|done|done| | |done|done|done].
  - unfold create_request, notify. repeat case_match; cbn; by rewrite fmap_is_Some.
  - unfold decide_one. destruct (dget (requests m) id); [|done].
    pose proof (Ha io now id reason by_). pose proof (Hd io now id reason by_).
    destruct approved; [by destruct (approve _ _ _ _ _ m)|by destruct (deny _ _ _ _ _ m)].
  - apply (get_pending_ind (fun _ m' => is_Some (persistence m') <-> is_Some (persistence m)));
      [done|done|]. intros. by apply Hf.
Qed.

Lemma settled_step ops past m o :
  io_ok o = true -> NoDup (created (ops ++ [o])) -> settled ops past m ->
  settled (ops ++ [o]) (life_step (past, m) o).1 (life_step (past, m) o).2.
Proof.
  intros Hio Hn Hs.
  assert ((forall l, created (l ++ [o]) = created l) ->
    settled ops (life_step (past, m) o).1 (life_step (past, m) o).2 ->
    settled (ops ++ [o]) (life_step (past, m) o).1 (life_step (past, m) o).2) as Hsame
    by (intros; by apply settled_same).
  destruct o; cbn [io_ok] in Hio; subst; cbn [life_step fst snd approval_step] in *;
    [|apply Hsame; [intros l; rewrite created_snoc; apply app_nil_r|]..].
  - apply settled_create; [|done]. rewrite created_snoc in Hn. apply NoDup_app in Hn as (_ & Hn & _).
    intros Hi. apply (Hn _ Hi). by left.
  - by apply settled_approve.
  - by apply settled_deny.
  - by apply settled_decide.
  - by apply settled_pending.
  - by destruct Hs.
  - by destruct Hs.
  - by apply settled_restart.
Qed.

Lemma settled_life auto timeout callback durable ops :
  forallb io_ok ops = true -> NoDup (created ops) ->
  let s := life auto timeout callback durable ops in
  settled ops s.1 s.2 /\ (durable = true -> is_Some (persistence s.2)).
Proof.
  induction ops as [|o ops IH] using rev_ind; intros Hio Hn.
  - split; [|by intros ->]. split; cbn.
    + destruct durable; [apply fold_dset_NoDup|]; constructor.
    + intros p Hp. destruct durable; [|by apply not_elem_of_nil in Hp].
      by apply (elem_loaded auto timeout callback empty_store) in Hp as (k & _ & ?).
    + constructor.
    + intros i _ Hi. by apply not_elem_of_nil in Hi.
    + intros st Hst. destruct durable; [|done]. injection Hst as <-. split.
      * intros i. symmetry. apply (loaded_keys auto timeout callback empty_store).
        intros p Hp. by apply not_elem_of_nil in Hp.
      * intros p Hp. by apply not_elem_of_nil in Hp.
    + intros i [Hi|Hi]; [|by apply not_elem_of_nil in Hi].
      destruct durable; [|by apply not_elem_of_nil in Hi].
      apply (loaded_keys auto timeout callback empty_store) in Hi; [done|].
      intros p Hp. by apply not_elem_of_nil in Hp.
    + intros _ i Hi. by apply not_elem_of_nil in Hi.
  - rewrite forallb_app in Hio. apply andb_true_iff in Hio as [Hio Ho].
    cbn in Ho. rewrite andb_true_r in Ho.
    destruct IH as [IH1 IH2]; [done| |].
    { rewrite created_snoc in Hn. by apply NoDup_app in Hn as (? & _ & _). }
    unfold life in *. rewrite fold_left_app. cbn [fold_left].
    destruct (fold_left life_step ops _) as [past m]. split; [by apply settled_step|].
    intros Hd. apply store_kept. by apply IH2.
Qed.

(** Every request is decided at most once and none is lost. Under fresh
    identifiers and a store that can be written, whatever is requested, decided
    and restarted, no two finished requests have one identifier, a pending
    request is not finished, and with a store every request ever made is pending
    or finished, also after restarts. *)
Theorem decided_once auto timeout callback durable ops :
  forallb io_ok ops = true -> NoDup (created ops) ->
  let s := life auto timeout callback durable ops in
  NoDup (ids (finished s)) /\
  (forall id r, get_request id s.2 = Some r -> id ∉ ids (finished s)) /\
  (durable = true -> forall id, id ∈ created ops ->
   is_Some (get_request id s.2) \/ id ∈ ids (finished s)).
Proof.
  intros Hio Hn s. destruct (settled_life auto timeout callback durable ops Hio Hn) as [Hs Hd].
  fold s in Hs, Hd. split_and!.
  - by apply Hs.
  - intros id r Hr. apply (se_apart _ _ _ Hs), dget_is_Some. by eexists.
  - intros Hdu id Hid. unfold get_request. rewrite dget_is_Some.
    apply (se_kept _ _ _ Hs); [by apply Hd|done].
Qed.
End Runs.

(** ** Behaviours that differ from the intent *)

Definition in_order (l : list (string * ApprovalRequest)) : list (string * ApprovalRequest) := l.

Definition ask (io : bool) (id : string) (cls : ChangeClass) : approval_op :=
  CreateRequest io 0 id "UPDATE_CONFIG" "" cls None None (Some "0123456789abcdef"%string) None.

(** A data-sensitive change requires a local approval by the contract and is approved
    on arrival by the manager. *)
Theorem data_sensitive_auto_approved `{Digest} :
  let s := life in_order false 300 false false [ask true "r" DATA_SENSITIVE] in
  requires_local_approval DATA_SENSITIVE = true /\
  map rq_status (finished s) = [APPROVED].
Proof. split; reflexivity. Qed.

(** When the history file cannot be written, a restart brings a decided request
    back as pending, and it can be decided the other way. *)
Theorem unsaved_decision_reopened :
  let s := life in_order false 300 false true
    [ask true "r" TRADING_IMPACTING; DenyRequest false sec "r" "no" "a";
     RestartManager false 300 false; ApproveRequest true (2 * sec) "r" "yes" "b"] in
  map (fun r => (request_id r, rq_status r)) (finished s) = [("r"%string, DENIED); ("r"%string, APPROVED)].
Proof. vm_compute. reflexivity. Qed.

(** A restart turns the decimals of the details into texts: what is approved after it is not
    what was asked for. *)
Theorem restart_turns_details_to_text :
  let ask := CreateRequest true 0 "r" "SET_LIMIT" "" TRADING_IMPACTING
    (Some [("limit", VDec (Dec 5 0))]%string) None None None in
  let approve := ApproveRequest true sec "r" "ok" "ann" in
  map rq_details (finished (life in_order false 300 false true [ask; approve]))
    = [[("limit", VDec (Dec 5 0))]]%string /\
  map rq_details (finished (life in_order false 300 false true [ask; RestartManager false 300 false; approve]))
    = [[("limit", VStr "5")]]%string.
Proof. vm_compute. split; reflexivity. Qed.

(** [get_history(0)] answers the whole history. *)
Theorem history_limit_zero (m : ApprovalManager) : get_history 0 m = am_history m.
Proof. apply py_last_0. Qed.

(** ** Witnesses *)

Definition approval_run : list approval_op :=
  [ask true "r1" TRADING_IMPACTING; ask true "r2" TRADING_IMPACTING; ask true "r3" OPERATIONAL;
   RestartManager true 300 true; DecideRequest true (5 * sec) "r2" true "ok" "ann";
   DenyRequest true (6 * sec) "r3" "no" "ann"; GetPending true (400 * sec)].

Lemma approved_only_locally_witness :
  exists r, r ∈ finished (life in_order false 300 false true approval_run) /\
    rq_status r = APPROVED /\ accounted approval_run r.
Proof.
  eexists. split; [|split].
  - vm_compute. left.
  - reflexivity.
  - apply (approved_only_locally in_order (fun l => Permutation_refl l) false 300 false true).
    vm_compute. left.
Defined.

Lemma decided_once_witness :
  let s := life in_order false 300 false true approval_run in
  NoDup (ids (finished s)) /\ ids (finished s) = ["r2"; "r3"; "r1"]%string.
Proof.
  split; [|vm_compute; reflexivity].
  apply (decided_once in_order (fun l => Permutation_refl l) false 300 false true approval_run).
  - reflexivity.
  - vm_compute. by apply (bool_decide_unpack _).
Defined.
