(* ===== verification/AutoApprove.v ===== *)
(** * Automatic approval rules: [packages/agent/approval/auto_approve.py]

    [AutoApproveRule] and [AutoApprovePolicyManager]: local rules that approve or
    deny commands without the user, daily limits, the file the rules are kept in
    and the log of evaluations.

    Regular expressions are those of the [re] module, a class [Regex]: which
    patterns compile, and what a compiled one finds, ignoring case.  A rule is one
    object of the dictionary of rules; the result of an evaluation holds it as it
    is then.  The file is the list of the dictionaries written: JSON gives them
    back; a dictionary that JSON cannot write, with a decimal limit, ends the writing in
    the middle of the file.  An operation reads the clock once. *)
From Stdlib Require Import Ascii String.
From S2P Require Import Prelude PyDecimal DecArith PyFormat PyFloat PyValue PyJson PyCompare PyText PyTime Sha256 Config.
Open Scope Z_scope.
Open Scope list_scope.

(** [re.compile(p, re.IGNORECASE)] succeeds; [pattern.search(s)] finds something. *)
Class Regex := {
  re_compiles : string -> bool;
  re_search : string -> string -> bool
}.

Inductive RuleType :=
  | COMMAND_TYPE | SYMBOL_PATTERN | STRATEGY_ID | DEPLOYMENT_ID | CONFIG_PATH | TIME_WINDOW | COMPOSITE.

Definition rule_type_name (t : RuleType) : string :=
  match t with
  | COMMAND_TYPE => "COMMAND_TYPE"
  | SYMBOL_PATTERN => "SYMBOL_PATTERN"
  | STRATEGY_ID => "STRATEGY_ID"
  | DEPLOYMENT_ID => "DEPLOYMENT_ID"
  | CONFIG_PATH => "CONFIG_PATH"
  | TIME_WINDOW => "TIME_WINDOW"
  | COMPOSITE => "COMPOSITE"
  end%string.

Inductive RuleAction := AUTO_APPROVE | AUTO_DENY | REQUIRE_APPROVAL.

#[export] Instance RuleAction_eq_dec : EqDecision RuleAction.
Proof. solve_decision. Defined.

Definition rule_action_value (a : RuleAction) : string :=
  match a with
  | AUTO_APPROVE => "auto_approve"
  | AUTO_DENY => "auto_deny"
  | REQUIRE_APPROVAL => "require_approval"
  end%string.

(** [ar_compiled]: the patterns of [_compiled_patterns]; the value limits are any
    number. *)
Record AutoApproveRule := MkAutoRule {
  ar_id : string;
  ar_name : string;
  ar_description : string;
  ar_type : RuleType;
  ar_action : RuleAction;
  ar_enabled : bool;
  ar_command_types : gset string;
  ar_symbol_patterns : list string;
  ar_strategy_ids : gset string;
  ar_deployment_ids : gset string;
  ar_config_path_patterns : list string;
  ar_window_start : option string;
  ar_window_end : option string;
  ar_weekdays_only : bool;
  ar_max_position_value : option pyval;
  ar_max_order_value : option pyval;
  ar_max_daily_approvals : option Z;
  ar_change_classes : list ChangeClass;
  ar_created_at : Z;
  ar_created_by : string;
  ar_last_matched_at : option Z;
  ar_match_count : Z;
  ar_compiled : list string
}.

Record AutoApproveResult := MkAutoResult {
  should_auto_approve : bool;
  matched_rule : option AutoApproveRule;
  aa_reason : string;
  aa_evidence_hash : string
}.

Definition auto_result_to_dict (r : AutoApproveResult) : dict :=
  [("should_auto_approve", VBool (should_auto_approve r));
   ("matched_rule_id", v_opt_str (ar_id <$> matched_rule r));
   ("matched_rule_name", v_opt_str (ar_name <$> matched_rule r));
   ("reason", VStr (aa_reason r)); ("evidence_hash", VStr (aa_evidence_hash r))]%string.

Record EvaluationEntry := MkEvaluation {
  el_timestamp : Z;
  el_command_type : string;
  el_change_class : ChangeClass;
  el_auto_approved : bool;
  el_matched_rule : option string;
  el_reason : string;
  el_evidence_hash : string
}.

(** The file of rules. *)
Inductive rules_file := NoFile | Unreadable | RuleDicts (l : list dict).

Record AutoApprovePolicyManager := MkAuto {
  aa_file : rules_file;
  aa_callback : bool;
  aa_rules : list (string * AutoApproveRule);
  aa_daily_counts : list (string * Z);
  aa_count_date : option Z;
  aa_log : list EvaluationEntry;
  aa_notified : list AutoApproveResult
}.

Definition default_classes : list ChangeClass := [OPERATIONAL; INFORMATIONAL].

Section Rules.
Context `{Regex}.

(** ** Rules *)

(** [_compile_patterns]: an invalid pattern is skipped. *)
Definition compile_patterns (patterns : list string) : list string := List.filter re_compiles patterns.

(** [__post_init__] *)
Definition post_init (r : AutoApproveRule) : AutoApproveRule :=
  MkAutoRule (ar_id r) (ar_name r) (ar_description r) (ar_type r) (ar_action r) (ar_enabled r)
    (ar_command_types r) (ar_symbol_patterns r) (ar_strategy_ids r) (ar_deployment_ids r)
    (ar_config_path_patterns r) (ar_window_start r) (ar_window_end r) (ar_weekdays_only r)
    (ar_max_position_value r) (ar_max_order_value r) (ar_max_daily_approvals r) (ar_change_classes r)
    (ar_created_at r) (ar_created_by r) (ar_last_matched_at r) (ar_match_count r)
    (compile_patterns (ar_symbol_patterns r)).

(** A rule of the constructor's defaults but for what the two functions at the end
    of the file give. *)
Definition make_rule (id : string) (now : Z) (name description : string) (t : RuleType)
    (commands : gset string) (patterns : list string) (max_position : option pyval)
    (classes : list ChangeClass) : AutoApproveRule :=
  post_init
    (MkAutoRule id name description t AUTO_APPROVE true commands patterns ∅ ∅ [] None None false
       max_position None None classes now "local_user" None 0 []).

Definition matches_command_type (r : AutoApproveRule) (cmd : string) : bool :=
  bool_decide (ar_command_types r = ∅) || bool_decide (cmd ∈ ar_command_types r).

(** [None] is the [TypeError] of searching in something that is no string. *)
Definition matches_symbol (r : AutoApproveRule) (sym : pyval) : option bool :=
  match ar_compiled r, sym with
  | [], _ => Some true
  | ps, VStr s => Some (existsb (fun p => re_search p s) ps)
  | _, _ => None
  end.

(** [x in ids] of a set of strings; a value without a hash raises. *)
Definition matches_ids (ids : gset string) (v : pyval) : option bool :=
  if bool_decide (ids = ∅) then Some true
  else if negb (hashable v) then None
  else match v with
       | VStr s => Some (bool_decide (s ∈ ids))
       | _ => Some false
       end.

Definition matches_strategy (r : AutoApproveRule) (v : pyval) : option bool := matches_ids (ar_strategy_ids r) v.
Definition matches_deployment (r : AutoApproveRule) (v : pyval) : option bool := matches_ids (ar_deployment_ids r) v.

(** [h, m = map(int, s.split(":"))], in minutes; [None] is [ValueError]. *)
Definition window_minutes (s : string) : option Z :=
  match split_on ":"%char (chars s) with
  | [h; m] => h ← py_int h; m ← py_int m; Some (h * 60 + m)
  | _ => None
  end.

Definition matches_time_window (now : Z) (r : AutoApproveRule) : bool :=
  if negb (truthy (ar_window_start r)) || negb (truthy (ar_window_end r)) then true
  else if ar_weekdays_only r && (5 <=? weekday (now / day)) then false
  else
    match window_minutes (default "" (ar_window_start r))%string with
    | None => true
    | Some from =>
        match window_minutes (default "" (ar_window_end r))%string with
        | None => true
        | Some to_ =>
            let current := (now mod day) / minute in
            if from <=? to_ then (from <=? current) && (current <=? to_)
            else (from <=? current) || (current <=? to_)
        end
    end.

Definition matches_change_class (r : AutoApproveRule) (c : ChangeClass) : bool :=
  bool_decide (c ∈ ar_change_classes r).

(** [v and not test(v)] *)
Definition if_given (v : pyval) (test : pyval -> option bool) : option bool :=
  if val_true v then test v else Some true.

(** Conjunction of tests that may raise; a later test is not run when one is false. *)
Definition and_then (a b : option bool) : option bool :=
  match a with
  | Some true => b
  | _ => a
  end.

(** [_rule_matches] *)
Definition rule_matches (now : Z) (r : AutoApproveRule) (cmd : string) (cls : ChangeClass)
    (details : dict) : option bool :=
  let get k := default (VStr "") (dget details k) in
  and_then (Some (matches_change_class r cls))
    (and_then (Some (matches_command_type r cmd))
       (and_then (Some (matches_time_window now r))
          (and_then (if_given (get "symbol"%string) (matches_symbol r))
             (and_then (if_given (get "strategy_id"%string) (matches_strategy r))
                (if_given (get "deployment_id"%string) (matches_deployment r)))))).

(** [not (details.get(k, 0) > limit)] *)
Definition within_limit (limit : option pyval) (details : dict) (k : string) : option bool :=
  match limit with
  | None => Some true
  | Some l => negb <$> val_lt l (default (VInt 0) (dget details k))
  end.

Definition daily_count (id : string) (counts : list (string * Z)) : Z := default 0 (dget counts id).

(** [_check_rule_limits] *)
Definition check_rule_limits (r : AutoApproveRule) (details : dict) (m : AutoApprovePolicyManager) :
    option bool :=
  and_then (within_limit (ar_max_position_value r) details "position_value")
    (and_then (within_limit (ar_max_order_value r) details "order_value")
       (Some match ar_max_daily_approvals r with
             | None => true
             | Some n => daily_count (ar_id r) (aa_daily_counts m) <? n
             end)).

(** ** Evaluation *)

(** The first rule that passes a test that may raise. *)
Fixpoint first_rule (test : AutoApproveRule -> option bool) (l : list (string * AutoApproveRule)) :
    option (option (string * AutoApproveRule)) :=
  match l with
  | [] => Some None
  | kr :: rest =>
      match test kr.2 with
      | None => None
      | Some true => Some (Some kr)
      | Some false => first_rule test rest
      end
  end.

(** The body of the loops over the approving rules. *)
Definition approves (now : Z) (cmd : string) (cls : ChangeClass) (details : dict)
    (m : AutoApprovePolicyManager) (r : AutoApproveRule) : option bool :=
  if negb (ar_enabled r) then Some false
  else if negb (bool_decide (ar_action r = AUTO_APPROVE)) then Some false
  else and_then (rule_matches now r cmd cls details) (check_rule_limits r details m).

Definition approves_trading (now : Z) (cmd : string) (details : dict) (m : AutoApprovePolicyManager)
    (r : AutoApproveRule) : option bool :=
  if negb (ar_enabled r) then Some false
  else if negb (bool_decide (ar_action r = AUTO_APPROVE)) then Some false
  else if negb (matches_change_class r TRADING_IMPACTING) then Some false
  else and_then (rule_matches now r cmd TRADING_IMPACTING details) (check_rule_limits r details m).

Definition denies (now : Z) (cmd : string) (cls : ChangeClass) (details : dict) (r : AutoApproveRule) :
    option bool :=
  if negb (ar_enabled r) then Some false
  else if bool_decide (ar_action r = AUTO_DENY) then rule_matches now r cmd cls details
  else Some false.

(** [_check_daily_reset] *)
Definition check_daily_reset (now : Z) (m : AutoApprovePolicyManager) : AutoApprovePolicyManager :=
  if bool_decide (aa_count_date m = Some (now / day)) then m
  else MkAuto (aa_file m) (aa_callback m) (aa_rules m) [] (Some (now / day)) (aa_log m) (aa_notified m).

Definition with_rules (rs : list (string * AutoApproveRule)) (m : AutoApprovePolicyManager) :
    AutoApprovePolicyManager :=
  MkAuto (aa_file m) (aa_callback m) rs (aa_daily_counts m) (aa_count_date m) (aa_log m) (aa_notified m).

(** [_increment_daily_count] *)
Definition increment_daily_count (id : string) (m : AutoApprovePolicyManager) : AutoApprovePolicyManager :=
  MkAuto (aa_file m) (aa_callback m) (aa_rules m)
    (dset (aa_daily_counts m) id (daily_count id (aa_daily_counts m) + 1)) (aa_count_date m) (aa_log m)
    (aa_notified m).

Definition set_matched (now : Z) (r : AutoApproveRule) : AutoApproveRule :=
  MkAutoRule (ar_id r) (ar_name r) (ar_description r) (ar_type r) (ar_action r) (ar_enabled r)
    (ar_command_types r) (ar_symbol_patterns r) (ar_strategy_ids r) (ar_deployment_ids r)
    (ar_config_path_patterns r) (ar_window_start r) (ar_window_end r) (ar_weekdays_only r)
    (ar_max_position_value r) (ar_max_order_value r) (ar_max_daily_approvals r) (ar_change_classes r)
    (ar_created_at r) (ar_created_by r) (Some now) (ar_match_count r + 1) (ar_compiled r).

Section Evaluate.
Context `{Digest}.

(** [_compute_evidence_hash]; [None] is the [TypeError] of [json.dumps]. *)
Definition rule_evidence_hash (now : Z) (r : option AutoApproveRule) (cmd : string) (details : dict) :
    option string :=
  if serializable (VDict details) then
    Some (sha256_hex (string_of_list_ascii (json_dict
      [("rule_id", v_opt_str (ar_id <$> r)); ("rule_name", v_opt_str (ar_name <$> r));
       ("command_type", VStr cmd); ("details", VDict details); ("timestamp", VStr (isoformat now))]%string)))
  else None.

(** The approval by a rule: it is counted before the hash is computed. *)
Definition grant (now : Z) (kr : string * AutoApproveRule) (cmd : string) (details : dict)
    (m : AutoApprovePolicyManager) : AutoApprovePolicyManager * pyres unit AutoApproveResult :=
  let r := set_matched now kr.2 in
  let m := with_rules (dset (aa_rules m) kr.1 r) (increment_daily_count (ar_id r) m) in
  match rule_evidence_hash now (Some r) cmd details with
  | None => (m, Raise tt)
  | Some h => (m, Ok (MkAutoResult true (Some r) ("Matched rule: " +:+ ar_name r) h))
  end.

Definition refusal (reason : string) : AutoApproveResult := MkAutoResult false None reason "".

Definition evaluate_trading_impacting (now : Z) (cmd : string) (details : dict)
    (m : AutoApprovePolicyManager) : AutoApprovePolicyManager * pyres unit AutoApproveResult :=
  match first_rule (approves_trading now cmd details m) (aa_rules m) with
  | None => (m, Raise tt)
  | Some (Some kr) => grant now kr cmd details m
  | Some None => (m, Ok (refusal "No matching auto-approve rule for TRADING_IMPACTING change"))
  end.

Definition evaluate_other (now : Z) (cmd : string) (cls : ChangeClass) (details : dict)
    (m : AutoApprovePolicyManager) : AutoApprovePolicyManager * pyres unit AutoApproveResult :=
  match first_rule (denies now cmd cls details) (aa_rules m) with
  | None => (m, Raise tt)
  | Some (Some kr) => (m, Ok (MkAutoResult false (Some kr.2) ("Blocked by rule: " +:+ ar_name kr.2) ""))
  | Some None =>
      match first_rule (approves now cmd cls details m) (aa_rules m) with
      | None => (m, Raise tt)
      | Some (Some kr) => grant now kr cmd details m
      | Some None =>
          if bool_decide (cls = INFORMATIONAL) then
            match rule_evidence_hash now None cmd details with
            | None => (m, Raise tt)
            | Some h => (m, Ok (MkAutoResult true None "INFORMATIONAL changes auto-approved by default" h))
            end
          else (m, Ok (refusal "No matching auto-approve rule"))
      end
  end.

(** [_log_evaluation] and the callback *)
Definition log_evaluation (now : Z) (cmd : string) (cls : ChangeClass) (r : AutoApproveResult)
    (m : AutoApprovePolicyManager) : AutoApprovePolicyManager :=
  MkAuto (aa_file m) (aa_callback m) (aa_rules m) (aa_daily_counts m) (aa_count_date m)
    (push_bounded 1000 (aa_log m)
       (MkEvaluation now cmd cls (should_auto_approve r) (ar_name <$> matched_rule r) (aa_reason r)
          (aa_evidence_hash r)))
    (if should_auto_approve r && aa_callback m then aa_notified m ++ [r] else aa_notified m).

Definition evaluate (now : Z) (cmd : string) (cls : ChangeClass) (details : option dict)
    (m : AutoApprovePolicyManager) : AutoApprovePolicyManager * pyres unit AutoApproveResult :=
  let details := or_empty details in
  let m := check_daily_reset now m in
  let '(m, res) :=
    if bool_decide (cls = TRADING_IMPACTING) then evaluate_trading_impacting now cmd details m
    else evaluate_other now cmd cls details m in
  match res with
  | Raise e => (m, Raise e)
  | Ok r => (log_evaluation now cmd cls r m, Ok r)
  end.
End Evaluate.

(** ** The dictionary form of a rule *)

Definition opt_int (o : option Z) : pyval := match o with Some n => VInt n | None => VNone end.

Definition auto_rule_to_dict (r : AutoApproveRule) : dict :=
  [("rule_id", VStr (ar_id r)); ("name", VStr (ar_name r)); ("description", VStr (ar_description r));
   ("rule_type", VStr (rule_type_name (ar_type r))); ("action", VStr (rule_action_value (ar_action r)));
   ("enabled", VBool (ar_enabled r)); ("command_types", VStrs (elements (ar_command_types r)));
   ("symbol_patterns", VStrs (ar_symbol_patterns r)); ("strategy_ids", VStrs (elements (ar_strategy_ids r)));
   ("deployment_ids", VStrs (elements (ar_deployment_ids r)));
   ("config_path_patterns", VStrs (ar_config_path_patterns r));
   ("time_window_start", v_opt_str (ar_window_start r)); ("time_window_end", v_opt_str (ar_window_end r));
   ("weekdays_only", VBool (ar_weekdays_only r));
   ("max_position_value", default VNone (ar_max_position_value r));
   ("max_order_value", default VNone (ar_max_order_value r));
   ("max_daily_approvals", opt_int (ar_max_daily_approvals r));
   ("allowed_change_classes", VStrs (map change_class_value (ar_change_classes r)));
   ("created_at", VStr (isoformat (ar_created_at r))); ("created_by", VStr (ar_created_by r));
   ("match_count", VInt (ar_match_count r))]%string.

Definition all_rule_types : list RuleType :=
  [COMMAND_TYPE; SYMBOL_PATTERN; STRATEGY_ID; DEPLOYMENT_ID; CONFIG_PATH; TIME_WINDOW; COMPOSITE].
Definition all_change_classes : list ChangeClass :=
  [TRADING_IMPACTING; OPERATIONAL; INFORMATIONAL; DATA_SENSITIVE; SAFETY_OPERATION].

(** [from_dict]; [id] and [now] are the defaults of a missing id and time.  [None]: it
    raises, or a value has another type than [to_dict] writes, which is not
    modelled. *)
Definition auto_rule_from_dict (id : string) (now : Z) (data : dict) : option AutoApproveRule :=
  let get k dflt := default dflt (dget data k) in
  names ← as_strs (get "allowed_change_classes" (VStrs ["operational"; "informational"]))%string;
  classes ← mapM (fun s => member change_class_value all_change_classes (VStr s)) names;
  rid ← as_str (get "rule_id" (VStr id))%string;
  name ← as_str (get "name" (VStr ""))%string;
  desc ← as_str (get "description" (VStr ""))%string;
  ty ← member rule_type_name all_rule_types (get "rule_type" (VStr "COMMAND_TYPE"))%string;
  action ← member rule_action_value [AUTO_APPROVE; AUTO_DENY; REQUIRE_APPROVAL]
             (get "action" (VStr "auto_approve"))%string;
  enabled ← as_bool (get "enabled" (VBool true))%string;
  commands ← as_strs (get "command_types" (VStrs []))%string;
  patterns ← as_strs (get "symbol_patterns" (VStrs []))%string;
  strategies ← as_strs (get "strategy_ids" (VStrs []))%string;
  deployments ← as_strs (get "deployment_ids" (VStrs []))%string;
  paths ← as_strs (get "config_path_patterns" (VStrs []))%string;
  from ← as_opt as_str (get "time_window_start" VNone)%string;
  to_ ← as_opt as_str (get "time_window_end" VNone)%string;
  weekdays ← as_bool (get "weekdays_only" (VBool false))%string;
  position ← as_opt Some (get "max_position_value" VNone)%string;
  order ← as_opt Some (get "max_order_value" VNone)%string;
  daily ← as_opt as_int (get "max_daily_approvals" VNone)%string;
  by_ ← as_str (get "created_by" (VStr "local_user"))%string;
  count ← as_int (get "match_count" (VInt 0))%string;
  created ← (let v := get "created_at" VNone in
             if val_true v then s ← as_str v; fromisoformat s else Some now)%string;
  Some (post_init
    (MkAutoRule rid name desc ty action enabled (list_to_set commands) patterns (list_to_set strategies)
       (list_to_set deployments) paths from to_ weekdays position order daily classes created by_ None
       count [])).

(** ** The file *)

(** [_load_rules]: a rule that cannot be read ends it; the rules before it stay. *)
Fixpoint load_dicts (id : string) (now : Z) (l : list dict) (rs : list (string * AutoApproveRule)) :
    list (string * AutoApproveRule) :=
  match l with
  | [] => rs
  | d :: l =>
      match auto_rule_from_dict id now d with
      | Some r => load_dicts id now l (dset rs (ar_id r) r)
      | None => rs
      end
  end.

Definition load_rules (id : string) (now : Z) (f : rules_file) : list (string * AutoApproveRule) :=
  match f with
  | RuleDicts l => load_dicts id now l []
  | _ => []
  end.

(** [__init__] *)
Definition new_auto_manager (id : string) (now : Z) (f : rules_file) (callback : bool) :
    AutoApprovePolicyManager :=
  MkAuto f callback (load_rules id now f) [] None [] [].

Definition with_file (f : rules_file) (m : AutoApprovePolicyManager) : AutoApprovePolicyManager :=
  MkAuto f (aa_callback m) (aa_rules m) (aa_daily_counts m) (aa_count_date m) (aa_log m) (aa_notified m).

(** [_save_rules]: [json.dump] has no [default], so a decimal or a time raises [TypeError]
    when part of the text is already in the file, which then cannot be read. *)
Definition save_rules (m : AutoApprovePolicyManager) : AutoApprovePolicyManager * pyres unit unit :=
  let dicts := map (fun kr => auto_rule_to_dict kr.2) (aa_rules m) in
  if forallb (fun d => serializable (VDict d)) dicts then (with_file (RuleDicts dicts) m, Ok tt)
  else (with_file Unreadable m, Raise tt).

(** ** Changing the rules *)

(** The rules in memory change before they are saved. *)
Definition saved_with {A} (x : A) (m : AutoApprovePolicyManager) : AutoApprovePolicyManager * pyres unit A :=
  match save_rules m with
  | (m, Ok _) => (m, Ok x)
  | (m, Raise e) => (m, Raise e)
  end.

Definition add_auto_rule (r : AutoApproveRule) (m : AutoApprovePolicyManager) :
    AutoApprovePolicyManager * pyres unit string :=
  saved_with (ar_id r) (with_rules (dset (aa_rules m) (ar_id r) r) m).

(** One [setattr] of [update_rule]. *)
Inductive rule_update :=
  | URuleId (s : string) | UName (s : string) | UDescription (s : string) | UAction (a : RuleAction)
  | UEnabled (b : bool) | UCommandTypes (s : gset string) | USymbolPatterns (l : list string)
  | UStrategyIds (s : gset string) | UDeploymentIds (s : gset string) | UWindowStart (o : option string)
  | UWindowEnd (o : option string) | UWeekdaysOnly (b : bool) | UMaxPosition (v : option pyval)
  | UMaxOrder (v : option pyval) | UMaxDaily (n : option Z) | UChangeClasses (l : list ChangeClass).

Definition set_attr (r : AutoApproveRule) (u : rule_update) : AutoApproveRule :=
  MkAutoRule
    (match u with URuleId s => s | _ => ar_id r end)
    (match u with UName s => s | _ => ar_name r end)
    (match u with UDescription s => s | _ => ar_description r end)
    (ar_type r)
    (match u with UAction a => a | _ => ar_action r end)
    (match u with UEnabled b => b | _ => ar_enabled r end)
    (match u with UCommandTypes s => s | _ => ar_command_types r end)
    (match u with USymbolPatterns l => l | _ => ar_symbol_patterns r end)
    (match u with UStrategyIds s => s | _ => ar_strategy_ids r end)
    (match u with UDeploymentIds s => s | _ => ar_deployment_ids r end)
    (ar_config_path_patterns r)
    (match u with UWindowStart o => o | _ => ar_window_start r end)
    (match u with UWindowEnd o => o | _ => ar_window_end r end)
    (match u with UWeekdaysOnly b => b | _ => ar_weekdays_only r end)
    (match u with UMaxPosition v => v | _ => ar_max_position_value r end)
    (match u with UMaxOrder v => v | _ => ar_max_order_value r end)
    (match u with UMaxDaily n => n | _ => ar_max_daily_approvals r end)
    (match u with UChangeClasses l => l | _ => ar_change_classes r end)
    (ar_created_at r) (ar_created_by r) (ar_last_matched_at r) (ar_match_count r) (ar_compiled r).

Definition changes_patterns (u : rule_update) : bool := match u with USymbolPatterns _ => true | _ => false end.

Definition update_auto_rule (id : string) (us : list rule_update) (m : AutoApprovePolicyManager) :
    AutoApprovePolicyManager * pyres unit bool :=
  match dget (aa_rules m) id with
  | None => (m, Ok false)
  | Some r =>
      let r := fold_left set_attr us r in
      let r := if existsb changes_patterns us then post_init r else r in
      saved_with true (with_rules (dset (aa_rules m) id r) m)
  end.

Definition remove_auto_rule (id : string) (m : AutoApprovePolicyManager) : 
    AutoApprovePolicyManager * pyres unit bool :=
  if dmem (aa_rules m) id then saved_with true (with_rules (ddel (aa_rules m) id) m) else (m, Ok false).

Definition enable_rule (id : string) : AutoApprovePolicyManager -> AutoApprovePolicyManager * pyres unit bool :=
  update_auto_rule id [UEnabled true].
Definition disable_rule (id : string) : AutoApprovePolicyManager -> AutoApprovePolicyManager * pyres unit bool :=
  update_auto_rule id [UEnabled false].

(** ** Reading *)

Definition get_audit_log (limit : Z) (m : AutoApprovePolicyManager) : list EvaluationEntry :=
  py_last limit (aa_log m).

Record AutoStatus := MkAutoStatus {
  as_total : Z;
  as_enabled : Z;
  as_daily : Z;
  as_log_size : Z
}.

Definition auto_status (m : AutoApprovePolicyManager) : AutoStatus :=
  MkAutoStatus (Z.of_nat (List.length (aa_rules m))) (cnt (fun kr => ar_enabled kr.2) (aa_rules m))
    (fold_left (fun n kc => n + kc.2) (aa_daily_counts m) 0) (Z.of_nat (List.length (aa_log m))).

(** ** Common rules *)

(** [re.escape] *)
Definition special_char (c : ascii) : bool :=
  bool_decide (c ∈ chars "()[]{}?*+-|^$\.&~# ") ||
  bool_decide (nat_of_ascii c ∈ [9; 10; 11; 12; 13])%nat.

Definition re_escape (l : text) : text :=
  flat_map (fun c => if special_char c then [char_backslash; c] else [c]) l.

(** [f"^{re.escape(s)}$"] *)
Definition symbol_pattern (s : string) : string :=
  string_of_list_ascii ("^"%char :: re_escape (chars s) ++ ["$"%char]).

Definition join_strings (sep : string) (l : list string) : string :=
  string_of_list_ascii (join_chars (chars sep) (map chars l)).

Definition create_symbol_allowlist_rule (id : string) (now : Z) (name : string) (symbols : list string)
    (max_position : option pyval) : AutoApproveRule :=
  make_rule id now name ("Auto-approve for symbols: " +:+ join_strings ", " symbols) SYMBOL_PATTERN ∅
    (map symbol_pattern symbols) max_position [OPERATIONAL].

Definition create_operational_auto_approve_rule (id : string) (now : Z) (name : string)
    (commands : option (gset string)) : AutoApproveRule :=
  make_rule id now name "Auto-approve operational (non-trading) changes" COMMAND_TYPE (default ∅ commands) []
    None [OPERATIONAL; INFORMATIONAL].
End Rules.
