(* ===== verification/AutoApproveProps.v ===== *)
(** * Theorems on the automatic approval rules

    When an evaluation approves, that a daily limit holds over every run, that a
    rule survives being written and read, and concrete runs. *)
From Stdlib Require Import Ascii String.
From S2P Require Import Prelude PyDecimal DecArith PyFormat PyFloat PyValue PyJson PyCompare PyText PyTime.
From S2P Require Import Sha256 Config AutoApprove.
Open Scope Z_scope.
Open Scope list_scope.

(** ** Evaluation *)

Section Evaluation.
Context `{Regex} `{Digest}.

Lemma and_then_true a b : and_then a b = Some true <-> a = Some true /\ b = Some true.
Proof. destruct a as [[]|]; cbn; split; try done; by intros [? ?]. Qed.

Lemma first_rule_found test l k r :
  first_rule test l = Some (Some (k, r)) -> (k, r) ∈ l /\ test r = Some true.
Proof.
  induction l as [|[k' r'] l IH]; cbn; [done|].
  destruct (test r') as [[]|] eqn:E; [intros [= -> ->]; by split; [left|]| |done].
  intros Hf. apply IH in Hf as [Hf Ht]. by split; [right|].
Qed.

Lemma first_rule_none test l k r : first_rule test l = Some None -> (k, r) ∈ l -> test r = Some false.
Proof.
  induction l as [|[k' r'] l IH]; cbn; intros Hf Hin; [by apply elem_of_nil in Hin|].
  destruct (test r') as [[]|] eqn:E; [done| |done].
  apply elem_of_cons in Hin as [[= -> ->]|Hin]; [done|by apply IH].
Qed.

(** What makes a rule approve a command. *)
Definition may_approve (now : Z) (cmd : string) (cls : ChangeClass) (details : dict)
    (counts : list (string * Z)) (r : AutoApproveRule) : Prop :=
  ar_enabled r = true /\ ar_action r = AUTO_APPROVE /\ cls ∈ ar_change_classes r /\
  rule_matches now r cmd cls details = Some true /\
  within_limit (ar_max_position_value r) details "position_value" = Some true /\
  within_limit (ar_max_order_value r) details "order_value" = Some true /\
  (forall n, ar_max_daily_approvals r = Some n -> daily_count (ar_id r) counts < n).

Lemma rule_matches_class now r cmd cls details :
  rule_matches now r cmd cls details = Some true -> cls ∈ ar_change_classes r.
Proof.
  unfold rule_matches. rewrite and_then_true. intros [Hc _]. injection Hc as Hc.
  unfold matches_change_class in Hc. by apply bool_decide_eq_true_1 in Hc.
Qed.

Lemma check_limits_true r details m :
  check_rule_limits r details m = Some true ->
  within_limit (ar_max_position_value r) details "position_value" = Some true /\
  within_limit (ar_max_order_value r) details "order_value" = Some true /\
  (forall n, ar_max_daily_approvals r = Some n -> daily_count (ar_id r) (aa_daily_counts m) < n).
Proof.
  unfold check_rule_limits. rewrite !and_then_true. intros (Hp & Ho & Hd). split_and!; [done..|].
  intros n E. rewrite E in Hd. injection Hd as Hd. lia.
Qed.

Lemma approves_true now cmd cls details m r :
  approves now cmd cls details m r = Some true ->
  may_approve now cmd cls details (aa_daily_counts m) r.
Proof.
  unfold approves. destruct (ar_enabled r) eqn:E; [|done]. cbn. case_bool_decide as Ha; [|done]. cbn.
  rewrite and_then_true. intros [Hm Hl]. apply check_limits_true in Hl as (Hp & Ho & Hd).
  apply rule_matches_class in Hm as Hc. by split_and!.
Qed.

Lemma approves_trading_approves now cmd details m r :
  approves_trading now cmd details m r = Some true ->
  approves now cmd TRADING_IMPACTING details m r = Some true.
Proof. unfold approves_trading, approves. by repeat case_match. Qed.

(** The two ways an evaluation ends, before it is logged. *)
Lemma evaluate_cases now cmd cls details m m' res :
  (if bool_decide (cls = TRADING_IMPACTING) then evaluate_trading_impacting now cmd details m
   else evaluate_other now cmd cls details m) = (m', res) ->
  (exists k r, (k, r) ∈ aa_rules m /\ approves now cmd cls details m r = Some true /\
     (m', res) = grant now (k, r) cmd details m) \/
  m' = m /\ match res with
            | Ok x => should_auto_approve x = true -> matched_rule x = None /\ cls = INFORMATIONAL
            | Raise _ => True
            end.
Proof.
  case_bool_decide as Hc; [subst; unfold evaluate_trading_impacting|unfold evaluate_other].
  - destruct (first_rule _ _) as [[[k r]|]|] eqn:E; [|intros [= <- <-]; by right..].
    intros Hg. apply first_rule_found in E as [Hin Ht]. left. exists k, r.
    split_and!; [done|by apply approves_trading_approves|done].
  - destruct (first_rule (denies _ _ _ _) _) as [[kr|]|]; [intros [= <- <-]; by right| |intros [= <- <-]; by right].
    destruct (first_rule _ _) as [[[k r]|]|] eqn:E; [| |intros [= <- <-]; by right].
    + intros Hg. apply first_rule_found in E as [Hin Ht]. left. by exists k, r.
    + case_bool_decide as Hi; [|intros [= <- <-]; by right].
      destruct (rule_evidence_hash _ _ _ _); intros [= <- <-]; by right.
Qed.

Lemma denied_first now cmd cls details m m' x k r :
  cls <> TRADING_IMPACTING -> evaluate_other now cmd cls details m = (m', Ok x) ->
  should_auto_approve x = true -> (k, r) ∈ aa_rules m -> ar_enabled r = true -> ar_action r = AUTO_DENY ->
  rule_matches now r cmd cls details = Some false.
Proof.
  intros Hc. unfold evaluate_other. destruct (first_rule (denies _ _ _ _) _) as [[kr|]|] eqn:E; [by intros [= _ <-]| |done].
  intros _ _ Hin He Ha. apply (first_rule_none _ _ _ _ E) in Hin. unfold denies in Hin.
  rewrite He, Ha in Hin. done.
Qed.

Lemma grant_cases now k r cmd details m :
  let r' := set_matched now r in
  let m' := with_rules (dset (aa_rules m) k r') (increment_daily_count (ar_id r) m) in
  grant now (k, r) cmd details m =
    match rule_evidence_hash now (Some r') cmd details with
    | None => (m', Raise tt)
    | Some h => (m', Ok (MkAutoResult true (Some r') ("Matched rule: " +:+ ar_name r) h))
    end.
Proof. cbn. unfold grant. cbn. by destruct (rule_evidence_hash _ _ _ _). Qed.

(** The counts an evaluation at [now] compares with the limits: those of today. *)
Definition counts_today (now : Z) (m : AutoApprovePolicyManager) : list (string * Z) :=
  if bool_decide (aa_count_date m = Some (now / day)) then aa_daily_counts m else [].

(** C15: A command is approved automatically only by a rule in the list that the local
    user keeps, an
    enabled approving rule that allows its class of change, matches it, and whose
    value and daily limits it keeps; or because it is informational.  A command
    that does not impact trading is not approved when an enabled denying rule
    matches it. *)
Theorem approval_needs_local_rule now cmd cls details m m' x :
  evaluate now cmd cls details m = (m', Ok x) -> should_auto_approve x = true ->
  (matched_rule x = None /\ cls = INFORMATIONAL \/
   exists k r, (k, r) ∈ aa_rules m /\ matched_rule x = Some (set_matched now r) /\
     may_approve now cmd cls (or_empty details) (counts_today now m) r /\
     rule_evidence_hash now (matched_rule x) cmd (or_empty details) = Some (aa_evidence_hash x)) /\
  (cls <> TRADING_IMPACTING -> forall k r, (k, r) ∈ aa_rules m -> ar_enabled r = true ->
     ar_action r = AUTO_DENY -> rule_matches now r cmd cls (or_empty details) = Some false).
Proof.
  unfold evaluate. set (m0 := check_daily_reset now m). set (d := or_empty details).
  assert (aa_rules m0 = aa_rules m /\ aa_daily_counts m0 = counts_today now m) as [Er Ec].
  { unfold m0, check_daily_reset, counts_today. by case_bool_decide. }
  destruct (if bool_decide _ then _ else _) as [m1 res] eqn:E. destruct res as [y|e]; [|done].
  intros [= _ <-] Hs. split.
  - destruct (evaluate_cases _ _ _ _ _ _ _ E) as [(k & r & Hin & Ha & Hg)|[_ Hi]]; [right|left; by apply Hi].
    exists k, r. rewrite grant_cases in Hg. apply approves_true in Ha. rewrite Ec in Ha. rewrite Er in Hin.
    destruct (rule_evidence_hash _ _ _ _) as [h|] eqn:Eh; [|done]. injection Hg as _ ->. done.
  - intros Hc k r. rewrite <- Er. rewrite bool_decide_eq_false_2 in E by done. by eapply denied_first.
Qed.

(** ** Daily limits *)

Inductive auto_op :=
  | Evaluate (now : Z) (cmd : string) (cls : ChangeClass) (details : option dict)
  | AddRule (r : AutoApproveRule)
  | UpdateRule (id : string) (us : list rule_update)
  | RemoveRule (id : string).

Abbreviation trace := (list (Z * AutoApproveResult)).

Definition auto_step (s : AutoApprovePolicyManager * trace) (op : auto_op) :
    AutoApprovePolicyManager * trace :=
  match op with
  | Evaluate now cmd cls details =>
      match evaluate now cmd cls details s.1 with
      | (m, Ok x) => (m, s.2 ++ [(now, x)])
      | (m, Raise _) => (m, s.2)
      end
  | AddRule r => ((add_auto_rule r s.1).1, s.2)
  | UpdateRule id us => ((update_auto_rule id us s.1).1, s.2)
  | RemoveRule id => ((remove_auto_rule id s.1).1, s.2)
  end.

Definition auto_run (ops : list auto_op) (m : AutoApprovePolicyManager) : AutoApprovePolicyManager * trace :=
  fold_left auto_step ops (m, []).

(** An approval on day [d] by the rule with this id. *)
Definition approved_on (id : string) (d : Z) (p : Z * AutoApproveResult) : bool :=
  (p.1 / day =? d) && should_auto_approve p.2 &&
  match matched_rule p.2 with
  | Some r => bool_decide (ar_id r = id)
  | None => false
  end.

Definition approvals (id : string) (d : Z) (tr : trace) : Z := cnt (approved_on id d) tr.

(** Evaluations in the order of their days, from day [d] on. *)
Fixpoint days_ordered (d : Z) (ops : list auto_op) : Prop :=
  match ops with
  | [] => True
  | Evaluate now _ _ _ :: r => d <= now / day /\ days_ordered (now / day) r
  | _ :: r => days_ordered d r
  end.

(** An update that touches neither an id nor a daily limit. *)
Definition harmless (u : rule_update) : bool :=
  match u with
  | URuleId _ | UMaxDaily _ => false
  | _ => true
  end.

Section Limit.
Context (id : string) (n : Z).

(** The operation leaves rules with this id at the limit [n]. *)
Definition keeps_limit (op : auto_op) : Prop :=
  match op with
  | AddRule r => ar_id r = id -> ar_max_daily_approvals r = Some n
  | UpdateRule _ us => Forall harmless us
  | _ => True
  end.

Definition limited (m : AutoApprovePolicyManager) : Prop :=
  forall k r, (k, r) ∈ aa_rules m -> ar_id r = id -> ar_max_daily_approvals r = Some n.

(** The counter covers the approvals of its day, and none is of a later day. *)
Definition counted (s : AutoApprovePolicyManager * trace) : Prop :=
  limited s.1 /\ (forall d, approvals id d s.2 <= Z.max 0 n) /\
  match aa_count_date s.1 with
  | None => forall d, approvals id d s.2 = 0
  | Some c => approvals id c s.2 <= daily_count id (aa_daily_counts s.1) /\
              forall d, c < d -> approvals id d s.2 = 0
  end.

Definition counted_from (d : Z) (s : AutoApprovePolicyManager * trace) : Prop :=
  counted s /\ match aa_count_date s.1 with Some c => c <= d | None => True end.

Lemma set_attr_harmless us r :
  Forall harmless us ->
  ar_id (fold_left set_attr us r) = ar_id r /\
  ar_max_daily_approvals (fold_left set_attr us r) = ar_max_daily_approvals r.
Proof.
  intros Hu. revert r. induction Hu as [|u us Hu _ IH]; intros r; [done|]. cbn.
  destruct (IH (set_attr r u)) as [-> ->]. by destruct u.
Qed.

Lemma limited_dset m m' k r :
  limited m -> aa_rules m' = dset (aa_rules m) k r ->
  (ar_id r = id -> ar_max_daily_approvals r = Some n) -> limited m'.
Proof.
  intros Hm E Hr k' r'. rewrite E. intros Hin Hid.
  apply elem_dset in Hin as [[= -> ->]|Hin]; [by apply Hr|by eapply Hm].
Qed.

(** Saving changes the file alone. *)
Lemma saved_frame {A} (x : A) m :
  aa_rules (saved_with x m).1 = aa_rules m /\ aa_daily_counts (saved_with x m).1 = aa_daily_counts m /\
  aa_count_date (saved_with x m).1 = aa_count_date m.
Proof. unfold saved_with, save_rules. by destruct (forallb _ _). Qed.

(** Operations other than an evaluation leave the counts and the trace. *)
Lemma counted_rules d m m' tr :
  counted_from d (m, tr) -> limited m' -> aa_daily_counts m' = aa_daily_counts m ->
  aa_count_date m' = aa_count_date m -> counted_from d (m', tr).
Proof. intros [(_ & Hb & Hc) Hd] Hl E1 E2. unfold counted_from, counted. cbn in *. by rewrite E1, E2. Qed.

Lemma counted_saved {A} (x : A) d m rs tr :
  counted_from d (m, tr) -> limited (with_rules rs m) -> counted_from d ((saved_with x (with_rules rs m)).1, tr).
Proof.
  intros Hs Hl. destruct (saved_frame x (with_rules rs m)) as (Er & Ec & Ed).
  eapply counted_rules; [exact Hs| |by rewrite Ec|by rewrite Ed]. unfold limited in *. by rewrite Er.
Qed.

(** The reset at the start of an evaluation. *)
Lemma counted_reset now d m tr :
  d <= now / day -> counted_from d (m, tr) ->
  let m0 := check_daily_reset now m in
  limited m0 /\ aa_count_date m0 = Some (now / day) /\ (forall d, approvals id d tr <= Z.max 0 n) /\
  approvals id (now / day) tr <= daily_count id (aa_daily_counts m0) /\
  (forall d, now / day < d -> approvals id d tr = 0).
Proof.
  intros Hle [(Hl & Hb & Hc) Hd]. unfold check_daily_reset. cbn in Hc, Hd.
  case_bool_decide as E.
  - rewrite E in Hc. by destruct Hc.
  - cbn. split_and!; [exact Hl|done|exact Hb| |];
      (destruct (aa_count_date m) as [c|]; [destruct Hc as [_ Hc]|]);
      try (intros d' Hd'); try rewrite Hc; try (cbn; lia);
      assert (c <> now / day) by congruence; lia.
Qed.

Lemma approvals_snoc d tr p : approvals id d (tr ++ [p]) = approvals id d tr + if approved_on id d p then 1 else 0.
Proof. unfold approvals. by rewrite cnt_app, cnt_one. Qed.

Lemma not_approved d now x :
  (should_auto_approve x = true -> matched_rule x = None) -> approved_on id d (now, x) = false.
Proof.
  intros Hx. unfold approved_on. cbn. destruct (should_auto_approve x); [|by rewrite andb_false_r].
  rewrite Hx by done. by rewrite andb_false_r.
Qed.

(** An approval by a rule keeps what is counted. *)
Lemma counted_grant now m tr cmd cls details k r m' res :
  limited m -> aa_count_date m = Some (now / day) -> (forall d, approvals id d tr <= Z.max 0 n) ->
  approvals id (now / day) tr <= daily_count id (aa_daily_counts m) ->
  (forall d, now / day < d -> approvals id d tr = 0) ->
  (k, r) ∈ aa_rules m -> approves now cmd cls details m r = Some true ->
  (m', res) = grant now (k, r) cmd details m ->
  counted (m', match res with Ok x => tr ++ [(now, x)] | Raise _ => tr end) /\
  aa_count_date m' = Some (now / day).
Proof.
  intros Hl Ed Hb Hc Hf Hin Ha Hg. apply approves_true in Ha as (_ & _ & _ & _ & _ & _ & Hn).
  rewrite grant_cases in Hg.
  set (m1 := with_rules (dset (aa_rules m) k (set_matched now r)) (increment_daily_count (ar_id r) m)) in *.
  assert (limited m1) as Hl1.
  { eapply limited_dset; [exact Hl|reflexivity|]. cbn. by eapply Hl. }
  assert (daily_count id (aa_daily_counts m1) =
          daily_count id (aa_daily_counts m) + if bool_decide (ar_id r = id) then 1 else 0) as Ec.
  { cbn. unfold daily_count at 1. case_bool_decide as E.
    - rewrite E, dget_dset_eq. done.
    - rewrite dget_dset_ne by congruence. unfold daily_count. lia. }
  assert (m' = m1) as -> by (destruct (rule_evidence_hash _ _ _ _); by injection Hg).
  split; [|done]. unfold counted. cbn [fst snd]. change (aa_count_date m1) with (aa_count_date m).
  rewrite Ed, Ec. destruct res as [x|e].
  - assert (forall d, approved_on id d (now, x) = (now / day =? d) && bool_decide (ar_id r = id)) as Ex.
    { intros d. destruct (rule_evidence_hash _ _ _ _); [|done]. injection Hg as ->.
      unfold approved_on. cbn. by rewrite andb_true_r. }
    split_and!; [done|intros d| |intros d Hd]; rewrite approvals_snoc, Ex.
    + specialize (Hb d). destruct (Z.eqb_spec (now / day) d) as [<-|]; cbn [andb]; [|lia].
      case_bool_decide as E; [|lia]. specialize (Hn n (Hl k r Hin E)). rewrite E in Hn. lia.
    + rewrite Z.eqb_refl. cbn [andb]. destruct (bool_decide _); lia.
    + rewrite Hf by done. destruct (Z.eqb_spec (now / day) d); [lia|done].
  - split_and!; [done|exact Hb| |exact Hf]. destruct (bool_decide _); lia.
Qed.

Lemma counted_log now cmd cls x m tr : counted (m, tr) -> counted (log_evaluation now cmd cls x m, tr).
Proof. done. Qed.

Lemma counted_step d s op :
  counted_from d s -> keeps_limit op -> days_ordered d [op] ->
  counted_from (match op with Evaluate now _ _ _ => now / day | _ => d end) (auto_step s op).
Proof.
  destruct s as [m tr]. intros Hs Hk Ho. destruct op as [now cmd cls details|r|k us|k]; cbn [auto_step fst snd].
  - cbn in Ho. destruct Ho as [Ho _].
    destruct (counted_reset now d m tr Ho Hs) as (Hl & Ed & Hb & Hc & Hf).
    unfold evaluate. set (m0 := check_daily_reset now m) in *.
    destruct (if bool_decide _ then _ else _) as [m1 res] eqn:E.
    destruct (evaluate_cases _ _ _ _ _ _ _ E) as [(k & r & Hin & Ha & Hg)|[-> Hi]].
    + destruct (counted_grant now m0 tr cmd cls (or_empty details) k r m1 res) as [Hm Hd1]; [done..|].
      destruct res as [x|e]; (split; [|by cbn; rewrite Hd1]); [by apply counted_log|done].
    + assert (counted (m0, tr)) as Hm0 by (unfold counted; cbn; by rewrite Ed).
      destruct res as [x|e]; (split; [|by cbn; rewrite Ed]); [|done]. apply counted_log.
      assert (forall d, approvals id d (tr ++ [(now, x)]) = approvals id d tr) as Ex.
      { intros d'. rewrite approvals_snoc, not_approved; [lia|]. intros Hx. by apply Hi. }
      destruct Hm0 as (Hl0 & Hb0 & Hc0). split; [done|]. cbn [fst snd] in *.
      rewrite Ed in Hc0 |- *. by repeat setoid_rewrite Ex.
  - apply counted_saved; [exact Hs|]. by eapply limited_dset; [apply Hs|reflexivity|].
  - unfold update_auto_rule. destruct (dget (aa_rules m) k) as [r|] eqn:E; [|done].
    apply counted_saved; [exact Hs|]. eapply limited_dset; [apply Hs|reflexivity|].
    destruct (set_attr_harmless us r Hk) as [Ei En]. apply dget_elem in E.
    destruct (existsb _ _); cbn; rewrite Ei, En; by eapply Hs.
  - unfold remove_auto_rule. destruct (dmem _ _); [|done].
    apply counted_saved; [exact Hs|]. intros k' r' Hin. cbn in Hin.
    apply elem_ddel in Hin as [Hin _]. by eapply Hs.
Qed.

Lemma counted_steps d ops s :
  counted_from d s -> Forall keeps_limit ops -> days_ordered d ops -> counted (fold_left auto_step ops s).
Proof.
  revert d s. induction ops as [|op ops IH]; intros d s Hs Hk Ho; [apply Hs|].
  apply Forall_cons in Hk as [Hk Hks]. cbn.
  destruct op as [now cmd cls details|r|k us|k]; cbn in Ho;
    (eapply IH; [eapply counted_step; [exact Hs|done|cbn; tauto]|done|tauto]).
Qed.

(** A rule with a daily limit of [n] approves at most [n] commands on any one
    day, over every run of evaluations, additions, removals and updates that keep
    its id and its limit, as long as the clock does not go back over midnight. *)
Theorem daily_limit_kept f uuid now callback d ops day_ :
  limited (new_auto_manager uuid now f callback) -> Forall keeps_limit ops -> days_ordered d ops ->
  approvals id day_ (auto_run ops (new_auto_manager uuid now f callback)).2 <= Z.max 0 n.
Proof.
  intros Hl Hk Ho. apply (counted_steps d ops); [|done|done]. split; [|done].
  split_and!; [done|intros d0; cbn [snd]; change (approvals id d0 []) with 0; lia|done].
Qed.
End Limit.
End Evaluation.

(** ** Written and read *)

Section File.
Context `{Regex}.

(** What a rule is after it was written and read: the time of its last match is gone. *)
Definition reread (r : AutoApproveRule) : AutoApproveRule :=
  post_init
    (MkAutoRule (ar_id r) (ar_name r) (ar_description r) (ar_type r) (ar_action r) (ar_enabled r)
       (ar_command_types r) (ar_symbol_patterns r) (ar_strategy_ids r) (ar_deployment_ids r)
       (ar_config_path_patterns r) (ar_window_start r) (ar_window_end r) (ar_weekdays_only r)
       (ar_max_position_value r) (ar_max_order_value r) (ar_max_daily_approvals r) (ar_change_classes r)
       (ar_created_at r) (ar_created_by r) None (ar_match_count r) []).

Lemma member_change_class c : member change_class_value all_change_classes (VStr (change_class_value c)) = Some c.
Proof. by destruct c. Qed.

Lemma member_rule_type c : member rule_type_name all_rule_types (VStr (rule_type_name c)) = Some c.
Proof. by destruct c. Qed.

Lemma member_action a :
  member rule_action_value [AUTO_APPROVE; AUTO_DENY; REQUIRE_APPROVAL] (VStr (rule_action_value a)) = Some a.
Proof. by destruct a. Qed.

Lemma read_classes l :
  mapM (fun s => member change_class_value all_change_classes (VStr s)) (map change_class_value l) = Some l.
Proof.
  induction l as [|c l IH]; [done|]. cbn [map mapM]. rewrite member_change_class.
  cbn [mbind option_bind]. by rewrite IH.
Qed.

Lemma read_opt_str o : as_opt as_str (v_opt_str o) = Some o.
Proof. by destruct o. Qed.

Lemma read_opt_int o : as_opt as_int (opt_int o) = Some o.
Proof. by destruct o. Qed.

Lemma read_opt_val o : o <> Some VNone -> as_opt Some (default VNone o) = Some o.
Proof. destruct o as [[]|]; done. Qed.

(** The dictionary of a rule is read back with every field it had but the time of its
    last match, its patterns compiled again. *)
Theorem rule_survives_the_file id now r :
  date_min <= ar_created_at r / day <= date_max ->
  ar_max_position_value r <> Some VNone -> ar_max_order_value r <> Some VNone ->
  auto_rule_from_dict id now (auto_rule_to_dict r) = Some (reread r).
Proof.
  intros Ht Hp Ho. pose proof (isoformat_truthy _ Ht : val_true (VStr _) = true) as Hs. pose proof (fromisoformat_isoformat _ Ht) as Hi.
  unfold auto_rule_from_dict, auto_rule_to_dict. generalize dependent (isoformat (ar_created_at r)). intros s Hs Hi.
  match goal with |- context [dget ?d _] => set (data := d) end.
  assert (forall k v, dget data k = Some v -> forall d, default d (dget data k) = v) as G.
  { intros k v E d. by rewrite E. }
  erewrite !G by reflexivity. cbn [as_strs mbind option_bind]. rewrite read_classes. cbn [as_str mbind option_bind].
  rewrite member_rule_type. cbn [mbind option_bind]. rewrite member_action. cbn [as_bool as_strs mbind option_bind].
  rewrite !read_opt_str. cbn [mbind option_bind]. rewrite (read_opt_val _ Hp), (read_opt_val _ Ho), read_opt_int.
  cbn [mbind option_bind as_str as_int]. rewrite Hs, Hi. cbn [mbind option_bind].
  unfold reread. by rewrite !list_to_set_elements_L.
Qed.
End File.

(** ** Concrete runs *)

(** The patterns [^literal$], with escapes: what [symbol_pattern] writes. *)
Fixpoint read_literal (l : text) : option text :=
  match l with
  | [] => None
  | ["$"%char] => Some []
  | c :: r =>
      if bool_decide (c = char_backslash) then
        match r with
        | d :: r' => cons d <$> read_literal r'
        | [] => None
        end
      else if special_char c then None else cons c <$> read_literal r
  end.

Definition read_pattern (p : string) : option text :=
  match chars p with
  | "^"%char :: r => read_literal r
  | _ => None
  end.

#[local] Instance literal_regex : Regex := {|
  re_compiles p := bool_decide (is_Some (read_pattern p));
  re_search p s :=
    match read_pattern p with
    | Some l => bool_decide (map lower_char l = map lower_char (chars s))
    | None => false
    end
|}.

Example symbol_pattern_ex :
  let r := create_symbol_allowlist_rule "r" 0 "crypto" ["BTC-USD"; "ETH.X"]%string None in
  ar_symbol_patterns r = ["^BTC\-USD$"; "^ETH\.X$"]%string /\
  map (fun s => matches_symbol r (VStr s)) ["btc-usd"; "ETHAX"; "ETH.X"]%string
  = [Some true; Some false; Some true].
Proof. split; vm_compute; reflexivity. Qed.

Definition with_updates (r : AutoApproveRule) (us : list rule_update) : AutoApproveRule :=
  post_init (fold_left set_attr us r).

(** A rule for one symbol that approves trading, twice a day. *)
Definition btc_rule : AutoApproveRule :=
  with_updates (create_symbol_allowlist_rule "btc" 0 "BTC only" ["BTC"]%string (Some (VInt 10000)))
    [UMaxDaily (Some 2); UChangeClasses [TRADING_IMPACTING; OPERATIONAL]].

Definition empty_manager : AutoApprovePolicyManager := new_auto_manager "u" 0 NoFile false.

Definition ask (now : Z) (cls : ChangeClass) (details : dict) : auto_op :=
  Evaluate now "UPDATE_CONFIG" cls (Some details).

Definition btc_details : dict := [("symbol", VStr "BTC"); ("position_value", VInt 500)]%string.

(** The verdicts of a run, each with the rule it names. *)
Definition verdicts (ops : list auto_op) : list (bool * option string) :=
  map (fun p => (should_auto_approve p.2, ar_id <$> matched_rule p.2)) (auto_run ops empty_manager).2.

Lemma daily_limit_kept_witness :
  let ops := [AddRule btc_rule; ask 0 TRADING_IMPACTING btc_details; ask 1 OPERATIONAL btc_details;
              ask 2 TRADING_IMPACTING btc_details; ask day TRADING_IMPACTING btc_details] in
  verdicts ops = [(true, Some "btc"); (true, Some "btc"); (false, None); (true, Some "btc")]%string /\
  approvals "btc" 0 (auto_run ops empty_manager).2 <= Z.max 0 2.
Proof.
  split; [vm_compute; reflexivity|].
  apply (daily_limit_kept "btc" 2 NoFile "u" 0 false 0).
  - intros k r Hin. by apply elem_of_nil in Hin.
  - repeat constructor.
  - cbn [days_ordered ask]. split_and!; try done; apply Z.leb_le; vm_compute; reflexivity.
Defined.

Lemma approval_needs_local_rule_witness :
  let m := (auto_run [AddRule btc_rule] empty_manager).1 in
  exists x, (evaluate 0 "UPDATE_CONFIG" TRADING_IMPACTING (Some btc_details) m).2 = Ok x /\
    should_auto_approve x = true /\
    exists k r, (k, r) ∈ aa_rules m /\ may_approve 0 "UPDATE_CONFIG" TRADING_IMPACTING btc_details [] r.
Proof.
  set (m := (auto_run [AddRule btc_rule] empty_manager).1). cbn zeta.
  destruct (evaluate 0 "UPDATE_CONFIG" TRADING_IMPACTING (Some btc_details) m) as [m' [x|e]] eqn:E;
    [|by vm_compute in E].
  assert (should_auto_approve x = true /\ matched_rule x <> None) as [Hs Hx].
  { vm_compute in E. by injection E as _ <-. }
  exists x. split; [done|]. split; [done|].
  destruct (approval_needs_local_rule 0 "UPDATE_CONFIG" TRADING_IMPACTING (Some btc_details) m m' x E Hs)
    as [[[Hn _]|(k & r & Hin & _ & Hm & _)] _]; [done|].
  exists k, r. split; [exact Hin|exact Hm].
Defined.

Lemma rule_survives_the_file_witness :
  date_min <= 0 / day <= date_max /\
  auto_rule_from_dict "x" 5 (auto_rule_to_dict (set_matched 7 btc_rule)) = Some (reread (set_matched 7 btc_rule)).
Proof.
  split; [unfold date_min, date_max, day; done|].
  apply (rule_survives_the_file "x" 5 (set_matched 7 btc_rule)); [|done|done].
  unfold date_min, date_max, day. done.
Defined.

Definition deny_all : AutoApproveRule :=
  with_updates (create_operational_auto_approve_rule "deny" 0 "deny" None)
    [UAction AUTO_DENY; UChangeClasses [TRADING_IMPACTING; OPERATIONAL; INFORMATIONAL]].

(** A denying rule is not consulted for changes that impact trading. *)
Example deny_rule_ignored_for_trading :
  verdicts [AddRule deny_all; AddRule btc_rule; ask 0 TRADING_IMPACTING btc_details; ask 0 OPERATIONAL btc_details]
  = [(true, Some "btc"); (false, Some "deny")]%string.
Proof. vm_compute. reflexivity. Qed.

(** A rule that requires approval requires nothing. *)
Example require_approval_has_no_effect :
  verdicts [AddRule (with_updates deny_all [UAction REQUIRE_APPROVAL]);
            AddRule (create_operational_auto_approve_rule "op" 0 "op" None); ask 0 OPERATIONAL []]
  = [(true, Some "op")]%string.
Proof. vm_compute. reflexivity. Qed.

(** A request that names no symbol and no value passes the rule for small BTC positions. *)
Example missing_symbol_passes :
  verdicts [AddRule btc_rule; ask 0 TRADING_IMPACTING []] = [(true, Some "btc")]%string.
Proof. vm_compute. reflexivity. Qed.

(** A pattern that does not compile lifts the restriction; so does an empty list of symbols. *)
Example invalid_pattern_passes :
  verdicts [AddRule (with_updates btc_rule [USymbolPatterns ["["]]); ask 0 TRADING_IMPACTING [("symbol", VStr "DOGE")]]%string
  = [(true, Some "btc")]%string /\
  matches_symbol (create_symbol_allowlist_rule "r" 0 "none" [] None) (VStr "DOGE") = Some true.
Proof. split; vm_compute; reflexivity. Qed.

(** [weekdays_only] without a time window allows Saturdays (day 2 of the epoch). *)
Example weekdays_only_needs_window :
  weekday 2 = 5 /\
  matches_time_window (2 * day) (with_updates btc_rule [UWeekdaysOnly true]) = true /\
  matches_time_window (2 * day)
    (with_updates btc_rule [UWeekdaysOnly true; UWindowStart (Some "00:00"); UWindowEnd (Some "23:59")]%string) = false.
Proof. split_and!; vm_compute; reflexivity. Qed.

(** A restart gives the daily approvals again. *)
Example restart_forgets_approvals :
  let m := (auto_run [AddRule btc_rule; ask 0 TRADING_IMPACTING btc_details; ask 1 TRADING_IMPACTING btc_details;
                      ask 2 TRADING_IMPACTING btc_details] empty_manager).1 in
  let verdict m := match (evaluate 3 "UPDATE_CONFIG" TRADING_IMPACTING (Some btc_details) m).2 with
                   | Ok x => should_auto_approve x
                   | Raise _ => false
                   end in
  verdict m = false /\ verdict (new_auto_manager "u" 3 (aa_file m) false) = true.
Proof. split; vm_compute; reflexivity. Qed.

(** A rule with a decimal limit: adding it raises although the rule is in force, and leaves a
    file that the next start reads no rule from. *)
Example decimal_limit_loses_rules :
  let bad := with_updates btc_rule [URuleId "d"; UMaxOrder (Some (VDec (Dec 5 0)))]%string in
  let '(m, res) := add_auto_rule bad (add_auto_rule btc_rule empty_manager).1 in
  res = Raise tt /\ map fst (aa_rules m) = ["btc"; "d"]%string /\
  aa_rules (new_auto_manager "u" 3 (aa_file m) false) = [].
Proof. vm_compute. split_and!; reflexivity. Qed.

(** Details with a decimal: the approval is counted, then the hash raises. *)
Example unprintable_details_counted :
  let m := (auto_run [AddRule btc_rule; ask 0 TRADING_IMPACTING [("price", VDec (Dec 1 0))]] empty_manager).1 in
  (auto_run [AddRule btc_rule; ask 0 TRADING_IMPACTING [("price", VDec (Dec 1 0))]] empty_manager).2 = [] /\
  daily_count "btc" (aa_daily_counts m) = 1.
Proof. split; vm_compute; reflexivity. Qed.
