(* ===== verification/LiveAuth.v ===== *)
(** * Mandates for live trading: [packages/agent/approval/live_trading_authorization.py]

    [LiveTradingAuthorizationStore]: an operator's mandate for one strategy, one
    configuration and one broker, with ceilings, a time to live and a budget; its
    check, its use and its end.

    The state file holds the mandates as last saved and the audit file the lines of
    the audit chain; writing succeeds, and reading JSON gives back what was written.
    The configuration is a text or JSON data ([pyval] without decimals and times,
    which [json.dumps] would refuse).  The clock is read once per operation and is a
    finite float; a fresh identifier is an argument of [grant].  Messages for people
    are enumerated, not spelled. *)
From Stdlib Require Import Ascii String SpecFloat.
From S2P Require Import Prelude PyDecimal DecArith PyFormat PyFloat PyValue PyJson PyText Sha256.
From S2P Require Import HashChain.
Open Scope Z_scope.
Open Scope list_scope.

(** ** Data *)

Inductive AuthStatus := ST_ACTIVE | ST_REVOKED | ST_EXPIRED | ST_EXHAUSTED.

#[export] Instance AuthStatus_eq_dec : EqDecision AuthStatus.
Proof. solve_decision. Defined.

Definition auth_status_value (s : AuthStatus) : string :=
  match s with
  | ST_ACTIVE => "active"
  | ST_REVOKED => "revoked"
  | ST_EXPIRED => "expired"
  | ST_EXHAUSTED => "exhausted"
  end%string.

Definition HARD_MAX_TTL_SEC : Z := 7 * 24 * 3600.
Definition HARD_MAX_NOTIONAL_PER_REBALANCE : pyfloat := float_of_int 5000000.
Definition HARD_MAX_TURNOVER : pyfloat := float_of_int 1.

Record LimitCeiling := MkCeiling {
  max_turnover : pyfloat;
  max_notional_per_rebalance : pyfloat;
  max_orders_per_rebalance : Z
}.

Definition default_ceiling : LimitCeiling :=
  MkCeiling (float_of_dec (Dec 10 (-2))) (float_of_int 100000) 25.

Definition clamp_to_hard (c : LimitCeiling) : LimitCeiling :=
  MkCeiling (fmin (max_turnover c) HARD_MAX_TURNOVER)
    (fmin (max_notional_per_rebalance c) HARD_MAX_NOTIONAL_PER_REBALANCE)
    (max_orders_per_rebalance c).

Definition ceiling_to_dict (c : LimitCeiling) : dict :=
  [("max_turnover", VFloat (max_turnover c));
   ("max_notional_per_rebalance", VFloat (max_notional_per_rebalance c));
   ("max_orders_per_rebalance", VInt (max_orders_per_rebalance c))]%string.

Record Mandate := MkMandate {
  auth_id : string;
  ma_strategy_id : string;
  config_hash : string;
  ma_broker : string;
  limit_ceiling : LimitCeiling;
  granted_at : pyfloat;
  ma_expires_at : pyfloat;
  granted_by : string;
  ma_status : AuthStatus;
  max_total_notional : option pyfloat;
  max_rebalances : option Z;
  consumed_notional : pyfloat;
  consumed_rebalances : Z;
  revoked_at : option pyfloat;
  revoke_reason : option string;
  ma_note : string
}.

Definition is_active (now : pyfloat) (a : Mandate) : bool :=
  bool_decide (ma_status a = ST_ACTIVE) && fltb now (ma_expires_at a).

(** [auth.status = ...; auth.revoked_at; auth.revoke_reason] *)
Definition close_mandate (st : AuthStatus) (at_ : option pyfloat) (reason : option string)
    (a : Mandate) : Mandate :=
  MkMandate (auth_id a) (ma_strategy_id a) (config_hash a) (ma_broker a) (limit_ceiling a)
    (granted_at a) (ma_expires_at a) (granted_by a) st (max_total_notional a) (max_rebalances a)
    (consumed_notional a) (consumed_rebalances a) at_ reason (ma_note a).

Definition use_mandate (notional : pyfloat) (a : Mandate) : Mandate :=
  MkMandate (auth_id a) (ma_strategy_id a) (config_hash a) (ma_broker a) (limit_ceiling a)
    (granted_at a) (ma_expires_at a) (granted_by a) (ma_status a) (max_total_notional a)
    (max_rebalances a) (fadd (consumed_notional a) (fmax fzero notional))
    (consumed_rebalances a + 1) (revoked_at a) (revoke_reason a) (ma_note a).

(** The result of a check; the reasons of a refusal. *)
Inductive CheckReason :=
  | NoMandate | ConfigChanged | OverTurnover | OverNotional | OverOrders
  | RebalancesExhausted | NotionalExhausted | Authorized.

Record AuthCheck := MkCheck {
  allowed : bool;
  check_reason : CheckReason;
  check_auth_id : option string;
  effective_ceiling : option LimitCeiling
}.

(** A configuration as the callers pass it. *)
Inductive config_arg :=
  | ConfigText (s : string)
  | ConfigData (v : pyval).

Record AuthStore := MkAuthStore {
  auths : list (string * Mandate);
  audit_chain : HashChain;
  audit_file : list ChainRecord;
  state_file : option (list (string * Mandate))
}.

(** ** Hash of a configuration *)

Definition hex_char (c : ascii) : bool :=
  let n := nat_of_ascii c in
  (((48 <=? n) && (n <=? 57)) || ((97 <=? n) && (n <=? 102)))%nat.

Section Store.
Context `{Digest}.

Definition canonical_config_hash (config : config_arg) : string :=
  match config with
  | ConfigText s =>
      if (String.length s =? 64)%nat && forallb hex_char (chars (str_lower s)) then str_lower s
      else sha256_hex s
  | ConfigData v => sha256_hex (string_of_list_ascii (json_val v))
  end.

(** ** Audit *)

(** Microseconds of a clock reading, as [datetime.fromtimestamp] rounds them. *)
Definition time_us (ts : pyfloat) : Z :=
  match float_to_int ts with
  | Some s =>
      match fmul (fsub ts (float_of_int s)) (float_of_int 1000000) with
      | S754_finite sg m e =>
          let u := rescale 0 (float_exact false m e) in
          s * sec + (if sg then - u else u)
      | _ => s * sec
      end
  | None => 0
  end.

(** [_iso] *)
Definition iso_seconds (ts : pyfloat) : string :=
  let t := time_us ts in
  isoformat (t - t mod sec) +:+ "+00:00".

Definition audit_entry (now : pyfloat) (event : string) (payload : dict) : dict :=
  [("event", VStr event); ("at", VFloat now); ("at_iso", VStr (iso_seconds now))]%string ++ payload.

(** [_audit] *)
Definition audit (now : pyfloat) (event : string) (payload : dict) (s : AuthStore) : AuthStore :=
  let '(c, r) := append (audit_chain s) (audit_entry now event payload) in
  MkAuthStore (auths s) c (audit_file s ++ [r]) (state_file s).

Definition verify_audit (s : AuthStore) : verdict := verify (audit_chain s).

(** ** State *)

Definition set_auths (d : list (string * Mandate)) (s : AuthStore) : AuthStore :=
  MkAuthStore d (audit_chain s) (audit_file s) (state_file s).

(** [_save] *)
Definition save (s : AuthStore) : AuthStore :=
  MkAuthStore (auths s) (audit_chain s) (audit_file s) (Some (auths s)).

(** [__init__] with [_load]: the mandates of the state file, and, if there is one,
    a chain built anew from the payloads of the audit file. *)
Definition open_store (key : option string) (file : option (list (string * Mandate)))
    (lines : list ChainRecord) : AuthStore :=
  match file with
  | None => MkAuthStore [] (MkChain key []) lines None
  | Some d =>
      MkAuthStore (fold_left (fun m p => dset m (auth_id p.2) p.2) d [])
        (append_all (MkChain key []) (map cr_payload lines)) lines (Some d)
  end.

(** ** Granting *)

Inductive grant_result := Granted (id : string) | RefusedPaper | RefusedToken | GrantRaises.

Definition norm_broker (b : string) : string := str_lower (str_strip b).

Definition ascii_only (s : string) : bool :=
  forallb (fun c => (nat_of_ascii c <? 128)%nat) (chars s).

(** What a new mandate ends: the active one of the same strategy and broker. *)
Definition supersedes (new old : Mandate) : bool :=
  bool_decide (ma_strategy_id old = ma_strategy_id new) &&
  bool_decide (ma_broker old = ma_broker new) && bool_decide (ma_status old = ST_ACTIVE).

Definition supersede (now : pyfloat) (new : Mandate) (s : AuthStore) : AuthStore :=
  let ended := filter (fun p => supersedes new p.2 = true) (auths s) in
  let d := map (fun p => (p.1, if supersedes new p.2 then
      close_mandate ST_REVOKED (Some now) (Some "superseded by new grant"%string) p.2 else p.2))
    (auths s) in
  fold_left (fun s p => audit now "SUPERSEDE" [("auth_id"%string, VStr (auth_id p.2))] s) ended
    (set_auths d s).

Definition clamp_ttl (ttl : Z) : Z := Z.max 60 (Z.min ttl HARD_MAX_TTL_SEC).

Definition new_mandate (now : pyfloat) (id strategy : string) (config : config_arg) (broker : string)
    (ceiling : LimitCeiling) (ttl : Z) (total : option pyfloat) (rebalances : option Z)
    (by_ note : string) : Mandate :=
  MkMandate id strategy (canonical_config_hash config) (norm_broker broker) (clamp_to_hard ceiling)
    now (fadd now (float_of_int (clamp_ttl ttl))) by_ ST_ACTIVE
    (match total with
     | Some x => if ftrue x then Some x else None
     | None => None
     end)
    (match rebalances with
     | Some n => if n =? 0 then None else Some n
     | None => None
     end)
    fzero 0 None None note.

Definition grant_payload (a : Mandate) : dict :=
  [("auth_id", VStr (auth_id a)); ("strategy_id", VStr (ma_strategy_id a));
   ("broker", VStr (ma_broker a)); ("config_hash", VStr (config_hash a));
   ("expires_at", VFloat (ma_expires_at a)); ("ceiling", VDict (ceiling_to_dict (limit_ceiling a)));
   ("max_total_notional", match max_total_notional a with Some x => VFloat x | None => VNone end);
   ("max_rebalances", match max_rebalances a with Some n => VInt n | None => VNone end);
   ("granted_by", VStr (granted_by a))]%string.

Definition grant (now : pyfloat) (id strategy : string) (config : config_arg) (broker : string)
    (ceiling : LimitCeiling) (ttl : Z) (confirmation expected : string) (total : option pyfloat)
    (rebalances : option Z) (by_ note : string) (s : AuthStore) : AuthStore * grant_result :=
  if bool_decide (norm_broker broker = "sim_paper"%string) then (s, RefusedPaper)
  else if negb (ascii_only confirmation && ascii_only expected) then (s, GrantRaises)
  else if negb (bool_decide (confirmation = expected)) then
    (audit now "REJECT_GRANT"
       [("strategy_id", VStr strategy); ("broker", VStr broker);
        ("reason", VStr "confirmation token mismatch")]%string s, RefusedToken)
  else
    let a := new_mandate now id strategy config broker ceiling ttl total rebalances by_ note in
    let s1 := supersede now a s in
    let s2 := save (set_auths (dset (auths s1) id a) s1) in
    (audit now "GRANT" (grant_payload a) s2, Granted id).

(** ** Ending *)

Inductive revoke_result := RevokeUnknown | AlreadyEnded (st : AuthStatus) | Revoked.

Definition revoke (now : pyfloat) (id reason : string) (s : AuthStore) : AuthStore * revoke_result :=
  match dget (auths s) id with
  | None => (s, RevokeUnknown)
  | Some a =>
      if negb (bool_decide (ma_status a = ST_ACTIVE)) then (s, AlreadyEnded (ma_status a))
      else
        let a' := close_mandate ST_REVOKED (Some now) (Some reason) a in
        (audit now "REVOKE" [("auth_id", VStr id); ("reason", VStr reason)]%string
           (save (set_auths (dset (auths s) id a') s)), Revoked)
  end.

Definition revoke_all (now : pyfloat) (reason : string) (s : AuthStore) : AuthStore * Z :=
  let active p := bool_decide (ma_status (snd p) = ST_ACTIVE) in
  let n := cnt active (auths s) in
  let d := map (fun p => (p.1,
      if active p then close_mandate ST_REVOKED (Some now) (Some reason) p.2 else p.2)) (auths s) in
  if n =? 0 then (s, 0)
  else
    (audit now "REVOKE_ALL" [("count", VInt n); ("reason", VStr reason)]%string
       (save (set_auths d s)), n).

(** ** Checking *)

Definition expired (now : pyfloat) (a : Mandate) : bool :=
  bool_decide (ma_status a = ST_ACTIVE) && fleb (ma_expires_at a) now.

(** Marking those of [sel] that are over: [_active_for] and [status]. *)
Definition sweep (now : pyfloat) (sel : Mandate -> bool) (s : AuthStore) : AuthStore :=
  let over p := sel (snd p) && expired now (snd p) in
  let ended := filter (fun p => over p = true) (auths s) in
  let d := map (fun p => (p.1,
      if over p then close_mandate ST_EXPIRED (revoked_at p.2) (revoke_reason p.2) p.2 else p.2))
    (auths s) in
  let s1 := fold_left (fun s p => audit now "EXPIRE" [("auth_id"%string, VStr (auth_id p.2))] s) ended
    (set_auths d s) in
  match ended with
  | [] => s1
  | _ => save s1
  end.

Definition for_strategy (strategy broker : string) (a : Mandate) : bool :=
  bool_decide (ma_strategy_id a = strategy) && bool_decide (ma_broker a = broker).

(** [_active_for]: the last active mandate in the order of the dictionary. *)
Definition active_for (strategy broker : string) (now : pyfloat) (s : AuthStore) :
    AuthStore * option Mandate :=
  let s1 := sweep now (for_strategy strategy broker) s in
  (s1, last (map snd (filter (fun p => for_strategy strategy broker p.2 && is_active now p.2 = true)
                (auths s1)))).

Definition float_1e_9 : pyfloat := float_of_dec (Dec 1 (-9)).
Definition float_1e_6 : pyfloat := float_of_dec (Dec 1 (-6)).

(** [_reject_limit] *)
Definition reject_limit (now : pyfloat) (a : Mandate) (kind : string) (value ceiling : pyval)
    (reason : CheckReason) (s : AuthStore) : AuthStore * AuthCheck :=
  (audit now "REJECT"
     [("auth_id", VStr (auth_id a)); ("reason", VStr (kind +:+ " exceeds ceiling"));
      ("value", value); ("ceiling", ceiling)]%string s,
   MkCheck false reason (Some (auth_id a)) None).

Definition over_budget (notional : pyfloat) (a : Mandate) : bool :=
  match max_total_notional a with
  | Some x => fltb (fadd x float_1e_6) (fadd (consumed_notional a) notional)
  | None => false
  end.

Definition rebalances_used_up (a : Mandate) : bool :=
  match max_rebalances a with
  | Some n => n <=? consumed_rebalances a
  | None => false
  end.

Definition check (now : pyfloat) (strategy : string) (config : config_arg) (broker : string)
    (turnover notional : pyfloat) (n_orders : Z) (s : AuthStore) : AuthStore * AuthCheck :=
  let cfg_hash := canonical_config_hash config in
  let broker := norm_broker broker in
  let '(s1, found) := active_for strategy broker now s in
  match found with
  | None =>
      (audit now "REJECT"
         [("strategy_id", VStr strategy); ("broker", VStr broker);
          ("reason", VStr "no active authorization")]%string s1, MkCheck false NoMandate None None)
  | Some a =>
      let c := limit_ceiling a in
      if negb (bool_decide (config_hash a = cfg_hash)) then
        (audit now "REJECT"
           [("auth_id", VStr (auth_id a)); ("reason", VStr "config hash mismatch");
            ("expected", VStr (config_hash a)); ("got", VStr cfg_hash)]%string s1,
         MkCheck false ConfigChanged (Some (auth_id a)) None)
      else if fltb (fadd (max_turnover c) float_1e_9) turnover then
        reject_limit now a "turnover" (VFloat turnover) (VFloat (max_turnover c)) OverTurnover s1
      else if fltb (fadd (max_notional_per_rebalance c) float_1e_6) notional then
        reject_limit now a "notional" (VFloat notional) (VFloat (max_notional_per_rebalance c))
          OverNotional s1
      else if max_orders_per_rebalance c <? n_orders then
        reject_limit now a "orders" (VInt n_orders) (VInt (max_orders_per_rebalance c)) OverOrders s1
      else if rebalances_used_up a then
        (s1, MkCheck false RebalancesExhausted (Some (auth_id a)) None)
      else if over_budget notional a then
        (s1, MkCheck false NotionalExhausted (Some (auth_id a)) None)
      else (s1, MkCheck true Authorized (Some (auth_id a)) (Some c))
  end.

(** ** Using *)

Definition exhausted (a : Mandate) : bool :=
  rebalances_used_up a ||
  match max_total_notional a with
  | Some x => fleb x (consumed_notional a)
  | None => false
  end.

Definition consume_payload (notional : pyfloat) (n_orders : Z) (a : Mandate) (ex : bool) : dict :=
  [("auth_id", VStr (auth_id a)); ("notional", VFloat (fround 2 notional)); ("n_orders", VInt n_orders);
   ("consumed_notional", VFloat (fround 2 (consumed_notional a)));
   ("consumed_rebalances", VInt (consumed_rebalances a)); ("exhausted", VBool ex)]%string.

(** [consume]; the result is whether it was accepted. *)
Definition consume (now : pyfloat) (id : string) (notional : pyfloat) (n_orders : Z) (s : AuthStore) :
    AuthStore * bool :=
  match dget (auths s) id with
  | Some a =>
      if negb (is_active now a) then (s, false)
      else
        let a1 := use_mandate notional a in
        let ex := exhausted a1 in
        let a2 := if ex then close_mandate ST_EXHAUSTED (revoked_at a1) (revoke_reason a1) a1 else a1 in
        (audit now "CONSUME" (consume_payload notional n_orders a2 ex)
           (save (set_auths (dset (auths s) id a2) s)), true)
  | None => (s, false)
  end.

(** [status]: the active mandates after the sweep, and the verdict on the audit. *)
Definition status (now : pyfloat) (s : AuthStore) : AuthStore * (list Mandate * verdict) :=
  let s1 := sweep now (fun _ => true) s in
  (s1, (map snd (filter (fun p => is_active now p.2 = true) (auths s1)), verify_audit s1)).
End Store.

(** * Theorems on mandates for live trading

    Runs of [LiveTradingAuthorizationStore] with restarts on its files: what a
    passed check shows, and the budget of a mandate against its audit. *)

(** ** Runs *)

Inductive auth_op :=
  | Grant (now : pyfloat) (id strategy : string) (config : config_arg) (broker : string)
      (ceiling : LimitCeiling) (ttl : Z) (confirmation expected : string) (total : option pyfloat)
      (rebalances : option Z) (by_ note : string)
  | Revoke (now : pyfloat) (id reason : string)
  | RevokeAll (now : pyfloat) (reason : string)
  | CheckRebalance (now : pyfloat) (strategy : string) (config : config_arg) (broker : string)
      (turnover notional : pyfloat) (n_orders : Z)
  | Consume (now : pyfloat) (id : string) (notional : pyfloat) (n_orders : Z)
  | Status (now : pyfloat)
  | ReopenStore.

Section Runs.
Context `{Digest}.
Variable key : option string.

Definition auth_step (s : AuthStore) (o : auth_op) : AuthStore :=
  match o with
  | Grant now id strategy config broker ceiling ttl conf expd total reb by_ note =>
      (grant now id strategy config broker ceiling ttl conf expd total reb by_ note s).1
  | Revoke now id reason => (revoke now id reason s).1
  | RevokeAll now reason => (revoke_all now reason s).1
  | CheckRebalance now strategy config broker turnover notional n =>
      (check now strategy config broker turnover notional n s).1
  | Consume now id notional n => (consume now id notional n s).1
  | Status now => (status now s).1
  | ReopenStore => open_store key (state_file s) (audit_file s)
  end.

(** A store whose files do not exist yet, and what operations make of it. *)
Definition auth_run (ops : list auth_op) : AuthStore :=
  fold_left auth_step ops (open_store key None []).

(** The operation is a grant that succeeds, with these terms. *)
Definition confirmed (o : auth_op) (a : Mandate) : Prop :=
  match o with
  | Grant now id strategy config broker ceiling ttl conf expd total reb by_ note =>
      conf = expd /\ ascii_only conf = true /\ norm_broker broker <> "sim_paper"%string /\
      a = new_mandate now id strategy config broker ceiling ttl total reb by_ note
  | _ => False
  end.

(** The mandate is one with these terms, whatever became of it. *)
Definition same_terms (a b : Mandate) : Prop :=
  auth_id a = auth_id b /\ ma_strategy_id a = ma_strategy_id b /\ config_hash a = config_hash b /\
  ma_broker a = ma_broker b /\ limit_ceiling a = limit_ceiling b /\
  ma_expires_at a = ma_expires_at b /\ max_total_notional a = max_total_notional b /\
  max_rebalances a = max_rebalances b.

(** The operation ends the mandate: a revocation, or a later grant for the same
    strategy and broker. *)
Definition ends (o : auth_op) (a : Mandate) : Prop :=
  match o with
  | Revoke _ id _ => id = auth_id a
  | RevokeAll _ _ => True
  | Grant _ _ _ _ _ _ _ _ _ _ _ _ _ =>
      exists b, confirmed o b /\ ma_strategy_id b = ma_strategy_id a /\ ma_broker b = ma_broker a
  | _ => False
  end.

(** A mandate goes back to a confirmed grant, and while it is active nothing since
    then has ended it. *)
Definition in_force (ops : list auth_op) (a : Mandate) : Prop :=
  exists pre g post b, ops = pre ++ g :: post /\ confirmed g b /\ same_terms a b /\
    (ma_status a = ST_ACTIVE -> forall o, o ∈ post -> ~ ends o a).

Record sound (ops : list auth_op) (s : AuthStore) : Prop := {
  so_force : forall p, p ∈ auths s -> in_force ops p.2;
  so_named : forall p, p ∈ auths s -> p.1 = auth_id p.2;
  so_keys : NoDup (auths s).*1;
  so_saved : state_file s = Some (auths s) \/ (state_file s = None /\ auths s = [])
}.

(** ** Helper lemmas *)

Lemma audit_auths now ev p s : auths (audit now ev p s) = auths s.
Proof. done. Qed.
Lemma audit_state now ev p s : state_file (audit now ev p s) = state_file s.
Proof. done. Qed.

Lemma audits_auths {A} now ev (f : A -> dict) l s :
  auths (fold_left (fun s x => audit now ev (f x) s) l s) = auths s /\
  state_file (fold_left (fun s x => audit now ev (f x) s) l s) = state_file s.
Proof. revert s. induction l as [|x l IH]; intros s; [done|]. cbn [fold_left]. by destruct (IH (audit now ev (f x) s)). Qed.

Lemma same_terms_close st t r a b : same_terms a b -> same_terms (close_mandate st t r a) b.
Proof. done. Qed.

Lemma in_force_snoc ops o a :
  in_force ops a -> (ma_status a = ST_ACTIVE -> ~ ends o a) -> in_force (ops ++ [o]) a.
Proof.
  intros (pre & g & post & b & -> & Hg & Ht & Hp) Ho. exists pre, g, (post ++ [o]), b.
  rewrite <- app_assoc. split_and!; [done..|]. intros Ha x [Hx| ->%list_elem_of_singleton]%elem_of_app;
    [by apply Hp|by apply Ho].
Qed.

Lemma in_force_closed ops o st t r a :
  in_force ops a -> st <> ST_ACTIVE -> in_force (ops ++ [o]) (close_mandate st t r a).
Proof.
  intros (pre & g & post & b & -> & Hg & Ht & _) Hst. exists pre, g, (post ++ [o]), b.
  rewrite <- app_assoc. by split_and!.
Qed.

Lemma in_force_used ops o n a :
  in_force ops a -> ~ ends o a -> in_force (ops ++ [o]) (use_mandate n a).
Proof.
  intros Hf Ho. apply (in_force_snoc _ o) in Hf; [|done].
  destruct Hf as (pre & g & post & b & Hops & Hg & Ht & Hp). by exists pre, g, post, b.
Qed.

(** Rewriting every mandate in place. *)
Definition rewrite_with (f : Mandate -> Mandate) (d : list (string * Mandate)) :
    list (string * Mandate) := map (fun p => (p.1, f p.2)) d.

Lemma rewrite_keys f d : (rewrite_with f d).*1 = d.*1.
Proof. unfold rewrite_with. induction d as [|p d IH]; [done|]. cbn. by rewrite IH. Qed.

Lemma elem_rewrite f d p : p ∈ rewrite_with f d -> exists q, q ∈ d /\ p = (q.1, f q.2).
Proof.
  intros (q & <- & Hq)%list_elem_of_In%in_map_iff. exists q. split; [by apply list_elem_of_In|done].
Qed.

(** An operation that rewrites the mandates, each into one still in force. *)
Lemma sound_rewrite ops o s s' f :
  sound ops s -> auths s' = rewrite_with f (auths s) ->
  state_file s' = Some (auths s') \/ (state_file s' = state_file s /\ auths s' = auths s) ->
  (forall a, auth_id (f a) = auth_id a) ->
  (forall p, p ∈ auths s -> in_force ops p.2 -> in_force (ops ++ [o]) (f p.2)) ->
  sound (ops ++ [o]) s'.
Proof.
  intros [H1 H2 H3 H4] He Hst Hid Hf. split.
  - rewrite He. intros p (q & Hq & ->)%elem_rewrite. by apply Hf, H1.
  - rewrite He. intros p (q & Hq & ->)%elem_rewrite. cbn. rewrite Hid. by apply H2.
  - by rewrite He, rewrite_keys.
  - destruct Hst as [Hst|[-> ->]]; [by left|done].
Qed.

Lemma rewrite_same f d : (forall p, p ∈ d -> f p.2 = p.2) -> rewrite_with f d = d.
Proof.
  intros Hf. unfold rewrite_with. rewrite <- (map_id d) at 2. apply map_ext_in.
  intros p Hp%list_elem_of_In. rewrite (Hf p Hp). by destruct p.
Qed.

Lemma sound_same ops o s s' :
  sound ops s -> auths s' = auths s -> state_file s' = state_file s ->
  (forall a, ~ ends o a) -> sound (ops ++ [o]) s'.
Proof.
  intros Hs Ha Hst Ho. apply (sound_rewrite ops o s s' (fun a => a)); [done| | |done|].
  - by rewrite rewrite_same.
  - by right.
  - intros p _ Hp. apply in_force_snoc; [done|]. by intros _.
Qed.

(** ** Each operation keeps the store sound *)

Definition swept (now : pyfloat) (sel : Mandate -> bool) (a : Mandate) : Mandate :=
  if sel a && expired now a then close_mandate ST_EXPIRED (revoked_at a) (revoke_reason a) a else a.

Lemma sweep_auths now sel s :
  auths (sweep now sel s) = rewrite_with (swept now sel) (auths s) /\
  (state_file (sweep now sel s) = Some (auths (sweep now sel s)) \/
   (state_file (sweep now sel s) = state_file s /\ auths (sweep now sel s) = auths s)).
Proof.
  unfold sweep. cbv zeta.
  set (d := map _ (auths s)). assert (d = rewrite_with (swept now sel) (auths s)) as Hd by done.
  set (ended := filter _ (auths s)).
  destruct (audits_auths now "EXPIRE" (fun p : string * Mandate => [("auth_id"%string, VStr (auth_id p.2))])
    ended (set_auths d s)) as [Ha Hst]. cbn [auths set_auths state_file] in Ha, Hst.
  destruct ended as [|q l] eqn:He; cbn [auths save state_file].
  - rewrite Ha. split; [done|]. right. split; [done|]. rewrite Hd. apply rewrite_same.
    intros p Hp. unfold swept. destruct (sel p.2 && expired now p.2) eqn:Hx; [|done].
    exfalso. assert (p ∈ ended) as Hin by (unfold ended; by apply list_elem_of_filter).
    rewrite He in Hin. by apply not_elem_of_nil in Hin.
  - rewrite Ha. split; [done|]. by left.
Qed.

Lemma swept_in_force now sel ops o a :
  (forall b, ~ ends o b) -> in_force ops a -> in_force (ops ++ [o]) (swept now sel a).
Proof.
  intros Ho Ha. unfold swept. case_match; [by apply in_force_closed|]. apply in_force_snoc; [done|].
  by intros _.
Qed.

Lemma sound_sweep ops o now sel s :
  (forall b, ~ ends o b) -> sound ops s -> sound (ops ++ [o]) (sweep now sel s).
Proof.
  intros Ho Hs. destruct (sweep_auths now sel s) as [Ha Hst].
  apply (sound_rewrite ops o s _ (swept now sel)); [done..| |].
  - intros a. unfold swept. by case_match.
  - intros p _ Hp. by apply swept_in_force.
Qed.

(** A check changes nothing but what its sweep and its audit do. *)
Lemma check_auths now strategy config broker turnover notional n s :
  let s1 := sweep now (for_strategy strategy (norm_broker broker)) s in
  let s' := (check now strategy config broker turnover notional n s).1 in
  auths s' = auths s1 /\ state_file s' = state_file s1.
Proof. cbv zeta. unfold check, active_for. cbv zeta. repeat case_match; done. Qed.

Lemma sound_audit ops now ev p s : sound ops s -> sound ops (audit now ev p s).
Proof. by intros [? ? ? ?]. Qed.

Lemma sound_revoke ops now id reason s :
  sound ops s -> sound (ops ++ [Revoke now id reason]) (revoke now id reason s).1.
Proof.
  intros Hs. set (o := Revoke now id reason). unfold revoke.
  assert ((forall p, p ∈ auths s -> p.1 = id -> ma_status p.2 <> ST_ACTIVE) -> sound (ops ++ [o]) s)
    as Hsame.
  { intros Hne. apply (sound_rewrite ops o s s (fun a => a)); [done|by rewrite rewrite_same|by right|done|].
    intros p Hp Hf. apply in_force_snoc; [done|]. intros Ha He. apply (Hne p Hp); [|done].
    rewrite (so_named _ _ Hs p Hp). by symmetry. }
  destruct (dget (auths s) id) as [a|] eqn:Hd.
  - assert (forall p, p ∈ auths s -> p.1 = id -> p.2 = a) as Heq.
    { intros [k b] Hp Hk. cbn in *. subst k. apply elem_dget in Hp; [|by apply Hs]. congruence. }
    case_bool_decide as Hst; cbn [negb].
    + apply sound_audit. destruct Hs as [H1 H2 H3 H4]. split; cbn.
      * intros p [->|[Hp Hk]]%elem_dset_key; [| |done].
        { apply in_force_closed; [|done]. apply dget_elem in Hd. by apply H1 in Hd. }
        apply in_force_snoc; [by apply H1|]. intros _ Hx. apply Hk. rewrite (H2 p Hp). by symmetry.
      * intros p [->|[Hp _]]%elem_dset_key; [|by apply H2|done]. apply dget_elem, H2 in Hd. done.
      * by apply NoDup_dset.
      * by left.
    + apply Hsame. intros p Hp Hk. by rewrite (Heq p Hp Hk).
  - apply Hsame. intros p Hp Hk _. apply dget_None in Hd. apply Hd. rewrite <- Hk.
    by apply list_elem_of_fmap_2.
Qed.

Lemma sound_revoke_all ops now reason s :
  sound ops s -> sound (ops ++ [RevokeAll now reason]) (revoke_all now reason s).1.
Proof.
  intros Hs. set (o := RevokeAll now reason). unfold revoke_all. cbv zeta.
  set (f := fun a => if bool_decide (ma_status a = ST_ACTIVE) then
    close_mandate ST_REVOKED (Some now) (Some reason) a else a).
  destruct (Z.eqb_spec (cnt (fun p : string * Mandate => bool_decide (ma_status p.2 = ST_ACTIVE)) (auths s)) 0)
    as [Hz|Hz]; cbn [fst].
  - apply (sound_rewrite ops o s s (fun a => a)); [done|by rewrite rewrite_same|by right|done|].
    intros p Hp Hf. apply in_force_snoc; [done|]. intros Ha _.
    assert (0 < cnt (fun p : string * Mandate => bool_decide (ma_status p.2 = ST_ACTIVE)) (auths s)); [|lia].
    apply list_elem_of_split in Hp as (l1 & l2 & ->). rewrite cnt_app, cnt_cons.
    rewrite bool_decide_eq_true_2 by done.
    pose proof (cnt_nonneg (fun p : string * Mandate => bool_decide (ma_status p.2 = ST_ACTIVE)) l1).
    pose proof (cnt_nonneg (fun p : string * Mandate => bool_decide (ma_status p.2 = ST_ACTIVE)) l2). lia.
  - apply sound_audit. apply (sound_rewrite ops o s _ f); [done|done|by left| |].
    + intros a. unfold f. by case_match.
    + intros p Hp Hf. unfold f. case_bool_decide; [by apply in_force_closed|].
      by apply in_force_snoc.
Qed.

Lemma sound_consume ops now id notional n s :
  sound ops s -> sound (ops ++ [Consume now id notional n]) (consume now id notional n s).1.
Proof.
  intros Hs. set (o := Consume now id notional n). unfold consume.
  assert (sound (ops ++ [o]) s) as Hsame by (apply (sound_same ops o s s); [done..|by intros a []]).
  destruct (dget (auths s) id) as [a|] eqn:Hd; [|done].
  destruct (is_active now a); cbn [negb]; [|done]. apply sound_audit.
  apply dget_elem in Hd. set (a2 := if exhausted _ then _ else _).
  assert (auth_id a2 = auth_id a) as Hid by (unfold a2; by destruct (exhausted (use_mandate notional a))).
  pose proof (so_force _ _ Hs _ Hd) as Hf. cbn [snd] in Hf.
  assert (in_force (ops ++ [o]) a2) as Hf2.
  { unfold a2. destruct (exhausted (use_mandate notional a)); [|apply in_force_used; [done|by intros []]].
    apply in_force_closed; [|done]. destruct Hf as (pre & g & post & b & ? & ? & ? & ?).
    by exists pre, g, post, b. }
  destruct Hsame as [H1 H2 H3 H4]. split; cbn.
  - intros p [->|[Hp _]]%elem_dset_key; [done|by apply H1|done].
  - intros p [->|[Hp _]]%elem_dset_key; [|by apply H2|done]. cbn. rewrite Hid. by apply (H2 _ Hd).
  - by apply NoDup_dset.
  - by left.
Qed.

Lemma supersede_auths now new s :
  auths (supersede now new s) = rewrite_with (fun a => if supersedes new a then
    close_mandate ST_REVOKED (Some now) (Some "superseded by new grant"%string) a else a) (auths s).
Proof.
  unfold supersede. by destruct (audits_auths now "SUPERSEDE"
    (fun p : string * Mandate => [("auth_id"%string, VStr (auth_id p.2))])
    (filter (fun p => supersedes new p.2 = true) (auths s)) (set_auths (map (fun p => (p.1,
      if supersedes new p.2 then close_mandate ST_REVOKED (Some now)
        (Some "superseded by new grant"%string) p.2 else p.2)) (auths s)) s)) as [-> _].
Qed.

Lemma sound_grant ops now id strategy config broker ceiling ttl conf expd total reb by_ note s :
  sound ops s ->
  sound (ops ++ [Grant now id strategy config broker ceiling ttl conf expd total reb by_ note])
    (grant now id strategy config broker ceiling ttl conf expd total reb by_ note s).1.
Proof.
  intros Hs. set (o := Grant now id strategy config broker ceiling ttl conf expd total reb by_ note).
  unfold grant.
  assert ((forall b, ~ confirmed o b) -> sound (ops ++ [o]) s) as Hrefuse.
  { intros Hno. apply (sound_same ops o s s); [done..|]. intros a (b & Hb & _). by apply (Hno b). }
  case_bool_decide as Hbr; [apply Hrefuse; by intros b (_ & _ & Hx & _)|].
  destruct (ascii_only conf && ascii_only expd) eqn:Hasc; cbn [negb fst].
  2:{ apply Hrefuse. intros b (<- & Ha & _). by rewrite Ha in Hasc. }
  case_bool_decide as Htok; cbn [negb fst];
    [|apply sound_audit, Hrefuse; by intros b (Hx & _)].
  apply sound_audit. set (a := new_mandate now id strategy config broker ceiling ttl total reb by_ note).
  assert (confirmed o a) as Hc.
  { apply andb_true_iff in Hasc as [Ha _]. by split_and!. }
  destruct Hs as [H1 H2 H3 H4]. split; cbn; rewrite supersede_auths.
  - intros p [->|[Hp _]]%elem_dset_key; [|apply elem_rewrite in Hp as (q & Hq & ->)|by rewrite rewrite_keys].
    + exists ops, o, [], a. split_and!; [done..|]. intros _ x Hx. by apply not_elem_of_nil in Hx.
    + cbn. destruct (supersedes a q.2) eqn:Hsup; [by apply in_force_closed; [apply H1|]|].
      apply in_force_snoc; [by apply H1|]. intros Hact (b & (_ & _ & _ & ->) & Hst & Hbk).
      unfold supersedes in Hsup. cbn in Hst, Hbk. rewrite <- Hst, <- Hbk in Hsup.
      by rewrite !bool_decide_eq_true_2 in Hsup by done.
  - intros p [->|[Hp _]]%elem_dset_key; [done|apply elem_rewrite in Hp as (q & Hq & ->)|by rewrite rewrite_keys].
    cbn. case_match; by apply H2.
  - apply NoDup_dset. by rewrite rewrite_keys.
  - by left.
Qed.

Lemma reload (d : list (string * Mandate)) :
  NoDup d.*1 -> (forall p, p ∈ d -> p.1 = auth_id p.2) ->
  fold_left (fun m p => dset m (auth_id p.2) p.2) d [] = d.
Proof.
  intros Hn Hid.
  assert (forall pre, NoDup (pre ++ d).*1 ->
    fold_left (fun m p => dset m (auth_id p.2) p.2) d pre = pre ++ d) as Hf; [|by apply Hf].
  clear Hn. induction d as [|[k a] d IH]; intros pre Hn; cbn [fold_left]; [by rewrite app_nil_r|].
  pose proof (Hid (k, a) (list_elem_of_here _ _)) as Hk. cbn in Hk. subst k. cbn.
  rewrite dset_fresh.
  - rewrite IH; rewrite <- ?app_assoc; [done| |done]. intros p Hp. apply Hid. by right.
  - apply dget_None. rewrite fmap_app in Hn. apply NoDup_app in Hn as (_ & Hn & _).
    intros Hx. apply (Hn _ Hx). by left.
Qed.

Lemma sound_reopen ops s :
  sound ops s -> sound (ops ++ [ReopenStore]) (open_store key (state_file s) (audit_file s)).
Proof.
  intros Hs. apply (sound_same ops ReopenStore s); [done| | |by intros a []].
  - destruct Hs as [H1 H2 H3 [-> | [-> ->]]]; [|done]. cbn. by apply reload.
  - by destruct (state_file s).
Qed.

Lemma sound_step ops s o : sound ops s -> sound (ops ++ [o]) (auth_step s o).
Proof.
  intros Hs. destruct o; cbn [auth_step].
  - by apply sound_grant.
  - by apply sound_revoke.
  - by apply sound_revoke_all.
  - destruct (check_auths now strategy config broker turnover notional n_orders s) as [Ha Hst].
    pose proof (sound_sweep ops (CheckRebalance now strategy config broker turnover notional n_orders)
      now (for_strategy strategy (norm_broker broker)) s ltac:(by intros b []) Hs) as [H1 H2 H3 H4].
    split; rewrite ?Ha, ?Hst; done.
  - by apply sound_consume.
  - apply sound_sweep; [by intros b []|done].
  - by apply sound_reopen.
Qed.

Lemma sound_run ops : sound ops (auth_run ops).
Proof.
  induction ops as [|o ops IH] using rev_ind.
  - split; cbn; [by intros p Hp; apply not_elem_of_nil in Hp..|constructor|by right].
  - unfold auth_run in *. rewrite fold_left_app. by apply sound_step.
Qed.

(** ** What a passed check shows *)

(** The configuration and figures of a rebalance are within a mandate at a time. *)
Definition covered (now : pyfloat) (strategy : string) (config : config_arg) (broker : string)
    (turnover notional : pyfloat) (n_orders : Z) (a : Mandate) : Prop :=
  ma_strategy_id a = strategy /\ ma_broker a = norm_broker broker /\
  config_hash a = canonical_config_hash config /\ fltb now (ma_expires_at a) = true /\
  fltb (fadd (max_turnover (limit_ceiling a)) float_1e_9) turnover = false /\
  fltb (fadd (max_notional_per_rebalance (limit_ceiling a)) float_1e_6) notional = false /\
  n_orders <= max_orders_per_rebalance (limit_ceiling a) /\
  rebalances_used_up a = false /\ over_budget notional a = false.

Lemma active_for_elem strategy broker now s a :
  (active_for strategy broker now s).2 = Some a ->
  (exists k, (k, a) ∈ auths (sweep now (for_strategy strategy broker) s)) /\
  ma_strategy_id a = strategy /\ ma_broker a = broker /\ is_active now a = true.
Proof.
  unfold active_for. cbv zeta. cbn [snd]. intros Hl. apply last_Some_elem_of in Hl.
  apply list_elem_of_In, in_map_iff in Hl as ([k b] & <- & Hb). apply list_elem_of_In in Hb.
  apply list_elem_of_filter in Hb as [Hc Hb]. cbn in Hc. apply andb_true_iff in Hc as [Hf Ha].
  unfold for_strategy in Hf. apply andb_true_iff in Hf as [H1 H2].
  apply bool_decide_eq_true in H1, H2. split_and!; [by exists k|done|done|done].
Qed.

Lemma check_allowed now strategy config broker turnover notional n s :
  let r := (check now strategy config broker turnover notional n s).2 in
  allowed r = true ->
  exists k a, (k, a) ∈ auths (sweep now (for_strategy strategy (norm_broker broker)) s) /\
    check_auth_id r = Some (auth_id a) /\ effective_ceiling r = Some (limit_ceiling a) /\
    ma_status a = ST_ACTIVE /\ covered now strategy config broker turnover notional n a.
Proof.
  unfold check. pose proof (active_for_elem strategy (norm_broker broker) now s) as Hel.
  destruct (active_for strategy (norm_broker broker) now s) as [s1 [a|]]; cbn [snd] in Hel; [|done].
  destruct (Hel a eq_refl) as ([k Hk] & Hstr & Hbr & Hact). unfold is_active in Hact.
  apply andb_true_iff in Hact as [Hst Hexp]. apply bool_decide_eq_true in Hst.
  case_bool_decide as Hh; cbn [negb]; [|done].
  destruct (fltb _ turnover) eqn:Ht; [done|]. destruct (fltb _ notional) eqn:Hno; [done|].
  destruct (Z.ltb_spec (max_orders_per_rebalance (limit_ceiling a)) n); [done|].
  destruct (rebalances_used_up a) eqn:Hr; [done|]. destruct (over_budget notional a) eqn:Hb; [done|].
  intros _. exists k, a. by split_and!.
Qed.

(** C16: no live rebalance without a mandate in force. Whatever was granted, used,
    revoked and reopened before, a check passes only if some confirmed grant was
    made for the same strategy, broker and configuration hash; nothing since then
    revoked or superseded it; it has not run out; and turnover, notional and
    orders are within the ceilings and the budget the operator gave. *)
Theorem live_trading_needs_mandate ops now strategy config broker turnover notional n :
  let r := (check now strategy config broker turnover notional n (auth_run ops)).2 in
  allowed r = true ->
  exists pre g post b a, ops = pre ++ g :: post /\ confirmed g b /\ same_terms a b /\
    (forall o, o ∈ post -> ~ ends o b) /\ check_auth_id r = Some (auth_id b) /\
    effective_ceiling r = Some (limit_ceiling b) /\
    covered now strategy config broker turnover notional n a.
Proof.
  intros r Hr. destruct (check_allowed now strategy config broker turnover notional n _ Hr)
    as (k & a & Hk & Hid & Hce & Hst & Hcov).
  destruct (sweep_auths now (for_strategy strategy (norm_broker broker)) (auth_run ops)) as [Ha _].
  rewrite Ha in Hk. apply elem_rewrite in Hk as ([k' a'] & Hk' & Heq). injection Heq as -> ->.
  assert (swept now (for_strategy strategy (norm_broker broker)) a' = a') as Hsw.
  { unfold swept in *. by case_match. }
  cbn [snd] in Hid, Hce, Hst, Hcov. rewrite Hsw in *. pose proof (so_force _ _ (sound_run ops) _ Hk') as Hf.
  destruct Hf as (pre & g & post & b & Hops & Hg & Hterms & Hp). cbn [snd] in Hterms, Hp.
  exists pre, g, post, b, a'. destruct Hterms as (E1 & E2 & E3 & E4 & E5 & E6 & E7 & E8).
  split_and!; [done|done|by split_and!| |by rewrite <- E1|by rewrite <- E5|done].
  intros o Ho He. apply (Hp Hst o Ho). destruct o; cbn in He |- *; rewrite ?E1, ?E2, ?E4; done.
Qed.

(** ** The budget against the audit *)

(** The record of a use of the mandate. *)
Definition is_use (id : string) (r : ChainRecord) : bool :=
  bool_decide (dget (cr_payload r) "event"%string = Some (VStr "CONSUME")) &&
  bool_decide (dget (cr_payload r) "auth_id"%string = Some (VStr id)).

(** How often the audit says the mandate was used. *)
Definition uses (id : string) (s : AuthStore) : Z := cnt (is_use id) (hc_records (audit_chain s)).

Definition granted (ops : list auth_op) : list string :=
  omap (fun o => match o with
                 | Grant _ id _ _ _ _ _ _ _ _ _ _ _ => Some id
                 | _ => None
                 end) ops.

Record audited (s : AuthStore) : Prop := {
  ad_chain : append_all (MkChain key []) (map cr_payload (hc_records (audit_chain s))) = audit_chain s;
  ad_file : forall id, cnt (is_use id) (audit_file s) = uses id s
}.

Definition quiet (s s' : AuthStore) : Prop :=
  (forall id, uses id s' = uses id s) /\ (audited s -> audited s').

Lemma quiet_refl s : quiet s s.
Proof. done. Qed.

Lemma quiet_fields s s' :
  audit_chain s' = audit_chain s -> audit_file s' = audit_file s -> quiet s s'.
Proof.
  intros Hc Hf. split; [intros id; unfold uses; by rewrite Hc|].
  intros [H1 H2]. split; [by rewrite Hc|]. intros id. unfold uses. rewrite Hc, Hf. apply H2.
Qed.

Lemma quiet_trans s s' s'' : quiet s s' -> quiet s' s'' -> quiet s s''.
Proof. intros [H1 H2] [H3 H4]. split; [intros id; by rewrite H3|tauto]. Qed.

Lemma append_all_snoc c ps p : append_all c (ps ++ [p]) = (append (append_all c ps) p).1.
Proof. unfold append_all. by rewrite fold_left_app. Qed.

Lemma audited_audit now ev p s : audited s -> audited (audit now ev p s).
Proof.
  intros [Hc Hf]. unfold audit. split; cbn -[append_all].
  - rewrite map_app. cbn [map]. rewrite append_all_snoc, Hc. done.
  - intros id. unfold uses. cbn. rewrite !cnt_app, Hf. done.
Qed.

Lemma uses_audit id now ev p s :
  uses id (audit now ev p s) =
  uses id s + (if bool_decide (ev = "CONSUME"%string) &&
                 bool_decide (dget p "auth_id"%string = Some (VStr id)) then 1 else 0).
Proof.
  unfold uses, audit. cbn. rewrite cnt_app, cnt_one. unfold is_use. cbn.
  replace (bool_decide (Some (VStr ev) = Some (VStr "CONSUME"))) with (bool_decide (ev = "CONSUME"%string));
    [done|]. apply bool_decide_ext. split; [by intros ->|congruence].
Qed.

Lemma quiet_audit now ev p s : ev <> "CONSUME"%string -> quiet s (audit now ev p s).
Proof.
  intros Hev. split; [|apply audited_audit]. intros id. rewrite uses_audit.
  rewrite bool_decide_eq_false_2 by done. cbn. lia.
Qed.

Lemma quiet_audits {A} now ev (f : A -> dict) l s :
  ev <> "CONSUME"%string -> quiet s (fold_left (fun s x => audit now ev (f x) s) l s).
Proof.
  intros Hev. revert s. induction l as [|x l IH]; intros s; [apply quiet_refl|].
  cbn [fold_left]. eapply quiet_trans; [by apply quiet_audit|apply IH].
Qed.

Lemma quiet_sweep now sel s : quiet s (sweep now sel s).
Proof.
  unfold sweep. cbv zeta. set (d := map _ _). set (l := filter _ _).
  eapply quiet_trans; [by apply (quiet_fields s (set_auths d s))|].
  eapply quiet_trans; [apply (quiet_audits now "EXPIRE" (fun p : string * Mandate =>
    [("auth_id"%string, VStr (auth_id p.2))]) l); discriminate|].
  destruct l; [apply quiet_refl|by apply quiet_fields].
Qed.

Lemma quiet_check now strategy config broker turnover notional n s :
  quiet s (check now strategy config broker turnover notional n s).1.
Proof.
  eapply quiet_trans; [apply (quiet_sweep now (for_strategy strategy (norm_broker broker)))|].
  unfold check, active_for, reject_limit. cbv zeta.
  repeat case_match; simplify_eq; cbn [fst]; first [apply quiet_refl|by apply quiet_audit].
Qed.

Lemma quiet_revoke now id reason s : quiet s (revoke now id reason s).1.
Proof.
  unfold revoke. destruct (dget (auths s) id); [|done]. case_match; [done|].
  eapply quiet_trans; [|by apply quiet_audit]. by apply quiet_fields.
Qed.

Lemma quiet_revoke_all now reason s : quiet s (revoke_all now reason s).1.
Proof.
  unfold revoke_all. cbv zeta. case_match; [done|].
  eapply quiet_trans; [|by apply quiet_audit]. by apply quiet_fields.
Qed.

Lemma quiet_supersede now new s : quiet s (supersede now new s).
Proof.
  unfold supersede. eapply quiet_trans; [|by apply (quiet_audits now "SUPERSEDE"
    (fun p : string * Mandate => [("auth_id"%string, VStr (auth_id p.2))]))]. by apply quiet_fields.
Qed.

Lemma quiet_grant now id strategy config broker ceiling ttl conf expd total reb by_ note s :
  quiet s (grant now id strategy config broker ceiling ttl conf expd total reb by_ note s).1.
Proof.
  unfold grant. case_match; [done|]. case_match; [done|]. case_match; [by apply quiet_audit|].
  cbn [fst]. set (a := new_mandate _ _ _ _ _ _ _ _ _ _ _).
  eapply quiet_trans; [apply (quiet_supersede now a)|].
  eapply quiet_trans; [|by apply quiet_audit]. by apply quiet_fields.
Qed.

(** Use counts, budgets and identifiers. *)
Record budgeted (ops : list auth_op) (s : AuthStore) : Prop := {
  bu_audit : audited s;
  bu_count : forall id a, (id, a) ∈ auths s -> consumed_rebalances a = uses id s;
  bu_max : forall id a n, (id, a) ∈ auths s -> max_rebalances a = Some n -> 0 < n ->
    consumed_rebalances a <= n /\ (ma_status a = ST_ACTIVE -> consumed_rebalances a < n);
  bu_used : forall id, uses id s <> 0 -> id ∈ (auths s).*1;
  bu_known : forall id, id ∈ (auths s).*1 -> id ∈ granted ops
}.

Lemma granted_snoc ops o : granted (ops ++ [o]) = granted ops ++ granted [o].
Proof. unfold granted. by rewrite omap_app. Qed.

Lemma budgeted_rewrite ops o s s' f :
  budgeted ops s -> quiet s s' -> auths s' = rewrite_with f (auths s) ->
  (forall a, consumed_rebalances (f a) = consumed_rebalances a /\ max_rebalances (f a) = max_rebalances a /\
     (ma_status (f a) = ST_ACTIVE -> ma_status a = ST_ACTIVE)) ->
  budgeted (ops ++ [o]) s'.
Proof.
  intros [H1 H2 H3 H4 H5] [Hu Hd] He Hf. split.
  - by apply Hd.
  - intros id a. rewrite He, Hu. intros ([k b] & Hb & [= -> ->])%elem_rewrite.
    destruct (Hf b) as (-> & _). by apply H2.
  - intros id a n. rewrite He. intros ([k b] & Hb & [= -> ->])%elem_rewrite. cbn.
    destruct (Hf b) as (-> & -> & Hs). intros Hm Hn. destruct (H3 _ _ _ Hb Hm Hn). tauto.
  - intros id. rewrite He, rewrite_keys, Hu. apply H4.
  - intros id. rewrite He, rewrite_keys, granted_snoc, elem_of_app. left. by apply H5.
Qed.

Lemma budgeted_same ops o s s' :
  budgeted ops s -> quiet s s' -> auths s' = auths s -> budgeted (ops ++ [o]) s'.
Proof.
  intros Hs Hq Ha. apply (budgeted_rewrite ops o s s' (fun a => a)); [done|done| |done].
  by rewrite rewrite_same.
Qed.

Lemma budgeted_grant ops now id strategy config broker ceiling ttl conf expd total reb by_ note s :
  id ∉ granted ops -> sound ops s -> budgeted ops s ->
  budgeted (ops ++ [Grant now id strategy config broker ceiling ttl conf expd total reb by_ note])
    (grant now id strategy config broker ceiling ttl conf expd total reb by_ note s).1.
Proof.
  intros Hid Hs Hb. set (o := Grant now id strategy config broker ceiling ttl conf expd total reb by_ note).
  pose proof (quiet_grant now id strategy config broker ceiling ttl conf expd total reb by_ note s) as Hq.
  unfold grant in *. case_match; [by apply (budgeted_same ops o s)|].
  case_match; [by apply (budgeted_same ops o s)|]. case_match; [by apply (budgeted_same ops o s)|].
  cbn [fst] in *. set (a := new_mandate now id strategy config broker ceiling ttl total reb by_ note) in *.
  set (f := fun b => if supersedes a b then
    close_mandate ST_REVOKED (Some now) (Some "superseded by new grant"%string) b else b).
  assert (forall b, consumed_rebalances (f b) = consumed_rebalances b /\
    max_rebalances (f b) = max_rebalances b /\ (ma_status (f b) = ST_ACTIVE -> ma_status b = ST_ACTIVE)) as Hf.
  { intros b. unfold f. by case_match. }
  assert (uses id s = 0) as Hz.
  { destruct (Z.eq_dec (uses id s) 0) as [|Hne]; [done|]. exfalso. by apply Hid, (bu_known _ _ Hb), (bu_used _ _ Hb). }
  destruct Hq as [Hu Hd]. destruct Hb as [H1' H2' H3' H4' H5'].
  set (s' := audit now "GRANT" (grant_payload a) (save (set_auths (dset (auths (supersede now a s)) id a)
    (supersede now a s)))) in *.
  assert (auths s' = dset (rewrite_with f (auths s)) id a) as He
    by (unfold s'; cbn; by rewrite supersede_auths).
  assert (NoDup (rewrite_with f (auths s)).*1) as Hnd by (rewrite rewrite_keys; apply Hs).
  split.
  - by apply Hd.
  - intros i b. rewrite He, Hu. intros [[= -> ->]|[([k c] & Hc & [= -> ->])%elem_rewrite _]]%elem_dset_key;
      [by cbn|destruct (Hf c) as (-> & _); by apply H2'|done].
  - intros i b n. rewrite He. intros [[= -> ->]|[([k c] & Hc & [= -> ->])%elem_rewrite _]]%elem_dset_key;
      [change (consumed_rebalances a) with 0; intros _ Hn; split; [lia|by intros _]
      |cbn; destruct (Hf c) as (-> & -> & Hst)|done].
    intros Hm Hn. destruct (H3' _ _ _ Hc Hm Hn). tauto.
  - intros i. rewrite He, Hu, elem_keys_dset, rewrite_keys. right. by apply H4'.
  - intros i. rewrite He, granted_snoc, elem_of_app, elem_keys_dset, rewrite_keys.
    intros [->|Hi]; [right; by left|left; by apply H5'].
Qed.

Lemma budgeted_consume ops now id notional n s :
  sound ops s -> budgeted ops s ->
  budgeted (ops ++ [Consume now id notional n]) (consume now id notional n s).1.
Proof.
  intros Hs Hb. set (o := Consume now id notional n). unfold consume.
  destruct (dget (auths s) id) as [a|] eqn:Hd; [|by apply (budgeted_same ops o s)].
  destruct (is_active now a) eqn:Hact; cbn [negb]; [|by apply (budgeted_same ops o s)].
  cbn [fst]. set (a1 := use_mandate notional a). set (ex := exhausted a1).
  set (a2 := if ex then _ else _). apply dget_elem in Hd.
  pose proof (so_named _ _ Hs _ Hd) as Hname. cbn in Hname.
  assert (auth_id a2 = auth_id a /\ consumed_rebalances a2 = consumed_rebalances a + 1 /\
    max_rebalances a2 = max_rebalances a /\ (ma_status a2 = ST_ACTIVE -> ex = false)) as (Ei & Ec & Em & Ex)
    by (unfold a2; by destruct ex).
  destruct Hb as [H1 H2 H3 H4 H5].
  assert (forall i, uses i (audit now "CONSUME" (consume_payload notional n a2 ex)
    (save (set_auths (dset (auths s) id a2) s))) = uses i s + (if bool_decide (i = id) then 1 else 0)) as Hu.
  { intros i. rewrite uses_audit. change (uses i (save _)) with (uses i s). f_equal.
    change (dget (consume_payload notional n a2 ex) "auth_id"%string) with (Some (VStr (auth_id a2))).
    rewrite Ei, <- Hname. destruct (decide (i = id)) as [->|Hne]; [by rewrite !bool_decide_eq_true_2|].
    rewrite (bool_decide_eq_true_2 _ eq_refl). cbn [andb]. rewrite !bool_decide_eq_false_2; [done|congruence|congruence]. }
  split.
  - apply audited_audit. by destruct H1.
  - intros i b Hi. rewrite Hu. cbn in Hi. apply elem_dset_key in Hi as [[= -> ->]|[Hi Hne]]; [| |apply Hs].
    + rewrite bool_decide_eq_true_2, Ec by done. by rewrite (H2 _ _ Hd).
    + cbn in Hne. rewrite bool_decide_eq_false_2 by done. rewrite Z.add_0_r. by apply H2.
  - intros i b m Hi Hm Hpos. cbn in Hi. apply elem_dset_key in Hi as [[= -> ->]|[Hi Hne]]; [| |apply Hs].
    + rewrite Em in Hm. destruct (H3 _ _ _ Hd Hm Hpos) as [_ Hlt].
      unfold is_active in Hact. apply andb_true_iff in Hact as [Hact _]. apply bool_decide_eq_true in Hact.
      specialize (Hlt Hact). rewrite Ec. split; [lia|]. intros Hst%Ex. unfold ex, exhausted in Hst.
      apply orb_false_iff in Hst as [Hst _]. unfold rebalances_used_up in Hst. cbn in Hst.
      rewrite Hm in Hst. apply Z.leb_gt in Hst. lia.
    + by apply (H3 i b m).
  - intros i. rewrite Hu. cbn. rewrite elem_keys_dset.
    case_bool_decide as Heq; [by left|]. rewrite Z.add_0_r. right. by apply H4.
  - intros i. cbn. rewrite elem_keys_dset, granted_snoc, elem_of_app.
    intros [->|Hi]; left; apply H5; [|done]. apply list_elem_of_fmap. by exists (id, a).
Qed.

Lemma cnt_payload id rs rs' : map cr_payload rs = map cr_payload rs' -> cnt (is_use id) rs = cnt (is_use id) rs'.
Proof.
  revert rs'. induction rs as [|r rs IH]; intros [|r' rs'] Hm; try done. cbn in Hm.
  injection Hm as Hr Hm. rewrite !cnt_cons, (IH rs' Hm). unfold is_use. by rewrite Hr.
Qed.

Lemma budgeted_reopen ops s :
  sound ops s -> budgeted ops s ->
  budgeted (ops ++ [ReopenStore]) (open_store key (state_file s) (audit_file s)).
Proof.
  intros Hs Hb. destruct Hs as [_ Hname Hkeys [Hst|[Hst Hno]]]; rewrite Hst.
  - apply (budgeted_same ops ReopenStore s); [done| |cbn; by apply reload].
    destruct (append_all_linked (MkChain key []) (map cr_payload (audit_file s))) as (_ & _ & Hp);
      [constructor|]. cbn in Hp.
    assert (forall id, uses id (open_store key (Some (auths s)) (audit_file s)) =
      cnt (is_use id) (audit_file s)) as Hu by (intros id; by apply cnt_payload).
    split; [intros id; rewrite Hu; apply Hb|]. intros _. split; [cbn; by rewrite Hp|].
    intros id. by rewrite Hu.
  - assert (forall id, uses id s = 0) as Hz.
    { intros id. destruct (Z.eq_dec (uses id s) 0) as [|Hne]; [done|].
      apply (bu_used _ _ Hb) in Hne. rewrite Hno in Hne. by apply not_elem_of_nil in Hne. }
    split; cbn.
    + split; [done|]. intros id. cbn. rewrite (ad_file _ (bu_audit _ _ Hb)). by rewrite Hz.
    + intros id a Hi. by apply not_elem_of_nil in Hi.
    + intros id a n Hi. by apply not_elem_of_nil in Hi.
    + done.
    + intros id Hi. by apply not_elem_of_nil in Hi.
Qed.

Lemma dset_rewrite f d id a :
  NoDup d.*1 -> (forall p, p ∈ d -> p.1 = auth_id p.2) -> (id, a) ∈ d ->
  dset d id (f a) = rewrite_with (fun b => if bool_decide (auth_id b = id) then f b else b) d.
Proof.
  induction d as [|[k b] d IH]; intros Hn Hid Ha; [by apply not_elem_of_nil in Ha|].
  apply NoDup_cons in Hn as [Hk Hn]. cbn [dset rewrite_with map fst snd].
  pose proof (Hid (k, b) (list_elem_of_here _ _)) as Hb. cbn in Hb.
  apply elem_of_cons in Ha as [[= -> ->]|Ha].
  - assert (rewrite_with (fun b => if bool_decide (auth_id b = k) then f b else b) d = d) as Hrest.
    { apply rewrite_same. intros p Hp. rewrite bool_decide_eq_false_2; [done|].
      rewrite <- (Hid p) by by right. intros <-. apply Hk. apply list_elem_of_fmap. by exists p. }
    rewrite decide_True, bool_decide_eq_true_2 by done. by rewrite <- Hrest at 1.
  - rewrite decide_False, bool_decide_eq_false_2.
    + f_equal. apply IH; [done| |done]. intros p Hp. apply Hid. by right.
    + rewrite <- Hb. intros ->. apply Hk. apply list_elem_of_fmap. by exists (id, a).
    + intros ->. apply Hk. apply list_elem_of_fmap. by exists (k, a).
Qed.

Lemma budgeted_revoke ops now id reason s :
  sound ops s -> budgeted ops s ->
  budgeted (ops ++ [Revoke now id reason]) (revoke now id reason s).1.
Proof.
  intros Hs Hb. pose proof (quiet_revoke now id reason s) as Hq. unfold revoke in *.
  destruct (dget (auths s) id) as [a|] eqn:Hd; [|by apply (budgeted_same ops _ s)].
  case_match; [by apply (budgeted_same ops _ s)|]. cbn [fst] in *. apply dget_elem in Hd.
  apply (budgeted_rewrite ops _ s _ (fun b => if bool_decide (auth_id b = id)
    then close_mandate ST_REVOKED (Some now) (Some reason) b else b)); [done|done| |intros b; by case_match].
  apply (dset_rewrite (close_mandate ST_REVOKED (Some now) (Some reason))); [apply Hs|apply Hs|done].
Qed.

Lemma budgeted_revoke_all ops now reason s :
  budgeted ops s -> budgeted (ops ++ [RevokeAll now reason]) (revoke_all now reason s).1.
Proof.
  intros Hb. pose proof (quiet_revoke_all now reason s) as Hq. unfold revoke_all in *. cbv zeta in *.
  case_match; [by apply (budgeted_same ops _ s)|].
  apply (budgeted_rewrite ops _ s _ (fun a => if bool_decide (ma_status a = ST_ACTIVE) then
    close_mandate ST_REVOKED (Some now) (Some reason) a else a)); [done|done|done|].
  intros a. by case_match.
Qed.

Lemma swept_terms now sel a :
  consumed_rebalances (swept now sel a) = consumed_rebalances a /\
  max_rebalances (swept now sel a) = max_rebalances a /\
  (ma_status (swept now sel a) = ST_ACTIVE -> ma_status a = ST_ACTIVE).
Proof. unfold swept. by case_match. Qed.

Lemma budgeted_step ops s o :
  NoDup (granted (ops ++ [o])) -> sound ops s -> budgeted ops s -> budgeted (ops ++ [o]) (auth_step s o).
Proof.
  intros Hn Hs Hb. destruct o; cbn [auth_step].
  - apply budgeted_grant; [|done|done]. rewrite granted_snoc in Hn.
    apply NoDup_app in Hn as (_ & Hn & _). intros Hi. apply (Hn _ Hi). by left.
  - by apply budgeted_revoke.
  - by apply budgeted_revoke_all.
  - eapply budgeted_rewrite; [done|apply quiet_check| |apply swept_terms].
    rewrite (proj1 (check_auths _ _ _ _ _ _ _ _)). apply sweep_auths.
  - by apply budgeted_consume.
  - eapply budgeted_rewrite; [done|apply quiet_sweep|apply sweep_auths|apply swept_terms].
  - by apply budgeted_reopen.
Qed.

Lemma budgeted_run ops : NoDup (granted ops) -> budgeted ops (auth_run ops).
Proof.
  induction ops as [|o ops IH] using rev_ind; intros Hn.
  - split; cbn; [done| | |done|]; [intros id a Hi|intros id a n Hi|intros id Hi]; by apply not_elem_of_nil in Hi.
  - pose proof (sound_run ops) as Hs. unfold auth_run in *. rewrite fold_left_app. apply budgeted_step; [done|done|].
    apply IH. rewrite granted_snoc in Hn. by apply NoDup_app in Hn as (? & _ & _).
Qed.

(** A mandate is used no more often than its budget, and the audit shows every
    use. With fresh identifiers, across revocations, sweeps and restarts, the number
    of uses a mandate counts is the number of its CONSUME records in the audit
    chain, that number never exceeds a positive limit on rebalances, a mandate at
    its limit is no longer active, and the chain verifies. *)
Theorem mandate_budget_kept ops id a :
  NoDup (granted ops) ->
  dget (auths (auth_run ops)) id = Some a ->
  consumed_rebalances a = uses id (auth_run ops) /\
  (forall n, max_rebalances a = Some n -> 0 < n ->
   uses id (auth_run ops) <= n /\ (ma_status a = ST_ACTIVE -> uses id (auth_run ops) < n)) /\
  v_valid (verify_audit (auth_run ops)) = true.
Proof.
  intros Hn Ha. apply dget_elem in Ha. pose proof (budgeted_run ops Hn) as Hb.
  rewrite <- (bu_count _ _ Hb _ _ Ha). split_and!; [done| |].
  - intros n Hm Hpos. by apply (bu_max _ _ Hb _ _ _ Ha).
  - unfold verify_audit. rewrite <- (ad_chain _ (bu_audit _ _ Hb)). apply append_all_verifies.
Qed.
End Runs.

(** ** Behaviours that differ from the intent *)

Definition sample_config : config_arg := ConfigData (VDict [("name", VStr "xs"); ("top", VInt 10)])%string.

Definition clock0 : pyfloat := float_of_int 1000000.
Definition clock1 : pyfloat := float_of_int 1000060.

Definition sample_grant (ceiling : LimitCeiling) (total : option pyfloat) (rebalances : option Z) : auth_op :=
  Grant clock0 "m1" "xs" sample_config " Binance " ceiling 3600 "T" "T" total rebalances "op" "".

Definition try_rebalance (ops : list auth_op) (turnover notional : pyfloat) : AuthCheck :=
  (check clock1 "xs" sample_config "binance" turnover notional 1 (auth_run (Some "k"%string) ops)).2.

Definition try_rebalance_with (broker : string) (ops : list auth_op) (turnover notional : pyfloat) : AuthCheck :=
  (check clock1 "xs" sample_config broker turnover notional 1 (auth_run (Some "k"%string) ops)).2.

(** A ceiling that is not a number limits nothing, and the hard maxima neither. *)
Theorem nan_ceiling_unlimited :
  allowed (try_rebalance [sample_grant (MkCeiling S754_nan S754_nan 25) None None]
    (float_of_int 1000000) (float_of_int 1000000000)) = true.
Proof. vm_compute. reflexivity. Qed.

(** A budget of zero is no budget: any total may be spent. *)
Theorem zero_budget_unlimited :
  let s := auth_run (Some "k"%string) [sample_grant default_ceiling (Some fzero) (Some 0)] in
  match dget (auths s) "m1"%string with
  | Some a => max_total_notional a = None /\ max_rebalances a = None
  | None => False
  end.
Proof. vm_compute. by split. Qed.

(** Two checks before the first use overspend a budget that each alone respects. *)
Theorem concurrent_checks_overspend :
  let spend := float_of_int 60 in
  let ops := [sample_grant default_ceiling (Some (float_of_int 100)) None] in
  let s := auth_run (Some "k"%string) (ops ++ [Consume clock1 "m1" spend 1; Consume clock1 "m1" spend 1]) in
  allowed (try_rebalance ops fzero spend) = true /\
  match dget (auths s) "m1"%string with
  | Some a => consumed_notional a = float_of_int 120
  | None => False
  end.
Proof. vm_compute. by split. Qed.

(** Whatever stands in the audit file, a store opened on it reports a valid audit:
    the chain is computed anew from the payloads, the stored hashes are not read. *)
Theorem audit_file_not_checked `{Digest} key d lines :
  v_valid (verify_audit (open_store key (Some d) lines)) = true.
Proof. apply append_all_verifies. Qed.

(** A store reopened before the first grant starts its chain again while the file
    goes on, so two lines carry the same sequence number. *)
Theorem audit_restarts_before_first_grant :
  let refused := Grant clock0 "m1" "xs" sample_config "binance" default_ceiling 3600 "T" "U" None None "op" "" in
  map cr_seq (audit_file (auth_run None [refused; ReopenStore; refused])) = [1; 1].
Proof. vm_compute. reflexivity. Qed.

(** ** Witnesses *)

Definition mandate_ops : list auth_op :=
  [sample_grant default_ceiling None (Some 2); Consume clock1 "m1" (float_of_int 10) 1; ReopenStore].

Lemma live_trading_needs_mandate_witness :
  exists pre g post b, mandate_ops = pre ++ g :: post /\ confirmed g b /\ auth_id b = "m1"%string.
Proof.
  destruct (live_trading_needs_mandate (Some "k"%string) mandate_ops clock1 "xs" sample_config "BINANCE"
    fzero (float_of_int 5) 1) as (pre & g & post & b & a & Ho & Hg & _ & _ & Hid & _).
  - vm_compute. reflexivity.
  - exists pre, g, post, b. split; [exact Ho|split; [exact Hg|]].
    assert (check_auth_id (try_rebalance_with "BINANCE" mandate_ops fzero (float_of_int 5)) = Some "m1"%string) as Hm
      by (vm_compute; reflexivity).
    unfold try_rebalance_with in Hm. rewrite Hm in Hid. congruence.
Defined.

Lemma mandate_budget_kept_witness :
  match dget (auths (auth_run (Some "k"%string) mandate_ops)) "m1"%string with
  | Some a => consumed_rebalances a = uses "m1" (auth_run (Some "k"%string) mandate_ops) /\
      uses "m1" (auth_run (Some "k"%string) mandate_ops) <= 2
  | None => False
  end.
Proof.
  destruct (dget (auths (auth_run (Some "k"%string) mandate_ops)) "m1"%string) as [a|] eqn:E.
  - destruct (mandate_budget_kept (Some "k"%string) mandate_ops "m1"%string a) as (Hu & Hm & _);
      [vm_compute; by apply (bool_decide_unpack _)|exact E|].
    split; [exact Hu|]. apply (Hm 2); [|lia]. vm_compute in E. injection E as <-. reflexivity.
  - vm_compute in E. discriminate E.
Defined.
