(* ===== verification/Reconciler.v ===== *)
(** * Position and order reconciliation: [packages/agent/reconciliation/reconciler.py]

    [PositionReconciler] compares the positions the agent believes in with those
    of the broker, and the unresolved orders of the journal with what the broker
    says of them.  Positions are a map ([gmap]); the order in which Python runs
    through a [set] is an interface ([SetIteration]).  The two callbacks, which
    may raise, and the clock are arguments. *)
From Stdlib Require Import String QArith.
From S2P Require Import Prelude PyDecimal DecArith Sha256 HashChain Journal PyValue.
Open Scope Z_scope.
Open Scope list_scope.

(** Running through a [set] of strings: every element once, in some order. *)
Class SetIteration := {
  set_iter : gset string -> list string;
  set_iter_perm X : set_iter X ≡ₚ elements X
}.

#[export] Instance elements_iteration : SetIteration := {| set_iter := elements; set_iter_perm X := reflexivity _ |}.

Inductive MismatchAction := ACCEPT_BROKER | ACCEPT_LOCAL | HALT_ON_MISMATCH | ALERT.

#[export] Instance MismatchAction_eq_dec : EqDecision MismatchAction.
Proof. solve_decision. Defined.

Inductive Severity := SEV_WARNING | SEV_ERROR.

Record PositionMismatch := MkMismatch {
  mm_symbol : string;
  local_quantity : dec;
  broker_quantity : dec;
  difference : dec;
  severity : Severity;
  mm_timestamp : Z
}.

Definition one_pct : dec := Dec 1 (-2).

(** A quotient whose divisor has been tested for zero. *)
Definition abs_ratio_exceeds (a b limit : dec) : bool :=
  match ddiv a b with
  | Some q => dltb limit (dabs q)
  | None => false
  end.

Definition is_significant (m : PositionMismatch) : bool :=
  if deqb (broker_quantity m) dzero then dltb one_pct (dabs (local_quantity m))
  else abs_ratio_exceeds (difference m) (broker_quantity m) one_pct.

Record ReconciliationResult := MkResult {
  success : bool;
  mismatches : list PositionMismatch;
  resolved : list string;
  halted : bool;
  halt_reason : option string;
  rr_timestamp : Z
}.

Definition new_result (now : Z) : ReconciliationResult := MkResult true [] [] false None now.

(** [success = False; halted = True; halt_reason = why] *)
Definition halt_result (why : string) (r : ReconciliationResult) : ReconciliationResult :=
  MkResult false (mismatches r) (resolved r) true (Some why) (rr_timestamp r).

Definition has_significant_mismatches (r : ReconciliationResult) : bool :=
  existsb is_significant (mismatches r).

(** [", ".join(l)] *)
Fixpoint comma_join (l : list string) : string :=
  match l with
  | [] => ""
  | [x] => x
  | x :: r => x +:+ ", " +:+ comma_join r
  end.

(** ** Positions *)

Abbreviation positions := (gmap string dec).

(** The fields that do not change are arguments of the operations below. *)
Definition qty (p : positions) (s : string) : dec := default dzero (p !! s).

Definition is_within_tolerance (tolerance_pct local broker : dec) : bool :=
  if deqb local broker then true
  else if deqb broker dzero then dltb (dabs local) (Dec 1 (-4))
  else negb (abs_ratio_exceeds (dsub local broker) broker tolerance_pct).

Section Positions.
Context `{SetIteration}.
Variable tolerance_pct : dec.

Definition severity_of (d broker : dec) : Severity :=
  if dltb (dmul (dabs broker) (Dec 1 (-1))) (dabs d) then SEV_ERROR else SEV_WARNING.

Definition mismatch_of (at_ : Z) (local broker : positions) (s : string) : PositionMismatch :=
  let lq := qty local s in
  let bq := qty broker s in
  let d := dsub lq bq in
  MkMismatch s lq bq d (severity_of d bq) at_.

(** The loop over all symbols; [clock n] is the [n]th reading of the clock. *)
Fixpoint compare_loop (clock : nat -> Z) (local broker : positions) (syms : list string)
    (acc : list PositionMismatch) : list PositionMismatch :=
  match syms with
  | [] => acc
  | s :: rest =>
      if is_within_tolerance tolerance_pct (qty local s) (qty broker s)
      then compare_loop clock local broker rest acc
      else compare_loop clock local broker rest
             (acc ++ [mismatch_of (clock (S (List.length acc))) local broker s])
  end.

Definition all_symbols (local broker : positions) : gset string := dom local ∪ dom broker.

Definition accept_broker (ms : list PositionMismatch) (local : positions) : positions :=
  fold_left (fun p m => <[mm_symbol m := broker_quantity m]> p) ms local.

Definition handle_mismatches (action : MismatchAction) (local : positions)
    (r : ReconciliationResult) : positions * ReconciliationResult :=
  match action with
  | HALT_ON_MISMATCH =>
      let syms := map mm_symbol (List.filter is_significant (mismatches r)) in
      (local, halt_result ("Significant position mismatch in: " +:+ comma_join syms) r)
  | ACCEPT_BROKER =>
      (accept_broker (mismatches r) local,
       MkResult (success r) (mismatches r) (resolved r ++ map mm_symbol (mismatches r))
         (halted r) (halt_reason r) (rr_timestamp r))
  | ALERT | ACCEPT_LOCAL => (local, r)
  end.

(** [reconcile]: without a callback, or when it raises, trading halts. *)
Definition reconcile (clock : nat -> Z) (action : MismatchAction)
    (fetch : option (pyres string positions)) (local : positions) :
    positions * ReconciliationResult :=
  let r := new_result (clock O) in
  match fetch with
  | None => (local, halt_result "No broker connection for reconciliation" r)
  | Some (Raise e) => (local, halt_result ("Failed to fetch broker positions: " +:+ e) r)
  | Some (Ok broker) =>
      let ms := compare_loop clock local broker (set_iter (all_symbols local broker)) [] in
      let r := MkResult true ms [] false None (clock O) in
      if has_significant_mismatches r then handle_mismatches action local r else (local, r)
  end.
End Positions.

Definition get_local_position (local : positions) (s : string) : dec := qty local s.

Definition update_local_positions (p local : positions) : positions := p.

Definition set_local_position (s : string) (q : dec) (local : positions) : positions :=
  if deqb q dzero then delete s local else <[s := q]> local.

(** ** Orders *)

(** The ids of the first five orders, and how many more there are. *)
Definition sample_ids (es : list JournalEntry) : string :=
  let more := if (List.length es <=? 5)%nat then ""%string
              else (" (+" +:+ int_str (Z.of_nat (List.length es) - 5) +:+ " more)")%string in
  comma_join (map je_client_order_id (take 5 es)) +:+ more.

Section Orders.
Context `{Digest}.

(** The broker as the callback sees it: any function of its own state, with the
    time at which it answers. *)
Variable B : Type.
Variable ask : B -> JournalEntry -> B * pyres string (option JournalStatus).
Variable clock : B -> Z.

(** The loop over the orders that were unresolved at the start: the reason to stop
    it early, and the ids resolved so far. *)
Fixpoint orders_loop (es : list JournalEntry) (b : B) (j : OrderJournal) (done_ : list string) :
    B * OrderJournal * option string * list string :=
  match es with
  | [] => (b, j, None, done_)
  | e :: rest =>
      match ask b e with
      | (b', Raise err) =>
          (b', j,
           Some ("Order reconciliation failed for " +:+ je_client_order_id e +:+ ": " +:+ err), done_)
      | (b', Ok None) =>
          (b', (update_status (clock b') (je_entry_id e) J_UNKNOWN None None None j).1,
           Some ("Order status unknown at broker for " +:+ je_client_order_id e), done_)
      | (b', Ok (Some st)) =>
          if decide (st = je_status e) then orders_loop rest b' j done_
          else orders_loop rest b'
                 (update_status (clock b') (je_entry_id e) st (je_broker_order_id e) None None j).1
                 (done_ ++ [je_client_order_id e])
      end
  end.

Definition with_resolved (ids : list string) (r : ReconciliationResult) : ReconciliationResult :=
  MkResult (success r) (mismatches r) ids (halted r) (halt_reason r) (rr_timestamp r).

(** [reconcile_orders]; [has_callback] tells whether the constructor was given
    [fetch_broker_order_status], [None] for the journal that it was given none. *)
Definition reconcile_orders (has_callback : bool) (b : B) (journal : option OrderJournal) :
    B * option OrderJournal * ReconciliationResult :=
  let r := new_result (clock b) in
  match journal with
  | None => (b, None, r)
  | Some j =>
      match get_unresolved_orders j with
      | [] => (b, Some j, r)
      | es =>
          if negb has_callback then
            (b, Some j,
             halt_result ("Unresolved orders present; cannot reconcile: " +:+ sample_ids es) r)
          else
            match orders_loop es b j [] with
            | (b', j', Some why, ids) => (b', Some j', halt_result why (with_resolved ids r))
            | (b', j', None, ids) =>
                match get_unresolved_orders j' with
                | [] => (b', Some j', with_resolved ids r)
                | left_ =>
                    (b', Some j',
                     halt_result ("Unresolved orders remain after reconciliation: " +:+ sample_ids left_)
                       (with_resolved ids r))
                end
            end
      end
  end.
End Orders.

(** ** Positions: properties *)

Section PositionProperties.
Context (tol : dec).

(** The symbols on which local and broker positions differ beyond the tolerance. *)
Definition disagree (local broker : positions) (s : string) : Prop :=
  is_within_tolerance tol (qty local s) (qty broker s) = false.

#[local] Instance disagree_dec local broker s : Decision (disagree local broker s).
Proof. unfold disagree. apply _. Defined.

Lemma compare_loop_symbols clock local broker syms acc :
  map mm_symbol (compare_loop tol clock local broker syms acc) =
  map mm_symbol acc ++ filter (disagree local broker) syms.
Proof.
  revert acc. induction syms as [|s syms IH]; intros acc; cbn [compare_loop].
  - by rewrite app_nil_r.
  - rewrite filter_cons. destruct (decide (disagree local broker s)) as [E|E]; unfold disagree in E.
    + rewrite E, IH, map_app, <- app_assoc. done.
    + apply not_false_is_true in E. by rewrite E, IH.
Qed.

Lemma compare_loop_records clock local broker syms acc m :
  m ∈ compare_loop tol clock local broker syms acc ->
  m ∈ acc \/ exists n, m = mismatch_of (clock n) local broker (mm_symbol m).
Proof.
  revert acc. induction syms as [|s syms IH]; intros acc; cbn [compare_loop]; [by left|].
  case_match; intros [Hm|Hm]%IH; try by (left + right).
  apply elem_of_app in Hm as [Hm| ->%list_elem_of_singleton]; [by left|right; by eexists].
Qed.

Lemma qty_outside local broker s :
  s ∉ all_symbols local broker -> qty local s = dzero /\ qty broker s = dzero.
Proof.
  unfold all_symbols, qty. rewrite not_elem_of_union. intros [Hl Hb].
  by rewrite (proj1 (not_elem_of_dom _ _) Hl), (proj1 (not_elem_of_dom _ _) Hb).
Qed.

Section Found.
Context `{SetIteration} (clock : nat -> Z).

(** The mismatches of a comparison. *)
Definition found (local broker : positions) : list PositionMismatch :=
  compare_loop tol clock local broker (set_iter (all_symbols local broker)) [].

Lemma found_symbols local broker s :
  s ∈ map mm_symbol (found local broker) <-> disagree local broker s.
Proof.
  unfold found. rewrite compare_loop_symbols. cbn [map app]. rewrite list_elem_of_filter, set_iter_perm, elem_of_elements.
  split; [by intros [? ?]|]. intros Hd. split; [done|]. destruct (decide (s ∈ all_symbols local broker)) as [|Hs]; [done|].
  destruct (qty_outside _ _ _ Hs) as [E1 E2]. unfold disagree in Hd. by rewrite E1, E2 in Hd.
Qed.

Lemma found_nodup local broker : NoDup (map mm_symbol (found local broker)).
Proof.
  unfold found. rewrite compare_loop_symbols. cbn. apply NoDup_filter. rewrite set_iter_perm. apply NoDup_elements.
Qed.

Lemma found_quantity local broker m :
  m ∈ found local broker -> broker_quantity m = qty broker (mm_symbol m).
Proof.
  intros [Hm|(n & ->)]%compare_loop_records; [by apply not_elem_of_nil in Hm|done].
Qed.

Lemma accept_broker_lookup ms local s :
  NoDup (map mm_symbol ms) ->
  qty (accept_broker ms local) s =
  match List.find (fun m => bool_decide (mm_symbol m = s)) ms with
  | Some m => broker_quantity m
  | None => qty local s
  end.
Proof.
  revert local. induction ms as [|m ms IH]; intros local Hn; [done|].
  cbn [map] in Hn. apply NoDup_cons in Hn as [Hm Hn]. cbn [accept_broker fold_left List.find] in *.
  fold (accept_broker ms (<[mm_symbol m:=broker_quantity m]> local)). rewrite IH by done.
  destruct (decide (mm_symbol m = s)) as [<-|Hne].
  - rewrite bool_decide_eq_true_2 by done. destruct (List.find _ ms) eqn:Ef.
    + apply find_key in Ef as [Hin Hk]. destruct Hm. rewrite <- Hk. by apply list_elem_of_fmap_2.
    + unfold qty. by rewrite lookup_insert_eq.
  - rewrite bool_decide_eq_false_2 by done. destruct (List.find _ ms); [done|].
    unfold qty. by rewrite lookup_insert_ne.
Qed.

Lemma accepted_agrees local broker s :
  disagree local broker s -> qty (accept_broker (found local broker) local) s = qty broker s.
Proof.
  intros Hd. rewrite accept_broker_lookup by apply found_nodup.
  apply found_symbols in Hd as (m & -> & Hm)%list_elem_of_fmap.
  rewrite (find_unique mm_symbol) by (done || apply found_nodup). by apply (found_quantity local).
Qed.

Lemma accepted_unchanged local broker s :
  ~ disagree local broker s -> qty (accept_broker (found local broker) local) s = qty local s.
Proof.
  intros Hd. rewrite accept_broker_lookup by apply found_nodup.
  destruct (List.find _ _) as [m|] eqn:Ef; [|done]. apply find_key in Ef as [Hm Hk]. destruct Hd.
  rewrite <- Hk. by apply found_symbols, list_elem_of_fmap_2.
Qed.

Lemma agreeing_found local broker : (forall s, ~ disagree local broker s) -> found local broker = [].
Proof.
  intros Hn. destruct (found local broker) as [|m ms] eqn:E; [done|]. destruct (Hn (mm_symbol m)).
  apply found_symbols. rewrite E. by left.
Qed.

Lemma reconcile_answer action local broker :
  reconcile tol clock action (Some (Ok broker)) local =
  let r := MkResult true (found local broker) [] false None (clock O) in
  if has_significant_mismatches r then handle_mismatches action local r else (local, r).
Proof. done. Qed.
End Found.

Lemma within_self q : is_within_tolerance tol q q = true.
Proof.
  unfold is_within_tolerance. by rewrite (proj2 (deqb_spec q q) (Qeq_refl _)).
Qed.

(** What reconciling positions finds and does. When the broker answers, the
    mismatches are one for each symbol on which the two sides differ beyond the
    tolerance; the run fails and halts exactly when a mismatch is significant and
    the policy is to halt; the local positions change only when a mismatch is
    significant and the policy is to believe the broker, and then every
    mismatched symbol has the broker's quantity, every other one its own, and
    reconciling again with the same answer finds nothing and changes nothing. *)
Theorem reconcile_correct `{SetIteration} clock action local broker :
  let '(local', r) := reconcile tol clock action (Some (Ok broker)) local in
  let hit := has_significant_mismatches r in
  (forall s, s ∈ map mm_symbol (mismatches r) <-> disagree local broker s) /\
  NoDup (map mm_symbol (mismatches r)) /\
  halted r = hit && bool_decide (action = HALT_ON_MISMATCH) /\ success r = negb (halted r) /\
  (hit && bool_decide (action = ACCEPT_BROKER) = false -> local' = local) /\
  (hit && bool_decide (action = ACCEPT_BROKER) = true ->
   (forall s, qty local' s = if decide (disagree local broker s) then qty broker s else qty local s) /\
   forall S' clock', @reconcile S' tol clock' action (Some (Ok broker)) local' = (local', new_result (clock' O))).
Proof.
  rewrite reconcile_answer.
  set (r0 := MkResult true (found clock local broker) [] false None (clock O)).
  assert (forall s, s ∈ map mm_symbol (mismatches r0) <-> disagree local broker s) as Hs
    by apply found_symbols.
  assert (NoDup (map mm_symbol (mismatches r0))) as Hn by apply found_nodup.
  assert (mismatches r0 = found clock local broker /\ halted r0 = false /\ success r0 = true) as (Hm & Hh & Ho)
    by done.
  clearbody r0. destruct (has_significant_mismatches r0) eqn:Eh.
  2:{ cbn -[reconcile has_significant_mismatches]. rewrite !Eh, Hh, Ho. by split_and!. }
  unfold has_significant_mismatches in Eh.
  destruct action; unfold has_significant_mismatches; rewrite Eh; cbn -[reconcile];
    rewrite ?Eh, ?Hh, ?Ho; (split_and!; try done); intros _; rewrite Hm.
  assert (forall s, ~ disagree (accept_broker (found clock local broker) local) broker s) as Ha.
  { intros s. unfold disagree. destruct (decide (disagree local broker s)) as [Hd|Hd].
    - by rewrite accepted_agrees, within_self.
    - by rewrite accepted_unchanged. }
  split.
  - intros s. destruct (decide _); [by apply accepted_agrees|by apply accepted_unchanged].
  - intros S' clock'. by rewrite reconcile_answer, (@agreeing_found S' clock' _ _ Ha).
Qed.
End PositionProperties.

(** ** Orders: properties *)

Section OrderProperties.
Context `{Digest} {B : Type}.
Variables (ask : B -> JournalEntry -> B * pyres string (option JournalStatus)) (clock : B -> Z).

Definition unresolved_statuses : list JournalStatus := [J_PENDING; J_SUBMITTED; J_UNKNOWN].

(** What the broker says of the orders when asked one after the other: the
    statuses, if it knows them all. *)
Fixpoint answers (es : list JournalEntry) (b : B) : option (list JournalStatus) :=
  match es with
  | [] => Some []
  | e :: rest =>
      match ask b e with
      | (b', Ok (Some st)) => cons st <$> answers rest b'
      | _ => None
      end
  end.

(** Every order is known, and as confirmed, rejected or cancelled. *)
Definition all_settled (es : list JournalEntry) (b : B) : bool :=
  match answers es b with
  | Some sts => forallb (fun st => bool_decide (st ∉ unresolved_statuses)) sts
  | None => false
  end.

(** How a row of the order table stands after the broker's answers. *)
Definition told (es : list JournalEntry) (sts : list JournalStatus) (e0 e : JournalEntry) : Prop :=
  je_entry_id e = je_entry_id e0 /\ je_client_order_id e = je_client_order_id e0 /\
  ((exists st, (e0, st) ∈ zip es sts /\ je_status e = st) \/ ((e0 ∉ es) /\ e = e0)).

Lemma update_rows now eid s b fq ap j :
  jo_orders (update_status now eid s b fq ap j).1 =
  map (fun e => if bool_decide (je_entry_id e = eid) then set_status now s b fq ap e else e) (jo_orders j).
Proof. unfold update_status. by destruct (existsb _ _). Qed.

(** One answer applied to a row of the table. *)
Definition apply_answer (now : Z) (e : JournalEntry) (st : JournalStatus) (x : JournalEntry) : JournalEntry :=
  if decide (st = je_status e) then x
  else if bool_decide (je_entry_id x = je_entry_id e)
  then set_status now st (je_broker_order_id e) None None x else x.

Lemma apply_answer_ids now e st x :
  je_entry_id (apply_answer now e st x) = je_entry_id x /\
  je_client_order_id (apply_answer now e st x) = je_client_order_id x.
Proof. unfold apply_answer. by repeat case_match. Qed.

Lemma told_step now e es st sts x y :
  je_entry_id e ∉ map je_entry_id es -> (je_entry_id x = je_entry_id e -> x = e) ->
  told es sts (apply_answer now e st x) y -> told (e :: es) (st :: sts) x y.
Proof.
  intros Hd Hu (Hid & Hc & Ht). destruct (apply_answer_ids now e st x) as [Eg Ec].
  split_and!; [congruence|congruence|]. destruct (decide (je_entry_id x = je_entry_id e)) as [Hk|Hne]; [apply Hu in Hk as ->|].
  - left. exists st. split; [by left|]. assert (apply_answer now e st e ∉ es) as Hg.
    { intros Hin. apply Hd. rewrite <- Eg. by apply list_elem_of_fmap_2. }
    destruct Ht as [(st' & Hin & _)|[_ ->]]; [by apply elem_of_zip_l in Hin|].
    unfold apply_answer. case_decide; [done|]. by rewrite bool_decide_eq_true_2.
  - assert (apply_answer now e st x = x) as Hgx.
    { unfold apply_answer. case_decide; [done|]. by rewrite bool_decide_eq_false_2. }
    rewrite Hgx in Ht. destruct Ht as [(st' & Hin & Hs)|[Hin ->]].
    + left. exists st'. split; [by right|done].
    + right. split; [|done]. by intros [-> |?]%elem_of_cons.
Qed.

(** The journal after one answer. *)
Definition answer_journal (now : Z) (e : JournalEntry) (st : JournalStatus) (j : OrderJournal) : OrderJournal :=
  if decide (st = je_status e) then j
  else (update_status now (je_entry_id e) st (je_broker_order_id e) None None j).1.

Lemma answer_rows now e st j :
  jo_orders (answer_journal now e st j) = map (apply_answer now e st) (jo_orders j).
Proof.
  unfold answer_journal, apply_answer. case_decide; [by rewrite map_id|apply update_rows].
Qed.

Lemma answer_ids now e st j :
  map je_entry_id (jo_orders (answer_journal now e st j)) = map je_entry_id (jo_orders j).
Proof. rewrite answer_rows, map_map. apply map_ext. intros x. apply apply_answer_ids. Qed.

Lemma answer_others now e st j x :
  x ∈ jo_orders j -> je_entry_id x <> je_entry_id e -> x ∈ jo_orders (answer_journal now e st j).
Proof.
  intros Hx Hne. rewrite answer_rows. apply list_elem_of_fmap. exists x. split; [|done].
  unfold apply_answer. case_decide; [done|]. by rewrite bool_decide_eq_false_2.
Qed.

Lemma told_trans now e es st sts j l :
  NoDup (map je_entry_id (jo_orders j)) -> je_entry_id e ∉ map je_entry_id es -> e ∈ jo_orders j ->
  Forall2 (told es sts) (jo_orders (answer_journal now e st j)) l ->
  Forall2 (told (e :: es) (st :: sts)) (jo_orders j) l.
Proof.
  intros Hn Hd He Hl. rewrite answer_rows in Hl. apply (Forall2_fmap_l (apply_answer now e st)) in Hl.
  rewrite Forall2_same_length_lookup in Hl |- *. destruct Hl as [Hlen Hl].
  split; [done|]. intros i x y Hx Hy. apply (told_step now); [done| |by apply (Hl i)].
  intros Hk. apply list_elem_of_lookup_2 in Hx.
  pose proof (find_unique je_entry_id _ _ Hn Hx) as F1. pose proof (find_unique je_entry_id _ _ Hn He) as F2.
  rewrite Hk in F1. congruence.
Qed.

Lemma orders_loop_cons e es b j ids b' st :
  ask b e = (b', Ok (Some st)) ->
  orders_loop B ask clock (e :: es) b j ids =
  orders_loop B ask clock es b' (answer_journal (clock b') e st j)
    (if decide (st = je_status e) then ids else ids ++ [je_client_order_id e]).
Proof. intros Ha. cbn [orders_loop]. rewrite Ha. unfold answer_journal. by case_decide. Qed.

Lemma orders_loop_told es b j ids :
  NoDup (map je_entry_id (jo_orders j)) -> NoDup (map je_entry_id es) -> (forall e, e ∈ es -> e ∈ jo_orders j) ->
  let '(_, j', stop, _) := orders_loop B ask clock es b j ids in
  match answers es b with
  | None => is_Some stop
  | Some sts => stop = None /\ Forall2 (told es sts) (jo_orders j) (jo_orders j')
  end.
Proof.
  revert b j ids. induction es as [|e es IH]; intros b j ids Hn Hd Hin.
  - cbn. split; [done|]. apply Forall_Forall2_diag, Forall_forall. intros x _. split_and!; [done|done|right].
    split; [apply not_elem_of_nil|done].
  - cbn [answers]. destruct (ask b e) as [b' [[st|]|err]] eqn:Ea; [|cbn; by rewrite Ea..].
    rewrite (orders_loop_cons _ _ _ _ _ _ _ Ea). cbn [map] in Hd. apply NoDup_cons in Hd as [He Hd].
    assert (forall x, x ∈ es -> x ∈ jo_orders (answer_journal (clock b') e st j)) as Hin'.
    { intros x Hx. apply answer_others; [apply Hin; by right|]. intros Hk. apply He. rewrite <- Hk.
      by apply list_elem_of_fmap_2. }
    specialize (IH b' (answer_journal (clock b') e st j)
      (if decide (st = je_status e) then ids else ids ++ [je_client_order_id e])).
    rewrite answer_ids in IH. specialize (IH Hn Hd Hin').
    destruct (orders_loop _ _ _ _ _ _ _) as [[[b2 j2] stop] ids2].
    destruct (answers es b') as [sts|]; [|done]. cbn. destruct IH as [-> IH]. split; [done|].
    apply (told_trans (clock b')); [done|done| |done]. apply Hin. by left.
Qed.

Lemma get_unresolved_nil j :
  get_unresolved_orders j = [] <-> forall e, e ∈ jo_orders j -> je_status e ∉ unresolved_statuses.
Proof.
  unfold get_unresolved_orders, get_orders_with_status. split.
  - intros Hn e He Hs. assert (e ∈ order_by je_created_at (List.filter (has_status unresolved_statuses) (jo_orders j))) as Hi.
    { rewrite elem_order_by. apply list_elem_of_In, filter_In. rewrite <- list_elem_of_In. split; [done|].
      by apply bool_decide_eq_true_2. }
    unfold unresolved_statuses in Hi. rewrite Hn in Hi. by apply not_elem_of_nil in Hi.
  - intros Hn. destruct (order_by _ _) as [|e l] eqn:E; [done|].
    assert (e ∈ e :: l) as He by left. rewrite <- E, elem_order_by in He.
    apply list_elem_of_In, filter_In in He as [He Hs]. rewrite <- list_elem_of_In in He.
    unfold has_status in Hs. bool_to_prop. by apply Hn in He.
Qed.

Lemma unresolved_elem j e :
  e ∈ get_unresolved_orders j <-> e ∈ jo_orders j /\ je_status e ∈ unresolved_statuses.
Proof.
  unfold get_unresolved_orders, get_orders_with_status. rewrite elem_order_by, list_elem_of_In, filter_In, <- list_elem_of_In.
  unfold has_status. by rewrite bool_decide_eq_true.
Qed.

Lemma unresolved_nodup j :
  NoDup (map je_entry_id (jo_orders j)) -> NoDup (map je_entry_id (get_unresolved_orders j)).
Proof.
  intros Hn. unfold get_unresolved_orders, get_orders_with_status.
  rewrite (order_by_perm je_created_at). induction (jo_orders j) as [|e l IH]; [constructor|].
  cbn in *. apply NoDup_cons in Hn as [He Hn]. destruct (has_status _ e); [|by apply IH].
  apply NoDup_cons. split; [|by apply IH]. intros (x & Hx & Hin)%list_elem_of_fmap. apply He. rewrite Hx.
  apply list_elem_of_fmap_2. apply list_elem_of_In, filter_In in Hin as [Hin _]. by rewrite list_elem_of_In.
Qed.

(** After a complete round of answers, what is left is settled exactly when every
    answer was. *)
Lemma settled_after j j' sts :
  Forall2 (told (get_unresolved_orders j) sts) (jo_orders j) (jo_orders j') ->
  List.length sts = List.length (get_unresolved_orders j) ->
  NoDup (get_unresolved_orders j) ->
  (get_unresolved_orders j' = [] <-> Forall (fun st => st ∉ unresolved_statuses) sts).
Proof.
  intros Ht Hlen Hd. rewrite get_unresolved_nil, Forall_lookup. split.
  - intros Hs i st Hi. destruct (lookup_lt_is_Some_2 (get_unresolved_orders j) i) as [e He].
    { rewrite <- Hlen. by eapply lookup_lt_Some. }
    assert (e ∈ jo_orders j) as (k & Hk)%list_elem_of_lookup.
    { apply list_elem_of_lookup_2 in He. by apply unresolved_elem in He as [? _]. }
    destruct (Forall2_lookup_l _ _ _ _ _ Ht Hk) as (e' & Hk' & _ & _ & Hc).
    specialize (Hs e' (list_elem_of_lookup_2 _ _ _ Hk')). destruct Hc as [(st' & Hz & <-)|[Hni _]].
    + apply list_elem_of_lookup in Hz as (i' & Hz). apply lookup_zip_Some in Hz as [He' Hi'].
      pose proof (NoDup_lookup _ _ _ _ Hd He He') as ->. congruence.
    + destruct Hni. by eapply list_elem_of_lookup_2.
  - intros Hs e' (k & Hk)%list_elem_of_lookup. destruct (Forall2_lookup_r _ _ _ _ _ Ht Hk) as (e & Hk' & _ & _ & Hc).
    destruct Hc as [(st & Hz & ->)|[Hni ->]].
    + apply list_elem_of_lookup in Hz as (i & Hz). apply lookup_zip_Some in Hz as [_ Hi]. by eapply Hs.
    + intros Hu. apply Hni, unresolved_elem. split; [by eapply list_elem_of_lookup_2|done].
Qed.

Lemma answers_length es b sts : answers es b = Some sts -> List.length sts = List.length es.
Proof.
  revert b sts. induction es as [|e es IH]; intros b sts; cbn; [by intros [= <-]|].
  destruct (ask b e) as [b' [[st|]|]]; [|done|done].
  destruct (answers es b') eqn:E; [|done]. intros [= <-]. cbn. f_equal. by eapply IH.
Qed.

Lemma orders_loop_wf es b j ids :
  journal_wf j -> journal_wf (orders_loop B ask clock es b j ids).1.1.2.
Proof.
  revert b j ids. induction es as [|e es IH]; intros b j ids Hw; [done|]. cbn [orders_loop].
  destruct (ask b e) as [b' [[st|]|err]]; [|by apply update_status_wf|done].
  case_decide; apply IH; [done|by apply update_status_wf].
Qed.

Lemma all_settled_spec es b :
  all_settled es b = true <-> exists sts, answers es b = Some sts /\ Forall (fun st => st ∉ unresolved_statuses) sts.
Proof.
  unfold all_settled. destruct (answers es b) as [sts|]; [|by split; [|intros (? & ? & _)]].
  rewrite forallb_forall. split.
  - intros Hf. exists sts. split; [done|]. apply Forall_forall. intros st Hin%list_elem_of_In.
    by apply (bool_decide_eq_true_1 _ (Hf st Hin)).
  - intros (? & [= <-] & Hf) st Hin%list_elem_of_In. apply bool_decide_eq_true_2. by eapply Forall_forall in Hf.
Qed.

(** Trading resumes after a restart only on known orders. On a journal that
    satisfies its invariant, with any broker: reconciling the orders fails exactly
    when it halts, and it does not halt exactly when nothing was unresolved or the
    broker answered for every unresolved order with a final status. Then nothing is
    unresolved any more, every order asked about carries the status the broker
    gave, and all other rows are as they were; whatever the outcome, the journal
    keeps its invariant. *)
Theorem reconcile_orders_correct has_callback b j :
  journal_wf j ->
  let '(_, oj, r) := reconcile_orders B ask clock has_callback b (Some j) in
  let es := get_unresolved_orders j in
  success r = negb (halted r) /\
  halted r = negb (bool_decide (List.length es = 0%nat) || has_callback && all_settled es b) /\
  exists j', oj = Some j' /\ journal_wf j' /\
  (halted r = false -> get_unresolved_orders j' = [] /\
   exists sts, answers es b = Some sts /\ Forall2 (told es sts) (jo_orders j) (jo_orders j')).
Proof.
  intros Hw. cbn [reconcile_orders]. set (es := get_unresolved_orders j).
  assert (NoDup (map je_entry_id es)) as Hd by apply unresolved_nodup, Hw.
  assert (forall e, e ∈ es -> e ∈ jo_orders j) as Hin by (intros e He; by apply unresolved_elem in He as [? _]).
  pose proof (orders_loop_told es b j [] (jw_entries _ Hw) Hd Hin) as Ht.
  pose proof (orders_loop_wf es b j [] Hw) as Hw'.
  destruct es as [|e es'] eqn:Ees; [|rewrite <- Ees in *; rewrite (bool_decide_eq_false_2 (_ = 0%nat)) by by rewrite Ees].
  { split_and!; [done|done|]. exists j. split_and!; [done|done|]. intros _. split; [done|]. exists [].
    cbn in Ht. by destruct Ht. }
  destruct has_callback; cbn [negb]; [|split_and!; [done|done|]; by exists j].
  destruct (orders_loop B ask clock es b j []) as [[[b' j'] stop] ids]. cbn [fst snd] in Hw'.
  destruct (answers es b) as [sts|] eqn:Ea.
  - destruct Ht as [-> Ht].
    pose proof (settled_after j j' sts Ht (answers_length _ _ _ Ea) (NoDup_fmap_1 _ _ Hd)) as Hs.
    destruct (get_unresolved_orders j') as [|x l] eqn:El; split_and!; try done.
    + cbn [negb orb andb halted halt_result with_resolved new_result]. symmetry. apply negb_false_iff, all_settled_spec. exists sts. split; [done|]. by apply Hs.
    + exists j'. split_and!; [done|done|]. intros _. split; [done|]. by exists sts.
    + cbn [negb orb andb halted halt_result with_resolved new_result]. symmetry. apply negb_true_iff, not_true_iff_false. intros (sts' & E & Hf)%all_settled_spec.
      assert (sts' = sts) as -> by congruence. by apply Hs in Hf.
    + by exists j'.
  - destruct Ht as [why ->]. split_and!; [done| |by exists j'].
    cbn [negb orb andb halted halt_result with_resolved new_result]. symmetry. apply negb_true_iff, not_true_iff_false. intros (sts' & E & _)%all_settled_spec. congruence.
Qed.
End OrderProperties.

(** ** Concrete runs *)

Definition clock0 : nat -> Z := fun n => Z.of_nat n.
Definition tenth_pct : dec := Dec 1 (-3).

(** A position of a hundredth that the broker does not hold is a mismatch without
    bound in proportion, and still not significant: trading is not halted. *)
Theorem phantom_position_not_significant :
  let r := (reconcile tenth_pct clock0 HALT_ON_MISMATCH (Some (Ok ∅)) {["BTCUSDT" := Dec 1 (-2)]}).2 in
  map mm_symbol (mismatches r) = ["BTCUSDT"] /\ halted r = false /\ success r = true.
Proof. vm_compute. by split_and!. Qed.

(** A broker that confirms every order it is asked about. *)
Definition confirms (b : Z) (e : JournalEntry) : Z * pyres string (option JournalStatus) :=
  (b + 1, Ok (Some J_CONFIRMED)).

Definition sample_journal : OrderJournal :=
  journal_run (new_journal None)
    [LogOrder 1 "e1" "c1" "i1" "AAPL" "buy" (Dec 5 0) "market" None;
     LogOrder 2 "e2" "c2" "i2" "MSFT" "buy" (Dec 1 0) "market" None;
     UpdateStatus 3 "e1" J_SUBMITTED (Some "b1") None None]%string.

Lemma reconcile_orders_correct_witness :
  let '(_, oj, r) := reconcile_orders Z confirms id true 10 (Some sample_journal) in
  halted r = false /\ (get_unresolved_orders <$> oj) = Some [].
Proof.
  pose proof (reconcile_orders_correct confirms id true 10 sample_journal
    (journal_run_wf _ _ (new_journal_wf None))) as Hr.
  assert (all_settled confirms (get_unresolved_orders sample_journal) 10 = true) as Ha
    by (vm_compute; reflexivity).
  destruct (reconcile_orders Z confirms id true 10 (Some sample_journal)) as [[b' oj] r].
  cbn zeta in Hr. rewrite Ha, andb_true_r, orb_true_r in Hr.
  destruct Hr as (_ & Hh & j' & -> & _ & Hd). split; [exact Hh|]. cbn. f_equal. by apply Hd.
Defined.
