(* ===== verification/Resilience.v ===== *)
(** * Retries, circuit breaker and start-up check: [packages/agent/execution/resilience.py]

    [RetryPolicy], [CircuitBreaker] and [ResilientExecutor], and the
    [StartupReconciler].  The functions the code is given - the clock, the sleep,
    the source of randomness, the broker call - act on a world [W] of their own:
    reading the clock or calling the broker may change it.  [fpow] is [**] on
    floats, which the C library computes; it may overflow.  The poller of order
    statuses reads the broker's raw dictionaries; of it only [split_terminal] is
    here. *)
From Stdlib Require Import Ascii String.
From S2P Require Import Prelude PyDecimal PyFormat PyFloat PyValue PyJson PyCompare PyText.
From stdpp Require Import relations.
Open Scope Z_scope.
Open Scope list_scope.

(** ** Retry policy *)

Record RetryPolicy := MkRetry {
  max_attempts : Z;
  base_delay : pyfloat;
  max_delay : pyfloat;
  multiplier : pyfloat;
  jitter : pyfloat
}.

(** [x ** n]; [None] is [OverflowError]. *)
Class FloatPow := fpow : pyfloat -> Z -> option pyfloat.

Definition fone : pyfloat := float_of_int 1.
Definition ftwo : pyfloat := float_of_int 2.

Definition delay `{FloatPow} (p : RetryPolicy) (attempt : Z) (rand : pyfloat) : option pyfloat :=
  match fpow (multiplier p) (Z.max 0 (attempt - 1)) with
  | None => None
  | Some f =>
      let d := fmin (max_delay p) (fmul (base_delay p) f) in
      let d := if fltb fzero (jitter p)
               then fmul d (fadd fone (fmul (jitter p) (fsub (fmul ftwo rand) fone))) else d in
      Some (fmax fzero d)
  end.

(** ** Circuit breaker *)

Inductive CircuitState := CLOSED | OPEN | HALF_OPEN.

#[export] Instance CircuitState_eq_dec : EqDecision CircuitState.
Proof. solve_decision. Defined.

Record CircuitBreaker := MkBreaker {
  failure_threshold : Z;
  reset_timeout : pyfloat;
  half_open_max_calls : Z;
  cb_state : CircuitState;
  failures : Z;
  opened_at : option pyfloat;
  half_open_calls : Z
}.

Definition new_breaker (threshold : Z) (timeout : pyfloat) (half_open_max : Z) : CircuitBreaker :=
  MkBreaker threshold timeout half_open_max CLOSED 0 None 0.

Definition set_breaker (st : CircuitState) (n : Z) (at_ : option pyfloat) (calls : Z)
    (b : CircuitBreaker) : CircuitBreaker :=
  MkBreaker (failure_threshold b) (reset_timeout b) (half_open_max_calls b) st n at_ calls.

Definition record_attempt (b : CircuitBreaker) : CircuitBreaker :=
  match cb_state b with
  | HALF_OPEN => set_breaker HALF_OPEN (failures b) (opened_at b) (half_open_calls b + 1) b
  | _ => b
  end.

Definition record_success (b : CircuitBreaker) : CircuitBreaker := set_breaker CLOSED 0 None 0 b.

Record ResilientExecutor := MkExecutor {
  retry : RetryPolicy;
  breaker : CircuitBreaker;
  attempts_made : Z;
  sleeps : list pyfloat
}.

Definition new_executor (p : RetryPolicy) (b : CircuitBreaker) : ResilientExecutor :=
  MkExecutor p b 0 [].

(** How a call ends; [Escaped] is an exception outside [retryable], [DelayOverflow]
    the [OverflowError] of the backoff. *)
Inductive call_result {E A : Type} :=
  | Returned (a : A)
  | CircuitOpenError
  | MaxRetriesExceeded (last_exc : option E)
  | Escaped (e : E)
  | DelayOverflow.
Arguments call_result : clear implicits.

Section Calls.
Context `{FloatPow} {W E A : Type}.
Variables (time_fn : W -> pyfloat * W) (sleep_fn : pyfloat -> W -> W) (rand_fn : W -> pyfloat * W)
  (retryable : E -> bool).

Definition maybe_half_open (b : CircuitBreaker) (w : W) : CircuitBreaker * W :=
  match cb_state b, opened_at b with
  | OPEN, Some t =>
      let '(now, w) := time_fn w in
      if fleb (reset_timeout b) (fsub now t)
      then (set_breaker HALF_OPEN (failures b) (opened_at b) 0 b, w) else (b, w)
  | _, _ => (b, w)
  end.

(** The property [state]. *)
Definition state (b : CircuitBreaker) (w : W) : CircuitState * CircuitBreaker * W :=
  let '(b, w) := maybe_half_open b w in (cb_state b, b, w).

Definition allow (b : CircuitBreaker) (w : W) : bool * CircuitBreaker * W :=
  let '(b, w) := maybe_half_open b w in
  (match cb_state b with
   | CLOSED => true
   | HALF_OPEN => half_open_calls b <? half_open_max_calls b
   | OPEN => false
   end, b, w).

Definition trip (b : CircuitBreaker) (w : W) : CircuitBreaker * W :=
  let '(now, w) := time_fn w in (set_breaker OPEN (failures b) (Some now) (half_open_calls b) b, w).

Definition record_failure (b : CircuitBreaker) (w : W) : CircuitBreaker * W :=
  let b := set_breaker (cb_state b) (failures b + 1) (opened_at b) (half_open_calls b) b in
  match cb_state b with
  | HALF_OPEN => trip b w
  | _ => if failure_threshold b <=? failures b then trip b w else (b, w)
  end.

(** ** Executor *)

Definition with_breaker (b : CircuitBreaker) (x : ResilientExecutor) : ResilientExecutor :=
  MkExecutor (retry x) b (attempts_made x) (sleeps x).

Definition count_attempt (x : ResilientExecutor) : ResilientExecutor :=
  MkExecutor (retry x) (breaker x) (attempts_made x + 1) (sleeps x).

Definition log_sleep (d : pyfloat) (x : ResilientExecutor) : ResilientExecutor :=
  MkExecutor (retry x) (breaker x) (attempts_made x) (sleeps x ++ [d]).

(** The loop of [call] with [n] attempts left. *)
Fixpoint call_loop (fn : W -> pyres E A * W) (n : nat) (attempt : Z) (last_exc : option E)
    (x : ResilientExecutor) (w : W) : call_result E A * ResilientExecutor * W :=
  match n with
  | O => (MaxRetriesExceeded last_exc, x, w)
  | S n' =>
      let '(ok, b, w) := allow (breaker x) w in
      let x := with_breaker b x in
      if negb ok then (CircuitOpenError, x, w)
      else
        let x := count_attempt (with_breaker (record_attempt b) x) in
        match fn w with
        | (Ok a, w) => (Returned a, with_breaker (record_success (breaker x)) x, w)
        | (Raise e, w) =>
            if retryable e then
              let '(b, w) := record_failure (breaker x) w in
              let x := with_breaker b x in
              if attempt <? max_attempts (retry x) then
                let '(r, w) := rand_fn w in
                match delay (retry x) attempt r with
                | None => (DelayOverflow, x, w)
                | Some d => call_loop fn n' (attempt + 1) (Some e) (log_sleep d x) (sleep_fn d w)
                end
              else call_loop fn n' (attempt + 1) (Some e) x w
            else (Escaped e, x, w)
        end
  end.

Definition call (fn : W -> pyres E A * W) (x : ResilientExecutor) (w : W) :
    call_result E A * ResilientExecutor * W :=
  call_loop fn (Z.to_nat (max_attempts (retry x))) 1 None x w.
End Calls.

(** ** Order statuses *)

Definition upper_char (c : ascii) : ascii :=
  let n := nat_of_ascii c in
  if (97 <=? n)%nat && (n <=? 122)%nat then ascii_of_nat (n - 32) else c.

Definition str_upper (s : string) : string := string_of_list_ascii (map upper_char (chars s)).

Record OrderStatus := MkOrderStatus { os_order_id : string; os_status : string; os_filled_qty : pyfloat }.

Definition TERMINAL : list string := ["FILLED"; "CANCELLED"; "REJECTED"; "EXPIRED"; "ERROR"]%string.

Definition is_terminal (o : OrderStatus) : bool := bool_decide (str_upper (os_status o) ∈ TERMINAL).

Definition is_filled (o : OrderStatus) : bool := bool_decide (str_upper (os_status o) = "FILLED"%string).

Definition split_terminal (l : list (string * OrderStatus)) :
    list (string * OrderStatus) * list (string * OrderStatus) :=
  (List.filter (fun p => is_terminal p.2) l, List.filter (fun p => negb (is_terminal p.2)) l).

(** ** Start-up check *)

Record QtyMismatch := MkQtyMismatch { qm_symbol : string; qm_local : pyfloat; qm_broker : pyfloat; qm_delta : pyfloat }.

Record ReconcileReport := MkReport {
  untracked_broker_orders : list string;
  missing_at_broker : list string;
  position_mismatches : list QtyMismatch;
  actions : list string
}.

Definition clean (r : ReconcileReport) : bool :=
  match untracked_broker_orders r, missing_at_broker r, position_mismatches r with
  | [], [], [] => true
  | _, _, _ => false
  end.

Definition float_str (x : pyfloat) : string := string_of_list_ascii (float_repr x).

Definition fqty (p : gmap string pyfloat) (s : string) : pyfloat := default fzero (p !! s).

Definition qty_mismatch (tol : pyfloat) (local broker : gmap string pyfloat) (s : string) : bool :=
  fltb tol (fabs (fsub (fqty local s) (fqty broker s))).

Definition startup_reconcile (tol : pyfloat) (local_ids broker_ids : list string)
    (local broker : gmap string pyfloat) : ReconcileReport :=
  let local_set : gset string := list_to_set local_ids in
  let broker_set : gset string := list_to_set broker_ids in
  let untracked := sorted_strings (broker_set ∖ local_set) in
  let missing := sorted_strings (local_set ∖ broker_set) in
  let syms := List.filter (qty_mismatch tol local broker) (sorted_strings (dom local ∪ dom broker)) in
  MkReport untracked missing
    (map (fun s => MkQtyMismatch s (fqty local s) (fqty broker s) (fsub (fqty broker s) (fqty local s))) syms)
    (map (fun o => "adopt-or-cancel untracked broker order " +:+ o) untracked ++
     map (fun o => "mark/resubmit local order " +:+ o +:+ " (not at broker)") missing ++
     map (fun s => "reconcile position " +:+ s +:+ ": local=" +:+ float_str (fqty local s) +:+
                   " broker=" +:+ float_str (fqty broker s) +:+ " (trust broker)") syms).

(** * Theorems on retries, the circuit breaker and the start-up check

    The breaker is studied over every history: calls of any broker function,
    readings of [state], and anything the rest of the program does to the world in
    between, as a step relation.  The history assumes what the constructor's
    default promises, that every failure is retryable; the last section shows what
    happens without it. *)
From Stdlib Require Import Sorted SpecFloat.

(** ** Histories *)

Section Histories.
Context `{FloatPow} {W E A : Type}.
Variables (time_fn : W -> pyfloat * W) (sleep_fn : pyfloat -> W -> W) (rand_fn : W -> pyfloat * W)
  (retryable : E -> bool).

#[local] Abbreviation call := (call (A:=A) time_fn sleep_fn rand_fn retryable).
#[local] Abbreviation call_loop := (call_loop (A:=A) time_fn sleep_fn rand_fn retryable).

(** One thing that happens: a call of the broker, a look at the state, a change of
    the world. *)
Inductive step : ResilientExecutor * W -> ResilientExecutor * W -> Prop :=
  | step_call (fn : W -> pyres E A * W) x w r x' w' : call fn x w = (r, x', w') -> step (x, w) (x', w')
  | step_state x w st b w' : state time_fn (breaker x) w = (st, b, w') -> step (x, w) (with_breaker b x, w')
  | step_world x w w' : step (x, w) (x, w').

(** What the breaker keeps between calls. *)
Record breaker_ok (b : CircuitBreaker) : Prop := {
  bk_half : cb_state b = HALF_OPEN -> half_open_calls b = 0;
  bk_open : cb_state b = OPEN -> is_Some (opened_at b);
  bk_failures : 0 <= failures b;
  bk_closed : cb_state b = CLOSED -> failures b = 0 \/ failures b < failure_threshold b
}.

(** The settings, which nothing changes. *)
Definition same_settings (b b' : CircuitBreaker) : Prop :=
  failure_threshold b' = failure_threshold b /\ reset_timeout b' = reset_timeout b /\
  half_open_max_calls b' = half_open_max_calls b.

Lemma maybe_half_open_ok b w :
  breaker_ok b -> breaker_ok (maybe_half_open time_fn b w).1 /\ same_settings b (maybe_half_open time_fn b w).1.
Proof.
  intros Hb. unfold maybe_half_open. destruct (cb_state b) eqn:Es; try done.
  destruct (opened_at b) as [t|]; [|done]. destruct (time_fn w) as [now w']. case_match; [|done].
  split; [|done]. split; cbn; [done|done|apply Hb|done].
Qed.

Lemma record_failure_ok b w :
  cb_state b <> OPEN -> 0 <= failures b ->
  breaker_ok (record_failure time_fn b w).1 /\ same_settings b (record_failure time_fn b w).1.
Proof.
  intros Ho Hf. unfold record_failure. cbn [cb_state failures failure_threshold set_breaker].
  destruct (cb_state b) eqn:Es; unfold trip; cbn; destruct (time_fn w) as [now w']; repeat case_match; bool_to_prop;
    
    (split; [split; cbn; intros; first [done|congruence|lia]|done]).
Qed.

Lemma record_failure_not_half b w : cb_state (record_failure time_fn b w).1 <> HALF_OPEN.
Proof.
  unfold record_failure. cbn [cb_state failures failure_threshold set_breaker].
  destruct (cb_state b) eqn:Es; unfold trip; cbn; destruct (time_fn w) as [now w']; by repeat case_match.
Qed.

Lemma record_success_ok b : breaker_ok (record_success b) /\ same_settings b (record_success b).
Proof. split; [|done]. split; cbn; try done. by left. Qed.

Lemma call_loop_ok fn n k le x w :
  (forall e, retryable e = true) -> breaker_ok (breaker x) ->
  let x' := (call_loop fn n k le x w).1.2 in
  breaker_ok (breaker x') /\ same_settings (breaker x) (breaker x') /\ retry x' = retry x.
Proof.
  intros Hr. revert k le x w. induction n as [|n IH]; intros k le x w Hb; [done|]. cbn [Resilience.call_loop].
  unfold allow. pose proof (maybe_half_open_ok (breaker x) w Hb) as [Hb1 Hs1].
  destruct (maybe_half_open time_fn (breaker x) w) as [b1 w1]. cbn [fst] in Hb1, Hs1.
  destruct (negb _) eqn:Ea; [done|]. set (b2 := record_attempt b1).
  assert (same_settings (breaker x) b2) as Hs2 by (unfold b2, record_attempt; by case_match).
  destruct (fn w1) as [[a|e] w2]; [split; [apply record_success_ok|done]|rewrite Hr]. cbn [breaker with_breaker count_attempt].
  assert (0 <= failures b2) as Hf by (unfold b2, record_attempt; case_match; apply Hb1).
  assert (cb_state b2 <> OPEN) as Ho.
  { unfold b2, record_attempt. destruct (cb_state b1) eqn:Es; cbn in *; intros ?; congruence. }
  destruct (record_failure_ok b2 w2 Ho Hf) as [Hb3 Hs3].
  destruct (record_failure time_fn b2 w2) as [b3 w3]. cbn [fst] in Hb3, Hs3.
  assert (same_settings (breaker x) b3) as Hs by (unfold same_settings in *; intuition congruence).
  assert (forall y w', breaker y = b3 -> retry y = retry x ->
    let x' := (call_loop fn n (k + 1) (Some e) y w').1.2 in
    breaker_ok (breaker x') /\ same_settings (breaker x) (breaker x') /\ retry x' = retry x) as Hy.
  { intros y w' Ey Er. destruct (IH (k + 1) (Some e) y w') as (H1 & H2 & H3); [by rewrite Ey|].
    rewrite Ey in H2. split_and!; [done| |by rewrite H3]. unfold same_settings in *. intuition congruence. }
  destruct (k <? _); [|by apply Hy]. destruct (rand_fn w3) as [r w4]. by destruct (delay _ _ _); [apply Hy|].
Qed.

Lemma step_ok x w x' w' :
  (forall e, retryable e = true) -> step (x, w) (x', w') -> breaker_ok (breaker x) ->
  breaker_ok (breaker x') /\ same_settings (breaker x) (breaker x') /\ retry x' = retry x.
Proof.
  intros Hr Hs Hb. inversion Hs; subst; [| |done].
  - pose proof (call_loop_ok fn (Z.to_nat (max_attempts (retry x))) 1 None x w Hr Hb) as Hc.
    unfold Resilience.call in *. by destruct (call_loop _ _ _ _ _ _) as [[? ?] ?]; simplify_eq.
  - unfold state in *. pose proof (maybe_half_open_ok (breaker x) w Hb) as [? ?].
    by destruct (maybe_half_open _ _ _); simplify_eq.
Qed.

Lemma history_ok x w x' w' :
  (forall e, retryable e = true) -> rtc step (x, w) (x', w') -> breaker_ok (breaker x) ->
  breaker_ok (breaker x') /\ same_settings (breaker x) (breaker x') /\ retry x' = retry x.
Proof.
  intros Hr. remember (x, w) as s eqn:Es. remember (x', w') as s' eqn:Es'. intros Hs. revert x w Es.
  induction Hs as [s|s [x1 w1] s' Hstep Hs IH]; intros x w ->; [by simplify_eq|]. intros Hb.
  destruct (step_ok _ _ _ _ Hr Hstep Hb) as (Hb1 & Hs1 & Hr1).
  destruct (IH Es' _ _ eq_refl Hb1) as (Hb2 & Hs2 & Hr2).
  unfold same_settings in *. split_and!; [done|intuition congruence..].
Qed.

Lemma new_breaker_ok n t m : breaker_ok (new_breaker n t m).
Proof. split; cbn; intros; try done. by left. Qed.

(** Enough time has gone since the circuit opened. *)
Definition cooled_down (b : CircuitBreaker) (w : W) : bool :=
  match opened_at b with
  | Some t => fleb (reset_timeout b) (fsub (time_fn w).1 t)
  | None => false
  end.

(** C22: the circuit recovers. Whatever calls failed before, with whatever answers of
    the broker, once the circuit is not open, or has been open for the reset
    timeout, the next call reaches the broker (if a call in half-open state and an
    attempt are allowed at all); if the broker answers, the call returns the
    answer, and the circuit is closed without recorded failures. *)
Theorem circuit_recovers p threshold timeout half_open_max w0 x w fn a w' :
  (forall e, retryable e = true) -> 1 <= half_open_max -> 1 <= max_attempts p ->
  rtc step (new_executor p (new_breaker threshold timeout half_open_max), w0) (x, w) ->
  cb_state (breaker x) <> OPEN \/ cooled_down (breaker x) w = true ->
  let w1 := (maybe_half_open time_fn (breaker x) w).2 in
  fn w1 = (Ok a, w') ->
  exists x', call fn x w = (Returned a, x', w') /\
    cb_state (breaker x') = CLOSED /\ failures (breaker x') = 0 /\ attempts_made x' = attempts_made x + 1.
Proof.
  intros Hr Hm Hp Hs Hc w1 Hf.
  destruct (history_ok _ _ _ _ Hr Hs (new_breaker_ok _ _ _)) as (Hb & (_ & _ & Eh) & Er). cbn in Eh, Er.
  unfold Resilience.call. rewrite Er. destruct (Z.to_nat (max_attempts p)) as [|n] eqn:En; [lia|].
  cbn [Resilience.call_loop]. unfold allow, w1 in *. unfold maybe_half_open, cooled_down in *.
  destruct (cb_state (breaker x)) eqn:Es.
  - rewrite Es. cbn. cbn in Hf. rewrite Hf. by eexists.
  - destruct (opened_at (breaker x)) as [t|]; [|by destruct Hc]. destruct Hc as [Hc|Hc]; [done|].
    destruct (time_fn w) as [now w2]. cbn in Hc, Hf. rewrite Hc in *. cbn in *. rewrite Eh.
    destruct (Z.ltb_spec 0 half_open_max); [|lia]. cbn. rewrite Hf. by eexists.
  - rewrite Es. cbn [fst snd] in *. rewrite (bk_half _ Hb Es), Eh. destruct (Z.ltb_spec 0 half_open_max); [|lia].
    cbn. rewrite Hf. by eexists.
Qed.

(** The circuit spares the broker. Whatever happened before, fewer failures than
    the threshold are on record while the circuit is closed (none, if the threshold
    is not positive), and while it is open and the reset timeout has not passed a
    call is refused at once: the broker is not called, no attempt is counted, and
    the world changes only by the reading of the clock. *)
Theorem circuit_spares_broker p threshold timeout half_open_max w0 x w fn :
  (forall e, retryable e = true) -> 1 <= max_attempts p ->
  rtc step (new_executor p (new_breaker threshold timeout half_open_max), w0) (x, w) ->
  (cb_state (breaker x) = CLOSED -> 0 <= failures (breaker x) <= Z.max 0 (threshold - 1)) /\
  (cb_state (breaker x) = OPEN -> cooled_down (breaker x) w = false ->
   call fn x w = (CircuitOpenError, x, (time_fn w).2)).
Proof.
  intros Hr Hp Hs. destruct (history_ok _ _ _ _ Hr Hs (new_breaker_ok _ _ _)) as (Hb & (Et & _) & Er).
  cbn in Et, Er. split.
  - intros Ec. pose proof (bk_failures _ Hb). pose proof (bk_closed _ Hb Ec). lia.
  - intros Eo Hc. destruct (bk_open _ Hb Eo) as [t Ht]. unfold Resilience.call. rewrite Er.
    destruct (Z.to_nat (max_attempts p)) as [|n] eqn:En; [lia|].
    cbn [Resilience.call_loop]. unfold allow, maybe_half_open, cooled_down in *. rewrite Eo, Ht in *.
    destruct (time_fn w) as [now w2]. cbn in Hc |- *. rewrite Hc, Eo. cbn. by destruct x.
Qed.
End Histories.

(** ** Retries without a breaker *)

Section PlainRetry.
Context `{FloatPow} {W E A : Type}.
Variables (time_fn : W -> pyfloat * W) (sleep_fn : pyfloat -> W -> W) (rand_fn : W -> pyfloat * W)
  (retryable : E -> bool).

(** The reference: try, and on a retryable failure sleep and try again. *)
Fixpoint plain_retry (p : RetryPolicy) (fn : W -> pyres E A * W) (n : nat) (attempt : Z)
    (last_exc : option E) (slept : list pyfloat) (w : W) : call_result E A * list pyfloat * W :=
  match n with
  | O => (MaxRetriesExceeded last_exc, slept, w)
  | S n' =>
      match fn w with
      | (Ok a, w) => (Returned a, slept, w)
      | (Raise e, w) =>
          if retryable e then
            if attempt <? max_attempts p then
              let '(r, w) := rand_fn w in
              match delay p attempt r with
              | None => (DelayOverflow, slept, w)
              | Some d => plain_retry p fn n' (attempt + 1) (Some e) (slept ++ [d]) (sleep_fn d w)
              end
            else plain_retry p fn n' (attempt + 1) (Some e) slept w
          else (Escaped e, slept, w)
      end
  end.

Lemma record_failure_closed b w :
  cb_state b = CLOSED -> failures b + 1 < failure_threshold b ->
  record_failure time_fn b w = (set_breaker CLOSED (failures b + 1) (opened_at b) (half_open_calls b) b, w).
Proof.
  intros Hc Hf. unfold record_failure. cbn. rewrite Hc. by destruct (Z.leb_spec (failure_threshold b) (failures b + 1)); [lia|].
Qed.

Lemma call_loop_plain fn n k le x w :
  cb_state (breaker x) = CLOSED -> failures (breaker x) + Z.of_nat n < failure_threshold (breaker x) ->
  let '(r, x', w') := call_loop time_fn sleep_fn rand_fn retryable fn n k le x w in
  plain_retry (retry x) fn n k le (sleeps x) w = (r, sleeps x', w') /\ cb_state (breaker x') = CLOSED.
Proof.
  revert k le x w. induction n as [|n IH]; intros k le x w Hc Hf; [done|].
  cbn [call_loop plain_retry]. unfold allow, maybe_half_open. rewrite Hc, Hc. cbn [negb].
  destruct (fn w) as [[a|e] w1]; [done|].
  assert (record_attempt (breaker x) = breaker x) as -> by (unfold record_attempt; by rewrite Hc).
  cbn [breaker with_breaker count_attempt].
  destruct (retryable e); [|done].
  rewrite record_failure_closed by (done || lia). cbn [retry with_breaker count_attempt].
  destruct (k <? _).
  - destruct (rand_fn w1) as [r w2]. destruct (delay _ _ _) as [d|]; [|done].
    by apply (IH _ _ (log_sleep _ (with_breaker _ (count_attempt (with_breaker _ (with_breaker _ x)))))); cbn; [|lia].
  - by apply (IH _ _ (with_breaker _ (count_attempt (with_breaker _ (with_breaker _ x))))); cbn; [|lia].
Qed.

(** Away from its threshold the breaker is invisible. With the circuit closed and
    too few failures on record for one call to trip it, a call gives the result,
    the delays and the final world of a plain loop of retries, whatever exceptions
    are retryable, and leaves the circuit closed. *)
Theorem closed_circuit_is_plain_retry fn x w :
  cb_state (breaker x) = CLOSED ->
  failures (breaker x) + Z.max 0 (max_attempts (retry x)) < failure_threshold (breaker x) ->
  let '(r, x', w') := call time_fn sleep_fn rand_fn retryable fn x w in
  plain_retry (retry x) fn (Z.to_nat (max_attempts (retry x))) 1 None (sleeps x) w = (r, sleeps x', w') /\
  cb_state (breaker x') = CLOSED.
Proof. intros Hc Hf. apply call_loop_plain; [done|lia]. Qed.

(** A failure that is not retryable leaves the half-open state without a verdict:
    with no half-open call left, every later call is refused, at any time. *)
Theorem half_open_sticks fn x w :
  cb_state (breaker x) = HALF_OPEN -> half_open_max_calls (breaker x) <= half_open_calls (breaker x) ->
  1 <= max_attempts (retry x) ->
  call (A:=A) time_fn sleep_fn rand_fn retryable fn x w = (CircuitOpenError, x, w).
Proof.
  intros Hs Hc Hp. unfold call. destruct (Z.to_nat _) as [|n] eqn:En; [lia|]. cbn [call_loop].
  unfold allow, maybe_half_open. rewrite Hs, Hs. destruct (Z.ltb_spec (half_open_calls (breaker x)) (half_open_max_calls (breaker x))); [lia|].
  cbn. by destruct x.
Qed.
End PlainRetry.

(** ** Start-up check *)

Lemma clean_spec r :
  clean r = true <-> untracked_broker_orders r = [] /\ missing_at_broker r = [] /\ position_mismatches r = [].
Proof.
  unfold clean. destruct (untracked_broker_orders r), (missing_at_broker r), (position_mismatches r);
    split; intros; by destruct_and?.
Qed.

Lemma no_element (l : list string) : l = [] <-> forall s, s ∉ l.
Proof.
  split; [intros -> s; apply not_elem_of_nil|]. destruct l as [|x l]; [done|]. intros Hs. destruct (Hs x). by left.
Qed.

(** What the start-up check reports. In ascending order and without repetition:
    the orders only the broker knows, the orders only the agent knows, and one
    mismatch for each symbol of either side whose quantities differ by more than
    the tolerance, with both quantities and their difference; one action for each.
    The report is clean exactly when the same orders are open on both sides and no
    such symbol exists. *)
Theorem startup_reconcile_correct tol lids bids local broker :
  let r := startup_reconcile tol lids bids local broker in
  let differs s := (s ∈ dom local ∪ dom broker) /\ qty_mismatch tol local broker s = true in
  let ascending := Sorted (fun a b => String.leb a b = true) in
  (forall o, o ∈ untracked_broker_orders r <-> o ∈ bids /\ (o ∉ lids)) /\
  (forall o, o ∈ missing_at_broker r <-> o ∈ lids /\ (o ∉ bids)) /\
  (forall s, s ∈ map qm_symbol (position_mismatches r) <-> differs s) /\
  ascending (untracked_broker_orders r) /\ ascending (missing_at_broker r) /\
  NoDup (untracked_broker_orders r ++ missing_at_broker r) /\ NoDup (map qm_symbol (position_mismatches r)) /\
  List.length (actions r) = (List.length (untracked_broker_orders r) + List.length (missing_at_broker r) +
    List.length (position_mismatches r))%nat /\
  (clean r = true <-> (forall o, o ∈ lids <-> o ∈ bids) /\ forall s, ~ differs s).
Proof.
  intros r differs ascending.
  assert (forall o, o ∈ untracked_broker_orders r <-> o ∈ bids /\ (o ∉ lids)) as Hu
    by (intros o; cbn; rewrite elem_sorted_strings; set_solver).
  assert (forall o, o ∈ missing_at_broker r <-> o ∈ lids /\ (o ∉ bids)) as Hm
    by (intros o; cbn; rewrite elem_sorted_strings; set_solver).
  assert (map qm_symbol (position_mismatches r) =
    List.filter (qty_mismatch tol local broker) (sorted_strings (dom local ∪ dom broker))) as Es
    by (cbn; rewrite map_map; apply map_id).
  assert (forall s, s ∈ map qm_symbol (position_mismatches r) <-> differs s) as Hs.
  { intros s. rewrite Es, list_elem_of_In, filter_In, <- list_elem_of_In, elem_sorted_strings. done. }
  split_and!; [done|done|done|apply sorted_strings_sorted|apply sorted_strings_sorted| | | |].
  - apply NoDup_app. split_and!; [apply NoDup_sorted_strings| |apply NoDup_sorted_strings].
    intros o Ho Ho'. apply Hu in Ho as [? ?]. by apply Hm in Ho' as [? ?].
  - rewrite Es. apply NoDup_ListNoDup, List.NoDup_filter, NoDup_ListNoDup, NoDup_sorted_strings.
  - cbn. rewrite !length_app, !length_map. lia.
  - rewrite clean_spec, !no_element. assert (position_mismatches r = [] <-> forall s, ~ differs s) as ->.
    { setoid_rewrite <- Hs. rewrite <- no_element. by destruct (position_mismatches r). }
    setoid_rewrite Hu. setoid_rewrite Hm. split.
    + intros (H1 & H2 & H3). split; [|done]. intros o. split; intros Ho.
      * destruct (decide (o ∈ bids)); [done|by destruct (H2 o)].
      * destruct (decide (o ∈ lids)); [done|by destruct (H1 o)].
    + intros [H1 H2]. split_and!; [intros o [? Hn]; by apply Hn, H1..|done].
Qed.

(** A position that is not a number never differs: the check is clean. *)
Theorem nan_position_is_clean :
  clean (startup_reconcile (float_of_dec (Dec 1 (-6))) [] [] {["AAPL" := float_of_int 100]}
    {["AAPL" := S754_nan]})%string = true.
Proof. vm_compute. reflexivity. Qed.

(** ** Concrete runs *)

(** A world that is a clock in seconds; sleeping takes one. *)
Definition tick_clock (w : Z) : pyfloat * Z := (float_of_int w, w).
Definition tick_sleep (d : pyfloat) (w : Z) : Z := w + 1.
Definition tick_rand (w : Z) : pyfloat * Z := (fzero, w).

#[local] Instance repeated_product : FloatPow :=
  fun x n => Some (Z.iter n (fmul x) fone).

Definition two_tries : RetryPolicy := MkRetry 2 (float_of_dec (Dec 5 (-1))) (float_of_int 30) ftwo fzero.
Definition quick_breaker : CircuitBreaker := new_breaker 2 (float_of_int 10) 1.

Definition down (w : Z) : pyres string Z * Z := (Raise "down"%string, w).
Definition up (w : Z) : pyres string Z * Z := (Ok 7, w).
Definition broken (w : Z) : pyres string Z * Z := (Raise "interrupt"%string, w).

Definition run_call (retryable : string -> bool) (fn : Z -> pyres string Z * Z) (x : ResilientExecutor) (w : Z) :
    call_result string Z * ResilientExecutor * Z :=
  call tick_clock tick_sleep tick_rand retryable fn x w.

Definition tripped : ResilientExecutor * Z :=
  let '(_, x, w) := run_call (fun _ => true) down (new_executor two_tries quick_breaker) 100 in (x, w).

(** With an exception outside [retryable] in the half-open state the executor never
    reaches the broker again. *)
Theorem non_retryable_sticks :
  let retry_down e := bool_decide (e = "down"%string) in
  let '(_, x, w) := run_call retry_down broken tripped.1 (tripped.2 + 20) in
  forall fn w', run_call retry_down fn x w' = (CircuitOpenError, x, w').
Proof.
  intros retry_down. destruct (run_call retry_down broken tripped.1 (tripped.2 + 20)) as [[r x] w] eqn:E.
  vm_compute in E. injection E as <- <- <-. intros fn w'. apply half_open_sticks; done.
Qed.

Lemma tripped_reached :
  rtc (step (E:=string) (A:=Z) tick_clock tick_sleep tick_rand (fun _ => true))
    (new_executor two_tries quick_breaker, 100) tripped.
Proof.
  apply rtc_once. apply (step_call _ _ _ _ down _ _ (MaxRetriesExceeded (Some "down"%string))).
  vm_compute. reflexivity.
Qed.

Lemma circuit_recovers_witness :
  exists x', run_call (fun _ => true) up tripped.1 (tripped.2 + 20) = (Returned 7, x', 121) /\
    cb_state (breaker x') = CLOSED.
Proof.
  destruct (circuit_recovers tick_clock tick_sleep tick_rand (fun _ : string => true) two_tries 2 (float_of_int 10) 1
    100 tripped.1 (tripped.2 + 20) up 7 121) as (x' & Hc & Hs & _).
  - done.
  - lia.
  - vm_compute. discriminate.
  - eapply rtc_r; [exact tripped_reached|apply step_world].
  - right. vm_compute. reflexivity.
  - vm_compute. reflexivity.
  - by exists x'.
Defined.

Lemma circuit_spares_broker_witness :
  run_call (fun _ => true) up tripped.1 tripped.2 = (CircuitOpenError, tripped.1, tripped.2).
Proof.
  destruct (circuit_spares_broker tick_clock tick_sleep tick_rand (fun _ : string => true) two_tries 2
    (float_of_int 10) 1 100 tripped.1 tripped.2 up) as [_ Hc].
  - done.
  - vm_compute. discriminate.
  - exact tripped_reached.
  - apply Hc; vm_compute; reflexivity.
Defined.

Lemma closed_circuit_is_plain_retry_witness :
  let x := new_executor two_tries (new_breaker 3 (float_of_int 10) 1) in
  (run_call (fun _ => true) down x 100).1.1 =
  (plain_retry tick_sleep tick_rand (fun _ => true) two_tries down 2 1 None [] 100).1.1.
Proof.
  intros x. pose proof (closed_circuit_is_plain_retry tick_clock tick_sleep tick_rand (fun _ : string => true) down x 100
    eq_refl ltac:(vm_compute; reflexivity)) as Hp. unfold run_call.
  destruct (call _ _ _ _ _ _ _) as [[r x'] w']. destruct Hp as [Hp _].
  change (plain_retry tick_sleep tick_rand (fun _ => true) two_tries down 2 1 None [] 100 = (r, sleeps x', w')) in Hp.
  by rewrite Hp.
Defined.
