(* ===== verification/Ledger.v ===== *)
(** * P&L ledger: [packages/agent/accounting/pnl_ledger.py]

    The books are written over an interface of money ([Money]): the code's instance
    is decimals at the precision of the running thread, the instance on the
    rationals is the arithmetic the accounting identity is stated in.  [Core] is
    the state in memory, [Ledger] adds the database: the rows of [fills], [marks]
    and [nav_snapshots] in insertion order, with the texts the code writes. *)
From Stdlib Require Import Ascii String QArith Qabs.
From S2P Require Import Prelude PyDecimal DecArith PyFormat PyFloat PyValue PyText RiskChecker.
Open Scope Z_scope.
Open Scope list_scope.

(** ** Money *)

Class Money (A : Type) := {
  mzero : A;
  madd : A -> A -> A;
  msub : A -> A -> A;
  mmul : A -> A -> A;
  mdiv : A -> A -> A;
  mneg : A -> A;
  mabs : A -> A;
  mltb : A -> A -> bool;
  meqb : A -> A -> bool
}.

(** Decimals in a context; the code divides only by tested nonzero values. *)
#[export] Instance dec_money `{DecContext} : Money dec := {|
  mzero := dzero; madd := dadd; msub := dsub; mmul := dmul;
  mdiv a b := default dzero (ddiv a b);
  mneg := dneg; mabs := dabs; mltb := dltb; meqb := deqb
|}.

(** Exact arithmetic. *)
#[export] Instance Q_money : Money Q := {|
  mzero := 0%Q; madd := Qplus; msub := Qminus; mmul := Qmult; mdiv := Qdiv;
  mneg := Qopp; mabs := Qabs; mltb a b := negb (Qle_bool b a); meqb := Qeq_bool
|}.

(** [getcontext().prec = 34], for the thread that imports the module. *)
Definition ledger_context : DecContext := 34.

Inductive Method := Average | Fifo.

Section Books.
Context {A : Type} `{Money A}.

(** [min(a, b)], [max(a, b)] and [sum(l, Decimal("0"))]. *)
Definition mmin (a b : A) : A := if mltb b a then b else a.
Definition mmax (a b : A) : A := if mltb a b then b else a.
Definition msum (l : list A) : A := fold_left madd l mzero.
Definition mpos (a : A) : bool := mltb mzero a.
Definition mzerob (a : A) : bool := meqb a mzero.

(** ** Data *)

Record Fill := MkFill {
  f_symbol : string;
  f_side : string;
  f_quantity : A;
  f_price : A;
  f_fee : A;
  f_ts : datetime;
  f_client_order_id : option string;
  f_broker_order_id : option string
}.

Definition signed_qty (f : Fill) : A :=
  if bool_decide (f_side f = "buy"%string) then f_quantity f else mneg (f_quantity f).

Record Lot := MkLot { lot_qty : A; lot_price : A }.

Record LedgerPosition := MkPos {
  lp_quantity : A;
  avg_cost : A;
  lp_realized : A;
  lp_fees : A;
  lp_financing : A;
  lp_mark : A;
  lots : list Lot
}.

(** [LedgerPosition(symbol=..., mark=...)] *)
Definition new_position (mark : A) : LedgerPosition := MkPos mzero mzero mzero mzero mzero mark [].

Definition lp_market_value (p : LedgerPosition) : A := mmul (lp_quantity p) (lp_mark p).

Definition lp_unrealized (p : LedgerPosition) : A :=
  if mzerob (lp_quantity p) then mzero else mmul (msub (lp_mark p) (avg_cost p)) (lp_quantity p).

Definition set_inventory (q c : A) (l : list Lot) (p : LedgerPosition) : LedgerPosition :=
  MkPos q c (lp_realized p) (lp_fees p) (lp_financing p) (lp_mark p) l.

Definition set_mark (m : A) (p : LedgerPosition) : LedgerPosition :=
  MkPos (lp_quantity p) (avg_cost p) (lp_realized p) (lp_fees p) (lp_financing p) m (lots p).

Definition book_costs (realized fee : A) (p : LedgerPosition) : LedgerPosition :=
  MkPos (lp_quantity p) (avg_cost p) (madd (lp_realized p) realized) (madd (lp_fees p) fee)
    (lp_financing p) (lp_mark p) (lots p).

Definition add_financing (amt : A) (p : LedgerPosition) : LedgerPosition :=
  MkPos (lp_quantity p) (avg_cost p) (lp_realized p) (lp_fees p) (madd (lp_financing p) amt)
    (lp_mark p) (lots p).

(** ** Inventory *)

(** [_apply_average]: the position afterwards and the realized P&L. *)
Definition apply_average (p : LedgerPosition) (f : Fill) : LedgerPosition * A :=
  let signed := signed_qty f in
  let prev := lp_quantity p in
  if mzerob prev || eqb (mpos prev) (mpos signed) then
    let new_qty := madd prev signed in
    let c := if mzerob new_qty then avg_cost p
             else mdiv (madd (mmul (avg_cost p) (mabs prev)) (mmul (f_price f) (mabs signed)))
                    (mabs new_qty) in
    (set_inventory new_qty c (lots p) p, mzero)
  else
    let closing := mmin (mabs signed) (mabs prev) in
    let realized := if mpos prev then mmul (msub (f_price f) (avg_cost p)) closing
                    else mmul (msub (avg_cost p) (f_price f)) closing in
    let new_qty := madd prev signed in
    let c := if negb (eqb (mpos prev) (mpos new_qty)) && negb (mzerob new_qty) then f_price f
             else if mzerob new_qty then mzero else avg_cost p in
    (set_inventory new_qty c (lots p) p, realized).

(** The condition of the loop that closes opposing lots. *)
Definition closes (l : list Lot) (remaining : A) : bool :=
  match l with
  | [] => false
  | x :: _ => negb (mzerob remaining) && negb (eqb (mpos (lot_qty x)) (mpos remaining))
  end.

Fixpoint close_lots (fuel : nat) (price : A) (l : list Lot) (remaining realized : A) :
    list Lot * A * A :=
  match fuel, l with
  | S n, x :: rest =>
      if closes l remaining then
        let close := mmin (mabs remaining) (mabs (lot_qty x)) in
        let long := mpos (lot_qty x) in
        let gain := if long then mmul (msub price (lot_price x)) close
                    else mmul (msub (lot_price x) price) close in
        let q := if long then msub (lot_qty x) close else msub (lot_qty x) (mneg close) in
        let remaining' := if mltb remaining mzero then msub remaining (mneg close)
                          else msub remaining close in
        let l' := if mzerob q then rest else MkLot q (lot_price x) :: rest in
        close_lots n price l' remaining' (madd realized gain)
      else (l, remaining, realized)
  | _, _ => (l, remaining, realized)
  end.

(** [_apply_fifo]; [close_lots_done] shows that the rounds are enough. *)
Definition apply_fifo (p : LedgerPosition) (f : Fill) : LedgerPosition * A :=
  let '(l, remaining, realized) :=
    close_lots (S (List.length (lots p))) (f_price f) (lots p) (signed_qty f) mzero in
  let l := if mzerob remaining then l else l ++ [MkLot remaining (f_price f)] in
  let tot := msum (map (fun x => mabs (lot_qty x)) l) in
  let c := if mzerob tot then mzero
           else mdiv (msum (map (fun x => mmul (mabs (lot_qty x)) (lot_price x)) l)) tot in
  (set_inventory (msum (map lot_qty l)) c l p, realized).

Definition apply_inventory (m : Method) (p : LedgerPosition) (f : Fill) : LedgerPosition * A :=
  match m with Fifo => apply_fifo p f | Average => apply_average p f end.

(** ** The state in memory *)

Record Core := MkCore {
  starting_cash : A;
  cash : A;
  positions : list (string * LedgerPosition);
  realized_cum : A;
  fees_cum : A;
  financing_cum : A;
  fill_seq : Z;
  last_close_nav : A;
  day_realized : A;
  day_fees : A
}.

Definition new_core (start : A) : Core :=
  MkCore start start [] mzero mzero mzero 0 start mzero mzero.

Definition set_positions (d : list (string * LedgerPosition)) (c : Core) : Core :=
  MkCore (starting_cash c) (cash c) d (realized_cum c) (fees_cum c) (financing_cum c) (fill_seq c)
    (last_close_nav c) (day_realized c) (day_fees c).

(** [self._positions.setdefault(symbol, ...)] *)
Definition position_or (mark : A) (sym : string) (c : Core) : LedgerPosition :=
  default (new_position mark) (dget (positions c) sym).

(** [_apply_fill] in memory: the ledger and the realized P&L of the fill. *)
Definition book_fill (m : Method) (f : Fill) (c : Core) : Core * A :=
  let p := position_or (f_price f) (f_symbol f) c in
  let '(p, realized) := apply_inventory m p f in
  let p := book_costs realized (f_fee f) p in
  let p := if mzerob (lp_mark p) then set_mark (f_price f) p else p in
  (MkCore (starting_cash c)
     (msub (msub (cash c) (mmul (signed_qty f) (f_price f))) (f_fee f))
     (dset (positions c) (f_symbol f) p)
     (madd (realized_cum c) realized) (madd (fees_cum c) (f_fee f)) (financing_cum c) (fill_seq c + 1)
     (last_close_nav c) (madd (day_realized c) realized) (madd (day_fees c) (f_fee f)), realized).

Definition mark_core (sym : string) (price : A) (c : Core) : Core :=
  set_positions (dset (positions c) sym (set_mark price (position_or mzero sym c))) c.

Definition accrue_core (sym : string) (amt : A) (c : Core) : Core :=
  MkCore (starting_cash c) (msub (cash c) amt)
    (dset (positions c) sym (add_financing amt (position_or mzero sym c)))
    (realized_cum c) (fees_cum c) (madd (financing_cum c) amt) (fill_seq c)
    (last_close_nav c) (day_realized c) (day_fees c).

(** ** Aggregates *)

Definition unrealized_pnl (c : Core) : A := msum (map (fun x => lp_unrealized x.2) (positions c)).
Definition market_value (c : Core) : A := msum (map (fun x => lp_market_value x.2) (positions c)).
Definition equity (c : Core) : A := madd (cash c) (market_value c).
Definition gross_exposure (c : Core) : A :=
  msum (map (fun x => mabs (lp_market_value x.2)) (positions c)).
Definition net_exposure (c : Core) : A := market_value c.
Definition day_pnl (c : Core) : A := msub (equity c) (last_close_nav c).

Definition position (sym : string) (c : Core) : option LedgerPosition := dget (positions c) sym.

Definition open_positions (c : Core) : list (string * LedgerPosition) :=
  List.filter (fun x => negb (mzerob (lp_quantity x.2))) (positions c).

(** The method [positions]. *)
Definition listed_positions (c : Core) : list (string * LedgerPosition) :=
  List.filter (fun x => negb (mzerob (lp_quantity x.2)) || negb (mzerob (lp_realized x.2))) (positions c).

(** Rolling the day. *)
Definition roll_day (c : Core) : Core :=
  MkCore (starting_cash c) (cash c) (positions c) (realized_cum c) (fees_cum c) (financing_cum c)
    (fill_seq c) (equity c) mzero mzero.
End Books.

Arguments Fill : clear implicits.
Arguments Lot : clear implicits.
Arguments LedgerPosition : clear implicits.
Arguments Core : clear implicits.

(** ** The ledger with its database *)

(** [_d(value)]: what is not a number is zero. *)
Definition d_ (v : pyval) : dec := default dzero (dec_of_val v).

(** A quantity read back from its text. *)
Lemma d_dec_str q : d_ (VStr (dec_str q)) = q.
Proof. unfold d_. cbn. by rewrite dec_of_dec_str. Qed.

Record NavSnapshot := MkNav {
  ns_ts : string;
  nav : pyfloat;
  ns_cash : pyfloat;
  ns_realized : pyfloat;
  ns_unrealized : pyfloat;
  ns_fees : pyfloat;
  ns_financing : pyfloat;
  ns_day_pnl : pyfloat;
  ns_gross : pyfloat;
  ns_net : pyfloat;
  n_positions : Z;
  label : string
}.

Record FillRow := MkFillRow {
  fr_ts : string; fr_symbol : string; fr_side : string;
  fr_quantity : string; fr_price : string; fr_fee : string;
  fr_client_order_id : option string; fr_broker_order_id : option string
}.

(** The tables; a snapshot's JSON text holds the snapshot. *)
Record Db := MkDb {
  db_fills : list FillRow;
  db_marks : list (string * string);
  db_snapshots : list NavSnapshot;
  db_start : string
}.

Record Ledger := MkLedger {
  l_method : Method;
  l_core : Core dec;
  l_db : option Db;
  l_snapshots : list NavSnapshot
}.

Inductive LedgerError := BadSide | BadQuantity.

Section LedgerOps.
Context `{DecContext}.

Definition with_core (c : Core dec) (l : Ledger) : Ledger :=
  MkLedger (l_method l) c (l_db l) (l_snapshots l).

Definition fill_row (f : Fill dec) : FillRow :=
  MkFillRow (iso (f_ts f)) (f_symbol f) (f_side f) (dec_str (f_quantity f)) (dec_str (f_price f))
    (dec_str (f_fee f)) (f_client_order_id f) (f_broker_order_id f).

(** A row read back; the time is that of the reading. *)
Definition row_fill (now : Z) (r : FillRow) : Fill dec :=
  MkFill (fr_symbol r) (fr_side r) (d_ (VStr (fr_quantity r))) (d_ (VStr (fr_price r)))
    (d_ (VStr (fr_fee r))) (Utc now) (fr_client_order_id r) (fr_broker_order_id r).

Definition store_fill (f : Fill dec) (d : Db) : Db :=
  MkDb (db_fills d ++ [fill_row f]) (db_marks d) (db_snapshots d) (db_start d).

Definition store_mark (sym : string) (price : dec) (d : Db) : Db :=
  MkDb (db_fills d) (dset (db_marks d) sym (dec_str price)) (db_snapshots d) (db_start d).

Definition store_snapshot (s : NavSnapshot) (d : Db) : Db :=
  MkDb (db_fills d) (db_marks d) (db_snapshots d ++ [s]) (db_start d).

(** [_apply_fill(f, persist=True)] *)
Definition apply_fill (f : Fill dec) (l : Ledger) : Ledger * dec :=
  let '(c, realized) := book_fill (l_method l) f (l_core l) in
  (MkLedger (l_method l) c (store_fill f <$> l_db l) (l_snapshots l), realized).

Definition on_fill (now : Z) (symbol side : string) (quantity price fee : pyval) (ts : option datetime)
    (coid boid : option string) (l : Ledger) : pyres LedgerError (Ledger * dec) :=
  let side := str_lower side in
  if negb (bool_decide (side = "buy" \/ side = "sell")%string) then Raise BadSide
  else
    let qty := d_ quantity in
    if dleb qty dzero then Raise BadQuantity
    else Ok (apply_fill (MkFill symbol side qty (d_ price) (d_ fee) (default (Utc now) ts) coid boid) l).

Definition mark (symbol : string) (price : pyval) (l : Ledger) : Ledger :=
  MkLedger (l_method l) (mark_core symbol (d_ price) (l_core l))
    (store_mark symbol (d_ price) <$> l_db l) (l_snapshots l).

Definition mark_prices (prices : list (string * pyval)) (l : Ledger) : Ledger :=
  fold_left (fun l p => mark p.1 p.2 l) prices l.

Definition accrue_financing (symbol : string) (amount : pyval) (l : Ledger) : Ledger :=
  with_core (accrue_core symbol (d_ amount) (l_core l)) l.

Definition nav_snapshot (ts : string) (lbl : string) (c : Core dec) : NavSnapshot :=
  MkNav ts (float_of_dec (equity c)) (float_of_dec (cash c)) (float_of_dec (realized_cum c))
    (float_of_dec (unrealized_pnl c)) (float_of_dec (fees_cum c)) (float_of_dec (financing_cum c))
    (float_of_dec (day_pnl c)) (float_of_dec (gross_exposure c)) (float_of_dec (net_exposure c))
    (Z.of_nat (List.length (open_positions c))) lbl.

Definition eod_close (now : Z) (ts : option datetime) (lbl : string) (l : Ledger) : Ledger * NavSnapshot :=
  let s := nav_snapshot (iso (default (Utc now) ts)) lbl (l_core l) in
  (MkLedger (l_method l) (roll_day (l_core l)) (store_snapshot s <$> l_db l) (l_snapshots l ++ [s]), s).

Definition nav_history (l : Ledger) : list NavSnapshot :=
  match l_db l with Some d => db_snapshots d | None => l_snapshots l end.

(** *** Recovery *)

Definition replay_fill (now : Z) (m : Method) (c : Core dec) (r : FillRow) : Core dec :=
  (book_fill m (row_fill now r) c).1.

Definition restore_mark (c : Core dec) (x : string * string) : Core dec :=
  mark_core x.1 (d_ (VStr x.2)) c.

Definition restore_day (d : Db) (c : Core dec) : Core dec :=
  match List.last (map Some (db_snapshots d)) None with
  | Some s =>
      MkCore (starting_cash c) (cash c) (positions c) (realized_cum c) (fees_cum c) (financing_cum c)
        (fill_seq c) (d_ (VFloat (nav s))) dzero dzero
  | None => c
  end.

(** The fields the constructor sets: the baseline of the day is its own argument,
    the starting cash that of the database. *)
Definition initial_core (start stored : dec) : Core dec :=
  MkCore stored stored [] dzero dzero dzero 0 start dzero dzero.

Definition recover (now : Z) (m : Method) (start : dec) (d : Db) : Core dec :=
  let c := initial_core start (d_ (VStr (db_start d))) in
  let c := fold_left (replay_fill now m) (db_fills d) c in
  let c := fold_left restore_mark (db_marks d) c in
  restore_day d c.

(** The constructor on an existing database, a new one, or none. *)
Definition reopen (now : Z) (m : Method) (start : pyval) (d : Db) : Ledger :=
  MkLedger m (recover now m (d_ start) d) (Some d) [].

Definition create (m : Method) (start : pyval) : Ledger :=
  MkLedger m (new_core (d_ start)) (Some (MkDb [] [] [] (dec_str (d_ start)))) [].

Definition in_memory (m : Method) (start : pyval) : Ledger :=
  MkLedger m (new_core (d_ start)) None [].

(** *** Views *)

Definition to_portfolio_state (c : Core dec) : PortfolioState :=
  let eq := equity c in
  MkPortfolio eq eq dzero eq
    (map (fun x => (x.1, lp_quantity x.2)) (open_positions c))
    (map (fun x => (x.1, lp_market_value x.2)) (open_positions c))
    (gross_exposure c) (net_exposure c) (day_pnl c) (dmax eq (last_close_nav c)) 0 0.

(** *** The bridge from the fill handler *)

(** [str(payload.get(k) or "")] for a text. *)
Definition text_or_empty (payload : dict) (k : string) : string := default "" (get_str payload k).

(** [ledger_fill_callback]: [seen] holds the cumulative quantity per order; [symbol],
    [side] and the order ids are texts.  [on_fill] cannot raise here: side and
    quantity have been tested. *)
Definition fill_callback (now : Z) (payload : dict) (l : Ledger) (seen : list (string * dec)) :
    Ledger * list (string * dec) :=
  let coid := text_or_empty payload "client_order_id" in
  let symbol := text_or_empty payload "symbol" in
  let side := text_or_empty payload "side" in
  if bool_decide (symbol = ""%string) || negb (bool_decide (side = "buy" \/ side = "sell")%string)
  then (l, seen)
  else
    let price := default VNone (dget payload "avg_fill_price"%string) in
    if bool_decide (price ∈ [VNone; VStr ""; VStr "None"]) then (l, seen)
    else
      let '(qty, seen) :=
        match default VNone (dget payload "fill_increment"%string) with
        | VNone =>
            let cum := d_ (default VNone (dget payload "filled_qty"%string)) in
            (dsub cum (default dzero (dget seen coid)), dset seen coid cum)
        | inc => (d_ inc, seen)
        end in
      if dleb qty dzero then (l, seen)
      else
        match on_fill now symbol side (VDec qty) price (VInt 0) None
                (if bool_decide (coid = ""%string) then None else Some coid)
                (get_str payload "broker_order_id") l with
        | Ok (l, _) => (l, seen)
        | Raise _ => (l, seen)
        end.
End LedgerOps.
