(* ===== verification/LedgerProps.v ===== *)
(** * Theorems on the P&L ledger

    The loop over FIFO lots ends; the accounting identity holds in exact
    arithmetic, for both methods and every history; a restart rebuilds the books
    to the digit, except for what the code does not store. *)
From Stdlib Require Import String QArith Qabs Lqa.
From S2P Require Import Prelude PyDecimal DecArith PyFormat PyFloat PyValue Ledger.
Open Scope Z_scope.
Open Scope list_scope.

(** ** The loop over lots *)

(** What closing lots needs of an arithmetic, on the values of [P]: taking a value
    from itself leaves nothing, and differences stay in [P]. *)
Class Cancels (A : Type) `{Money A} (P : A -> Prop) := {
  cancel_pos x : P x -> mpos x = true -> mzerob (msub x (mabs x)) = true;
  cancel_neg x : P x -> mpos x = false -> mzerob (msub x (mneg (mabs x))) = true;
  cancel_sub x y : P (msub x y);
  cancel_sign x : mzerob x = false -> mltb x mzero = negb (mpos x)
}.

Section Loop.
Context {A : Type} `{Money A} {P : A -> Prop} {HC : Cancels A P}.

Lemma closes_zero (l : list (Lot A)) r : mzerob r = true -> closes l r = false.
Proof. intros Hz. unfold closes. destruct l; [done|]. by rewrite Hz. Qed.

Lemma close_lots_stop n price (l : list (Lot A)) r g :
  closes l r = false -> close_lots n price l r g = (l, r, g).
Proof. intros Hc. destruct n, l; cbn [close_lots]; try done. by rewrite Hc. Qed.

(** One more round than there are lots is enough. *)
Lemma close_lots_done n price (l : list (Lot A)) r g :
  Forall (fun x => P (lot_qty x)) l -> P r -> (List.length l < n)%nat ->
  let '(l', r', _) := close_lots n price l r g in closes l' r' = false.
Proof.
  revert l r g. induction n as [|n IH]; intros l r g Hl Hr Hn; [lia|]. destruct l as [|x l]; [done|].
  cbn [close_lots]. destruct (closes (x :: l) r) eqn:Ec; [|by rewrite Ec].
  apply Forall_cons in Hl as [Hx Hl]. cbn [closes] in Ec. bool_to_prop. set (c := mmin _ _).
  set (r' := if mltb r mzero then _ else _).
  assert (P r') as Hr' by (unfold r'; case_match; apply cancel_sub).
  set (q := if mpos (lot_qty x) then msub _ c else _).
  unfold mmin in c. destruct (mltb (mabs (lot_qty x)) (mabs r)).
  - assert (mzerob q = true) as ->.
    { unfold q, c. destruct (mpos (lot_qty x)) eqn:Ep; [by apply cancel_pos|by apply cancel_neg]. }
    apply IH; [done|done|]. cbn in Hn. lia.
  - assert (mzerob r' = true) as Hz.
    { unfold r', c. rewrite cancel_sign by done. destruct (mpos r) eqn:Ep; [by apply cancel_pos|by apply cancel_neg]. }
    rewrite close_lots_stop by (by apply closes_zero). by apply closes_zero.
Qed.
End Loop.

(** ** Tests on rationals *)

Lemma Qltb_spec (a b : Q) : mltb a b = true <-> (a < b)%Q.
Proof. cbn. rewrite negb_true_iff, <- not_true_iff_false, Qle_bool_iff. split; lra. Qed.

Lemma Qpos_spec (a : Q) : mpos a = true <-> (0 < a)%Q.
Proof. apply Qltb_spec. Qed.

Lemma Qpos_false (a : Q) : mpos a = false <-> (a <= 0)%Q.
Proof. rewrite <- not_true_iff_false, Qpos_spec. split; lra. Qed.

Lemma Qzero_spec (a : Q) : mzerob a = true <-> (a == 0)%Q.
Proof. apply Qeq_bool_iff. Qed.

Lemma Qzero_false (a : Q) : mzerob a = false <-> ~ (a == 0)%Q.
Proof. rewrite <- Qzero_spec. by rewrite not_true_iff_false. Qed.

(** Boolean tests on rationals turned into propositions. *)
Ltac q_tests :=
  repeat match goal with
  | H : mpos _ = true |- _ => apply Qpos_spec in H
  | H : mpos _ = false |- _ => apply Qpos_false in H
  | H : mzerob _ = true |- _ => apply Qzero_spec in H
  | H : mzerob _ = false |- _ => apply Qzero_false in H
  | H : mltb _ _ = true |- _ => apply Qltb_spec in H
  | H : @mltb Q _ _ _ = false |- _ => apply not_true_iff_false in H; rewrite Qltb_spec in H
  end.

#[export] Instance Q_cancels : Cancels Q (fun _ => True).
Proof.
  split; try done.
  - intros x _ Hp. q_tests. apply Qzero_spec. cbn. rewrite Qabs_pos; lra.
  - intros x _ Hp. q_tests. apply Qzero_spec. cbn. rewrite Qabs_neg; lra.
  - intros x Hz. q_tests. apply eq_true_iff_eq. rewrite negb_true_iff, Qltb_spec, Qpos_false. cbn.
    destruct (Q_dec x 0) as [[?|?]|?]; [split; lra..|done].
Qed.

Section DecLoop.
Context `{DecContext} (Hprec : 0 < prec).

Lemma dfix_representable d : representable (dfix d).
Proof.
  unfold representable, dfix. destruct (Z.leb_spec (ndigits (coef d)) prec) as [Hs|Hn].
  - destruct (decide (coef d = 0)) as [->|Hc]; [apply Z.pow_pos_nonneg; lia|].
    pose proof (ndigits_bounds _ Hc) as (_ & _ & Hb). eapply Z.lt_le_trans; [exact Hb|]. apply Z.pow_le_mono_r; lia.
  - set (k := ndigits (coef d) - prec). set (r := round_half_even _ k).
    assert (coef d <> 0) as Hc by (intros E; rewrite E in Hn; change (ndigits 0) with 1 in Hn; lia).
    assert (Z.abs (Z.sgn (coef d)) = 1) as Hs by lia.
    assert (10 ^ (prec - 1) < 10 ^ prec) as Hp by (apply Z.pow_lt_mono_r; lia).
    assert (0 < 10 ^ (prec - 1)) by (apply Z.pow_pos_nonneg; lia).
    case_match; cbn [coef]; rewrite Z.abs_mul, Hs; bool_to_prop; [lia|].
    pose proof (round_half_even_bounds (Z.abs (coef d)) k ltac:(lia)) as Hr. fold r in Hr.
    pose proof (ndigits_bounds _ Hc) as (_ & _ & Hb).
    assert (Z.abs (coef d) / 10 ^ k < 10 ^ prec) as Hq.
    { apply Z.div_lt_upper_bound; [apply Z.pow_pos_nonneg; lia|]. rewrite <- Z.pow_add_r by lia.
      by replace (k + prec) with (ndigits (coef d)) by lia. }
    assert (0 <= Z.abs (coef d) / 10 ^ k) by (apply Z.div_pos; [lia|apply Z.pow_pos_nonneg; lia]). lia.
Qed.

Lemma dabs_exact d : representable d -> dabs d = Dec (Z.abs (coef d)) (dexp d).
Proof. intros Hr. unfold dabs. apply dfix_exact; [done|]. unfold representable in *. cbn. lia. Qed.

Lemma dadd_opposite a b : coef a = - coef b -> dexp a = dexp b -> coef (dadd a b) = 0.
Proof.
  intros Hc He. unfold dadd, scale, common. rewrite Hc, He.
  replace (_ + _) with 0 by lia. rewrite dfix_exact; [done|done|]. apply Z.pow_pos_nonneg; lia.
Qed.

Lemma mzerob_coef d : mzerob d = (coef d =? 0).
Proof.
  apply eq_true_iff_eq. rewrite Z.eqb_eq. unfold mzerob. cbn. rewrite deqb_spec, dval_zero.
  split; intros Hd; [|unfold dval; rewrite Hd; ring].
  destruct (decide (coef d = 0)) as [|Hn]; [done|]. exfalso. revert Hd. apply dtrue_spec.
  unfold dtrue. by destruct (Z.eqb_spec (coef d) 0).
Qed.

Lemma mpos_coef d : mpos d = (0 <? coef d).
Proof.
  unfold mpos. cbn. unfold dltb, scale, common. cbn. set (m := Z.min 0 (dexp d)).
  apply eq_true_iff_eq. rewrite !Z.ltb_lt.
  assert (0 < 10 ^ (dexp d - m)) by (apply Z.pow_pos_nonneg; lia). nia.
Qed.

Lemma mneg_coef d : mltb d mzero = (coef d <? 0).
Proof.
  cbn. unfold dltb, scale, common. cbn. set (m := Z.min (dexp d) 0).
  apply eq_true_iff_eq. rewrite !Z.ltb_lt.
  assert (0 < 10 ^ (dexp d - m)) by (apply Z.pow_pos_nonneg; lia). nia.
Qed.

Lemma dec_cancels : Cancels dec representable.
Proof.
  split.
  - intros x Hr Hp. rewrite mpos_coef in Hp. bool_to_prop. rewrite mzerob_coef. apply Z.eqb_eq. cbn.
    rewrite dabs_exact by done. apply dadd_opposite; [cbn [copy_neg coef]; lia|done].
  - intros x Hr Hp. rewrite mpos_coef in Hp. bool_to_prop. rewrite mzerob_coef. apply Z.eqb_eq. cbn.
    rewrite dabs_exact by done. unfold dneg. rewrite dfix_exact; [|done|].
    + apply dadd_opposite; [cbn [copy_neg coef]; lia|done].
    + unfold representable in *. cbn [copy_neg coef]. lia.
  - intros x y. apply dfix_representable.
  - intros x Hz. rewrite mzerob_coef in Hz. rewrite mneg_coef, mpos_coef. bool_to_prop.
    apply eq_true_iff_eq. rewrite negb_true_iff, Z.ltb_lt, Z.ltb_ge. lia.
Qed.

(** FIFO lots are closed to the end in the code's own arithmetic: when quantities
    have at most the precision's digits, the loop stops by its own condition. *)
Lemma fifo_loop_ends (p : LedgerPosition dec) (f : Fill dec) :
  Forall (fun x => representable (lot_qty x)) (lots p) -> representable (signed_qty f) ->
  let '(l, r, _) := close_lots (S (List.length (lots p))) (f_price f) (lots p) (signed_qty f) mzero in
  closes l r = false.
Proof. intros Hl Hr. apply (@close_lots_done _ _ _ dec_cancels); [done|done|lia]. Qed.
End DecLoop.

(** A fill changes the inventory of a position only. *)
Lemma apply_inventory_fields {A} `{Money A} m (p : LedgerPosition A) f :
  let p' := (apply_inventory m p f).1 in
  lp_realized p' = lp_realized p /\ lp_fees p' = lp_fees p /\ lp_financing p' = lp_financing p /\ lp_mark p' = lp_mark p.
Proof.
  destruct m; cbn [apply_inventory].
  - unfold apply_average. by destruct (_ || _).
  - unfold apply_fifo. by destruct (close_lots _ _ _ _ _) as [[? ?] ?].
Qed.

(** ** Sums of rationals *)

Section Sums.
Open Scope Q_scope.

Fixpoint sumQ (l : list Q) : Q :=
  match l with
  | [] => 0
  | x :: r => x + sumQ r
  end.

Lemma fold_plus l a : fold_left Qplus l a == a + sumQ l.
Proof.
  revert a. induction l as [|x l IH]; intros a; cbn; [ring|]. rewrite IH. ring.
Qed.

Lemma msum_sumQ l : msum l == sumQ l.
Proof. unfold msum. cbn. rewrite fold_plus. ring. Qed.

Lemma sumQ_app l l' : sumQ (l ++ l') == sumQ l + sumQ l'.
Proof. induction l as [|x l IH]; cbn; [ring|]. rewrite IH. ring. Qed.

Lemma sumQ_ext {B} (f g : B -> Q) l : (forall x, x ∈ l -> f x == g x) -> sumQ (map f l) == sumQ (map g l).
Proof.
  induction l as [|x l IH]; intros He; [reflexivity|]. cbn. rewrite (He x) by left.
  rewrite IH; [reflexivity|]. intros y Hy. apply He. by right.
Qed.

Lemma sumQ_plus {B} (f g : B -> Q) l : sumQ (map (fun x => f x + g x) l) == sumQ (map f l) + sumQ (map g l).
Proof. induction l as [|x l IH]; cbn; [ring|]. rewrite IH. ring. Qed.

(** The value of [g] at a key; nothing for a missing one. *)
Definition at_key {V} (g : V -> Q) (d : list (string * V)) (k : string) : Q :=
  match dget d k with Some v => g v | None => 0 end.

Lemma sumQ_dset {V} (g : V -> Q) d k v :
  sumQ (map (fun x => g x.2) (dset d k v)) == sumQ (map (fun x => g x.2) d) - at_key g d k + g v.
Proof.
  unfold at_key. induction d as [|[k' v'] d IH]; cbn; [ring|].
  case_decide; cbn; [ring|]. rewrite IH. ring.
Qed.
End Sums.

(** ** Inventory in exact arithmetic *)

Section Inventory.
Open Scope Q_scope.

(** What the position cost. *)
Definition basis (p : LedgerPosition Q) : Q := avg_cost p * lp_quantity p.

Definition lots_qty (l : list (Lot Q)) : Q := sumQ (map lot_qty l).
Definition lots_cost (l : list (Lot Q)) : Q := sumQ (map (fun x => lot_qty x * lot_price x) l).

Definition one_sided (l : list (Lot Q)) : Prop :=
  Forall (fun x => 0 < lot_qty x) l \/ Forall (fun x => lot_qty x < 0) l.

(** Under FIFO the lots make up the quantity and its cost, and are all long or all
    short. *)
Definition inventory_ok (m : Method) (p : LedgerPosition Q) : Prop :=
  match m with
  | Average => True
  | Fifo => one_sided (lots p) /\ lp_quantity p == lots_qty (lots p) /\ basis p == lots_cost (lots p)
  end.

Definition good_fill (f : Fill Q) : Prop := 0 < f_quantity f.

Lemma signed_nonzero f : good_fill f -> ~ signed_qty f == 0.
Proof. unfold good_fill, signed_qty. case_bool_decide; cbn; lra. Qed.

Lemma average_correct p f :
  good_fill f ->
  let '(p', r) := apply_average p f in
  lp_quantity p' == lp_quantity p + signed_qty f /\ basis p' == basis p + signed_qty f * f_price f + r.
Proof.
  intros Hg%signed_nonzero. unfold apply_average, basis. set (s := signed_qty f) in *. set (q := lp_quantity p).
  destruct (mzerob q || eqb (mpos q) (mpos s)) eqn:Ec; cbn [lp_quantity avg_cost set_inventory].
  - split; [reflexivity|]. cbn [madd mzero Q_money mmul mdiv mabs].
    assert ((0 < s /\ 0 <= q) \/ (s < 0 /\ q <= 0)) as Hs.
    { apply orb_true_iff in Ec as [Ec|Ec].
      - q_tests. destruct (Q_dec s 0) as [[?|?]|?]; [right|left|done]; lra.
      - apply eqb_prop in Ec. destruct (mpos s) eqn:Es; q_tests; [left; lra|right].
        destruct (Q_dec s 0) as [[?|?]|?]; [lra..|done]. }
    destruct (mzerob (q + s)) eqn:Ez; q_tests; [destruct Hs; lra|].
    destruct Hs as [[H1 H2]|[H1 H2]].
    + rewrite !Qabs_pos by lra. field. lra.
    + rewrite !Qabs_neg by lra. field. lra.
  - split; [reflexivity|]. apply orb_false_iff in Ec as [Hq Hp]. apply eqb_false_iff in Hp.
    destruct (mpos q) eqn:Eq, (mpos s) eqn:Es; try done; q_tests; clear Hp;
      unfold mmin; destruct (mltb (mabs q) (mabs s)) eqn:Em; q_tests;
      cbn [madd msub mzero Q_money mmul mabs] in Em |- *;
      rewrite ?(Qabs_pos q), ?(Qabs_neg q), ?(Qabs_pos s), ?(Qabs_neg s) in Em by lra;
      rewrite ?(Qabs_pos q), ?(Qabs_neg q), ?(Qabs_pos s), ?(Qabs_neg s) by lra.
    + assert (mpos (q + s) = false) as -> by (apply Qpos_false; lra).
      assert (mzerob (q + s) = false) as -> by (apply Qzero_false; lra). cbn [eqb negb andb]. ring.
    + destruct (mzerob (q + s)) eqn:Ez; q_tests; rewrite ?andb_false_r; cbn [negb andb].
      * rewrite Ez. assert (s == - q) as -> by lra. ring.
      * assert (mpos (q + s) = true) as -> by (apply Qpos_spec; lra). cbn. ring.
    + assert (mpos (q + s) = true) as -> by (apply Qpos_spec; lra).
      assert (mzerob (q + s) = false) as -> by (apply Qzero_false; lra). cbn [eqb negb andb]. ring.
    + destruct (mzerob (q + s)) eqn:Ez; q_tests; rewrite ?andb_false_r; cbn [negb andb].
      * rewrite Ez. assert (s == - q) as -> by lra. ring.
      * assert (mpos (q + s) = false) as -> by (apply Qpos_false; lra). cbn. ring.
Qed.

(** *** FIFO *)

Lemma closes_true x l r :
  closes (x :: l) r = true ->
  ~ r == 0 /\ ((0 < lot_qty x /\ r < 0) \/ (lot_qty x <= 0 /\ 0 < r)).
Proof.
  cbn [closes]. intros [Hr Hs]%andb_true_iff. apply negb_true_iff in Hr, Hs. apply eqb_false_iff in Hs.
  q_tests. split; [done|]. destruct (Q_dec r 0) as [[?|?]|?]; [| |done];
    destruct (mpos (lot_qty x)) eqn:Ex, (mpos r) eqn:Er; try done; q_tests; [left|left|right|right]; lra || by split.
Qed.

Lemma close_lots_cost n price l r g :
  let '(l', r', g') := close_lots n price l r g in
  lots_qty l' + r' == lots_qty l + r /\ lots_cost l' + price * r' - g' == lots_cost l + price * r - g.
Proof.
  revert l r g. induction n as [|n IH]; intros l r g; [destruct l; split; reflexivity|].
  destruct l as [|x l]; [split; reflexivity|]. cbn [close_lots].
  destruct (closes (x :: l) r) eqn:Ec; [|split; reflexivity].
  apply closes_true in Ec as [_ Hs]. set (c := mmin _ _).
  set (g' := madd g _). set (q := if mpos (lot_qty x) then msub _ c else _). set (r' := if mltb r mzero then _ else _).
  assert ((q + r' == lot_qty x + r) /\
    (q * lot_price x + price * r' - g' == lot_qty x * lot_price x + price * r - g)) as [Hq Hv].
  { unfold q, r', g'. destruct Hs as [[H1 H2]|[H1 H2]].
    - rewrite (proj2 (Qpos_spec _)), (proj2 (Qltb_spec _ _)) by done. cbn. split; ring.
    - rewrite (proj2 (Qpos_false _)) by done. assert (mltb r mzero = false) as -> by (apply not_true_iff_false; rewrite Qltb_spec; cbn; lra).
      cbn. split; ring. }
  clearbody q r' g'. specialize (IH (if mzerob q then l else MkLot q (lot_price x) :: l) r' g').
  destruct (close_lots n price _ r' g') as [[l2 r2] g2]. destruct IH as [IH1 IH2].
  unfold lots_qty, lots_cost in *. destruct (mzerob q) eqn:Ez; q_tests; cbn [map sumQ lot_qty lot_price] in *.
  - rewrite Ez in *. split; lra.
  - split; lra.
Qed.

Lemma mmin_le (a b : Q) : mmin a b <= b.
Proof. unfold mmin. destruct (mltb b a) eqn:E; q_tests; cbn in *; lra. Qed.

Lemma close_lots_sides n price l r g :
  one_sided l -> let '(l', _, _) := close_lots n price l r g in one_sided l'.
Proof.
  revert l r g. induction n as [|n IH]; intros l r g Hl; [by destruct l|].
  destruct l as [|x l]; [done|]. cbn [close_lots]. destruct (closes (x :: l) r); [|done].
  apply IH. pose proof (mmin_le (mabs r) (mabs (lot_qty x))) as Hc. set (c := mmin _ _) in *. clearbody c.
  destruct Hl as [[Hx Hl]%Forall_cons|[Hx Hl]%Forall_cons]; [left|right];
    (case_match eqn:Ez; [done|]; q_tests; apply Forall_cons; split; [|done]); cbn [lot_qty]; revert Ez.
  - rewrite (proj2 (Qpos_spec _)) by done. cbn in *. rewrite Qabs_pos in Hc by lra. intros Ez.
    destruct (Q_dec (lot_qty x - c) 0) as [[?|?]|?]; [lra|lra|done].
  - rewrite (proj2 (Qpos_false _)) by lra. cbn in *. rewrite Qabs_neg in Hc by lra. intros Ez.
    destruct (Q_dec (lot_qty x - - c) 0) as [[?|?]|?]; [lra|lra|done].
Qed.

(** The remainder goes to the side that is left. *)
Lemma remainder_side l r price :
  one_sided l -> closes l r = false -> ~ r == 0 -> one_sided (l ++ [MkLot r price]).
Proof.
  intros Hl Hc Hr. assert (mzerob r = false) as Hz by by apply Qzero_false. destruct l as [|x l].
  - destruct (Q_dec r 0) as [[?|?]|?]; [right|left|done]; by constructor.
  - cbn [closes] in Hc. rewrite Hz in Hc. cbn [negb andb] in Hc. apply negb_false_iff, eqb_prop in Hc.
    destruct Hl as [Hl|Hl]; [left|right]; (apply Forall_app; split; [done|]); apply Forall_cons in Hl as [Hx _];
      constructor; try done; cbn [lot_qty].
    + apply Qpos_spec. rewrite <- Hc. by apply Qpos_spec.
    + assert (mpos r = false) as Er by (rewrite <- Hc; apply Qpos_false; lra). q_tests.
      destruct (Q_dec r 0) as [[?|?]|?]; [done|lra|done].
Qed.

(** Quantity, cost and average of a list of lots as the code sums them up. *)
Lemma lots_summary l :
  one_sided l ->
  let tot := msum (map (fun x => mabs (lot_qty x)) l) in
  let c := if mzerob tot then mzero
           else mdiv (msum (map (fun x => mmul (mabs (lot_qty x)) (lot_price x)) l)) tot in
  msum (map lot_qty l) == lots_qty l /\ c * msum (map lot_qty l) == lots_cost l.
Proof.
  intros Hl tot c. split; [apply msum_sumQ|]. rewrite msum_sumQ. fold (lots_qty l).
  assert (exists s : Q, (s == 1 \/ s == - (1)) /\ forall x, x ∈ l -> mabs (lot_qty x) == s * lot_qty x) as (s & Hs & Hq).
  { destruct Hl as [Hl|Hl]; [exists 1|exists (- (1))]; (split; [first [by left|by right]|]); intros x Hx; rewrite Forall_forall in Hl;
      specialize (Hl x Hx); cbn; [rewrite Qabs_pos by lra|rewrite Qabs_neg by lra]; ring. }
  assert (tot == s * lots_qty l) as Ht.
  { unfold tot. rewrite msum_sumQ. unfold lots_qty. clear - Hq. induction l as [|x l IH]; cbn; [ring|].
    rewrite IH by (intros y Hy; apply Hq; by right). rewrite (Hq x) by left. ring. }
  assert (msum (map (fun x => mmul (mabs (lot_qty x)) (lot_price x)) l) == s * lots_cost l) as Hv.
  { rewrite msum_sumQ. unfold lots_cost. clear - Hq. induction l as [|x l IH]; cbn; [ring|].
    rewrite IH by (intros y Hy; apply Hq; by right). cbn in Hq. rewrite (Hq x) by left. ring. }
  unfold c. destruct (mzerob tot) eqn:Ez; q_tests.
  - assert (l = []) as ->; [|cbn; ring]. destruct l as [|x l]; [done|]. exfalso. rewrite Ht in Ez.
    assert (~ lots_qty (x :: l) == 0) as Hn.
    { clear - Hl. unfold lots_qty. destruct Hl as [Hl|Hl].
      - assert (forall l', Forall (fun x => 0 < lot_qty x) l' -> 0 <= sumQ (map lot_qty l')) as Hp
          by (intros l'; induction 1; cbn; lra). apply Forall_cons in Hl as [Hx Hl]. specialize (Hp _ Hl). cbn. lra.
      - assert (forall l', Forall (fun x => lot_qty x < 0) l' -> sumQ (map lot_qty l') <= 0) as Hp
          by (intros l'; induction 1; cbn; lra). apply Forall_cons in Hl as [Hx Hl]. specialize (Hp _ Hl). cbn. lra. }
    apply Hn. destruct Hs as [Hs|Hs]; rewrite Hs in Ez; lra.
  - cbn [mdiv Q_money]. rewrite Ht in Ez. rewrite Hv, Ht. field. split; intros E; apply Ez; rewrite E; ring.
Qed.

Lemma fifo_correct p f :
  inventory_ok Fifo p -> good_fill f ->
  let '(p', r) := apply_fifo p f in
  inventory_ok Fifo p' /\ lp_quantity p' == lp_quantity p + signed_qty f /\
  basis p' == basis p + signed_qty f * f_price f + r.
Proof.
  intros (Hs & Hq & Hb) Hg. unfold apply_fifo.
  pose proof (close_lots_done (P:=fun _ => True) (S (List.length (lots p))) (f_price f) (lots p) (signed_qty f) mzero
    ltac:(by apply Forall_true) I ltac:(lia)) as Hd.
  pose proof (close_lots_cost (S (List.length (lots p))) (f_price f) (lots p) (signed_qty f) mzero) as Hc.
  pose proof (close_lots_sides (S (List.length (lots p))) (f_price f) (lots p) (signed_qty f) mzero Hs) as Hs'.
  destruct (close_lots _ _ _ _ _) as [[l r] g]. destruct Hc as [Hc1 Hc2].
  set (l' := if mzerob r then l else l ++ [MkLot r (f_price f)]).
  assert (one_sided l') as Hl'.
  { unfold l'. destruct (mzerob r) eqn:Ez; [done|]. q_tests. by apply remainder_side. }
  assert (lots_qty l' == lots_qty l + r /\ lots_cost l' == lots_cost l + f_price f * r) as [Eq Ec].
  { unfold l', lots_qty, lots_cost. destruct (mzerob r) eqn:Ez; q_tests; [rewrite Ez; split; ring|].
    rewrite !map_app, !sumQ_app. cbn. split; ring. }
  pose proof (lots_summary l' Hl') as [Hsq Hsc].
  split; [split_and!; [exact Hl'|exact Hsq|exact Hsc]|]. unfold basis at 1. cbn [lp_quantity avg_cost set_inventory].
  rewrite Hsc, Hsq, Eq, Ec, Hq, Hb. cbn in Hc2. split; lra.
Qed.

Lemma inventory_correct m p f :
  inventory_ok m p -> good_fill f ->
  let '(p', r) := apply_inventory m p f in
  inventory_ok m p' /\ lp_quantity p' == lp_quantity p + signed_qty f /\
  basis p' == basis p + signed_qty f * f_price f + r.
Proof.
  intros Hi Hg. destruct m; [|by apply fifo_correct]. pose proof (average_correct p f Hg) as Ha.
  cbn [apply_inventory]. by destruct (apply_average p f).
Qed.
End Inventory.

(** ** Histories in exact arithmetic *)

Section Exact.
Open Scope Q_scope.
Variable m : Method.

(** What happens to the books; a fill is booked under the test of [on_fill]. *)
Inductive book_op :=
  | BookFill (f : Fill Q)
  | BookMark (sym : string) (price : Q)
  | BookFinancing (sym : string) (amt : Q)
  | BookClose.

Definition accepts (f : Fill Q) : bool :=
  bool_decide (f_side f = "buy" \/ f_side f = "sell")%string && mpos (f_quantity f).

Definition book_step (c : Core Q) (op : book_op) : Core Q :=
  match op with
  | BookFill f => if accepts f then (book_fill m f c).1 else c
  | BookMark sym price => mark_core sym price c
  | BookFinancing sym amt => accrue_core sym amt c
  | BookClose => roll_day c
  end.

Definition book_run (start : Q) (ops : list book_op) : Core Q := fold_left book_step ops (new_core start).

(** The sum of a field over the positions. *)
Definition over (g : LedgerPosition Q -> Q) (c : Core Q) : Q := sumQ (map (fun x => g x.2) (positions c)).

Record balanced (c : Core Q) : Prop := {
  ba_inventory : forall x, x ∈ positions c -> inventory_ok m x.2;
  ba_cash : cash c == starting_cash c + realized_cum c - fees_cum c - financing_cum c - over basis c;
  ba_realized : realized_cum c == over lp_realized c;
  ba_fees : fees_cum c == over lp_fees c;
  ba_financing : financing_cum c == over lp_financing c
}.

Lemma over_dset g c sym p :
  sumQ (map (fun x => g x.2) (dset (positions c) sym p)) == over g c - at_key g (positions c) sym + g p.
Proof. apply sumQ_dset. Qed.

(** A field that is nothing in a new position. *)
Lemma at_key_or g c sym mark :
  g (new_position mark) == 0 -> at_key g (positions c) sym == g (position_or mark sym c).
Proof. intros Hg. unfold at_key, position_or. by destruct (dget _ _); cbn; [|rewrite Hg]. Qed.

Lemma position_or_ok c sym mark : balanced c -> inventory_ok m (position_or mark sym c).
Proof.
  intros Hb. unfold position_or. destruct (dget _ _) as [p|] eqn:E; cbn.
  - by apply dget_elem, (ba_inventory _ Hb) in E.
  - destruct m; [done|]. split_and!; [by left; constructor|reflexivity|]. unfold basis, lots_cost. cbn. ring.
Qed.

Lemma inventory_ok_ext p p' :
  lp_quantity p' = lp_quantity p -> avg_cost p' = avg_cost p -> lots p' = lots p ->
  inventory_ok m p -> inventory_ok m p'.
Proof. unfold inventory_ok, basis. intros -> -> ->. done. Qed.

Lemma elem_dset_ok c sym p x :
  balanced c -> inventory_ok m p -> x ∈ dset (positions c) sym p -> inventory_ok m x.2.
Proof. intros Hb Hp [->|Hx]%elem_dset; [done|by apply Hb]. Qed.

(** Booking on one position: the totals move as the position does. *)
Lemma balanced_update c sym mark p k r fe fi seq lcn dr df :
  let p0 := position_or mark sym c in
  balanced c -> inventory_ok m p ->
  r - realized_cum c == lp_realized p - lp_realized p0 ->
  fe - fees_cum c == lp_fees p - lp_fees p0 ->
  fi - financing_cum c == lp_financing p - lp_financing p0 ->
  k - cash c == (r - realized_cum c) - (fe - fees_cum c) - (fi - financing_cum c) - (basis p - basis p0) ->
  balanced (MkCore (starting_cash c) k (dset (positions c) sym p) r fe fi seq lcn dr df).
Proof.
  intros p0 Hb Hp Hr Hf Hi Hk. pose proof (ba_cash _ Hb) as Bk. pose proof (ba_realized _ Hb) as Br.
  pose proof (ba_fees _ Hb) as Bf. pose proof (ba_financing _ Hb) as Bi.
  split; cbn [positions cash starting_cash realized_cum fees_cum financing_cum].
  - intros x Hx. by eapply elem_dset_ok.
  - unfold over at 1. cbn [positions]. rewrite over_dset, (at_key_or basis _ _ mark) by (unfold basis; cbn; ring).
    fold p0. lra.
  - unfold over at 1. cbn [positions]. rewrite over_dset, (at_key_or lp_realized _ _ mark) by reflexivity. fold p0. lra.
  - unfold over at 1. cbn [positions]. rewrite over_dset, (at_key_or lp_fees _ _ mark) by reflexivity. fold p0. lra.
  - unfold over at 1. cbn [positions]. rewrite over_dset, (at_key_or lp_financing _ _ mark) by reflexivity. fold p0. lra.
Qed.

Lemma mark_balanced sym price c : balanced c -> balanced (mark_core sym price c).
Proof.
  intros Hb. unfold mark_core, set_positions. apply (balanced_update c sym mzero); [done| |cbn; ring|cbn; ring|cbn; ring|].
  - eapply inventory_ok_ext; [..|by apply (position_or_ok c sym mzero)]; done.
  - unfold basis. cbn. ring.
Qed.

Lemma accrue_balanced sym amt c : balanced c -> balanced (accrue_core sym amt c).
Proof.
  intros Hb. unfold accrue_core. apply (balanced_update c sym mzero); [done| |cbn; ring|cbn; ring|cbn; ring|].
  - eapply inventory_ok_ext; [..|by apply (position_or_ok c sym mzero)]; done.
  - unfold basis. cbn. ring.
Qed.

(** The position a fill leaves, whatever mark it gets. *)
Definition filled_position (f : Fill Q) (c : Core Q) : LedgerPosition Q * Q :=
  apply_inventory m (position_or (f_price f) (f_symbol f) c) f.

Lemma fill_balanced f c : good_fill f -> balanced c -> balanced (book_fill m f c).1.
Proof.
  intros Hg Hb. unfold book_fill.
  pose proof (inventory_correct m _ f (position_or_ok c (f_symbol f) (f_price f) Hb) Hg) as Hi.
  pose proof (apply_inventory_fields m (position_or (f_price f) (f_symbol f) c) f) as Hf.
  destruct (apply_inventory m _ f) as [p r]. cbn [fst] in Hf. destruct Hi as (Hok & Hq & Hba), Hf as (Fr & Ff & Fn & _).
  cbn [fst]. set (p1 := book_costs r (f_fee f) p).
  assert (exists mk, (if mzerob (lp_mark p1) then set_mark (f_price f) p1 else p1) = set_mark mk p1) as [mk ->].
  { destruct (mzerob _); [by eexists|]. exists (lp_mark p1). by destruct p1. }
  apply (balanced_update c (f_symbol f) (f_price f)); [done| | | | |].
  - eapply inventory_ok_ext; [..|exact Hok]; done.
  - cbn. rewrite Fr. ring.
  - cbn. rewrite Ff. ring.
  - cbn. rewrite Fn. ring.
  - unfold basis in *. cbn in *. lra.
Qed.

Lemma book_run_balanced start ops : balanced (book_run start ops).
Proof.
  unfold book_run. induction ops as [|op ops IH] using rev_ind.
  - split; try (cbn; ring). intros x Hx. by apply not_elem_of_nil in Hx.
  - rewrite fold_left_app. cbn [fold_left]. set (c := fold_left _ _ _) in *. destruct op; cbn [book_step].
    + destruct (accepts f) eqn:Ea; [|done]. apply andb_true_iff in Ea as [_ Hq]. apply fill_balanced; [by q_tests|done].
    + by apply mark_balanced.
    + by apply accrue_balanced.
    + destruct IH. by split.
Qed.

Lemma equity_split c : equity c == cash c + over basis c + unrealized_pnl c.
Proof.
  unfold equity, market_value, unrealized_pnl, over. cbn [madd Q_money]. rewrite !msum_sumQ, <- Qplus_assoc, <- sumQ_plus.
  apply Qplus_comp; [reflexivity|]. apply sumQ_ext. intros x _. unfold lp_market_value, lp_unrealized, basis.
  destruct (mzerob (lp_quantity x.2)) eqn:Ez; q_tests; cbn; [rewrite Ez|]; ring.
Qed.

(** The net quantity of the accepted fills of a symbol. *)
Definition traded (sym : string) (ops : list book_op) : Q :=
  sumQ (map (fun op => match op with
    | BookFill f => if accepts f && bool_decide (f_symbol f = sym) then signed_qty f else 0
    | _ => 0 end) ops).

Definition held (sym : string) (c : Core Q) : Q := at_key lp_quantity (positions c) sym.

Lemma at_key_dset g d sym sym' (p : LedgerPosition Q) :
  at_key g (dset d sym p) sym' = if decide (sym' = sym) then g p else at_key g d sym'.
Proof. unfold at_key. case_decide; [subst; by rewrite dget_dset_eq|by rewrite dget_dset_ne]. Qed.

Lemma held_step c op sym :
  balanced c -> held sym (book_step c op) == held sym c + traded sym [op].
Proof.
  intros Hb. unfold held, traded. destruct op as [f|s price|s amt|]; cbn [book_step map sumQ].
  - destruct (accepts f) eqn:Ea; cbn [andb]; [|ring]. apply andb_true_iff in Ea as [_ Hg]. q_tests.
    unfold book_fill. pose proof (inventory_correct m _ f (position_or_ok c (f_symbol f) (f_price f) Hb) Hg) as Hi.
    destruct (apply_inventory m _ f) as [p r]. destruct Hi as (_ & Hq & _). cbn [fst positions]. rewrite at_key_dset.
    destruct (decide (sym = f_symbol f)) as [->|Hne].
    + rewrite bool_decide_eq_true_2 by done. rewrite (at_key_or lp_quantity c (f_symbol f) (f_price f)) by reflexivity.
      case_match; cbn; rewrite Hq; ring.
    + rewrite bool_decide_eq_false_2 by congruence. ring.
  - cbn [positions mark_core set_positions]. rewrite at_key_dset. case_decide; [subst|ring].
    rewrite (at_key_or lp_quantity c s mzero) by reflexivity. cbn. ring.
  - cbn [positions accrue_core]. rewrite at_key_dset. case_decide; [subst|ring].
    rewrite (at_key_or lp_quantity c s mzero) by reflexivity. cbn. ring.
  - cbn. ring.
Qed.

(** C34: the books balance. In exact arithmetic, for average cost and for FIFO, after
    any sequence of fills, marks, financing costs and day closes: equity is the
    starting cash plus realized and unrealized P&L minus fees and financing; the
    position in a symbol is what was bought less what was sold; and the totals are
    the sums over the positions. *)
Theorem accounting_identity start ops sym :
  let c := book_run start ops in
  equity c == starting_cash c + realized_cum c + unrealized_pnl c - fees_cum c - financing_cum c /\
  starting_cash c == start /\
  held sym c == traded sym ops /\
  realized_cum c == over lp_realized c /\ fees_cum c == over lp_fees c /\ financing_cum c == over lp_financing c.
Proof.
  intros c. pose proof (book_run_balanced start ops) as Hb. fold c in Hb. split_and!; try apply Hb.
  - rewrite equity_split. pose proof (ba_cash _ Hb). lra.
  - unfold c, book_run. clear Hb c. induction ops as [|op ops' IH] using rev_ind; [reflexivity|].
    rewrite fold_left_app. cbn [fold_left]. etransitivity; [|exact IH].
    destruct op; cbn [book_step]; try reflexivity. destruct (accepts f); [|reflexivity].
    unfold book_fill. by destruct (apply_inventory _ _ _).
  - unfold c, book_run. clear Hb c. induction ops as [|op ops' IH] using rev_ind; [reflexivity|].
    rewrite fold_left_app. cbn [fold_left]. rewrite held_step by apply book_run_balanced.
    fold (book_run start ops') in *. rewrite IH. unfold traded. rewrite map_app, sumQ_app. reflexivity.
Qed.
End Exact.

(** ** Restart *)

Section Restart.
Context `{DecContext}.

Inductive ledger_op :=
  | OnFill (now : Z) (symbol side : string) (quantity price fee : pyval) (ts : option datetime)
      (coid boid : option string)
  | MarkPrice (symbol : string) (price : pyval)
  | AccrueFinancing (symbol : string) (amount : pyval)
  | EodClose (now : Z) (ts : option datetime) (lbl : string).

Definition ledger_step (l : Ledger) (op : ledger_op) : Ledger :=
  match op with
  | OnFill now sym side q p fee ts co bo =>
      match on_fill now sym side q p fee ts co bo l with Ok (l, _) => l | Raise _ => l end
  | MarkPrice sym price => mark sym price l
  | AccrueFinancing sym amt => accrue_financing sym amt l
  | EodClose now ts lbl => (eod_close now ts lbl l).1
  end.

Definition ledger_run (l : Ledger) (ops : list ledger_op) : Ledger := fold_left ledger_step ops l.

(** What the database keeps: everything but financing costs, and every mark but
    zero, which the next fill replaces in memory only. *)
Definition durable (op : ledger_op) : bool :=
  match op with
  | AccrueFinancing _ _ => false
  | MarkPrice _ price => negb (mzerob (d_ price))
  | _ => true
  end.

Lemma row_fill_row now f :
  row_fill now (fill_row f) =
  MkFill (f_symbol f) (f_side f) (f_quantity f) (f_price f) (f_fee f) (Utc now) (f_client_order_id f) (f_broker_order_id f).
Proof. unfold row_fill, fill_row. cbn [fr_quantity fr_price fr_fee fr_symbol fr_side fr_client_order_id fr_broker_order_id]. by rewrite !d_dec_str. Qed.

(** The mark plays no part in the inventory. *)
Lemma apply_inventory_mark m k (p : LedgerPosition dec) f :
  apply_inventory m (set_mark k p) f = (set_mark k (apply_inventory m p f).1, (apply_inventory m p f).2).
Proof.
  destruct m; cbn [apply_inventory].
  - unfold apply_average. cbn [lp_quantity avg_cost lots set_mark]. by case_match.
  - unfold apply_fifo. cbn [lots set_mark]. by destruct (close_lots _ _ _ _ _) as [[? ?] ?].
Qed.

(** The positions in memory, given those rebuilt from the fills and the stored marks. *)
Definition with_marks (marks : list (string * string)) (c : Core dec) (sym : string) : option (LedgerPosition dec) :=
  match dget marks sym with
  | Some t => Some (set_mark (d_ (VStr t)) (position_or dzero sym c))
  | None => dget (positions c) sym
  end.

Definition last_snapshot (d : Db) : option NavSnapshot := List.last (map Some (db_snapshots d)) None.

(** The books rebuilt from the stored fills. *)
Definition replayed (now : Z) (m : Method) (start : dec) (d : Db) : Core dec :=
  fold_left (replay_fill now m) (db_fills d) (new_core start).

Record recoverable (now : Z) (m : Method) (start : dec) (l : Ledger) (d : Db) : Prop := {
  rv_db : l_db l = Some d;
  rv_method : l_method l = m;
  rv_start : db_start d = dec_str start /\ starting_cash (l_core l) = start;
  rv_keys : NoDup (db_marks d).*1;
  rv_marks : forall s t, dget (db_marks d) s = Some t -> mzerob (d_ (VStr t)) = false;
  rv_totals : cash (l_core l) = cash (replayed now m start d) /\
    realized_cum (l_core l) = realized_cum (replayed now m start d) /\
    fees_cum (l_core l) = fees_cum (replayed now m start d) /\ financing_cum (l_core l) = dzero /\
    fill_seq (l_core l) = fill_seq (replayed now m start d);
  rv_positions : forall s, dget (positions (l_core l)) s = with_marks (db_marks d) (replayed now m start d) s;
  rv_baseline : match last_snapshot d with
    | Some s => nav s = float_of_dec (last_close_nav (l_core l))
    | None => last_close_nav (l_core l) = start
    end
}.

Lemma with_marks_dset marks c sym p s :
  with_marks marks (set_positions (dset (positions c) sym p) c) s =
  if decide (s = sym) then
    Some (match dget marks sym with Some t => set_mark (d_ (VStr t)) p | None => p end)
  else with_marks marks c s.
Proof.
  unfold with_marks, position_or. cbn [positions set_positions]. destruct (decide (s = sym)) as [->|Hne].
  - rewrite dget_dset_eq. by destruct (dget marks sym).
  - by rewrite dget_dset_ne.
Qed.

(** Booking a fill: the position afterwards, with a mark of its own. *)
Definition booked (m : Method) (f : Fill dec) (p : LedgerPosition dec) : LedgerPosition dec * dec :=
  let '(p, r) := apply_inventory m p f in (book_costs r (f_fee f) p, r).

Definition fresh_mark (price : dec) (p : LedgerPosition dec) : LedgerPosition dec :=
  if mzerob (lp_mark p) then set_mark price p else p.

Lemma book_fill_booked m f c :
  book_fill m f c =
  let '(p, r) := booked m f (position_or (f_price f) (f_symbol f) c) in
  (MkCore (starting_cash c) (msub (msub (cash c) (mmul (signed_qty f) (f_price f))) (f_fee f))
     (dset (positions c) (f_symbol f) (fresh_mark (f_price f) p))
     (madd (realized_cum c) r) (madd (fees_cum c) (f_fee f)) (financing_cum c) (fill_seq c + 1)
     (last_close_nav c) (madd (day_realized c) r) (madd (day_fees c) (f_fee f)), r).
Proof. unfold book_fill, booked, fresh_mark. by destruct (apply_inventory _ _ _). Qed.

Lemma booked_mark m f k p : booked m f (set_mark k p) = (set_mark k (booked m f p).1, (booked m f p).2).
Proof. unfold booked. rewrite apply_inventory_mark. by destruct (apply_inventory m p f). Qed.

Lemma booked_keeps_mark m f p : lp_mark (booked m f p).1 = lp_mark p.
Proof.
  unfold booked. destruct (apply_inventory_fields m p f) as (_ & _ & _ & <-). by destruct (apply_inventory m p f).
Qed.

Lemma set_mark_same (p : LedgerPosition dec) : set_mark (lp_mark p) p = p.
Proof. by destruct p. Qed.

(** Before a fill the live position is the rebuilt one, up to its mark. *)
Lemma live_position now m start l d price sym :
  recoverable now m start l d ->
  position_or price sym (l_core l) =
  set_mark (match dget (db_marks d) sym with
            | Some t => d_ (VStr t)
            | None => lp_mark (position_or price sym (replayed now m start d)) end)
    (position_or price sym (replayed now m start d)).
Proof.
  intros Hr. unfold position_or at 1. rewrite (rv_positions _ _ _ _ _ Hr). unfold with_marks.
  destruct (dget (db_marks d) sym) as [t|]; cbn [default].
  - unfold position_or. by destruct (dget (positions (replayed now m start d)) sym).
  - fold (position_or price sym (replayed now m start d)). by rewrite set_mark_same.
Qed.

Lemma recoverable_fill now m start l d f :
  recoverable now m start l d -> recoverable now m start (apply_fill f l).1 (store_fill f d).
Proof.
  intros Hr. pose proof (live_position _ _ _ _ _ (f_price f) (f_symbol f) Hr) as Hp.
  destruct Hr as [R1 R2 [R3 R3'] R4 R5 (T1 & T2 & T3 & T4 & T5) R7 R8].
  unfold apply_fill. rewrite R1, R2, book_fill_booked, Hp, booked_mark. clear Hp.
  set (rc := replayed now m start d) in *. set (p0 := position_or (f_price f) (f_symbol f) rc).
  assert (replayed now m start (store_fill f d) = (book_fill m (row_fill now (fill_row f)) rc).1) as Er
    by (unfold replayed; cbn [store_fill db_fills]; by rewrite fold_left_app).
  rewrite row_fill_row, book_fill_booked in Er. cbn [f_price f_symbol f_fee] in Er. fold p0 in Er.
  change (booked m (MkFill _ _ _ _ _ _ _ _) p0) with (booked m f p0) in Er.
  pose proof (booked_keeps_mark m f p0) as Hm. destruct (booked m f p0) as [p r]. cbn [fst snd] in *.
  split; cbn [l_db l_method l_core store_fill db_start db_marks db_snapshots starting_cash fmap option_fmap];
    rewrite ?Er; cbn [cash realized_cum fees_cum financing_cum fill_seq last_close_nav positions];
    try done; [by rewrite T1, T2, T3, T5|].
  intros s. set (k := match dget (db_marks d) (f_symbol f) with Some t => _ | None => _ end).
  pose proof (with_marks_dset (db_marks d) rc (f_symbol f) (fresh_mark (f_price f) p) s) as Hw.
  unfold with_marks, position_or in Hw |- *. cbn [positions set_positions] in *. rewrite Hw. clear Hw.
  destruct (decide (s = f_symbol f)) as [->|Hne]; [|by rewrite dget_dset_ne, R7].
  rewrite dget_dset_eq. f_equal. unfold k, fresh_mark. cbn [lp_mark set_mark].
  destruct (dget (db_marks d) (f_symbol f)) as [t|] eqn:Et.
  - rewrite (R5 _ _ Et). by destruct (mzerob (lp_mark p)).
  - rewrite <- Hm, set_mark_same. done.
Qed.

Lemma recoverable_mark now m start l d sym price :
  mzerob (d_ price) = false ->
  recoverable now m start l d -> recoverable now m start (mark sym price l) (store_mark sym (d_ price) d).
Proof.
  intros Hz [R1 R2 [R3 R3'] R4 R5 (T1 & T2 & T3 & T4 & T5) R7 R8]. unfold mark. rewrite R1, R2.
  change (replayed now m start d) with (replayed now m start (store_mark sym (d_ price) d)) in *.
  split; cbn [l_db l_method l_core store_mark db_start db_marks db_snapshots starting_cash mark_core set_positions
    cash realized_cum fees_cum financing_cum fill_seq last_close_nav positions fmap option_fmap]; try done.
  - by apply NoDup_dset.
  - intros s t. destruct (decide (s = sym)) as [->|Hne].
    + rewrite dget_dset_eq. intros [= <-]. by rewrite d_dec_str.
    + rewrite dget_dset_ne by done. apply R5.
  - intros s. unfold with_marks. destruct (decide (s = sym)) as [->|Hne].
    + rewrite !dget_dset_eq, d_dec_str. f_equal. unfold position_or at 1. rewrite R7. unfold with_marks.
      destruct (dget (db_marks d) sym); [|done]. cbn. unfold position_or. by destruct (dget _ sym).
    + rewrite !dget_dset_ne by done. apply R7.
Qed.

Lemma last_snapshot_store s d : last_snapshot (store_snapshot s d) = Some s.
Proof. unfold last_snapshot. cbn [store_snapshot db_snapshots]. rewrite map_app. apply last_last. Qed.

Lemma recoverable_close now m start l d at_ ts lbl :
  recoverable now m start l d ->
  exists d', recoverable now m start (eod_close at_ ts lbl l).1 d'.
Proof.
  intros [R1 R2 R3 R4 R5 T R7 R8]. unfold eod_close. rewrite R1, R2. cbn [fmap option_fmap fst].
  set (s := nav_snapshot _ _ _). exists (store_snapshot s d).
  split; cbn [l_db l_method l_core store_snapshot db_start db_marks roll_day starting_cash]; try done.
  by rewrite last_snapshot_store.
Qed.

Lemma recoverable_create now m start : recoverable now m (d_ start) (create m start) (MkDb [] [] [] (dec_str (d_ start))).
Proof. by split; cbn; [| | |constructor|..]. Qed.

Lemma recoverable_run now m start ops :
  forallb durable ops = true -> exists d, recoverable now m (d_ start) (ledger_run (create m start) ops) d.
Proof.
  unfold ledger_run. induction ops as [|op ops IH] using rev_ind; intros Hd.
  - eexists. apply recoverable_create.
  - rewrite forallb_app in Hd. apply andb_true_iff in Hd as [Hd Ho]. destruct (IH Hd) as [d Hr].
    rewrite fold_left_app. cbn [fold_left]. destruct op as [t sym side q p fee ts co bo|sym price|sym amt|t ts lbl]; cbn [ledger_step].
    + unfold on_fill. destruct (negb _); [by exists d|]. destruct (dleb _ _); [by exists d|].
      eexists. pose proof (recoverable_fill _ _ _ _ _ (MkFill sym (PyText.str_lower side) (d_ q) (d_ p) (d_ fee) (default (Utc t) ts) co bo) Hr) as Hf.
      destruct (apply_fill _ _). exact Hf.
    + eexists. apply recoverable_mark; [|exact Hr]. cbn in Ho. rewrite andb_true_r in Ho. by apply negb_true_iff in Ho.
    + done.
    + by eapply recoverable_close.
Qed.

Definition set_baseline (b : dec) (c : Core dec) : Core dec :=
  MkCore (starting_cash c) (cash c) (positions c) (realized_cum c) (fees_cum c) (financing_cum c) (fill_seq c)
    b (day_realized c) (day_fees c).

Lemma replay_baseline now m b rows c :
  fold_left (replay_fill now m) rows (set_baseline b c) = set_baseline b (fold_left (replay_fill now m) rows c).
Proof.
  revert c. induction rows as [|r rows IH]; intros c; [done|]. cbn [fold_left]. rewrite <- IH. f_equal.
  unfold replay_fill. rewrite !book_fill_booked. unfold position_or. cbn [positions set_baseline].
  by destruct (booked _ _ _).
Qed.

Lemma restore_marks marks c :
  NoDup marks.*1 ->
  let c' := fold_left restore_mark marks c in
  (forall s, dget (positions c') s = with_marks marks c s) /\
  starting_cash c' = starting_cash c /\ cash c' = cash c /\ realized_cum c' = realized_cum c /\
  fees_cum c' = fees_cum c /\ financing_cum c' = financing_cum c /\ fill_seq c' = fill_seq c /\
  last_close_nav c' = last_close_nav c.
Proof.
  revert c. induction marks as [|[sym t] marks IH]; intros c Hn; [done|].
  cbn [fmap list_fmap fst] in Hn. apply NoDup_cons in Hn as [Hs Hn]. cbn [fold_left].
  destruct (IH (restore_mark c (sym, t)) Hn) as (Hp & Hrest). split; [|exact Hrest].
  intros s. rewrite Hp. unfold with_marks. cbn [dget]. destruct (decide (s = sym)) as [->|Hne].
  - apply dget_None in Hs. rewrite Hs. cbn [restore_mark mark_core set_positions positions fst snd]. by rewrite dget_dset_eq.
  - destruct (dget marks s); unfold position_or; cbn [restore_mark mark_core set_positions positions fst snd];
      by rewrite dget_dset_ne.
Qed.

(** C36: a restart rebuilds the books to the digit. Whatever fills, marks and day
    closes came before, accepted or refused, with no financing booked and no mark
    of zero, the ledger reopened on the database - by any process with the same cost
    method and decimal precision, with any starting cash given - has the same cash, realized P&L, fees, number of fills and
    snapshots, and for every symbol the same position, lots and mark included; the
    baseline of the day comes back as the last snapshot's float, which was
    converted from the baseline in force. *)
Theorem restart_recovers now m start start' ops :
  forallb durable ops = true ->
  let l := ledger_run (create m start) ops in
  exists d, l_db l = Some d /\
  let l' := reopen now m start' d in
  (forall s, position s (l_core l') = position s (l_core l)) /\
  starting_cash (l_core l') = starting_cash (l_core l) /\ cash (l_core l') = cash (l_core l) /\
  realized_cum (l_core l') = realized_cum (l_core l) /\ fees_cum (l_core l') = fees_cum (l_core l) /\
  financing_cum (l_core l') = financing_cum (l_core l) /\ fill_seq (l_core l') = fill_seq (l_core l) /\
  nav_history l' = nav_history l /\
  (forall s, last_snapshot d = Some s ->
   last_close_nav (l_core l') = d_ (VFloat (float_of_dec (last_close_nav (l_core l))))).
Proof.
  intros Hd l. destruct (recoverable_run now m start ops Hd) as [d Hr]. fold l in Hr. exists d.
  destruct Hr as [R1 R2 [R3 R3'] R4 R5 (T1 & T2 & T3 & T4 & T5) R7 R8]. split; [done|].
  unfold reopen, nav_history, recover. rewrite R1, R3, d_dec_str. cbn [l_core l_db].
  change (initial_core (d_ start') (d_ start)) with (set_baseline (d_ start') (new_core (d_ start))).
  rewrite replay_baseline. fold (replayed now m (d_ start) d). set (rc := replayed now m (d_ start) d) in *.
  destruct (restore_marks (db_marks d) (set_baseline (d_ start') rc) R4) as (Hp & H1 & H2 & H3 & H4 & H5 & H6 & H7).
  set (c' := fold_left restore_mark _ _) in *. cbn [set_baseline starting_cash cash realized_cum fees_cum financing_cum fill_seq] in *.
  assert (starting_cash rc = d_ start /\ financing_cum rc = dzero) as [S1 S2].
  { unfold rc, replayed. clear. induction (db_fills d) as [|r rows IH] using rev_ind; [done|].
    rewrite fold_left_app. cbn [fold_left]. set (c0 := fold_left _ _ _) in *. unfold replay_fill.
    rewrite book_fill_booked. by destruct (booked _ _ _). }
  unfold restore_day, position. unfold last_snapshot in *.
  assert (forall s, dget (positions c') s = dget (positions (l_core l)) s) as Hpos by (intros s; by rewrite Hp, R7).
  destruct (List.last (map Some (db_snapshots d)) None) as [sn|]; cbn [positions starting_cash cash realized_cum fees_cum
    financing_cum fill_seq last_close_nav]; split_and!; congruence.
Qed.
End Restart.

(** ** Concrete runs *)

Definition buy (sym : string) (q p : pyval) : ledger_op := OnFill 0 sym "buy" q p (VInt 0) None None None.
Definition sell (sym : string) (q p : pyval) : ledger_op := OnFill 0 sym "sell" q p (VInt 0) None None None.
Definition in_context (c : DecContext) (ops : list ledger_op) : Ledger := @ledger_run c (create Average (VInt 1000)) ops.

(** The difference between equity and the documented sum. *)
Definition identity_gap (l : Ledger) : dec :=
  let c := l_core l in
  let add := @dadd ledger_context in
  let sub := @dsub ledger_context in
  sub (@equity _ (@dec_money ledger_context) c)
    (sub (sub (add (add (starting_cash c) (realized_cum c)) (@unrealized_pnl _ (@dec_money ledger_context) c))
            (fees_cum c)) (financing_cum c)).

(** At the code's precision the identity that "always holds" is off by the rounding
    of the average cost. *)
Theorem identity_off_by_rounding :
  deqb (identity_gap (in_context ledger_context [buy "A" (VInt 1) (VInt 1000000); buy "A" (VInt 2) (VInt 1000001)])) dzero = false.
Proof. vm_compute. reflexivity. Qed.

(** The precision belongs to the thread that imported the module: the same fills
    booked by another thread give another average cost. *)
Theorem precision_depends_on_thread :
  let ops := [buy "A" (VInt 1) (VInt 1); buy "A" (VInt 2) (VInt 2)]%string in
  (avg_cost <$> position "A" (l_core (in_context ledger_context ops))) <>
  (avg_cost <$> position "A" (l_core (in_context default_context ops))).
Proof. vm_compute. discriminate. Qed.

(** Financing costs are not stored: a restart gives the money back. *)
Theorem financing_lost_at_restart :
  let l := in_context ledger_context [AccrueFinancing "A" (VInt 10)] in
  cash (l_core l) = Dec 990 0 /\
  option_map (fun d => cash (l_core (@reopen ledger_context 0 Average (VInt 1000) d))) (l_db l) = Some (Dec 1000 0).
Proof. vm_compute. by split. Qed.

(** Reopened with another starting cash before the first snapshot, the cash is the
    stored one but the baseline of the day is not. *)
Theorem baseline_not_recovered :
  let l := in_context ledger_context [] in
  option_map (fun d => let c := l_core (@reopen ledger_context 0 Average (VInt 5000) d) in
    (cash c, @day_pnl _ (@dec_money ledger_context) c)) (l_db l) = Some (Dec 1000 0, Dec (-4000) 0).
Proof. vm_compute. reflexivity. Qed.

(** A price that is not a number is booked as zero. *)
Theorem bad_price_booked_as_zero :
  let l := in_context ledger_context [sell "A" (VInt 5) (VStr "n/a")] in
  cash (l_core l) = Dec 1000 0 /\ (lp_quantity <$> position "A" (l_core l)) = Some (Dec (-5) 0).
Proof. vm_compute. by split. Qed.

(** Two partial fills at 100 and 110 reported with their cumulative average: the
    second is booked at 105, so the cash is off by five. *)
Theorem increments_booked_at_average :
  let payload q p := [("client_order_id", VStr "o"); ("symbol", VStr "A"); ("side", VStr "buy");
    ("fill_increment", VStr q); ("avg_fill_price", VStr p)]%string in
  let '(l, seen) := @fill_callback ledger_context 0 (payload "1" "100") (in_memory Average (VInt 1000)) [] in
  let '(l, _) := @fill_callback ledger_context 0 (payload "1" "105") l seen in
  cash (l_core l) = Dec 795 0.
Proof. vm_compute. reflexivity. Qed.

Lemma restart_recovers_witness :
  let l := in_context ledger_context [buy "A" (VInt 3) (VStr "10.5"); MarkPrice "A" (VInt 11); EodClose 0 None "eod"] in
  exists d, l_db l = Some d /\
    cash (l_core (@reopen ledger_context 9 Average (VInt 1) d)) = cash (l_core l).
Proof.
  intros l. destruct (@restart_recovers ledger_context 9 Average (VInt 1000) (VInt 1)
    [buy "A" (VInt 3) (VStr "10.5"); MarkPrice "A" (VInt 11); EodClose 0 None "eod"]) as (d & Hd & _ & _ & Hc & _).
  - vm_compute. reflexivity.
  - exists d. split; [exact Hd|exact Hc].
Defined.
