(* ===== verification/Fills.v ===== *)
(** * Fills: [packages/agent/execution/fill_handler.py]

    Events of a broker's feed drive the orders of the engine and the listeners of
    fills: a source hands out events, the handler keeps the cumulative quantity of
    every order, and an order that reached a terminal status ignores later events.

    The callbacks are functions of a listener's own state; an exception they raise is
    swallowed, so that only their effect remains.  The broker's [fetch_order] is a
    parameter.  Quantities and prices are finite decimals. *)
From Stdlib Require Import Ascii String.
From S2P Require Import Prelude PyDecimal DecArith PyFormat PyFloat PyValue PyText PyRepr Sha256 HashChain.
From S2P Require Import Intent Firewall HardCaps RiskChecker Journal Engine.
Open Scope Z_scope.
Open Scope list_scope.

(** ** Events *)

(** [_to_decimal(value, default)] *)
Definition to_decimal (v : option pyval) (dflt : option dec) : option dec :=
  match v with
  | None | Some VNone => dflt
  | Some x => or_else (dec_of_val x) dflt
  end.

Definition EVENT_ALIASES : list (string * string) :=
  [("new", "new"); ("pending_new", "new"); ("accepted", "accepted"); ("open", "accepted");
   ("partially_filled", "partial_fill"); ("partial_fill", "partial_fill"); ("partial", "partial_fill");
   ("fill", "fill"); ("filled", "fill"); ("done_for_day", "fill"); ("canceled", "canceled");
   ("cancelled", "canceled"); ("pending_cancel", "accepted"); ("rejected", "rejected");
   ("error", "rejected"); ("expired", "expired"); ("replaced", "replaced")]%string.

Record FillEvent := MkEvent {
  ev_client_order_id : string;
  event_type : string;
  filled_qty : option dec;
  ev_avg_fill_price : option dec;
  last_fill_qty : option dec;
  last_fill_price : option dec;
  ev_broker_order_id : option string;
  cumulative : bool;
  ev_ts : Z;
  raw : dict
}.

Definition kind (ev : FillEvent) : string :=
  let s := str_lower (event_type ev) in default s (dget EVENT_ALIASES s).

(** [payload.get(k1) or payload.get(k2) or ... or ""] as a text. *)
Fixpoint first_true (payload : dict) (ks : list string) : string :=
  match ks with
  | [] => ""
  | k :: r =>
      match dget payload k with
      | Some v => if val_true v then py_str v else first_true payload r
      | None => first_true payload r
      end
  end.

(** [str(payload[k]) if payload.get(k) else ...] *)
Definition text_if_true (payload : dict) (k : string) : option string :=
  match dget payload k with
  | Some v => if val_true v then Some (py_str v) else None
  | None => None
  end.

(** [payload.get(k, payload.get(k'))] *)
Definition get_or (payload : dict) (k k' : string) : option pyval :=
  or_else (dget payload k) (dget payload k').

Definition from_payload (now : Z) (payload : dict) : FillEvent :=
  MkEvent (first_true payload ["client_order_id"; "client_id"; "clientOrderId"])
    (first_true payload ["event"; "status"; "type"])
    (to_decimal (get_or payload "filled_qty" "cum_qty") None)
    (to_decimal (or_else (dget payload "avg_fill_price") (get_or payload "filled_avg_price" "avg_price")) None)
    (to_decimal (get_or payload "last_fill_qty" "last_qty") None)
    (to_decimal (get_or payload "last_fill_price" "last_price") None)
    (or_else (text_if_true payload "broker_order_id") (text_if_true payload "order_id"))
    (get_bool payload "cumulative" true) now payload.

(** ** Sources *)

(** A source hands out the events available now; [now] stamps those it builds. *)
Class FillSource (S : Type) := poll : Z -> S -> S * list FillEvent.

Record InMemoryFillSource := MkMemory { mem_events : list FillEvent; mem_batch : Z }.

Definition mem_push (ev : FillEvent) (s : InMemoryFillSource) : InMemoryFillSource :=
  MkMemory (mem_events s ++ [ev]) (mem_batch s).

#[export] Instance mem_poll : FillSource InMemoryFillSource := fun _ s =>
  match mem_events s with
  | [] => (s, [])
  | l =>
      if mem_batch s <=? 0 then (MkMemory [] (mem_batch s), l)
      else
        let n := Z.to_nat (mem_batch s) in
        (MkMemory (drop n l) (mem_batch s), take n l)
  end.

(** The queue a broker's push feed fills; polling drains it. *)
Record CallbackFillSource := MkCallback { cb_queue : list FillEvent }.

Definition cb_push (ev : FillEvent) (s : CallbackFillSource) : CallbackFillSource :=
  MkCallback (cb_queue s ++ [ev]).

Definition cb_push_payload (now : Z) (payload : dict) (s : CallbackFillSource) : CallbackFillSource :=
  cb_push (from_payload now payload) s.

#[export] Instance cb_poll : FillSource CallbackFillSource := fun _ s => (MkCallback [], cb_queue s).

(** The polled broker: [F] is its state, [Raise] any exception.  [pl_tracked] holds
    the last status and quantity reported per order. *)
Record PollingFillSource (F : Type) := MkPolling {
  pl_broker : F;
  pl_tracked : list (string * option (string * string))
}.
Arguments MkPolling {F}.
Arguments pl_broker {F}.
Arguments pl_tracked {F}.

Section Polling.
Context {F : Type} (fetch : F -> string -> F * pyres unit (option dict)).

Definition track (coid : string) (s : PollingFillSource F) : PollingFillSource F :=
  match dget (pl_tracked s) coid with
  | Some _ => s
  | None => MkPolling (pl_broker s) (dset (pl_tracked s) coid None)
  end.

Definition untrack (coid : string) (s : PollingFillSource F) : PollingFillSource F :=
  MkPolling (pl_broker s) (ddel (pl_tracked s) coid).

Definition ends_tracking (k : string) : bool :=
  bool_decide (k ∈ ["fill"; "canceled"; "rejected"; "expired"]%string).

(** The status and the cumulative quantity of an answer, as texts. *)
Definition signature (info : dict) : string * string :=
  (str_lower (py_str (default (default (VStr "") (dget info "event")) (dget info "status"))),
   dec_str (default dzero (to_decimal (get_or info "filled_qty" "cum_qty") (Some dzero))))%string.

Definition polled_event (now : Z) (coid : string) (info : dict) : FillEvent :=
  from_payload now
    (dict_update info [("client_order_id", VStr coid); ("cumulative", VBool true)]%string).

(** The body of the loop for one order. *)
Definition poll_one (now : Z) (st : PollingFillSource F * list FillEvent) (coid : string) :
    PollingFillSource F * list FillEvent :=
  let '(s, out) := st in
  let '(b, r) := fetch (pl_broker s) coid in
  let s := MkPolling b (pl_tracked s) in
  match r with
  | Raise _ | Ok None | Ok (Some []) => (s, out)
  | Ok (Some info) =>
      if bool_decide (dget (pl_tracked s) coid = Some (Some (signature info))) then (s, out)
      else
        let s := MkPolling b (dset (pl_tracked s) coid (Some (signature info))) in
        let ev := polled_event now coid info in
        (if ends_tracking (kind ev) then untrack coid s else s, out ++ [ev])
  end.

#[export] Instance polling_poll : FillSource (PollingFillSource F) := fun now s =>
  fold_left (poll_one now) (pl_tracked s).*1 (s, []).
End Polling.

(** ** The handler *)

Record FillState := MkState {
  cum_qty : dec;
  cum_notional : dec;
  avg_price : option dec;
  terminal : bool
}.

Definition new_state : FillState := MkState dzero dzero None false.

Definition is_fill (k : string) : bool := bool_decide (k = "partial_fill" \/ k = "fill")%string.

(** The new cumulative quantity and the increment an event reports. *)
Definition reported_amount (st : FillState) (ev : FillEvent) (order_qty : dec) : dec * dec :=
  match cumulative ev, filled_qty ev, last_fill_qty ev with
  | true, Some q, _ => (q, dsub q (cum_qty st))
  | _, _, Some l => (dadd (cum_qty st) l, l)
  | _, Some q, None => (q, dsub q (cum_qty st))
  | _, None, None => (order_qty, dsub order_qty (cum_qty st))
  end.

(** A feed that goes back is ignored. *)
Definition fill_amount (st : FillState) (ev : FillEvent) (order_qty : dec) : dec * dec :=
  let '(new_cum, inc) := reported_amount st ev order_qty in
  if dltb inc dzero then (cum_qty st, dzero) else (new_cum, inc).

(** The average is the broker's, or that of the prices of the increments. *)
Definition book_amount (st : FillState) (ev : FillEvent) (new_cum inc : dec) : FillState :=
  match ev_avg_fill_price ev with
  | Some p => MkState new_cum (dmul p new_cum) (Some p) (terminal st)
  | None =>
      let notional :=
        match last_fill_price ev with
        | Some fp => if dltb dzero inc then dadd (cum_notional st) (dmul fp inc) else cum_notional st
        | None => cum_notional st
        end in
      MkState new_cum notional
        (if dltb dzero new_cum then ddiv notional new_cum else avg_price st) (terminal st)
  end.

(** The bookkeeping of an event, with the increment it brings. *)
Definition book_event (st : FillState) (ev : FillEvent) (order_qty : dec) : FillState * dec :=
  if is_fill (kind ev) then
    let '(new_cum, inc) := fill_amount st ev order_qty in (book_amount st ev new_cum inc, inc)
  else (st, dzero).

Definition KIND_TO_STATUS : list (string * OrderStatus) :=
  [("new", SUBMITTED); ("accepted", ACCEPTED); ("replaced", ACCEPTED);
   ("partial_fill", PARTIALLY_FILLED); ("fill", FILLED); ("canceled", CANCELLED);
   ("rejected", REJECTED); ("expired", EXPIRED)]%string.

(** The status an event leads to: 'fill' below the ordered quantity is partial, and
    'partial' that reaches it is full. *)
Definition final_status (k : string) (s : OrderStatus) (order_qty cum : dec) : OrderStatus :=
  let s :=
    if bool_decide (k = "fill"%string) && dltb dzero order_qty && dltb cum order_qty then
      if dltb dzero cum then PARTIALLY_FILLED else ACCEPTED
    else s in
  if bool_decide (k = "partial_fill"%string) && dltb dzero order_qty && dleb order_qty cum
  then FILLED else s.

Definition is_terminal (s : OrderStatus) : bool :=
  bool_decide (s = FILLED \/ s = CANCELLED \/ s = REJECTED \/ s = EXPIRED).

Definition set_terminal (b : bool) (st : FillState) : FillState :=
  MkState (cum_qty st) (cum_notional st) (avg_price st) b.

Definition fill_payload (ev : FillEvent) (o : Order) (s : OrderStatus) (st : FillState)
    (inc leaves : dec) : dict :=
  [("client_order_id", VStr (ev_client_order_id ev));
   ("broker_order_id", v_opt_str (ev_broker_order_id ev));
   ("symbol", VStr (o_symbol o)); ("side", VStr (o_side o));
   ("status", VStr (order_status_value s)); ("filled_qty", VStr (dec_str (cum_qty st)));
   ("fill_increment", VStr (dec_str inc)); ("leaves_qty", VStr (dec_str leaves));
   ("avg_fill_price", v_opt_str (dec_str <$> avg_price st));
   ("ts", VStr (isoformat (ev_ts ev)))]%string.

Record Callbacks (L : Type) := MkCallbacks {
  on_fill : option (L -> dict -> L);
  on_child_fill : option (L -> string -> dec -> option dec -> L)
}.
Arguments MkCallbacks {L}.
Arguments on_fill {L}.
Arguments on_child_fill {L}.

(** The engine, the handler's states and the listeners. *)
Record Desk (L : Type) := MkDesk {
  d_engine : Engine;
  d_state : list (string * FillState);
  d_listener : L
}.
Arguments MkDesk {L}.
Arguments d_engine {L}.
Arguments d_state {L}.
Arguments d_listener {L}.

Section Handler.
Context `{Digest} {L : Type} (cbs : Callbacks L).

Definition state_of (coid : string) (d : Desk L) : FillState :=
  default new_state (dget (d_state d) coid).

Definition filled_quantity (coid : string) (d : Desk L) : dec := cum_qty (state_of coid d).

Definition leaves (coid : string) (d : Desk L) : dec :=
  match get_order_by_client_id coid (d_engine d) with
  | None => dzero
  | Some o =>
      let rem := dsub (quantity o) (filled_quantity coid d) in if dltb dzero rem then rem else dzero
  end.

Definition avg_fill_price (coid : string) (d : Desk L) : option dec := avg_price (state_of coid d).

Definition set_state (coid : string) (st : FillState) (d : Desk L) : Desk L :=
  MkDesk (d_engine d) (dset (d_state d) coid st) (d_listener d).

(** The notifications of a processed event. *)
Definition notify (ev : FillEvent) (st : FillState) (payload : dict) (l : L) : L :=
  let l :=
    match on_child_fill cbs with
    | Some f =>
        if is_fill (kind ev) then f l (ev_client_order_id ev) (cum_qty st) (avg_price st) else l
    | None => l
    end in
  match on_fill cbs with
  | Some f => f l payload
  | None => l
  end.

(** The state after the status of the event is known. *)
Definition advance (now : Z) (ev : FillEvent) (o : Order) (st : FillState) (inc : dec)
    (s : OrderStatus) (d : Desk L) : Desk L * option Order :=
  let coid := ev_client_order_id ev in
  let s := final_status (kind ev) s (quantity o) (cum_qty st) in
  let st := set_terminal (is_terminal s) st in
  let '(e, updated) :=
    update_order_status (d_engine d) now coid s
      (if dltb dzero (cum_qty st) then Some (cum_qty st) else None) (avg_price st)
      (ev_broker_order_id ev) (text_if_true (raw ev) "error") in
  let leaves := if dltb (cum_qty st) (quantity o) then dsub (quantity o) (cum_qty st) else dzero in
  (MkDesk e (dset (d_state d) coid st)
     (notify ev st (fill_payload ev o s st inc leaves) (d_listener d)), updated).

Definition handle_event (now : Z) (ev : FillEvent) (d : Desk L) : Desk L * option Order :=
  let coid := ev_client_order_id ev in
  match get_order_by_client_id coid (d_engine d) with
  | None => (d, None)
  | Some o =>
      let st := state_of coid d in
      let d := set_state coid st d in
      if terminal st then (d, Some o)
      else
        let '(st, inc) := book_event st ev (quantity o) in
        match dget KIND_TO_STATUS (kind ev) with
        | None => (set_state coid st d, Some o)
        | Some s => advance now ev o st inc s d
        end
  end.

Definition handle_events (now : Z) (evs : list FillEvent) (d : Desk L) : Desk L :=
  fold_left (fun d ev => (handle_event now ev d).1) evs d.

(** One batch: the events in order, counting those of known orders. *)
Definition handle_batch (now : Z) (evs : list FillEvent) (d : Desk L) (handled : Z) : Desk L * Z :=
  fold_left (fun p ev =>
    let '(d, n) := p in
    let '(d, r) := handle_event now ev d in
    (d, match r with Some _ => n + 1 | None => n end)) evs (d, handled).

Section Consume.
Context {S : Type} `{FillSource S}.

Fixpoint consume_loop (batches : nat) (now : Z) (src : S) (d : Desk L) (handled : Z) : S * Desk L * Z :=
  match batches with
  | O => (src, d, handled)
  | Datatypes.S k =>
      let '(src, events) := poll now src in
      match events with
      | [] => (src, d, handled)
      | _ => let '(d, handled) := handle_batch now events d handled in
             consume_loop k now src d handled
      end
  end.

Definition consume (now : Z) (src : S) (max_batches : Z) (d : Desk L) : S * Desk L * Z :=
  consume_loop (Z.to_nat (Z.max 1 max_batches)) now src d 0.
End Consume.
End Handler.
