(* ===== verification/FillsProps.v ===== *)
(** * What the fill handler guarantees

    The handler of [Fills] with its engine and the ledger of [Ledger] as listener:
    cumulative quantities never go back and an order that reached a terminal status
    is left alone; the ledger books, per order, exactly the quantity the handler
    holds; cutting a feed into batches makes no difference. *)
From Stdlib Require Import QArith Qabs Lqa.
From Stdlib Require Import Ascii String.
From S2P Require Import Prelude PyDecimal DecArith PyFormat PyFloat PyValue PyText PyRepr Sha256 HashChain.
From S2P Require Import Intent Firewall HardCaps RiskChecker Journal Engine EngineProps EngineJournal Ledger Fills.
Open Scope Z_scope.
Open Scope list_scope.

(** ** The amount of one event *)

Section Amounts.
Context (g : Z).

Definition event_grid (m : Z) (ev : FillEvent) : Prop :=
  opt_grid g m (filled_qty ev) /\ opt_grid g m (last_fill_qty ev).

(** The cumulative quantity of a state: on the grid, not negative. *)
Definition cum_ok (m : Z) (st : FillState) : Prop := grid g m (cum_qty st) /\ (0 <= dval (cum_qty st))%Q.

Lemma fill_amount_ok m k st ev oq :
  0 <= g -> (k * m + m) * 10 ^ g < 10 ^ prec -> 0 <= m -> 0 <= k ->
  cum_ok (k * m) st -> event_grid m ev -> grid g m oq ->
  let '(c, i) := fill_amount st ev oq in
  grid g (k * m + m) c /\ (dval c == dval (cum_qty st) + dval i)%Q /\ (0 <= dval i)%Q.
Proof.
  intros Hg Hm Hm0 Hk [Hc Hc0] [Hf Hl] Ho. unfold fill_amount.
  assert (let '(c, i) := reported_amount st ev oq in grid g (k * m + m) c /\ (dval c == dval (cum_qty st) + dval i)%Q) as Hp.
  { assert (Hsub : forall q, grid g m q ->
      grid g (k * m + m) q /\ (dval q == dval (cum_qty st) + dval (dsub q (cum_qty st)))%Q).
    { intros q Hq. split; [apply (grid_mono g m); [nia|done]|].
      destruct (grid_sub g m (k * m) q (cum_qty st) Hg ltac:(lia) Hq Hc) as [-> _]. ring. }
    assert (Hadd : forall l, grid g m l -> grid g (k * m + m) (dadd (cum_qty st) l) /\
      (dval (dadd (cum_qty st) l) == dval (cum_qty st) + dval l)%Q).
    { intros l Hl'. destruct (grid_add g (k * m) m (cum_qty st) l Hg Hm Hc Hl'). done. }
    unfold reported_amount. destruct (cumulative ev), (filled_qty ev), (last_fill_qty ev); cbn in Hf, Hl; auto. }
  destruct (reported_amount st ev oq) as [c i]. destruct Hp as [Hgc Hv]. destruct (dltb i dzero) eqn:Ei.
  - split_and!; [apply (grid_mono g (k * m)); [lia|done]|rewrite dval_zero; ring|by rewrite dval_zero].
  - apply dltb_false in Ei. rewrite dval_zero in Ei. done.
Qed.

(** Booking an event adds its increment, and whatever was booked has a price. *)
Lemma book_event_ok m k st ev oq :
  0 <= g -> (k * m + m) * 10 ^ g < 10 ^ prec -> 0 <= m -> 0 <= k ->
  cum_ok (k * m) st -> event_grid m ev -> grid g m oq ->
  let '(st', i) := book_event st ev oq in
  cum_ok (k * m + m) st' /\ (dval (cum_qty st') == dval (cum_qty st) + dval i)%Q /\ (0 <= dval i)%Q /\
  ((0 < dval i)%Q -> is_Some (avg_price st')).
Proof.
  intros Hg Hm Hm0 Hk Hc He Ho. unfold book_event. destruct (is_fill (kind ev)).
  - pose proof (fill_amount_ok m k st ev oq Hg Hm Hm0 Hk Hc He Ho) as Ha.
    destruct (fill_amount st ev oq) as [c i]. destruct Ha as (Hgc & Hv & Hi). destruct Hc as [_ Hc0].
    assert (cum_qty (book_amount st ev c i) = c) as Hcq by (unfold book_amount; by destruct (ev_avg_fill_price ev)).
    split_and!; [split; rewrite Hcq; [done|lra]|by rewrite Hcq|done|].
    intros Hpos. unfold book_amount. destruct (ev_avg_fill_price ev); cbn [avg_price]; [done|].
    assert (0 < dval c)%Q as Hcp by lra. rewrite (proj2 (dltb_spec _ _)) by (rewrite dval_zero; lra).
    by apply ddiv_some.
  - destruct Hc as [Hc Hc0]. split_and!; [split; [apply (grid_mono g (k * m)); [lia|done]|done]| | |].
    + rewrite dval_zero. ring.
    + by rewrite dval_zero.
    + rewrite dval_zero. intros []%Qlt_irrefl.
Qed.
End Amounts.

(** ** The engine's order after an update *)

Section Updates.
Context `{Digest}.

Lemma journal_status_orders now eid s b e :
  en_orders (journal_status now eid s b e) = en_orders e /\
  en_by_client (journal_status now eid s b e) = en_by_client e.
Proof. done. Qed.

(** Looking an order up after [update_order_status]: the orders kept under the
    updated order's key show the new one, the others are as before. *)
Lemma update_lookup e now coid s fq afp boid err o coid' :
  get_order_by_client_id coid e = Some o ->
  let e' := (update_order_status e now coid s fq afp boid err).1 in
  get_order_by_client_id coid' e' =
    match dget (en_by_client e) coid' with
    | Some k => if decide (k = order_id o) then Some (updated_order now s fq afp boid err o)
                else dget (en_orders e) k
    | None => None
    end.
Proof.
  intros Ho. unfold update_order_status. rewrite Ho. cbn zeta.
  set (o' := updated_order _ _ _ _ _ _ _). set (e1 := set_orders _ e).
  assert (forall e', en_orders e' = en_orders e1 -> en_by_client e' = en_by_client e1 ->
    get_order_by_client_id coid' e' =
    match dget (en_by_client e) coid' with
    | Some k => if decide (k = order_id o) then Some o' else dget (en_orders e) k
    | None => None
    end) as Hl.
  { intros e' E1 E2. unfold get_order_by_client_id. rewrite E1, E2. unfold e1. cbn.
    destruct (dget (en_by_client e) coid') as [k|]; [|done]. cbn.
    destruct (decide (k = order_id o)) as [->|Hk]; [by rewrite dget_dset_eq|by rewrite dget_dset_ne]. }
  cbn [fst]. destruct (truthy _); [|by apply Hl].
  destruct (journal_status_of s); by apply Hl.
Qed.

Lemma update_result e now coid s fq afp boid err o :
  get_order_by_client_id coid e = Some o ->
  (update_order_status e now coid s fq afp boid err).2 = Some (updated_order now s fq afp boid err o).
Proof. intros Ho. unfold update_order_status. by rewrite Ho. Qed.

Lemma updated_order_terms now s fq afp boid err o :
  let o' := updated_order now s fq afp boid err o in
  o_symbol o' = o_symbol o /\ o_side o' = o_side o /\ quantity o' = quantity o /\
  order_id o' = order_id o /\ status o' = s /\ Engine.filled_quantity o' = default (Engine.filled_quantity o) fq.
Proof. by destruct s. Qed.

(** A property of an order's terms holds of all orders after an update. *)
Lemma update_keeps_terms (P : string -> string -> dec -> Prop) e now coid s fq afp boid err :
  (forall c o, get_order_by_client_id c e = Some o -> P (o_symbol o) (o_side o) (quantity o)) ->
  let e' := (update_order_status e now coid s fq afp boid err).1 in
  forall c o, get_order_by_client_id c e' = Some o -> P (o_symbol o) (o_side o) (quantity o).
Proof.
  intros HP e' c o' Ho'. destruct (get_order_by_client_id coid e) as [o|] eqn:Ho.
  - unfold e' in Ho'. rewrite (update_lookup _ _ _ _ _ _ _ _ o) in Ho' by done.
    destruct (dget (en_by_client e) c) as [k|] eqn:Hk; [|done].
    destruct (decide (k = order_id o)).
    + injection Ho' as <-. destruct (updated_order_terms now s fq afp boid err o) as (-> & -> & -> & _).
      by apply (HP coid).
    + apply (HP c). unfold get_order_by_client_id. by rewrite Hk.
  - unfold e', update_order_status in Ho'. rewrite Ho in Ho'. by apply (HP c).
Qed.
End Updates.

(** ** The ledger as a listener *)

(** The quantity booked for an order, from the table of fills. *)
Fixpoint booked_rows (coid : string) (rows : list FillRow) : Q :=
  match rows with
  | [] => 0%Q
  | r :: rest =>
      ((if decide (fr_client_order_id r = Some coid) then dval (d_ (VStr (fr_quantity r))) else 0)
       + booked_rows coid rest)%Q
  end.

Lemma booked_rows_app coid l l' : (booked_rows coid (l ++ l') == booked_rows coid l + booked_rows coid l')%Q.
Proof. induction l as [|r l IH]; cbn [app booked_rows]; [ring|rewrite IH; ring]. Qed.

Definition booked (coid : string) (l : Ledger) : Q :=
  match l_db l with
  | Some d => booked_rows coid (db_fills d)
  | None => 0%Q
  end.

(** The listener: the ledger with the callback's table of quantities seen, and the
    state of a child executor. *)
Definition Books (C : Type) : Type := (Ledger * list (string * dec)) * C.

Section Listener.
Context `{Digest} (lc : DecContext) {C : Type}.
Context (child : option (C -> string -> dec -> option dec -> C)).

Definition ledger_of (b : Books C) : Ledger := b.1.1.

Definition desk_callbacks (now : Z) : Callbacks (Books C) :=
  MkCallbacks
    (Some (fun b payload => (@fill_callback lc now payload b.1.1 b.1.2, b.2)))
    ((fun f b coid q a => (b.1, f b.2 coid q a)) <$> child).

Lemma dec_str_price d : exists c r, dec_str d = String c r /\ dec_str d <> "None"%string.
Proof.
  pose proof (dec_of_dec_str d) as Hd. destruct (dec_str d) as [|c r] eqn:E.
  - vm_compute in Hd. done.
  - exists c, r. split; [done|]. intros En. rewrite En in Hd. vm_compute in Hd. done.
Qed.

(** What an increment adds to the ledger. *)
Lemma callback_books now ev o s st inc lv l seen c :
  let coid := ev_client_order_id ev in
  coid <> ""%string -> o_symbol o <> ""%string -> (o_side o = "buy" \/ o_side o = "sell")%string ->
  is_Some (l_db l) -> (0 <= dval inc)%Q -> ((0 < dval inc)%Q -> is_Some (avg_price st)) ->
  let '(l', _) := @fill_callback lc now (fill_payload ev o s st inc lv) l seen in
  is_Some (l_db l') /\
  (booked c l' == booked c l + (if decide (c = coid) then dval inc else 0))%Q.
Proof.
  intros coid Hcoid Hsym Hside Hdb Hinc Hprice. unfold fill_callback.
  change (text_or_empty (fill_payload ev o s st inc lv) "client_order_id") with coid.
  change (text_or_empty (fill_payload ev o s st inc lv) "symbol") with (o_symbol o).
  change (text_or_empty (fill_payload ev o s st inc lv) "side") with (o_side o).
  change (dget (fill_payload ev o s st inc lv) "avg_fill_price"%string)
    with (Some (v_opt_str (dec_str <$> avg_price st))).
  change (dget (fill_payload ev o s st inc lv) "fill_increment"%string) with (Some (VStr (dec_str inc))).
  cbv zeta. rewrite (bool_decide_false (o_symbol o = _)), (bool_decide_true (_ \/ _)) by done.
  cbn [orb negb default]. assert (Hzero : (dval inc == 0)%Q -> is_Some (l_db l) /\
    (booked c l == booked c l + (if decide (c = coid) then dval inc else 0))%Q).
  { intros Hz. split; [done|]. destruct (decide (c = coid)); [rewrite Hz|]; ring. }
  destruct (avg_price st) as [p|] eqn:Ep; cbn [fmap option_fmap option_map v_opt_str].
  - rewrite bool_decide_false.
    2: { intros Hin. destruct (dec_str_price p) as (ch & r & Hs & Hn).
         set_unfold in Hin. destruct Hin as [Hx|[Hx|[Hx|Hx]]]; try done; injection Hx; congruence. }
    unfold id. rewrite d_dec_str. destruct (dleb inc dzero) eqn:Ez.
    { apply dleb_spec in Ez. rewrite dval_zero in Ez. apply Hzero. lra. }
    rewrite bool_decide_false by done. unfold Ledger.on_fill.
    assert (str_lower (o_side o) = o_side o) as -> by (by destruct Hside as [-> | ->]).
    rewrite bool_decide_true by done. cbn [negb]. change (d_ (VDec inc)) with inc. rewrite Ez.
    unfold apply_fill. destruct (book_fill _ _ _) as [core r]. unfold booked. destruct Hdb as [db ->].
    cbn. split; [done|]. rewrite booked_rows_app.
    cbn [booked_rows fill_row fr_client_order_id fr_quantity f_client_order_id f_quantity].
    rewrite d_dec_str.
    destruct (decide (c = coid)) as [->|Hne].
    + rewrite decide_True by done. ring.
    + rewrite decide_False by congruence. ring.
  - rewrite bool_decide_true by (clear; set_solver). apply Hzero.
    destruct (Qlt_le_dec 0 (dval inc)) as [Hp|Hp]; [by destruct (Hprice Hp)|lra].
Qed.

(** ** A run of the desk

    Between the events of the feed the engine may do anything: place, cancel or
    replace orders, whose terms must be sensible. *)
Context (g m : Z) (Hg : 0 <= g) (Hm : 0 <= m).

Inductive desk_step :=
  | FillArrives (now : Z) (ev : FillEvent)
  | EngineActs (e : Engine).

Definition desk_do (d : Desk (Books C)) (s : desk_step) : Desk (Books C) :=
  match s with
  | FillArrives now ev => (handle_event (desk_callbacks now) now ev d).1
  | EngineActs e => MkDesk e (d_state d) (d_listener d)
  end.

Definition desk_run (d : Desk (Books C)) (steps : list desk_step) : Desk (Books C) :=
  fold_left desk_do steps d.

(** A symbol, a side the ledger books, a quantity on the grid. *)
Definition sensible (sym side : string) (q : dec) : Prop :=
  sym <> ""%string /\ (side = "buy" \/ side = "sell")%string /\ grid g m q.

Definition orders_sensible (e : Engine) : Prop :=
  forall coid o, get_order_by_client_id coid e = Some o ->
    sensible (o_symbol o) (o_side o) (quantity o).

Definition step_sensible (s : desk_step) : Prop :=
  match s with
  | FillArrives _ ev => event_grid g m ev /\ ev_client_order_id ev <> ""%string
  | EngineActs e => orders_sensible e
  end.

(** After [k] steps: quantities on the grid, the ledger in line with the handler
    up to what it held before. *)
Record in_line (base : string -> Q) (k : Z) (d : Desk (Books C)) : Prop := {
  il_orders : orders_sensible (d_engine d);
  il_db : is_Some (l_db (ledger_of (d_listener d)));
  il_cum : forall coid, cum_ok g (k * m) (state_of coid d);
  il_booked : forall coid,
    (booked coid (ledger_of (d_listener d)) == base coid + dval (filled_quantity coid d))%Q
}.

Lemma in_line_mono base k k' d : k <= k' -> in_line base k d -> in_line base k' d.
Proof.
  intros Hk [H1 H2 H3 H4]. split; [done..| |done]. intros coid. destruct (H3 coid) as [Hc H0].
  split; [|done]. apply (grid_mono g (k * m)); [nia|done].
Qed.

Lemma state_of_set coid coid' st (d : Desk (Books C)) :
  state_of coid (set_state coid' st d) = if decide (coid = coid') then st else state_of coid d.
Proof.
  unfold state_of, set_state. cbn. destruct (decide (coid = coid')) as [->|Hn];
    [by rewrite dget_dset_eq|by rewrite dget_dset_ne].
Qed.

(** Storing a state that holds the same quantity changes nothing that matters. *)
Lemma in_line_set base k coid st d :
  in_line base k d -> cum_qty st = cum_qty (state_of coid d) ->
  in_line base k (set_state coid st d).
Proof.
  intros [H1 H2 H3 H4] Hst.
  assert (forall c, cum_qty (state_of c (set_state coid st d)) = cum_qty (state_of c d)) as Hc.
  { intros c. rewrite state_of_set. by destruct (decide (c = coid)) as [->|]. }
  split; [done..| |].
  - intros c. unfold cum_ok. rewrite Hc. apply H3.
  - intros c. unfold filled_quantity. rewrite Hc. apply H4.
Qed.

Lemma cum_ok_mono k k' st : k <= k' -> cum_ok g (k * m) st -> cum_ok g (k' * m) st.
Proof. intros Hk [Hc H0]. split; [|done]. apply (grid_mono g (k * m)); [nia|done]. Qed.

Lemma not_fill_unmapped ev : dget KIND_TO_STATUS (kind ev) = None -> is_fill (kind ev) = false.
Proof.
  intros Hn. apply bool_decide_eq_false. by intros [Hk|Hk]; rewrite Hk in Hn.
Qed.

(** The listeners of a processed event. *)
Lemma notify_books now ev o s st inc lv b c :
  ev_client_order_id ev <> ""%string -> sensible (o_symbol o) (o_side o) (quantity o) ->
  is_Some (l_db (ledger_of b)) -> (0 <= dval inc)%Q -> ((0 < dval inc)%Q -> is_Some (avg_price st)) ->
  let b' := notify (desk_callbacks now) ev st (fill_payload ev o s st inc lv) b in
  is_Some (l_db (ledger_of b')) /\
  (booked c (ledger_of b') ==
   booked c (ledger_of b) + (if decide (c = ev_client_order_id ev) then dval inc else 0))%Q.
Proof.
  intros Hid (Hsym & Hside & _) Hdb Hinc Hp. destruct b as [[l seen] x]. unfold notify. cbn [desk_callbacks on_fill on_child_fill].
  pose proof (callback_books now ev o s st inc lv l seen c Hid Hsym Hside Hdb Hinc Hp) as Hb.
  assert (forall y : C, let b' := (@fill_callback lc now (fill_payload ev o s st inc lv) l seen, y) in
    is_Some (l_db (ledger_of b')) /\
    (booked c (ledger_of b') ==
     booked c l + (if decide (c = ev_client_order_id ev) then dval inc else 0))%Q) as Hall.
  { intros y. unfold ledger_of. cbn [fst]. by destruct (fill_callback _ _ _ _). }
  destruct child as [f|]; cbn [fmap option_fmap option_map]; [|apply (Hall x)].
  destruct (is_fill (kind ev)); apply Hall.
Qed.

Lemma in_line_advance base k now ev o st inc s d :
  let coid := ev_client_order_id ev in
  coid <> ""%string -> get_order_by_client_id coid (d_engine d) = Some o -> in_line base k d ->
  cum_ok g (k * m + m) st -> (dval (cum_qty st) == dval (filled_quantity coid d) + dval inc)%Q ->
  (0 <= dval inc)%Q -> ((0 < dval inc)%Q -> is_Some (avg_price st)) ->
  in_line base (k + 1) (advance (desk_callbacks now) now ev o st inc s d).1.
Proof.
  intros coid Hid Ho [H1 H2 H3 H4] Hc Hcum Hinc Hp. unfold advance. fold coid.
  set (s' := final_status _ _ _ _). set (st' := set_terminal _ st).
  destruct (update_order_status _ _ _ _ _ _ _ _) as [e r] eqn:Eu. cbn [fst].
  match goal with |- context [fill_payload _ _ _ _ _ ?x] => set (lv := x) end.
  pose proof (fun c => notify_books now ev o s' st' inc lv (d_listener d) c Hid (H1 _ _ Ho) H2 Hinc Hp) as Hn.
  set (b := notify _ _ _ _ _) in *. cbv zeta in Hn.
  assert (forall c, state_of c (MkDesk e (dset (d_state d) coid st') b)
                    = if decide (c = coid) then st' else state_of c d) as Hst.
  { intros c. apply (state_of_set c coid st' d). }
  split.
  - cbn [d_engine]. replace e with (e, r).1 by done. rewrite <- Eu.
    exact (update_keeps_terms sensible _ _ _ _ _ _ _ _ H1).
  - apply (Hn coid).
  - intros c. rewrite Hst. destruct (decide (c = coid)) as [->|].
    + replace ((k + 1) * m) with (k * m + m) by ring. exact Hc.
    + apply (cum_ok_mono k); [lia|apply H3].
  - intros c. unfold filled_quantity. rewrite Hst.
    cbn [d_listener]. rewrite (proj2 (Hn c)), H4. fold coid. destruct (decide (c = coid)) as [->|].
    + cbn [st' set_terminal cum_qty]. rewrite Hcum. ring.
    + unfold filled_quantity. ring.
Qed.

Lemma in_line_handle base k now ev d :
  0 <= k -> (k * m + m) * 10 ^ g < 10 ^ 28 -> event_grid g m ev ->
  ev_client_order_id ev <> ""%string -> in_line base k d ->
  in_line base (k + 1) (handle_event (desk_callbacks now) now ev d).1.
Proof.
  intros Hk Hf Hev Hid Hd. unfold handle_event. set (coid := ev_client_order_id ev) in *.
  destruct (get_order_by_client_id _ _) as [o|] eqn:Ho; [|by apply (in_line_mono base k); [lia|]].
  pose proof (in_line_set base k _ (state_of coid d) d Hd eq_refl) as Hd'.
  destruct (terminal _); [by apply (in_line_mono base k); [lia|]|].
  destruct (il_orders _ _ _ Hd _ _ Ho) as (_ & _ & Hq).
  pose proof (book_event_ok g m k (state_of coid d) ev (quantity o) Hg Hf Hm Hk (il_cum _ _ _ Hd coid) Hev Hq)
    as Hb.
  destruct (dget KIND_TO_STATUS (kind ev)) as [s|] eqn:Es.
  - destruct (book_event _ _ _) as [st inc]. destruct Hb as (Hc & Hcum & Hinc & Hp).
    apply in_line_advance; try done. rewrite Hcum. unfold filled_quantity. rewrite state_of_set.
    by rewrite decide_True.
  - unfold book_event. rewrite (not_fill_unmapped ev Es). cbn [fst].
    apply (in_line_mono base k); [lia|]. apply in_line_set; [done|]. by rewrite state_of_set, decide_True.
Qed.

Lemma in_line_run base steps d k :
  0 <= k -> (k + Z.of_nat (List.length steps)) * m * 10 ^ g < 10 ^ 28 ->
  Forall step_sensible steps -> in_line base k d ->
  in_line base (k + Z.of_nat (List.length steps)) (desk_run d steps).
Proof.
  revert d k. induction steps as [|s steps IH]; intros d k Hk Hf Hs Hd.
  - cbn [List.length]. rewrite Z.add_0_r. exact Hd.
  - apply Forall_cons in Hs as [Hs Hss]. cbn [List.length] in *. rewrite Nat2Z.inj_succ in *.
    replace (k + Z.succ (Z.of_nat (List.length steps)))
      with (k + 1 + Z.of_nat (List.length steps)) in * by lia.
    cbn [desk_run fold_left]. apply IH; [lia|done|done|].
    destruct s as [now ev|e].
    + destruct Hs as [He Hid]. apply in_line_handle; try done.
      eapply Z.le_lt_trans; [|exact Hf]. apply Z.mul_le_mono_nonneg_r; [|nia].
      apply Z.pow_nonneg. lia.
    + destruct Hd as [H1 H2 H3 H4]. split; [done|done| |done].
      intros c. apply (cum_ok_mono k); [lia|apply H3].
Qed.

(** C26: The ledger that listens to a fresh fill handler books, for every order, exactly
    the cumulative quantity the handler holds: through partial fills, reports that
    are repeated or go back, increments and running totals, late events, and
    whatever the engine does in between.  Quantities have [g] digits after the point
    and are so bounded that their sums have at most 28 digits. *)
Theorem ledger_books_executions steps d :
  Z.of_nat (List.length steps) * m * 10 ^ g < 10 ^ 28 ->
  d_state d = [] -> is_Some (l_db (ledger_of (d_listener d))) ->
  orders_sensible (d_engine d) -> Forall step_sensible steps ->
  let d' := desk_run d steps in
  forall coid,
    (booked coid (ledger_of (d_listener d')) ==
     booked coid (ledger_of (d_listener d)) + dval (filled_quantity coid d'))%Q.
Proof.
  intros Hf Hst Hdb Ho Hs d'.
  apply (il_booked (fun c => booked c (ledger_of (d_listener d))) (0 + Z.of_nat (List.length steps)) d').
  apply in_line_run; [lia|done|done|].
  assert (forall c, state_of c d = new_state) as Hn by (intros c; unfold state_of; by rewrite Hst).
  split; [done|done| |].
  - intros c. rewrite Hn. split; [by apply grid_zero|]. cbn [new_state cum_qty]. by rewrite dval_zero.
  - intros c. unfold filled_quantity. rewrite Hn. cbn [new_state cum_qty]. rewrite dval_zero. ring.
Qed.
End Listener.

(** ** One event *)

Section Outcome.
Context `{Digest} {L : Type} (cbs : Callbacks L).

(** What the handler answers and stores once the status of an event is known. *)
Lemma advance_outcome now ev o st inc s (d : Desk L) :
  let coid := ev_client_order_id ev in
  dget (en_by_client (d_engine d)) coid = Some (order_id o) ->
  get_order_by_client_id coid (d_engine d) = Some o ->
  let t := final_status (kind ev) s (quantity o) (cum_qty st) in
  let '(d', r) := advance cbs now ev o st inc s d in
  exists o', r = Some o' /\ get_order_by_client_id coid (d_engine d') = Some o' /\
    o_symbol o' = o_symbol o /\ o_side o' = o_side o /\ quantity o' = quantity o /\
    status o' = t /\
    Engine.filled_quantity o' = (if dltb dzero (cum_qty st) then cum_qty st else Engine.filled_quantity o) /\
    state_of coid d' = set_terminal (is_terminal t) st /\
    forall c, c <> coid -> state_of c d' = state_of c d.
Proof.
  intros coid Hk Ho t. unfold advance. fold coid. fold t.
  destruct (update_order_status _ _ _ _ _ _ _ _) as [e r] eqn:Eu. cbn [fst].
  set (st' := set_terminal _ st) in *.
  set (fq := if dltb dzero (cum_qty st') then Some (cum_qty st') else None) in *.
  pose proof (update_result (d_engine d) now coid t fq (avg_price st') (ev_broker_order_id ev)
    (text_if_true (raw ev) "error") o Ho) as Hr.
  pose proof (update_lookup (d_engine d) now coid t fq (avg_price st') (ev_broker_order_id ev)
    (text_if_true (raw ev) "error") o coid Ho) as Hl.
  cbv zeta in Hl. rewrite Eu in Hr, Hl. cbn [fst snd] in Hr, Hl. rewrite Hk, decide_True in Hl by done.
  set (o' := updated_order _ _ _ _ _ _ _) in *. exists o'.
  destruct (updated_order_terms now t fq (avg_price st') (ev_broker_order_id ev)
    (text_if_true (raw ev) "error") o) as (E1 & E2 & E3 & _ & E5 & E6). fold o' in E1, E2, E3, E5, E6.
  split_and!; try done.
  - rewrite E6. unfold fq. cbn [st' set_terminal cum_qty]. by destruct (dltb dzero (cum_qty st)).
  - unfold state_of. cbn [d_state]. by rewrite dget_dset_eq.
  - intros c Hc. unfold state_of. cbn [d_state]. by rewrite dget_dset_ne.
Qed.

(** When the final status is [FILLED] or [PARTIALLY_FILLED]. *)
Lemma final_status_filled k s oq cum :
  dget KIND_TO_STATUS k = Some s ->
  (final_status k s oq cum = FILLED <->
   (k = "fill"%string /\ ((dval oq <= 0)%Q \/ (dval oq <= dval cum)%Q)) \/
   (k = "partial_fill"%string /\ (0 < dval oq)%Q /\ (dval oq <= dval cum)%Q)) /\
  (final_status k s oq cum = PARTIALLY_FILLED <->
   (k = "fill"%string /\ (0 < dval cum)%Q /\ (dval cum < dval oq)%Q) \/
   (k = "partial_fill"%string /\ ((dval oq <= 0)%Q \/ (dval cum < dval oq)%Q))).
Proof.
  intros Hs. unfold final_status.
  pose proof (dltb_spec dzero oq) as Hoq. pose proof (dltb_spec cum oq) as Hco.
  pose proof (dltb_spec dzero cum) as Hc. pose proof (dleb_spec oq cum) as Hoc.
  rewrite dval_zero in Hoq, Hc.
  destruct (decide (k = "fill"%string)) as [->|Hf].
  - vm_compute in Hs. injection Hs as <-. rewrite (bool_decide_true ("fill" = "fill")%string) by done.
    rewrite (bool_decide_false ("fill" = "partial_fill")%string) by done. cbn [andb].
    destruct (dltb dzero oq), (dltb cum oq), (dltb dzero cum); cbn [andb]; intuition (try congruence; try lra).
  - rewrite (bool_decide_false (k = "fill"%string)) by done. cbn [andb].
    destruct (decide (k = "partial_fill"%string)) as [->|Hp].
    + vm_compute in Hs. injection Hs as <-. rewrite bool_decide_true by done. cbn [andb].
      destruct (dltb dzero oq), (dleb oq cum), (dltb cum oq); cbn [andb]; intuition (try congruence; try lra).
    + rewrite bool_decide_false by done. cbn [andb]. apply dget_elem in Hs.
      unfold KIND_TO_STATUS in Hs. set_unfold in Hs.
      assert (s <> FILLED /\ s <> PARTIALLY_FILLED) by (intuition congruence). intuition congruence.
Qed.

(** An event of a known order that is still open, of a kind the handler maps, is
    booked and moves the order: it becomes FILLED exactly when the booked quantity
    reaches the ordered one (or the ordered one is not positive, on a fill),
    PARTIALLY_FILLED exactly when a fill leaves some of it; the order carries the
    booked quantity if that is positive; the handler closes the order exactly on
    FILLED, CANCELLED, REJECTED and EXPIRED; no other order's state changes. *)
Theorem event_moves_order now ev (d : Desk L) o s :
  let coid := ev_client_order_id ev in
  dget (en_by_client (d_engine d)) coid = Some (order_id o) ->
  get_order_by_client_id coid (d_engine d) = Some o ->
  terminal (state_of coid d) = false -> dget KIND_TO_STATUS (kind ev) = Some s ->
  let '(st, _) := book_event (state_of coid d) ev (quantity o) in
  let oq := dval (quantity o) in
  let cum := dval (cum_qty st) in
  let '(d', r) := handle_event cbs now ev d in
  exists o', r = Some o' /\ get_order_by_client_id coid (d_engine d') = Some o' /\
    o_symbol o' = o_symbol o /\ o_side o' = o_side o /\ quantity o' = quantity o /\
    (status o' = FILLED <->
      (kind ev = "fill"%string /\ (oq <= 0 \/ oq <= cum)%Q) \/
      (kind ev = "partial_fill"%string /\ (0 < oq)%Q /\ (oq <= cum)%Q)) /\
    (status o' = PARTIALLY_FILLED <->
      (kind ev = "fill"%string /\ (0 < cum)%Q /\ (cum < oq)%Q) \/
      (kind ev = "partial_fill"%string /\ (oq <= 0 \/ cum < oq)%Q)) /\
    ((0 < cum)%Q -> Engine.filled_quantity o' = cum_qty st) /\
    cum_qty (state_of coid d') = cum_qty st /\
    (terminal (state_of coid d') = true <->
      status o' = FILLED \/ status o' = CANCELLED \/ status o' = REJECTED \/ status o' = EXPIRED) /\
    forall c, c <> coid -> state_of c d' = state_of c d.
Proof.
  intros coid Hk Ho Ht Hs. unfold handle_event. fold coid. rewrite Ho, Ht, Hs.
  destruct (book_event _ _ _) as [st inc]. cbv zeta.
  pose proof (advance_outcome now ev o st inc s (set_state coid (state_of coid d) d) Hk Ho) as Ha.
  destruct (advance _ _ _ _ _ _ _ _) as [d' r].
  destruct Ha as (o' & -> & Hg & E1 & E2 & E3 & E4 & E5 & E6 & E7). exists o'.
  rewrite E4, E5. fold coid in E6. rewrite E6. cbn [set_terminal cum_qty terminal].
  destruct (final_status_filled (kind ev) s (quantity o) (cum_qty st) Hs) as [Hf Hp].
  split_and!; try done.
  - intros Hc. by rewrite (proj2 (dltb_spec _ _)) by (by rewrite dval_zero).
  - apply bool_decide_eq_true.
  - intros c Hc. rewrite E7 by done. unfold state_of, set_state. cbn [d_state]. by rewrite dget_dset_ne.
Qed.

(** Events that come after a terminal status change neither the engine nor the
    listeners, and the order's state stays as it is. *)
Lemma closed_order_ignores now ev (d : Desk L) :
  terminal (state_of (ev_client_order_id ev) d) = true ->
  let d' := (handle_event cbs now ev d).1 in
  d_engine d' = d_engine d /\ d_listener d' = d_listener d /\ forall c, state_of c d' = state_of c d.
Proof.
  intros Ht. unfold handle_event. destruct (get_order_by_client_id _ _); [|done]. rewrite Ht. cbn.
  split_and!; try done. intros c. unfold state_of, set_state. cbn.
  destruct (decide (c = ev_client_order_id ev)) as [->|Hc]; [by rewrite dget_dset_eq|by rewrite dget_dset_ne].
Qed.

(** ** Batches *)

Lemma handle_batch_app now evs evs' (d : Desk L) n :
  handle_batch cbs now (evs ++ evs') d n =
  handle_batch cbs now evs' (handle_batch cbs now evs d n).1 (handle_batch cbs now evs d n).2.
Proof.
  unfold handle_batch. rewrite fold_left_app. by destruct (fold_left _ evs (d, n)).
Qed.

Lemma handle_batch_desk now evs (d : Desk L) n :
  (handle_batch cbs now evs d n).1 = handle_events cbs now evs d.
Proof.
  revert d n. induction evs as [|ev evs IH]; intros d n; [done|].
  unfold handle_batch, handle_events in *. cbn [fold_left].
  destruct (handle_event cbs now ev d) as [d1 r]. apply IH.
Qed.

Lemma consume_loop_memory now b n evs (d : Desk L) c :
  0 < b -> let k := (n * Z.to_nat b)%nat in
  consume_loop cbs n now (MkMemory evs b) d c =
  (MkMemory (drop k evs) b, (handle_batch cbs now (take k evs) d c).1,
   (handle_batch cbs now (take k evs) d c).2).
Proof.
  intros Hb. revert evs d c. induction n as [|n IH]; intros evs d c k; [done|].
  cbn [consume_loop]. unfold poll at 1, mem_poll. cbn [mem_events mem_batch].
  destruct evs as [|ev evs]; [unfold k; by rewrite take_nil, drop_nil|].
  destruct (Z.leb_spec b 0); [lia|]. set (l := ev :: evs) in *. set (q := Z.to_nat b) in *.
  assert (take q l <> []) as Hne by (unfold l, q; destruct (Z.to_nat b) eqn:E; [lia|done]).
  destruct (take q l) as [|x r] eqn:Et; [done|]. rewrite <- Et. clear Hne.
  destruct (handle_batch cbs now (take q l) d c) as [d1 c1] eqn:E1. rewrite IH.
  assert (take k l = take q l ++ take (n * q) (drop q l)) as Hk by (by rewrite take_take_drop).
  rewrite Hk, handle_batch_app, E1. cbn [fst snd]. rewrite drop_drop. unfold k.
  by replace (q + n * q)%nat with (S n * q)%nat by lia.
Qed.

(** The events one call of [consume] takes from a source of [len] events. *)
Definition consumed (b max_batches : Z) (len : nat) : nat :=
  if b <=? 0 then len else (Z.to_nat (Z.max 1 max_batches) * Z.to_nat b)%nat.

(** Consuming a replayed feed in batches is handling its events one after the
    other: the same orders, states and notifications, whatever the batch size; the
    rest of the feed stays in the source, no event is lost or handled twice, and the
    count is that of the events whose order the engine knows. *)
Theorem batches_do_not_matter now evs b max_batches (d : Desk L) :
  let k := consumed b max_batches (List.length evs) in
  let '(src, d', handled) := consume cbs now (MkMemory evs b) max_batches d in
  src = MkMemory (drop k evs) b /\
  d' = fold_left (fun d ev => (handle_event cbs now ev d).1) (take k evs) d /\
  handled = (handle_batch cbs now (take k evs) d 0).2.
Proof.
  unfold consumed, consume. cbv zeta. destruct (Z.leb_spec b 0) as [Hb|Hb].
  - destruct (Z.to_nat (Z.max 1 max_batches)) as [|n] eqn:En; [lia|]. cbn [consume_loop].
    rewrite firstn_all, drop_all. unfold poll at 1, mem_poll. cbn [mem_events mem_batch].
    destruct evs as [|ev evs]; [done|]. rewrite (proj2 (Z.leb_le b 0)) by done.
    fold (handle_events cbs now (ev :: evs) d). rewrite <- (handle_batch_desk now (ev :: evs) d 0).
    destruct (handle_batch cbs now (ev :: evs) d 0) as [d1 c1]. by destruct n.
  - rewrite consume_loop_memory by done. cbn [fst snd].
    fold (handle_events cbs now (take (Z.to_nat (Z.max 1 max_batches) * Z.to_nat b) evs) d).
    by rewrite handle_batch_desk.
Qed.
End Outcome.

(** ** Concrete runs *)

Definition sample_books : Books unit := ((@create ledger_context Average (VInt 100000), []), tt).

(** The engine of the samples after it placed an order for 10 AAPL. *)
Definition sample_placed : Engine :=
  w_engine (execute_sample accepting_broker sample_world sample_intent (Dec 100 0)).1.

Definition sample_desk : Desk (Books unit) := MkDesk sample_placed [] sample_books.

Definition report (event : string) (filled price : option dec) : FillEvent :=
  MkEvent sample_client_id event filled price None None None true 5 [].

Definition reported (ev : FillEvent) (d : Desk (Books unit)) : Desk (Books unit) :=
  desk_do ledger_context None d (FillArrives 5 ev).

Definition booked_sample (d : Desk (Books unit)) : Q := Qred (booked sample_client_id (ledger_of (d_listener d))).

Definition order_after (d : Desk (Books unit)) : option (OrderStatus * dec) :=
  (fun o => (status o, Engine.filled_quantity o)) <$> get_order_by_client_id sample_client_id (d_engine d).

(** Partial fill, repeated report, fill: ten are booked. *)
Example fills_ex :
  let d := reported (report "fill" (Some (Dec 10 0)) (Some (Dec 101 0)))
            (reported (report "partially_filled" (Some (Dec 4 0)) (Some (Dec 100 0)))
              (reported (report "partial" (Some (Dec 4 0)) (Some (Dec 100 0))) sample_desk)) in
  booked_sample d = 10%Q /\ order_after d = Some (FILLED, Dec 10 0) /\
  map (fun r => (fr_quantity r, fr_price r)) (default [] (db_fills <$> l_db (ledger_of (d_listener d))))
  = [("4", "100"); ("6", "101")]%string.
Proof. vm_compute. split_and!; reflexivity. Qed.

(** The handler forgets its quantities at a restart and the ledger does not: the
    order recovered from the journal is tracked again, the broker reports its total
    again, and the ledger books it a second time. *)
Theorem restart_books_twice :
  let ev := report "filled" (Some (Dec 10 0)) (Some (Dec 100 0)) in
  let d1 := reported ev sample_desk in
  let w2 := w_step accepting_broker (execute_sample accepting_broker sample_world sample_intent (Dec 100 0)).1
    (Restart (new_firewall None None 0) (new_enforcer None 0) new_checker default_collar "paper"
       (Some "d"%string) (Some "r"%string) "" "") in
  let '(w3, r) := execute_sample accepting_broker w2 sample_intent (Dec 100 0) in
  let d2 := reported ev (MkDesk (w_engine w3) [] (d_listener d1)) in
  match r with
  | Ok x => success x = true /\ w_sent w3 = w_sent w2 /\ booked_sample d1 = 10%Q /\ booked_sample d2 = 20%Q
  | Raise _ => False
  end.
Proof. vm_compute. split_and!; reflexivity. Qed.

(** A fill that comes without any price is booked at zero. *)
Theorem unpriced_fill_booked_at_zero :
  let d := reported (report "fill" (Some (Dec 10 0)) None) sample_desk in
  map (fun r => (fr_quantity r, dec_of_str (fr_price r)))
    (default [] (db_fills <$> l_db (ledger_of (d_listener d)))) = [("10"%string, Some dzero)].
Proof. vm_compute. reflexivity. Qed.

(** A cancellation that reports executed shares loses them. *)
Theorem cancel_loses_executions :
  let d := reported (report "canceled" (Some (Dec 4 0)) (Some (Dec 100 0))) sample_desk in
  order_after d = Some (CANCELLED, dzero) /\ booked_sample d = 0%Q /\
  terminal (state_of sample_client_id d) = true.
Proof. vm_compute. split_and!; reflexivity. Qed.

(** [done_for_day] without quantities books the whole order; with part of it the
    order stays open. *)
Theorem done_for_day_behaviour :
  let d1 := reported (report "done_for_day" None (Some (Dec 100 0))) sample_desk in
  let d2 := reported (report "done_for_day" (Some (Dec 4 0)) (Some (Dec 100 0))) sample_desk in
  order_after d1 = Some (FILLED, Dec 10 0) /\ booked_sample d1 = 10%Q /\
  order_after d2 = Some (PARTIALLY_FILLED, Dec 4 0) /\ terminal (state_of sample_client_id d2) = false.
Proof. vm_compute. split_and!; reflexivity. Qed.

(** ** Witnesses *)

Lemma single_order (P : string -> string -> dec -> Prop) e c k o :
  en_by_client e = [(c, k)] -> en_orders e = [(k, o)] -> P (o_symbol o) (o_side o) (quantity o) ->
  forall coid o', get_order_by_client_id coid e = Some o' -> P (o_symbol o') (o_side o') (quantity o').
Proof.
  intros E1 E2 HP coid o'. unfold get_order_by_client_id. rewrite E1, E2. cbn.
  destruct (decide (coid = c)); [|done]. cbn. rewrite decide_True by done. by intros [= <-].
Qed.

Lemma ledger_books_executions_witness :
  let d' := desk_run ledger_context None sample_desk
    [FillArrives 5 (report "partial" (Some (Dec 4 0)) (Some (Dec 100 0)));
     FillArrives 6 (report "fill" (Some (Dec 10 0)) (Some (Dec 101 0)))] in
  (booked sample_client_id (ledger_of (d_listener d')) ==
   booked sample_client_id (ledger_of (d_listener sample_desk)) +
   dval (Fills.filled_quantity sample_client_id d'))%Q.
Proof.
  apply (ledger_books_executions ledger_context (C := unit) None 2 1000).
  - lia.
  - lia.
  - vm_compute. reflexivity.
  - reflexivity.
  - eexists. vm_compute. reflexivity.
  - refine (single_order (sensible 2 1000) _ sample_client_id "o1"
      (default (new_order 0 "" "" "" "" "" MARKET dzero "")
         (get_order_by_client_id sample_client_id sample_placed)) _ _ _); [vm_compute; reflexivity..|].
    vm_compute. split_and!; try done. by left.
  - repeat constructor; vm_compute; done.
Defined.

Lemma event_moves_order_witness :
  (order_after (handle_event (desk_callbacks ledger_context None 5) 5
     (report "fill" (Some (Dec 10 0)) (Some (Dec 101 0))) sample_desk).1) = Some (FILLED, Dec 10 0).
Proof.
  pose proof (event_moves_order (desk_callbacks ledger_context None 5) 5
    (report "fill" (Some (Dec 10 0)) (Some (Dec 101 0))) sample_desk
    (default (new_order 0 "" "" "" "" "" MARKET dzero "")
       (get_order_by_client_id sample_client_id sample_placed)) FILLED) as Hp.
  cbv zeta in Hp. specialize (Hp ltac:(vm_compute; reflexivity) ltac:(vm_compute; reflexivity)
    ltac:(vm_compute; reflexivity) ltac:(vm_compute; reflexivity)).
  destruct (handle_event (desk_callbacks ledger_context None 5) 5
    (report "fill" (Some (Dec 10 0)) (Some (Dec 101 0))) sample_desk) as [d' r].
  destruct (book_event _ _ _) as [st inc] eqn:Eb.
  destruct Hp as (o' & _ & Hg & _ & _ & _ & Hf & _ & Hq & _). unfold order_after. cbn [fst].
  change sample_client_id with (ev_client_order_id (report "fill" (Some (Dec 10 0)) (Some (Dec 101 0)))).
  rewrite Hg. cbn [fmap option_fmap option_map].
  vm_compute in Eb. injection Eb as <- _. rewrite (proj2 Hf), Hq; [reflexivity|reflexivity|].
  left. split; [reflexivity|]. right. vm_compute. discriminate.
Defined.
