(* ===== verification/Surveillance.v ===== *)
(** * Market-abuse surveillance: [services/algo_integration/market_abuse.py]

    [MarketAbuseMonitor] watches order and trade events for spoofing, layering, wash
    trades and marking the close.  The theorems say exactly which histories alert:
    the spoofing count against its reference definition, the wash-trade search
    against the set of matching trades. *)
From Stdlib Require Import SpecFloat Sorted.
From Stdlib Require Import Ascii String.
From S2P Require Import Prelude PyDecimal DecArith PyFormat PyFloat PyValue.
Open Scope Z_scope.
Open Scope list_scope.

Record OrderEvent := MkOrderEvent {
  oe_ts : Z;
  oe_symbol : string;
  oe_account : string;
  oe_side : string;
  oe_action : string;
  oe_qty : pyfloat;
  oe_price : pyfloat;
  oe_order_id : string;
  oe_mid : option pyfloat
}.

Record TradeEvent := MkTradeEvent {
  te_ts : Z;
  te_symbol : string;
  te_account : string;
  te_side : string;
  te_qty : pyfloat;
  te_price : pyfloat;
  te_aggressive : bool;
  te_order_id : string
}.

Record MarketAbuseAlert := MkAlert {
  al_pattern : string;
  al_symbol : string;
  al_account : string;
  al_severity : string;
  al_ts : Z;
  al_detail : string;
  al_evidence : dict
}.

Definition alert_to_dict (a : MarketAbuseAlert) : dict :=
  [("pattern", VStr (al_pattern a)); ("symbol", VStr (al_symbol a)); ("account", VStr (al_account a));
   ("severity", VStr (al_severity a)); ("ts_ms", VInt (al_ts a)); ("detail", VStr (al_detail a));
   ("evidence", VDict (al_evidence a))]%string.

Record MarketAbuseConfig := MkAbuseConfig {
  window_ms : Z;
  spoof_large_qty : pyfloat;
  spoof_cancel_ms : Z;
  spoof_min_distance_bps : pyfloat;
  spoof_min_events : Z;
  layering_min_orders : Z;
  layering_cancel_ratio : pyfloat;
  wash_price_tol_bps : pyfloat;
  wash_window_ms : Z;
  close_window_ms : Z;
  market_close_ms_of_day : Z;
  marking_min_notional : pyfloat
}.

Definition default_abuse_config : MarketAbuseConfig :=
  MkAbuseConfig 60000 (float_of_int 1000) 5000 (float_of_int 5) 3 4 (float_of_dec (Dec 7 (-1)))
    (float_of_int 5) 10000 300000 (20 * 3600000) (float_of_int 50000).

Definition history : Z := 5000.

Record MarketAbuseMonitor := MkMonitor {
  ma_cfg : MarketAbuseConfig;
  ma_orders : list (string * list OrderEvent);
  ma_trades : list (string * list TradeEvent);
  ma_open : list (string * OrderEvent);
  ma_filled : gset string;
  ma_alerts : list MarketAbuseAlert
}.

Definition new_monitor (cfg : option MarketAbuseConfig) : MarketAbuseMonitor :=
  MkMonitor (default default_abuse_config cfg) [] [] [] ∅ [].

Definition orders_of (sym : string) (s : MarketAbuseMonitor) : list OrderEvent :=
  default [] (dget (ma_orders s) sym).

Definition trades_of (sym : string) (s : MarketAbuseMonitor) : list TradeEvent :=
  default [] (dget (ma_trades s) sym).

Definition bps : pyfloat := float_of_int 10000.

(** ** Spoofing *)

(** The order [orig] was cancelled by [c] fast and never executed. *)
Definition fast_unfilled (cfg : MarketAbuseConfig) (filled : gset string) (orig c : OrderEvent) : bool :=
  (oe_ts c - oe_ts orig <=? spoof_cancel_ms cfg) && negb (bool_decide (oe_order_id orig ∈ filled)).

Definition large_new (cfg : MarketAbuseConfig) (o : OrderEvent) : bool :=
  bool_decide (oe_action o = "NEW"%string) && fleb (spoof_large_qty cfg) (oe_qty o).

(** One step of the loop of [_recent_spoof_count]. *)
Definition spoof_step (cfg : MarketAbuseConfig) (filled : gset string) (ev : OrderEvent)
    (p : list (string * OrderEvent) * Z) (o : OrderEvent) : list (string * OrderEvent) * Z :=
  let '(seen, cnt) := p in
  if negb (bool_decide (oe_account o = oe_account ev)) then (seen, cnt)
  else if large_new cfg o then (dset seen (oe_order_id o) o, cnt)
  else if bool_decide (oe_action o = "CANCEL"%string) then
    match dget seen (oe_order_id o) with
    | Some orig =>
        (seen, if fast_unfilled cfg filled orig o && (oe_ts ev - oe_ts o <=? window_ms cfg)
               then cnt + 1 else cnt)
    | None => (seen, cnt)
    end
  else (seen, cnt).

Definition recent_spoof_count (s : MarketAbuseMonitor) (ev : OrderEvent) : Z :=
  (fold_left (spoof_step (ma_cfg s) (ma_filled s) ev) (orders_of (oe_symbol ev) s) ([], 0)).2.

(** Placed at least the configured distance from the mid, where there is one. *)
Definition far_from_mid (cfg : MarketAbuseConfig) (o : OrderEvent) : bool :=
  match oe_mid o with
  | Some mid =>
      if ftrue mid && fltb fzero mid then
        fleb (spoof_min_distance_bps cfg)
          (fmul (fdiv (fabs (fsub (oe_price o) mid)) mid) bps)
      else true
  | None => true
  end.

Definition v_opt_float (o : option pyfloat) : pyval :=
  match o with
  | Some x => VFloat x
  | None => VNone
  end.

Definition check_spoofing (s : MarketAbuseMonitor) (c : OrderEvent) : list MarketAbuseAlert :=
  let cfg := ma_cfg s in
  match dget (ma_open s) (oe_order_id c) with
  | None => []
  | Some orig =>
      if negb (bool_decide (oe_action orig = "NEW"%string)) then []
      else if negb (fast_unfilled cfg (ma_filled s) orig c && fleb (spoof_large_qty cfg) (oe_qty orig) &&
                    far_from_mid cfg orig) then []
      else
        let cnt := recent_spoof_count s c in
        if cnt <? spoof_min_events cfg then []
        else
          [MkAlert "spoofing" (oe_symbol c) (oe_account c)
             (if (2 * spoof_min_events cfg <=? cnt)%Z then "HIGH" else "MEDIUM") (oe_ts c)
             (int_str cnt +:+ " large orders placed away from mid and cancelled within " +:+
              int_str (spoof_cancel_ms cfg) +:+ "ms without execution")
             [("count", VInt cnt); ("qty", VFloat (oe_qty orig)); ("price", VFloat (oe_price orig));
              ("mid", v_opt_float (oe_mid orig))]]%string
  end.

(** ** Layering *)

Definition opposite (side : string) : string :=
  if bool_decide (side = "BUY"%string) then "SELL" else "BUY".

(** Events of the account and side of [c] in its window, with the given action. *)
Definition same_side (s : MarketAbuseMonitor) (c : OrderEvent) (action : string) : list OrderEvent :=
  List.filter (fun o =>
    bool_decide (oe_account o = oe_account c) && bool_decide (oe_side o = oe_side c) &&
    bool_decide (oe_action o = action) && (oe_ts c - oe_ts o <=? window_ms (ma_cfg s)))
    (orders_of (oe_symbol c) s).

Definition recent_opposite_fill (s : MarketAbuseMonitor) (c : OrderEvent) : bool :=
  existsb (fun t =>
    bool_decide (te_account t = oe_account c) && bool_decide (te_side t = opposite (oe_side c)) &&
    (oe_ts c - te_ts t <=? window_ms (ma_cfg s))) (trades_of (oe_symbol c) s).

Definition check_layering (s : MarketAbuseMonitor) (c : OrderEvent) : list MarketAbuseAlert :=
  let cfg := ma_cfg s in
  if negb (recent_opposite_fill s c) then []
  else
    let news := Z.of_nat (List.length (same_side s c "NEW")) in
    let cancels := Z.of_nat (List.length (same_side s c "CANCEL")) in
    if news <? layering_min_orders cfg then []
    else
      let ratio := fdiv (float_of_int cancels) (float_of_int (Z.max 1 news)) in
      if fltb ratio (layering_cancel_ratio cfg) then []
      else
        [MkAlert "layering" (oe_symbol c) (oe_account c) "HIGH" (oe_ts c)
           (int_str news +:+ " " +:+ oe_side c +:+ " orders layered then " +:+ float_pct 0 ratio +:+
            " cancelled after an opposite-side fill")
           [("orders", VInt news); ("cancel_ratio", VFloat ratio)]]%string.

(** ** Wash trades *)

Definition washes (cfg : MarketAbuseConfig) (ev t : TradeEvent) : bool :=
  bool_decide (te_account t = te_account ev) && bool_decide (te_side t = opposite (te_side ev)) &&
  fltb fzero (te_price ev) &&
  fleb (fmul (fdiv (fabs (fsub (te_price t) (te_price ev))) (te_price ev)) bps) (wash_price_tol_bps cfg) &&
  fltb fzero (fmin (te_qty t) (te_qty ev)).

(** The loop over the earlier trades, latest first; it stops at the first one that
    is too old. *)
Fixpoint wash_search (cfg : MarketAbuseConfig) (ev : TradeEvent) (l : list TradeEvent) : option TradeEvent :=
  match l with
  | [] => None
  | t :: r =>
      if wash_window_ms cfg <? te_ts ev - te_ts t then None
      else if washes cfg ev t then Some t
      else wash_search cfg ev r
  end.

(** The event itself is the last trade of its symbol. *)
Definition check_wash (s : MarketAbuseMonitor) (ev : TradeEvent) : list MarketAbuseAlert :=
  match wash_search (ma_cfg s) ev (rev (removelast (trades_of (te_symbol ev) s))) with
  | None => []
  | Some t =>
      let buy := bool_decide (te_side ev = "BUY"%string) in
      [MkAlert "wash_trade" (te_symbol ev) (te_account ev) "HIGH" (te_ts ev)
         ("same account bought and sold the instrument at ~same price within " +:+
          int_str (wash_window_ms (ma_cfg s)) +:+ "ms (no change in beneficial ownership)")
         [("buy_price", VFloat (if buy then te_price ev else te_price t));
          ("sell_price", VFloat (if buy then te_price t else te_price ev));
          ("qty", VFloat (fmin (te_qty t) (te_qty ev)))]]%string
  end.

(** ** Marking the close *)

Definition check_marking_the_close (s : MarketAbuseMonitor) (ev : TradeEvent) : list MarketAbuseAlert :=
  let cfg := ma_cfg s in
  let until_close := market_close_ms_of_day cfg - te_ts ev mod 86400000 in
  let notional := fmul (te_qty ev) (te_price ev) in
  if negb ((0 <=? until_close) && (until_close <=? close_window_ms cfg)) then []
  else if negb (te_aggressive ev) then []
  else if fltb notional (marking_min_notional cfg) then []
  else
    [MkAlert "marking_the_close" (te_symbol ev) (te_account ev) "MEDIUM" (te_ts ev)
       ("aggressive " +:+ te_side ev +:+ " of $" +:+ float_money notional +:+ " within " +:+
        int_str (close_window_ms cfg / 1000)%Z +:+ "s of the close — potential price marking")
       [("notional", VFloat notional); ("ms_to_close", VInt until_close)]]%string.

(** ** Events *)

Definition emit (l : list MarketAbuseAlert) (s : MarketAbuseMonitor) : MarketAbuseMonitor :=
  MkMonitor (ma_cfg s) (ma_orders s) (ma_trades s) (ma_open s) (ma_filled s) (ma_alerts s ++ l).

Definition set_open (d : list (string * OrderEvent)) (s : MarketAbuseMonitor) : MarketAbuseMonitor :=
  MkMonitor (ma_cfg s) (ma_orders s) (ma_trades s) d (ma_filled s) (ma_alerts s).

Definition push_order (ev : OrderEvent) (s : MarketAbuseMonitor) : MarketAbuseMonitor :=
  MkMonitor (ma_cfg s)
    (dset (ma_orders s) (oe_symbol ev) (push_bounded history (orders_of (oe_symbol ev) s) ev))
    (ma_trades s) (ma_open s) (ma_filled s) (ma_alerts s).

Definition push_trade (ev : TradeEvent) (s : MarketAbuseMonitor) : MarketAbuseMonitor :=
  MkMonitor (ma_cfg s) (ma_orders s)
    (dset (ma_trades s) (te_symbol ev) (push_bounded history (trades_of (te_symbol ev) s) ev))
    (ma_open s)
    (if bool_decide (te_order_id ev = ""%string) then ma_filled s else {[ te_order_id ev ]} ∪ ma_filled s)
    (ma_alerts s).

Definition record_order (ev : OrderEvent) (s : MarketAbuseMonitor) :
    MarketAbuseMonitor * list MarketAbuseAlert :=
  let s := push_order ev s in
  if bool_decide (oe_action ev = "NEW"%string) then (set_open (dset (ma_open s) (oe_order_id ev) ev) s, [])
  else if bool_decide (oe_action ev = "CANCEL"%string) then
    let alerts := check_spoofing s ev ++ check_layering s ev in
    (emit alerts (set_open (ddel (ma_open s) (oe_order_id ev)) s), alerts)
  else (s, []).

Definition record_trade (ev : TradeEvent) (s : MarketAbuseMonitor) :
    MarketAbuseMonitor * list MarketAbuseAlert :=
  let s := push_trade ev s in
  let alerts := check_wash s ev ++ check_marking_the_close s ev in
  (emit alerts s, alerts).

Definition get_alerts (pattern : option string) (s : MarketAbuseMonitor) : list MarketAbuseAlert :=
  if truthy pattern then
    List.filter (fun a => bool_decide (al_pattern a = default ""%string pattern)) (ma_alerts s)
  else ma_alerts s.

Definition alert_summary (s : MarketAbuseMonitor) : list (string * Z) :=
  fold_left (fun d a => dset d (al_pattern a) (default 0 (dget d (al_pattern a)) + 1)) (ma_alerts s) [].

(** ** The count of spoof-like cancellations, read recursively

    A cancellation of the account's history counts when the latest large order with its
    id that came before it was cancelled fast and never executed, and the cancellation is
    in the window.  [spoofed] below says the same of positions in the history. *)
Definition latest_large (cfg : MarketAbuseConfig) (account id : string) (l : list OrderEvent) :
    option OrderEvent :=
  last (List.filter (fun o => bool_decide (oe_account o = account) && large_new cfg o &&
                              bool_decide (oe_order_id o = id)) l).

Definition spoof_like (cfg : MarketAbuseConfig) (filled : gset string) (ev : OrderEvent)
    (before : list OrderEvent) (o : OrderEvent) : bool :=
  bool_decide (oe_account o = oe_account ev) && negb (large_new cfg o) &&
  bool_decide (oe_action o = "CANCEL"%string) &&
  match latest_large cfg (oe_account ev) (oe_order_id o) before with
  | Some orig => fast_unfilled cfg filled orig o && (oe_ts ev - oe_ts o <=? window_ms cfg)
  | None => false
  end.

(** How many positions of [l], read after [before], are spoof-like. *)
Fixpoint spoof_count (cfg : MarketAbuseConfig) (filled : gset string) (ev : OrderEvent)
    (before l : list OrderEvent) : Z :=
  match l with
  | [] => 0
  | o :: r => (if spoof_like cfg filled ev before o then 1 else 0) +
              spoof_count cfg filled ev (before ++ [o]) r
  end.

Lemma filter_snoc {A} (f : A -> bool) l x :
  List.filter f (l ++ [x]) = List.filter f l ++ (if f x then [x] else []).
Proof. by rewrite List.filter_app. Qed.

Lemma spoof_step_count cfg filled ev before seen cnt l :
  (forall id, dget seen id = latest_large cfg (oe_account ev) id before) ->
  (fold_left (spoof_step cfg filled ev) l (seen, cnt)).2 = cnt + spoof_count cfg filled ev before l.
Proof.
  revert before seen cnt. induction l as [|o l IH]; intros before seen cnt Hs; [cbn; lia|].
  cbn [fold_left spoof_count].
  assert (forall seen', (forall id, dget seen' id = latest_large cfg (oe_account ev) id (before ++ [o])) ->
    forall b : bool, (fold_left (spoof_step cfg filled ev) l (seen', if b then cnt + 1 else cnt)).2 =
    cnt + ((if b then 1 else 0) + spoof_count cfg filled ev (before ++ [o]) l)) as Hnext.
  { intros seen' Hs' b. rewrite (IH (before ++ [o])) by done. destruct b; lia. }
  assert (bool_decide (oe_account o = oe_account ev) && large_new cfg o = false ->
    forall id, dget seen id = latest_large cfg (oe_account ev) id (before ++ [o])) as Hsame.
  { intros Hf id. rewrite Hs. unfold latest_large. rewrite filter_snoc, Hf. cbn [andb]. by rewrite app_nil_r. }
  unfold spoof_step at 2. unfold spoof_like.
  destruct (bool_decide (oe_account o = oe_account ev)) eqn:Ha; cbn [negb andb] in *;
    [|by apply (Hnext seen (Hsame eq_refl) false)].
  destruct (large_new cfg o) eqn:El; cbn [negb andb].
  { apply (Hnext _) with (b := false). intros id. unfold latest_large. rewrite filter_snoc, Ha, El. cbn [andb].
    destruct (decide (id = oe_order_id o)) as [->|Hne].
    - by rewrite dget_dset_eq, bool_decide_true, last_snoc.
    - rewrite dget_dset_ne, bool_decide_false by congruence. rewrite app_nil_r. apply Hs. }
  destruct (bool_decide (oe_action o = "CANCEL"%string)); cbn [andb];
    [|by apply (Hnext seen (Hsame eq_refl) false)].
  rewrite <- Hs. destruct (dget seen (oe_order_id o)) as [orig|];
    [by apply (Hnext seen (Hsame eq_refl))|by apply (Hnext seen (Hsame eq_refl) false)].
Qed.

Lemma filter_nothing {A} (f : A -> bool) l : (forall a, a ∈ l -> f a = false) -> List.filter f l = [].
Proof.
  induction l as [|a l IH]; intros Hf; [done|]. cbn [List.filter]. rewrite (Hf a) by left.
  apply IH. intros b Hb. apply Hf. by right.
Qed.

Lemma push_order_orders ev s :
  orders_of (oe_symbol ev) (push_order ev s) = push_bounded history (orders_of (oe_symbol ev) s) ev.
Proof. unfold orders_of at 1. cbn. by rewrite dget_dset_eq. Qed.

Lemma layering_pattern s c a : a ∈ check_layering s c -> al_pattern a = "layering"%string.
Proof.
  unfold check_layering. destruct (negb _); [by intros []%elem_of_nil|].
  destruct (_ <? _); [by intros []%elem_of_nil|]. destruct (fltb _ _); [by intros []%elem_of_nil|].
  by intros ->%list_elem_of_singleton.
Qed.

Lemma spoofing_checked ev s :
  oe_action ev = "CANCEL"%string ->
  let cfg := ma_cfg s in
  let n := spoof_count cfg (ma_filled s) ev [] (push_bounded history (orders_of (oe_symbol ev) s) ev) in
  let alerts := List.filter (fun a => bool_decide (al_pattern a = "spoofing"%string)) (record_order ev s).2 in
  let suspicious := exists orig, dget (ma_open s) (oe_order_id ev) = Some orig /\
    oe_action orig = "NEW"%string /\ fleb (spoof_large_qty cfg) (oe_qty orig) = true /\
    fast_unfilled cfg (ma_filled s) orig ev = true /\ far_from_mid cfg orig = true in
  (suspicious /\ spoof_min_events cfg <= n /\
   map al_severity alerts = [(if 2 * spoof_min_events cfg <=? n then "HIGH"%string else "MEDIUM"%string)]) \/
  (~ (suspicious /\ spoof_min_events cfg <= n) /\ alerts = []).
Proof.
  intros Hc cfg n alerts suspicious. unfold alerts, record_order. rewrite Hc.
  rewrite (bool_decide_false ("CANCEL" = "NEW")%string), bool_decide_true by done. cbn [snd].
  rewrite List.filter_app.
  assert (List.filter (fun a => bool_decide (al_pattern a = "spoofing"%string))
    (check_layering (push_order ev s) ev) = []) as Hl.
  { apply filter_nothing. intros a Ha%layering_pattern. by rewrite Ha. }
  rewrite Hl, app_nil_r. clear Hl alerts. unfold check_spoofing. cbn [push_order ma_cfg ma_open ma_filled].
  fold cfg. assert (recent_spoof_count (push_order ev s) ev = n) as ->.
  { unfold recent_spoof_count. rewrite push_order_orders. cbn [push_order ma_cfg ma_filled].
    rewrite (spoof_step_count _ _ _ []) by done. done. }
  unfold suspicious. destruct (dget (ma_open s) (oe_order_id ev)) as [orig|]; [|by right; split; [|done]; intros [(? & ? & _) _]].
  destruct (decide (oe_action orig = "NEW"%string)) as [Ha|Ha].
  2: { rewrite bool_decide_false by done. right. split; [|done]. intros [(? & [= <-] & ? & _) _]. done. }
  rewrite bool_decide_true by done. cbn [negb].
  destruct (fast_unfilled cfg (ma_filled s) orig ev) eqn:Ef, (fleb (spoof_large_qty cfg) (oe_qty orig)) eqn:El,
    (far_from_mid cfg orig) eqn:Ed; cbn [andb negb];
    try (right; split; [|done]; intros [(? & [= <-] & _ & ? & ? & ?) _]; congruence).
  destruct (Z.ltb_spec n (spoof_min_events cfg)).
  - right. split; [|done]. intros [_ ?]. lia.
  - left. split_and!; [by exists orig|done|done].
Qed.

Lemma NoDup_filter_seq (f : nat -> bool) a n : NoDup (List.filter f (seq a n)).
Proof. apply NoDup_ListNoDup, List.NoDup_filter, NoDup_ListNoDup, NoDup_seq. Qed.

(** ** Spoofing, told from the events

    A reference of its own: of the order and trade events a monitor was fed, and not of the
    state it keeps of them. *)
Inductive market_event := Ordered (o : OrderEvent) | Traded (t : TradeEvent).

Definition see (s : MarketAbuseMonitor) (e : market_event) : MarketAbuseMonitor :=
  match e with
  | Ordered o => (record_order o s).1
  | Traded t => (record_trade t s).1
  end.

Definition watched (cfg : MarketAbuseConfig) (evs : list market_event) : MarketAbuseMonitor :=
  fold_left see evs (new_monitor (Some cfg)).

(** The order events of a symbol. *)
Definition orders_in (sym : string) (evs : list market_event) : list OrderEvent :=
  omap (fun e => match e with
                 | Ordered o => if bool_decide (oe_symbol o = sym) then Some o else None
                 | Traded _ => None
                 end) evs.

(** A trade was reported under this order id; the empty id names no order. *)
Definition executed (evs : list market_event) (id : string) : Prop :=
  id <> ""%string /\ exists t, Traded t ∈ evs /\ te_order_id t = id.

(** The order placed under this id, and neither placed again nor cancelled since. *)
Definition pending (evs : list market_event) (id : string) (o : OrderEvent) : Prop :=
  exists pre post, evs = pre ++ Ordered o :: post /\ oe_order_id o = id /\ oe_action o = "NEW"%string /\
    forall o', Ordered o' ∈ post -> oe_order_id o' = id ->
      oe_action o' <> "NEW"%string /\ oe_action o' <> "CANCEL"%string.

(** A large order, cancelled fast and never executed. *)
Definition flashed (cfg : MarketAbuseConfig) (evs : list market_event) (placed cancelled : OrderEvent) : Prop :=
  fleb (spoof_large_qty cfg) (oe_qty placed) = true /\
  oe_ts cancelled <= oe_ts placed + spoof_cancel_ms cfg /\ ~ executed evs (oe_order_id placed).

(** Placed at least the configured distance from the mid, if a positive mid is known. *)
Definition placed_far (cfg : MarketAbuseConfig) (o : OrderEvent) : Prop :=
  forall mid, oe_mid o = Some mid -> fltb fzero mid = true ->
    fleb (spoof_min_distance_bps cfg) (fmul (fdiv (fabs (fsub (oe_price o) mid)) mid) bps) = true.

(** In the history [h], the event at position [j] is a recent cancellation by the account
    of [ev] of the large order it placed last under that id, and that order was flashed. *)
Definition spoofed (cfg : MarketAbuseConfig) (evs : list market_event) (ev : OrderEvent)
    (h : list OrderEvent) (j : nat) : Prop :=
  exists i placed c, (i < j)%nat /\ h !! i = Some placed /\ h !! j = Some c /\
    oe_account placed = oe_account ev /\ oe_account c = oe_account ev /\
    oe_action placed = "NEW"%string /\ oe_action c = "CANCEL"%string /\
    oe_order_id placed = oe_order_id c /\ flashed cfg evs placed c /\
    oe_ts ev <= oe_ts c + window_ms cfg /\
    forall k o, (i < k < j)%nat -> h !! k = Some o -> oe_account o = oe_account ev ->
      oe_action o = "NEW"%string -> fleb (spoof_large_qty cfg) (oe_qty o) = true ->
      oe_order_id o <> oe_order_id c.

Lemma watched_snoc cfg evs e : watched cfg (evs ++ [e]) = see (watched cfg evs) e.
Proof. unfold watched. by rewrite fold_left_app. Qed.

Lemma watched_cfg cfg evs : ma_cfg (watched cfg evs) = cfg.
Proof.
  induction evs as [|e evs IH] using rev_ind; [done|]. rewrite watched_snoc. rewrite <- IH at 2.
  destruct e as [o|t]; cbn [see]; unfold record_order, record_trade; [|done].
  by destruct (bool_decide _); [|destruct (bool_decide _)].
Qed.

Lemma see_orders s e sym :
  orders_of sym (see s e) =
  match e with
  | Ordered o => if bool_decide (oe_symbol o = sym) then push_bounded history (orders_of sym s) o else orders_of sym s
  | Traded _ => orders_of sym s
  end.
Proof.
  destruct e as [o|t]; cbn [see]; [|done].
  assert (orders_of sym (push_order o s) =
    if bool_decide (oe_symbol o = sym) then push_bounded history (orders_of sym s) o else orders_of sym s) as <-.
  { case_bool_decide as E; [subst sym; apply push_order_orders|].
    unfold orders_of. cbn. by rewrite dget_dset_ne. }
  unfold record_order. by destruct (bool_decide _); [|destruct (bool_decide _)].
Qed.

Lemma watched_orders cfg evs sym : orders_of sym (watched cfg evs) = py_last history (orders_in sym evs).
Proof.
  induction evs as [|e evs IH] using rev_ind; [done|]. rewrite watched_snoc, see_orders, IH.
  unfold orders_in. rewrite omap_app. cbn. destruct e as [o|t]; [|by rewrite app_nil_r].
  case_bool_decide; [by apply push_py_last|by rewrite app_nil_r].
Qed.

Lemma watched_filled cfg evs id : id ∈ ma_filled (watched cfg evs) <-> executed evs id.
Proof.
  unfold executed. induction evs as [|e evs IH] using rev_ind.
  - split; [by intros ?%elem_of_empty|]. by intros (_ & t & Ht%elem_of_nil & _).
  - rewrite watched_snoc. setoid_rewrite elem_of_app. setoid_rewrite list_elem_of_singleton.
    destruct e as [o|t]; cbn [see].
    + assert (ma_filled (record_order o (watched cfg evs)).1 = ma_filled (watched cfg evs)) as ->
        by (unfold record_order; by destruct (bool_decide _); [|destruct (bool_decide _)]).
      rewrite IH. naive_solver.
    + cbn. case_bool_decide as E; [|rewrite elem_of_union, elem_of_singleton]; rewrite IH; naive_solver.
Qed.

Lemma pending_other evs e id o :
  match e with
  | Ordered o' => oe_order_id o' = id -> oe_action o' <> "NEW"%string /\ oe_action o' <> "CANCEL"%string
  | Traded _ => True
  end -> pending (evs ++ [e]) id o <-> pending evs id o.
Proof.
  intros He. split.
  - intros (pre & post & E & Hid & Ha & Hp). destruct post as [|x post _] using rev_ind.
    + apply app_inj_tail in E as [_ ->]. by destruct (He Hid).
    + rewrite app_comm_cons, app_assoc in E. apply app_inj_tail in E as [-> _].
      exists pre, post. split_and!; [done..|]. intros o' Ho'. apply Hp, elem_of_app. by left.
  - intros (pre & post & -> & Hid & Ha & Hp). exists pre, (post ++ [e]). rewrite <- app_assoc.
    split_and!; [done..|]. intros o' [Ho'|Ho'%list_elem_of_singleton]%elem_of_app; [by apply Hp|].
    by subst e.
Qed.

Lemma watched_open cfg evs id o : dget (ma_open (watched cfg evs)) id = Some o <-> pending evs id o.
Proof.
  induction evs as [|e evs IH] using rev_ind.
  - split; [done|]. intros ([] & post & ? & _); done.
  - rewrite watched_snoc. destruct e as [o'|t]; cbn [see]; [|by rewrite pending_other].
    unfold record_order. destruct (decide (oe_order_id o' = id)) as [Hid|Hid].
    2: { rewrite pending_other by done. rewrite <- IH. subst.
      destruct (bool_decide (oe_action o' = "NEW"%string)); [cbn; by rewrite dget_dset_ne|].
      destruct (bool_decide (oe_action o' = "CANCEL"%string)); [cbn; by rewrite dget_ddel_ne|done]. }
    subst id. destruct (decide (oe_action o' = "NEW"%string)) as [Ha|Ha].
    { rewrite bool_decide_true by done. cbn. rewrite dget_dset_eq. split.
      - intros [= <-]. exists evs, []. split_and!; [done..|]. by intros o'' ?%elem_of_nil.
      - intros (pre & post & E & _ & _ & Hp). destruct post as [|x post _] using rev_ind.
        + apply app_inj_tail in E as [_ E]. congruence.
        + rewrite app_comm_cons, app_assoc in E. apply app_inj_tail in E as [_ <-].
          destruct (Hp o') as [? _]; [apply elem_of_app; right; by left|done|done]. }
    rewrite bool_decide_false by done. destruct (decide (oe_action o' = "CANCEL"%string)) as [Hc|Hc].
    + rewrite bool_decide_true by done. cbn. rewrite dget_ddel_eq. split; [done|].
      intros (pre & post & E & _ & Ha' & Hp). destruct post as [|x post _] using rev_ind.
      * apply app_inj_tail in E as [_ E]. congruence.
      * rewrite app_comm_cons, app_assoc in E. apply app_inj_tail in E as [_ <-].
        destruct (Hp o') as [_ ?]; [apply elem_of_app; right; by left|done|done].
    + rewrite bool_decide_false by done. rewrite pending_other by done. apply IH.
Qed.

(** The last element of a filtered list is the last position that passes. *)
Lemma last_filter_spec {A} (f : A -> bool) l x :
  last (List.filter f l) = Some x <->
  exists i, l !! i = Some x /\ f x = true /\ forall k y, (i < k)%nat -> l !! k = Some y -> f y = false.
Proof.
  induction l as [|y l IH] using rev_ind.
  - split; [done|]. by intros (i & Hi & _).
  - rewrite filter_snoc. destruct (f y) eqn:Ey.
    + rewrite last_snoc. split.
      * intros [= <-]. exists (List.length l). split_and!; [|done|].
        -- rewrite lookup_app_r, Nat.sub_diag by lia. done.
        -- intros k z Hk Hz. apply lookup_lt_Some in Hz. rewrite length_app in Hz. cbn in Hz. lia.
      * intros (i & Hi & Hx & Hk). destruct (decide (i = List.length l)) as [->|Hne].
        -- rewrite lookup_app_r, Nat.sub_diag in Hi by lia. done.
        -- assert (i < List.length l)%nat as Hl.
           { apply lookup_lt_Some in Hi. rewrite length_app in Hi. cbn in Hi. lia. }
           specialize (Hk (List.length l) y Hl). rewrite lookup_app_r, Nat.sub_diag in Hk by lia.
           rewrite Hk in Ey by done. done.
    + rewrite app_nil_r, IH. split; intros (i & Hi & Hx & Hk); exists i.
      * split_and!; [by apply lookup_app_l_Some|done|]. intros k z Hlt [Hz|[_ Hz]]%lookup_app_Some; [by eapply Hk|].
        destruct (k - List.length l)%nat; [|done]. by injection Hz as <-.
      * apply lookup_app_Some in Hi as [Hi|[Hle Hi]].
        -- split_and!; [done|done|]. intros k z Hlt Hz. eapply Hk; [done|]. by apply lookup_app_l_Some.
        -- destruct (i - List.length l)%nat; [|done]. injection Hi as <-. congruence.
Qed.

(** What the loop finds under an id before position [j]. *)
Lemma latest_large_at cfg account id h j placed :
  latest_large cfg account id (take j h) = Some placed <->
  exists i, (i < j)%nat /\ h !! i = Some placed /\ oe_account placed = account /\
    large_new cfg placed = true /\ oe_order_id placed = id /\
    forall k o, (i < k < j)%nat -> h !! k = Some o ->
      oe_account o = account -> large_new cfg o = true -> oe_order_id o <> id.
Proof.
  unfold latest_large. rewrite last_filter_spec. split.
  - intros (i & Hi & Hf & Hk). apply lookup_take_Some in Hi as [Hi Hlt].
    apply andb_true_iff in Hf as [Hf Hid]. apply andb_true_iff in Hf as [Hacc Hl].
    apply bool_decide_eq_true in Hid, Hacc.
    exists i. split_and!; [done..|]. intros k o [Hik Hkj] Ho Ha Hlo Hio.
    assert (take j h !! k = Some o) as Ht by by apply lookup_take_Some.
    specialize (Hk k o Hik Ht). by rewrite Ha, Hlo, Hio, !bool_decide_true in Hk.
  - intros (i & Hlt & Hi & Ha & Hl & Hid & Hk). exists i. split_and!; [by apply lookup_take_Some| |].
    + by rewrite Hl, !bool_decide_true.
    + intros k o Hik Ho. apply lookup_take_Some in Ho as [Ho Hkj].
      destruct (bool_decide (oe_account o = account) && large_new cfg o) eqn:E; [|done].
      apply andb_true_iff in E as [Ea El]. apply bool_decide_eq_true in Ea. apply bool_decide_eq_false.
      by apply (Hk k o).
Qed.

Lemma large_new_spec cfg o :
  large_new cfg o = true <-> oe_action o = "NEW"%string /\ fleb (spoof_large_qty cfg) (oe_qty o) = true.
Proof. unfold large_new. by rewrite andb_true_iff, bool_decide_eq_true. Qed.

Lemma fast_unfilled_spec cfg evs orig c :
  fast_unfilled cfg (ma_filled (watched cfg evs)) orig c = true <->
  oe_ts c <= oe_ts orig + spoof_cancel_ms cfg /\ ~ executed evs (oe_order_id orig).
Proof.
  unfold fast_unfilled. rewrite andb_true_iff, negb_true_iff, bool_decide_eq_false, watched_filled, Z.leb_le.
  by rewrite Z.le_sub_le_add_l.
Qed.

Lemma far_from_mid_spec cfg o : far_from_mid cfg o = true <-> placed_far cfg o.
Proof.
  unfold far_from_mid, placed_far. destruct (oe_mid o) as [mid|]; [|done].
  destruct (fltb fzero mid) eqn:E.
  - assert (ftrue mid = true) as -> by (destruct mid as [?|?| |? ? ?]; done). cbn [andb].
    split; [by intros Hf mid' [= <-] _|]. intros Hf. by apply Hf.
  - rewrite andb_false_r. split; [|done]. intros _ mid' [= <-]. congruence.
Qed.

Lemma spoof_like_spec cfg evs ev h j c :
  h !! j = Some c -> spoof_like cfg (ma_filled (watched cfg evs)) ev (take j h) c = true <-> spoofed cfg evs ev h j.
Proof.
  intros Hj. unfold spoof_like, spoofed. split.
  - intros Hs. apply andb_true_iff in Hs as [Hs Hl]. apply andb_true_iff in Hs as [Hs Hc].
    apply andb_true_iff in Hs as [Ha _]. apply bool_decide_eq_true in Hc, Ha.
    destruct (latest_large _ _ _ _) as [placed|] eqn:E; [|done]. apply andb_true_iff in Hl as [Hf Hw].
    apply fast_unfilled_spec in Hf as [Ht Hx].
    apply latest_large_at in E as (i & Hi & Hp & Hacc & Hl & Hid & Hk). apply large_new_spec in Hl as [Hn Hq].
    exists i, placed, c. unfold flashed. split_and!; try done; [lia|].
    intros k o Hik Ho Hao Hn' Hq'. apply (Hk k o); [done..|]. by apply large_new_spec.
  - intros (i & placed & c' & Hi & Hp & Hc' & Hap & Ha & Hn & Hc & Hid & (Hq & Ht & Hx) & Hw & Hk).
    assert (c' = c) as -> by congruence. rewrite Ha, Hc, !bool_decide_true by done.
    assert (large_new cfg c = false) as ->.
    { unfold large_new. by rewrite Hc. }
    assert (latest_large cfg (oe_account ev) (oe_order_id c) (take j h) = Some placed) as ->.
    { apply latest_large_at. exists i. split_and!; [done..|by apply large_new_spec|done|].
      intros k o Hik Ho Hao [Hn' Hq']%large_new_spec. by apply (Hk k o). }
    cbn [andb negb]. apply andb_true_iff. split; [by apply fast_unfilled_spec|lia].
Qed.

(** The positions that count. *)
Definition spoof_positions (cfg : MarketAbuseConfig) (filled : gset string) (ev : OrderEvent)
    (h : list OrderEvent) : list nat :=
  List.filter (fun j => match h !! j with
                        | Some o => spoof_like cfg filled ev (take j h) o
                        | None => false
                        end) (seq 0 (List.length h)).

Lemma spoof_count_positions cfg filled ev h :
  spoof_count cfg filled ev [] h = Z.of_nat (List.length (spoof_positions cfg filled ev h)).
Proof.
  unfold spoof_positions.
  enough (forall before l, h = before ++ l ->
    spoof_count cfg filled ev before l = Z.of_nat (List.length (List.filter (fun j => match h !! j with
      | Some o => spoof_like cfg filled ev (take j h) o
      | None => false
      end) (seq (List.length before) (List.length l))))) as He by by apply (He []).
  intros before l. revert before. induction l as [|o l IH]; intros before E; [done|].
  cbn [spoof_count seq List.length List.filter].
  assert (h !! List.length before = Some o) as Ho by (rewrite E, lookup_app_r, Nat.sub_diag by lia; done).
  assert (take (List.length before) h = before) as Ht by (rewrite E; apply take_app_length).
  rewrite Ho, Ht, (IH (before ++ [o])), length_app by by rewrite E, <- app_assoc.
  cbn [List.length]. rewrite Nat.add_1_r. destruct (spoof_like cfg filled ev before o); cbn [List.length]; lia.
Qed.

Lemma elem_spoof_positions cfg evs ev h j :
  j ∈ spoof_positions cfg (ma_filled (watched cfg evs)) ev h <-> spoofed cfg evs ev h j.
Proof.
  unfold spoof_positions. rewrite list_elem_of_In, filter_In, in_seq. split.
  - intros [_ Hs]. destruct (h !! j) as [o|] eqn:E; [|done]. by apply (spoof_like_spec _ _ _ _ _ o).
  - intros Hs. pose proof Hs as (i & p & c & _ & _ & Hc & _). rewrite Hc. split.
    + apply lookup_lt_Some in Hc. lia.
    + by apply (spoof_like_spec _ _ _ _ _ c).
Qed.


(** ** Wash trades *)

(** The trades of the history, latest first, whose times do not increase. *)
Lemma wash_search_spec cfg ev l :
  StronglySorted (fun t t' => te_ts t' <= te_ts t) l ->
  match wash_search cfg ev l with
  | Some t => t ∈ l /\ washes cfg ev t = true /\ te_ts ev - te_ts t <= wash_window_ms cfg
  | None => forall t, t ∈ l -> te_ts ev - te_ts t <= wash_window_ms cfg -> washes cfg ev t = false
  end.
Proof.
  induction 1 as [|t l Hs IH Ht]; cbn [wash_search]; [by intros t []%elem_of_nil|].
  rewrite Forall_forall in Ht. destruct (Z.ltb_spec (wash_window_ms cfg) (te_ts ev - te_ts t)).
  - intros t' [->|Hin]%elem_of_cons Hw; [lia|]. specialize (Ht t' Hin). lia.
  - destruct (washes cfg ev t) eqn:Ew; [split_and!; [by left|done|lia]|].
    destruct (wash_search cfg ev l) as [t'|].
    + destruct IH as (? & ? & ?). split_and!; [by right|done..].
    + intros t' [->|Hin]%elem_of_cons; [done|by apply IH].
Qed.

(** With the trades of the symbol recorded in order of time, a trade raises a
    wash-trade alert exactly when the kept history holds a trade of the same account,
    on the other side, in the time window, at about the same price, both quantities
    positive. *)
Theorem wash_alert_correct ev s :
  let before := removelast (push_bounded history (trades_of (te_symbol ev) s) ev) in
  StronglySorted (fun t t' => te_ts t' <= te_ts t) (rev before) ->
  (exists a, a ∈ (record_trade ev s).2 /\ al_pattern a = "wash_trade"%string) <->
  exists t, t ∈ before /\ te_ts ev - te_ts t <= wash_window_ms (ma_cfg s) /\ washes (ma_cfg s) ev t = true.
Proof.
  intros before Hs. unfold record_trade. cbn [snd].
  assert (trades_of (te_symbol ev) (push_trade ev s) = push_bounded history (trades_of (te_symbol ev) s) ev) as E.
  { unfold trades_of at 1. cbn. by rewrite dget_dset_eq. }
  unfold check_wash. rewrite E. cbn [push_trade ma_cfg]. fold before.
  pose proof (wash_search_spec (ma_cfg s) ev (rev before) Hs) as Hw.
  assert (forall a, a ∈ check_marking_the_close (push_trade ev s) ev -> al_pattern a <> "wash_trade"%string) as Hm.
  { intros a. unfold check_marking_the_close. cbv zeta.
    destruct (negb (_ && _)); [by intros []%elem_of_nil|]. destruct (negb _); [by intros []%elem_of_nil|].
    destruct (fltb _ _); [by intros []%elem_of_nil|]. by intros ->%list_elem_of_singleton. }
  destruct (wash_search _ _ _) as [t|].
  - destruct Hw as (Hin & Hw & Ht). split; [intros _|].
    + exists t. split_and!; [by apply list_elem_of_In, in_rev, list_elem_of_In|done|done].
    + intros _. eexists. split; [by left|done].
  - split.
    + intros (a & Ha & Hp). by destruct (Hm a Ha).
    + intros (t & Hin & Ht & Hw'). rewrite Hw in Hw'; [done|by apply list_elem_of_In, in_rev; rewrite rev_involutive; apply list_elem_of_In|done].
Qed.

(** ** Concrete histories *)

Definition sample_order (ts : Z) (action : string) (id : string) (price : Z) : OrderEvent :=
  MkOrderEvent ts "AAPL" "a" "BUY" action (float_of_int 2000) (float_of_int price) id (Some (float_of_int 100)).

Definition fed (evs : list OrderEvent) : MarketAbuseMonitor :=
  fold_left (fun s ev => (record_order ev s).1) evs (new_monitor None).

(** Three fast cancellations of large orders away from the mid alert. *)
Example spoofing_ex :
  map (fun a => (al_pattern a, al_severity a)) (ma_alerts (fed
    [sample_order 0 "NEW" "1" 90; sample_order 1 "CANCEL" "1" 90; sample_order 2 "NEW" "2" 90;
     sample_order 3 "CANCEL" "2" 90; sample_order 4 "NEW" "3" 90; sample_order 5 "CANCEL" "3" 90]))
  = [("spoofing", "MEDIUM")]%string.
Proof. vm_compute. reflexivity. Qed.

(** Only the order cancelled last is tested for its distance from the mid: the alert
    counts orders placed at the mid as well. *)
Theorem spoofing_counts_orders_at_the_mid :
  map (fun a => (al_pattern a, al_detail a)) (ma_alerts (fed
    [sample_order 0 "NEW" "1" 100; sample_order 1 "CANCEL" "1" 100; sample_order 2 "NEW" "2" 100;
     sample_order 3 "CANCEL" "2" 100; sample_order 4 "NEW" "3" 90; sample_order 5 "CANCEL" "3" 90]))
  = [("spoofing", "3 large orders placed away from mid and cancelled within 5000ms without execution")]%string.
Proof. vm_compute. reflexivity. Qed.

