(* ===== verification/Blotter.v ===== *)
(** * Trade blotter and cash ledger: [packages/agent/accounting/blotter.py]

    Two append-only stores whose rows commit to their predecessors through the hash
    chain of [HashChain].  A store is the list of its rows, in memory or in its
    table: the table keeps numbers as the texts [str] gives, which [float] reads back
    as the same numbers.  The [summary] reports are not modelled. *)
From Stdlib Require Import SpecFloat.
From Stdlib Require Import Ascii String.
From S2P Require Import Prelude PyDecimal DecArith PyFormat PyFloat PyValue PyText PyRepr Sha256 HashChain.
Open Scope Z_scope.
Open Scope list_scope.

(** [_f(x)]; [None] is an exception. *)
Definition f_ (v : pyval) : option pyfloat :=
  match v with
  | VNone => Some fzero
  | _ => float_of_val v
  end.

(** ** Settlement dates *)

Definition SETTLE_DAYS : list (string * Z) :=
  [("equity", 1); ("etf", 1); ("option", 1); ("fx", 2); ("crypto", 0); ("future", 0); ("index", 0)]%string.

(** The loop over calendar days, with fuel; [None] is [OverflowError]. *)
Fixpoint add_weekdays (fuel : nat) (d added n : Z) : option Z :=
  match fuel with
  | O => None
  | S f =>
      if added <? n then
        let d := d + 1 in
        if date_max <? d then None
        else add_weekdays f d (if weekday d <? 5 then added + 1 else added) n
      else Some d
  end.

(** A weekday comes at least every three days. *)
Definition settlement_day (asset_class : string) (trade_day : Z) : option Z :=
  let a := if bool_decide (asset_class = ""%string) then "equity"%string else asset_class in
  let n := default 1 (dget SETTLE_DAYS (str_lower a)) in
  add_weekdays (S (3 * Z.to_nat n)) trade_day 0 n.

Lemma next_weekday d :
  weekday (d + 1) < 5 \/ (5 <= weekday (d + 1) /\ weekday (d + 1 + 1) < 5) \/
  (5 <= weekday (d + 1) /\ 5 <= weekday (d + 1 + 1) /\ weekday (d + 1 + 1 + 1) < 5).
Proof. unfold weekday. Z.div_mod_to_equations. lia. Qed.

(** The fuel is enough: [m] weekdays are at most [3 m] days away. *)
Lemma add_weekdays_reaches m fuel d added n :
  n - added = Z.of_nat m -> (3 * m < fuel)%nat -> d + 3 * Z.of_nat m <= date_max ->
  exists k : nat, (k <= 3 * m)%nat /\ add_weekdays fuel d added n = Some (d + Z.of_nat k).
Proof.
  revert fuel d added. induction m as [|m IH]; intros fuel d added Hn Hf Hd.
  - destruct fuel as [|f]; [lia|]. exists 0%nat. cbn [add_weekdays].
    destruct (Z.ltb_spec added n); [lia|]. split; [lia|]. f_equal. lia.
  - assert (forall f c, c < date_max -> add_weekdays (S f) c added n =
      add_weekdays f (c + 1) (if weekday (c + 1) <? 5 then added + 1 else added) n) as Hstep.
    { intros f c Hc. cbn [add_weekdays]. destruct (Z.ltb_spec added n); [|lia].
      by destruct (Z.ltb_spec date_max (c + 1)); [lia|]. }
    destruct fuel as [|[|[|fuel]]]; [lia..|]. rewrite Hstep by lia.
    destruct (next_weekday d) as [H1|[[H1 H2]|(H1 & H2 & H3)]].
    + rewrite (proj2 (Z.ltb_lt _ _) H1). destruct (IH (S (S fuel)) (d + 1) (added + 1)) as (k & Hk & ->); [lia..|].
      exists (1 + k)%nat. split; [lia|]. f_equal. lia.
    + rewrite (proj2 (Z.ltb_ge _ _) H1), Hstep, (proj2 (Z.ltb_lt _ _) H2) by lia.
      destruct (IH (S fuel) (d + 1 + 1) (added + 1)) as (k & Hk & ->); [lia..|].
      exists (2 + k)%nat. split; [lia|]. f_equal. lia.
    + rewrite (proj2 (Z.ltb_ge _ _) H1), Hstep, (proj2 (Z.ltb_ge _ _) H2), Hstep, (proj2 (Z.ltb_lt _ _) H3) by lia.
      destruct (IH fuel (d + 1 + 1 + 1) (added + 1)) as (k & Hk & ->); [lia..|].
      exists (3 + k)%nat. split; [lia|]. f_equal. lia.
Qed.

Lemma settlement_day_some cls d : d + 6 <= date_max -> is_Some (settlement_day cls d).
Proof.
  intros Hd. unfold settlement_day. set (n := default 1 _).
  assert (0 <= n <= 2) as Hn.
  { unfold n. destruct (dget SETTLE_DAYS _) as [x|] eqn:E; [|cbn; lia]. apply dget_elem in E. cbn.
    unfold SETTLE_DAYS in E. set_unfold in E. intuition (subst; try congruence; lia || (simplify_eq; lia)). }
  destruct (add_weekdays_reaches (Z.to_nat n) (S (3 * Z.to_nat n)) d 0 n) as (k & _ & ->); [lia..|done].
Qed.

Definition microseconds (t : datetime) : Z :=
  match t with
  | Naive t | Utc t => t
  end.

Definition settlement_date (asset_class : string) (trade_dt : datetime) : option string :=
  date_iso <$> settlement_day asset_class (microseconds trade_dt / day).

(** ** Trade blotter *)

Record TradeRecord := MkTrade {
  tr_seq : Z;
  tr_ts : string;
  tr_symbol : string;
  tr_figi : option string;
  tr_side : string;
  tr_quantity : pyfloat;
  tr_price : pyfloat;
  tr_gross : pyfloat;
  tr_fee : pyfloat;
  tr_financing : pyfloat;
  tr_currency : string;
  tr_asset_class : string;
  tr_strategy_id : string;
  tr_client_order_id : option string;
  tr_broker_order_id : option string;
  tr_settlement_date : string;
  tr_prev_hash : string;
  tr_entry_hash : string
}.

Definition blotter_payload (r : TradeRecord) : dict :=
  [("ts", VStr (tr_ts r)); ("symbol", VStr (tr_symbol r)); ("figi", v_opt_str (tr_figi r));
   ("side", VStr (tr_side r)); ("quantity", VFloat (tr_quantity r)); ("price", VFloat (tr_price r));
   ("gross_notional", VFloat (tr_gross r)); ("fee", VFloat (tr_fee r));
   ("financing", VFloat (tr_financing r)); ("currency", VStr (tr_currency r));
   ("asset_class", VStr (tr_asset_class r)); ("strategy_id", VStr (tr_strategy_id r));
   ("client_order_id", v_opt_str (tr_client_order_id r));
   ("broker_order_id", v_opt_str (tr_broker_order_id r));
   ("settlement_date", VStr (tr_settlement_date r))]%string.

Record TradeBlotter := MkBlotter { bl_key : option string; bl_rows : list TradeRecord }.

(** The arguments of [record_trade]. *)
Record TradeArgs := MkTradeArgs {
  ta_symbol : string;
  ta_side : string;
  ta_quantity : pyval;
  ta_price : pyval;
  ta_fee : pyval;
  ta_financing : pyval;
  ta_figi : option string;
  ta_currency : string;
  ta_asset_class : string;
  ta_strategy_id : string;
  ta_client_order_id : option string;
  ta_broker_order_id : option string;
  ta_ts : option datetime
}.

(** An exception raised by a conversion: [TypeError], [ValueError], [OverflowError]. *)
Inductive BookError := BadNumber | BadDate | BadCashType.

Section Stores.
Context `{Digest}.

Definition bl_head (b : TradeBlotter) : string :=
  match last (bl_rows b) with
  | Some r => tr_entry_hash r
  | None => GENESIS_HASH
  end.

Definition bl_count (b : TradeBlotter) : Z := Z.of_nat (List.length (bl_rows b)).

(** The row without its link to the chain. *)
Definition trade_row (now : Z) (a : TradeArgs) : pyres BookError TradeRecord :=
  let t := default (Utc now) (ta_ts a) in
  match f_ (ta_quantity a), f_ (ta_price a), f_ (ta_fee a), f_ (ta_financing a) with
  | Some q, Some p, Some fee, Some fin =>
      match settlement_date (ta_asset_class a) t with
      | Some sd =>
          Ok (MkTrade 0 (iso t) (ta_symbol a) (ta_figi a) (str_lower (ta_side a)) q p (fabs (fmul q p))
                fee fin (ta_currency a) (ta_asset_class a) (ta_strategy_id a) (ta_client_order_id a)
                (ta_broker_order_id a) sd "" "")
      | None => Raise BadDate
      end
  | _, _, _, _ => Raise BadNumber
  end.

Definition with_link (seq : Z) (prev h : string) (r : TradeRecord) : TradeRecord :=
  MkTrade seq (tr_ts r) (tr_symbol r) (tr_figi r) (tr_side r) (tr_quantity r) (tr_price r) (tr_gross r)
    (tr_fee r) (tr_financing r) (tr_currency r) (tr_asset_class r) (tr_strategy_id r)
    (tr_client_order_id r) (tr_broker_order_id r) (tr_settlement_date r) prev h.

Definition record_trade (now : Z) (a : TradeArgs) (b : TradeBlotter) :
    pyres BookError (TradeBlotter * TradeRecord) :=
  match trade_row now a with
  | Raise e => Raise e
  | Ok row =>
      let seq := bl_count b + 1 in
      let prev := bl_head b in
      let rec := with_link seq prev (chain_hash prev (blotter_payload row) seq (bl_key b)) row in
      Ok (MkBlotter (bl_key b) (bl_rows b ++ [rec]), rec)
  end.

Definition trade_chain_record (r : TradeRecord) : ChainRecord :=
  MkChainRecord (tr_seq r) (blotter_payload r) (tr_prev_hash r) (tr_entry_hash r).

(** [recs[-limit:]] *)
Definition trades (limit : Z) (b : TradeBlotter) : list TradeRecord := py_last limit (bl_rows b).

Definition bl_verify (b : TradeBlotter) : verdict :=
  verify_chain (map trade_chain_record (bl_rows b)) (bl_key b).

(** ** Cash ledger *)

Definition CASH_TYPES : list string :=
  ["TRADE"; "FEE"; "FINANCING"; "DIVIDEND"; "INTEREST"; "DEPOSIT"; "WITHDRAWAL"]%string.

Record CashMovement := MkMovement {
  mv_seq : Z;
  mv_ts : string;
  mv_type : string;
  mv_amount : pyfloat;
  mv_balance : pyfloat;
  mv_currency : string;
  mv_ref : option string;
  mv_symbol : option string;
  mv_prev_hash : string;
  mv_entry_hash : string
}.

Record CashLedger := MkCash {
  cl_key : option string;
  cl_currency : string;
  cl_opening : pyfloat;
  cl_rows : list CashMovement
}.

(** The constructor, on no table or on one with its stored opening balance. *)
Definition cash_open (key : option string) (currency : string) (opening : pyfloat)
    (stored : option (pyfloat * list CashMovement)) : CashLedger :=
  match stored with
  | Some (o, rows) => MkCash key currency o rows
  | None => MkCash key currency opening []
  end.

Definition cash_balance (c : CashLedger) : pyfloat :=
  match last (cl_rows c) with
  | Some m => mv_balance m
  | None => cl_opening c
  end.

Definition movement_payload (m : CashMovement) : dict :=
  [("ts", VStr (mv_ts m)); ("type", VStr (mv_type m)); ("amount", VFloat (mv_amount m));
   ("balance", VFloat (mv_balance m)); ("currency", VStr (mv_currency m));
   ("ref", v_opt_str (mv_ref m)); ("symbol", v_opt_str (mv_symbol m))]%string.

Definition post (now : Z) (type_ : string) (amount : pyval) (ref symbol : option string)
    (ts : option datetime) (c : CashLedger) : pyres BookError (CashLedger * CashMovement) :=
  let t := str_upper type_ in
  if negb (bool_decide (t ∈ CASH_TYPES)) then Raise BadCashType
  else
    match f_ amount with
    | None => Raise BadNumber
    | Some a =>
        let seq := match last (cl_rows c) with Some m => mv_seq m + 1 | None => 1 end in
        let prev := match last (cl_rows c) with Some m => mv_entry_hash m | None => GENESIS_HASH end in
        let bal := fround 10 (fadd (cash_balance c) a) in
        let row := MkMovement seq (iso (default (Utc now) ts)) t a bal (cl_currency c) ref symbol prev "" in
        let m := MkMovement seq (mv_ts row) t a bal (cl_currency c) ref symbol prev
                   (chain_hash prev (movement_payload row) seq (cl_key c)) in
        Ok (MkCash (cl_key c) (cl_currency c) (cl_opening c) (cl_rows c ++ [m]), m)
    end.

Definition movement_chain_record (m : CashMovement) : ChainRecord :=
  MkChainRecord (mv_seq m) (movement_payload m) (mv_prev_hash m) (mv_entry_hash m).

Definition movements (limit : Z) (c : CashLedger) : list CashMovement := py_last limit (cl_rows c).

Definition cash_verify (c : CashLedger) : verdict :=
  verify_chain (map movement_chain_record (cl_rows c)) (cl_key c).

(** *** What holds of the stores *)

Definition blotter_ok (b : TradeBlotter) : Prop :=
  linked (bl_key b) GENESIS_HASH 1 (map trade_chain_record (bl_rows b)).

Lemma last_map {A B} (f : A -> B) l : last (map f l) = f <$> last l.
Proof.
  induction l as [|x l IH]; [done|]. destruct l as [|y l]; [done|]. cbn [map]. rewrite !last_cons_cons. exact IH.
Qed.

Lemma record_trade_ok now a b b' r :
  record_trade now a b = Ok (b', r) -> blotter_ok b ->
  blotter_ok b' /\ bl_key b' = bl_key b /\ bl_rows b' = bl_rows b ++ [r].
Proof.
  unfold record_trade. destruct (trade_row now a) as [row|]; [|done]. intros [= <- <-] Hl.
  split_and!; [|done|done]. unfold blotter_ok. cbn [bl_rows bl_key]. rewrite map_app. cbn [map].
  apply linked_snoc. split_and!; [done|..].
  - cbn. rewrite length_map. unfold bl_count. lia.
  - rewrite last_map. unfold bl_head. cbn. by destruct (last (bl_rows b)).
  - done.
Qed.

(** Every movement is numbered, linked, and carries the balance the previous one
    leads to. *)
Fixpoint running (opening : pyfloat) (rows : list CashMovement) : Prop :=
  match rows with
  | [] => True
  | m :: rest => mv_balance m = fround 10 (fadd opening (mv_amount m)) /\ running (mv_balance m) rest
  end.

Record cash_ok (c : CashLedger) : Prop := {
  co_linked : linked (cl_key c) GENESIS_HASH 1 (map movement_chain_record (cl_rows c));
  co_running : running (cl_opening c) (cl_rows c);
  co_types : Forall (fun m => mv_type m ∈ CASH_TYPES) (cl_rows c)
}.

Lemma running_snoc opening rows m :
  running opening (rows ++ [m]) <->
  running opening rows /\
  mv_balance m = fround 10 (fadd (match last rows with Some x => mv_balance x | None => opening end) (mv_amount m)).
Proof.
  revert opening. induction rows as [|x rows IH]; intros opening; cbn [app running]; [cbn; tauto|].
  rewrite IH. destruct rows as [|y rows]; [cbn; tauto|]. rewrite last_cons_cons.
  destruct (last (y :: rows)) eqn:E; [tauto|]. by apply last_None in E.
Qed.

Lemma linked_last_seq key prev rows :
  linked key prev 1 (map movement_chain_record rows) ->
  match last rows with Some m => mv_seq m + 1 | None => 1 end = Z.of_nat (List.length rows) + 1.
Proof.
  destruct rows as [|m rows _] using rev_ind; [done|]. rewrite map_app. intros (_ & Hs & _)%linked_snoc.
  rewrite last_snoc, length_app. cbn in Hs |- *. rewrite Hs, length_map. lia.
Qed.

Lemma post_ok now ty amount ref sym ts c c' m :
  post now ty amount ref sym ts c = Ok (c', m) -> cash_ok c ->
  cash_ok c' /\ cl_key c' = cl_key c /\ cl_opening c' = cl_opening c /\ cl_rows c' = cl_rows c ++ [m].
Proof.
  unfold post. destruct (bool_decide _) eqn:Et; [|done]. cbn [negb]. apply bool_decide_eq_true in Et.
  destruct (f_ amount) as [a|]; [|done]. intros [= <- <-] [Hl Hr Ht].
  split_and!; [|done..]. split; cbn [cl_key cl_opening cl_rows].
  - rewrite map_app. apply linked_snoc. split_and!; [done|..].
    + cbn. rewrite (linked_last_seq _ _ _ Hl), length_map. lia.
    + rewrite last_map. cbn. by destruct (last (cl_rows c)).
    + done.
  - apply running_snoc. split; [done|]. by destruct c as [? ? ? rows].
  - apply Forall_app. split; [done|]. by apply Forall_singleton.
Qed.
End Stores.
