(* ===== verification/Books.v ===== *)
(** * Books and records: [packages/agent/accounting/books.py]

    [BooksAndRecords] books every fill in the P&L ledger, the trade blotter and the
    cash ledger and feeds it to the surveillance of [Surveillance].  The instrument
    master is a parameter, a function from symbols to their identity.

    An operation reads the clock several times: [clk i] is the [i]-th reading.  An
    exception leaves what was booked before it in place. *)
From Stdlib Require Import SpecFloat.
From Stdlib Require Import Ascii String.
From S2P Require Import Prelude PyDecimal DecArith PyFormat PyFloat PyValue PyText PyRepr Sha256 HashChain.
From S2P Require Import Ledger Blotter Surveillance.
Open Scope Z_scope.
Open Scope list_scope.

Record Books := MkBooks {
  bk_account : string;
  bk_currency : string;
  bk_ledger : Ledger;
  bk_blotter : TradeBlotter;
  bk_cash : CashLedger;
  bk_surveillance : option MarketAbuseMonitor
}.

Inductive BooksError :=
  | LedgerRaised (e : LedgerError)
  | StoreRaised (e : BookError).

(** The arguments of [on_fill]. *)
Record FillArgs := MkFillArgs {
  fa_symbol : string;
  fa_side : string;
  fa_quantity : pyval;
  fa_price : pyval;
  fa_fee : pyval;
  fa_financing : pyval;
  fa_strategy_id : string;
  fa_client_order_id : option string;
  fa_broker_order_id : option string;
  fa_asset_class : option string;
  fa_is_aggressive : bool;
  fa_account : option string;
  fa_ts : option datetime
}.

Definition set_ledger (l : Ledger) (b : Books) : Books :=
  MkBooks (bk_account b) (bk_currency b) l (bk_blotter b) (bk_cash b) (bk_surveillance b).
Definition set_blotter (x : TradeBlotter) (b : Books) : Books :=
  MkBooks (bk_account b) (bk_currency b) (bk_ledger b) x (bk_cash b) (bk_surveillance b).
Definition set_cash (c : CashLedger) (b : Books) : Books :=
  MkBooks (bk_account b) (bk_currency b) (bk_ledger b) (bk_blotter b) c (bk_surveillance b).
Definition set_surveillance (s : option MarketAbuseMonitor) (b : Books) : Books :=
  MkBooks (bk_account b) (bk_currency b) (bk_ledger b) (bk_blotter b) (bk_cash b) s.

Section BooksOps.
Context `{Digest} `{DecContext}.
Context (instruments : option (string -> option (option string * string))).
(** [int(ts.timestamp() * 1000)] of a given time, and [_now_ms()] of a reading. *)
Context (timestamp_ms : datetime -> Z).

(** The constructor on an empty directory, and on the stores of an earlier run. *)
Definition books_create (account currency : string) (method : Method) (start : pyval)
    (opening : pyfloat) (key : option string) (s : option MarketAbuseMonitor) : Books :=
  MkBooks account currency (create method start) (MkBlotter key [])
    (cash_open key currency opening None) s.

Definition books_reopen (now : Z) (account currency : string) (method : Method) (start : pyval)
    (opening : pyfloat) (key : option string) (s : option MarketAbuseMonitor)
    (d : Db) (trades : list TradeRecord) (stored : pyfloat * list CashMovement) : Books :=
  MkBooks account currency (reopen now method start d) (MkBlotter key trades)
    (cash_open key currency opening (Some stored)) s.

Definition resolve (symbol : string) : option string * string :=
  match instruments with
  | None => (None, "equity"%string)
  | Some f => default (None, "equity"%string) (f symbol)
  end.

(** [x or y] of texts. *)
Definition text_or (x : option string) (y : string) : string :=
  if truthy x then default y x else y.

(** [float(financing or 0)] *)
Definition financing_amount (v : pyval) : option pyfloat :=
  if val_true v then float_of_val v else Some fzero.

Definition cash_post (clk : Z) (ty : string) (amount : pyfloat) (a : FillArgs) (c : CashLedger) :
    pyres BooksError CashLedger :=
  match post clk ty (VFloat amount) (fa_client_order_id a) (Some (fa_symbol a)) (fa_ts a) c with
  | Ok (c, _) => Ok c
  | Raise e => Raise (StoreRaised e)
  end.

(** A step that may raise, on the books as they are: what it raises leaves them. *)
Definition and_then {A} (r : Books * pyres BooksError unit) (k : Books -> Books * pyres BooksError A) :
    Books * pyres BooksError A :=
  match r with
  | (b, Ok _) => k b
  | (b, Raise e) => (b, Raise e)
  end.

Definition post_cash (clk : Z) (ty : string) (amount : pyfloat) (a : FillArgs) (b : Books) :
    Books * pyres BooksError unit :=
  match cash_post clk ty amount a (bk_cash b) with
  | Ok c => (set_cash c b, Ok tt)
  | Raise e => (b, Raise e)
  end.

(** 2) the trade blotter *)
Definition book_trade (clk : Z) (a : FillArgs) (side : string) (figi : option string)
    (asset_class : string) (qf pf fef : pyfloat) (b : Books) : Books * pyres BooksError unit :=
  match Blotter.record_trade clk
          (MkTradeArgs (fa_symbol a) side (VFloat qf) (VFloat pf) (VFloat fef) (fa_financing a) figi
             (bk_currency b) asset_class (fa_strategy_id a) (fa_client_order_id a)
             (fa_broker_order_id a) (fa_ts a)) (bk_blotter b) with
  | Ok (x, _) => (set_blotter x b, Ok tt)
  | Raise e => (b, Raise (StoreRaised e))
  end.

(** 3) the cash movements; financing also goes to the P&L ledger *)
Definition book_cash (clk : nat -> Z) (a : FillArgs) (signed_notional fef : pyfloat) (b : Books) :
    Books * pyres BooksError unit :=
  and_then (post_cash (clk 2%nat) "TRADE" (SFopp signed_notional) a b) (fun b =>
  and_then (if ftrue fef then post_cash (clk 3%nat) "FEE" (SFopp fef) a b else (b, Ok tt)) (fun b =>
  match financing_amount (fa_financing a) with
  | None => (b, Raise (StoreRaised BadNumber))
  | Some fin =>
      if ftrue fin then
        and_then (post_cash (clk 4%nat) "FINANCING" (SFopp fin) a b) (fun b =>
          (set_ledger (accrue_financing (fa_symbol a) (VFloat fin) (bk_ledger b)) b, Ok tt))
      else (b, Ok tt)
  end)).

(** 4) surveillance *)
Definition watch_trade (clk : Z) (a : FillArgs) (side : string) (qf pf : pyfloat) (b : Books) :
    Books * list MarketAbuseAlert :=
  match bk_surveillance b with
  | None => (b, [])
  | Some s =>
      let '(s, alerts) := Surveillance.record_trade
        (MkTradeEvent (timestamp_ms (default (Utc clk) (fa_ts a))) (fa_symbol a)
           (text_or (fa_account a) (bk_account b)) (str_upper side) qf pf (fa_is_aggressive a)
           (text_or (fa_client_order_id a) (text_or (fa_broker_order_id a) ""))) s in
      (set_surveillance (Some s) b, alerts)
  end.

Definition books_on_fill (clk : nat -> Z) (a : FillArgs) (b : Books) :
    Books * pyres BooksError (list MarketAbuseAlert) :=
  let side := str_lower (fa_side a) in
  let '(figi, ac) := resolve (fa_symbol a) in
  let asset_class := text_or (fa_asset_class a) ac in
  match Ledger.on_fill (clk 0%nat) (fa_symbol a) side (fa_quantity a) (fa_price a) (fa_fee a) (fa_ts a)
          (fa_client_order_id a) (fa_broker_order_id a) (bk_ledger b) with
  | Raise e => (b, Raise (LedgerRaised e))
  | Ok (l, _) =>
      let qf := float_of_dec (d_ (fa_quantity a)) in
      let pf := float_of_dec (d_ (fa_price a)) in
      let fef := float_of_dec (d_ (fa_fee a)) in
      let signed := fmul (if bool_decide (side = "buy"%string) then qf else SFopp qf) pf in
      and_then (book_trade (clk 1%nat) a side figi asset_class qf pf fef (set_ledger l b)) (fun b =>
      and_then (book_cash clk a signed fef b) (fun b =>
      let '(b, alerts) := watch_trade (clk 5%nat) a side qf pf b in (b, Ok alerts)))
  end.

(** An order event goes to surveillance only; [ts_ms] is [None] where not given. *)
Definition books_on_order (now_ms : Z) (symbol side action : string) (quantity price : pyval)
    (order_id : string) (account : option string) (mid : option pyfloat) (ts_ms : option Z) (b : Books) :
    Books * pyres BooksError (list dict) :=
  match bk_surveillance b with
  | None => (b, Ok [])
  | Some s =>
      match float_of_val quantity, float_of_val price with
      | Some q, Some p =>
          let ts := match ts_ms with Some t => if t =? 0 then now_ms else t | None => now_ms end in
          let '(s, alerts) := record_order
            (MkOrderEvent ts symbol (text_or account (bk_account b)) (str_upper side) (str_upper action)
               q p order_id mid) s in
          (set_surveillance (Some s) b, Ok (map alert_to_dict alerts))
      | _, _ => (b, Raise (StoreRaised BadNumber))
      end
  end.

Definition books_mark (symbol : string) (price : pyval) (b : Books) : Books :=
  set_ledger (mark symbol price (bk_ledger b)) b.

Definition books_mark_prices (prices : list (string * pyval)) (b : Books) : Books :=
  set_ledger (mark_prices prices (bk_ledger b)) b.

Definition books_eod_close (now : Z) (b : Books) : Books * NavSnapshot :=
  let '(l, s) := eod_close now None "eod" (bk_ledger b) in (set_ledger l b, s).

Record Integrity := MkIntegrity {
  in_blotter : verdict;
  in_cash : verdict;
  cash_matches : bool;
  all_valid : bool
}.

Definition float_1e_6 : pyfloat := float_of_dec (Dec 1 (-6)).

Definition verify_integrity (b : Books) : Integrity :=
  let bl := bl_verify (bk_blotter b) in
  let ca := cash_verify (bk_cash b) in
  let m := fltb (fabs (fsub (cash_balance (bk_cash b)) (float_of_dec (cash (l_core (bk_ledger b))))))
             float_1e_6 in
  MkIntegrity bl ca m (v_valid bl && v_valid ca && m).

(** The callback for the fill handler: [seen] holds the cumulative quantity per order;
    a quantity that is not a number raises. *)
Definition books_fill_callback (clk : nat -> Z) (strategy_id : string) (payload : dict) (b : Books)
    (seen : list (string * dec)) : Books * list (string * dec) :=
  let coid := text_or_empty payload "client_order_id" in
  let symbol := text_or_empty payload "symbol" in
  let side := text_or_empty payload "side" in
  if bool_decide (symbol = ""%string) || negb (bool_decide (side = "buy" \/ side = "sell")%string)
  then (b, seen)
  else
    let price := default VNone (dget payload "avg_fill_price"%string) in
    if bool_decide (price ∈ [VNone; VStr ""; VStr "None"]) then (b, seen)
    else
      let filled := default VNone (dget payload "filled_qty"%string) in
      let '(qty, seen) :=
        match default VNone (dget payload "fill_increment"%string) with
        | VNone =>
            match dec_of_val (if val_true filled then filled else VStr "0") with
            | Some cum => (Some (dsub cum (default dzero (dget seen coid))), dset seen coid cum)
            | None => (None, seen)
            end
        | inc => (dec_of_val inc, seen)
        end in
      match qty with
      | None => (b, seen)
      | Some qty =>
          if dleb qty dzero then (b, seen)
          else
            ((books_on_fill clk
                (MkFillArgs symbol side (VDec qty) price (VInt 0) (VInt 0) strategy_id
                   (if bool_decide (coid = ""%string) then None else Some coid)
                   (get_str payload "broker_order_id") None true None None) b).1, seen)
      end.
End BooksOps.

(** * What the books guarantee

    After any history of fills, marks, closes and orders the three records of [Books]
    agree: the blotter has one row per fill of the P&L ledger, the movements of the
    cash ledger are those of the blotter's rows, both chains verify and every balance
    is the running one.  Concrete runs show where the records part. *)

Section Agreement.
Context `{Digest} `{DecContext}.
Context (instruments : option (string -> option (option string * string))) (timestamp_ms : datetime -> Z).

(** A row of the ledger's table and a row of the blotter record the same fill. *)
Definition same_trade (r : FillRow) (t : TradeRecord) : Prop :=
  tr_symbol t = fr_symbol r /\ tr_side t = fr_side r /\
  tr_quantity t = float_of_dec (d_ (VStr (fr_quantity r))) /\
  tr_price t = float_of_dec (d_ (VStr (fr_price r))) /\
  tr_fee t = float_of_dec (d_ (VStr (fr_fee r))) /\
  tr_client_order_id t = fr_client_order_id r /\ tr_broker_order_id t = fr_broker_order_id r.

(** The movements a trade causes. *)
Definition trade_moves (t : TradeRecord) : list (string * pyfloat) :=
  ("TRADE"%string, SFopp (fmul (if bool_decide (tr_side t = "buy"%string) then tr_quantity t
                                 else SFopp (tr_quantity t)) (tr_price t))) ::
  (if ftrue (tr_fee t) then [("FEE"%string, SFopp (tr_fee t))] else []) ++
  (if ftrue (tr_financing t) then [("FINANCING"%string, SFopp (tr_financing t))] else []).

Definition moves (c : CashLedger) : list (string * pyfloat) :=
  map (fun m => (mv_type m, mv_amount m)) (cl_rows c).

Record books_ok (b : Books) : Prop := {
  ok_blotter : blotter_ok (bk_blotter b);
  ok_cash : cash_ok (bk_cash b);
  ok_trades : exists d, l_db (bk_ledger b) = Some d /\ Forall2 same_trade (db_fills d) (bl_rows (bk_blotter b));
  ok_moves : moves (bk_cash b) = flat_map trade_moves (bl_rows (bk_blotter b))
}.

(** The books seen from the cash ledger: the movements still to come. *)
Definition owes (b : Books) (l : list (string * pyfloat)) : Prop :=
  blotter_ok (bk_blotter b) /\ cash_ok (bk_cash b) /\
  (exists d, l_db (bk_ledger b) = Some d /\ Forall2 same_trade (db_fills d) (bl_rows (bk_blotter b))) /\
  moves (bk_cash b) ++ l = flat_map trade_moves (bl_rows (bk_blotter b)).

Lemma post_cash_owes clk ty amount a b l :
  ty ∈ CASH_TYPES -> str_upper ty = ty -> owes b ((ty, amount) :: l) ->
  exists b', post_cash clk ty amount a b = (b', Ok tt) /\ owes b' l /\ bk_blotter b' = bk_blotter b.
Proof.
  intros Hty Hup (Hb & Hc & Ht & Hm). unfold post_cash, cash_post.
  destruct (post clk ty (VFloat amount) _ _ _ (bk_cash b)) as [[c m]|e] eqn:Ep.
  - eexists. split; [done|]. pose proof (post_ok _ _ _ _ _ _ _ _ _ Ep Hc) as (Hc' & _ & _ & Hr).
    split; [|done]. split; [exact Hb|]. split; [exact Hc'|]. split; [exact Ht|]. cbn [set_cash bk_blotter bk_cash].
    assert (mv_type m = ty /\ mv_amount m = amount) as [Et Ea].
    { unfold post in Ep. destruct (negb _); [done|]. cbn [f_ float_of_val] in Ep. injection Ep as _ <-.
      cbn. by rewrite Hup. }
    rewrite <- Hm. unfold moves. rewrite Hr, map_app, <- app_assoc. cbn [map app]. by rewrite Et, Ea.
  - exfalso. unfold post in Ep. rewrite Hup, bool_decide_true in Ep by done. done.
Qed.

Lemma financing_falsy v x : val_true v = false -> f_ v = Some x -> ftrue x = false.
Proof.
  destruct v as [|[]|z|s|d|t|us|f|l|d]; cbn [val_true f_ float_of_val]; try done.
  - by intros _ [= <-].
  - by intros _ [= <-].
  - intros Hz%negb_false_iff%Z.eqb_eq. subst z. by intros [= <-].
  - unfold truthy. intros Hs%negb_false_iff%bool_decide_eq_true. subst s. done.
  - unfold dtrue. intros Hd%negb_false_iff%Z.eqb_eq. unfold float_of_dec. rewrite Hd. by intros [= <-].
  - intros Hz%negb_false_iff%Z.eqb_eq. subst us. by intros [= <-].
  - by intros Hf [= <-].
Qed.

(** What the cash ledger posts of the financing is what the blotter holds of it. *)
Lemma financing_same v x :
  f_ v = Some x -> exists y, financing_amount v = Some y /\ ftrue y = ftrue x /\ (ftrue x = true -> y = x).
Proof.
  intros Hx. unfold financing_amount. destruct (val_true v) eqn:Et.
  - exists x. split_and!; [|done|done]. by destruct v.
  - exists fzero. rewrite (financing_falsy v x Et Hx). by split_and!.
Qed.

Lemma book_cash_owes clk a signed fef fin b :
  f_ (fa_financing a) = Some fin ->
  owes b (("TRADE"%string, SFopp signed) ::
          (if ftrue fef then [("FEE"%string, SFopp fef)] else []) ++
          (if ftrue fin then [("FINANCING"%string, SFopp fin)] else [])) ->
  exists b', book_cash clk a signed fef b = (b', Ok tt) /\ owes b' [] /\ bk_blotter b' = bk_blotter b.
Proof.
  intros Hf Ho. unfold book_cash.
  destruct (post_cash_owes (clk 2%nat) "TRADE" (SFopp signed) a b _ ltac:(by repeat constructor) eq_refl Ho)
    as (b1 & -> & Ho1 & Hb1). cbn [and_then].
  assert (exists b2, (if ftrue fef then post_cash (clk 3%nat) "FEE" (SFopp fef) a b1 else (b1, Ok tt)) = (b2, Ok tt) /\
    owes b2 (if ftrue fin then [("FINANCING"%string, SFopp fin)] else []) /\ bk_blotter b2 = bk_blotter b)
    as (b2 & -> & Ho2 & Hb2).
  { destruct (ftrue fef); [|by eauto]. cbn [app] in Ho1.
    destruct (post_cash_owes (clk 3%nat) "FEE" (SFopp fef) a b1 _ ltac:(set_solver) eq_refl Ho1) as (b2 & -> & ? & Hb2).
    exists b2. by rewrite Hb2. }
  cbn [and_then]. destruct (financing_same _ _ Hf) as (y & -> & Hy & Hyx). rewrite Hy.
  destruct (ftrue fin); [|by eauto]. rewrite (Hyx eq_refl).
  destruct (post_cash_owes (clk 4%nat) "FINANCING" (SFopp fin) a b2 _ ltac:(set_solver) eq_refl Ho2)
    as (b3 & -> & Ho3 & Hb3).
  cbn [and_then]. eexists. split; [done|]. destruct Ho3 as (Hb & Hc & Ht & Hm).
  split; [|by rewrite <- Hb2, <- Hb3].
  split; [exact Hb|]. split; [exact Hc|]. split; [exact Ht|exact Hm].
Qed.

(** The financing is a number and settlement falls before the end of the calendar. *)
Definition bookable (clk : nat -> Z) (a : FillArgs) : Prop :=
  is_Some (f_ (fa_financing a)) /\
  forall cls, is_Some (settlement_date cls (default (Utc (clk 1%nat)) (fa_ts a))).

(** The row a fill adds to the ledger's table. *)
Lemma ledger_on_fill_row now sym side q p fee ts co bo (l l' : Ledger) r d :
  Ledger.on_fill now sym side q p fee ts co bo l = Ok (l', r) -> l_db l = Some d ->
  exists d', l_db l' = Some d' /\ exists t,
    db_fills d' = db_fills d ++
      [MkFillRow t sym (str_lower side) (dec_str (d_ q)) (dec_str (d_ p)) (dec_str (d_ fee)) co bo].
Proof.
  unfold Ledger.on_fill. destruct (negb _); [done|]. destruct (dleb _ _); [done|].
  unfold apply_fill. destruct (book_fill _ _ _) as [c x]. intros [= <- <-] Hd. cbn. rewrite Hd. cbn.
  eexists. split; [done|]. by eexists.
Qed.

Lemma str_lower_idem s : str_lower (str_lower s) = str_lower s.
Proof.
  unfold str_lower, chars. rewrite list_ascii_of_string_of_list_ascii, map_map. f_equal.
  apply map_ext. intros c. unfold lower_char.
  destruct ((65 <=? nat_of_ascii c) && (nat_of_ascii c <=? 90))%nat eqn:E; [|by rewrite E].
  apply andb_true_iff in E as [E1%Nat.leb_le E2%Nat.leb_le].
  rewrite nat_ascii_embedding by lia.
  destruct (Nat.leb_spec (nat_of_ascii c + 32) 90); [lia|]. by rewrite andb_false_r.
Qed.

(** A fill with bookable arguments goes into all the records or into none. *)
Lemma on_fill_books clk a b :
  books_ok b -> bookable clk a ->
  (exists e, books_on_fill instruments timestamp_ms clk a b = (b, Raise (LedgerRaised e))) \/
  (exists b' alerts, books_on_fill instruments timestamp_ms clk a b = (b', Ok alerts) /\ books_ok b' /\
    List.length (bl_rows (bk_blotter b')) = S (List.length (bl_rows (bk_blotter b)))).
Proof.
  intros [Hb Hc (d & Hd & Ht) Hm] [[fin Hf] Hs]. unfold books_on_fill.
  destruct (resolve instruments (fa_symbol a)) as [figi ac]. set (cls := text_or _ ac).
  destruct (Ledger.on_fill _ _ _ _ _ _ _ _ _ _) as [[l r]|e] eqn:El; [right|left; by exists e].
  apply (ledger_on_fill_row _ _ _ _ _ _ _ _ _ _ _ _ d) in El as (d' & Hd' & t & Hrows); [|done].
  set (qf := float_of_dec (d_ (fa_quantity a))). set (pf := float_of_dec (d_ (fa_price a))).
  set (fef := float_of_dec (d_ (fa_fee a))). set (side := str_lower (fa_side a)) in *.
  unfold book_trade. destruct (Hs cls) as [sd Hsd].
  destruct (Blotter.record_trade _ _ _) as [[x tr]|e] eqn:Er.
  2: { exfalso. unfold Blotter.record_trade, trade_row in Er. cbn [ta_quantity ta_price ta_fee ta_financing
         ta_asset_class ta_ts f_ float_of_val] in Er. by rewrite Hf, Hsd in Er. }
  cbn [and_then].
  assert (tr_symbol tr = fa_symbol a /\ tr_side tr = side /\ tr_quantity tr = qf /\ tr_price tr = pf /\
    tr_fee tr = fef /\ tr_financing tr = fin /\ tr_client_order_id tr = fa_client_order_id a /\
    tr_broker_order_id tr = fa_broker_order_id a) as (E1 & E2 & E3 & E4 & E5 & E6 & E7 & E8).
  { unfold Blotter.record_trade, trade_row in Er. cbn [ta_quantity ta_price ta_fee ta_financing
      ta_asset_class ta_ts f_ float_of_val] in Er. rewrite Hf, Hsd in Er. injection Er as _ <-.
    cbn. unfold side. by rewrite str_lower_idem. }
  apply record_trade_ok in Er as (Hb' & _ & Hx); [|done]. cbn [set_ledger bk_blotter] in Hx.
  set (b1 := set_blotter x (set_ledger l b)).
  assert (owes b1 (trade_moves tr)) as Ho.
  { split; [exact Hb'|]. split; [exact Hc|]. split.
    - exists d'. split; [exact Hd'|]. cbn [b1 set_blotter bk_blotter]. rewrite Hrows, Hx.
      apply Forall2_app; [exact Ht|]. constructor; [|constructor]. unfold same_trade.
      cbn [fr_symbol fr_side fr_quantity fr_price fr_fee fr_client_order_id fr_broker_order_id].
      rewrite !d_dec_str. split_and!; try done. rewrite E2. unfold side. by rewrite str_lower_idem.
    - cbn [b1 set_blotter set_ledger bk_cash bk_blotter]. rewrite Hx, Hm, flat_map_app. cbn [flat_map].
      by rewrite app_nil_r. }
  unfold trade_moves in Ho. rewrite E2, E3, E4, E5, E6 in Ho.
  destruct (book_cash_owes clk a (fmul (if bool_decide (side = "buy"%string) then qf else SFopp qf) pf) fef fin b1 Hf Ho)
    as (b2 & Hbc & (Hb2 & Hc2 & Ht2 & Hm2) & Hrows2).
  rewrite app_nil_r in Hm2. fold b1. rewrite Hbc. cbn [and_then]. unfold watch_trade.
  assert (books_ok b2 /\ List.length (bl_rows (bk_blotter b2)) = S (List.length (bl_rows (bk_blotter b)))) as [Hok Hlen].
  { split; [by split|]. rewrite Hrows2. cbn [b1 set_blotter bk_blotter]. rewrite Hx, length_app. cbn. lia. }
  destruct (bk_surveillance b2) as [s|]; [|by exists b2, []].
  destruct (Surveillance.record_trade _ s) as [s' alerts]. eexists _, alerts. split; [reflexivity|].
  split; [|exact Hlen]. by destruct Hok.
Qed.

(** ** Histories *)

Inductive books_op :=
  | BFill (clk : nat -> Z) (a : FillArgs)
  | BOrder (now_ms : Z) (symbol side action : string) (quantity price : pyval) (order_id : string)
      (account : option string) (mid : option pyfloat) (ts_ms : option Z)
  | BMark (symbol : string) (price : pyval)
  | BEod (now : Z).

Definition books_do (b : Books) (op : books_op) : Books :=
  match op with
  | BFill clk a => (books_on_fill instruments timestamp_ms clk a b).1
  | BOrder now sym side action q p oid acc mid ts => (books_on_order now sym side action q p oid acc mid ts b).1
  | BMark sym p => books_mark sym p b
  | BEod now => (books_eod_close now b).1
  end.

Definition books_run (b : Books) (ops : list books_op) : Books := fold_left books_do ops b.

Definition op_bookable (op : books_op) : Prop :=
  match op with
  | BFill clk a => bookable clk a
  | _ => True
  end.

Lemma eod_close_db now ts lbl l :
  let '(l', s) := eod_close now ts lbl l in l_db l' = store_snapshot s <$> l_db l.
Proof. reflexivity. Qed.

Lemma books_do_ok b op : books_ok b -> op_bookable op -> books_ok (books_do b op).
Proof.
  intros Hok Hop. destruct op as [clk a|now sym side action q p oid acc mid ts|sym p|now]; cbn [books_do].
  - destruct (on_fill_books clk a b Hok Hop) as [[e ->]|(b' & al & -> & Hok' & _)]; [done|exact Hok'].
  - unfold books_on_order. destruct (bk_surveillance b); [|done].
    destruct (float_of_val q); [|done]. destruct (float_of_val p); [|done].
    destruct (record_order _ _). by destruct Hok.
  - destruct Hok as [Hb Hc (d & Hd & Ht) Hm]. split; [done|done| |done].
    cbn [books_mark set_ledger bk_ledger mark l_db]. rewrite Hd. by eexists.
  - destruct Hok as [Hb Hc (d & Hd & Ht) Hm]. unfold books_eod_close.
    pose proof (eod_close_db now None "eod" (bk_ledger b)) as He.
    destruct (eod_close now None "eod" (bk_ledger b)) as [l s]. cbn [fst].
    split; [done|done| |done]. cbn [set_ledger bk_ledger bk_blotter]. rewrite He, Hd.
    by exists (store_snapshot s d).
Qed.

(** C35: After any history of fills (rejected ones included), orders, marks and closes
    the books agree: the blotter has one row per fill of the P&L ledger, with the same
    symbol, side, ids and numbers; the movements of the cash ledger are exactly those of
    the blotter's rows, in order; every balance is the previous one plus the amount,
    rounded; both hash chains verify.  Of every fill the financing must be a number and
    the settlement date within the calendar ([bookable]): the fill comes
    first into the P&L ledger, and a bad financing leaves it in there alone
    ([bad_financing_half_booked]). *)
Theorem books_agree account currency method start opening key s ops :
  Forall op_bookable ops ->
  let b := books_run (books_create account currency method start opening key s) ops in
  (exists d, l_db (bk_ledger b) = Some d /\ Forall2 same_trade (db_fills d) (bl_rows (bk_blotter b))) /\
  moves (bk_cash b) = flat_map trade_moves (bl_rows (bk_blotter b)) /\
  running (cl_opening (bk_cash b)) (cl_rows (bk_cash b)) /\
  v_valid (bl_verify (bk_blotter b)) = true /\ v_valid (cash_verify (bk_cash b)) = true.
Proof.
  intros Hops b. assert (books_ok b) as [Hb Hc Ht Hm].
  { unfold b, books_run. clear b. assert (books_ok (books_create account currency method start opening key s)) as H0'.
    { split; [constructor| |by eexists|done]. split; [constructor|done|constructor]. }
    revert H0'. generalize (books_create account currency method start opening key s).
    induction Hops as [|op ops Hop Hops IH]; intros b Hok; [done|]. cbn [fold_left].
    apply IH, books_do_ok; done. }
  split_and!; [done|done|apply Hc|by apply verify_loop_valid|apply verify_loop_valid, Hc].
Qed.
End Agreement.

(** ** Concrete runs *)

Definition no_clock : nat -> Z := fun i => Z.of_nat i.

Definition sample_fill (side : string) (q p : dec) (financing : pyval) : FillArgs :=
  MkFillArgs "AAPL" side (VDec q) (VDec p) (VInt 1) financing "s" (Some "c1"%string) None None true None None.

Definition sample_books (start : Z) : Books :=
  @books_create ledger_context "agent" "USD" Average (VInt start) (float_of_int start) None
    (Some (new_monitor None)).

Definition ms_of (t : datetime) : Z := microseconds t / 1000.

Definition filled (b : Books) (a : FillArgs) : Books :=
  (@books_on_fill _ ledger_context None ms_of no_clock a b).1.

Definition sample_integrity (b : Books) : bool * bool * bool :=
  let i := verify_integrity b in (v_valid (in_blotter i), v_valid (in_cash i), cash_matches i).

(** A purchase and a sale with fees. *)
Example books_ex :
  let b := filled (filled (sample_books 100000) (sample_fill "BUY" (Dec 10 0) (Dec 100 0) (VInt 0)))
             (sample_fill "sell" (Dec 4 0) (Dec 110 0) (VInt 2)) in
  sample_integrity b = (true, true, true) /\
  map (fun m => (mv_type m, string_of_list_ascii (float_repr (mv_amount m)))) (cl_rows (bk_cash b))
  = [("TRADE", "-1000.0"); ("FEE", "-1.0"); ("TRADE", "440.0"); ("FEE", "-1.0"); ("FINANCING", "-2.0")]%string.
Proof. vm_compute. split; reflexivity. Qed.

(** A fill whose financing is not a number is in the P&L ledger and nowhere else. *)
Theorem bad_financing_half_booked :
  let b := filled (sample_books 100000) (sample_fill "buy" (Dec 10 0) (Dec 100 0) (VStr "n/a")) in
  match l_db (bk_ledger b) with
  | Some d => List.length (db_fills d) = 1%nat
  | None => False
  end /\ bl_rows (bk_blotter b) = [] /\ cl_rows (bk_cash b) = [] /\ cash_matches (verify_integrity b) = false.
Proof. vm_compute. split_and!; reflexivity. Qed.

(** After a restart the financing is in the cash ledger and no longer in the P&L
    ledger: the books are reported as not matching. *)
Theorem restart_breaks_cash_match :
  let b := filled (sample_books 100000) (sample_fill "buy" (Dec 10 0) (Dec 100 0) (VInt 2)) in
  let b' := @books_reopen ledger_context 9 "agent" "USD" Average (VInt 100000) (float_of_int 100000) None None
    (default (MkDb [] [] [] "0") (l_db (bk_ledger b))) (bl_rows (bk_blotter b))
    (cl_opening (bk_cash b), cl_rows (bk_cash b)) in
  sample_integrity b = (true, true, true) /\ sample_integrity b' = (true, true, false).
Proof. vm_compute. split; reflexivity. Qed.

(** The cash ledger adds floats: from a large balance two small trades are enough
    for a difference above the tolerance. *)
Theorem large_balance_breaks_cash_match :
  let a := MkFillArgs "X" "buy" (VInt 1) (VDec (Dec 1 (-1))) (VInt 0) (VInt 0) "s" None None None true None None in
  let b := filled (filled (sample_books 100000000000) a) a in
  sample_integrity b = (true, true, false).
Proof. vm_compute. reflexivity. Qed.

(** The blotter's settlement calendar knows no holidays: it settles a share trade of
    2 July 2026 on the holiday of 3 July, and one of 31 December on 1 January. *)
Theorem settles_on_holidays :
  map (fun d => settlement_date "equity" (Utc (d * day))) [20636; 20818] = [Some "2026-07-03"; Some "2027-01-01"]%string.
Proof. vm_compute. reflexivity. Qed.

Lemma sample_bookable side q p : bookable no_clock (sample_fill side q p (VInt 2)).
Proof.
  split; [eexists; vm_compute; reflexivity|]. intros cls. unfold settlement_date.
  destruct (settlement_day_some cls 0 ltac:(vm_compute; discriminate)) as [d Hd].
  change (microseconds (default (Utc (no_clock 1%nat)) (fa_ts (sample_fill side q p (VInt 2)))) / day) with 0.
  rewrite Hd. by eexists.
Qed.

Lemma books_agree_witness :
  let b := @books_run _ ledger_context None ms_of (sample_books 100000)
    [BFill no_clock (sample_fill "buy" (Dec 10 0) (Dec 100 0) (VInt 2)); BMark "AAPL" (VInt 105); BEod 7] in
  moves (bk_cash b) = flat_map trade_moves (bl_rows (bk_blotter b)) /\
  v_valid (bl_verify (bk_blotter b)) = true.
Proof.
  destruct (@books_agree _ ledger_context None ms_of "agent" "USD" Average (VInt 100000)
    (float_of_int 100000) None (Some (new_monitor None))
    [BFill no_clock (sample_fill "buy" (Dec 10 0) (Dec 100 0) (VInt 2)); BMark "AAPL" (VInt 105); BEod 7])
    as (_ & Hm & _ & Hv & _).
  - constructor; [apply sample_bookable|]. by repeat constructor.
  - split; [exact Hm|exact Hv].
Defined.
