(* ===== verification/ChildExecutor.v ===== *)
(** * Child orders: [packages/agent/execution/child_executor.py]

    A parent order is cut into slices that are released on a clock through the engine
    of [Engine]; a slice that is not filled in time is cancelled and its rest released
    again.

    Child orders are shared objects: the parents' lists and the map by client order id
    refer to them.  They are kept in one heap, and the references are positions in it.
    The [cancel] of the broker is a parameter, a function of the broker's state.  A
    release reads the clock and draws identifiers: [supply n] is what the [n]-th release
    of a step draws. *)
From Stdlib Require Import SpecFloat.
From Stdlib Require Import Ascii String.
From S2P Require Import Prelude PyDecimal DecArith PyFormat PyFloat PyValue PyText PyRepr Sha256 HashChain.
From S2P Require Import Intent Firewall HardCaps RiskChecker Journal Engine.
Open Scope Z_scope.
Open Scope list_scope.

Inductive ChildState := CH_PENDING | CH_WORKING | CH_FILLED | CH_CANCELLED | CH_REPLACED | CH_REJECTED.

#[export] Instance ChildState_eq_dec : EqDecision ChildState.
Proof. solve_decision. Defined.

Definition child_state_value (s : ChildState) : string :=
  match s with
  | CH_PENDING => "pending"
  | CH_WORKING => "working"
  | CH_FILLED => "filled"
  | CH_CANCELLED => "cancelled"
  | CH_REPLACED => "replaced"
  | CH_REJECTED => "rejected"
  end%string.

Record ChildOrder := MkChild {
  ch_id : string;
  ch_parent : string;
  ch_qty : dec;
  ch_release_at : pyfloat;
  ch_slice : Z;
  ch_status : ChildState;
  ch_coid : option string;
  ch_boid : option string;
  ch_filled : dec;
  ch_avg : option dec;
  ch_released_at : option pyfloat;
  ch_replaces : Z
}.

Definition new_child (id parent : string) (qty : dec) (release_at : pyfloat) (slice replaces : Z) : ChildOrder :=
  MkChild id parent qty release_at slice CH_PENDING None None dzero None None replaces.

Definition set_ch_status (s : ChildState) (c : ChildOrder) : ChildOrder :=
  MkChild (ch_id c) (ch_parent c) (ch_qty c) (ch_release_at c) (ch_slice c) s (ch_coid c) (ch_boid c)
    (ch_filled c) (ch_avg c) (ch_released_at c) (ch_replaces c).

Definition set_ch_working (coid : string) (boid : option string) (now : pyfloat) (c : ChildOrder) : ChildOrder :=
  MkChild (ch_id c) (ch_parent c) (ch_qty c) (ch_release_at c) (ch_slice c) CH_WORKING (Some coid) boid
    (ch_filled c) (ch_avg c) (Some now) (ch_replaces c).

Definition set_ch_fill (filled : dec) (avg : option dec) (c : ChildOrder) : ChildOrder :=
  MkChild (ch_id c) (ch_parent c) (ch_qty c) (ch_release_at c) (ch_slice c) (ch_status c) (ch_coid c)
    (ch_boid c) filled avg (ch_released_at c) (ch_replaces c).

Definition child_terminal (c : ChildOrder) : bool :=
  match ch_status c with
  | CH_FILLED | CH_CANCELLED | CH_REJECTED | CH_REPLACED => true
  | _ => false
  end.

(** [x if x > 0 else 0] *)
Definition positive_part (d : dec) : dec := if dltb dzero d then d else dzero.

Definition child_leaves (c : ChildOrder) : dec := positive_part (dsub (ch_qty c) (ch_filled c)).

Definition child_to_dict (c : ChildOrder) : dict :=
  [("child_id", VStr (ch_id c)); ("parent_id", VStr (ch_parent c)); ("slice_index", VInt (ch_slice c));
   ("qty", VStr (dec_str (ch_qty c))); ("filled_qty", VStr (dec_str (ch_filled c)));
   ("leaves", VStr (dec_str (child_leaves c))); ("status", VStr (child_state_value (ch_status c)));
   ("client_order_id", v_opt_str (ch_coid c)); ("broker_order_id", v_opt_str (ch_boid c));
   ("avg_fill_price", v_opt_str (dec_str <$> ch_avg c)); ("release_at", VFloat (ch_release_at c));
   ("released_at", match ch_released_at c with Some x => VFloat x | None => VNone end);
   ("replaces", VInt (ch_replaces c))]%string.

Record ParentOrder := MkParent {
  po_id : string;
  po_symbol : string;
  po_side : string;
  po_total : dec;
  po_strategy : string;
  po_limit : option dec;
  po_children : list nat;
  po_created : pyfloat
}.

Definition add_child (k : nat) (p : ParentOrder) : ParentOrder :=
  MkParent (po_id p) (po_symbol p) (po_side p) (po_total p) (po_strategy p) (po_limit p)
    (po_children p ++ [k]) (po_created p).

Record Executor := MkExecutor {
  ex_strategy : string;
  ex_interval : pyfloat;
  ex_timeout : pyfloat;
  ex_max_replaces : Z;
  ex_min_qty : dec;
  ex_limit_orders : bool;
  ex_heap : list ChildOrder;
  ex_parents : list (string * ParentOrder);
  ex_by_coid : list (string * nat)
}.

Definition new_executor (strategy : string) (interval timeout : pyfloat) (max_replaces : Z)
    (min_qty : dec) (limit_orders : bool) : Executor :=
  MkExecutor strategy interval timeout max_replaces min_qty limit_orders [] [] [].

Definition set_heap (h : list ChildOrder) (x : Executor) : Executor :=
  MkExecutor (ex_strategy x) (ex_interval x) (ex_timeout x) (ex_max_replaces x) (ex_min_qty x)
    (ex_limit_orders x) h (ex_parents x) (ex_by_coid x).

Definition set_parent (p : ParentOrder) (x : Executor) : Executor :=
  MkExecutor (ex_strategy x) (ex_interval x) (ex_timeout x) (ex_max_replaces x) (ex_min_qty x)
    (ex_limit_orders x) (ex_heap x) (dset (ex_parents x) (po_id p) p) (ex_by_coid x).

Definition set_coid (coid : string) (k : nat) (x : Executor) : Executor :=
  MkExecutor (ex_strategy x) (ex_interval x) (ex_timeout x) (ex_max_replaces x) (ex_min_qty x)
    (ex_limit_orders x) (ex_heap x) (ex_parents x) (dset (ex_by_coid x) coid k).

(** The object a reference points to is changed in place. *)
Definition update_child (k : nat) (f : ChildOrder -> ChildOrder) (x : Executor) : Executor :=
  set_heap (alter f k (ex_heap x)) x.

(** A new object; its position is its reference. *)
Definition alloc_child (c : ChildOrder) (x : Executor) : Executor * nat :=
  (set_heap (ex_heap x ++ [c]) x, List.length (ex_heap x)).

(** *** Views of a parent *)

Definition children_of (x : Executor) (p : ParentOrder) : list ChildOrder :=
  omap (fun k => ex_heap x !! k) (po_children p).

Definition po_filled (x : Executor) (p : ParentOrder) : dec := dsum (map ch_filled (children_of x p)).

Definition po_released (x : Executor) (p : ParentOrder) : dec :=
  dsum (map ch_qty (List.filter (fun c => bool_decide (ch_status c = CH_WORKING \/ ch_status c = CH_FILLED))
                      (children_of x p))).

Definition po_remaining (x : Executor) (p : ParentOrder) : dec := positive_part (dsub (po_total p) (po_filled x p)).

Definition has_unreleased (x : Executor) (p : ParentOrder) : bool :=
  existsb (fun c => bool_decide (ch_status c = CH_PENDING)) (children_of x p).

Definition po_complete (x : Executor) (p : ParentOrder) : bool :=
  dleb (po_total p) dzero || dleb (po_total p) (po_filled x p) ||
  (forallb child_terminal (children_of x p) && negb (has_unreleased x p)).

Definition all_complete (x : Executor) : bool := forallb (fun kp => po_complete x kp.2) (ex_parents x).

Definition get_parent (id : string) (x : Executor) : option ParentOrder := dget (ex_parents x) id.

(** ** The schedule *)

Definition normalized_weights (n : Z) (weights : list pyfloat) : list pyfloat :=
  let equal := let n := Z.max 1 n in
               repeat (fdiv (float_of_int 1) (float_of_int n)) (Z.to_nat n) in
  match weights with
  | [] => equal
  | _ =>
      let w := map (fmax fzero) weights in
      let s := fsum w in
      if fltb fzero s then map (fun x => fdiv x s) w else equal
  end.

(** [total_qty * Decimal(str(w))] per weight but the last, which takes the rest; [None]
    is a weight that is not finite: the comparison of the slice raises. *)
Definition slice_quantities (total : dec) (w : list pyfloat) : option (list dec) :=
  qs ← mapM (fun x => dmul total <$> dec_of_val (VFloat x)) (removelast w);
  Some (qs ++ [dsub total (dsum qs)]).

(** The children with a positive quantity, from slice [i] on. *)
Fixpoint build_children (pid : string) (start interval : pyfloat) (i : Z) (qs : list dec)
    (x : Executor) (p : ParentOrder) : Executor * ParentOrder :=
  match qs with
  | [] => (x, p)
  | q :: r =>
      if dleb q dzero then build_children pid start interval (i + 1) r x p
      else
        let '(x, k) := alloc_child
          (new_child (pid +:+ "_c" +:+ int_str i) pid q
             (fadd start (fmul (float_of_int i) interval)) i 0) x in
        build_children pid start interval (i + 1) r x (add_child k p)
  end.

Inductive SubmitError := BadSide | BadWeights.

Definition submit_parent (symbol side : string) (total : dec) (n_slices : Z) (start : pyfloat)
    (weights : list pyfloat) (interval : option pyfloat) (limit : option dec) (pid : option string)
    (uuid_hex : string) (x : Executor) : pyres SubmitError (Executor * ParentOrder) :=
  let side := str_lower side in
  if negb (bool_decide (side = "buy" \/ side = "sell")%string) then Raise BadSide
  else
    let pid := if truthy pid then default ""%string pid
               else ("parent_" +:+ substring 0 12 uuid_hex)%string in
    let p := MkParent pid symbol side total (ex_strategy x) limit [] start in
    if dltb dzero total then
      match slice_quantities total (normalized_weights n_slices weights) with
      | None => Raise BadWeights
      | Some qs =>
          let '(x, p) := build_children pid start (default (ex_interval x) interval) 0 qs x p in
          Ok (set_parent p x, p)
      end
    else Ok (set_parent p x, p).

(** ** The clock *)

(** What a release draws: the time, the id of the intent, and the identifiers of the
    order, of a recovered order and of the journal entry. *)
Record Draw := MkDraw { dr_now : Z; dr_intent : string; dr_order : string; dr_recovered : string; dr_entry : string }.

Record StepReport := MkReport {
  rp_released : list string;
  rp_cancelled : list string;
  rp_replaced : list string;
  rp_errors : list string
}.

Definition no_report : StepReport := MkReport [] [] [] [].
Definition add_released (s : string) (r : StepReport) := MkReport (rp_released r ++ [s]) (rp_cancelled r) (rp_replaced r) (rp_errors r).
Definition add_cancelled (s : string) (r : StepReport) := MkReport (rp_released r) (rp_cancelled r ++ [s]) (rp_replaced r) (rp_errors r).
Definition add_replaced (s : string) (r : StepReport) := MkReport (rp_released r) (rp_cancelled r) (rp_replaced r ++ [s]) (rp_errors r).
Definition add_error (s : string) (r : StepReport) := MkReport (rp_released r) (rp_cancelled r) (rp_replaced r) (rp_errors r ++ [s]).

Section Step.
Context `{Digest} {B : Type} (env : Broker B).
(** [self._broker_cancel]; [Raise] is any exception. *)
Context (cancel : option (B -> string -> option string -> B * pyres unit bool)).
Context (supply : nat -> Draw).

(** The executor, the engine with its broker, the releases so far, and the report. *)
Record StepState := MkStep {
  st_exec : Executor;
  st_world : World B;
  st_draws : nat;
  st_report : StepReport
}.

Definition with_exec (x : Executor) (s : StepState) : StepState :=
  MkStep x (st_world s) (st_draws s) (st_report s).
Definition with_report (f : StepReport -> StepReport) (s : StepState) : StepState :=
  MkStep (st_exec s) (st_world s) (st_draws s) (f (st_report s)).

Definition cancel_child (c : ChildOrder) (s : StepState) : StepState * bool :=
  match cancel, ch_coid c with
  | Some f, Some coid =>
      let w := st_world s in
      let '(b, r) := f (w_broker w) coid (ch_boid c) in
      (MkStep (st_exec s) (MkWorld (w_engine w) b (w_sent w)) (st_draws s) (st_report s),
       match r with Ok ok => ok | Raise _ => false end)
  | _, _ => (s, true)
  end.

(** A working child past its time budget with something left. *)
Definition straggler (now : pyfloat) (timeout : pyfloat) (c : ChildOrder) : bool :=
  bool_decide (ch_status c = CH_WORKING) &&
  match ch_released_at c with
  | Some t => negb (fltb (fsub now t) timeout)
  | None => false
  end && negb (dleb (child_leaves c) dzero).

(** Cancel-replace of one child of the parent with id [pid]. *)
Definition replace_straggler (now : pyfloat) (pid : string) (s : StepState) (k : nat) : StepState :=
  match ex_heap (st_exec s) !! k, dget (ex_parents (st_exec s)) pid with
  | Some c, Some p =>
      if straggler now (ex_timeout (st_exec s)) c then
        let leaves := child_leaves c in
        let '(s, ok) := cancel_child c s in
        if negb ok then s
        else
          let s := with_report (add_cancelled (ch_id c)) s in
          let x := st_exec s in
          if (ch_replaces c + 1 <=? ex_max_replaces x) && dltb (ex_min_qty x) leaves then
            let repl := new_child (ch_id c +:+ "_r" +:+ int_str (ch_replaces c + 1)) (po_id p) leaves now
                          (ch_slice c) (ch_replaces c + 1) in
            let '(x, j) := alloc_child repl x in
            let x := update_child k (set_ch_status CH_REPLACED) (set_parent (add_child j p) x) in
            with_report (add_replaced (ch_id repl)) (with_exec x s)
          else with_exec (update_child k (set_ch_status CH_CANCELLED) x) s
      else s
  | _, _ => s
  end.

Definition child_intent (x : Executor) (p : ParentOrder) (c : ChildOrder) (d : Draw) : OrderIntent :=
  let lim := if ex_limit_orders x then po_limit p else None in
  MkIntent (po_strategy p) (po_symbol p)
    (match lim with Some _ => LIMIT_ENTRY | None => MARKET_ENTRY end)
    (if bool_decide (po_side p = "buy"%string) then LONG else SHORT) (Some (ch_qty c)) None lim None "DAY"
    PNORMAL ("child slice " +:+ int_str (ch_slice c) +:+ " of parent " +:+ po_id p)
    [("parent_id", VStr (po_id p)); ("child_id", VStr (ch_id c))]%string (dr_now d) None (dr_intent d).

(** [_release_child]: the client order id, or nothing when the engine refused.  An
    exception of the engine leaves [step]; what was done before it stays done. *)
Definition release_child (now : pyfloat) (p : ParentOrder) (price : option pyval) (k : nat) (c : ChildOrder)
    (s : StepState) : StepState * pyres ExecError (option string) :=
  let d := supply (st_draws s) in
  let cur := match price with Some VNone | None => None | Some v => dec_of_val v end in
  let '(w, r) := execute env (st_world s) (dr_now d) (dr_order d) (dr_recovered d) (dr_entry d)
                   (child_intent (st_exec s) p c d) cur "runner" in
  let s := MkStep (st_exec s) w (S (st_draws s)) (st_report s) in
  match r with
  | Raise e => (s, Raise e)
  | Ok x =>
      match (if success x then x_order x else None) with
      | None => (with_exec (update_child k (set_ch_status CH_REJECTED) (st_exec s)) s, Ok None)
      | Some o =>
          (with_exec
             (set_coid (client_order_id o) k
                (update_child k (set_ch_working (client_order_id o) (broker_order_id o) now) (st_exec s))) s,
           Ok (Some (client_order_id o)))
      end
  end.

(** A step that was interrupted by an exception does nothing more. *)
Definition going (f : StepState -> StepState * pyres ExecError unit)
    (r : StepState * pyres ExecError unit) : StepState * pyres ExecError unit :=
  match r with
  | (s, Ok _) => f s
  | (s, Raise e) => (s, Raise e)
  end.

Definition release_due (now : pyfloat) (p : ParentOrder) (price : option pyval) (k : nat) (s : StepState) :
    StepState * pyres ExecError unit :=
  match ex_heap (st_exec s) !! k with
  | None => (s, Ok tt)
  | Some c =>
      if negb (bool_decide (ch_status c = CH_PENDING)) then (s, Ok tt)
      else if fltb now (ch_release_at c) then (s, Ok tt)
      else if dleb (ch_qty c) (ex_min_qty (st_exec s)) then
        (with_exec (update_child k (set_ch_status CH_CANCELLED) (st_exec s)) s, Ok tt)
      else
        match release_child now p price k c s with
        | (s, Raise e) => (s, Raise e)
        | (s, Ok None) => (with_report (add_error (ch_id c)) s, Ok tt)
        | (s, Ok (Some coid)) => (with_report (add_released coid) s, Ok tt)
        end
  end.

(** The body of the loop for one parent. *)
Definition step_parent (now : pyfloat) (prices : list (string * pyval)) (pid : string) (s : StepState) :
    StepState * pyres ExecError unit :=
  match dget (ex_parents (st_exec s)) pid with
  | None => (s, Ok tt)
  | Some p =>
      if po_complete (st_exec s) p then (s, Ok tt)
      else
        let s := fold_left (replace_straggler now pid) (po_children p) s in
        match dget (ex_parents (st_exec s)) pid with
        | None => (s, Ok tt)
        | Some p =>
            fold_left (fun r k => going (release_due now p (dget prices (po_symbol p)) k) r)
              (po_children p) (s, Ok tt)
        end
  end.

Definition step (now : pyfloat) (prices : list (string * pyval)) (x : Executor) (w : World B) :
    StepState * pyres ExecError unit :=
  fold_left (fun r pid => going (step_parent now prices pid) r) (ex_parents x).*1
    (MkStep x w 0 no_report, Ok tt).
End Step.

(** ** Fills and final statuses *)

Definition on_child_fill (coid : string) (cum : dec) (avg : option dec) (x : Executor) : Executor :=
  match dget (ex_by_coid x) coid with
  | None => x
  | Some k =>
      update_child k (fun c =>
        let c := set_ch_fill cum (or_else avg (ch_avg c)) c in
        if dleb (ch_qty c) (ch_filled c) && bool_decide (ch_status c = CH_WORKING)
        then set_ch_status CH_FILLED c else c) x
  end.

Definition on_order_terminal (coid : string) (s : OrderStatus) (x : Executor) : Executor :=
  match dget (ex_by_coid x) coid with
  | None => x
  | Some k =>
      update_child k (fun c =>
        match s with
        | FILLED => set_ch_status CH_FILLED c
        | CANCELLED | EXPIRED =>
            if bool_decide (ch_status c = CH_WORKING) then set_ch_status CH_CANCELLED c else c
        | REJECTED | ERROR => set_ch_status CH_REJECTED c
        | _ => c
        end) x
  end.
