(* ===== verification/ChildExecutorProps.v ===== *)
(** * What the child executor guarantees

    The slices of a parent add up to its quantity, and a parent is never filled beyond
    it, whatever the engine, the prices and the clock do, as long as the broker keeps
    to an order's quantity and reports nothing for an order after it confirmed the
    cancellation.  Concrete runs show that both conditions are needed, and where the
    executor submits a slice twice. *)
From Stdlib Require Import QArith Qabs Lqa.
From Stdlib Require Import SpecFloat.
From Stdlib Require Import Ascii String.
From S2P Require Import Prelude PyDecimal DecArith PyFormat PyFloat PyValue PyText PyRepr Sha256 HashChain.
From S2P Require Import Intent Firewall HardCaps RiskChecker Journal Engine EngineProps EngineJournal ChildExecutor.
Open Scope Z_scope.
Open Scope list_scope.

(** ** Sums over references *)

Section Refs.
Context (f : ChildOrder -> Q).

Definition at_ref (h : list ChildOrder) (k : nat) : Q :=
  match h !! k with
  | Some c => f c
  | None => 0%Q
  end.

Fixpoint ref_sum (h : list ChildOrder) (ks : list nat) : Q :=
  match ks with
  | [] => 0%Q
  | k :: r => (at_ref h k + ref_sum h r)%Q
  end.

Lemma ref_sum_app h ks ks' : (ref_sum h (ks ++ ks') == ref_sum h ks + ref_sum h ks')%Q.
Proof. induction ks as [|k ks IH]; cbn [app ref_sum]; [ring|rewrite IH; ring]. Qed.

Lemma ref_sum_le h h' ks :
  (forall k, (at_ref h' k <= at_ref h k)%Q) -> (ref_sum h' ks <= ref_sum h ks)%Q.
Proof.
  intros Hle. induction ks as [|k ks IH]; cbn [ref_sum]; [apply Qle_refl|].
  by apply Qplus_le_compat.
Qed.

(** Where one of the references loses [d], the sum loses at least [d]. *)
Lemma ref_sum_drop h h' ks k d :
  (forall j, (at_ref h' j <= at_ref h j)%Q) -> (at_ref h' k + d <= at_ref h k)%Q -> k ∈ ks ->
  (ref_sum h' ks + d <= ref_sum h ks)%Q.
Proof.
  intros Hle Hk Hin. induction ks as [|j ks IH]; [by apply elem_of_nil in Hin|]. cbn [ref_sum].
  apply elem_of_cons in Hin as [<-|Hin].
  - pose proof (ref_sum_le h h' ks Hle). lra.
  - pose proof (Hle j). specialize (IH Hin). lra.
Qed.

Lemma ref_sum_alloc h c ks :
  Forall (fun k => (k < List.length h)%nat) ks -> ref_sum (h ++ [c]) ks = ref_sum h ks.
Proof.
  induction 1 as [|k ks Hk _ IH]; [done|]. cbn [ref_sum]. rewrite IH. unfold at_ref.
  by rewrite lookup_app_l.
Qed.

Lemma at_ref_alter g k h j :
  at_ref (alter g k h) j = if decide (j = k) then at_ref (g <$> h) k else at_ref h j.
Proof.
  unfold at_ref. destruct (decide (j = k)) as [->|Hne].
  - by rewrite list_lookup_alter_eq, list_lookup_fmap.
  - by rewrite list_lookup_alter_ne by done.
Qed.
End Refs.

Lemma refs_grow (h h' : list ChildOrder) ks :
  (List.length h <= List.length h')%nat ->
  Forall (fun k => (k < List.length h)%nat) ks -> Forall (fun k => (k < List.length h')%nat) ks.
Proof. intros Hle Hks. eapply Forall_impl; [exact Hks|]. cbn beta. lia. Qed.

(** ** The invariant *)

(** What a child can still contribute to its parent: its quantity, or what was filled
    of it before it was replaced. *)
Definition weight (c : ChildOrder) : Q :=
  match ch_status c with
  | CH_REPLACED => dval (ch_filled c)
  | _ => dval (ch_qty c)
  end.

Section Overfill.
(** [conf coid]: the broker confirmed that the order is cancelled. *)
Context (conf : string -> Prop).
Context (g m : Z) (Hg : 0 <= g) (Hm0 : 0 <= m) (Hm : (m + m) * 10 ^ g < 10 ^ 28).

Record child_ok (c : ChildOrder) : Prop := {
  ck_qty : grid g m (ch_qty c);
  ck_filled : grid g m (ch_filled c);
  ck_pos : (0 <= dval (ch_filled c))%Q;
  ck_le : (dval (ch_filled c) <= dval (ch_qty c))%Q;
  ck_unsent : ch_status c = CH_PENDING -> ch_coid c = None;
  ck_conf : forall coid, ch_status c = CH_REPLACED -> ch_coid c = Some coid -> conf coid
}.

Record parent_ok (h : list ChildOrder) (pid : string) (p : ParentOrder) : Prop := {
  pk_id : po_id p = pid;
  pk_refs : Forall (fun k => (k < List.length h)%nat) (po_children p);
  pk_sum : (ref_sum weight h (po_children p) <= dval (positive_part (po_total p)))%Q;
  pk_total : (dval (positive_part (po_total p)) <= inject_Z m)%Q
}.

Record exec_ok (x : Executor) : Prop := {
  xk_children : forall k c, ex_heap x !! k = Some c -> child_ok c;
  xk_parents : forall pid p, dget (ex_parents x) pid = Some p -> parent_ok (ex_heap x) pid p;
  xk_coids : forall coid k, dget (ex_by_coid x) coid = Some k ->
    exists c, ex_heap x !! k = Some c /\ ch_coid c = Some coid
}.

(** A child may change as long as it does not promise more. *)
Lemma update_child_ok k f x :
  exec_ok x ->
  (forall c, ex_heap x !! k = Some c -> child_ok c ->
    child_ok (f c) /\ (weight (f c) <= weight c)%Q /\ (ch_coid c = None \/ ch_coid (f c) = ch_coid c)) ->
  exec_ok (update_child k f x).
Proof.
  intros [Hc Hp Hi] Hf. split; cbn [update_child set_heap ex_heap ex_parents ex_by_coid].
  - intros j c Hj. destruct (decide (j = k)) as [->|Hne].
    + rewrite list_lookup_alter_eq in Hj. destruct (ex_heap x !! k) as [c0|] eqn:E; [|done].
      injection Hj as <-. apply (Hf c0); [done|by eapply Hc].
    + rewrite list_lookup_alter_ne in Hj by done. by eapply Hc.
  - intros pid p Hpid. destruct (Hp pid p Hpid) as [H1 H2 H3 H4]. split; [done|by rewrite length_alter| |done].
    eapply Qle_trans; [|exact H3]. apply ref_sum_le. intros j. rewrite at_ref_alter.
    destruct (decide (j = k)) as [->|]; [|apply Qle_refl].
    unfold at_ref. rewrite list_lookup_fmap. destruct (ex_heap x !! k) as [c0|] eqn:E; cbn; [|apply Qle_refl].
    apply (Hf c0); [done|by eapply Hc].
  - intros coid j Hj. destruct (Hi coid j Hj) as (c & Hjc & Hcoid).
    destruct (decide (j = k)) as [->|Hne]; [|exists c; by rewrite list_lookup_alter_ne].
    exists (f c). rewrite list_lookup_alter_eq, Hjc. split; [done|].
    destruct (Hf c Hjc) as (_ & _ & [H|H]); [by eapply Hc|congruence..].
Qed.

Lemma new_child_ok id pid q t i n : grid g m q -> (0 <= dval q)%Q -> child_ok (new_child id pid q t i n).
Proof. intros Hq H0. split; cbn; [done|by apply grid_zero|by rewrite dval_zero|by rewrite dval_zero|done|done]. Qed.

(** Status changes of a child that is not replaced, to another status than replaced. *)
Lemma status_ok k s x :
  exec_ok x -> s <> CH_REPLACED -> s <> CH_PENDING ->
  (forall c, ex_heap x !! k = Some c -> ch_status c <> CH_REPLACED) ->
  exec_ok (update_child k (set_ch_status s) x).
Proof.
  intros Hx Hs Hs' Hk. apply update_child_ok; [done|]. intros c Hc [H1 H2 H3 H4 H5 H6].
  split; [split; cbn; try done; congruence|]. split; [|by right]. unfold weight. specialize (Hk c Hc). cbn [set_ch_status ch_status ch_qty]. destruct (ch_status c), s; try done; apply Qle_refl.
Qed.

Lemma set_coid_ok coid k c x :
  exec_ok x -> ex_heap x !! k = Some c -> ch_coid c = Some coid -> exec_ok (set_coid coid k x).
Proof.
  intros [Hc Hp Hi] Hk Hcoid. split; cbn [set_coid ex_heap ex_parents ex_by_coid]; [done..|].
  intros coid' j. destruct (decide (coid' = coid)) as [->|Hne].
  - rewrite dget_dset_eq. intros [= <-]. by exists c.
  - rewrite dget_dset_ne by done. apply Hi.
Qed.

(** Replacing a child: it keeps what was filled, the new one gets the rest. *)
Lemma leaves_exact c :
  child_ok c -> (0 < dval (child_leaves c))%Q ->
  grid g m (child_leaves c) /\ (dval (child_leaves c) == dval (ch_qty c) - dval (ch_filled c))%Q.
Proof.
  intros [Hq Hf H0 Hle _ _]. unfold child_leaves, positive_part.
  destruct (grid_sub g m m (ch_qty c) (ch_filled c) Hg Hm Hq Hf) as [Hv [He _]].
  destruct (dltb dzero _) eqn:E; [|rewrite dval_zero; intros []%Qlt_irrefl]. intros _.
  split; [|done]. split; [done|]. rewrite Hv. apply dltb_spec in E. rewrite dval_zero, Hv in E.
  destruct Hq as [_ Hq]. rewrite Qabs_pos in * by lra. lra.
Qed.

Lemma replace_ok k pid p c now id x :
  exec_ok x -> dget (ex_parents x) pid = Some p -> ex_heap x !! k = Some c -> k ∈ po_children p ->
  ch_status c = CH_WORKING -> (0 < dval (child_leaves c))%Q ->
  (forall coid, ch_coid c = Some coid -> conf coid) ->
  let '(y, j) := alloc_child (new_child id (po_id p) (child_leaves c) now (ch_slice c) (ch_replaces c + 1)) x in
  exec_ok (update_child k (set_ch_status CH_REPLACED) (set_parent (add_child j p) y)).
Proof.
  intros [Hc Hp Hi] Hpid Hk Hin Hst Hl Hcf. cbn [alloc_child].
  set (repl := new_child _ _ _ _ _ _). set (h := ex_heap x) in *.
  pose proof (Hc k c Hk) as Hck. destruct (leaves_exact c Hck Hl) as [Hgl Hvl].
  assert (k < List.length h)%nat as Hlt by (by eapply lookup_lt_Some).
  set (h' := alter (set_ch_status CH_REPLACED) k (h ++ [repl])).
  assert (forall ks, Forall (fun i => (i < List.length h)%nat) ks ->
    (ref_sum weight h' ks <= ref_sum weight h ks)%Q /\
    (k ∈ ks -> (ref_sum weight h' ks + dval (child_leaves c) <= ref_sum weight h ks)%Q)) as Hsum.
  { intros ks Hks. rewrite <- (ref_sum_alloc weight h repl ks Hks).
    assert (at_ref weight h' k == dval (ch_filled c))%Q as E1.
    { unfold h'. rewrite at_ref_alter, decide_True by done. unfold at_ref.
      rewrite list_lookup_fmap, lookup_app_l, Hk by done. reflexivity. }
    assert (at_ref weight (h ++ [repl]) k == dval (ch_qty c))%Q as E2.
    { unfold at_ref. rewrite lookup_app_l, Hk by done. unfold weight. by rewrite Hst. }
    assert (forall i, (at_ref weight h' i <= at_ref weight (h ++ [repl]) i)%Q) as Hle.
    { intros i. destruct (decide (i = k)) as [->|Hne].
      - rewrite E1, E2. apply Hck.
      - unfold h'. rewrite at_ref_alter, decide_False by done. apply Qle_refl. }
    split; [by apply ref_sum_le|]. intros Hks'. apply (ref_sum_drop _ _ _ _ k); [done| |done].
    rewrite E1, E2, Hvl. lra. }
  split; cbn [update_child set_parent set_heap ex_heap ex_parents ex_by_coid]; fold h'.
  - intros i ci. unfold h'. destruct (decide (i = k)) as [->|Hne].
    + rewrite list_lookup_alter_eq, lookup_app_l, Hk by done. intros [= <-]. destruct Hck; split; try done. cbn. auto.
    + rewrite list_lookup_alter_ne by done. intros [Hci|[_ Hci]]%lookup_app_Some; [by eapply Hc|].
      apply list_lookup_singleton_Some in Hci as [_ <-]. apply new_child_ok; [done|lra].
  - intros pid' p' Hp'. destruct (Hp pid p Hpid) as [I1 I2 I3 I4].
    assert (List.length h' = S (List.length h)) as Hlen.
    { unfold h'. rewrite length_alter, length_app. cbn. lia. }
    change (po_id (add_child (List.length h) p)) with (po_id p) in Hp'. rewrite I1 in Hp'.
    destruct (decide (pid' = pid)) as [->|Hne].
    + rewrite dget_dset_eq in Hp'. injection Hp' as <-. split; cbn [add_child po_id po_children po_total].
      * done.
      * apply Forall_app. split; [apply (refs_grow h); [lia|done]|apply Forall_singleton; fold h; lia].
      * rewrite ref_sum_app. cbn [ref_sum]. fold h.
        assert (at_ref weight h' (List.length h) == dval (child_leaves c))%Q as ->.
        { unfold h'. rewrite at_ref_alter, decide_False by lia. unfold at_ref.
          rewrite lookup_app_r, Nat.sub_diag by lia. reflexivity. }
        destruct (Hsum (po_children p) I2) as [_ Hs]. specialize (Hs Hin). lra.
      * done.
    + rewrite dget_dset_ne in Hp' by done. destruct (Hp pid' p' Hp') as [J1 J2 J3 J4]. split; [done| | |done].
      * apply (refs_grow h); [lia|done].
      * eapply Qle_trans; [apply (Hsum _ J2)|done].
  - intros coid j Hj. destruct (Hi coid j Hj) as (c0 & Hjc & Hcoid). unfold h'.
    assert (j < List.length h)%nat by (by eapply lookup_lt_Some).
    destruct (decide (j = k)) as [->|Hne].
    + rewrite list_lookup_alter_eq, lookup_app_l, Hjc by done. by eexists.
    + rewrite list_lookup_alter_ne, lookup_app_l by done. by exists c0.
Qed.

(** *** A new parent *)

Lemma alloc_ok c x : exec_ok x -> child_ok c -> exec_ok (alloc_child c x).1.
Proof.
  intros [Hc Hp Hi] Hck. split; cbn [alloc_child fst set_heap ex_heap ex_parents ex_by_coid].
  - intros k c' [Hk|[_ Hk]]%lookup_app_Some; [by eapply Hc|].
    by apply list_lookup_singleton_Some in Hk as [_ <-].
  - intros pid p Hpid. destruct (Hp pid p Hpid) as [H1 H2 H3 H4]. split; [done| | |done].
    + apply (refs_grow (ex_heap x)); [rewrite length_app; lia|done].
    + by rewrite ref_sum_alloc.
  - intros coid k Hk. destruct (Hi coid k Hk) as (c' & Hkc & Hcoid). exists c'. split; [|done].
    rewrite lookup_app_l; [done|by eapply lookup_lt_Some].
Qed.

(** The quantities that become children. *)
Definition positive_slices (qs : list dec) : list dec := List.filter (dltb dzero) qs.

Lemma build_children_ok pid start interval qs i x p :
  exec_ok x -> Forall (grid g m) qs -> po_id p = pid ->
  Forall (fun k => (k < List.length (ex_heap x))%nat) (po_children p) ->
  (dval (positive_part (po_total p)) <= inject_Z m)%Q ->
  (ref_sum weight (ex_heap x) (po_children p) + qsum (positive_slices qs) <= dval (positive_part (po_total p)))%Q ->
  let '(x', p') := build_children pid start interval i qs x p in
  exec_ok x' /\ parent_ok (ex_heap x') pid p'.
Proof.
  revert i x p. induction qs as [|q qs IH]; intros i x p Hx Hqs Hid Hrefs Htot Hsum.
  - cbn in *. split; [done|]. split; [done..| |done]. lra.
  - apply Forall_cons in Hqs as [Hq Hqs]. cbn [build_children positive_slices List.filter] in *.
    rewrite <- dltb_negb. destruct (dltb dzero q) eqn:Eq; cbn [negb]; [|by apply IH].
    cbn [qsum] in Hsum. apply dltb_spec in Eq. rewrite dval_zero in Eq.
    set (c := new_child _ _ _ _ _ _). cbn [alloc_child].
    assert (child_ok c) as Hc by (apply new_child_ok; [done|lra]).
    apply IH; cbn [set_heap add_child ex_heap po_id po_children po_total]; [by apply (alloc_ok c)|done..| |done|].
    + apply Forall_app. split; [apply (refs_grow (ex_heap x)); [|done]|apply Forall_singleton];
        rewrite length_app; cbn [List.length]; lia.
    + rewrite ref_sum_app, (ref_sum_alloc weight _ _ _ Hrefs). cbn [ref_sum].
      assert (at_ref weight (ex_heap x ++ [c]) (List.length (ex_heap x)) == dval q)%Q as ->.
      { unfold at_ref. rewrite lookup_app_r, Nat.sub_diag by lia. reflexivity. }
      fold (positive_slices qs) in Hsum. lra.
Qed.

Lemma set_parent_ok p x : exec_ok x -> parent_ok (ex_heap x) (po_id p) p -> exec_ok (set_parent p x).
Proof.
  intros [Hc Hp Hi] Hpk. split; cbn [set_parent ex_heap ex_parents]; [done| |done]. intros pid p' Hp'.
  destruct (decide (pid = po_id p)) as [->|Hne].
  - rewrite dget_dset_eq in Hp'. by injection Hp' as <-.
  - rewrite dget_dset_ne in Hp' by done. by apply Hp.
Qed.
End Overfill.

Lemma exec_ok_mono (conf conf' : string -> Prop) g m x :
  (forall coid, conf coid -> conf' coid) -> exec_ok conf g m x -> exec_ok conf' g m x.
Proof.
  intros Hle [Hc Hp Hi]. split; [|done..]. intros k c Hk. destruct (Hc k c Hk). split; eauto.
Qed.

(** *** One step of the clock *)

(** The broker's book of confirmed cancellations, in the state of the broker. *)
Section Clock.
Context `{Digest} {B : Type} (env : Broker B) (cancel : B -> string -> option string -> B * pyres unit bool).
Context (confirmed : B -> string -> Prop).

(** Documented of the broker: a cancellation it answers with success is confirmed, and
    stays so whatever is cancelled or submitted later. *)
Record cancellation_laws : Prop := {
  cl_confirms : forall b coid boid b', cancel b coid boid = (b', Ok true) -> confirmed b' coid;
  cl_cancel : forall b coid boid coid', confirmed b coid' -> confirmed (cancel b coid boid).1 coid';
  cl_submit : forall f b o coid', broker_submit env = Some f -> confirmed b coid' -> confirmed (f b o).1 coid'
}.

Context (laws : cancellation_laws) (supply : nat -> Draw).
Context (g m : Z) (Hg : 0 <= g) (Hm0 : 0 <= m) (Hm : (m + m) * 10 ^ g < 10 ^ 28).

Abbreviation ok_step s := (exec_ok (confirmed (w_broker (st_world s))) g m (st_exec s)).

Lemma execute_confirmed (w : World B) now oid rid eid i price origin coid :
  confirmed (w_broker w) coid ->
  confirmed (w_broker (execute env w now oid rid eid i price origin).1) coid.
Proof.
  intros Hw. unfold execute. destruct (execute_gates _ _ _ _ _ _) as [[r|[o pr]]|e]; try done.
  destruct (is_duplicate _ _); [by destruct (execute_duplicate _ _ _ _)|].
  destruct (log_before_submit _ _ _ _ _) as [e' [entry|e]]; [|done].
  unfold submit. cbn [w_broker w_engine]. destruct (broker_submit env) as [f|] eqn:E; [|done].
  pose proof (cl_submit laws f (w_broker w) o coid E Hw) as H1.
  destruct (f _ _) as [b [[[[] ?] ?]|?]]; exact H1.
Qed.

(** The invariant, and the references of the loop belong to the parent. *)
Definition walking (pid : string) (ks : list nat) (s : StepState (B := B)) : Prop :=
  ok_step s /\
  forall p, dget (ex_parents (st_exec s)) pid = Some p -> Forall (fun k => k ∈ po_children p) ks.

Lemma cancel_child_ok c (s : StepState (B := B)) :
  let r := cancel_child (Some cancel) c s in
  st_exec r.1 = st_exec s /\
  (forall coid, confirmed (w_broker (st_world s)) coid -> confirmed (w_broker (st_world r.1)) coid) /\
  (r.2 = true -> forall coid, ch_coid c = Some coid -> confirmed (w_broker (st_world r.1)) coid).
Proof.
  unfold cancel_child. destruct (ch_coid c) as [coid0|]; [|done].
  pose proof (cl_cancel laws (w_broker (st_world s)) coid0 (ch_boid c)) as H1.
  pose proof (cl_confirms laws (w_broker (st_world s)) coid0 (ch_boid c)) as H2.
  destruct (cancel _ _ _) as [b [[]|]]; cbn in *; split_and!; auto; try done.
  intros _ coid [= <-]. by apply H2.
Qed.

Lemma replace_straggler_ok now pid ks k s :
  walking pid ks s -> k ∈ ks -> walking pid ks (replace_straggler (Some cancel) now pid s k).
Proof.
  intros Hwalk Hk. pose proof Hwalk as [Hx Hks]. unfold replace_straggler.
  destruct (ex_heap (st_exec s) !! k) as [c|] eqn:Ec; [|done].
  destruct (dget (ex_parents (st_exec s)) pid) as [p|] eqn:Ep; [|done].
  destruct (straggler _ _ c) eqn:Est; [|done].
  assert (ch_status c = CH_WORKING /\ (0 < dval (child_leaves c))%Q) as [Hw Hl].
  { unfold straggler in Est. apply andb_prop in Est as [Est Hl]. apply andb_prop in Est as [Est _].
    split; [by apply bool_decide_eq_true_1 in Est|]. rewrite <- dval_zero.
    apply negb_true_iff, dleb_false in Hl. done. }
  destruct (cancel_child_ok c s) as (Hsame & Hmono & Hconf).
  destruct (cancel_child (Some cancel) c s) as [s' ok]. cbn [fst snd] in Hsame, Hmono, Hconf.
  apply (exec_ok_mono _ _ _ _ _ Hmono) in Hx.
  destruct ok; cbn [negb];
    [|unfold walking; rewrite Hsame; split; [done|]; intros p' Hp'; rewrite Ep in Hp'; by apply Hks].
  cbn [with_report st_exec]. rewrite Hsame.
  destruct (_ && _).
  - cbn [alloc_child with_exec with_report st_exec]. split.
    + apply (replace_ok _ g m Hg Hm0 Hm k pid p c now _ _ Hx Ep Ec); [|done|done|auto].
      specialize (Hks p eq_refl). rewrite Forall_forall in Hks. by apply Hks.
    + cbn [with_exec with_report st_exec]. intros p' Hp'. pose proof (xk_parents _ _ _ _ Hx pid p Ep) as [I1 _ _ _].
      cbn [update_child set_parent set_heap ex_parents] in Hp'.
      change (po_id (add_child _ p)) with (po_id p) in Hp'. rewrite I1, dget_dset_eq in Hp'.
      injection Hp' as <-. cbn [add_child po_children].
      eapply Forall_impl; [by apply Hks|]. intros j Hj. apply elem_of_app. by left.
  - split; cbn [with_exec with_report st_exec].
    + apply status_ok; [done..|]. intros c' Hc'. rewrite Ec in Hc'. injection Hc' as <-. by rewrite Hw.
    + intros p' Hp'. cbn in Hp'. rewrite Ep in Hp'. by apply Hks.
Qed.

Lemma replace_all_ok now pid ks ks' s :
  walking pid ks s -> Forall (fun k => k ∈ ks) ks' ->
  walking pid ks (fold_left (replace_straggler (Some cancel) now pid) ks' s).
Proof.
  intros Hs Hin. revert s Hs. induction Hin as [|k ks' Hk _ IH]; intros s Hs; [done|].
  cbn [fold_left]. apply IH. by apply replace_straggler_ok.
Qed.

(** A release changes the child that is pending, and nothing of the parents. *)
Lemma release_due_ok now p price k s :
  ok_step s -> ok_step (release_due env supply now p price k s).1.
Proof.
  intros Hx. unfold release_due. destruct (ex_heap (st_exec s) !! k) as [c|] eqn:Ec; [|done].
  destruct (bool_decide _) eqn:Est; cbn [negb]; [|done]. apply bool_decide_eq_true_1 in Est.
  assert (forall c', ex_heap (st_exec s) !! k = Some c' -> ch_status c' <> CH_REPLACED) as Hk.
  { intros c' Hc'. rewrite Ec in Hc'. injection Hc' as <-. by rewrite Est. }
  destruct (fltb _ _); [done|]. destruct (dleb _ _); [by apply status_ok|].
  unfold release_child. set (d := supply (st_draws s)).
  pose proof (execute_confirmed (st_world s) (dr_now d) (dr_order d) (dr_recovered d) (dr_entry d)
    (child_intent (st_exec s) p c d) (match price with Some VNone | None => None | Some v => dec_of_val v end)
    "runner") as Hmono.
  destruct (execute _ _ _ _ _ _ _ _ _) as [w r]. cbn [fst] in Hmono. apply (exec_ok_mono _ _ _ _ _ Hmono) in Hx.
  destruct r as [x|e]; [|done].
  destruct (if success x then x_order x else None) as [o|]; cbn [with_exec with_report st_exec st_world fst];
    [|by apply status_ok].
  set (f := set_ch_working _ _ now). apply (set_coid_ok _ _ _ _ _ (f c)); [|by cbn; rewrite list_lookup_alter_eq, Ec|done].
  apply update_child_ok; [done|]. intros c' Hc' [H1 H2 H3 H4 H5 H6]. rewrite Ec in Hc'. injection Hc' as <-.
  split; [split; cbn; done|]. split; [|left; by apply H5].
  unfold weight. cbn. rewrite Est. apply Qle_refl.
Qed.

Lemma going_ok (f : StepState (B := B) -> StepState * pyres ExecError unit) r :
  (forall s, ok_step s -> ok_step (f s).1) ->
  ok_step r.1 -> ok_step (going f r).1.
Proof. destruct r as [s [[]|e]]; cbn; auto. Qed.

Lemma going_all_ok {A} (f : A -> StepState (B := B) -> StepState * pyres ExecError unit) l r :
  (forall a s, ok_step s -> ok_step (f a s).1) ->
  ok_step r.1 -> ok_step (fold_left (fun r a => going (f a) r) l r).1.
Proof.
  intros Hf. revert r. induction l as [|a l IH]; intros r Hr; [done|]. cbn [fold_left].
  apply IH, going_ok; [|done]. apply Hf.
Qed.

Lemma step_parent_ok now prices pid s :
  ok_step s -> ok_step (step_parent env (Some cancel) supply now prices pid s).1.
Proof.
  intros Hx. unfold step_parent. destruct (dget (ex_parents (st_exec s)) pid) as [p|] eqn:Ep; [|done].
  destruct (po_complete _ _); [done|].
  assert (walking pid (po_children p) s) as Hw.
  { split; [done|]. intros p' Hp'. rewrite Ep in Hp'. injection Hp' as <-. by apply Forall_forall. }
  apply (replace_all_ok now pid _ (po_children p)) in Hw; [|by apply Forall_forall].
  destruct Hw as [Hx' _].
  destruct (dget (ex_parents (st_exec (fold_left _ _ _))) pid) as [p'|]; [|done].
  apply going_all_ok; [|done]. intros k s' Hs'. by apply release_due_ok.
Qed.

Lemma clock_step_ok now prices x w :
  exec_ok (confirmed (w_broker w)) g m x -> ok_step (step env (Some cancel) supply now prices x w).1.
Proof.
  intros Hx. unfold step. apply going_all_ok; [|done]. intros pid s Hs. by apply step_parent_ok.
Qed.
End Clock.



(** ** The executor over time *)

(** ** The slices of a schedule *)

(** The shares of all slices but the last are decimals of at most 18 places that are not
    negative and add up to at most one. *)
Definition shares_fit (shares : list pyfloat) : Prop :=
  exists ds, mapM (fun x => dec_of_val (VFloat x)) (removelast shares) = Some ds /\
    Forall (fun d => grid 18 1 d /\ (0 <= dval d)%Q) ds /\ (qsum ds <= 1)%Q.

Lemma qsum_nonneg l : Forall (fun d => 0 <= dval d)%Q l -> (0 <= qsum l)%Q.
Proof. induction 1 as [|d l Hd _ IH]; cbn [qsum]; [apply Qle_refl|]. lra. Qed.

Lemma positive_slices_sum l : Forall (fun d => 0 <= dval d)%Q l -> (qsum (positive_slices l) == qsum l)%Q.
Proof.
  unfold positive_slices. induction 1 as [|d l Hd _ IH]; [reflexivity|]. cbn [List.filter qsum].
  destruct (dltb dzero d) eqn:E; cbn [qsum]; rewrite IH; [reflexivity|].
  assert (~ (0 < dval d)%Q) as Hn by (rewrite <- dval_zero, <- dltb_spec; congruence). lra.
Qed.

(** What is left after shares that fit is not negative: the slices are the order. *)
Lemma fitting_slices g m total shares qs :
  0 <= g -> 0 <= m -> (m + m) * 10 ^ (g + 18) < 10 ^ 28 -> grid g m total -> (0 < dval total)%Q ->
  shares_fit shares -> slice_quantities total shares = Some qs ->
  Forall (grid (g + 18) m) qs /\ (qsum (positive_slices qs) == dval total)%Q.
Proof.
  intros Hg Hm0 Hm Ht H0 (ds & Hds & Hgrid & Hone) Hqs. unfold slice_quantities in Hqs.
  assert (forall ws es, mapM (fun x => dec_of_val (VFloat x)) ws = Some es ->
    mapM (fun x => dmul total <$> dec_of_val (VFloat x)) ws = Some (map (dmul total) es)) as Hmap.
  { induction ws as [|w ws IH]; intros es; cbn [mapM]; [by intros [= <-]|].
    destruct (dec_of_val (VFloat w)) as [e|]; [|done]. cbn [fmap option_fmap option_map mbind option_bind].
    destruct (mapM (fun x => dec_of_val (VFloat x)) ws) as [es'|]; [|done].
    cbn [mbind option_bind]. intros [= <-]. by rewrite (IH es' eq_refl). }
  rewrite (Hmap _ _ Hds) in Hqs. cbn [mbind option_bind] in Hqs. injection Hqs as <-.
  set (l := map (dmul total) ds).
  assert (Qabs (dval total) == dval total)%Q as Habs by (apply Qabs_pos; lra).
  assert (dval total <= inject_Z m)%Q as Htm by (rewrite <- Habs; apply Ht).
  assert (Forall (fun d => grid (g + 18) m d /\ (0 <= dval d)%Q) l /\ (qsum l == dval total * qsum ds)%Q) as [Hl Hsum].
  { clear Hds Hone. unfold l. induction Hgrid as [|d ds' [Hd Hd0] _ [IH1 IH2]]; cbn [map qsum].
    - split; [constructor|]. ring.
    - destruct (grid_mul g 18 m 1 total d Hg) as [Hv Hgd]; [lia|change prec with 28; nia|done..|].
      rewrite Z.mul_1_r in Hgd. split.
      + constructor; [|done]. split; [done|]. rewrite Hv. apply Qmult_le_0_compat; lra.
      + rewrite Hv, IH2. ring. }
  assert (qsum l <= dval total)%Q as Hle.
  { rewrite Hsum. rewrite <- (Qmult_1_r (dval total)) at 2. rewrite !(Qmult_comm (dval total)).
    apply Qmult_le_compat_r; [done|lra]. }
  destruct (dsum_grid_pos (g + 18) m l) as [Hsv Hsg]; [lia|exact Hm|done|lra|done|].
  assert (0 <= qsum l)%Q as Hl0.
  { apply qsum_nonneg. eapply Forall_impl; [exact Hl|]. by intros d [_ ?]. }
  assert (grid (g + 18) m total) as Ht' by (split; [destruct Ht; lia|apply Ht]).
  destruct (grid_sub (g + 18) m m total (dsum l)) as [Hr [He _]]; [lia|exact Hm|done|done|].
  rewrite Hsv in Hr. split.
  - apply Forall_app. split; [eapply Forall_impl; [exact Hl|]; by intros d [? _]|].
    apply Forall_singleton. split; [done|]. rewrite Hr, Qabs_pos by lra. lra.
  - rewrite positive_slices_sum, qsum_app.
    + cbn [qsum]. rewrite Hr. ring.
    + apply Forall_app. split; [eapply Forall_impl; [exact Hl|]; by intros d [_ ?]|].
      apply Forall_singleton. rewrite Hr. lra.
Qed.

(** [1.0 / n] as the decimal of its shortest text: at most eighteen places, and the last
    slice is left something. *)
Definition equal_weight_ok (n : Z) : bool :=
  match dec_of_val (VFloat (fdiv (float_of_int 1) (float_of_int n))) with
  | Some d => (0 <? coef d) && (-18 <=? dexp d) && (dexp d <=? 0) &&
              ((n - 1) * coef d <? 10 ^ (- dexp d)) && (coef d <=? 10 ^ (- dexp d))
  | None => false
  end.

Lemma equal_weights_ok : forallb equal_weight_ok (map Z.of_nat (seq 1 100)) = true.
Proof. vm_compute. reflexivity. Qed.

Lemma equal_weight n :
  1 <= n <= 100 ->
  exists d, dec_of_val (VFloat (fdiv (float_of_int 1) (float_of_int n))) = Some d /\
    grid 18 1 d /\ (0 < dval d)%Q /\ (inject_Z (n - 1) * dval d < 1)%Q.
Proof.
  intros Hn. pose proof equal_weights_ok as Hall. rewrite forallb_forall in Hall.
  specialize (Hall n). assert (In n (map Z.of_nat (seq 1 100))) as Hin.
  { apply in_map_iff. exists (Z.to_nat n). split; [lia|]. apply in_seq. lia. }
  specialize (Hall Hin). unfold equal_weight_ok in Hall.
  destruct (dec_of_val _) as [d|]; [|done]. exists d. split; [done|].
  assert (0 < coef d /\ -18 <= dexp d /\ dexp d <= 0 /\
    (n - 1) * coef d < 10 ^ (- dexp d) /\ coef d <= 10 ^ (- dexp d)) as (H1 & H2 & H3 & H4 & H5) by lia.
  pose proof (ten_to_split 1 (dexp d) H3) as Ht. rewrite Z.mul_1_l in Ht.
  assert (forall a, a < 10 ^ (- dexp d) -> (inject_Z a * ten_to (dexp d) < 1)%Q) as Hlt.
  { intros a Ha. change 1%Q with (inject_Z 1). rewrite Ht. apply Qmult_lt_compat_r; [apply ten_to_pos|].
    by rewrite <- Zlt_Qlt. }
  split; [split; [done|]|split; [by apply dval_sign|]].
  - rewrite abs_dval, Ht. apply Qmult_le_compat_r; [|apply Qlt_le_weak, ten_to_pos]. rewrite <- Zle_Qle. lia.
  - unfold dval. rewrite Qmult_assoc, <- inject_Z_mult. by apply Hlt.
Qed.

Lemma qsum_repeat d k : (qsum (repeat d k) == inject_Z (Z.of_nat k) * dval d)%Q.
Proof.
  induction k as [|k IH]; [cbn; ring|]. cbn [repeat qsum]. rewrite IH, Nat2Z.inj_succ.
  unfold Z.succ. rewrite inject_Z_plus. change (inject_Z 1) with 1%Q. ring.
Qed.

Lemma removelast_repeat {A} (x : A) j : removelast (repeat x (S j)) = repeat x j.
Proof.
  induction j as [|j IH]; [done|]. change (repeat x (S (S j))) with (x :: repeat x (S j)).
  cbn [removelast]. cbn [repeat] in *. by rewrite IH.
Qed.

(** Equal slices fit: a hundred is what was computed. *)
Lemma equal_shares_fit n : n <= 100 -> shares_fit (normalized_weights n []).
Proof.
  intros Hn. cbn [normalized_weights]. set (n' := Z.max 1 n).
  destruct (equal_weight n') as (d & Hd & Hgd & Hd0 & Hd1); [lia|].
  set (k := Nat.pred (Z.to_nat n')). replace (Z.to_nat n') with (S k) by (unfold k; lia).
  assert (inject_Z (n' - 1) == inject_Z (Z.of_nat k))%Q as Hk by (unfold k; f_equiv; lia).
  rewrite Hk in Hd1. exists (repeat d k). rewrite removelast_repeat. split_and!.
  - apply mapM_Some. clear -Hd. induction k as [|k IH]; cbn [repeat]; by constructor.
  - apply Forall_forall. intros x ->%list_elem_of_In%repeat_spec. split; [done|lra].
  - rewrite qsum_repeat. lra.
Qed.

Lemma positive_part_bound g m d : 0 <= m -> grid g m d -> (dval (positive_part d) <= inject_Z m)%Q.
Proof.
  intros Hm [_ Hd]. unfold positive_part. destruct (dltb dzero d) eqn:E.
  - apply dltb_spec in E. rewrite dval_zero in E. by rewrite Qabs_pos in Hd by lra.
  - rewrite dval_zero. by rewrite Zle_Qle in Hm.
Qed.

Section Runs.
Context `{Digest} {B : Type} (env : Broker B) (cancel : option (B -> string -> option string -> B * pyres unit bool)).

(** [Elsewhere]: the engine and the broker moved on by other means. *)
Inductive Event :=
| Submitted (symbol side : string) (total : dec) (n : Z) (start : pyfloat) (weights : list pyfloat)
    (interval : option pyfloat) (limit : option dec) (pid : option string) (uuid_hex : string)
| Ticked (now : pyfloat) (prices : list (string * pyval)) (supply : nat -> Draw)
| Elsewhere (w : World B)
| Reported (coid : string) (cum : dec) (avg : option dec)
| Ended (coid : string) (s : OrderStatus).

Definition apply_event (xw : Executor * World B) (e : Event) : Executor * World B :=
  let '(x, w) := xw in
  match e with
  | Submitted symbol side total n start weights interval limit pid uuid_hex =>
      match submit_parent symbol side total n start weights interval limit pid uuid_hex x with
      | Ok (x, _) => (x, w)
      | Raise _ => (x, w)
      end
  | Ticked now prices supply =>
      let s := (step env cancel supply now prices x w).1 in (st_exec s, st_world s)
  | Elsewhere w => (x, w)
  | Reported coid cum avg => (on_child_fill coid cum avg x, w)
  | Ended coid s => (on_order_terminal coid s x, w)
  end.

Definition run_events (xw : Executor * World B) (es : list Event) : Executor * World B :=
  fold_left apply_event es xw.

Definition child_by_coid (x : Executor) (coid : string) : option ChildOrder :=
  k ← dget (ex_by_coid x) coid; ex_heap x !! k.

Context (confirmed : B -> string -> Prop) (g m : Z).

(** What the executor is given, and relies on.  A parent's quantity has at most [g - 18]
    decimals and is at most [m]; it is cut into equal slices, at most a hundred, or by
    weights whose shares fit.  The broker fills no order beyond its quantity, and an order
    whose cancellation it confirmed fills nothing more than was reported of it when the
    cancellation was asked for, and ends as cancelled. *)
Definition honest (xw : Executor * World B) (e : Event) : Prop :=
  let '(x, w) := xw in
  match e with
  | Submitted _ _ total n _ weights _ _ _ _ =>
      grid (g - 18) m total /\
      (weights = [] /\ n <= 100 \/ shares_fit (normalized_weights n weights))
  | Ticked _ _ _ => True
  | Elsewhere w' => forall coid, confirmed (w_broker w) coid -> confirmed (w_broker w') coid
  | Reported coid cum _ =>
      forall c, child_by_coid x coid = Some c ->
        grid g m cum /\ (0 <= dval cum)%Q /\ (dval cum <= dval (ch_qty c))%Q /\
        (confirmed (w_broker w) coid -> dval cum == dval (ch_filled c))%Q
  | Ended coid s => confirmed (w_broker w) coid -> s <> FILLED /\ s <> REJECTED /\ s <> ERROR
  end.

Fixpoint honest_run (xw : Executor * World B) (es : list Event) : Prop :=
  match es with
  | [] => True
  | e :: es => honest xw e /\ honest_run (apply_event xw e) es
  end.

Context (Hg : 18 <= g) (Hm0 : 0 <= m) (Hm : (m + m) * 10 ^ g < 10 ^ 28).

Abbreviation ok xw := (exec_ok (confirmed (w_broker xw.2)) g m xw.1).

Lemma submitted_ok symbol side total n start weights interval limit pid hex xw :
  let e := Submitted symbol side total n start weights interval limit pid hex in
  ok xw -> honest xw e -> ok (apply_event xw e).
Proof.
  destruct xw as [x w]. cbn [fst snd honest apply_event]. intros Hx [Hgt Hsh]. unfold submit_parent.
  destruct (negb _); [done|].
  set (id := if truthy pid then _ else _). set (p := MkParent id symbol _ total _ limit [] start).
  assert (0 <= dval (positive_part total))%Q as Hpos.
  { unfold positive_part. destruct (dltb dzero total) eqn:E; [|by rewrite dval_zero].
    apply dltb_spec in E. rewrite dval_zero in E. lra. }
  assert (dval (positive_part total) <= inject_Z m)%Q as Ht by by apply (positive_part_bound (g - 18)).
  destruct (dltb dzero total) eqn:E.
  - destruct (slice_quantities _ _) as [qs|] eqn:Eq; [|done].
    apply dltb_spec in E as E0. rewrite dval_zero in E0.
    destruct (fitting_slices (g - 18) m total (normalized_weights n weights) qs) as [H1 H2];
      [lia|done|by rewrite Z.sub_add|done|done| |done|].
    { destruct Hsh as [[-> Hn]|Hsh]; [by apply equal_shares_fit|done]. }
    rewrite Z.sub_add in H1.
    assert (0 <= g) as Hg0 by lia.
    pose proof (build_children_ok (confirmed (w_broker w)) g m Hg0 Hm0 id start (default (ex_interval x) interval)
      qs 0 x p Hx H1 eq_refl (List.Forall_nil _) Ht) as Hb.
    destruct (build_children _ _ _ _ _ _ _) as [x' p']. destruct Hb as [Hx' Hp'].
    + cbn [ref_sum p po_children po_total]. unfold positive_part. rewrite E, H2. lra.
    + apply set_parent_ok; [done|]. by rewrite (pk_id _ _ _ _ Hp').
  - apply set_parent_ok; [done|]. split; cbn [p po_id po_children po_total ref_sum]; [done|constructor|done..].
Qed.

(** A report about one child. *)
Lemma report_ok x w coid f :
  ok (x, w) ->
  (forall c, child_by_coid x coid = Some c -> child_ok (confirmed (w_broker w)) g m c ->
    (ch_status c = CH_REPLACED -> confirmed (w_broker w) coid) ->
    child_ok (confirmed (w_broker w)) g m (f c) /\ (weight (f c) <= weight c)%Q /\ ch_coid (f c) = ch_coid c) ->
  ok (match dget (ex_by_coid x) coid with Some k => update_child k f x | None => x end, w).
Proof.
  cbn [fst snd]. intros Hx Hf. unfold child_by_coid in Hf. destruct (dget (ex_by_coid x) coid) as [k|] eqn:Ek; [|done].
  cbn [mbind option_bind] in Hf. apply update_child_ok; [done|]. intros c Hc Hck.
  destruct (xk_coids _ _ _ _ Hx coid k Ek) as (c' & Hc' & Hcoid). rewrite Hc in Hc'. injection Hc' as <-.
  destruct (Hf c Hc Hck) as (H1 & H2 & H3); [|auto]. intros Hr. by apply (ck_conf _ _ _ _ Hck).
Qed.

Lemma reported_ok coid cum avg xw :
  ok xw -> honest xw (Reported coid cum avg) -> ok (apply_event xw (Reported coid cum avg)).
Proof.
  destruct xw as [x w]. cbn [honest apply_event]. intros Hx Hr. unfold on_child_fill. apply report_ok; [done|].
  intros c Hc [H1 H2 H3 H4 H5 H6] Hconf. destruct (Hr c Hc) as (Hcum & H0 & Hle & Hrep).
  cbn [set_ch_fill ch_qty ch_filled ch_status].
  destruct (dleb (ch_qty c) cum && bool_decide (ch_status c = CH_WORKING)) eqn:E.
  - apply andb_prop in E as [_ E]. apply bool_decide_eq_true_1 in E. split; [by split|].
    split; [|done]. unfold weight. cbn. rewrite E. apply Qle_refl.
  - split; [by split|]. split; [|done]. unfold weight. cbn [set_ch_fill ch_status ch_filled ch_qty].
    destruct (ch_status c); try apply Qle_refl. rewrite (Hrep (Hconf eq_refl)). apply Qle_refl.
Qed.

Lemma ended_ok coid s xw :
  ok xw -> honest xw (Ended coid s) -> ok (apply_event xw (Ended coid s)).
Proof.
  destruct xw as [x w]. cbn [honest apply_event]. intros Hx Hr. unfold on_order_terminal. apply report_ok; [done|].
  intros c Hc [H1 H2 H3 H4 H5 H6] Hconf.
  split; [destruct s; repeat case_match; by split|].
  split; [|destruct s; repeat case_match; done].
  unfold weight. destruct s; try apply Qle_refl; repeat case_bool_decide; cbn;
    destruct (ch_status c); try done; try apply Qle_refl; by destruct (Hr (Hconf eq_refl)) as (?&?&?).
Qed.

Lemma filled_below_weight conf x p :
  exec_ok conf g m x -> (qsum (map ch_filled (children_of x p)) <= ref_sum weight (ex_heap x) (po_children p))%Q.
Proof.
  intros Hx. unfold children_of. induction (po_children p) as [|k ks IH]; [apply Qle_refl|].
  cbn [omap list_omap ref_sum]. unfold at_ref at 1. destruct (ex_heap x !! k) as [c|] eqn:Ec.
  - cbn [map qsum]. destruct (xk_children _ _ _ _ Hx k c Ec) as [_ _ _ H4 _ _].
    apply Qplus_le_compat; [|done]. unfold weight. destruct (ch_status c); [exact H4..|apply Qle_refl|exact H4].
  - rewrite Qplus_0_l. exact IH.
Qed.
End Runs.

Section Guarantee.
Context `{Digest} {B : Type} (env : Broker B) (cancel : B -> string -> option string -> B * pyres unit bool).
Context (confirmed : B -> string -> Prop) (g m : Z).

Lemma run_ok es (xw : Executor * World B) :
  cancellation_laws env cancel confirmed -> 18 <= g -> 0 <= m -> (m + m) * 10 ^ g < 10 ^ 28 ->
  exec_ok (confirmed (w_broker xw.2)) g m xw.1 -> honest_run env (Some cancel) confirmed g m xw es ->
  let xw' := run_events env (Some cancel) xw es in exec_ok (confirmed (w_broker xw'.2)) g m xw'.1.
Proof.
  intros laws Hg Hm0 Hm. unfold run_events. revert xw. induction es as [|e es IH]; intros xw Hx Hh; [done|].
  destruct Hh as [He Hh]. cbn [fold_left]. apply IH; [|done]. destruct e.
  - by apply submitted_ok.
  - destruct xw as [x w]. assert (0 <= g) by lia. by apply clock_step_ok.
  - destruct xw as [x w0]. by apply (exec_ok_mono (confirmed (w_broker w0))).
  - by apply reported_ok.
  - by apply ended_ok.
Qed.

(** C27: However orders are submitted, the clock ticks, the engine accepts, refuses or
    raises, and reports arrive, the fills of a parent's children never add up to more
    than its quantity: a straggler's rest is worked again only after the broker
    confirmed its cancellation.  The exact sum is also what [filled_qty] computes.  The
    executor has a way to cancel; quantities are within the digits of the decimal context
    after slicing ([g - 18] decimals, at most [m]); parents are cut into equal slices, at
    most a hundred, or by weights whose normalised shares, but for the last, add up to at
    most one (others overshoot, [weighted_slices_overshoot]); the broker fills no order
    beyond its quantity, a cancellation it confirmed is final, and what it filled before
    was reported before the cancellation was asked for (or it is worked twice,
    [unseen_fill_overfills]). *)
Theorem never_overfilled es strategy interval timeout max_replaces min_qty limit_orders w pid p :
  cancellation_laws env cancel confirmed -> 18 <= g -> 0 <= m -> (m + m) * 10 ^ g < 10 ^ 28 ->
  let x0 := new_executor strategy interval timeout max_replaces min_qty limit_orders in
  let x := (run_events env (Some cancel) (x0, w) es).1 in
  honest_run env (Some cancel) confirmed g m (x0, w) es ->
  dget (ex_parents x) pid = Some p ->
  (dval (po_filled x p) == qsum (map ch_filled (children_of x p)))%Q /\
  (dval (po_filled x p) <= dval (positive_part (po_total p)))%Q.
Proof.
  intros laws Hg Hm0 Hm x0 x Hh Hp.
  pose proof (run_ok es (x0, w) laws Hg Hm0 Hm) as Hx. cbn zeta in Hx. fold x in Hx.
  specialize (Hx ltac:(split; cbn; [by intros k c|done|done]) Hh).
  destruct (xk_parents _ _ _ _ Hx pid p Hp) as [_ _ H3 H4].
  pose proof (filled_below_weight g m _ x p Hx) as Hle. unfold po_filled.
  destruct (dsum_grid_pos g m (map ch_filled (children_of x p)) ltac:(lia) Hm) as [Hv _]; [|lra|done|rewrite Hv; split; [done|lra]].
  apply Forall_forall. intros d [c [-> Hc]]%list_elem_of_fmap.
  apply list_elem_of_omap in Hc as (k & _ & Hk). destruct (xk_children _ _ _ _ Hx k c Hk). by split.
Qed.
End Guarantee.

(** ** Equal slices *)

Lemma equal_slices g m total n :
  0 <= g -> 1 <= n <= 100 -> grid g m total -> (0 < dval total)%Q -> (m + m) * 10 ^ (g + 18) < 10 ^ 28 ->
  exists qs, slice_quantities total (normalized_weights n []) = Some qs /\
    List.length qs = Z.to_nat n /\ (qsum qs == dval total)%Q /\ Forall (fun q => 0 < dval q)%Q qs.
Proof.
  intros Hg Hn Ht H0 Hm. destruct (equal_weight n Hn) as (d & Hd & Hgd & Hd0 & Hd1).
  assert (0 <= m) as Hm0.
  { destruct Ht as [_ Ht]. rewrite Zle_Qle. eapply Qle_trans; [apply Qabs_nonneg|exact Ht]. }
  cbn [normalized_weights]. rewrite (Z.max_r 1 n) by lia.
  set (k := Nat.pred (Z.to_nat n)). replace (Z.to_nat n) with (S k) by (unfold k; lia).
  assert (inject_Z (n - 1) == inject_Z (Z.of_nat k))%Q as Hk by (unfold k; f_equiv; lia).
  rewrite Hk in Hd1.
  assert (forall j, mapM (M := option) (fun x => dmul total <$> dec_of_val (VFloat x))
    (removelast (repeat (fdiv (float_of_int 1) (float_of_int n)) (S j))) = Some (repeat (dmul total d) j)) as Hmap.
  { intros j. rewrite removelast_repeat. apply mapM_Some. induction j as [|j IH]; cbn [repeat]; constructor; [|done].
    by rewrite Hd. }
  unfold slice_quantities. rewrite Hmap. cbn [mbind option_bind]. eexists. split; [done|].
  set (qs := repeat (dmul total d) k).
  destruct (grid_mul g 18 m 1 total d Hg) as [Hv Hgq]; [lia| |done..|].
  { change prec with 28. nia. }
  rewrite Z.mul_1_r in Hgq.
  assert (0 < dval total * dval d)%Q as Hpos by (apply Qmult_lt_0_compat; done).
  assert (qsum qs == inject_Z (Z.of_nat k) * dval d * dval total)%Q as Hs.
  { unfold qs. rewrite qsum_repeat, Hv. ring. }
  assert (qsum qs < dval total)%Q as Hlt.
  { rewrite Hs. rewrite <- (Qmult_1_l (dval total)) at 2. by apply Qmult_lt_compat_r. }
  destruct Ht as [Het Ht]. rewrite Qabs_pos in Ht by lra.
  destruct (dsum_grid_pos (g + 18) m qs) as [Hsv Hsg]; [lia|exact Hm| |lra|done|].
  { apply Forall_forall. intros q ->%list_elem_of_In%repeat_spec. split; [done|]. rewrite Hv. lra. }
  destruct (grid_sub (g + 18) m m total (dsum qs)) as [Hr _]; [lia|exact Hm| |done|].
  { split; [lia|]. rewrite Qabs_pos by lra. done. }
  rewrite Hsv in Hr. split; [|split].
  - unfold qs. rewrite length_app, repeat_length. cbn. lia.
  - rewrite qsum_app. cbn [qsum]. rewrite Hr. ring.
  - apply Forall_app. split; [|apply Forall_singleton; rewrite Hr; lra].
    apply Forall_forall. intros q ->%list_elem_of_In%repeat_spec. by rewrite Hv.
Qed.

Lemma children_alloc x c ks :
  Forall (fun k => (k < List.length (ex_heap x))%nat) ks ->
  omap (fun k => (ex_heap x ++ [c]) !! k) ks = omap (fun k => ex_heap x !! k) ks.
Proof.
  induction 1 as [|k ks Hk _ IH]; [done|]. cbn [omap list_omap] in *. rewrite lookup_app_l by done.
  by rewrite IH.
Qed.

Lemma build_children_spec pid start interval qs i x p :
  Forall (fun k => (k < List.length (ex_heap x))%nat) (po_children p) ->
  let '(x', p') := build_children pid start interval i qs x p in
  map ch_qty (children_of x' p') = map ch_qty (children_of x p) ++ positive_slices qs /\
  po_total p' = po_total p /\ po_id p' = po_id p.
Proof.
  revert i x p. induction qs as [|q qs IH]; intros i x p Hrefs; cbn [build_children].
  - by rewrite app_nil_r.
  - cbn [positive_slices List.filter]. rewrite <- dltb_negb.
    destruct (dltb dzero q) eqn:Eq; cbn [negb]; [|by apply IH].
    set (c := new_child _ _ _ _ _ _). cbn [alloc_child].
    set (x1 := set_heap _ x). set (p1 := add_child _ p).
    specialize (IH (i + 1) x1 p1). destruct (build_children _ _ _ _ _ _ _) as [x' p'].
    destruct IH as (H1 & H2 & H3).
    + apply Forall_app. cbn [x1 set_heap ex_heap].
      split; [apply (refs_grow (ex_heap x)); [|done]|apply Forall_singleton]; rewrite length_app; cbn [List.length]; lia.
    + split; [|by rewrite H2, H3]. rewrite H1.
      assert (children_of x1 p1 = children_of x p ++ [c]) as ->.
      { unfold children_of. cbn [x1 p1 set_heap add_child ex_heap po_children].
        rewrite omap_app, children_alloc by done. cbn [omap list_omap].
        by rewrite lookup_app_r, Nat.sub_diag by lia. }
      rewrite map_app, <- app_assoc. reflexivity.
Qed.

Lemma positive_slices_all qs : Forall (fun q => 0 < dval q)%Q qs -> positive_slices qs = qs.
Proof.
  unfold positive_slices. induction 1 as [|q qs Hq _ IH]; [done|]. cbn [List.filter].
  assert (dltb dzero q = true) as -> by (apply dltb_spec; by rewrite dval_zero). by rewrite IH.
Qed.

(** An order without volume weights, of a quantity with [g] decimals and at most [m]
    units within the digits of the decimal context, is accepted with one child per
    slice: every child has a positive quantity, and together they are exactly the
    order, although [1.0 / n] is rounded to a float. *)
Theorem slices_add_up g m symbol side total n start interval limit pid hex x :
  0 <= g -> (m + m) * 10 ^ (g + 18) < 10 ^ 28 -> grid g m total -> (0 < dval total)%Q -> 1 <= n <= 100 ->
  str_lower side = "buy"%string \/ str_lower side = "sell"%string ->
  exists x' p, submit_parent symbol side total n start [] interval limit pid hex x = Ok (x', p) /\
    List.length (children_of x' p) = Z.to_nat n /\
    Forall (fun c => 0 < dval (ch_qty c))%Q (children_of x' p) /\
    (qsum (map ch_qty (children_of x' p)) == dval total)%Q.
Proof.
  intros Hg Hm Ht H0 Hn Hside. destruct (equal_slices g m total n) as (qs & Hqs & Hlen & Hsum & Hpos); [done..|].
  unfold submit_parent. rewrite bool_decide_true by done. cbn [negb].
  assert (dltb dzero total = true) as -> by (apply dltb_spec; by rewrite dval_zero). rewrite Hqs.
  set (p0 := MkParent _ _ _ _ _ _ _ _). set (id := if truthy pid then _ else _).
  pose proof (build_children_spec id start (default (ex_interval x) interval) qs 0 x p0 (List.Forall_nil _)) as Hb.
  destruct (build_children _ _ _ _ _ _ _) as [x' p]. destruct Hb as (Hmap & _ & _).
  cbn [children_of p0 po_children omap list_omap map app] in Hmap. rewrite positive_slices_all in Hmap by done.
  exists (set_parent p x'), p. split; [done|]. change (children_of (set_parent p x') p) with (children_of x' p).
  split; [|split].
  - by rewrite <- Hlen, <- Hmap, length_map.
  - rewrite <- Hmap in Hpos. change (map ch_qty) with (fmap (M := list) ch_qty) in Hpos. by apply (Forall_fmap ch_qty) in Hpos.
  - by rewrite Hmap.
Qed.

(** ** Concrete runs *)

(** A broker that accepts every order and keeps the list of confirmed cancellations. *)
Definition book_broker : Broker (list string) :=
  MkBroker (Some (fun b _ => (b, Ok (true, Some "B1"%string, None)))) None None.

Definition book_cancel (b : list string) (coid : string) (_ : option string) : list string * pyres unit bool :=
  (coid :: b, Ok true).

Definition book_confirmed (b : list string) (coid : string) : Prop := coid ∈ b.

Lemma book_laws : cancellation_laws book_broker book_cancel book_confirmed.
Proof.
  split; unfold book_confirmed.
  - intros b coid boid b' [= <-]. by left.
  - intros b coid boid coid' Hin. by right.
  - intros f b o coid' [= <-] Hin. exact Hin.
Qed.

Definition draw (prefix : string) (n : nat) : Draw :=
  let k := (prefix +:+ int_str (Z.of_nat n))%string in
  MkDraw 1 ("i" +:+ k)%string ("o" +:+ k)%string ("r" +:+ k)%string ("e" +:+ k)%string.

Definition sample_prices : list (string * pyval) := [("AAPL"%string, VInt 100)].

Definition seconds (n : Z) : pyfloat := float_of_int n.

Abbreviation sample_executor := (new_executor "s" (seconds 30) (seconds 60) 3 dzero false).
Abbreviation book_world := (MkWorld sample_engine ([] : list string) []).

Definition submit_sample (total : dec) (weights : list pyfloat) (n : Z) : Event (B := list string) :=
  Submitted "AAPL" "buy" total n (seconds 0) weights None None (Some "p"%string) "".

Definition tick_at (now : Z) (prefix : string) : Event (B := list string) :=
  Ticked (seconds now) sample_prices (draw prefix).

Abbreviation book_run := (run_events book_broker (Some book_cancel)).

(** The first slice works, two of its five are filled, and it is replaced a minute
    later, when the second slice is due as well. *)
Definition started : list (Event (B := list string)) := [submit_sample (Dec 10 0) [] 2; tick_at 0 "a"].

Definition first_coid : string :=
  default ""%string (ex_heap (book_run (sample_executor, book_world) started).1 !! 0%nat ≫= ch_coid).

Definition slow_run : list (Event (B := list string)) :=
  (started ++ [Reported first_coid (Dec 2 0) (Some (Dec 100 0)); tick_at 100 "b"; Reported first_coid (Dec 2 0) None])%list.

Definition child_view (xw : Executor * World (list string)) (pid : string) : list (ChildState * Z * Z) :=
  match dget (ex_parents xw.1) pid with
  | Some p => map (fun c => (ch_status c, coef (ch_qty c), coef (ch_filled c))) (children_of xw.1 p)
  | None => []
  end.

Example slow_run_ex :
  child_view (book_run (sample_executor, book_world) slow_run) "p" =
    [(CH_REPLACED, 50, 2); (CH_WORKING, 50, 0); (CH_WORKING, 30, 0)].
Proof. vm_compute. reflexivity. Qed.

Lemma reported_honest (xw : Executor * World (list string)) coid cum avg c :
  child_by_coid xw.1 coid = Some c -> grid 20 10 cum -> (0 <= dval cum)%Q -> (dval cum <= dval (ch_qty c))%Q ->
  (bool_decide (coid ∈ w_broker xw.2) = false \/ dval cum == dval (ch_filled c))%Q ->
  honest book_confirmed 20 10 xw (Reported coid cum avg).
Proof.
  destruct xw as [x w]. intros Hc H1 H2 H3 H4 c' Hc'. cbn [fst] in Hc. rewrite Hc in Hc'. injection Hc' as <-.
  split_and!; try done. destruct H4 as [H4|H4]; [|done]. by apply bool_decide_eq_false_1 in H4.
Qed.

Lemma slow_run_honest :
  honest_run book_broker (Some book_cancel) book_confirmed 20 10 (sample_executor, book_world) slow_run.
Proof.
  refine (conj _ (conj I (conj _ (conj I (conj _ I))))).
  - split; [split; vm_compute; intros [=]|]. by left.
  - eapply reported_honest; [vm_compute; reflexivity|vm_compute; split; intros [=]|by vm_compute|by vm_compute|].
    left. vm_compute. reflexivity.
  - eapply reported_honest; [vm_compute; reflexivity|vm_compute; split; intros [=]|by vm_compute|by vm_compute|].
    right. vm_compute. reflexivity.
Qed.

Lemma slow_parent : is_Some (dget (ex_parents (book_run (sample_executor, book_world) slow_run).1) "p"%string).
Proof. vm_compute. by eexists. Qed.

Lemma never_overfilled_witness :
  honest_run book_broker (Some book_cancel) book_confirmed 20 10 (sample_executor, book_world) slow_run /\
  exists p, dget (ex_parents (book_run (sample_executor, book_world) slow_run).1) "p"%string = Some p /\
    (dval (po_filled (book_run (sample_executor, book_world) slow_run).1 p) <= dval (positive_part (po_total p)))%Q.
Proof.
  split; [exact slow_run_honest|]. destruct slow_parent as [p E]. exists p. split; [exact E|].
  assert (18 <= 20 /\ 0 <= 10 /\ (10 + 10) * 10 ^ 20 < 10 ^ 28) as (H1 & H2 & H3) by lia.
  pose proof (never_overfilled book_broker book_cancel book_confirmed 20 10 slow_run "s" (seconds 30) (seconds 60)
    3 dzero false book_world "p" p book_laws H1 H2 H3) as T. cbv zeta in T.
  specialize (T slow_run_honest E). exact (proj2 T).
Defined.

Lemma slices_add_up_witness :
  exists x' p, submit_parent "AAPL" "BUY" (Dec 100 0) 7 (seconds 0) [] None None None "0123456789abcdef" sample_executor
      = Ok (x', p) /\
    List.length (children_of x' p) = 7%nat /\ (qsum (map ch_qty (children_of x' p)) == 100)%Q.
Proof.
  destruct (slices_add_up 0 100 "AAPL" "BUY" (Dec 100 0) 7 (seconds 0) None None None "0123456789abcdef" sample_executor)
    as (x' & p & H1 & H2 & _ & H4);
    [done|by vm_compute|by vm_compute|by vm_compute|done|by left|].
  exists x', p. split; [exact H1|]. split; [exact H2|]. rewrite H4. by vm_compute.
Defined.

(** The weights of a volume profile are divided by their sum, and the quotients may add
    up to more than one: the last slice has nothing left, and the others are more than
    the order. *)
Theorem weighted_slices_overshoot :
  let x := (book_run (sample_executor, book_world) [submit_sample (Dec 100 0) (map seconds [1; 1; 9; 0]) 4]).1 in
  match dget (ex_parents x) "p" with
  | Some p => (qsum (map ch_qty (children_of x p)) == 100000000000000002 # (10 ^ 15))%Q
  | None => False
  end.
Proof. by vm_compute. Qed.

(** The rest of a straggler is taken before its cancellation, from the fills known
    then: shares filled meanwhile are worked a second time. *)
Theorem unseen_fill_overfills :
  child_view (book_run (sample_executor, book_world)
    (started ++ [tick_at 100 "b"; Reported first_coid (Dec 3 0) None])%list) "p" =
    [(CH_REPLACED, 50, 3); (CH_WORKING, 50, 0); (CH_WORKING, 50, 0)].
Proof. vm_compute. reflexivity. Qed.

Definition timeout_broker : Broker (list string) :=
  MkBroker (Some (fun b _ => (b, Raise "timed out"%string))) None None.

(** When the broker raises, the slice stays pending although the order was handed to
    it, and the next tick submits the slice again, under another id. *)
Theorem raised_release_repeats :
  let '(x, w) := run_events timeout_broker (Some book_cancel) (sample_executor, book_world)
                   (started ++ [tick_at 1 "b"])%list in
  map (fun c => (ch_status c, coef (ch_qty c))) (ex_heap x) = [(CH_PENDING, 50); (CH_PENDING, 50)] /\
  map (fun o => coef (quantity o)) (w_sent w) = [50; 50] /\
  bool_decide (NoDup (map client_order_id (w_sent w))) = true.
Proof. vm_compute. split_and!; reflexivity. Qed.

(** Submitting the same parent id again forgets the children that work. *)
Theorem resubmitted_parent_repeats :
  let xw := book_run (sample_executor, book_world)
              (started ++ [submit_sample (Dec 10 0) [] 2; tick_at 1 "b"])%list in
  map (fun o => coef (quantity o)) (w_sent xw.2) = [50; 50] /\
  child_view xw "p" = [(CH_WORKING, 50, 0); (CH_PENDING, 50, 0)].
Proof. vm_compute. split; reflexivity. Qed.
