(* ===== verification/Routing.v ===== *)
(** * Order routing: [packages/agent/execution/router.py]

    [OrderRouter]: rules in the order of their priority, the first one that matches
    an order names its broker.  The list of rules the constructor is given is kept
    by reference and sorted in place; only the router's view of it is modelled. *)
From Stdlib Require Import Ascii String Sorted.
From S2P Require Import Prelude PyDecimal DecArith PyFormat PyFloat PyValue PyJson PyCompare PyText Sha256 HashChain.
From S2P Require Import Intent Firewall HardCaps RiskChecker Journal Engine.
Open Scope Z_scope.
Open Scope list_scope.

Inductive RoutingCriteria := BY_SYMBOL | BY_ASSET_CLASS | BY_ORDER_SIZE | BY_TIME_OF_DAY.

(** No symbols ([None] or an empty list) match every symbol. *)
Record RoutingRule := MkRule {
  rr_name : string;
  rr_broker : string;
  rr_priority : Z;
  rr_symbols : option (list string);
  rr_prefix : option string;
  rr_asset_class : option string;
  rr_min_size : option dec;
  rr_max_size : option dec;
  rr_enabled : bool
}.

#[export] Instance RoutingRule_eq_dec : EqDecision RoutingRule.
Proof. solve_decision. Defined.

(** A size limit that is [None] or zero is not tested. *)
Definition within_size (test : dec -> bool) (limit : option dec) : bool :=
  match limit with
  | Some d => negb (dtrue d) || test d
  | None => true
  end.

Definition matches (r : RoutingRule) (o : Order) : bool :=
  rr_enabled r &&
  match rr_symbols r with
  | Some (_ :: _ as l) => bool_decide (o_symbol o ∈ l)
  | _ => true
  end &&
  (negb (truthy (rr_prefix r)) || starts_with (chars (default "" (rr_prefix r))%string) (chars (o_symbol o))) &&
  within_size (fun d => negb (dltb (quantity o) d)) (rr_min_size r) &&
  within_size (fun d => negb (dltb d (quantity o))) (rr_max_size r).

(** [str(d) if d else None] *)
Definition dec_if_true (o : option dec) : pyval :=
  match o with
  | Some d => if dtrue d then VStr (dec_str d) else VNone
  | None => VNone
  end.

Definition rule_to_dict (r : RoutingRule) : dict :=
  [("name", VStr (rr_name r)); ("broker", VStr (rr_broker r)); ("priority", VInt (rr_priority r));
   ("symbols", match rr_symbols r with Some l => VStrs l | None => VNone end);
   ("symbol_prefix", v_opt_str (rr_prefix r)); ("asset_class", v_opt_str (rr_asset_class r));
   ("min_order_size", dec_if_true (rr_min_size r)); ("max_order_size", dec_if_true (rr_max_size r));
   ("enabled", VBool (rr_enabled r))]%string.

Record RoutingResult := MkRouting {
  ro_success : bool;
  ro_broker : option string;
  ro_rule : option string;
  ro_error : option string
}.

Definition routing_to_dict (r : RoutingResult) : dict :=
  [("success", VBool (ro_success r)); ("broker", v_opt_str (ro_broker r));
   ("rule_name", v_opt_str (ro_rule r)); ("error_message", v_opt_str (ro_error r))]%string.

Record OrderRouter := MkRouter {
  rt_default : string;
  rt_rules : list RoutingRule
}.

(** [rules.sort(key=lambda r: r.priority, reverse=True)]: a stable sort, the higher
    priorities first. *)
Definition sort_rules (l : list RoutingRule) : list RoutingRule := order_by (fun r => - rr_priority r) l.

Definition new_router (default_broker : string) (rules : list RoutingRule) : OrderRouter :=
  MkRouter default_broker (sort_rules rules).

Definition add_rule (r : RoutingRule) (t : OrderRouter) : OrderRouter :=
  MkRouter (rt_default t) (sort_rules (rt_rules t ++ [r])).

(** The first rule of that name goes. *)
Fixpoint drop_rule (name : string) (l : list RoutingRule) : option (list RoutingRule) :=
  match l with
  | [] => None
  | r :: l => if bool_decide (rr_name r = name) then Some l else cons r <$> drop_rule name l
  end.

Definition remove_rule (name : string) (t : OrderRouter) : OrderRouter * bool :=
  match drop_rule name (rt_rules t) with
  | Some l => (MkRouter (rt_default t) l, true)
  | None => (t, false)
  end.

Definition route (o : Order) (t : OrderRouter) : RoutingResult :=
  match List.find (fun r => matches r o) (rt_rules t) with
  | Some r => MkRouting true (Some (rr_broker r)) (Some (rr_name r)) None
  | None => MkRouting true (Some (rt_default t)) (Some "default"%string) None
  end.

Definition get_brokers (t : OrderRouter) : list string :=
  sorted_strings (list_to_set (rt_default t :: map rr_broker (rt_rules t))).

Inductive router_op := AddRule (r : RoutingRule) | RemoveRule (name : string).

Definition router_step (t : OrderRouter) (op : router_op) : OrderRouter :=
  match op with
  | AddRule r => add_rule r t
  | RemoveRule n => (remove_rule n t).1
  end.

Definition router_run (ops : list router_op) (t : OrderRouter) : OrderRouter := fold_left router_step ops t.

(** ** The rules stay sorted *)

Section SortBy.
Context {A : Type} (key : A -> Z).
#[local] Abbreviation le_key := (fun a b => key a <= key b).

Lemma insert_by_sorted x l : Sorted le_key l -> Sorted le_key (insert_by key x l).
Proof.
  induction l as [|y l IH]; cbn [insert_by]; intros Hs; [by repeat constructor|].
  destruct (Z.ltb_spec (key x) (key y)).
  - constructor; [done|]. constructor. lia.
  - apply Sorted_inv in Hs as [Hs Hh]. constructor; [by apply IH|].
    destruct l as [|z l]; cbn [insert_by]; [by constructor|].
    apply HdRel_inv in Hh. destruct (Z.ltb_spec (key x) (key z)); by constructor.
Qed.

Lemma order_by_sorted l : Sorted le_key (order_by key l).
Proof.
  unfold order_by. cut (forall acc, Sorted le_key acc ->
    Sorted le_key (fold_left (fun acc x => insert_by key x acc) l acc)); [by auto using Sorted_nil|].
  induction l as [|x l IH]; intros acc Hs; cbn; [done|]. by apply IH, insert_by_sorted.
Qed.

(** A new element goes behind those with its own key. *)
Lemma insert_by_behind x l :
  Sorted le_key l ->
  exists p q, insert_by key x l = p ++ x :: q /\ l = p ++ q /\
              Forall (fun y => key y <= key x) p /\ Forall (fun y => key x < key y) q.
Proof.
  induction l as [|y l IH]; cbn [insert_by]; intros Hs; [by exists [], []|].
  destruct (Z.ltb_spec (key x) (key y)) as [Hlt|Hge].
  - exists [], (y :: l). split_and!; [done..|].
    apply Sorted_StronglySorted in Hs; [|intros a b c; lia].
    apply StronglySorted_inv in Hs as [_ Hy]. constructor; [done|].
    eapply Forall_impl; [exact Hy|]. cbn. lia.
  - apply Sorted_inv in Hs as [Hs _]. destruct (IH Hs) as (p & q & -> & -> & Hp & Hq).
    exists (y :: p), q. split_and!; [done..| |done]. by constructor.
Qed.

(** Sorting what is sorted changes nothing. *)
Lemma order_by_id l : Sorted le_key l -> order_by key l = l.
Proof.
  intros Hs. unfold order_by.
  cut (forall acc, Sorted le_key (acc ++ l) -> fold_left (fun acc x => insert_by key x acc) l acc = acc ++ l);
    [by intros H; apply (H [])|].
  clear Hs. induction l as [|x l IH]; intros acc Hs; cbn; [by rewrite app_nil_r|].
  assert (insert_by key x acc = acc ++ [x]) as ->.
  { apply Sorted_StronglySorted in Hs; [|intros a b c; lia]. clear IH.
    induction acc as [|y acc IHa]; cbn; [done|]. apply StronglySorted_inv in Hs as [Hs Hy].
    apply Forall_app in Hy as [_ Hy]. apply Forall_cons in Hy as [Hy _].
    destruct (Z.ltb_spec (key x) (key y)); [lia|]. by rewrite IHa. }
  rewrite (cons_middle x acc l), (app_assoc acc). apply IH. by rewrite <- app_assoc.
Qed.

Lemma order_by_snoc l x : Sorted le_key l -> order_by key (l ++ [x]) = insert_by key x l.
Proof.
  intros Hs. unfold order_by. rewrite fold_left_app. cbn. f_equal. by apply order_by_id.
Qed.
End SortBy.

Lemma sorted_weaken {A} (R S : A -> A -> Prop) l :
  (forall a b, R a b -> S a b) -> Sorted R l -> Sorted S l.
Proof.
  intros Hi. induction 1 as [|x l _ IH Hh]; constructor; [done|].
  destruct Hh; constructor. by apply Hi.
Qed.

Definition by_priority (a b : RoutingRule) : Prop := rr_priority b <= rr_priority a.

Definition router_ok (t : OrderRouter) : Prop := Sorted by_priority (rt_rules t).

Lemma sort_rules_sorted l : Sorted by_priority (sort_rules l).
Proof.
  eapply sorted_weaken; [|apply (order_by_sorted (fun r => - rr_priority r))].
  unfold by_priority. intros a b Hab. cbn in Hab. lia.
Qed.

Lemma sorted_drop_rule name l l' :
  Sorted by_priority l -> drop_rule name l = Some l' -> Sorted by_priority l'.
Proof.
  intros Hs. apply Sorted_StronglySorted in Hs; [|intros a b c; unfold by_priority; lia].
  intros Hd. apply StronglySorted_Sorted. revert l' Hd.
  induction l as [|r l IH]; intros l' Hd; [done|]. cbn in Hd. apply StronglySorted_inv in Hs as [Hs Hr].
  case_bool_decide; [by simplify_eq|]. destruct (drop_rule name l) as [m|] eqn:E; [|done].
  injection Hd as <-. constructor; [by apply IH|].
  assert (m ⊆ l) as Hm.
  { clear -E. revert m E. induction l as [|y l IH]; intros m E; [done|]. cbn in E.
    case_bool_decide; [simplify_eq; set_solver|]. destruct (drop_rule name l); [|done].
    injection E as <-. specialize (IH l0 eq_refl). set_solver. }
  apply Forall_forall. intros y Hy. rewrite Forall_forall in Hr. by apply Hr, Hm.
Qed.

Lemma router_step_ok t op : router_ok t -> router_ok (router_step t op).
Proof.
  intros Ht. destruct op; cbn; [apply sort_rules_sorted|].
  unfold remove_rule. destruct (drop_rule _ _) eqn:E; cbn; [by eapply sorted_drop_rule|done].
Qed.

Lemma router_run_ok ops t : router_ok t -> router_ok (router_run ops t).
Proof. revert t. induction ops; intros t Ht; [done|]. by apply IHops, router_step_ok. Qed.

(** [add_rule] puts a rule behind those of its own priority and before the lower ones. *)
Lemma add_rule_place r t :
  router_ok t ->
  exists p q, rt_rules (add_rule r t) = p ++ r :: q /\ rt_rules t = p ++ q /\
              Forall (fun y => rr_priority r <= rr_priority y) p /\
              Forall (fun y => rr_priority y < rr_priority r) q.
Proof.
  intros Ht. assert (Sorted (fun a b => - rr_priority a <= - rr_priority b) (rt_rules t)) as Hs.
  { eapply sorted_weaken; [|exact Ht]. unfold by_priority. intros; lia. }
  cbn [add_rule rt_rules]. unfold sort_rules. rewrite order_by_snoc by done.
  destruct (insert_by_behind (fun r => - rr_priority r) r (rt_rules t) Hs) as (p & q & E & El & Hp & Hq).
  exists p, q. split_and!; [done..| |]; eapply Forall_impl; try done; cbn; lia.
Qed.

Lemma find_first {A} (f : A -> bool) l x :
  List.find f l = Some x <-> exists p q, l = p ++ x :: q /\ f x = true /\ Forall (fun y => f y = false) p.
Proof.
  induction l as [|y l IH]; cbn.
  - split; [done|]. intros (p & q & E & _). by destruct p.
  - destruct (f y) eqn:E.
    + split; [intros [= ->]; by exists [], l|]. intros (p & q & El & Hx & Hp).
      destruct p as [|z p]; [by injection El as -> ->|]. injection El as -> ->.
      apply Forall_cons in Hp as [Hz _]. congruence.
    + rewrite IH. split.
      * intros (p & q & -> & Hx & Hp). exists (y :: p), q. split_and!; [done..|]. by constructor.
      * intros (p & q & El & Hx & Hp). destruct p as [|z p]; [injection El as -> ->; congruence|].
        injection El as -> ->. apply Forall_cons in Hp as [_ Hp]. by exists p, q.
Qed.

(** Whatever rules were added and removed, an order goes to the broker of the first
    rule that matches, and no matching rule has a higher priority than that one;
    without a matching rule it goes to the default broker.  Where a rule added
    later stands is [add_rule_place]. *)
Theorem route_by_priority default_broker rules ops o :
  let t := router_run ops (new_router default_broker rules) in
  (exists r p q, rt_rules t = p ++ r :: q /\ matches r o = true /\
     route o t = MkRouting true (Some (rr_broker r)) (Some (rr_name r)) None /\
     Forall (fun r' => matches r' o = false) p /\
     Forall (fun r' => matches r' o = true -> rr_priority r' <= rr_priority r) (rt_rules t)) \/
  Forall (fun r => matches r o = false) (rt_rules t) /\
  route o t = MkRouting true (Some (rt_default t)) (Some "default"%string) None.
Proof.
  intros t. assert (router_ok t) as Ht by apply router_run_ok, sort_rules_sorted.
  unfold route. destruct (List.find _ _) as [r|] eqn:E; [left|right; split; [|done]].
  - apply find_first in E as (p & q & El & Hr & Hp). exists r, p, q. split_and!; [done..|].
    unfold router_ok in Ht. rewrite El in Ht |- *. apply Forall_app. split.
    + eapply Forall_impl; [exact Hp|]. cbn. congruence.
    + assert (StronglySorted by_priority (p ++ r :: q)) as Hs.
      { apply Sorted_StronglySorted; [intros a b c; unfold by_priority; lia|done]. }
      clear -Hs. induction p as [|y p IH]; [|by apply StronglySorted_inv in Hs as [Hs _]; apply IH].
      apply StronglySorted_inv in Hs as [_ Hq]. constructor; [done|].
      eapply Forall_impl; [exact Hq|]. unfold by_priority. auto.
  - apply Forall_forall. intros r Hr. apply (find_none _ _ E). by apply list_elem_of_In.
Qed.

(** ** Concrete runs *)

Definition sized_order (sym : string) (q : dec) : Order :=
  new_order 0 "o" "c" "i" sym "buy" MARKET q "b".

Definition plain_rule (name broker : string) (priority : Z) : RoutingRule :=
  MkRule name broker priority None None None None None true.

(** A rule for an asset class matches orders of every class. *)
Example asset_class_is_not_tested :
  let r := MkRule "fx" "oanda" 5 None None (Some "forex") None None true in
  ro_broker (route (sized_order "AAPL" (Dec 1 0)) (new_router "ib" [r])) = Some "oanda"%string.
Proof. reflexivity. Qed.

(** A rule with a maximum of zero matches every size. *)
Example zero_maximum_matches :
  let r := MkRule "none" "x" 5 None None None None (Some dzero) true in
  ro_broker (route (sized_order "AAPL" (Dec 100 0)) (new_router "ib" [r])) = Some "x"%string.
Proof. reflexivity. Qed.

Example route_ex :
  let t := router_run [AddRule (plain_rule "a" "A" 1); AddRule (plain_rule "b" "B" 2);
                       AddRule (plain_rule "c" "C" 2); RemoveRule "b"]%string (new_router "d" []) in
  ro_broker (route (sized_order "AAPL" (Dec 1 0)) t) = Some "C"%string /\
  get_brokers t = ["A"; "C"; "d"]%string.
Proof. split; vm_compute; reflexivity. Qed.
