(* ===== verification/SmartRouter.v ===== *)
(** * Smart order routing: [packages/agent/execution/smart_order_router.py]

    [SmartOrderRouter]: the cost of a venue, the best single venue, the split of an
    order over venues by marginal cost, live liquidity and the dispatch of the parts.

    Costs and notionals are binary64 floats.  The loop of the split has fuel, see
    [split_fuel].  Quotes and submissions are functions of a state [S] of their own. *)
From Stdlib Require Import SpecFloat.
From Stdlib Require Import Ascii String.
From S2P Require Import Prelude PyDecimal DecArith PyFormat PyFloat PyValue PyText FloatInt.
Open Scope Z_scope.
Open Scope list_scope.

Definition float_lit (c e : Z) : pyfloat := float_of_dec (Dec c e).

Record VenueQuote := MkQuote {
  q_bid : pyfloat;
  q_ask : pyfloat;
  q_bid_size : pyfloat;
  q_ask_size : pyfloat
}.

Record Venue := MkVenue {
  v_name : string;
  v_fee_bps : pyfloat;
  v_latency_ms : pyfloat;
  v_liquidity : pyfloat;
  v_impact_coef : pyfloat;
  v_latency_penalty : pyfloat;
  v_min_notional : pyfloat;
  v_enabled : bool;
  v_quote : option VenueQuote;
  v_spread_bps : pyfloat
}.

(** A venue of the class's defaults. *)
Definition default_venue (name : string) : Venue :=
  MkVenue name (float_lit 1 0) (float_lit 50 0) (float_lit 1 7) (float_lit 1 (-1)) (float_lit 2 (-1)) fzero true
    None fzero.

Definition with_market (quote : VenueQuote) (liquidity spread : pyfloat) (v : Venue) : Venue :=
  MkVenue (v_name v) (v_fee_bps v) (v_latency_ms v) liquidity (v_impact_coef v) (v_latency_penalty v)
    (v_min_notional v) (v_enabled v) (Some quote) spread.

Definition float_2 : pyfloat := float_lit 2 0.
Definition float_1e4 : pyfloat := float_lit 1 4.
Definition float_1e_9 : pyfloat := float_lit 1 (-9).

Definition update_from_quote (q : VenueQuote) (side : string) (v : Venue) : Venue :=
  let bid := q_bid q in
  let ask := q_ask q in
  let mid := if fltb fzero bid && fltb fzero ask then fdiv (fadd bid ask) float_2 else fmax bid ask in
  let spread :=
    if fltb fzero mid && (fltb bid ask && fltb fzero bid) then
      fdiv (fmul (fdiv (fsub ask bid) mid) float_1e4) float_2
    else v_spread_bps v in
  let liquidity :=
    if bool_decide (str_upper side = "BUY"%string) && fltb fzero ask then fmax (fmul (q_ask_size q) ask) float_1e_9
    else if bool_decide (str_upper side = "SELL"%string) && fltb fzero bid then
      fmax (fmul (q_bid_size q) bid) float_1e_9
    else v_liquidity v in
  with_market q liquidity spread v.

(** [math.sqrt] of a number that is not negative. *)
Definition fsqrt : pyfloat -> pyfloat := SFsqrt fprec femax.

Definition marginal_cost_bps (v : Venue) (filled add : pyfloat) : pyfloat :=
  let liq := fmax (v_liquidity v) float_1e_9 in
  let part0 := fdiv filled liq in
  let part1 := fdiv (fadd filled add) liq in
  let impact :=
    fmul (fmul (v_impact_coef v)
            (fdiv (fadd (fsqrt (fmax part1 fzero)) (fsqrt (fmax part0 fzero))) float_2)) float_1e4 in
  let latency := fmul (v_latency_penalty v) (fdiv (v_latency_ms v) (float_lit 100 0)) in
  fadd (fadd (fadd (v_fee_bps v) (v_spread_bps v)) impact) latency.

Record Allocation := MkAllocation {
  al_venue : string;
  al_notional : pyfloat;
  al_cost_bps : pyfloat;
  al_cost : pyfloat
}.

Record RouteResult := MkRoute {
  rs_symbol : string;
  rs_side : string;
  rs_notional : pyfloat;
  rs_allocations : list Allocation;
  rs_cost : pyfloat;
  rs_cost_bps : pyfloat
}.

Record SmartOrderRouter := MkSor {
  sor_venues : list Venue;
  sor_steps : Z
}.

Definition new_sor (venues : list Venue) (n_steps : Z) : SmartOrderRouter :=
  MkSor (List.filter v_enabled venues) n_steps.

(** [min(l, key=...)]: the first of the smallest. *)
Definition min_by {A} (key : A -> pyfloat) (x : A) (l : list A) : A :=
  fold_left (fun b y => if fltb (key y) (key b) then y else b) l x.

Definition best_venue (notional : pyfloat) (s : SmartOrderRouter) : option Venue :=
  match List.filter (fun v => fleb (v_min_notional v) notional && fltb fzero (v_liquidity v)) (sor_venues s) with
  | [] => None
  | v :: r => Some (min_by (fun v => marginal_cost_bps v fzero notional) v r)
  end.

(** ** Splitting an order *)

Definition route_result (symbol side : string) (notional : pyfloat) (allocs : list Allocation) : RouteResult :=
  let cost := fold_left (fun s a => fadd s (al_cost a)) allocs fzero in
  MkRoute symbol side notional allocs cost
    (if fltb fzero notional then fmul (fdiv cost notional) float_1e4 else fzero).

Definition allocation (v : Venue) (name : string) (notional : pyfloat) : Allocation :=
  let bps := marginal_cost_bps v fzero notional in
  MkAllocation name notional bps (fdiv (fmul notional bps) float_1e4).

Abbreviation fills := (list (string * pyfloat)).

Definition filled_at (filled : fills) (name : string) : pyfloat := default fzero (dget filled name).

(** The loop of the split; [None] is no fuel left. *)
Fixpoint split_loop (fuel : nat) (first : Venue) (others : list Venue) (step remaining : pyfloat) (filled : fills) :
    option fills :=
  if fltb float_1e_9 remaining then
    match fuel with
    | O => None
    | S k =>
        let chunk := fmin step remaining in
        let best := min_by (fun v => marginal_cost_bps v (filled_at filled (v_name v)) chunk) first others in
        split_loop k first others step (fsub remaining chunk)
          (dset filled (v_name best) (fadd (filled_at filled (v_name best)) chunk))
    end
  else Some filled.

(** One more round than there are steps, and some for the rounding of the steps. *)
Definition split_fuel (n_steps : Z) : nat := (Z.to_nat n_steps + 10)%nat.

(** [allocs.sort(key=lambda a: -a.notional)] *)
Fixpoint insert_alloc (a : Allocation) (l : list Allocation) : list Allocation :=
  match l with
  | [] => [a]
  | b :: r => if fltb (SFopp (al_notional a)) (SFopp (al_notional b)) then a :: l else b :: insert_alloc a r
  end.

Definition sort_allocs (l : list Allocation) : list Allocation := fold_left (fun acc a => insert_alloc a acc) l [].

Definition empty_fills (usable : list Venue) : fills :=
  fold_left (fun d v => dset d (v_name v) fzero) usable [].

Definition venue_map (usable : list Venue) : list (string * Venue) :=
  fold_left (fun d v => dset d (v_name v) v) usable [].

(** The allocations of the filled notionals; every name is one of a venue. *)
Definition allocations_of (usable : list Venue) (filled : fills) : list Allocation :=
  sort_allocs
    (omap (fun nf => if fleb nf.2 float_1e_9 then None
                     else v ← dget (venue_map usable) nf.1; Some (allocation v nf.1 nf.2)) filled).

Definition usable_venues (notional : pyfloat) (s : SmartOrderRouter) : list Venue :=
  List.filter (fun v => fleb (v_min_notional v) notional && fltb fzero (v_liquidity v)) (sor_venues s).

Definition step_of (notional : pyfloat) (s : SmartOrderRouter) : pyfloat :=
  if 0 <? sor_steps s then fdiv notional (float_of_int (sor_steps s)) else notional.

(** [route]; [None] is no fuel left. *)
Definition route (symbol side : string) (notional : pyfloat) (split : bool) (s : SmartOrderRouter) :
    option RouteResult :=
  match usable_venues notional s with
  | [] => Some (route_result symbol side notional [])
  | first :: others =>
      if fleb notional fzero then Some (route_result symbol side notional [])
      else if negb split || bool_decide (others = []) then
        let v := min_by (fun v => marginal_cost_bps v fzero notional) first others in
        Some (route_result symbol side notional [allocation v (v_name v) notional])
      else
        filled ← split_loop (split_fuel (sor_steps s)) first others (step_of notional s) notional
                   (empty_fills (first :: others));
        Some (route_result symbol side notional (allocations_of (first :: others) filled))
  end.

(** ** Live liquidity and dispatch *)

Section Live.
Context {S : Type}.

(** [refresh_liquidity]; a provider that raises gives no quote. *)
Definition refresh_venue (get_quote : S -> string -> string -> S * pyres unit (option VenueQuote))
    (symbol side : string) (acc : S * list Venue * Z) (v : Venue) : S * list Venue * Z :=
  let '(st, vs, n) := acc in
  let '(st, r) := get_quote st (v_name v) symbol in
  match r with
  | Ok (Some q) =>
      let v := update_from_quote q side v in
      (st, vs ++ [v], if fltb fzero (v_liquidity v) then n + 1 else n)
  | _ => (st, vs ++ [v], n)
  end.

Definition refresh_liquidity (get_quote : S -> string -> string -> S * pyres unit (option VenueQuote))
    (symbol side : string) (st : S) (s : SmartOrderRouter) : S * SmartOrderRouter * Z :=
  let '(st, vs, n) := fold_left (refresh_venue get_quote symbol side) (sor_venues s) (st, [], 0) in
  (st, MkSor vs (sor_steps s), n).

Definition route_live (get_quote : S -> string -> string -> S * pyres unit (option VenueQuote))
    (symbol side : string) (notional : pyfloat) (split : bool) (st : S) (s : SmartOrderRouter) :
    S * SmartOrderRouter * option RouteResult :=
  let '(st, s, _) := refresh_liquidity get_quote symbol side st s in
  (st, s, route symbol side notional split s).

Record Dispatch := MkDispatch {
  di_venue : string;
  di_notional : pyfloat;
  di_success : bool
}.

(** [dispatch]: every part is submitted, whether or not those before it succeeded. *)
Definition dispatch_one (submit : S -> string -> string -> string -> pyfloat -> S * pyres unit bool)
    (r : RouteResult) (acc : S * list Dispatch) (a : Allocation) : S * list Dispatch :=
  let '(st, res) := submit acc.1 (al_venue a) (rs_symbol r) (rs_side r) (al_notional a) in
  (st, acc.2 ++ [MkDispatch (al_venue a) (al_notional a) (match res with Ok b => b | Raise _ => false end)]).

Definition dispatch (submit : S -> string -> string -> string -> pyfloat -> S * pyres unit bool)
    (r : RouteResult) (st : S) : S * list Dispatch :=
  fold_left (dispatch_one submit r) (rs_allocations r) (st, []).

(** [all_ok] *)
Definition all_ok (ds : list Dispatch) : bool := forallb di_success ds && negb (bool_decide (ds = [])).
End Live.

(** ** A split of whole numbers is exact *)

Section Whole.
Abbreviation ints := (list (string * Z)).

Definition floats_of (zs : ints) : fills := map (fun nz => (nz.1, float_of_int nz.2)) zs.
Definition total (zs : ints) : Z := fold_right (fun nz s => nz.2 + s) 0 zs.

Lemma dget_floats zs name : dget (floats_of zs) name = float_of_int <$> dget zs name.
Proof. induction zs as [|[n z] zs IH]; cbn; [done|]. by destruct (decide (name = n)). Qed.

Lemma dset_floats zs name z : dset (floats_of zs) name (float_of_int z) = floats_of (dset zs name z).
Proof. induction zs as [|[n y] zs IH]; cbn; [done|]. destruct (decide (name = n)); cbn; f_equal. apply IH. Qed.

Lemma total_cons n z zs : total ((n, z) :: zs) = z + total zs.
Proof. done. Qed.

Lemma total_snoc zs n z : total (zs ++ [(n, z)]) = total zs + z.
Proof. induction zs as [|[m y] zs IH]; cbn [app]; rewrite ?total_cons; [cbn; lia|]. rewrite IH. lia. Qed.

Lemma total_dset zs name z : is_Some (dget zs name) -> total (dset zs name z) = total zs - default 0 (dget zs name) + z.
Proof.
  induction zs as [|[n y] zs IH]; cbn [dget dset]; [by intros []|].
  destruct (decide (name = n)); rewrite !total_cons; cbn [default]; [intros _; cbn; lia|].
  intros Hs. rewrite IH by done. lia.
Qed.

Lemma at_most_total zs name : Forall (fun nz => 0 <= nz.2) zs -> 0 <= default 0 (dget zs name) <= total zs.
Proof.
  induction 1 as [|[n y] zs Hy Hs IH]; cbn [dget]; [done|]. cbn in Hy. rewrite total_cons.
  destruct (decide (name = n)); cbn [default]; [|lia]. cbn. destruct (dget zs name); cbn in IH; lia.
Qed.

Lemma min_by_elem {A} (key : A -> pyfloat) x l : min_by key x l ∈ x :: l.
Proof.
  unfold min_by. revert x. induction l as [|y l IH]; intros x; cbn; [by left|].
  specialize (IH (if fltb (key y) (key x) then y else x)).
  revert IH. rewrite !elem_of_cons. destruct (fltb _ _); tauto.
Qed.

Lemma above_threshold m : 0 <= m -> small m -> fltb float_1e_9 (float_of_int m) = bool_decide (0 < m).
Proof.
  intros Hm Hs. case_bool_decide as Hp.
  - apply (fltb_fleb_trans float_1e_9 (float_of_int 1) (float_of_int m));
      [done|done|by apply is_num_int|by vm_compute|]. rewrite fleb_int; [lia|done|done].
  - replace m with 0 by lia. by vm_compute.
Qed.

(** The loop hands out every step: it ends within as many rounds, and what it has
    filled is what there was before and the rest. *)
Lemma split_loop_whole first others k j fuel zs :
  0 < k -> (j <= fuel)%nat -> small (total zs + k * Z.of_nat j) ->
  Forall (fun nz => 0 <= nz.2) zs -> (forall v, v ∈ first :: others -> is_Some (dget zs (v_name v))) ->
  exists zs', split_loop fuel first others (float_of_int k) (float_of_int (k * Z.of_nat j)) (floats_of zs)
    = Some (floats_of zs') /\ total zs' = total zs + k * Z.of_nat j /\ Forall (fun nz => 0 <= nz.2) zs' /\
    zs'.*1 = zs.*1.
Proof.
  intros Hk. revert fuel zs. induction j as [|j IH]; intros fuel zs Hf Hs Hz Hv.
  - exists zs. split_and!; [|lia|done|done].
    replace (k * Z.of_nat 0) with 0 by lia. destruct fuel; [done|].
    cbn [split_loop]. by rewrite above_threshold by (done || unfold small; lia).
  - assert (0 <= total zs) as Ht by (pose proof (at_most_total zs "" Hz); lia).
    assert (0 < k * Z.of_nat (S j) <= total zs + k * Z.of_nat (S j)) as Hb by nia.
    assert (small k /\ small (k * Z.of_nat (S j)) /\ small (k * Z.of_nat j)) as (Sk & Sj & Sr)
      by (unfold small in *; nia).
    destruct fuel as [|fuel]; [lia|]. cbn [split_loop].
    rewrite above_threshold by (done || lia). rewrite bool_decide_eq_true_2 by lia.
    rewrite fmin_int, (Z.min_l k) by (done || nia).
    set (best := min_by _ _ _). assert (best ∈ first :: others) as Hbest by apply min_by_elem.
    specialize (Hv best Hbest) as Hbs. pose proof (at_most_total zs (v_name best) Hz) as Hm.
    unfold filled_at. rewrite dget_floats.
    replace (default fzero (float_of_int <$> dget zs (v_name best))) with (float_of_int (default 0 (dget zs (v_name best))))
      by (destruct Hbs as [z ->]; done).
    rewrite fadd_int, dset_floats, fsub_int by (done || unfold small in *; lia).
    replace (k * Z.of_nat (S j) - k) with (k * Z.of_nat j) by lia.
    set (zs1 := dset zs (v_name best) _). assert (total zs1 = total zs + k) as Ht1 by (unfold zs1; rewrite total_dset by done; lia).
    destruct (IH fuel zs1) as (zs' & E & Et & Hz' & Hk').
    + lia.
    + rewrite Ht1. replace (total zs + k + k * Z.of_nat j) with (total zs + k * Z.of_nat (S j)) by lia. done.
    + apply Forall_forall. intros nz Hin. apply elem_dset in Hin as [->|Hin]; [cbn; lia|].
      rewrite Forall_forall in Hz. by apply Hz.
    + intros v Hin. apply dget_is_Some. unfold zs1. rewrite dset_keys_present by done. by apply dget_is_Some, Hv.
    + exists zs'. split_and!; [done|lia|done|]. rewrite Hk'. unfold zs1. by apply dset_keys_present.
Qed.

Lemma insert_alloc_perm a l : insert_alloc a l ≡ₚ a :: l.
Proof.
  induction l as [|b l IH]; cbn; [done|]. destruct (fltb _ _); [done|]. rewrite IH. apply Permutation_swap.
Qed.

Lemma sort_allocs_perm l : sort_allocs l ≡ₚ l.
Proof.
  unfold sort_allocs. cut (forall acc, fold_left (fun acc a => insert_alloc a acc) l acc ≡ₚ acc ++ l); [by intros ->|].
  induction l as [|a l IH]; intros acc; cbn; [by rewrite app_nil_r|].
  rewrite IH, insert_alloc_perm. cbn. by rewrite Permutation_middle.
Qed.

(** Setting a fresh name or one that is there, over a list of venues. *)
Lemma empty_fills_spec usable :
  exists zs, empty_fills usable = floats_of zs /\ total zs = 0 /\ Forall (fun nz => 0 <= nz.2) zs /\
    (forall v, v ∈ usable -> is_Some (dget zs (v_name v))) /\ Forall (fun n => n ∈ map v_name usable) zs.*1.
Proof.
  unfold empty_fills. induction usable as [|v usable IH] using rev_ind.
  - exists []. split_and!; try done. intros v Hv. by apply elem_of_nil in Hv.
  - destruct IH as (zs & E & Ht & Hz & Hv & Hn). rewrite fold_left_app, E. cbn.
    exists (dset zs (v_name v) 0). rewrite <- dset_floats. split_and!; [done| | | |].
    + pose proof (at_most_total zs (v_name v) Hz) as Hm. destruct (dget zs (v_name v)) as [z|] eqn:Ed.
      * rewrite total_dset, Ed by (by rewrite Ed). cbn [default] in Hm |- *. lia.
      * rewrite dset_fresh, total_snoc by done. lia.
    + apply Forall_forall. intros nz Hin. apply elem_dset in Hin as [->|Hin]; [done|].
      rewrite Forall_forall in Hz. by apply Hz.
    + intros v' Hin. apply dget_is_Some. apply elem_keys_dset. apply elem_of_app in Hin as [Hin|Hin].
      * right. by apply dget_is_Some, Hv.
      * left. apply list_elem_of_singleton in Hin. by subst.
    + apply Forall_forall. intros n Hin. rewrite map_app. apply elem_of_app. apply elem_keys_dset in Hin as [->|Hin].
      * right. by left.
      * left. rewrite Forall_forall in Hn. by apply Hn.
Qed.

Lemma venue_map_some usable name : name ∈ map v_name usable -> is_Some (dget (venue_map usable) name).
Proof.
  unfold venue_map. induction usable as [|v usable IH] using rev_ind; [by intros ?%elem_of_nil|].
  rewrite map_app, fold_left_app. cbn. intros Hin. apply dget_is_Some, elem_keys_dset.
  apply elem_of_app in Hin as [Hin|Hin]; [right; by apply dget_is_Some, IH|left].
  by apply list_elem_of_singleton in Hin.
Qed.

Lemma part_of_total zs nz : (forall p, p ∈ zs -> 0 <= p.2) -> nz ∈ zs -> 0 <= nz.2 <= total zs.
Proof.
  induction zs as [|[m y] zs IH]; intros Hz Hin; [by apply elem_of_nil in Hin|].
  rewrite total_cons. pose proof (Hz (m, y) ltac:(left)) as Hy. cbn in Hy.
  assert (0 <= total zs) as Ht.
  { destruct (at_most_total zs "") as [? ?]; [|lia]. apply Forall_forall. intros p Hp. apply Hz. by right. }
  apply elem_of_cons in Hin as [->|Hin]; [cbn; lia|].
  destruct (IH (fun p Hp => Hz p (list_elem_of_further p _ zs Hp)) Hin). lia.
Qed.

Lemma total_positive zs : Forall (fun nz => 0 <= nz.2) zs -> total (List.filter (fun nz => 0 <? nz.2) zs) = total zs.
Proof.
  induction 1 as [|[m y] zs Hy _ IH]; [done|]. cbn [List.filter fst snd] in *. rewrite total_cons.
  destruct (Z.ltb_spec 0 y); rewrite ?total_cons; lia.
Qed.

(** The positive fills, as allocations. *)
Lemma allocations_whole usable zs :
  Forall (fun nz => 0 <= nz.2 /\ small nz.2 /\ nz.1 ∈ map v_name usable) zs ->
  map (fun a => (al_venue a, al_notional a)) (allocations_of usable (floats_of zs))
    ≡ₚ floats_of (List.filter (fun nz => 0 <? nz.2) zs).
Proof.
  intros Hz. unfold allocations_of. rewrite sort_allocs_perm.
  induction Hz as [|[n z] zs (H0 & Hs & Hn) _ IH]; [done|]. cbn [fst snd] in *.
  cbn [floats_of map omap list_omap List.filter fst snd].
  assert (fleb (float_of_int z) float_1e_9 = negb (0 <? z)) as ->.
  { rewrite fleb_num, is_num_int by done. cbn [andb].
    rewrite above_threshold by done. f_equal.
    destruct (Z.ltb_spec 0 z); [by rewrite bool_decide_eq_true_2|rewrite bool_decide_eq_false_2; [done|lia]]. }
  destruct (0 <? z); cbn [negb]; [|exact IH].
  destruct (venue_map_some usable n Hn) as [v ->]. cbn. by constructor.
Qed.

(** Splitting a whole notional in whole steps: the split ends, its parts are positive,
    each at a usable venue, and add up to the notional exactly. *)
Theorem split_conserves_notional symbol side s k :
  let n := sor_steps s in
  let notional := float_of_int (k * n) in
  let usable := usable_venues notional s in
  0 < k -> 0 < n -> small (k * n) -> fdiv notional (float_of_int n) = float_of_int k ->
  (1 < List.length usable)%nat ->
  exists r parts, route symbol side notional true s = Some r /\
    map (fun a => (al_venue a, al_notional a)) (rs_allocations r) ≡ₚ floats_of parts /\
    Forall (fun nz => 0 < nz.2 /\ nz.1 ∈ map v_name usable) parts /\ total parts = k * n.
Proof.
  intros n notional usable Hk Hn Hs Hd Hl. unfold route. fold usable.
  destruct usable as [|first others] eqn:Eu; [cbn in Hl; lia|]. fold usable in Eu.
  assert (fleb notional fzero = false) as ->.
  { unfold notional. change fzero with (float_of_int 0). rewrite fleb_int; [nia|done|done]. }
  rewrite bool_decide_eq_false_2 by (intros ->; cbn in Hl; lia). cbn [negb orb].
  unfold step_of. fold n. rewrite (proj2 (Z.ltb_lt 0 n)), Hd by done.
  destruct (empty_fills_spec (first :: others)) as (zs & -> & Ht & Hz & Hv & Hname).
  destruct (split_loop_whole first others k (Z.to_nat n) (split_fuel n) zs) as (zs' & E & Et & Hz' & Hk');
    [done|unfold split_fuel; lia|rewrite Ht, Z2Nat.id by lia; done|done|done|].
  rewrite Z2Nat.id in E, Et by lia. fold notional in E. rewrite E. cbn [mbind option_bind].
  eexists _, (List.filter (fun nz => 0 <? nz.2) zs'). split; [reflexivity|]. split_and!.
  - apply allocations_whole. apply Forall_forall. intros nz Hin. rewrite Forall_forall in Hz'. rewrite Forall_forall in Hname.
    split_and!; [by apply Hz'| |].
    + pose proof (part_of_total zs' nz Hz' Hin). unfold small in *. lia.
    + apply Hname. rewrite <- Hk'. by apply list_elem_of_fmap_2.
  - apply Forall_forall. intros nz Hin. apply list_elem_of_In, filter_In in Hin as [Hin Hp].
    apply list_elem_of_In in Hin. rewrite Forall_forall in Hname.
    split; [lia|]. apply Hname. rewrite <- Hk'. by apply list_elem_of_fmap_2.
  - rewrite total_positive by done. rewrite Et, Ht. lia.
Qed.
End Whole.

(** ** Concrete runs *)

Definition two_venues : SmartOrderRouter := new_sor [default_venue "A"; default_venue "B"]%string 50.

Lemma split_conserves_notional_witness :
  fdiv (float_of_int (2 * 50)) (float_of_int 50) = float_of_int 2 /\
  exists r parts, route "AAPL" "BUY" (float_of_int 100) true two_venues = Some r /\
    map (fun a => (al_venue a, al_notional a)) (rs_allocations r) ≡ₚ floats_of parts /\ total parts = 100.
Proof.
  assert (fdiv (float_of_int (2 * 50)) (float_of_int 50) = float_of_int 2) as Hd by (vm_compute; reflexivity).
  split; [exact Hd|].
  destruct (split_conserves_notional "AAPL" "BUY" two_venues 2) as (r & parts & Hr & Hp & _ & Ht).
  - done.
  - done.
  - unfold small. cbn. lia.
  - exact Hd.
  - vm_compute. lia.
  - exists r, parts. split; [exact Hr|]. split; [exact Hp|exact Ht].
Defined.

Example sor_split_ex :
  (fun r => map (fun a => (al_venue a, al_notional a)) (rs_allocations r)) <$>
    route "AAPL" "BUY" (float_of_int 100) true two_venues
  = Some [("A", float_of_int 50); ("B", float_of_int 50)]%string.
Proof. vm_compute. reflexivity. Qed.

(** A venue of which there is no quote keeps its liquidity and takes part in the split. *)
Example quoteless_venue_stays :
  let quote (st : unit) (v sym : string) : unit * pyres unit (option VenueQuote) :=
    (st, if bool_decide (v = "A"%string)
         then Ok (Some (MkQuote (float_lit 99 0) (float_lit 101 0) (float_lit 1 0) (float_lit 1 0)))
         else Raise tt) in
  let '(_, s, r) := route_live quote "AAPL" "BUY" (float_of_int 100) true tt two_venues in
  map v_liquidity (sor_venues s) = [float_lit 101 0; float_lit 1 7] /\
  (fun r => map al_venue (rs_allocations r)) <$> r = Some ["B"%string].
Proof. vm_compute. split; reflexivity. Qed.

(** A venue that shows no size is counted as usable: its liquidity is set to a
    billionth. *)
Example empty_venue_counts :
  let quote (st : unit) (v sym : string) : unit * pyres unit (option VenueQuote) :=
    (st, Ok (Some (MkQuote (float_lit 99 0) (float_lit 101 0) fzero fzero))) in
  (refresh_liquidity quote "AAPL" "BUY" tt two_venues).2 = 2.
Proof. vm_compute. reflexivity. Qed.
