(* ===== verification/BrokerProtocol.v ===== *)
(** * The interface of a broker: [packages/agent/broker/protocol.py]

    The data classes and the operations of [BrokerConnector] the agent calls, as a
    record of functions of a state: a connector is any such record.  [Raise] is any
    exception.  Side, status and type of an order are the members of the same names;
    the fields nothing sets or reads (context, raw responses, error codes, time
    stamps of results) are left out. *)
From Stdlib Require Import Ascii String.
From S2P Require Import Prelude PyDecimal DecArith PyFloat PyValue.
From S2P Require Import Engine.
Open Scope Z_scope.
Open Scope list_scope.

Inductive BkSide := BK_BUY | BK_SELL.
Inductive BkOrderType := BK_MARKET | BK_LIMIT | BK_STOP | BK_STOP_LIMIT | BK_TRAILING_STOP.
Inductive TimeInForce := TIF_GTC | TIF_DAY | TIF_IOC | TIF_FOK | TIF_GTD | TIF_OPG | TIF_CLS.
Inductive PositionSide := POS_LONG | POS_SHORT | POS_FLAT.

#[export] Instance BkSide_eq_dec : EqDecision BkSide.
Proof. solve_decision. Defined.
#[export] Instance BkOrderType_eq_dec : EqDecision BkOrderType.
Proof. solve_decision. Defined.
#[export] Instance TimeInForce_eq_dec : EqDecision TimeInForce.
Proof. solve_decision. Defined.

Record OrderRequest := MkRequest {
  rq_client_order_id : string;
  rq_symbol : string;
  rq_side : BkSide;
  rq_type : BkOrderType;
  rq_quantity : dec;
  rq_limit_price : option dec;
  rq_stop_price : option dec;
  rq_tif : TimeInForce;
  rq_strategy_id : option string
}.

Record OrderResult := MkOrderResult {
  or_success : bool;
  or_client_order_id : string;
  or_broker_order_id : option string;
  or_status : OrderStatus;
  or_filled : dec;
  or_avg_price : option dec;
  or_commission : dec;
  or_error : option string
}.

(** A result with the defaults of the class. *)
Definition plain_result (ok : bool) (coid : string) (boid err : option string) : OrderResult :=
  MkOrderResult ok coid boid PENDING dzero None dzero err.

Record OrderInfo := MkOrderInfo {
  oi_client_order_id : string;
  oi_broker_order_id : option string;
  oi_symbol : string;
  oi_side : BkSide;
  oi_type : BkOrderType;
  oi_quantity : dec;
  oi_filled : dec;
  oi_limit_price : option dec;
  oi_stop_price : option dec;
  oi_avg_price : option dec;
  oi_status : OrderStatus;
  oi_tif : TimeInForce;
  oi_commission : dec;
  oi_created_at : option Z;
  oi_updated_at : option Z;
  oi_filled_at : option Z
}.

Record BrokerPosition := MkBrokerPosition {
  bp_symbol : string;
  bp_side : PositionSide;
  bp_quantity : dec;
  bp_avg_entry : dec;
  bp_current_price : option dec;
  bp_market_value : option dec;
  bp_cost_basis : option dec
}.

Record AccountInfo := MkAccount {
  ac_account_id : string;
  ac_equity : dec;
  ac_cash : dec;
  ac_buying_power : dec
}.

Record CancelResult := MkCancelResult {
  cr_success : bool;
  cr_client_order_id : string;
  cr_broker_order_id : option string;
  cr_error : option string;
  cr_cancelled_at : option Z
}.

Record BulkCancelResult := MkBulkCancel {
  bc_requested : Z;
  bc_cancelled : Z;
  bc_failed : Z;
  bc_results : list CancelResult;
  bc_errors : list string
}.

(** The top of an order book, which some connectors give; a size may be missing. *)
Record BookTop := MkTop {
  bt_bid : pyfloat;
  bt_ask : pyfloat;
  bt_bid_size : option pyfloat;
  bt_ask_size : option pyfloat
}.

Record Connector (C : Type) := MkConnector {
  cn_name : string;
  cn_connected : C -> bool;
  cn_submit : C -> OrderRequest -> C * pyres string OrderResult;
  cn_cancel : C -> string -> option string -> C * pyres string CancelResult;
  cn_cancel_all : C -> C * pyres string BulkCancelResult;
  cn_replace : option (C -> string -> option dec -> option dec -> C * pyres string OrderResult);
  cn_order : C -> string -> C * pyres unit (option OrderInfo);
  cn_open_orders : C -> C * pyres string (list OrderInfo);
  cn_positions : C -> C * pyres string (list BrokerPosition);
  cn_close_all : C -> C * pyres string (list OrderResult);
  cn_last_price : C -> string -> C * pyres unit (option dec);
  cn_book : option (C -> string -> C * pyres unit (option BookTop))
}.
Arguments MkConnector {C}.
Arguments cn_name {C}.
Arguments cn_connected {C}.
Arguments cn_submit {C}.
Arguments cn_cancel {C}.
Arguments cn_cancel_all {C}.
Arguments cn_replace {C}.
Arguments cn_order {C}.
Arguments cn_open_orders {C}.
Arguments cn_positions {C}.
Arguments cn_close_all {C}.
Arguments cn_last_price {C}.
Arguments cn_book {C}.
