(* ===== verification/SimBroker.v ===== *)
(** * The paper broker: [packages/agent/broker/adapters/sim.py]

    [SimBrokerConnector]: a broker in the process that fills orders at the last price,
    in part when its fill ratio is below one, and keeps orders, positions, average
    costs and cash.  [sim_connector] is the broker as a connector of [BrokerProtocol].

    Floats are given by their values; a price, ratio or cash that has no finite decimal
    is outside the model ([None]).  [Raise] carries the text of the exception; the only
    one of [submit_order] is the [InvalidOperation] of [quantize], which comes after the
    sequence number was drawn. *)
From Stdlib Require Import SpecFloat.
From Stdlib Require Import Ascii String.
From S2P Require Import Prelude PyDecimal DecArith Allocation PyFormat PyFloat PyValue PyJson PyText PyRepr Config.
From S2P Require Import Engine BrokerProtocol.
Open Scope Z_scope.
Open Scope list_scope.

Record SimBroker := MkSim {
  sb_name : string;
  sb_prices : list (string * dec);
  sb_equity : dec;
  sb_cash : dec;
  sb_ratio : dec;
  sb_bps : dec;
  sb_connected : bool;
  sb_positions : list (string * dec);
  sb_costs : list (string * dec);
  sb_orders : list (string * OrderInfo);
  sb_seq : Z
}.

(** [Decimal(str(x))] *)
Definition sim_dec (x : pyfloat) : option dec := dec_of_val (VFloat x).

(** [max(0.0, min(1.0, fill_ratio))] *)
Definition clamp_ratio (r : pyfloat) : pyfloat :=
  let one := float_of_int 1 in
  let m := if fltb r one then r else one in
  if fltb fzero m then m else fzero.

Definition new_sim (name : string) (prices : list (string * pyfloat)) (equity ratio bps : pyfloat) :
    option SimBroker :=
  ps ← mapM (fun kv => x ← sim_dec kv.2; Some (kv.1, x)) prices;
  eq ← sim_dec equity;
  r ← sim_dec (clamp_ratio ratio);
  b ← sim_dec bps;
  Some (MkSim name (fold_left (fun d kv => dset d kv.1 kv.2) ps []) eq eq r b true [] [] [] 0).

Implicit Types s : SimBroker.

Definition with_prices (p : list (string * dec)) s : SimBroker :=
  MkSim (sb_name s) p (sb_equity s) (sb_cash s) (sb_ratio s) (sb_bps s) (sb_connected s) (sb_positions s) (sb_costs s)
    (sb_orders s) (sb_seq s).
Definition with_connected (b : bool) s : SimBroker :=
  MkSim (sb_name s) (sb_prices s) (sb_equity s) (sb_cash s) (sb_ratio s) (sb_bps s) b (sb_positions s) (sb_costs s)
    (sb_orders s) (sb_seq s).
Definition with_orders (o : list (string * OrderInfo)) s : SimBroker :=
  MkSim (sb_name s) (sb_prices s) (sb_equity s) (sb_cash s) (sb_ratio s) (sb_bps s) (sb_connected s) (sb_positions s)
    (sb_costs s) o (sb_seq s).
Definition with_seq (n : Z) s : SimBroker :=
  MkSim (sb_name s) (sb_prices s) (sb_equity s) (sb_cash s) (sb_ratio s) (sb_bps s) (sb_connected s) (sb_positions s)
    (sb_costs s) (sb_orders s) n.
Definition with_account (cash : dec) (positions costs : list (string * dec)) s : SimBroker :=
  MkSim (sb_name s) (sb_prices s) (sb_equity s) cash (sb_ratio s) (sb_bps s) (sb_connected s) positions costs
    (sb_orders s) (sb_seq s).

(** ** Market data and connection *)

Definition set_price (sym : string) (px : pyfloat) s : option SimBroker :=
  x ← sim_dec px; Some (with_prices (dset (sb_prices s) sym x) s).

Fixpoint set_prices (ps : list (string * pyfloat)) s : option SimBroker :=
  match ps with
  | [] => Some s
  | (sym, px) :: ps => s ← set_price sym px s; set_prices ps s
  end.

Definition get_last_price (sym : string) s : option dec := dget (sb_prices s) sym.

Definition sim_connect s : SimBroker := with_connected true s.
Definition sim_disconnect s : SimBroker := with_connected false s.

(** ** Orders *)

Definition signed_fill (sd : BkSide) (q : dec) : dec := match sd with BK_BUY => q | BK_SELL => dneg q end.

Definition positive (d : dec) : bool := dltb dzero d.

(** The average cost after a fill; [None] leaves the entry as it is. *)
Definition cost_after (prev signed new_pos prev_avg px : dec) : option dec :=
  if negb (dtrue prev) || Bool.eqb (positive prev) (positive signed) then
    Some (if dtrue new_pos then
            default dzero (ddiv (dadd (dmul prev_avg (dabs prev)) (dmul px (dabs signed))) (dabs new_pos))
          else dzero)
  else if negb (Bool.eqb (positive prev) (positive new_pos)) && dtrue new_pos then Some px
  else if negb (dtrue new_pos) then Some dzero
  else None.

Definition dec_1e4 : dec := Dec 10000 0.

Definition commission_of (s : SimBroker) (q px : dec) : dec :=
  default dzero (ddiv (dmul (dabs (dmul q px)) (sb_bps s)) dec_1e4).

(** Position, cost and cash after a fill. *)
Definition book_fill (sym : string) (signed px commission : dec) s : SimBroker :=
  let prev := default dzero (dget (sb_positions s) sym) in
  let new_pos := dadd prev signed in
  let costs :=
    match cost_after prev signed new_pos (default px (dget (sb_costs s) sym)) px with
    | Some c => dset (sb_costs s) sym c
    | None => sb_costs s
    end in
  with_account (dsub (sb_cash s) (dadd (dmul signed px) commission)) (dset (sb_positions s) sym new_pos) costs s.

Definition fill_status (filled q : dec) : OrderStatus :=
  if dleb q filled then FILLED else if positive filled then PARTIALLY_FILLED else ACCEPTED.

Definition sim_order_id (n : Z) : string := ("SIM-" +:+ int_str n)%string.

Definition invalid_operation : string := "[<class 'decimal.InvalidOperation'>]".

Definition fill_price (r : OrderRequest) (px : dec) : dec :=
  match rq_type r, rq_limit_price r with
  | BK_LIMIT, Some l => if dtrue l then l else px
  | _, _ => px
  end.

Definition submit_sim (now : Z) (r : OrderRequest) s : SimBroker * pyres string OrderResult :=
  match dget (sb_orders s) (rq_client_order_id r) with
  | Some o =>
      (s, Ok (MkOrderResult true (rq_client_order_id r) (oi_broker_order_id o) (oi_status o) (oi_filled o)
                (oi_avg_price o) dzero None))
  | None =>
      let rejected :=
        (s, Ok (MkOrderResult false (rq_client_order_id r) None REJECTED dzero None dzero
                  (Some ("no price for " +:+ rq_symbol r)%string))) in
      match get_last_price (rq_symbol r) s with
      | None => rejected
      | Some px =>
          if dleb px dzero then rejected
          else
            let s := with_seq (sb_seq s + 1) s in
            let bid := sim_order_id (sb_seq s) in
            let q := rq_quantity r in
            match dquantize round_half_even (-8) (dmul q (sb_ratio s)) with
            | None => (s, Raise invalid_operation)
            | Some filled =>
                let fp := fill_price r px in
                let commission := commission_of s filled fp in
                let st := fill_status filled q in
                let s := book_fill (rq_symbol r) (signed_fill (rq_side r) filled) fp commission s in
                let o :=
                  MkOrderInfo (rq_client_order_id r) (Some bid) (rq_symbol r) (rq_side r) (rq_type r) q filled
                    (rq_limit_price r) (rq_stop_price r) (Some fp) st (rq_tif r) commission (Some now) (Some now)
                    (if bool_decide (st = FILLED) then Some now else None) in
                (with_orders (dset (sb_orders s) (rq_client_order_id r) o) s,
                 Ok (MkOrderResult true (rq_client_order_id r) (Some bid) st filled (Some fp) commission None))
            end
      end
  end.

Definition set_info (st : OrderStatus) (q : dec) (lp : option dec) (now : Z) (o : OrderInfo) : OrderInfo :=
  MkOrderInfo (oi_client_order_id o) (oi_broker_order_id o) (oi_symbol o) (oi_side o) (oi_type o) q (oi_filled o) lp
    (oi_stop_price o) (oi_avg_price o) st (oi_tif o) (oi_commission o) (oi_created_at o) (Some now) (oi_filled_at o).

Definition finished (st : OrderStatus) : bool := match st with FILLED | CANCELLED => true | _ => false end.

(** [cancel_order(client_order_id=...)]: an order is found by its client id only. *)
Definition cancel_sim (now : Z) (coid : string) s : SimBroker * CancelResult :=
  match (if truthy (Some coid) then dget (sb_orders s) coid else None) with
  | None => (s, MkCancelResult false coid None (Some "order not found"%string) None)
  | Some o =>
      if finished (oi_status o) then
        (s, MkCancelResult false (oi_client_order_id o) (oi_broker_order_id o)
              (Some ("cannot cancel " +:+ order_status_value (oi_status o))%string) None)
      else
        (with_orders (dset (sb_orders s) coid (set_info CANCELLED (oi_quantity o) (oi_limit_price o) now o)) s,
         MkCancelResult true (oi_client_order_id o) (oi_broker_order_id o) None (Some now))
  end.

Definition working (st : OrderStatus) : bool :=
  match st with SUBMITTED | ACCEPTED | PARTIALLY_FILLED => true | _ => false end.

(** [get_open_orders()] *)
Definition open_orders s : list OrderInfo := List.filter (fun o => working (oi_status o)) (sb_orders s).*2.

Definition count_if {A} (f : A -> bool) (l : list A) : Z := Z.of_nat (List.length (List.filter f l)).

(** The loop of [cancel_all_orders] over the orders, which changes their status only. *)
Definition cancel_open (now : Z) (symbol : option string) (acc : SimBroker * list CancelResult)
    (ko : string * OrderInfo) : SimBroker * list CancelResult :=
  if truthy symbol && negb (bool_decide (symbol = Some (oi_symbol ko.2))) then acc
  else if working (oi_status ko.2) then
    let '(s, r) := cancel_sim now ko.1 acc.1 in (s, acc.2 ++ [r])
  else acc.

Definition cancel_all_sim (now : Z) (symbol : option string) s : SimBroker * BulkCancelResult :=
  let '(s, rs) := fold_left (cancel_open now symbol) (sb_orders s) (s, []) in
  let n := Z.of_nat (List.length rs) in
  let ok := count_if cr_success rs in
  (s, MkBulkCancel n ok (n - ok) rs []).

Definition replace_sim (now : Z) (coid : string) (q lp : option dec) s : SimBroker * OrderResult :=
  match dget (sb_orders s) coid with
  | None => (s, plain_result false coid None (Some "order not found"%string))
  | Some o =>
      if finished (oi_status o) then
        (s, MkOrderResult false coid None (oi_status o) dzero None dzero
              (Some ("cannot amend " +:+ order_status_value (oi_status o))%string))
      else
        let o' := set_info (oi_status o) (default (oi_quantity o) q)
                    (match lp with Some p => Some p | None => oi_limit_price o end) now o in
        (with_orders (dset (sb_orders s) coid o') s,
         MkOrderResult true coid (oi_broker_order_id o') (oi_status o') (oi_filled o') (oi_avg_price o') dzero None)
  end.

(** [get_order(client_order_id=..., broker_order_id=...)] *)
Definition get_sim_order (coid boid : option string) s : option OrderInfo :=
  match (if truthy coid then coid ≫= dget (sb_orders s) else None) with
  | Some o => Some o
  | None =>
      if truthy boid then
        snd <$> List.find (fun ko => bool_decide (oi_broker_order_id ko.2 = boid)) (sb_orders s)
      else None
  end.

(** ** Positions *)

Definition position_side (q : dec) : PositionSide :=
  if positive q then POS_LONG else if dltb q dzero then POS_SHORT else POS_FLAT.

Definition position_obj s (sym : string) (q : dec) : BrokerPosition :=
  let px := default dzero (get_last_price sym s) in
  let avg := default px (dget (sb_costs s) sym) in
  MkBrokerPosition sym (position_side q) q avg (Some px) (Some (dmul q px)) (Some (dmul (dabs q) avg)).

Definition held s : list (string * dec) := List.filter (fun kq => dtrue kq.2) (sb_positions s).

Definition get_sim_positions s : list BrokerPosition := map (fun kq => position_obj s kq.1 kq.2) (held s).

Definition get_sim_position (sym : string) s : option BrokerPosition :=
  let q := default dzero (dget (sb_positions s) sym) in
  if dtrue q then Some (position_obj s sym q) else None.

Definition close_id (sym : string) (n : Z) : string := ("close_" +:+ sym +:+ "_" +:+ int_str n)%string.

Definition close_request (sym : string) (q close_qty : dec) s : OrderRequest :=
  MkRequest (close_id sym (sb_seq s + 1)) sym (if positive q then BK_SELL else BK_BUY) BK_MARKET close_qty None None
    TIF_GTC None.

Definition close_sim (now : Z) (sym : string) (quantity : option dec) s : SimBroker * pyres string OrderResult :=
  let q := default dzero (dget (sb_positions s) sym) in
  if negb (dtrue q) then (s, Ok (plain_result false "" None (Some "no position"%string)))
  else submit_sim now (close_request sym q (default (dabs q) quantity) s) s.

(** The comprehension over a copy of the positions; an exception leaves it. *)
Fixpoint close_list (now : Z) (l : list (string * dec)) s (rs : list OrderResult) :
    SimBroker * pyres string (list OrderResult) :=
  match l with
  | [] => (s, Ok rs)
  | (sym, _) :: l =>
      match close_sim now sym None s with
      | (s, Ok r) => close_list now l s (rs ++ [r])
      | (s, Raise e) => (s, Raise e)
      end
  end.

Definition close_all_sim (now : Z) s : SimBroker * pyres string (list OrderResult) := close_list now (held s) s [].

Definition get_account s : AccountInfo :=
  let mv := fold_left (fun acc kq => dadd acc (dmul kq.2 (default dzero (get_last_price kq.1 s)))) (sb_positions s)
              dzero in
  let equity := dadd (sb_cash s) mv in
  MkAccount "sim" equity (sb_cash s) equity.

(** ** [restore_state] *)

(** [d.get(a, d.get(b, dflt))] *)
Definition get_either (d : dict) (a b : string) (dflt : pyval) : pyval :=
  default (default dflt (dget d b)) (dget d a).

(** [str(position.get("symbol") or "")] *)
Definition symbol_of (d : dict) : option string :=
  let v := default VNone (dget d "symbol"%string) in
  if val_true v then str_of_val v else Some ""%string.

(** One position; [None] is an exception, or a symbol that is no text. *)
Definition restore_position (d : dict) s : option SimBroker :=
  (sym ← symbol_of d;
   q ← dec_of_val (get_either d "quantity" "qty" (VInt 0));
   if negb (truthy (Some sym)) || negb (dtrue q) then Some s
   else
     avg ← dec_of_val (get_either d "avg_cost" "avg_entry" (VInt 0));
     mark ← dec_of_val (get_either d "mark" "price" (VDec avg));
     Some (with_prices (dset (sb_prices s) sym mark)
             (with_account (sb_cash s) (dset (sb_positions s) sym q) (dset (sb_costs s) sym avg) s)))%string.

Fixpoint restore_positions (l : list dict) s : SimBroker * pyres unit unit :=
  match l with
  | [] => (s, Ok tt)
  | d :: l =>
      match restore_position d s with
      | Some s => restore_positions l s
      | None => (s, Raise tt)
      end
  end.

(** The orders stay; an exception leaves the state as it is then. *)
Definition restore_state (cash : pyfloat) (positions : list dict) (sequence : Z) s : SimBroker * pyres unit unit :=
  match sim_dec cash with
  | None => (s, Raise tt)
  | Some c =>
      match restore_positions positions (with_account c [] [] s) with
      | (s, Ok _) => (with_seq (Z.max 0 sequence) s, Ok tt)
      | (s, Raise e) => (s, Raise e)
      end
  end.

(** ** The broker as a connector *)

Definition no_raise {A B : Type} (r : A * B) : A * pyres string B := (r.1, Ok r.2).

Definition sim_connector (name : string) (now : Z) : Connector SimBroker :=
  MkConnector name sb_connected
    (fun s r => submit_sim now r s)
    (fun s coid _ => no_raise (cancel_sim now coid s))
    (fun s => no_raise (cancel_all_sim now None s))
    (Some (fun s coid q px => no_raise (replace_sim now coid q px s)))
    (fun s coid => (s, Ok (get_sim_order (Some coid) None s)))
    (fun s => (s, Ok (open_orders s)))
    (fun s => (s, Ok (get_sim_positions s)))
    (close_all_sim now)
    (fun s sym => (s, Ok (get_last_price sym s)))
    None.
