(* ===== verification/SimBrokerProps.v ===== *)
(** * Theorems on the paper broker

    Cash and positions are what the orders executed; an order that is sent again is
    not executed again; cancelling everything leaves no open order; closing everything
    leaves no position. *)
From Stdlib Require Import SpecFloat QArith Qabs Lqa.
From Stdlib Require Import Ascii String.
From S2P Require Import Prelude PyDecimal DecArith Allocation PyFormat PyFloat PyValue PyJson PyText PyRepr Config.
From S2P Require Import Engine BrokerProtocol SimBroker.
Open Scope Z_scope.
Open Scope list_scope.

Implicit Types s : SimBroker.

(** ** What was executed *)

Definition signed_of (o : OrderInfo) : dec := signed_fill (oi_side o) (oi_filled o).

(** Symbol, signed quantity, price and commission of an order. *)
Record Execution := MkExecution { ex_symbol : string; ex_signed : dec; ex_px : dec; ex_commission : dec }.

Definition execution_of (o : OrderInfo) : Execution :=
  MkExecution (oi_symbol o) (signed_of o) (default dzero (oi_avg_price o)) (oi_commission o).

Definition executions s : list Execution := map execution_of (sb_orders s).*2.

Definition position s (sym : string) : dec := default dzero (dget (sb_positions s) sym).

Definition position_from (sym : string) (q : dec) (l : list Execution) : dec :=
  fold_left (fun q x => if bool_decide (ex_symbol x = sym) then dadd q (ex_signed x) else q) l q.

Definition cash_from (cash : dec) (l : list Execution) : dec :=
  fold_left (fun c x => dsub c (dadd (dmul (ex_signed x) (ex_px x)) (ex_commission x))) l cash.

(** ** Operations and runs *)

Inductive sim_op :=
  | SubmitOrder (now : Z) (r : OrderRequest)
  | CancelOrder (now : Z) (coid : string)
  | CancelAll (now : Z) (symbol : option string)
  | ReplaceOrder (now : Z) (coid : string) (q lp : option dec)
  | ClosePosition (now : Z) (sym : string) (q : option dec)
  | CloseAll (now : Z)
  | SetPrice (sym : string) (px : pyfloat)
  | Connect
  | Disconnect
  | RestoreState (cash : pyfloat) (positions : list dict) (sequence : Z).

Definition sim_step s (op : sim_op) : SimBroker :=
  match op with
  | SubmitOrder now r => (submit_sim now r s).1
  | CancelOrder now coid => (cancel_sim now coid s).1
  | CancelAll now symbol => (cancel_all_sim now symbol s).1
  | ReplaceOrder now coid q lp => (replace_sim now coid q lp s).1
  | ClosePosition now sym q => (close_sim now sym q s).1
  | CloseAll now => (close_all_sim now s).1
  | SetPrice sym px => default s (set_price sym px s)
  | Connect => sim_connect s
  | Disconnect => sim_disconnect s
  | RestoreState cash positions sequence => (restore_state cash positions sequence s).1
  end.

Definition sim_run (ops : list sim_op) s : SimBroker := fold_left sim_step ops s.

(** ** The account, apart from the broker *)

(** Cash, and the position in a symbol. *)
Definition Account : Type := dec * (string -> dec).

Definition account_of s : Account := (sb_cash s, position s).

Definition book_executions (a : Account) (l : list Execution) : Account :=
  (cash_from a.1 l, fun sym => position_from sym (a.2 sym) l).

(** Two accounts with the same cash and the same position in every symbol. *)
Definition same_account (a a' : Account) : Prop := a.1 = a'.1 /\ forall sym, a.2 sym = a'.2 sym.

#[export] Instance same_account_equiv : Equivalence same_account.
Proof.
  split; [by intros a|by intros a a' [Hc Hp]; split|].
  intros a1 a2 a3 [C1 P1] [C2 P2]. split; [congruence|]. intros sym. by rewrite P1, P2.
Qed.

#[export] Instance book_executions_proper l : Proper (same_account ==> same_account) (fun a => book_executions a l).
Proof. intros a a' [Hc Hp]. unfold book_executions. split; cbn; [by rewrite Hc|]. intros sym. by rewrite Hp. Qed.

(** What an entry of a list of positions says: nothing when it has no symbol or its
    quantity is zero. Outside, [None] is an entry that cannot be read. *)
Definition listed_position (d : dict) : option (option (string * dec)) :=
  (sym ← symbol_of d;
   q ← dec_of_val (get_either d "quantity" "qty" (VInt 0));
   if truthy (Some sym) && dtrue q then
     avg ← dec_of_val (get_either d "avg_cost" "avg_entry" (VInt 0));
     mark ← dec_of_val (get_either d "mark" "price" (VDec avg));
     Some (Some (sym, q))
   else Some None)%string.

(** The position in a symbol that a list of positions gives: that of its last entry for
    the symbol, up to the first entry that cannot be read. *)
Fixpoint listed (sym : string) (q : dec) (l : list dict) : dec :=
  match l with
  | [] => q
  | d :: l =>
      match listed_position d with
      | None => q
      | Some None => listed sym q l
      | Some (Some (k, q')) => listed sym (if bool_decide (k = sym) then q' else q) l
      end
  end.

Definition restored_account (cash : pyfloat) (positions : list dict) (a : Account) : Account :=
  match sim_dec cash with
  | None => a
  | Some c => (c, fun sym => listed sym dzero positions)
  end.

(** The account that a run leaves: what the operations execute is booked, and restoring
    the broker replaces it. *)
Fixpoint account_after (ops : list sim_op) s (a : Account) : Account :=
  match ops with
  | [] => a
  | op :: ops =>
      let s' := sim_step s op in
      account_after ops s'
        match op with
        | RestoreState cash positions _ => restored_account cash positions a
        | _ => book_executions a (drop (List.length (executions s)) (executions s'))
        end
  end.

(** ** Effects of the operations *)

(** What no operation changes of an order: only its status, its quantity, its limit and
    the time of the change. *)
Definition same_execution (o o' : OrderInfo) : Prop :=
  execution_of o' = execution_of o /\ oi_client_order_id o' = oi_client_order_id o /\
  oi_broker_order_id o' = oi_broker_order_id o /\ oi_filled o' = oi_filled o /\ oi_avg_price o' = oi_avg_price o.

Lemma same_execution_refl o : same_execution o o.
Proof. by split_and!. Qed.

Lemma same_execution_trans o1 o2 o3 : same_execution o1 o2 -> same_execution o2 o3 -> same_execution o1 o3.
Proof. unfold same_execution. intuition congruence. Qed.

Lemma set_info_same st q lp now o : same_execution o (set_info st q lp now o).
Proof. by split_and!. Qed.

(** One step of a trading broker: new orders are added at the end, with what they executed
    booked, the others keep what they executed, and prices may change. *)
Inductive sim_moves : SimBroker -> SimBroker -> Prop :=
  | moves_refl s : sim_moves s s
  | moves_trans s1 s2 s3 : sim_moves s1 s2 -> sim_moves s2 s3 -> sim_moves s1 s3
  | moves_prices s p : sim_moves s (with_prices p s)
  | moves_connected s b : sim_moves s (with_connected b s)
  | moves_seq s n : sb_seq s <= n -> sim_moves s (with_seq n s)
  | moves_info s k o o' :
      dget (sb_orders s) k = Some o -> same_execution o o' -> sim_moves s (with_orders (dset (sb_orders s) k o') s)
  | moves_fill s k o sym signed px commission :
      dget (sb_orders s) k = None -> execution_of o = MkExecution sym signed px commission ->
      oi_client_order_id o = k ->
      sim_moves s (let s' := book_fill sym signed px commission s in with_orders (dset (sb_orders s') k o) s').

Lemma submit_moves now r s : sim_moves s (submit_sim now r s).1.
Proof.
  unfold submit_sim. destruct (dget (sb_orders s) (rq_client_order_id r)) as [o|] eqn:Ho; [constructor|].
  destruct (get_last_price (rq_symbol r) s) as [px|]; [|constructor]. destruct (dleb px dzero); [constructor|].
  assert (sim_moves s (with_seq (sb_seq s + 1) s)) as Hs by (constructor; lia).
  destruct (dquantize _ _ _) as [filled|]; [|done].
  eapply moves_trans; [exact Hs|]. by eapply moves_fill.
Qed.

Lemma cancel_moves now coid s : sim_moves s (cancel_sim now coid s).1.
Proof.
  unfold cancel_sim. destruct (truthy (Some coid)); [|constructor].
  destruct (dget (sb_orders s) coid) as [o|] eqn:Ho; [|constructor]. destruct (finished (oi_status o)); [constructor|].
  eapply moves_info; [done|apply set_info_same].
Qed.

Lemma cancel_all_moves now symbol s : sim_moves s (cancel_all_sim now symbol s).1.
Proof.
  unfold cancel_all_sim.
  assert (forall l acc, sim_moves acc.1 (fold_left (cancel_open now symbol) l acc).1) as Hl.
  { induction l as [|ko l IH]; intros acc; [constructor|]. cbn [fold_left]. eapply moves_trans; [|apply IH].
    unfold cancel_open. destruct (truthy symbol && _); [constructor|]. destruct (working _); [|constructor].
    pose proof (cancel_moves now ko.1 acc.1) as Hc. by destruct (cancel_sim now ko.1 acc.1). }
  specialize (Hl (sb_orders s) (s, [])). by destruct (fold_left _ _ _).
Qed.

Lemma replace_moves now coid q lp s : sim_moves s (replace_sim now coid q lp s).1.
Proof.
  unfold replace_sim. destruct (dget (sb_orders s) coid) as [o|] eqn:Ho; [|constructor].
  destruct (finished (oi_status o)); [constructor|]. eapply moves_info; [done|apply set_info_same].
Qed.

Lemma close_moves now sym q s : sim_moves s (close_sim now sym q s).1.
Proof. unfold close_sim. destruct (negb _); [constructor|apply submit_moves]. Qed.

Lemma close_list_moves now l s rs : sim_moves s (close_list now l s rs).1.
Proof.
  revert s rs. induction l as [|[sym q] l IH]; intros s rs; [constructor|]. cbn [close_list].
  pose proof (close_moves now sym None s) as Hc. destruct (close_sim now sym None s) as [s' [r|e]]; [|done].
  eapply moves_trans; [exact Hc|apply IH].
Qed.

Definition restores (op : sim_op) : bool := if op is RestoreState _ _ _ then true else false.

Lemma step_moves s op : restores op = false -> sim_moves s (sim_step s op).
Proof.
  intros Hop. destruct op; cbn [sim_step]; [..|done].
  - apply submit_moves.
  - apply cancel_moves.
  - apply cancel_all_moves.
  - apply replace_moves.
  - apply close_moves.
  - apply close_list_moves.
  - unfold set_price. destruct (sim_dec px); constructor.
  - constructor.
  - constructor.
Qed.

(** Restoring the broker: the orders stay, and the account is the one that was given. *)
Lemma restore_position_listed d s :
  match restore_position d s, listed_position d with
  | Some s', Some (Some (k, q)) =>
      sb_orders s' = sb_orders s /\ sb_cash s' = sb_cash s /\ sb_positions s' = dset (sb_positions s) k q
  | Some s', Some None => s' = s
  | None, None => True
  | _, _ => False
  end.
Proof.
  unfold restore_position, listed_position. destruct (symbol_of d) as [sym|]; [cbn|done].
  destruct (dec_of_val (get_either d "quantity" "qty" (VInt 0))) as [q|]; [cbn|done].
  destruct (bool_decide (sym = ""%string)), (dtrue q); cbn; try done.
  destruct (dec_of_val (get_either d "avg_cost" "avg_entry" (VInt 0))) as [avg|]; [cbn|done].
  by destruct (dec_of_val (get_either d "mark" "price" (VDec avg))).
Qed.

Lemma restore_positions_listed l s :
  let s' := (restore_positions l s).1 in
  sb_orders s' = sb_orders s /\ sb_cash s' = sb_cash s /\
  forall sym, position s' sym = listed sym (position s sym) l.
Proof.
  revert s. induction l as [|d l IH]; intros s; [done|]. cbn [restore_positions listed].
  pose proof (restore_position_listed d s) as Hd.
  destruct (restore_position d s) as [s1|], (listed_position d) as [[[k q]|]|]; try done.
  - destruct Hd as (Ho & Hc & Hp). destruct (IH s1) as (Ho' & Hc' & Hp'). split_and!; [congruence..|].
    intros sym. rewrite Hp'. f_equal. unfold position. rewrite Hp. case_bool_decide as Hk.
    + subst k. by rewrite dget_dset_eq.
    + by rewrite dget_dset_ne by congruence.
  - subst s1. apply IH.
Qed.

Lemma restore_listed cash l n s :
  let s' := (restore_state cash l n s).1 in
  sb_orders s' = sb_orders s /\ same_account (account_of s') (restored_account cash l (account_of s)).
Proof.
  unfold restore_state, restored_account. destruct (sim_dec cash) as [c|]; [|done].
  destruct (restore_positions_listed l (with_account c [] [] s)) as (Ho & Hc & Hp).
  destruct (restore_positions l (with_account c [] [] s)) as [s' [u|e]]; done.
Qed.

(** ** Cash and positions follow the executions *)

Lemma map_dset_same {V A} (f : V -> A) (d : list (string * V)) k v v' :
  dget d k = Some v -> f v' = f v -> map f (dset d k v').*2 = map f d.*2.
Proof.
  intros Hk Hf. induction d as [|[k0 v0] d IH]; [done|]. cbn [dget] in Hk. cbn [dset].
  destruct (decide (k = k0)) as [->|Hn]; cbn [fmap list_fmap map snd]; [by simplify_eq; rewrite Hf|].
  f_equal. by apply IH.
Qed.

Lemma map_dset_fresh {V A} (f : V -> A) (d : list (string * V)) k v :
  dget d k = None -> map f (dset d k v).*2 = map f d.*2 ++ [f v].
Proof. intros Hk. by rewrite (dset_fresh d k v Hk), fmap_app, map_app. Qed.

(** The account of [s'] is that of [s] with some executions added. *)
Definition executed s s' (new : list Execution) : Prop :=
  executions s' = executions s ++ new /\ sb_cash s' = cash_from (sb_cash s) new /\
  forall sym, position s' sym = position_from sym (position s sym) new.

Lemma executed_nil s s' :
  executions s' = executions s -> sb_cash s' = sb_cash s -> sb_positions s' = sb_positions s -> executed s s' [].
Proof. intros He Hc Hp. split_and!; [by rewrite app_nil_r|done|]. intros sym. unfold position. by rewrite Hp. Qed.

Lemma executed_app s1 s2 s3 l1 l2 : executed s1 s2 l1 -> executed s2 s3 l2 -> executed s1 s3 (l1 ++ l2).
Proof.
  intros (E1 & C1 & P1) (E2 & C2 & P2). split_and!.
  - by rewrite E2, E1, app_assoc.
  - unfold cash_from in *. by rewrite fold_left_app, <- C1.
  - intros sym. unfold position_from in *. by rewrite fold_left_app, <- P1, P2.
Qed.

Lemma fill_executed s k o sym signed px commission :
  dget (sb_orders s) k = None -> execution_of o = MkExecution sym signed px commission ->
  executed s (let s' := book_fill sym signed px commission s in with_orders (dset (sb_orders s') k o) s')
    [MkExecution sym signed px commission].
Proof.
  intros Hk Ho. split_and!.
  - unfold executions. cbn [sb_orders with_orders book_fill with_account]. by rewrite map_dset_fresh, Ho.
  - done.
  - intros sym'. unfold position. cbn [sb_positions with_orders book_fill with_account position_from fold_left ex_symbol ex_signed].
    destruct (decide (sym' = sym)) as [->|Hn].
    + by rewrite dget_dset_eq, bool_decide_eq_true_2.
    + by rewrite dget_dset_ne, bool_decide_eq_false_2 by congruence.
Qed.

Lemma moves_executed s s' : sim_moves s s' -> exists new, executed s s' new.
Proof.
  induction 1 as [s|s1 s2 s3 _ [l1 H1] _ [l2 H2]|s p|s b|s n _|s k o o' Hk Ho|s k o sym signed px c Hk Ho _].
  - exists []. by apply executed_nil.
  - exists (l1 ++ l2). by eapply executed_app.
  - exists []. by apply executed_nil.
  - exists []. by apply executed_nil.
  - exists []. by apply executed_nil.
  - exists []. apply executed_nil; [|done|done]. unfold executions. cbn [sb_orders with_orders].
    apply (map_dset_same execution_of _ _ o); [done|apply Ho].
  - eexists. by apply fill_executed.
Qed.

Lemma executed_account s s' new : executed s s' new -> same_account (account_of s') (book_executions (account_of s) new).
Proof. by intros (_ & Hc & Hp). Qed.

(** One operation: the executions grow at the end, and the account is that of
    [account_after]. *)
Lemma step_account s op :
  executions s `prefix_of` executions (sim_step s op) /\
  forall a, same_account (account_of s) a ->
    same_account (account_of (sim_step s op))
      match op with
      | RestoreState cash positions _ => restored_account cash positions a
      | _ => book_executions a (drop (List.length (executions s)) (executions (sim_step s op)))
      end.
Proof.
  destruct (restores op) eqn:Hop.
  - destruct op as [| | | | | | | | |cash l n]; try done. destruct (restore_listed cash l n s) as [Ho Ha].
    cbn [sim_step]. split; [exists []; unfold executions; by rewrite Ho, app_nil_r|].
    intros a Hs. etransitivity; [exact Ha|]. unfold restored_account. by destruct (sim_dec cash).
  - destruct (moves_executed _ _ (step_moves s op Hop)) as (new & Hnew). pose proof (executed_account _ _ _ Hnew) as Ha.
    destruct Hnew as (He & _). split; [by exists new|]. intros a Hs.
    assert (drop (List.length (executions s)) (executions (sim_step s op)) = new) as Hd by by rewrite He, drop_app_length.
    rewrite Hd. transitivity (book_executions (account_of s) new); [exact Ha|].
    pose proof (book_executions_proper new _ _ Hs) as Hb. by destruct op.
Qed.

Lemma run_account ops s a :
  same_account (account_of s) a ->
  executions s `prefix_of` executions (sim_run ops s) /\ same_account (account_of (sim_run ops s)) (account_after ops s a).
Proof.
  revert s a. induction ops as [|op ops IH]; intros s a Ha; [done|].
  destruct (step_account s op) as [He Hs]. destruct (IH _ _ (Hs a Ha)) as [He' Hs'].
  split; [by etransitivity|exact Hs'].
Qed.

(** C28: Whatever is submitted, cancelled, amended, closed and restored, in any order and
    at any prices, the executions of the broker's orders only grow at the end, and its cash
    and its position in every symbol are those of the start, or those that the last
    restoring gave, with exactly the executions since then booked, each once, commission
    included. *)
Theorem sim_account_follows_executions ops s :
  let s' := sim_run ops s in
  let a := account_after ops s (sb_cash s, fun sym => default dzero (dget (sb_positions s) sym)) in
  executions s `prefix_of` executions s' /\ sb_cash s' = a.1 /\
  forall sym, default dzero (dget (sb_positions s') sym) = a.2 sym.
Proof. by apply run_account. Qed.

(** ** An order is executed once *)

Lemma moves_order s s' k o :
  sim_moves s s' -> dget (sb_orders s) k = Some o ->
  exists o', dget (sb_orders s') k = Some o' /\ same_execution o o'.
Proof.
  intros Hm. revert o. induction Hm as [s|s1 s2 s3 _ IH1 _ IH2|s p|s b|s n _|s k0 o0 o0' Hk0 Ho0|s k0 o0 sym signed px c Hk0 _ _];
    intros o Hk; try (exists o; split; [done|apply same_execution_refl]).
  - destruct (IH1 o Hk) as (o1 & H1 & E1). destruct (IH2 o1 H1) as (o2 & H2 & E2).
    exists o2. split; [done|by eapply same_execution_trans].
  - cbn [sb_orders with_orders]. destruct (decide (k = k0)) as [->|Hn].
    + exists o0'. rewrite dget_dset_eq. split; [done|]. by simplify_eq.
    + exists o. rewrite dget_dset_ne by done. split; [done|apply same_execution_refl].
  - exists o. cbn [sb_orders with_orders book_fill with_account]. split; [|apply same_execution_refl].
    rewrite dget_dset_ne by congruence. done.
Qed.

Lemma run_order ops s k o :
  dget (sb_orders s) k = Some o ->
  exists o', dget (sb_orders (sim_run ops s)) k = Some o' /\ same_execution o o'.
Proof.
  revert s o. induction ops as [|op ops IH]; intros s o Hk; [by exists o|].
  assert (exists o1, dget (sb_orders (sim_step s op)) k = Some o1 /\ same_execution o o1) as (o1 & H1 & E1).
  { destruct (restores op) eqn:Hop; [|by eapply moves_order; [apply step_moves|]].
    destruct op as [| | | | | | | | |cash l n]; try done. destruct (restore_listed cash l n s) as [Ho _].
    exists o. cbn [sim_step]. by rewrite Ho. }
  destruct (IH _ _ H1) as (o2 & H2 & E2). exists o2. split; [done|by eapply same_execution_trans].
Qed.

Lemma submit_accepted now r s s' x :
  submit_sim now r s = (s', Ok x) -> or_success x = true ->
  exists o, dget (sb_orders s') (rq_client_order_id r) = Some o /\ or_broker_order_id x = oi_broker_order_id o /\
    or_filled x = oi_filled o /\ or_avg_price x = oi_avg_price o.
Proof.
  unfold submit_sim. destruct (dget (sb_orders s) (rq_client_order_id r)) as [o|] eqn:Ho.
  { intros [= <- <-] _. by exists o. }
  destruct (get_last_price (rq_symbol r) s) as [px|]; [|by intros [= _ <-]].
  destruct (dleb px dzero); [by intros [= _ <-]|].
  destruct (dquantize _ _ _) as [filled|]; [|done]. intros [= <- <-] _. cbn [sb_orders with_orders].
  rewrite dget_dset_eq. eexists. by split_and!.
Qed.

(** An order that was accepted is never executed again: whatever happens in between,
    sending a request with its client id changes nothing, and reports the broker's id, the
    quantity and the price of the first execution. *)
Theorem sim_resubmission_changes_nothing now r s s1 x ops now' r' :
  submit_sim now r s = (s1, Ok x) -> or_success x = true ->
  rq_client_order_id r' = rq_client_order_id r ->
  exists y, submit_sim now' r' (sim_run ops s1) = (sim_run ops s1, Ok y) /\ or_success y = true /\
    or_broker_order_id y = or_broker_order_id x /\ or_filled y = or_filled x /\ or_avg_price y = or_avg_price x.
Proof.
  intros Hs Hx Hid. destruct (submit_accepted now r s s1 x Hs Hx) as (o & Ho & Hb & Hf & Ha).
  destruct (run_order ops s1 _ _ Ho) as (o' & Ho' & _ & _ & Eb & Ef & Ea).
  unfold submit_sim. rewrite Hid, Ho'. eexists. split; [done|]. cbn. split_and!; congruence.
Qed.

(** ** Quantities on the grid of eight decimals *)

(** The quantity in units of the eighth decimal. *)
Definition units (q : dec) : Z := coef q * 10 ^ (dexp q + 8).

Definition eight_decimals (q : dec) : Prop := -8 <= dexp q /\ Z.abs (units q) < 10 ^ 27.

#[export] Instance eight_decimals_dec q : Decision (eight_decimals q).
Proof. unfold eight_decimals. apply _. Defined.

Lemma coef_units q : -8 <= dexp q -> Z.abs (coef q) <= Z.abs (units q).
Proof.
  intros He. unfold units. rewrite Z.abs_mul, (Z.abs_eq (10 ^ _)) by (apply Z.pow_nonneg; lia).
  pose proof (Z.pow_pos_nonneg 10 (dexp q + 8) ltac:(lia) ltac:(lia)). nia.
Qed.

Lemma eight_representable q : eight_decimals q -> Z.abs (coef q) < 10 ^ 27.
Proof. intros [He Hu]. pose proof (coef_units q He). lia. Qed.

Lemma default_prec : prec = 28. Proof. reflexivity. Qed.

Lemma dabs_eight q : eight_decimals q -> dabs q = Dec (Z.abs (coef q)) (dexp q).
Proof.
  intros Hq. apply dfix_small. cbn [coef]. apply eight_representable in Hq. rewrite default_prec.
  change (10 ^ 28) with (10 * 10 ^ 27). lia.
Qed.

Lemma units_abs q : units (Dec (Z.abs (coef q)) (dexp q)) = Z.abs (units q).
Proof.
  unfold units. cbn [coef dexp]. rewrite Z.abs_mul, (Z.abs_eq (10 ^ _)); [done|]. apply Z.pow_nonneg. lia.
Qed.

Lemma half_even_exact n : 0 <= n -> round_half_even (n * 10) 1 = n.
Proof.
  intros Hn. unfold round_half_even. change (10 ^ 1) with 10. rewrite Z.div_mul, Z.mod_mul by lia. done.
Qed.

(** The text of the ratio [1.0]. *)
Definition whole_ratio : dec := Dec 10 (-1).

Example whole_ratio_ex : sb_ratio <$> new_sim "sim" [] fzero (float_of_int 1) fzero = Some whole_ratio.
Proof. vm_compute. reflexivity. Qed.

(** A whole fill is exact. *)
Lemma whole_fill q :
  eight_decimals q -> 0 <= coef q -> dquantize round_half_even (-8) (dmul q whole_ratio) = Some (Dec (units q) (-8)).
Proof.
  intros Hq Hc. pose proof (eight_representable q Hq) as Hr. destruct Hq as [He Hu].
  assert (dmul q whole_ratio = Dec (coef q * 10) (dexp q + -1)) as ->.
  { apply dfix_small. cbn [coef whole_ratio]. rewrite default_prec. change (10 ^ 28) with (10 * 10 ^ 27). lia. }
  assert (0 <= units q) as Hu0.
  { unfold units. apply Z.mul_nonneg_nonneg; [done|]. apply Z.pow_nonneg. lia. }
  unfold dquantize. cbn [coef dexp]. rewrite (Z.abs_eq (coef q * 10)) by lia.
  set (c := if -8 <=? dexp q + -1 then _ else _).
  assert (c = units q) as ->.
  { unfold c. destruct (Z.leb_spec (-8) (dexp q + -1)).
    - unfold units. replace (dexp q + 8) with (1 + (dexp q + -1 - -8)) by lia.
      rewrite Z.pow_add_r by lia. change (10 ^ 1) with 10. lia.
    - assert (dexp q = -8) as E by lia. rewrite E. change (-8 - (-8 + -1)) with 1.
      unfold units. rewrite E. change (10 ^ (-8 + 8)) with 1. rewrite Z.mul_1_r. by apply half_even_exact. }
  pose proof (ndigits_small (units q) prec eq_refl) as Hn. rewrite default_prec in *.
  change (10 ^ 28) with (10 * 10 ^ 27) in Hn.
  destruct (Z.ltb_spec 28 (ndigits (units q))); [lia|]. f_equal. f_equal.
  destruct (Z.eq_dec (coef q) 0) as [E|E]; [unfold units; by rewrite E|].
  rewrite Z.sgn_pos by lia. lia.
Qed.

(** Selling what is held, or buying what is owed, leaves nothing. *)
Lemma close_cancels q :
  eight_decimals q -> dtrue q = true ->
  dtrue (dadd q (signed_fill (if positive q then BK_SELL else BK_BUY) (Dec (units (dabs q)) (-8)))) = false.
Proof.
  intros Hq Hne. rewrite (dabs_eight q Hq), units_abs. destruct Hq as [He Hu].
  assert (signed_fill (if positive q then BK_SELL else BK_BUY) (Dec (Z.abs (units q)) (-8)) = Dec (- units q) (-8)) as ->.
  { pose proof (Z.pow_pos_nonneg 10 (dexp q + 8) ltac:(lia) ltac:(lia)) as Hp.
    unfold positive. destruct (dltb dzero q) eqn:E.
    - apply dltb_spec in E. rewrite dval_zero in E. apply dval_sign in E.
      cbn [signed_fill]. unfold dneg, copy_neg. cbn [coef dexp]. rewrite dfix_small.
      + f_equal. unfold units in *. nia.
      + cbn [coef]. rewrite default_prec. change (10 ^ 28) with (10 * 10 ^ 27). lia.
    - apply dltb_false in E. rewrite dval_zero in E. cbn [signed_fill]. f_equal.
      assert (coef q <= 0) as Hc. { apply Z.nlt_ge. intros Hn. apply dval_sign in Hn. lra. }
      unfold units in *. nia. }
  assert (dadd q (Dec (- units q) (-8)) = Dec 0 (-8)) as ->; [|done].
  unfold dadd. assert (common q (Dec (- units q) (-8)) = -8) as -> by (unfold common; cbn; lia).
  unfold scale. cbn [coef dexp]. change (-8 - -8) with 0. change (10 ^ 0) with 1.
  replace (dexp q - -8) with (dexp q + 8) by lia. fold (units q).
  replace (units q + - units q * 1) with 0 by lia. reflexivity.
Qed.

(** ** No more than was asked for *)

Lemma quantize_le q d x :
  -8 <= dexp q -> 0 <= coef d -> (dval d <= dval q)%Q -> dquantize round_half_even (-8) d = Some x ->
  (0 <= dval x <= dval q)%Q.
Proof.
  intros He Hd Hle. unfold dquantize. set (c := if -8 <=? dexp d then _ else _).
  destruct (prec <? ndigits c); [done|]. intros [= <-].
  assert (dval q == inject_Z (units q) * ten_to (-8))%Q as Hq.
  { unfold dval, units. rewrite inject_Z_mult, <- ten_to_Z, <- Qmult_assoc, <- ten_to_add by lia.
    by replace (dexp q + 8 + -8) with (dexp q) by lia. }
  assert (0 <= c <= units q) as [H0 H1].
  { unfold c. rewrite (Z.abs_eq _ Hd). destruct (Z.leb_spec (-8) (dexp d)) as [Hx|Hx].
    - split; [apply Z.mul_nonneg_nonneg; [done|apply Z.pow_nonneg; lia]|]. rewrite Hq in Hle.
      apply (scaled_le _ _ (-8)). rewrite inject_Z_mult, <- ten_to_Z, <- Qmult_assoc, <- ten_to_add by lia.
      by replace (dexp d - -8 + -8) with (dexp d) by lia.
    - split; [apply round_half_even_nonneg; lia|]. apply round_half_even_le; [lia|].
      apply (scaled_le _ _ (dexp d)). rewrite inject_Z_mult, <- ten_to_Z, <- Qmult_assoc, <- ten_to_add by lia.
      replace (-8 - dexp d + dexp d) with (-8) by lia. by rewrite <- Hq. }
  rewrite Hq. assert (0 <= Z.sgn (coef d) * c <= units q) as [Hs0 Hs1].
  { destruct (Z.sgn_spec (coef d)) as [[? ->]|[[? ->]|[? ->]]]; lia. }
  change (dval (Dec (Z.sgn (coef d) * c) (-8))) with (inject_Z (Z.sgn (coef d) * c) * ten_to (-8))%Q.
  split; [|by apply scaled_le].
  apply Qmult_le_0_compat; [|apply Qlt_le_weak, ten_to_pos]. change 0%Q with (inject_Z 0). by rewrite <- Zle_Qle.
Qed.

(** A new order for a quantity of at most eight decimals is filled for no more than was
    asked for, whatever the ratio between zero and one, and never for a negative quantity. *)
Theorem sim_never_overfills now r s s' x :
  dget (sb_orders s) (rq_client_order_id r) = None ->
  -8 <= dexp (rq_quantity r) -> representable (rq_quantity r) -> (0 <= dval (rq_quantity r))%Q ->
  (0 <= dval (sb_ratio s) <= 1)%Q ->
  submit_sim now r s = (s', Ok x) -> (0 <= dval (or_filled x) <= dval (rq_quantity r))%Q.
Proof.
  intros Ho He Hrep Hq [Hr0 Hr1]. unfold submit_sim. rewrite Ho.
  assert (0 <= dval dzero <= dval (rq_quantity r))%Q as Hz by (rewrite dval_zero; split; [apply Qle_refl|done]).
  destruct (get_last_price (rq_symbol r) s) as [px|]; [|by intros [= _ <-]].
  destruct (dleb px dzero); [by intros [= _ <-]|].
  cbn [sb_ratio with_seq]. destruct (dquantize _ _ _) as [filled|] eqn:Hd; [|done]. intros [= _ <-]. cbn [or_filled].
  assert (dval dzero <= dval (dmul (rq_quantity r) (sb_ratio s)))%Q as H0.
  { apply dfix_ge; [done|]. rewrite dval_zero, dval_mul_exact. by apply Qmult_le_0_compat. }
  rewrite dval_zero in H0. eapply quantize_le; [done| | |exact Hd].
  - apply Z.nlt_ge. intros Hn. apply dval_sign in Hn. lra.
  - apply dfix_le; [done|]. rewrite dval_mul_exact. rewrite <- (Qmult_1_r (dval (rq_quantity r))) at 2.
    rewrite !(Qmult_comm (dval (rq_quantity r))). by apply Qmult_le_compat_r.
Qed.

(** ** Cancelling everything *)

Definition cancelled_info (now : Z) (o : OrderInfo) : OrderInfo :=
  if working (oi_status o) then set_info CANCELLED (oi_quantity o) (oi_limit_price o) now o else o.

Lemma working_not_finished st : working st = true -> finished st = false.
Proof. by destruct st. Qed.

Lemma dset_middle {V} (d1 d2 : list (string * V)) k v v' :
  k ∉ d1.*1 -> dset (d1 ++ (k, v) :: d2) k v' = d1 ++ (k, v') :: d2 /\ dget (d1 ++ (k, v) :: d2) k = Some v.
Proof.
  induction d1 as [|[k0 v0] d1 IH]; intros Hn; cbn.
  - by destruct (decide (k = k)).
  - apply not_elem_of_cons in Hn as [Hne Hn]. cbn in Hne. destruct (decide (k = k0)); [done|].
    destruct (IH Hn) as [-> ->]. done.
Qed.

Lemma cancel_loop now l d s rs :
  NoDup (d ++ l).*1 -> Forall (fun ko => ko.1 <> ""%string) l -> sb_orders s = d ++ l ->
  Forall (fun r => cr_success r = true) rs ->
  let '(s', rs') := fold_left (cancel_open now None) l (s, rs) in
  sb_orders s' = d ++ map (fun ko => (ko.1, cancelled_info now ko.2)) l /\
  Forall (fun r => cr_success r = true) rs' /\
  List.length rs' = (List.length rs + List.length (List.filter (fun o => working (oi_status o)) l.*2))%nat.
Proof.
  revert d s rs. induction l as [|[k o] l IH]; intros d s rs Hnd Hne Hs Hrs.
  - cbn. split_and!; [done|done|lia].
  - apply Forall_cons in Hne as [Hk Hne]. cbn [fst] in Hk.
    assert (k ∉ d.*1) as Hkd.
    { rewrite fmap_app in Hnd. apply NoDup_app in Hnd as (_ & Hd & _). intros Hin. apply (Hd k Hin). by left. }
    assert (NoDup ((d ++ [(k, cancelled_info now o)]) ++ l).*1) as Hnd'.
    { rewrite <- app_assoc, fmap_app. by rewrite fmap_app in Hnd. }
    destruct (dset_middle d l k o (cancelled_info now o) Hkd) as [Hset Hget].
    cbn [fold_left]. unfold cancel_open at 2. cbn [truthy andb fst snd].
    destruct (working (oi_status o)) eqn:Hw.
    + unfold cancel_sim. assert (truthy (Some k) = true) as ->.
      { unfold truthy. by rewrite bool_decide_eq_false_2. }
      rewrite Hs, Hget, (working_not_finished _ Hw).
      set (s1 := with_orders _ s). set (r1 := MkCancelResult _ _ _ _ _).
      assert (sb_orders s1 = (d ++ [(k, cancelled_info now o)]) ++ l) as Hs1.
      { rewrite <- app_assoc. unfold s1. cbn [sb_orders with_orders app]. rewrite <- Hset.
        unfold cancelled_info. by rewrite Hw. }
      specialize (IH (d ++ [(k, cancelled_info now o)]) s1 (rs ++ [r1]) Hnd' Hne Hs1).
      destruct (fold_left _ l (s1, rs ++ [r1])) as [s' rs'].
      destruct IH as (Ho & Hr & Hl); [apply Forall_app; split; [done|by constructor]|]. split_and!; [|done|].
      * rewrite Ho, <- app_assoc. done.
      * rewrite Hl, length_app. cbn [fmap list_fmap List.filter snd]. rewrite Hw. cbn. lia.
    + assert (sb_orders s = (d ++ [(k, cancelled_info now o)]) ++ l) as Hs1.
      { rewrite <- app_assoc, Hs. unfold cancelled_info. by rewrite Hw. }
      specialize (IH (d ++ [(k, cancelled_info now o)]) s rs Hnd' Hne Hs1 Hrs).
      destruct (fold_left _ l (s, rs)) as [s' rs'].
      destruct IH as (Ho & Hr & Hl). split_and!; [|done|].
      * rewrite Ho, <- app_assoc. done.
      * rewrite Hl. cbn [fmap list_fmap List.filter snd]. by rewrite Hw.
Qed.

(** The keys of the orders: distinct, and none of them empty. *)
Definition keys_ok s : Prop := NoDup (sb_orders s).*1 /\ dget (sb_orders s) ""%string = None.

Lemma count_all {A} (f : A -> bool) l : Forall (fun x => f x = true) l -> count_if f l = Z.of_nat (List.length l).
Proof.
  intros Hl. unfold count_if. induction Hl as [|x l Hx _ IH]; [done|]. cbn [List.filter]. rewrite Hx. cbn [List.length]. lia.
Qed.

(** Cancelling everything leaves no open order, and says how many there were. *)
Lemma cancel_all_clears now s :
  keys_ok s ->
  let '(s', r) := cancel_all_sim now None s in
  open_orders s' = [] /\ bc_failed r = 0 /\ bc_cancelled r = Z.of_nat (List.length (open_orders s)) /\
  bc_errors r = [] /\ sb_positions s' = sb_positions s /\ keys_ok s'.
Proof.
  intros [Hnd Hne]. unfold cancel_all_sim.
  assert (Forall (fun ko => ko.1 <> ""%string) (sb_orders s)) as Hf.
  { apply Forall_forall. intros [k o] Hin Hk. cbn in Hk. subst k. apply dget_None in Hne. apply Hne.
    apply list_elem_of_fmap. by exists (""%string, o). }
  pose proof (cancel_loop now (sb_orders s) [] s [] Hnd Hf eq_refl (Forall_nil_2 _)) as Hl.
  assert (forall l (acc : SimBroker * list CancelResult), sb_positions (fold_left (cancel_open now None) l acc).1 = sb_positions acc.1) as Hp.
  { clear. induction l as [|ko l IH]; intros acc; [done|]. cbn [fold_left]. rewrite IH. unfold cancel_open.
    cbn [truthy andb]. destruct (working _); [|done]. unfold cancel_sim.
    destruct (if truthy (Some ko.1) then _ else _); [|done]. by destruct (finished _). }
  specialize (Hp (sb_orders s) (s, [])). destruct (fold_left _ _ _) as [s' rs]. destruct Hl as (Ho & Hr & Hn).
  cbn [app] in Ho. cbn [bc_failed bc_cancelled bc_errors]. rewrite (count_all _ _ Hr), Hn. split_and!.
  - unfold open_orders. rewrite Ho. clear. induction (sb_orders s) as [|[k o] l IH]; [done|].
    cbn [map fmap list_fmap fst snd List.filter] in *. unfold cancelled_info at 1.
    destruct (working (oi_status o)) eqn:Hw; [exact IH|]. by rewrite Hw.
  - lia.
  - unfold open_orders. cbn [List.length]. lia.
  - done.
  - done.
  - assert ((sb_orders s').*1 = (sb_orders s).*1) as Hk.
    { rewrite Ho. clear. induction (sb_orders s) as [|[k o] l IH]; [done|]. cbn. by f_equal. }
    split; [by rewrite Hk|]. apply dget_None. rewrite Hk. by apply dget_None.
Qed.

(** ** Closing everything *)

(** Two texts cut at their last separator agree behind it. *)
Lemma after_last {A} (c : A) p1 p2 (l1 l2 : list A) :
  c ∉ l1 -> c ∉ l2 -> p1 ++ c :: l1 = p2 ++ c :: l2 -> l1 = l2.
Proof.
  intros H1 H2 E. revert p2 E. induction p1 as [|x p1 IH]; intros [|y p2] E; cbn in E; simplify_eq.
  - done.
  - destruct H1. apply elem_of_app. right. by left.
  - destruct H2. apply elem_of_app. right. by left.
  - by eapply IH.
Qed.

Lemma digits_no_underscore n : 0 <= n -> "_"%char ∉ int_chars n.
Proof.
  intros Hn Hin. rewrite (int_chars_digits n Hn) in Hin. unfold digit_chars in Hin.
  apply list_elem_of_fmap in Hin as (d & Hd & Hin). pose proof (digits_range n Hn) as Hr.
  rewrite Forall_forall in Hr. specialize (Hr d Hin). unfold is_digit in Hr.
  assert (d = 0 \/ d = 1 \/ d = 2 \/ d = 3 \/ d = 4 \/ d = 5 \/ d = 6 \/ d = 7 \/ d = 8 \/ d = 9) as Hc by lia.
  repeat destruct Hc as [->|Hc]; try discriminate Hd. by subst d.
Qed.

Lemma close_id_number a b n m : 0 <= n -> 0 <= m -> close_id a n = close_id b m -> n = m.
Proof.
  intros Hn Hm E. apply (f_equal chars) in E. unfold close_id in E. rewrite !chars_app in E.
  change (chars "_") with ["_"%char] in E. rewrite !app_assoc in E.
  unfold int_str in E. unfold chars in E at 3 6. rewrite !list_ascii_of_string_of_list_ascii in E.
  rewrite <- !(app_assoc _ ["_"%char]) in E. cbn [app] in E.
  apply after_last in E; [|by apply digits_no_underscore..]. by apply int_chars_inj.
Qed.

(** A position that can be closed: there is a price, and the quantity has eight decimals. *)
Definition closable s (sym : string) (q : dec) : Prop :=
  eight_decimals q /\ dtrue q = true /\ from_option (fun px => dleb px dzero = false) False (get_last_price sym s).

#[export] Instance closable_dec s sym q : Decision (closable s sym q).
Proof. unfold closable. destruct (get_last_price sym s); cbn; apply _. Defined.

(** No order has the client id of a later closing order. *)
Definition close_ids_free s : Prop :=
  0 <= sb_seq s /\ forall sym n, sb_seq s < n -> dget (sb_orders s) (close_id sym n) = None.

Lemma close_one now sym q s :
  sb_ratio s = whole_ratio -> close_ids_free s -> dget (sb_positions s) sym = Some q -> closable s sym q ->
  exists s' r, close_sim now sym None s = (s', Ok r) /\ or_success r = true /\
    sb_ratio s' = whole_ratio /\ close_ids_free s' /\ sb_prices s' = sb_prices s /\
    (exists q', sb_positions s' = dset (sb_positions s) sym q' /\ dtrue q' = false) /\
    Forall (fun ko => working (oi_status ko.2) = false) (drop (List.length (sb_orders s)) (sb_orders s')) /\
    (sb_orders s' = sb_orders s ++ drop (List.length (sb_orders s)) (sb_orders s')).
Proof.
  intros Hr [Hseq Hfree] Hp (Hq & Hne & Hpx). unfold close_sim. rewrite Hp. cbn [default from_option Datatypes.id].
  rewrite Hne. cbn [negb]. unfold submit_sim. cbn [rq_client_order_id close_request rq_symbol rq_quantity default from_option].
  rewrite (Hfree sym (sb_seq s + 1) ltac:(lia)).
  destruct (get_last_price sym s) as [px|]; [|done]. cbn [from_option] in Hpx. rewrite Hpx.
  cbn [sb_ratio with_seq]. rewrite Hr. change (from_option Datatypes.id (dabs q) None) with (dabs q).
  assert (eight_decimals (dabs q) /\ 0 <= coef (dabs q)) as [Hq8 Hq0].
  { rewrite (dabs_eight q Hq). split; [|cbn; lia]. split; [apply Hq|]. rewrite units_abs, Z.abs_idemp. apply Hq. }
  rewrite (whole_fill (dabs q) Hq8 Hq0).
  assert (fill_status (Dec (units (dabs q)) (-8)) (dabs q) = FILLED) as Hst.
  { unfold fill_status. assert (dleb (dabs q) (Dec (units (dabs q)) (-8)) = true) as ->; [|done].
    apply dleb_spec. unfold dval at 2, units. cbn [coef dexp]. rewrite inject_Z_mult, <- ten_to_Z, <- Qmult_assoc, <- ten_to_add.
    - replace (dexp (dabs q) + 8 + -8) with (dexp (dabs q)) by lia. apply Qle_refl.
    - destruct Hq8. lia. }
  eexists _, _. split; [reflexivity|]. split; [done|]. cbn [sb_orders sb_seq sb_ratio sb_prices sb_positions
    with_orders with_seq with_account book_fill rq_side close_request].
  split; [exact Hr|]. split.
  { split. { simpl. lia. } cbn [sb_orders sb_seq with_orders with_account book_fill with_seq]. intros sym' n Hn. rewrite dget_dset_ne; [apply Hfree; lia|].
    intros E. apply close_id_number in E; lia. }
  split; [done|]. split.
  { eexists. split; [reflexivity|]. rewrite Hp. cbn [default from_option Datatypes.id]. by apply close_cancels. }
  rewrite (dset_fresh _ _ _ (Hfree sym (sb_seq s + 1) ltac:(lia))), drop_app_length. split; [|done].
  constructor; [|constructor]. cbn [snd oi_status]. by rewrite Hst.
Qed.

Lemma close_loop now l s rs :
  sb_ratio s = whole_ratio -> close_ids_free s -> NoDup l.*1 ->
  Forall (fun kq => dget (sb_positions s) kq.1 = Some kq.2 /\ closable s kq.1 kq.2) l ->
  (forall sym q, dget (sb_positions s) sym = Some q -> dtrue q = true -> sym ∈ l.*1) ->
  NoDup (sb_positions s).*1 -> Forall (fun r => or_success r = true) rs ->
  exists s' rs', close_list now l s rs = (s', Ok rs') /\ Forall (fun r => or_success r = true) rs' /\
    List.length rs' = (List.length rs + List.length l)%nat /\ held s' = [] /\
    (open_orders s = [] -> open_orders s' = []).
Proof.
  revert s rs. induction l as [|[sym q] l IH]; intros s rs Hr Hf Hnd Hl Hall Hndp Hrs.
  - exists s, rs. split_and!; [done|done|cbn; lia| |done]. unfold held.
    assert (Forall (fun kq => dtrue kq.2 = false) (sb_positions s)) as Hz.
    { apply Forall_forall. intros [sym q] Hin. cbn. destruct (dtrue q) eqn:E; [|done].
      apply (elem_dget _ _ _ Hndp) in Hin. specialize (Hall sym q Hin E). by apply elem_of_nil in Hall. }
    clear -Hz. induction Hz as [|kq l Hk _ IH]; [done|]. cbn [List.filter]. by rewrite Hk.
  - apply Forall_cons in Hl as [[Hp Hc] Hl]. apply NoDup_cons in Hnd as [Hn Hnd]. cbn [fst snd] in *.
    destruct (close_one now sym q s Hr Hf Hp Hc) as (s1 & r & E & Hok & Hr1 & Hf1 & Hpx & (q' & Hp1 & Hq') & Hw & Hord).
    cbn [close_list]. rewrite E.
    destruct (IH s1 (rs ++ [r]) Hr1 Hf1 Hnd) as (s' & rs' & E' & Hrs' & Hlen & Hh & Ho).
    + apply Forall_forall. intros [k x] Hin. rewrite Forall_forall in Hl. destruct (Hl _ Hin) as [Hk Hx]. cbn [fst snd] in *.
      assert (k <> sym) as Hne. { intros ->. apply Hn. apply list_elem_of_fmap. by exists (sym, x). }
      split; [by rewrite Hp1, dget_dset_ne|]. unfold closable, get_last_price in *. by rewrite Hpx.
    + intros k x Hk Hx. rewrite Hp1 in Hk. destruct (decide (k = sym)) as [->|Hne].
      * rewrite dget_dset_eq in Hk. simplify_eq. congruence.
      * rewrite dget_dset_ne in Hk by done. specialize (Hall k x Hk Hx). apply elem_of_cons in Hall as [->|Hin]; [done|exact Hin].
    + rewrite Hp1. by apply NoDup_dset.
    + apply Forall_app. split; [done|by constructor].
    + exists s', rs'. split_and!; [done|done| |done|].
      * rewrite Hlen, length_app. cbn. lia.
      * intros Hopen. apply Ho. unfold open_orders in *. rewrite Hord, fmap_app, List.filter_app, Hopen. cbn [app].
        clear -Hw. induction Hw as [|ko l Hk _ IH]; [done|]. cbn. by rewrite Hk.
Qed.

(** What closing everything needs: whole fills, a price for every position, client ids of
    its own. *)
Definition can_flatten s : Prop :=
  sb_ratio s = whole_ratio /\ close_ids_free s /\ NoDup (sb_positions s).*1 /\
  Forall (fun kq => dtrue kq.2 = true -> closable s kq.1 kq.2) (sb_positions s).

Lemma close_all_flattens now s :
  can_flatten s ->
  exists s' rs, close_all_sim now s = (s', Ok rs) /\ Forall (fun r => or_success r = true) rs /\
    List.length rs = List.length (held s) /\ get_sim_positions s' = [] /\ (open_orders s = [] -> open_orders s' = []).
Proof.
  intros (Hr & Hf & Hnd & Hc).
  destruct (close_loop now (held s) s [] Hr Hf) as (s' & rs & E & Hok & Hl & Hh & Ho).
  - unfold held. clear -Hnd. induction (sb_positions s) as [|[k q] l IH]; [done|]. cbn [List.filter snd].
    apply NoDup_cons in Hnd as [Hn Hnd]. destruct (dtrue q); [|by apply IH]. cbn. apply NoDup_cons. split; [|by apply IH].
    intros Hin. apply Hn. apply list_elem_of_fmap in Hin as (x & Hx & Hin). apply list_elem_of_fmap. exists x. split; [done|].
    rewrite list_elem_of_In in *. by apply filter_In in Hin as [Hin _].
  - apply Forall_forall. intros [k q] Hin. unfold held in Hin. rewrite list_elem_of_In in Hin. apply filter_In in Hin as [Hin Ht].
    cbn [fst snd] in *. rewrite <- list_elem_of_In in Hin. split; [by apply elem_dget|].
    rewrite Forall_forall in Hc. by apply (Hc (k, q)).
  - intros sym q Hp Ht. apply list_elem_of_fmap. exists (sym, q). split; [done|]. apply list_elem_of_In, filter_In.
    split; [|done]. apply list_elem_of_In. by apply dget_elem.
  - done.
  - constructor.
  - exists s', rs. split_and!; [done|done|done| |done]. unfold get_sim_positions. by rewrite Hh.
Qed.

(** ** Concrete runs *)

Definition paper (ratio : pyfloat) : SimBroker :=
  default (MkSim "" [] dzero dzero dzero dzero true [] [] [] 0)
    (new_sim "sim" [("AAPL", float_of_int 150)]%string (float_of_int 100000) ratio (float_of_int 10)).

Definition market (coid : string) (sd : BkSide) (q : dec) : OrderRequest :=
  MkRequest coid "AAPL" sd BK_MARKET q None None TIF_DAY None.

Lemma sim_resubmission_changes_nothing_witness :
  let s1 := (submit_sim 0 (market "c1" BK_BUY (Dec 10 0)) (paper (float_of_int 1))).1 in
  let ops := [SetPrice "AAPL" (float_of_int 160); SubmitOrder 1 (market "c2" BK_SELL (Dec 4 0))]%string in
  exists y, submit_sim 9 (market "c1" BK_BUY (Dec 99 0)) (sim_run ops s1) = (sim_run ops s1, Ok y) /\
    or_success y = true /\ or_filled y = Dec 1000000000 (-8).
Proof.
  intros s1 ops.
  destruct (submit_sim 0 (market "c1" BK_BUY (Dec 10 0)) (paper (float_of_int 1))) as [s' [x|e]] eqn:E.
  - assert (or_success x = true /\ or_filled x = Dec 1000000000 (-8)) as [Hx Hf].
    { assert (or_success x = true /\ or_filled x = Dec 1000000000 (-8)
              <-> match (submit_sim 0 (market "c1" BK_BUY (Dec 10 0)) (paper (float_of_int 1))).2 with
                  | Ok z => or_success z = true /\ or_filled z = Dec 1000000000 (-8) | Raise _ => False end) as ->
        by by rewrite E.
      vm_compute. by split. }
    destruct (sim_resubmission_changes_nothing 0 (market "c1" BK_BUY (Dec 10 0)) (paper (float_of_int 1)) s' x ops 9
                (market "c1" BK_BUY (Dec 99 0)) E Hx eq_refl) as (y & Hy & Hs & _ & Hq & _).
    exists y. subst s1. split_and!; [done|done|congruence].
  - exfalso. apply (f_equal (fun z => is_ok z.2)) in E. vm_compute in E. discriminate E.
Defined.

(** Cash and position after a purchase with ten basis points of commission. *)
Example paper_ex :
  let s := sim_run [SubmitOrder 0 (market "c1" BK_BUY (Dec 10 0))] (paper (float_of_int 1)) in
  deqb (sb_cash s) (Dec 984985 (-1)) = true /\ deqb (position s "AAPL") (Dec 10 0) = true.
Proof. vm_compute. split; reflexivity. Qed.

(** Restored, then sold from what was restored. *)
Example restored_ex :
  let s := sim_run [SubmitOrder 0 (market "c1" BK_BUY (Dec 10 0));
                    RestoreState (float_of_int 5000) [[("symbol", VStr "AAPL"); ("qty", VInt 7); ("price", VInt 100)]] 4;
                    SubmitOrder 1 (market "c2" BK_SELL (Dec 2 0))]%string (paper (float_of_int 1)) in
  deqb (sb_cash s) (Dec 51998 (-1)) = true /\ deqb (position s "AAPL") (Dec 5 0) = true.
Proof. vm_compute. split; reflexivity. Qed.

(** A quantity finer than eight decimals is rounded, here up: more is filled than was asked for. *)
Theorem fine_quantity_overfills :
  match (submit_sim 0 (market "c1" BK_BUY (Dec 15 (-9))) (paper (float_of_int 1))).2 with
  | Ok x => dltb (Dec 15 (-9)) (or_filled x)
  | Raise _ => false
  end = true.
Proof. vm_compute. reflexivity. Qed.

(** An order that would fill nothing is accepted, and a price is reported for it. *)
Theorem nothing_filled_at_a_price :
  match (submit_sim 0 (market "c1" BK_BUY (Dec 10 0)) (paper fzero)).2 with
  | Ok x => bool_decide (or_status x = ACCEPTED) && negb (dtrue (or_filled x)) && bool_decide (is_Some (or_avg_price x))
  | Raise _ => false
  end = true.
Proof. vm_compute. reflexivity. Qed.

(** A limit order is filled at its limit, whatever the price: here bought at 1 with the
    market at 150. *)
Theorem limit_fills_away_from_market :
  match (submit_sim 0 (MkRequest "c1" "AAPL" BK_BUY BK_LIMIT (Dec 10 0) (Some (Dec 1 0)) None TIF_DAY None)
           (paper (float_of_int 1))).2 with
  | Ok x => bool_decide (or_avg_price x = Some (Dec 1 0)) && bool_decide (or_status x = FILLED)
  | Raise _ => false
  end = true.
Proof. vm_compute. reflexivity. Qed.

(** What a partial fill leaves open is never filled, and stays open when the order is
    amended to what was filled. *)
Theorem amended_to_filled_stays_open :
  let s := sim_run [SubmitOrder 0 (market "c1" BK_BUY (Dec 10 0)); ReplaceOrder 1 "c1" (Some (Dec 5 0)) None]
             (paper (float_of_dec (Dec 5 (-1)))) in
  map (fun o => (oi_quantity o, deqb (oi_filled o) (Dec 5 0), oi_status o)) (open_orders s)
  = [(Dec 5 0, true, PARTIALLY_FILLED)].
Proof. vm_compute. reflexivity. Qed.
