(* ===== verification/KillExecutor.v ===== *)
(** * Halting at the broker: [packages/agent/daemon/kill_switch_executor.py]

    [KillSwitchExecutor] cancels the open orders and flattens the positions at a broker,
    with retries; [create_kill_switch_with_broker] wires it into the kill switch of
    [KillSwitch].  The broker is a connector of [BrokerProtocol], whose state is part of
    the world together with the sleeps and the actions that were logged.  The callbacks
    of actions only observe.  The methods raise nothing: every exception of the broker is
    caught. *)
From Stdlib Require Import SpecFloat.
From Stdlib Require Import Ascii String.
From S2P Require Import Prelude PyDecimal DecArith PyFloat PyFormat PyValue PyJson PyText PyRepr FloatInt.
From S2P Require Import KillSwitch KillEvidence Engine BrokerProtocol.
Open Scope Z_scope.
Open Scope list_scope.

Record KillSwitchExecutorConfig := MkKxConfig {
  cancel_on_trigger : bool;
  flatten_on_trigger : bool;
  flatten_timeout_seconds : Z;
  max_cancel_retries : Z;
  max_flatten_retries : Z;
  retry_delay_seconds : pyfloat;
  log_all_actions : bool
}.

Definition default_kx_config : KillSwitchExecutorConfig :=
  MkKxConfig true false 30 3 2 (float_of_int 1) true.

Record ExecutionResult := MkExecResult {
  xr_success : bool;
  xr_cancelled : Z;
  xr_failed_to_cancel : Z;
  xr_flattened : Z;
  xr_failed_to_flatten : Z;
  xr_time_ms : pyfloat;
  xr_errors : list string
}.

(** [ExecutionResult(success=True)] *)
Definition new_exec_result : ExecutionResult := MkExecResult true 0 0 0 0 fzero [].

Definition set_exec_success (b : bool) (r : ExecutionResult) : ExecutionResult :=
  MkExecResult b (xr_cancelled r) (xr_failed_to_cancel r) (xr_flattened r) (xr_failed_to_flatten r) (xr_time_ms r)
    (xr_errors r).
Definition add_exec_errors (l : list string) (r : ExecutionResult) : ExecutionResult :=
  MkExecResult (xr_success r) (xr_cancelled r) (xr_failed_to_cancel r) (xr_flattened r) (xr_failed_to_flatten r)
    (xr_time_ms r) (xr_errors r ++ l).
Definition set_cancel_counts (ok failed : Z) (r : ExecutionResult) : ExecutionResult :=
  MkExecResult (xr_success r) ok failed (xr_flattened r) (xr_failed_to_flatten r) (xr_time_ms r) (xr_errors r).
Definition set_flatten_counts (ok failed : Z) (r : ExecutionResult) : ExecutionResult :=
  MkExecResult (xr_success r) (xr_cancelled r) (xr_failed_to_cancel r) ok failed (xr_time_ms r) (xr_errors r).
Definition set_exec_time (t : pyfloat) (r : ExecutionResult) : ExecutionResult :=
  MkExecResult (xr_success r) (xr_cancelled r) (xr_failed_to_cancel r) (xr_flattened r) (xr_failed_to_flatten r) t
    (xr_errors r).

(** The executor without its broker: configuration and history; the last execution is the
    last of the history. *)
Record KillSwitchExecutor := MkKx {
  kx_config : KillSwitchExecutorConfig;
  kx_history : list ExecutionResult
}.

Definition new_executor (c : option KillSwitchExecutorConfig) : KillSwitchExecutor :=
  MkKx (default default_kx_config c) [].

(** The broker's state, the sleeps and the actions logged. *)
Record HaltWorld (C : Type) := MkHaltWorld {
  hw_conn : C;
  hw_sleeps : list pyfloat;
  hw_actions : list (string * dict)
}.
Arguments MkHaltWorld {C}.
Arguments hw_conn {C}.
Arguments hw_sleeps {C}.
Arguments hw_actions {C}.

Section Executor.
Context {C : Type} (broker : option (Connector C)).
Implicit Types (x : KillSwitchExecutor) (w : HaltWorld C) (c : Connector C).

Definition on_broker (s : C) w : HaltWorld C := MkHaltWorld s (hw_sleeps w) (hw_actions w).
Definition log_action (name : string) (d : dict) w : HaltWorld C :=
  MkHaltWorld (hw_conn w) (hw_sleeps w) (hw_actions w ++ [(name, d)]).
Definition log_sleep (d : pyfloat) w : HaltWorld C :=
  MkHaltWorld (hw_conn w) (hw_sleeps w ++ [d]) (hw_actions w).

(** [has_broker]: the connector, when it is set and connected. *)
Definition has_broker w : option (Connector C) :=
  match broker with
  | Some c => if cn_connected c (hw_conn w) then Some c else None
  | None => None
  end.

(** The sleep before another attempt. *)
Definition before_retry x (attempt limit : Z) w : HaltWorld C :=
  if attempt <? limit - 1 then log_sleep (retry_delay_seconds (kx_config x)) w else w.

Definition no_broker_error : string := "No broker connector available".

(** ** Cancelling: [_execute_cancel_orders] *)

(** What one attempt ends as: it returns, or the loop goes on. *)
Definition attempt_error (what : string) (attempt : Z) (e : string) : string :=
  (what +:+ " attempt " +:+ int_str (attempt + 1) +:+ " failed: " +:+ e)%string.

Definition cancel_attempt x c (attempt : Z) w (r : ExecutionResult) : HaltWorld C * ExecutionResult * bool :=
  let limit := max_cancel_retries (kx_config x) in
  let failed (s : C) e :=
    (before_retry x attempt limit (on_broker s w), add_exec_errors [attempt_error "Cancel orders" attempt e] r, false) in
  match cn_open_orders c (hw_conn w) with
  | (s, Raise e) => failed s e
  | (s, Ok []) => (log_action "cancel_orders_none_open" [] (on_broker s w), r, true)
  | (s, Ok open) =>
      match cn_cancel_all c s with
      | (s, Raise e) => failed s e
      | (s, Ok b) =>
          let r := add_exec_errors (bc_errors b) (set_cancel_counts (bc_cancelled b) (bc_failed b) r) in
          let w :=
            log_action "cancel_orders_result"
              [("attempt", VInt (attempt + 1)); ("total_open", VInt (Z.of_nat (List.length open)));
               ("cancelled", VInt (bc_cancelled b)); ("failed", VInt (bc_failed b))]%string (on_broker s w) in
          if bc_failed b =? 0 then (w, set_exec_success true r, true)
          else (before_retry x attempt limit w, r, false)
      end
  end.

Fixpoint cancel_attempts x c (left : nat) (attempt : Z) w (r : ExecutionResult) : HaltWorld C * ExecutionResult :=
  match left with
  | O => (w, set_exec_success (xr_failed_to_cancel r =? 0) r)
  | S n =>
      let '(w, r, returned) := cancel_attempt x c attempt w r in
      if returned then (w, r) else cancel_attempts x c n (attempt + 1) w r
  end.

Definition execute_cancel_orders x w : HaltWorld C * ExecutionResult :=
  match has_broker w with
  | None => (w, set_exec_success false (add_exec_errors [no_broker_error] new_exec_result))
  | Some c =>
      cancel_attempts x c (Z.to_nat (max_cancel_retries (kx_config x))) 0 (log_action "cancel_orders_started" [] w)
        new_exec_result
  end.

(** ** Flattening: [_execute_flatten_positions] *)

Definition close_errors (l : list OrderResult) : list string :=
  omap (fun r => if negb (or_success r) && truthy (or_error r) then or_error r else None) l.

Definition count_results (f : OrderResult -> bool) (l : list OrderResult) : Z :=
  Z.of_nat (List.length (List.filter f l)).

Definition flatten_attempt x c (attempt : Z) w (r : ExecutionResult) : HaltWorld C * ExecutionResult * bool :=
  let limit := max_flatten_retries (kx_config x) in
  let failed (s : C) e :=
    (before_retry x attempt limit (on_broker s w), add_exec_errors [attempt_error "Flatten positions" attempt e] r,
     false) in
  match cn_positions c (hw_conn w) with
  | (s, Raise e) => failed s e
  | (s, Ok []) => (log_action "flatten_positions_none_open" [] (on_broker s w), r, true)
  | (s, Ok positions) =>
      match cn_close_all c s with
      | (s, Raise e) => failed s e
      | (s, Ok rs) =>
          let ok := count_results or_success rs in
          let bad := count_results (fun r => negb (or_success r)) rs in
          let r := add_exec_errors (close_errors rs) (set_flatten_counts ok bad r) in
          let w :=
            log_action "flatten_positions_result"
              [("attempt", VInt (attempt + 1)); ("total_positions", VInt (Z.of_nat (List.length positions)));
               ("flattened", VInt ok); ("failed", VInt bad)]%string (on_broker s w) in
          if bad =? 0 then (w, set_exec_success true r, true)
          else (before_retry x attempt limit w, r, false)
      end
  end.

Fixpoint flatten_attempts x c (left : nat) (attempt : Z) w (r : ExecutionResult) : HaltWorld C * ExecutionResult :=
  match left with
  | O => (w, set_exec_success (xr_failed_to_flatten r =? 0) r)
  | S n =>
      let '(w, r, returned) := flatten_attempt x c attempt w r in
      if returned then (w, r) else flatten_attempts x c n (attempt + 1) w r
  end.

Definition execute_flatten_positions x w : HaltWorld C * ExecutionResult :=
  match has_broker w with
  | None => (w, set_exec_success false (add_exec_errors [no_broker_error] new_exec_result))
  | Some c =>
      flatten_attempts x c (Z.to_nat (max_flatten_retries (kx_config x))) 0
        (log_action "flatten_positions_started" [] w) new_exec_result
  end.

(** ** The callbacks of the kill switch *)

Definition cancel_all_orders x w : HaltWorld C * Z :=
  let '(w, r) := execute_cancel_orders x w in (w, xr_cancelled r).

Definition flatten_all_positions x w : HaltWorld C * bool :=
  if negb (flatten_on_trigger (kx_config x)) then (w, false)
  else
    let '(w, r) := execute_flatten_positions x w in (w, xr_failed_to_flatten r =? 0).

(** ** [execute_halt] *)

(** [(end - start).total_seconds() * 1000], exact below [2^53] microseconds. *)
Definition elapsed_ms (t0 t1 : Z) : pyfloat :=
  fmul (fdiv (float_of_int (t1 - t0)) (float_of_int 1000000)) (float_of_int 1000).

(** The cancelling part. *)
Definition halt_cancel x (a : HaltAction) w (r : ExecutionResult) : HaltWorld C * ExecutionResult :=
  if bool_decide (a = HALT_ONLY) then (w, r)
  else
    let '(w, cr) := execute_cancel_orders x w in
    let r := add_exec_errors (xr_errors cr) (set_cancel_counts (xr_cancelled cr) (xr_failed_to_cancel cr) r) in
    (w, if 0 <? xr_failed_to_cancel cr then set_exec_success false r else r).

(** The flattening part. *)
Definition halt_flatten x (a : HaltAction) w (r : ExecutionResult) : HaltWorld C * ExecutionResult :=
  if negb (wants_flatten a) then (w, r)
  else if flatten_on_trigger (kx_config x) then
    let '(w, fr) := execute_flatten_positions x w in
    let r := add_exec_errors (xr_errors fr) (set_flatten_counts (xr_flattened fr) (xr_failed_to_flatten fr) r) in
    (w, if 0 <? xr_failed_to_flatten fr then set_exec_success false r else r)
  else
    (log_action "flatten_skipped" [("reason", VStr "flatten_on_trigger is disabled in local policy")]%string w, r).

Definition execute_halt (t0 t1 : Z) (a : HaltAction) (reason : HaltReason) x w :
    KillSwitchExecutor * HaltWorld C * ExecutionResult :=
  let w :=
    log_action "halt_initiated"
      [("action", VStr (halt_action_value a)); ("reason_type", VStr (halt_type_name (reason_type reason)));
       ("severity", VStr (severity_value (hr_severity reason))); ("message", VStr (hr_message reason))]%string w in
  let '(w, r) := halt_cancel x a w new_exec_result in
  let '(w, r) := halt_flatten x a w r in
  let r := set_exec_time (elapsed_ms t0 t1) r in
  (MkKx (kx_config x) (push_bounded 100 (kx_history x) r),
   log_action "halt_completed"
     [("success", VBool (xr_success r)); ("orders_cancelled", VInt (xr_cancelled r));
      ("positions_flattened", VInt (xr_flattened r)); ("execution_time_ms", VFloat (xr_time_ms r));
      ("errors", VStrs (xr_errors r))]%string w,
   r).

(** [get_status]; an execution never has details. *)
Definition executor_status x w : dict :=
  [("has_broker", VBool (bool_decide (is_Some (has_broker w))));
   ("config", VDict [("cancel_on_trigger", VBool (cancel_on_trigger (kx_config x)));
                     ("flatten_on_trigger", VBool (flatten_on_trigger (kx_config x)))]%string);
   ("last_execution", match last (kx_history x) with Some _ => VDict [] | None => VNone end);
   ("execution_count", VInt (Z.of_nat (List.length (kx_history x))))]%string.

(** ** The kill switch with the executor's callbacks *)

(** What the callbacks of [create_kill_switch_with_broker] do and answer in one call of
    [trigger], which calls them only when it is not triggered already, and only those its
    action wants. *)
Definition wired_callbacks (on_trigger : bool) (a : HaltAction) (k : KillSwitch) x w : HaltWorld C * KsEnv :=
  let called := negb (ks_triggered k) in
  let '(w, n) := if called && wants_cancel a then cancel_all_orders x w else (w, 0) in
  let '(w, b) :=
    if called && wants_flatten a && allow_flatten_on_halt (ks_config k) then flatten_all_positions x w
    else (w, false) in
  (w, MkKsEnv (Some (Ok n)) (Some (Ok b)) on_trigger).

(** A trigger of that manager, for a reason whose details can be printed: the others raise,
    see [KillEvidence]. *)
Definition trigger_with_broker (on_trigger : bool) (now : Z) (eid : string) (r : HaltReason) (a : HaltAction)
    (k : KillSwitch) x w : KillSwitch * HaltWorld C :=
  let '(w, env) := wired_callbacks on_trigger a k x w in
  ((trigger k env now eid r a).1, w).
End Executor.

(** * Theorems on halting at the broker

    Positions are closed only under the local policy, whatever is triggered; a trigger
    of the kill switch clears the paper broker of its orders, and of its positions when
    flattening is allowed; and runs in which the report of the executor misleads. *)
From S2P Require Import SimBroker SimBrokerProps.

(** ** Positions are closed only under the local policy *)

Section Policy.
Context {C : Type}.
Implicit Types (c : Connector C) (w : HaltWorld C) (x : KillSwitchExecutor).

(** The calls that reach the executor. *)
Inductive halt_op :=
  | Trigger (notify : bool) (now : Z) (eid : string) (r : HaltReason) (a : HaltAction)
  | ExecuteHalt (t0 t1 : Z) (a : HaltAction) (r : HaltReason)
  | CancelOrdersFn
  | FlattenFn.

Definition halt_state : Type := KillSwitch * KillSwitchExecutor * HaltWorld C.

Definition halt_step c (st : halt_state) (op : halt_op) : halt_state :=
  let '(k, x, w) := st in
  match op with
  | Trigger notify now eid r a => let '(k, w) := trigger_with_broker (Some c) notify now eid r a k x w in (k, x, w)
  | ExecuteHalt t0 t1 a r => let '(x, w, _) := execute_halt (Some c) t0 t1 a r x w in (k, x, w)
  | CancelOrdersFn => (k, x, (cancel_all_orders (Some c) x w).1)
  | FlattenFn => (k, x, (flatten_all_positions (Some c) x w).1)
  end.

Definition halt_run c (ops : list halt_op) (st : halt_state) : halt_state := fold_left (halt_step c) ops st.

(** The connector with another way of closing positions. *)
Definition closing (f : C -> C * pyres string (list OrderResult)) c : Connector C :=
  MkConnector (cn_name c) (cn_connected c) (cn_submit c) (cn_cancel c) (cn_cancel_all c) (cn_replace c) (cn_order c)
    (cn_open_orders c) (cn_positions c) f (cn_last_price c) (cn_book c).

Lemma cancel_attempts_closing f c x n i w r : cancel_attempts x (closing f c) n i w r = cancel_attempts x c n i w r.
Proof.
  revert i w r. induction n as [|n IH]; intros i w r; [done|]. cbn [cancel_attempts].
  change (cancel_attempt x (closing f c) i w r) with (cancel_attempt x c i w r).
  destruct (cancel_attempt x c i w r) as [[w' r'] []]; [done|apply IH].
Qed.

Lemma execute_cancel_closing f c x w :
  execute_cancel_orders (Some (closing f c)) x w = execute_cancel_orders (Some c) x w.
Proof.
  unfold execute_cancel_orders, has_broker. change (cn_connected (closing f c)) with (cn_connected c).
  destruct (cn_connected c (hw_conn w)); [apply cancel_attempts_closing|done].
Qed.

Lemma halt_step_config c k x w op : kx_config (halt_step c (k, x, w) op).1.2 = kx_config x.
Proof.
  destruct op; cbn [halt_step].
  - unfold trigger_with_broker. by destruct (wired_callbacks _ _ _ _ _ _).
  - unfold execute_halt. destruct (halt_cancel _ _ _ _ _) as [w1 r1]. by destruct (halt_flatten _ _ _ _ _).
  - done.
  - done.
Qed.

Lemma halt_step_closing f c k x w op :
  flatten_on_trigger (kx_config x) = false ->
  halt_step (closing f c) (k, x, w) op = halt_step c (k, x, w) op.
Proof.
  intros Hx. destruct op as [notify now eid r a|t0 t1 a r| |]; cbn [halt_step].
  - unfold trigger_with_broker, wired_callbacks, cancel_all_orders, flatten_all_positions. by rewrite !execute_cancel_closing, Hx.
  - unfold execute_halt, halt_cancel, halt_flatten. by rewrite execute_cancel_closing, Hx.
  - unfold cancel_all_orders. by rewrite execute_cancel_closing.
  - unfold flatten_all_positions. by rewrite Hx.
Qed.

(** C6: Unless the local policy allows flattening, nothing that reaches the executor
    closes a position: whatever is triggered, executed or called, in any order and with any
    action, everything goes as with a broker that does something else, anything, when it
    is asked to close its positions. *)
Theorem flatten_needs_local_policy f c ops k x w :
  flatten_on_trigger (kx_config x) = false ->
  halt_run (closing f c) ops (k, x, w) = halt_run c ops (k, x, w).
Proof.
  revert k x w. induction ops as [|op ops IH]; intros k x w Hx; [done|].
  unfold halt_run. cbn [fold_left]. rewrite halt_step_closing by done.
  pose proof (halt_step_config c k x w op) as Hc. destruct (halt_step c (k, x, w) op) as [[k' x'] w'].
  apply IH. cbn [fst snd] in Hc. by rewrite Hc.
Qed.
End Policy.

(** ** The paper broker after a halt *)

Section Paper.
Context (name : string) (now : Z).
Implicit Types (x : KillSwitchExecutor) (w : HaltWorld SimBroker).

Abbreviation sim := (Some (sim_connector name now)).

Lemma cancel_all_keeps s :
  let s' := (cancel_all_sim now None s).1 in
  sb_ratio s' = sb_ratio s /\ sb_prices s' = sb_prices s /\ sb_seq s' = sb_seq s /\ sb_connected s' = sb_connected s /\
  sb_positions s' = sb_positions s /\ (forall k, dget (sb_orders s) k = None -> dget (sb_orders s') k = None).
Proof.
  unfold cancel_all_sim.
  assert (forall l acc, let s1 := (fold_left (cancel_open now None) l acc).1 in
    sb_ratio s1 = sb_ratio acc.1 /\ sb_prices s1 = sb_prices acc.1 /\ sb_seq s1 = sb_seq acc.1 /\
    sb_connected s1 = sb_connected acc.1 /\ sb_positions s1 = sb_positions acc.1 /\
    (forall k, dget (sb_orders acc.1) k = None -> dget (sb_orders s1) k = None)) as Hl.
  { induction l as [|ko l IH]; intros acc; [by split_and!|]. cbn [fold_left].
    specialize (IH (cancel_open now None acc ko)). cbn zeta in IH |- *.
    destruct IH as (-> & -> & -> & -> & -> & H). unfold cancel_open in *. cbn [truthy andb] in *.
    destruct (working _); [|by split_and!].
    assert (exists s1 r, cancel_sim now ko.1 acc.1 = (s1, r) /\ sb_ratio s1 = sb_ratio acc.1 /\
      sb_prices s1 = sb_prices acc.1 /\ sb_seq s1 = sb_seq acc.1 /\ sb_connected s1 = sb_connected acc.1 /\
      sb_positions s1 = sb_positions acc.1 /\
      (forall k, dget (sb_orders acc.1) k = None -> dget (sb_orders s1) k = None)) as (s1 & r & E & Hr & Hp & Hs & Hc & Hq & Hk).
    { unfold cancel_sim. destruct (truthy (Some ko.1)).
      - destruct (dget (sb_orders acc.1) ko.1) as [o|] eqn:Ho; [|eexists _, _; by split_and!].
        destruct (finished _); [eexists _, _; by split_and!|]. eexists _, _. split; [done|]. split_and!; try done.
        intros k Hn. cbn [sb_orders with_orders]. rewrite dget_dset_ne; [done|congruence].
      - eexists _, _. by split_and!. }
    rewrite E in *. cbn [fst] in *. split_and!; [done..|]. intros k Hn. by apply H, Hk. }
  specialize (Hl (sb_orders s) (s, [])). by destruct (fold_left _ _ _).
Qed.

(** Cancelling through the executor leaves no open order at the paper broker. *)
Lemma execute_cancel_sim x w :
  0 < max_cancel_retries (kx_config x) -> sb_connected (hw_conn w) = true -> keys_ok (hw_conn w) ->
  let '(w', r) := execute_cancel_orders sim x w in
  open_orders (hw_conn w') = [] /\ xr_cancelled r = Z.of_nat (List.length (open_orders (hw_conn w))) /\
  (hw_conn w' = hw_conn w \/ hw_conn w' = (cancel_all_sim now None (hw_conn w)).1).
Proof.
  intros Hn Hc Hk. unfold execute_cancel_orders, has_broker. cbn [cn_connected sim_connector]. rewrite Hc.
  destruct (Z.to_nat (max_cancel_retries (kx_config x))) as [|m] eqn:Em; [lia|]. cbn [cancel_attempts].
  unfold cancel_attempt. cbn [cn_open_orders cn_cancel_all sim_connector hw_conn log_action].
  destruct (open_orders (hw_conn w)) as [|o l] eqn:Eo.
  - cbn. rewrite Eo. split_and!; [done|done|by left].
  - pose proof (cancel_all_clears now (hw_conn w) Hk) as Hs. unfold no_raise.
    destruct (cancel_all_sim now None (hw_conn w)) as [s' b]. cbn [fst snd]. destruct Hs as (Ho & Hf & Hb & _).
    rewrite Hf. cbn. rewrite Hb, Eo. split_and!; [done|done|by right].
Qed.

Lemma can_flatten_kept s : can_flatten s -> can_flatten (cancel_all_sim now None s).1.
Proof.
  intros (Hr & [Hs Hf] & Hnd & Hc). destruct (cancel_all_keeps s) as (Er & Ep & Es & _ & Eq & Ek).
  unfold can_flatten, close_ids_free, closable, get_last_price in *. rewrite Er, Ep, Es, Eq.
  split_and!; [done|done| |done|done]. intros sym n Hn. by apply Ek, Hf.
Qed.

Lemma count_none {A} (f : A -> bool) l : Forall (fun y => f y = false) l -> List.filter f l = [].
Proof. induction 1 as [|y l Hy _ IH]; [done|]. cbn. by rewrite Hy. Qed.

(** Flattening through the executor leaves no position. *)
Lemma execute_flatten_sim x w :
  0 < max_flatten_retries (kx_config x) -> sb_connected (hw_conn w) = true -> can_flatten (hw_conn w) ->
  open_orders (hw_conn w) = [] ->
  let '(w', r) := execute_flatten_positions sim x w in
  get_sim_positions (hw_conn w') = [] /\ open_orders (hw_conn w') = [] /\ xr_failed_to_flatten r = 0.
Proof.
  intros Hn Hc Hf Ho. unfold execute_flatten_positions, has_broker. cbn [cn_connected sim_connector]. rewrite Hc.
  destruct (Z.to_nat (max_flatten_retries (kx_config x))) as [|m] eqn:Em; [lia|]. cbn [flatten_attempts].
  unfold flatten_attempt. cbn [cn_positions cn_close_all sim_connector hw_conn log_action].
  destruct (get_sim_positions (hw_conn w)) as [|p l] eqn:Ep; [by cbn|].
  destruct (close_all_flattens now (hw_conn w) Hf) as (s' & rs & -> & Hok & _ & Hpos & Hopen).
  assert (count_results (fun r => negb (or_success r)) rs = 0) as ->.
  { unfold count_results. rewrite count_none; [done|]. eapply Forall_impl; [exact Hok|]. intros r Hr. cbn in *. by rewrite Hr. }
  cbn. split_and!; [done|by apply Hopen|done].
Qed.

Lemma cancel_fn_sim x w :
  0 < max_cancel_retries (kx_config x) -> sb_connected (hw_conn w) = true -> keys_ok (hw_conn w) ->
  let '(w', n) := cancel_all_orders sim x w in
  open_orders (hw_conn w') = [] /\ n = Z.of_nat (List.length (open_orders (hw_conn w))) /\
  sb_connected (hw_conn w') = true /\ sb_positions (hw_conn w') = sb_positions (hw_conn w) /\
  (can_flatten (hw_conn w) -> can_flatten (hw_conn w')).
Proof.
  intros Hn Hc Hk. unfold cancel_all_orders. pose proof (execute_cancel_sim x w Hn Hc Hk) as Hx.
  destruct (execute_cancel_orders sim x w) as [w' r]. destruct Hx as (Ho & Hr & Hw).
  destruct (cancel_all_keeps (hw_conn w)) as (_ & _ & _ & Ec & Ep & _).
  destruct Hw as [Hw|Hw]; rewrite Hw in *; split_and!; try done; [congruence|apply can_flatten_kept].
Qed.

Lemma trigger_current k env t eid r a :
  ks_triggered k = false ->
  ks_triggered (trigger k env t eid r a).1 = true /\
  current_halt (trigger k env t eid r a).1 = Some (halt_event k env eid r a).
Proof.
  intros Hk. unfold trigger. rewrite Hk. split; [done|]. unfold current_halt. cbn [fst save_history ks_has_current ks_history].
  destruct (push_bounded_snoc MAX_HALT_HISTORY (ks_history k) (halt_event k env eid r a)) as [p ->]; [done|].
  by rewrite last_snoc.
Qed.

End Paper.

(** ** Concrete runs *)

Definition fl (n : Z) : pyfloat := float_of_int n.

(** A paper broker that fills a share of each order, after a purchase and a short sale. *)
Definition buy_request (coid sym : string) (q : dec) : OrderRequest :=
  MkRequest coid sym BK_BUY BK_MARKET q None None TIF_DAY None.
Definition sell_request (coid sym : string) (q : dec) : OrderRequest :=
  MkRequest coid sym BK_SELL BK_MARKET q None None TIF_DAY None.

Definition traded (ratio : pyfloat) : SimBroker :=
  sim_run [SubmitOrder 0 (buy_request "c1" "AAPL" (Dec 100 0)); SubmitOrder 1 (sell_request "c2" "MSFT" (Dec 255 (-1)))]%string
    (default (MkSim "" [] dzero dzero dzero dzero true [] [] [] 0)
       (new_sim "sim" [("AAPL", fl 150); ("MSFT", fl 300)]%string (fl 100000) ratio fzero)).

Definition half : pyfloat := float_of_dec (Dec 5 (-1)).

Definition halt_world (s : SimBroker) : HaltWorld SimBroker := MkHaltWorld s [] [].

Definition flattening : KillSwitchExecutor := new_executor (Some (MkKxConfig true true 30 3 2 (fl 1) true)).

Definition manual_reason : HaltReason := MkReason "r1" MANUAL_TRIGGER CRITICAL "stop" [] 0 "user" None true.

Definition flat_switch : KillSwitch :=
  new_kill_switch
    (Some (MkKsConfig (Dec 30 (-2)) (Dec 50 (-2)) 5 20 3 5000 60 3 10 100 (Dec 1 (-2)) 30 60 5 300 true true)) [].


(** A purchase, a trigger that wants to flatten, and the direct calls. *)
Lemma flatten_needs_local_policy_witness :
  let x := new_executor None in
  let ops := [Trigger true 5 "e1" manual_reason FLATTEN_EMERGENCY; ExecuteHalt 6 7 FLATTEN_LOCAL manual_reason; FlattenFn]%string in
  let st := (flat_switch, x, halt_world (traded (fl 1))) in
  flatten_on_trigger (kx_config x) = false /\
  halt_run (closing (fun s => (s, Raise "refused"%string)) (sim_connector "sim" 5)) ops st
  = halt_run (sim_connector "sim" 5) ops st.
Proof.
  split; [reflexivity|]. apply flatten_needs_local_policy. reflexivity.
Defined.

(** Without a broker nothing is cancelled, and the halt is reported as a success. *)
Theorem halt_without_broker_succeeds :
  let r := (execute_halt (C := unit) None 0 0 FLATTEN_LOCAL manual_reason flattening (MkHaltWorld tt [] [])).2 in
  xr_success r = true /\ xr_errors r = [no_broker_error; no_broker_error] /\
  (flatten_all_positions (C := unit) None flattening (MkHaltWorld tt [] [])).2 = true.
Proof. vm_compute. repeat split. Qed.

(** A broker of which every call raises: the halt is reported as a success. *)
Definition failing_connector : Connector unit :=
  let bad {A} (u : unit) : unit * pyres string A := (u, Raise "down"%string) in
  MkConnector "down" (fun _ => true) (fun u _ => bad u) (fun u _ _ => bad u) bad None (fun u _ => (u, Raise tt)) bad bad bad
    (fun u _ => (u, Raise tt)) None.

Theorem halt_of_failing_broker_succeeds :
  let '(_, w, r) := execute_halt (Some failing_connector) 0 0 FLATTEN_LOCAL manual_reason flattening (MkHaltWorld tt [] []) in
  xr_success r = true /\ List.length (xr_errors r) = 5%nat /\ List.length (hw_sleeps w) = 3%nat /\
  (flatten_all_positions (Some failing_connector) flattening (MkHaltWorld tt [] [])).2 = true.
Proof. vm_compute. repeat split. Qed.

(** A broker that fills half of every order: flattening is reported as complete, with
    half of the positions left. *)
Theorem partial_close_reported_flat :
  let '(k, w) := trigger_with_broker (Some (sim_connector "sim" 5)) true 5 "e1" manual_reason FLATTEN_LOCAL flat_switch
                   flattening (halt_world (traded half)) in
  (positions_flattened <$> current_halt k) = Some true /\
  map (fun p => (bp_symbol p, deqb (bp_quantity p) dzero)) (get_sim_positions (hw_conn w))
  = [("AAPL", false); ("MSFT", false)]%string.
Proof. vm_compute. split; reflexivity. Qed.

(** The closing orders of a broker that fills in part stay open after the halt. *)
Theorem halt_leaves_closing_orders :
  let '(_, w) := trigger_with_broker (Some (sim_connector "sim" 5)) true 5 "e1" manual_reason FLATTEN_LOCAL flat_switch
                   flattening (halt_world (traded half)) in
  map oi_client_order_id (open_orders (hw_conn w)) = ["close_AAPL_3"; "close_MSFT_4"]%string.
Proof. vm_compute. reflexivity. Qed.

(** A broker that refuses one cancellation, then has nothing open. *)
Definition slow_connector : Connector (list string) :=
  MkConnector "slow" (fun _ => true) (fun l _ => (l, Raise "no"%string)) (fun l _ _ => (l, Raise "no"%string))
    (fun l => ([], Ok (MkBulkCancel 2 1 1 [] [])))
    None (fun l _ => (l, Ok None))
    (fun l => (l, Ok (map (fun c => MkOrderInfo c None "AAPL" BK_BUY BK_MARKET (Dec 1 0) dzero None None None SUBMITTED
                                      TIF_DAY dzero None None None) l)))
    (fun l => (l, Ok [])) (fun l => (l, Ok [])) (fun l _ => (l, Ok None)) None.

(** The report keeps the failure of an earlier attempt when nothing is open any more. *)
Theorem earlier_failure_is_reported :
  let '(_, w, r) := execute_halt (Some slow_connector) 0 0 CANCEL_ORDERS manual_reason flattening
                      (MkHaltWorld ["c1"; "c2"]%string [] []) in
  hw_conn w = [] /\ xr_success r = false /\ xr_failed_to_cancel r = 1.
Proof. vm_compute. repeat split. Qed.
