(* ===== verification/Daemon.v ===== *)
(** * The agent daemon: [packages/agent/daemon/agentd.py]

    [AgentDaemon]: the life cycle (initialize, start, stop, pause, resume, halt, reset)
    over the kill switch with its executor, the degraded mode manager, the approval
    manager, the command journal and the telemetry buffer.  Commands from the cloud are in
    [CloudCommands].

    The agent id and the cloud token, which the daemon sets in its configuration, are part
    of the state.  Code outside the modelled components answers through the records of
    this file: the preflight checks, the sandbox, the threads, the files and the cloud's
    answer to an enrolment.  The telemetry buffer is the list of the events it was handed.
    Callbacks only observe: the states announced and the reasons notified are lists.
    [me] is the heartbeat thread a method runs in, by the number it was started with, or
    none; one method runs at a time. *)
From Stdlib Require Import SpecFloat.
From Stdlib Require Import Ascii String.
From S2P Require Import Prelude PyDecimal DecArith PyFloat PyFormat PyValue PyJson PyText PyRepr Sha256 FloatInt Config.
From S2P Require Import CommandJournal Approval KillSwitch KillEvidence DegradedMode Engine BrokerProtocol KillExecutor.
Open Scope Z_scope.
Open Scope list_scope.

Inductive DaemonState :=
  | CREATED | INITIALIZING | ENROLLING | IDLE | RUNNING | PAUSED | STOPPING | STOPPED | HALTED | ERROR.

#[export] Instance DaemonState_eq_dec : EqDecision DaemonState.
Proof. solve_decision. Defined.

Definition daemon_state_name (s : DaemonState) : string :=
  match s with
  | CREATED => "CREATED"
  | INITIALIZING => "INITIALIZING"
  | ENROLLING => "ENROLLING"
  | IDLE => "IDLE"
  | RUNNING => "RUNNING"
  | PAUSED => "PAUSED"
  | STOPPING => "STOPPING"
  | STOPPED => "STOPPED"
  | HALTED => "HALTED"
  | ERROR => "ERROR"
  end%string.

Record DaemonConfig := MkDaemonConfig {
  dc_agent_id : option string;
  dc_agent_name : string;
  dc_agent_version : string;
  dc_cloud_endpoint : option string;
  dc_heartbeat_interval_seconds : Z;
  dc_enrollment_token : option string;
  dc_access_token : option string;
  dc_data_dir : string;
  dc_kill_switch : option KillSwitchConfig;
  dc_executor : option KillSwitchExecutorConfig;
  dc_degraded : option DegradedModeConfig;
  dc_auto_recover : bool;
  dc_require_preflight : bool;
  dc_enable_telemetry : bool
}.

Definition default_daemon_config : DaemonConfig :=
  MkDaemonConfig None "ccea-agent" "1.0.0" None 30 None None "~/.ccea" None None None true true true.

(** [to_dict], with the agent id and the token of the moment. *)
Definition masked (o : option string) : pyval := if truthy o then VStr "***" else VNone.

Definition daemon_config_to_dict (c : DaemonConfig) (agent_id token : option string) : dict :=
  [("agent_id", v_opt_str agent_id); ("agent_name", VStr (dc_agent_name c));
   ("agent_version", VStr (dc_agent_version c)); ("cloud_endpoint", v_opt_str (dc_cloud_endpoint c));
   ("cloud_enrollment_token", masked (dc_enrollment_token c)); ("cloud_access_token", masked token);
   ("heartbeat_interval_seconds", VInt (dc_heartbeat_interval_seconds c)); ("data_dir", VStr (dc_data_dir c));
   ("auto_recover", VBool (dc_auto_recover c)); ("require_preflight", VBool (dc_require_preflight c))]%string.

Record DaemonStatus := MkDaemonStatus {
  st_agent_id : string;
  st_state : DaemonState;
  st_time : Z;
  st_started_at : option Z;
  st_uptime : Z;
  st_vault_unlocked : bool;
  st_cloud_connected : bool;
  st_broker_connected : bool;
  st_kill_switch_triggered : bool;
  st_kill_switch_reason : option string;
  st_degraded_mode : DegradedMode;
  st_degraded_action : DegradedModeAction;
  st_active_run_id : option string;
  st_active_strategy : option string;
  st_orders_today : Z;
  st_fills_today : Z;
  st_pnl_today : dec
}.

Definition new_status (now : Z) (agent_id : string) : DaemonStatus :=
  MkDaemonStatus agent_id CREATED now None 0 false false false false None NORMAL CONTINUE None None 0 0 dzero.

Definition status_to_dict (s : DaemonStatus) : dict :=
  [("agent_id", VStr (st_agent_id s)); ("state", VStr (daemon_state_name (st_state s)));
   ("timestamp", VStr (isoformat (st_time s))); ("started_at", v_opt_str (isoformat <$> st_started_at s));
   ("uptime_seconds", VSecs (st_uptime s)); ("vault_unlocked", VBool (st_vault_unlocked s));
   ("cloud_connected", VBool (st_cloud_connected s)); ("broker_connected", VBool (st_broker_connected s));
   ("kill_switch_triggered", VBool (st_kill_switch_triggered s));
   ("kill_switch_reason", v_opt_str (st_kill_switch_reason s)); ("degraded_mode", VStr (mode_name (st_degraded_mode s)));
   ("degraded_action", VStr (action_value (st_degraded_action s))); ("active_run_id", v_opt_str (st_active_run_id s));
   ("active_strategy", v_opt_str (st_active_strategy s)); ("orders_today", VInt (st_orders_today s));
   ("fills_today", VInt (st_fills_today s)); ("pnl_today", VStr (dec_str (st_pnl_today s)))]%string.

(** An event handed to the telemetry buffer: its type, its data and the active run. *)
Record Telemetry := MkTelemetry { te_type : string; te_data : dict; te_run_id : option string }.

(** The part of the state that belongs to the commands of the cloud. *)
Record CommandTracking := MkTracking {
  ct_journal : option commands;
  ct_executed : gset string;
  ct_pending : list (string * string);
  ct_submitted : gset string
}.

Record Daemon := MkDaemon {
  d_config : DaemonConfig;
  d_agent_id : string;
  d_token : option string;
  d_state : DaemonState;
  d_started_at : option Z;
  d_status : DaemonStatus;
  d_switch : option (KillSwitch * KillSwitchExecutor);
  d_degraded : option DmState;
  d_telemetry : option (list Telemetry);
  d_approvals : ApprovalManager;
  d_commands : CommandTracking;
  d_has_client : bool;
  d_has_sandbox : bool;
  d_stop_set : bool;
  d_heartbeat : option nat;
  d_threads : nat;
  d_file : option (string * option string);
  d_emitted : list DaemonState;
  d_notified : list HaltReason
}.

Implicit Types d : Daemon.

Definition with_state (s : DaemonState) d : Daemon :=
  MkDaemon (d_config d) (d_agent_id d) (d_token d) s (d_started_at d) (d_status d) (d_switch d) (d_degraded d)
    (d_telemetry d) (d_approvals d) (d_commands d) (d_has_client d) (d_has_sandbox d) (d_stop_set d) (d_heartbeat d)
    (d_threads d) (d_file d) (d_emitted d) (d_notified d).
Definition with_identity (id : string) (token : option string) d : Daemon :=
  MkDaemon (d_config d) id token (d_state d) (d_started_at d) (d_status d) (d_switch d) (d_degraded d)
    (d_telemetry d) (d_approvals d) (d_commands d) (d_has_client d) (d_has_sandbox d) (d_stop_set d) (d_heartbeat d)
    (d_threads d) (d_file d) (d_emitted d) (d_notified d).
Definition with_status (st : DaemonStatus) d : Daemon :=
  MkDaemon (d_config d) (d_agent_id d) (d_token d) (d_state d) (d_started_at d) st (d_switch d) (d_degraded d)
    (d_telemetry d) (d_approvals d) (d_commands d) (d_has_client d) (d_has_sandbox d) (d_stop_set d) (d_heartbeat d)
    (d_threads d) (d_file d) (d_emitted d) (d_notified d).
Definition with_switch (k : option (KillSwitch * KillSwitchExecutor)) d : Daemon :=
  MkDaemon (d_config d) (d_agent_id d) (d_token d) (d_state d) (d_started_at d) (d_status d) k (d_degraded d)
    (d_telemetry d) (d_approvals d) (d_commands d) (d_has_client d) (d_has_sandbox d) (d_stop_set d) (d_heartbeat d)
    (d_threads d) (d_file d) (d_emitted d) (d_notified d).
Definition with_degraded (m : option DmState) d : Daemon :=
  MkDaemon (d_config d) (d_agent_id d) (d_token d) (d_state d) (d_started_at d) (d_status d) (d_switch d) m
    (d_telemetry d) (d_approvals d) (d_commands d) (d_has_client d) (d_has_sandbox d) (d_stop_set d) (d_heartbeat d)
    (d_threads d) (d_file d) (d_emitted d) (d_notified d).
Definition with_telemetry (t : option (list Telemetry)) d : Daemon :=
  MkDaemon (d_config d) (d_agent_id d) (d_token d) (d_state d) (d_started_at d) (d_status d) (d_switch d) (d_degraded d)
    t (d_approvals d) (d_commands d) (d_has_client d) (d_has_sandbox d) (d_stop_set d) (d_heartbeat d)
    (d_threads d) (d_file d) (d_emitted d) (d_notified d).
Definition with_commands (m : ApprovalManager) (c : CommandTracking) d : Daemon :=
  MkDaemon (d_config d) (d_agent_id d) (d_token d) (d_state d) (d_started_at d) (d_status d) (d_switch d) (d_degraded d)
    (d_telemetry d) m c (d_has_client d) (d_has_sandbox d) (d_stop_set d) (d_heartbeat d)
    (d_threads d) (d_file d) (d_emitted d) (d_notified d).
Definition with_parts (client sandbox : bool) d : Daemon :=
  MkDaemon (d_config d) (d_agent_id d) (d_token d) (d_state d) (d_started_at d) (d_status d) (d_switch d) (d_degraded d)
    (d_telemetry d) (d_approvals d) (d_commands d) client sandbox (d_stop_set d) (d_heartbeat d)
    (d_threads d) (d_file d) (d_emitted d) (d_notified d).
Definition with_threads (started : option Z) (stop_set : bool) (heartbeat : option nat) (n : nat) d : Daemon :=
  MkDaemon (d_config d) (d_agent_id d) (d_token d) (d_state d) started (d_status d) (d_switch d) (d_degraded d)
    (d_telemetry d) (d_approvals d) (d_commands d) (d_has_client d) (d_has_sandbox d) stop_set heartbeat n
    (d_file d) (d_emitted d) (d_notified d).
Definition with_file (f : option (string * option string)) d : Daemon :=
  MkDaemon (d_config d) (d_agent_id d) (d_token d) (d_state d) (d_started_at d) (d_status d) (d_switch d) (d_degraded d)
    (d_telemetry d) (d_approvals d) (d_commands d) (d_has_client d) (d_has_sandbox d) (d_stop_set d) (d_heartbeat d)
    (d_threads d) f (d_emitted d) (d_notified d).
Definition with_calls (emitted : list DaemonState) (notified : list HaltReason) d : Daemon :=
  MkDaemon (d_config d) (d_agent_id d) (d_token d) (d_state d) (d_started_at d) (d_status d) (d_switch d) (d_degraded d)
    (d_telemetry d) (d_approvals d) (d_commands d) (d_has_client d) (d_has_sandbox d) (d_stop_set d) (d_heartbeat d)
    (d_threads d) (d_file d) emitted notified.

Definition set_run_id (r : option string) (s : DaemonStatus) : DaemonStatus :=
  MkDaemonStatus (st_agent_id s) (st_state s) (st_time s) (st_started_at s) (st_uptime s) (st_vault_unlocked s)
    (st_cloud_connected s) (st_broker_connected s) (st_kill_switch_triggered s) (st_kill_switch_reason s)
    (st_degraded_mode s) (st_degraded_action s) r (st_active_strategy s) (st_orders_today s) (st_fills_today s)
    (st_pnl_today s).
Definition set_agent (id : string) (s : DaemonStatus) : DaemonStatus :=
  MkDaemonStatus id (st_state s) (st_time s) (st_started_at s) (st_uptime s) (st_vault_unlocked s)
    (st_cloud_connected s) (st_broker_connected s) (st_kill_switch_triggered s) (st_kill_switch_reason s)
    (st_degraded_mode s) (st_degraded_action s) (st_active_run_id s) (st_active_strategy s) (st_orders_today s)
    (st_fills_today s) (st_pnl_today s).
Definition set_cloud (b : bool) (s : DaemonStatus) : DaemonStatus :=
  MkDaemonStatus (st_agent_id s) (st_state s) (st_time s) (st_started_at s) (st_uptime s) (st_vault_unlocked s)
    b (st_broker_connected s) (st_kill_switch_triggered s) (st_kill_switch_reason s)
    (st_degraded_mode s) (st_degraded_action s) (st_active_run_id s) (st_active_strategy s) (st_orders_today s)
    (st_fills_today s) (st_pnl_today s).
(** [_emit_state_change] *)
Definition emit d : Daemon := with_calls (d_emitted d ++ [d_state d]) (d_notified d) d.

Definition enter (s : DaemonState) d : Daemon := emit (with_state s d).

(** [_log_event] *)
Definition log_event (ty : string) (data : dict) d : Daemon :=
  match d_telemetry d with
  | Some l => with_telemetry (Some (l ++ [MkTelemetry ty data (st_active_run_id (d_status d))])) d
  | None => d
  end.

Definition state_change : string := "STATE_CHANGE".
Definition error_event : string := "ERROR".
Definition kill_switch_event : string := "KILL_SWITCH".

(** The entries every change of state logs. *)
Definition changed (old new : string) (more : dict) : dict :=
  [("old_state", VStr old); ("new_state", VStr new)]%string ++ more.

Definition is_running d : bool := bool_decide (d_state d = RUNNING) || bool_decide (d_state d = PAUSED).
Definition daemon_halted d : bool := bool_decide (d_state d = HALTED).

Definition switch_triggered d : bool :=
  match d_switch d with
  | Some (k, _) => ks_triggered k
  | None => false
  end.

(** ** Construction and initialization *)

(** [ApprovalManager()] and empty tracking. *)
Definition no_tracking : CommandTracking := MkTracking None ∅ [] ∅.

Definition new_daemon (now : Z) (uuid : string) (config : option DaemonConfig)
    (file : option (string * option string)) : Daemon :=
  let c := default default_daemon_config config in
  let id := if truthy (dc_agent_id c) then default "" (dc_agent_id c) else uuid in
  MkDaemon c id (dc_access_token c) CREATED None (new_status now id) None None None
    (MkManager true 300 false [] [] ∅ None []) no_tracking false false false None 0 file [] [].

(** What initialization finds: the history of halts, the command journal, the cloud's
    answer to an enrolment (agent id and token), and the steps whose outside code raises. *)
Inductive InitStep :=
  | InitDataDir | InitKeychain | InitKillSwitch | InitTimeChecker | InitDegraded | InitTelemetry | InitPreflight
  | InitCloudClient | InitSandbox | InitArtifacts | InitRunController | InitCommandJournal | InitLoadState.

Record InitEnv := MkInitEnv {
  ie_history : list HaltEvent;
  ie_journal : commands;
  ie_enroll : pyres string (string * string);
  ie_raises : InitStep -> option string
}.

Definition init_steps : list InitStep :=
  [InitDataDir; InitKeychain; InitKillSwitch; InitTimeChecker; InitDegraded; InitTelemetry; InitPreflight;
   InitCloudClient; InitSandbox; InitArtifacts; InitRunController; InitCommandJournal; InitLoadState].

(** [_init_cloud_client] *)
Definition init_cloud_client (env : InitEnv) d : Daemon * option string :=
  if negb (truthy (dc_cloud_endpoint (d_config d))) then (d, None)
  else
    let d := with_parts true (d_has_sandbox d) d in
    if negb (truthy (d_token d)) && truthy (dc_enrollment_token (d_config d)) then
      match ie_enroll env with
      | Raise e => (d, Some e)
      | Ok (id, token) => (with_status (set_agent id (d_status d)) (with_identity id (Some token) d), None)
      end
    else (d, None).

(** [_init_command_journal] *)
Definition init_command_journal (j : commands) d : Daemon :=
  let ids := get_executed_command_ids j in
  let c := d_commands d in
  log_event state_change
    [("message", VStr "Command journal initialized"); ("restored_command_count", VInt (Z.of_nat (size ids)))]%string
    (with_commands (d_approvals d) (MkTracking (Some j) ids (ct_pending c) (ct_submitted c)) d).

(** [_load_state], of a file that can be read. *)
Definition load_state d : Daemon :=
  match d_file d with
  | None => d
  | Some (id, token) =>
      let d := if negb (truthy (Some (d_agent_id d))) && truthy (Some id)
               then with_status (set_agent id (d_status d)) (with_identity id (d_token d) d) else d in
      if negb (truthy (d_token d)) && truthy token then with_identity (d_agent_id d) token d else d
  end.

Definition init_step (env : InitEnv) (s : InitStep) d : Daemon * option string :=
  match ie_raises env s with
  | Some e => (d, Some e)
  | None =>
      match s with
      | InitKillSwitch =>
          (with_switch (Some (new_kill_switch (dc_kill_switch (d_config d)) (ie_history env),
                              new_executor (dc_executor (d_config d)))) d, None)
      | InitDegraded => (with_degraded (Some (new_degraded (dc_degraded (d_config d)) true)) d, None)
      | InitTelemetry => (with_telemetry (if dc_enable_telemetry (d_config d) then Some [] else None) d, None)
      | InitCloudClient => init_cloud_client env d
      | InitSandbox => (with_parts (d_has_client d) true d, None)
      | InitCommandJournal => (init_command_journal (ie_journal env) d, None)
      | InitLoadState => (load_state d, None)
      | InitDataDir | InitKeychain | InitTimeChecker | InitPreflight | InitArtifacts | InitRunController => (d, None)
      end
  end.

Fixpoint run_init (env : InitEnv) (l : list InitStep) d : Daemon * option string :=
  match l with
  | [] => (d, None)
  | s :: l =>
      match init_step env s d with
      | (d, None) => run_init env l d
      | (d, Some e) => (d, Some e)
      end
  end.

Definition initialize (env : InitEnv) d : Daemon * bool :=
  if negb (bool_decide (d_state d = CREATED)) then (d, negb (bool_decide (d_state d = ERROR)))
  else
    match run_init env init_steps (enter INITIALIZING d) with
    | (d, None) =>
        (log_event state_change (changed "CREATED" "IDLE" [("message", VStr "Agent daemon initialized")]%string)
           (enter IDLE d), true)
    | (d, Some e) =>
        (log_event error_event [("error_type", VStr "InitializationError"); ("message", VStr e)]%string
           (with_state ERROR d), false)
    end.

(** ** Start, stop, pause, resume *)

(** The preflight checks, and what the sandbox raises. *)
Record StartEnv := MkStartEnv {
  se_preflight : bool * list string;
  se_start : pyres string unit
}.

Definition join_errors (l : list string) : string :=
  string_of_list_ascii (join_chars (chars "; ") (map chars l)).

(** The message of the current halt, or ["unknown"]. *)
Definition halt_message d : string :=
  match d_switch d ≫= (fun kx => current_halt kx.1) with
  | Some e => hr_message (halt_reason e)
  | None => "unknown"
  end%string.

(** The heartbeat thread is started, and is the one that [stop] waits for. *)
Definition start_threads (now : Z) d : Daemon :=
  with_threads (Some now) (d_stop_set d) (Some (d_threads d)) (S (d_threads d)) d.

Definition start (env : StartEnv) (now : Z) (run_id : option string) (uuid : string) d : Daemon * (bool * option string) :=
  if bool_decide (d_state d = RUNNING) then (d, (true, None))
  else if negb (bool_decide (d_state d ∈ [IDLE; STOPPED; PAUSED])) then
    (d, (false, Some ("Cannot start from state " +:+ daemon_state_name (d_state d))%string))
  else if switch_triggered d then (d, (false, Some ("Kill switch triggered: " +:+ halt_message d)%string))
  else if dc_require_preflight (d_config d) && negb (se_preflight env).1 then
    (d, (false, Some ("Preflight failed: " +:+ join_errors (se_preflight env).2)%string))
  else
    let rid := if truthy run_id then run_id else Some uuid in
    let d := start_threads now (emit (with_status (set_run_id rid (d_status d)) (with_state RUNNING d))) in
    match (if d_has_sandbox d then se_start env else Ok tt) with
    | Raise e => (with_state ERROR d, (false, Some e))
    | Ok _ =>
        (log_event state_change (changed "IDLE" "RUNNING" [("run_id", v_opt_str rid)]%string) d, (true, None))
    end.

(** [stop]: a thread cannot join itself; [ok] is whether the sandbox, the telemetry
    buffer and the state file raise nothing. *)
Definition joins_itself (me : option nat) d : bool :=
  match me with
  | Some n => bool_decide (d_heartbeat d = Some n)
  | None => false
  end.

Definition stop (ok : bool) (me : option nat) (reason : string) d : Daemon * bool :=
  if bool_decide (d_state d ∈ [STOPPED; CREATED]) then (d, true)
  else
    let d := enter STOPPING d in
    let d := with_threads (d_started_at d) true (d_heartbeat d) (d_threads d) d in
    if joins_itself me d || negb ok then (with_state ERROR d, false)
    else
      let d := with_file (Some (d_agent_id d, d_token d)) d in
      let d := emit (with_status (set_run_id None (d_status d)) (with_state STOPPED d)) in
      (log_event state_change (changed "RUNNING" "STOPPED" [("reason", VStr reason)]%string) d, true).

Definition pause d : Daemon * bool :=
  if negb (bool_decide (d_state d = RUNNING)) then (d, false)
  else (log_event state_change (changed "RUNNING" "PAUSED" []) (enter PAUSED d), true).

Definition resume d : Daemon * bool :=
  if negb (bool_decide (d_state d = PAUSED)) then (d, false)
  else if switch_triggered d then (d, false)
  else (log_event state_change (changed "PAUSED" "RUNNING" []) (enter RUNNING d), true).

(** ** Halting *)

Section Halting.
Context `{Digest} {C : Type} (broker : option (Connector C)).
Implicit Types w : HaltWorld C.

(** [_handle_kill_switch_action], for the actions of [w'] that [w] has not. *)
Definition log_actions w w' d : Daemon :=
  fold_left (fun d nd => log_event kill_switch_event (dict_update [("executor_action", VStr nd.1)]%string nd.2) d)
    (drop (List.length (hw_actions w)) (hw_actions w')) d.

Definition notify_halt (r : HaltReason) d : Daemon := with_calls (d_emitted d) (d_notified d ++ [r]) d.

(** [_handle_kill_switch] *)
Definition handle_kill_switch (r : HaltReason) d : Daemon :=
  notify_halt r (log_event kill_switch_event (reason_to_dict r) (enter HALTED d)).

(** [self._kill_switch.trigger(reason, action)], with the callbacks the daemon wired. *)
Definition fire (now : Z) (eid : string) (r : HaltReason) (a : HaltAction) d w : Daemon * HaltWorld C * pyres unit unit :=
  match d_switch d with
  | None => (d, w, Ok tt)
  | Some (k, x) =>
      let '(w', env) := wired_callbacks broker true a k x w in
      let d := log_actions w w' d in
      let '(k', effects, res) := trigger_raising k env now eid r a in
      let d := with_switch (Some (k', x)) d in
      (if existsb (fun e => match e with Notify _ => true | _ => false end) effects then handle_kill_switch r d else d,
       w', res)
  end.

Definition halt (now : Z) (eid : string) (r : HaltReason) (a : HaltAction) d w : Daemon * HaltWorld C * pyres unit bool :=
  match fire now eid r a d w with
  | (d, w, Raise e) => (d, w, Raise e)
  | (d, w, Ok _) =>
      let d :=
        log_event kill_switch_event
          [("reason_type", VStr (halt_type_name (reason_type r))); ("severity", VStr (severity_value (hr_severity r)));
           ("message", VStr (hr_message r)); ("action", VStr (halt_action_value a))]%string (enter HALTED d) in
      (notify_halt r d, w, Ok true)
  end.

Definition acknowledge_halt (now : Z) (by_ code : string) d : Daemon * bool :=
  match d_switch d with
  | Some (k, x) => let '(k, b) := acknowledge k now by_ code in (with_switch (Some (k, x)) d, b)
  | None => (d, false)
  end.

Definition reset_halt (now : Z) d : Daemon * bool :=
  if negb (bool_decide (d_state d = HALTED)) then (d, true)
  else
    match d_switch d with
    | Some (k, x) =>
        let '(k, b) := reset k now in
        let d := with_switch (Some (k, x)) d in
        if b then (enter IDLE d, true) else (d, false)
    | None => (enter IDLE d, true)
    end.

(** [_handle_time_drift] *)
Definition drift_reason (now : Z) (rid : string) (drift : pyfloat) : HaltReason :=
  MkReason rid TIME_SYNC_DRIFT HIGH ("Time drift of " +:+ float_fixed 1 drift +:+ "s detected")%string
    [("drift_seconds", VFloat drift)]%string now "TimeSyncChecker" None true.

Definition handle_time_drift (now : Z) (rid eid : string) (drift : pyfloat) d w : Daemon * HaltWorld C * pyres unit unit :=
  if fltb (float_of_int 5) (fabs drift) then
    let '(d, w, r) := halt now eid (drift_reason now rid drift) HALT_ONLY d w in
    (d, w, match r with Ok _ => Ok tt | Raise e => Raise e end)
  else (d, w, Ok tt).
End Halting.

(** [_handle_degraded_mode] *)
Definition handle_degraded_mode (m : DegradedMode) (a : DegradedModeAction) d : Daemon :=
  log_event "DEGRADED_MODE" [("mode", VStr (mode_name m)); ("action", VStr (action_value a))]%string d.

(** [_degraded_manager.report_cloud_status(connected)], with the callback the daemon wired. *)
Definition report_cloud (now : Z) (eid : string) (connected : bool) d : Daemon :=
  match d_degraded d with
  | None => d
  | Some m =>
      let m' := (report_cloud_status now eid connected m).1 in
      fold_left (fun d ma => handle_degraded_mode ma.1 ma.2 d) (drop (List.length (dm_calls m)) (dm_calls m'))
        (with_degraded (Some m') d)
  end.

(** [_handle_run_controller_intent], [_handle_run_controller_order]: the telemetry has no
    event type [TRADE], so naming it raises before anything is logged or counted. *)
Definition handle_run_controller_event d : Daemon * pyres unit unit := (d, Raise tt).

(** ** Status *)

Definition uptime (now : Z) d : Z :=
  match d_started_at d with
  | Some t => now - t
  | None => 0
  end.

(** [_update_status]; [locked] is whether the vault, when there is one, is locked. *)
Definition update_status (now : Z) (locked : option bool) d : Daemon :=
  let s := d_status d in
  with_status
    (MkDaemonStatus (st_agent_id s) (d_state d) now (d_started_at d) (uptime now d)
       (match locked with Some b => negb b | None => st_vault_unlocked s end) (st_cloud_connected s)
       (st_broker_connected s)
       (match d_switch d with Some (k, _) => ks_triggered k | None => st_kill_switch_triggered s end)
       (match d_switch d ≫= (fun kx => current_halt kx.1) with
        | Some e => Some (hr_message (halt_reason e))
        | None => st_kill_switch_reason s
        end)
       (match d_degraded d with Some m => current_mode m | None => st_degraded_mode s end)
       (match d_degraded d with Some m => dm_action m | None => st_degraded_action s end)
       (st_active_run_id s) (st_active_strategy s) (st_orders_today s) (st_fills_today s) (st_pnl_today s)) d.

Definition daemon_status (now : Z) (locked : option bool) d : Daemon * dict :=
  let d := update_status now locked d in (d, status_to_dict (d_status d)).
