(* ===== verification/CloudCommands.v ===== *)
(** * Commands from the cloud: [packages/agent/daemon/agentd.py], [packages/agent/cloud/types.py]

    What the daemon does with the commands it polls: [_process_cloud_commands],
    [_execute_cloud_command], [decide_cloud_command_approval] and the round of
    [_heartbeat_loop] that calls them, over the journal, the approval manager and the life
    cycle of [Daemon].  The cloud is a service outside: [CloudClient] is what its calls
    answer, with a state of its own.  [Draws] are the times, identifiers and answers one
    command draws.

    The journal is a database that only the thread that opened it may use; [initialize] is
    not called in a heartbeat thread, so asking the journal raises in one of those. *)
From Stdlib Require Import SpecFloat.
From Stdlib Require Import Ascii String.
From S2P Require Import Prelude PyDecimal DecArith PyFloat PyFormat PyTime PyValue PyJson PyText PyRepr Uuid Sha256 FloatInt Config.
From S2P Require Import CommandJournal Approval KillSwitch KillEvidence DegradedMode Daemon.
Open Scope Z_scope.
Open Scope list_scope.

Record PendingCommand := MkPending {
  pc_id : string;
  pc_status : string;
  pc_idempotency_key : string;
  pc_command_type : string;
  pc_payload_ref : string;
  pc_change_class : string;
  pc_requires_approval : bool;
  pc_deployment_id : option string;
  pc_run_id : option string;
  pc_expires_at : option Z;
  pc_created_at : option Z
}.

(** [UUID(str(data[k])) if data.get(k) else None] *)
Definition uuid_field (d : dict) (k : string) : option (option string) :=
  let v := default VNone (dget d k) in
  if val_true v then Some <$> (str_of_val v ≫= uuid_of_str) else Some None.

(** [datetime.fromisoformat(data[k]) if data.get(k) else None] *)
Definition time_of_field (d : dict) (k : string) : option (option Z) :=
  let v := default VNone (dget d k) in
  if val_true v then Some <$> (as_str v ≫= fromisoformat) else Some None.

(** [from_dict]; [None] raises. *)
Definition command_from_dict (d : dict) : option PendingCommand :=
  (id ← (dget d "id" ≫= str_of_val) ≫= uuid_of_str;
   status ← str_of_val (default (VStr "") (dget d "status"));
   key ← dget d "idempotency_key" ≫= str_of_val;
   ty ← dget d "command_type" ≫= str_of_val;
   payload ← dget d "payload_ref" ≫= str_of_val;
   cls ← dget d "change_class" ≫= str_of_val;
   deployment ← uuid_field d "deployment_id";
   run ← uuid_field d "run_id";
   expires ← time_of_field d "expires_at";
   created ← time_of_field d "created_at";
   Some (MkPending id status key ty payload cls (get_bool d "requires_approval" false) deployment run expires
           created))%string.

(** The calls to the cloud that may fail. *)
Inductive cloud_call :=
  | Acknowledge (command_id : string)
  | SubmitResult (command_id : string) (success : bool) (result : option dict) (error : option string)
  | SubmitApproval (command_id : string) (approved : bool) (evidence : option string) (diff : dict) (reason : string).

Record CloudClient (W : Type) := MkClient {
  cc_connected : W -> bool;
  cc_call : W -> cloud_call -> W * pyres string unit;
  cc_heartbeat : W -> dict -> W * pyres string Z;
  cc_poll : W -> W * pyres string (list PendingCommand)
}.
Arguments MkClient {W}.
Arguments cc_connected {W}.
Arguments cc_call {W}.
Arguments cc_heartbeat {W}.
Arguments cc_poll {W}.

Record Draws := MkDraws {
  dw_now : Z;
  dw_run_uuid : string;
  dw_request_id : string;
  dw_start : StartEnv;
  dw_stop_ok : bool
}.

Definition all_change_classes : list ChangeClass :=
  [TRADING_IMPACTING; OPERATIONAL; INFORMATIONAL; DATA_SENSITIVE; SAFETY_OPERATION].

(** [ChangeClass(cmd.change_class)], and [TRADING_IMPACTING] when it raises. *)
Definition parse_class (s : string) : ChangeClass :=
  default TRADING_IMPACTING (member change_class_value all_change_classes (VStr s)).

Definition trading (c : PendingCommand) : bool := bool_decide (parse_class (pc_change_class c) = TRADING_IMPACTING).

(** A command that impacts trading, as it is labelled, and asks for no approval. *)
Definition unasked (c : PendingCommand) : bool := trading c && negb (pc_requires_approval c).

Definition awaits_approval (c : PendingCommand) : bool := bool_decide (str_lower (pc_status c) = "pending_approval"%string).

(** The journal of the daemon, when there is one. *)
Definition with_journal (f : commands -> commands) (d : Daemon) : Daemon :=
  let c := d_commands d in
  with_commands (d_approvals d) (MkTracking (f <$> ct_journal c) (ct_executed c) (ct_pending c) (ct_submitted c)) d.

Definition add_executed (id : string) (d : Daemon) : Daemon :=
  let c := d_commands d in
  with_commands (d_approvals d) (MkTracking (ct_journal c) ({[id]} ∪ ct_executed c) (ct_pending c) (ct_submitted c)) d.

Definition add_submitted (id : string) (d : Daemon) : Daemon :=
  let c := d_commands d in
  with_commands (d_approvals d) (MkTracking (ct_journal c) (ct_executed c) (ct_pending c) ({[id]} ∪ ct_submitted c)) d.

Definition set_pending (p : list (string * string)) (d : Daemon) : Daemon :=
  let c := d_commands d in
  with_commands (d_approvals d) (MkTracking (ct_journal c) (ct_executed c) p (ct_submitted c)) d.

Definition with_approvals (m : ApprovalManager) (d : Daemon) : Daemon := with_commands m (d_commands d) d.

Definition log_command (now : Z) (c : PendingCommand) (j : commands) : commands :=
  (log_received now (pc_id c) (pc_idempotency_key c) (pc_command_type c) (Some (pc_payload_ref c)) j).1.

Definition other_thread : string :=
  "SQLite objects created in a thread can only be used in that same thread.".

(** [self._command_journal and self._command_journal.is_executed(cmd_id, cmd.idempotency_key)],
    in the thread [me]: the connection is opened with the default [check_same_thread]. *)
Definition journal_executed (me : option nat) (c : PendingCommand) (d : Daemon) : pyres string bool :=
  match ct_journal (d_commands d), me with
  | Some _, Some _ => Raise other_thread
  | Some j, None => Ok (is_executed (pc_id c) (Some (pc_idempotency_key c)) j)
  | None, _ => Ok false
  end.

(** ** [_execute_cloud_command] *)

Definition action (name : string) : dict := [("action", VStr name)]%string.

(** The handlers of upgrades and configurations read [cmd.command_id] first, which a
    [PendingCommand] does not have. *)
Definition no_command_id : string := "'PendingCommand' object has no attribute 'command_id'".

Definition execute_cloud_command (me : option nat) (x : Draws) (c : PendingCommand) (d : Daemon) :
    Daemon * (bool * dict * option string) :=
  (if bool_decide (pc_command_type c = "REQUEST_START_RUN") then
     let '(d, (ok, e)) := start (dw_start x) (dw_now x) (pc_run_id c) (dw_run_uuid x) d in
     (d, (ok, [("action", VStr "started"); ("run_id", v_opt_str (st_active_run_id (d_status d)))], e))
   else if bool_decide (pc_command_type c = "REQUEST_STOP_RUN") then
     let '(d, ok) := stop (dw_stop_ok x) me "cloud_requested" d in
     (d, (ok, action "stopped", if ok then None else Some "Failed to stop"))
   else if bool_decide (pc_command_type c = "REQUEST_PAUSE_RUN") then
     let '(d, ok) := pause d in
     (d, (ok, action "paused", if ok then None else Some "Failed to pause"))
   else if bool_decide (pc_command_type c = "REQUEST_UPGRADE_ARTIFACT") then (d, (false, [], Some no_command_id))
   else if bool_decide (pc_command_type c = "REQUEST_UPDATE_CONFIG") then (d, (false, [], Some no_command_id))
   else if bool_decide (pc_command_type c = "REQUEST_ROTATE_AGENT_SESSION") then
     (d, (true, action "rotate_session_acknowledged", None))
   else if bool_decide (pc_command_type c = "REQUEST_EXPORT_LOGS") then
     (d, (true, action "export_logs_acknowledged", None))
   else (d, (false, [], Some ("Unknown command_type: " +:+ pc_command_type c))))%string.

(** ** [_process_cloud_commands] *)

Section Process.
Context `{Digest} {W : Type} (client : CloudClient W) (me : option nat).

(** The refusal of a command that impacts trading and asks for no approval. *)
Definition refuse (x : Draws) (c : PendingCommand) (d : Daemon) (w : W) : Daemon * W :=
  let cid := pc_id c in
  let d :=
    with_journal (fun j => (mark_failed (dw_now x) cid "Refused: TRADING_IMPACTING without requires_approval"
                              (log_command (dw_now x) c j)).1) d in
  match cc_call client w (Acknowledge cid) with
  | (w, Raise _) => (d, w)
  | (w, Ok _) =>
      match cc_call client w
              (SubmitResult cid false None
                 (Some "Refused: TRADING_IMPACTING command without requires_approval (fail-closed)."%string)) with
      | (w, Raise _) => (d, w)
      | (w, Ok _) => (add_executed cid d, w)
      end
  end.

(** The request for the command: the one it has, or a new one. *)
Definition approval_request (x : Draws) (c : PendingCommand) (d : Daemon) : Daemon * ApprovalRequest :=
  let cid := pc_id c in
  match dget (ct_pending (d_commands d)) cid ≫= (fun id => get_request id (d_approvals d)) with
  | Some r => (d, r)
  | None =>
      let '(m, r) :=
        create_request true (dw_now x) (dw_request_id x) (pc_command_type c)
          ("Cloud command " +:+ pc_command_type c +:+ " requires local approval")%string (parse_class (pc_change_class c))
          (Some [("command_id", VStr cid); ("idempotency_key", VStr (pc_idempotency_key c));
                 ("payload_ref", VStr (pc_payload_ref c))]%string) None None
          (if String.prefix "sha256:" (pc_payload_ref c) then Some (pc_payload_ref c) else None) (d_approvals d) in
      let d := with_approvals m d in
      (set_pending (dset (ct_pending (d_commands d)) cid (request_id r)) d, r)
  end.

Definition approval_phase (x : Draws) (c : PendingCommand) (d : Daemon) (w : W) : Daemon * W :=
  let cid := pc_id c in
  if bool_decide (cid ∈ ct_submitted (d_commands d)) then (d, w)
  else
    let '(d, r) := approval_request x c d in
    if bool_decide (rq_status r = APPROVED) && truthy (rq_evidence r) then
      let reason := if truthy (decision_reason r) then default "" (decision_reason r) else "Approved by local policy"%string in
      match cc_call client w
              (SubmitApproval cid true (Some ("sha256:" +:+ default "" (rq_evidence r))%string)
                 [("command_type", VStr (pc_command_type c)); ("payload_ref", VStr (pc_payload_ref c))]%string reason) with
      | (w, Raise _) => (d, w)
      | (w, Ok _) => (add_submitted cid d, w)
      end
    else (d, w).

(** The execution; what is executed is listed. *)
Definition execution_phase (x : Draws) (c : PendingCommand) (d : Daemon) (w : W) : Daemon * W * list PendingCommand :=
  let cid := pc_id c in
  match cc_call client w (Acknowledge cid) with
  | (w, Raise _) => (d, w, [])
  | (w, Ok _) =>
      let d := with_journal (fun j => (mark_in_progress (dw_now x) cid (log_command (dw_now x) c j)).1) d in
      let '(d, (ok, result, err)) := execute_cloud_command me x c d in
      let d :=
        with_journal
          (fun j =>
             if ok then (mark_completed (dw_now x) cid (Some result) j).1
             else (mark_failed (dw_now x) cid (if truthy err then default "" err else "Unknown error"%string) j).1) d in
      match cc_call client w (SubmitResult cid ok (if ok then Some result else None) (if ok then None else err)) with
      | (w, Raise _) => (d, w, [c])
      | (w, Ok _) => (add_executed cid d, w, [c])
      end
  end.

(** What is executed is listed; the phases use the journal only behind the question to it,
    and are in its thread. *)
Definition process_command (cx : PendingCommand * Draws) (d : Daemon) (w : W) :
    Daemon * W * list PendingCommand * pyres string unit :=
  let '(c, x) := cx in
  let cid := pc_id c in
  if bool_decide (cid ∈ ct_executed (d_commands d)) then (d, w, [], Ok tt)
  else
    match journal_executed me c d with
    | Raise e => (d, w, [], Raise e)
    | Ok executed =>
        if (executed : bool) then (add_executed cid d, w, [], Ok tt)
        else if unasked c then let '(d, w) := refuse x c d w in (d, w, [], Ok tt)
        else if awaits_approval c then let '(d, w) := approval_phase x c d w in (d, w, [], Ok tt)
        else (execution_phase x c d w, Ok tt)
    end.

(** An exception leaves the commands behind it alone. *)
Fixpoint process_list (l : list (PendingCommand * Draws)) (d : Daemon) (w : W) :
    Daemon * W * list PendingCommand * pyres string unit :=
  match l with
  | [] => (d, w, [], Ok tt)
  | cx :: l =>
      match process_command cx d w with
      | (d, w, done1, Ok _) =>
          let '(d, w, done2, r) := process_list l d w in
          (d, w, done1 ++ done2, r)
      | (d, w, done1, Raise e) => (d, w, done1, Raise e)
      end
  end.

Definition process_cloud_commands (l : list (PendingCommand * Draws)) (d : Daemon) (w : W) :
    Daemon * W * list PendingCommand * pyres string unit :=
  if d_has_client d then process_list l d w else (d, w, [], Ok tt).

(** ** [decide_cloud_command_approval] *)

Definition decide_cloud_command_approval (now : Z) (cid : string) (approved : bool) (reason by_ : string) (d : Daemon) (w : W) :
    Daemon * W * bool :=
  if negb (d_has_client d) then (d, w, false)
  else
    match dget (ct_pending (d_commands d)) cid with
    | None => (d, w, false)
    | Some rid =>
        let '(m, r) := decide_one true now rid approved reason by_ (d_approvals d) in
        let d := with_approvals m d in
        match r with
        | None => (d, w, false)
        | Some r =>
            let evidence := if truthy (rq_evidence r) then Some ("sha256:" +:+ default "" (rq_evidence r))%string else None in
            match cc_call client w
                    (SubmitApproval cid approved evidence
                       [("command_type", VStr (command_type r)); ("diff_summary", v_opt_str (diff_summary r));
                        ("details", VDict (rq_details r))]%string
                       (if truthy (decision_reason r) then default "" (decision_reason r) else reason)) with
            | (w, Raise _) => (d, w, false)
            | (w, Ok _) => (set_pending (ddel (ct_pending (d_commands d)) cid) (add_submitted cid d), w, true)
            end
        end
    end.

(** ** A round of [_heartbeat_loop] *)

(** What the telemetry buffer is handed for a heartbeat. *)
Definition add_heartbeat (now : Z) (d : Daemon) : Daemon :=
  match d_telemetry d with
  | Some l =>
      with_telemetry
        (Some (l ++ [MkTelemetry "HEARTBEAT"
                       [("status", VStr (daemon_state_name (d_state d))); ("agent_id", VStr (d_agent_id d));
                        ("uptime_seconds", VSecs (uptime now d))]%string None])) d
  | None => d
  end.

Definition health (now : Z) (d : Daemon) : dict :=
  [("agent_version", VStr (dc_agent_version (d_config d))); ("current_state", VStr (daemon_state_name (d_state d)));
   ("uptime_seconds", VSecs (uptime now d)); ("state", VStr (daemon_state_name (d_state d)))]%string.

Definition cloud_status (b : bool) (d : Daemon) : Daemon := with_status (set_cloud b (d_status d)) d.

(** The thread runs a round while the event to stop is not set; [draws] are what the
    commands draw, one after the other.  The upload of telemetry that ends a round is left out. *)
Definition heartbeat_round (now : Z) (eid : string) (draws : nat -> Draws) (d : Daemon) (w : W) :
    Daemon * W * list PendingCommand :=
  if d_stop_set d then (d, w, [])
  else
    let d := report_cloud now eid (d_has_client d && cc_connected client w) (add_heartbeat now d) in
    if d_has_client d && truthy (d_token d) then
      match cc_heartbeat client w (health now d) with
      | (w, Raise _) => (cloud_status false d, w, [])
      | (w, Ok n) =>
          let d := cloud_status true d in
          if 0 <? n then
            match cc_poll client w with
            | (w, Raise _) => (cloud_status false d, w, [])
            | (w, Ok cs) =>
                match process_cloud_commands (imap (fun i c => (c, draws i)) cs) d w with
                | (d, w, l, Ok _) => (d, w, l)
                | (d, w, l, Raise _) => (cloud_status false d, w, l)
                end
            end
          else (d, w, [])
      end
    else (cloud_status false d, w, []).
End Process.
