(* ===== verification/CloudCommandsProps.v ===== *)
(** * Theorems on the daemon and the commands of the cloud

    A halt keeps the daemon down until it is acknowledged; a command is executed at most
    once, over any rounds, decisions and restarts; commands whose own label says they
    impact trading and that ask for no approval are refused; and runs in which the daemon
    does not do what it means to, among them that its heartbeat thread cannot use the
    journal and so executes no command at all. *)
From Stdlib Require Import SpecFloat.
From Stdlib Require Import Ascii String.
From S2P Require Import Prelude PyDecimal DecArith PyFloat PyFormat PyTime PyValue PyJson PyText PyRepr Uuid Sha256 FloatInt Config.
From S2P Require Import CommandJournal Approval KillSwitch KillSwitchProps KillEvidence DegradedMode Engine BrokerProtocol.
From S2P Require Import SimBroker SimBrokerProps KillExecutor Daemon CloudCommands.
Open Scope Z_scope.
Open Scope list_scope.

Implicit Types d : Daemon.

(** ** Runs of the daemon *)

Section Runs.
Context `{Digest} {C W : Type} (broker : option (Connector C)) (client : CloudClient W).

Inductive daemon_op :=
  | OStart (env : StartEnv) (now : Z) (run_id : option string) (uuid : string)
  | OStop (ok : bool) (me : option nat) (why : string)
  | OPause
  | OResume
  | OHalt (now : Z) (eid : string) (r : HaltReason) (a : HaltAction)
  | OTrigger (now : Z) (eid : string) (r : HaltReason) (a : HaltAction)
  | ODrift (now : Z) (rid eid : string) (drift : pyfloat)
  | OAcknowledge (now : Z) (by_ code : string)
  | OReset (now : Z)
  | OCloud (now : Z) (eid : string) (connected : bool)
  | ORound (n : nat) (now : Z) (eid : string) (draws : nat -> Draws)
  | OCommands (me : option nat) (l : list (PendingCommand * Draws))
  | ODecide (now : Z) (cid : string) (approved : bool) (why by_ : string)
  | OStatus (now : Z) (locked : option bool)
  | OInitialize (env : InitEnv).

Record DaemonWorld := MkWorld { w_daemon : Daemon; w_broker : HaltWorld C; w_cloud : W; w_done : list PendingCommand }.

Definition on_daemon (d : Daemon) (s : DaemonWorld) : DaemonWorld := MkWorld d (w_broker s) (w_cloud s) (w_done s).

Definition after_commands (r : Daemon * W * list PendingCommand) (s : DaemonWorld) : DaemonWorld :=
  MkWorld r.1.1 (w_broker s) r.1.2 (w_done s ++ r.2).

(** A round runs in a heartbeat thread, which has a number; commands are also handed over
    in any other thread. *)
Definition daemon_step (s : DaemonWorld) (op : daemon_op) : DaemonWorld :=
  let d := w_daemon s in
  match op with
  | OStart env now run_id uuid => on_daemon (start env now run_id uuid d).1 s
  | OStop ok me why => on_daemon (stop ok me why d).1 s
  | OPause => on_daemon (pause d).1 s
  | OResume => on_daemon (resume d).1 s
  | OHalt now eid r a =>
      let '(d, w, _) := halt broker now eid r a d (w_broker s) in MkWorld d w (w_cloud s) (w_done s)
  | OTrigger now eid r a =>
      let '(d, w, _) := fire broker now eid r a d (w_broker s) in MkWorld d w (w_cloud s) (w_done s)
  | ODrift now rid eid drift =>
      let '(d, w, _) := handle_time_drift broker now rid eid drift d (w_broker s) in MkWorld d w (w_cloud s) (w_done s)
  | OAcknowledge now by_ code => on_daemon (acknowledge_halt now by_ code d).1 s
  | OReset now => on_daemon (reset_halt now d).1 s
  | OCloud now eid connected => on_daemon (report_cloud now eid connected d) s
  | ORound n now eid draws => after_commands (heartbeat_round client (Some n) now eid draws d (w_cloud s)) s
  | OCommands me l => after_commands (process_cloud_commands client me l d (w_cloud s)).1 s
  | ODecide now cid approved why by_ =>
      let '(d, w, _) := decide_cloud_command_approval client now cid approved why by_ d (w_cloud s) in
      MkWorld d (w_broker s) w (w_done s)
  | OStatus now locked => on_daemon (update_status now locked d) s
  | OInitialize env => on_daemon (initialize env d).1 s
  end.

Definition daemon_run (ops : list daemon_op) (s : DaemonWorld) : DaemonWorld := fold_left daemon_step ops s.

(** An acknowledgment that the kill switch accepts, by a named person. *)
Definition op_acknowledges (op : daemon_op) : bool :=
  match op with
  | OAcknowledge _ by_ code => valid_code code && truthy (Some by_)
  | _ => false
  end.

(** ** A halted daemon stays down *)

Definition down d : Prop :=
  from_option (fun kx => halted kx.1) False (d_switch d) /\ is_running d = false /\ d_state d <> CREATED.

Lemma down_same d d' : d_state d' = d_state d -> d_switch d' = d_switch d -> down d -> down d'.
Proof. intros Hs Hk. unfold down, is_running. by rewrite Hs, Hk. Qed.

Lemma log_event_keeps ty data d :
  d_state (log_event ty data d) = d_state d /\ d_switch (log_event ty data d) = d_switch d /\
  d_commands (log_event ty data d) = d_commands d /\ d_approvals (log_event ty data d) = d_approvals d /\
  d_has_client (log_event ty data d) = d_has_client d.
Proof. unfold log_event. by destruct (d_telemetry d). Qed.

Lemma fold_log_keeps {A} (f : Daemon -> A -> Daemon) l d :
  (forall d x, d_state (f d x) = d_state d /\ d_switch (f d x) = d_switch d /\ d_commands (f d x) = d_commands d) ->
  d_state (fold_left f l d) = d_state d /\ d_switch (fold_left f l d) = d_switch d /\
  d_commands (fold_left f l d) = d_commands d.
Proof.
  intros Hf. revert d. induction l as [|x l IH]; intros d; [done|]. cbn [fold_left].
  destruct (IH (f d x)) as (-> & -> & ->). apply Hf.
Qed.

Lemma log_actions_keeps (w w' : HaltWorld C) d :
  d_state (log_actions w w' d) = d_state d /\ d_switch (log_actions w w' d) = d_switch d /\
  d_commands (log_actions w w' d) = d_commands d.
Proof.
  apply fold_log_keeps. intros d' x. destruct (log_event_keeps kill_switch_event
    (dict_update [("executor_action", VStr x.1)]%string x.2) d') as (? & ? & ? & _). done.
Qed.

Lemma report_cloud_keeps now eid b d :
  d_state (report_cloud now eid b d) = d_state d /\ d_switch (report_cloud now eid b d) = d_switch d /\
  d_commands (report_cloud now eid b d) = d_commands d.
Proof.
  unfold report_cloud. destruct (d_degraded d) as [m|]; [|done].
  destruct (fold_log_keeps (fun d ma => handle_degraded_mode ma.1 ma.2 d)
    (drop (List.length (dm_calls m)) (dm_calls (report_cloud_status now eid b m).1))
    (with_degraded (Some (report_cloud_status now eid b m).1) d)) as (-> & -> & ->); [|done].
  intros d' x. unfold handle_degraded_mode.
  destruct (log_event_keeps "DEGRADED_MODE" [("mode", VStr (mode_name x.1)); ("action", VStr (action_value x.2))]%string d')
    as (? & ? & ? & _). done.
Qed.

Lemma down_log ty data d : down d -> down (log_event ty data d).
Proof. destruct (log_event_keeps ty data d) as (Hs & Hk & _). by apply down_same. Qed.

Lemma down_triggered d : down d -> switch_triggered d = true.
Proof. intros [Hk _]. unfold switch_triggered. destruct (d_switch d) as [[k x]|]; [|done]. apply Hk. Qed.

Lemma down_state s d : down d -> bool_decide (s = RUNNING) || bool_decide (s = PAUSED) = false -> s <> CREATED ->
  down (with_state s d).
Proof. intros (Hk & _ & _) Hs Hc. by split_and!. Qed.

Lemma down_enter s d : down d -> bool_decide (s = RUNNING) || bool_decide (s = PAUSED) = false -> s <> CREATED ->
  down (enter s d).
Proof. intros Hd Hs Hc. apply (down_same (with_state s d)); [done..|by apply down_state]. Qed.

Lemma down_start env now run_id uuid d : down d -> down (start env now run_id uuid d).1.
Proof.
  intros Hd. unfold start. rewrite (down_triggered d Hd). destruct (bool_decide (d_state d = RUNNING)); [done|].
  by destruct (negb _).
Qed.

Lemma down_stop ok me why d : down d -> down (stop ok me why d).1.
Proof.
  intros Hd. unfold stop. destruct (bool_decide _); [done|].
  destruct (_ || negb ok); cbn [fst].
  - apply down_state; [|done..]. by apply (down_same (enter STOPPING d)); [..|by apply down_enter].
  - apply down_log. apply (down_same (enter STOPPED d)); [done..|by apply down_enter].
Qed.

Lemma down_pause d : down d -> down (pause d).1.
Proof.
  intros Hd. unfold pause. pose proof Hd as (_ & Hr & _). unfold is_running in Hr.
  destruct (bool_decide (d_state d = RUNNING)); [discriminate Hr|]. done.
Qed.

Lemma down_resume d : down d -> down (resume d).1.
Proof. intros Hd. unfold resume. rewrite (down_triggered d Hd). by destruct (negb _). Qed.

Lemma down_fire now eid r a d (w : HaltWorld C) : down d -> down (fire broker now eid r a d w).1.1.
Proof.
  intros Hd. pose proof Hd as (Hk & Hs & Hc). unfold fire.
  destruct (d_switch d) as [[k x]|] eqn:E; [|done]. cbn [from_option fst] in Hk.
  pose proof Hk as (Ht & _ & h & Hh & _). unfold wired_callbacks. rewrite Ht. cbn [negb andb].
  set (env := MkKsEnv _ _ _). unfold trigger_raising. rewrite Ht, Hh.
  pose proof (ks_step_halted k (KTrigger env now eid r a) Hk eq_refl) as Hk'. cbn [ks_step] in Hk'.
  destruct (trigger k env now eid r a) as [k' ef] eqn:Et. cbn [fst] in Hk'.
  assert (ef = []) as -> by (unfold trigger in Et; rewrite Ht, Hh in Et; congruence).
  cbn [existsb fst]. split_and!; [exact Hk'| |].
  - unfold is_running in *. cbn [with_switch d_state]. destruct (log_actions_keeps w w d) as (-> & _). exact Hs.
  - cbn [with_switch d_state]. destruct (log_actions_keeps w w d) as (-> & _). exact Hc.
Qed.

Lemma down_halt now eid r a d (w : HaltWorld C) : down d -> down (halt broker now eid r a d w).1.1.
Proof.
  intros Hd. unfold halt. pose proof (down_fire now eid r a d w Hd) as Hf.
  destruct (fire broker now eid r a d w) as [[d1 w1] [u|e]]; [|done]. cbn [fst] in *.
  match goal with |- down (notify_halt _ ?d2) => apply (down_same d2); [done..|] end.
  by apply down_log, down_enter.
Qed.

Lemma down_acknowledge now by_ code d :
  valid_code code && truthy (Some by_) = false -> down d -> down (acknowledge_halt now by_ code d).1.
Proof.
  intros Ha Hd. pose proof Hd as (Hk & Hs & Hc). unfold acknowledge_halt.
  destruct (d_switch d) as [[k x]|] eqn:E; [|done]. cbn [from_option fst] in Hk.
  pose proof (ks_step_halted k (KAck now by_ code) Hk Ha) as Hk'. cbn [ks_step] in Hk'.
  destruct (acknowledge k now by_ code) as [k' b]. by split_and!.
Qed.

Lemma down_reset now d : down d -> down (reset_halt now d).1.
Proof.
  intros Hd. pose proof Hd as (Hk & Hs & Hc). unfold reset_halt. destruct (negb _); [done|].
  destruct (d_switch d) as [[k x]|] eqn:E; [|done]. cbn [from_option fst] in Hk.
  pose proof (ks_step_halted k (KReset now) Hk eq_refl) as Hk'. cbn [ks_step] in Hk'.
  destruct Hk as (Ht & Hm & h & Hh & Hu). unfold reset in *. unfold unacknowledged in Hu. rewrite Ht, Hh, Hm, Hu in *.
  cbn in *. by split_and!.
Qed.

Lemma refuse_keeps x c d w : d_state (refuse client x c d w).1 = d_state d /\ d_switch (refuse client x c d w).1 = d_switch d.
Proof.
  unfold refuse. destruct (cc_call client w _) as [w1 [?|?]]; [|done]. by destruct (cc_call client w1 _) as [w2 [?|?]].
Qed.

Lemma approval_keeps x c d w :
  d_state (approval_phase client x c d w).1 = d_state d /\ d_switch (approval_phase client x c d w).1 = d_switch d /\
  ct_journal (d_commands (approval_phase client x c d w).1) = ct_journal (d_commands d).
Proof.
  unfold approval_phase. destruct (bool_decide _); [done|].
  assert (d_state (approval_request x c d).1 = d_state d /\ d_switch (approval_request x c d).1 = d_switch d /\
          ct_journal (d_commands (approval_request x c d).1) = ct_journal (d_commands d)) as Hr.
  { unfold approval_request. destruct (_ ≫= _); [done|]. by destruct (create_request _ _ _ _ _ _ _ _ _ _ _). }
  destruct (approval_request x c d) as [d1 r]. cbn [fst] in Hr. destruct (_ && _); [|exact Hr].
  by destruct (cc_call client w _) as [w1 [?|?]].
Qed.

Lemma down_execute me x c d : down d -> down (execute_cloud_command me x c d).1.
Proof.
  intros Hd. unfold execute_cloud_command. repeat case_bool_decide; try exact Hd.
  - pose proof (down_start (dw_start x) (dw_now x) (pc_run_id c) (dw_run_uuid x) d Hd) as Hs.
    by destruct (start _ _ _ _ _) as [d1 [ok e]].
  - pose proof (down_stop (dw_stop_ok x) me "cloud_requested" d Hd) as Hs. by destruct (stop _ _ _ _) as [d1 ok].
  - pose proof (down_pause d Hd) as Hs. by destruct (pause d) as [d1 ok].
Qed.

Lemma down_journal f d : down d -> down (with_journal f d).
Proof. by apply down_same. Qed.

Lemma down_command me cx d w : down d -> down (process_command client me cx d w).1.1.1.
Proof.
  intros Hd. destruct cx as [c x]. unfold process_command. destruct (bool_decide _); [done|].
  destruct (journal_executed me c d) as [[]|]; [done| |done]. destruct (unasked c).
  { destruct (refuse_keeps x c d w) as [Hs Hk]. destruct (refuse client x c d w) as [d1 w1]. by apply (down_same d). }
  destruct (awaits_approval c).
  { destruct (approval_keeps x c d w) as (Hs & Hk & _). destruct (approval_phase client x c d w) as [d1 w1]. by apply (down_same d). }
  unfold execution_phase. destruct (cc_call client w _) as [w1 [?|?]]; [|done].
  match goal with |- context [execute_cloud_command me x c ?d1] =>
    pose proof (down_execute me x c d1 (down_journal _ _ Hd)) as He; destruct (execute_cloud_command me x c d1) as [d2 [[ok res] err]] end.
  cbn [fst] in He. destruct (cc_call client w1 _) as [w2 [?|?]]; cbn [fst]; by apply (down_same d2).
Qed.

Lemma down_list me l d w : down d -> down (process_list client me l d w).1.1.1.
Proof.
  revert d w. induction l as [|cx l IH]; intros d w Hd; [done|]. cbn [process_list].
  pose proof (down_command me cx d w Hd) as H1. destruct (process_command client me cx d w) as [[[d1 w1] e1] [u|e]]; [|done].
  specialize (IH d1 w1 H1). by destruct (process_list client me l d1 w1) as [[[d2 w2] e2] r2].
Qed.

Lemma down_commands me l d w : down d -> down (process_cloud_commands client me l d w).1.1.1.
Proof. intros Hd. unfold process_cloud_commands. destruct (d_has_client d); [by apply down_list|done]. Qed.

Lemma round_start_keeps now eid d w :
  let d' := report_cloud now eid (d_has_client d && cc_connected client w) (add_heartbeat now d) in
  d_state d' = d_state d /\ d_switch d' = d_switch d /\ d_commands d' = d_commands d.
Proof.
  cbn zeta. destruct (report_cloud_keeps now eid (d_has_client d && cc_connected client w) (add_heartbeat now d)) as (-> & -> & ->).
  unfold add_heartbeat. by destruct (d_telemetry d).
Qed.

Lemma down_round me now eid draws d w : down d -> down (heartbeat_round client me now eid draws d w).1.1.
Proof.
  intros Hd. unfold heartbeat_round. destruct (d_stop_set d); [done|].
  destruct (round_start_keeps now eid d w) as (Hs & Hk & _). apply (down_same _ _ Hs Hk) in Hd. clear Hs Hk.
  set (d1 := report_cloud _ _ _ _) in *. destruct (d_has_client d1 && truthy (d_token d1)); [|by apply (down_same d1)].
  destruct (cc_heartbeat client w _) as [w1 [n|e]]; [|by apply (down_same d1)].
  destruct (0 <? n); [|by apply (down_same d1)].
  destruct (cc_poll client w1) as [w2 [cs|e]]; [|by apply (down_same d1)].
  match goal with |- context [process_cloud_commands client me ?l ?d0 w2] =>
    pose proof (down_commands me l d0 w2) as Hl; destruct (process_cloud_commands client me l d0 w2) as [[[d2 w3] l2] [u|e]] end;
    (eapply down_same; [..|apply Hl, (down_same d1)]; done).
Qed.

Lemma down_decide now cid approved why by_ d w :
  down d -> down (decide_cloud_command_approval client now cid approved why by_ d w).1.1.
Proof.
  intros Hd. unfold decide_cloud_command_approval. destruct (negb (d_has_client d)); [done|].
  destruct (dget _ cid) as [rid|]; [|done]. destruct (decide_one _ _ _ _ _ _ _) as [m [r|]]; [|by apply (down_same d)].
  destruct (cc_call client w _) as [w1 [?|?]]; by apply (down_same d).
Qed.

Lemma down_step s op : op_acknowledges op = false -> down (w_daemon s) -> down (w_daemon (daemon_step s op)).
Proof.
  intros Ha Hd. destruct op; cbn [daemon_step on_daemon after_commands w_daemon].
  - by apply down_start.
  - by apply down_stop.
  - by apply down_pause.
  - by apply down_resume.
  - pose proof (down_halt now eid r a _ (w_broker s) Hd) as Hx. by destruct (halt _ _ _ _ _ _ _) as [[d w] ?].
  - pose proof (down_fire now eid r a _ (w_broker s) Hd) as Hx. by destruct (fire _ _ _ _ _ _ _) as [[d w] ?].
  - unfold handle_time_drift. destruct (fltb _ _); [|done].
    pose proof (down_halt now eid (drift_reason now rid drift) HALT_ONLY _ (w_broker s) Hd) as Hx.
    by destruct (halt _ _ _ _ _ _ _) as [[d w] ?].
  - by apply down_acknowledge.
  - by apply down_reset.
  - destruct (report_cloud_keeps now eid connected (w_daemon s)) as (Hs & Hk & _). by apply (down_same (w_daemon s)).
  - by apply down_round.
  - by apply down_commands.
  - pose proof (down_decide now cid approved why by_ _ (w_cloud s) Hd) as Hx.
    by destruct (decide_cloud_command_approval _ _ _ _ _ _ _ _) as [[d w] ?].
  - by apply (down_same (w_daemon s)).
  - unfold initialize. destruct Hd as (? & ? & Hc). rewrite (bool_decide_eq_false_2 _ Hc). done.
Qed.

Lemma down_run ops s :
  forallb (fun op => negb (op_acknowledges op)) ops = true -> down (w_daemon s) -> down (w_daemon (daemon_run ops s)).
Proof.
  revert s. induction ops as [|op ops IH]; intros s Ho Hd; [done|]. cbn [forallb] in Ho. bool_to_prop.
  apply IH; [done|]. by apply down_step.
Qed.

(** A halt of a daemon whose kill switch is not triggered, for a reason json can print. *)
Lemma halt_goes_down now eid r a d (w : HaltWorld C) k x :
  d_switch d = Some (k, x) -> ks_triggered k = false -> require_manual_reset (ks_config k) = true ->
  serializable (VDict (details r)) = true -> down (halt broker now eid r a d w).1.1.
Proof.
  intros Hk Ht Hm Hs. unfold halt, fire. rewrite Hk. destruct (wired_callbacks broker true a k x w) as [w1 env] eqn:Ew.
  assert (on_trigger env = true) as Hn.
  { unfold wired_callbacks in Ew. destruct (if negb _ && _ then _ else _) as [w2 n].
    destruct (if _ && _ && _ then _ else _) as [w3 b]. by simplify_eq. }
  unfold trigger_raising. rewrite Ht.
  assert (halt_hash (halt_event k env eid r a) <> None) as Hh.
  { unfold halt_hash. cbn [hashed_data halt_event reason_to_dict halt_reason serializable forallb snd fst].
    cbn [serializable] in Hs. rewrite Hs. by destruct (recovery_action r). }
  destruct (halt_hash _) as [h|]; [|done].
  assert (halted (trigger k env now eid r a).1) as Hd.
  { unfold trigger. rewrite Ht. split_and!; [done|exact Hm|].
    unfold current_halt. cbn [fst save_history ks_has_current ks_history].
    destruct (push_bounded_snoc MAX_HALT_HISTORY (ks_history k) (halt_event k env eid r a)) as [p ->]; [done|].
    rewrite last_snoc. by eexists. }
  destruct (trigger k env now eid r a) as [k' ef]. cbn [fst] in Hd.
  match goal with |- down (notify_halt _ ?d2, _, _).1.1 => apply (down_same d2); [done..|] end.
  match goal with |- down (log_event _ _ (enter HALTED ?d2)) =>
    apply down_log; split_and!; [|done|done]; cbn [enter emit with_calls with_state d_switch] end.
  destruct (existsb _ ef); [|exact Hd]. unfold handle_kill_switch, notify_halt.
  match goal with |- context [log_event ?t ?y ?d2] => destruct (log_event_keeps t y d2) as (_ & Hq & _) end.
  cbn [with_calls d_switch]. rewrite Hq. exact Hd.
Qed.

(** C7: A halt stops the daemon until somebody acknowledges it.  Once a daemon is halted
    for a reason that can be recorded, under a configuration that asks for a manual reset,
    it runs again in no sequence of calls, heartbeats and commands of the cloud without an
    acknowledgment by a named person with a valid code, and its kill switch stays
    triggered. *)
Theorem halt_keeps_daemon_down now eid r a d w k x cl ops :
  d_switch d = Some (k, x) -> ks_triggered k = false -> require_manual_reset (ks_config k) = true ->
  serializable (VDict (details r)) = true -> forallb (fun op => negb (op_acknowledges op)) ops = true ->
  let '(d1, w1, _) := halt broker now eid r a d w in
  let d2 := w_daemon (daemon_run ops (MkWorld d1 w1 cl [])) in
  is_running d2 = false /\ switch_triggered d2 = true.
Proof.
  intros Hk Ht Hm Hs Ho. pose proof (halt_goes_down now eid r a d w k x Hk Ht Hm Hs) as Hd.
  destruct (halt broker now eid r a d w) as [[d1 w1] res]. cbn [fst] in Hd. cbn zeta.
  pose proof (down_run ops (MkWorld d1 w1 cl []) Ho Hd) as Hr. split; [apply Hr|by apply down_triggered].
Qed.

(** ** A command is executed at most once *)

(** The process goes away and another one comes up, on the journal that was kept; a
    restart that fails to come up is followed by another one, so it does not count. *)
Inductive service_op :=
  | Live (op : daemon_op)
  | Restart (now : Z) (uuid : string) (config : option DaemonConfig) (file : option (string * option string)) (env : InitEnv).

Definition with_db (j : commands) (env : InitEnv) : InitEnv :=
  MkInitEnv (ie_history env) j (ie_enroll env) (ie_raises env).

Definition service_step (s : DaemonWorld) (op : service_op) : DaemonWorld :=
  match op with
  | Live op => daemon_step s op
  | Restart now uuid config file env =>
      let '(d, up) :=
        initialize (with_db (default [] (ct_journal (d_commands (w_daemon s)))) env) (new_daemon now uuid config file) in
      if up then on_daemon d s else s
  end.

Definition service_run (ops : list service_op) (s : DaemonWorld) : DaemonWorld := fold_left service_step ops s.

(** Nothing of what the daemon tracks of commands changes, and it is not made anew. *)
Definition quiet d d' : Prop :=
  d_commands d' = d_commands d /\ (d_state d <> CREATED -> d_state d' <> CREATED).

Lemma still_refl d : quiet d d.
Proof. by split. Qed.

Lemma still_trans d1 d2 d3 : quiet d1 d2 -> quiet d2 d3 -> quiet d1 d3.
Proof. intros [H1 H2] [H3 H4]. split; [by rewrite H3|auto]. Qed.

Lemma quiet_same d d' : d_commands d' = d_commands d -> d_state d' = d_state d -> quiet d d'.
Proof. intros H1 H2. split; [done|by rewrite H2]. Qed.

Lemma quiet_log ty data d : quiet d (log_event ty data d).
Proof. destruct (log_event_keeps ty data d) as (? & _ & ? & _). by apply quiet_same. Qed.

Lemma quiet_enter s d : s <> CREATED -> quiet d (enter s d).
Proof. by split. Qed.

Lemma quiet_start env now run_id uuid d : quiet d (start env now run_id uuid d).1.
Proof.
  unfold start. destruct (bool_decide _); [apply still_refl|]. destruct (negb _); [apply still_refl|].
  destruct (switch_triggered d); [apply still_refl|]. destruct (_ && _); [apply still_refl|].
  destruct (if d_has_sandbox _ then se_start env else _); cbn [fst]; [|by split].
  eapply still_trans; [|apply quiet_log]. by split.
Qed.

Lemma quiet_stop ok me why d : quiet d (stop ok me why d).1.
Proof.
  unfold stop. destruct (bool_decide _); [apply still_refl|]. destruct (_ || _); cbn [fst]; [by split|].
  eapply still_trans; [|apply quiet_log]. by split.
Qed.

Lemma quiet_pause d : quiet d (pause d).1.
Proof.
  unfold pause. destruct (negb _); [apply still_refl|]. eapply still_trans; [|apply quiet_log]. by apply quiet_enter.
Qed.

Lemma quiet_resume d : quiet d (resume d).1.
Proof.
  unfold resume. destruct (negb _); [apply still_refl|]. destruct (switch_triggered d); [apply still_refl|].
  eapply still_trans; [|apply quiet_log]. by apply quiet_enter.
Qed.

Lemma quiet_fire now eid r a d (w : HaltWorld C) : quiet d (fire broker now eid r a d w).1.1.
Proof.
  unfold fire. destruct (d_switch d) as [[k x]|]; [|apply still_refl].
  destruct (wired_callbacks _ _ _ _ _ _) as [w1 env]. destruct (trigger_raising _ _ _ _ _ _) as [[k1 ef] res].
  destruct (log_actions_keeps w w1 d) as (Hs & _ & Hc). cbn [fst].
  assert (quiet d (with_switch (Some (k1, x)) (log_actions w w1 d))) as Hq by (by apply quiet_same).
  destruct (existsb _ ef); [|exact Hq]. eapply still_trans; [exact Hq|]. unfold handle_kill_switch, notify_halt.
  match goal with |- context [log_event ?t ?y ?d2] => destruct (log_event_keeps t y d2) as (Hs' & _ & Hc' & _) end.
  split; [exact Hc'|]. intros _. cbn [with_calls d_state]. rewrite Hs'. discriminate.
Qed.

Lemma quiet_halt now eid r a d (w : HaltWorld C) : quiet d (halt broker now eid r a d w).1.1.
Proof.
  unfold halt. pose proof (quiet_fire now eid r a d w) as Hf.
  destruct (fire broker now eid r a d w) as [[d1 w1] [u|e]]; [|exact Hf]. cbn [fst] in *.
  eapply still_trans; [exact Hf|]. eapply still_trans; [apply (quiet_enter HALTED); discriminate|].
  match goal with |- context [log_event ?t ?y ?d2] => apply (still_trans _ (log_event t y d2)); [apply quiet_log|] end.
  by apply quiet_same.
Qed.

Lemma quiet_reset now d : quiet d (reset_halt now d).1.
Proof.
  unfold reset_halt. destruct (negb _); [apply still_refl|]. destruct (d_switch d) as [[k x]|]; [|by apply quiet_enter].
  destruct (reset k now) as [k1 []]; by split.
Qed.

Lemma quiet_acknowledge now by_ code d : quiet d (acknowledge_halt now by_ code d).1.
Proof.
  unfold acknowledge_halt. destruct (d_switch d) as [[k x]|]; [|apply still_refl].
  by destruct (acknowledge k now by_ code).
Qed.

Lemma quiet_execute me x c d : quiet d (execute_cloud_command me x c d).1.
Proof.
  unfold execute_cloud_command. repeat case_bool_decide; try (by apply still_refl).
  - pose proof (quiet_start (dw_start x) (dw_now x) (pc_run_id c) (dw_run_uuid x) d) as Hs.
    by destruct (start _ _ _ _ _) as [d1 [ok e]].
  - pose proof (quiet_stop (dw_stop_ok x) me "cloud_requested" d) as Hs. by destruct (stop _ _ _ _) as [d1 ok].
  - pose proof (quiet_pause d) as Hs. by destruct (pause d) as [d1 ok].
Qed.

(** *** The journal *)

(** What the journal holds while no command is being executed. *)
Definition settled (j : commands) : Prop :=
  NoDup (map ce_command_id j) /\ Forall (fun e => CommandJournal.finished (ce_status e) = true) j.

Lemma settled_new c j :
  settled j -> is_executed (pc_id c) (Some (pc_idempotency_key c)) j = false ->
  (pc_id c ∉ map ce_command_id j) /\
  (pc_idempotency_key c <> ""%string -> (pc_idempotency_key c ∉ map ce_idempotency_key j)).
Proof.
  intros [Hn Hf] He. rewrite Forall_forall in Hf. unfold is_executed in He.
  destruct (get_entry (pc_id c) j) as [e|] eqn:Eg.
  { apply (find_key ce_command_id) in Eg as [Hin _]. rewrite (Hf e Hin) in He. discriminate He. }
  split.
  - intros Hin. apply list_elem_of_fmap in Hin as (e & Hid & Hin).
    rewrite Hid, (get_entry_of j e Hn Hin) in Eg. discriminate Eg.
  - intros Hne Hin. apply list_elem_of_fmap in Hin as (e & Hk & Hin).
    assert (truthy (Some (pc_idempotency_key c)) = true) as Ht by (unfold truthy; by rewrite bool_decide_eq_false_2).
    rewrite Ht in He. apply existsb_false with (x := e) in He; [|done].
    rewrite (Hf e Hin), Hk, bool_decide_eq_true_2 in He by done. discriminate He.
Qed.

Lemma update_row_new f id j e :
  id ∉ map ce_command_id j -> ce_command_id e = id -> (update_row f id (j ++ [e])).1 = j ++ [f e].
Proof.
  intros Hn He. unfold update_row. cbn [fst]. rewrite map_app. cbn [map]. unfold hit at 2. rewrite bool_decide_eq_true_2 by done.
  f_equal. clear He e. induction j as [|e j IH]; [done|]. cbn [map] in *. apply not_elem_of_cons in Hn as [Hne Hn].
  unfold hit at 1. rewrite bool_decide_eq_false_2 by done. by rewrite IH.
Qed.

(** The entry of a command, when it is not in the journal. *)
Lemma log_command_new now c j :
  pc_id c ∉ map ce_command_id j ->
  exists e, log_command now c j = j ++ [e] /\ ce_command_id e = pc_id c /\ ce_idempotency_key e = pc_idempotency_key c.
Proof.
  intros Hn. unfold log_command, log_received.
  assert (existsb (hit (pc_id c)) j = false) as ->.
  { apply existsb_false. intros e Hin. unfold hit. apply bool_decide_eq_false_2. intros Hid. apply Hn.
    apply list_elem_of_fmap. by exists e. }
  eexists. by split_and!.
Qed.

Lemma settled_snoc c j e :
  settled j -> pc_id c ∉ map ce_command_id j -> ce_command_id e = pc_id c -> CommandJournal.finished (ce_status e) = true ->
  settled (j ++ [e]).
Proof.
  intros [Hn Hf] Hi He Hs. split.
  - apply NoDup_map_snoc; [done|]. by rewrite He.
  - apply Forall_app. split; [done|by constructor].
Qed.

(** *** The invariant *)

Definition keys_of (l : list PendingCommand) : list string :=
  filter (fun k => k <> ""%string) (map pc_idempotency_key l).

(** The journal is settled and has every command that was executed, each once. *)
Definition booked d (l : list PendingCommand) : Prop :=
  d_state d <> CREATED /\
  exists j, ct_journal (d_commands d) = Some j /\ settled j /\
    Forall (fun c => pc_id c ∈ map ce_command_id j /\ pc_idempotency_key c ∈ map ce_idempotency_key j) l /\
    NoDup (map pc_id l) /\ NoDup (keys_of l).

Lemma booked_quiet d d' l : quiet d d' -> booked d l -> booked d' l.
Proof. intros [Hc Hs] [Hb Hj]. split; [by apply Hs|]. by rewrite Hc. Qed.

Lemma booked_journal d d' l :
  d_state d' = d_state d -> ct_journal (d_commands d') = ct_journal (d_commands d) -> booked d l -> booked d' l.
Proof. intros Hs Hj [Hb Hl]. split; [by rewrite Hs|]. by rewrite Hj. Qed.

(** A command that is new to the journal is recorded as finished; it may have been executed. *)
Lemma booked_more d d' l c j e :
  booked d l -> ct_journal (d_commands d) = Some j -> is_executed (pc_id c) (Some (pc_idempotency_key c)) j = false ->
  (d_state d <> CREATED -> d_state d' <> CREATED) -> ct_journal (d_commands d') = Some (j ++ [e]) ->
  ce_command_id e = pc_id c -> ce_idempotency_key e = pc_idempotency_key c ->
  CommandJournal.finished (ce_status e) = true -> booked d' l /\ booked d' (l ++ [c]).
Proof.
  intros (Hs & j0 & Hj0 & Hst & Hl & Hid & Hk) Hj He Hs' Hj' Hei Hek Hf.
  rewrite Hj in Hj0. injection Hj0 as <-.
  destruct (settled_new c j Hst He) as [Hni Hnk]. pose proof (settled_snoc c j e Hst Hni Hei Hf) as Hst'.
  assert (Forall (fun c => pc_id c ∈ map ce_command_id (j ++ [e]) /\ pc_idempotency_key c ∈ map ce_idempotency_key (j ++ [e])) l) as Hl'.
  { eapply Forall_impl; [exact Hl|]. intros c' [H1 H2]. rewrite !map_app. split; apply elem_of_app; by left. }
  rewrite Forall_forall in Hl. split; (split; [by apply Hs'|]); exists (j ++ [e]); split_and!; try done.
  - apply Forall_app. split; [done|]. constructor; [|constructor]. rewrite !map_app. cbn [map]. rewrite Hei, Hek.
    split; apply elem_of_app; right; by left.
  - apply NoDup_map_snoc; [done|]. intros Hin. apply list_elem_of_fmap in Hin as (c' & E & Hin).
    apply Hni. rewrite E. by apply Hl.
  - unfold keys_of. rewrite map_app, filter_app. apply NoDup_app. split_and!; [exact Hk| |].
    + intros k0 Hin Hin2. cbn [map] in Hin2. rewrite filter_cons in Hin2. destruct (decide _) as [Hne|]; [|by apply elem_of_nil in Hin2].
      apply list_elem_of_singleton in Hin2 as ->. apply list_elem_of_filter in Hin as [_ Hin].
      apply list_elem_of_fmap in Hin as (c' & E & Hin). apply Hnk; [done|]. rewrite E. by apply Hl.
    + cbn [map]. rewrite filter_cons. destruct (decide _); constructor; [by apply not_elem_of_nil|constructor].
Qed.

Lemma booked_command me cx d w l :
  booked d l -> let '(d', _, e, _) := process_command client me cx d w in booked d' (l ++ e).
Proof.
  intros Hb. destruct cx as [c x]. unfold process_command.
  destruct (bool_decide _); [by rewrite app_nil_r|].
  destruct (journal_executed me c d) as [[]|e] eqn:Ej; [rewrite app_nil_r; by apply (booked_journal d)| |by rewrite app_nil_r].
  pose proof Hb as (_ & j & Hj & Hst & _). unfold journal_executed in Ej. rewrite Hj in Ej.
  destruct me as [n|]; [discriminate Ej|]. injection Ej as Ej.
  destruct (settled_new c j Hst Ej) as [Hni _]. destruct (log_command_new (dw_now x) c j Hni) as (e & Hlog & Hei & Hek).
  destruct (unasked c).
  { unfold refuse.
    match goal with |- context [with_journal ?f d] =>
      assert (booked (with_journal f d) l) as Hd end.
    { set (why := "Refused: TRADING_IMPACTING without requires_approval"%string).
      assert (exists e2, (mark_failed (dw_now x) (pc_id c) why (j ++ [e])).1 = j ++ [e2] /\ ce_command_id e2 = pc_id c /\
                ce_idempotency_key e2 = pc_idempotency_key c /\ CommandJournal.finished (ce_status e2) = true)
        as (e2 & He2 & Hei2 & Hek2 & Hf2).
      { unfold mark_failed. rewrite (update_row_new _ _ _ _ Hni Hei). eexists. by split_and!. }
      refine (proj1 (booked_more d _ l c j e2 Hb Hj Ej _ _ Hei2 Hek2 Hf2)); [done|].
      cbn [with_journal with_commands d_commands ct_journal]. rewrite Hj. cbn [fmap option_fmap option_map].
      by rewrite Hlog, He2. }
    destruct (cc_call client w _) as [w1 [?|?]]; [|by rewrite app_nil_r].
    destruct (cc_call client w1 _) as [w2 [?|?]]; rewrite app_nil_r; [|done]. by apply (booked_journal _ _ l eq_refl eq_refl) in Hd. }
  destruct (awaits_approval c).
  { destruct (approval_keeps x c d w) as (Hs & _ & Hjk). destruct (approval_phase client x c d w) as [d1 w1].
    rewrite app_nil_r. by apply (booked_journal d). }
  unfold execution_phase. destruct (cc_call client w _) as [w1 [?|?]]; [|by rewrite app_nil_r].
  match goal with |- context [execute_cloud_command None x c ?d0] =>
    pose proof (quiet_execute None x c d0) as [Hqc Hqs]; destruct (execute_cloud_command None x c d0) as [d2 [[ok res] err]] end.
  cbn [fst] in Hqc, Hqs.
  match goal with |- context [with_journal ?f d2] => assert (booked (with_journal f d2) (l ++ [c])) as Hd end.
  { assert (ct_journal (d_commands d2) = Some (j ++ [MkCommand (ce_command_id e) (ce_idempotency_key e) (ce_command_type e)
      IN_PROGRESS (ce_payload_ref e) (ce_result e) (ce_error_message e) (ce_received_at e) (ce_executed_at e)
      (ce_created_at e) (dw_now x)])) as Hj2.
    { rewrite Hqc. cbn [with_journal with_commands d_commands ct_journal]. rewrite Hj. cbn [fmap option_fmap option_map].
      rewrite Hlog. unfold mark_in_progress, command_update_status. by rewrite (update_row_new _ _ _ _ Hni Hei). }
    set (e1 := MkCommand _ _ _ _ _ _ _ _ _ _ _) in Hj2.
    assert (exists e2, (if ok then (mark_completed (dw_now x) (pc_id c) (Some res) (j ++ [e1])).1
                        else (mark_failed (dw_now x) (pc_id c) (if truthy err then default "" err else "Unknown error"%string) (j ++ [e1])).1)
                       = j ++ [e2] /\ ce_command_id e2 = pc_id c /\ ce_idempotency_key e2 = pc_idempotency_key c /\
                       CommandJournal.finished (ce_status e2) = true) as (e2 & He2 & Hei2 & Hek2 & Hf2).
    { destruct ok; [unfold mark_completed|unfold mark_failed]; rewrite (update_row_new _ _ _ _ Hni) by exact Hei;
        eexists; by split_and!. }
    refine (proj2 (booked_more d _ l c j e2 Hb Hj Ej _ _ Hei2 Hek2 Hf2)).
    - exact Hqs.
    - cbn [with_journal with_commands d_commands ct_journal]. rewrite Hj2. cbn [fmap option_fmap option_map]. by rewrite He2. }
  destruct (cc_call client w1 _) as [w2 [?|?]]; [by apply (booked_journal _ _ _ eq_refl eq_refl) in Hd|done].
Qed.

Lemma booked_list me cxs d w l :
  booked d l -> let '(d', _, e, _) := process_list client me cxs d w in booked d' (l ++ e).
Proof.
  revert d w l. induction cxs as [|cx cxs IH]; intros d w l Hb; cbn [process_list]; [by rewrite app_nil_r|].
  pose proof (booked_command me cx d w l Hb) as H1. destruct (process_command client me cx d w) as [[[d1 w1] e1] [u|x]]; [|exact H1].
  specialize (IH d1 w1 (l ++ e1) H1). destruct (process_list client me cxs d1 w1) as [[[d2 w2] e2] r2]. by rewrite app_assoc.
Qed.

Lemma booked_commands me cxs d w l :
  booked d l -> let '(d', _, e, _) := process_cloud_commands client me cxs d w in booked d' (l ++ e).
Proof.
  intros Hb. unfold process_cloud_commands. destruct (d_has_client d); [by apply booked_list|by rewrite app_nil_r].
Qed.

Lemma booked_round me now eid draws d w l :
  booked d l -> let '(d', _, e) := heartbeat_round client me now eid draws d w in booked d' (l ++ e).
Proof.
  intros Hb. unfold heartbeat_round. destruct (d_stop_set d); [by rewrite app_nil_r|].
  destruct (round_start_keeps now eid d w) as (Hs & _ & Hc). set (d1 := report_cloud _ _ _ _) in *.
  apply (booked_quiet d d1 l (quiet_same _ _ Hc Hs)) in Hb. clear Hs Hc.
  destruct (d_has_client d1 && truthy (d_token d1)); [|rewrite app_nil_r; by apply (booked_journal d1)].
  destruct (cc_heartbeat client w _) as [w1 [n|e]]; [|rewrite app_nil_r; by apply (booked_journal d1)].
  destruct (0 <? n); [|rewrite app_nil_r; by apply (booked_journal d1)].
  destruct (cc_poll client w1) as [w2 [cs|e]]; [|rewrite app_nil_r; by apply (booked_journal d1)].
  match goal with |- context [process_cloud_commands client me ?c ?d0 w2] =>
    assert (booked d0 l) as Hd0 by (by apply (booked_journal d1));
    pose proof (booked_commands me c d0 w2 l Hd0) as Hl;
    destruct (process_cloud_commands client me c d0 w2) as [[[d2 w3] l2] [u|e]] end; [exact Hl|].
  by apply (booked_journal d2).
Qed.

Lemma booked_decide now cid approved why by_ d w l :
  booked d l -> booked (decide_cloud_command_approval client now cid approved why by_ d w).1.1 l.
Proof.
  intros Hb. unfold decide_cloud_command_approval. destruct (negb (d_has_client d)); [done|].
  destruct (dget _ cid) as [rid|]; [|done]. destruct (decide_one _ _ _ _ _ _ _) as [m [r|]]; [|by apply (booked_journal d)].
  destruct (cc_call client w _) as [w1 [?|?]]; by apply (booked_journal d).
Qed.

Lemma booked_step s op : booked (w_daemon s) (w_done s) -> booked (w_daemon (daemon_step s op)) (w_done (daemon_step s op)).
Proof.
  intros Hb. destruct op; cbn [daemon_step on_daemon after_commands w_daemon w_done].
  - apply (booked_quiet _ _ _ (quiet_start _ _ _ _ _) Hb).
  - apply (booked_quiet _ _ _ (quiet_stop _ _ _ _) Hb).
  - apply (booked_quiet _ _ _ (quiet_pause _) Hb).
  - apply (booked_quiet _ _ _ (quiet_resume _) Hb).
  - pose proof (quiet_halt now eid r a (w_daemon s) (w_broker s)) as Hq. destruct (halt _ _ _ _ _ _ _) as [[d w] ?].
    by apply (booked_quiet _ _ _ Hq).
  - pose proof (quiet_fire now eid r a (w_daemon s) (w_broker s)) as Hq. destruct (fire _ _ _ _ _ _ _) as [[d w] ?].
    by apply (booked_quiet _ _ _ Hq).
  - unfold handle_time_drift. destruct (fltb _ _); [|done].
    pose proof (quiet_halt now eid (drift_reason now rid drift) HALT_ONLY (w_daemon s) (w_broker s)) as Hq.
    destruct (halt _ _ _ _ _ _ _) as [[d w] ?]. by apply (booked_quiet _ _ _ Hq).
  - apply (booked_quiet _ _ _ (quiet_acknowledge _ _ _ _) Hb).
  - apply (booked_quiet _ _ _ (quiet_reset _ _) Hb).
  - destruct (report_cloud_keeps now eid connected (w_daemon s)) as (Hs & _ & Hc).
    by apply (booked_quiet _ _ _ (quiet_same _ _ Hc Hs)).
  - pose proof (booked_round (Some n) now eid draws (w_daemon s) (w_cloud s) (w_done s) Hb) as Hr.
    by destruct (heartbeat_round _ _ _ _ _ _ _) as [[d w] e].
  - pose proof (booked_commands me l (w_daemon s) (w_cloud s) (w_done s) Hb) as Hr.
    by destruct (process_cloud_commands _ _ _ _ _) as [[[d w] e] r].
  - pose proof (booked_decide now cid approved why by_ (w_daemon s) (w_cloud s) (w_done s) Hb) as Hr.
    by destruct (decide_cloud_command_approval _ _ _ _ _ _ _ _) as [[d w] e].
  - by apply (booked_journal (w_daemon s)).
  - unfold initialize. pose proof Hb as [Hc _]. rewrite (bool_decide_eq_false_2 _ Hc). exact Hb.
Qed.

Lemma init_step_journal env p d d' :
  init_step env p d = (d', None) -> p = InitCommandJournal \/ ct_journal (d_commands d) = Some (ie_journal env) ->
  ct_journal (d_commands d') = Some (ie_journal env).
Proof.
  unfold init_step. destruct (ie_raises env p); [done|]. intros E Hp.
  destruct p; simplify_eq; try (destruct Hp as [Hp|Hp]; [discriminate Hp|exact Hp]).
  - unfold init_cloud_client in E. destruct Hp as [Hp|Hp]; [discriminate Hp|].
    repeat (case_match; simplify_eq; try exact Hp).
  - unfold init_command_journal.
    match goal with |- context [log_event ?t ?y ?d2] => destruct (log_event_keeps t y d2) as (_ & _ & -> & _) end. done.
  - destruct Hp as [Hp|Hp]; [discriminate Hp|]. unfold load_state. destruct (d_file d) as [[id token]|]; [|exact Hp].
    by repeat case_match.
Qed.

Lemma run_init_journal env l d d' :
  run_init env l d = (d', None) -> InitCommandJournal ∈ l \/ ct_journal (d_commands d) = Some (ie_journal env) ->
  ct_journal (d_commands d') = Some (ie_journal env).
Proof.
  revert d. induction l as [|p l IH]; intros d E Hp; cbn [run_init] in E.
  - simplify_eq. destruct Hp as [Hp|Hp]; [by apply elem_of_nil in Hp|exact Hp].
  - destruct (init_step env p d) as [d1 [e|]] eqn:E1; [discriminate E|]. apply (IH d1 E).
    destruct Hp as [Hp|Hp].
    + apply elem_of_cons in Hp as [<-|Hp]; [|by left]. right. apply (init_step_journal env _ d d1 E1). by left.
    + right. apply (init_step_journal env p d d1 E1). by right.
Qed.

Lemma booked_service s op : booked (w_daemon s) (w_done s) -> booked (w_daemon (service_step s op)) (w_done (service_step s op)).
Proof.
  intros Hb. destruct op as [op|now uuid config file env]; cbn [service_step]; [by apply booked_step|].
  pose proof Hb as (_ & j & Hj & Hl). rewrite Hj. cbn [default from_option Datatypes.id].
  unfold initialize. rewrite bool_decide_eq_true_2 by done. cbn [negb].
  destruct (run_init (with_db j env) init_steps _) as [d1 [e|]] eqn:E; [done|]. cbn [on_daemon w_daemon w_done].
  apply run_init_journal in E; [|left; apply list_elem_of_In; cbn; tauto]. cbn [with_db ie_journal] in E.
  match goal with |- booked (log_event ?t ?y ?d2) _ => destruct (log_event_keeps t y d2) as (Hs & _ & Hc & _) end.
  split; [by rewrite Hs|]. exists j. rewrite Hc. by split.
Qed.

Lemma booked_run ops s :
  booked (w_daemon s) (w_done s) -> booked (w_daemon (service_run ops s)) (w_done (service_run ops s)).
Proof. revert s. induction ops as [|op ops IH]; intros s Hb; [done|]. by apply IH, booked_service. Qed.

(** *** What is executed asked for its approval *)

Definition asked (c : PendingCommand) : Prop := unasked c = false /\ awaits_approval c = false.

Lemma asked_command me cx d w : Forall asked (process_command client me cx d w).1.2.
Proof.
  destruct cx as [c x]. unfold process_command. destruct (bool_decide _); [constructor|].
  destruct (journal_executed me c d) as [[]|]; [constructor| |constructor]. destruct (unasked c) eqn:Eu; [by destruct (refuse _ _ _ _ _)|].
  destruct (awaits_approval c) eqn:Ea; [by destruct (approval_phase _ _ _ _ _)|]. unfold execution_phase.
  destruct (cc_call client w _) as [w1 [?|?]]; [|constructor].
  destruct (execute_cloud_command _ _ _ _) as [d2 [[ok res] err]].
  destruct (cc_call client w1 _) as [w2 [?|?]]; constructor; try constructor; done.
Qed.

Lemma asked_list me cxs d w : Forall asked (process_list client me cxs d w).1.2.
Proof.
  revert d w. induction cxs as [|cx cxs IH]; intros d w; [constructor|]. cbn [process_list].
  pose proof (asked_command me cx d w) as H1. destruct (process_command client me cx d w) as [[[d1 w1] e1] [u|x]]; [|exact H1].
  specialize (IH d1 w1). destruct (process_list client me cxs d1 w1) as [[[d2 w2] e2] r2]. by apply Forall_app.
Qed.

Lemma asked_commands me cxs d w : Forall asked (process_cloud_commands client me cxs d w).1.2.
Proof. unfold process_cloud_commands. destruct (d_has_client d); [apply asked_list|constructor]. Qed.

Lemma asked_step s op : Forall asked (w_done s) -> Forall asked (w_done (daemon_step s op)).
Proof.
  intros Hs. destruct op; cbn [daemon_step on_daemon after_commands w_done]; try exact Hs.
  - by destruct (halt _ _ _ _ _ _ _) as [[d w] ?].
  - by destruct (fire _ _ _ _ _ _ _) as [[d w] ?].
  - by destruct (handle_time_drift _ _ _ _ _ _ _) as [[d w] ?].
  - apply Forall_app. split; [done|]. unfold heartbeat_round. destruct (d_stop_set _); [constructor|].
    destruct (_ && truthy _); [|constructor]. destruct (cc_heartbeat client _ _) as [w1 [k|e]]; [|constructor].
    destruct (0 <? k); [|constructor]. destruct (cc_poll client w1) as [w2 [cs|e]]; [|constructor].
    match goal with |- context [process_cloud_commands client ?me ?c ?d0 w2] =>
      pose proof (asked_commands me c d0 w2) as Hl; by destruct (process_cloud_commands client me c d0 w2) as [[[d2 w3] l2] [u|e]] end.
  - apply Forall_app. split; [done|apply asked_commands].
  - by destruct (decide_cloud_command_approval _ _ _ _ _ _ _ _) as [[d w] e].
Qed.

Lemma asked_run ops s : Forall asked (w_done s) -> Forall asked (w_done (service_run ops s)).
Proof.
  revert s. induction ops as [|op ops IH]; intros s Hs; [done|]. apply IH.
  destruct op as [op|now uuid config file env]; cbn [service_step]; [by apply asked_step|].
  by destruct (initialize _ _) as [d []].
Qed.

(** C8: A command of the cloud is executed at most once.  From a daemon that came up on an
    empty journal, over any calls, heartbeats, commands, decisions and restarts on the
    journal, no command id and no idempotency key but the empty one is executed twice,
    whatever the cloud answers and however often it sends a command.  What is executed is
    not pending approval by its status, and asks for an approval by its flag when its label
    says that it impacts trading or is not known.  Label, flag and status are the cloud's
    own word, and no approval is looked up behind them ([label_bypasses_approval],
    [cloud_status_bypasses_approval]). *)
Theorem cloud_command_executed_once now uuid config file env w cl ops :
  let '(d0, up) := initialize (with_db [] env) (new_daemon now uuid config file) in
  up = true ->
  let l := w_done (service_run ops (MkWorld d0 w cl [])) in
  NoDup (map pc_id l) /\ NoDup (keys_of l) /\ Forall (fun c => unasked c = false /\ awaits_approval c = false) l.
Proof.
  pose proof (booked_service (MkWorld (with_commands (d_approvals (new_daemon now uuid config file))
    (MkTracking (Some []) ∅ [] ∅) (with_state IDLE (new_daemon now uuid config file))) w cl []) (Restart now uuid config file env)) as Hr.
  cbn [service_step w_daemon w_done with_commands d_commands ct_journal default from_option Datatypes.id] in Hr.
  destruct (initialize (with_db [] env) (new_daemon now uuid config file)) as [d0 up]. intros ->.
  cbn [on_daemon w_daemon w_done w_broker w_cloud] in Hr. cbn zeta.
  assert (booked d0 []) as Hb.
  { apply Hr. split; [discriminate|]. exists []. split_and!; [done| |constructor..]. split; constructor. }
  destruct (booked_run ops (MkWorld d0 w cl []) Hb) as (_ & j & _ & _ & _ & Hid & Hk).
  split_and!; [exact Hid|exact Hk|]. apply asked_run. constructor.
Qed.
End Runs.

(** ** Concrete runs *)

Abbreviation evidence_hash := hashlib_digest.

(** An agent with a cloud and a token, that has come up. *)
Definition demo_config : DaemonConfig :=
  MkDaemonConfig (Some "agent-1") "ccea-agent" "1.0.0" (Some "https://cloud") 30 None (Some "token") "~/.ccea" None None None
    true true true.

Definition demo_env : InitEnv := MkInitEnv [] [] (Raise "no cloud"%string) (fun _ => None).

Definition demo : Daemon := (initialize demo_env (new_daemon 0 "uuid" (Some demo_config) None)).1.

(** A cloud that takes every call and announces no command. *)
Definition quiet_cloud : CloudClient unit :=
  MkClient (fun _ => true) (fun u _ => (u, Ok tt)) (fun u _ => (u, Ok 0)) (fun u => (u, Ok [])).

(** A cloud that keeps sending its list of commands and loses every result. *)
Definition insistent_cloud (cs : list PendingCommand) : CloudClient unit :=
  MkClient (fun _ => true)
    (fun u c => (u, match c with SubmitResult _ _ _ _ => Raise "timeout"%string | _ => Ok tt end))
    (fun u _ => (u, Ok (Z.of_nat (List.length cs)))) (fun u => (u, Ok cs)).

Definition demo_start : StartEnv := MkStartEnv (true, []) (Ok tt).

Definition demo_draws (n : nat) : Draws := MkDraws (Z.of_nat n) "run-1" "request-1" demo_start true.

Definition command (id status ty cls : string) (approval : bool) : PendingCommand :=
  MkPending id status ("key-" +:+ id) ty "sha256:ab" cls approval None None None None.

Definition halt_world0 : HaltWorld unit := MkHaltWorld tt [] [].

Definition stop_reason (details : dict) : HaltReason := MkReason "r1" MANUAL_TRIGGER CRITICAL "stop" details 0 "user" None true.

Definition started (d : Daemon) : Daemon := (start demo_start 1 None "run-0" d).1.

(** A halted daemon is asked to run in every way there is, but for an acknowledgment. *)
Lemma halt_keeps_daemon_down_witness :
  let start_command := command "c1" "queued" "REQUEST_START_RUN" "trading_impacting" true in
  let '(d1, w1, _) := halt (H := evidence_hash) None 5 "e1" (stop_reason []) CANCEL_ORDERS (started demo) halt_world0 in
  is_running (started demo) = true /\
  is_running (w_daemon (daemon_run (H := evidence_hash) None (insistent_cloud [start_command])
    [OReset 6; OResume; OStart demo_start 7 None "run-2"; ORound 0 8 "e2" demo_draws; OAcknowledge 9 "ops" "yes";
     OStop true None "user_requested"; OStart demo_start 10 None "run-3"]%string (MkWorld d1 w1 tt []))) = false.
Proof.
  intros c.
  pose proof (halt_keeps_daemon_down (H := evidence_hash) None (insistent_cloud [c]) 5 "e1" (stop_reason []) CANCEL_ORDERS
    (started demo) halt_world0 (new_kill_switch None []) (new_executor None) tt
    [OReset 6; OResume; OStart demo_start 7 None "run-2"; ORound 0 8 "e2" demo_draws; OAcknowledge 9 "ops" "yes";
     OStop true None "user_requested"; OStart demo_start 10 None "run-3"]%string
    ltac:(vm_compute; reflexivity) eq_refl eq_refl eq_refl eq_refl) as Hd.
  destruct (halt _ _ _ _ _ _ _) as [[d1 w1] ?]. split; [vm_compute; reflexivity|apply Hd].
Defined.

(** A start and a command that asks for no approval, sent over and over, with the results
    lost and the process restarted: the start is executed once, the other one never. *)
Lemma cloud_command_executed_once_witness :
  let cs := [command "c1" "queued" "REQUEST_START_RUN" "trading_impacting" true;
             command "c2" "queued" "REQUEST_PAUSE_RUN" "trading_impacting" false]%string in
  let delivery := OCommands None (imap (fun i c => (c, demo_draws i)) cs) in
  let ops := [Live delivery; Live (ORound 0 2 "e2" demo_draws); Live delivery;
              Restart 3 "uuid" (Some demo_config) None demo_env; Live delivery]%string in
  let l := w_done (service_run (H := evidence_hash) None (insistent_cloud cs) ops (MkWorld demo halt_world0 tt [])) in
  map pc_id l = ["c1"%string] /\ NoDup (map pc_id l).
Proof.
  intros cs delivery ops.
  pose proof (cloud_command_executed_once (H := evidence_hash) None (insistent_cloud cs) 0 "uuid" (Some demo_config) None
    demo_env halt_world0 tt ops) as Hd.
  assert ((initialize (with_db [] demo_env) (new_daemon 0 "uuid" (Some demo_config) None)).2 = true) as Hu
    by (vm_compute; reflexivity).
  change demo with (initialize (with_db [] demo_env) (new_daemon 0 "uuid" (Some demo_config) None)).1 at 1.
  split; [vm_compute; reflexivity|].
  change demo with (initialize (with_db [] demo_env) (new_daemon 0 "uuid" (Some demo_config) None)).1.
  destruct (initialize (with_db [] demo_env) _) as [d0 up]. cbn [snd] in Hu. apply (Hd Hu).
Defined.

(** *** Findings *)

Lemma list_without_journal_thread `{Digest} {W : Type} (client : CloudClient W) n cxs d (w : W) :
  is_Some (ct_journal (d_commands d)) -> (process_list client (Some n) cxs d w).1.2 = [].
Proof.
  intros [j Hj]. induction cxs as [|[c x] cxs IH]; [done|]. cbn [process_list process_command].
  destruct (bool_decide _).
  2: { unfold journal_executed. by rewrite Hj. }
  by destruct (process_list client (Some n) cxs d w) as [[[d1 w1] l1] r].
Qed.

(** What one command does to a daemon, in the thread of its journal. *)
Definition one_command (c : PendingCommand) (d : Daemon) : Daemon * unit * list PendingCommand :=
  (process_command quiet_cloud None (c, demo_draws 9) d tt).1.

(** A heartbeat thread executes no command: the journal was opened in another thread, and
    asking it raises. *)
Theorem heartbeat_executes_nothing `{Digest} {W : Type} (client : CloudClient W) n now eid draws d (w : W) :
  is_Some (ct_journal (d_commands d)) -> (heartbeat_round client (Some n) now eid draws d w).2 = [].
Proof.
  intros Hj. unfold heartbeat_round. destruct (d_stop_set d); [done|].
  destruct (round_start_keeps client now eid d w) as (_ & _ & Hc). set (d1 := report_cloud _ _ _ _) in *.
  rewrite <- Hc in Hj. clear Hc. destruct (d_has_client d1 && truthy (d_token d1)); [|done].
  destruct (cc_heartbeat client w _) as [w1 [k|e]]; [|done]. destruct (0 <? k); [|done].
  destruct (cc_poll client w1) as [w2 [cs|e]]; [|done].
  match goal with |- context [process_cloud_commands client (Some n) ?l ?d0 w2] =>
    assert ((process_cloud_commands client (Some n) l d0 w2).1.2 = []) as Hl end.
  { unfold process_cloud_commands. case_match; [|reflexivity].
    apply list_without_journal_thread. exact Hj. }
  match goal with |- context [process_cloud_commands client (Some n) ?l ?d0 w2] =>
    by destruct (process_cloud_commands client (Some n) l d0 w2) as [[[d2 w3] l2] [u|e]] end.
Qed.

(** The cloud announces a start: the running agent shows as not connected, and the journal
    has heard of nothing. *)
Theorem heartbeat_loses_the_connection :
  let c := command "c1" "queued" "REQUEST_PAUSE_RUN" "operational" false in
  let '(d, _, l) := heartbeat_round (insistent_cloud [c]) (Some 0%nat) 2 "e1" demo_draws (started demo) tt in
  d_state d = RUNNING /\ st_cloud_connected (d_status d) = false /\ l = [] /\ ct_journal (d_commands d) = Some [].
Proof. vm_compute. repeat split. Qed.

(** A stop that is executed in the heartbeat thread waits for itself, and ends in an error. *)
Theorem heartbeat_cannot_stop :
  let c := command "c1" "queued" "REQUEST_STOP_RUN" "operational" false in
  let '(d, (ok, _, _)) := execute_cloud_command (d_heartbeat (started demo)) (demo_draws 9) c (started demo) in
  ok = false /\ d_state d = ERROR.
Proof. vm_compute. split; reflexivity. Qed.

(** A command that impacts trading and asks for an approval is executed with none when the
    cloud gives it any status but [pending_approval]. *)
Theorem cloud_status_bypasses_approval :
  let '(d, _, l) := one_command (command "c1" "approved" "REQUEST_START_RUN" "trading_impacting" true) demo in
  d_state d = RUNNING /\ map pc_id l = ["c1"]%string /\ requests (d_approvals d) = [].
Proof. vm_compute. repeat split. Qed.

(** A start labelled operational needs no approval at all. *)
Theorem label_bypasses_approval :
  let '(d, _, _) := one_command (command "c1" "queued" "REQUEST_START_RUN" "operational" false) demo in
  d_state d = RUNNING /\ requests (d_approvals d) = [].
Proof. vm_compute. split; reflexivity. Qed.

(** Upgrades and configurations fail whatever they hold. *)
Theorem upgrade_never_works me x c d :
  pc_command_type c ∈ ["REQUEST_UPGRADE_ARTIFACT"; "REQUEST_UPDATE_CONFIG"]%string ->
  execute_cloud_command me x c d = (d, (false, [], Some no_command_id)).
Proof.
  intros Hc. apply elem_of_cons in Hc as [Hc|Hc]; [|apply list_elem_of_singleton in Hc];
    unfold execute_cloud_command; by rewrite Hc.
Qed.

(** A halt with a decimal among its details raises and leaves the daemon running. *)
Theorem halt_with_decimal_keeps_running :
  let '(d, _, r) := halt (H := evidence_hash) None 5 "e1" (stop_reason [("loss", VDec (Dec 5 0))]%string) CANCEL_ORDERS
                      (started demo) halt_world0 in
  r = Raise tt /\ d_state d = RUNNING /\ switch_triggered d = true.
Proof. vm_compute. repeat split. Qed.

Definition halted_demo : Daemon :=
  (halt (H := evidence_hash) None 5 "e1" (stop_reason []) HALT_ONLY (started demo) halt_world0).1.1.

(** A halted daemon that is stopped answers that it was reset, was not, and starts no more. *)
Theorem stopped_halt_cannot_be_reset :
  let d := (acknowledge_halt 6 "ops" "APPROVE_RESET_1" (stop true None "user_requested" halted_demo).1).1 in
  let '(d', b) := reset_halt 7 d in
  b = true /\ switch_triggered d' = true /\ (start demo_start 8 None "run-2" d').2.1 = false.
Proof. vm_compute. repeat split. Qed.

(** The callback of halts is called twice for one halt. *)
Theorem halt_notified_twice : map reason_id (d_notified halted_demo) = ["r1"; "r1"]%string.
Proof. vm_compute. reflexivity. Qed.

(** After a stop and a start the rounds do nothing: the event to stop stays set. *)
Theorem no_heartbeat_after_restart n now eid draws w :
  let d := started (stop true None "user_requested" (started demo)).1 in
  d_state d = RUNNING /\ heartbeat_round quiet_cloud (Some n) now eid draws d w = (d, w, []).
Proof. split; [vm_compute; reflexivity|]. unfold heartbeat_round. by vm_compute. Qed.

(** An initialization that failed before the kill switch is there: after a stop the daemon
    starts all the same, with no kill switch, and a halt of it stops no order. *)
Theorem failed_init_can_start :
  let env := MkInitEnv [] [] (Raise "no cloud"%string)
               (fun s => match s with InitKeychain => Some "locked"%string | _ => None end) in
  let '(d, up) := initialize env (new_daemon 0 "uuid" (Some demo_config) None) in
  let d' := started (stop true None "user_requested" d).1 in
  up = false /\ d_state d' = RUNNING /\ bool_decide (d_switch d' = None) = true.
Proof. vm_compute. repeat split. Qed.

(** The agent id of the state file is never used: the constructor always chose one. *)
Theorem agent_id_not_restored :
  d_agent_id (initialize demo_env (new_daemon 0 "uuid-2" None (Some ("agent-1", None))%string)).1 = "uuid-2"%string.
Proof. vm_compute. reflexivity. Qed.

(** An agent with an enrolment token enrols again at every start: the token it kept is read
    after the enrolment. *)
Theorem enrols_at_every_start :
  let config := MkDaemonConfig (Some "agent-1") "ccea-agent" "1.0.0" (Some "https://cloud") 30 (Some "once") None "~/.ccea"
                  None None None true true true in
  let env := MkInitEnv [] [] (Raise "token already used"%string) (fun _ => None) in
  (initialize env (new_daemon 0 "uuid" (Some config) (Some ("agent-1", Some "kept")%string))).2 = false.
Proof. vm_compute. reflexivity. Qed.

(** A start from a pause starts a second heartbeat thread beside the first. *)
Theorem start_from_pause_starts_threads :
  let d := started (pause (started demo)).1 in d_state d = RUNNING /\ d_threads d = 2%nat.
Proof. vm_compute. split; reflexivity. Qed.

(** A decision taken in the approval manager is not found: the command is asked about again. *)
Theorem decision_in_manager_asks_again :
  let c := command "c1" "pending_approval" "REQUEST_START_RUN" "trading_impacting" true in
  let d1 := (process_command quiet_cloud None (c, MkDraws 1 "run" "request-1" demo_start true) demo tt).1.1.1 in
  let d2 := with_approvals (approve (H := evidence_hash) true 2 "request-1" "yes" "ops" (d_approvals d1)).1 d1 in
  let d3 := (process_command quiet_cloud None (c, MkDraws 3 "run" "request-2" demo_start true) d2 tt).1.1.1 in
  map fst (requests (d_approvals d1)) = ["request-1"]%string /\ map fst (requests (d_approvals d3)) = ["request-2"]%string.
Proof. vm_compute. split; reflexivity. Qed.
