(* ===== verification/RunController.v ===== *)
(** * The run controller: [RunController] of [packages/agent/daemon/agentd.py]

    What stands between a strategy and the engine: initialization with an artifact, the
    start and the stop of a run with their reconciliations, the tick, and a round of the
    reconciliation thread.  The engine is that of [Engine], the kill switch that of
    [KillSwitch].  The artifact, the sandbox and the check of the model's signature answer
    through [InitRun] and the arguments of the operations.  The connector is any object:
    [RunConnector] lists what it has of what the controller calls, by name and by keyword.
    The policies given to the controller are used by its engine alone. *)
From Stdlib Require Import Ascii String.
From S2P Require Import Prelude PyDecimal DecArith PyValue Intent Config Firewall HardCaps RiskChecker Journal Engine.
From S2P Require Import KillSwitch KillSwitchProps Sha256.
Open Scope Z_scope.
Open Scope list_scope.

Inductive SandboxType := SB_PROCESS | SB_CONTAINER | SB_NONE.

Record RunControllerConfig := MkRunConfig {
  rx_execution_mode : ExecutionMode;
  rx_sandbox_enabled : bool;
  rx_sandbox_type : SandboxType;
  rx_deny_outbound : bool;
  rx_readonly_fs : bool;
  rx_reconcile_on_start : bool;
  rx_reconcile_interval : Z;
  rx_reconcile_on_restart : bool;
  rx_safe_halt_on_mismatch : bool;
  rx_policy_validation : bool;
  rx_risk_checks : bool;
  rx_model_signature : bool;
  rx_signature_policy : option string;
  rx_deployment_id : option string;
  rx_run_id : option string
}.

Definition default_run_config : RunControllerConfig :=
  MkRunConfig MODE_LIVE true SB_PROCESS true true true 60 true true true true true None None None.

(** An attribute a connector may have: [submit_order] called by keywords (its answer is
    [success], [broker_order_id], [error_message]), [fetch_positions], and
    [get_open_orders], which is called when there is a [fetch_order_status]. *)
Record RunConnector (B : Type) := MkRunConnector {
  rk_class : string;
  rk_name : option string;
  rk_submit : option (B -> Order -> B * pyres string (bool * option string * option string));
  rk_fetch_positions : option (B -> B * pyres string unit);
  rk_open_orders : option (B -> B * pyres string unit)
}.
Arguments MkRunConnector {B}.
Arguments rk_class {B}.
Arguments rk_name {B}.
Arguments rk_submit {B}.
Arguments rk_fetch_positions {B}.
Arguments rk_open_orders {B}.

(** The objects the controller was made with. *)
Record RunParts := MkRunParts {
  rp_policy : option PolicyFirewall;
  rp_caps : option HardCapEnforcer;
  rp_risk : option RiskChecker;
  rp_journal : OrderJournal
}.

(** [rc_wired] tells whether the engine has a function to submit with, [rc_sandbox] whether
    there is a sandbox and whether it runs; [rc_queue] is what the queue of intents holds.
    [rc_sent] are the orders handed to the broker and [rc_errors] what [on_error] was told. *)
Record RunController (B : Type) := MkRc {
  rc_config : RunControllerConfig;
  rc_parts : RunParts;
  rc_engine : option Engine;
  rc_wired : bool;
  rc_broker : B;
  rc_sent : list Order;
  rc_connector : option (RunConnector B);
  rc_reconciler : bool;
  rc_switch : option KillSwitch;
  rc_sandbox : option bool;
  rc_artifact : option (string * string);
  rc_running : bool;
  rc_initialized : bool;
  rc_run_id : option string;
  rc_portfolio : PortfolioState;
  rc_queue : option (list OrderIntent);
  rc_stop_set : bool;
  rc_errors : list string
}.
Arguments MkRc {B}.
Arguments rc_config {B}.
Arguments rc_parts {B}.
Arguments rc_engine {B}.
Arguments rc_wired {B}.
Arguments rc_broker {B}.
Arguments rc_sent {B}.
Arguments rc_connector {B}.
Arguments rc_reconciler {B}.
Arguments rc_switch {B}.
Arguments rc_sandbox {B}.
Arguments rc_artifact {B}.
Arguments rc_running {B}.
Arguments rc_initialized {B}.
Arguments rc_run_id {B}.
Arguments rc_portfolio {B}.
Arguments rc_queue {B}.
Arguments rc_stop_set {B}.
Arguments rc_errors {B}.

Section Controller.
Context `{Digest} {B : Type}.
Implicit Types s : RunController B.

Definition new_run_controller (config : option RunControllerConfig) (parts : RunParts) (reconciler : bool)
    (connector : option (RunConnector B)) (switch : option KillSwitch) (b : B) : RunController B :=
  MkRc (default default_run_config config) parts None false b [] connector reconciler switch None None false false None
    new_portfolio None false [].

Definition with_run_engine (e : option Engine) (wired : bool) (b : B) (sent : list Order) s : RunController B :=
  MkRc (rc_config s) (rc_parts s) e wired b sent (rc_connector s) (rc_reconciler s) (rc_switch s) (rc_sandbox s)
    (rc_artifact s) (rc_running s) (rc_initialized s) (rc_run_id s) (rc_portfolio s) (rc_queue s) (rc_stop_set s)
    (rc_errors s).
Definition with_wiring (connector : option (RunConnector B)) (reconciler : bool) (switch : option KillSwitch) s : RunController B :=
  MkRc (rc_config s) (rc_parts s) (rc_engine s) (rc_wired s) (rc_broker s) (rc_sent s) connector reconciler switch
    (rc_sandbox s) (rc_artifact s) (rc_running s) (rc_initialized s) (rc_run_id s) (rc_portfolio s) (rc_queue s)
    (rc_stop_set s) (rc_errors s).
Definition with_code (sandbox : option bool) (artifact : option (string * string)) s : RunController B :=
  MkRc (rc_config s) (rc_parts s) (rc_engine s) (rc_wired s) (rc_broker s) (rc_sent s) (rc_connector s)
    (rc_reconciler s) (rc_switch s) sandbox artifact (rc_running s) (rc_initialized s) (rc_run_id s) (rc_portfolio s)
    (rc_queue s) (rc_stop_set s) (rc_errors s).
Definition with_run (running initialized : bool) (run_id : option string) (stop_set : bool) s : RunController B :=
  MkRc (rc_config s) (rc_parts s) (rc_engine s) (rc_wired s) (rc_broker s) (rc_sent s) (rc_connector s)
    (rc_reconciler s) (rc_switch s) (rc_sandbox s) (rc_artifact s) running initialized run_id (rc_portfolio s)
    (rc_queue s) stop_set (rc_errors s).
Definition with_inputs (p : PortfolioState) (q : option (list OrderIntent)) s : RunController B :=
  MkRc (rc_config s) (rc_parts s) (rc_engine s) (rc_wired s) (rc_broker s) (rc_sent s) (rc_connector s)
    (rc_reconciler s) (rc_switch s) (rc_sandbox s) (rc_artifact s) (rc_running s) (rc_initialized s) (rc_run_id s) p q
    (rc_stop_set s) (rc_errors s).
Definition with_error_told (e : string) s : RunController B :=
  MkRc (rc_config s) (rc_parts s) (rc_engine s) (rc_wired s) (rc_broker s) (rc_sent s) (rc_connector s)
    (rc_reconciler s) (rc_switch s) (rc_sandbox s) (rc_artifact s) (rc_running s) (rc_initialized s) (rc_run_id s)
    (rc_portfolio s) (rc_queue s) (rc_stop_set s) (rc_errors s ++ [e]).

(** ** The submit function *)

Definition no_attribute (cls attr : string) : string := "'" +:+ cls +:+ "' object has no attribute '" +:+ attr +:+ "'".

(** [_create_broker_submit_fn]: the connector is that of the moment of the call, and what
    it raises is the error of the order. *)
Definition broker_submit_fn (connector : option (RunConnector B)) (b : B) (o : Order) :
    B * pyres string (bool * option string * option string) :=
  let failed (m : string) := Ok (false, None, Some m) in
  match connector with
  | None => (b, failed (no_attribute "NoneType" "submit_order"))
  | Some c =>
      match rk_submit c with
      | None => (b, failed (no_attribute (rk_class c) "submit_order"))
      | Some f =>
          match f b o with
          | (b, Raise e) => (b, failed e)
          | (b, Ok (ok, id, err)) => (b, Ok (ok, id, if ok then None else err))
          end
      end
  end.

(** What the engine submits with. *)
Definition engine_broker s : Broker B :=
  MkBroker (if rc_wired s then Some (broker_submit_fn (rc_connector s)) else None) None None.

Definition world_of (e : Engine) s : World B := MkWorld e (rc_broker s) (rc_sent s).

(** ** [initialize] *)

(** The artifact found (its id, its name, whether it is extracted), whether [_init_sandbox]
    makes a sandbox ([RunSandbox]), and what the check of the signature raises. *)
Record InitRun := MkInitRun {
  ir_artifact : option (string * string * bool);
  ir_sandbox : pyres string bool;
  ir_verify : pyres string unit;
  ir_now : Z;
  ir_uuids : string * string * string * string
}.

(** [_init_execution_engine] *)
Definition init_execution_engine (x : InitRun) s : RunController B :=
  let '(u1, u2, u3, u4) := ir_uuids x in
  let c := rc_config s in
  let p := rc_parts s in
  let pick (o : option string) (u : string) := if truthy o then o else Some u in
  let journal := match rc_engine s with Some e => en_journal e | None => rp_journal p end in
  let name := match rc_connector s ≫= rk_name with Some n => n | None => "default"%string end in
  with_run_engine
    (Some (new_engine (default (new_firewall None None (ir_now x)) (rp_policy p))
             (default (new_enforcer None (ir_now x)) (rp_caps p)) (default new_checker (rp_risk p)) default_collar name
             journal (pick (rx_deployment_id c) u1) (pick (rx_run_id c) u2) u3 u4))
    (match rc_connector s ≫= rk_submit with Some _ => true | None => false end) (rc_broker s) (rc_sent s) s.

Definition init_failed (e : string) s : RunController B * bool :=
  (with_error_told ("RunController initialization failed: " +:+ e) s, false).

Definition initialize_run (x : InitRun) s : RunController B * bool :=
  if rc_initialized s then (s, true)
  else
    let artifact := (fun a => (a.1.1, a.1.2)) <$> ir_artifact x in
    let s := with_code (rc_sandbox s) artifact s in
    match (if rx_sandbox_enabled (rc_config s) then ir_sandbox x else Ok false) with
    | Raise e => init_failed e s
    | Ok made =>
        let s := with_code (if (made : bool) then Some false else rc_sandbox s) artifact s in
        let s := init_execution_engine x s in
        let extracted := match ir_artifact x with Some a => a.2 | None => false end in
        match (if extracted && rx_model_signature (rc_config s) then ir_verify x else Ok tt) with
        | Raise e => init_failed e s
        | Ok _ => (with_run (rc_running s) true (rc_run_id s) (rc_stop_set s) s, true)
        end
    end.

(** ** Reconciliation *)

(** [reconcile] of [PositionReconciler] takes no arguments, so the call with the two keywords
    raises. *)
Definition reconcile_refuses : string :=
  "PositionReconciler.reconcile() got an unexpected keyword argument 'local_positions'".

(** A call of the connector, when it has the method. *)
Definition ask_connector (f : RunConnector B -> option (B -> B * pyres string unit)) s : RunController B * pyres string unit :=
  match rc_connector s ≫= f with
  | Some g => let '(b, r) := g (rc_broker s) in (with_run_engine (rc_engine s) (rc_wired s) b (rc_sent s) s, r)
  | None => (s, Ok tt)
  end.

(** [_perform_reconciliation]: whether it succeeded, and the error. *)
Definition perform_reconciliation s : RunController B * (bool * option string) :=
  if negb (rc_reconciler s) then (s, (true, None))
  else
    match ask_connector rk_fetch_positions s with
    | (s, Raise e) => (s, (false, Some e))
    | (s, Ok _) =>
        match ask_connector rk_open_orders s with
        | (s, Raise e) => (s, (false, Some e))
        | (s, Ok _) => (s, (false, Some reconcile_refuses))
        end
    end.

(** A round of [_reconciliation_loop]: the reason for the kill switch names a type that does
    not exist, so nothing is triggered. *)
Definition reconciliation_round s : RunController B :=
  if rc_stop_set s then s else (perform_reconciliation s).1.

(** ** Runs *)

(** [start_run]; [ok] is the answer of a sandbox that does not run. *)
Definition start_run (run_id : option string) (uuid : string) (ok : bool) s : RunController B * (bool * option string) :=
  if rc_running s then (s, (true, None))
  else if negb (rc_initialized s) then (s, (false, Some "RunController not initialized"%string))
  else
    let s := with_run false true (if truthy run_id then run_id else Some uuid) false s in
    let '(s, (fine, e)) := if rx_reconcile_on_start (rc_config s) then perform_reconciliation s else (s, (true, None)) in
    if negb fine && rx_safe_halt_on_mismatch (rc_config s) then
      (s, (false, Some ("Reconciliation failed: " +:+ default "None" e +:+ " - safe halt")%string))
    else
      match rc_sandbox s with
      | Some running =>
          let ok := running || ok in
          let s := with_code (Some ok) (rc_artifact s) s in
          if ok then (with_run true true (rc_run_id s) false s, (true, None))
          else (s, (false, Some "Failed to start sandbox"%string))
      | None => (with_run true true (rc_run_id s) false s, (true, None))
      end.

Definition stop_run s : RunController B * bool :=
  if negb (rc_running s) then (s, true)
  else
    let s := with_run true (rc_initialized s) (rc_run_id s) true s in
    let s := with_code ((fun _ => false) <$> rc_sandbox s) (rc_artifact s) s in
    let s := if rx_reconcile_on_restart (rc_config s) then (perform_reconciliation s).1 else s in
    (with_run false (rc_initialized s) (rc_run_id s) true s, true).

(** ** [tick] *)

(** The callbacks of intents and orders, which may raise. *)
Record RunCallbacks := MkRunCallbacks {
  cb_intent : option (OrderIntent -> pyres unit unit);
  cb_order : option (Order -> pyres unit unit)
}.

Inductive tick_error := TickCallback | TickEngine (e : ExecError).

(** The time and the identifiers an execution draws. *)
Record TickDraw := MkTickDraw { td_now : Z; td_order : string; td_recovered : string; td_entry : string }.

Definition called {A} (f : option (A -> pyres unit unit)) (a : A) : bool :=
  match f with
  | Some f => match f a with Ok _ => true | Raise _ => false end
  | None => true
  end.

(** One intent: what the engine answers, and whether every callback came back. *)
Definition tick_intent (env : Broker B) (cb : RunCallbacks) (x : TickDraw) (i : OrderIntent) (w : World B) :
    World B * pyres tick_error ExecutionResult :=
  if negb (called (cb_intent cb) i) then (w, Raise TickCallback)
  else
    match execute env w (td_now x) (td_order x) (td_recovered x) (td_entry x) i None "runner" with
    | (w, Raise e) => (w, Raise (TickEngine e))
    | (w, Ok r) =>
        if match x_order r with Some o => called (cb_order cb) o | None => true end then (w, Ok r)
        else (w, Raise TickCallback)
    end.

Fixpoint tick_loop (env : Broker B) (cb : RunCallbacks) (draws : nat -> TickDraw) (n : nat) (l : list OrderIntent) (w : World B) :
    World B * pyres tick_error (list ExecutionResult) :=
  match l with
  | [] => (w, Ok [])
  | i :: l =>
      match tick_intent env cb (draws n) i w with
      | (w, Raise e) => (w, Raise e)
      | (w, Ok r) =>
          match tick_loop env cb draws (S n) l w with
          | (w, Raise e) => (w, Raise e)
          | (w, Ok rs) => (w, Ok (r :: rs))
          end
      end
  end.

Definition run_triggered s : bool := match rc_switch s with Some k => ks_triggered k | None => false end.

(** [_execute_intent] without an engine. *)
Definition no_engine : ExecutionResult := MkExecResult false None None (Some "Execution engine not initialized"%string).

Definition tick (cb : RunCallbacks) (draws : nat -> TickDraw) (p : option PortfolioState) s :
    RunController B * pyres tick_error (list ExecutionResult) :=
  if negb (rc_running s) then (s, Ok [])
  else
    let s :=
      match p with
      | Some p =>
          with_run_engine (update_portfolio p <$> rc_engine s) (rc_wired s) (rc_broker s) (rc_sent s)
            (with_inputs p (rc_queue s) s)
      | None => s
      end in
    if run_triggered s then (s, Ok [])
    else
      let l := default [] (rc_queue s) in
      let s := with_inputs (rc_portfolio s) ((fun _ => []) <$> rc_queue s) s in
      match rc_engine s with
      | None => (s, if forallb (called (cb_intent cb)) l then Ok (map (fun _ => no_engine) l) else Raise TickCallback)
      | Some e =>
          let '(w, r) := tick_loop (engine_broker s) cb draws 0 l (world_of e s) in
          (with_run_engine (Some (w_engine w)) (rc_wired s) (w_broker w) (w_sent w) s, r)
      end.

(** ** Setters and status *)

Definition set_broker_connector (c : option (RunConnector B)) s : RunController B :=
  let s' := with_wiring c (rc_reconciler s) (rc_switch s) s in
  match rc_engine s, c with
  | Some e, Some _ => with_run_engine (Some e) true (rc_broker s) (rc_sent s) s'
  | _, _ => s'
  end.

Definition set_reconciler (r : bool) s : RunController B := with_wiring (rc_connector s) r (rc_switch s) s.

Definition set_kill_switch (k : option KillSwitch) s : RunController B := with_wiring (rc_connector s) (rc_reconciler s) k s.

Definition run_status s : dict :=
  [("is_running", VBool (rc_running s)); ("is_initialized", VBool (rc_initialized s));
   ("run_id", v_opt_str (rc_run_id s)); ("has_sandbox", VBool (bool_decide (rc_sandbox s <> None)));
   ("sandbox_running", VBool (default false (rc_sandbox s)));
   ("has_execution_engine", VBool (match rc_engine s with Some _ => true | None => false end));
   ("has_reconciler", VBool (rc_reconciler s)); ("artifact_id", v_opt_str (fst <$> rc_artifact s));
   ("artifact_name", v_opt_str (snd <$> rc_artifact s));
   ("execution_mode", VStr (execution_mode_value (rx_execution_mode (rc_config s))))]%string.
End Controller.

(** * Theorems on the run controller

    Orders leave the controller only in a tick of a run that was started after what it
    asked of a reconciliation, while the kill switch is not triggered, and no client order
    id leaves twice; and runs in which the controller does not do what it means to. *)
From S2P Require Import EngineProps EngineJournal.
From S2P Require Import BrokerProtocol SimBroker.

Section Runs.
Context `{Digest} {B : Type}.
Implicit Types s : RunController B.

(** The operations, those of the shared kill switch and the strategy that offers intents
    among them. *)
Inductive run_op :=
  | RInit (x : InitRun)
  | RStart (run_id : option string) (uuid : string) (ok : bool)
  | RStop
  | RTick (cb : RunCallbacks) (draws : nat -> TickDraw) (p : option PortfolioState)
  | RRound
  | RConnector (c : option (RunConnector B))
  | RReconciler (r : bool)
  | RSwitch (k : option KillSwitch)
  | RSwitchOp (op : ks_op)
  | ROffer (q : list OrderIntent).

Definition run_step s (op : run_op) : RunController B :=
  match op with
  | RInit x => (initialize_run x s).1
  | RStart run_id uuid ok => (start_run run_id uuid ok s).1
  | RStop => (stop_run s).1
  | RTick cb draws p => (tick cb draws p s).1
  | RRound => reconciliation_round s
  | RConnector c => set_broker_connector c s
  | RReconciler r => set_reconciler r s
  | RSwitch k => set_kill_switch k s
  | RSwitchOp op => set_kill_switch ((fun k => ks_step k op) <$> rc_switch s) s
  | ROffer q => with_inputs (rc_portfolio s) (Some (default [] (rc_queue s) ++ q)) s
  end.

Definition run_all (ops : list run_op) s : RunController B := fold_left run_step ops s.

(** ** What a reconciliation touches *)

(** Only the broker's state. *)
Definition same_run s s' : Prop :=
  rc_engine s' = rc_engine s /\ rc_sent s' = rc_sent s /\ rc_running s' = rc_running s /\
  rc_initialized s' = rc_initialized s /\ rc_parts s' = rc_parts s.

Lemma same_run_trans s1 s2 s3 : same_run s1 s2 -> same_run s2 s3 -> same_run s1 s3.
Proof. intros (H1 & H2 & H3 & H4 & H5) (H6 & H7 & H8 & H9 & H10). split_and!; congruence. Qed.

Lemma ask_same f s : same_run s (ask_connector f s).1.
Proof. unfold ask_connector. destruct (rc_connector s ≫= f) as [g|]; [|done]. by destruct (g (rc_broker s)). Qed.

Lemma reconciliation_same s : same_run s (perform_reconciliation s).1.
Proof.
  unfold perform_reconciliation. destruct (negb _); [done|].
  pose proof (ask_same rk_fetch_positions s) as H1. destruct (ask_connector rk_fetch_positions s) as [s1 [u|e]]; [|exact H1].
  pose proof (ask_same rk_open_orders s1) as H2. destruct (ask_connector rk_open_orders s1) as [s2 [u'|e]];
    by apply (same_run_trans _ s1).
Qed.

(** ** No client order id is sent twice *)

Definition sent_ok s : Prop :=
  match rc_engine s with
  | Some e => sent_once (world_of e s)
  | None => rc_sent s = []
  end.

Lemma sent_once_broker (w : World B) (b : B) : sent_once w -> sent_once (MkWorld (w_engine w) b (w_sent w)).
Proof. done. Qed.

Lemma sent_ok_same s s' : rc_engine s' = rc_engine s -> rc_sent s' = rc_sent s -> sent_ok s -> sent_ok s'.
Proof.
  intros He Hs Hok. unfold sent_ok in *. rewrite He, Hs. destruct (rc_engine s) as [e|]; [|done].
  unfold world_of in *. rewrite Hs. by apply (sent_once_broker (MkWorld e (rc_broker s) (rc_sent s))).
Qed.

Lemma tick_loop_once env cb draws n l (w : World B) : sent_once w -> sent_once (tick_loop env cb draws n l w).1.
Proof.
  revert n w. induction l as [|i l IH]; intros n w Hw; [done|]. cbn [tick_loop].
  assert (sent_once (tick_intent env cb (draws n) i w).1) as H1.
  { unfold tick_intent. destruct (negb _); [done|]. set (x := draws n).
    pose proof (w_step_sent_once env w (Execute (td_now x) (td_order x) (td_recovered x) (td_entry x) i None "runner") Hw) as H1.
    cbn [w_step] in H1. destruct (execute env w _ _ _ _ i None "runner") as [w1 [r|e]]; [|exact H1].
    by destruct (match x_order r with Some o => _ | None => _ end). }
  destruct (tick_intent env cb (draws n) i w) as [w1 [r|e]]; [|exact H1]. specialize (IH (S n) w1 H1).
  by destruct (tick_loop env cb draws (S n) l w1) as [w2 [rs|e]].
Qed.

Lemma tick_ok cb draws p s : sent_ok s -> sent_ok (tick cb draws p s).1.
Proof.
  intros Hs. unfold tick. destruct (negb (rc_running s)); [done|].
  set (s1 := match p with Some p => _ | None => s end).
  assert (sent_ok s1) as H1.
  { subst s1. destruct p as [p|]; [|done]. unfold sent_ok in *. cbn. destruct (rc_engine s) as [e|]; [|done]. exact Hs. }
  clearbody s1. destruct (run_triggered s1); [done|]. cbn [with_inputs rc_engine].
  destruct (rc_engine s1) as [e|] eqn:Ee; [|by apply (sent_ok_same s1)].
  unfold sent_ok in H1. rewrite Ee in H1.
  match goal with |- context [tick_loop ?env cb draws 0 ?l ?w] =>
    pose proof (tick_loop_once env cb draws 0 l w H1) as H2; destruct (tick_loop env cb draws 0 l w) as [w' r] end.
  cbn [fst] in H2 |- *. unfold sent_ok. cbn [with_run_engine rc_engine]. by apply (sent_once_broker w').
Qed.

Lemma init_ok x s : sent_ok s -> sent_ok (initialize_run x s).1.
Proof.
  intros Hs. unfold initialize_run. destruct (rc_initialized s); [done|].
  set (s' := with_code (rc_sandbox s) _ s).
  destruct (if rx_sandbox_enabled (rc_config s') then ir_sandbox x else Ok false); [|by apply (sent_ok_same s)].
  set (s1 := with_code _ _ s').
  assert (sent_ok (init_execution_engine x s1)) as H1.
  { unfold init_execution_engine. destruct (ir_uuids x) as [[[u1 u2] u3] u4]. unfold sent_ok in *.
    cbn [with_run_engine rc_engine with_code rc_sent s1 s'] in *. destruct (rc_engine s) as [e|]; [exact Hs|].
    unfold world_of. cbn [rc_sent with_run_engine with_code s1 s']. rewrite Hs. split; [constructor|].
    intros o Ho. by apply elem_of_nil in Ho. }
  destruct (if _ && _ then ir_verify x else Ok tt); exact H1.
Qed.

Lemma run_step_once s op : sent_ok s -> sent_ok (run_step s op).
Proof.
  intros Hs. destruct op; cbn [run_step]; try (by apply (sent_ok_same s)).
  - by apply init_ok.
  - unfold start_run. destruct (rc_running s); [done|]. destruct (negb _); [done|].
    set (s1 := with_run false true _ false s).
    assert (sent_ok (if rx_reconcile_on_start (rc_config s1) then perform_reconciliation s1 else (s1, (true, None))).1) as H1.
    { destruct (rx_reconcile_on_start _); [|done]. destruct (reconciliation_same s1) as (He & Hs' & _). by apply (sent_ok_same s1). }
    destruct (if rx_reconcile_on_start (rc_config s1) then _ else _) as [s2 [fine e]]. cbn [fst] in H1.
    destruct (negb fine && _); [done|]. destruct (rc_sandbox s2) as [b|]; [destruct (b || ok)|]; by apply (sent_ok_same s2).
  - unfold stop_run. destruct (negb _); [done|]. set (s1 := with_code _ _ _).
    destruct (rx_reconcile_on_restart _); [|by apply (sent_ok_same s)].
    destruct (reconciliation_same s1) as (He & Hs' & _). by apply (sent_ok_same s).
  - by apply tick_ok.
  - unfold reconciliation_round. destruct (rc_stop_set s); [done|].
    destruct (reconciliation_same s) as (He & Hs' & _). by apply (sent_ok_same s).
  - unfold set_broker_connector. destruct (rc_engine s) eqn:E; destruct c; apply (sent_ok_same s); by rewrite ?E.
Qed.

Lemma run_all_once ops s : sent_ok s -> sent_ok (run_all ops s).
Proof. revert s. induction ops as [|op ops IH]; intros s Hs; [done|]. by apply IH, run_step_once. Qed.

(** ** A running controller was started *)

Definition is_stop (op : run_op) : bool := match op with RStop => true | _ => false end.

(** A start of these operations that answered yes after initialization, with no stop after
    it.  Where the configuration asks for a reconciliation and to stop when it fails, no
    reconciler was wired: with one the start is refused ([reconciler_prevents_runs]), so no
    comparison with the broker stands behind such a start. *)
Definition started_by (ops : list run_op) s0 : Prop :=
  exists pre run_id uuid ok post,
    ops = pre ++ RStart run_id uuid ok :: post /\ existsb is_stop post = false /\
    let s := run_all pre s0 in
    rc_initialized s = true /\ (start_run run_id uuid ok s).2.1 = true /\
    (rx_reconcile_on_start (rc_config s) && rx_safe_halt_on_mismatch (rc_config s) = true ->
     rc_reconciler s = false).

(** A reconciliation succeeds only where there is none to make. *)
Lemma reconciled_without s : (perform_reconciliation s).2.1 = true -> rc_reconciler s = false.
Proof.
  unfold perform_reconciliation. destruct (rc_reconciler s); [|done]. cbn [negb].
  destruct (ask_connector rk_fetch_positions s) as [s1 [u|e]]; [|done].
  by destruct (ask_connector rk_open_orders s1) as [s2 [u'|e]].
Qed.

(** The outcome does not depend on what a start sets before it asks. *)
Lemma reconciliation_answer s a b r st : (perform_reconciliation (with_run a b r st s)).2 = (perform_reconciliation s).2.
Proof.
  unfold perform_reconciliation, ask_connector. cbn [with_run rc_reconciler]. destruct (negb _); [done|].
  cbn [with_run rc_connector rc_broker]. destruct (rc_connector s) as [c|] eqn:Ec; cbn [mbind option_bind].
  2: { cbn [with_run rc_connector]. by rewrite Ec. }
  destruct (rk_fetch_positions c) as [f|].
  - destruct (f (rc_broker s)) as [b1 [u|e]]; [|done]. cbn [with_run_engine with_run rc_connector rc_broker]. rewrite Ec.
    cbn [mbind option_bind]. destruct (rk_open_orders c) as [g|]; [|done]. by destruct (g b1) as [b2 [u'|e]].
  - cbn [with_run rc_connector rc_broker]. rewrite Ec. cbn [mbind option_bind].
    destruct (rk_open_orders c) as [g|]; [|done]. by destruct (g (rc_broker s)) as [b2 [u'|e]].
Qed.

(** A start makes a controller run, or leaves it as idle as it was. *)
Lemma start_runs run_id uuid ok s :
  rc_running s = false -> rc_running (start_run run_id uuid ok s).1 = true ->
  rc_initialized s = true /\ (start_run run_id uuid ok s).2.1 = true /\
  (rx_reconcile_on_start (rc_config s) && rx_safe_halt_on_mismatch (rc_config s) = true ->
   (perform_reconciliation s).2.1 = true).
Proof.
  intros Hr. unfold start_run. rewrite Hr. destruct (rc_initialized s) eqn:Ei; [|cbn; congruence]. cbn [negb].
  set (s1 := with_run false true _ false s). pose proof (reconciliation_answer s false true
    (if truthy run_id then run_id else Some uuid) false) as Ha. fold s1 in Ha.
  pose proof (reconciliation_same s1) as (_ & _ & Hr1 & _). change (rc_config s1) with (rc_config s).
  assert (forall c : RunControllerConfig, rc_running (if rx_reconcile_on_start c then perform_reconciliation s1 else (s1, (true, None))).1 = false) as Hr2.
  { intros c. destruct (rx_reconcile_on_start c); [by rewrite Hr1|done]. }
  specialize (Hr2 (rc_config s)).
  destruct (rx_reconcile_on_start (rc_config s)) eqn:Eo; cbn [andb].
  - rewrite <- Ha. destruct (perform_reconciliation s1) as [s2 [fine e]] eqn:Ep. cbn [fst snd] in *.
    destruct fine; cbn [negb andb].
    + destruct (rc_sandbox s2) as [b|]; [destruct (b || ok)|]; cbn; intros; split_and!; congruence.
    + assert (rc_config s2 = rc_config s) as Hc.
      { clear -Ep. unfold perform_reconciliation, ask_connector in Ep. repeat (case_match; simplify_eq; try done). }
      rewrite Hc. destruct (rx_safe_halt_on_mismatch (rc_config s)); [cbn; congruence|].
      destruct (rc_sandbox s2) as [b|]; [destruct (b || ok)|]; cbn; intros; split_and!; congruence.
  - cbn [fst] in Hr2. destruct (rc_sandbox s1) as [b|]; [destruct (b || ok)|]; cbn; intros; split_and!; congruence.
Qed.

Lemma tick_running cb draws p s : rc_running (tick cb draws p s).1 = rc_running s.
Proof.
  unfold tick. destruct (negb (rc_running s)); [done|]. destruct p as [p|]; cbn zeta.
  - destruct (run_triggered _); [done|]. cbn [with_inputs with_run_engine rc_engine].
    destruct (update_portfolio p <$> rc_engine s); [by destruct (tick_loop _ _ _ _ _ _)|done].
  - destruct (run_triggered s); [done|]. cbn [with_inputs rc_engine].
    destruct (rc_engine s); [by destruct (tick_loop _ _ _ _ _ _)|done].
Qed.

Lemma step_starts s op :
  rc_running s = false -> rc_running (run_step s op) = true -> exists run_id uuid ok, op = RStart run_id uuid ok.
Proof.
  intros Hr. destruct op; cbn [run_step]; intros Hs; try (by rewrite Hr in Hs); try (cbn in Hs; congruence).
  - exfalso. unfold initialize_run in Hs. destruct (rc_initialized s); [cbn in Hs; congruence|].
    set (s1 := with_code (rc_sandbox s) _ s) in Hs.
    destruct (if rx_sandbox_enabled _ then ir_sandbox x else Ok false); [|cbn in Hs; congruence].
    unfold init_execution_engine in Hs. destruct (ir_uuids x) as [[[u1 u2] u3] u4].
    destruct (if _ && _ then ir_verify x else Ok tt); cbn in Hs; congruence.
  - by eexists _, _, _.
  - unfold stop_run in Hs. rewrite Hr in Hs. cbn in Hs. congruence.
  - rewrite tick_running in Hs. congruence.
  - unfold reconciliation_round in Hs. destruct (rc_stop_set s); [congruence|].
    destruct (reconciliation_same s) as (_ & _ & Hr' & _). congruence.
  - unfold set_broker_connector in Hs. destruct (rc_engine s); destruct c; cbn in Hs; congruence.
Qed.

Lemma stop_stops s : rc_running (stop_run s).1 = false.
Proof. unfold stop_run. by destruct (rc_running s) eqn:E. Qed.

Lemma run_all_snoc ops op s : run_all (ops ++ [op]) s = run_step (run_all ops s) op.
Proof. unfold run_all. by rewrite fold_left_app. Qed.

Lemma running_started ops s0 : rc_running s0 = false -> rc_running (run_all ops s0) = true -> started_by ops s0.
Proof.
  intros H0. induction ops as [|op ops IH] using rev_ind; [cbn; congruence|]. rewrite run_all_snoc.
  destruct (rc_running (run_all ops s0)) eqn:Er; intros Hr.
  - destruct (IH eq_refl) as (pre & run_id & uuid & ok & post & -> & Hn & Hs).
    exists pre, run_id, uuid, ok, (post ++ [op]). split_and!; [by rewrite <- app_assoc| |exact Hs].
    rewrite existsb_app, Hn. cbn. destruct op; try done. cbn [run_step] in Hr. rewrite stop_stops in Hr. discriminate Hr.
  - destruct (step_starts _ op Er Hr) as (run_id & uuid & ok & ->). exists ops, run_id, uuid, ok, [].
    split_and!; [done|done|]. destruct (start_runs _ _ _ _ Er Hr) as (Hi & Ha & Hq).
    split_and!; [done|done|]. intros Hc. by apply reconciled_without, Hq.
Qed.

(** ** Only ticks of a run send *)

Lemma tick_silent cb draws p s :
  rc_running s = false \/ run_triggered s = true -> rc_sent (tick cb draws p s).1 = rc_sent s.
Proof.
  intros Hs. unfold tick. destruct (rc_running s); cbn [negb]; [|done]. destruct Hs as [Hs|Hs]; [discriminate Hs|].
  destruct p as [p|]; [|by rewrite Hs].
  match goal with |- context [run_triggered ?s1] => change (run_triggered s1) with (run_triggered s) end. by rewrite Hs.
Qed.

Lemma step_silent s op :
  match op with RTick _ _ _ => rc_running s = false \/ run_triggered s = true | _ => True end ->
  rc_sent (run_step s op) = rc_sent s.
Proof.
  destruct op; cbn [run_step]; intros Hs; try done.
  - unfold initialize_run. destruct (rc_initialized s); [done|]. set (s1 := with_code (rc_sandbox s) _ s).
    destruct (if rx_sandbox_enabled _ then ir_sandbox x else Ok false); [|done].
    unfold init_execution_engine. destruct (ir_uuids x) as [[[u1 u2] u3] u4]. by destruct (if _ && _ then ir_verify x else Ok tt).
  - unfold start_run. destruct (rc_running s); [done|]. destruct (negb _); [done|]. set (s1 := with_run false true _ false s).
    assert (rc_sent (if rx_reconcile_on_start (rc_config s1) then perform_reconciliation s1 else (s1, (true, None))).1 = rc_sent s) as H1.
    { destruct (rx_reconcile_on_start _); [|done]. by destruct (reconciliation_same s1) as (_ & -> & _). }
    destruct (if rx_reconcile_on_start (rc_config s1) then _ else _) as [s2 [fine e]]. cbn [fst] in H1.
    destruct (negb fine && _); [done|]. by destruct (rc_sandbox s2) as [b|]; [destruct (b || ok)|].
  - unfold stop_run. destruct (negb _); [done|]. set (s1 := with_code _ _ _).
    destruct (rx_reconcile_on_restart _); [|done]. destruct (reconciliation_same s1) as (_ & Hq & _). exact Hq.
  - by apply tick_silent.
  - unfold reconciliation_round. destruct (rc_stop_set s); [done|]. by destruct (reconciliation_same s) as (_ & -> & _).
  - unfold set_broker_connector. by destruct (rc_engine s); destruct c.
Qed.


(** With a reconciler no reconciliation succeeds: a controller that asks for one at its
    start never runs. *)
Theorem reconciler_prevents_runs s : rc_reconciler s = true -> (perform_reconciliation s).2.1 = false.
Proof.
  intros Hr. destruct (perform_reconciliation s).2.1 eqn:E; [|done].
  apply reconciled_without in E. congruence.
Qed.
End Runs.

(** ** Concrete runs *)

(** A connector of [BrokerProtocol], as the controller finds it: [submit_order] takes one
    request, and there are no [fetch_positions] and [fetch_order_status]. *)
Definition of_protocol {C} (cls : string) (c : Connector C) : RunConnector C :=
  MkRunConnector cls (Some (cn_name c))
    (Some (fun b _ => (b, Raise (cls +:+ ".submit_order() got an unexpected keyword argument 'symbol'")%string)))
    None None.

(** A connector that takes the keywords. *)
Definition keyword_connector : RunConnector nat :=
  MkRunConnector "Paper" (Some "paper"%string) (Some (fun n _ => (S n, Ok (true, Some "B1"%string, None)))) None None.

Definition run_parts : RunParts := MkRunParts None None None (new_journal None).

Definition run_init : InitRun := MkInitRun None (Ok true) (Ok tt) 0 ("u1", "u2", "u3", "u4")%string.

Definition run_draws (n : nat) : TickDraw :=
  let nat_str n := int_str (Z.of_nat n) in
  MkTickDraw (Z.of_nat n) ("o" +:+ nat_str n) ("p" +:+ nat_str n) ("e" +:+ nat_str n).

Definition no_callbacks : RunCallbacks := MkRunCallbacks None None.

(** What the daemon passes: callbacks that raise. *)
Definition daemon_callbacks : RunCallbacks := MkRunCallbacks (Some (fun _ => Raise tt)) (Some (fun _ => Raise tt)).

(** An order with a limit price far below the caps. *)
Definition run_intent (id : string) : OrderIntent :=
  with_quantity (Dec 10 0) (new_intent "s" "AAPL" MARKET_ENTRY LONG 0 id).

Definition trading_run {B} (c : RunConnector B) (reconciler : bool) (cb : RunCallbacks) (b : B) : RunController B :=
  run_all (H := hashlib_digest) [RInit run_init; RStart None "r1" true; ROffer [run_intent "i1"; run_intent "i2"]; RTick cb run_draws None]
    (new_run_controller None run_parts reconciler (Some c) None b).


(** No connector of the repository takes the keywords: every order is journalled as rejected
    and the broker never hears of it. *)
Theorem protocol_connector_refuses {C} cls (c : Connector C) b o :
  exists m, broker_submit_fn (Some (of_protocol cls c)) b o = (b, Ok (false, None, Some m)).
Proof. by eexists. Qed.

Theorem no_order_reaches_connector :
  let b := MkSim "sim" [] dzero dzero dzero dzero true [] [] [] 0 in
  let s := trading_run (of_protocol "SimBrokerConnector" (sim_connector "sim" 5)) false no_callbacks b in
  rc_broker s = b /\ (fun e => map je_status (jo_orders (en_journal e))) <$> rc_engine s = Some [J_REJECTED; J_REJECTED].
Proof. vm_compute. split; reflexivity. Qed.

(** The callbacks of the daemon raise: the first intent ends the tick, and all of them are
    gone from the queue. *)
Theorem daemon_callbacks_lose_intents :
  let s := trading_run keyword_connector false daemon_callbacks 0%nat in rc_sent s = [] /\ rc_queue s = Some [].
Proof. vm_compute. split; reflexivity. Qed.

(** With a reconciler the run does not start, although nothing differs. *)
Theorem reconciler_refuses_start :
  let s := trading_run keyword_connector true no_callbacks 0%nat in rc_running s = false /\ rc_sent s = [].
Proof. vm_compute. split; reflexivity. Qed.
