(* ===== verification/RunSandbox.v ===== *)
(** * What a run is confined to: [initialize] and [_init_sandbox] of [RunController] in
    [packages/agent/daemon/agentd.py]

    The artifact and the manifest the controller of [RunController] is initialized with come
    from the store of [ArtifactStore]; the configuration of its sandbox from the enforcer of
    [SandboxEnforcer], which the controller makes with a policy engine of its own. *)
From Stdlib Require Import SpecFloat.
From Stdlib Require Import Ascii String.
From S2P Require Import Prelude PyDecimal DecArith PyFloat PyFormat PyValue PyJson PyCompare PyText PyRepr Sha256.
From S2P Require Import LayeredPolicy Manifest SandboxEnforcer ArtifactStore RunController.
Open Scope Z_scope.
Open Scope list_scope.

(** The fields of [SandboxConfig] that are given. *)
Record RunSandbox := MkRunSandbox {
  rs_type : SandboxType;
  rs_cpu : pyfloat;
  rs_memory : policy_value;
  rs_timeout : policy_value;
  rs_network : policy_value;
  rs_egress : list pyval;
  rs_deny_outbound : bool;
  rs_readonly : policy_value;
  rs_paths : list string
}.

(** The artifact with this identifier, or the active one. *)
Definition artifact_of_run (id : option string) (s : ArtifactManager) : option Artifact :=
  match id with
  | Some id => if truthy (Some id) then get_artifact id s else get_active_artifact s
  | None => get_active_artifact s
  end.

(** The manifest, which an artifact may lack. *)
Definition manifest_of_run (a : option Artifact) (given : option ArtifactManifest) : option ArtifactManifest :=
  match a with
  | Some a => af_manifest a
  | None => Some (default default_restrictive given)
  end.

Section Run.
Context `{SetOrder}.

(** [_init_sandbox]: no sandbox without a manifest; [None] outside raises. *)
Definition init_sandbox (c : RunControllerConfig) (now : Z) (m : option ArtifactManifest) (id : string) :
    option (option RunSandbox) :=
  match m with
  | None => Some None
  | Some m =>
      let enforcer := SandboxEnforcer.new_enforcer (new_layered now default_layered_config false) in
      p ← (SandboxEnforcer.compute_permissions m id enforcer).2;
      cpu ← hundredth (ep_cpu p);
      paths ← mapM as_str (ep_paths p);
      Some (Some (MkRunSandbox (rx_sandbox_type c) cpu (ep_memory p) (ep_time p) (ep_network p) (ep_egress p)
                    (rx_deny_outbound c) (if rx_readonly_fs c then Scalar (VBool true) else ep_readonly p) paths))
  end.

(** What [initialize] of the controller is answered when the artifacts are those of a store;
    [e] is the text of what [_init_sandbox] raises, [verify] the check of the signature. *)
Definition init_run_of (c : RunControllerConfig) (now : Z) (id : option string) (given : option ArtifactManifest) (e : string)
    (verify : pyres string unit) (uuids : string * string * string * string) (s : ArtifactManager) : InitRun :=
  let a := artifact_of_run id s in
  MkInitRun ((fun a => (af_id a, af_name a, bool_decide (is_Some (af_extracted a)))) <$> a)
    (match init_sandbox c now (manifest_of_run a given) (default "" (af_id <$> a)) with
     | None => Raise e
     | Some r => Ok (bool_decide (is_Some r))
     end)
    verify now uuids.
End Run.

(** ** Theorems *)

(** The lower of a limit of the manifest and a default. *)
Definition lowered (dflt m : pyval) : pyval := if bool_decide (val_lt dflt m = Some true) then dflt else m.

Lemma lower_limit_number dflt m : is_Some (num_of m) -> is_Some (num_of dflt) -> exists b, lower_limit m (Scalar dflt) = Some (Scalar (lowered dflt m), b).
Proof.
  intros [x Ex] [y Ey]. unfold lower_limit, lowered. rewrite bool_decide_eq_false_2 by (by intros [= ->]).
  cbn [policy_lt]. assert (exists b, val_lt dflt m = Some b) as [[] ->] by (unfold val_lt; rewrite Ex, Ey; by eexists); by eexists.
Qed.

Lemma number_kinds v f : hundredth (Scalar v) = Some f -> is_Some (num_of v).
Proof. destruct v; cbn; try done; by eexists. Qed.

Lemma lowered_number dflt m : is_Some (num_of dflt) -> is_Some (num_of m) -> is_Some (num_of (lowered dflt m)).
Proof. unfold lowered. by case_bool_decide. Qed.

Lemma text_hashable l : forallb hashable (map VStr l) = true.
Proof. by induction l. Qed.

Section Confined.
Context `{SetOrderLaws}.

(** The policies of an engine nobody set anything in. *)
Lemma fresh_policies now :
  let e := new_layered now default_layered_config false in
  get_policy e "network_enabled" = Some (Scalar (VBool false), DEFAULT) /\
  get_policy e "egress_allowlist" = Some (PList [], DEFAULT) /\
  get_policy e "filesystem_readonly" = Some (Scalar (VBool true), DEFAULT) /\
  get_policy e "allowed_paths" = Some (Scalar VNone, DEFAULT) /\
  get_policy e "max_memory_mb" = Some (Scalar (VInt 512), DEFAULT) /\
  get_policy e "max_cpu_percent" = Some (Scalar (float_of 100), DEFAULT) /\
  get_policy e "max_execution_time" = Some (Scalar (VInt 3600), DEFAULT).
Proof. cbv zeta. split_and!; vm_compute; reflexivity. Qed.

(** The hosts or paths of a manifest, in the order of the set they are put into. *)
Lemma listed_texts l : exists r, set_of (map VStr l) = Some r /\
  forall x, x ∈ restrict_list r [] -> exists t, t ∈ l /\ x = VStr t.
Proof.
  destruct (set_of (map VStr l)) as [r|] eqn:E; [|apply set_of_none in E; by rewrite text_hashable in E].
  exists r. split; [done|]. intros x Hx. assert (x ∈ r) as Hr.
  { destruct r as [|y r]; [done|]. cbn [restrict_list] in Hx. by rewrite set_order_perm in Hx. }
  apply (set_of_sub _ _ _ E), list_elem_of_In, in_map_iff in Hr as (t & <- & Ht). exists t. by rewrite list_elem_of_In.
Qed.

Lemma texts_read (r : list pyval) (l : list string) :
  (forall x, x ∈ r -> exists t, t ∈ l /\ x = VStr t) -> exists ts, mapM as_str r = Some ts /\ forall t, t ∈ ts -> t ∈ l.
Proof.
  induction r as [|x r IH]; intros Hr; [exists []; split; [done|]; intros t Ht; by apply elem_of_nil in Ht|].
  destruct IH as (ts & Ets & Hts); [by intros y Hy; apply Hr, elem_of_cons; right|].
  destruct (Hr x) as (t & Ht & ->); [apply elem_of_cons; by left|]. exists (t :: ts). cbn. rewrite Ets. split; [done|].
  intros u Hu. apply elem_of_cons in Hu as [->|Hu]; [done|by apply Hts].
Qed.

(** A manifest whose limits are numbers always gets a sandbox: the network is that of the
    manifest, the files are read-only when the manifest or the configuration says so, the
    limits are the lower of the manifest's and the defaults, and the hosts and paths are
    among those the manifest lists. *)
Theorem run_sandbox_confined c now m id f :
  is_Some (num_of (mf_memory m)) -> is_Some (num_of (mf_time m)) -> hundredth (Scalar (mf_cpu m)) = Some f ->
  exists x, init_sandbox c now (Some m) id = Some (Some x) /\
    rs_network x = Scalar (VBool (mf_network m)) /\
    rs_readonly x = Scalar (VBool (rx_readonly_fs c || mf_readonly m)) /\
    rs_memory x = Scalar (lowered (VInt 512) (mf_memory m)) /\
    rs_timeout x = Scalar (lowered (VInt 3600) (mf_time m)) /\
    hundredth (Scalar (lowered (float_of 100) (mf_cpu m))) = Some (rs_cpu x) /\
    (forall h, h ∈ rs_egress x -> exists t, t ∈ mf_egress m /\ h = VStr t) /\
    (forall p, p ∈ rs_paths x -> p ∈ mf_paths m).
Proof.
  intros Hm Ht Hc. pose proof (number_kinds _ _ Hc) as Hn.
  destruct (fresh_policies now) as (G1 & G2 & G3 & G4 & G5 & G6 & G7).
  destruct (listed_texts (mf_egress m)) as (hosts & Eh & Hh), (listed_texts (mf_paths m)) as (paths & Ep & Hp).
  destruct (texts_read _ _ Hp) as (ts & Ets & Hts).
  destruct (lower_limit_number (VInt 512) (mf_memory m)) as [b1 L1]; [done|by eexists|].
  destruct (lower_limit_number (float_of 100) (mf_cpu m)) as [b2 L2]; [done|by eexists|].
  destruct (lower_limit_number (VInt 3600) (mf_time m)) as [b3 L3]; [done|by eexists|].
  assert (exists g, hundredth (Scalar (lowered (float_of 100) (mf_cpu m))) = Some g) as [g Hg].
  { unfold lowered. case_bool_decide; by eexists. }
  unfold init_sandbox, SandboxEnforcer.compute_permissions, compute, SandboxEnforcer.new_enforcer. cbn [SandboxEnforcer.en_policy].
  rewrite G1, G2, G3, G4, G5, G6, G7. cbn [mbind option_bind fst snd].
  assert (set_of_value (PList []) = Some [] /\ set_of_value (Scalar VNone) = Some []) as [-> ->] by done.
  cbn [mbind option_bind]. rewrite L1, L2, L3. cbn [mbind option_bind]. rewrite Eh, Ep. cbn [mbind option_bind snd fst].
  cbn [ep_cpu ep_paths]. rewrite Hg, Ets. cbn [mbind option_bind]. eexists. split; [reflexivity|].
  cbn [rs_network rs_readonly rs_memory rs_timeout rs_cpu rs_egress rs_paths ep_network ep_readonly ep_memory ep_time ep_egress].
  split_and!; try done; [by destruct (mf_network m)|by destruct (rx_readonly_fs c), (mf_readonly m)].
Qed.
End Confined.

(** ** Concrete runs *)

#[local] Instance set_as_listed : SetOrder := fun l => l.
#[local] Instance set_as_listed_laws : SetOrderLaws.
Proof. intros l. reflexivity. Qed.

Lemma run_sandbox_confined_witness :
  exists x, init_sandbox default_run_config 0 (Some default_restrictive) "one" = Some (Some x) /\
    rs_network x = Scalar (VBool false) /\ rs_memory x = Scalar (VInt 256).
Proof.
  destruct (run_sandbox_confined default_run_config 0 default_restrictive "one" (fdiv (float_of_int 50) (float_of_int 100)))
    as (x & E & Hn & _ & Hm & _); [by eexists|by eexists|reflexivity|].
  exists x. split_and!; [exact E|exact Hn|]. rewrite Hm. vm_compute. reflexivity.
Defined.

(** The enforcer of a run has a policy engine of its own: what the local user denies is
    allowed to the run. *)
Theorem run_ignores_local_policy :
  let m := MkManifest "s" "1" STRATEGY "" [] true ["a.com"%string] true [] (VInt 256) (float_of 50) (VInt 300) [] "" "" "" "" in
  let denied := set_local_policy 0 [("network_enabled", Scalar (VBool false))]%string None "local" (new_layered 0 default_layered_config false) in
  ep_network <$> compute m denied = Some (Scalar (VBool false)) /\
  option_map rs_network (mjoin (init_sandbox default_run_config 0 (Some m) "one")) = Some (Scalar (VBool true)).
Proof. vm_compute. split; reflexivity. Qed.

(** An artifact read from the index has no manifest, since none was ever unpacked: a run that
    asks for a sandbox starts without one after a restart of the agent. *)
Theorem restarted_artifact_has_no_sandbox :
  let store ops := store_run (H := hashlib_digest) ([SDownload (received "strategy one") no_archive 1000 "one" "https://cloud/one"
    (sha256_digest (H := hashlib_digest) "strategy one") None None; SActivate 2000 "one"]%string ++ ops) (empty_store "/cache") in
  let x s := init_run_of default_run_config 0 None None "" (Ok tt) ("u1", "u2", "u3", "u4")%string s in
  let run s := initialize_run (x s) (new_run_controller (B := unit) None (MkRunParts None None None (Journal.new_journal None)) false None None tt) in
  let restarted := store [SRestart (fun _ => None) {["/cache/one"%string]}] in
  rc_sandbox (run (store [])).1 = Some false /\
  rc_artifact (run restarted).1 = Some ("one", "")%string /\ rc_sandbox (run restarted).1 = None /\ (run restarted).2 = true.
Proof. vm_compute. split_and!; reflexivity. Qed.
