(* ===== verification/AgentClient.v ===== *)
(** * From target exposures to orders: [packages/agent/execution/agent_client.py]

    [AgentClient]: an [IntentBatch] of target exposures, as [service_xs_live.py]
    builds it, is turned into order intents for the differences to the current
    positions, submitted through the engine of [Engine] or sliced by the
    [ChildExecutor], and [pump] advances slices and fills.

    The client holds the collaborators it shares with the rest of the agent: the
    engine with its broker, the executor, the states of the fill handler, and the
    orders its source of fills tracks; the source is the polling one, over the same
    broker.  [K] is the listener of the fills, a ledger.  What the providers of
    prices and positions answer is an argument: [None] is no provider, [Raise] any
    exception.  [supply n] is what the [n]-th submission draws.  Floats that have no
    finite decimal are outside the model ([NotFinite]). *)
From Stdlib Require Import SpecFloat.
From Stdlib Require Import Ascii String.
From S2P Require Import Prelude PyDecimal DecArith PyFormat PyFloat PyValue PyJson PyCompare PyText PyRepr.
From S2P Require Import Sha256 Uuid HashChain Intent Firewall HardCaps RiskChecker Journal Engine.
From S2P Require Import ChildExecutor Fills.
Open Scope Z_scope.
Open Scope list_scope.

(** ** Batches: [service_xs_live.py] *)

Record XsIntent := MkXsIntent {
  xi_symbol : string;
  xi_target_weight : pyfloat;
  xi_target_notional : pyfloat
}.

Record IntentBatch := MkBatch {
  ib_ts_ms : Z;
  ib_equity : pyfloat;
  ib_intents : list XsIntent;
  ib_key : string
}.

Section Batches.
Context `{Digest}.

(** [f"{s}:{round(float(w), 8)}"] *)
Definition target_text (sw : string * pyfloat) : text :=
  chars sw.1 ++ ":"%char :: float_repr (fround 8 sw.2).

Definition batch_key (ts_ms : Z) (targets : list (string * pyfloat)) : string :=
  substring 0 32 (sha256_hex (string_of_list_ascii
    (int_chars ts_ms ++ "|"%char :: join_chars [","%char] (map target_text (sort_keys targets))))).

Definition not_nan (x : pyfloat) : bool := match x with S754_nan => false | _ => true end.

(** [build_intents]: missing weights are left out; of a symbol that occurs twice the
    last weight counts. *)
Definition build_intents (weights : list (string * pyfloat)) (equity : pyfloat) (ts_ms : Z)
    (key : option string) : IntentBatch :=
  let targets :=
    fold_left (fun d sw => dset d sw.1 sw.2) (List.filter (fun sw => not_nan sw.2) weights) [] in
  MkBatch ts_ms equity (map (fun sv => MkXsIntent sv.1 sv.2 (fmul sv.2 equity)) targets)
    (if truthy key then default ""%string key else batch_key ts_ms targets).
End Batches.

(** ** Data *)

Record ClientConfig := MkClientConfig {
  cc_strategy : string;
  cc_min_notional : pyfloat;
  cc_slices : Z;
  cc_weights : list pyfloat
}.

Record Client (B K : Type) := MkClient {
  cl_world : World B;
  cl_exec : option Executor;
  cl_fills : option (list (string * FillState));
  cl_tracked : option (list (string * option (string * string)));
  cl_ledger : K
}.
Arguments MkClient {B K}.
Arguments cl_world {B K}.
Arguments cl_exec {B K}.
Arguments cl_fills {B K}.
Arguments cl_tracked {B K}.
Arguments cl_ledger {B K}.

(** [max(1, int(n_slices))] *)
Definition new_config (strategy : string) (min_notional : pyfloat) (n_slices : Z) (weights : list pyfloat) :
    ClientConfig := MkClientConfig strategy min_notional (Z.max 1 n_slices) weights.

(** The entries of the lists of [SendResult]. *)
Record Submitted := MkSubmitted {
  sb_symbol : string;
  sb_side : string;
  sb_qty : dec;
  sb_delta : pyfloat;
  sb_sliced : option (string * Z);
  sb_order : option Order
}.

Inductive SendError := NoPrice | SliceFailed (e : SubmitError) | Refused (msg : string).

Record SendResult := MkSend {
  sr_key : string;
  sr_submitted : list Submitted;
  sr_skipped : list (string * pyfloat);
  sr_errors : list (string * SendError);
  sr_parents : list string;
  sr_sliced : bool
}.

Definition add_submitted (s : Submitted) (r : SendResult) : SendResult :=
  MkSend (sr_key r) (sr_submitted r ++ [s]) (sr_skipped r) (sr_errors r) (sr_parents r) (sr_sliced r).
Definition add_skipped (s : string * pyfloat) (r : SendResult) : SendResult :=
  MkSend (sr_key r) (sr_submitted r) (sr_skipped r ++ [s]) (sr_errors r) (sr_parents r) (sr_sliced r).
Definition add_send_error (s : string * SendError) (r : SendResult) : SendResult :=
  MkSend (sr_key r) (sr_submitted r) (sr_skipped r) (sr_errors r ++ [s]) (sr_parents r) (sr_sliced r).
Definition add_parent (p : string) (r : SendResult) : SendResult :=
  MkSend (sr_key r) (sr_submitted r) (sr_skipped r) (sr_errors r) (sr_parents r ++ [p]) (sr_sliced r).

Inductive ClientError := NotFinite | EngineError (e : ExecError).

(** ** Reading the environment *)

(** [{str(k): float(v) ...}]; anything that raises gives an empty dictionary. *)
Definition float_answers (a : option (pyres unit dict)) : list (string * pyfloat) :=
  match a with
  | Some (Ok d) =>
      default [] (mapM (fun kv => x ← float_of_val kv.2; Some (kv.1, x)) d)
  | _ => []
  end.

(** [Decimal(str(x))] *)
Definition dec_of_float (x : pyfloat) : option dec := dec_of_val (VFloat x).

(** The sums and dictionaries [_sync_portfolio] collects. *)
Record Exposure := MkExposure {
  xp_positions : list (string * dec);
  xp_values : list (string * dec);
  xp_gross : dec;
  xp_net : dec
}.

(** One symbol of the loop. *)
Definition add_exposure (prices : list (string * pyfloat)) (x : Exposure) (sv : string * pyfloat) :
    option Exposure :=
  nv ← dec_of_float sv.2;
  let values := dset (xp_values x) sv.1 nv in
  let gross := dadd (xp_gross x) (dabs nv) in
  let net := dadd (xp_net x) nv in
  match dget prices sv.1 with
  | Some px =>
      if ftrue px && fltb fzero px then
        p ← dec_of_float px;
        q ← ddiv nv p;
        Some (MkExposure (dset (xp_positions x) sv.1 q) values gross net)
      else Some (MkExposure (xp_positions x) values gross net)
  | None => Some (MkExposure (xp_positions x) values gross net)
  end.

Fixpoint exposure (prices positions : list (string * pyfloat)) (x : Exposure) : option Exposure :=
  match positions with
  | [] => Some x
  | sv :: r => x ← add_exposure prices x sv; exposure prices r x
  end.

(** The state [_sync_portfolio] gives the engine; the other fields have the defaults
    of [PortfolioState]. *)
Definition synced_portfolio (equity : pyfloat) (positions prices : list (string * pyfloat)) :
    option PortfolioState :=
  x ← exposure prices positions (MkExposure [] [] dzero dzero);
  eq ← (if ftrue equity then dec_of_float equity else Some dzero);
  let d := new_portfolio in
  Some (MkPortfolio eq eq (margin_used d) (margin_available d) (xp_positions x) (xp_values x) (xp_gross x)
          (xp_net x) (daily_pnl d) (peak_equity d) (orders_today d) (orders_this_minute d)).

(** The namespace [6f1d3c2a-4b5e-4a7c-9d2f-8e1a0b3c4d5e]. *)
Definition INTENT_NS : list Z := [111; 29; 60; 42; 75; 94; 74; 124; 157; 47; 142; 26; 11; 60; 77; 94].

(** [_intent_id] *)
Definition batch_intent_id (key sym : string) : string := uuid5 INTENT_NS (key +:+ "|" +:+ sym).

Section Client.
Context `{Digest} {B K : Type} (env : Broker B) (cfg : ClientConfig).

Abbreviation client := (Client B K).

Definition with_world (w : World B) (c : client) : client :=
  MkClient w (cl_exec c) (cl_fills c) (cl_tracked c) (cl_ledger c).
Definition with_executor (x : Executor) (c : client) : client :=
  MkClient (cl_world c) (Some x) (cl_fills c) (cl_tracked c) (cl_ledger c).

Definition on_client_engine (f : Engine -> Engine) (c : client) : client :=
  let w := cl_world c in with_world (MkWorld (f (w_engine w)) (w_broker w) (w_sent w)) c.

(** [self._fill_source.track(coid)] *)
Definition track_fill (coid : string) (c : client) : client :=
  match cl_tracked c with
  | Some t =>
      MkClient (cl_world c) (cl_exec c) (cl_fills c)
        (Some (pl_tracked (track coid (MkPolling (w_broker (cl_world c)) t)))) (cl_ledger c)
  | None => c
  end.

(** ** Sending a batch *)

(** What one call of [send_intents] works with. *)
Record SendContext := MkContext {
  sx_key : string;
  sx_now : pyfloat;
  sx_targets : list (string * pyfloat);
  sx_current : list (string * pyfloat);
  sx_prices : list (string * pyfloat);
  sx_supply : nat -> Draw
}.

Definition delta_of (x : SendContext) (sym : string) : pyfloat :=
  fsub (default fzero (dget (sx_targets x) sym)) (default fzero (dget (sx_current x) sym)).

(** A price that can be traded at. *)
Definition usable_price (x : SendContext) (sym : string) : option pyfloat :=
  p ← dget (sx_prices x) sym;
  if negb (ffinite p) || fleb p fzero then None else Some p.

Definition rebalance_side (delta : pyfloat) : string := if fltb fzero delta then "buy"%string else "sell"%string.

Definition rebalance_intent (x : SendContext) (sym : string) (delta : pyfloat) (qty notional : dec) (d : Draw) :
    OrderIntent :=
  MkIntent (cc_strategy cfg) sym MARKET_ENTRY
    (if bool_decide (rebalance_side delta = "buy"%string) then LONG else SHORT) (Some qty) (Some notional) None None
    "DAY" PNORMAL ("xs rebalance " +:+ substring 0 12 (sx_key x))
    [("idempotency_key", VStr (sx_key x)); ("target_notional", VFloat (default fzero (dget (sx_targets x) sym)));
     ("delta_notional", VFloat delta)]%string (dr_now d) None (batch_intent_id (sx_key x) sym).

(** A sliced parent order. *)
Definition send_sliced (x : SendContext) (sym : string) (delta : pyfloat) (qty : dec) (ex : Executor)
    (c : client) (r : SendResult) : client * SendResult :=
  let side := rebalance_side delta in
  match submit_parent sym side qty (cc_slices cfg) (sx_now x) (cc_weights cfg) None None
          (Some (substring 0 12 (sx_key x) +:+ "_" +:+ sym)) "" ex with
  | Raise e => (c, add_send_error (sym, SliceFailed e) r)
  | Ok (ex, p) =>
      (with_executor ex c,
       add_submitted (MkSubmitted sym side qty delta (Some (po_id p, Z.of_nat (List.length (po_children p)))) None)
         (add_parent (po_id p) r))
  end.

(** A market order; an exception of the engine leaves [send_intents]. *)
Definition send_market (x : SendContext) (sym : string) (delta : pyfloat) (qty notional price : dec) (d : Draw)
    (c : client) (r : SendResult) : client * pyres ClientError SendResult :=
  let '(w, res) := execute env (cl_world c) (dr_now d) (dr_order d) (dr_recovered d) (dr_entry d)
                     (rebalance_intent x sym delta qty notional d) (Some price) "runner" in
  let c := with_world w c in
  match res with
  | Raise e => (c, Raise (EngineError e))
  | Ok y =>
      match (if success y then x_order y else None) with
      | Some o =>
          (track_fill (client_order_id o) c,
           Ok (add_submitted (MkSubmitted sym (rebalance_side delta) (quantity o) delta None (Some o)) r))
      | None =>
          (c, Ok (add_send_error
                    (sym, Refused (if truthy (x_error y) then default "" (x_error y)
                                   else "execute_failed")%string) r))
      end
  end.

(** The body of the loop for one symbol; [n] counts the submissions. *)
Definition send_symbol (x : SendContext) (sym : string) (n : nat) (c : client) (r : SendResult) :
    client * pyres ClientError SendResult :=
  let delta := delta_of x sym in
  if fltb (fabs delta) (cc_min_notional cfg) then (c, Ok (add_skipped (sym, delta) r))
  else
    match usable_price x sym with
    | None => (c, Ok (add_send_error (sym, NoPrice) r))
    | Some price =>
        match dec_of_float (fdiv (fabs delta) price), dec_of_float (fabs delta), dec_of_float price with
        | Some qty, Some notional, Some px =>
            match sr_sliced r, cl_exec c with
            | true, Some ex => let '(c, r) := send_sliced x sym delta qty ex c r in (c, Ok r)
            | _, _ => send_market x sym delta qty notional px (sx_supply x n) c r
            end
        | _, _, _ => (c, Raise NotFinite)
        end
    end.

Fixpoint send_loop (x : SendContext) (syms : list string) (n : nat) (c : client) (r : SendResult) :
    client * pyres ClientError SendResult :=
  match syms with
  | [] => (c, Ok r)
  | sym :: syms =>
      match send_symbol x sym n c r with
      | (c, Raise e) => (c, Raise e)
      | (c, Ok r) => send_loop x syms (S n) c r
      end
  end.

Definition target_notionals (b : IntentBatch) : list (string * pyfloat) :=
  fold_left (fun d i => dset d (xi_symbol i) (xi_target_notional i)) (ib_intents b) [].

(** [sorted(set(target_notional) | set(cur_notional))] *)
Definition batch_symbols (b : IntentBatch) (positions : list (string * pyfloat)) : list string :=
  sorted_strings (list_to_set (target_notionals b).*1 ∪ list_to_set positions.*1).

Definition send_intents (now_ts : pyfloat) (supply : nat -> Draw) (prices positions : option (pyres unit dict))
    (b : IntentBatch) (c : client) : client * pyres ClientError SendResult :=
  let prices := float_answers prices in
  let current := float_answers positions in
  match synced_portfolio (ib_equity b) current prices with
  | None => (c, Raise NotFinite)
  | Some p =>
      let c := on_client_engine (update_portfolio p) c in
      let sliced := match cl_exec c with Some _ => 1 <? cc_slices cfg | None => false end in
      send_loop (MkContext (ib_key b) now_ts (target_notionals b) current prices supply)
        (batch_symbols b current) 0 c (MkSend (ib_key b) [] [] [] [] sliced)
  end.

(** ** One tick *)

(** The callbacks of the fill handler: the executor, if there is one, and the ledger. *)
Definition client_callbacks (book : option (K -> dict -> K)) (sliced : bool) : Callbacks (option Executor * K) :=
  MkCallbacks
    ((fun f l payload => (l.1, f l.2 payload)) <$> book)
    (if sliced then
       Some (fun l coid cum avg => (ChildExecutor.on_child_fill coid cum avg <$> l.1, l.2))
     else None).

(** [self._fill_handler.consume(self._fill_source, ...)] *)
Definition consume_fills (book : option (K -> dict -> K)) (fetch : B -> string -> B * pyres unit (option dict))
    (now max_batches : Z) (c : client) : client * Z :=
  match cl_fills c, cl_tracked c with
  | Some states, Some t =>
      let w := cl_world c in
      let '(src, d, n) :=
        consume (S := PollingFillSource B) (H0 := polling_poll fetch)
          (client_callbacks book (bool_decide (is_Some (cl_exec c)))) now
          (MkPolling (w_broker w) t) max_batches
          (MkDesk (w_engine w) states (cl_exec c, cl_ledger c)) in
      (MkClient (MkWorld (d_engine d) (pl_broker src) (w_sent w)) (d_listener d).1 (Some (d_state d))
         (Some (pl_tracked src)) (d_listener d).2, n)
  | _, _ => (c, 0)
  end.

Record PumpReport := MkPump {
  pu_ts : pyfloat;
  pu_fills : Z;
  pu_step : option StepReport;
  pu_complete : bool
}.

(** [pump]: slices are released before fills are read; an exception of a release
    leaves it before. *)
Definition pump (book : option (K -> dict -> K)) (fetch : B -> string -> B * pyres unit (option dict))
    (cancel : option (B -> string -> option string -> B * pyres unit bool)) (now : Z) (ts : pyfloat)
    (supply : nat -> Draw) (prices : list (string * pyval)) (max_batches : Z) (c : client) :
    client * pyres ExecError PumpReport :=
  let '(c, stepped) :=
    match cl_exec c with
    | None => (c, Ok None)
    | Some x =>
        let '(s, r) := step env cancel supply ts prices x (cl_world c) in
        let c := with_executor (st_exec s) (with_world (st_world s) c) in
        match r with
        | Raise e => (c, Raise e)
        | Ok _ => (fold_left (fun c coid => track_fill coid c) (rp_released (st_report s)) c,
                   Ok (Some (st_report s)))
        end
    end in
  match stepped with
  | Raise e => (c, Raise e)
  | Ok rep =>
      let '(c, n) := consume_fills book fetch now max_batches c in
      (c, Ok (MkPump ts n rep (match cl_exec c with Some x => all_complete x | None => true end)))
  end.
End Client.
