(* ===== verification/AgentClientProps.v ===== *)
(** * Theorems on the agent client

    What a batch is turned into: every symbol is accounted for, every order has the
    direction and size of the difference it trades; and that a batch that is sent
    again, after a restart or any number of times, trades once. *)
From Stdlib Require Import SpecFloat.
From Stdlib Require Import Ascii String.
From S2P Require Import Prelude PyDecimal DecArith PyFormat PyFloat PyValue PyJson PyCompare PyText PyRepr.
From S2P Require Import Sha256 Uuid HashChain Intent Config Firewall HardCaps RiskChecker Journal Engine EngineProps EngineJournal.
From S2P Require Import ChildExecutor Fills AgentClient.
Open Scope Z_scope.
Open Scope list_scope.

(** ** What an execution sends *)

Section Sent.
Context `{Digest} {B : Type} (env : Broker B).

(** The client id of an intent of this strategy at this broker. *)
Definition id_for (broker strategy iid : string) : string :=
  ("ccea_" +:+ substring 0 24 (sha256_hex ("ccea|" +:+ broker +:+ "|" +:+ strategy +:+ "|" +:+ iid)))%string.

Lemma to_order_fields e now oid i px o :
  intent_to_order e now oid i px = Some o ->
  client_order_id o = id_for (en_broker_name e) (strategy_id i) (intent_id i) /\
  o_intent_id o = intent_id i /\ o_symbol o = symbol i /\
  o_side o = (if bool_decide (Intent.side i = LONG) then "buy"%string else "sell"%string) /\
  order_type o = (if is_limit i then LIMIT else if is_stop i then STOP else MARKET) /\
  intent_quantity i px = Some (quantity o).
Proof.
  unfold intent_to_order. destruct (intent_quantity i px) as [q|]; [|done]. by intros [= <-].
Qed.

(** An execution sends nothing, or the order of its intent. *)
Lemma execute_sends w now oid rid eid i px origin :
  let w' := (execute env w now oid rid eid i px origin).1 in
  w_sent w' = w_sent w \/
  exists o, w_sent w' = w_sent w ++ [o] /\ intent_to_order (w_engine w) now oid i px = Some o.
Proof.
  destruct (execute env w now oid rid eid i px origin) as [w' r] eqn:Ex. cbn.
  apply execute_cases in Ex as [(e' & -> & _)|(o & pr & e1 & entry & Hg & _ & Hsub)]; [by left|].
  pose proof (submit_cases env (MkWorld e1 (w_broker w) (w_sent w)) now o (je_entry_id entry) pr) as [_ Hs].
  rewrite <- Hsub in Hs. cbn [fst w_sent] in Hs. destruct Hs as [[Hs _]|Hs]; [by left|right].
  exists o. split; [done|]. by apply gp_order in Hg.
Qed.

Lemma log_keeps_name e now eid i o : en_broker_name (log_before_submit e now eid i o).1 = en_broker_name e.
Proof.
  unfold log_before_submit, record_sequence_for_order. by destruct (log_order _ _ _ _ _ _ _ _ _ _) as [[]|].
Qed.

Lemma submit_keeps_name w now o eid pr :
  en_broker_name (w_engine (submit env w now o eid pr).1) = en_broker_name (w_engine w).
Proof.
  unfold submit. destruct (broker_submit env) as [f|]; [|done].
  by destruct (f (w_broker w) o) as [b [[[[] bid] err]|m]].
Qed.

Lemma execute_keeps_name w now oid rid eid i px origin :
  en_broker_name (w_engine (execute env w now oid rid eid i px origin).1) = en_broker_name (w_engine w).
Proof.
  unfold execute. destruct (execute_gates _ _ _ _ _ _) as [[r|[o pr]]|e]; [done| |done].
  destruct (is_duplicate _ _).
  - unfold execute_duplicate. by repeat case_match; simplify_eq.
  - pose proof (log_keeps_name (w_engine w) now eid i o) as Hl.
    destruct (log_before_submit _ _ _ _ _) as [e1 [entry|err]]; cbn [fst] in Hl |- *; [|done].
    by rewrite submit_keeps_name.
Qed.

Lemma update_keeps_name e now coid s fq afp boid err :
  en_broker_name (update_order_status e now coid s fq afp boid err).1 = en_broker_name e.
Proof.
  unfold update_order_status. destruct (get_order_by_client_id _ _) as [o|]; [|done]. cbn [fst].
  destruct (truthy _); [|done]. by destruct (journal_status_of s).
Qed.
End Sent.

(** ** One batch *)

Section Batch.
Context `{Digest} {B K : Type} (env : Broker B) (cfg : ClientConfig).
Implicit Types (c : Client B K) (x : SendContext).

(** The symbols a result accounts for. *)
Definition accounted_symbols (r : SendResult) : list string :=
  map sb_symbol (sr_submitted r) ++ (sr_skipped r).*1 ++ (sr_errors r).*1.

(** An order that trades the difference of one symbol. *)
Record rebalance_order (x : SendContext) (sym : string) (o : Order) : Prop := {
  ro_symbol : o_symbol o = sym;
  ro_side : o_side o = rebalance_side (delta_of x sym);
  ro_intent : o_intent_id o = batch_intent_id (sx_key x) sym;
  ro_market : order_type o = MARKET;
  ro_large : fltb (fabs (delta_of x sym)) (cc_min_notional cfg) = false;
  ro_quantity : exists price qty, usable_price x sym = Some price /\
    dec_of_float (fdiv (fabs (delta_of x sym)) price) = Some qty /\
    (dtrue qty = true -> quantity o = qty)
}.

(** Adding to one of the three lists adds one symbol. *)
Lemma one_more {A} (x : A) a b : a ++ [x] ++ b ≡ₚ x :: a ++ b.
Proof. cbn. by rewrite <- Permutation_middle. Qed.

Lemma accounted_submitted s r : accounted_symbols (add_submitted s r) ≡ₚ sb_symbol s :: accounted_symbols r.
Proof. unfold accounted_symbols. cbn [add_submitted sr_submitted sr_skipped sr_errors]. rewrite map_app, <- app_assoc. apply one_more. Qed.

Lemma accounted_skipped s r : accounted_symbols (add_skipped s r) ≡ₚ s.1 :: accounted_symbols r.
Proof.
  unfold accounted_symbols. cbn [add_skipped sr_submitted sr_skipped sr_errors]. rewrite fmap_app, !app_assoc.
  etrans; [|apply one_more]. by rewrite <- !app_assoc.
Qed.

Lemma accounted_error s r : accounted_symbols (add_send_error s r) ≡ₚ s.1 :: accounted_symbols r.
Proof.
  unfold accounted_symbols. cbn [add_send_error sr_submitted sr_skipped sr_errors]. rewrite fmap_app, !app_assoc.
  rewrite (Permutation_app_comm _ (fmap fst [s])). done.
Qed.

Lemma accounted_parent p r : accounted_symbols (add_parent p r) = accounted_symbols r.
Proof. done. Qed.

(** A symbol gets one entry. *)
Lemma send_symbol_entry x sym n c r c' r' :
  send_symbol env cfg x sym n c r = (c', Ok r') -> accounted_symbols r' ≡ₚ sym :: accounted_symbols r.
Proof.
  unfold send_symbol. destruct (fltb _ _); [intros [= _ <-]; apply accounted_skipped|].
  destruct (usable_price x sym) as [price|]; [|intros [= _ <-]; apply accounted_error].
  destruct (dec_of_float _) as [qty|]; [|done]. destruct (dec_of_float _) as [nl|]; [|done].
  destruct (dec_of_float _) as [px|]; [|done].
  assert (forall y, send_market env cfg x sym (delta_of x sym) qty nl px y c r = (c', Ok r') ->
    accounted_symbols r' ≡ₚ sym :: accounted_symbols r) as Hm.
  { intros y. unfold send_market. destruct (execute _ _ _ _ _ _ _ _ _) as [w [z|e]]; [|done].
    destruct (if success z then x_order z else None) as [o|]; intros [= _ <-];
      [apply accounted_submitted|apply accounted_error]. }
  destruct (sr_sliced r); [|by apply Hm]. destruct (cl_exec c) as [ex|]; [|by apply Hm].
  unfold send_sliced. destruct (submit_parent _ _ _ _ _ _ _ _ _ _ _) as [[ex' p]|e]; intros [= _ <-];
    [|apply accounted_error]. by rewrite accounted_submitted, accounted_parent.
Qed.

Lemma send_loop_entries x syms n c r c' r' :
  send_loop env cfg x syms n c r = (c', Ok r') -> accounted_symbols r' ≡ₚ syms ++ accounted_symbols r.
Proof.
  revert n c r. induction syms as [|sym syms IH]; intros n c r; cbn [send_loop]; [by intros [= _ <-]|].
  destruct (send_symbol env cfg x sym n c r) as [c1 [r1|e]] eqn:E; [|done].
  intros Hl. apply IH in Hl. apply send_symbol_entry in E. rewrite Hl, E. cbn. by rewrite Permutation_middle.
Qed.

Lemma track_world coid c : cl_world (track_fill coid c) = cl_world c.
Proof. unfold track_fill. by destruct (cl_tracked c). Qed.

Lemma track_exec coid c : cl_exec (track_fill coid c) = cl_exec c.
Proof. unfold track_fill. by destruct (cl_tracked c). Qed.

(** Sending a symbol is one execution, or leaves the engine alone. *)
Lemma send_symbol_world x sym n c r :
  let w' := cl_world (send_symbol env cfg x sym n c r).1 in
  w' = cl_world c \/
  exists price qty nl px,
    let d := sx_supply x n in
    fltb (fabs (delta_of x sym)) (cc_min_notional cfg) = false /\ usable_price x sym = Some price /\
    dec_of_float (fdiv (fabs (delta_of x sym)) price) = Some qty /\
    w' = (execute env (cl_world c) (dr_now d) (dr_order d) (dr_recovered d) (dr_entry d)
            (rebalance_intent cfg x sym (delta_of x sym) qty nl d) (Some px) "runner").1.
Proof.
  cbn zeta. unfold send_symbol. destruct (fltb _ _) eqn:El; [by left|].
  destruct (usable_price x sym) as [price|] eqn:Ep; [|by left].
  destruct (dec_of_float (fdiv _ _)) as [qty|] eqn:Eq; [|by left].
  destruct (dec_of_float (fabs _)) as [nl|]; [|by left]. destruct (dec_of_float price) as [px|]; [|by left].
  assert (cl_world (send_market env cfg x sym (delta_of x sym) qty nl px (sx_supply x n) c r).1 =
    (execute env (cl_world c) (dr_now (sx_supply x n)) (dr_order (sx_supply x n)) (dr_recovered (sx_supply x n))
       (dr_entry (sx_supply x n)) (rebalance_intent cfg x sym (delta_of x sym) qty nl (sx_supply x n)) (Some px)
       "runner").1) as Hm.
  { unfold send_market. destruct (execute _ _ _ _ _ _ _ _ _) as [w [z|e]]; [|done].
    destruct (if success z then x_order z else None); cbn [fst]; [by rewrite track_world|done]. }
  destruct (sr_sliced r); [|right; by eauto 10]. destruct (cl_exec c) as [ex|]; [|right; by eauto 10].
  left. unfold send_sliced. by destruct (submit_parent _ _ _ _ _ _ _ _ _ _ _) as [[ex' p]|e].
Qed.

Lemma rebalance_order_of x sym price qty nl px w o :
  let d := sx_supply x w in
  forall e now oid,
  fltb (fabs (delta_of x sym)) (cc_min_notional cfg) = false -> usable_price x sym = Some price ->
  dec_of_float (fdiv (fabs (delta_of x sym)) price) = Some qty ->
  intent_to_order e now oid (rebalance_intent cfg x sym (delta_of x sym) qty nl d) px = Some o ->
  rebalance_order x sym o.
Proof.
  intros d e now oid El Ep Eq Ho. apply to_order_fields in Ho as (_ & Hi & Hsym & Hside & Ht & Hq).
  split; [done| |done|done|done|].
  - rewrite Hside. unfold rebalance_intent, rebalance_side. cbn [Intent.side]. destruct (fltb fzero _); reflexivity.
  - exists price, qty. split_and!; [done..|]. intros Hz.
    assert (quantity_of (rebalance_intent cfg x sym (delta_of x sym) qty nl d) = qty) as E
      by (unfold quantity_of; cbn [target_quantity rebalance_intent]; by rewrite Hz).
    assert (deqb qty dzero = false) as Hd.
    { apply not_true_is_false. rewrite deqb_spec, dval_zero. by apply dtrue_spec. }
    unfold intent_quantity in Hq. rewrite E, Hd in Hq. by injection Hq.
Qed.

(** The orders a call adds. *)
Definition adds_orders (P : Order -> Prop) (w w' : World B) : Prop :=
  exists os, w_sent w' = w_sent w ++ os /\ Forall P os.

Lemma adds_orders_trans P w1 w2 w3 : adds_orders P w1 w2 -> adds_orders P w2 w3 -> adds_orders P w1 w3.
Proof.
  intros (os & E & Ho) (os' & E' & Ho'). exists (os ++ os'). rewrite E', E, app_assoc.
  split; [done|]. by apply Forall_app.
Qed.

Lemma send_symbol_orders x sym n c r :
  adds_orders (rebalance_order x sym) (cl_world c) (cl_world (send_symbol env cfg x sym n c r).1).
Proof.
  unfold adds_orders. destruct (send_symbol_world x sym n c r) as [->|(price & qty & nl & px & El & Ep & Eq & ->)];
    [exists []; by rewrite app_nil_r|].
  destruct (execute_sends env (cl_world c) (dr_now (sx_supply x n)) (dr_order (sx_supply x n))
    (dr_recovered (sx_supply x n)) (dr_entry (sx_supply x n))
    (rebalance_intent cfg x sym (delta_of x sym) qty nl (sx_supply x n)) (Some px) "runner")
    as [->|(o & -> & Ho)]; [exists []; by rewrite app_nil_r|].
  exists [o]. split; [done|]. constructor; [|constructor]. by eapply rebalance_order_of.
Qed.

Lemma send_loop_orders x syms n c r :
  adds_orders (fun o => exists sym, sym ∈ syms /\ rebalance_order x sym o) (cl_world c)
    (cl_world (send_loop env cfg x syms n c r).1).
Proof.
  revert n c r. induction syms as [|sym syms IH]; intros n c r; cbn [send_loop];
    [exists []; by rewrite app_nil_r|].
  pose proof (send_symbol_orders x sym n c r) as (os & E & Ho).
  assert (Forall (fun o => exists s, s ∈ sym :: syms /\ rebalance_order x s o) os) as Ho'.
  { eapply Forall_impl; [exact Ho|]. intros o Hr. exists sym. by split; [left|]. }
  destruct (send_symbol env cfg x sym n c r) as [c1 [r1|e]]; cbn [fst] in E |- *; [|by exists os].
  eapply adds_orders_trans; [by exists os|]. destruct (IH (S n) c1 r1) as (os2 & E2 & Ho2).
  exists os2. split; [done|]. eapply Forall_impl; [exact Ho2|]. intros o (s & Hs & Hr). exists s.
  by split; [right|].
Qed.

Lemma send_intents_orders now_ts supply prices positions b c :
  let current := float_answers positions in
  let x := MkContext (ib_key b) now_ts (target_notionals b) current (float_answers prices) supply in
  adds_orders (fun o => exists sym, sym ∈ batch_symbols b current /\ rebalance_order x sym o) (cl_world c)
    (cl_world (send_intents env cfg now_ts supply prices positions b c).1).
Proof.
  intros current x. unfold send_intents. fold current x.
  destruct (synced_portfolio _ _ _) as [p|]; [|exists []; by rewrite app_nil_r].
  apply (send_loop_orders x (batch_symbols b current) 0 (on_client_engine (update_portfolio p) c)).
Qed.

(** A batch accounts for every symbol that has a target or a position exactly
    once, as submitted, skipped or refused; and whether the call ends or raises,
    every order it hands to the broker trades the difference of one of these
    symbols: it is a market order on the side of the difference, at least the
    minimum in size, for the difference divided by a usable price. *)
Theorem rebalance_accounts_for_every_symbol now_ts supply prices positions b c :
  let current := float_answers positions in
  let x := MkContext (ib_key b) now_ts (target_notionals b) current (float_answers prices) supply in
  let '(c', res) := send_intents env cfg now_ts supply prices positions b c in
  match res with
  | Ok r => accounted_symbols r ≡ₚ batch_symbols b current
  | Raise _ => True
  end /\
  exists os, w_sent (cl_world c') = w_sent (cl_world c) ++ os /\
    Forall (fun o => exists sym, sym ∈ batch_symbols b current /\ rebalance_order x sym o) os.
Proof.
  intros current x. unfold send_intents. fold current x.
  destruct (synced_portfolio _ _ _) as [p|]; [|split; [done|]; exists []; by rewrite app_nil_r].
  set (c0 := on_client_engine (update_portfolio p) c). set (r0 := MkSend _ _ _ _ _ _).
  pose proof (send_loop_orders x (batch_symbols b current) 0 c0 r0) as Ho.
  destruct (send_loop env cfg x (batch_symbols b current) 0 c0 r0) as [c' res] eqn:E. split; [|exact Ho].
  destruct res as [r|e]; [|done]. apply send_loop_entries in E. rewrite E. by rewrite app_nil_r.
Qed.
End Batch.

(** ** Batches sent again *)

Section Resent.
Context `{Digest} {B K : Type} (env : Broker B) (cfg : ClientConfig).
Context (book : option (K -> dict -> K)) (fetch : B -> string -> B * pyres unit (option dict)).
Context (cancel : option (B -> string -> option string -> B * pyres unit bool)).

Inductive client_op :=
  | Send (now_ts : pyfloat) (supply : nat -> Draw) (prices positions : option (pyres unit dict)) (b : IntentBatch)
  | Pump (now : Z) (ts : pyfloat) (supply : nat -> Draw) (prices : list (string * pyval)) (max_batches : Z)
  | OnEngine (op : engine_op)
  | Market (f : B -> B).

Definition client_step (c : Client B K) (op : client_op) : Client B K :=
  match op with
  | Send now_ts supply prices positions b => (send_intents env cfg now_ts supply prices positions b c).1
  | Pump now ts supply prices n => (pump env book fetch cancel now ts supply prices n c).1
  | OnEngine op => with_world (w_step env (cl_world c) op) c
  | Market f => let w := cl_world c in with_world (MkWorld (w_engine w) (f (w_broker w)) (w_sent w)) c
  end.

Definition client_run (ops : list client_op) (c : Client B K) : Client B K := fold_left client_step ops c.

(** Anything but an execution from elsewhere; a restart keeps the broker's name. *)
Definition allowed_op (broker : string) (op : client_op) : Prop :=
  match op with
  | OnEngine (Execute _ _ _ _ _ _ _) => False
  | OnEngine (Restart _ _ _ _ name _ _ _ _) => name = broker
  | _ => True
  end.

Context (broker : string).
Implicit Types c : Client B K.

(** Client ids are unique and those of the intents. *)
Record world_tied (w : World B) : Prop := {
  wt_once : sent_once w;
  wt_name : en_broker_name (w_engine w) = broker;
  wt_ids : Forall (fun o => client_order_id o = id_for broker (cc_strategy cfg) (o_intent_id o)) (w_sent w)
}.

Lemma tied_execute w now oid rid eid i px origin :
  strategy_id i = cc_strategy cfg -> world_tied w -> world_tied (execute env w now oid rid eid i px origin).1.
Proof.
  intros Hs [Ho Hn Hi]. split.
  - exact (w_step_sent_once env w (Execute now oid rid eid i px origin) Ho).
  - by rewrite execute_keeps_name.
  - destruct (execute_sends env w now oid rid eid i px origin) as [->|(o & -> & Hto)]; [done|].
    apply Forall_app. split; [done|]. constructor; [|constructor].
    apply to_order_fields in Hto as (-> & -> & _). by rewrite Hn, Hs.
Qed.

(** What keeps the orders sent, the client ids of the journal and the name. *)
Lemma tied_same w w' :
  same_log (w_engine w) (w_engine w') -> w_sent w' = w_sent w ->
  en_broker_name (w_engine w') = en_broker_name (w_engine w) -> world_tied w -> world_tied w'.
Proof.
  intros Hl Hs Hn [Ho Hb Hi]. split; [|by rewrite Hn|by rewrite Hs].
  apply (sent_once_ext w); [done|done|]. by apply sl_clients.
Qed.

Lemma tied_send_loop x syms n c r :
  world_tied (cl_world c) -> world_tied (cl_world (send_loop env cfg x syms n c r).1).
Proof.
  revert n c r. induction syms as [|sym syms IH]; intros n c r Hc; cbn [send_loop]; [done|].
  assert (world_tied (cl_world (send_symbol env cfg x sym n c r).1)) as H1.
  { destruct (send_symbol_world env cfg x sym n c r) as [->|(price & qty & nl & px & _ & _ & _ & ->)]; [done|].
    by apply tied_execute. }
  destruct (send_symbol env cfg x sym n c r) as [c1 [r1|e]]; [|done]. by apply IH.
Qed.

Lemma tied_send now_ts supply prices positions b c :
  world_tied (cl_world c) -> world_tied (cl_world (send_intents env cfg now_ts supply prices positions b c).1).
Proof.
  intros Hc. unfold send_intents. destruct (synced_portfolio _ _ _) as [p|]; [|done].
  apply tied_send_loop. apply (tied_same (cl_world c)); [by split|done|done|done].
Qed.

Lemma send_loop_exec x syms n c r :
  sr_sliced r = false -> cl_exec (send_loop env cfg x syms n c r).1 = cl_exec c.
Proof.
  revert n c r. induction syms as [|sym syms IH]; intros n c r Hr; cbn [send_loop]; [done|].
  assert (cl_exec (send_symbol env cfg x sym n c r).1 = cl_exec c /\
    match (send_symbol env cfg x sym n c r).2 with Ok r' => sr_sliced r' = false | Raise _ => True end) as [Hx Hs].
  { unfold send_symbol. rewrite Hr. destruct (fltb _ _); [done|]. destruct (usable_price x sym); [|done].
    destruct (dec_of_float _); [|done]. destruct (dec_of_float _); [|done]. destruct (dec_of_float _); [|done].
    unfold send_market. destruct (execute _ _ _ _ _ _ _ _ _) as [w [z|e]]; [|done].
    destruct (if success z then x_order z else None); cbn [fst snd]; [by rewrite track_exec|done]. }
  destruct (send_symbol env cfg x sym n c r) as [c1 [r1|e]]; cbn [fst snd] in *; [|done]. by rewrite IH.
Qed.

Lemma send_keeps_exec now_ts supply prices positions b c :
  cl_exec c = None -> cl_exec (send_intents env cfg now_ts supply prices positions b c).1 = None.
Proof.
  intros Hx. unfold send_intents. destruct (synced_portfolio _ _ _) as [p|]; [|done].
  rewrite send_loop_exec; [done|]. cbn. by rewrite Hx.
Qed.

(** Fills change the status of orders only. *)
Definition engine_kept (e e' : Engine) : Prop := same_log e e' /\ en_broker_name e' = en_broker_name e.

Lemma engine_kept_refl e : engine_kept e e.
Proof. by repeat split. Qed.

Lemma engine_kept_trans e1 e2 e3 : engine_kept e1 e2 -> engine_kept e2 e3 -> engine_kept e1 e3.
Proof. intros [[] ?] [[] ?]. repeat split; congruence. Qed.

Lemma handle_event_kept {L} (cbs : Callbacks L) now ev d :
  engine_kept (d_engine d) (d_engine (handle_event cbs now ev d).1).
Proof.
  unfold handle_event. destruct (get_order_by_client_id _ _) as [o|]; [|apply engine_kept_refl].
  destruct (terminal _); [apply engine_kept_refl|]. destruct (book_event _ _ _) as [st inc].
  destruct (dget KIND_TO_STATUS _) as [s|]; [|apply engine_kept_refl].
  unfold advance.
  match goal with |- context [update_order_status ?e ?n ?k ?s ?q ?a ?b ?m] =>
    pose proof (update_order_status_same e n k s q a b m) as Hs;
    pose proof (update_keeps_name e n k s q a b m) as Hn;
    destruct (update_order_status e n k s q a b m) as [e' u] end.
  by split.
Qed.

Lemma handle_batch_kept {L} (cbs : Callbacks L) now evs d n :
  engine_kept (d_engine d) (d_engine (handle_batch cbs now evs d n).1).
Proof.
  unfold handle_batch. revert d n. induction evs as [|ev evs IH]; intros d n; [apply engine_kept_refl|]. cbn.
  pose proof (handle_event_kept cbs now ev d) as Hk. destruct (handle_event cbs now ev d) as [d1 r1].
  eapply engine_kept_trans; [exact Hk|apply IH].
Qed.

Lemma consume_loop_kept {L S} `{FillSource S} (cbs : Callbacks L) k now (src : S) d n :
  engine_kept (d_engine d) (d_engine (consume_loop cbs k now src d n).1.2).
Proof.
  revert src d n. induction k as [|k IH]; intros src d n; cbn; [apply engine_kept_refl|].
  destruct (poll now src) as [src1 [|ev evs]]; [apply engine_kept_refl|].
  pose proof (handle_batch_kept cbs now (ev :: evs) d n) as Hk.
  destruct (handle_batch cbs now (ev :: evs) d n) as [d1 n1]. eapply engine_kept_trans; [exact Hk|apply IH].
Qed.

(** A property of the listener that every notification keeps. *)
Section Listener.
Context {L : Type} (cbs : Callbacks L) (P : L -> Prop).
Hypothesis notify_keeps : forall ev st payload l, P l -> P (notify cbs ev st payload l).

Lemma handle_event_listener now ev d : P (d_listener d) -> P (d_listener (handle_event cbs now ev d).1).
Proof.
  intros Hp. unfold handle_event. destruct (get_order_by_client_id _ _) as [o|]; [|done].
  destruct (terminal _); [done|]. destruct (book_event _ _ _) as [st inc].
  destruct (dget KIND_TO_STATUS _) as [s|]; [|done]. unfold advance.
  destruct (update_order_status _ _ _ _ _ _ _ _) as [e' u]. by apply notify_keeps.
Qed.

Lemma handle_batch_listener now evs d n : P (d_listener d) -> P (d_listener (handle_batch cbs now evs d n).1).
Proof.
  unfold handle_batch. revert d n. induction evs as [|ev evs IH]; intros d n Hp; [done|]. cbn.
  pose proof (handle_event_listener now ev d Hp) as Hk. destruct (handle_event cbs now ev d) as [d1 r1]. by apply IH.
Qed.

Lemma consume_loop_listener {S} `{FillSource S} k now (src : S) d n :
  P (d_listener d) -> P (d_listener (consume_loop cbs k now src d n).1.2).
Proof.
  revert src d n. induction k as [|k IH]; intros src d n Hp; cbn; [done|].
  destruct (poll now src) as [src1 [|ev evs]]; [done|].
  pose proof (handle_batch_listener now (ev :: evs) d n Hp) as Hk.
  destruct (handle_batch cbs now (ev :: evs) d n) as [d1 n1]. by apply IH.
Qed.
End Listener.

(** Without an executor, a tick only reads fills. *)
Lemma pump_without_slices now ts supply prices n c :
  cl_exec c = None -> world_tied (cl_world c) ->
  let c' := (pump env book fetch cancel now ts supply prices n c).1 in
  cl_exec c' = None /\ world_tied (cl_world c') /\ w_sent (cl_world c') = w_sent (cl_world c).
Proof.
  intros Hx Hc. unfold pump. rewrite Hx. unfold consume_fills.
  destruct (cl_fills c) as [states|]; [|done]. destruct (cl_tracked c) as [t|]; [|done].
  unfold consume. rewrite Hx. set (cbs := client_callbacks book _). set (d := MkDesk _ _ _). set (src := MkPolling _ _).
  pose proof (consume_loop_kept (S := PollingFillSource B) (H0 := polling_poll fetch) cbs
    (Z.to_nat (Z.max 1 n)) now src d 0) as [Hl Hn].
  assert ((d_listener (consume_loop (S := PollingFillSource B) (H0 := polling_poll fetch) cbs
    (Z.to_nat (Z.max 1 n)) now src d 0).1.2).1 = None) as Hlist.
  { apply (consume_loop_listener cbs (fun l => l.1 = None)); [|done]. intros ev st payload [x' k'] Hnone.
    unfold notify, cbs, client_callbacks. cbn in *. by destruct book. }
  destruct (consume_loop _ _ _ _ _ _) as [[src' d'] k']. cbn [fst snd] in *.
  split_and!; [done| |done]. by apply (tied_same (cl_world c)).
Qed.

Lemma cancel_keeps_name w now coid :
  en_broker_name (w_engine (cancel_order env w now coid).1) = en_broker_name (w_engine w).
Proof.
  unfold cancel_order. destruct (get_order_by_client_id _ _) as [o|]; [|done]. destruct (closed _); [done|].
  destruct (broker_cancel env) as [f|]; [|done]. destruct (f _ _ _) as [b [[]|m]]; [|done|done].
  pose proof (update_keeps_name (w_engine w) now coid CANCELLED None None (broker_order_id o) None) as Hn.
  by destruct (update_order_status _ _ _ _ _ _ _ _) as [e u].
Qed.

Lemma replace_keeps_name w now oid coid q lp px :
  en_broker_name (w_engine (replace_order env w now oid coid q lp px).1) = en_broker_name (w_engine w).
Proof.
  unfold replace_order. destruct (get_order_by_client_id _ _) as [o|]; [|done]. destruct (closed _); [done|].
  destruct (check_price_collar _ _ _); [done|]. destruct (broker_replace env) as [f|]; [|done].
  destruct (f _ _ _ _) as [b [[[[] bid] err]|m]]; [|done|done].
  match goal with |- context [update_order_status ?e ?n ?k ?s ?q ?a ?b ?m] =>
    pose proof (update_keeps_name e n k s q a b m) as Hn;
    destruct (update_order_status e n k s q a b m) as [e' u] end. done.
Qed.

(** An operation of the engine that sends nothing. *)
Lemma tied_engine w op :
  allowed_op broker (OnEngine op) -> world_tied w -> world_tied (w_step env w op).
Proof.
  intros Ha Hw. assert (sent_once (w_step env w op)) as Ho by apply w_step_sent_once, Hw.
  destruct Hw as [_ Hn Hi]. split; [done| |].
  - destruct op as [| | |now coid s fq afp boid err|p|op|r|policy caps risk collar name dep run u1 u2]; cbn in Ha |- *; try done.
    + by rewrite cancel_keeps_name.
    + by rewrite replace_keeps_name.
    + by rewrite update_keeps_name.
  - assert (w_sent (w_step env w op) = w_sent w) as ->; [|done].
    destruct op; cbn in Ha |- *; try done; [apply cancel_order_same|apply replace_order_same].
Qed.

(** The keys of the batches sent. *)
Definition sent_keys (ops : list client_op) : list string :=
  omap (fun op => match op with Send _ _ _ _ b => Some (ib_key b) | _ => None end) ops.

(** An order carries the intent id of a batch with one of these keys and of its symbol. *)
Definition of_batch (keys : list string) (o : Order) : Prop :=
  exists key, key ∈ keys /\ o_intent_id o = batch_intent_id key (o_symbol o).

Definition all_of_batches (keys : list string) (c : Client B K) : Prop :=
  Forall (of_batch keys) (w_sent (cl_world c)).

Lemma all_of_batches_grow keys keys' c :
  (forall k, k ∈ keys -> k ∈ keys') -> all_of_batches keys c -> all_of_batches keys' c.
Proof.
  intros Hk Hc. eapply Forall_impl; [exact Hc|]. intros o (key & Hin & E). exists key. split; [by apply Hk|done].
Qed.

Lemma send_of_batch keys now_ts supply prices positions b c :
  all_of_batches keys c ->
  all_of_batches (ib_key b :: keys) (send_intents env cfg now_ts supply prices positions b c).1.
Proof.
  intros Hc. destruct (send_intents_orders env cfg now_ts supply prices positions b c) as (os & E & Ho).
  unfold all_of_batches. rewrite E. apply Forall_app. split.
  - eapply all_of_batches_grow; [|exact Hc]. intros k Hk. by right.
  - eapply Forall_impl; [exact Ho|]. intros o (sym & _ & Hr). exists (ib_key b). split; [by left|].
    by rewrite (ro_symbol _ _ _ _ Hr), (ro_intent _ _ _ _ Hr).
Qed.

Lemma engine_sends_nothing w op :
  allowed_op broker (OnEngine op) -> w_sent (w_step env w op) = w_sent w.
Proof. intros Ha. destruct op; cbn in Ha |- *; try done; [apply cancel_order_same|apply replace_order_same]. Qed.

Lemma client_step_tied op keys c :
  allowed_op broker op -> cl_exec c = None -> world_tied (cl_world c) -> all_of_batches keys c ->
  let c' := client_step c op in
  cl_exec c' = None /\ world_tied (cl_world c') /\ all_of_batches (keys ++ sent_keys [op]) c'.
Proof.
  intros Hop Hx Hc Hk. destruct op as [now_ts supply prices positions b|now ts supply prices n|op|f];
    cbn [client_step sent_keys]; cbn [omap list_omap]; rewrite ?app_nil_r.
  - split_and!; [by rewrite send_keeps_exec|by apply tied_send|].
    eapply all_of_batches_grow; [|by apply send_of_batch]. set_solver.
  - destruct (pump_without_slices now ts supply prices n c Hx Hc) as (Hx' & Hc' & Hs).
    split_and!; [done|done|]. unfold all_of_batches. by rewrite Hs.
  - split_and!; [done|by apply tied_engine|]. unfold all_of_batches. cbn [cl_world with_world].
    by rewrite engine_sends_nothing.
  - split_and!; [done|by apply (tied_same (cl_world c))|done].
Qed.

Lemma client_run_tied ops c keys :
  cl_exec c = None -> world_tied (cl_world c) -> all_of_batches keys c -> Forall (allowed_op broker) ops ->
  world_tied (cl_world (client_run ops c)) /\ all_of_batches (keys ++ sent_keys ops) (client_run ops c).
Proof.
  intros Hx Hc Hk Ha. revert c keys Hx Hc Hk. induction Ha as [|op ops Hop _ IH]; intros c keys Hx Hc Hk.
  - split; [done|]. by rewrite app_nil_r.
  - cbn [client_run fold_left]. destruct (client_step_tied op keys c Hop Hx Hc Hk) as (Hx' & Hc' & Hk').
    destruct (IH _ _ Hx' Hc' Hk') as [Ht Hs]. split; [exact Ht|].
    assert (sent_keys (op :: ops) = sent_keys [op] ++ sent_keys ops) as -> by (unfold sent_keys; cbn; by case_match).
    by rewrite app_assoc.
Qed.

(** Every order belongs to a batch that was sent, no two to the same batch and symbol: of
    a symbol there are at most as many orders as different batch keys. *)
Definition trades_once (keys : list string) (c : Client B K) : Prop :=
  all_of_batches keys c /\ NoDup (map o_intent_id (w_sent (cl_world c))) /\
  forall sym, (List.length (filter (fun o => o_symbol o = sym) (w_sent (cl_world c)))
               <= size (list_to_set keys : gset string))%nat.

Lemma NoDup_map_filter {A C} (f : A -> C) (P : A -> Prop) `{forall x, Decision (P x)} l :
  NoDup (map f l) -> NoDup (map f (filter P l)).
Proof.
  induction l as [|x l IH]; [done|]. cbn [map]. intros [Hx Hl]%NoDup_cons. rewrite filter_cons.
  case_decide; [|by apply IH]. cbn [map]. constructor; [|by apply IH].
  intros Hin. apply Hx. apply list_elem_of_In, in_map_iff in Hin as (y & <- & Hy).
  apply list_elem_of_In, in_map_iff. exists y. split; [done|]. apply list_elem_of_In.
  apply list_elem_of_In, list_elem_of_filter in Hy. tauto.
Qed.

Lemma tied_trades_once keys c : world_tied (cl_world c) -> all_of_batches keys c -> trades_once keys c.
Proof.
  intros [[Ho _] _ Hi] Hk.
  assert (NoDup (map o_intent_id (w_sent (cl_world c)))) as Hn.
  { apply (NoDup_fmap_1 (id_for broker (cc_strategy cfg))).
    assert (id_for broker (cc_strategy cfg) <$> map o_intent_id (w_sent (cl_world c))
      = map client_order_id (w_sent (cl_world c))) as ->; [|done].
    clear -Hi. induction Hi as [|o l E _ IH]; [done|]. cbn. by rewrite E, IH. }
  split_and!; [done|done|]. intros sym.
  rewrite <- (length_map o_intent_id (filter _ _)).
  change (size (list_to_set keys : gset string)) with (List.length (elements (list_to_set keys : gset string))).
  rewrite <- (length_map (fun key => batch_intent_id key sym) (elements _)).
  apply NoDup_incl_length; [by apply NoDup_ListNoDup, NoDup_map_filter|].
  intros iid Hin. apply in_map_iff in Hin as (o & <- & Hin). apply list_elem_of_In in Hin.
  apply list_elem_of_filter in Hin as [<- Hin].
  destruct (proj1 (Forall_forall _ _) Hk o Hin) as (key & Hkey & ->).
  apply in_map_iff. exists key. split; [done|]. apply list_elem_of_In, elem_of_elements.
  by apply elem_of_list_to_set.
Qed.

Lemma client_trades_once e b fills tracked k ops :
  en_broker_name e = broker -> Forall (allowed_op broker) ops ->
  trades_once (sent_keys ops) (client_run ops (MkClient (MkWorld e b []) None fills tracked k)).
Proof.
  intros He Ha.
  destruct (client_run_tied ops (MkClient (MkWorld e b []) None fills tracked k) []) as [Ht Hk];
    [done| |constructor|done|by apply tied_trades_once].
  split; [|done|constructor]. split; [constructor|]. intros o Hin. by apply elem_of_nil in Hin.
Qed.

(** C29: A batch trades once. Without slicing, and with nothing else executed on the
    engine, whatever batches are sent, in any order and however often, with any prices and
    positions, with fills read, orders cancelled or amended, the engine restarted on its
    journal under the same broker name and anything happening at the broker in between:
    every order handed to the broker carries the intent id derived from the key of a batch
    that was sent and from its own symbol, no two orders carry the same, and so of each
    symbol there are at most as many orders as different batch keys: a batch sent again
    adds none. *)
Theorem resent_batch_trades_once e b fills tracked k ops :
  en_broker_name e = broker -> Forall (allowed_op broker) ops ->
  let c := client_run ops (MkClient (MkWorld e b []) None fills tracked k) in
  Forall (fun o => exists key, key ∈ sent_keys ops /\ o_intent_id o = batch_intent_id key (o_symbol o))
    (w_sent (cl_world c)) /\
  NoDup (map o_intent_id (w_sent (cl_world c))) /\
  forall sym, (List.length (filter (fun o => o_symbol o = sym) (w_sent (cl_world c)))
               <= size (list_to_set (sent_keys ops) : gset string))%nat.
Proof. intros He Ha. by apply client_trades_once. Qed.
End Resent.

(** ** Concrete runs *)

Definition fl (n : Z) : pyfloat := float_of_int n.

Definition market_config : ClientConfig := new_config "xs" (fl 1) 1 [].

(** The identifiers a submission draws, numbered from a tag. *)
Definition tagged_draws (tag : string) (n : nat) : Draw :=
  let name k := (k +:+ tag +:+ string_of_list_ascii (digit_chars (digits (Z.of_nat n))))%string in
  MkDraw 1 (name "i") (name "o") (name "r") (name "e").

Definition quotes (l : list (string * Z)) : option (pyres unit dict) :=
  Some (Ok (map (fun kv => (kv.1, VFloat (fl kv.2))) l)).

Definition targets (equity : Z) (l : list (string * Z)) (key : string) : IntentBatch :=
  MkBatch 0 (fl equity) (map (fun kv => MkXsIntent kv.1 fzero (fl kv.2)) l) key.

Definition plain_client (e : Engine) : Client unit unit :=
  MkClient (MkWorld e tt []) None (Some []) (Some []) tt.

Definition no_fetch (b : unit) (_ : string) : unit * pyres unit (option dict) := (b, Ok None).

Definition run_market (ops : list (client_op (B := unit))) (c : Client unit unit) : Client unit unit :=
  client_run accepting_broker market_config None no_fetch None ops c.

(** Symbol, side and quantity of what was handed to the broker. *)
Definition sent_view (c : Client unit unit) : list (string * string * dec) :=
  map (fun o => (o_symbol o, o_side o, quantity o)) (w_sent (cl_world c)).

(** The refusals of a call. *)
Definition refusals (r : Client unit unit * pyres ClientError SendResult) : list (string * SendError) :=
  match r.2 with
  | Ok s => sr_errors s
  | Raise _ => []
  end.

Definition sample_prices : option (pyres unit dict) := quotes [("AAPL", 100); ("MSFT", 200)]%string.

(** One batch, sent again after a restart. *)
Definition resend_ops : list (client_op (B := unit)) :=
  let b := targets 100000 [("AAPL", 5000); ("MSFT", -3000)]%string "k1" in
  [Send (fl 0) (tagged_draws "a") sample_prices (quotes []) b;
   OnEngine (Restart (new_firewall None None 0) (new_enforcer None 0) new_checker default_collar "paper"
               (Some "d") (Some "r2") "" "");
   Pump 2 (fl 1) (tagged_draws "p") [] 4;
   Send (fl 2) (tagged_draws "b") sample_prices (quotes []) b]%string.

Lemma resent_batch_trades_once_witness :
  let c := run_market resend_ops (plain_client sample_engine) in
  sent_view c = [("AAPL", "buy", Dec 500 (-1)); ("MSFT", "sell", Dec 150 (-1))]%string /\
  (List.length (filter (fun o => o_symbol o = "AAPL"%string) (w_sent (cl_world c))) <= 1)%nat.
Proof.
  split; [vm_compute; reflexivity|].
  destruct (resent_batch_trades_once accepting_broker market_config None no_fetch None "paper"
              sample_engine tt (Some []) (Some []) tt resend_ops) as (_ & _ & Hn).
  - reflexivity.
  - repeat constructor.
  - etransitivity; [exact (Hn "AAPL"%string)|]. vm_compute. repeat constructor.
Defined.

Example build_intents_ex :
  let b := build_intents [("MSFT", fl 1); ("AAPL", S754_nan); ("MSFT", fl 2)]%string (fl 100) 5 None in
  map (fun i => (xi_symbol i, xi_target_notional i)) (ib_intents b) = [("MSFT"%string, fl 200)] /\
  ib_key b = substring 0 32 (sha256_hex "5|MSFT:2.0").
Proof. split; vm_compute; reflexivity. Qed.

(** A name without a target is sold; a change below the minimum is skipped; a symbol
    without a price is reported. *)
Example rebalance_ex :
  let r := send_intents accepting_broker market_config (fl 0) (tagged_draws "a") sample_prices
             (quotes [("AAPL", 5000); ("TSLA", 10); ("MSFT", 300)]%string)
             (targets 100000 [("MSFT", 300)]%string "k1") (plain_client sample_engine) in
  sent_view r.1 = [("AAPL", "sell", Dec 500 (-1))]%string /\ refusals r = [("TSLA"%string, NoPrice)].
Proof. split; vm_compute; reflexivity. Qed.

(** A day with a loss beyond the limit: the engine refuses an order, and accepts it
    as part of a batch, because the client gives the engine a portfolio without a loss. *)
Definition losing_engine : Engine :=
  let d := new_portfolio in
  update_portfolio
    (MkPortfolio (equity d) (buying_power d) (margin_used d) (margin_available d) [] [] dzero dzero
       (Dec (-5000) 0) (peak_equity d) 0 0) sample_engine.

Theorem send_forgets_daily_loss :
  w_sent (execute_sample accepting_broker (MkWorld losing_engine tt []) sample_intent (Dec 100 0)).1 = [] /\
  sent_view (send_intents accepting_broker market_config (fl 0) (tagged_draws "a") sample_prices (quotes [])
               (targets 100000 [("AAPL", 1000)]%string "k1") (plain_client losing_engine)).1
  = [("AAPL", "buy", Dec 100 (-1))]%string.
Proof. split; vm_compute; reflexivity. Qed.

(** With a limit on the drawdown, an account of 50000 that never lost anything cannot
    trade: the peak of the portfolio the client gives the engine is 100000. *)
Definition drawdown_engine : Engine :=
  new_engine (new_firewall None None 0) (new_enforcer None 0)
    (MkChecker (Dec 100000 0) (Dec 10000 0) (Dec 25 (-2)) (Dec 1000 0) 10 100 None (Some (Dec 2 (-1))) ∅ [])
    default_collar "paper" (new_journal None) (Some "d"%string) (Some "r"%string) "" "".

Theorem small_account_in_drawdown :
  refusals (send_intents accepting_broker market_config (fl 0) (tagged_draws "a") sample_prices (quotes [])
              (targets 50000 [("AAPL", 1000)]%string "k1") (plain_client drawdown_engine))
  = [("AAPL", Refused "Risk check failed: Drawdown 50.0% exceeds limit 20.0% — new risk-increasing orders blocked")]%string.
Proof. vm_compute. reflexivity. Qed.

(** A position above the limit of concentration cannot be reduced: the sale is an entry
    whose size is added to the position. *)
Theorem overweight_cannot_be_reduced :
  refusals (send_intents accepting_broker market_config (fl 0) (tagged_draws "a") sample_prices
              (quotes [("AAPL", 40000)]%string) (targets 50000 [("AAPL", 5000)]%string "k1")
              (plain_client sample_engine))
  = [("AAPL", Refused "Risk check failed: Concentration 150.0% exceeds limit 25.0%")]%string.
Proof. vm_compute. reflexivity. Qed.

(** Sliced, a batch that is sent again trades again. *)
Definition sliced_config : ClientConfig := new_config "xs" (fl 1) 2 [].

Definition sliced_client : Client unit unit :=
  MkClient sample_world (Some (new_executor "xs" (fl 30) (fl 60) 3 dzero false)) (Some []) (Some []) tt.

Theorem sliced_batch_trades_again :
  let send t := Send (fl t) (tagged_draws "s") sample_prices (quotes [])
                  (targets 100000 [("AAPL", 5000)]%string "k1") in
  let pump tag t := Pump 2 (fl t) (tagged_draws tag) [("AAPL"%string, VInt 100)] 4 in
  sent_view (client_run accepting_broker sliced_config None no_fetch None
               [send 0; pump "a" 0; send 1; pump "b" 1]%string sliced_client)
  = [("AAPL", "buy", Dec 2500 (-2)); ("AAPL", "buy", Dec 2500 (-2))]%string.
Proof. vm_compute. reflexivity. Qed.
