(* ===== verification/LiveStack.v ===== *)
(** * The live stack: [packages/agent/execution/live_factory.py]

    The adapters between a broker connector and the engine, the providers of
    positions, prices and liquidity, the submission through the smart order router,
    and [build_live_stack], which wires them into an [AgentClient].

    A connector is a parameter ([BrokerProtocol]), a record of functions of the
    brokers' common state [C]; nothing is assumed of it.  A provider asks for
    the prices of its symbols in an order of its own; here it is that of [elements].
    [PyHash] is the [hash] of the interpreter, which differs between processes.
    Quantities that have no finite decimal are outside the model: they are not
    submitted. *)
From Stdlib Require Import SpecFloat.
From Stdlib Require Import Ascii String.
From S2P Require Import Prelude PyDecimal DecArith PyFormat PyFloat PyValue PyJson PyCompare PyText PyRepr.
From S2P Require Import Sha256 Uuid HashChain Intent Firewall HardCaps RiskChecker Journal Engine.
From S2P Require Import ChildExecutor Fills SmartRouter AgentClient BrokerProtocol.
Open Scope Z_scope.
Open Scope list_scope.

Class PyHash := py_hash : string -> string -> pyfloat -> Z.

(** ** The state the adapters share *)

Record Live (C : Type) := MkLive {
  lv_conn : C;
  lv_symbols : gset string;
  lv_cache : list (string * pyfloat);
  lv_sor : option SmartOrderRouter;
  lv_routes : list (string * RouteResult * list Dispatch)
}.
Arguments MkLive {C}.
Arguments lv_conn {C}.
Arguments lv_symbols {C}.
Arguments lv_cache {C}.
Arguments lv_sor {C}.
Arguments lv_routes {C}.

Section Adapters.
Context {C : Type}.
Implicit Types (s : Live C) (c : Connector C).

Definition with_conn (x : C) s : Live C := MkLive x (lv_symbols s) (lv_cache s) (lv_sor s) (lv_routes s).

(** ** Orders *)

Definition bk_type (t : OrderType) : BkOrderType :=
  match t with
  | MARKET => BK_MARKET
  | LIMIT => BK_LIMIT
  | STOP => BK_STOP
  | STOP_LIMIT => BK_STOP_LIMIT
  end.

Definition TIF_MAP : list (string * TimeInForce) :=
  [("GTC", TIF_GTC); ("DAY", TIF_DAY); ("IOC", TIF_IOC); ("FOK", TIF_FOK); ("GTD", TIF_GTD); ("OPG", TIF_OPG);
   ("CLS", TIF_CLS)]%string.

(** The request for an order; an [Order] of the engine has no [strategy_id]. *)
Definition order_request (o : Order) : OrderRequest :=
  MkRequest (client_order_id o) (o_symbol o) (if bool_decide (o_side o = "buy"%string) then BK_BUY else BK_SELL)
    (bk_type (order_type o)) (quantity o) (o_limit_price o) (o_stop_price o)
    (default TIF_GTC (dget TIF_MAP (str_upper (o_time_in_force o)))) None.

Definition make_broker_submit c s (o : Order) : Live C * pyres string (bool * option string * option string) :=
  let '(x, r) := cn_submit c (lv_conn s) (order_request o) in
  (with_conn x s,
   Ok match r with
      | Ok res => (or_success res, or_broker_order_id res, or_error res)
      | Raise m => (false, None, Some ("broker error: " +:+ m))
      end).

Definition make_broker_cancel c s (coid : string) (boid : option string) : Live C * pyres string bool :=
  let '(x, r) := cn_cancel c (lv_conn s) coid boid in
  (with_conn x s, Ok match r with Ok res => cr_success res | Raise _ => false end).

Definition make_broker_replace c s (coid : string) (q px : option dec) :
    Live C * pyres string (bool * option string * option string) :=
  match cn_replace c with
  | None => (s, Ok (false, None, Some "broker does not support replace_order"%string))
  | Some f =>
      let '(x, r) := f (lv_conn s) coid q px in
      (with_conn x s,
       Ok match r with
          | Ok res => (or_success res, or_broker_order_id res, or_error res)
          | Raise m => (false, None, Some ("broker replace error: " +:+ m))
          end)
  end.

(** ** Positions, prices and fills *)

Definition notional_of_position (p : BrokerPosition) : option (string * pyval) :=
  mv ← (match bp_market_value p with
        | Some m => Some m
        | None => dmul (bp_quantity p) <$> bp_current_price p
        end);
  Some (bp_symbol p, VFloat (float_of_dec mv)).

(** [ConnectorPositionProvider.get_positions] *)
Definition get_positions c s : Live C * dict :=
  let '(x, r) := cn_positions c (lv_conn s) in
  (with_conn x s,
   match r with
   | Ok l => fold_left (fun d kv => dset d kv.1 kv.2) (omap notional_of_position l) []
   | Raise _ => []
   end).

(** [float(c.get_last_price(s))] that is usable, nothing where it raises. *)
Definition last_price c s (sym : string) : Live C * option pyfloat :=
  let '(x, r) := cn_last_price c (lv_conn s) sym in
  (with_conn x s, match r with Ok (Some d) => Some (float_of_dec d) | _ => None end).

Definition fetch_price c (acc : Live C * list (string * pyfloat)) (sym : string) : Live C * list (string * pyfloat) :=
  let '(s, px) := last_price c acc.1 sym in
  (s, match px with
      | Some p => if fltb fzero p then dset acc.2 sym p else acc.2
      | None => acc.2
      end).

(** [ConnectorPricesProvider.prime] *)
Definition prime (syms : list string) s : Live C :=
  MkLive (lv_conn s) (lv_symbols s ∪ list_to_set syms) (lv_cache s) (lv_sor s) (lv_routes s).

Definition with_cache (new : list (string * pyfloat)) s : Live C :=
  MkLive (lv_conn s) (lv_symbols s) (fold_left (fun d kv => dset d kv.1 kv.2) new (lv_cache s)) (lv_sor s)
    (lv_routes s).

(** [ConnectorPricesProvider.get_prices]: the prices that were found, over those found before. *)
Definition get_prices c s : Live C * list (string * pyfloat) :=
  let '(x, r) := cn_positions c (lv_conn s) in
  let held := match r with Ok l => map bp_symbol l | Raise _ => [] end in
  let '(s, out) :=
    fold_left (fetch_price c) (elements (lv_symbols s ∪ list_to_set held)) (with_conn x s, []) in
  let s := with_cache out s in (s, lv_cache s).

(** [make_fill_fetch] *)
Definition make_fill_fetch c s (coid : string) : Live C * pyres unit (option dict) :=
  let '(x, r) := cn_order c (lv_conn s) coid in
  (with_conn x s,
   match r with
   | Raise e => Raise e
   | Ok None => Ok None
   | Ok (Some i) =>
       Ok (Some
         [("client_order_id", VStr (oi_client_order_id i)); ("broker_order_id", v_opt_str (oi_broker_order_id i));
          ("status", VStr (order_status_value (oi_status i))); ("filled_qty", VStr (dec_str (oi_filled i)));
          ("filled_avg_price", v_opt_str (dec_str <$> oi_avg_price i)); ("cumulative", VBool true)]%string)
   end).

(** ** Routing over venues *)

Context (venues : list (string * Connector C)).

Definition float_1e6 : pyfloat := float_lit 1 6.

(** [float(getattr(ob, ..., d) or d)] *)
Definition size_or (o : option pyfloat) (d : pyfloat) : pyfloat :=
  match o with
  | Some x => if ftrue x then x else d
  | None => d
  end.

Definition book_quote (b : BookTop) : option VenueQuote :=
  if fltb fzero (bt_bid b) && fltb fzero (bt_ask b) then
    let d := fdiv float_1e6 (bt_ask b) in
    Some (MkQuote (bt_bid b) (bt_ask b) (size_or (bt_bid_size b) d) (size_or (bt_ask_size b) d))
  else None.

Definition price_quote (px : pyfloat) : VenueQuote :=
  MkQuote (fmul px (float_lit 99995 (-5))) (fmul px (float_lit 100005 (-5))) (fdiv float_1e6 px) (fdiv float_1e6 px).

(** [BrokerLiquidityProvider.get_quote] *)
Definition get_quote s (venue sym : string) : Live C * pyres unit (option VenueQuote) :=
  match dget venues venue with
  | None => (s, Ok None)
  | Some c =>
      let '(s, book) :=
        match cn_book c with
        | None => (s, None)
        | Some f =>
            let '(x, r) := f (lv_conn s) sym in
            (with_conn x s, match r with Ok (Some b) => book_quote b | _ => None end)
        end in
      match book with
      | Some q => (s, Ok (Some q))
      | None =>
          let '(s, px) := last_price c s sym in
          (s, Ok match px with
                 | Some p => if fleb p fzero then None else Some (price_quote p)
                 | None => None
                 end)
      end
  end.

(** [price_fn]: the price of the provider of the main connector. *)
Definition price_fn c s (sym : string) : Live C * option pyfloat :=
  let '(s, prices) := get_prices c s in (s, dget prices sym).

Definition price_true (px : option pyfloat) : bool :=
  match px with
  | Some p => ftrue p
  | None => false
  end.

Context `{PyHash}.

(** [f"sor_{venue}_{symbol}_{abs(hash((venue, symbol, round(notional, 2)))) % 10**8}"] *)
Definition venue_order_id (venue sym : string) (notional : pyfloat) : string :=
  ("sor_" +:+ venue +:+ "_" +:+ sym +:+ "_" +:+
   string_of_list_ascii (int_chars (Z.abs (py_hash venue sym (fround 2 notional)) mod 10 ^ 8)))%string.

Definition venue_request (venue sym side : string) (notional : pyfloat) (qty : dec) : OrderRequest :=
  MkRequest (venue_order_id venue sym notional) sym
    (if bool_decide (str_upper side = "BUY"%string) then BK_BUY else BK_SELL) BK_MARKET qty None None TIF_GTC None.

(** [make_venue_submit]: whether the part was accepted. *)
Definition make_venue_submit c0 s (venue sym side : string) (notional : pyfloat) : Live C * pyres unit bool :=
  match dget venues venue with
  | None => (s, Ok false)
  | Some c =>
      let '(s, px) := price_fn c0 s sym in
      let '(s, px) := if price_true px then (s, px) else last_price c s sym in
      match px with
      | Some p =>
          if negb (ftrue p) || fleb p fzero then (s, Ok false)
          else
            match dec_of_float (fdiv (fabs notional) p) with
            | None => (s, Raise tt)
            | Some qty =>
                let '(x, r) := cn_submit c (lv_conn s) (venue_request venue sym side notional qty) in
                (with_conn x s, Ok match r with Ok res => or_success res | Raise _ => false end)
            end
      | None => (s, Ok false)
      end
  end.

(** The first connector that has a price. *)
Fixpoint any_price (cs : list (string * Connector C)) s (sym : string) : Live C * option pyfloat :=
  match cs with
  | [] => (s, None)
  | (_, c) :: cs =>
      let '(s, px) := last_price c s sym in
      match px with
      | Some p => (s, Some p)
      | None => any_price cs s sym
      end
  end.

Definition record_route (e : string * RouteResult * list Dispatch) s : Live C :=
  MkLive (lv_conn s) (lv_symbols s) (lv_cache s) (lv_sor s) (lv_routes s ++ [e]).

Definition with_sor (r : SmartOrderRouter) s : Live C :=
  MkLive (lv_conn s) (lv_symbols s) (lv_cache s) (Some r) (lv_routes s).

(** The route of an order over the venues, on live liquidity or on the static one. *)
Definition plan_route (live : bool) (sor : SmartOrderRouter) s (sym side : string) (notional : pyfloat) :
    Live C * option RouteResult :=
  if live then
    let '(s, sor, r) := route_live get_quote sym side notional true s sor in (with_sor sor s, r)
  else (s, route sym side notional true sor).

(** [",".join(l)] *)
Definition join_names (l : list string) : string := string_of_list_ascii (join_chars [","%char] (map chars l)).

(** [routed_broker_submit]; a route that runs out of fuel does not return. *)
Definition routed_broker_submit (live : bool) c0 s (o : Order) :
    Live C * pyres string (bool * option string * option string) :=
  let '(s, px) :=
    match o_limit_price o with
    | Some lp => if dtrue lp then (s, Some (float_of_dec lp)) else price_fn c0 s (o_symbol o)
    | None => price_fn c0 s (o_symbol o)
    end in
  let '(s, px) := if price_true px then (s, px) else any_price venues s (o_symbol o) in
  match px, lv_sor s with
  | Some p, Some sor =>
      if negb (ftrue p) || fleb p fzero then (s, Ok (false, None, Some "no price for routing"%string))
      else
        let notional := fmul (fabs (float_of_dec (quantity o))) p in
        let side := if bool_decide (o_side o = "buy"%string) then "BUY"%string else "SELL"%string in
        let '(s, r) := plan_route live sor s (o_symbol o) side notional in
        match r with
        | None => (s, Raise "no route"%string)
        | Some r =>
            let '(s, ds) := dispatch (make_venue_submit c0) r s in
            (record_route (client_order_id o, r, ds) s,
             Ok (all_ok ds,
                 Some ("routed:" +:+ join_names (map al_venue (rs_allocations r)))%string,
                 if all_ok ds then None else Some "some venue dispatches failed"%string))
        end
  | _, _ => (s, Ok (false, None, Some "no price for routing"%string))
  end.
End Adapters.

(** ** The stack: [build_live_stack] *)

Section Stack.
Context `{Digest} `{PyHash} {C K : Type}.
Context (connector : Connector C) (live : bool).

(** The venues that are routed over: without a map, the connector itself. *)
Definition connector_map (venues : list (string * Connector C)) : list (string * Connector C) :=
  match venues with
  | [] => [(cn_name connector, connector)]
  | _ => venues
  end.

Context (venues : list (string * Connector C)).

(** The submission of the engine: routed when a router was given. *)
Definition live_submit (s : Live C) (o : Order) : Live C * pyres string (bool * option string * option string) :=
  match lv_sor s with
  | Some _ => routed_broker_submit (connector_map venues) live connector s o
  | None => make_broker_submit connector s o
  end.

Definition live_broker : Broker (Live C) :=
  MkBroker (Some live_submit) (Some (make_broker_cancel connector)) (Some (make_broker_replace connector)).

(** The same cancellation, for the executor. *)
Definition child_cancel (s : Live C) (coid : string) (boid : option string) : Live C * pyres unit bool :=
  let '(s, r) := make_broker_cancel connector s coid boid in
  (s, match r with Ok b => Ok b | Raise _ => Raise tt end).

Definition live_engine (j : OrderJournal) (deployment_id run_id : option string) (now : Z) (uuid1 uuid2 : string) :
    Engine :=
  new_engine (new_firewall None None now) (new_enforcer None now) new_checker default_collar (cn_name connector) j
    deployment_id run_id uuid1 uuid2.

Definition build_live_stack (strategy : string) (n_slices : Z) (min_notional : pyfloat) (weights : list pyfloat)
    (j : OrderJournal) (deployment_id run_id : option string) (interval timeout : pyfloat)
    (symbols : list string) (limit_orders : bool) (ledger : K) (sor : option SmartOrderRouter) (x : C)
    (now : Z) (uuid1 uuid2 : string) : ClientConfig * Client (Live C) K :=
  (new_config strategy min_notional n_slices weights,
   MkClient
     (MkWorld (live_engine j deployment_id run_id now uuid1 uuid2)
        (MkLive x (list_to_set symbols) [] sor []) [])
     (if 1 <? n_slices then Some (new_executor strategy interval timeout 3 dzero limit_orders) else None)
     (Some []) (Some []) ledger).

(** *** Calls of the client, the providers asked as the code asks them *)

Context (cfg : ClientConfig) (book : option (K -> dict -> K)).
Implicit Types c : Client (Live C) K.

Definition with_live (s : Live C) c : Client (Live C) K :=
  let w := cl_world c in with_world (MkWorld (w_engine w) s (w_sent w)) c.

Definition priced (l : list (string * pyfloat)) : dict := map (fun kv => (kv.1, VFloat kv.2)) l.

Definition live_send (now_ts : pyfloat) (supply : nat -> Draw) (b : IntentBatch) c :
    Client (Live C) K * pyres ClientError SendResult :=
  let s := prime (map xi_symbol (ib_intents b)) (w_broker (cl_world c)) in
  let '(s, prices) := get_prices connector s in
  let '(s, positions) := get_positions connector s in
  send_intents live_broker cfg now_ts supply (Some (Ok (priced prices))) (Some (Ok positions)) b (with_live s c).

Definition live_pump (now : Z) (ts : pyfloat) (supply : nat -> Draw) (max_batches : Z) c :
    Client (Live C) K * pyres ExecError PumpReport :=
  let '(s, prices) :=
    match cl_exec c with
    | Some _ => get_prices connector (w_broker (cl_world c))
    | None => (w_broker (cl_world c), [])
    end in
  pump live_broker book (make_fill_fetch connector) (Some child_cancel) now ts supply (priced prices) max_batches
    (with_live s c).
End Stack.

(** * Theorems on the live stack

    The stack of [build_live_stack] makes only the calls of a client that
    [AgentClientProps] speaks of, with the market moving between them; what a routed
    submission reports; and concrete runs of the adapters over two venues. *)
From S2P Require Import Config EngineProps EngineJournal.
From S2P Require Import AgentClientProps.

(** ** Runs of the stack *)

Section Runs.
Context `{Digest} `{PyHash} {C K : Type}.
Context (connector : Connector C) (live : bool) (venues : list (string * Connector C)).
Context (cfg : ClientConfig) (book : option (K -> dict -> K)).

Inductive live_op :=
  | LiveSend (now_ts : pyfloat) (supply : nat -> Draw) (b : IntentBatch)
  | LivePump (now : Z) (ts : pyfloat) (supply : nat -> Draw) (max_batches : Z)
  | LiveMarket (f : C -> C).

Definition live_step (c : Client (Live C) K) (op : live_op) : Client (Live C) K :=
  match op with
  | LiveSend now_ts supply b => (live_send connector live venues cfg now_ts supply b c).1
  | LivePump now ts supply n => (live_pump connector live venues book now ts supply n c).1
  | LiveMarket f => with_live (with_conn (f (lv_conn (w_broker (cl_world c)))) (w_broker (cl_world c))) c
  end.

Definition live_run (ops : list live_op) (c : Client (Live C) K) : Client (Live C) K := fold_left live_step ops c.

(** The keys of the batches sent. *)
Definition live_keys (ops : list live_op) : list string :=
  omap (fun op => match op with LiveSend _ _ b => Some (ib_key b) | _ => None end) ops.

Abbreviation as_client := (client_run (live_broker connector live venues) cfg book (make_fill_fetch connector)
                             (Some (child_cancel connector))).

Lemma with_live_market s c ops :
  as_client (Market (fun _ => s) :: ops) c = as_client ops (with_live s c).
Proof. done. Qed.

(** Each call of the stack is a move of the market followed by a call of the client. *)
Lemma live_step_client c op : exists ops, Forall (allowed_op (cn_name connector)) ops /\
  sent_keys ops = live_keys [op] /\ live_step c op = as_client ops c.
Proof.
  destruct op as [now_ts supply b|now ts supply n|f]; cbn [live_step]; unfold live_send, live_pump.
  - destruct (get_prices connector _) as [s1 prices]. destruct (get_positions connector s1) as [s2 positions].
    exists [Market (fun _ => s2); Send now_ts supply (Some (Ok (priced prices))) (Some (Ok positions)) b].
    split_and!; [by repeat constructor|done|done].
  - destruct (match cl_exec c with Some _ => _ | None => _ end) as [s prices].
    exists [Market (fun _ => s); Pump now ts supply (priced prices) n]. split; [by repeat constructor|done].
  - eexists [Market _]. split_and!; [by repeat constructor|done|by rewrite with_live_market].
Qed.

Lemma live_run_client ops c : exists cops, Forall (allowed_op (cn_name connector)) cops /\
  sent_keys cops = live_keys ops /\ live_run ops c = as_client cops c.
Proof.
  revert c. induction ops as [|op ops IH]; intros c; [by exists []|].
  destruct (live_step_client c op) as (l1 & H1 & K1 & E1). destruct (IH (live_step c op)) as (l2 & H2 & K2 & E2).
  exists (l1 ++ l2). split_and!; [by apply Forall_app| |].
  { unfold sent_keys in *. rewrite omap_app, K1, K2. unfold live_keys. cbn. by case_match. }
  unfold live_run, client_run in *. cbn [fold_left].
  by rewrite fold_left_app, E2, E1.
Qed.

Lemma new_engine_name policy caps risk collar name j dep run u1 u2 :
  en_broker_name (new_engine policy caps risk collar name j dep run u1 u2) = name.
Proof. unfold new_engine, recover_sequence_from_journal. by repeat case_match. Qed.

(** The stack of a live process, without slicing: whatever batches it is sent, in any
    order and however often, pumped and with the brokers doing anything in between,
    every order that leaves is of a batch that was sent, and of each symbol there are at
    most as many as different batch keys. *)
Theorem live_stack_trades_once strategy n min_notional weights j dep run interval timeout symbols limits (ledger : K)
    sor x now u1 u2 ops :
  n <= 1 ->
  trades_once (live_keys ops) (live_run ops (build_live_stack connector strategy n min_notional weights j dep run interval timeout
                               symbols limits ledger sor x now u1 u2).2).
Proof.
  intros Hn. unfold build_live_stack. replace (1 <? n) with false by lia. cbn [snd].
  match goal with |- context [live_run ops ?c0] => destruct (live_run_client ops c0) as (cops & Ha & <- & ->) end.
  apply (client_trades_once _ _ _ _ _ (cn_name connector)); [apply new_engine_name|done].
Qed.
End Runs.

(** ** What a routed submission reports *)

Section Routed.
Context `{PyHash} {C : Type} (venues : list (string * Connector C)) (connector : Connector C).
Implicit Types (s : Live C) (c : Connector C).

Lemma last_price_routes c s sym : lv_routes (last_price c s sym).1 = lv_routes s.
Proof. unfold last_price. by destruct (cn_last_price c _ _) as [x [[]|]]. Qed.

Lemma fetch_routes c syms (acc : Live C * list (string * pyfloat)) : lv_routes (fold_left (fetch_price c) syms acc).1 = lv_routes acc.1.
Proof.
  revert acc. induction syms as [|sym syms IH]; intros acc; [done|]. cbn [fold_left]. rewrite IH.
  unfold fetch_price. pose proof (last_price_routes c acc.1 sym) as Hr. by destruct (last_price c acc.1 sym).
Qed.

Lemma get_prices_routes c s : lv_routes (get_prices c s).1 = lv_routes s.
Proof.
  unfold get_prices. destruct (cn_positions c (lv_conn s)) as [x r].
  match goal with |- context [fold_left ?f ?l ?a] =>
    pose proof (fetch_routes c l a) as Hr; change (fetch_price c) with f in Hr; destruct (fold_left f l a) end.
  exact Hr.
Qed.

Lemma price_fn_routes c s sym : lv_routes (price_fn c s sym).1 = lv_routes s.
Proof. unfold price_fn. pose proof (get_prices_routes c s) as Hr. by destruct (get_prices c s). Qed.

Lemma any_price_routes cs s sym : lv_routes (any_price cs s sym).1 = lv_routes s.
Proof.
  revert s. induction cs as [|[n c] cs IH]; intros s; [done|]. cbn [any_price].
  pose proof (last_price_routes c s sym) as Hr. destruct (last_price c s sym) as [s' [p|]]; [done|].
  by rewrite IH.
Qed.

Lemma get_quote_routes s v sym : lv_routes (get_quote venues s v sym).1 = lv_routes s.
Proof.
  unfold get_quote. destruct (dget venues v) as [c|]; [|done].
  destruct (cn_book c) as [f|].
  - destruct (f (lv_conn s) sym) as [x [[b|]|]]; [destruct (book_quote b)|..]; try done;
      match goal with |- context [last_price c ?t sym] =>
        pose proof (last_price_routes c t sym) as Hr; by destruct (last_price c t sym) end.
  - pose proof (last_price_routes c s sym) as Hr. by destruct (last_price c s sym).
Qed.

Lemma refresh_routes sym side vs (acc : Live C * list Venue * Z) :
  lv_routes (fold_left (refresh_venue (get_quote venues) sym side) vs acc).1.1 = lv_routes acc.1.1.
Proof.
  revert acc. induction vs as [|v vs IH]; intros [[s l] n]; [done|]. cbn [fold_left]. rewrite IH. cbn [refresh_venue].
  pose proof (get_quote_routes s (v_name v) sym) as Hr. by destruct (get_quote venues s (v_name v) sym) as [s' [[q|]|]].
Qed.

Lemma plan_routes live sor s sym side notional : lv_routes (plan_route venues live sor s sym side notional).1 = lv_routes s.
Proof.
  destruct live; [|done]. unfold plan_route, route_live, refresh_liquidity.
  pose proof (refresh_routes sym side (sor_venues sor) (s, [], 0)) as Hr.
  by destruct (fold_left _ _ _) as [[s' vs] n].
Qed.

Lemma venue_submit_routes s v sym side notional :
  lv_routes (make_venue_submit venues connector s v sym side notional).1 = lv_routes s.
Proof.
  unfold make_venue_submit. destruct (dget venues v) as [c|]; [|done].
  pose proof (price_fn_routes connector s sym) as Hp. destruct (price_fn connector s sym) as [s1 px].
  assert (lv_routes (if price_true px then (s1, px) else last_price c s1 sym).1 = lv_routes s) as Hr.
  { destruct (price_true px); [done|]. by rewrite last_price_routes. }
  destruct (if price_true px then _ else _) as [s2 [p|]]; [|done].
  destruct (_ || _); [done|]. destruct (dec_of_float _) as [q|]; [|done].
  by destruct (cn_submit c _ _) as [x [|]].
Qed.

(** Every part of a route is submitted, in its order. *)
Lemma dispatch_parts {S : Type} submit r (s : S) :
  map (fun d => (di_venue d, di_notional d)) (dispatch submit r s).2
  = map (fun a => (al_venue a, al_notional a)) (rs_allocations r).
Proof.
  unfold dispatch. set (step := dispatch_one submit r).
  assert (forall l acc, map (fun d => (di_venue d, di_notional d)) (fold_left step l acc).2
            = map (fun d => (di_venue d, di_notional d)) acc.2 ++ map (fun a => (al_venue a, al_notional a)) l) as Hl.
  { induction l as [|a l IH]; intros acc; [by rewrite app_nil_r|]. cbn [fold_left]. rewrite IH.
    unfold step, dispatch_one. destruct (submit _ _ _ _ _) as [s' res]. cbn [snd]. rewrite map_app, <- app_assoc. done. }
  by rewrite Hl.
Qed.

Lemma dispatch_routes r s : lv_routes (dispatch (make_venue_submit venues connector) r s).1 = lv_routes s.
Proof.
  unfold dispatch. set (step := dispatch_one _ r).
  assert (forall l acc, lv_routes (fold_left step l acc).1 = lv_routes acc.1) as Hl; [|by rewrite Hl].
  induction l as [|a l IH]; intros acc; [done|]. cbn [fold_left]. rewrite IH. unfold step, dispatch_one.
  pose proof (venue_submit_routes acc.1 (al_venue a) (rs_symbol r) (rs_side r) (al_notional a)) as Hr.
  by destruct (make_venue_submit _ _ _ _ _ _ _).
Qed.

(** A routed order is submitted in the parts of one recorded route, all of them, and is
    reported as accepted when there is a part and every part was accepted; or nothing
    is recorded and it is reported as refused. *)
Theorem routed_order_report live s o s' ok bid err :
  routed_broker_submit venues live connector s o = (s', Ok (ok, bid, err)) ->
  (exists r ds, lv_routes s' = lv_routes s ++ [(client_order_id o, r, ds)] /\
     map (fun d => (di_venue d, di_notional d)) ds = map (fun a => (al_venue a, al_notional a)) (rs_allocations r) /\
     (ok = true <-> ds <> [] /\ Forall (fun d => di_success d = true) ds)) \/
  (lv_routes s' = lv_routes s /\ ok = false).
Proof.
  unfold routed_broker_submit.
  assert (forall x, lv_routes (match o_limit_price o with
            | Some lp => if dtrue lp then (x, Some (float_of_dec lp)) else price_fn connector x (o_symbol o)
            | None => price_fn connector x (o_symbol o) end).1 = lv_routes x) as H1.
  { intros x. destruct (o_limit_price o) as [lp|]; [destruct (dtrue lp); [done|]|]; apply price_fn_routes. }
  specialize (H1 s). destruct (match o_limit_price o with Some _ => _ | None => _ end) as [s1 px].
  assert (lv_routes (if price_true px then (s1, px) else any_price venues s1 (o_symbol o)).1 = lv_routes s) as H2.
  { destruct (price_true px); [done|]. by rewrite any_price_routes. }
  destruct (if price_true px then _ else _) as [s2 [p|]]; [|intros [= <- <- _ _]; by right].
  destruct (lv_sor s2) as [sor|]; [|intros [= <- <- _ _]; by right].
  destruct (_ || _); [intros [= <- <- _ _]; by right|].
  match goal with |- context [plan_route ?a ?b ?c ?d ?e ?f ?g] =>
    pose proof (plan_routes b c d e f g) as H3; destruct (plan_route a b c d e f g) as [s3 [r|]] end; [|done].
  pose proof (dispatch_parts (make_venue_submit venues connector) r s3) as H4.
  pose proof (dispatch_routes r s3) as H5. destruct (dispatch _ r s3) as [s4 ds]. intros [= <- <- _ _]. left.
  exists r, ds. cbn [fst snd] in *. split; [cbn; congruence|]. split; [done|].
  unfold all_ok. rewrite andb_true_iff, forallb_forall, negb_true_iff, bool_decide_eq_false, Forall_forall.
  setoid_rewrite list_elem_of_In. tauto.
Qed.
End Routed.

(** ** Concrete runs over two venues *)

(** The orders a venue was sent: its name, the client id, the quantity. *)
Abbreviation venue_log := (list (string * string * dec)).

Definition order_sent (coid : string) (e : string * string * dec) : OrderInfo :=
  MkOrderInfo coid (Some "b"%string) "AAPL" BK_BUY BK_MARKET e.2 e.2 None None (Some (Dec 100 0)) FILLED TIF_GTC dzero
    None None None.

(** A venue that accepts or refuses every order, quotes one price or none, and knows
    the orders by the client ids it was sent. *)
Definition sample_connector (name : string) (accepts : bool) (px : option dec) : Connector venue_log :=
  MkConnector name (fun _ => true)
    (fun l r => (l ++ [(name, rq_client_order_id r, rq_quantity r)],
                 Ok (plain_result accepts (rq_client_order_id r) (Some "b"%string)
                       (if accepts then None else Some "no"%string))))
    (fun l coid _ => (l, Ok (MkCancelResult true coid None None None))) (fun l => (l, Ok (MkBulkCancel 0 0 0 [] []))) None
    (fun l coid => (l, Ok (order_sent coid <$> List.find (fun e => bool_decide (e.1.2 = coid)) l)))
    (fun l => (l, Ok [])) (fun l => (l, Ok [])) (fun l => (l, Ok [])) (fun l _ => (l, Ok px)) None.

Definition good (name : string) : string * Connector venue_log := (name, sample_connector name true (Some (Dec 100 0))).
Definition refusing (name : string) : string * Connector venue_log :=
  (name, sample_connector name false (Some (Dec 100 0))).

#[local] Instance constant_hash : PyHash := fun _ _ _ => -7.

Definition routed_live : Live venue_log := MkLive [] ∅ [] (Some two_venues) [].

(** A market order, as the engine hands it to its broker. *)
Definition market_order (coid : string) (q : dec) : Order :=
  MkOrder "o" coid "i" "AAPL" "buy" MARKET q None None "DAY" PENDING dzero None dzero "main" None 0 None None None.

Definition routed (vs : list (string * Connector venue_log)) (s : Live venue_log) (o : Order) :=
  routed_broker_submit vs true (good "A").2 s o.

(** Both venues accept: the order leaves in two parts, and the source of fills, which
    asks for the id of the engine, finds neither. *)
Theorem routed_fills_not_found :
  let vs := [good "A"; good "B"]%string in
  let '(s, r) := routed vs routed_live (market_order "c1" (Dec 200 0)) in
  r = Ok (true, Some "routed:A,B"%string, None) /\
  lv_conn s = [("A", "sor_A_AAPL_7", Dec 1000 (-1)); ("B", "sor_B_AAPL_7", Dec 1000 (-1))]%string /\
  (make_fill_fetch (good "A").2 s "c1").2 = Ok None.
Proof. vm_compute. repeat split. Qed.

(** One venue refuses: the order is reported as refused while a part of it is at the
    other venue. *)
Theorem refused_order_trades :
  let '(s, r) := routed [good "A"; refusing "B"]%string routed_live (market_order "c1" (Dec 200 0)) in
  (exists err, r = Ok (false, Some "routed:A,B"%string, Some err)) /\
  ("A"%string, "sor_A_AAPL_7"%string, Dec 1000 (-1)) ∈ lv_conn s.
Proof. vm_compute. split; [by eexists|left]. Qed.

(** Two different orders of the same notional reach a venue under one client id. *)
Theorem equal_notionals_share_an_id :
  let '(s, _) := routed [good "A"]%string (MkLive [] ∅ [] (Some (new_sor [default_venue "A"%string] 50)) [])
                   (market_order "c1" (Dec 200 0)) in
  let '(s, _) := routed [good "A"]%string s (market_order "c2" (Dec 200 0)) in
  map (fun e => e.1.2) (lv_conn s) = ["sor_A_AAPL_7"; "sor_A_AAPL_7"]%string.
Proof. vm_compute. reflexivity. Qed.

(** A price the connector no longer quotes is still given. *)
Theorem stale_price_is_kept :
  let s := prime ["AAPL"%string] (MkLive (C := venue_log) [] ∅ [] None []) in
  let '(s, _) := get_prices (sample_connector "A" true (Some (Dec 100 0))) s in
  (get_prices (sample_connector "A" true None) s).2 = [("AAPL"%string, fl 100)].
Proof. vm_compute. reflexivity. Qed.
