(* ===== verification/Lob.v ===== *)
(** * The limit order book: [lob/data_structures.py]

    Orders, price levels and the two-sided book.  An order object is shared by the
    queue and the index of its level and by the index of the book: orders live in one
    heap and the others hold references, positions in it.  Objects are told apart by
    their reference where [deque.remove] compares fields: two orders of one level that
    agree in every field have the same id, which the book refuses.

    The sorted dictionaries of levels are those of the [sortedcontainers] package: a
    class with the documented laws.  [clk i] is the [i]-th reading of the clock of an
    operation. *)
From Stdlib Require Import SpecFloat.
From Stdlib Require Import Ascii String.
From S2P Require Import Prelude PyDecimal DecArith PyFormat PyFloat PyText FloatInt.
Open Scope Z_scope.
Open Scope list_scope.

(** ** Enumerations *)

Inductive Side := BUY | SELL.

#[export] Instance Side_eq_dec : EqDecision Side.
Proof. solve_decision. Defined.

Definition side_value (s : Side) : Z :=
  match s with
  | BUY => 1
  | SELL => -1
  end.

Definition side_from_string (s : string) : option Side :=
  let u := str_upper s in
  if bool_decide (u ∈ ["BUY"; "B"; "BID"; "1"]%string) then Some BUY
  else if bool_decide (u ∈ ["SELL"; "S"; "ASK"; "OFFER"; "-1"]%string) then Some SELL
  else None.

Inductive OrderType := LIMIT | MARKET | ICEBERG | HIDDEN.

#[export] Instance OrderType_eq_dec : EqDecision OrderType.
Proof. solve_decision. Defined.

Definition order_type_from_string (s : string) : option OrderType :=
  let u := str_upper s in
  if bool_decide (u ∈ ["LIMIT"; "LMT"; "L"]%string) then Some LIMIT
  else if bool_decide (u ∈ ["MARKET"; "MKT"; "M"]%string) then Some MARKET
  else if bool_decide (u ∈ ["ICEBERG"; "ICE"; "I"]%string) then Some ICEBERG
  else if bool_decide (u ∈ ["HIDDEN"; "HID"; "H"]%string) then Some HIDDEN
  else None.

(** ** Orders *)

Record LimitOrder := MkOrder {
  order_id : string;
  price : pyfloat;
  qty : pyfloat;
  remaining_qty : pyfloat;
  timestamp_ns : Z;
  side : Side;
  hidden_qty : pyfloat;
  display_qty : pyfloat;
  original_display_qty : pyfloat;
  is_own : bool;
  queue_position : Z;
  order_type : OrderType;
  participant_id : option string
}.

#[export] Instance LimitOrder_inhabited : Inhabited LimitOrder :=
  populate (MkOrder "" fzero fzero fzero 0 BUY fzero fzero fzero false 0 LIMIT None).

Definition set_quantities (remaining hidden display : pyfloat) (o : LimitOrder) : LimitOrder :=
  MkOrder (order_id o) (price o) (qty o) remaining (timestamp_ns o) (side o) hidden display
    (original_display_qty o) (is_own o) (queue_position o) (order_type o) (participant_id o).

Definition set_original (d : pyfloat) (o : LimitOrder) : LimitOrder :=
  MkOrder (order_id o) (price o) (qty o) (remaining_qty o) (timestamp_ns o) (side o) (hidden_qty o)
    (display_qty o) d (is_own o) (queue_position o) (order_type o) (participant_id o).

Definition set_position (n : Z) (o : LimitOrder) : LimitOrder :=
  MkOrder (order_id o) (price o) (qty o) (remaining_qty o) (timestamp_ns o) (side o) (hidden_qty o)
    (display_qty o) (original_display_qty o) (is_own o) n (order_type o) (participant_id o).

Definition set_price (p : pyfloat) (o : LimitOrder) : LimitOrder :=
  MkOrder (order_id o) p (qty o) (remaining_qty o) (timestamp_ns o) (side o) (hidden_qty o)
    (display_qty o) (original_display_qty o) (is_own o) (queue_position o) (order_type o) (participant_id o).

Definition positive (x : pyfloat) : bool := fltb fzero x.
Definition not_positive (x : pyfloat) : bool := fleb x fzero.

(** [__post_init__] *)
Definition post_init (o : LimitOrder) : LimitOrder :=
  let o :=
    if bool_decide (order_type o = HIDDEN) then set_quantities (remaining_qty o) (remaining_qty o) fzero o
    else if feqb (display_qty o) fzero && feqb (hidden_qty o) fzero
    then set_quantities (remaining_qty o) (hidden_qty o) (remaining_qty o) o
    else o in
  if feqb (original_display_qty o) fzero && positive (display_qty o)
  then set_original (display_qty o) o else o.

(** The constructor, with the arguments that are passed somewhere. *)
Definition new_order (id : string) (price qty remaining : pyfloat) (ts : Z) (s : Side)
    (hidden display : pyfloat) (own : bool) (t : OrderType) (participant : option string) : LimitOrder :=
  post_init (MkOrder id price qty remaining ts s hidden display fzero own 0 t participant).

Definition is_filled (o : LimitOrder) : bool := not_positive (remaining_qty o).

Definition original_display_size (o : LimitOrder) : pyfloat :=
  if positive (original_display_qty o) then original_display_qty o
  else fmax (float_of_int 1) (fsub (qty o) (hidden_qty o)).

(** [fill]: the order after it and the quantity filled. *)
Definition fill (fill_qty : pyfloat) (o : LimitOrder) : LimitOrder * pyfloat :=
  let actual := fmin fill_qty (remaining_qty o) in
  if not_positive actual then (o, fzero)
  else
    let remaining := fsub (remaining_qty o) actual in
    match order_type o with
    | ICEBERG =>
        let consumed := fmin actual (display_qty o) in
        let display := fsub (display_qty o) consumed in
        let rest := fsub actual consumed in
        let hidden := if positive rest then fsub (hidden_qty o) rest else hidden_qty o in
        let o1 := set_quantities remaining hidden display o in
        if feqb display fzero && positive hidden then
          let replenish := fmin hidden (original_display_size o1) in
          (set_quantities remaining (fsub hidden replenish) replenish o1, actual)
        else (o1, actual)
    | _ => (set_quantities remaining (hidden_qty o) (fmax fzero (fsub (display_qty o) actual)) o, actual)
    end.

(** ** Trades and fills *)

Record Trade := MkTrade {
  t_price : pyfloat;
  t_qty : pyfloat;
  maker_order_id : string;
  t_timestamp : Z;
  maker_is_own : bool;
  taker_is_own : bool;
  taker_order_id : option string;
  aggressor_side : option Side
}.

Definition t_notional (t : Trade) : pyfloat := fmul (t_price t) (t_qty t).

Definition tag_trade (taker : option string) (own : bool) (s : Side) (t : Trade) : Trade :=
  MkTrade (t_price t) (t_qty t) (maker_order_id t) (t_timestamp t) (maker_is_own t) own taker (Some s).

Record Fill := MkFill {
  f_order_id : string;
  total_qty : pyfloat;
  avg_price : pyfloat;
  trades : list Trade;
  f_remaining : pyfloat;
  is_complete : bool
}.

Definition fill_from_trades (id : string) (original : pyfloat) (ts : list Trade) : Fill :=
  match ts with
  | [] => MkFill id fzero fzero [] original false
  | _ =>
      let total := fsum (map t_qty ts) in
      let notional := fsum (map t_notional ts) in
      let rest := fsub original total in
      MkFill id total (if positive total then fdiv notional total else fzero) ts rest (not_positive rest)
  end.

Definition fill_notional (f : Fill) : pyfloat := fmul (avg_price f) (total_qty f).

(** ** Price levels *)

Record PriceLevel := MkLevel {
  lv_price : pyfloat;
  lv_orders : list nat;
  total_visible : pyfloat;
  total_hidden : pyfloat;
  lv_index : list (string * nat)
}.

Definition new_level (p : pyfloat) : PriceLevel := MkLevel p [] fzero fzero [].

Definition set_orders (ks : list nat) (l : PriceLevel) : PriceLevel :=
  MkLevel (lv_price l) ks (total_visible l) (total_hidden l) (lv_index l).

Definition set_totals (v h : pyfloat) (l : PriceLevel) : PriceLevel :=
  MkLevel (lv_price l) (lv_orders l) v h (lv_index l).

Definition set_index (ix : list (string * nat)) (l : PriceLevel) : PriceLevel :=
  MkLevel (lv_price l) (lv_orders l) (total_visible l) (total_hidden l) ix.

Definition level_total (l : PriceLevel) : pyfloat := fadd (total_visible l) (total_hidden l).

Definition level_empty (l : PriceLevel) : bool :=
  match lv_orders l with
  | [] => true
  | _ => false
  end.

Abbreviation order_heap := (list LimitOrder).

Definition recompute_positions (h : order_heap) (ks : list nat) : order_heap :=
  snd (fold_left (fun '(i, h) k => (i + 1, alter (set_position i) k h)) ks (0, h)).

(** Taking an order out of the totals. *)
Definition minus_order (o : LimitOrder) (l : PriceLevel) : PriceLevel :=
  set_totals (fsub (total_visible l) (display_qty o)) (fsub (total_hidden l) (hidden_qty o)) l.

Definition level_add (h : order_heap) (k : nat) (l : PriceLevel) : order_heap * PriceLevel * Z :=
  let pos := Z.of_nat (List.length (lv_orders l)) in
  let h := alter (set_position pos) k h in
  let o := h !!! k in
  (h, MkLevel (lv_price l) (lv_orders l ++ [k]) (fadd (total_visible l) (display_qty o))
        (fadd (total_hidden l) (hidden_qty o)) (dset (lv_index l) (order_id o) k), pos).

(** The first occurrence only, as [deque.remove]. *)
Fixpoint remove_first (k : nat) (ks : list nat) : list nat :=
  match ks with
  | [] => []
  | j :: r => if decide (j = k) then r else j :: remove_first k r
  end.

Definition level_remove (h : order_heap) (id : string) (l : PriceLevel) : order_heap * PriceLevel * option nat :=
  match dget (lv_index l) id with
  | None => (h, l, None)
  | Some k =>
      let l := set_index (ddel (lv_index l) id) l in
      if bool_decide (k ∈ lv_orders l) then
        let l := minus_order (h !!! k) (set_orders (remove_first k (lv_orders l)) l) in
        (recompute_positions h (lv_orders l), l, Some k)
      else (h, l, None)
  end.

Definition level_pop_front (h : order_heap) (l : PriceLevel) : order_heap * PriceLevel * option nat :=
  match lv_orders l with
  | [] => (h, l, None)
  | k :: r =>
      let o := h !!! k in
      let l := minus_order o (set_index (ddel (lv_index l) (order_id o)) (set_orders r l)) in
      (recompute_positions h r, l, Some k)
  end.

Definition level_get (id : string) (l : PriceLevel) : option nat := dget (lv_index l) id.
Definition level_peek (l : PriceLevel) : option nat := head (lv_orders l).

Definition level_queue_position (h : order_heap) (id : string) (l : PriceLevel) : option Z :=
  (fun k => queue_position (h !!! k)) <$> dget (lv_index l) id.

(** The [while] loop of [fill_qty]: every round ends the quantity or takes an order off
    the queue, so one more round than there are orders is enough. *)
Fixpoint level_fill_loop (fuel : nat) (clk : nat -> Z) (q : pyfloat) (h : order_heap) (l : PriceLevel)
    (filled : pyfloat) (ts : list Trade) : order_heap * PriceLevel * pyfloat * list Trade :=
  match fuel with
  | O => (h, l, filled, ts)
  | S fuel =>
      match lv_orders l with
      | [] => (h, l, filled, ts)
      | k :: r =>
          if negb (positive q) then (h, l, filled, ts)
          else
            let o := h !!! k in
            let amount := fmin q (remaining_qty o) in
            let '(h, l, filled, q, ts) :=
              if positive amount then
                (<[k := (fill amount o).1]> h,
                 set_totals (fmax fzero (fsub (total_visible l) amount)) (total_hidden l) l,
                 fadd filled amount, fsub q amount,
                 ts ++ [MkTrade (lv_price l) amount (order_id o) (clk (List.length ts)) (is_own o) false None None])
              else (h, l, filled, q, ts) in
            let l :=
              if is_filled (h !!! k) then set_index (ddel (lv_index l) (order_id o)) (set_orders r l) else l in
            level_fill_loop fuel clk q h l filled ts
      end
  end.

Definition level_fill (clk : nat -> Z) (q : pyfloat) (h : order_heap) (l : PriceLevel) :
    order_heap * PriceLevel * pyfloat * list Trade :=
  let '(h, l, filled, ts) := level_fill_loop (S (List.length (lv_orders l))) clk q h l fzero [] in
  (recompute_positions h (lv_orders l), l, filled, ts).

(** [clone] of a level: new objects. *)
Definition level_clone (h : order_heap) (l : PriceLevel) : order_heap * PriceLevel :=
  fold_left (fun '(h, l') k =>
    let '(h, l', _) := level_add (h ++ [post_init (h !!! k)]) (List.length h) l' in (h, l'))
    (lv_orders l) (h, new_level (lv_price l)).

(** ** Sorted dictionaries *)

(** [SortedDict] of the [sortedcontainers] package, with floats for keys. *)
Class SortedDict := {
  sdict : Type -> Type;
  sd_empty {V} : sdict V;
  sd_items {V} : sdict V -> list (pyfloat * V);
  sd_set {V} : sdict V -> pyfloat -> V -> sdict V;
  sd_del {V} : sdict V -> pyfloat -> sdict V
}.

(** [d[k] = v] on the items: an equal key keeps its place, a new one is put in order. *)
Fixpoint items_set {V} (k : pyfloat) (v : V) (l : list (pyfloat * V)) : list (pyfloat * V) :=
  match l with
  | [] => [(k, v)]
  | (k', v') :: r =>
      if feqb k' k then (k', v) :: r
      else if fltb k k' then (k, v) :: l
      else (k', v') :: items_set k v r
  end.

Definition items_del {V} (k : pyfloat) (l : list (pyfloat * V)) : list (pyfloat * V) :=
  List.filter (fun kv => negb (feqb kv.1 k)) l.

(** Documented: a mapping whose items come in the order of their keys. *)
Class SortedDictLaws `{SortedDict} : Prop := {
  sd_empty_items {V} : sd_items (sd_empty (V := V)) = [];
  sd_set_items {V} (d : sdict V) k v : is_num k = true -> sd_items (sd_set d k v) = items_set k v (sd_items d);
  sd_del_items {V} (d : sdict V) k : is_num k = true -> sd_items (sd_del d k) = items_del k (sd_items d)
}.

(** Sorted association lists are such dictionaries. *)
#[export] Instance list_sorted_dict : SortedDict := {
  sdict V := list (pyfloat * V);
  sd_empty _ := [];
  sd_items _ l := l;
  sd_set _ l k v := items_set k v l;
  sd_del _ l k := items_del k l
}.

#[export] Instance list_sorted_dict_laws : SortedDictLaws.
Proof. by split. Qed.

Section Book.
Context `{SortedDict}.

Definition sd_get {V} (d : sdict V) (k : pyfloat) : option V :=
  snd <$> List.find (fun kv => feqb kv.1 k) (sd_items d).

Definition sd_has {V} (d : sdict V) (k : pyfloat) : bool := bool_decide (is_Some (sd_get d k)).

(** ** The order book *)

Record OrderBook := MkBook {
  symbol : string;
  tick_size : pyfloat;
  lot_size : pyfloat;
  enforce_tick_size : bool;
  enforce_lot_size : bool;
  auto_round_price : bool;
  ob_heap : order_heap;
  bids : sdict PriceLevel;
  asks : sdict PriceLevel;
  orders : list (string * (nat * Side));
  order_count : Z;
  sequence : Z
}.

Definition new_book (symbol : string) (tick lot : pyfloat) (etick elot around : bool) : OrderBook :=
  MkBook symbol tick lot etick elot around [] sd_empty sd_empty [] 0 0.

Definition set_heap (h : order_heap) (b : OrderBook) : OrderBook :=
  MkBook (symbol b) (tick_size b) (lot_size b) (enforce_tick_size b) (enforce_lot_size b) (auto_round_price b)
    h (bids b) (asks b) (orders b) (order_count b) (sequence b).

Definition levels (s : Side) (b : OrderBook) : sdict PriceLevel :=
  match s with
  | BUY => bids b
  | SELL => asks b
  end.

Definition set_levels (s : Side) (d : sdict PriceLevel) (b : OrderBook) : OrderBook :=
  match s with
  | BUY => MkBook (symbol b) (tick_size b) (lot_size b) (enforce_tick_size b) (enforce_lot_size b)
             (auto_round_price b) (ob_heap b) d (asks b) (orders b) (order_count b) (sequence b)
  | SELL => MkBook (symbol b) (tick_size b) (lot_size b) (enforce_tick_size b) (enforce_lot_size b)
              (auto_round_price b) (ob_heap b) (bids b) d (orders b) (order_count b) (sequence b)
  end.

Definition set_index_of (ix : list (string * (nat * Side))) (count : Z) (b : OrderBook) : OrderBook :=
  MkBook (symbol b) (tick_size b) (lot_size b) (enforce_tick_size b) (enforce_lot_size b) (auto_round_price b)
    (ob_heap b) (bids b) (asks b) ix count (sequence b).

Definition next_sequence (b : OrderBook) : OrderBook :=
  MkBook (symbol b) (tick_size b) (lot_size b) (enforce_tick_size b) (enforce_lot_size b) (auto_round_price b)
    (ob_heap b) (bids b) (asks b) (orders b) (order_count b) (sequence b + 1).

(** The key of a price in the dictionary of a side: bids are kept under negative keys,
    so that the best price comes first on both sides. *)
Definition side_key (s : Side) (p : pyfloat) : pyfloat :=
  match s with
  | BUY => SFopp p
  | SELL => p
  end.

Definition best (s : Side) (b : OrderBook) : option pyfloat :=
  side_key s <$> (fst <$> head (sd_items (levels s b))).
Definition best_bid : OrderBook -> option pyfloat := best BUY.
Definition best_ask : OrderBook -> option pyfloat := best SELL.

Definition best_qty (s : Side) (b : OrderBook) : pyfloat :=
  match head (sd_items (levels s b)) with
  | Some (_, l) => total_visible l
  | None => fzero
  end.

(** [bid or ask] when one is missing: a zero bid counts as missing. *)
Definition mid_price (b : OrderBook) : option pyfloat :=
  match best_bid b, best_ask b with
  | Some bid, Some ask => Some (fdiv (fadd bid ask) (float_of_int 2))
  | Some bid, None => if ftrue bid then Some bid else None
  | None, a => a
  end.

Definition spread (b : OrderBook) : option pyfloat :=
  match best_bid b, best_ask b with
  | Some bid, Some ask => Some (fsub ask bid)
  | _, _ => None
  end.

Definition spread_bps (b : OrderBook) : option pyfloat :=
  match spread b, mid_price b with
  | Some s, Some m => if feqb m fzero then None else Some (fmul (fdiv s m) (float_of_int 10000))
  | _, _ => None
  end.

Definition is_crossed (b : OrderBook) : bool :=
  match best_bid b, best_ask b with
  | Some bid, Some ask => fleb ask bid
  | _, _ => false
  end.

Definition num_levels (b : OrderBook) : Z :=
  Z.of_nat (List.length (sd_items (bids b)) + List.length (sd_items (asks b))).

(** *** Ticks *)

Inductive BookError := BadQuantity | BelowLot | DuplicateId | BadTick | BadRound | BadDirection.

Definition is_valid_tick (p : pyfloat) (b : OrderBook) : bool :=
  not_positive (tick_size b) ||
  (let rest := fabs (fmod p (tick_size b)) in
   let tolerance := fmul (tick_size b) (float_of_dec (Dec 1 (-9))) in
   fltb rest tolerance || fltb (fabs (fsub rest (tick_size b))) tolerance).

Definition ticks (round : pyfloat -> option Z) (p : pyfloat) (b : OrderBook) : pyres BookError pyfloat :=
  match round (fdiv p (tick_size b)) with
  | Some n => Ok (fmul (float_of_int n) (tick_size b))
  | None => Raise BadRound
  end.

Definition validate_and_round_tick (p : pyfloat) (b : OrderBook) : pyres BookError pyfloat :=
  if is_valid_tick p b then Ok p
  else if auto_round_price b then ticks fround_int p b else Raise BadTick.

Definition round_to_tick (p : pyfloat) (direction : string) (b : OrderBook) : pyres BookError pyfloat :=
  if not_positive (tick_size b) then Ok p
  else if bool_decide (direction = "nearest"%string) then ticks fround_int p b
  else if bool_decide (direction = "down"%string) then ticks ffloor_int p b
  else if bool_decide (direction = "up"%string) then ticks fceil_int p b
  else Raise BadDirection.

(** *** Adding, cancelling, modifying *)

Definition effective_price (p : pyfloat) (b : OrderBook) : pyres BookError pyfloat :=
  if enforce_tick_size b then validate_and_round_tick p b else Ok p.

(** A rounded price is written into the order; an equal one is not. *)
Definition price_order (p : pyfloat) (o : LimitOrder) : LimitOrder :=
  if feqb p (price o) then o else set_price p o.

(** The order [o] becomes a new object of the book. *)
Definition add_limit_order (o : LimitOrder) (b : OrderBook) : pyres BookError (OrderBook * Z) :=
  if not_positive (remaining_qty o) then Raise BadQuantity
  else if enforce_lot_size b && fltb (remaining_qty o) (lot_size b) then Raise BelowLot
  else if bool_decide (is_Some (dget (orders b) (order_id o))) then Raise DuplicateId
  else
    match effective_price (price o) b with
    | Raise e => Raise e
    | Ok p =>
        let o := price_order p o in
        let key := side_key (side o) p in
        let l := default (new_level p) (sd_get (levels (side o) b) key) in
        let k := List.length (ob_heap b) in
        let '(h, l, pos) := level_add (ob_heap b ++ [o]) k l in
        Ok (next_sequence (set_index_of (dset (orders b) (order_id o) (k, side o)) (order_count b + 1)
              (set_levels (side o) (sd_set (levels (side o) b) key l) (set_heap h b))), pos)
    end.

Definition cancel_order (id : string) (b : OrderBook) : OrderBook * option nat :=
  match dget (orders b) id with
  | None => (b, None)
  | Some (k, s) =>
      let b := set_index_of (ddel (orders b) id) (order_count b) b in
      let key := side_key s (price (ob_heap b !!! k)) in
      match sd_get (levels s b) key with
      | None => (b, None)
      | Some l =>
          let '(h, l, r) := level_remove (ob_heap b) id l in
          let d := levels s b in
          let b := set_levels s (if level_empty l then sd_del d key else sd_set d key l) (set_heap h b) in
          match r with
          | Some k => (next_sequence (set_index_of (orders b) (order_count b - 1) b), Some k)
          | None => (b, None)
          end
      end
  end.

Definition loses_priority (new_qty new_price : option pyfloat) (o : LimitOrder) : bool :=
  match new_price with
  | Some p => negb (feqb p (price o))
  | None => false
  end ||
  match new_qty with
  | Some q => fltb (remaining_qty o) q
  | None => false
  end.

(** [x if x else d] *)
Definition or_default (x : option pyfloat) (d : pyfloat) : pyfloat :=
  match x with
  | Some v => if ftrue v then v else d
  | None => d
  end.

(** An exception of the second half leaves the order cancelled. *)
Definition modify_order (now : Z) (id : string) (new_qty new_price : option pyfloat) (b : OrderBook) :
    OrderBook * pyres BookError (option nat) :=
  match dget (orders b) id with
  | None => (b, Ok None)
  | Some (k, s) =>
      let o := ob_heap b !!! k in
      if loses_priority new_qty new_price o then
        let b := (cancel_order id b).1 in
        let o' := new_order id (or_default new_price (price o)) (or_default new_qty (qty o))
                    (or_default new_qty (remaining_qty o)) now s (hidden_qty o)
                    (default (display_qty o) new_qty) (is_own o) (order_type o) (participant_id o) in
        match add_limit_order o' b with
        | Ok (b', _) => (b', Ok (Some (List.length (ob_heap b))))
        | Raise e => (b, Raise e)
        end
      else
        let b :=
          match new_qty with
          | None => b
          | Some q =>
              let delta := fsub (remaining_qty o) q in
              let b := set_heap (alter (fun o =>
                         set_quantities q (hidden_qty o) (fmax fzero (fsub (display_qty o) delta)) o) k (ob_heap b)) b in
              let key := side_key s (price o) in
              match sd_get (levels s b) key with
              | Some l => set_levels s (sd_set (levels s b) key
                            (set_totals (fsub (total_visible l) delta) (total_hidden l) l)) b
              | None => b
              end
          end in
        (next_sequence b, Ok (Some k))
  end.

Definition get_order (id : string) (b : OrderBook) : option LimitOrder :=
  (fun ks => ob_heap b !!! ks.1) <$> dget (orders b) id.

Definition get_queue_position (id : string) (b : OrderBook) : option Z := queue_position <$> get_order id b.

Definition contains_order (id : string) (b : OrderBook) : bool := bool_decide (is_Some (dget (orders b) id)).

(** *** Market orders *)

(** Filled makers leave the index of the book. *)
Definition drop_filled (b : OrderBook) (ts : list Trade) : OrderBook :=
  fold_left (fun b t =>
    match dget (orders b) (maker_order_id t) with
    | Some (k, _) =>
        if is_filled (ob_heap b !!! k)
        then set_index_of (ddel (orders b) (maker_order_id t)) (order_count b - 1) b else b
    | None => b
    end) ts b.

(** Deleting the keys of the levels that were emptied. *)
Definition drop_levels (s : Side) (keys : list pyfloat) (b : OrderBook) : OrderBook :=
  fold_left (fun b k => if sd_has (levels s b) k then set_levels s (sd_del (levels s b) k) b else b) keys b.

(** The loop over the keys of one side: a book, what is left to fill, the trades so
    far and the keys of emptied levels. *)
Record Walk := MkWalk {
  wk_book : OrderBook;
  wk_left : pyfloat;
  wk_trades : list Trade;
  wk_empty : list pyfloat
}.

Definition opposite (s : Side) : Side :=
  match s with
  | BUY => SELL
  | SELL => BUY
  end.

Definition market_step (clk : nat -> Z) (s : Side) (taker : option string) (own : bool) (w : Walk) (key : pyfloat) : Walk :=
  if not_positive (wk_left w) then w
  else
    let b := wk_book w in
    match sd_get (levels (opposite s) b) key with
    | None => w
    | Some l =>
        let '(h, l, filled, ts) := level_fill (fun i => clk (List.length (wk_trades w) + i)%nat) (wk_left w) (ob_heap b) l in
        let ts := map (tag_trade taker own s) ts in
        let b := set_levels (opposite s) (sd_set (levels (opposite s) b) key l) (set_heap h b) in
        MkWalk (drop_filled b ts) (fsub (wk_left w) filled) (wk_trades w ++ ts)
          (if level_empty l then wk_empty w ++ [key] else wk_empty w)
    end.

Definition execute_market_order (clk : nat -> Z) (s : Side) (q : pyfloat) (taker : option string) (own : bool)
    (b : OrderBook) : OrderBook * Fill :=
  let id := default ""%string taker in
  if not_positive q then (b, MkFill id fzero fzero [] q false)
  else
    let w := fold_left (market_step clk s taker own) (sd_items (levels (opposite s) b)).*1 (MkWalk b q [] []) in
    (next_sequence (drop_levels (opposite s) (wk_empty w) (wk_book w)), fill_from_trades id q (wk_trades w)).

(** *** Views *)

Definition depth_of (s : Side) (n : nat) (b : OrderBook) : list (pyfloat * pyfloat * Z) :=
  map (fun kl => (side_key s kl.1, total_visible kl.2, Z.of_nat (List.length (lv_orders kl.2))))
    (take n (sd_items (levels s b))).

Definition get_depth_with_orders (n : nat) (b : OrderBook) := (depth_of BUY n b, depth_of SELL n b).

Definition get_depth (n : nat) (b : OrderBook) : list (pyfloat * pyfloat) * list (pyfloat * pyfloat) :=
  (map fst (depth_of BUY n b), map fst (depth_of SELL n b)).

Definition get_levels (s : Side) (limit : nat) (b : OrderBook) : list PriceLevel :=
  take limit (sd_items (levels s b)).*2.

Definition walk_step (s : Side) (st : pyfloat * list (pyfloat * pyfloat) * pyfloat * pyfloat) (kl : pyfloat * PriceLevel) :
    pyfloat * list (pyfloat * pyfloat) * pyfloat * pyfloat :=
  let '(rest, fills, notional, filled) := st in
  if not_positive rest then st
  else
    let p := side_key (opposite s) kl.1 in
    let amount := fmin rest (level_total kl.2) in
    if positive amount
    then (fsub rest amount, fills ++ [(p, amount)], fadd notional (fmul p amount), fadd filled amount)
    else st.

Definition walk_book (s : Side) (q : pyfloat) (b : OrderBook) : pyfloat * pyfloat * list (pyfloat * pyfloat) :=
  if not_positive q then (fzero, fzero, [])
  else
    let '(_, fills, notional, filled) :=
      fold_left (walk_step s) (sd_items (levels (opposite s) b)) (q, [], fzero, fzero) in
    (if positive filled then fdiv notional filled else fzero, filled, fills).

Definition get_vwap (s : Side) (q : pyfloat) (b : OrderBook) : option pyfloat :=
  let '(avg, filled, _) := walk_book s q b in if fltb filled q then None else Some avg.

(** The levels up to the first one out of range. *)
Definition get_total_liquidity (s : Side) (range_bps : pyfloat) (b : OrderBook) : pyfloat :=
  match best s b with
  | None => fzero
  | Some p =>
      let r := fdiv range_bps (float_of_int 10000) in
      let one := float_of_int 1 in
      let out q :=
        match s with
        | BUY => fltb q (fmul p (fsub one r))
        | SELL => fltb (fmul p (fadd one r)) q
        end in
      (fold_left (fun '(total, go) kl =>
         if negb go || out (side_key s kl.1) then (total, false)
         else (fadd total (total_visible kl.2), true)) (sd_items (levels s b)) (fzero, true)).1
  end.

(** Orders of a side by price, then time. *)
Definition side_refs (s : Side) (b : OrderBook) : list nat :=
  concat (map (fun kl => lv_orders kl.2) (sd_items (levels s b))).

(** The first order is returned even when none was asked for. *)
Definition get_mbo_snapshot (s : Side) (n : nat) (b : OrderBook) : list LimitOrder :=
  map (fun k => ob_heap b !!! k) (take (Nat.max 1 n) (side_refs s b)).

(** *** The state as a whole *)

Definition clear (b : OrderBook) : OrderBook :=
  MkBook (symbol b) (tick_size b) (lot_size b) (enforce_tick_size b) (enforce_lot_size b) (auto_round_price b)
    (ob_heap b) sd_empty sd_empty [] 0 (sequence b + 1).

(** The clone has the default settings of the constructor for enforcement. *)
Definition clone_side (s : Side) (b b' : OrderBook) : OrderBook :=
  fold_left (fun b' kl =>
    let '(h, l) := level_clone (ob_heap b') kl.2 in
    let b' := set_levels s (sd_set (levels s b') kl.1 l) (set_heap h b') in
    set_index_of (fold_left (fun ix k => dset ix (order_id (h !!! k)) (k, s)) (lv_orders l) (orders b')) 0 b')
    (sd_items (levels s b)) b'.

Definition clone (b : OrderBook) : OrderBook :=
  let b0 := MkBook (symbol b) (tick_size b) (lot_size b) false false true (ob_heap b) sd_empty sd_empty [] 0 0 in
  let b' := clone_side SELL b (clone_side BUY b b0) in
  MkBook (symbol b') (tick_size b') (lot_size b') (enforce_tick_size b') (enforce_lot_size b') (auto_round_price b')
    (ob_heap b') (bids b') (asks b') (orders b') (order_count b) (sequence b).

(** [swap]: the settings stay, the heap goes with the orders. *)
Definition swap (b c : OrderBook) : OrderBook * OrderBook :=
  let take_from x y :=
    MkBook (symbol x) (tick_size x) (lot_size x) (enforce_tick_size x) (enforce_lot_size x) (auto_round_price x)
      (ob_heap y) (bids y) (asks y) (orders y) (order_count y) (sequence y) in
  (take_from b c, take_from c b).
End Book.
