(* ===== verification/LobProps.v ===== *)
(** * What the order book keeps

    The invariant of a book whose orders have whole, positive quantities: levels in the
    order of their prices, none empty, every order queued once, under its price, and
    found by its id, with its queue position.  It is kept by the operations of [Lob].
    [Matching] and [MatchingProps] build on the lemmas of this file. *)
From Stdlib Require Import SpecFloat Sorted.
From Stdlib Require Import Ascii String.
From S2P Require Import Prelude PyDecimal DecArith PyFormat PyFloat PyText FloatInt Lob.
Open Scope Z_scope.
Open Scope list_scope.

Lemma other_side s s' : s' <> s -> s' = opposite s.
Proof. by destruct s, s'. Qed.

Lemma opposite_ne s : opposite s <> s.
Proof. by destruct s. Qed.

Lemma opposite_twice s : opposite (opposite s) = s.
Proof. by destruct s. Qed.

(** ** Items of a sorted dictionary *)

Section Items.
Context {V : Type}.
Implicit Types (l : list (pyfloat * V)) (k : pyfloat) (v : V).

(** Keys are numbers and increase. *)
Fixpoint sorted_items l : Prop :=
  match l with
  | [] => True
  | (k, _) :: r => is_num k = true /\ Forall (fun kv => fltb k kv.1 = true) r /\ sorted_items r
  end.

Lemma sorted_app u w :
  sorted_items (u ++ w) <->
  sorted_items u /\ sorted_items w /\ Forall (fun a => Forall (fun b => fltb a.1 b.1 = true) w) u.
Proof.
  induction u as [|[k v] u IH]; cbn; [split; [intros ?; split_and!; by try constructor|tauto]|].
  rewrite IH, Forall_app, Forall_cons. cbn. tauto.
Qed.

Lemma feqb_lt k k' : fltb k k' = true -> feqb k k' = false /\ feqb k' k = false.
Proof.
  intros H. destruct (fltb_num _ _ H) as [Hk Hk']. rewrite fltb_fleb in H by done.
  apply negb_true_iff in H. rewrite !feqb_fleb by done. rewrite H. split; [apply andb_false_r|done].
Qed.

Lemma feqb_refl k : is_num k = true -> feqb k k = true.
Proof. intros Hk. by rewrite feqb_fleb, fleb_refl. Qed.

Lemma feqb_sym k k' : feqb k k' = feqb k' k.
Proof.
  destruct (is_num k) eqn:Hk; [|by destruct k, k' as [[]|[]| |[] ? ?]].
  destruct (is_num k') eqn:Hk'; [|by destruct k', k as [[]|[]| |[] ? ?]].
  rewrite !feqb_fleb by done. apply andb_comm.
Qed.

(** An equal number is in the same place of the order. *)
Lemma fltb_feqb_l k k' x : is_num k = true -> is_num k' = true -> feqb k k' = true -> fltb k x = fltb k' x.
Proof.
  intros Hk Hk' E. rewrite feqb_fleb in E by done. apply andb_prop in E as [E1 E2].
  apply eq_true_iff_eq. split; intros H; destruct (fltb_num _ _ H) as [_ Hx].
  - by apply (fleb_fltb_trans _ k).
  - by apply (fleb_fltb_trans _ k').
Qed.

Lemma fltb_feqb_r k k' x : is_num k = true -> is_num k' = true -> feqb k k' = true -> fltb x k = fltb x k'.
Proof.
  intros Hk Hk' E. rewrite feqb_fleb in E by done. apply andb_prop in E as [E1 E2].
  apply eq_true_iff_eq. split; intros H; destruct (fltb_num _ _ H) as [Hx _].
  - by apply (fltb_fleb_trans _ k).
  - by apply (fltb_fleb_trans _ k').
Qed.

(** Neither smaller nor equal is greater. *)
Lemma fltb_trichotomy k k' :
  is_num k = true -> is_num k' = true -> feqb k' k = false -> fltb k k' = false -> fltb k' k = true.
Proof.
  intros Hk Hk' E H. rewrite fltb_fleb in * by done. rewrite feqb_fleb in E by done.
  apply negb_false_iff in H. rewrite H in E. cbn in E. by rewrite E.
Qed.

(** Looking a key up splits the items around it. *)
Lemma items_set_spec k v l :
  is_num k = true -> sorted_items l ->
  (exists u k' v0 w, l = u ++ (k', v0) :: w /\ feqb k' k = true /\ items_set k v l = u ++ (k', v) :: w /\
     snd <$> List.find (fun kv => feqb kv.1 k) l = Some v0 /\ items_del k l = u ++ w) \/
  (exists u w, l = u ++ w /\ items_set k v l = u ++ (k, v) :: w /\ sorted_items (u ++ (k, v) :: w) /\
     snd <$> List.find (fun kv => feqb kv.1 k) l = None).
Proof.
  intros Hk. induction l as [|[k0 v0] l IH]; intros Hs.
  - right. exists [], []. cbn. by split_and!; try constructor.
  - destruct Hs as (Hk0 & Hlt & Hs). cbn [items_set List.find fst snd].
    destruct (feqb k0 k) eqn:E.
    { left. exists [], k0, v0, l. split_and!; try done. cbn. unfold items_del. cbn [List.filter fst]. rewrite E. cbn.
      clear IH. induction Hlt as [|[k1 v1] l Hk1 _ IHl]; [done|]. destruct Hs as (Hn1 & Hl1 & Hs). cbn [List.filter fst] in *.
      rewrite (fltb_feqb_l k0 k) in Hk1 by done. destruct (feqb_lt _ _ Hk1) as [_ ->]. cbn. f_equal. by apply IHl. }
    destruct (fltb k k0) eqn:E'.
    + right. exists [], ((k0, v0) :: l). split_and!; [done|done| |].
      * cbn. split_and!; try done. constructor; [done|].
        eapply Forall_impl; [exact Hlt|]. intros kv Hkv. by apply (fltb_trans _ k0).
      * cbn. clear IH. induction Hlt as [|[k1 v1] l Hk1 _ IHl]; [done|].
        destruct Hs as (Hn1 & Hl1 & Hs). cbn [List.find fst] in *.
        destruct (feqb_lt _ _ (fltb_trans _ _ _ E' Hk1)) as [_ ->]. by apply IHl.
    + pose proof (fltb_trichotomy k k0 Hk Hk0 E E') as Hgt.
      destruct (IH Hs) as [(u & k' & v' & w & -> & E1 & E2 & E3 & E4)|(u & w & -> & E1 & E2 & E3)].
      * left. exists ((k0, v0) :: u), k', v', w. split_and!; try done; [by rewrite E2|].
        unfold items_del in *. cbn [List.filter fst]. by rewrite E, E4.
      * right. exists ((k0, v0) :: u), w. split_and!; try done; [by rewrite E1|].
        cbn [app sorted_items]. split; [done|]. split; [|done].
        rewrite Forall_app in *. split; [tauto|]. constructor; [done|tauto].
Qed.

(** The item under an equal key. *)
Lemma items_mid u k v w k' v' :
  sorted_items (u ++ (k, v) :: w) -> is_num k' = true -> feqb k k' = true ->
  snd <$> List.find (fun kv => feqb kv.1 k') (u ++ (k, v) :: w) = Some v /\
  items_set k' v' (u ++ (k, v) :: w) = u ++ (k, v') :: w /\ items_del k' (u ++ (k, v) :: w) = u ++ w.
Proof.
  intros Hs Hk' E. pose proof Hs as (_ & (Hk & Hw & _) & _)%sorted_app.
  induction u as [|[k0 v0] u IH]; cbn [app List.find items_set fst snd].
  - rewrite E. split_and!; try done. unfold items_del. cbn [List.filter fst]. rewrite E. cbn [negb]. clear Hs.
    induction Hw as [|[k1 v1] w Hk1 _ IHw]; [done|]. cbn [List.filter fst] in *.
    rewrite (fltb_feqb_l k k') in Hk1 by done. destruct (feqb_lt _ _ Hk1) as [_ ->]. cbn. f_equal. done.
  - destruct Hs as (Hk0 & Hlt & Hs). rewrite Forall_app in Hlt. destruct Hlt as [_ Hlt].
    apply Forall_cons in Hlt as [Hlt _]. cbn [fst] in Hlt. rewrite (fltb_feqb_r k k') in Hlt by done.
    destruct (feqb_lt _ _ Hlt) as [E0 _]. rewrite E0.
    assert (fltb k' k0 = false) as ->.
    { rewrite fltb_fleb by done. by rewrite (fltb_le _ _ Hlt). }
    destruct (IH Hs) as (H1 & H2 & H3). split_and!; [done|by rewrite H2|].
    unfold items_del in *. cbn [List.filter fst]. by rewrite E0, H3.
Qed.
End Items.

(** ** Orders *)

(** Everything but the quantities and the queue position. *)
Definition static (o : LimitOrder) : LimitOrder := set_position 0 (set_original fzero (set_quantities fzero fzero fzero o)).

Lemma static_fields o o' :
  static o = static o' ->
  order_id o = order_id o' /\ price o = price o' /\ side o = side o' /\ is_own o = is_own o' /\
  participant_id o = participant_id o'.
Proof. destruct o, o'. cbn. by intros [= -> -> -> -> -> -> -> ->]. Qed.

(** The whole quantity left of an order. *)
Definition lots (o : LimitOrder) : Z := default 0 (float_to_int (remaining_qty o)).

Definition has_lots (o : LimitOrder) (n : Z) : Prop := 0 < n < 2 ^ 53 /\ remaining_qty o = float_of_int n.

Lemma small_pos n : 0 <= n < 2 ^ 53 -> small n.
Proof. unfold small. lia. Qed.
#[export] Hint Resolve small_pos : core.

Lemma has_lots_lots o n : has_lots o n -> lots o = n.
Proof. intros [Hn E]. unfold lots. rewrite E, float_to_int_int by (apply small_pos; lia). done. Qed.

Lemma positive_int n : 0 <= n < 2 ^ 53 -> positive (float_of_int n) = (0 <? n).
Proof. intros Hn. unfold positive. change fzero with (float_of_int 0). by rewrite fltb_int by (apply small_pos; lia). Qed.

Lemma not_positive_int n : 0 <= n < 2 ^ 53 -> not_positive (float_of_int n) = (n =? 0).
Proof.
  intros Hn. unfold not_positive. change fzero with (float_of_int 0). rewrite fleb_int by (apply small_pos; lia). lia.
Qed.

Lemma fill_spec o n a :
  has_lots o n -> 0 < a <= n ->
  let '(o', filled) := fill (float_of_int a) o in
  remaining_qty o' = float_of_int (n - a) /\ filled = float_of_int a /\ static o' = static o /\
  queue_position o' = queue_position o.
Proof.
  intros [Hn E] Ha. unfold fill. rewrite E, fmin_int by (apply small_pos; lia).
  rewrite Z.min_l by lia. rewrite not_positive_int by lia. rewrite (proj2 (Z.eqb_neq a 0)) by lia.
  rewrite fsub_int by (apply small_pos; lia).
  destruct (order_type o); cbn; try done. by destruct (feqb _ _ && positive _).
Qed.

Lemma is_filled_int o n : 0 <= n < 2 ^ 53 -> remaining_qty o = float_of_int n -> is_filled o = (n =? 0).
Proof. intros Hn E. unfold is_filled. by rewrite E, not_positive_int. Qed.

(** ** Queue positions *)

Lemma heap_insert (h : order_heap) k o j : (k < List.length h)%nat -> (<[k := o]> h) !!! j = if decide (j = k) then o else h !!! j.
Proof.
  intros Hk. destruct (decide (j = k)) as [->|Hne].
  - apply list_lookup_total_insert_eq. done.
  - apply list_lookup_total_insert_ne. done.
Qed.

Lemma heap_alter (h : order_heap) k f j :
  (k < List.length h)%nat -> (alter f k h) !!! j = if decide (j = k) then f (h !!! j) else h !!! j.
Proof.
  intros Hk. destruct (decide (j = k)) as [->|Hne].
  - rewrite !list_lookup_total_alt, list_lookup_alter_eq. apply lookup_lt_is_Some in Hk as [o E]. by rewrite E.
  - by rewrite !list_lookup_total_alt, list_lookup_alter_ne by done.
Qed.

Definition refs_in (h : order_heap) (ks : list nat) : Prop := Forall (fun k => (k < List.length h)%nat) ks.

Lemma recompute_from h ks i0 :
  NoDup ks -> refs_in h ks ->
  let h' := snd (fold_left (fun '(i, h) k => (i + 1, alter (set_position i) k h)) ks (i0, h)) in
  List.length h' = List.length h /\ (forall k, k ∉ ks -> h' !!! k = h !!! k) /\
  (forall i k, ks !! i = Some k -> h' !!! k = set_position (i0 + Z.of_nat i) (h !!! k)).
Proof.
  unfold refs_in. intros Hnd. revert h i0. induction Hnd as [|k ks Hk Hnd IH]; intros h i0 Hin.
  - split_and!; [done|done|by intros i k].
  - apply Forall_cons in Hin as [Hkh Hin]. cbn [fold_left].
    destruct (IH (alter (set_position i0) k h) (i0 + 1)) as (H1 & H2 & H3); [by rewrite length_alter|].
    rewrite length_alter in H1. split_and!; [done| |].
    + intros j Hj. apply not_elem_of_cons in Hj as [Hne Hj]. rewrite H2, heap_alter by done. by rewrite decide_False.
    + intros [|i] j; cbn [lookup list_lookup].
      * intros [= ->]. rewrite H2, heap_alter by done. rewrite decide_True by done. by rewrite Z.add_0_r.
      * intros Hj. rewrite (H3 i j Hj), heap_alter by done. rewrite decide_False.
        { f_equal. lia. }
        intros ->. apply Hk. by eapply list_elem_of_lookup_2.
Qed.

(** [recompute_positions] numbers the queue and changes nothing else. *)
Lemma recompute_spec h ks :
  NoDup ks -> refs_in h ks ->
  let h' := recompute_positions h ks in
  List.length h' = List.length h /\ (forall k, k ∉ ks -> h' !!! k = h !!! k) /\
  (forall i k, ks !! i = Some k -> h' !!! k = set_position (Z.of_nat i) (h !!! k)).
Proof. apply recompute_from. Qed.

Lemma recompute_static h ks k :
  NoDup ks -> refs_in h ks ->
  static (recompute_positions h ks !!! k) = static (h !!! k) /\
  remaining_qty (recompute_positions h ks !!! k) = remaining_qty (h !!! k) /\
  hidden_qty (recompute_positions h ks !!! k) = hidden_qty (h !!! k) /\
  display_qty (recompute_positions h ks !!! k) = display_qty (h !!! k).
Proof.
  intros Hnd Hin. destruct (recompute_spec h ks Hnd Hin) as (_ & H2 & H3).
  destruct (decide (k ∈ ks)) as [Hk|Hk]; [|by rewrite H2].
  apply list_elem_of_lookup_1 in Hk as [i Hi]. by rewrite (H3 i k Hi).
Qed.

(** ** Levels *)

Definition order_ok (s : Side) (key : pyfloat) (o : LimitOrder) : Prop :=
  side o = s /\ is_num (price o) = true /\ feqb key (side_key s (price o)) = true /\ exists n, has_lots o n.

Record level_ok (s : Side) (key : pyfloat) (h : order_heap) (l : PriceLevel) : Prop := {
  lo_nodup : NoDup (lv_orders l);
  lo_refs : refs_in h (lv_orders l);
  lo_orders : Forall (fun k => order_ok s key (h !!! k)) (lv_orders l);
  lo_index : forall id k, dget (lv_index l) id = Some k <-> k ∈ lv_orders l /\ order_id (h !!! k) = id;
  lo_positions : forall i k, lv_orders l !! i = Some k -> queue_position (h !!! k) = Z.of_nat i
}.

Lemma order_ok_static s key o o' :
  static o = static o' -> remaining_qty o = remaining_qty o' -> order_ok s key o -> order_ok s key o'.
Proof.
  intros Hs Hr (H1 & H2 & H3 & n & H4 & H5). destruct (static_fields _ _ Hs) as (E1 & E2 & E3 & _).
  unfold order_ok, has_lots. rewrite <- E2, <- E3, <- Hr. split_and!; try done. by exists n.
Qed.

(** Other orders of the heap do not matter. *)
Lemma level_ok_frame s key h h' l :
  (List.length h <= List.length h')%nat -> (forall k, k ∈ lv_orders l -> h' !!! k = h !!! k) ->
  level_ok s key h l -> level_ok s key h' l.
Proof.
  intros Hlen Hf [H1 H2 H3 H4 H5]. split.
  - done.
  - eapply Forall_impl; [exact H2|]. cbn beta. lia.
  - apply Forall_forall. intros k Hk. rewrite Hf by done. rewrite Forall_forall in H3. by apply H3.
  - intros id k. rewrite H4. split; intros [Hk E]; split; try done; [by rewrite Hf|by rewrite <- Hf].
  - intros i k Hk. rewrite Hf by (by eapply list_elem_of_lookup_2). by apply H5.
Qed.

(** An id names one order of the level. *)
Lemma level_unique s key h l k k' :
  level_ok s key h l -> k ∈ lv_orders l -> k' ∈ lv_orders l -> order_id (h !!! k) = order_id (h !!! k') -> k = k'.
Proof.
  intros Hl Hk Hk' E.
  assert (dget (lv_index l) (order_id (h !!! k)) = Some k) as E1 by (by apply (lo_index _ _ _ _ Hl)).
  assert (dget (lv_index l) (order_id (h !!! k)) = Some k') as E2 by (by apply (lo_index _ _ _ _ Hl)).
  congruence.
Qed.

Lemma new_level_ok s key h p : level_ok s key h (new_level p).
Proof. split; cbn; try constructor; [done|by intros [Hk%elem_of_nil _]|by intros i k]. Qed.

Lemma level_add_ok s key h k l :
  level_ok s key h l -> (k < List.length h)%nat -> order_ok s key (h !!! k) ->
  k ∉ lv_orders l -> (forall j, j ∈ lv_orders l -> order_id (h !!! j) <> order_id (h !!! k)) ->
  let '(h', l', pos) := level_add h k l in
  level_ok s key h' l' /\ lv_orders l' = lv_orders l ++ [k] /\ pos = Z.of_nat (List.length (lv_orders l)) /\
  h' = alter (set_position pos) k h /\ lv_price l' = lv_price l.
Proof.
  intros [H1 H2 H3 H4 H5] Hk Hok Hnew Hid. unfold level_add. cbn zeta.
  set (pos := Z.of_nat _). set (h' := alter (set_position pos) k h).
  assert (forall j, h' !!! j = if decide (j = k) then set_position pos (h !!! j) else h !!! j) as Hh
    by (intros j; by apply heap_alter).
  assert (forall j, j ∈ lv_orders l -> h' !!! j = h !!! j) as Hsame.
  { intros j Hj. rewrite Hh, decide_False; [done|]. by intros ->. }
  split; [|done]. split; cbn [lv_orders lv_index].
  - apply NoDup_app. split_and!; [done| |by apply NoDup_singleton]. by intros j Hj ->%list_elem_of_singleton.
  - unfold refs_in, h'. rewrite length_alter. apply Forall_app. split; [done|by apply Forall_singleton].
  - apply Forall_app. split.
    + apply Forall_forall. intros j Hj. rewrite Hsame by done. rewrite Forall_forall in H3. by apply H3.
    + apply Forall_singleton. rewrite Hh, decide_True by done. by apply (order_ok_static s key (h !!! k)).
  - assert (order_id (h' !!! k) = order_id (h !!! k)) as Hidk by (by rewrite Hh, decide_True).
    assert (forall j, order_id (h' !!! j) = order_id (h !!! j)) as Hids
      by (intros j; rewrite Hh; by destruct (decide (j = k))).
    intros id j. rewrite !Hids, elem_of_app, list_elem_of_singleton.
    destruct (decide (id = order_id (h !!! k))) as [->|Hne].
    + rewrite dget_dset_eq. split; [intros [= ->]; auto|]. intros [[Hj|<-] E]; [|done]. by destruct (Hid j Hj).
    + rewrite dget_dset_ne, H4 by done. split; [tauto|]. intros [[Hj|<-] E]; done.
  - intros i j. intros [Hj|[Hge Hj]]%lookup_app_Some.
    + rewrite Hsame by (by eapply list_elem_of_lookup_2). by apply H5.
    + apply list_lookup_singleton_Some in Hj as [Hi <-]. rewrite Hh, decide_True by done. cbn. unfold pos. lia.
Qed.

Lemma remove_first_elem k ks j : NoDup ks -> j ∈ remove_first k ks <-> j ∈ ks /\ j <> k.
Proof.
  induction 1 as [|i ks Hi Hnd IH]; cbn; [by split; [intros ?%elem_of_nil|intros [?%elem_of_nil _]]|].
  destruct (decide (i = k)) as [->|Hne].
  - split; [|by intros [[->|Hj]%elem_of_cons Hne]]. intros Hj. split; [by right|]. by intros ->.
  - rewrite !elem_of_cons, IH. split; [intros [->|[Hj Hne']]; auto|intros [[->|Hj] Hne']; auto].
Qed.

Lemma remove_first_nodup k ks : NoDup ks -> NoDup (remove_first k ks).
Proof.
  induction 1 as [|i ks Hi Hnd IH]; cbn; [constructor|]. destruct (decide (i = k)); [done|].
  constructor; [|done]. rewrite remove_first_elem by done. by intros [? _].
Qed.

(** The level without the orders themselves: the queue, its index and its numbering. *)
Record level_struct (h : order_heap) (l : PriceLevel) : Prop := {
  ls_nodup : NoDup (lv_orders l);
  ls_refs : refs_in h (lv_orders l);
  ls_index : forall id k, dget (lv_index l) id = Some k <-> k ∈ lv_orders l /\ order_id (h !!! k) = id;
  ls_positions : forall i k, lv_orders l !! i = Some k -> queue_position (h !!! k) = Z.of_nat i
}.

Lemma level_ok_struct s key h l :
  level_ok s key h l <-> level_struct h l /\ Forall (fun k => order_ok s key (h !!! k)) (lv_orders l).
Proof. split; [intros [? ? ? ? ?]; by split|intros [[? ? ? ?] ?]; by split]. Qed.

(** A queue that lost some of its orders, numbered again. *)
Lemma struct_shrink h l ks ix p v hd :
  level_struct h l -> NoDup ks -> (forall k, k ∈ ks -> k ∈ lv_orders l) ->
  (forall id k, dget ix id = Some k <-> k ∈ ks /\ order_id (h !!! k) = id) ->
  level_struct (recompute_positions h ks) (MkLevel p ks v hd ix).
Proof.
  intros [H1 H2 H4 H5] Hnd Hsub Hix.
  assert (refs_in h ks) as Hin.
  { apply Forall_forall. intros k Hk. unfold refs_in in H2. rewrite Forall_forall in H2. by apply H2, Hsub. }
  destruct (recompute_spec h ks Hnd Hin) as (Hlen & Hout & Hpos).
  split; cbn [lv_orders lv_index].
  - done.
  - unfold refs_in. by rewrite Hlen.
  - intros id k. rewrite Hix. destruct (recompute_static h ks k Hnd Hin) as (Hs & _).
    by destruct (static_fields _ _ Hs) as (-> & _).
  - intros i k Hk. by rewrite (Hpos i k Hk).
Qed.

Lemma struct_unique h l k k' :
  level_struct h l -> k ∈ lv_orders l -> k' ∈ lv_orders l -> order_id (h !!! k) = order_id (h !!! k') -> k = k'.
Proof.
  intros Hl Hk Hk' E.
  assert (dget (lv_index l) (order_id (h !!! k)) = Some k) as E1 by (by apply (ls_index _ _ Hl)).
  assert (dget (lv_index l) (order_id (h !!! k)) = Some k') as E2 by (by apply (ls_index _ _ Hl)).
  congruence.
Qed.

Lemma struct_remove h l k :
  level_struct h l -> k ∈ lv_orders l ->
  let '(h', l', r) := level_remove h (order_id (h !!! k)) l in
  level_struct h' l' /\ r = Some k /\ lv_orders l' = remove_first k (lv_orders l) /\
  h' = recompute_positions h (remove_first k (lv_orders l)) /\ lv_price l' = lv_price l.
Proof.
  intros Hl Hk. pose proof Hl as [H1 H2 H4 H5]. unfold level_remove.
  rewrite (proj2 (H4 (order_id (h !!! k)) k)) by done.
  cbn [set_index lv_orders]. rewrite bool_decide_true by done. cbn [minus_order set_totals set_orders set_index lv_orders].
  split_and!; [|done..].
  apply (struct_shrink h l (remove_first k (lv_orders l)) (ddel (lv_index l) (order_id (h !!! k)))); [done|by apply remove_first_nodup| |].
  - intros j. rewrite remove_first_elem by done. tauto.
  - intros id j. cbn [lv_index]. rewrite remove_first_elem by done.
    destruct (decide (id = order_id (h !!! k))) as [->|Hne].
    + rewrite dget_ddel_eq. split; [done|]. intros [[Hj Hne] E]. exfalso. apply Hne. by eapply struct_unique.
    + rewrite dget_ddel_ne by done. rewrite H4. split; [|tauto]. intros [Hj E]. split_and!; [done| |done].
      intros ->. by apply Hne.
Qed.

Lemma sub_refs h ks ks' : refs_in h ks -> (forall k, k ∈ ks' -> k ∈ ks) -> refs_in h ks'.
Proof. unfold refs_in. rewrite !Forall_forall. eauto. Qed.

Lemma level_remove_ok s key h l k :
  level_ok s key h l -> k ∈ lv_orders l ->
  let '(h', l', r) := level_remove h (order_id (h !!! k)) l in
  level_ok s key h' l' /\ r = Some k /\ lv_orders l' = remove_first k (lv_orders l) /\
  h' = recompute_positions h (remove_first k (lv_orders l)) /\ lv_price l' = lv_price l.
Proof.
  intros [Hl Hok]%level_ok_struct Hk. pose proof (struct_remove h l k Hl Hk) as Hr.
  destruct (level_remove _ _ _) as [[h' l'] r]. destruct Hr as (Hl' & -> & Ho & Hh & Hp). split_and!; try done.
  apply level_ok_struct. split; [done|]. rewrite Ho, Hh. apply Forall_forall. intros j Hj.
  pose proof Hl as [H1 H2 _ _]. pose proof Hj as [Hj' _]%remove_first_elem; [|done].
  destruct (recompute_static h (remove_first k (lv_orders l)) j) as (Hs & Hr & _).
  - by apply remove_first_nodup.
  - eapply sub_refs; [exact H2|]. intros i. rewrite remove_first_elem by done. tauto.
  - apply (order_ok_static s key (h !!! j)); [done|done|]. rewrite Forall_forall in Hok. by apply Hok.
Qed.

(** ** The book *)

Section BookProps.
Context `{SortedDictLaws}.
Implicit Types (b : OrderBook) (s : Side).

Abbreviation items s b := (sd_items (levels s b)).

(** A level is of the price it is filed under.  Levels are not empty, except for those
    that a market order has emptied ([e]) and takes out at its end. *)
Definition level_live (e : bool) s (key : pyfloat) (l : PriceLevel) : Prop :=
  (e = false -> lv_orders l <> []) /\ lv_price l = side_key s key.

Record side_ok (e : bool) s b : Prop := {
  so_sorted : sorted_items (items s b);
  so_levels : forall key l, (key, l) ∈ items s b -> level_ok s key (ob_heap b) l /\ level_live e s key l
}.

Record book_in (e : bool) b : Prop := {
  bo_sides : forall s, side_ok e s b;
  bo_index : forall id k s, dget (orders b) id = Some (k, s) <-> k ∈ side_refs s b /\ order_id (ob_heap b !!! k) = id;
  bo_count : order_count b = Z.of_nat (List.length (side_refs BUY b)) + Z.of_nat (List.length (side_refs SELL b))
}.

Abbreviation book_ok := (book_in false).

Definition refs_of (l : list (pyfloat * PriceLevel)) : list nat := concat (map (fun kl => lv_orders kl.2) l).

Lemma refs_of_app l l' : refs_of (l ++ l') = refs_of l ++ refs_of l'.
Proof. unfold refs_of. by rewrite map_app, concat_app. Qed.

Lemma refs_single key l : refs_of [(key, l)] = lv_orders l.
Proof. unfold refs_of. cbn. apply app_nil_r. Qed.

Lemma elem_refs_of k l : k ∈ refs_of l <-> exists key lv, (key, lv) ∈ l /\ k ∈ lv_orders lv.
Proof.
  induction l as [|[key lv] l IH].
  - split; [intros ?%elem_of_nil; done|]. by intros (? & ? & ?%elem_of_nil & _).
  - unfold refs_of in *. cbn [map concat]. rewrite elem_of_app, IH. split.
    + intros [Hk|(key' & lv' & Hin & Hk)]; [exists key, lv; split; [by left|done]|].
      exists key', lv'. split; [by right|done].
    + intros (key' & lv' & [[= -> ->]|Hin]%elem_of_cons & Hk); [by left|right; eauto].
Qed.

(** An order is under the key of one level. *)
Lemma level_disjoint s u w key l key' l' h k :
  sorted_items (u ++ (key, l) :: w) -> level_ok s key h l -> level_ok s key' h l' -> (key', l') ∈ u ++ w ->
  k ∈ lv_orders l -> k ∉ lv_orders l'.
Proof.
  intros Hs Hl Hl' Hin Hk Hk'.
  pose proof (lo_orders _ _ _ _ Hl) as Ho. pose proof (lo_orders _ _ _ _ Hl') as Ho'.
  rewrite Forall_forall in Ho, Ho'. destruct (Ho k Hk) as (_ & Hp & E & _), (Ho' k Hk') as (_ & _ & E' & _).
  apply sorted_app in Hs as (_ & (Hn & Hw & _) & Hu).
  assert (forall p, is_num p = true -> is_num (side_key s p) = true) as Hnum by (by destruct s; intros p; cbn; rewrite ?is_num_opp).
  assert (fltb key key' = true \/ fltb key' key = true) as Hlt.
  { apply elem_of_app in Hin as [Hin|Hin].
    - right. rewrite Forall_forall in Hu. specialize (Hu _ Hin). by apply Forall_cons in Hu as [Hu _].
    - left. rewrite Forall_forall in Hw. exact (Hw _ Hin). }
  assert (is_num key' = true) as Hn' by (destruct Hlt as [Hlt|Hlt]; by apply fltb_num in Hlt as [? ?]).
  specialize (Hnum _ Hp). rewrite feqb_sym in E. rewrite feqb_sym in E'.
  destruct Hlt as [Hlt|Hlt].
  - rewrite <- (fltb_feqb_l (side_key s (price (h !!! k))) key) in Hlt by done.
    destruct (feqb_lt _ _ Hlt). congruence.
  - rewrite <- (fltb_feqb_r (side_key s (price (h !!! k))) key) in Hlt by done.
    destruct (feqb_lt _ _ Hlt). congruence.
Qed.

(** A change of some levels of one side. *)
Lemma change_ok e b b' s u mid mid' w :
  book_in e b -> items s b = u ++ mid ++ w -> items s b' = u ++ mid' ++ w ->
  items (opposite s) b' = items (opposite s) b -> sorted_items (u ++ mid' ++ w) ->
  (List.length (ob_heap b) <= List.length (ob_heap b'))%nat ->
  (forall k, k ∉ refs_of mid -> (k < List.length (ob_heap b))%nat -> ob_heap b' !!! k = ob_heap b !!! k) ->
  (forall key l, (key, l) ∈ mid' -> level_ok s key (ob_heap b') l /\ level_live e s key l) ->
  (forall s, side_ok e s b').
Proof.
  intros Hb Hi Hi' Ho Hs Hlen Hf Hmid. pose proof (bo_sides _ _ Hb) as Hsides.
  assert (forall key l, (key, l) ∈ u ++ w -> level_ok s key (ob_heap b') l /\ level_live e s key l) as Huw.
  { intros key l Hin.
    assert ((key, l) ∈ items s b) as Hin'.
    { rewrite Hi. apply elem_of_app in Hin as [Hin|Hin]; rewrite !elem_of_app; auto. }
    destruct (so_levels _ _ _ (Hsides s) key l Hin') as [Hl Hne]. split; [|done].
    apply (level_ok_frame s key (ob_heap b)); [done| |done]. intros k Hk.
    pose proof (lo_refs _ _ _ _ Hl) as Hr. unfold refs_in in Hr. rewrite Forall_forall in Hr.
    apply Hf; [|by apply Hr]. intros (key' & l' & Hin2 & Hk')%elem_refs_of.
    assert ((key', l') ∈ items s b) as Hin2' by (rewrite Hi, !elem_of_app; auto).
    destruct (so_levels _ _ _ (Hsides s) key' l' Hin2') as [Hl' _].
    pose proof (so_sorted _ _ _ (Hsides s)) as Hsort.
    apply list_elem_of_split in Hin2 as (m1 & m2 & Em).
    rewrite Hi, Em in Hsort. rewrite <- !app_assoc in Hsort. rewrite (app_assoc u) in Hsort.
    apply (level_disjoint s (u ++ m1) (m2 ++ w) key' l' key l (ob_heap b) k Hsort Hl' Hl); [|done|done].
    apply elem_of_app in Hin as [Hin|Hin]; rewrite !elem_of_app; auto. }
  intros s0. destruct (decide (s0 = s)) as [->|Hne].
  - split; [by rewrite Hi'|]. intros key l. rewrite Hi', !elem_of_app. intros [Hin|[Hin|Hin]].
    + apply Huw. rewrite elem_of_app. auto.
    + by apply Hmid.
    + apply Huw. rewrite elem_of_app. auto.
  - assert (s0 = opposite s) as -> by (by apply other_side). split; [rewrite Ho; apply (so_sorted _ _ _ (Hsides _))|].
    intros key l. rewrite Ho. intros Hin. destruct (so_levels _ _ _ (Hsides (opposite s)) key l Hin) as [Hl Hne'].
    split; [|done]. apply (level_ok_frame _ key (ob_heap b)); [done| |done]. intros k Hk.
    pose proof (lo_refs _ _ _ _ Hl) as Hr. unfold refs_in in Hr. rewrite Forall_forall in Hr.
    apply Hf; [|by apply Hr]. intros (key' & l' & Hin2 & Hk')%elem_refs_of.
    assert ((key', l') ∈ items s b) as Hin2' by (rewrite Hi, !elem_of_app; auto).
    destruct (so_levels _ _ _ (Hsides s) key' l' Hin2') as [Hl' _].
    pose proof (lo_orders _ _ _ _ Hl) as Hol. pose proof (lo_orders _ _ _ _ Hl') as Hol'.
    rewrite Forall_forall in Hol, Hol'. destruct (Hol k Hk) as (E1 & _), (Hol' k Hk') as (E2 & _).
    rewrite E1 in E2. by destruct (opposite_ne s).
Qed.

Lemma num_key s p : is_num p = true -> is_num (side_key s p) = true.
Proof. destruct s; cbn; rewrite ?is_num_opp; done. Qed.

Lemma side_key_twice s p : side_key s (side_key s p) = p.
Proof. destruct s; [apply opp_opp|done]. Qed.

Lemma set_levels_items s d b : items s (set_levels s d b) = sd_items d /\ items (opposite s) (set_levels s d b) = items (opposite s) b.
Proof. by destruct s. Qed.

(** The level of an order of the book. *)
Lemma order_level e b id k s :
  book_in e b -> dget (orders b) id = Some (k, s) ->
  exists u key l w, items s b = u ++ (key, l) :: w /\ k ∈ lv_orders l /\ level_ok s key (ob_heap b) l /\
    order_id (ob_heap b !!! k) = id /\ order_ok s key (ob_heap b !!! k).
Proof.
  intros Hb Hd. apply (bo_index _ _ Hb) in Hd as [Hk Hid].
  apply elem_refs_of in Hk as (key & l & Hin & Hk).
  destruct (so_levels _ _ _ (bo_sides _ _ Hb s) key l Hin) as [Hl _].
  apply list_elem_of_split in Hin as (u & w & E). exists u, key, l, w. split_and!; try done.
  pose proof (lo_orders _ _ _ _ Hl) as Ho. rewrite Forall_forall in Ho. by apply Ho.
Qed.

Lemma order_key s key o : order_ok s key o -> is_num (side_key s (price o)) = true /\ feqb key (side_key s (price o)) = true.
Proof. intros (_ & Hp & E & _). split; [by apply num_key|done]. Qed.

Lemma length_remove_first k ks : k ∈ ks -> S (List.length (remove_first k ks)) = List.length ks.
Proof.
  induction ks as [|j ks IH]; [by intros ?%elem_of_nil|]. cbn. destruct (decide (j = k)); [done|].
  intros [->|Hk]%elem_of_cons; [done|]. cbn. by rewrite IH.
Qed.

(** The orders that are not of a level. *)
Lemma refs_disjoint e b s u key l w k :
  book_in e b -> items s b = u ++ (key, l) :: w -> k ∈ lv_orders l -> k ∉ refs_of (u ++ w).
Proof.
  intros Hb Hi Hk (key' & l' & Hin & Hk')%elem_refs_of.
  pose proof (bo_sides _ _ Hb s) as Hs.
  destruct (so_levels _ _ _ Hs key l) as [Hl _]; [rewrite Hi, elem_of_app; right; by left|].
  destruct (so_levels _ _ _ Hs key' l') as [Hl' _].
  { rewrite Hi. apply elem_of_app in Hin as [Hin|Hin]; apply elem_of_app; [by left|right; by right]. }
  pose proof (so_sorted _ _ _ Hs) as Hsort. rewrite Hi in Hsort.
  by apply (level_disjoint s u w key l key' l' (ob_heap b) k Hsort Hl Hl' Hin Hk).
Qed.

(** What rests on a side, in the order in which it trades: price, id and quantity. *)
Definition view_of (h : order_heap) (p : pyfloat) (ks : list nat) : list (pyfloat * string * Z) :=
  map (fun k => (p, order_id (h !!! k), lots (h !!! k))) ks.

Definition view_items (h : order_heap) s (l : list (pyfloat * PriceLevel)) : list (pyfloat * string * Z) :=
  concat (map (fun kl => view_of h (side_key s kl.1) (lv_orders kl.2)) l).

Definition resting s b : list (pyfloat * string * Z) := view_items (ob_heap b) s (items s b).

Lemma view_items_app h s l l' : view_items h s (l ++ l') = view_items h s l ++ view_items h s l'.
Proof. unfold view_items. by rewrite map_app, concat_app. Qed.

Lemma view_of_ext h h' p ks :
  (forall k, k ∈ ks -> order_id (h' !!! k) = order_id (h !!! k) /\ remaining_qty (h' !!! k) = remaining_qty (h !!! k)) ->
  view_of h' p ks = view_of h p ks.
Proof.
  intros Hk. unfold view_of. apply map_ext_in. intros k Hin. apply list_elem_of_In in Hin.
  destruct (Hk k Hin) as [-> E]. unfold lots. by rewrite E.
Qed.

Lemma view_items_ext h h' s l :
  (forall k, k ∈ refs_of l -> order_id (h' !!! k) = order_id (h !!! k) /\ remaining_qty (h' !!! k) = remaining_qty (h !!! k)) ->
  view_items h' s l = view_items h s l.
Proof.
  induction l as [|[key lv] l IH]; [done|]. intros Hk. unfold view_items, refs_of in *. cbn [map concat fst snd] in *.
  f_equal; [apply view_of_ext|apply IH]; intros k Hin; apply Hk, elem_of_app; auto.
Qed.

(** The parts of a book one operation of the code replaces. *)
Lemma set_levels_fields s d b :
  orders (set_levels s d b) = orders b /\ order_count (set_levels s d b) = order_count b /\
  ob_heap (set_levels s d b) = ob_heap b.
Proof. by destruct s. Qed.

Lemma side_refs_split s b u mid w : items s b = u ++ mid ++ w -> side_refs s b = refs_of u ++ refs_of mid ++ refs_of w.
Proof. intros E. unfold side_refs. rewrite E. fold (refs_of (u ++ mid ++ w)). by rewrite !refs_of_app. Qed.

(** Taking a level out, or putting a changed one back. *)
Definition level_back (key : pyfloat) (l : PriceLevel) : list (pyfloat * PriceLevel) :=
  if level_empty l then [] else [(key, l)].

Lemma refs_level_back key l : refs_of (level_back key l) = lv_orders l.
Proof. unfold level_back, level_empty, refs_of. destruct (lv_orders l) eqn:E; cbn; rewrite ?E, ?app_nil_r; done. Qed.

Lemma view_level_back h s key l : view_items h s (level_back key l) = view_of h (side_key s key) (lv_orders l).
Proof. unfold level_back, level_empty, view_items. destruct (lv_orders l) eqn:E; cbn; rewrite ?E, ?app_nil_r; done. Qed.

Lemma sorted_drop {V} (u mid w : list (pyfloat * V)) : sorted_items (u ++ mid ++ w) -> sorted_items (u ++ w).
Proof.
  rewrite !sorted_app. intros (H1 & (H2 & H3 & H4) & H5). split_and!; try done.
  eapply Forall_impl; [exact H5|]. intros a Ha. by apply Forall_app in Ha as [_ Ha].
Qed.

Lemma sorted_change u key l l' w : sorted_items (u ++ (key, l) :: w) -> sorted_items (u ++ level_back key l' ++ w).
Proof.
  intros Hs. unfold level_back. destruct (level_empty l').
  - by apply (sorted_drop u [(key, l)] w).
  - apply sorted_app in Hs as (H1 & (H2 & H3 & H4) & H5). apply sorted_app. split_and!; [done|split_and!; done|].
    eapply Forall_impl; [exact H5|]. intros a Ha. apply Forall_cons in Ha as [Ha Ha']. by constructor.
Qed.

Lemma level_empty_false l : level_empty l = false -> lv_orders l <> [].
Proof. unfold level_empty. by destruct (lv_orders l). Qed.

(** Cancelling removes the order from the book and renumbers its queue. *)
Lemma cancel_spec b id k s :
  book_ok b -> dget (orders b) id = Some (k, s) ->
  let '(b', r) := cancel_order id b in
  r = Some k /\ book_ok b' /\
  exists u key l w l', items s b = u ++ (key, l) :: w /\ k ∈ lv_orders l /\
    items s b' = u ++ level_back key l' ++ w /\ lv_orders l' = remove_first k (lv_orders l) /\
    items (opposite s) b' = items (opposite s) b /\
    ob_heap b' = recompute_positions (ob_heap b) (lv_orders l') /\ orders b' = ddel (orders b) id.
Proof.
  intros Hb Hd. destruct (order_level false b id k s Hb Hd) as (u & key & l & w & Hi & Hk & Hl & Hid & Hok).
  destruct (order_key _ _ _ Hok) as [Hnum Hkey]. pose proof (so_sorted _ _ _ (bo_sides _ _ Hb s)) as Hsort. rewrite Hi in Hsort.
  unfold cancel_order. rewrite Hd. set (b0 := set_index_of _ _ b).
  assert (levels s b0 = levels s b) as E0 by (by destruct s). change (ob_heap b0) with (ob_heap b). rewrite E0.
  set (key' := side_key s _) in *.
  destruct (items_mid u key l w key' l Hsort Hnum Hkey) as (Hget & _ & Hdel).
  unfold sd_get. rewrite Hi, Hget. pose proof (level_remove_ok s key (ob_heap b) l k Hl Hk) as Hr. rewrite Hid in Hr.
  destruct (level_remove (ob_heap b) id l) as [[h l'] r]. destruct Hr as (Hl' & -> & Ho & Hh & Hlp).
  set (d := if level_empty l' then _ else _).
  assert (sd_items d = u ++ level_back key l' ++ w) as Hitems.
  { unfold d, level_back. destruct (level_empty l').
    - rewrite sd_del_items, Hi by done. done.
    - rewrite sd_set_items, Hi by done. by destruct (items_mid u key l w key' l' Hsort Hnum Hkey) as (_ & -> & _). }
  set (b' := next_sequence _).
  assert (items s b' = u ++ level_back key l' ++ w /\ items (opposite s) b' = items (opposite s) b /\ ob_heap b' = h /\
    orders b' = ddel (orders b) id /\ order_count b' = order_count b - 1) as (F1 & F2 & F3 & F4 & F5).
  { unfold b', b0. destruct s; cbn; split_and!; try done; exact Hitems. }
  split; [done|]. split; [|exists u, key, l, w, l'; split_and!; try done; by rewrite F3, Ho].
  assert (List.length h = List.length (ob_heap b) /\ forall j, static (h !!! j) = static (ob_heap b !!! j)) as [Hlen Hst].
  { rewrite Hh. destruct Hl' as [G1 G2 _ _ _]. pose proof Hl as [L1 L2 _ _ _].
    assert (refs_in (ob_heap b) (remove_first k (lv_orders l))) as Hin.
    { unfold refs_in in *. rewrite Forall_forall in L2 |- *. intros j Hj. apply L2. by apply remove_first_elem in Hj as [Hj _]. }
    split; [apply recompute_spec; [by apply remove_first_nodup|done]|]. intros j. apply recompute_static; [by apply remove_first_nodup|done]. }
  assert (side_refs s b' = refs_of u ++ lv_orders l' ++ refs_of w) as R1.
  { rewrite (side_refs_split s b' _ _ _ F1). by rewrite refs_level_back. }
  assert (side_refs s b = refs_of u ++ lv_orders l ++ refs_of w) as R2.
  { rewrite (side_refs_split s b u [(key, l)] w Hi). unfold refs_of at 2. cbn. by rewrite app_nil_r. }
  assert (side_refs (opposite s) b' = side_refs (opposite s) b) as R3 by (unfold side_refs; by rewrite F2).
  pose proof Hl as [L1 L2 _ _ _]. split.
  - apply (change_ok false b b' s u [(key, l)] (level_back key l') w Hb Hi F1 F2).
    + by apply (sorted_change u key l).
    + by rewrite F3, Hlen.
    + intros j Hj Hjh. rewrite F3, Hh. apply recompute_spec; [by apply remove_first_nodup| |].
      { unfold refs_in in *. rewrite Forall_forall in L2 |- *. intros i Hij. apply L2. by apply remove_first_elem in Hij as [Hij _]. }
      intros Hj'. apply Hj. unfold refs_of. cbn. rewrite app_nil_r. by apply remove_first_elem in Hj' as [Hj' _].
    + intros key1 l1 Hin. unfold level_back in Hin. destruct (level_empty l') eqn:E; [by apply elem_of_nil in Hin|].
      apply list_elem_of_singleton in Hin as [= -> ->]. rewrite F3. split; [done|]. split; [intros _; by apply level_empty_false|].
      rewrite Hlp. apply (so_levels _ _ _ (bo_sides _ _ Hb s) key l). rewrite Hi, elem_of_app. right. by left.
  - intros id' k' s'. rewrite F4, F3.
    assert (order_id (h !!! k') = order_id (ob_heap b !!! k')) as -> by (by destruct (static_fields _ _ (Hst k')) as [-> _]).
    assert (forall j, j ∈ side_refs s b' <-> j ∈ side_refs s b /\ j <> k) as Hmem.
    { intros j. rewrite R1, R2, !elem_of_app, Ho, remove_first_elem by done.
      pose proof (refs_disjoint false b s u key l w k Hb Hi Hk) as Hdis. rewrite refs_of_app, elem_of_app in Hdis.
      split; [|tauto]. intros [Hj|[Hj|Hj]]; split; try tauto; intros ->; tauto. }
    destruct (decide (id' = id)) as [->|Hne].
    + rewrite dget_ddel_eq. split; [done|]. intros [Hk' E'].
      assert (k' ∈ side_refs s' b /\ ~ (k' = k /\ s' = s)) as [Hin Hne].
      { destruct (decide (s' = s)) as [->|Hs]; [apply Hmem in Hk' as [? ?]; tauto|].
        assert (s' = opposite s) as -> by (by apply other_side). rewrite R3 in Hk'. tauto. }
      assert (dget (orders b) id = Some (k', s')) as Hd' by (by apply (bo_index _ _ Hb)). rewrite Hd in Hd'. injection Hd' as <- <-. tauto.
    + rewrite dget_ddel_ne, (bo_index _ _ Hb) by done.
      destruct (decide (s' = s)) as [->|Hs].
      * rewrite Hmem. split; [|tauto]. intros [Hin E']. split_and!; try done. intros ->. by rewrite Hid in E'.
      * assert (s' = opposite s) as -> by (by apply other_side). by rewrite R3.
  - rewrite F5, (bo_count _ _ Hb).
    assert (List.length (side_refs s b') + 1 = List.length (side_refs s b))%nat as Hn.
    { rewrite R1, R2, !length_app, Ho. pose proof (length_remove_first k (lv_orders l) Hk). lia. }
    destruct s; cbn [opposite] in *; rewrite R3; lia.
Qed.

(** A level of the side takes an order at its back, or a new level is put in its place. *)
Lemma level_for b s key :
  book_ok b -> is_num key = true ->
  exists u mid w key',
    items s b = u ++ mid ++ w /\
    (forall l', items_set key l' (items s b) = u ++ [(key', l')] ++ w) /\
    (forall l', sorted_items (u ++ [(key', l')] ++ w)) /\ feqb key' key = true /\
    match sd_get (levels s b) key with
    | Some l => mid = [(key', l)]
    | None => mid = [] /\ key' = key
    end.
Proof.
  intros Hb Hk. pose proof (so_sorted _ _ _ (bo_sides _ _ Hb s)) as Hsort. unfold sd_get.
  destruct (items_set_spec key (new_level key) (items s b) Hk Hsort)
    as [(u & key' & l & w & E & Ek & _ & Hget & _)|(u & w & E & _ & Hs & Hget)]; rewrite Hget.
  - exists u, [(key', l)], w, key'. rewrite E in Hsort |- *. split_and!; try done.
    + intros l'. by destruct (items_mid u key' l w key l' Hsort Hk Ek) as (_ & -> & _).
    + intros l'. apply sorted_app in Hsort as (H1 & (H2 & H3 & H4) & H5). apply sorted_app.
      split_and!; [done|split_and!; done|]. eapply Forall_impl; [exact H5|].
      intros a Ha. apply Forall_cons in Ha as [Ha Ha']. by constructor.
  - exists u, [], w, key. split_and!; try done; [| |by apply feqb_refl].
    + intros l'. rewrite E. apply sorted_app in Hs as (H1 & (_ & H3 & H4) & H5).
      clear -Hk H1 H3 H5. induction u as [|[k0 v0] u IH]; cbn [app items_set].
      * destruct w as [|[k1 v1] w]; [done|]. cbn. apply Forall_cons in H3 as [H3 _]. cbn in H3.
        destruct (feqb_lt _ _ H3) as [_ ->]. by rewrite H3.
      * destruct H1 as (Hk0 & _ & H1). apply Forall_cons in H5 as [H5 H5']. apply Forall_cons in H5 as [H5 _]. cbn in H5.
        destruct (feqb_lt _ _ H5) as [-> _]. rewrite fltb_fleb, (fltb_le _ _ H5) by done. cbn. f_equal. by apply IH.
    + intros l'. apply sorted_app in Hs as (H1 & (H2 & H3 & H4) & H5). apply sorted_app.
      split_and!; [done|split_and!; done|]. eapply Forall_impl; [exact H5|].
      intros a Ha. apply Forall_cons in Ha as [Ha Ha']. by constructor.
Qed.

Lemma price_order_fields p o :
  remaining_qty (price_order p o) = remaining_qty o /\ order_id (price_order p o) = order_id o /\
  side (price_order p o) = side o.
Proof. unfold price_order. by destruct (feqb _ _). Qed.

Lemma price_order_price p o :
  is_num p = true -> is_num (price (price_order p o)) = true /\ feqb p (price (price_order p o)) = true.
Proof.
  intros Hp. unfold price_order. destruct (feqb p (price o)) eqn:E; cbn; [|split; [done|by apply feqb_refl]].
  split; [|done]. destruct (price o); try done; by destruct p as [[]|[]| |[] ? ?].
Qed.

Lemma feqb_trans k1 k2 k3 :
  is_num k1 = true -> is_num k2 = true -> is_num k3 = true -> feqb k1 k2 = true -> feqb k2 k3 = true -> feqb k1 k3 = true.
Proof.
  intros N1 N2 N3. rewrite !feqb_fleb by done. intros [A1 A2]%andb_prop [B1 B2]%andb_prop. apply andb_true_intro.
  split; [by apply (fleb_trans k1 k2 k3)|by apply (fleb_trans k3 k2 k1)].
Qed.

Lemma feqb_side_key s p q : feqb (side_key s p) (side_key s q) = feqb p q.
Proof.
  destruct s; [|done]. cbn. destruct (is_num p) eqn:Hp; [|by destruct p, q as [[]|[]| |[] ? ?]].
  destruct (is_num q) eqn:Hq; [|by destruct q, p as [[]|[]| |[] ? ?]].
  rewrite !feqb_fleb, !fleb_opp by (rewrite ?is_num_opp; done). apply andb_comm.
Qed.

Lemma add_spec b o n p :
  book_ok b -> has_lots o n -> effective_price (price o) b = Ok p -> is_num p = true ->
  dget (orders b) (order_id o) = None -> enforce_lot_size b && fltb (remaining_qty o) (lot_size b) = false ->
  exists b' pos u mid w key l', add_limit_order o b = Ok (b', pos) /\ book_ok b' /\
    items (side o) b = u ++ mid ++ w /\ items (side o) b' = u ++ [(key, l')] ++ w /\
    sorted_items (u ++ [(key, l')] ++ w) /\ feqb key (side_key (side o) p) = true /\
    lv_orders l' = refs_of mid ++ [List.length (ob_heap b)] /\
    (mid = [] \/ exists l, mid = [(key, l)]) /\ pos = Z.of_nat (List.length (refs_of mid)) /\
    items (opposite (side o)) b' = items (opposite (side o)) b /\
    orders b' = dset (orders b) (order_id o) (List.length (ob_heap b), side o) /\
    ob_heap b' = ob_heap b ++ [set_position pos (price_order p o)].
Proof.
  intros Hb Hn Hp Hnp Hfresh Hlot. unfold add_limit_order. pose proof Hn as [Hn0 Hrem].
  rewrite Hlot, Hrem, not_positive_int by lia. rewrite (proj2 (Z.eqb_neq n 0)) by lia.
  rewrite bool_decide_false by (rewrite Hfresh; by intros [? ?]). rewrite Hp.
  set (o1 := price_order p o). destruct (price_order_fields p o) as (Er & Ei & Es). fold o1 in Er, Ei, Es.
  rewrite Ei, Es. set (s := side o). set (key0 := side_key s p).
  destruct (level_for b s key0 Hb (num_key s p Hnp)) as (u & mid & w & key & Hi & Hset & Hsorted & Hkey & Hget).
  set (l := default (new_level p) (sd_get (levels s b) key0)).
  set (k := List.length (ob_heap b)). set (h0 := ob_heap b ++ [o1]).
  assert (is_num key = true) as Hnk.
  { specialize (Hsorted (new_level p)). by apply sorted_app in Hsorted as (_ & (Hk & _) & _). }
  assert (forall j, (j < k)%nat -> h0 !!! j = ob_heap b !!! j) as Hold.
  { intros j Hj. unfold h0. by rewrite lookup_total_app_l. }
  assert (h0 !!! k = o1) as Hnew.
  { unfold h0, k. rewrite lookup_total_app_r, Nat.sub_diag by lia. done. }
  assert (lv_orders l = refs_of mid) as Hlo.
  { unfold l. destruct (sd_get _ _) as [l0|]; [|by destruct Hget as [-> _]].
    rewrite Hget. unfold refs_of. cbn. by rewrite app_nil_r. }
  assert (level_ok s key (ob_heap b) l /\ lv_price l = side_key s key) as [Hl0 Hlpr].
  { unfold l. destruct (sd_get _ _) as [l0|] eqn:Eg.
    - destruct (so_levels _ _ _ (bo_sides _ _ Hb s) key l0) as (? & _ & ?); [|done].
      rewrite Hi, Hget, !elem_of_app. right. left. by left.
    - destruct Hget as [_ ->]. split; [apply new_level_ok|]. cbn. symmetry. apply side_key_twice. }
  assert (forall j s', j ∈ side_refs s' b -> (j < k)%nat) as Hlt.
  { intros j s' (key' & l1 & Hin & Hj)%elem_refs_of. destruct (so_levels _ _ _ (bo_sides _ _ Hb s') _ _ Hin) as [Hl1 _].
    pose proof (lo_refs _ _ _ _ Hl1) as Hr. unfold refs_in in Hr. rewrite Forall_forall in Hr. by apply Hr. }
  assert (forall j, j ∈ lv_orders l -> j ∈ side_refs s b) as Hsub.
  { intros j Hj. rewrite Hlo in Hj. unfold side_refs. fold (refs_of (items s b)). rewrite Hi, !refs_of_app, !elem_of_app. auto. }
  assert (level_ok s key h0 l) as Hl.
  { apply (level_ok_frame s key (ob_heap b)); [unfold h0; rewrite length_app; lia| |done].
    intros j Hj. apply Hold. by eapply Hlt, Hsub. }
  assert (order_ok s key o1) as Hok.
  { destruct (price_order_price p o Hnp) as [P1 P2]. fold o1 in P1, P2. split_and!; [done|done| |exists n; split; [done|by rewrite Er]].
    apply (feqb_trans key key0); try done; [by apply num_key|by apply num_key|]. unfold key0. by rewrite feqb_side_key. }
  pose proof (level_add_ok s key h0 k l Hl) as Ha. rewrite Hnew in Ha.
  specialize (Ha ltac:(unfold h0; rewrite length_app; cbn; lia) Hok).
  specialize (Ha ltac:(intros Hk; specialize (Hlt k s (Hsub k Hk)); lia)).
  specialize (Ha ltac:(intros j Hj E; rewrite Hold in E by (by eapply Hlt, Hsub);
    rewrite Ei in E; assert (dget (orders b) (order_id o) = Some (j, s)) as Hd
      by (apply (bo_index _ _ Hb); split; [by apply Hsub|done]); by rewrite Hfresh in Hd)).
  destruct (level_add h0 k l) as [[h l'] pos]. destruct Ha as (Hl' & Ho' & Hpos & Hh & Hlp').
  set (b' := next_sequence _).
  assert (items s b' = u ++ [(key, l')] ++ w /\ items (opposite s) b' = items (opposite s) b /\ ob_heap b' = h /\
    orders b' = dset (orders b) (order_id o) (k, s) /\ order_count b' = order_count b + 1) as (F1 & F2 & F3 & F4 & F5).
  { unfold b'. rewrite <- Hset. pose proof (num_key s p Hnp) as Hnk0. fold key0 in Hnk0. clear -H0 Hnk0. clearbody key0.
    clearbody s. destruct s; cbn; split_and!; try done;
      by rewrite sd_set_items. }
  assert (forall j, h !!! j = if decide (j = k) then set_position pos o1 else h0 !!! j) as Hhj.
  { intros j. rewrite Hh, heap_alter by (unfold h0; rewrite length_app; cbn; lia).
    destruct (decide (j = k)) as [->|]; [by rewrite Hnew|done]. }
  exists b', pos, u, mid, w, key, l'. rewrite Ho', Hlo in *.
  assert (book_ok b') as Hb'; [|split_and!; try done].
  2: { destruct (sd_get _ _) as [l0|]; [right; by exists l0|left; by destruct Hget]. }
  2: { rewrite F3, Hh. unfold h0, k. apply list_eq. intros j. destruct (decide (j = List.length (ob_heap b))) as [->|Hne].
       - rewrite list_lookup_alter_eq, !lookup_app_r, Nat.sub_diag by lia. done.
       - rewrite list_lookup_alter_ne by done. destruct (decide (j < List.length (ob_heap b))%nat).
         + by rewrite !lookup_app_l by done.
         + rewrite !lookup_app_r by lia. by destruct (j - List.length (ob_heap b))%nat eqn:E; [lia|]. }
  assert (side_refs s b' = refs_of u ++ (refs_of mid ++ [k]) ++ refs_of w) as R1.
  { by rewrite (side_refs_split s b' _ _ _ F1), refs_single, Ho'. }
  pose proof (side_refs_split s b u mid w Hi) as R2.
  assert (side_refs (opposite s) b' = side_refs (opposite s) b) as R3 by (unfold side_refs; by rewrite F2).
  split.
  - apply (change_ok false b b' s u mid [(key, l')] w Hb Hi F1 F2); [by rewrite <- F1, F1| | |].
    + rewrite F3, Hh, length_alter. unfold h0. rewrite length_app. lia.
    + intros j _ Hj. rewrite F3, Hhj, decide_False by (unfold k; lia). by apply Hold.
    + intros key1 l1 [= -> ->]%list_elem_of_singleton. rewrite F3. split; [done|]. split; [|by rewrite Hlp'].
      intros _. rewrite Ho'. by destruct (refs_of mid).
  - intros id' k' s'. rewrite F4, F3, Hhj.
    assert (forall j, j ∈ side_refs s b' <-> j ∈ side_refs s b \/ j = k) as Hmem.
    { intros j. rewrite R1, R2, !elem_of_app, list_elem_of_singleton. tauto. }
    assert (k' ∈ side_refs s' b' <-> k' ∈ side_refs s' b \/ k' = k /\ s' = s) as Hmem'.
    { destruct (decide (s' = s)) as [->|Hne]; [rewrite Hmem; tauto|].
      assert (s' = opposite s) as -> by (by apply other_side). rewrite R3. tauto. }
    rewrite Hmem'. destruct (decide (k' = k)) as [->|Hne].
    + assert (order_id (set_position pos o1) = order_id o) as -> by done. split.
      * destruct (decide (id' = order_id o)) as [->|Hne]; [rewrite dget_dset_eq; by intros [= ->]; auto|].
        rewrite dget_dset_ne, (bo_index _ _ Hb) by done. intros [Hin%Hlt _]. lia.
      * intros [[Hin%Hlt|[_ ->]] <-]; [lia|]. apply dget_dset_eq.
    + destruct (decide (id' = order_id o)) as [->|Hne'].
      * rewrite dget_dset_eq. split; [by intros [= ->]|]. intros [[Hin|[-> _]] E]; [|done]. rewrite Hold in E by (by eapply Hlt).
        assert (dget (orders b) (order_id o) = Some (k', s')) as Hd by (by apply (bo_index _ _ Hb)). by rewrite Hfresh in Hd.
      * rewrite dget_dset_ne, (bo_index _ _ Hb) by done. split.
        -- intros [Hin E]. split; [by left|]. by rewrite Hold by (by eapply Hlt).
        -- intros [[Hin|[-> _]] E]; [|done]. split; [done|]. by rewrite Hold in E by (by eapply Hlt).
  - rewrite F5, (bo_count _ _ Hb).
    assert (List.length (side_refs s b') = List.length (side_refs s b) + 1)%nat as Hc by (rewrite R1, R2, !length_app; cbn; lia).
    destruct s; cbn [opposite] in *; rewrite R3; lia.
Qed.

Lemma refs_heap e b s j : book_in e b -> j ∈ side_refs s b -> (j < List.length (ob_heap b))%nat.
Proof.
  intros Hb (key & l & Hin & Hj)%elem_refs_of. destruct (so_levels _ _ _ (bo_sides _ _ Hb s) _ _ Hin) as [Hl _].
  pose proof (lo_refs _ _ _ _ Hl) as Hr. unfold refs_in in Hr. rewrite Forall_forall in Hr. by apply Hr.
Qed.

Lemma view_items_single h s key l : view_items h s [(key, l)] = view_of h (side_key s key) (lv_orders l).
Proof. unfold view_items. cbn. apply app_nil_r. Qed.

(** The rows of the orders in [P]. *)
Lemma filter_view h s l (P : string -> bool) :
  List.filter (fun r => P r.1.2) (view_items h s l) =
  concat (map (fun kl => view_of h (side_key s kl.1) (List.filter (fun k => P (order_id (h !!! k))) (lv_orders kl.2))) l).
Proof.
  induction l as [|[key lv] l IH]; [done|]. unfold view_items in *. cbn [map concat fst snd].
  rewrite List.filter_app, IH. f_equal. unfold view_of. induction (lv_orders lv) as [|k ks IHk]; [done|].
  cbn [map List.filter fst snd]. destruct (P _); cbn [map]; by rewrite IHk.
Qed.

Lemma filter_all {A} (P : A -> bool) l : (forall a, a ∈ l -> P a = true) -> List.filter P l = l.
Proof.
  induction l as [|a l IH]; [done|]. intros HP. cbn. rewrite (HP a) by (by left). f_equal. apply IH.
  intros x Hx. apply HP. by right.
Qed.

Lemma remove_first_filter k ks : NoDup ks -> remove_first k ks = List.filter (fun j => negb (bool_decide (j = k))) ks.
Proof.
  induction 1 as [|j ks Hj Hnd IH]; [done|]. cbn [remove_first List.filter]. destruct (decide (j = k)) as [->|Hne].
  - rewrite bool_decide_true by done. cbn. symmetry. apply filter_all. intros i Hi.
    apply negb_true_iff, bool_decide_eq_false_2. by intros ->.
  - rewrite bool_decide_false by done. cbn. by rewrite IH.
Qed.

(** Cancelling takes one order out of what rests, and nothing else. *)
Lemma cancel_rows b id k s :
  book_ok b -> dget (orders b) id = Some (k, s) ->
  let b' := (cancel_order id b).1 in
  resting s b' = List.filter (fun r => negb (bool_decide (r.1.2 = id))) (resting s b) /\
  resting (opposite s) b' = resting (opposite s) b /\
  forall j, remaining_qty (ob_heap b' !!! j) = remaining_qty (ob_heap b !!! j).
Proof.
  intros Hb Hd. pose proof (cancel_spec b id k s Hb Hd) as Hc. destruct (cancel_order id b) as [b' r]. cbn [fst].
  destruct Hc as (_ & _ & u & key & l & w & l' & Hi & Hk & Hi' & Ho & Hopp & Hh & _).
  assert (level_ok s key (ob_heap b) l) as Hl.
  { apply (so_levels _ _ _ (bo_sides _ _ Hb s)). rewrite Hi, elem_of_app. right. by left. }
  assert (forall j, order_id (ob_heap b' !!! j) = order_id (ob_heap b !!! j) /\
    remaining_qty (ob_heap b' !!! j) = remaining_qty (ob_heap b !!! j)) as Hsame.
  { intros j. rewrite Hh. pose proof Hl as [L1 L2 _ _ _].
    destruct (recompute_static (ob_heap b) (lv_orders l') j) as (Hs & Hr & _).
    - rewrite Ho. by apply remove_first_nodup.
    - unfold refs_in in *. rewrite Forall_forall in L2 |- *. intros i Hij. rewrite Ho in Hij.
      apply L2. by apply remove_first_elem in Hij as [Hij _].
    - by destruct (static_fields _ _ Hs) as [-> _]. }
  split; [|split; [|intros j; apply Hsame]].
  - unfold resting. rewrite (view_items_ext (ob_heap b)) by (by intros j _). 
    etransitivity; [|symmetry; exact (filter_view _ _ _ (fun i => negb (bool_decide (i = id))))]. rewrite Hi'.
    rewrite !view_items_app, view_level_back, Hi, map_app, concat_app. cbn [map concat fst snd].
    assert (forall x, x ∈ u ++ w -> List.filter (fun j => negb (bool_decide (order_id (ob_heap b !!! j) = id)))
      (lv_orders x.2) = lv_orders x.2) as Hkeep.
    { intros [key1 l1] Hin. apply filter_all. intros j Hj. apply negb_true_iff, bool_decide_eq_false_2. intros E.
      assert (j ∈ refs_of (u ++ w)) as Hj' by (apply elem_refs_of; eauto).
      assert (j ∈ side_refs s b) as Hin'.
      { unfold side_refs. fold (refs_of (items s b)). rewrite Hi, refs_of_app, elem_of_app.
        rewrite refs_of_app, elem_of_app in Hj'. destruct Hj' as [?|?]; [by left|right].
        apply elem_of_app. by right. }
      assert (dget (orders b) id = Some (j, s)) as Hd' by (by apply (bo_index _ _ Hb)).
      rewrite Hd in Hd'. injection Hd' as <-. by apply (refs_disjoint false b s u key l w k Hb Hi Hk). }
    f_equal; [|f_equal].
    + unfold view_items. f_equal. apply map_ext_in. intros x Hx. apply list_elem_of_In in Hx. rewrite Hkeep; [done|].
      apply elem_of_app. by left.
    + f_equal. rewrite Ho, remove_first_filter by apply Hl. apply List.filter_ext_in. intros j Hj.
      apply list_elem_of_In in Hj. f_equal. apply bool_decide_ext.
      pose proof (proj1 (bo_index _ _ Hb id k s) Hd) as [_ Hid]. split; [by intros ->|]. intros E.
      apply (level_unique s key (ob_heap b) l); [done|done|done|by rewrite E, Hid].
    + unfold view_items. f_equal. apply map_ext_in. intros x Hx. apply list_elem_of_In in Hx. rewrite Hkeep; [done|].
      apply elem_of_app. by right.
  - unfold resting. rewrite Hopp. by apply view_items_ext.
Qed.

Lemma resting_ids e b s r : book_in e b -> r ∈ resting s b -> exists k, dget (orders b) r.1.2 = Some (k, s).
Proof.
  intros Hb Hin. unfold resting, view_items in Hin. 
  apply list_elem_of_In, in_concat in Hin as (v & Hv & Hr). apply in_map_iff in Hv as ([key l] & <- & Hkl).
  apply in_map_iff in Hr as (k & <- & Hk). cbn. exists k. apply (bo_index _ _ Hb). split; [|done].
  apply elem_refs_of. exists key, l. by rewrite !list_elem_of_In.
Qed.

(** Whether a price [p] of side [s] comes before [q]: higher for bids, lower for asks. *)
Definition better s (p q : pyfloat) : bool := fltb (side_key s p) (side_key s q).

Lemma view_items_Forall h s l (P : pyfloat -> Prop) :
  Forall (fun kl => P kl.1) l -> Forall (fun r => P (side_key s r.1.1)) (view_items h s l).
Proof.
  induction 1 as [|[key lv] l Hk _ IH]; [constructor|]. unfold view_items in *. cbn [map concat fst snd].
  apply Forall_app. split; [|done]. unfold view_of. apply List.Forall_map, Forall_forall. intros k _. cbn.
  by rewrite side_key_twice.
Qed.

(** Where an accepted order rests. *)
Lemma order_rests b o n p :
  book_ok b -> has_lots o n -> effective_price (price o) b = Ok p -> is_num p = true ->
  dget (orders b) (order_id o) = None -> enforce_lot_size b && fltb (remaining_qty o) (lot_size b) = false ->
  exists b' pos before after p',
    add_limit_order o b = Ok (b', pos) /\ book_ok b' /\
    resting (side o) b = before ++ after /\
    resting (side o) b' = before ++ [(p', order_id o, n)] ++ after /\ feqb p' p = true /\
    Forall (fun r => better (side o) p' r.1.1 = false) before /\
    Forall (fun r => better (side o) p' r.1.1 = true) after /\
    get_queue_position (order_id o) b' = Some pos /\
    resting (opposite (side o)) b' = resting (opposite (side o)) b.
Proof.
  intros Hb Hn Hp Hnp Hfresh Hlot.
  destruct (add_spec b o n p Hb Hn Hp Hnp Hfresh Hlot)
    as (b' & pos & u & mid & w & key & l' & Hadd & Hb' & Hi & Hi' & Hsort & Hkey & Ho & Hmid & Hpos & Hopp & Hord & Hh).
  set (s := side o) in *. set (k := List.length (ob_heap b)) in *.
  assert (forall j s', j ∈ side_refs s' b -> ob_heap b' !!! j = ob_heap b !!! j) as Hold.
  { intros j s' Hj. rewrite Hh. apply lookup_total_app_l. by eapply refs_heap. }
  assert (ob_heap b' !!! k = set_position pos (price_order p o)) as Hnew.
  { rewrite Hh. unfold k. by rewrite lookup_total_app_r, Nat.sub_diag by lia. }
  destruct (price_order_fields p o) as (Er & Ei & _).
  pose proof (side_refs_split s b u mid w Hi) as R.
  exists b', pos, (view_items (ob_heap b) s (u ++ mid)), (view_items (ob_heap b) s w), (side_key s key).
  split; [done|]. split; [done|]. apply sorted_app in Hsort as (_ & (Hnk & Hw & _) & Hu). cbn [fst] in Hw.
  split_and!.
  - unfold resting. by rewrite Hi, !view_items_app, app_assoc.
  - unfold resting. rewrite Hi', !view_items_app, view_items_single, Ho. unfold view_of at 1. rewrite map_app. cbn [map].
    rewrite Hnew. cbn [set_position order_id]. rewrite Ei.
    assert (lots (set_position pos (price_order p o)) = n) as ->.
    { apply has_lots_lots. destruct Hn as [? E]. split; [done|]. cbn. by rewrite Er. }
    rewrite <- !app_assoc. f_equal; [|f_equal; [|f_equal]].
    + apply view_items_ext. intros j Hj. rewrite (Hold j s); [done|]. rewrite R, elem_of_app. by left.
    + destruct Hmid as [->|[l ->]]; [done|]. rewrite view_items_single, refs_single. unfold view_of. apply map_ext_in.
      intros j Hj%list_elem_of_In. rewrite (Hold j s); [done|]. rewrite R, refs_single, !elem_of_app. auto.
    + apply view_items_ext. intros j Hj. rewrite (Hold j s); [done|]. rewrite R, !elem_of_app. auto.
  - rewrite <- (side_key_twice s p). by rewrite feqb_side_key.
  - unfold better. rewrite side_key_twice. apply (view_items_Forall _ s _ (fun x => fltb key x = false)).
    apply Forall_app. split.
    + eapply Forall_impl; [exact Hu|]. intros a Ha. apply Forall_cons in Ha as [Ha _]. cbn in Ha.
      destruct (fltb_num _ _ Ha) as [Hna _]. rewrite fltb_fleb by done. by rewrite (fltb_le _ _ Ha).
    + destruct Hmid as [->|[l ->]]; [constructor|]. apply Forall_singleton. cbn. rewrite fltb_fleb, fleb_refl by done. done.
  - unfold better. rewrite side_key_twice. by apply (view_items_Forall _ s _ (fun x => fltb key x = true)).
  - unfold get_queue_position, get_order. rewrite Hord, dget_dset_eq. cbn. by rewrite Hnew.
  - unfold resting. rewrite Hopp. apply view_items_ext. intros j Hj. by rewrite (Hold j (opposite s)).
Qed.
End BookProps.

Abbreviation book_ok := (book_in false).
