(* ===== verification/Matching.v ===== *)
(** * The matching engine: [lob/matching_engine.py]

    Price-time priority and pro-rata matching over the book of [Lob], with self-trade
    prevention.  An engine has no callbacks here: [on_trade] and [on_stp] only observe.
    [clk i] is the clock's reading for the [i]-th trade of an operation. *)
From Stdlib Require Import SpecFloat.
From Stdlib Require Import Ascii String.
From S2P Require Import Prelude PyDecimal DecArith PyFormat PyFloat PyText FloatInt Lob.
Open Scope Z_scope.
Open Scope list_scope.

Inductive STPAction := CANCEL_NEWEST | CANCEL_OLDEST | CANCEL_BOTH | DECREMENT_AND_CANCEL.

Inductive MatchType := MAKER | TAKER.

Record MatchResult := MkResult {
  fills : list Fill;
  resting_order : option LimitOrder;
  cancelled_orders : list nat;
  total_filled_qty : pyfloat;
  avg_fill_price : pyfloat;
  r_complete : bool;
  match_type : MatchType
}.

Definition empty_result : MatchResult := MkResult [] None [] fzero fzero false TAKER.

Definition result_from_fills (fs : list Fill) (original : pyfloat) (resting : option LimitOrder)
    (cancelled : list nat) : MatchResult :=
  let total := fsum (map total_qty fs) in
  let notional := fsum (map fill_notional fs) in
  MkResult fs resting cancelled total (if positive total then fdiv notional total else fzero)
    (fleb original total) (if positive total then TAKER else MAKER).

Record STPResult := MkSTP { triggered : bool; cancel_incoming : bool; cancel_resting : bool }.

(** The two algorithms of [create_matching_engine]. *)
Inductive Rule := Fifo | ProRata (min_allocation : pyfloat).

Record MatchingEngine := MkMatching {
  rule : Rule;
  stp_action : STPAction;
  enable_stp : bool;
  match_count : Z;
  trade_count : Z;
  stp_count : Z
}.

Definition create_matching_engine (algorithm : string) (a : STPAction) (enable : bool) (min_allocation : pyfloat) :
    option MatchingEngine :=
  let s := str_lower algorithm in
  if bool_decide (s = "fifo"%string) then Some (MkMatching Fifo a enable 0 0 0)
  else if bool_decide (s = "pro_rata" \/ s = "prorata")%string
       then Some (MkMatching (ProRata min_allocation) a enable 0 0 0)
  else None.

Definition count_match (m : MatchingEngine) : MatchingEngine :=
  MkMatching (rule m) (stp_action m) (enable_stp m) (match_count m + 1) (trade_count m) (stp_count m).
Definition count_events (trades stps : Z) (m : MatchingEngine) : MatchingEngine :=
  MkMatching (rule m) (stp_action m) (enable_stp m) (match_count m) (trade_count m + trades) (stp_count m + stps).
Definition reset_statistics (m : MatchingEngine) : MatchingEngine :=
  MkMatching (rule m) (stp_action m) (enable_stp m) 0 0 0.

(** ** Self-trade prevention *)

Definition check_stp (m : MatchingEngine) (incoming : string) (resting : LimitOrder) : STPResult :=
  let no := MkSTP false false false in
  if negb (truthy (Some incoming)) || negb (truthy (participant_id resting)) then no
  else if negb (bool_decide (Some incoming = participant_id resting)) then no
  else
    match stp_action m with
    | CANCEL_NEWEST => MkSTP true true false
    | CANCEL_OLDEST => MkSTP true false true
    | CANCEL_BOTH => MkSTP true true true
    | DECREMENT_AND_CANCEL => MkSTP true true false
    end.

(** What the check decides for one resting order of the queue. *)
Definition stp_of (m : MatchingEngine) (participant : option string) (o : LimitOrder) : STPResult :=
  if enable_stp m && truthy participant then check_stp m (default ""%string participant) o
  else MkSTP false false false.

(** ** One level *)

(** The loop over the queue: the heap, what is left to fill, the trades, the cancelled
    orders, the ids to take off the queue, the prevented self-trades, and whether the
    loop was left. *)
Record Queue := MkQueue {
  q_heap : order_heap;
  q_left : pyfloat;
  q_trades : list Trade;
  q_cancelled : list nat;
  q_remove : list string;
  q_stps : Z;
  q_done : bool
}.

Definition stop_queue (q : Queue) : Queue :=
  MkQueue (q_heap q) (q_left q) (q_trades q) (q_cancelled q) (q_remove q) (q_stps q) true.
Definition count_stp (q : Queue) : Queue :=
  MkQueue (q_heap q) (q_left q) (q_trades q) (q_cancelled q) (q_remove q) (q_stps q + 1) (q_done q).
Definition cancel_queued (k : nat) (id : string) (q : Queue) : Queue :=
  MkQueue (q_heap q) (q_left q) (q_trades q) (q_cancelled q ++ [k]) (q_remove q ++ [id]) (q_stps q) (q_done q).

(** A trade of [amount] with the order [k]. *)
Definition trade_with (clk : nat -> Z) (p : pyfloat) (s : Side) (taker : option string) (amount : pyfloat) (k : nat)
    (q : Queue) : Queue :=
  let o := q_heap q !!! k in
  let o' := (fill amount o).1 in
  MkQueue (<[k := o']> (q_heap q)) (fsub (q_left q) amount)
    (q_trades q ++ [MkTrade p amount (order_id o) (clk (List.length (q_trades q))) (is_own o) false taker (Some s)])
    (q_cancelled q) (if is_filled o' then q_remove q ++ [order_id o] else q_remove q) (q_stps q) (q_done q).

Section Level.
Context (m : MatchingEngine) (clk : nat -> Z) (p : pyfloat) (s : Side) (taker participant : option string).

Definition fifo_step (q : Queue) (k : nat) : Queue :=
  if q_done q || not_positive (q_left q) then stop_queue q
  else
    let o := q_heap q !!! k in
    let r := stp_of m participant o in
    let q := if triggered r then count_stp q else q in
    if triggered r && cancel_incoming r then stop_queue q
    else if triggered r && cancel_resting r then cancel_queued k (order_id o) q
    else
      let amount := fmin (q_left q) (remaining_qty o) in
      if positive amount then trade_with clk p s taker amount k q else q.

Definition prorata_step (min_allocation total filling : pyfloat) (q : Queue) (k : nat) : Queue :=
  if q_done q || not_positive (q_left q) then stop_queue q
  else
    let o := q_heap q !!! k in
    let r := stp_of m participant o in
    let q := if triggered r then count_stp q else q in
    if triggered r && cancel_resting r then cancel_queued k (order_id o) q
    else
      let share := fmul (fdiv (remaining_qty o) total) filling in
      let amount := if fltb share min_allocation then fzero
                    else fmin (fmin share (remaining_qty o)) (q_left q) in
      if positive amount then trade_with clk p s taker amount k q else q.

(** Filled and cancelled orders leave the queue and the index of the level. *)
Definition remove_all (ids : list string) (h : order_heap) (l : PriceLevel) : order_heap * PriceLevel :=
  fold_left (fun '(h, l) id => let '(h, l, _) := level_remove h id l in (h, l)) ids (h, l).

(** [_match_at_level]: heap, level, trades, cancelled, filled quantity, and the number
    of prevented self-trades. *)
Definition match_at_level (qty : pyfloat) (h : order_heap) (l : PriceLevel) :
    order_heap * PriceLevel * list Trade * list nat * pyfloat * Z :=
  let finish (from : pyfloat) (q : Queue) :=
    let '(h, l) := remove_all (q_remove q) (q_heap q) l in
    (h, l, q_trades q, q_cancelled q, fsub from (q_left q), q_stps q) in
  match rule m with
  | Fifo => finish qty (fold_left fifo_step (lv_orders l) (MkQueue h qty [] [] [] 0 false))
  | ProRata min_allocation =>
      let total := fadd (total_visible l) (total_hidden l) in
      if not_positive total then (h, l, [], [], fzero, 0)
      else
        let filling := fmin qty total in
        finish filling (fold_left (prorata_step min_allocation total filling) (lv_orders l)
                          (MkQueue h filling [] [] [] 0 false))
  end.
End Level.

(** ** Market and limit orders *)

Section Engine.
Context `{SortedDict}.

(** The loop over the levels. *)
Record Sweep := MkSweep {
  sw_engine : MatchingEngine;
  sw_book : OrderBook;
  sw_left : pyfloat;
  sw_trades : list Trade;
  sw_cancelled : list nat;
  sw_empty : list pyfloat;
  sw_done : bool
}.

Definition stop_sweep (w : Sweep) : Sweep :=
  MkSweep (sw_engine w) (sw_book w) (sw_left w) (sw_trades w) (sw_cancelled w) (sw_empty w) true.

(** One level of the side opposite to [s]; [within] is the price check. *)
Definition sweep_step (clk : nat -> Z) (s : Side) (within : pyfloat -> bool) (taker participant : option string)
    (w : Sweep) (key : pyfloat) : Sweep :=
  if sw_done w || not_positive (sw_left w) then stop_sweep w
  else
    let b := sw_book w in
    let p := side_key (opposite s) key in
    match sd_get (levels (opposite s) b) key with
    | None => w
    | Some l =>
        if negb (within p) then stop_sweep w
        else
          let '(h, l, ts, cancelled, filled, stps) :=
            match_at_level (sw_engine w) (fun i => clk (List.length (sw_trades w) + i)%nat) p s taker participant
              (sw_left w) (ob_heap b) l in
          let b := set_levels (opposite s) (sd_set (levels (opposite s) b) key l) (Lob.set_heap h b) in
          MkSweep (count_events (Z.of_nat (List.length ts)) stps (sw_engine w)) (drop_filled b ts)
            (fsub (sw_left w) filled) (sw_trades w ++ ts) (sw_cancelled w ++ cancelled)
            (if level_empty l then sw_empty w ++ [key] else sw_empty w) false
    end.

Definition sweep (clk : nat -> Z) (s : Side) (within : pyfloat -> bool) (taker participant : option string)
    (q : pyfloat) (m : MatchingEngine) (b : OrderBook) : Sweep :=
  let w := fold_left (sweep_step clk s within taker participant) (sd_items (levels (opposite s) b)).*1
             (MkSweep m b q [] [] [] false) in
  MkSweep (sw_engine w) (drop_levels (opposite s) (sw_empty w) (sw_book w)) (sw_left w) (sw_trades w)
    (sw_cancelled w) (sw_empty w) (sw_done w).

Definition create_fills (ts : list Trade) (taker : string) (original : pyfloat) : list Fill :=
  match ts with
  | [] => []
  | _ => [fill_from_trades taker original ts]
  end.

Definition match_market_order (clk : nat -> Z) (s : Side) (q : pyfloat) (taker participant : option string)
    (m : MatchingEngine) (b : OrderBook) : MatchingEngine * OrderBook * MatchResult :=
  let m := count_match m in
  if not_positive q then (m, b, empty_result)
  else
    let w := sweep clk s (fun _ => true) taker participant q m b in
    (sw_engine w, sw_book w,
     result_from_fills (create_fills (sw_trades w) (default ""%string taker) q) q None (sw_cancelled w)).

(** Whether a price [p] of the opposite side is within the limit of an order. *)
Definition within_limit (s : Side) (limit p : pyfloat) : bool :=
  match s with
  | BUY => fleb p limit
  | SELL => fleb limit p
  end.

Definition is_aggressive (o : LimitOrder) (b : OrderBook) : bool :=
  match best (opposite (side o)) b with
  | None => false
  | Some p => within_limit (side o) (price o) p
  end.

(** The rest of an order that was matched in part. *)
Definition rest_of (o : LimitOrder) (rest : pyfloat) : LimitOrder :=
  new_order (order_id o) (price o) (qty o) rest (timestamp_ns o) (side o) (hidden_qty o)
    (fmin (display_qty o) rest) (is_own o) (order_type o) (participant_id o).

Definition match_limit_order (clk : nat -> Z) (o : LimitOrder) (m : MatchingEngine) (b : OrderBook) :
    MatchingEngine * OrderBook * MatchResult :=
  let m := count_match m in
  if not_positive (remaining_qty o) then (m, b, empty_result)
  else if negb (is_aggressive o b) then (m, b, MkResult [] (Some o) [] fzero fzero false MAKER)
  else
    let w := sweep clk (side o) (within_limit (side o) (price o)) (Some (order_id o)) (participant_id o)
               (remaining_qty o) m b in
    (sw_engine w, sw_book w,
     result_from_fills (create_fills (sw_trades w) (order_id o) (remaining_qty o)) (remaining_qty o)
       (if positive (sw_left w) then Some (rest_of o (sw_left w)) else None) (sw_cancelled w)).

Definition simulate_market_order (s : Side) (q : pyfloat) (b : OrderBook) := walk_book s q b.

Definition estimate_market_impact (s : Side) (q : pyfloat) (b : OrderBook) : option pyfloat :=
  match mid_price b with
  | None => None
  | Some mid =>
      if feqb mid fzero then None
      else
        let '(avg, filled, _) := walk_book s q b in
        if fltb filled q then None
        else Some (fmul (fdiv (fabs (fsub avg mid)) mid) (float_of_int 10000))
  end.
End Engine.
