(* ===== verification/MatchingProps.v ===== *)
(** * What the matching engine guarantees

    [take_lots] is the specification of price-time priority: a quantity is taken from
    the front of what rests on a side.  Market and limit orders of [Matching] refine
    it, as does [execute_market_order] of [Lob]; the book keeps its invariant and is
    not crossed.  Concrete runs show what self-trade prevention does instead. *)
From Stdlib Require Import SpecFloat Sorted.
From Stdlib Require Import Ascii String.
From S2P Require Import Prelude PyDecimal DecArith PyFormat PyFloat PyText FloatInt Lob LobProps Matching.
Open Scope Z_scope.
Open Scope list_scope.

(** ** Taking from a queue *)

Section Take.
Context {A : Type}.
Implicit Types (q : list (A * Z)).

(** What is taken and what is left. *)
Fixpoint take_lots (n : Z) q : list (A * Z) * list (A * Z) :=
  match q with
  | [] => ([], [])
  | (a, m) :: r =>
      if n <=? 0 then ([], q)
      else if m <=? n then let '(t, rest) := take_lots (n - m) r in ((a, m) :: t, rest)
      else ([(a, n)], (a, m - n) :: r)
  end.

Definition lots_of q : Z := zsum (map snd q).

Definition positive_lots q : Prop := Forall (fun r => 0 < r.2) q.

Lemma take_lots_zero n q : n <= 0 -> take_lots n q = ([], q).
Proof. intros Hn. destruct q as [|[a m] q]; [done|]. cbn. by rewrite (proj2 (Z.leb_le n 0)). Qed.

Lemma lots_of_cons r q : lots_of (r :: q) = r.2 + lots_of q.
Proof. done. Qed.

Lemma lots_of_app q q' : lots_of (q ++ q') = lots_of q + lots_of q'.
Proof. induction q as [|r q IH]; [done|]. cbn [app]. rewrite !lots_of_cons, IH. lia. Qed.

Lemma lots_of_nonneg q : positive_lots q -> 0 <= lots_of q.
Proof. induction 1 as [|r q Hr _ IH]; [done|]. rewrite lots_of_cons. lia. Qed.

(** All that was asked for, or all there is. *)
Lemma take_lots_sum n q : positive_lots q -> 0 <= n -> lots_of (take_lots n q).1 = Z.min n (lots_of q).
Proof.
  intros Hq. revert n. induction Hq as [|[a m] q Hm Hq IH]; intros n Hn; [cbn; lia|].
  pose proof (lots_of_nonneg q Hq). rewrite lots_of_cons. cbn [snd] in *. cbn [take_lots].
  destruct (Z.leb_spec n 0); [cbn; lia|]. destruct (Z.leb_spec m n).
  - specialize (IH (n - m)). destruct (take_lots (n - m) q) as [t rest]. cbn [fst] in *.
    rewrite lots_of_cons. cbn [snd]. rewrite IH by lia. lia.
  - cbn. lia.
Qed.

(** Nothing is created or lost. *)
Lemma take_lots_conserves n q : positive_lots q -> lots_of (take_lots n q).1 + lots_of (take_lots n q).2 = lots_of q.
Proof.
  intros Hq. revert n. induction Hq as [|[a m] q Hm Hq IH]; intros n; [done|]. cbn [take_lots].
  destruct (n <=? 0); [done|]. destruct (m <=? n).
  - specialize (IH (n - m)). destruct (take_lots (n - m) q) as [t rest]. cbn [fst snd] in *.
    rewrite !lots_of_cons. cbn [snd]. lia.
  - cbn [fst snd]. rewrite !lots_of_cons. cbn. lia.
Qed.

(** One queue after another. *)
Lemma take_lots_app n q q' :
  positive_lots q ->
  take_lots n (q ++ q') =
    let '(t, rest) := take_lots n q in
    let '(t', rest') := take_lots (n - lots_of t) q' in
    match rest with
    | [] => (t ++ t', rest')
    | _ => (t, rest ++ q')
    end.
Proof.
  intros Hq. revert n. induction Hq as [|[a m] q Hm Hq IH]; intros n.
  - cbn. rewrite Z.sub_0_r. by destruct (take_lots n q').
  - cbn [app take_lots]. destruct (n <=? 0); [by destruct (take_lots _ q')|]. cbn [snd] in Hm.
    destruct (m <=? n).
    + rewrite IH. destruct (take_lots (n - m) q) as [t rest]. rewrite lots_of_cons. cbn [snd].
      replace (n - (m + lots_of t)) with (n - m - lots_of t) by lia.
      destruct (take_lots _ q') as [t' rest']. by destruct rest.
    + by destruct (take_lots _ q').
Qed.

Lemma take_lots_positive n q :
  positive_lots q -> positive_lots (take_lots n q).1 /\ positive_lots (take_lots n q).2.
Proof.
  intros Hq. revert n. induction Hq as [|[a m] q Hm Hq IH]; intros n; cbn [take_lots]; [split; constructor|].
  cbn [snd] in Hm. destruct (Z.leb_spec n 0); [split; [constructor|by constructor]|].
  destruct (Z.leb_spec m n).
  - specialize (IH (n - m)). destruct (take_lots (n - m) q) as [t rest]. split; [constructor|]; tauto.
  - split; constructor; try done; cbn; lia || constructor.
Qed.

(** Either the quantity is used up, or the queue is. *)
Lemma take_lots_rest n q : positive_lots q -> 0 <= n -> (take_lots n q).2 = [] \/ lots_of (take_lots n q).1 = n.
Proof.
  intros Hq Hn. rewrite take_lots_sum by done. pose proof (take_lots_conserves n q Hq) as Hc.
  rewrite take_lots_sum in Hc by done. destruct (take_lots_positive n q Hq) as [_ Hp].
  destruct (take_lots n q).2 as [|[a m] r]; [by left|right].
  apply Forall_cons in Hp as [Hm Hr]. pose proof (lots_of_nonneg r Hr). rewrite lots_of_cons in Hc. cbn in *. lia.
Qed.
End Take.

(** The price, the maker and the quantity of a trade, as [take_lots] lists them. *)
Definition whole (x : pyfloat) : Z := default 0 (float_to_int x).
Definition trade_row (t : Trade) : pyfloat * string * Z := (t_price t, maker_order_id t, whole (t_qty t)).

Lemma whole_int n : small n -> whole (float_of_int n) = n.
Proof. intros Hn. unfold whole. by rewrite float_to_int_int. Qed.

(** ** One queue *)

(** [n] lots are taken from the queue [ks] at price [p]: [done] is used up, [rest] is
    what still waits. *)
Record consumed (p : pyfloat) (h : order_heap) (ks : list nat) (n : Z) (h' : order_heap) (ts : list Trade)
    (done rest : list nat) : Prop := {
  cs_split : ks = done ++ rest;
  cs_length : List.length h' = List.length h;
  cs_out : forall k, k ∉ ks -> h' !!! k = h !!! k;
  cs_static : forall k, static (h' !!! k) = static (h !!! k) /\ queue_position (h' !!! k) = queue_position (h !!! k);
  cs_done : Forall (fun k => remaining_qty (h' !!! k) = fzero) done;
  cs_rest : Forall (fun k => exists m, has_lots (h' !!! k) m) rest;
  cs_take : take_lots n (view_of h p ks) = (map trade_row ts, view_of h' p rest);
  cs_trades : Forall (fun t => exists m, 0 < m < 2 ^ 53 /\ t_qty t = float_of_int m) ts;
  cs_makers : exists i, map maker_order_id ts = map (fun k => order_id (h !!! k)) (done ++ take i rest)
}.

Abbreviation waiting h ks := (Forall (fun k => exists m, has_lots (h !!! k) m) ks).

Lemma consumed_none p h ks n : n <= 0 \/ ks = [] -> waiting h ks -> consumed p h ks n h [] [] ks.
Proof.
  intros Hn Hk. split; try done; [|by exists 0%nat]. destruct Hn as [Hn| ->]; [by apply take_lots_zero|done].
Qed.

Lemma heap_insert_out (h : order_heap) k o j : j <> k -> (<[k := o]> h) !!! j = h !!! j.
Proof. intros Hne. by apply list_lookup_total_insert_ne. Qed.

(** The order in front, filled by [a] of its [m] lots. *)
Lemma fill_front h k m a :
  (k < List.length h)%nat -> has_lots (h !!! k) m -> 0 < a <= m ->
  let h1 := <[k := (fill (float_of_int a) (h !!! k)).1]> h in
  remaining_qty (h1 !!! k) = float_of_int (m - a) /\ List.length h1 = List.length h /\
  (forall j, static (h1 !!! j) = static (h !!! j) /\ queue_position (h1 !!! j) = queue_position (h !!! j)) /\
  (forall j, j <> k -> h1 !!! j = h !!! j).
Proof.
  intros Hk Hm Ha h1. pose proof (fill_spec (h !!! k) m a Hm Ha) as Hf. unfold h1.
  destruct (fill (float_of_int a) (h !!! k)) as [o' filled]. destruct Hf as (Hr & _ & Hs & Hq). cbn [fst].
  split_and!.
  - rewrite heap_insert by done. by rewrite decide_True.
  - apply length_insert.
  - intros j. rewrite heap_insert by done. by destruct (decide (j = k)) as [->|].
  - intros j Hne. by apply heap_insert_out.
Qed.

Lemma consumed_all p h k ks n m t h' ts done rest :
  NoDup (k :: ks) -> (k < List.length h)%nat -> has_lots (h !!! k) m -> m <= n ->
  trade_row t = (p, order_id (h !!! k), m) -> t_qty t = float_of_int m ->
  consumed p (<[k := (fill (float_of_int m) (h !!! k)).1]> h) ks (n - m) h' ts done rest ->
  consumed p h (k :: ks) n h' (t :: ts) (k :: done) rest.
Proof.
  intros Hnd Hk Hm Hn Ht Hq [C1 C2 C3 C4 C5 C6 C7 C8 C9]. apply NoDup_cons in Hnd as [Hout Hnd]. pose proof Hm as [Hm0 _].
  destruct (fill_front h k m m Hk Hm) as (F1 & F2 & F3 & F4); [lia|]. set (h1 := <[k := _]> h) in *.
  rewrite Z.sub_diag in F1. split.
  - by rewrite C1.
  - by rewrite C2.
  - intros j [Hj1 Hj2]%not_elem_of_cons. by rewrite C3, F4.
  - intros j. destruct (C4 j), (F3 j). split; congruence.
  - constructor; [|done]. by rewrite C3.
  - done.
  - cbn [view_of map take_lots]. rewrite (has_lots_lots _ _ Hm).
    rewrite (proj2 (Z.leb_gt n 0)), (proj2 (Z.leb_le m n)) by lia. fold (view_of h p ks).
    assert (view_of h1 p ks = view_of h p ks) as E.
    { apply view_of_ext. intros j Hj. rewrite F4; [done|]. by intros ->. }
    rewrite E in C7. rewrite C7. cbn [map]. by rewrite Ht.
  - constructor; [|done]. by exists m.
  - destruct C9 as [i E]. exists i. cbn [map app]. rewrite E. injection Ht as _ -> _. f_equal. apply map_ext. intros j.
    by destruct (static_fields _ _ (proj1 (F3 j))) as [-> _].
Qed.

Lemma consumed_part p h k ks n m t :
  NoDup (k :: ks) -> (k < List.length h)%nat -> has_lots (h !!! k) m -> 0 < n < m -> waiting h ks ->
  trade_row t = (p, order_id (h !!! k), n) -> t_qty t = float_of_int n ->
  consumed p h (k :: ks) n (<[k := (fill (float_of_int n) (h !!! k)).1]> h) [t] [] (k :: ks).
Proof.
  intros Hnd Hk Hm Hn Hw Ht Hq. apply NoDup_cons in Hnd as [Hout Hnd]. pose proof Hm as [Hm0 _].
  destruct (fill_front h k m n Hk Hm) as (F1 & F2 & F3 & F4); [lia|]. set (h1 := <[k := _]> h) in *.
  assert (has_lots (h1 !!! k) (m - n)) as Hl by (split; [lia|done]).
  assert (forall j, j ∈ ks -> h1 !!! j = h !!! j) as Hsame by (intros j Hj; apply F4; by intros ->).
  split; try done.
  - intros j [Hj1 Hj2]%not_elem_of_cons. by apply F4.
  - constructor; [by exists (m - n)|]. apply Forall_forall. intros j Hj. rewrite Hsame by done.
    rewrite Forall_forall in Hw. by apply Hw.
  - cbn [view_of map take_lots]. rewrite (has_lots_lots _ _ Hm), (has_lots_lots _ _ Hl).
    rewrite (proj2 (Z.leb_gt n 0)), (proj2 (Z.leb_gt m n)) by lia. rewrite Ht.
    assert (view_of h1 p ks = view_of h p ks) as E.
    { apply view_of_ext. intros j Hj. by rewrite Hsame. }
    unfold view_of in E. rewrite E. destruct (static_fields _ _ (proj1 (F3 k))) as [-> _]. done.
  - constructor; [|done]. exists n. split; [lia|done].
  - exists 1%nat. cbn. by injection Ht as _ -> _.
Qed.

(** The loop of the matching engine over a queue where no self-trade is prevented. *)
Section FifoLoop.
Context (m : MatchingEngine) (clk : nat -> Z) (p : pyfloat) (s : Side) (taker participant : option string).

Abbreviation fifo := (fifo_step m clk p s taker participant).

Definition no_stp (h : order_heap) (ks : list nat) : Prop :=
  Forall (fun k => triggered (stp_of m participant (h !!! k)) = false) ks.

Lemma stp_of_static o o' : static o = static o' -> stp_of m participant o = stp_of m participant o'.
Proof. intros E. unfold stp_of, check_stp. by destruct (static_fields _ _ E) as (_ & _ & _ & _ & ->). Qed.

Lemma no_stp_static h h' ks : (forall k, static (h' !!! k) = static (h !!! k)) -> no_stp h ks -> no_stp h' ks.
Proof.
  intros Hs Hn. eapply Forall_impl; [exact Hn|]. intros k. cbn beta. by rewrite (stp_of_static _ _ (Hs k)).
Qed.

(** Everything but the flag. *)
Definition same_queue (q q' : Queue) : Prop :=
  q_heap q' = q_heap q /\ q_left q' = q_left q /\ q_trades q' = q_trades q /\ q_cancelled q' = q_cancelled q /\
  q_remove q' = q_remove q /\ q_stps q' = q_stps q.

Lemma fifo_stopped ks q : q_done q || not_positive (q_left q) = true -> same_queue q (fold_left fifo ks q).
Proof.
  revert q. induction ks as [|k ks IH]; intros q Hq; [done|]. cbn [fold_left].
  assert (fifo q k = stop_queue q) as -> by (unfold fifo_step; by rewrite Hq).
  destruct (IH (stop_queue q) eq_refl) as (H1 & H2 & H3 & H4 & H5 & H6). by split_and!.
Qed.

Lemma lots_view_trades ts : lots_of (map trade_row ts) = zsum (map (fun t => whole (t_qty t)) ts).
Proof. unfold lots_of. by rewrite map_map. Qed.

Lemma fifo_fold ks h n q :
  q_heap q = h -> q_left q = float_of_int n -> q_done q = false -> 0 <= n < 2 ^ 53 -> NoDup ks -> refs_in h ks ->
  waiting h ks -> no_stp h ks ->
  let q' := fold_left fifo ks q in
  exists ts done rest, consumed p h ks n (q_heap q') ts done rest /\
    q_left q' = float_of_int (n - lots_of (map trade_row ts)) /\ q_trades q' = q_trades q ++ ts /\
    q_cancelled q' = q_cancelled q /\ q_remove q' = q_remove q ++ map (fun k => order_id (h !!! k)) done /\
    q_stps q' = q_stps q.
Proof.
  revert h n q. induction ks as [|k ks IH]; intros h n q <- Hl Hd Hn Hnd Hin Hw Hs.
  - exists [], [], []. split; [by apply consumed_none; [right|]|]. cbn. by rewrite Z.sub_0_r, !app_nil_r.
  - apply Forall_cons in Hw as [[a Ha] Hw]. apply Forall_cons in Hs as [Hs1 Hs]. apply Forall_cons in Hin as [Hk Hin].
    pose proof Ha as [Ha0 Hrem]. cbn [fold_left].
    destruct (decide (n = 0)) as [->|Hn0].
    { pose proof (fifo_stopped (k :: ks) q) as Hst. rewrite Hd, Hl in Hst.
      destruct (Hst eq_refl) as (H1 & H2 & H3 & H4 & H5 & H6). cbn [fold_left] in *.
      rewrite H1, H2, H3, H4, H5, H6, Hl. exists [], [], (k :: ks).
      split; [apply consumed_none; [by left|by constructor; [exists a|]]|]. cbn. by rewrite !app_nil_r. }
    assert (fifo q k = let amount := float_of_int (Z.min n a) in trade_with clk p s taker amount k q) as ->.
    { unfold fifo_step. rewrite Hd, Hl, not_positive_int by lia. rewrite (proj2 (Z.eqb_neq n 0)) by done. cbn [orb].
      rewrite Hs1. cbn [andb]. rewrite Hl, Hrem, fmin_int by (apply small_pos; lia).
      rewrite positive_int by lia. by rewrite (proj2 (Z.ltb_lt _ _)) by lia. }
    cbv zeta. destruct (fill_front (q_heap q) k a (Z.min n a) Hk Ha) as (F1 & F2 & F3 & F4); [lia|].
    set (t c := MkTrade p (float_of_int c) (order_id (q_heap q !!! k))
      (clk (List.length (q_trades q))) (is_own (q_heap q !!! k)) false taker (Some s)).
    assert (forall c, 0 <= c < 2 ^ 53 -> trade_row (t c) = (p, order_id (q_heap q !!! k), c)) as Hrow.
    { intros c Hc. unfold trade_row, t. cbn. by rewrite whole_int by (apply small_pos; lia). }
    destruct (Z.leb_spec a n) as [Hle|Hgt].
    + rewrite Z.min_r in * by done. rewrite Z.sub_diag in F1.
      set (h1 := <[k := (fill (float_of_int a) (q_heap q !!! k)).1]> (q_heap q)) in *.
      set (q1 := trade_with clk p s taker (float_of_int a) k q).
      apply NoDup_cons in Hnd as [Hout Hnd].
      assert (forall j, j ∈ ks -> h1 !!! j = q_heap q !!! j) as Hsame by (intros j Hj; apply F4; by intros ->).
      destruct (IH h1 (n - a) q1) as (ts & dn & rest & Hc & G1 & G2 & G3 & G4 & G5).
      * done.
      * unfold q1. cbn [trade_with q_left]. by rewrite Hl, fsub_int by (apply small_pos; lia).
      * done.
      * lia.
      * done.
      * unfold refs_in in *. by rewrite F2.
      * apply Forall_forall. intros j Hj. rewrite Hsame by done. rewrite Forall_forall in Hw. by apply Hw.
      * apply (no_stp_static (q_heap q)); [|done]. intros j. apply F3.
      * exists (t a :: ts), (k :: dn), rest. fold q1.
        assert (q_remove q1 = q_remove q ++ [order_id (q_heap q !!! k)]) as Hrm.
        { unfold q1. cbn [trade_with q_remove]. unfold is_filled.
          assert (h1 !!! k = (fill (float_of_int a) (q_heap q !!! k)).1) as E
            by (unfold h1; rewrite heap_insert, decide_True by done; done).
          rewrite <- E, F1. done. }
        split; [apply (consumed_all p (q_heap q) k ks n a (t a)); try done; [by constructor|by apply Hrow; lia]|]. rewrite G1, G2, G3, G4, G5, Hrm.
        change (q_trades q1) with (q_trades q ++ [t a]).
        cbn [map]. rewrite lots_of_cons, Hrow by lia. cbn [snd]. rewrite <- !app_assoc. split_and!; try done.
        { f_equal. lia. }
        f_equal. cbn [app]. f_equal. apply map_ext. intros j. by destruct (static_fields _ _ (proj1 (F3 j))) as [-> _].
    + rewrite Z.min_l in * by lia.
      set (q1 := trade_with clk p s taker (float_of_int n) k q).
      assert (q_left q1 = float_of_int 0) as Hl1.
      { unfold q1. cbn [trade_with q_left]. rewrite Hl, fsub_int by (apply small_pos; lia). by rewrite Z.sub_diag. }
      destruct (fifo_stopped ks q1) as (H1 & H2 & H3 & H4 & H5 & H6); [rewrite Hl1; apply orb_true_r|].
      exists [t n], [], (k :: ks). rewrite H1, H2, H3, H4, H5, H6, Hl1. unfold q1. cbn [trade_with q_heap q_trades q_cancelled q_remove q_stps].
      split; [apply (consumed_part p (q_heap q) k ks n a (t n)); try done; [lia|by apply Hrow; lia]|].
      cbn [map]. rewrite lots_of_cons, Hrow by lia. cbn. rewrite app_nil_r. split_and!; try done.
      * by replace (n - (n + 0)) with 0 by lia.
      * assert (<[k := (fill (float_of_int n) (q_heap q !!! k)).1]> (q_heap q) !!! k = (fill (float_of_int n) (q_heap q !!! k)).1) as E
          by (rewrite heap_insert, decide_True by done; done).
        rewrite <- E. rewrite (is_filled_int _ (a - n)) by (try done; lia). by rewrite (proj2 (Z.eqb_neq _ _)) by lia.
Qed.
End FifoLoop.

(** ** One level *)

Lemma remove_prefix dn h l rest :
  level_struct h l -> lv_orders l = dn ++ rest ->
  let '(h', l') := remove_all (map (fun k => order_id (h !!! k)) dn) h l in
  level_struct h' l' /\ lv_orders l' = rest /\ List.length h' = List.length h /\
  (forall k, static (h' !!! k) = static (h !!! k) /\ remaining_qty (h' !!! k) = remaining_qty (h !!! k)) /\
  (forall k, k ∉ lv_orders l -> h' !!! k = h !!! k) /\ lv_price l' = lv_price l.
Proof.
  revert h l. induction dn as [|k dn IH]; intros h l Hl Ho; [done|].
  assert (k ∈ lv_orders l) as Hk by (rewrite Ho; by left).
  cbn [map]. unfold remove_all. cbn [fold_left]. pose proof (struct_remove h l k Hl Hk) as Hr.
  destruct (level_remove h _ l) as [[h1 l1] r]. destruct Hr as (Hl1 & _ & Ho1 & Hh1 & Hp1).
  assert (remove_first k (lv_orders l) = dn ++ rest) as Hrf by (rewrite Ho; cbn; by rewrite decide_True).
  rewrite Hrf in Ho1, Hh1.
  assert (refs_in h (dn ++ rest) /\ NoDup (dn ++ rest)) as [Hin Hnd].
  { pose proof Hl as [L1 L2 _ _]. rewrite Ho in L1, L2. unfold refs_in in L2. cbn [app] in L1, L2.
    apply Forall_cons in L2 as [_ L2]. apply NoDup_cons in L1 as [_ L1]. by split. }
  destruct (recompute_spec h (dn ++ rest) Hnd Hin) as (R1 & R2 & _). rewrite <- Hh1 in R1, R2.
  assert (forall j, static (h1 !!! j) = static (h !!! j) /\ remaining_qty (h1 !!! j) = remaining_qty (h !!! j)) as Hst.
  { intros j. rewrite Hh1. destruct (recompute_static h (dn ++ rest) j Hnd Hin) as (S1 & S2 & _). done. }
  specialize (IH h1 l1 Hl1 Ho1). unfold remove_all in IH.
  assert (map (fun k => order_id (h1 !!! k)) dn = map (fun k => order_id (h !!! k)) dn) as Em.
  { apply map_ext. intros j. by destruct (static_fields _ _ (proj1 (Hst j))) as [-> _]. }
  rewrite Em in IH. destruct (fold_left _ _ _) as [h' l']. destruct IH as (I1 & I2 & I3 & I4 & I5 & I6).
  split_and!; [done|done|by rewrite I3| | |by rewrite I6].
  - intros j. destruct (I4 j), (Hst j). split; congruence.
  - intros j Hj. rewrite Ho in Hj. apply not_elem_of_cons in Hj as [_ Hj]. rewrite I5 by (by rewrite Ho1). by apply R2.
Qed.

(** [n] lots taken from a level. *)
Record level_taken (s : Side) (key : pyfloat) (h : order_heap) (l : PriceLevel) (n : Z) (h' : order_heap)
    (l' : PriceLevel) (ts : list Trade) (done : list nat) : Prop := {
  lt_level : level_ok s key h' l';
  lt_price : lv_price l' = lv_price l;
  lt_orders : lv_orders l = done ++ lv_orders l';
  lt_length : List.length h' = List.length h;
  lt_out : forall k, k ∉ lv_orders l -> h' !!! k = h !!! k;
  lt_static : forall k, static (h' !!! k) = static (h !!! k);
  lt_done : Forall (fun k => remaining_qty (h' !!! k) = fzero) done;
  lt_take : take_lots n (view_of h (side_key s key) (lv_orders l)) =
            (map trade_row ts, view_of h' (side_key s key) (lv_orders l'));
  lt_trades : Forall (fun t => exists m, 0 < m < 2 ^ 53 /\ t_qty t = float_of_int m) ts;
  lt_makers : exists i, map maker_order_id ts = map (fun k => order_id (h !!! k)) (done ++ take i (lv_orders l'))
}.

Lemma level_waiting s key h l : level_ok s key h l -> waiting h (lv_orders l).
Proof. intros Hl. eapply Forall_impl; [apply (lo_orders _ _ _ _ Hl)|]. intros k (_ & _ & _ & Hn). exact Hn. Qed.

Lemma view_positive h p ks : waiting h ks -> positive_lots (view_of h p ks).
Proof.
  intros Hw. unfold view_of. apply List.Forall_map. eapply Forall_impl; [exact Hw|].
  intros k [m Hm]. cbn. rewrite (has_lots_lots _ _ Hm). apply Hm.
Qed.

Lemma struct_heap h h' l :
  List.length h' = List.length h ->
  (forall k, static (h' !!! k) = static (h !!! k) /\ queue_position (h' !!! k) = queue_position (h !!! k)) ->
  level_struct h l -> level_struct h' l.
Proof.
  intros Hlen Hs [L1 L2 L3 L4]. split; [done|by unfold refs_in; rewrite Hlen| |].
  - intros id k. rewrite L3. by destruct (static_fields _ _ (proj1 (Hs k))) as [-> _].
  - intros i k Hk. destruct (Hs k) as [_ ->]. by apply L4.
Qed.

(** What a matched queue leaves, once its filled orders are removed. *)
Lemma taken_from_consumed s key h l n h1 ts dn rest h' l' :
  level_ok s key h l -> consumed (side_key s key) h (lv_orders l) n h1 ts dn rest ->
  level_struct h' l' -> lv_orders l' = rest -> lv_price l' = lv_price l -> List.length h' = List.length h1 ->
  (forall k, static (h' !!! k) = static (h1 !!! k) /\ remaining_qty (h' !!! k) = remaining_qty (h1 !!! k)) ->
  (forall k, k ∉ lv_orders l -> h' !!! k = h1 !!! k) ->
  level_taken s key h l n h' l' ts dn.
Proof.
  intros Hl [C1 C2 C3 C4 C5 C6 C7 C8 C9] Hs' Ho' Hp' Hlen Hst Hout. split; rewrite ?Ho'.
  - apply level_ok_struct. split; [done|]. rewrite Ho'. apply Forall_forall. intros k Hk.
    rewrite Forall_forall in C6. destruct (C6 k Hk) as [m [Hm Em]].
    pose proof (lo_orders _ _ _ _ Hl) as Hok. rewrite Forall_forall in Hok.
    destruct (Hok k) as (O1 & O2 & O3 & _); [rewrite C1; apply elem_of_app; by right|].
    assert (static (h' !!! k) = static (h !!! k)) as E by (destruct (Hst k), (C4 k); congruence).
    destruct (static_fields _ _ E) as (_ & Ep & Es & _). split_and!; rewrite ?Ep, ?Es; try done.
    exists m. split; [done|]. by destruct (Hst k) as [_ ->].
  - done.
  - done.
  - congruence.
  - intros k Hk. by rewrite Hout, C3.
  - intros k. destruct (Hst k), (C4 k). congruence.
  - eapply Forall_impl; [exact C5|]. intros k. cbn beta. by destruct (Hst k) as [_ ->].
  - rewrite C7. f_equal. apply view_of_ext. intros k _. destruct (Hst k) as [E ->].
    by destruct (static_fields _ _ E) as [-> _].
  - done.
  - done.
Qed.

Lemma match_at_level_fifo m clk s taker participant side key n h l :
  rule m = Fifo -> level_ok side key h l -> 0 <= n < 2 ^ 53 -> no_stp m participant h (lv_orders l) ->
  let '(h', l', ts, cancelled, filled, stps) :=
    match_at_level m clk (side_key side key) s taker participant (float_of_int n) h l in
  exists dn, level_taken side key h l n h' l' ts dn /\ cancelled = [] /\ stps = 0 /\
    filled = float_of_int (lots_of (map trade_row ts)).
Proof.
  intros Hr Hl Hn Hs. unfold match_at_level. rewrite Hr. set (p := side_key side key).
  destruct (fifo_fold m clk p s taker participant (lv_orders l) h n (MkQueue h (float_of_int n) [] [] [] 0 false))
    as (ts & dn & rest & Hc & G1 & G2 & G3 & G4 & G5);
    [done|done|done|done|apply Hl|apply Hl|by eapply level_waiting|done|].
  set (q := fold_left _ _ _) in *. cbn [q_trades q_cancelled q_remove q_stps app] in G2, G3, G4, G5.
  pose proof Hc as [C1 C2 C3 C4 C5 C6 C7 C8 C9].
  apply level_ok_struct in Hl as Hst. destruct Hst as [Hst _].
  pose proof (struct_heap h (q_heap q) l C2 C4 Hst) as Hst1.
  pose proof (remove_prefix dn (q_heap q) l rest Hst1 C1) as Hrm. rewrite G4.
  assert (map (fun k => order_id (q_heap q !!! k)) dn = map (fun k => order_id (h !!! k)) dn) as Em.
  { apply map_ext. intros j. by destruct (static_fields _ _ (proj1 (C4 j))) as [-> _]. }
  rewrite Em in Hrm. destruct (remove_all _ _ _) as [h' l']. destruct Hrm as (R1 & R2 & R3 & R4 & R5 & R6).
  exists dn. rewrite G2, G3, G5. split; [by eapply (taken_from_consumed side key h l n (q_heap q))|]. split_and!; try done.
  rewrite G1.
  assert (0 <= lots_of (map trade_row ts) <= n) as Hsum.
  { assert (lots_of (map trade_row ts) = Z.min n (lots_of (view_of h p (lv_orders l)))) as ->.
    { rewrite <- take_lots_sum by (try lia; apply view_positive; by eapply level_waiting). by rewrite C7. }
    pose proof (lots_of_nonneg (view_of h p (lv_orders l))) as H0.
    specialize (H0 ltac:(apply view_positive; by eapply level_waiting)). lia. }
  rewrite fsub_int by (apply small_pos; lia). f_equal. lia.
Qed.

(** ** The loop of a level *)

Definition index_ok (h : order_heap) (l : PriceLevel) : Prop :=
  forall id k, dget (lv_index l) id = Some k <-> k ∈ lv_orders l /\ order_id (h !!! k) = id.

Lemma index_ok_heap h h' l : (forall k, static (h' !!! k) = static (h !!! k)) -> index_ok h l -> index_ok h' l.
Proof. intros Hs Hi id k. rewrite (Hi id k). by destruct (static_fields _ _ (Hs k)) as [-> _]. Qed.

(** The order in front leaves the queue and the index. *)
Lemma index_pop h l k ks :
  NoDup (lv_orders l) -> lv_orders l = k :: ks -> index_ok h l ->
  index_ok h (set_index (ddel (lv_index l) (order_id (h !!! k))) (set_orders ks l)).
Proof.
  intros Hnd Ho Hi id j. cbn [set_index set_orders lv_orders lv_index]. rewrite Ho in Hnd.
  apply NoDup_cons in Hnd as [Hk Hnd].
  destruct (decide (id = order_id (h !!! k))) as [->|Hne].
  - rewrite dget_ddel_eq. split; [done|]. intros [Hj E].
    assert (dget (lv_index l) (order_id (h !!! k)) = Some j) as E1 by (apply Hi; split; [rewrite Ho; by right|done]).
    assert (dget (lv_index l) (order_id (h !!! k)) = Some k) as E2 by (apply Hi; split; [rewrite Ho; by left|done]).
    congruence.
  - rewrite dget_ddel_ne by done. rewrite (Hi id j), Ho. split; [|intros [? ?]; split; [by right|done]].
    intros [[->|Hj]%elem_of_cons E]; [by destruct Hne|done].
Qed.

Lemma level_fill_loop_spec clk ks : forall fuel h l n f ts,
  lv_orders l = ks -> (List.length ks < fuel)%nat -> 0 <= n -> 0 <= f -> f + n < 2 ^ 53 -> NoDup ks -> refs_in h ks ->
  waiting h ks -> index_ok h l ->
  let '(h', l', filled, ts') := level_fill_loop fuel clk (float_of_int n) h l (float_of_int f) ts in
  exists new dn, consumed (lv_price l) h ks n h' new dn (lv_orders l') /\ index_ok h' l' /\ lv_price l' = lv_price l /\
    ts' = ts ++ new /\ filled = float_of_int (f + lots_of (map trade_row new)).
Proof.
  induction ks as [|k ks IH]; intros [|fuel] h l n f ts Ho Hf Hn Hf0 Hfn Hnd Hin Hw Hi; cbn [List.length] in Hf; try lia;
    cbn [level_fill_loop]; rewrite Ho.
  { exists [], []. rewrite Ho. split; [by apply consumed_none; [right|]|]. by rewrite app_nil_r, Z.add_0_r. }
  rewrite positive_int by lia. destruct (Z.ltb_spec 0 n) as [Hpos|Hz]; cbn [negb].
  2: { exists [], []. rewrite Ho. split; [apply consumed_none; [left; lia|done]|]. by rewrite app_nil_r, Z.add_0_r. }
  apply Forall_cons in Hw as [[a Ha] Hw]. apply Forall_cons in Hin as [Hk Hin].
  pose proof Ha as [Ha0 Hrem]. cbv zeta. rewrite Hrem, fmin_int by (apply small_pos; lia).
  rewrite positive_int by lia. rewrite (proj2 (Z.ltb_lt 0 (Z.min n a))) by lia.
  destruct (fill_front h k a (Z.min n a) Hk Ha) as (F1 & F2 & F3 & F4); [lia|].
  set (amt := Z.min n a) in *. set (h1 := <[k := (fill (float_of_int amt) (h !!! k)).1]> h) in *.
  rewrite (is_filled_int (h1 !!! k) (a - amt)) by (try done; lia).
  rewrite fadd_int, fsub_int by (apply small_pos; lia).
  set (t := MkTrade (lv_price l) (float_of_int amt) (order_id (h !!! k)) _ _ _ _ _).
  assert (trade_row t = (lv_price l, order_id (h !!! k), amt)) as Hrow.
  { unfold trade_row, t. cbn. by rewrite whole_int by (apply small_pos; lia). }
  set (l1 := set_totals _ _ l).
  assert (index_ok h1 l1) as Hi1 by (apply (index_ok_heap h); [intros j; apply F3|done]).
  pose proof Hnd as [Hout Hnd']%NoDup_cons.
  assert (forall j, j ∈ ks -> h1 !!! j = h !!! j) as Hsame by (intros j Hj; apply F4; by intros ->).
  assert (waiting h1 ks) as Hw1.
  { apply Forall_forall. intros j Hj. rewrite Hsame by done. rewrite Forall_forall in Hw. by apply Hw. }
  destruct (Z.eqb_spec (a - amt) 0) as [Hall|Hpart].
  - assert (amt = a /\ a <= n) as [Eamt Han] by lia. clearbody amt. subst amt.
    set (l2 := set_index _ _).
    specialize (IH fuel h1 l2 (n - a) (f + a) (ts ++ [t])).
    assert (index_ok h1 l2) as Hi2.
    { unfold l2. assert (order_id (h !!! k) = order_id (h1 !!! k)) as -> by (by destruct (static_fields _ _ (proj1 (F3 k))) as [-> _]).
      apply (index_pop h1 l1 k ks); [by cbn; rewrite Ho|done|done]. }
    specialize (IH eq_refl ltac:(lia) ltac:(lia) ltac:(lia) ltac:(lia) Hnd').
    specialize (IH ltac:(unfold refs_in in *; by rewrite F2) Hw1 Hi2).
    destruct (level_fill_loop _ _ _ _ _ _ _) as [[[h' l'] filled] ts']. destruct IH as (new & dn & Hc & Hi' & Hp' & -> & ->).
    exists (t :: new), (k :: dn). split_and!; try done.
    + apply (consumed_all _ h k ks n a t); try done.
    + by rewrite <- app_assoc.
    + cbn [map]. rewrite lots_of_cons, Hrow. cbn [snd]. f_equal. lia.
  - destruct fuel as [|fuel]; [lia|]. assert (amt = n /\ n < a) as [Eamt Han] by lia. clearbody amt. subst amt. rewrite Z.sub_diag in *.
    cbn [level_fill_loop]. change (lv_orders l1) with (lv_orders l). rewrite Ho, positive_int by lia. cbn [Z.ltb Z.compare negb].
    exists [t], []. change (lv_orders l1) with (lv_orders l). rewrite Ho. split_and!; try done.
    + apply (consumed_part _ h k ks n a t); try done.
    + cbn [map]. rewrite lots_of_cons, Hrow. cbn. f_equal. lia.
Qed.

(** Both matchers take the same lots, and leave the same level. *)
Lemma level_fill_taken clk side key n h l :
  level_ok side key h l -> lv_price l = side_key side key -> 0 <= n < 2 ^ 53 ->
  let '(h', l', filled, ts) := level_fill clk (float_of_int n) h l in
  exists dn, level_taken side key h l n h' l' ts dn /\ filled = float_of_int (lots_of (map trade_row ts)).
Proof.
  intros Hl Hp Hn. unfold level_fill.
  pose proof (level_fill_loop_spec clk (lv_orders l) (S (List.length (lv_orders l))) h l n 0 []) as Hs.
  specialize (Hs eq_refl ltac:(lia) ltac:(lia) ltac:(lia) ltac:(lia) (lo_nodup _ _ _ _ Hl) (lo_refs _ _ _ _ Hl)).
  specialize (Hs (level_waiting _ _ _ _ Hl) (lo_index _ _ _ _ Hl)). change (float_of_int 0) with fzero in Hs.
  destruct (level_fill_loop _ _ _ _ _ _ _) as [[[h1 l'] filled] ts].
  destruct Hs as (new & dn & Hc & Hi & Hp' & -> & ->). cbn [app]. exists dn. split; [|done]. rewrite Hp in *.
  pose proof Hc as [C1 C2 C3 C4 C5 C6 C7 C8 C9].
  apply level_ok_struct in Hl as Hst. destruct Hst as [Hst _].
  pose proof (struct_heap h h1 l C2 C4 Hst) as Hst1. pose proof Hst1 as [S1 S2 _ _].
  assert (NoDup (lv_orders l')) as Hnd by (rewrite C1 in S1; by apply NoDup_app in S1 as (_ & _ & ?)).
  assert (forall k, k ∈ lv_orders l' -> k ∈ lv_orders l) as Hsub by (intros k Hk; rewrite C1, elem_of_app; by right).
  pose proof (sub_refs _ _ _ S2 Hsub) as Hin'.
  destruct (recompute_spec h1 (lv_orders l') Hnd Hin') as (R1 & R2 & _).
  apply (taken_from_consumed side key h l n h1 new dn (lv_orders l')); try done.
  - destruct l' as [p' ks' v' hd' ix']. by apply (struct_shrink h1 l).
  - by rewrite Hp', Hp.
  - intros k. by destruct (recompute_static h1 (lv_orders l') k Hnd Hin') as (? & ? & _).
  - intros k Hk. apply R2. intros Hk'. by apply Hk, Hsub.
Qed.

Lemma level_taken_tag s key h l n h' l' ts dn taker own side :
  level_taken s key h l n h' l' ts dn -> level_taken s key h l n h' l' (map (tag_trade taker own side) ts) dn.
Proof.
  intros [T1 T2 T3 T4 T5 T6 T7 T8 T9 T10]. split; try done.
  - rewrite T8. by rewrite map_map.
  - by apply List.Forall_map.
  - destruct T10 as [i E]. exists i. by rewrite map_map.
Qed.

(** ** Filled makers *)

Section Filled.
Context `{SortedDictLaws}.
Implicit Types (b : OrderBook) (s : Side).

Abbreviation items s b := (sd_items (levels s b)).

Lemma dget_dels {V} ids (d : list (string * V)) id :
  dget (fold_left ddel ids d) id = if decide (id ∈ ids) then None else dget d id.
Proof.
  revert d. induction ids as [|i ids IH]; intros d; cbn [fold_left].
  - rewrite decide_False; [done|]. by intros ?%elem_of_nil.
  - rewrite IH. destruct (decide (id ∈ ids)) as [Hin|Hin]; [rewrite decide_True by (by right); done|].
    destruct (decide (id = i)) as [->|Hne]; [rewrite dget_ddel_eq; by rewrite decide_True by (by left)|].
    rewrite dget_ddel_ne by done. rewrite decide_False; [done|]. by apply not_elem_of_cons.
Qed.

Lemma drop_filled_done (f : nat -> string) s dn : forall b ts,
  map maker_order_id ts = map f dn -> NoDup (map f dn) ->
  Forall (fun k => dget (orders b) (f k) = Some (k, s) /\ remaining_qty (ob_heap b !!! k) = fzero) dn ->
  drop_filled b ts =
    set_index_of (fold_left ddel (map f dn) (orders b)) (order_count b - Z.of_nat (List.length dn)) b.
Proof.
  induction dn as [|k dn IH]; intros b [|t ts]; try done; intros Hm Hnd Hdn.
  - cbn. rewrite Z.sub_0_r. by destruct b.
  - injection Hm as Ht Hm. apply Forall_cons in Hdn as [[Hd Hr] Hdn]. cbn [map] in Hnd.
    apply NoDup_cons in Hnd as [Hout Hnd]. cbn [drop_filled fold_left map List.length]. unfold drop_filled in *.
    cbn [fold_left]. rewrite Ht, Hd. unfold is_filled. rewrite Hr. change (not_positive fzero) with true. cbn iota.
    rewrite IH; try done.
    + unfold set_index_of. cbn. f_equal. lia.
    + eapply Forall_impl; [apply Forall_and; split; [exact Hdn|apply Forall_forall; intros j Hj; exact Hj]|].
      intros j [[Hj1 Hj2] Hj]. split; [|by destruct b]. destruct b. cbn in *. rewrite dget_ddel_ne; [done|].
      intros E. apply Hout. rewrite <- E. apply list_elem_of_In, in_map. by apply list_elem_of_In.
Qed.

Lemma drop_filled_rest (f : nat -> string) s ks b ts :
  map maker_order_id ts = map f ks ->
  Forall (fun k => dget (orders b) (f k) = Some (k, s) /\ is_filled (ob_heap b !!! k) = false) ks ->
  drop_filled b ts = b.
Proof.
  intros Hm Hks. revert ts Hm. induction Hks as [|k ks [Hd Hf] _ IH]; intros [|t ts]; try done.
  intros [= Ht Hm]. unfold drop_filled in *. cbn [fold_left]. rewrite Ht, Hd, Hf. by apply IH.
Qed.

(** Trades with the orders [dn], used up, and some that are not. *)
Lemma drop_filled_spec (f : nat -> string) s dn ks b ts :
  map maker_order_id ts = map f (dn ++ ks) -> NoDup (map f (dn ++ ks)) ->
  Forall (fun k => dget (orders b) (f k) = Some (k, s)) (dn ++ ks) ->
  Forall (fun k => remaining_qty (ob_heap b !!! k) = fzero) dn -> Forall (fun k => is_filled (ob_heap b !!! k) = false) ks ->
  drop_filled b ts =
    set_index_of (fold_left ddel (map f dn) (orders b)) (order_count b - Z.of_nat (List.length dn)) b.
Proof.
  intros Hm Hnd Hd Hdn Hks. rewrite map_app in Hm, Hnd. apply Forall_app in Hd as [Hd1 Hd2].
  apply NoDup_app in Hnd as (Hnd1 & Hdis & _).
  apply map_eq_app in Hm as (ts1 & ts2 & -> & Hm1 & Hm2). unfold drop_filled. rewrite fold_left_app.
  fold (drop_filled b ts1). rewrite (drop_filled_done f s dn) by (try done; by apply Forall_and).
  apply (drop_filled_rest f s ks); [done|]. apply Forall_forall. intros k Hk. rewrite Forall_forall in Hd2, Hks.
  split; [|specialize (Hks k Hk); by destruct b]. specialize (Hd2 k Hk). destruct b. cbn in *.
  rewrite dget_dels, decide_False; [done|]. intros Hin. apply (Hdis (f k)); [done|].
  apply list_elem_of_In, in_map. by apply list_elem_of_In.
Qed.

(** One level of a sweep: the level is matched and put back, the filled makers leave
    the index. *)
Definition level_put s key (h : order_heap) (l : PriceLevel) (ts : list Trade) b : OrderBook :=
  drop_filled (set_levels s (sd_set (levels s b) key l) (Lob.set_heap h b)) ts.

Lemma taken_index b s u key l w n h' l' ts dn :
  book_in true b -> items s b = u ++ (key, l) :: w -> level_taken s key (ob_heap b) l n h' l' ts dn ->
  let ids := map (fun k => order_id (ob_heap b !!! k)) dn in
  level_put s key h' l' ts b =
    set_index_of (fold_left ddel ids (orders b)) (order_count b - Z.of_nat (List.length dn))
      (set_levels s (sd_set (levels s b) key l') (Lob.set_heap h' b)).
Proof.
  intros Hb Hi [T1 T2 T3 T4 T5 T6 T7 T8 T9 [i T10]] ids. unfold level_put. set (b1 := set_levels s _ _).
  assert (orders b1 = orders b /\ order_count b1 = order_count b /\ ob_heap b1 = h') as (E1 & E2 & E3)
    by (unfold b1; by destruct s).
  assert (level_ok s key (ob_heap b) l) as Hl.
  { apply (so_levels _ _ _ (bo_sides _ _ Hb s)). rewrite Hi, elem_of_app. right. by left. }
  assert (forall k, k ∈ dn ++ take i (lv_orders l') -> k ∈ lv_orders l) as Hsub.
  { intros k. rewrite T3, !elem_of_app. intros [Hk|Hk]; [by left|right]. eapply elem_of_take in Hk as (j & Hj & _).
    by eapply list_elem_of_lookup_2. }
  rewrite <- E1, <- E2. rewrite (drop_filled_spec (fun k => order_id (ob_heap b !!! k)) s dn (take i (lv_orders l'))); try done.
  - pose proof (lo_nodup _ _ _ _ Hl) as Hnd. rewrite T3 in Hnd.
    assert (NoDup (dn ++ take i (lv_orders l'))) as Hnd'.
    { apply NoDup_app in Hnd as (N1 & N2 & N3). rewrite <- (take_drop i (lv_orders l')) in N2, N3.
      apply NoDup_app. split_and!; [done| |by apply NoDup_app in N3 as (? & _ & _)].
      intros k Hk Hk'. apply (N2 k Hk), elem_of_app. by left. }
    clear -Hnd' Hsub Hl. induction Hnd' as [|k ks Hk Hnd IH]; [constructor|]. cbn [map]. constructor.
    + intros (j & E & Hj)%list_elem_of_In%in_map_iff. apply list_elem_of_In in Hj. apply Hk.
      rewrite (level_unique _ _ _ _ k j Hl); [done|apply Hsub; by left|apply Hsub; by right|by symmetry].
    + apply IH. intros j Hj. apply Hsub. by right.
  - apply Forall_forall. intros k Hk. rewrite E1. apply (bo_index _ _ Hb). split; [|done].
    rewrite (side_refs_split s b u [(key, l)] w Hi), refs_single, !elem_of_app. right. left. by apply Hsub.
  - by rewrite E3.
  - rewrite E3. apply Forall_forall. intros k Hk. eapply elem_of_take in Hk as (j & Hj & _).
    apply list_elem_of_lookup_2 in Hj. pose proof (lo_orders _ _ _ _ T1) as Ho. rewrite Forall_forall in Ho.
    destruct (Ho k Hj) as (_ & _ & _ & m & Hm & Em). rewrite (is_filled_int _ m) by (done || lia). lia.
Qed.

Lemma level_step b s u key l w n h' l' ts dn :
  book_in true b -> items s b = u ++ (key, l) :: w -> level_taken s key (ob_heap b) l n h' l' ts dn ->
  let b' := level_put s key h' l' ts b in
  book_in true b' /\ items s b' = u ++ (key, l') :: w /\ items (opposite s) b' = items (opposite s) b /\ ob_heap b' = h'.
Proof.
  intros Hb Hi HT b'. pose proof (taken_index b s u key l w n h' l' ts dn Hb Hi HT) as Eb. fold b' in Eb.
  pose proof HT as [T1 T2 T3 T4 T5 T6 _ _ _ _].
  pose proof (so_sorted _ _ _ (bo_sides _ _ Hb s)) as Hsort. rewrite Hi in Hsort.
  assert (is_num key = true) as Hnk by (by apply sorted_app in Hsort as (_ & (? & _) & _)).
  destruct (items_mid u key l w key l' Hsort Hnk (feqb_refl key Hnk)) as (_ & Hset & _).
  destruct (so_levels _ _ _ (bo_sides _ _ Hb s) key l) as [Hl [_ Hlp]]; [rewrite Hi, elem_of_app; right; by left|].
  assert (items s b' = u ++ (key, l') :: w /\ items (opposite s) b' = items (opposite s) b /\ ob_heap b' = h' /\
    orders b' = fold_left ddel (map (fun k => order_id (ob_heap b !!! k)) dn) (orders b) /\
    order_count b' = order_count b - Z.of_nat (List.length dn)) as (F1 & F2 & F3 & F4 & F5).
  { rewrite Eb. rewrite <- Hset. rewrite <- Hi. clear -Hnk H0. destruct s; cbn; split_and!; try done; by apply sd_set_items. }
  split; [|done].
  pose proof (side_refs_split s b u [(key, l)] w Hi) as R1. pose proof (side_refs_split s b' u [(key, l')] w F1) as R2.
  rewrite refs_single in R1, R2. assert (side_refs (opposite s) b' = side_refs (opposite s) b) as R3
    by (unfold side_refs; by rewrite F2).
  pose proof (lo_nodup _ _ _ _ Hl) as Hnd. rewrite T3 in Hnd. apply NoDup_app in Hnd as (_ & Hdn & _).
  assert (forall k, k ∈ dn -> k ∈ lv_orders l) as Hsub by (intros k Hk; rewrite T3, elem_of_app; by left).
  assert (forall k s', k ∈ side_refs s' b' <-> k ∈ side_refs s' b /\ ~ (s' = s /\ k ∈ dn)) as Hmem.
  { intros k s'. destruct (decide (s' = s)) as [->|Hne].
    - rewrite R1, R2, T3, !elem_of_app. split; [|tauto]. intros Hk. split; [tauto|]. intros [_ Hd].
      pose proof (refs_disjoint true b s u key l w k Hb Hi (Hsub k Hd)) as Hout. rewrite refs_of_app, elem_of_app in Hout.
      destruct Hk as [Hk|[Hk|Hk]]; [tauto|by eapply Hdn|tauto].
    - assert (s' = opposite s) as -> by (by apply other_side). rewrite R3. split; [|tauto]. intros Hk. split; [done|]. tauto. }
  split.
  - apply (change_ok true b b' s u [(key, l)] [(key, l')] w Hb Hi F1 F2).
    + apply sorted_app in Hsort as (G1 & (G2 & G3 & G4) & G5). apply sorted_app. split_and!; [done|split_and!; done|].
      eapply Forall_impl; [exact G5|]. intros a Ha. apply Forall_cons in Ha as [Ha Ha']. by constructor.
    + rewrite F3. lia.
    + intros k Hk _. rewrite refs_single in Hk. rewrite F3. by apply T5.
    + intros key1 l1 [= -> ->]%list_elem_of_singleton. rewrite F3. split; [done|]. split; [done|]. by rewrite T2.
  - intros id k s'. rewrite F4, F3, dget_dels, Hmem.
    assert (order_id (h' !!! k) = order_id (ob_heap b !!! k)) as -> by (by destruct (static_fields _ _ (T6 k)) as [-> _]).
    assert (forall j, j ∈ dn -> dget (orders b) (order_id (ob_heap b !!! j)) = Some (j, s)) as Hfind.
    { intros j Hj. apply (bo_index _ _ Hb). split; [|done]. rewrite R1, !elem_of_app. right. left. by apply Hsub. }
    destruct (decide _) as [Hin|Hin].
    + split; [done|]. intros [[Hk Hnot] E]. destruct Hnot.
      apply list_elem_of_In, in_map_iff in Hin as (j & Ej & Hj). apply list_elem_of_In in Hj.
      pose proof (Hfind j Hj) as Hf. rewrite Ej in Hf.
      assert (dget (orders b) id = Some (k, s')) as Hf' by (by apply (bo_index _ _ Hb)). rewrite Hf in Hf'. by injection Hf' as <- <-.
    + rewrite (bo_index _ _ Hb). split; [|tauto]. intros [Hk E]. split_and!; try done. intros [-> Hd]. apply Hin.
      rewrite <- E. apply list_elem_of_In, (in_map (fun k => order_id (ob_heap b !!! k))). by apply list_elem_of_In.
  - rewrite F5, (bo_count _ _ Hb).
    assert (List.length (side_refs s b) = List.length dn + List.length (side_refs s b'))%nat as Hc
      by (rewrite R1, R2, T3, !length_app; lia).
    destruct s; cbn [opposite] in *; rewrite R3; lia.
Qed.

(** ** Emptied levels *)

Abbreviation emptied E := (Forall (fun kl : pyfloat * PriceLevel => lv_orders kl.2 = []) E).
Abbreviation nonempty w := (Forall (fun kl : pyfloat * PriceLevel => lv_orders kl.2 <> []) w).

Lemma emptied_refs E : emptied E -> refs_of E = [].
Proof. induction 1 as [|[k l] E Hl _ IH]; [done|]. unfold refs_of in *. cbn in *. by rewrite Hl. Qed.

Lemma emptied_view h s E : emptied E -> view_items h s E = [].
Proof. induction 1 as [|[k l] E Hl _ IH]; [done|]. unfold view_items in *. cbn in *. by rewrite Hl. Qed.

(** Orders, index and heap as they were, with the levels [w] on a side. *)
Lemma drop_levels_spec s E : forall b w,
  book_in true b -> items s b = E ++ w -> emptied E ->
  let b' := drop_levels s (map fst E) b in
  book_in true b' /\ items s b' = w /\ items (opposite s) b' = items (opposite s) b /\ ob_heap b' = ob_heap b.
Proof.
  induction E as [|[key l] E IH]; intros b w Hb Hi HE; [done|]. apply Forall_cons in HE as [Hl HE]. cbn [snd] in Hl.
  pose proof (so_sorted _ _ _ (bo_sides _ _ Hb s)) as Hsort. rewrite Hi in Hsort.
  assert (is_num key = true) as Hnk by (by destruct Hsort).
  destruct (items_mid [] key l (E ++ w) key l Hsort Hnk (feqb_refl key Hnk)) as (Hget & _ & Hdel). cbn [app] in Hget, Hdel.
  cbn [map fst]. unfold drop_levels. cbn [fold_left]. fold (drop_levels s (map fst E)).
  assert (sd_has (levels s b) key = true) as ->.
  { unfold sd_has, sd_get. rewrite Hi. cbn [app]. rewrite Hget. by apply bool_decide_eq_true_2. }
  set (b1 := set_levels s _ b).
  assert (items s b1 = [] ++ [] ++ (E ++ w) /\ items (opposite s) b1 = items (opposite s) b /\ ob_heap b1 = ob_heap b /\
    orders b1 = orders b /\ order_count b1 = order_count b) as (F1 & F2 & F3 & F4 & F5).
  { unfold b1. cbn [app]. rewrite <- Hdel. change ((key, l) :: E ++ w) with (((key, l) :: E) ++ w). rewrite <- Hi.
    clear -Hnk H0. destruct s; cbn; split_and!; try done; by apply sd_del_items. }
  assert (forall s', side_refs s' b1 = side_refs s' b) as Hrefs.
  { intros s'. destruct (decide (s' = s)) as [->|Hne].
    - unfold side_refs. rewrite F1, Hi. cbn. by rewrite Hl.
    - assert (s' = opposite s) as -> by (by apply other_side). unfold side_refs. by rewrite F2. }
  assert (book_in true b1) as Hb1.
  { split.
    - apply (change_ok true b b1 s [] [(key, l)] [] (E ++ w) Hb Hi F1 F2); [by apply Hsort|by rewrite F3|by rewrite F3|].
      by intros key' l' ?%elem_of_nil.
    - intros id k s'. rewrite Hrefs, F3, F4. apply (bo_index _ _ Hb).
    - rewrite !Hrefs, F5. apply (bo_count _ _ Hb). }
  destruct (IH b1 w Hb1 F1 HE) as (G1 & G2 & G3 & G4). split_and!; [done|done|by rewrite <- F2|by rewrite <- F3].
Qed.

Lemma book_in_ok b : book_in true b -> (forall s, nonempty (items s b)) -> book_ok b.
Proof.
  intros [B1 B2 B3] Hne. split; try done. intros s. destruct (B1 s) as [S1 S2]. split; [done|]. intros key l Hin.
  destruct (S2 key l Hin) as [Hl [_ Hp]]. split; [done|]. split; [|done]. intros _. specialize (Hne s).
  rewrite Forall_forall in Hne. by apply (Hne (key, l)).
Qed.

Lemma book_ok_in b : book_ok b -> book_in true b /\ forall s, nonempty (items s b).
Proof.
  intros [B1 B2 B3]. split.
  - split; try done. intros s. destruct (B1 s) as [S1 S2]. split; [done|]. intros key l Hin.
    by destruct (S2 key l Hin) as [Hl [_ Hp]].
  - intros s. apply Forall_forall. intros [key l] Hin. destruct (B1 s) as [_ S2].
    destruct (S2 key l Hin) as [_ [Hne _]]. by apply Hne.
Qed.

(** ** A loop over levels *)

(** What the two loops of the code have in common: a state with a book, the quantity
    left, the trades and the keys of emptied levels; a step on a level; a price check
    and a condition on resting orders under which the step takes from them. *)
Section Sweeping.
Context {St : Type} (bk : St -> OrderBook) (lf : St -> pyfloat) (tr : St -> list Trade) (em : St -> list pyfloat).
Context (stopped : St -> bool) (inv : St -> Prop) (step : St -> pyfloat -> St).
Context (s : Side) (within : pyfloat -> bool) (calm : LimitOrder -> Prop).

Definition same_state (st st' : St) : Prop := bk st' = bk st /\ lf st' = lf st /\ tr st' = tr st /\ em st' = em st.

Definition finished (st : St) : Prop := stopped st = true \/ lf st = fzero.

Definition level_at (st : St) (key : pyfloat) (l : PriceLevel) : Prop :=
  sd_get (levels s (bk st)) key = Some l /\ level_ok s key (ob_heap (bk st)) l /\ lv_price l = side_key s key.

Hypothesis calm_static : forall o o', static o = static o' -> calm o' -> calm o.
Hypothesis step_stop : forall st key, finished st -> same_state st (step st key) /\ finished (step st key).
Hypothesis step_out : forall st key l n,
  stopped st = false -> 0 < n < 2 ^ 53 -> lf st = float_of_int n -> level_at st key l ->
  within (side_key s key) = false -> same_state st (step st key) /\ finished (step st key).
Hypothesis step_in : forall st key l n,
  inv st -> stopped st = false -> 0 < n < 2 ^ 53 -> lf st = float_of_int n -> level_at st key l ->
  within (side_key s key) = true -> Forall (fun k => calm (ob_heap (bk st) !!! k)) (lv_orders l) ->
  exists h' l' ts dn, level_taken s key (ob_heap (bk st)) l n h' l' ts dn /\
    inv (step st key) /\ stopped (step st key) = false /\
    bk (step st key) = level_put s key h' l' ts (bk st) /\ lf (step st key) = float_of_int (n - lots_of (map trade_row ts)) /\
    tr (step st key) = tr st ++ ts /\ em (step st key) = em st ++ (if level_empty l' then [key] else []).

Lemma stop_fold keys : forall st, finished st -> same_state st (fold_left step keys st).
Proof.
  induction keys as [|key keys IH]; intros st Hst; [done|]. cbn [fold_left].
  destruct (step_stop st key Hst) as [(E1 & E2 & E3 & E4) Hst']. destruct (IH _ Hst') as (F1 & F2 & F3 & F4).
  by split_and!; etransitivity.
Qed.

(** From a state before the levels [wa ++ wb], of which [wa] are within the limit: the
    levels [E] are emptied, and [wa'] is what is left of [wa]. *)
Record swept (st : St) (n : Z) (E wa wb : list (pyfloat * PriceLevel)) (st' : St) (ts : list Trade)
    (E' wa' : list (pyfloat * PriceLevel)) : Prop := {
  sp_book : book_in true (bk st');
  sp_items : items s (bk st') = (E ++ E') ++ (wa' ++ wb);
  sp_opposite : items (opposite s) (bk st') = items (opposite s) (bk st);
  sp_emptied : emptied E';
  sp_left : nonempty wa';
  sp_out : forall k, k ∉ refs_of wa -> ob_heap (bk st') !!! k = ob_heap (bk st) !!! k;
  sp_trades : tr st' = tr st ++ ts;
  sp_keys : em st' = em st ++ map fst E';
  sp_qty : lf st' = float_of_int (n - lots_of (map trade_row ts));
  sp_take : take_lots n (view_items (ob_heap (bk st)) s wa) = (map trade_row ts, view_items (ob_heap (bk st')) s wa');
  sp_pos : Forall (fun t => exists m, 0 < m < 2 ^ 53 /\ t_qty t = float_of_int m) ts
}.

Lemma swept_none st st' n E wa wb :
  same_state st st' -> book_in true (bk st) -> items s (bk st) = E ++ wa ++ wb -> nonempty wa ->
  lf st = float_of_int n -> n = 0 \/ wa = [] -> swept st n E wa wb st' [] [] wa.
Proof.
  intros (S1 & S2 & S3 & S4) Hb Hi Hne Hl Hn. split; rewrite ?S1, ?S2, ?S3, ?S4, ?app_nil_r; try done.
  - by rewrite Z.sub_0_r.
  - destruct Hn as [->| ->]; [by apply take_lots_zero|done].
Qed.

Lemma swept_level st st1 st' n E key l wa wb h' l' ts dn new E' wa' :
  book_in true (bk st) -> items s (bk st) = E ++ (key, l) :: wa ++ wb ->
  level_taken s key (ob_heap (bk st)) l n h' l' ts dn -> lv_orders l' = [] -> 0 <= n ->
  bk st1 = level_put s key h' l' ts (bk st) -> tr st1 = tr st ++ ts -> em st1 = em st ++ [key] ->
  swept st1 (n - lots_of (map trade_row ts)) (E ++ [(key, l')]) wa wb st' new E' wa' ->
  swept st n E ((key, l) :: wa) wb st' (ts ++ new) ((key, l') :: E') wa'.
Proof.
  intros Hb Hi HT He Hn Hbk Htr Hem [P1 P2 P3 P4 P5 P6 P7 P8 P9 P10 P11].
  destruct (level_step (bk st) s E key l (wa ++ wb) n h' l' ts dn Hb Hi HT) as (B1 & B2 & B3 & B4).
  rewrite <- Hbk in B1, B2, B3, B4. pose proof HT as [T1 T2 T3 T4 T5 T6 T7 T8 T9 T10].
  assert (forall k, k ∈ refs_of wa -> h' !!! k = ob_heap (bk st) !!! k) as Hsame.
  { intros k Hk. apply T5. intros Hk'. apply (refs_disjoint true (bk st) s E key l (wa ++ wb) k Hb Hi Hk').
    rewrite !refs_of_app, !elem_of_app. auto. }
  split.
  - done.
  - by rewrite P2, <- !app_assoc.
  - by rewrite P3.
  - by constructor.
  - done.
  - intros k. change ((key, l) :: wa) with ([(key, l)] ++ wa). rewrite refs_of_app, refs_single, elem_of_app. intros Hk.
    rewrite P6, B4 by tauto. apply T5. tauto.
  - by rewrite P7, Htr, app_assoc.
  - by rewrite P8, Hem, <- app_assoc.
  - rewrite P9, map_app, lots_of_app. f_equal. lia.
  - change ((key, l) :: wa) with ([(key, l)] ++ wa). rewrite view_items_app, view_items_single.
    rewrite take_lots_app by (apply view_positive; eapply level_waiting;
      apply (so_levels _ _ _ (bo_sides _ _ Hb s) key l); rewrite Hi, elem_of_app; right; by left).
    rewrite T8, He. cbn [view_of map]. rewrite B4 in P10.
    rewrite (view_items_ext (ob_heap (bk st)) h') in P10 by (intros k Hk; by rewrite Hsame).
    rewrite P10. by rewrite map_app.
  - by apply Forall_app.
Qed.

Lemma swept_last st st' n E key l wa wb h' l' ts dn :
  book_in true (bk st) -> items s (bk st) = E ++ (key, l) :: wa ++ wb ->
  level_taken s key (ob_heap (bk st)) l n h' l' ts dn -> lv_orders l' <> [] -> nonempty wa ->
  bk st' = level_put s key h' l' ts (bk st) -> tr st' = tr st ++ ts -> em st' = em st ->
  lf st' = float_of_int (n - lots_of (map trade_row ts)) ->
  swept st n E ((key, l) :: wa) wb st' ts [] ((key, l') :: wa).
Proof.
  intros Hb Hi HT He Hne Hbk Htr Hem Hlf.
  destruct (level_step (bk st) s E key l (wa ++ wb) n h' l' ts dn Hb Hi HT) as (B1 & B2 & B3 & B4).
  rewrite <- Hbk in B1, B2, B3, B4. pose proof HT as [T1 T2 T3 T4 T5 T6 T7 T8 T9 T10].
  assert (forall k, k ∈ refs_of wa -> h' !!! k = ob_heap (bk st) !!! k) as Hsame.
  { intros k Hk. apply T5. intros Hk'. apply (refs_disjoint true (bk st) s E key l (wa ++ wb) k Hb Hi Hk').
    rewrite !refs_of_app, !elem_of_app. auto. }
  split; rewrite ?app_nil_r; try done.
  - by constructor.
  - intros k. change ((key, l) :: wa) with ([(key, l)] ++ wa). rewrite refs_of_app, refs_single, elem_of_app. intros Hk.
    rewrite B4. apply T5. tauto.
  - change ((key, l) :: wa) with ([(key, l)] ++ wa). change ((key, l') :: wa) with ([(key, l')] ++ wa).
    rewrite !view_items_app, !view_items_single.
    rewrite take_lots_app by (apply view_positive; eapply level_waiting;
      apply (so_levels _ _ _ (bo_sides _ _ Hb s) key l); rewrite Hi, elem_of_app; right; by left).
    rewrite T8, B4. rewrite (view_items_ext (ob_heap (bk st)) h') by (intros k Hk; by rewrite Hsame).
    destruct (take_lots _ (view_items _ _ _)). destruct (lv_orders l') as [|k ks] eqn:El; [done|].
    by destruct (view_of h' (side_key s key) (k :: ks)) eqn:Ev.
Qed.

Definition beyond (w : list (pyfloat * PriceLevel)) : Prop :=
  match w with
  | [] => True
  | (key, _) :: _ => within (side_key s key) = false
  end.

Lemma level_found st E key l w :
  book_in true (bk st) -> items s (bk st) = E ++ (key, l) :: w -> level_at st key l.
Proof.
  intros Hb Hi. pose proof (so_sorted _ _ _ (bo_sides _ _ Hb s)) as Hsort. rewrite Hi in Hsort.
  assert (is_num key = true) as Hnk by (by apply sorted_app in Hsort as (_ & (? & _) & _)).
  destruct (items_mid E key l w key l Hsort Hnk (feqb_refl key Hnk)) as (Hget & _ & _).
  destruct (so_levels _ _ _ (bo_sides _ _ Hb s) key l) as [Hl [_ Hp]]; [rewrite Hi, elem_of_app; right; by left|].
  unfold level_at, sd_get. by rewrite Hi.
Qed.

(** A level that still has orders took all the quantity. *)
Lemma taken_all key h l n h' l' ts dn :
  level_ok s key h l -> level_taken s key h l n h' l' ts dn -> lv_orders l' <> [] -> 0 <= n ->
  lots_of (map trade_row ts) = n.
Proof.
  intros Hl [_ _ _ _ _ _ _ T8 _ _] Hne Hn.
  assert (positive_lots (view_of h (side_key s key) (lv_orders l))) as Hp by (by apply view_positive, (level_waiting s key)).
  destruct (take_lots_rest n _ Hp Hn) as [E|E]; rewrite T8 in E; [|done]. by destruct (lv_orders l').
Qed.

Lemma taken_bounds key h l n h' l' ts dn :
  level_ok s key h l -> level_taken s key h l n h' l' ts dn -> 0 <= n -> 0 <= lots_of (map trade_row ts) <= n.
Proof.
  intros Hl [_ _ _ _ _ _ _ T8 _ _] Hn.
  assert (positive_lots (view_of h (side_key s key) (lv_orders l))) as Hp by (by apply view_positive, (level_waiting s key)).
  pose proof (take_lots_sum n _ Hp Hn) as Hs. rewrite T8 in Hs. cbn [fst] in Hs. pose proof (lots_of_nonneg _ Hp). lia.
Qed.

Lemma calm_after key h l n h' l' ts dn ks :
  level_taken s key h l n h' l' ts dn -> Forall (fun k => calm (h !!! k)) ks -> Forall (fun k => calm (h' !!! k)) ks.
Proof.
  intros HT Hc. eapply Forall_impl; [exact Hc|]. intros k. cbn beta. apply calm_static. apply (lt_static _ _ _ _ _ _ _ _ _ HT).
Qed.

Lemma sweep_fold wa : forall st n E wb,
  inv st -> stopped st = false -> book_in true (bk st) -> items s (bk st) = E ++ (wa ++ wb) -> nonempty wa ->
  0 <= n < 2 ^ 53 -> lf st = float_of_int n -> Forall (fun kl => within (side_key s kl.1) = true) wa -> beyond wb ->
  Forall (fun k => calm (ob_heap (bk st) !!! k)) (refs_of wa) ->
  exists ts E' wa', swept st n E wa wb (fold_left step (map fst (wa ++ wb)) st) ts E' wa'.
Proof.
  induction wa as [|[key l] wa IH]; intros st n E wb Hinv Hst Hb Hi Hne Hn Hl Hin Hout Hc.
  - exists [], [], []. apply swept_none; try done; [|by right]. cbn [app].
    destruct (decide (n = 0)) as [->|Hn0]; [by apply stop_fold; right|].
    destruct wb as [|[key l] wb]; [done|]. cbn [map fst fold_left].
    destruct (step_out st key l n) as [(S1 & S2 & S3 & S4) Hf]; [done|lia|done|by eapply level_found|done|].
    destruct (stop_fold (map fst wb) _ Hf) as (F1 & F2 & F3 & F4). by split_and!; etransitivity.
  - destruct (decide (n = 0)) as [->|Hn0].
    { exists [], [], ((key, l) :: wa). apply swept_none; try done; [|by left]. by apply stop_fold; right. }
    apply Forall_cons in Hne as [Hne1 Hne], Hin as [Hin1 Hin].
    change ((key, l) :: wa) with ([(key, l)] ++ wa) in Hc. rewrite refs_of_app, refs_single in Hc.
    apply Forall_app in Hc as [Hc1 Hc]. pose proof (level_found st E key l (wa ++ wb) Hb Hi) as Hat.
    pose proof Hat as (_ & Hlv & _).
    destruct (step_in st key l n Hinv Hst) as (h' & l' & ts & dn & HT & Hinv' & Hst' & Hbk & Hlf & Htr & Hem); try done; [lia|].
    destruct (level_step (bk st) s E key l (wa ++ wb) n h' l' ts dn Hb Hi HT) as (B1 & B2 & _ & B4).
    rewrite <- Hbk in B1, B2, B4. cbn [app map fst fold_left]. pose proof (taken_bounds _ _ _ _ _ _ _ _ Hlv HT ltac:(lia)) as Hsum.
    unfold level_empty in Hem. destruct (lv_orders l') as [|k ks] eqn:Eo.
    + destruct (IH (step st key) (n - lots_of (map trade_row ts)) (E ++ [(key, l')]) wb) as (new & E' & wa' & Hs); try done.
      * by rewrite B2, <- app_assoc.
      * lia.
      * rewrite B4. by apply (calm_after key (ob_heap (bk st)) l n h' l' ts dn).
      * exists (ts ++ new), ((key, l') :: E'), wa'. eapply swept_level; try done. lia.
    + rewrite app_nil_r in Hem.
      assert (lv_orders l' <> []) as Hne' by (by rewrite Eo). pose proof (taken_all _ _ _ _ _ _ _ _ Hlv HT Hne' ltac:(lia)) as Hall.
      destruct (stop_fold (map fst (wa ++ wb)) (step st key)) as (S1 & S2 & S3 & S4).
      { right. by rewrite Hlf, Hall, Z.sub_diag. }
      exists ts, [], ((key, l') :: wa). eapply swept_last; rewrite ?S1, ?S2, ?S3, ?S4; try done.
Qed.

(** A book [b'] after [n] lots were taken from the levels [wa] of [b]; [wb] stays. *)
Record taken_from (n : Z) (wa wb : list (pyfloat * PriceLevel)) b b' (ts : list Trade) : Prop := {
  tf_book : book_ok b';
  tf_items : exists rest, take_lots n (view_items (ob_heap b) s wa) = (map trade_row ts, rest) /\
    resting s b' = rest ++ view_items (ob_heap b) s wb;
  tf_opposite : resting (opposite s) b' = resting (opposite s) b;
  tf_trades : Forall (fun t => exists m, 0 < m < 2 ^ 53 /\ t_qty t = float_of_int m) ts
}.

Lemma sweep_end st n wa wb st' ts E' wa' :
  book_ok (bk st) -> items s (bk st) = wa ++ wb -> em st = [] -> swept st n [] wa wb st' ts E' wa' ->
  taken_from n wa wb (bk st) (drop_levels s (em st') (bk st')) ts.
Proof using H0.
  intros Hb Hi Hem [P1 P2 P3 P4 P5 P6 P7 P8 P9 P10 P11]. rewrite P8, Hem. cbn [app] in *.
  destruct (drop_levels_spec s E' (bk st') (wa' ++ wb) P1 P2 P4) as (D1 & D2 & D3 & D4).
  destruct (book_ok_in _ Hb) as [Hbi Hne].
  set (b' := drop_levels _ _ _) in *. rewrite P3 in D3.
  assert (forall k s', k ∈ side_refs s' (bk st) -> s' = s -> k ∈ refs_of wb -> k ∉ refs_of wa) as Hwb.
  { intros k s' _ _ Hk Hk'. pose proof (so_sorted _ _ _ (bo_sides _ _ Hb s)) as Hsort.
    apply elem_refs_of in Hk' as (key & l & Hin & Hkl). apply list_elem_of_split in Hin as (u & w & ->).
    assert (items s (bk st) = u ++ (key, l) :: (w ++ wb)) as Hi' by (by rewrite Hi, <- app_assoc).
    apply (refs_disjoint false (bk st) s u key l (w ++ wb) k Hb Hi' Hkl). rewrite !refs_of_app, !elem_of_app. auto. }
  split.
  - apply book_in_ok; [done|]. intros s'. destruct (decide (s' = s)) as [->|Hs].
    + rewrite D2. apply Forall_app. split; [done|]. specialize (Hne s). rewrite Hi in Hne. by apply Forall_app in Hne as [_ ?].
    + assert (s' = opposite s) as -> by (by apply other_side). rewrite D3. apply Hne.
  - exists (view_items (ob_heap (bk st')) s wa'). split; [done|]. unfold resting. rewrite D2, D4, view_items_app. f_equal.
    apply view_items_ext. intros k Hk. rewrite P6; [done|].
    assert (k ∈ side_refs s (bk st)) as Hks.
    { rewrite (side_refs_split s (bk st) wa wb []) by (by rewrite app_nil_r). rewrite !elem_of_app. auto. }
    by apply (Hwb k s).
  - unfold resting. rewrite D3, D4. apply view_items_ext. intros k Hk. rewrite P6; [done|].
    intros (key & l & Hin & Hkl)%elem_refs_of. apply elem_refs_of in Hk as (key' & l' & Hin' & Hkl').
    destruct (so_levels _ _ _ (bo_sides _ _ Hb s) key l) as [Hl _]; [rewrite Hi, elem_of_app; by left|].
    destruct (so_levels _ _ _ (bo_sides _ _ Hb (opposite s)) key' l' Hin') as [Hl' _].
    pose proof (lo_orders _ _ _ _ Hl) as Ho. pose proof (lo_orders _ _ _ _ Hl') as Ho'. rewrite Forall_forall in Ho, Ho'.
    destruct (Ho k Hkl) as [S1 _], (Ho' k Hkl') as [S2 _]. rewrite S1 in S2. by destruct (opposite_ne s).
  - done.
Qed.
End Sweeping.

(** ** The two loops of the code *)

(** [execute_market_order] *)
Lemma market_sweep clk s taker own n b :
  book_ok b -> 0 <= n < 2 ^ 53 ->
  let w := fold_left (market_step clk s taker own) (items (opposite s) b).*1 (MkWalk b (float_of_int n) [] []) in
  taken_from (opposite s) n (items (opposite s) b) [] b (drop_levels (opposite s) (wk_empty w) (wk_book w)) (wk_trades w).
Proof.
  intros Hb Hn w. destruct (book_ok_in b Hb) as [Hbi Hne].
  destruct (sweep_fold wk_book wk_left wk_trades wk_empty (fun _ => false) (fun _ => True) (market_step clk s taker own)
    (opposite s) (fun _ => true) (fun _ => True)) with (wa := items (opposite s) b) (st := MkWalk b (float_of_int n) [] [])
    (n := n) (E := @nil (pyfloat * PriceLevel)) (wb := @nil (pyfloat * PriceLevel)) as (ts & E' & wa' & Hs); try done.
  - intros st key [?|Hf]; [done|]. unfold market_step. rewrite Hf. by split; [|right].
  - intros st key l m _ _ Hm Hlf (Hg & Hl & Hp) _ _. unfold market_step. rewrite Hlf, not_positive_int by lia.
    rewrite (proj2 (Z.eqb_neq m 0)), Hg by lia.
    pose proof (level_fill_taken (fun i => clk (List.length (wk_trades st) + i)%nat) (opposite s) key m (ob_heap (wk_book st)) l
      Hl Hp ltac:(lia)) as HT.
    destruct (level_fill _ _ _ _) as [[[h' l'] filled] ts]. destruct HT as (dn & HT & ->).
    exists h', l', (map (tag_trade taker own s) ts), dn. split; [by apply level_taken_tag|]. cbn.
    assert (map trade_row (map (tag_trade taker own s) ts) = map trade_row ts) as -> by (by rewrite map_map).
    pose proof (taken_bounds (opposite s) _ _ _ _ _ _ _ _ Hl HT ltac:(lia)).
    split_and!; try done; [by rewrite fsub_int by (apply small_pos; lia)|]. destruct (level_empty l'); by rewrite ?app_nil_r.
  - by rewrite app_nil_r.
  - by apply Forall_forall.
  - by apply Forall_forall.
  - rewrite app_nil_r in Hs. fold w in Hs.
    assert (wk_trades w = ts) as -> by (apply (sp_trades _ _ _ _ _ _ _ _ _ _ _ _ _ _ Hs)).
    by apply (sweep_end wk_book wk_left wk_trades wk_empty (opposite s) (MkWalk b (float_of_int n) [] []) n
      (items (opposite s) b) [] w ts E' wa' Hb);
      rewrite ?app_nil_r.
Qed.

(** No order of a side would trade with the participant itself. *)
Definition no_self_trade (m : MatchingEngine) (participant : option string) s b : Prop :=
  no_stp m participant (ob_heap b) (side_refs s b).

Lemma triggered_engine m m' participant o :
  enable_stp m' = enable_stp m -> triggered (stp_of m' participant o) = triggered (stp_of m participant o).
Proof.
  intros E. unfold stp_of, check_stp. rewrite E. destruct (enable_stp m && truthy participant); [|done].
  destruct (negb _ || negb _); [done|]. destruct (negb _); [done|]. by destruct (stp_action m'), (stp_action m).
Qed.

(** The loop of the matching engine, over the levels [wa] within a limit. *)
Lemma engine_sweep clk s within taker participant n m b wa wb :
  book_ok b -> 0 <= n < 2 ^ 53 -> rule m = Fifo -> no_self_trade m participant (opposite s) b ->
  items (opposite s) b = wa ++ wb -> Forall (fun kl => within (side_key (opposite s) kl.1) = true) wa ->
  beyond (opposite s) within wb ->
  let w := sweep clk s within taker participant (float_of_int n) m b in
  taken_from (opposite s) n wa wb b (sw_book w) (sw_trades w) /\
  sw_left w = float_of_int (n - lots_of (map trade_row (sw_trades w))).
Proof.
  intros Hb Hn Hr Hs Hi Hin Hout. destruct (book_ok_in b Hb) as [Hbi Hne]. unfold sweep. rewrite Hi.
  set (st := MkSweep m b (float_of_int n) [] [] [] false). set (step := sweep_step _ _ _ _ _).
  destruct (sweep_fold sw_book sw_left sw_trades sw_empty sw_done
    (fun st => rule (sw_engine st) = Fifo /\ enable_stp (sw_engine st) = enable_stp m) step (opposite s) within
    (fun o => triggered (stp_of m participant o) = false)) with (wa := wa) (st := st)
    (n := n) (E := @nil (pyfloat * PriceLevel)) (wb := wb) as (ts & E' & wa' & Hsw); try done.
  - intros o o' E. by rewrite (stp_of_static _ _ _ _ E).
  - intros st0 key Hf. unfold step, sweep_step.
    assert (sw_done st0 || not_positive (sw_left st0) = true) as -> by (destruct Hf as [->| ->]; [done|apply orb_true_r]).
    by split; [|left].
  - intros st0 key l k Hd Hk Hlf (Hg & _ & _) Hw. unfold step, sweep_step. rewrite Hd, Hlf, not_positive_int by lia.
    rewrite (proj2 (Z.eqb_neq k 0)), Hg, Hw by lia. by split; [|left].
  - intros st0 key l k [Hr0 He0] Hd Hk Hlf (Hg & Hl & Hp) Hw Hcalm. unfold step, sweep_step.
    rewrite Hd, Hlf, not_positive_int by lia. rewrite (proj2 (Z.eqb_neq k 0)), Hg, Hw by lia. cbn [orb negb].
    pose proof (match_at_level_fifo (sw_engine st0) (fun i => clk (List.length (sw_trades st0) + i)%nat) s taker participant
      (opposite s) key k (ob_heap (sw_book st0)) l Hr0 Hl ltac:(lia)) as HT.
    destruct (match_at_level _ _ _ _ _ _ _ _ _) as [[[[[h' l'] ts] cancelled] filled] stps]. destruct HT as (dn & HT & -> & -> & ->).
    { eapply Forall_impl; [exact Hcalm|]. intros j. cbn beta. by rewrite (triggered_engine m (sw_engine st0)). }
    exists h', l', ts, dn. cbn. pose proof (taken_bounds (opposite s) _ _ _ _ _ _ _ _ Hl HT ltac:(lia)).
    split_and!; try done; [by rewrite fsub_int by (apply small_pos; lia)|]. destruct (level_empty l'); by rewrite ?app_nil_r.
  - specialize (Hne (opposite s)). rewrite Hi in Hne. by apply Forall_app in Hne as [? _].
  - unfold no_self_trade, no_stp in Hs. rewrite (side_refs_split _ _ wa wb []) in Hs by (by rewrite app_nil_r).
    by apply Forall_app in Hs as [? _].
  - set (w := fold_left step _ st) in *. pose proof (sp_trades _ _ _ _ _ _ _ _ _ _ _ _ _ _ Hsw) as Et.
    cbn [st sw_trades app] in Et.
    cbn [sw_book sw_trades sw_left]. rewrite Et. split; [|by rewrite (sp_qty _ _ _ _ _ _ _ _ _ _ _ _ _ _ Hsw)].
    by apply (sweep_end sw_book sw_left sw_trades sw_empty (opposite s) st n wa wb w ts E' wa' Hb).
Qed.
End Filled.
