(* ===== verification/PriceTime.v ===== *)
(** * Price-time priority

    The theorems about whole operations: a market order of [Lob] and the one of
    [Matching] take lots from the front of what rests on the other side, a limit order
    stays within its limit and its rest does not cross the book, an iceberg order keeps
    its parts.  Concrete runs show where the code leaves this path. *)
From Stdlib Require Import SpecFloat Sorted.
From Stdlib Require Import Ascii String.
From S2P Require Import Prelude PyDecimal DecArith PyFormat PyFloat PyText FloatInt Lob LobProps Matching MatchingProps.
Open Scope Z_scope.
Open Scope list_scope.

(** ** Fills *)

Definition whole_trades (ts : list Trade) : Prop := Forall (fun t => exists m, 0 < m < 2 ^ 53 /\ t_qty t = float_of_int m) ts.

Lemma trades_total ts :
  whole_trades ts -> lots_of (map trade_row ts) < 2 ^ 53 ->
  0 <= lots_of (map trade_row ts) /\ (lots_of (map trade_row ts) = 0 <-> ts = []) /\
  fsum (map t_qty ts) = float_of_int (lots_of (map trade_row ts)).
Proof.
  intros Hts. set (l := map (fun t => whole (t_qty t)) ts).
  assert (lots_of (map trade_row ts) = zsum l) as -> by (unfold lots_of, l; by rewrite map_map).
  assert (map t_qty ts = map float_of_int l /\ Forall (Z.lt 0) l) as [-> Hl].
  { unfold l. induction Hts as [|t ts (m & Hm & E) _ [IH1 IH2]]; [done|]. cbn [map].
    rewrite E, whole_int by (apply small_pos; lia). rewrite IH1. split; [done|]. constructor; [lia|done]. }
  assert (Forall (Z.le 0) l) as Hl' by (eapply Forall_impl; [exact Hl|]; cbn beta; lia).
  intros Hs. pose proof (zsum_nonneg l Hl'). split_and!; [done| |by apply fsum_int].
  unfold l in *. destruct ts as [|t ts]; [done|]. split; [|done]. cbn in *. apply Forall_cons in Hl as [? _], Hl' as [_ Hl'].
  pose proof (zsum_nonneg _ Hl'). unfold zsum in *. lia.
Qed.

Lemma fill_from_trades_spec id n ts :
  whole_trades ts -> 0 < n < 2 ^ 53 -> lots_of (map trade_row ts) <= n ->
  let f := fill_from_trades id (float_of_int n) ts in
  let filled := lots_of (map trade_row ts) in
  trades f = ts /\ total_qty f = float_of_int filled /\ f_remaining f = float_of_int (n - filled) /\
  is_complete f = (filled =? n).
Proof.
  intros Hts Hn Hle. destruct (trades_total ts Hts ltac:(lia)) as (H0 & Hnil & Hsum). cbv zeta.
  unfold fill_from_trades. destruct ts as [|t ts].
  - split_and!; [done|done|by rewrite Z.sub_0_r|]. symmetry. apply Z.eqb_neq. unfold lots_of. cbn. lia.
  - cbn [trades total_qty f_remaining is_complete]. rewrite Hsum, fsub_int, not_positive_int by (apply small_pos || lia; lia).
    split_and!; try done. lia.
Qed.

Section PriceTime.
Context `{SortedDictLaws}.
Implicit Types (b : OrderBook) (s : Side).

Abbreviation items s b := (sd_items (levels s b)).

Lemma next_sequence_ok e b : book_in e b -> book_in e (next_sequence b).
Proof.
  intros [B1 B2 B3]. split; [|done|done]. intros s. destruct (B1 s) as [S1 S2]. by split; destruct s.
Qed.

Lemma next_sequence_resting s b : resting s (next_sequence b) = resting s b.
Proof. by destruct s. Qed.

(** All that rests is what rests on the levels. *)
Lemma taken_all_levels s n b b' ts :
  taken_from s n (items s b) [] b b' ts ->
  take_lots n (resting s b) = (map trade_row ts, resting s b') /\ resting (opposite s) b' = resting (opposite s) b /\
  book_ok b' /\ whole_trades ts.
Proof. intros [T1 (rest & T2 & T3) T4 T5]. rewrite T3, app_nil_r. by split_and!. Qed.

Lemma resting_positive s b : book_ok b -> positive_lots (resting s b).
Proof.
  intros Hb. unfold resting, view_items. apply Forall_forall. intros r Hr.
  apply list_elem_of_In, in_concat in Hr as (v & Hv & Hr). apply in_map_iff in Hv as ([key l] & <- & Hkl).
  assert (positive_lots (view_of (ob_heap b) (side_key s key) (lv_orders l))) as Hp.
  { apply view_positive, (level_waiting s key). apply (so_levels _ _ _ (bo_sides _ _ Hb s)). by apply list_elem_of_In. }
  unfold positive_lots in Hp. rewrite List.Forall_forall in Hp. by apply Hp.
Qed.

(** What a market order of [execute_market_order] and [match_market_order] does. *)
Definition fills_in_turn s n b b' (ts : list Trade) : Prop :=
  book_ok b' /\ take_lots n (resting (opposite s) b) = (map trade_row ts, resting (opposite s) b') /\
  resting s b' = resting s b.

Lemma turn_bounds s n b b' ts :
  book_ok b -> 0 <= n -> fills_in_turn s n b b' ts ->
  lots_of (map trade_row ts) = Z.min n (lots_of (resting (opposite s) b)) /\ 0 <= lots_of (resting (opposite s) b).
Proof.
  intros Hb Hn (_ & HT & _). pose proof (resting_positive (opposite s) b Hb) as Hp.
  pose proof (take_lots_sum n _ Hp Hn) as Hs. rewrite HT in Hs. cbn [fst] in Hs. split; [done|]. by apply lots_of_nonneg.
Qed.

Lemma market_in_turn clk s taker own n b :
  book_ok b -> 0 < n < 2 ^ 53 ->
  let '(b', f) := execute_market_order clk s (float_of_int n) taker own b in
  exists ts, fills_in_turn s n b b' ts /\ whole_trades ts /\
    f = fill_from_trades (default ""%string taker) (float_of_int n) ts.
Proof.
  intros Hb Hn. unfold execute_market_order. rewrite not_positive_int, (proj2 (Z.eqb_neq n 0)) by lia.
  pose proof (market_sweep clk s taker own n b Hb ltac:(lia)) as HT. cbv zeta in HT. set (w := fold_left _ _ _) in *.
  exists (wk_trades w). apply taken_all_levels in HT as (H1 & H2 & H3 & H4). rewrite opposite_twice in H2.
  unfold fills_in_turn. rewrite !next_sequence_resting. split_and!; try done. by apply next_sequence_ok.
Qed.

(** The trades of a result, in order. *)
Definition result_trades (r : MatchResult) : list Trade := concat (map trades (fills r)).

Lemma result_spec id n ts resting cancelled :
  whole_trades ts -> 0 < n < 2 ^ 53 -> lots_of (map trade_row ts) <= n ->
  let r := result_from_fills (create_fills ts id (float_of_int n)) (float_of_int n) resting cancelled in
  let filled := lots_of (map trade_row ts) in
  result_trades r = ts /\ total_filled_qty r = float_of_int filled /\ r_complete r = (filled =? n) /\
  resting_order r = resting.
Proof.
  intros Hts Hn Hle. destruct (trades_total ts Hts ltac:(lia)) as (H1 & Hnil & Hsum). cbv zeta.
  pose proof (fill_from_trades_spec id n ts Hts Hn Hle) as (F1 & F2 & F3 & F4).
  unfold create_fills, result_trades, result_from_fills. cbn [fills total_filled_qty r_complete resting_order].
  destruct ts as [|t ts].
  - assert (lots_of (map trade_row []) = 0) as -> by done. cbn [map fsum]. change fzero with (float_of_int 0).
    rewrite fleb_int by (apply small_pos; lia). split_and!; try done. lia.
  - set (f := fill_from_trades _ _ _) in *. set (k := lots_of _) in *. cbn [map concat]. rewrite F1, app_nil_r, F2.
    assert (fsum [float_of_int k] = float_of_int k) as ->.
    { change (fsum (map float_of_int [k]) = float_of_int k).
      rewrite fsum_int; cbn [zsum fold_right]; [by rewrite Z.add_0_r|by repeat constructor|lia]. }
    rewrite fleb_int by (apply small_pos; lia). split_and!; try done. lia.
Qed.

Lemma engine_in_turn clk s taker participant n m b :
  book_ok b -> 0 < n < 2 ^ 53 -> rule m = Fifo -> no_self_trade m participant (opposite s) b ->
  let '(m', b', r) := match_market_order clk s (float_of_int n) taker participant m b in
  exists ts cancelled, fills_in_turn s n b b' ts /\ whole_trades ts /\
    r = result_from_fills (create_fills ts (default ""%string taker) (float_of_int n)) (float_of_int n) None cancelled.
Proof.
  intros Hb Hn Hr Hs. unfold match_market_order. rewrite not_positive_int, (proj2 (Z.eqb_neq n 0)) by lia.
  destruct (engine_sweep clk s (fun _ => true) taker participant n (count_match m) b (items (opposite s) b) [] Hb)
    as [HT _]; [lia|done|exact Hs|by rewrite app_nil_r|by apply Forall_forall|done|].
  set (w := sweep _ _ _ _ _ _ _ _) in *. exists (sw_trades w), (sw_cancelled w).
  apply taken_all_levels in HT as (H1 & H2 & H3 & H4). rewrite opposite_twice in H2. by split_and!.
Qed.

(** ** Crossed books *)

(** The price [p] of side [s] does not reach [q] of the other side. *)
Definition apart s (p q : pyfloat) : bool :=
  match s with
  | BUY => fltb p q
  | SELL => fltb q p
  end.

Definition uncrossed b : Prop :=
  forall s r r', r ∈ resting s b -> r' ∈ resting (opposite s) b -> apart s r.1.1 r'.1.1 = true.

Lemma resting_row b s r :
  book_ok b -> r ∈ resting s b <->
  exists key l k, (key, l) ∈ items s b /\ k ∈ lv_orders l /\ r = (side_key s key, order_id (ob_heap b !!! k), lots (ob_heap b !!! k)).
Proof.
  intros Hb. unfold resting, view_items. split.
  - intros Hr. apply list_elem_of_In, in_concat in Hr as (v & Hv & Hr). apply in_map_iff in Hv as ([key l] & <- & Hkl).
    apply in_map_iff in Hr as (k & <- & Hk). exists key, l, k. by rewrite !list_elem_of_In.
  - intros (key & l & k & Hin & Hk & ->). apply list_elem_of_In, in_concat.
    exists (view_of (ob_heap b) (side_key s key) (lv_orders l)). split.
    + apply in_map_iff. exists (key, l). by rewrite <- list_elem_of_In.
    + apply in_map_iff. exists k. by rewrite <- list_elem_of_In.
Qed.

Lemma key_num e b s key l : book_in e b -> (key, l) ∈ items s b -> is_num key = true.
Proof.
  intros Hb Hin. pose proof (so_sorted _ _ _ (bo_sides _ _ Hb s)) as Hs. apply list_elem_of_split in Hin as (u & w & E).
  rewrite E in Hs. by apply sorted_app in Hs as (_ & (? & _) & _).
Qed.

Lemma row_num b s r : book_ok b -> r ∈ resting s b -> is_num r.1.1 = true.
Proof.
  intros Hb (key & l & k & Hin & _ & ->)%resting_row; [|done]. cbn. apply num_key. by eapply key_num.
Qed.

(** The best price of a side is the price of its first order, and no order is better. *)
Lemma best_row b s :
  book_ok b ->
  match best s b with
  | None => resting s b = []
  | Some p => (exists r, r ∈ resting s b /\ r.1.1 = p) /\
      forall r, r ∈ resting s b -> fleb (side_key s p) (side_key s r.1.1) = true
  end.
Proof.
  intros Hb. unfold best. pose proof (so_sorted _ _ _ (bo_sides _ _ Hb s)) as Hs.
  destruct (items s b) as [|[key l] w] eqn:Hi; cbn [head fmap option_fmap option_map fst].
  { unfold resting. by rewrite Hi. }
  assert ((key, l) ∈ items s b) as Hin by (rewrite Hi; by left). split.
  - destruct (so_levels _ _ _ (bo_sides _ _ Hb s) key l Hin) as [_ [Hne _]]. specialize (Hne eq_refl).
    destruct (lv_orders l) as [|k ks] eqn:Eo; [done|]. exists (side_key s key, order_id (ob_heap b !!! k), lots (ob_heap b !!! k)). split; [|done].
    apply resting_row; [done|]. exists key, l, k. split_and!; [done|rewrite Eo; by left|reflexivity].
  - intros r (key' & l' & k & Hin' & _ & ->)%resting_row; [|done]. cbn. rewrite !side_key_twice.
    rewrite Hi in Hin'. destruct Hs as (Hn & Hlt & _). apply elem_of_cons in Hin' as [[= -> ->]|Hin']; [by apply fleb_refl|].
    rewrite Forall_forall in Hlt. apply fltb_le. exact (Hlt _ Hin').
Qed.

Lemma apart_twice s p q : apart (opposite s) p q = apart s q p.
Proof. by destruct s. Qed.

(** [is_crossed] sees exactly whether two orders cross. *)
Lemma is_crossed_rows b : book_ok b -> is_crossed b = false <-> uncrossed b.
Proof.
  intros Hb. pose proof (best_row b BUY Hb) as H1. pose proof (best_row b SELL Hb) as H2.
  unfold is_crossed, best_bid, best_ask. cbn [side_key] in *.
  assert (uncrossed b <-> forall r r', r ∈ resting BUY b -> r' ∈ resting SELL b -> fltb r.1.1 r'.1.1 = true) as ->.
  { split; [intros Hu r r' Hr Hr'; by apply (Hu BUY)|]. intros Hu [|] r r' Hr Hr'; by apply Hu. }
  destruct (best BUY b) as [bid|], (best SELL b) as [ask|].
  - destruct H1 as [(r1 & Hr1 & E1) Hb1], H2 as [(r2 & Hr2 & E2) Hb2].
    pose proof (row_num b BUY r1 Hb Hr1) as N1. pose proof (row_num b SELL r2 Hb Hr2) as N2. rewrite E1 in N1. rewrite E2 in N2.
    split.
    + intros Hc r r' Hr Hr'. specialize (Hb1 r Hr). specialize (Hb2 r' Hr').
      pose proof (row_num b BUY r Hb Hr) as N. pose proof (row_num b SELL r' Hb Hr') as N'.
      rewrite fleb_opp in Hb1. apply (fleb_fltb_trans _ bid); try done.
      apply (fltb_fleb_trans _ ask); try done. rewrite fltb_fleb by done. by rewrite Hc.
    + intros Hu. specialize (Hu r1 r2 Hr1 Hr2). rewrite E1, E2 in Hu. rewrite fltb_fleb in Hu by done. by apply negb_true_iff.
  - split; [|done]. intros _ r r' Hr Hr'. rewrite H2 in Hr'. by apply elem_of_nil in Hr'.
  - split; [|done]. intros _ r r' Hr Hr'. rewrite H1 in Hr. by apply elem_of_nil in Hr.
  - split; [|done]. intros _ r r' Hr Hr'. rewrite H1 in Hr. by apply elem_of_nil in Hr.
Qed.

(** ** Limit orders *)

(** The lots of an order in a list of rows. *)
Definition id_lots (id : string) (q : list (pyfloat * string * Z)) : Z :=
  lots_of (List.filter (fun r => bool_decide (r.1.2 = id)) q).

Lemma id_lots_cons id r q : id_lots id (r :: q) = (if bool_decide (r.1.2 = id) then r.2 else 0) + id_lots id q.
Proof. unfold id_lots. cbn [List.filter]. by destruct (bool_decide _). Qed.

Lemma id_lots_app id q q' : id_lots id (q ++ q') = id_lots id q + id_lots id q'.
Proof. unfold id_lots. by rewrite List.filter_app, lots_of_app. Qed.

(** Taking moves lots of an order to the taken ones, and loses none. *)
Lemma id_lots_take id n q : id_lots id q = id_lots id (take_lots n q).1 + id_lots id (take_lots n q).2.
Proof.
  revert n. induction q as [|[[p i] m] q IH]; intros n; [done|]. cbn [take_lots].
  destruct (n <=? 0); [done|]. destruct (m <=? n).
  - specialize (IH (n - m)). destruct (take_lots (n - m) q) as [t rest]. cbn [fst snd] in *. rewrite !id_lots_cons, IH. lia.
  - cbn [fst snd]. rewrite !id_lots_cons. cbn [fst snd id_lots List.filter lots_of map zsum fold_right].
    change (id_lots id []) with 0. destruct (bool_decide (i = id)); lia.
Qed.

Lemma take_lots_sub {A} n (q : list (A * Z)) r :
  r ∈ (take_lots n q).1 ++ (take_lots n q).2 -> exists m, (r.1, m) ∈ q.
Proof.
  revert n. induction q as [|[a m] q IH]; intros n; cbn [take_lots]; [by intros ?%elem_of_nil|].
  destruct (n <=? 0); [intros Hr; exists r.2; by destruct r|]. destruct (m <=? n).
  - specialize (IH (n - m)). destruct (take_lots (n - m) q) as [t rest]. cbn [fst snd app] in *.
    intros [->|Hr]%elem_of_cons; [exists m; by left|]. destruct (IH Hr) as [m' Hm]. exists m'. by right.
  - cbn [fst snd app]. intros [->|[->|Hr]%elem_of_cons]%elem_of_cons; [exists m; by left|exists m; by left|].
    exists r.2. right. by destruct r.
Qed.

(** A book after trades of an order of side [s]: its own side is as before, and the lots
    of every order of the other side are traded or still rest. *)
Record matched s (n : Z) b b' (ts : list Trade) : Prop := {
  mt_book : book_ok b';
  mt_own : resting s b' = resting s b;
  mt_moved : forall id, id_lots id (resting (opposite s) b) =
    id_lots id (map trade_row ts) + id_lots id (resting (opposite s) b');
  mt_sub : forall r, r ∈ map trade_row ts ++ resting (opposite s) b' -> exists m, (r.1, m) ∈ resting (opposite s) b;
  mt_trades : whole_trades ts;
  mt_bounds : 0 <= lots_of (map trade_row ts) <= n
}.

(** What is taken from a front of the rows, before a rest that stays. *)
Lemma matched_front s n b b' ts front rest back :
  book_ok b -> book_ok b' -> resting s b' = resting s b -> whole_trades ts -> 0 <= n ->
  resting (opposite s) b = front ++ back -> take_lots n front = (map trade_row ts, rest) ->
  resting (opposite s) b' = rest ++ back -> matched s n b b' ts.
Proof.
  intros Hb Hb' Hown Hts Hn Hr HT Hr'.
  assert (positive_lots front) as Hp by (pose proof (resting_positive (opposite s) b Hb) as Hp; rewrite Hr in Hp;
    by apply Forall_app in Hp as [? _]).
  split; try done.
  - intros id. rewrite Hr, Hr', !id_lots_app, (id_lots_take id n front), HT. cbn [fst snd]. lia.
  - intros r. rewrite Hr, Hr', !elem_of_app. intros [Hin|[Hin|Hin]].
    + destruct (take_lots_sub n front r) as [m Hm]; [rewrite HT, elem_of_app; by left|]. exists m. rewrite elem_of_app. by left.
    + destruct (take_lots_sub n front r) as [m Hm]; [rewrite HT, elem_of_app; by right|]. exists m. rewrite elem_of_app. by left.
    + exists r.2. rewrite elem_of_app. right. by destruct r.
  - pose proof (take_lots_sum n front Hp Hn) as Hs. rewrite HT in Hs. cbn [fst] in Hs. pose proof (lots_of_nonneg front Hp). lia.
Qed.

Lemma matched_uncrossed s n b b' ts : matched s n b b' ts -> uncrossed b -> uncrossed b'.
Proof.
  intros [_ Hown _ Hsub _ _] Hu.
  assert (forall r r', r ∈ resting s b' -> r' ∈ resting (opposite s) b' -> apart s r.1.1 r'.1.1 = true) as Hap.
  { intros r r' H1 H2. rewrite Hown in H1. destruct (Hsub r') as [k Hk]; [rewrite elem_of_app; by right|].
    exact (Hu s r (r'.1, k) H1 Hk). }
  intros s' r r' H1 H2. destruct (decide (s' = s)) as [->|Hne]; [by apply Hap|]. apply other_side in Hne as ->.
  rewrite apart_twice. rewrite opposite_twice in H2. by apply Hap.
Qed.

Lemma turn_matched s n b b' ts :
  book_ok b -> 0 <= n -> whole_trades ts -> fills_in_turn s n b b' ts -> matched s n b b' ts.
Proof.
  intros Hb Hn Hts (Hb' & HT & Hown).
  by apply (matched_front s n b b' ts (resting (opposite s) b) (resting (opposite s) b') []); rewrite ?app_nil_r.
Qed.

Lemma split_within (f : pyfloat -> bool) (w : list (pyfloat * PriceLevel)) :
  exists wa wb, w = wa ++ wb /\ Forall (fun kl => f kl.1 = true) wa /\
    match wb with
    | [] => True
    | (key, _) :: _ => f key = false
    end.
Proof.
  induction w as [|[key l] w (wa & wb & -> & Ha & Hb)]; [by exists [], []|].
  destruct (f key) eqn:E; [exists ((key, l) :: wa), wb|exists [], ((key, l) :: wa ++ wb)]; split_and!; try done. by constructor.
Qed.

Lemma within_apart s limit p :
  is_num limit = true -> is_num p = true -> within_limit s limit p = negb (apart s limit p).
Proof. intros Hl Hp. destruct s; cbn; rewrite fltb_fleb, negb_involutive by done; done. Qed.

(** Past the first level beyond the limit all are beyond it. *)
Lemma beyond_rows s limit b wa wb r :
  book_ok b -> items (opposite s) b = wa ++ wb -> is_num limit = true ->
  beyond (opposite s) (within_limit s limit) wb -> r ∈ view_items (ob_heap b) (opposite s) wb ->
  within_limit s limit r.1.1 = false.
Proof.
  intros Hb Hi Hl Hout Hr. pose proof (so_sorted _ _ _ (bo_sides _ _ Hb (opposite s))) as Hs. rewrite Hi in Hs.
  apply sorted_app in Hs as (_ & Hs & _). unfold view_items in Hr.
  apply list_elem_of_In, in_concat in Hr as (v & Hv & Hr). apply in_map_iff in Hv as ([key l] & <- & Hkl).
  apply in_map_iff in Hr as (k & <- & _). cbn [fst snd]. apply list_elem_of_In in Hkl.
  destruct wb as [|[key0 l0] wb]; [by apply elem_of_nil in Hkl|]. destruct Hs as (Hn & Hlt & _). cbn in Hout.
  apply elem_of_cons in Hkl as [[= -> ->]|Hkl]; [done|]. rewrite Forall_forall in Hlt. specialize (Hlt _ Hkl). cbn in Hlt.
  pose proof (fltb_num _ _ Hlt) as [_ Hn'].
  rewrite within_apart in * by (try done; by apply num_key). apply negb_false_iff in Hout. apply negb_false_iff.
  destruct s; cbn in *.
  - by apply (fltb_trans _ key0).
  - rewrite <- (opp_opp limit), fltb_opp in *. by apply (fltb_trans _ key0).
Qed.

Lemma limit_sweep clk s limit taker participant n m b :
  book_ok b -> 0 <= n < 2 ^ 53 -> rule m = Fifo -> no_self_trade m participant (opposite s) b -> is_num limit = true ->
  let w := sweep clk s (within_limit s limit) taker participant (float_of_int n) m b in
  let filled := lots_of (map trade_row (sw_trades w)) in
  matched s n b (sw_book w) (sw_trades w) /\ sw_left w = float_of_int (n - filled) /\
  Forall (fun t => within_limit s limit (t_price t) = true) (sw_trades w) /\
  (filled < n -> forall r, r ∈ resting (opposite s) (sw_book w) -> within_limit s limit r.1.1 = false).
Proof.
  intros Hb Hn Hr Hs Hl w filled.
  destruct (split_within (fun key => within_limit s limit (side_key (opposite s) key)) (items (opposite s) b))
    as (wa & wb & Hi & Hin & Hout).
  destruct (engine_sweep clk s (within_limit s limit) taker participant n m b wa wb Hb Hn Hr Hs Hi Hin Hout) as [HT Hleft].
  fold w in HT, Hleft. destruct HT as [T1 (rest & T2 & T3) T4 T5]. rewrite opposite_twice in T4.
  assert (resting (opposite s) b = view_items (ob_heap b) (opposite s) wa ++ view_items (ob_heap b) (opposite s) wb) as R
    by (unfold resting; by rewrite Hi, view_items_app).
  assert (positive_lots (view_items (ob_heap b) (opposite s) wa)) as Hp.
  { pose proof (resting_positive (opposite s) b Hb) as Hp. rewrite R in Hp. by apply Forall_app in Hp as [? _]. }
  split; [by eapply matched_front; try done; lia|]. split; [done|]. split.
  - apply Forall_forall. intros t Ht.
    destruct (take_lots_sub n (view_items (ob_heap b) (opposite s) wa) (trade_row t)) as [k Hk].
    { rewrite T2, elem_of_app. left. apply list_elem_of_In, in_map. by apply list_elem_of_In. }
    cbn in Hk. unfold view_items in Hk. apply list_elem_of_In, in_concat in Hk as (v & Hv & Hk).
    apply in_map_iff in Hv as ([key l] & <- & Hkl). apply in_map_iff in Hk as (j & [= <- _ _] & _).
    rewrite Forall_forall in Hin. apply list_elem_of_In in Hkl. exact (Hin _ Hkl).
  - intros Hlt r. rewrite T3, elem_of_app.
    destruct (take_lots_rest n _ Hp ltac:(lia)) as [E|E]; rewrite T2 in E; cbn [fst snd] in E; [|unfold filled in Hlt; lia].
    rewrite E. intros [?%elem_of_nil|Hr']; [done|]. by apply (beyond_rows s limit b wa wb).
Qed.

(** What a sweep leaves alone. *)
Definition settings b := (enforce_tick_size b, enforce_lot_size b, tick_size b, lot_size b, auto_round_price b).

Lemma fold_keeps {A B C} (f : A -> B -> A) (g : A -> C) l a :
  (forall a x, g (f a x) = g a) -> g (fold_left f l a) = g a.
Proof. intros Hf. revert a. induction l as [|x l IH]; intros a; [done|]. cbn. by rewrite IH. Qed.

Lemma drop_filled_settings ts b : settings (drop_filled b ts) = settings b.
Proof. apply fold_keeps. intros b' t. destruct (dget _ _) as [[k s]|]; [|done]. by destruct (is_filled _). Qed.

Lemma set_levels_settings s d b : settings (set_levels s d b) = settings b.
Proof. by destruct s. Qed.

Lemma drop_levels_settings s keys b : settings (drop_levels s keys b) = settings b.
Proof. apply fold_keeps. intros b' k. destruct (sd_has _ _); [apply set_levels_settings|done]. Qed.

Lemma sweep_settings clk s within taker participant q m b :
  settings (sw_book (sweep clk s within taker participant q m b)) = settings b.
Proof.
  unfold sweep. cbn [sw_book]. rewrite drop_levels_settings.
  etransitivity; [apply (fold_keeps _ (fun w => settings (sw_book w)))|done]. intros w key. unfold sweep_step.
  destruct (_ || _); [done|]. destruct (sd_get _ _) as [l|]; [|done]. destruct (negb _); [done|].
  destruct (match_at_level _ _ _ _ _ _ _ _ _) as [[[[[h l'] ts] cancelled] filled] stps]. cbn [sw_book].
  rewrite drop_filled_settings, set_levels_settings. done.
Qed.

Lemma index_row b s id k : book_ok b -> dget (orders b) id = Some (k, s) -> exists r, r ∈ resting s b /\ r.1.2 = id.
Proof.
  intros Hb Hd. apply (bo_index _ _ Hb) in Hd as [Hk Hid]. apply elem_refs_of in Hk as (key & l & Hin & Hk).
  exists (side_key s key, order_id (ob_heap b !!! k), lots (ob_heap b !!! k)). split; [|done].
  apply resting_row; [done|]. by exists key, l, k.
Qed.

(** An order added to a book that it does not reach leaves it uncrossed. *)
Lemma add_uncrossed b o n :
  book_ok b -> uncrossed b -> has_lots o n -> is_num (price o) = true ->
  enforce_tick_size b = false -> enforce_lot_size b = false -> dget (orders b) (order_id o) = None ->
  (forall r, r ∈ resting (opposite (side o)) b -> within_limit (side o) (price o) r.1.1 = false) ->
  exists b' pos, add_limit_order o b = Ok (b', pos) /\ book_ok b' /\ uncrossed b'.
Proof.
  intros Hb Hu Hn Hp Ht Hlot Hid Hout.
  assert (effective_price (price o) b = Ok (price o)) as Heff by (unfold effective_price; by rewrite Ht).
  assert (enforce_lot_size b && fltb (remaining_qty o) (lot_size b) = false) as Hlot' by (by rewrite Hlot).
  destruct (order_rests b o n (price o) Hb Hn Heff Hp Hid Hlot')
    as (b' & pos & before & after & p' & Hadd & Hb' & Hr & Hr' & Hp' & _ & _ & _ & Hopp). exists b', pos. split; [done|]. split; [done|].
  set (s := side o) in *.
  assert (forall r r', r ∈ resting s b' -> r' ∈ resting (opposite s) b' -> apart s r.1.1 r'.1.1 = true) as Hap.
  { intros r r' Hr1 Hr2. rewrite Hopp in Hr2. rewrite Hr', !elem_of_app, list_elem_of_singleton in Hr1.
    assert (r ∈ resting s b \/ r = (p', order_id o, n)) as [Hr1'| ->] by (rewrite Hr, elem_of_app; tauto).
    - by apply Hu.
    - specialize (Hout r' Hr2). pose proof (row_num b _ _ Hb Hr2) as Hn2. rewrite within_apart in Hout by done.
      apply negb_false_iff in Hout. cbn [fst].
      assert (is_num p' = true) as Hnp'.
      { apply (row_num b' s (p', order_id o, n)); [done|]. rewrite Hr', !elem_of_app, list_elem_of_singleton. auto. }
      destruct s; cbn in *; [by rewrite (fltb_feqb_l p' (price o))|by rewrite (fltb_feqb_r p' (price o))]. }
  intros s' r r' H1 H2. destruct (decide (s' = s)) as [->|Hne]; [by apply Hap|]. apply other_side in Hne as ->.
  rewrite apart_twice. rewrite opposite_twice in H2. by apply Hap.
Qed.

Lemma post_init_fields o :
  order_id (post_init o) = order_id o /\ price (post_init o) = price o /\ side (post_init o) = side o /\
  remaining_qty (post_init o) = remaining_qty o.
Proof.
  unfold post_init. destruct (bool_decide _); [|destruct (_ && _)]; cbn; by destruct (feqb _ _ && _).
Qed.

Lemma post_init_participant o : participant_id (post_init o) = participant_id o.
Proof. unfold post_init. destruct (bool_decide _); [|destruct (_ && _)]; cbn; by destruct (feqb _ _ && _). Qed.

(** What is left of an order, added to a book, does not cross it. *)
Definition rest_added (b : OrderBook) (rest : option LimitOrder) : Prop :=
  match rest with
  | None => book_ok b /\ is_crossed b = false
  | Some o => exists b' pos, add_limit_order o b = Ok (b', pos) /\ book_ok b' /\ is_crossed b' = false
  end.

Lemma add_rest b o n :
  book_ok b -> uncrossed b -> has_lots o n -> is_num (price o) = true ->
  enforce_tick_size b = false -> enforce_lot_size b = false -> dget (orders b) (order_id o) = None ->
  (forall r, r ∈ resting (opposite (side o)) b -> within_limit (side o) (price o) r.1.1 = false) ->
  rest_added b (Some o).
Proof.
  intros Hb Hu Hn Hp Ht Hlot Hid Hout. destruct (add_uncrossed b o n Hb Hu Hn Hp Ht Hlot Hid Hout) as (b' & pos & Hadd & Hb' & Hu').
  exists b', pos. by rewrite is_crossed_rows.
Qed.

(** No order of the other side is within the limit of one that is not aggressive. *)
Lemma passive_rows o b r :
  book_ok b -> is_num (price o) = true -> is_aggressive o b = false -> r ∈ resting (opposite (side o)) b ->
  within_limit (side o) (price o) r.1.1 = false.
Proof.
  intros Hb Hp Ha Hr. unfold is_aggressive in Ha. pose proof (best_row b (opposite (side o)) Hb) as Hbest.
  destruct (best _ b) as [p|]; [|by rewrite Hbest in Hr; apply elem_of_nil in Hr].
  destruct Hbest as [(r0 & Hr0 & <-) Hall]. specialize (Hall r Hr).
  pose proof (row_num b _ _ Hb Hr) as N. pose proof (row_num b _ _ Hb Hr0) as N0.
  rewrite within_apart in * by done. apply negb_false_iff in Ha. apply negb_false_iff.
  destruct (side o); cbn in *.
  - by apply (fltb_fleb_trans _ r0.1.1).
  - rewrite fleb_opp in Hall. by apply (fleb_fltb_trans _ r0.1.1).
Qed.
Lemma sweep_engine clk s within taker participant q m b :
  let m' := sw_engine (sweep clk s within taker participant q m b) in rule m' = rule m /\ enable_stp m' = enable_stp m.
Proof.
  cbv zeta. unfold sweep. cbn [sw_engine].
  assert (forall w, (rule (sw_engine w), enable_stp (sw_engine w)) = (rule m, enable_stp m) ->
    rule (sw_engine w) = rule m /\ enable_stp (sw_engine w) = enable_stp m) as Hpair by (intros w [= -> ->]; done).
  apply Hpair. etransitivity; [apply (fold_keeps _ (fun w => (rule (sw_engine w), enable_stp (sw_engine w))))|done].
  intros w key. unfold sweep_step. destruct (_ || _); [done|]. destruct (sd_get _ _) as [l|]; [|done].
  destruct (negb _); [done|]. by destruct (match_at_level _ _ _ _ _ _ _ _ _) as [[[[[h l'] ts] cancelled] filled] stps].
Qed.

(** What a market order of the engine does to book and engine. *)
Lemma market_matched clk s taker participant n m b :
  book_ok b -> 0 < n < 2 ^ 53 -> rule m = Fifo -> no_self_trade m participant (opposite s) b ->
  let '(m', b', r) := match_market_order clk s (float_of_int n) taker participant m b in
  exists ts, matched s n b b' ts /\ settings b' = settings b /\ (rule m' = rule m /\ enable_stp m' = enable_stp m) /\
    fills r = create_fills ts (default ""%string taker) (float_of_int n) /\
    total_filled_qty r = float_of_int (lots_of (map trade_row ts)) /\ r_complete r = (lots_of (map trade_row ts) =? n).
Proof.
  intros Hb Hn Hr Hs. pose proof (engine_in_turn clk s taker participant n m b Hb Hn Hr Hs) as HT.
  pose proof (sweep_settings clk s (fun _ => true) taker participant (float_of_int n) (count_match m) b) as Hset.
  pose proof (sweep_engine clk s (fun _ => true) taker participant (float_of_int n) (count_match m) b) as Heng.
  unfold match_market_order in *. rewrite not_positive_int, (proj2 (Z.eqb_neq n 0)) in * by lia.
  destruct HT as (ts & cancelled & HT & Hts & E). exists ts. pose proof (turn_matched s n b _ ts Hb ltac:(lia) Hts HT) as Hm.
  split; [done|]. split; [exact Hset|]. split; [exact Heng|]. rewrite E. split; [done|].
  pose proof (mt_bounds _ _ _ _ _ Hm).
  destruct (result_spec (default ""%string taker) n ts None cancelled Hts Hn ltac:(lia)) as (_ & -> & -> & _). done.
Qed.

(** What a limit order does, and what is left of it. *)
Lemma limit_matched clk o n m b :
  book_ok b -> rule m = Fifo -> no_self_trade m (participant_id o) (opposite (side o)) b ->
  has_lots o n -> is_num (price o) = true ->
  let '(m', b', r) := match_limit_order clk o m b in
  exists ts, matched (side o) n b b' ts /\ settings b' = settings b /\ (rule m' = rule m /\ enable_stp m' = enable_stp m) /\
    fills r = create_fills ts (order_id o) (float_of_int n) /\
    Forall (fun t => within_limit (side o) (price o) (t_price t) = true) ts /\
    let left := n - lots_of (map trade_row ts) in
    match resting_order r with
    | None => left = 0
    | Some rest => has_lots rest left /\ order_id rest = order_id o /\ price rest = price o /\ side rest = side o /\
        forall r, r ∈ resting (opposite (side o)) b' -> within_limit (side o) (price o) r.1.1 = false
    end.
Proof.
  intros Hb Hr Hs Hn Hp. pose proof Hn as [Hn0 Hrem]. unfold match_limit_order.
  rewrite Hrem, not_positive_int, (proj2 (Z.eqb_neq n 0)) by lia. destruct (is_aggressive o b) eqn:Ha; cbn [negb].
  2: { exists []. cbn. rewrite Z.sub_0_r. split_and!; try done; [|intros r; by apply passive_rows].
       split; [done|done|done| |constructor|cbn; lia]. intros r Hr'. exists r.2. by destruct r. }
  pose proof (limit_sweep clk (side o) (price o) (Some (order_id o)) (participant_id o) n (count_match m) b
    Hb ltac:(lia) Hr Hs Hp) as HL. cbv zeta in HL.
  pose proof (sweep_settings clk (side o) (within_limit (side o) (price o)) (Some (order_id o)) (participant_id o)
    (float_of_int n) (count_match m) b) as Hset.
  pose proof (sweep_engine clk (side o) (within_limit (side o) (price o)) (Some (order_id o)) (participant_id o)
    (float_of_int n) (count_match m) b) as Heng. cbv zeta in Heng.
  set (w := sweep _ _ _ _ _ _ _ _) in *. destruct HL as (Hm & Hleft & Hin & Hout).
  exists (sw_trades w). pose proof (mt_bounds _ _ _ _ _ Hm). set (filled := lots_of _) in *.
  cbn [fills resting_order result_from_fills]. split_and!; try done; [apply Heng|apply Heng|].
  rewrite Hleft, positive_int by lia. destruct (Z.ltb_spec 0 (n - filled)); [|cbv zeta; lia].
  destruct (post_init_fields (MkOrder (order_id o) (price o) (qty o) (float_of_int (n - filled)) (timestamp_ns o) (side o)
    (hidden_qty o) (fmin (display_qty o) (float_of_int (n - filled))) fzero (is_own o) 0 (order_type o) (participant_id o)))
    as (P1 & P2 & P3 & P4). cbv zeta. unfold rest_of, new_order. split; [split; [lia|done]|].
  split_and!; try done. apply Hout. lia.
Qed.

(** An order whose id is new stays new while it is matched. *)
Lemma matched_fresh s n b b' ts id :
  book_ok b -> matched s n b b' ts -> dget (orders b) id = None -> dget (orders b') id = None.
Proof.
  intros Hb [Hb' Hown _ Hsub _ _] Hid. destruct (dget (orders b') id) as [[k s']|] eqn:Hd; [|done].
  destruct (index_row _ _ _ _ Hb' Hd) as (r & Hr1 & Hr2).
  assert (exists r' s', r' ∈ resting s' b /\ r'.1.2 = id) as (r' & s'' & Hr' & E).
  { destruct (decide (s' = s)) as [->|Hne]; [rewrite Hown in Hr1; eauto|]. apply other_side in Hne as ->.
    destruct (Hsub r) as [j Hj]; [rewrite elem_of_app; by right|]. by exists (r.1, j), (opposite s). }
  destruct (resting_ids _ _ _ _ Hb Hr') as [k' Hk']. by rewrite E, Hid in Hk'.
Qed.
End PriceTime.

(** ** Iceberg orders *)

(** An iceberg order of [d] displayed and [h] hidden lots, shown [c] at a time: the parts
    make up what remains, and something is displayed as long as anything is left. *)
Record iceberg (o : LimitOrder) (d h c : Z) : Prop := {
  ic_type : order_type o = ICEBERG;
  ic_peak : 0 < c < 2 ^ 53 /\ original_display_qty o = float_of_int c;
  ic_display : 0 <= d <= c /\ display_qty o = float_of_int d;
  ic_hidden : 0 <= h /\ hidden_qty o = float_of_int h;
  ic_remaining : d + h < 2 ^ 53 /\ remaining_qty o = float_of_int (d + h);
  ic_shows : d = 0 -> h = 0
}.

(** C32: A fill keeps an iceberg order well formed: it fills what was asked for or all
    that remains, first from the displayed part; what remains is still the displayed
    and the hidden part together, never more than the original size is displayed, and
    the displayed part is replenished whenever it runs out while lots are hidden. *)
Theorem iceberg_fill_well_formed o d h c q :
  iceberg o d h c -> 0 <= q < 2 ^ 53 ->
  let '(o', filled) := fill (float_of_int q) o in
  exists d' h', iceberg o' d' h' c /\ filled = float_of_int (Z.min q (d + h)) /\
    d' + h' = d + h - Z.min q (d + h) /\ h' <= h /\ (q < d -> h' = h).
Proof.
  intros [Ht [Hc Ec] [Hd Ed] [Hh Eh] [Hr Er] Hs] Hq. unfold fill. rewrite Er, fmin_int by (apply small_pos; lia).
  set (a := Z.min q (d + h)). rewrite not_positive_int by lia. destruct (Z.eqb_spec a 0) as [Ea|Ea].
  { exists d, h. rewrite Ea. split_and!; try done; lia. }
  rewrite Ht, Ed, Eh, fmin_int by (apply small_pos; lia). rewrite !fsub_int by (apply small_pos; lia).
  rewrite positive_int by lia. set (x := Z.min a d). change fzero with (float_of_int 0).
  assert ((if 0 <? a - x then float_of_int (h - (a - x)) else float_of_int h) = float_of_int (h - (a - x))) as ->.
  { destruct (Z.ltb_spec 0 (a - x)); [done|f_equal; lia]. }
  rewrite positive_int, feqb_int by (apply small_pos || lia; lia).
  destruct ((d - x =? 0) && (0 <? h - (a - x))) eqn:Hrep.
  - unfold original_display_size. cbn [set_quantities original_display_qty]. rewrite Ec, positive_int, (proj2 (Z.ltb_lt 0 c)) by lia.
    rewrite fmin_int, fsub_int by (apply small_pos; lia). exists (Z.min (h - (a - x)) c), (h - (a - x) - Z.min (h - (a - x)) c).
    split_and!; try lia; [|done]. split; cbn; try done; (split; [lia|f_equal; lia]) || lia.
  - exists (d - x), (h - (a - x)). split_and!; try lia; [|done]. split; cbn; try done; try (split; [lia|f_equal; lia]). lia.
Qed.

(** C30: A market order for a whole number of lots, on a book that keeps its invariant
    (whole lots in price-time order), is filled from the front of what rests on the other side: best
    price first, oldest order first at a price, each trade at the price of the maker,
    as much as was asked for or as there is; what rests afterwards is the remainder in
    the same order, its own side is untouched, and the book keeps its invariant. *)
Theorem market_order_fills_in_turn `{SortedDictLaws} clk s taker own n b :
  book_ok b -> 0 < n < 2 ^ 53 ->
  let '(b', f) := execute_market_order clk s (float_of_int n) taker own b in
  let filled := Z.min n (lots_of (resting (opposite s) b)) in
  book_ok b' /\
  take_lots n (resting (opposite s) b) = (map trade_row (trades f), resting (opposite s) b') /\
  resting s b' = resting s b /\
  total_qty f = float_of_int filled /\ f_remaining f = float_of_int (n - filled) /\ is_complete f = (filled =? n).
Proof.
  intros Hb Hn. pose proof (market_in_turn clk s taker own n b Hb Hn) as HT.
  destruct (execute_market_order _ _ _ _ _ _) as [b' f]. destruct HT as (ts & HT & Hts & ->).
  destruct (turn_bounds s n b b' ts Hb ltac:(lia) HT) as [<- Hlots]. pose proof (turn_bounds s n b b' ts Hb ltac:(lia) HT).
  destruct (fill_from_trades_spec (default ""%string taker) n ts Hts Hn ltac:(lia)) as (-> & -> & -> & ->).
  destruct HT as (? & ? & ?). by split_and!.
Qed.

(** C31: The matching engine and the book's own market order agree: when no self-trade is
    prevented, price-time matching gives the same trades, the same totals and leaves
    the same orders resting, on both sides, though the two loops are written apart. *)
Theorem engine_agrees_with_book `{SortedDictLaws} clk clk' s taker own participant n m b :
  book_ok b -> 0 < n < 2 ^ 53 -> rule m = Fifo -> no_self_trade m participant (opposite s) b ->
  let '(b1, f) := execute_market_order clk s (float_of_int n) taker own b in
  let '(_, b2, r) := match_market_order clk' s (float_of_int n) taker participant m b in
  book_ok b2 /\ (forall side, resting side b2 = resting side b1) /\
  map trade_row (result_trades r) = map trade_row (trades f) /\
  total_filled_qty r = total_qty f /\ r_complete r = is_complete f.
Proof.
  intros Hb Hn Hr Hs. pose proof (market_in_turn clk s taker own n b Hb Hn) as H1.
  pose proof (engine_in_turn clk' s taker participant n m b Hb Hn Hr Hs) as H2.
  destruct (execute_market_order _ _ _ _ _ _) as [b1 f], (match_market_order _ _ _ _ _ _ _) as [[m' b2] r].
  destruct H1 as (ts1 & T1 & W1 & ->), H2 as (ts2 & cancelled & T2 & W2 & ->).
  destruct (turn_bounds s n b b1 ts1 Hb ltac:(lia) T1) as [L1 L0], (turn_bounds s n b b2 ts2 Hb ltac:(lia) T2) as [L2 _].
  destruct (fill_from_trades_spec (default ""%string taker) n ts1 W1 Hn ltac:(lia)) as (-> & -> & _ & ->).
  destruct (result_spec (default ""%string taker) n ts2 None cancelled W2 Hn ltac:(lia)) as (-> & -> & -> & _).
  destruct T1 as (_ & E1 & R1), T2 as (B2 & E2 & R2). rewrite E1 in E2. injection E2 as Ets Er.
  rewrite L1, L2. split_and!; try done. intros side. destruct (decide (side = s)) as [->|Hne]; [by rewrite R1, R2|].
  by rewrite (other_side s side Hne).
Qed.

(** A limit order never trades beyond its limit, and once what is left of it is
    added the book is not crossed: for a book that was not, price-time matching and no
    self-trade prevented. *)
Theorem limit_order_keeps_book_uncrossed `{SortedDictLaws} clk o n m b :
  book_ok b -> is_crossed b = false -> rule m = Fifo -> no_self_trade m (participant_id o) (opposite (side o)) b ->
  has_lots o n -> is_num (price o) = true -> enforce_tick_size b = false -> enforce_lot_size b = false ->
  dget (orders b) (order_id o) = None ->
  let '(_, b', r) := match_limit_order clk o m b in
  Forall (fun t => within_limit (side o) (price o) (t_price t) = true) (result_trades r) /\
  rest_added b' (resting_order r).
Proof.
  intros Hb Hc Hr Hs Hn Hp Ht Hlot Hid. apply is_crossed_rows in Hc; [|done].
  pose proof (limit_matched clk o n m b Hb Hr Hs Hn Hp) as HT. pose proof Hn as [Hn0 _].
  destruct (match_limit_order clk o m b) as [[m' b'] r]. destruct HT as (ts & Hm & Hset & _ & Hf & Hin & Hrest).
  pose proof (matched_uncrossed _ _ _ _ _ Hm Hc) as Hu. pose proof (mt_book _ _ _ _ _ Hm) as Hb'.
  assert (result_trades r = ts) as ->.
  { unfold result_trades. rewrite Hf. destruct ts as [|t ts]; [done|]. cbn. by rewrite app_nil_r. }
  split; [done|]. cbv zeta in Hrest. destruct (resting_order r) as [rest|]; [|split; [done|by apply is_crossed_rows]].
  destruct Hrest as (Hl & Ei & Ep & Es & Hout). injection Hset as S1 S2 _ _ _.
  apply (add_rest b' rest _ Hb' Hu Hl); rewrite ?Ep, ?Es, ?Ei; try done.
  - by rewrite S1.
  - by rewrite S2.
  - by apply (matched_fresh _ _ _ _ _ _ Hb Hm).
Qed.

(** An accepted order takes its turn: it rests behind every order of a better or
    the same price and before every order of a worse one, at the position reported to
    the caller; nothing else of the book changes, and the book keeps its invariant:
    levels in price order and not empty, each order queued once and found by its id. *)
Theorem order_takes_its_turn `{SortedDictLaws} b o n p :
  book_ok b -> has_lots o n -> effective_price (price o) b = Ok p -> is_num p = true ->
  dget (orders b) (order_id o) = None -> enforce_lot_size b && fltb (remaining_qty o) (lot_size b) = false ->
  exists b' pos before after p',
    add_limit_order o b = Ok (b', pos) /\ book_ok b' /\
    resting (side o) b = before ++ after /\
    resting (side o) b' = before ++ [(p', order_id o, n)] ++ after /\ feqb p' p = true /\
    Forall (fun r => better (side o) p' r.1.1 = false) before /\
    Forall (fun r => better (side o) p' r.1.1 = true) after /\
    get_queue_position (order_id o) b' = Some pos /\
    resting (opposite (side o)) b' = resting (opposite (side o)) b.
Proof. apply order_rests. Qed.

(** Cancelling an order right after it was added restores what rests on both
    sides. *)
Theorem cancel_undoes_add `{SortedDictLaws} b o n p b' pos :
  book_ok b -> has_lots o n -> effective_price (price o) b = Ok p -> is_num p = true ->
  add_limit_order o b = Ok (b', pos) ->
  let '(b'', r) := cancel_order (order_id o) b' in
  is_Some r /\ book_ok b'' /\ forall s, resting s b'' = resting s b.
Proof.
  intros Hb Hn Hp Hnp Hadd.
  assert (dget (orders b) (order_id o) = None /\ enforce_lot_size b && fltb (remaining_qty o) (lot_size b) = false)
    as [Hfresh Hlot].
  { unfold add_limit_order in Hadd. destruct (not_positive _); [done|]. destruct (_ && _); [done|].
    destruct (dget (orders b) (order_id o)) eqn:E; [|done]. by rewrite bool_decide_true in Hadd by (by eexists). }
  destruct (order_rests b o n p Hb Hn Hp Hnp Hfresh Hlot)
    as (b1 & pos1 & before & after & p' & Hadd' & Hb' & Hr & Hr' & _ & _ & _ & Hq & Hopp).
  rewrite Hadd in Hadd'. injection Hadd' as <- <-.
  unfold get_queue_position, get_order in Hq. destruct (dget (orders b') (order_id o)) as [[k s']|] eqn:Hd; [|done].
  assert (s' = side o) as ->.
  { assert ((p', order_id o, n) ∈ resting (side o) b') as Hin by (rewrite Hr', !elem_of_app; right; left; by left).
    destruct (resting_ids _ _ _ _ Hb' Hin) as [k' Hk']. cbn in Hk'. rewrite Hd in Hk'. by injection Hk' as -> ->. }
  pose proof (cancel_spec b' _ k _ Hb' Hd) as Hc. pose proof (cancel_rows b' _ k _ Hb' Hd) as Hv.
  destruct (cancel_order (order_id o) b') as [b'' r]. cbn [fst] in Hv. destruct Hc as (-> & Hb'' & _), Hv as (Hv1 & Hv2 & _).
  split; [by eexists|]. split; [done|]. intros s.
  assert (resting (side o) b'' = resting (side o) b) as Hsame.
  { rewrite Hv1, Hr', !List.filter_app, Hr.
    assert (forall l, (forall r, r ∈ l -> r ∈ resting (side o) b) ->
      List.filter (fun r => negb (bool_decide (r.1.2 = order_id o))) l = l) as Hkeep.
    { intros l Hl. apply filter_all. intros x Hx. apply negb_true_iff, bool_decide_eq_false_2. intros E.
      destruct (resting_ids _ _ _ _ Hb (Hl x Hx)) as [j Hj]. rewrite E, Hfresh in Hj. done. }
    rewrite (Hkeep before), (Hkeep after) by (intros x Hx; rewrite Hr, elem_of_app; auto). cbn.
    by rewrite bool_decide_true by done. }
  destruct (decide (s = side o)) as [->|Hne]; [done|]. assert (s = opposite (side o)) as -> by (by apply other_side).
  by rewrite Hv2, Hopp.
Qed.

(** ** Concrete books *)

Lemma new_book_ok `{SortedDictLaws} symbol tick lot etick elot around :
  book_ok (new_book symbol tick lot etick elot around).
Proof.
  assert (forall s, sd_items (levels s (new_book symbol tick lot etick elot around)) = []) as Hi
    by (intros []; apply sd_empty_items).
  split.
  - intros s. split; rewrite Hi; [done|]. by intros key l ?%elem_of_nil.
  - intros id k s. unfold side_refs. rewrite Hi. split; [done|]. by intros [?%elem_of_nil _].
  - unfold side_refs. by rewrite !Hi.
Qed.

Definition added `{SortedDict} (b : OrderBook) (o : LimitOrder) : OrderBook :=
  match add_limit_order o b with
  | Ok (b', _) => b'
  | Raise _ => b
  end.

Lemma added_ok `{SortedDictLaws} b o n :
  book_ok b -> has_lots o n -> effective_price (price o) b = Ok (price o) -> is_num (price o) = true ->
  dget (orders b) (order_id o) = None -> enforce_lot_size b && fltb (remaining_qty o) (lot_size b) = false ->
  book_ok (added b o).
Proof.
  intros Hb Hn Hp Hnp Hid Hlot. destruct (order_rests b o n (price o) Hb Hn Hp Hnp Hid Hlot)
    as (b' & pos & _ & _ & _ & Hadd & Hb' & _). unfold added. by rewrite Hadd.
Qed.

Section Runs.
Existing Instance list_sorted_dict.

Definition lots_at (id : string) (s : Side) (p n : Z) (participant : option string) : LimitOrder :=
  new_order id (float_of_int p) (float_of_int n) (float_of_int n) 0 s fzero fzero false LIMIT participant.

Definition book_of (os : list LimitOrder) : OrderBook :=
  fold_left added os (new_book "X" fzero fzero false false true).

Definition rows (l : list (pyfloat * string * Z)) : list (option Z * string * Z) :=
  map (fun r => (float_to_int r.1.1, r.1.2, r.2)) l.

Definition engine (r : Rule) (a : STPAction) : MatchingEngine := MkMatching r a true 0 0 0.

Abbreviation zero_clock := (fun _ : nat => 0).

Definition two_sided : OrderBook :=
  book_of [lots_at "a1" SELL 101 5 None; lots_at "b1" BUY 99 5 None; lots_at "a2" SELL 102 4 None;
           lots_at "a3" SELL 101 3 None].

Lemma lots_at_ok id s p n participant : 0 < n < 2 ^ 53 -> has_lots (lots_at id s p n participant) n.
Proof.
  intros Hn. split; [done|]. unfold lots_at, new_order. by destruct (post_init_fields (MkOrder id (float_of_int p) (float_of_int n)
    (float_of_int n) 0 s fzero fzero fzero false 0 LIMIT participant)) as (_ & _ & _ & ->).
Qed.

Lemma two_sided_ok : book_ok two_sided.
Proof.
  unfold two_sided, book_of. cbn [fold_left].
  apply (added_ok _ _ 3); [|by apply lots_at_ok|by vm_compute..].
  apply (added_ok _ _ 4); [|by apply lots_at_ok|by vm_compute..].
  apply (added_ok _ _ 5); [|by apply lots_at_ok|by vm_compute..].
  apply (added_ok _ _ 5); [|by apply lots_at_ok|by vm_compute..]. apply new_book_ok.
Qed.

Lemma no_participant m s b : no_self_trade m None s b.
Proof.
  apply Forall_forall. intros k _. unfold stp_of. cbn [truthy]. by rewrite andb_false_r.
Qed.

Lemma market_order_fills_in_turn_witness :
  0 < 6 < 2 ^ 53 /\
  let '(b', f) := execute_market_order zero_clock BUY (float_of_int 6) None false two_sided in
  let filled := Z.min 6 (lots_of (resting SELL two_sided)) in
  book_ok b' /\
  take_lots 6 (resting SELL two_sided) = (map trade_row (trades f), resting SELL b') /\
  resting BUY b' = resting BUY two_sided /\
  total_qty f = float_of_int filled /\ f_remaining f = float_of_int (6 - filled) /\ is_complete f = (filled =? 6).
Proof. split; [done|]. apply (market_order_fills_in_turn zero_clock BUY None false 6 two_sided); [exact two_sided_ok|done]. Defined.

Lemma engine_agrees_with_book_witness :
  let '(b1, f) := execute_market_order zero_clock BUY (float_of_int 10) None false two_sided in
  let '(_, b2, r) := match_market_order zero_clock BUY (float_of_int 10) None None (engine Fifo CANCEL_BOTH) two_sided in
  book_ok b2 /\ (forall side, resting side b2 = resting side b1) /\
  map trade_row (result_trades r) = map trade_row (trades f) /\
  total_filled_qty r = total_qty f /\ r_complete r = is_complete f.
Proof.
  apply (engine_agrees_with_book zero_clock zero_clock BUY None false None 10 (engine Fifo CANCEL_BOTH) two_sided);
    [exact two_sided_ok|done|done|apply no_participant].
Defined.

(** Six lots at up to 101 take the eight resting there in turn. *)
Lemma limit_order_keeps_book_uncrossed_witness :
  let o := lots_at "n" BUY 101 10 None in
  let '(_, b', r) := match_limit_order zero_clock o (engine Fifo CANCEL_BOTH) two_sided in
  Forall (fun t => within_limit (side o) (price o) (t_price t) = true) (result_trades r) /\
  rest_added b' (resting_order r).
Proof.
  apply (limit_order_keeps_book_uncrossed zero_clock (lots_at "n" BUY 101 10 None) 10 (engine Fifo CANCEL_BOTH) two_sided);
    [exact two_sided_ok|by vm_compute|done|apply no_participant|by apply lots_at_ok|by vm_compute..].
Defined.

Lemma order_takes_its_turn_witness :
  let o := lots_at "n" SELL 101 2 None in
  exists b' pos before after p',
    add_limit_order o two_sided = Ok (b', pos) /\ book_ok b' /\
    resting (side o) two_sided = before ++ after /\
    resting (side o) b' = before ++ [(p', order_id o, 2)] ++ after /\ feqb p' (price o) = true /\
    Forall (fun r => better (side o) p' r.1.1 = false) before /\
    Forall (fun r => better (side o) p' r.1.1 = true) after /\
    get_queue_position (order_id o) b' = Some pos /\
    resting (opposite (side o)) b' = resting (opposite (side o)) two_sided.
Proof.
  apply (order_takes_its_turn two_sided (lots_at "n" SELL 101 2 None) 2);
    [exact two_sided_ok|by apply lots_at_ok|by vm_compute..].
Defined.

Lemma cancel_undoes_add_witness :
  let o := lots_at "n" SELL 101 2 None in
  exists b' pos, add_limit_order o two_sided = Ok (b', pos) /\
    let '(b'', r) := cancel_order (order_id o) b' in
    is_Some r /\ book_ok b'' /\ forall s, resting s b'' = resting s two_sided.
Proof.
  pose proof (lots_at_ok "n" SELL 101 2 None ltac:(done)) as Hn. cbv zeta.
  set (o := lots_at "n" SELL 101 2 None) in *. exists (added two_sided o), 2.
  assert (add_limit_order o two_sided = Ok (added two_sided o, 2)) as Hadd by (by vm_compute).
  assert (effective_price (price o) two_sided = Ok (price o)) as Hp by (vm_compute; reflexivity).
  assert (is_num (price o) = true) as Hnp by (vm_compute; reflexivity).
  split; [exact Hadd|]. clearbody o.
  exact (cancel_undoes_add two_sided o 2 (price o) (added two_sided o) 2 two_sided_ok Hn Hp Hnp Hadd).
Defined.

(** An order of twenty lots shown four at a time, filled by five. *)
Lemma iceberg_fill_well_formed_witness :
  let o := new_order "i" (float_of_int 101) (float_of_int 20) (float_of_int 20) 0 BUY (float_of_int 16) (float_of_int 4)
             false ICEBERG None in
  iceberg o 4 16 4 /\
  let '(o', filled) := fill (float_of_int 5) o in
  exists d' h', iceberg o' d' h' 4 /\ filled = float_of_int (Z.min 5 (4 + 16)) /\
    d' + h' = 4 + 16 - Z.min 5 (4 + 16) /\ h' <= 16 /\ (5 < 4 -> h' = 16).
Proof.
  set (o := new_order _ _ _ _ _ _ _ _ _ _ _).
  assert (iceberg o 4 16 4) as Ho by (split; by vm_compute).
  split; [exact Ho|]. apply (iceberg_fill_well_formed o 4 16 4 5 Ho). done.
Defined.

(** ** What self-trade prevention and the totals do *)

Definition own_book : OrderBook :=
  book_of [lots_at "a1" SELL 101 5 (Some "P"%string); lots_at "a2" SELL 102 5 (Some "Q"%string);
           lots_at "b1" BUY 99 5 None].

Definition own_order : LimitOrder := lots_at "n" BUY 103 8 (Some "P"%string).

(** The newest order is not cancelled: it passes the participant's own order, trades at
    the next, worse price, and its rest is returned for the book, which it crosses. *)
Example cancel_newest_trades_on :
  let '(_, b, r) := match_limit_order zero_clock own_order (engine Fifo CANCEL_NEWEST) own_book in
  rows (map trade_row (result_trades r)) = [(Some 102, "a2"%string, 5)] /\
  lots <$> resting_order r = Some 3 /\
  is_crossed (added b (default own_order (resting_order r))) = true.
Proof. by vm_compute. Qed.

(** Of both orders none is cancelled. *)
Example cancel_both_cancels_neither :
  let '(_, b, r) := match_limit_order zero_clock own_order (engine Fifo CANCEL_BOTH) own_book in
  cancelled_orders r = [] /\ rows (resting SELL b) = [(Some 101, "a1"%string, 5)] /\ lots <$> resting_order r = Some 3.
Proof. by vm_compute. Qed.

(** The oldest order is cancelled in its queue only: the book still counts and finds it. *)
Example cancel_oldest_leaves_ghost :
  let '(_, b, r) := match_limit_order zero_clock own_order (engine Fifo CANCEL_OLDEST) own_book in
  cancelled_orders r = [0%nat] /\ resting SELL b = [] /\
  contains_order "a1" b = true /\ order_count b = 2 /\ (cancel_order "a1" b).2 = None.
Proof. by vm_compute. Qed.

(** The engine leaves the visible quantity of a level as it was before a partial fill;
    the book's own market order does not. *)
Example partial_fill_keeps_depth :
  let b := book_of [lots_at "a1" SELL 101 10 None] in
  let '(_, b2, _) := match_market_order zero_clock BUY (float_of_int 4) None None (engine Fifo CANCEL_BOTH) b in
  let '(b1, _) := execute_market_order zero_clock BUY (float_of_int 4) None false b in
  rows (resting SELL b2) = [(Some 101, "a1"%string, 6)] /\ resting SELL b1 = resting SELL b2 /\
  float_to_int (best_qty SELL b1) = Some 6 /\ float_to_int (best_qty SELL b2) = Some 10 /\
  float_to_int (walk_book BUY (float_of_int 10) b2).1.2 = Some 10.
Proof. by vm_compute. Qed.

(** Shares below the minimum are nobody's: pro-rata matching goes on at a worse price. *)
Example pro_rata_skips_best_price :
  let b := book_of [lots_at "a1" SELL 101 1 None; lots_at "a2" SELL 101 1 None; lots_at "a3" SELL 101 1 None;
                    lots_at "a4" SELL 102 5 None] in
  let '(_, _, r) := match_market_order zero_clock BUY (float_of_int 1) None None
                      (engine (ProRata (float_of_int 1)) CANCEL_BOTH) b in
  rows (map trade_row (result_trades r)) = [(Some 102, "a4"%string, 1)].
Proof. by vm_compute. Qed.

(** Pro-rata matching only looks for orders to cancel: with the other actions the
    participant trades with itself. *)
Example pro_rata_trades_with_itself :
  let '(_, _, r) := match_market_order zero_clock BUY (float_of_int 5) (Some "n"%string) (Some "P"%string)
                      (engine (ProRata (float_of_int 1)) CANCEL_NEWEST) own_book in
  rows (map trade_row (result_trades r)) = [(Some 101, "a1"%string, 5)].
Proof. by vm_compute. Qed.

(** A modification to nothing leaves an order without quantity in the queue; the next
    fill takes it off its level but not off the index. *)
Example modified_to_nothing_rests :
  let '(b, r) := modify_order 0 "a1" (Some fzero) None two_sided in
  rows (resting SELL b) = [(Some 101, "a1"%string, 0); (Some 101, "a3"%string, 3); (Some 102, "a2"%string, 4)] /\
  let '(b', _) := execute_market_order zero_clock BUY (float_of_int 1) None false b in
  rows (resting SELL b') = [(Some 101, "a3"%string, 2); (Some 102, "a2"%string, 4)] /\ contains_order "a1" b' = true.
Proof. by vm_compute. Qed.

(** The rest of an aggressive iceberg order keeps the hidden quantity of the whole. *)
Example iceberg_rest_not_well_formed :
  let b := book_of [lots_at "a1" SELL 101 5 None] in
  let o := new_order "i" (float_of_int 101) (float_of_int 20) (float_of_int 20) 0 BUY (float_of_int 16) (float_of_int 4)
             false ICEBERG None in
  let '(_, _, r) := match_limit_order zero_clock o (engine Fifo CANCEL_BOTH) b in
  (fun o => (float_to_int (remaining_qty o), float_to_int (display_qty o), float_to_int (hidden_qty o))) <$> resting_order r =
    Some (Some 15, Some 4, Some 16).
Proof. by vm_compute. Qed.
End Runs.
