(* ===== verification/QueueTracker.v ===== *)
(** * Queue positions: [lob/queue_tracker.py]

    What the simulator believes about the place of its orders in their queues.  The
    state objects are values: every method reads them from the dictionary of tracked
    orders and leaves the changed ones there.  The exponential of the C library is a
    parameter of the estimates that use it.  [on_position_update] only observes. *)
From Stdlib Require Import SpecFloat.
From Stdlib Require Import Ascii String.
From S2P Require Import Prelude PyDecimal PyFormat PyFloat PyText FloatInt Lob.
Open Scope Z_scope.
Open Scope list_scope.

Inductive PositionEstimationMethod := MBO | MBP_PESSIMISTIC | MBP_OPTIMISTIC | PROBABILISTIC.

Record QueueState := MkQueueState {
  qs_order_id : string;
  qs_price : pyfloat;
  qs_side : Side;
  estimated_position : Z;
  qty_ahead : pyfloat;
  total_level_qty : pyfloat;
  confidence : pyfloat;
  qs_method : PositionEstimationMethod;
  last_update_ns : Z
}.

Definition set_ahead (q : pyfloat) (pos : Z) (now : Z) (st : QueueState) : QueueState :=
  MkQueueState (qs_order_id st) (qs_price st) (qs_side st) pos q (total_level_qty st) (confidence st) (qs_method st) now.

Definition position_pct (st : QueueState) : pyfloat :=
  if not_positive (total_level_qty st) then fzero
  else fmul (fdiv (qty_ahead st) (total_level_qty st)) (float_of_int 100).

Record FillProbability := MkFillProbability {
  fp_order_id : string;
  prob_fill : pyfloat;
  prob_partial : pyfloat;
  expected_fill_qty : pyfloat;
  expected_wait_time_sec : pyfloat;
  time_horizon_sec : pyfloat
}.

Definition infinity : pyfloat := S754_infinity false.

Definition no_fill (id : string) (horizon : pyfloat) : FillProbability :=
  MkFillProbability id fzero fzero fzero infinity horizon.

Record LevelStatistics := MkLevelStatistics {
  ls_price : pyfloat;
  avg_arrival_rate : pyfloat;
  avg_cancellation_rate : pyfloat;
  avg_execution_rate : pyfloat;
  avg_order_size : pyfloat
}.

Record QueuePositionTracker := MkTracker {
  default_method : PositionEstimationMethod;
  tracked_orders : list (string * QueueState);
  level_stats : list (Side * pyfloat * LevelStatistics);
  execution_history : list (Z * pyfloat * pyfloat)
}.

Definition new_tracker (m : PositionEstimationMethod) : QueuePositionTracker := MkTracker m [] [] [].

Definition create_queue_tracker (method : string) : QueuePositionTracker :=
  let s := str_lower method in
  new_tracker
    (if bool_decide (s = "mbo"%string) then MBO
     else if bool_decide (s = "mbp_optimistic"%string) then MBP_OPTIMISTIC
     else if bool_decide (s = "probabilistic"%string) then PROBABILISTIC
     else MBP_PESSIMISTIC).

Definition set_tracked (d : list (string * QueueState)) (t : QueuePositionTracker) : QueuePositionTracker :=
  MkTracker (default_method t) d (level_stats t) (execution_history t).

(** ** Tracking *)

Definition track_order (now : Z) (o : LimitOrder) (level_qty_before : pyfloat) (ahead : option (list LimitOrder))
    (t : QueuePositionTracker) : QueuePositionTracker * QueueState :=
  let '(pos, q, m, c) :=
    match ahead with
    | Some os => (Z.of_nat (List.length os), fsum (map remaining_qty os), MBO, float_of_int 1)
    | None => (-1, level_qty_before, MBP_PESSIMISTIC, float_of_dec (Dec 7 (-1)))
    end in
  let st := MkQueueState (order_id o) (price o) (side o) pos q (fadd q (remaining_qty o)) c m now in
  (set_tracked (dset (tracked_orders t) (order_id o) st) t, st).

Definition untrack_order (id : string) (t : QueuePositionTracker) : QueuePositionTracker * option QueueState :=
  (set_tracked (ddel (tracked_orders t) id) t, dget (tracked_orders t) id).

Definition get_state (id : string) (t : QueuePositionTracker) : option QueueState := dget (tracked_orders t) id.

Definition estimate_position_mbp (level_qty_before : pyfloat) : option Z :=
  float_to_int (fdiv level_qty_before (float_of_int 100)).

Definition estimate_position_mbo (ahead : list LimitOrder) : Z := Z.of_nat (List.length ahead).

(** What is queued before the order; [None] when the order is not among them. *)
Fixpoint qty_before (id : string) (acc : pyfloat) (os : list LimitOrder) : option pyfloat :=
  match os with
  | [] => None
  | o :: r => if bool_decide (order_id o = id) then Some acc else qty_before id (fadd acc (remaining_qty o)) r
  end.

Definition estimate_qty_ahead (id : string) (at_level : option (list LimitOrder)) (t : QueuePositionTracker) : pyfloat :=
  match dget (tracked_orders t) id with
  | None => fzero
  | Some st =>
      match at_level with
      | Some os => default (qty_ahead st) (qty_before id fzero os)
      | None => qty_ahead st
      end
  end.

(** ** Updates *)

Definition float_1e_9 : pyfloat := float_of_dec (Dec 1 (-9)).

Definition near (st : QueueState) (p : pyfloat) : bool := negb (fltb float_1e_9 (fabs (fsub (qs_price st) p))).

(** Applying an update to the states that match, with the ids of those. *)
Definition update_where (matches : QueueState -> bool) (f : QueueState -> QueueState) (t : QueuePositionTracker) :
    QueuePositionTracker * list string :=
  (set_tracked (map (fun kv => (kv.1, if matches kv.2 then f kv.2 else kv.2)) (tracked_orders t)) t,
   map fst (List.filter (fun kv => matches kv.2) (tracked_orders t))).

(** [_trim_history] with its own reading of the clock: the last hour. *)
Definition trim_history (now : Z) (t : QueuePositionTracker) : QueuePositionTracker :=
  match execution_history t with
  | [] => t
  | h => MkTracker (default_method t) (tracked_orders t) (level_stats t)
           (List.filter (fun e => now - 3600 * 10 ^ 9 <=? e.1.1) h)
  end.

Definition side_matches (at_side : option Side) (st : QueueState) : bool :=
  match at_side with
  | Some s => bool_decide (qs_side st = s)
  | None => true
  end.

Definition update_on_execution (now later : Z) (executed p : pyfloat) (at_side : option Side) (t : QueuePositionTracker) :
    QueuePositionTracker * list string :=
  let t := trim_history later (MkTracker (default_method t) (tracked_orders t) (level_stats t)
                                 (execution_history t ++ [(now, p, executed)])) in
  update_where (fun st => near st p && side_matches at_side st)
    (fun st =>
       let q := fmax fzero (fsub (qty_ahead st) executed) in
       set_ahead q (if feqb q fzero then 0 else estimated_position st) now st) t.

Definition update_on_cancel_ahead (now : Z) (cancelled p : pyfloat) (at_side : Side) (probability : pyfloat)
    (t : QueuePositionTracker) : QueuePositionTracker * list string :=
  update_where (fun st => near st p && bool_decide (qs_side st = at_side))
    (fun st =>
       let q := fmax fzero (fsub (qty_ahead st) (fmul cancelled probability)) in
       MkQueueState (qs_order_id st) (qs_price st) (qs_side st) (estimated_position st) q (total_level_qty st)
         (fmul (confidence st) (float_of_dec (Dec 95 (-2)))) PROBABILISTIC now) t.

Definition update_on_level_change (now : Z) (s : Side) (p total : pyfloat) (t : QueuePositionTracker) :
    QueuePositionTracker * list string :=
  update_where (fun st => near st p && bool_decide (qs_side st = s))
    (fun st => MkQueueState (qs_order_id st) (qs_price st) (qs_side st) (estimated_position st) (qty_ahead st) total
                 (confidence st) (qs_method st) now) t.

(** ** Estimates *)

Definition stats_key (s : Side) (p : pyfloat) (e : Side * pyfloat * LevelStatistics) : bool :=
  bool_decide (e.1.1 = s) && feqb e.1.2 p.

Definition get_level_statistics (s : Side) (p : pyfloat) (t : QueuePositionTracker) : option LevelStatistics :=
  snd <$> List.find (stats_key s p) (level_stats t).

Definition update_level_statistics (s : Side) (p : pyfloat) (l : LevelStatistics) (t : QueuePositionTracker) :
    QueuePositionTracker :=
  let d := level_stats t in
  MkTracker (default_method t) (tracked_orders t)
    (match List.find (stats_key s p) d with
     | Some _ => map (fun e => if stats_key s p e then (e.1, l) else e) d
     | None => d ++ [(s, p, l)]
     end) (execution_history t).

Definition clamp (x : pyfloat) : pyfloat := fmax fzero (fmin (float_of_int 1) x).

Definition calculate_book_imbalance `{SortedDict} (b : OrderBook) (s : Side) : pyfloat :=
  let bid := best_qty BUY b in
  let ask := best_qty SELL b in
  let total := fadd bid ask in
  if not_positive total then fzero
  else
    let i := fdiv (fsub bid ask) total in
    match s with
    | BUY => i
    | SELL => SFopp i
    end.

Definition estimate_rate_at_level (s : Side) (p : pyfloat) (t : QueuePositionTracker) : pyfloat :=
  match get_level_statistics s p t with
  | Some l => avg_execution_rate l
  | None =>
      let h := execution_history t in
      match head h, last h with
      | Some (first, _, _), Some (latest, _, _) =>
          let recent := fsum (map snd (List.filter (fun e => fltb (fabs (fsub e.1.2 p)) (float_of_dec (Dec 1 (-2)))) h)) in
          let span := fdiv (float_of_int (latest - first)) (float_of_int (10 ^ 9)) in
          if positive span then fdiv recent span else float_of_int 10
      | _, _ => float_of_int 10
      end
  end.

Section Estimates.
(** [math.exp] *)
Context (exp : pyfloat -> pyfloat).

Definition fill_chance (rate horizon ahead : pyfloat) : pyfloat :=
  let expected := fmul rate horizon in
  let lambda := fdiv expected (fadd ahead (float_of_int 1)) in
  fsub (float_of_int 1) (exp (SFopp lambda)).

Definition estimate_fill_probability (id : string) (rate horizon : pyfloat) (qty : option pyfloat)
    (t : QueuePositionTracker) : FillProbability :=
  match dget (tracked_orders t) id with
  | None => no_fill id horizon
  | Some st =>
      let ahead := qty_ahead st in
      let floor_rate := fmax (float_of_dec (Dec 1 (-2))) rate in
      let '(p, wait) :=
        if not_positive ahead then (float_of_dec (Dec 95 (-2)), fdiv (float_of_int 1) floor_rate)
        else (clamp (fill_chance rate horizon ahead), fdiv ahead floor_rate) in
      MkFillProbability id p (fmin (float_of_int 1) (fmul p (float_of_dec (Dec 15 (-1)))))
        (fmul p (or_default qty fzero)) wait horizon
  end.

Definition estimate_fill_probability_advanced `{SortedDict} (id : string) (b : OrderBook) (horizon : pyfloat)
    (t : QueuePositionTracker) : FillProbability :=
  match dget (tracked_orders t) id with
  | None => no_fill id (float_of_int 60)
  | Some st =>
      let rate := estimate_rate_at_level (qs_side st) (qs_price st) t in
      let distance :=
        match mid_price b with
        | Some mid =>
            if positive mid
            then exp (fmul (SFopp (fdiv (fabs (fsub (qs_price st) mid)) mid)) (float_of_int 100))
            else float_of_dec (Dec 5 (-1))
        | None => float_of_dec (Dec 5 (-1))
        end in
      let adjusted := fmul (fmul rate distance) (fadd (float_of_int 1) (calculate_book_imbalance b (qs_side st))) in
      let p := if not_positive (qty_ahead st) then float_of_dec (Dec 95 (-2))
               else fill_chance adjusted horizon (qty_ahead st) in
      MkFillProbability id (clamp p) (fmin (float_of_int 1) (fmul p (float_of_dec (Dec 13 (-1))))) fzero
        (fdiv (qty_ahead st) (fmax (float_of_dec (Dec 1 (-2))) adjusted)) horizon
  end.
End Estimates.

(** ** Bulk operations *)

Definition get_orders_at_price (s : Side) (p : pyfloat) (t : QueuePositionTracker) : list QueueState :=
  List.filter (fun st => bool_decide (qs_side st = s) && fltb (fabs (fsub (qs_price st) p)) float_1e_9)
    (tracked_orders t).*2.

Definition clear_tracker (t : QueuePositionTracker) : QueuePositionTracker :=
  MkTracker (default_method t) [] (level_stats t) [].

Definition tracked_count (t : QueuePositionTracker) : Z := Z.of_nat (List.length (tracked_orders t)).

(** A probability is one, whatever the exponential gives and whatever is queued. *)
Lemma clamp_unit x : fleb fzero (clamp x) = true /\ fleb (clamp x) (float_of_int 1) = true.
Proof.
  unfold clamp, fmax, fmin. destruct (fltb x (float_of_int 1)) eqn:E; [|by vm_compute].
  destruct (fltb fzero x) eqn:E0; [split; by apply fltb_le|by vm_compute].
Qed.

Lemma fill_probability_unit exp id rate horizon qty t :
  let p := prob_fill (estimate_fill_probability exp id rate horizon qty t) in
  fleb fzero p = true /\ fleb p (float_of_int 1) = true.
Proof.
  unfold estimate_fill_probability. destruct (dget _ _) as [st|]; [|by vm_compute].
  destruct (not_positive _); [by vm_compute|]. apply clamp_unit.
Qed.
