(* ===== verification/OrderManager.v ===== *)
(** * Managed orders: [lob/order_manager.py]

    The manager puts book, matching engine and queue tracker together and keeps the
    life of every order submitted through it.  A managed order refers to an order of
    its own or to one of the book's heap.  The engine's trade callback touches nothing
    that matching reads: its calls come after the match, in the order of the trades.
    The callbacks of the user only observe.  [clk] has a place for every reading of the
    clock that an operation may make, in the order of the code. *)
From Stdlib Require Import SpecFloat.
From Stdlib Require Import Ascii String.
From S2P Require Import Prelude PyDecimal PyFormat PyFloat PyText FloatInt Lob Matching QueueTracker.
Open Scope Z_scope.
Open Scope list_scope.

Inductive OrderLifecycleState := PENDING | NEW | PARTIALLY_FILLED | FILLED | CANCELLED | REJECTED | EXPIRED.

#[export] Instance OrderLifecycleState_eq_dec : EqDecision OrderLifecycleState.
Proof. solve_decision. Defined.

Inductive TimeInForce := DAY | GTC | IOC | FOK | GTD.

#[export] Instance TimeInForce_eq_dec : EqDecision TimeInForce.
Proof. solve_decision. Defined.

(** An order object: not in the book, or the one at a place of its heap. *)
Inductive OrderRef := Detached (o : LimitOrder) | InBook (k : nat).

Record ManagedOrder := MkManaged {
  mo_order : OrderRef;
  mo_side : Side;
  mo_state : OrderLifecycleState;
  original_qty : pyfloat;
  filled_qty : pyfloat;
  cancelled_qty : pyfloat;
  avg_fill_price : pyfloat;
  mo_fills : list Fill;
  time_in_force : TimeInForce;
  created_ns : Z;
  mo_updated : Z;
  client_order_id : option string;
  internal_id : string;
  tags : list (string * string)
}.

(** The constructor with [__post_init__].  The side is the order's: no operation changes
    it. *)
Definition new_managed (created : Z) (o : LimitOrder) (st : OrderLifecycleState) (original : pyfloat) (tif : TimeInForce)
    (client : option string) (internal : string) (tags : list (string * string)) : ManagedOrder :=
  MkManaged (Detached o) (side o) st (if feqb original fzero then qty o else original) fzero fzero fzero [] tif created 0
    client internal tags.

Definition set_state (st : OrderLifecycleState) (m : ManagedOrder) : ManagedOrder :=
  MkManaged (mo_order m) (mo_side m) st (original_qty m) (filled_qty m) (cancelled_qty m) (avg_fill_price m) (mo_fills m)
    (time_in_force m) (created_ns m) (mo_updated m) (client_order_id m) (internal_id m) (tags m).

Definition set_cancelled (q : pyfloat) (m : ManagedOrder) : ManagedOrder :=
  MkManaged (mo_order m) (mo_side m) (mo_state m) (original_qty m) (filled_qty m) q (avg_fill_price m) (mo_fills m)
    (time_in_force m) (created_ns m) (mo_updated m) (client_order_id m) (internal_id m) (tags m).

Definition set_ref (r : OrderRef) (m : ManagedOrder) : ManagedOrder :=
  MkManaged r (mo_side m) (mo_state m) (original_qty m) (filled_qty m) (cancelled_qty m) (avg_fill_price m) (mo_fills m)
    (time_in_force m) (created_ns m) (mo_updated m) (client_order_id m) (internal_id m) (tags m).

Definition set_updated (now : Z) (m : ManagedOrder) : ManagedOrder :=
  MkManaged (mo_order m) (mo_side m) (mo_state m) (original_qty m) (filled_qty m) (cancelled_qty m) (avg_fill_price m)
    (mo_fills m) (time_in_force m) (created_ns m) now (client_order_id m) (internal_id m) (tags m).

Definition mo_remaining (m : ManagedOrder) : pyfloat :=
  fmax fzero (fsub (fsub (original_qty m) (filled_qty m)) (cancelled_qty m)).

Definition is_active (m : ManagedOrder) : bool := bool_decide (mo_state m ∈ [NEW; PARTIALLY_FILLED]).

Definition is_done (m : ManagedOrder) : bool := bool_decide (mo_state m ∈ [FILLED; CANCELLED; REJECTED; EXPIRED]).

Definition fill_rate (m : ManagedOrder) : pyfloat :=
  if not_positive (original_qty m) then fzero else fdiv (filled_qty m) (original_qty m).

Definition add_fill (now : Z) (f : Fill) (m : ManagedOrder) : ManagedOrder :=
  let notional := fadd (fmul (avg_fill_price m) (filled_qty m)) (fmul (avg_price f) (total_qty f)) in
  let total := fadd (filled_qty m) (total_qty f) in
  let m := MkManaged (mo_order m) (mo_side m) (mo_state m) (original_qty m) total (cancelled_qty m)
             (if positive total then fdiv notional total else fzero) (mo_fills m ++ [f]) (time_in_force m) (created_ns m)
             now (client_order_id m) (internal_id m) (tags m) in
  set_state (if not_positive (mo_remaining m) then FILLED else PARTIALLY_FILLED) m.

Record OrderManagerStats := MkStats {
  total_orders : Z;
  active_orders : Z;
  filled_orders : Z;
  cancelled_count : Z;
  rejected_orders : Z;
  total_fills : Z;
  total_volume_filled : pyfloat;
  total_volume_cancelled : pyfloat;
  avg_fill_rate : pyfloat
}.

Definition new_stats : OrderManagerStats := MkStats 0 0 0 0 0 0 fzero fzero fzero.

(** Adding to the counters. *)
Definition count (total active filled cancelled rejected : Z) (s : OrderManagerStats) : OrderManagerStats :=
  MkStats (total_orders s + total) (active_orders s + active) (filled_orders s + filled) (cancelled_count s + cancelled)
    (rejected_orders s + rejected) (total_fills s) (total_volume_filled s) (total_volume_cancelled s) (avg_fill_rate s).

Definition count_fill (q : pyfloat) (s : OrderManagerStats) : OrderManagerStats :=
  MkStats (total_orders s) (active_orders s) (filled_orders s) (cancelled_count s) (rejected_orders s) (total_fills s + 1)
    (fadd (total_volume_filled s) q) (total_volume_cancelled s) (avg_fill_rate s).

Definition count_cancelled_volume (q : pyfloat) (s : OrderManagerStats) : OrderManagerStats :=
  MkStats (total_orders s) (active_orders s) (filled_orders s) (cancelled_count s) (rejected_orders s) (total_fills s)
    (total_volume_filled s) (fadd (total_volume_cancelled s) q) (avg_fill_rate s).

Inductive ManagerError := ZeroDivision | Rounding | BookRaised (e : BookError).

Section Manager.
Context `{SortedDict}.

Record OrderManager := MkManager {
  om_tick : pyfloat;
  om_lot : pyfloat;
  om_participant : option string;
  om_book : OrderBook;
  om_engine : MatchingEngine;
  om_tracker : QueuePositionTracker;
  om_orders : list (string * ManagedOrder);
  om_clients : list (string * string);
  om_stats : OrderManagerStats
}.

Definition create_order_manager (symbol : string) (tick lot : pyfloat) (enable : bool) (a : STPAction)
    (participant : option string) : OrderManager :=
  MkManager tick lot participant (new_book symbol tick lot false false true) (MkMatching Fifo a enable 0 0 0)
    (new_tracker MBP_PESSIMISTIC) [] [] new_stats.

Definition set_match (e : MatchingEngine) (b : OrderBook) (om : OrderManager) : OrderManager :=
  MkManager (om_tick om) (om_lot om) (om_participant om) b e (om_tracker om) (om_orders om) (om_clients om) (om_stats om).
Definition set_book (b : OrderBook) (om : OrderManager) : OrderManager := set_match (om_engine om) b om.
Definition set_tracker (t : QueuePositionTracker) (om : OrderManager) : OrderManager :=
  MkManager (om_tick om) (om_lot om) (om_participant om) (om_book om) (om_engine om) t (om_orders om) (om_clients om)
    (om_stats om).
Definition set_managed (d : list (string * ManagedOrder)) (om : OrderManager) : OrderManager :=
  MkManager (om_tick om) (om_lot om) (om_participant om) (om_book om) (om_engine om) (om_tracker om) d (om_clients om)
    (om_stats om).
Definition set_clients (d : list (string * string)) (om : OrderManager) : OrderManager :=
  MkManager (om_tick om) (om_lot om) (om_participant om) (om_book om) (om_engine om) (om_tracker om) (om_orders om) d
    (om_stats om).
Definition with_stats (f : OrderManagerStats -> OrderManagerStats) (om : OrderManager) : OrderManager :=
  MkManager (om_tick om) (om_lot om) (om_participant om) (om_book om) (om_engine om) (om_tracker om) (om_orders om)
    (om_clients om) (f (om_stats om)).

(** A change of one managed order. *)
Definition on_managed (id : string) (f : ManagedOrder -> ManagedOrder) (om : OrderManager) : OrderManager :=
  match dget (om_orders om) id with
  | Some m => set_managed (dset (om_orders om) id (f m)) om
  | None => om
  end.

Definition managed_order (m : ManagedOrder) (om : OrderManager) : LimitOrder :=
  match mo_order m with
  | Detached o => o
  | InBook k => ob_heap (om_book om) !!! k
  end.

(** ** Trades *)

(** The maker's side of a trade. *)
Definition maker_fill (t : Trade) (m : ManagedOrder) : Fill :=
  let rest := fsub (mo_remaining m) (t_qty t) in
  MkFill (maker_order_id t) (t_qty t) (t_price t) [t] rest (not_positive rest).

Definition handle_trade (clk : nat -> Z) (om : OrderManager) (t : Trade) : OrderManager :=
  let om := set_tracker (update_on_execution (clk 0%nat) (clk 1%nat) (t_qty t) (t_price t) None (om_tracker om)).1 om in
  let id := maker_order_id t in
  match dget (om_orders om) id with
  | Some m =>
      if bool_decide (id = ""%string) then om
      else
        let m := add_fill (clk 2%nat) (maker_fill t m) m in
        let om := with_stats (count_fill (t_qty t)) (set_managed (dset (om_orders om) id m) om) in
        if not_positive (mo_remaining m) then
          set_tracker (untrack_order id (om_tracker om)).1
            (with_stats (count 0 (-1) 1 0 0) (set_managed (dset (om_orders om) id (set_state FILLED m)) om))
        else om
  | None => om
  end.

(** The callbacks of the trades of one match: a trade reads the clock, then its callback
    does so three times. *)
Fixpoint handle_trades (clk : nat -> Z) (ts : list Trade) (om : OrderManager) : OrderManager :=
  match ts with
  | [] => om
  | t :: r => handle_trades (fun i => clk (4 + i)%nat) r (handle_trade (fun i => clk (1 + i)%nat) om t)
  end.

Definition trade_clock (clk : nat -> Z) (i : nat) : Z := clk (4 * i)%nat.

(** The trades of a result come back in its fills. *)
Definition trades_of (r : MatchResult) : list Trade := concat (map trades (fills r)).

Definition take_fills (now : Z) (id : string) (fs : list Fill) (om : OrderManager) : OrderManager :=
  fold_left (fun om f => with_stats (count_fill (total_qty f)) (on_managed id (add_fill now f) om)) fs om.

(** ** Submission *)

Inductive Verdict := Accept | Refuse (reason : string).

Definition validate_order (price qty : pyfloat) (t : OrderType) (om : OrderManager) : pyres ManagerError Verdict :=
  if not_positive qty then Ok (Refuse "Quantity must be positive")
  else if negb (bool_decide (t = MARKET)) && not_positive price then Ok (Refuse "Price must be positive for limit orders")
  else if feqb (om_lot om) fzero then Raise ZeroDivision
  else Ok Accept.

Definition round_price (p : pyfloat) (om : OrderManager) : pyres ManagerError pyfloat :=
  if feqb (om_tick om) fzero then Raise ZeroDivision
  else
    match fround_int (fdiv p (om_tick om)) with
    | Some n => Ok (fmul (float_of_int n) (om_tick om))
    | None => Raise Rounding
    end.

Definition get_level_qty (s : Side) (p : pyfloat) (om : OrderManager) : pyfloat :=
  match sd_get (levels s (om_book om)) (side_key s p) with
  | Some l => total_visible l
  | None => fzero
  end.

(** The levels up to the first one beyond the limit, or until there is enough. *)
Fixpoint enough (s : Side) (limit q available : pyfloat) (ls : list (pyfloat * PriceLevel)) : bool :=
  match ls with
  | [] => fleb q available
  | (key, l) :: r =>
      if negb (within_limit s limit (side_key (opposite s) key)) then fleb q available
      else
        let available := fadd available (level_total l) in
        if fleb q available then true else enough s limit q available r
  end.

Definition can_fill_completely (s : Side) (limit q : pyfloat) (om : OrderManager) : bool :=
  enough s limit q fzero (sd_items (levels (opposite s) (om_book om))).

Definition create_rejected_order (clk : nat -> Z) (internal id : string) (s : Side) (price qty : pyfloat)
    (om : OrderManager) : OrderManager :=
  let o := new_order id price qty qty (clk 0%nat) s fzero fzero false LIMIT None in
  with_stats (count 0 0 0 0 1)
    (set_managed (dset (om_orders om) id (new_managed (clk 1%nat) o REJECTED qty DAY None internal [])) om).

(** [_execute_market_order] on the managed order [id], whose order is [o]. *)
Definition execute_market (clk : nat -> Z) (id : string) (o : LimitOrder) (om : OrderManager) : OrderManager :=
  let '(e, b, r) := match_market_order (trade_clock clk) (side o) (remaining_qty o) (Some (order_id o)) (participant_id o)
                      (om_engine om) (om_book om) in
  let om := handle_trades clk (trades_of r) (set_match e b om) in
  let om := take_fills (clk (4 * List.length (trades_of r))%nat) id (fills r) om in
  if r_complete r then with_stats (count 0 0 1 0 0) (on_managed id (set_state FILLED) om)
  else
    match dget (om_orders om) id with
    | Some m =>
        let q := fsub (original_qty m) (total_filled_qty r) in
        with_stats (fun s => count_cancelled_volume q (count 0 0 1 0 0 s))
          (on_managed id (fun m => set_state FILLED (set_cancelled q m)) om)
    | None => om
    end.

(** The rest of a limit order goes to the book. *)
Definition rest_in_book (now : Z) (id : string) (rest : LimitOrder) (om : OrderManager) :
    OrderManager * pyres ManagerError unit :=
  let before := get_level_qty (side rest) (price rest) om in
  match add_limit_order rest (om_book om) with
  | Raise e => (om, Raise (BookRaised e))
  | Ok (b, _) =>
      let k := List.length (ob_heap (om_book om)) in
      let om := on_managed id (fun m =>
                  set_state (if positive (filled_qty m) then PARTIALLY_FILLED else NEW) (set_ref (InBook k) m))
                  (set_book b om) in
      let t := (track_order now (ob_heap b !!! k) before None (om_tracker om)).1 in
      (set_tracker t (with_stats (count 0 1 0 0 0) om), Ok tt)
  end.

Definition execute_limit (clk : nat -> Z) (id : string) (o : LimitOrder) (tif : TimeInForce) (om : OrderManager) :
    OrderManager * pyres ManagerError unit :=
  if bool_decide (tif = FOK) && negb (can_fill_completely (side o) (price o) (remaining_qty o) om) then
    (with_stats (count 0 0 0 1 0)
       (on_managed id (fun m => set_state CANCELLED (set_cancelled (original_qty m) m)) om), Ok tt)
  else
    let '(e, b, r) := match_limit_order (trade_clock clk) o (om_engine om) (om_book om) in
    let om := handle_trades clk (trades_of r) (set_match e b om) in
    let n := (4 * List.length (trades_of r))%nat in
    let om := take_fills (clk n) id (fills r) om in
    match resting_order r with
    | Some rest =>
        if bool_decide (tif = IOC) then
          (with_stats (fun s => count 0 0 0 1 0 (count_cancelled_volume (remaining_qty rest) s))
             (on_managed id (fun m => set_state CANCELLED (set_cancelled (remaining_qty rest) m)) om), Ok tt)
        else if positive (remaining_qty rest) then rest_in_book (clk (S n)) id rest om
        else (with_stats (count 0 0 1 0 0) (on_managed id (set_state FILLED) om), Ok tt)
    | None => (with_stats (count 0 0 1 0 0) (on_managed id (set_state FILLED) om), Ok tt)
    end.

Definition or_string (x : option string) (d : string) : string :=
  if truthy x then default d x else d.

(** [submit_order]; [internal] is the fresh identifier of the order, [rejected] the one a
    rejected order is given instead. *)
Definition submit_order (clk : nat -> Z) (internal rejected : string) (s : Side) (price qty : pyfloat) (t : OrderType)
    (tif : TimeInForce) (client : option string) (own : bool) (participant : option string)
    (tags : list (string * string)) (om : OrderManager) : OrderManager * pyres ManagerError string :=
  let id := or_string client internal in
  match validate_order price qty t om with
  | Raise e => (om, Raise e)
  | Ok (Refuse _) => (create_rejected_order clk rejected id s price qty om, Ok id)
  | Ok Accept =>
      match round_price price om with
      | Raise e => (om, Raise e)
      | Ok p =>
          let who := if truthy participant then participant else om_participant om in
          let o := new_order id p qty qty (clk 0%nat) s fzero fzero own t who in
          let m := new_managed (clk 1%nat) o PENDING qty tif client internal tags in
          let om := set_managed (dset (om_orders om) id m) om in
          let om :=
            match client with
            | Some c => if truthy client && negb (bool_decide (c = internal))
                        then set_clients (dset (om_clients om) c id) om else om
            | None => om
            end in
          let om := with_stats (count 1 0 0 0 0) om in
          let clk := fun i => clk (2 + i)%nat in
          if bool_decide (t = MARKET) then (execute_market clk id o om, Ok id)
          else
            let '(om, r) := execute_limit clk id o tif om in
            (om, match r with
                 | Ok _ => Ok id
                 | Raise e => Raise e
                 end)
      end
  end.

(** ** Cancelling and modifying *)

Definition cancel_managed (id : string) (om : OrderManager) : OrderManager * bool :=
  match dget (om_orders om) id with
  | None => (om, false)
  | Some m =>
      if negb (is_active m) then (om, false)
      else
        let '(b, r) := Lob.cancel_order id (om_book om) in
        let om := set_book b om in
        let om :=
          match r with
          | Some k =>
              let q := remaining_qty (ob_heap b !!! k) in
              with_stats (count_cancelled_volume q) (on_managed id (set_cancelled q) om)
          | None => om
          end in
        let om := on_managed id (fun m =>
                    set_state (if positive (filled_qty m) then PARTIALLY_FILLED else CANCELLED) m) om in
        (set_tracker (untrack_order id (om_tracker om)).1 (with_stats (count 0 (-1) 0 1 0) om), true)
  end.

(** Orders that are active and of the side when their turn comes. *)
Definition cancel_all_orders (s : option Side) (om : OrderManager) : OrderManager * Z :=
  fold_left (fun '(om, n) id =>
    match dget (om_orders om) id with
    | Some m =>
        if is_active m && (match s with
                           | Some s => bool_decide (mo_side m = s)
                           | None => true
                           end)
        then let '(om, ok) := cancel_managed id om in (om, if ok : bool then n + 1 else n)
        else (om, n)
    | None => (om, n)
    end) (om_orders om).*1 (om, 0).

(** The new price is compared with the order that already has it. *)
Definition modify_managed (now later latest : Z) (id : string) (new_qty new_price : option pyfloat) (om : OrderManager) :
    OrderManager * pyres ManagerError bool :=
  match dget (om_orders om) id with
  | None => (om, Ok false)
  | Some m =>
      if negb (is_active m) then (om, Ok false)
      else
        match Lob.modify_order now id new_qty new_price (om_book om) with
        | (b, Raise e) => (set_book b om, Raise (BookRaised e))
        | (b, Ok None) => (set_book b om, Ok true)
        | (b, Ok (Some k)) =>
            let om := on_managed id (fun m => set_updated later (set_ref (InBook k) m)) (set_book b om) in
            let o := ob_heap b !!! k in
            match new_price with
            | Some p =>
                if feqb p (price o) then (om, Ok true)
                else
                  let t := (untrack_order id (om_tracker om)).1 in
                  let level := get_level_qty (side o) (price o) om in
                  (set_tracker (track_order latest o (fsub level (remaining_qty o)) None t).1 om, Ok true)
            | None => (om, Ok true)
            end
        end
  end.

(** ** Queries and statistics *)

Definition get_managed (id : string) (om : OrderManager) : option ManagedOrder := dget (om_orders om) id.

Definition get_order_by_client_id (client : string) (om : OrderManager) : option ManagedOrder :=
  match dget (om_clients om) client with
  | Some id => if bool_decide (id = ""%string) then dget (om_orders om) client else dget (om_orders om) id
  | None => dget (om_orders om) client
  end.

Definition get_active_orders (s : option Side) (om : OrderManager) : list ManagedOrder :=
  List.filter (fun m => is_active m && match s with
                                       | Some s => bool_decide (mo_side m = s)
                                       | None => true
                                       end) (om_orders om).*2.

Definition get_fill_probability (exp : pyfloat -> pyfloat) (id : string) (rate horizon : pyfloat) (om : OrderManager) :
    FillProbability :=
  match dget (om_orders om) id with
  | None => no_fill id (float_of_int 60)
  | Some m => estimate_fill_probability exp id rate horizon (Some (mo_remaining m)) (om_tracker om)
  end.

Definition get_statistics (om : OrderManager) : OrderManager * OrderManagerStats :=
  let ms := (om_orders om).*2 in
  let filled := List.filter (fun m => positive (filled_qty m)) ms in
  let s := om_stats om in
  let s := MkStats (total_orders s) (Z.of_nat (List.length (List.filter is_active ms))) (filled_orders s)
             (cancelled_count s) (rejected_orders s) (total_fills s) (total_volume_filled s) (total_volume_cancelled s)
             (match filled with
              | [] => avg_fill_rate s
              | _ => fdiv (fsum (map fill_rate filled)) (float_of_int (Z.of_nat (List.length filled)))
              end) in
  (with_stats (fun _ => s) om, s).

Definition reset_manager_statistics (om : OrderManager) : OrderManager :=
  with_stats (fun _ => new_stats) (set_match (reset_statistics (om_engine om)) (om_book om) om).

Definition clear_manager (om : OrderManager) : OrderManager :=
  reset_manager_statistics (set_tracker (clear_tracker (om_tracker om)) (set_book (Lob.clear (om_book om))
    (set_clients [] (set_managed [] om)))).
End Manager.
