(* ===== verification/OrderManagerProps.v ===== *)
(** * The manager accounts for every order

    Manager, book and matching engine agree: of every order submitted, the quantity
    asked for is what was filled, what was cancelled and what rests in the book, and an
    order that rests can be cancelled; the book keeps its invariant and is not crossed.
    Concrete runs show where duplicate ids, modifications and stale totals break this. *)
From Stdlib Require Import SpecFloat.
From Stdlib Require Import Ascii String.
From S2P Require Import Prelude PyDecimal PyFormat PyFloat PyText FloatInt Lob LobProps Matching MatchingProps PriceTime.
From S2P Require Import QueueTracker OrderManager.
Open Scope Z_scope.
Open Scope list_scope.

(** ** One managed order *)

(** The numbers of a managed order of which [r] lots are not settled yet. *)
Definition accounted (m : ManagedOrder) (r : Z) : Prop :=
  exists o f c, original_qty m = float_of_int o /\ filled_qty m = float_of_int f /\ cancelled_qty m = float_of_int c /\
    0 <= f /\ 0 <= c /\ 0 <= r /\ o = f + c + r /\ 0 < o < 2 ^ 53 /\ (0 < r -> c = 0).

Lemma accounted_remaining m r : accounted m r -> mo_remaining m = float_of_int r.
Proof.
  intros (o & f & c & E1 & E2 & E3 & Hf & Hc & Hr & Ho & Hb & Hz). unfold mo_remaining. rewrite E1, E2, E3.
  rewrite !fsub_int by (apply small_pos; lia). change fzero with (float_of_int 0).
  rewrite fmax_int by (apply small_pos; lia). f_equal. lia.
Qed.

(** A fill settles its quantity. *)
Lemma add_fill_accounted now f m r q :
  accounted m r -> total_qty f = float_of_int q -> 0 <= q <= r ->
  accounted (add_fill now f m) (r - q) /\
  mo_state (add_fill now f m) = (if r - q =? 0 then FILLED else PARTIALLY_FILLED) /\
  mo_order (add_fill now f m) = mo_order m /\ mo_side (add_fill now f m) = mo_side m.
Proof.
  intros (o & fl & c & E1 & E2 & E3 & Hf & Hc & Hr & Ho & Hb & Hz) Eq Hq.
  assert (accounted (add_fill now f m) (r - q)) as Ha.
  { exists o, (fl + q), c. unfold add_fill. cbn. rewrite E2, Eq, fadd_int by (apply small_pos; lia). split_and!; try done; lia. }
  split; [done|]. split; [|done]. unfold add_fill at 1. cbn [mo_state set_state].
  change (mo_remaining _) with (mo_remaining (add_fill now f m)).
  rewrite (accounted_remaining _ _ Ha), not_positive_int by lia. done.
Qed.

Lemma accounted_state st m r : accounted (set_state st m) r <-> accounted m r.
Proof. done. Qed.

Lemma accounted_ref k m r : accounted (set_ref k m) r <-> accounted m r.
Proof. done. Qed.

Lemma accounted_cancel m r : accounted m r -> 0 < r -> accounted (set_cancelled (float_of_int r) m) 0.
Proof.
  intros (o & f & c & E1 & E2 & E3 & Hf & Hc & Hr & Ho & Hb & Hz) Hp. exists o, f, r. split_and!; try done; lia.
Qed.

Lemma accounted_nonneg m r : accounted m r -> 0 <= r < 2 ^ 53.
Proof. intros (o & f & c & _ & _ & _ & ? & ? & ? & ? & ? & _). lia. Qed.

(** ** The table of managed orders *)

Definition known (d : list (string * ManagedOrder)) (id : string) : Prop :=
  exists m, dget d id = Some m /\ mo_state m <> REJECTED.

(** [R] tells what is not settled of each order; all but the order [busy], which is being
    submitted, are active as long as something is. *)
Definition entry_ok (R : string -> Z) (busy : option string) (id : string) (m : ManagedOrder) : Prop :=
  mo_state m <> REJECTED -> accounted m (R id) /\ (0 < R id -> busy <> Some id -> is_active m = true).

Definition table_ok (R : string -> Z) (busy : option string) (d : list (string * ManagedOrder)) : Prop :=
  forall id m, dget d id = Some m -> entry_ok R busy id m.

Lemma table_dset R R' busy busy' d id m :
  table_ok R busy d -> (forall i, i <> id -> R' i = R i) -> (forall i, i <> id -> busy' <> Some i -> busy <> Some i) ->
  entry_ok R' busy' id m -> table_ok R' busy' (dset d id m).
Proof.
  intros Ht HR Hb Hm i m' Hi. destruct (decide (i = id)) as [->|Hne].
  - rewrite dget_dset_eq in Hi. by injection Hi as <-.
  - rewrite dget_dset_ne in Hi by done. intros Hs. rewrite HR by done. destruct (Ht i m' Hi Hs) as [Ha Hact].
    split; [done|]. intros Hp Hbusy. by apply Hact, Hb.
Qed.

Lemma known_dset d id i m : mo_state m <> REJECTED -> known d i -> known (dset d id m) i.
Proof.
  intros Hm (m' & Hd & Hs). destruct (decide (i = id)) as [->|Hne].
  - exists m. by rewrite dget_dset_eq.
  - exists m'. by rewrite dget_dset_ne.
Qed.

Section Manager.
Context `{SortedDictLaws}.
Implicit Types (om : OrderManager).

(** The parts trades and fills of the table leave alone. *)
Definition same_core om om' : Prop :=
  om_book om' = om_book om /\ om_engine om' = om_engine om /\ om_tick om' = om_tick om /\ om_lot om' = om_lot om /\
  om_participant om' = om_participant om.

Lemma handle_trade_ok clk om t R R' busy q :
  let id := maker_order_id t in
  table_ok R busy (om_orders om) -> known (om_orders om) id -> id <> ""%string -> busy <> Some id ->
  t_qty t = float_of_int q -> 0 < q <= R id -> R' id = R id - q -> (forall i, i <> id -> R' i = R i) ->
  let om' := handle_trade clk om t in
  table_ok R' busy (om_orders om') /\ same_core om om' /\ (forall i, known (om_orders om) i -> known (om_orders om') i) /\
  (forall i, i <> id -> dget (om_orders om') i = dget (om_orders om) i).
Proof.
  intros id Ht (m & Hd & Hs) Hid Hbusy Hq Hqr HR' HR. unfold handle_trade. fold id. cbn [set_tracker om_orders].
  rewrite Hd, bool_decide_false by done. destruct (Ht id m Hd Hs) as [Ha _].
  destruct (add_fill_accounted (clk 2%nat) (maker_fill t m) m (R id) q Ha Hq) as (Ha' & Hst & _); [lia|].
  set (m' := add_fill _ _ _) in *. rewrite (accounted_remaining _ _ Ha'), not_positive_int by (pose proof (accounted_nonneg _ _ Ha'); lia).
  rewrite <- HR' in Ha', Hst |- *.
  assert (mo_state m' <> REJECTED) as Hs' by (rewrite Hst; by destruct (_ =? _)).
  assert (entry_ok R' busy id m') as He.
  { intros _. split; [done|]. intros Hpos _. unfold is_active. rewrite Hst, (proj2 (Z.eqb_neq _ _)) by lia. by vm_compute. }
  pose proof (table_dset R R' busy busy (om_orders om) id m' Ht HR (fun _ _ Hb => Hb) He) as Ht'.
  destruct (Z.eqb_spec (R' id) 0) as [E|E]; cbn [om_orders with_stats set_managed set_tracker].
  - split; [|split; [done|split]].
    + apply (table_dset R' R' busy); [done|done|done|]. intros _. split; [done|]. lia.
    + intros i Hi. by do 2 (apply known_dset; [done|]).
    + intros i Hne. by rewrite !dget_dset_ne.
  - split; [done|split; [done|split]].
    + intros i Hi. by apply known_dset.
    + intros i Hne. by rewrite dget_dset_ne.
Qed.

Lemma same_core_trans om1 om2 om3 : same_core om1 om2 -> same_core om2 om3 -> same_core om1 om3.
Proof. intros (A1 & A2 & A3 & A4 & A5) (B1 & B2 & B3 & B4 & B5). split_and!; congruence. Qed.

(** [R'] is what is left of [R] after the trades. *)
Lemma handle_trades_ok ts : forall clk om R R' busy,
  table_ok R busy (om_orders om) -> whole_trades ts ->
  Forall (fun t => known (om_orders om) (maker_order_id t) /\ maker_order_id t <> ""%string /\
                   busy <> Some (maker_order_id t)) ts ->
  (forall i, R i = id_lots i (map trade_row ts) + R' i) -> (forall i, 0 <= R' i) ->
  let om' := handle_trades clk ts om in
  table_ok R' busy (om_orders om') /\ same_core om om' /\ (forall i, known (om_orders om) i -> known (om_orders om') i) /\
  (forall i, i ∉ map maker_order_id ts -> dget (om_orders om') i = dget (om_orders om) i).
Proof.
  induction ts as [|t ts IH]; intros clk om R R' busy Ht Hw Hk HR Hnn; cbn [handle_trades].
  - split_and!; try done. intros id m Hd. unfold entry_ok.
    assert (R' id = R id) as -> by (rewrite HR; done). by apply Ht.
  - apply Forall_cons in Hw as [(q & Hq0 & Hq) Hw], Hk as [(Hkn & Hid & Hb) Hk].
    set (R1 := fun i => id_lots i (map trade_row ts) + R' i).
    assert (forall i, 0 <= id_lots i (map trade_row ts)) as Hl.
    { intros i. unfold id_lots. apply lots_of_nonneg. unfold positive_lots. apply Forall_forall. intros r Hr.
      apply list_elem_of_In, filter_In in Hr as [Hr _]. apply in_map_iff in Hr as (t0 & <- & Hin).
      apply list_elem_of_In in Hin. unfold whole_trades in Hw. rewrite Forall_forall in Hw.
      destruct (Hw t0 Hin) as (q0 & Hq0' & E). cbn. rewrite E, whole_int by (apply small_pos; lia). lia. }
    assert (forall i, id_lots i (map trade_row (t :: ts)) = (if bool_decide (maker_order_id t = i) then q else 0) +
      id_lots i (map trade_row ts)) as Hcons.
    { intros i. cbn [map]. rewrite id_lots_cons. cbn. by rewrite Hq, whole_int by (apply small_pos; lia). }
    destruct (handle_trade_ok (fun i => clk (1 + i)%nat) om t R R1 busy q) as (T1 & T2 & T3 & T4); try done.
    + rewrite HR, Hcons, bool_decide_true by done. specialize (Hl (maker_order_id t)). specialize (Hnn (maker_order_id t)). lia.
    + unfold R1. rewrite HR, Hcons, bool_decide_true by done. lia.
    + intros i Hne. unfold R1. rewrite HR, Hcons, bool_decide_false by done. lia.
    + destruct (IH (fun i => clk (4 + i)%nat) _ R1 R' busy T1 Hw) as (U1 & U2 & U3 & U4); try done.
      { eapply Forall_impl; [exact Hk|]. intros t0 (? & ? & ?). split_and!; try done. by apply T3. }
      split_and!; [done|by eapply same_core_trans|by intros i Hi; apply U3, T3|].
      intros i Hi. apply not_elem_of_cons in Hi as [Hne Hi]. by rewrite U4, T4.
Qed.

(** ** What rests of an order *)

Definition rest_lots b (id : string) : Z := id_lots id (resting BUY b) + id_lots id (resting SELL b).

Lemma rest_lots_side s b id : rest_lots b id = id_lots id (resting s b) + id_lots id (resting (opposite s) b).
Proof. unfold rest_lots. destruct s; cbn [opposite]; lia. Qed.

Lemma id_lots_none id q : (forall r, r ∈ q -> r.1.2 <> id) -> id_lots id q = 0.
Proof.
  induction q as [|r q IH]; intros Hq; [done|]. rewrite id_lots_cons, bool_decide_false by (apply Hq; by left).
  rewrite IH; [done|]. intros r' Hr'. apply Hq. by right.
Qed.

Lemma id_lots_nonneg id q : positive_lots q -> 0 <= id_lots id q.
Proof.
  intros Hq. apply lots_of_nonneg. unfold positive_lots in *. rewrite Forall_forall in Hq |- *. intros r Hr.
  apply list_elem_of_In, filter_In in Hr as [Hr _]. apply Hq. by apply list_elem_of_In.
Qed.

Lemma rest_lots_nonneg b id : book_ok b -> 0 <= rest_lots b id.
Proof.
  intros Hb. pose proof (id_lots_nonneg id _ (resting_positive BUY b Hb)). pose proof (id_lots_nonneg id _ (resting_positive SELL b Hb)).
  unfold rest_lots. lia.
Qed.

Lemma rest_lots_fresh b id : book_ok b -> dget (orders b) id = None -> rest_lots b id = 0.
Proof.
  intros Hb Hid. unfold rest_lots.
  assert (forall s r, r ∈ resting s b -> r.1.2 <> id) as Hne.
  { intros s r Hr <-. destruct (resting_ids _ _ _ _ Hb Hr) as [k Hk]. by rewrite Hid in Hk. }
  by rewrite !id_lots_none by apply Hne.
Qed.

Lemma id_lots_view h p ks id k :
  NoDup ks -> k ∈ ks -> (forall j, j ∈ ks -> order_id (h !!! j) = id <-> j = k) -> id_lots id (view_of h p ks) = lots (h !!! k).
Proof.
  intros Hnd. induction Hnd as [|j ks Hj Hnd IH]; intros Hk Hid; [by apply elem_of_nil in Hk|].
  cbn [view_of map]. fold (view_of h p ks). rewrite id_lots_cons. cbn [fst snd]. destruct (decide (j = k)) as [->|Hne].
  - rewrite bool_decide_true by (apply Hid; [by left|done]). rewrite id_lots_none; [lia|].
    intros r (i & <- & Hi)%list_elem_of_In%in_map_iff. apply list_elem_of_In in Hi. cbn.
    intros E. apply Hid in E; [by subst|by right].
  - apply elem_of_cons in Hk as [->|Hk]; [done|]. rewrite bool_decide_false by (intros E; apply Hid in E; [done|by left]).
    rewrite IH; [lia|done|]. intros i Hi. apply Hid. by right.
Qed.

(** An order of the book rests with all that remains of it. *)
Lemma rest_lots_found b id k s :
  book_ok b -> dget (orders b) id = Some (k, s) -> has_lots (ob_heap b !!! k) (rest_lots b id).
Proof.
  intros Hb Hd. destruct (order_level false b id k s Hb Hd) as (u & key & l & w & Hi & Hk & Hl & Hid & Hok).
  assert (forall s' key' l' j, (key', l') ∈ sd_items (levels s' b) -> j ∈ lv_orders l' -> order_id (ob_heap b !!! j) = id ->
    j = k /\ s' = s) as Huniq.
  { intros s' key' l' j Hin Hj E. assert (dget (orders b) id = Some (j, s')) as Hd'.
    { apply (bo_index _ _ Hb). split; [|done]. apply elem_refs_of. eauto. }
    rewrite Hd in Hd'. by injection Hd' as -> ->. }
  assert (forall x, x ∈ u ++ w -> forall r, r ∈ view_of (ob_heap b) (side_key s x.1) (lv_orders x.2) -> r.1.2 <> id) as Hother.
  { intros [key' l'] Hx r (j & <- & Hj)%list_elem_of_In%in_map_iff. apply list_elem_of_In in Hj. cbn. intros E.
    destruct (Huniq s key' l' j) as [-> _]; [rewrite Hi, elem_of_app; apply elem_of_app in Hx as [?|?]; [by left|right; by right]|done|done|].
    apply (refs_disjoint false b s u key l w k Hb Hi Hk). apply elem_refs_of. by exists key', l'. }
  assert (forall v, (forall x, x ∈ v -> x ∈ u ++ w) -> id_lots id (view_items (ob_heap b) s v) = 0) as Hzero.
  { intros v Hv. apply id_lots_none. intros r Hr. apply list_elem_of_In, in_concat in Hr as (rs & Hrs & Hr).
    apply in_map_iff in Hrs as (x & <- & Hx). apply (Hother x); [by apply Hv, list_elem_of_In|by apply list_elem_of_In]. }
  assert (rest_lots b id = lots (ob_heap b !!! k)) as ->.
  { rewrite (rest_lots_side s). rewrite (id_lots_none id (resting (opposite s) b)).
    - unfold resting. rewrite Hi. change ((key, l) :: w) with ([(key, l)] ++ w). rewrite !view_items_app, !id_lots_app, view_items_single.
      rewrite !Hzero by (intros x Hx; rewrite elem_of_app; auto).
      rewrite (id_lots_view _ _ _ _ k); [lia|apply Hl|done|].
      intros j Hj. split; [|by intros ->]. intros E. apply (Huniq s key l j); [rewrite Hi, elem_of_app; right; by left|done|done].
    - intros r (key' & l' & j & Hin & Hj & ->)%resting_row; [|done]. cbn. intros E.
      destruct (Huniq _ key' l' j Hin Hj E) as [_ Hs]. by destruct (opposite_ne s). }
  destruct Hok as (_ & _ & _ & n & Hn). by rewrite (has_lots_lots _ _ Hn).
Qed.

(** ** The invariant *)

Definition rows_known b (d : list (string * ManagedOrder)) : Prop :=
  forall s r, r ∈ resting s b -> known d r.1.2 /\ r.1.2 <> ""%string.

Record manager_ok om : Prop := {
  mk_book : book_ok (om_book om);
  mk_uncrossed : uncrossed (om_book om);
  mk_plain : enforce_tick_size (om_book om) = false /\ enforce_lot_size (om_book om) = false;
  mk_rule : rule (om_engine om) = Fifo;
  mk_rows : rows_known (om_book om) (om_orders om);
  mk_table : table_ok (rest_lots (om_book om)) None (om_orders om)
}.

(** A manager in the middle of submitting [id] for [n] lots: [R] of them are not settled. *)
Record submitting om id (n R : Z) : Prop := {
  sb_book : book_ok (om_book om);
  sb_uncrossed : uncrossed (om_book om);
  sb_plain : enforce_tick_size (om_book om) = false /\ enforce_lot_size (om_book om) = false;
  sb_rule : rule (om_engine om) = Fifo;
  sb_rows : rows_known (om_book om) (om_orders om);
  sb_new : dget (orders (om_book om)) id = None /\ id <> ""%string;
  sb_table : table_ok (fun i => if decide (i = id) then R else rest_lots (om_book om) i) (Some id) (om_orders om);
  sb_entry : exists m, dget (om_orders om) id = Some m /\ mo_state m <> REJECTED /\ original_qty m = float_of_int n
}.

Lemma on_managed_some id f om m :
  dget (om_orders om) id = Some m -> on_managed id f om = set_managed (dset (om_orders om) id (f m)) om.
Proof. intros Hd. unfold on_managed. by rewrite Hd. Qed.

Lemma rows_known_mono b d d' : rows_known b d -> (forall i, known d i -> known d' i) -> rows_known b d'.
Proof. intros Hr Hk s r Hin. destruct (Hr s r Hin). split; [by apply Hk|done]. Qed.

(** The entry of the order being submitted, at the end of the submission. *)
Lemma submitted om id n R f om' :
  submitting om id n R -> om_book om' = om_book (on_managed id f om) -> om_engine om' = om_engine (on_managed id f om) ->
  om_orders om' = om_orders (on_managed id f om) ->
  (forall m, dget (om_orders om) id = Some m -> original_qty m = float_of_int n -> accounted m R -> mo_state (f m) <> REJECTED /\ accounted (f m) 0) ->
  manager_ok om'.
Proof.
  intros [B U P Ru Ro [Hn Hne] Ht (m & Hd & Hs & Hor)] Eb Ee Eo Hf.
  destruct (Ht id m Hd Hs) as [Ha _]. rewrite decide_True in Ha by done. destruct (Hf m Hd Hor Ha) as [Hs' Ha'].
  rewrite (on_managed_some _ _ _ _ Hd) in Eb, Ee, Eo. cbn in Eb, Ee, Eo. split; rewrite ?Eb, ?Ee, ?Eo; try done.
  - eapply rows_known_mono; [exact Ro|]. intros i. by apply known_dset.
  - assert (rest_lots (om_book om) id = 0) as Hz by (by apply rest_lots_fresh).
    eapply (table_dset _ _ (Some id)); [exact Ht| |by intros i Hi _ [= ->]|].
    + intros i Hi. cbn. by rewrite decide_False.
    + intros _. rewrite Hz. split; [done|lia].
Qed.

Lemma take_fills_ok now id ts n om R :
  submitting om id n R -> whole_trades ts -> 0 <= lots_of (map trade_row ts) <= R -> R < 2 ^ 53 ->
  let om' := take_fills now id (create_fills ts id (float_of_int R)) om in
  submitting om' id n (R - lots_of (map trade_row ts)) /\ om_book om' = om_book om /\ om_engine om' = om_engine om.
Proof.
  intros Hsub Hts Hl HR. destruct ts as [|t ts]; [cbn; by rewrite Z.sub_0_r|].
  pose proof Hsub as [B U P Ru Ro [Hn Hne] Ht (m & Hd & Hs & Hor)].
  unfold create_fills, take_fills. set (q := lots_of _) in *. set (f := fill_from_trades _ _ _).
  assert (0 < R) as Hpos.
  { apply Forall_cons in Hts as [(k & Hk & E) Hts]. unfold q in Hl. cbn [map] in Hl. rewrite lots_of_cons in Hl. cbn in Hl.
    rewrite E, whole_int in Hl by (apply small_pos; lia). destruct (trades_total ts Hts) as (Hnn & _); [lia|]. lia. }
  destruct (fill_from_trades_spec id R (t :: ts) Hts) as (_ & Eq & _); [lia|fold q; lia|]. fold f q in Eq.
  cbn [fold_left]. rewrite (on_managed_some _ _ _ _ Hd). cbn [om_book om_engine with_stats set_managed]. split; [|done].
  destruct (Ht id m Hd Hs) as [Ha _]. rewrite decide_True in Ha by done.
  destruct (add_fill_accounted now f m R q Ha Eq Hl) as (Ha' & Hst & _).
  assert (mo_state (add_fill now f m) <> REJECTED) as Hs' by (rewrite Hst; by destruct (_ =? _)).
  split; cbn [om_book om_engine om_orders with_stats set_managed]; try done.
  - eapply rows_known_mono; [exact Ro|]. intros i. by apply known_dset.
  - eapply (table_dset _ _ (Some id)); [exact Ht| |done|].
    + intros i Hi. cbn. by rewrite !decide_False.
    + intros _. rewrite decide_True by done. by split.
  - exists (add_fill now f m). rewrite dget_dset_eq. split_and!; done.
Qed.

Lemma trades_of_create ts id q : concat (map trades (create_fills ts id q)) = ts.
Proof. destruct ts as [|t ts]; [done|]. exact (app_nil_r (t :: ts)). Qed.

(** The order [id] is matched: its own fills and those of the makers are booked. *)
Lemma matched_ok clk now om id n s e b ts :
  submitting om id n n -> 0 < n < 2 ^ 53 -> matched s n (om_book om) b ts -> settings b = settings (om_book om) ->
  rule e = Fifo ->
  let om' := take_fills now id (create_fills ts id (float_of_int n)) (handle_trades clk ts (set_match e b om)) in
  submitting om' id n (n - lots_of (map trade_row ts)) /\ om_book om' = b /\ om_engine om' = e.
Proof.
  intros [B U P Ru Ro [Hn Hne] Ht (m & Hd & Hs & Hor)] Hn0 HM Hset He.
  pose proof HM as [MB Mown Mmove Msub Mts Mb]. injection Hset as S1 S2 _ _ _.
  assert (Forall (fun t => known (om_orders om) (maker_order_id t) /\ maker_order_id t <> ""%string /\
    Some id <> Some (maker_order_id t)) ts) as Hmakers.
  { apply Forall_forall. intros t Hin. destruct (Msub (trade_row t)) as [k Hk].
    { rewrite elem_of_app. left. apply list_elem_of_In, in_map. by apply list_elem_of_In. }
    destruct (Ro _ _ Hk) as [Hkn Hid]. cbn in Hkn, Hid. split_and!; [done|done|]. intros [= ->].
    destruct (resting_ids _ _ _ _ B Hk) as [j Hj]. cbn in Hj. by rewrite Hn in Hj. }
  assert (forall i, id_lots i (map trade_row ts) <> 0 -> i <> id) as Hnot.
  { intros i Hi ->. apply Hi, id_lots_none. intros r (t & <- & Hin)%list_elem_of_In%in_map_iff.
    apply list_elem_of_In in Hin. rewrite Forall_forall in Hmakers. destruct (Hmakers t Hin) as (_ & _ & E). cbn. congruence. }
  destruct (handle_trades_ok ts clk (set_match e b om)
    (fun i => if decide (i = id) then n else rest_lots (om_book om) i)
    (fun i => if decide (i = id) then n else rest_lots b i) (Some id)) as (T1 & (C1 & C2 & _) & T3 & T4); try done.
  { intros i. cbn. destruct (decide (i = id)) as [->|Hi].
    - destruct (decide (id_lots id (map trade_row ts) = 0)) as [->|Hz]; [lia|]. by destruct (Hnot id Hz).
    - rewrite !(rest_lots_side s), Mown, Mmove. lia. }
  { intros i. cbn. destruct (decide _); [lia|]. by apply rest_lots_nonneg. }
  set (om1 := handle_trades _ _ _) in *. cbn [set_match om_book om_engine om_orders] in *.
  assert (submitting om1 id n n) as Hsub.
  { split; rewrite ?C1, ?C2.
    - done.
    - by eapply matched_uncrossed.
    - by rewrite S1, S2.
    - done.
    - intros s' r Hr. assert (exists r', r' ∈ resting s' (om_book om) /\ r'.1.2 = r.1.2) as (r' & Hr' & E).
      { destruct (decide (s' = s)) as [->|Hs']; [rewrite Mown in Hr; eauto|]. apply other_side in Hs' as ->.
        destruct (Msub r) as [k Hk]; [rewrite elem_of_app; by right|]. by exists (r.1, k). }
      rewrite <- E. destruct (Ro s' r' Hr'). split; [by apply T3|done].
    - split; [|done]. by apply (matched_fresh s n (om_book om) b ts).
    - done.
    - exists m. rewrite T4; [done|]. intros (t & Et & Hin)%list_elem_of_In%in_map_iff. apply list_elem_of_In in Hin.
      rewrite Forall_forall in Hmakers. destruct (Hmakers t Hin) as (_ & _ & E). congruence. }
  destruct (take_fills_ok now id ts n om1 n Hsub Mts Mb ltac:(lia)) as (F1 & F2 & F3). by rewrite F2, F3, C1, C2.
Qed.

(** ** Submission *)

Lemma add_settings o b b' pos : add_limit_order o b = Ok (b', pos) -> settings b' = settings b.
Proof.
  unfold add_limit_order. destruct (not_positive _); [done|]. destruct (_ && _); [done|]. destruct (bool_decide _); [done|].
  destruct (effective_price _ _) as [p|]; [|done]. destruct (level_add _ _ _) as [[h l] q]. intros [= <- _].
  by destruct (side (price_order p o)).
Qed.

Lemma market_ok clk id o n om :
  submitting om id n n -> has_lots o n -> order_id o = id ->
  no_self_trade (om_engine om) (participant_id o) (opposite (side o)) (om_book om) ->
  manager_ok (execute_market clk id o om).
Proof.
  intros Hsub [Hn0 Hrem] Hid Hs. unfold execute_market. rewrite Hrem, Hid.
  pose proof (market_matched (trade_clock clk) (side o) (Some id) (participant_id o) n (om_engine om) (om_book om)
    (sb_book _ _ _ _ Hsub) Hn0 (sb_rule _ _ _ _ Hsub) Hs) as HM.
  destruct (match_market_order _ _ _ _ _ _ _) as [[e b] r]. destruct HM as (ts & HM & Hset & [He _] & Hf & Htot & Hc).
  rewrite (sb_rule _ _ _ _ Hsub) in He. cbn [default] in Hf. unfold trades_of. rewrite Hf, trades_of_create.
  pose proof (mt_bounds _ _ _ _ _ HM) as HL.
  destruct (matched_ok clk (clk (4 * List.length ts)%nat) om id n (side o) e b ts Hsub Hn0 HM Hset He) as (Hsub' & _ & _).
  set (om1 := take_fills _ _ _ _) in *. rewrite Hc. set (L := lots_of _) in *.
  destruct (Z.eqb_spec L n) as [E|E].
  - apply (submitted om1 id n (n - L) (set_state FILLED)); try done. intros m _ _ Ha. split; [done|].
    by rewrite E, Z.sub_diag in Ha.
  - destruct (sb_entry _ _ _ _ Hsub') as (m & Hd & _ & Hor). rewrite Hd, Hor, Htot, fsub_int by (apply small_pos; lia).
    apply (submitted om1 id n (n - L) (fun m => set_state FILLED (set_cancelled (float_of_int (n - L)) m))); try done.
    intros m' _ _ Ha. split; [done|]. apply accounted_state, accounted_cancel; [done|lia].
Qed.

Lemma rest_ok now id rest n R om :
  submitting om id n R -> has_lots rest R -> order_id rest = id -> is_num (price rest) = true ->
  (forall r, r ∈ resting (opposite (side rest)) (om_book om) -> within_limit (side rest) (price rest) r.1.1 = false) ->
  let '(om', res) := rest_in_book now id rest om in res = Ok tt /\ manager_ok om'.
Proof.
  intros [B U [P1 P2] Ru Ro [Hn Hne] Ht (m & Hd & Hs & Hor)] HR Hid Hp Hout. rewrite <- Hid in Hn.
  destruct (add_uncrossed (om_book om) rest R B U HR Hp P1 P2 Hn Hout) as (b & pos & Hadd & Hb & Hu).
  destruct (order_rests (om_book om) rest R (price rest) B HR) as (b' & pos' & before & after & p' & Hadd' & _ & Hr & Hr' & _ & _ & _ & _ & Hopp);
    [unfold effective_price; by rewrite P1|done|done|by rewrite P2|].
  rewrite Hadd in Hadd'. injection Hadd' as <- <-. rewrite Hid in Hr'. clear Hn.
  unfold rest_in_book. rewrite Hadd. split; [done|].
  set (f := fun m : ManagedOrder => set_state _ (set_ref _ m)).
  assert (enforce_tick_size b = enforce_tick_size (om_book om) /\ enforce_lot_size b = enforce_lot_size (om_book om)) as [S1 S2].
  { apply add_settings in Hadd. by injection Hadd. }
  rewrite (on_managed_some id f (set_book b om) m Hd).
  assert (mo_state (f m) <> REJECTED) as Hs' by (cbn; by destruct (positive _)).
  assert (forall i, rest_lots b i = (if decide (i = id) then R else 0) + rest_lots (om_book om) i) as Hlots.
  { intros i. rewrite !(rest_lots_side (side rest)), Hopp, Hr, Hr', !id_lots_app, id_lots_cons. cbn [fst snd].
    change (id_lots i []) with 0. destruct (decide (i = id)) as [->|Hi]; [rewrite bool_decide_true by done; lia|].
    rewrite bool_decide_false by congruence. lia. }
  destruct (Ht id m Hd Hs) as [Ha _]. rewrite decide_True in Ha by done.
  assert (rest_lots (om_book om) id = 0) as Hz.
  { apply rest_lots_fresh; [done|]. destruct (dget (orders (om_book om)) id) as [x|] eqn:E; [|done].
    unfold add_limit_order in Hadd. rewrite Hid, E in Hadd. destruct (not_positive _); [done|]. by destruct (_ && _). }
  split; cbn [om_book om_engine om_orders set_tracker with_stats set_managed set_book set_match]; try done.
  - by rewrite S1, S2.
  - intros s r Hin.
    assert ((exists r', r' ∈ resting s (om_book om) /\ r'.1.2 = r.1.2) \/ r.1.2 = id) as [(r' & Hin' & <-)| ->].
    { destruct (decide (s = side rest)) as [->|Hsd].
      - rewrite Hr', !elem_of_app, list_elem_of_singleton in Hin. rewrite Hr.
        destruct Hin as [Hin|[->|Hin]]; [left; exists r; by rewrite elem_of_app; auto|by right|left; exists r; by rewrite elem_of_app; auto].
      - apply other_side in Hsd as ->. rewrite Hopp in Hin. left. eauto. }
    + destruct (Ro _ _ Hin'). split; [by apply known_dset|done].
    + split; [|done]. exists (f m). by rewrite dget_dset_eq.
  - eapply (table_dset _ _ (Some id)); [exact Ht| |by intros i Hi _ [= ->]|].
    + intros i Hi. cbn. rewrite Hlots, !decide_False by done. lia.
    + intros _. rewrite Hlots, decide_True, Hz, Z.add_0_r by done. split; [done|]. intros _ _. unfold is_active. cbn.
      by destruct (positive _).
Qed.

Lemma limit_ok clk id o n tif om :
  submitting om id n n -> has_lots o n -> order_id o = id -> is_num (price o) = true ->
  no_self_trade (om_engine om) (participant_id o) (opposite (side o)) (om_book om) ->
  let '(om', res) := execute_limit clk id o tif om in res = Ok tt /\ manager_ok om'.
Proof.
  intros Hsub Hn Hid Hp Hs. pose proof Hn as [Hn0 Hrem]. unfold execute_limit.
  destruct (bool_decide (tif = FOK) && negb _).
  { split; [done|]. apply (submitted om id n n (fun m => set_state CANCELLED (set_cancelled (original_qty m) m))); try done.
    intros m _ Hor Ha. split; [done|]. apply accounted_state. rewrite Hor. apply accounted_cancel; [done|lia]. }
  pose proof (limit_matched (trade_clock clk) o n (om_engine om) (om_book om)
    (sb_book _ _ _ _ Hsub) (sb_rule _ _ _ _ Hsub) Hs Hn Hp) as HM.
  destruct (match_limit_order _ _ _ _) as [[e b] r]. destruct HM as (ts & HM & Hset & [He _] & Hf & _ & Hrest).
  rewrite (sb_rule _ _ _ _ Hsub) in He. rewrite Hid in Hf. unfold trades_of. rewrite Hf, trades_of_create.
  pose proof (mt_bounds _ _ _ _ _ HM) as HL.
  destruct (matched_ok clk (clk (4 * List.length ts)%nat) om id n (side o) e b ts Hsub Hn0 HM Hset He) as (Hsub' & Eb & _).
  set (om1 := take_fills _ _ _ _) in *. cbv zeta in Hrest. set (L := lots_of _) in *.
  destruct (resting_order r) as [rest|].
  - destruct Hrest as (Hl & Ei & Ep & Es & Hout). pose proof Hl as [Hl0 El].
    rewrite El, positive_int, (proj2 (Z.ltb_lt 0 (n - L))) by lia. destruct (bool_decide (tif = IOC)).
    + split; [done|].
      apply (submitted om1 id n (n - L) (fun m => set_state CANCELLED (set_cancelled (float_of_int (n - L)) m))); try done.
      intros m _ _ Ha. split; [done|]. apply accounted_state, accounted_cancel; [done|lia].
    + apply (rest_ok _ id rest n (n - L)); rewrite ?Ep, ?Es, ?Eb; try done. by rewrite Ei.
  - split; [done|]. apply (submitted om1 id n (n - L) (set_state FILLED)); try done. intros m _ _ Ha. split; [done|].
    by rewrite Hrest in Ha.
Qed.

(** What a submission must keep to: an id that is not in use, a whole quantity, a price
    that is a number once it is rounded, and no self-trade to prevent. *)
Definition fresh_submission (client : option string) (internal : string) (price qty : pyfloat)
    (participant : option string) om : Prop :=
  let id := or_string client internal in
  id <> ""%string /\ dget (om_orders om) id = None /\ (exists n, 0 <= n < 2 ^ 53 /\ qty = float_of_int n) /\
  (forall p, round_price price om = Ok p -> is_num p = true) /\
  (enable_stp (om_engine om) = false \/ truthy participant = false /\ truthy (om_participant om) = false).

Lemma entry_fresh om id : manager_ok om -> dget (om_orders om) id = None -> dget (orders (om_book om)) id = None.
Proof.
  intros [B _ _ _ Ro _] Hd. destruct (dget (orders (om_book om)) id) as [[k s]|] eqn:E; [|done].
  destruct (index_row _ _ _ _ B E) as (r & Hr & <-). destruct (Ro s r Hr) as [(m & Hm & _) _]. by rewrite Hd in Hm.
Qed.

Lemma rejected_ok clk internal id s p q om :
  manager_ok om -> dget (om_orders om) id = None -> manager_ok (create_rejected_order clk internal id s p q om).
Proof.
  intros [B U P Ru Ro Ht] Hd. unfold create_rejected_order. split; try done; cbn [om_book om_orders with_stats set_managed].
  - intros s' r Hr. destruct (Ro s' r Hr) as [(m & Hm & Hs) Hne]. split; [|done]. exists m. split; [|done].
    rewrite dget_dset_ne; [done|]. intros E. by rewrite E, Hd in Hm.
  - eapply (table_dset _ _ None); [exact Ht|done|done|]. by intros Hs.
Qed.

Lemma submitting_new om id s p n t tif client own who tags internal now created :
  manager_ok om -> dget (om_orders om) id = None -> id <> ""%string -> 0 < n < 2 ^ 53 ->
  let o := new_order id p (float_of_int n) (float_of_int n) now s fzero fzero own t who in
  let m := new_managed created o PENDING (float_of_int n) tif client internal tags in
  submitting (set_managed (dset (om_orders om) id m) om) id n n.
Proof.
  intros Hom Hd Hne Hn o m. pose proof (entry_fresh om id Hom Hd) as Hid. destruct Hom as [B U P Ru Ro Ht].
  assert (original_qty m = float_of_int n) as Hor.
  { unfold m, new_managed. cbn [original_qty]. change fzero with (float_of_int 0).
    rewrite feqb_int, (proj2 (Z.eqb_neq n 0)) by (apply small_pos || lia; lia). done. }
  split; try done; cbn [om_book om_orders set_managed].
  - eapply rows_known_mono; [exact Ro|]. intros i. by apply known_dset.
  - eapply (table_dset (rest_lots (om_book om)) _ None); [exact Ht|intros i Hi; cbn; by rewrite decide_False|done|].
    intros _. rewrite decide_True by done. split; [|by intros _ []]. exists n, 0, 0. split_and!; try done; lia.
  - exists m. by rewrite dget_dset_eq.
Qed.

Lemma quiet_no_self_trade m participant s b :
  enable_stp m && truthy participant = false -> no_self_trade m participant s b.
Proof. intros E. apply Forall_forall. intros k _. unfold stp_of. by rewrite E. Qed.

Lemma submitting_ext om om' id n R :
  submitting om id n R -> om_book om' = om_book om -> om_engine om' = om_engine om -> om_orders om' = om_orders om ->
  submitting om' id n R.
Proof. intros [S1 S2 S3 S4 S5 S6 S7 S8] E1 E2 E3. by split; rewrite ?E1, ?E2, ?E3. Qed.

Lemma submit_ok clk internal rejected s price qty t tif client own participant tags om :
  manager_ok om -> fresh_submission client internal price qty participant om ->
  manager_ok (submit_order clk internal rejected s price qty t tif client own participant tags om).1.
Proof.
  intros Hom (Hne & Hd & (n & Hn & ->) & Hnum & Hstp). unfold submit_order, validate_order.
  set (id := or_string client internal) in *. rewrite not_positive_int by lia.
  destruct (Z.eqb_spec n 0) as [->|Hn0]; [by apply rejected_ok|].
  destruct (_ && not_positive price); [by apply rejected_ok|]. destruct (feqb (om_lot om) fzero); [done|].
  destruct (round_price price om) as [p|] eqn:Ep; [|done]. specialize (Hnum p eq_refl).
  set (who := if truthy participant then participant else om_participant om).
  assert (enable_stp (om_engine om) && truthy who = false) as Hwho.
  { destruct Hstp as [->|[H1 H2]]; [done|]. unfold who. rewrite H1, H2. apply andb_false_r. }
  pose proof (submitting_new om id s p n t tif client own who tags internal (clk 0%nat) (clk 1%nat) Hom Hd Hne ltac:(lia)) as Hsub.
  cbv zeta in Hsub. set (o := new_order _ _ _ _ _ _ _ _ _ _ _) in *. set (m := new_managed _ _ _ _ _ _ _ _) in *.
  cbn [fst snd]. set (om1 := with_stats _ _).
  assert (submitting om1 id n n) as Hsub1.
  { apply (submitting_ext _ om1 _ _ _ Hsub); unfold om1; destruct client as [c|]; try done; by destruct (truthy _ && _). }
  assert (om_engine om1 = om_engine om) as Ee.
  { unfold om1. destruct client as [c|]; [|done]. by destruct (truthy _ && _). }
  unfold o, new_order in *. set (o0 := MkOrder _ _ _ _ _ _ _ _ _ _ _ _ _) in *.
  destruct (post_init_fields o0) as (P1 & P2 & P3 & P4). pose proof (post_init_participant o0) as P5.
  assert (has_lots (post_init o0) n) as Hl by (split; [lia|by rewrite P4]).
  assert (no_self_trade (om_engine om1) (participant_id (post_init o0)) (opposite (side (post_init o0))) (om_book om1)) as Hs.
  { apply quiet_no_self_trade. by rewrite Ee, P5. }
  destruct (bool_decide (t = MARKET)).
  - by apply (market_ok _ id _ n).
  - pose proof (limit_ok (fun i => clk (2 + i)%nat) id (post_init o0) n tif om1 Hsub1 Hl P1) as HL.
    rewrite P2 in HL. specialize (HL Hnum Hs). destruct (execute_limit _ _ _ _ _) as [om' res]. by destruct HL as [_ ?].
Qed.

(** ** Cancelling *)

Lemma cancel_settings id b : settings (Lob.cancel_order id b).1 = settings b.
Proof.
  unfold cancel_order. destruct (dget _ _) as [[k s]|]; [|done]. destruct (sd_get _ _) as [l|]; [|done].
  destruct (level_remove _ _ _) as [[h l'] [k'|]]; cbn [fst]; by destruct s.
Qed.

(** Cancelling in the book takes the order out of what rests. *)
Lemma cancel_book b id k s :
  book_ok b -> uncrossed b -> dget (orders b) id = Some (k, s) ->
  let '(b', r) := Lob.cancel_order id b in
  r = Some k /\ book_ok b' /\ uncrossed b' /\ settings b' = settings b /\ remaining_qty (ob_heap b' !!! k) = float_of_int (rest_lots b id) /\
  0 < rest_lots b id < 2 ^ 53 /\ rest_lots b' id = 0 /\ (forall i, i <> id -> rest_lots b' i = rest_lots b i) /\
  (forall s' r, r ∈ resting s' b' -> r ∈ resting s' b).
Proof.
  intros Hb Hu Hd. pose proof (cancel_spec b id k s Hb Hd) as Hc. pose proof (cancel_rows b id k s Hb Hd) as Hr.
  pose proof (cancel_settings id b) as Hset. destruct (Lob.cancel_order id b) as [b' r]. cbn [fst] in *.
  destruct Hc as (-> & Hb' & _), Hr as (R1 & R2 & R3). destruct (rest_lots_found b id k s Hb Hd) as [Hn0 Hrem].
  assert (forall s' r, r ∈ resting s' b' -> r ∈ resting s' b) as Hsub.
  { intros s' r Hr. destruct (decide (s' = s)) as [->|Hne].
    - rewrite R1 in Hr. apply list_elem_of_In, filter_In in Hr as [Hr _]. by apply list_elem_of_In.
    - apply other_side in Hne as ->. by rewrite R2 in Hr. }
  assert (forall i q, i <> id -> id_lots i (List.filter (fun r => negb (bool_decide (r.1.2 = id))) q) = id_lots i q) as Hkeep.
  { intros i q Hi. induction q as [|[[p j] m] q IH]; [done|]. cbn [List.filter fst snd].
    destruct (decide (j = id)) as [->|Hj].
    - rewrite bool_decide_true by done. cbn [negb]. rewrite IH, id_lots_cons, bool_decide_false by (cbn; congruence). done.
    - rewrite (bool_decide_false (j = id)) by done. cbn [negb]. by rewrite !id_lots_cons, IH. }
  split_and!; try done; try lia.
  - intros s' r r' H1 H2. apply Hu; by apply Hsub.
  - by rewrite R3.
  - rewrite (rest_lots_side s), R1, R2. rewrite !id_lots_none; [done| |].
    + intros r Hr E. destruct (resting_ids _ _ _ _ Hb Hr) as [j Hj]. rewrite E, Hd in Hj. injection Hj as _ Hj.
      by destruct (opposite_ne s).
    + intros r Hr. apply list_elem_of_In, filter_In in Hr as [_ Hr]. by apply negb_true_iff, bool_decide_eq_false in Hr.
  - intros i Hi. by rewrite !(rest_lots_side s), R1, R2, Hkeep.
Qed.

Lemma cancel_ok id om : manager_ok om -> manager_ok (cancel_managed id om).1.
Proof.
  intros Hom. pose proof Hom as [B U [P1 P2] Ru Ro Ht]. unfold cancel_managed.
  destruct (dget (om_orders om) id) as [m|] eqn:Hd; [|done]. destruct (is_active m) eqn:Hact; cbn [negb]; [|done].
  assert (mo_state m <> REJECTED) as Hs by (intros E; unfold is_active in Hact; rewrite E in Hact; by vm_compute in Hact).
  destruct (Ht id m Hd Hs) as [Ha _].
  set (f := fun m : ManagedOrder => set_state _ m).
  assert (forall m, mo_state (f m) <> REJECTED) as Hf by (intros m'; cbn; by destruct (positive _)).
  destruct (dget (orders (om_book om)) id) as [[k s]|] eqn:Hk.
  - pose proof (cancel_book (om_book om) id k s B U Hk) as Hc. destruct (Lob.cancel_order id (om_book om)) as [b r].
    destruct Hc as (-> & B' & U' & Hset & Hq & Hn & Hz & Hkeep & Hsub). injection Hset as S1 S2 _ _ _.
    rewrite Hq. set (q := float_of_int _). cbn [fst].
    rewrite (on_managed_some id (set_cancelled q) (set_book b om) m Hd).
    rewrite (on_managed_some id f _ (set_cancelled q m)) by (cbn; by rewrite dget_dset_eq).
    split; cbn [om_book om_engine om_orders with_stats set_managed set_book set_match set_tracker]; try done.
    + by rewrite S1, S2.
    + intros s' r Hr. destruct (Ro s' r (Hsub _ _ Hr)). split; [|done]. apply known_dset; [apply Hf|]. by apply known_dset.
    + assert (table_ok (rest_lots b) None (dset (om_orders om) id (set_cancelled q m))) as Ht'.
      { eapply (table_dset _ _ None); [exact Ht|done|done|]. intros _. rewrite Hz. split; [|lia].
        apply accounted_cancel; [done|lia]. }
      eapply (table_dset _ _ None); [exact Ht'|done|done|]. intros _. rewrite Hz. split; [|lia].
      apply accounted_state, accounted_cancel; [done|lia].
  - assert (Lob.cancel_order id (om_book om) = (om_book om, None)) as -> by (unfold cancel_order; by rewrite Hk).
    cbn [fst]. rewrite (on_managed_some id f (set_book (om_book om) om) m Hd).
    split; cbn [om_book om_engine om_orders with_stats set_managed set_book set_match set_tracker]; try done.
    + eapply rows_known_mono; [exact Ro|]. intros i. by apply known_dset.
    + eapply (table_dset _ _ None); [exact Ht|done|done|]. intros _. rewrite (rest_lots_fresh _ _ B Hk) in *. split; [done|lia].
Qed.

Lemma cancel_all_ok s om : manager_ok om -> manager_ok (cancel_all_orders s om).1.
Proof.
  unfold cancel_all_orders. generalize (om_orders om).*1 as ids. intros ids. generalize 0 as c. revert om.
  induction ids as [|id ids IH]; intros om c Hom; [done|]. cbn [fold_left].
  destruct (dget (om_orders om) id) as [m|]; [|by apply IH]. destruct (is_active m && _); [|by apply IH].
  pose proof (cancel_ok id om Hom) as Hc. destruct (cancel_managed id om) as [om' ok]. by apply IH.
Qed.
End Manager.

(** ** Runs *)

Inductive Operation :=
  | Submit (clk : nat -> Z) (internal rejected : string) (s : Side) (price qty : pyfloat) (t : OrderType)
      (tif : TimeInForce) (client : option string) (own : bool) (participant : option string) (tags : list (string * string))
  | Cancel (id : string)
  | CancelAll (s : option Side).

Definition run_one `{SortedDict} (om : OrderManager) (op : Operation) : OrderManager :=
  match op with
  | Submit clk internal rejected s price qty t tif client own participant tags =>
      (submit_order clk internal rejected s price qty t tif client own participant tags om).1
  | Cancel id => (cancel_managed id om).1
  | CancelAll s => (cancel_all_orders s om).1
  end.

Definition run_ops `{SortedDict} (ops : list Operation) (om : OrderManager) : OrderManager := fold_left run_one ops om.

(** Every submission of the run is as it must be when its turn comes. *)
Fixpoint admissible `{SortedDict} (ops : list Operation) (om : OrderManager) : Prop :=
  match ops with
  | [] => True
  | op :: r =>
      match op with
      | Submit _ internal _ _ price qty _ _ client _ participant _ => fresh_submission client internal price qty participant om
      | _ => True
      end /\ admissible r (run_one om op)
  end.

Lemma new_manager_ok `{SortedDictLaws} symbol tick lot enable a participant :
  manager_ok (create_order_manager symbol tick lot enable a participant).
Proof.
  pose proof (new_book_ok symbol tick lot false false true) as Hb. unfold create_order_manager. set (b := new_book _ _ _ _ _ _) in *.
  assert (forall s, resting s b = []) as Hnil.
  { intros s. unfold resting. assert (sd_items (levels s b) = []) as -> by (destruct s; apply sd_empty_items). done. }
  split; try done; cbn [om_book om_orders].
  - intros s r r' Hr. rewrite Hnil in Hr. by apply elem_of_nil in Hr.
  - intros s r Hr. rewrite Hnil in Hr. by apply elem_of_nil in Hr.
Qed.

Lemma manager_run_ok `{SortedDictLaws} ops : forall om, manager_ok om -> admissible ops om -> manager_ok (run_ops ops om).
Proof.
  induction ops as [|op ops IH]; intros om Hom Ha; [done|]. destruct Ha as [Hop Ha]. cbn [run_ops fold_left].
  apply IH; [|done]. destruct op; [by apply submit_ok|by apply cancel_ok|by apply cancel_all_ok].
Qed.

(** C33: The manager accounts for every order.  Orders are submitted with an id that the
    manager does not know yet, a whole number of lots below [2 ^ 53] and a price that rounds
    to a number, and self-trade prevention does not act on them ([admissible]; a repeated id and the prevention break
    the account: [duplicate_replaces_resting], [cancel_newest_trades_on]).  Whatever market
    and limit orders of any kind and time in force are then submitted, as maker or taker,
    in any order, and cancelled: of every order that was not rejected, the quantity asked for is what was filled, what
    was cancelled and what rests in the book under its id; as long as something rests the
    order is active and can be cancelled; everything that rests is of a managed order;
    the book keeps its invariant and is never crossed. *)
Theorem manager_accounts_for_every_order `{SortedDictLaws} ops symbol tick lot enable a participant :
  let om0 := create_order_manager symbol tick lot enable a participant in
  admissible ops om0 ->
  let om := run_ops ops om0 in
  let b := om_book om in
  book_ok b /\ is_crossed b = false /\
  (forall s r, r ∈ resting s b -> exists m, get_managed r.1.2 om = Some m /\ mo_state m <> REJECTED) /\
  (forall id m, get_managed id om = Some m -> mo_state m <> REJECTED ->
     exists asked filled cancelled,
       original_qty m = float_of_int asked /\ filled_qty m = float_of_int filled /\
       cancelled_qty m = float_of_int cancelled /\ 0 <= filled /\ 0 <= cancelled /\
       asked = filled + cancelled + rest_lots b id /\ mo_remaining m = float_of_int (rest_lots b id) /\
       (0 < rest_lots b id -> is_active m = true /\ cancelled = 0)).
Proof.
  intros om0 Ha om b. destruct (manager_run_ok ops om0 (new_manager_ok _ _ _ _ _ _) Ha) as [B U _ _ Ro Ht].
  split; [done|]. split; [by apply is_crossed_rows|]. split; [intros s r Hr; by destruct (Ro s r Hr) as [? _]|].
  intros id m Hd Hs. destruct (Ht id m Hd Hs) as [Hacc Hact]. pose proof (accounted_remaining _ _ Hacc) as Hrem.
  destruct Hacc as (o & f & c & E1 & E2 & E3 & Hf & Hc & Hr & Ho & Hb & Hz).
  exists o, f, c. split_and!; try done. intros Hp. split; [by apply Hact|by apply Hz].
Qed.

(** ** Concrete runs *)

Section Runs.
Existing Instance list_sorted_dict.

Abbreviation zero_clock := (fun _ : nat => 0).

Definition order_op (id : string) (s : Side) (p n : Z) (tif : TimeInForce) : Operation :=
  Submit zero_clock id "r" s (float_of_int p) (float_of_int n) LIMIT tif None true None [].

Definition market_op (id : string) (s : Side) (n : Z) : Operation :=
  Submit zero_clock id "r" s fzero (float_of_int n) MARKET DAY None true None [].

Definition manager0 : OrderManager :=
  create_order_manager "X" (float_of_int 1) (float_of_int 1) true CANCEL_NEWEST None.

Definition run (ops : list Operation) : OrderManager := run_ops ops manager0.

(** Asked, filled, cancelled and the state of an order. *)
Definition account (id : string) (om : OrderManager) : option (option Z * option Z * option Z * OrderLifecycleState) :=
  (fun m => (float_to_int (original_qty m), float_to_int (filled_qty m), float_to_int (cancelled_qty m), mo_state m)) <$>
    get_managed id om.

(** Two orders rest, a third takes one and a half of them, then the rest is cancelled. *)
Definition some_ops : list Operation :=
  [order_op "a1" SELL 101 5 DAY; order_op "a2" SELL 102 5 DAY; order_op "b1" BUY 102 7 IOC; market_op "b2" BUY 1;
   Cancel "a2"].

Example some_run :
  account "a1" (run some_ops) = Some (Some 5, Some 5, Some 0, FILLED) /\
  account "a2" (run some_ops) = Some (Some 5, Some 3, Some 2, PARTIALLY_FILLED) /\
  account "b1" (run some_ops) = Some (Some 7, Some 7, Some 0, FILLED) /\
  account "b2" (run some_ops) = Some (Some 1, Some 1, Some 0, FILLED).
Proof. by vm_compute. Qed.

Lemma fresh_order om id p n :
  id <> ""%string -> dget (om_orders om) id = None -> 0 <= n < 2 ^ 53 -> om_tick om = float_of_int 1 ->
  p = 0 \/ p = 101 \/ p = 102 -> om_participant om = None ->
  fresh_submission None id (float_of_int p) (float_of_int n) None om.
Proof.
  intros Hid Hd Hn Ht Hp Hwho. split; [exact Hid|]. split; [exact Hd|]. split; [by exists n|]. split; [|right; by rewrite Hwho].
  intros q. unfold round_price. rewrite Ht. destruct Hp as [->|[->| ->]]; vm_compute; by intros [= <-].
Qed.

Lemma some_ops_admissible : admissible some_ops manager0.
Proof.
  split; [apply fresh_order; [discriminate|vm_compute; reflexivity|lia|vm_compute; reflexivity|lia|vm_compute; reflexivity]|].
  split; [apply fresh_order; [discriminate|vm_compute; reflexivity|lia|vm_compute; reflexivity|lia|vm_compute; reflexivity]|].
  split; [apply fresh_order; [discriminate|vm_compute; reflexivity|lia|vm_compute; reflexivity|lia|vm_compute; reflexivity]|].
  split; [apply (fresh_order _ "b2" 0 1); [discriminate|vm_compute; reflexivity|lia|vm_compute; reflexivity|lia|vm_compute; reflexivity]|].
  split; [exact I|exact I].
Qed.

Lemma manager_accounts_for_every_order_witness :
  let om := run_ops some_ops manager0 in
  let b := om_book om in
  book_ok b /\ is_crossed b = false /\
  (forall s r, r ∈ resting s b -> exists m, get_managed r.1.2 om = Some m /\ mo_state m <> REJECTED) /\
  (forall id m, get_managed id om = Some m -> mo_state m <> REJECTED ->
     exists asked filled cancelled,
       original_qty m = float_of_int asked /\ filled_qty m = float_of_int filled /\
       cancelled_qty m = float_of_int cancelled /\ 0 <= filled /\ 0 <= cancelled /\
       asked = filled + cancelled + rest_lots b id /\ mo_remaining m = float_of_int (rest_lots b id) /\
       (0 < rest_lots b id -> is_active m = true /\ cancelled = 0)).
Proof.
  exact (manager_accounts_for_every_order some_ops "X" (float_of_int 1) (float_of_int 1) true CANCEL_NEWEST None
    some_ops_admissible).
Defined.

(** A fill-or-kill order trusts the totals of the levels, which a partial fill leaves too
    high: six lots of ten are filled and the rest goes to the book. *)
Example fill_or_kill_rests :
  let om := run [order_op "a1" SELL 101 10 DAY; market_op "b1" BUY 4; order_op "b2" BUY 101 10 FOK] in
  account "b2" om = Some (Some 10, Some 6, Some 0, PARTIALLY_FILLED) /\ rest_lots (om_book om) "b2" = 4.
Proof. by vm_compute. Qed.

(** An order that was filled in part is still active once it is cancelled: it is
    cancelled again, and the number of active orders falls below zero. *)
Example cancelled_stays_active :
  let om := run [order_op "a1" SELL 101 10 DAY; market_op "b1" BUY 4; Cancel "a1"; Cancel "a1"] in
  account "a1" om = Some (Some 10, Some 4, Some 6, PARTIALLY_FILLED) /\
  (is_active <$> get_managed "a1" om) = Some true /\
  active_orders (om_stats om) = -1 /\ cancelled_count (om_stats om) = 2.
Proof. by vm_compute. Qed.

(** A second order under an id that rests is refused by the book after the manager has
    replaced the first one, which rests on and can no longer be cancelled. *)
Example duplicate_replaces_resting :
  let om := run [order_op "a1" SELL 101 10 DAY; order_op "a1" SELL 105 3 DAY] in
  account "a1" om = Some (Some 3, Some 0, Some 0, PENDING) /\ rest_lots (om_book om) "a1" = 10 /\
  (cancel_managed "a1" om).2 = false.
Proof. by vm_compute. Qed.

(** A market order that finds nothing is reported as filled. *)
Example nothing_is_filled :
  account "b1" (run [market_op "b1" BUY 5]) = Some (Some 5, Some 0, Some 5, FILLED).
Proof. by vm_compute. Qed.

(** A new price is not matched: the order rests beyond the other side. *)
Example modified_price_crosses :
  let om := run [order_op "a1" SELL 105 5 DAY; order_op "b1" BUY 100 5 DAY] in
  let om' := (modify_managed 0 0 0 "b1" None (Some (float_of_int 110)) om).1 in
  is_crossed (om_book om') = true /\
  (float_to_int ∘ qs_price) <$> get_state "b1" (om_tracker om') = Some (Some 100).
Proof. by vm_compute. Qed.

(** A new quantity is not the managed order's: its remaining quantity is off. *)
Example modified_quantity_not_managed :
  let om := run [order_op "a1" SELL 105 5 DAY] in
  let om' := (modify_managed 0 0 0 "a1" (Some (float_of_int 2)) None om).1 in
  rest_lots (om_book om') "a1" = 2 /\ (float_to_int ∘ mo_remaining) <$> get_managed "a1" om' = Some (Some 5).
Proof. by vm_compute. Qed.
End Runs.
